(* ===== verification/_CoqProject ===== *)
-Q . S2P
Prelude.v
GoString.v
GoTime.v
GoJson.v
GoJsonParse.v
GoJsonProofs.v
GoFloat.v
Sha256.v
Http.v
Signature.v
SessionKey.v
Models.v
GoAny.v
Whatsapp.v
WhatsappDelivery.v
Slack.v
SlackDelivery.v
Broker.v
RabbitMq.v
Limiter.v
Registry.v
Dedup.v
Repo.v
Guard.v
Sqlite.v
Config.v
Mqtt.v
SqliteProofs.v
Cache.v
Resolver.v
Collect.v
Router.v
Webhook.v
Dispatcher.v
Queue.v
Register.v
HealthMon.v
Scheduler.v
AgentApi.v
JobTools.v
Management.v
AgentRegister.v
AgentText.v
ToolDedup.v
Usage.v
SessionTypes.v
SessionText.v
Oidc.v
SessionFs.v
SessionLock.v
SessionStore.v
Compaction.v
SessionIndex.v
GoRegexp.v
Formatting.v
ConfigLoad.v
CronAdapter.v
AgentConfig.v
WebTools.v
DocFetch.v
Mcp.v
Admin.v
AdminProofs.v
ConfigDump.v
Sandbox.v
Profile.v
Convert.v
Enrich.v
Skills.v
ToolMatch.v
SkillExec.v
Bash.v
SecurityAudit.v
Lifecycle.v
Prompt.v
EventPublisher.v
Commands.v
Agent.v
AgentProofs.v
AgentTurn.v
