(* ===== verification/Prelude.v ===== *)
(** * open-nipper: verification library

    open-nipper is a gateway between messaging channels (WhatsApp, Slack, MQTT,
    RabbitMQ, cron) and per-user AI agents.  An inbound message is normalized
    by a channel adapter, admitted and routed by the gateway, and published to
    the agent's queue in RabbitMQ; the agent, which keeps the conversation in
    session files, asks a language model that may use tools, and answers with
    events that the gateway delivers to the channel the message came from.

    ** The parts and how they interact

    Go code is translated by hand into Gallina: structs are records, methods
    are functions that pass the receiver's state, errors are values.  Every
    definition that models code keeps the name of the function it models, with
    a prefix where two packages use one name.  Paths are below src/internal
    unless they start with pkg.

    What the program uses of Go and of its standard library:
    - Prelude: fallible calls ([result]), a state monad, int64 arithmetic;
      GoString, GoTime, GoFloat: strings as bytes with their UTF-8 decoding, the
      text of times and of numbers; GoJson, GoJsonParse, GoJsonProofs, GoAny:
      JSON written, parsed, decoded into structs and into values of any type,
      and that what is written is read back; Sha256; GoRegexp: regular
      expressions with their parser and matcher, and that the matcher decides
      the language ([GoRegexp.MatchString_spec]); Http: requests and responses.

    The data and what is kept:
    - SessionKey (pkg/session/key.go): the names under which all other parts
      file a conversation.  Models (models): the data.
    - Repo (datastore/interface.go): the interface to the data store, a type
      class with its laws as an abstract specification.  Sqlite and
      SqliteProofs (datastore/sqlite) implement it by tables of rows; Cache
      (datastore/cache.go) implements it on top of any other.
    - SessionTypes, SessionText, SessionFs, SessionLock, SessionStore,
      Compaction, SessionIndex (pkg/session): the files of the sessions.
      SessionFs models the operating system calls the package makes; the
      operations of the other files are programs of such calls, which can be
      run to the end, stopped at any call (a crash) or interleaved.
    - Config, ConfigLoad, ConfigDump, AgentConfig (config, agent/secrets): the
      configuration of the gateway and of the agent, from the decoded file to
      the checked record with its placeholders resolved, and the templates;
      AgentConfig also has what is made of it, the agent's own tools under the
      policy of the gateway and the client of the model.

    The channels:
    - Whatsapp and WhatsappDelivery, Slack and SlackDelivery, Mqtt, RabbitMq
      (channels), Signature (the signatures of webhooks), Formatting
      (formatting/whatsapp.go): a payload becomes a message, a response becomes
      the calls that deliver it.  Scheduler and CronAdapter (channels/cron):
      jobs that enter the pipeline as messages.

    The gateway:
    - Limiter (ratelimit), Registry, Dedup, Resolver, HealthMon (gateway):
      stateful helpers, each a record of its maps and one function per method;
      Guard (allowlist/guard.go) is written and proved against Repo.
    - Webhook (gateway/webhook.go) receives requests and hands them to Router
      (gateway/router.go), the inbound pipeline, which calls Guard, Resolver,
      Registry, Dedup, Collect (collect mode, with its timers and goroutines)
      and a publisher.  Dispatcher (gateway/dispatcher.go) is the way back, by
      the delivery contexts Router put in Registry.
    - Queue (queue/topology.go, publisher.go, consumer.go), Broker
      (queue/broker.go), Management (queue/management.go): exchanges, queues and
      bindings, the connections and the broker's users.
    - Register (gateway/register.go), AgentApi (the endpoints for agents: cron,
      at, notify, health): what an agent may do with its token.  Admin and
      AdminProofs (admin): the administration API.  Lifecycle (lifecycle):
      the shutdown of everything in phases.  SecurityAudit (security).

    The agent:
    - AgentRegister (agent/registration) is the client of Register, JobTools
      (agent/tools/cron.go, at.go, with the routes of gateway/server.go) that
      of AgentApi; EventPublisher (agent/publisher.go) sends what Dispatcher
      receives.
    - Agent, AgentProofs, AgentTurn (agent/runtime.go): from a delivery of the
      queue to the answer and the saved turn, over the parts that follow.
      Commands, Profile, Usage, ToolDedup, Enrich (enrichment and topics),
      Convert, Prompt, AgentText (cleaning of what a model writes).
    - Skills, SkillExec (agent/skills), Sandbox (agent/sandbox), Bash
      (agent/tools/bash.go): programs that are run in containers.  ToolMatch
      (the search of tools, with the service of embeddings), WebTools (pages,
      searches, weather, time), DocFetch (documents and s3fetch), Mcp
      (agent/mcp: tools of MCP servers and the connections to them), Oidc
      (agent/mcp/oidc: signing in to those).

    ** What the theorems show

    - Admission and scope: nothing happens to a message whose sender is not
      admitted ([Router.router_fails_closed]); a webhook needs its signature
      ([Webhook.whatsapp_webhook_gate]); credentials go to entitled agents only
      and an agent gets exactly what was decided
      ([Register.register_only_entitled], [AgentRegister.registration_received]);
      a request of an agent touches its user only ([AgentApi.agent_api_scoped],
      [JobTools.job_tools_faithful]); every operation of an administrator is
      audited ([AdminProofs.admin_audited]); a cache delays a change by its TTL
      at most ([Cache.cached_staleness]); evicting a user closes its connections
      ([Management.evicts_user]).
    - Routing and delivery: an admitted message is published once, in the form
      its queue mode asks for ([Router.router_routes]); collect mode puts every
      message in exactly one batch, hands each batch to the publisher once and
      leaves no buffer behind ([Collect.collect_exactly_once],
      [Collect.collect_no_stranding]), though a publication that fails loses its
      batch and two may overtake each other ([Collect.collect_overtakes]); queues
      of different users are disjoint ([Queue.sessions_isolated]); events are
      answered in the order of the messages, as a refinement of a conversation
      per session ([Dispatcher.dispatcher_answers]), and every event of an agent
      reaches the gateway ([EventPublisher.events_reach_gateway]); a delivery is
      settled exactly once ([RabbitMq.rabbit_delivery_settled]), and the agent
      acknowledges a queue item exactly when it answered
      ([AgentProofs.acked_answered]).
    - Connections: none is forgotten ([Broker.broker_connections],
      [Mcp.loader_servers]) and a channel that lost its connection makes one
      again and subscribes its users there ([RabbitMq.rabbit_channel_recovers]); a shutdown is ordered and ends
      ([Lifecycle.shutdown_ordered], [Lifecycle.shutdown_ends]).
    - Sessions: an appended line is read back and touches no other session
      ([SessionStore.append_load]), as text too
      ([SessionText.transcript_text_roundtrip]); a compaction loses no line at
      any crash point ([Compaction.compact_crash_safe]); the index lists exactly
      the sessions there are ([SessionIndex.listed_sessions]); a lock is taken
      exactly when it is free or stale ([SessionLock.lock_decides]); a saved
      turn is the history of the next ([AgentTurn.turn_saved]).
    - Tools: forbidden commands never run ([Bash.blocked_never_runs]), containers
      are started confined and commands go to no other, however goroutines
      interleave ([Sandbox.sandbox_protocol]), arguments reach the shell as
      given ([SkillExec.arguments_read_back]), a server is called with what its
      schema allows ([Mcp.served_arguments]), a fetch follows five redirects at
      most and none from a URL that is not public
      ([DocFetch.requests_checked]), tokens are kept and a sign-in ends
      ([Oidc.token_kept], [Oidc.device_flow_ends]).
    - Configuration: placeholders are resolved once, left to right
      ([ConfigLoad.resolve_exact]), a loaded configuration is consistent
      ([ConfigLoad.loaded_sound]), literal secrets are reported
      ([SecurityAudit.literal_secret_reported]).
    - Integrity and time: keys and references of the tables
      ([SqliteProofs.db_integrity]), the job lists of the scheduler
      ([Scheduler.scheduler_consistent]), a job run by hand is the one that fires
      ([CronAdapter.manual_equals_fired]); at most [max] events per window
      ([Limiter.limit_per_window]), accepted repetitions are a TTL apart
      ([Dedup.accepted_spaced]).
    - What the code does not guarantee is proved too, by executions on which it
      fails: an append lost to a compaction, two holders of a stale lock, a
      one-shot job lost from the list, a session nobody closes, a redirect to a
      private address, a channel closed alone that nobody notices, a malformed
      body that is acknowledged ([Compaction.compaction_loses_append],
      [SessionLock.stale_lock_race], [Scheduler.at_job_readded_lost],
      [Mcp.close_leaks_session], [DocFetch.redirect_unsafe],
      [RabbitMq.rabbit_channel_unnoticed], [AgentProofs.malformed_acked]).

    ** Conventions, bounds and fuel

    Instants and durations are nanoseconds in [Z].  Components read the clock
    through an argument ([now], or [clk n] for the n-th reading), draw UUIDs
    through one ([uuid]), and one repository call takes one reading.  Counters
    of the code that can wrap do ([int64]).  Sections of code under a mutex are
    atomic; where the code runs goroutines, a step relation or a schedule orders
    their critical sections.

    Recursion that the source does not bound by its data has fuel, and is
    proved not to run out of it: the retry loop of [FileLock.Lock] makes 103
    attempts at most, since it waits at least 100 ms between two and gives up
    after 10 s ([SessionLock.lock_decides]); the polling of the device flow ends
    within the life of the code ([Oidc.device_flow_ends]); redirects end within
    the limit that the code sets ([DocFetch.requests_checked]).  Loops over the bytes of a
    text take its length as fuel, of which every turn consumes some: the parsers
    of JSON and of regular expressions ([GoJsonProofs.json_parse_encoded] reads
    back all that is written) and the search of a page of results.  [fmt_d]
    prints at most 20 digits, which is every 64-bit number.

    Parameters of the model, with what is assumed of them where they are used:
    the cron library ([CronLib]), the TTL cache ([TTLCache]), the AMQP library
    and broker (outcomes of calls, [topic_spec]), the MQTT, MCP, S3 and chat
    model libraries, the docker program, YAML decoding, net/url and the HTTP
    clients (their answers), encryption and key derivation, the readers of PDF,
    HTML and EXIF, and the Unicode case mapping outside ASCII ([fold]).

    ** Not modelled

    Logging, metrics and tracing, which do not change the state; the command
    line, which parses flags, wires the parts together and calls the
    administration API; schema creation and backup of the database, which the
    tables presuppose; the listener of the HTTP server; the probing and streaming of
    chat models, whose answers are parameters, and the estimate of tokens, which
    nothing calls.  The text of an error that a library makes is the parameter's
    or is left out.  Dispatcher handles one event at a time; the source may run
    handlers of different events concurrently.  SessionFs has no I/O faults other than those its state
    explains, and a crash happens between two calls. *)
From Stdlib Require Import ZArith Lia Bool Ascii String List.
From stdpp Require Import base gmap strings option fin_maps list.

(** ** Results of fallible Go code

    A Go function that returns [(T, error)] is a function into
    [result E T]: [Err e] for a non-nil error, [Ok v] otherwise. *)
Inductive result (E A : Type) : Type :=
| Ok (a : A)
| Err (e : E).
Arguments Ok {E A} a.
Arguments Err {E A} e.

Definition result_bind {E A B} (m : result E A) (k : A -> result E B) : result E B :=
  match m with
  | Ok a => k a
  | Err e => Err e
  end.

Definition result_is_ok {E A} (m : result E A) : bool :=
  match m with Ok _ => true | Err _ => false end.

Declare Scope go_scope.
Delimit Scope go_scope with go.
Notation "'let*' x ':=' m 'in' k" := (result_bind m (fun x => k))
  (at level 10, x pattern, m at level 100, k at level 200) : go_scope.
Open Scope go_scope.

(** ** Stateful Go code

    A method that changes a state [St] and returns an [A]. *)
Definition State (St A : Type) : Type := St -> A * St.
Definition sret {St A} (a : A) : State St A := fun st => (a, st).
Definition sbind {St A B} (m : State St A) (k : A -> State St B) : State St B :=
  fun st => let '(a, st) := m st in k a st.

(** A call whose only effect is on the state. *)
Definition smodify {St} (f : St -> St) : State St unit := fun st => (tt, f st).
Definition sget {St A} (f : St -> A) : State St A := fun st => (f st, st).

Declare Scope state_scope.
Delimit Scope state_scope with state.
Notation "'do' x '<-' m ';' k" := (sbind m (fun x => k))
  (at level 100, x pattern, m at level 100, k at level 200) : state_scope.
Notation "'run' m ';' k" := (sbind m (fun _ => k))
  (at level 100, m at level 100, k at level 200) : state_scope.

Fixpoint sfor {St A} (f : A -> State St unit) (l : list A) : State St unit :=
  match l with
  | [] => sret tt
  | x :: l' => fun st => sfor f l' (snd (f x st))
  end.

(** ** Instants and durations

    A [time.Time] is its distance from the Unix epoch in nanoseconds and a
    [time.Duration] a number of nanoseconds, both in [Z]; comparisons and
    additions are those of package [time]. *)
Definition time_second : Z := 1000000000.
Definition time_millisecond : Z := 1000000.
Definition time_minute : Z := 60 * time_second.

(** The zero [time.Time] (January 1, year 1, UTC), which [IsZero] tests. *)
Definition time_zero : Z := -62135596800 * time_second.

Definition time_is_zero (t : Z) : bool := (t =? time_zero)%Z.
Definition time_before (a b : Z) : bool := (a <? b)%Z.
Definition time_after (a b : Z) : bool := (b <? a)%Z.

(** Go's [int64] arithmetic: the value modulo 2^64, in two's complement. *)
Definition int64 (z : Z) : Z := ((z + 2 ^ 63) mod 2 ^ 64 - 2 ^ 63)%Z.

Lemma int64_small z : (- 2 ^ 63 <= z < 2 ^ 63)%Z -> int64 z = z.
Proof. intros H. unfold int64. rewrite Z.mod_small; lia. Qed.

Lemma int64_range z : (- 2 ^ 63 <= int64 z < 2 ^ 63)%Z.
Proof.
  unfold int64. pose proof (Z.mod_pos_bound (z + 2 ^ 63) (2 ^ 64) ltac:(lia)). lia.
Qed.

(** ** Automation *)

Create HintDb nipper.

(** Case analysis on the conditions of the code: boolean tests on [Z] and
    [nat] become the inequalities [lia] reads. *)
Ltac unfold_time :=
  unfold time_before, time_after, time_is_zero in *.

Ltac case_test :=
  match goal with
  | |- context [Z.ltb ?a ?b] => destruct (Z.ltb_spec a b)
  | |- context [Z.leb ?a ?b] => destruct (Z.leb_spec a b)
  | |- context [Z.eqb ?a ?b] => destruct (Z.eqb_spec a b)
  | |- context [Nat.ltb ?a ?b] => destruct (Nat.ltb_spec a b)
  | |- context [Nat.leb ?a ?b] => destruct (Nat.leb_spec a b)
  | |- context [Nat.eqb ?a ?b] => destruct (Nat.eqb_spec a b)
  | |- context [String.eqb ?a ?b] => destruct (String.eqb_spec a b)
  end.

Ltac case_test_in H :=
  match type of H with
  | context [Z.ltb ?a ?b] => destruct (Z.ltb_spec a b)
  | context [Z.leb ?a ?b] => destruct (Z.leb_spec a b)
  | context [Z.eqb ?a ?b] => destruct (Z.eqb_spec a b)
  | context [Nat.ltb ?a ?b] => destruct (Nat.ltb_spec a b)
  | context [Nat.leb ?a ?b] => destruct (Nat.leb_spec a b)
  | context [Nat.eqb ?a ?b] => destruct (Nat.eqb_spec a b)
  | context [String.eqb ?a ?b] => destruct (String.eqb_spec a b)
  end.

Ltac bool_hyps :=
  repeat match goal with
  | H : _ && _ = true |- _ => apply andb_true_iff in H; destruct H
  | H : _ || _ = false |- _ => apply orb_false_iff in H; destruct H
  | H : negb _ = true |- _ => apply negb_true_iff in H
  | H : negb _ = false |- _ => apply negb_false_iff in H
  | H : (_ =? _)%string = true |- _ => apply String.eqb_eq in H
  | H : (_ =? _)%string = false |- _ => apply String.eqb_neq in H
  | H : (_ <? _)%Z = true |- _ => apply Z.ltb_lt in H
  | H : (_ <? _)%Z = false |- _ => apply Z.ltb_ge in H
  | H : (_ <=? _)%Z = true |- _ => apply Z.leb_le in H
  | H : (_ <=? _)%Z = false |- _ => apply Z.leb_gt in H
  | H : (_ =? _)%Z = true |- _ => apply Z.eqb_eq in H
  | H : (_ =? _)%Z = false |- _ => apply Z.eqb_neq in H
  end.

(** ** Generic list lemmas *)
Section lists.
Context {A : Type}.

(** The longest prefix of a list whose elements satisfy [p] is dropped. *)
Fixpoint drop_while (p : A -> bool) (l : list A) : list A :=
  match l with
  | [] => []
  | x :: l' => if p x then drop_while p l' else l
  end.

Lemma drop_while_suffix p l :
  exists pre, l = (pre ++ drop_while p l)%list /\ Forall (fun x => p x = true) pre.
Proof.
  induction l as [|x l (pre & Hl & Hp)]; simpl; [by exists []|].
  destruct (p x) eqn:E; [|by exists []].
  exists (x :: pre). split; [by rewrite Hl at 1|by constructor].
Qed.

Lemma drop_while_id p l :
  (forall x l', l = x :: l' -> p x = false) -> drop_while p l = l.
Proof. destruct l as [|x l]; simpl; [done|]. intros H. by rewrite (H x l). Qed.

Lemma drop_while_head p l x l' : drop_while p l = x :: l' -> p x = false.
Proof.
  induction l as [|y l IH]; simpl; [done|].
  destruct (p y) eqn:E; [done|]. by intros [= -> ->].
Qed.

Lemma drop_while_idem p l : drop_while p (drop_while p l) = drop_while p l.
Proof. apply drop_while_id. intros x l'. apply drop_while_head. Qed.

Lemma Forall_drop_while (P : A -> Prop) p l : Forall P l -> Forall P (drop_while p l).
Proof.
  destruct (drop_while_suffix p l) as (pre & Hl & _). rewrite Hl at 1.
  by intros [_ ?]%Forall_app.
Qed.
End lists.

(** A stronger test drops at least as much: dropping by [p] first makes no
    difference when [p] implies [q]. *)
Lemma drop_while_absorb {A} (p q : A -> bool) l :
  (forall x, p x = true -> q x = true) ->
  drop_while q (drop_while p l) = drop_while q l.
Proof.
  intros Hpq. induction l as [|x l IH]; simpl; [done|].
  destruct (p x) eqn:E; [by rewrite (Hpq _ E)|]. simpl. by destruct (q x).
Qed.

(** On a list where [p] holds of a prefix only, dropping is filtering. *)
Definition prefix_closed {A} (p : A -> bool) (l : list A) : Prop :=
  forall l1 x l2, l = (l1 ++ x :: l2)%list -> p x = true -> Forall (fun y => p y = true) l1.

Definition count_if {A} (p : A -> bool) (l : list A) : nat := length (List.filter p l).

Lemma count_if_app {A} (p : A -> bool) l1 l2 :
  count_if p (l1 ++ l2) = (count_if p l1 + count_if p l2)%nat.
Proof. unfold count_if. by rewrite List.filter_app, length_app. Qed.

Lemma count_if_none {A} (p : A -> bool) l :
  Forall (fun x => p x = false) l -> count_if p l = 0%nat.
Proof.
  unfold count_if. induction 1 as [|x l Hx _ IH]; [done|]. simpl. by rewrite Hx.
Qed.

Lemma count_if_le {A} (p : A -> bool) l : (count_if p l <= length l)%nat.
Proof. unfold count_if. induction l as [|x l IH]; simpl; [lia|]. destruct (p x); simpl; lia. Qed.

Lemma count_if_mono {A} (p q : A -> bool) l :
  (forall x, p x = true -> q x = true) -> (count_if p l <= count_if q l)%nat.
Proof.
  intros H. unfold count_if. induction l as [|x l IH]; simpl; [lia|].
  destruct (p x) eqn:E; [rewrite (H _ E); simpl; lia|]. destruct (q x); simpl; lia.
Qed.

(** ** Keys of table rows *)

Lemma NoDup_map_filter {A B} (f : A -> B) (p : A -> bool) l :
  NoDup (map f l) -> NoDup (map f (List.filter p l)).
Proof.
  induction l as [|x l IH]; simpl; [done|]. intros [Hx Hl]%NoDup_cons.
  destruct (p x); simpl; [|auto]. apply NoDup_cons. split; [|auto].
  intros Hin. apply Hx. apply list_elem_of_In in Hin. apply list_elem_of_In.
  apply in_map_iff in Hin as (y & Hy & Hin). apply filter_In in Hin as [Hin _].
  apply in_map_iff. eauto.
Qed.

Lemma NoDup_map_snoc {A B} (f : A -> B) l x :
  NoDup (map f l) -> (forall y, In y l -> f y <> f x) -> NoDup (map f (l ++ [x])).
Proof.
  intros Hl Hx. rewrite map_app. apply NoDup_app. split; [done|]. split; [|apply NoDup_singleton].
  intros y Hy ->%list_elem_of_singleton. apply list_elem_of_In, in_map_iff in Hy as (z & Hz & Hin).
  by eapply Hx.
Qed.

Lemma map_update_key {A B} (f : A -> B) (p : A -> bool) (g : A -> A) l :
  (forall x, f (g x) = f x) -> map f (map (fun r => if p r then g r else r) l) = map f l.
Proof. intros H. rewrite map_map. apply map_ext. intros x. by destruct (p x). Qed.

Lemma existsb_false_In {A} (p : A -> bool) l x : existsb p l = false -> In x l -> p x = false.
Proof.
  intros H Hin. apply not_true_is_false. intros Hp.
  assert (existsb p l = true) by (apply existsb_exists; eauto). congruence.
Qed.

Lemma find_none_iff {A} (p : A -> bool) l : List.find p l = None <-> existsb p l = false.
Proof.
  induction l as [|x l IH]; simpl; [done|]. destruct (p x); simpl; [done|]. apply IH.
Qed.

Lemma find_filter_ne {A} (p q : A -> bool) l :
  (forall x, p x = true -> q x = true) -> List.find p (List.filter q l) = List.find p l.
Proof.
  intros H. induction l as [|x l IH]; simpl; [done|].
  destruct (q x) eqn:Eq; simpl; [by rewrite IH|]. destruct (p x) eqn:Ep; [|done].
  rewrite (H _ Ep) in Eq. done.
Qed.

Lemma find_filter_none {A} (p q : A -> bool) l :
  (forall x, p x = true -> q x = false) -> List.find p (List.filter q l) = None.
Proof.
  intros H. apply find_none_iff. apply not_true_is_false. intros (x & Hin & Hp)%existsb_exists.
  apply filter_In in Hin as [_ Hq]. rewrite (H _ Hp) in Hq. done.
Qed.

Lemma find_app {A} (p : A -> bool) l1 l2 :
  List.find p (l1 ++ l2)%list = match List.find p l1 with Some x => Some x | None => List.find p l2 end.
Proof. induction l1 as [|x l1 IH]; simpl; [done|]. by destruct (p x). Qed.

(** The row with a unique key is the one a search by that key finds. *)
Lemma find_unique {A B} (key : A -> B) (p : A -> bool) l r :
  NoDup (map key l) -> In r l -> p r = true ->
  (forall x, p x = true -> key x = key r) -> List.find p l = Some r.
Proof.
  intros Hn Hin Hp Hk. induction l as [|x l IH]; [done|]. simpl in *.
  apply list.NoDup_cons in Hn as [Hx Hn]. destruct (p x) eqn:Ep.
  - destruct Hin as [->|Hin]; [done|]. exfalso. apply Hx. rewrite (Hk _ Ep).
    apply list_elem_of_In, in_map, Hin.
  - destruct Hin as [->|Hin]; [congruence|auto].
Qed.

Lemma filter_filter_nil {A} (p q : A -> bool) l :
  (forall x, p x = true -> q x = false) -> List.filter p (List.filter q l) = [].
Proof.
  intros H. induction l as [|x l IH]; simpl; [done|]. destruct (q x) eqn:Eq; simpl; [|done].
  destruct (p x) eqn:Ep; [rewrite (H _ Ep) in Eq; done|done].
Qed.

(** Elements picked by a function that is injective on what it keeps. *)
Lemma NoDup_map_omap {A B C} (f : B -> C) (g : A -> option B) l :
  NoDup l ->
  (forall x y a b, In x l -> In y l -> g x = Some a -> g y = Some b -> f a = f b -> x = y) ->
  NoDup (map f (omap g l)).
Proof.
  induction l as [|x l IH]; intros Hn Hinj; [constructor|]. apply list.NoDup_cons in Hn as [Hx Hn].
  cbn. destruct (g x) as [a|] eqn:E; cbn [map].
  - apply list.NoDup_cons. split; [|apply IH; [done|intros; eapply Hinj; eauto; by right]].
    intros Hin. apply list_elem_of_In, in_map_iff in Hin as (b & Hb & Hin).
    apply list_elem_of_In, list_elem_of_omap in Hin as (y & Hy & Hgy).
    apply Hx. rewrite (Hinj x y a b); [done|by left|right; by apply list_elem_of_In|done..].
  - apply IH; [done|]. intros; eapply Hinj; eauto; by right.
Qed.
