(* ===== verification/GoString.v ===== *)
(** * Go strings

    A Go [string] is a sequence of bytes: [String.string], a list of 8-bit
    [ascii].  This file translates what the program uses of packages
    [strings], [unicode] and [unicode/utf8]: prefix and substring tests,
    [SplitN(s, sep, 2)], [TrimSpace], [Trim], [ToLower] and the decoding of a
    string into runes that [for _, r := range s] performs.  The lemmas are the
    ones the components share. *)
From Stdlib Require Import ZArith Lia Bool Ascii String List.
From stdpp Require Import base strings option list.
From S2P Require Import Prelude.

Local Open Scope string_scope.
Local Open Scope Z_scope.

(** ** Concatenation *)

#[global] Arguments String.append !_ _ / : simpl nomatch.

Lemma str_app_nil_r s : s +:+ "" = s.
Proof. induction s; simpl; congruence. Qed.

Lemma str_app_assoc a b c : (a +:+ b) +:+ c = a +:+ (b +:+ c).
Proof. induction a; simpl; congruence. Qed.

Lemma str_app_inj_l a b c : a +:+ b = a +:+ c -> b = c.
Proof. induction a; simpl; [done|]. intros [= ?]. auto. Qed.

Lemma str_app_length a b : String.length (a +:+ b) = (String.length a + String.length b)%nat.
Proof. induction a; simpl; congruence. Qed.

Lemma str_app_eq_nil a b : a +:+ b = "" -> a = "" /\ b = "".
Proof. destruct a; simpl; [done|discriminate]. Qed.

(** ** Characters of a string *)

Fixpoint str_forall (p : ascii -> bool) (s : string) : bool :=
  match s with
  | EmptyString => true
  | String c s' => p c && str_forall p s'
  end.

Definition lacks (c : ascii) (s : string) : bool :=
  str_forall (fun x => negb (Ascii.eqb x c)) s.

Lemma str_forall_app p a b : str_forall p (a +:+ b) = str_forall p a && str_forall p b.
Proof. induction a; simpl; [done|]. by rewrite IHa, andb_assoc. Qed.

Lemma str_forall_impl (p q : ascii -> bool) s :
  (forall c, p c = true -> q c = true) -> str_forall p s = true -> str_forall q s = true.
Proof.
  intros H. induction s as [|c s IH]; simpl; [done|].
  intros [H1 H2]%andb_true_iff. by rewrite (H _ H1), IH.
Qed.

(** ** Prefixes, [strings.HasPrefix], [strings.CutPrefix] *)

Fixpoint strip_prefix (p s : string) : option string :=
  match p, s with
  | EmptyString, _ => Some s
  | String a p', String b s' => if Ascii.eqb a b then strip_prefix p' s' else None
  | String _ _, EmptyString => None
  end.

Definition has_prefix (s p : string) : bool :=
  match strip_prefix p s with Some _ => true | None => false end.

Lemma strip_prefix_Some p s r : strip_prefix p s = Some r <-> s = p +:+ r.
Proof.
  revert s. induction p as [|a p IH]; intros s; simpl.
  - split; congruence.
  - destruct s as [|b s]; [split; discriminate|].
    destruct (Ascii.eqb_spec a b) as [->|Hne].
    + rewrite IH. split; [by intros ->|by intros [= ->]].
    + split; [discriminate|]. intros [= -> _]. congruence.
Qed.

Lemma strip_prefix_app p r : strip_prefix p (p +:+ r) = Some r.
Proof. by apply strip_prefix_Some. Qed.

Lemma has_prefix_iff s p : has_prefix s p = true <-> exists r, s = p +:+ r.
Proof.
  unfold has_prefix. destruct (strip_prefix p s) as [r|] eqn:E.
  - apply strip_prefix_Some in E. naive_solver.
  - split; [done|]. intros [r Hr]. apply strip_prefix_Some in Hr. congruence.
Qed.

(** [strings.HasSuffix]. *)
Fixpoint has_suffix (s suf : string) : bool :=
  (s =? suf)%string || match s with String _ s' => has_suffix s' suf | EmptyString => false end.

(** ** First occurrence of a separator, [strings.Index] and [strings.Cut]

    [str_cut sep s = Some (a, b)] when [a] ends where [sep] first occurs in
    [s] and [b] is what follows it: [a = s[:Index(s, sep)]]. *)

Fixpoint str_cut (sep s : string) : option (string * string) :=
  match strip_prefix sep s with
  | Some r => Some ("", r)
  | None =>
      match s with
      | EmptyString => None
      | String c s' =>
          match str_cut sep s' with
          | Some (a, b) => Some (String c a, b)
          | None => None
          end
      end
  end.

Definition str_contains (s sub : string) : bool :=
  match str_cut sub s with Some _ => true | None => false end.

(** [strings.ReplaceAll] of a text that is not empty; the loop is bounded by the
    length, since every turn takes a byte at least. *)
Fixpoint replace_turns (fuel : nat) (s old new : string) : string :=
  match fuel with
  | O => s
  | S fuel => match str_cut old s with Some (a, b) => a +:+ new +:+ replace_turns fuel b old new | None => s end
  end.
Definition ReplaceAll (s old new : string) : string := replace_turns (S (String.length s)) s old new.

(** [strings.SplitN(s, sep, 2)] for a non-empty [sep]. *)
Definition split_n2 (s sep : string) : list string :=
  match str_cut sep s with
  | Some (a, b) => [a; b]
  | None => [s]
  end.

Lemma str_cut_sound sep s a b : str_cut sep s = Some (a, b) -> s = a +:+ sep +:+ b.
Proof.
  revert a. induction s as [|c s IH]; intros a; simpl.
  - destruct (strip_prefix sep "") as [r|] eqn:E; [|done].
    intros [= <- <-]. by apply strip_prefix_Some in E.
  - destruct (strip_prefix sep (String c s)) as [r|] eqn:E.
    + intros [= <- <-]. by apply strip_prefix_Some in E.
    + destruct (str_cut sep s) as [[a' b']|] eqn:E'; [|done].
      intros [= <- <-]. simpl. f_equal. by apply IH.
Qed.

(** A text without the separator's first byte before the separator is cut
    exactly there. *)
Lemma str_cut_app c sep a b :
  lacks c a = true ->
  str_cut (String c sep) (a +:+ String c sep +:+ b) = Some (a, b).
Proof.
  induction a as [|x a IH]; intros H.
  - simpl. rewrite Ascii.eqb_refl. by rewrite strip_prefix_app.
  - cbn in H. apply andb_true_iff in H as [Hx Ha]. apply negb_true_iff in Hx.
    specialize (IH Ha). cbn [String.append] in IH |- *. cbn [str_cut strip_prefix].
    by rewrite Ascii.eqb_sym, Hx, IH.
Qed.

(** Fields joined by a byte they lack can be told apart. *)
Lemma field_inj c a b a' b' :
  lacks c a = true -> lacks c a' = true ->
  a +:+ String c b = a' +:+ String c b' -> a = a' /\ b = b'.
Proof.
  intros Ha Ha' H. pose proof (str_cut_app c "" a b Ha) as H1.
  pose proof (str_cut_app c "" a' b' Ha') as H2. cbn [String.append] in H1, H2.
  rewrite H in H1. rewrite H1 in H2. by injection H2.
Qed.

Lemma str_cut_lacks c sep s : lacks c s = true -> str_cut (String c sep) s = None.
Proof.
  induction s as [|x s IH]; intros H; [done|].
  cbn in H. apply andb_true_iff in H as [Hx Ha]. apply negb_true_iff in Hx.
  cbn [str_cut strip_prefix]. rewrite Ascii.eqb_sym, Hx. by rewrite (IH Ha).
Qed.

(** [strings.Split(s, sep)] for a separator of one byte. *)
Fixpoint split_on (sep : ascii) (s : string) : list string :=
  match s with
  | EmptyString => [""]
  | String c s' =>
      if Ascii.eqb c sep then "" :: split_on sep s'
      else match split_on sep s' with
           | w :: ws => String c w :: ws
           | [] => [String c ""]
           end
  end.

Lemma split_on_app sep a s :
  lacks sep a = true -> split_on sep (a +:+ String sep s) = a :: split_on sep s.
Proof.
  induction a as [|c a IH]; intros H; simpl.
  - by rewrite Ascii.eqb_refl.
  - cbn in H. apply andb_true_iff in H as [Hc Ha]. apply negb_true_iff in Hc. by rewrite Hc, IH.
Qed.

Lemma split_on_plain sep a : lacks sep a = true -> split_on sep a = [a].
Proof.
  induction a as [|c a IH]; intros H; [done|].
  cbn in H. apply andb_true_iff in H as [Hc Ha]. apply negb_true_iff in Hc. simpl. by rewrite Hc, IH.
Qed.

(** ** Runes

    [utf8_segs s] is the decoding of [s] that [range] and package [strings]
    perform: each rune with the bytes it was read from.  A byte that does not
    start a well-formed sequence is the rune U+FFFD of width one. *)

Definition byte_of (c : ascii) : Z := Z.of_N (N_of_ascii c).
Definition of_byte (z : Z) : ascii := ascii_of_N (Z.to_N (z mod 256)).

Lemma byte_of_range c : 0 <= byte_of c < 256.
Proof. unfold byte_of. pose proof (N_ascii_bounded c). lia. Qed.

Lemma of_byte_of c : of_byte (byte_of c) = c.
Proof.
  unfold of_byte. rewrite Z.mod_small by apply byte_of_range.
  unfold byte_of. rewrite N2Z.id. apply ascii_N_embedding.
Qed.

Lemma byte_of_of z : 0 <= z < 256 -> byte_of (of_byte z) = z.
Proof.
  intros H. unfold byte_of, of_byte. rewrite Z.mod_small by done.
  rewrite N_ascii_embedding by lia. lia.
Qed.

Definition rune_error : Z := 65533.

Definition is_cont (lo hi : Z) (c : ascii) : bool := (lo <=? byte_of c) && (byte_of c <=? hi).

(** Bounds on the second byte after the leading byte [x]
    ([acceptRanges] of unicode/utf8). *)
Definition accept_range (x : Z) : Z * Z :=
  if x =? 224 then (160, 191)
  else if x =? 237 then (128, 159)
  else if x =? 240 then (144, 191)
  else if x =? 244 then (128, 143)
  else (128, 191).

Definition bad (a : ascii) : Z * string := (rune_error, String a "").

Fixpoint utf8_segs (s : string) : list (Z * string) :=
  match s with
  | EmptyString => []
  | String a s1 =>
      let x := byte_of a in
      let '(lo, hi) := accept_range x in
      if x <? 128 then (x, String a "") :: utf8_segs s1
      else match s1 with
      | EmptyString => [bad a]
      | String b s2 =>
          if (194 <=? x) && (x <=? 223) && is_cont lo hi b then
            ((x - 192) * 64 + (byte_of b - 128), String a (String b "")) :: utf8_segs s2
          else match s2 with
          | EmptyString => bad a :: utf8_segs s1
          | String c s3 =>
              if (224 <=? x) && (x <=? 239) && is_cont lo hi b && is_cont 128 191 c then
                ((x - 224) * 4096 + (byte_of b - 128) * 64 + (byte_of c - 128),
                 String a (String b (String c ""))) :: utf8_segs s3
              else match s3 with
              | EmptyString => bad a :: utf8_segs s1
              | String d s4 =>
                  if (240 <=? x) && (x <=? 244) && is_cont lo hi b
                     && is_cont 128 191 c && is_cont 128 191 d then
                    ((x - 240) * 262144 + (byte_of b - 128) * 4096
                     + (byte_of c - 128) * 64 + (byte_of d - 128),
                     String a (String b (String c (String d "")))) :: utf8_segs s4
                  else bad a :: utf8_segs s1
              end
          end
      end
  end.

Definition runes (s : string) : list Z := map fst (utf8_segs s).

Definition segs_bytes (l : list (Z * string)) : string :=
  fold_right (fun seg acc => snd seg +:+ acc) "" l.

(** One step of the decoding: a non-empty string starts with a non-empty
    segment, and the rest is decoded on its own. *)
Lemma utf8_segs_step a s :
  exists r b rest, utf8_segs (String a s) = (r, String a b) :: utf8_segs rest
                   /\ s = b +:+ rest.
Proof.
  cbn [utf8_segs]. destruct (accept_range (byte_of a)) as [lo hi].
  destruct (_ <? 128); [by eexists _, "", s|].
  destruct s as [|b s2]; [by eexists _, "", ""|].
  destruct (_ && _ && is_cont lo hi b); [by eexists _, (String b ""), s2|].
  destruct s2 as [|c s3]; [by eexists _, "", _|].
  destruct (_ && _ && is_cont lo hi b && _); [by eexists _, (String b (String c "")), s3|].
  destruct s3 as [|d s4]; [by eexists _, "", _|].
  destruct (_ && _ && is_cont lo hi b && _ && _).
  - by eexists _, (String b (String c (String d ""))), s4.
  - by eexists _, "", _.
Qed.

Lemma utf8_ind (P : string -> Prop) :
  P "" ->
  (forall a b r rest, utf8_segs (String a (b +:+ rest)) = (r, String a b) :: utf8_segs rest ->
     P rest -> P (String a (b +:+ rest))) ->
  forall s, P s.
Proof.
  intros H0 HS s. remember (String.length s) as n eqn:Hn. revert s Hn.
  induction n as [n IH] using lt_wf_ind. intros [|a s] ->; [done|].
  destruct (utf8_segs_step a s) as (r & b & rest & He & ->).
  apply (HS _ _ r); [done|]. eapply IH; [|done].
  cbn [String.length]. rewrite str_app_length. lia.
Qed.

(** Decoding loses nothing: the segments concatenate to the string. *)
Lemma utf8_segs_bytes s : segs_bytes (utf8_segs s) = s.
Proof.
  induction s as [|a b r rest He IH] using utf8_ind; [done|].
  rewrite He. unfold segs_bytes in *. cbn [fold_right snd]. by rewrite IH.
Qed.

(** A string of ASCII bytes is decoded byte by byte. *)
Definition is_ascii_byte (c : ascii) : bool := byte_of c <? 128.

Lemma utf8_segs_ascii s :
  str_forall is_ascii_byte s = true ->
  utf8_segs s = map (fun c => (byte_of c, String c "")) (list_ascii_of_string s).
Proof.
  induction s as [|a s IH]; [done|]. intros [Ha Hs]%andb_true_iff.
  unfold is_ascii_byte in Ha. cbn [utf8_segs].
  destruct (accept_range (byte_of a)). rewrite Ha. simpl. f_equal. auto.
Qed.

(** ** White space: [unicode.IsSpace], [strings.TrimSpace]

    The runes with property White_Space. *)
Definition is_space (r : Z) : bool :=
  ((9 <=? r) && (r <=? 13)) || (r =? 32) || (r =? 133) || (r =? 160) || (r =? 5760)
  || ((8192 <=? r) && (r <=? 8202)) || (r =? 8232) || (r =? 8233) || (r =? 8239)
  || (r =? 8287) || (r =? 12288).

Definition drop_while_end {A} (p : A -> bool) (l : list A) : list A :=
  rev (drop_while p (rev l)).

Definition trim_segs (l : list (Z * string)) : list (Z * string) :=
  drop_while_end (fun x => is_space (fst x)) (drop_while (fun x => is_space (fst x)) l).

Definition trim_space (s : string) : string := segs_bytes (trim_segs (utf8_segs s)).

(** [strings.Trim(s, cut)] for a cutset of ASCII bytes. *)
Definition string_of_list := string_of_list_ascii.
Definition trim_bytes (p : ascii -> bool) (s : string) : string :=
  string_of_list (drop_while_end p (drop_while p (list_ascii_of_string s))).

(** ** Encoding of runes, [strings.ToLower]

    [utf8_encode] is [Builder.WriteRune].  Outside ASCII the case mapping is
    the Unicode table, which the model takes as the argument [fold]. *)
Definition utf8_encode (r : Z) : string :=
  let c z := of_byte z in
  if (0 <=? r) && (r <? 128) then String (c r) ""
  else if (128 <=? r) && (r <? 2048) then
    String (c (192 + r / 64)) (String (c (128 + r mod 64)) "")
  else if (r <? 0) || (1114111 <? r) || ((55296 <=? r) && (r <=? 57343)) then
    String (c 239) (String (c 191) (String (c 189) ""))
  else if r <? 65536 then
    String (c (224 + r / 4096))
      (String (c (128 + (r / 64) mod 64)) (String (c (128 + r mod 64)) ""))
  else
    String (c (240 + r / 262144)) (String (c (128 + (r / 4096) mod 64))
      (String (c (128 + (r / 64) mod 64)) (String (c (128 + r mod 64)) ""))).

Lemma utf8_encode_ascii r : 0 <= r < 128 -> utf8_encode r = String (of_byte r) "".
Proof.
  intros H. unfold utf8_encode.
  by replace ((0 <=? r) && (r <? 128)) with true by (symmetry; apply andb_true_iff; lia).
Qed.

Definition lower_rune (fold : Z -> Z) (r : Z) : Z :=
  if r <? 128 then (if (65 <=? r) && (r <=? 90) then r + 32 else r) else fold r.

Definition to_lower (fold : Z -> Z) (s : string) : string :=
  fold_right (fun r acc => utf8_encode (lower_rune fold r) +:+ acc) "" (runes s).

(** [strings.ToUpper], with the argument [upper] outside ASCII. *)
Definition upper_rune (upper : Z -> Z) (r : Z) : Z :=
  if r <? 128 then (if (97 <=? r) && (r <=? 122) then r - 32 else r) else upper r.

Definition to_upper (upper : Z -> Z) (s : string) : string :=
  fold_right (fun r acc => utf8_encode (upper_rune upper r) +:+ acc) "" (runes s).

(** [strings.Map] with a mapping that drops the runes [drop] holds of and keeps
    the others: an invalid byte becomes U+FFFD. *)
Definition drop_runes (drop : Z -> bool) (s : string) : string :=
  fold_right (fun r acc => if drop r then acc else utf8_encode r +:+ acc) "" (runes s).

(** [strings.FieldsFunc]: the maximal runs of runes that are not separators. *)
Fixpoint fields_loop (sep : Z -> bool) (segs : list (Z * string)) (word : string) : list string :=
  match segs with
  | [] => if (word =? "")%string then [] else [word]
  | (r, b) :: segs =>
      if sep r then
        if (word =? "")%string then fields_loop sep segs "" else word :: fields_loop sep segs ""
      else fields_loop sep segs (word +:+ b)
  end.
Definition FieldsFunc (sep : Z -> bool) (s : string) : list string := fields_loop sep (utf8_segs s) "".

(** [strings.Fields]. *)
Definition strings_Fields : string -> list string := FieldsFunc is_space.

(** [strings.Join]. *)
Definition str_join (l : list string) (sep : string) : string := String.concat sep l.

(** ** Where a separator is *)

Lemma str_cut_first c s a b :
  str_cut (String c "") s = Some (a, b) -> lacks c a = true /\ s = a +:+ String c b.
Proof.
  intros H. split; [|by apply str_cut_sound in H].
  revert a b H. induction s as [|x s IH]; intros a b; [done|].
  cbn [str_cut strip_prefix]. destruct (Ascii.eqb_spec c x) as [->|Hne]; [by intros [= <- _]|].
  destruct (str_cut (String c "") s) as [[a' b']|] eqn:E; [|done].
  intros [= <- _]. specialize (IH _ _ eq_refl). unfold lacks in *. simpl.
  rewrite IH, andb_true_r. apply negb_true_iff, Ascii.eqb_neq. congruence.
Qed.

Lemma str_cut_none c s : str_cut (String c "") s = None -> lacks c s = true.
Proof.
  induction s as [|x s IH]; [done|]. cbn [str_cut strip_prefix].
  destruct (Ascii.eqb_spec c x) as [->|Hne]; [done|].
  destruct (str_cut (String c "") s) as [[a b]|]; [done|]. intros _. unfold lacks in *. simpl.
  rewrite IH, andb_true_r by done. apply negb_true_iff, Ascii.eqb_neq. congruence.
Qed.

Lemma lacks_app c a b : lacks c (a +:+ b) = lacks c a && lacks c b.
Proof. apply str_forall_app. Qed.

Lemma has_suffix_app a b : has_suffix (a +:+ b) b = true.
Proof.
  induction a as [|c a IH]; [destruct b; simpl; by rewrite ?Ascii.eqb_refl, ?String.eqb_refl|].
  simpl. rewrite IH. apply orb_true_r.
Qed.

(** What comes before the first occurrence does not contain the separator. *)
Lemma str_cut_before sep s a b : sep <> "" -> str_cut sep s = Some (a, b) -> str_cut sep a = None.
Proof.
  intros Hne. revert a. induction s as [|c s IH]; intros a; simpl; destruct (strip_prefix sep _) as [r|] eqn:E.
  1,3: intros [= <- <-]; destruct sep; [done|]; reflexivity.
  - done.
  - destruct (str_cut sep s) as [[a' b']|] eqn:E'; [|done]. intros [= <- <-]. specialize (IH a' eq_refl).
    simpl. rewrite IH. destruct (strip_prefix sep (String c a')) as [r|] eqn:Ep; [|done].
    apply strip_prefix_Some in Ep. apply str_cut_sound in E'.
    assert (Hs : String c s = sep +:+ (r +:+ sep +:+ b')).
    { rewrite E'. change (String c (a' +:+ sep +:+ b')) with (String c a' +:+ (sep +:+ b')). by rewrite Ep, str_app_assoc. }
    rewrite Hs, strip_prefix_app in E. done.
Qed.

(** A separator whose first byte does not occur in the rest of it is found where
    the text before it, which does not contain it, ends. *)
Lemma strip_prefix_lacks c s a t :
  lacks c s = true -> strip_prefix s a = None -> strip_prefix s (a +:+ String c t) = None.
Proof.
  revert a. induction s as [|d s IH]; intros a Hl Hn; [done|].
  cbn in Hl. apply andb_true_iff in Hl as [Hd Hl]. apply negb_true_iff in Hd.
  destruct a as [|y a]; simpl in *; [by rewrite Hd|].
  destruct (Ascii.eqb d y); [by apply IH|done].
Qed.

Lemma str_cut_at_sep c sep a b :
  lacks c sep = true -> str_cut (String c sep) a = None ->
  str_cut (String c sep) (a +:+ String c sep +:+ b) = Some (a, b).
Proof.
  intros Hl. induction a as [|x a IH]; intros Hn.
  - simpl. by rewrite Ascii.eqb_refl, strip_prefix_app.
  - cbn [str_cut strip_prefix] in Hn. cbn [String.append] in IH |- *. cbn [str_cut strip_prefix].
    destruct (Ascii.eqb c x); [|destruct (str_cut _ a) as [[]|]; [done|by rewrite IH]].
    destruct (strip_prefix sep a) eqn:E; [done|].
    destruct (str_cut _ a) as [[]|]; [done|]. rewrite strip_prefix_lacks by done. by rewrite IH.
Qed.

(** ** Slices of a string *)

(** [s[:n]] and [s[n:]], of the whole string when it is shorter. *)
Fixpoint str_take (n : nat) (s : string) : string :=
  match n, s with
  | S n, String c s => String c (str_take n s)
  | _, _ => ""
  end.

Fixpoint str_drop (n : nat) (s : string) : string :=
  match n, s with
  | O, _ => s
  | S n, String _ s => str_drop n s
  | S _, EmptyString => ""
  end.

Lemma str_take_drop n s : str_take n s +:+ str_drop n s = s.
Proof. revert s. induction n as [|n IH]; intros [|c s]; simpl; try done. by rewrite IH. Qed.

Lemma str_take_all n s : (String.length s <= n)%nat -> str_take n s = s.
Proof.
  revert n. induction s as [|c s IH]; intros [|n] H; simpl in *; try done; [lia|].
  by rewrite IH by lia.
Qed.

Lemma str_take_length n s : String.length (str_take n s) = Nat.min n (String.length s).
Proof. revert s. induction n as [|n IH]; intros [|c s]; simpl; try done. by rewrite IH. Qed.

Lemma str_drop_length n s : String.length (str_drop n s) = (String.length s - n)%nat.
Proof. revert s. induction n as [|n IH]; intros [|c s]; simpl; try done. Qed.

Lemma str_take_app a b : str_take (String.length a) (a +:+ b) = a.
Proof. induction a as [|c a IH]; simpl; [done|]. by rewrite IH. Qed.

Lemma str_drop_app a b : str_drop (String.length a) (a +:+ b) = b.
Proof. induction a as [|c a IH]; simpl; done. Qed.

(** [strings.LastIndex] of a byte. *)
Fixpoint last_index (sep : ascii) (s : string) : option nat :=
  match s with
  | EmptyString => None
  | String c s =>
      match last_index sep s with
      | Some i => Some (S i)
      | None => if Ascii.eqb c sep then Some O else None
      end
  end.

Lemma last_index_lt sep s i : last_index sep s = Some i -> (i < String.length s)%nat.
Proof.
  revert i. induction s as [|c s IH]; intros i; simpl; [done|].
  destruct (last_index sep s) as [j|]; [intros [= <-]; specialize (IH j eq_refl); lia|].
  destruct (Ascii.eqb c sep); [intros [= <-]; lia|done].
Qed.

(** ** [fmt.Sprintf("%d", n)] *)
Definition digit (n : Z) : ascii := of_byte (48 + n).

Fixpoint dec_digits (fuel : nat) (n : Z) (acc : string) : string :=
  match fuel with
  | O => acc
  | S f => let acc' := String (digit (n mod 10)) acc in
           if n <? 10 then acc' else dec_digits f (n / 10) acc'
  end.

(** Every number below [10^20] (so every 64-bit integer) has at most 20 digits. *)
Definition fmt_d (n : Z) : string :=
  if n <? 0 then "-" +:+ dec_digits 20 (- n) "" else dec_digits 20 n "".

Example fmt_d_ex : fmt_d (-1203) = "-1203".
Proof. reflexivity. Qed.
Example trim_space_ex : trim_space "  a b	
" = "a b".
Proof. reflexivity. Qed.

(** ** [fmt]'s %q: [strconv.Quote]

    Which runes outside ASCII are printable is the Unicode table's affair. *)
Definition lower_hex_digit (n : Z) : string := String (of_byte (if n <? 10 then 48 + n else 87 + n)) "".

Fixpoint hex_pad (width : nat) (n : Z) : string :=
  match width with O => "" | S w => hex_pad w (n / 16) +:+ lower_hex_digit (n mod 16) end.

Definition quote_rune (printable : Z -> bool) (seg : Z * string) : string :=
  let '(r, bytes) := seg in
  let esc (c : string) := String "092" c in
  if (r =? rune_error) && (String.length bytes =? 1)%nat then
    esc ("x" +:+ match bytes with String c _ => hex_pad 2 (byte_of c) | EmptyString => "" end)
  else if (r =? 34) || (r =? 92) then esc bytes
  else if (if r <? 128 then (32 <=? r) && (r <? 127) else printable r) then bytes
  else if r =? 7 then esc "a" else if r =? 8 then esc "b" else if r =? 12 then esc "f"
  else if r =? 10 then esc "n" else if r =? 13 then esc "r" else if r =? 9 then esc "t" else if r =? 11 then esc "v"
  else if (r <? 32) || (r =? 127) then esc ("x" +:+ hex_pad 2 r)
  else if r <? 65536 then esc ("u" +:+ hex_pad 4 r)
  else esc ("U" +:+ hex_pad 8 r).

Definition go_quote (printable : Z -> bool) (s : string) : string :=
  let q := String "034" "" in
  q +:+ fold_right (fun seg acc => quote_rune printable seg +:+ acc) "" (utf8_segs s) +:+ q.
