(* ===== verification/GoTime.v ===== *)
(** * Times as text (package time)

    [Time.Format] and [time.Parse] for the layouts the program uses:
    RFC3339Nano and RFC3339, and the two stamps of archive names.  Times are in
    UTC; the calendar is the proleptic Gregorian one.  The parser is as lenient
    as Go's: the hour may be one digit, the fraction may follow a comma. *)
From Stdlib Require Import ZArith Lia Bool Ascii String List.
From stdpp Require Import base strings option list.
From S2P Require Import Prelude GoString.

Local Open Scope string_scope.
Local Open Scope Z_scope.

(** ** The calendar: days since the epoch and civil dates

    Years start in March, so that the leap day is the last of its year; 400
    years are [146097] days. *)
Definition era_days : Z := 146097.

Definition civil_of_doe (doe : Z) : Z * Z * Z :=
  let yoe := (doe - doe / 1460 + doe / 36524 - doe / 146096) / 365 in
  let doy := doe - (365 * yoe + yoe / 4 - yoe / 100) in
  let mp := (5 * doy + 2) / 153 in
  let d := doy - (153 * mp + 2) / 5 + 1 in
  let m := if mp <? 10 then mp + 3 else mp - 9 in
  (if m <=? 2 then yoe + 1 else yoe, m, d).

Definition civil_of_days (days : Z) : Z * Z * Z :=
  let z := days + 719468 in
  let '(y, m, d) := civil_of_doe (z mod era_days) in
  (y + 400 * (z / era_days), m, d).

Definition doe_of_civil (y m d : Z) : Z :=
  365 * y + y / 4 - y / 100 + y / 400 + (153 * ((m + 9) mod 12) + 2) / 5 + d - 1.

Definition days_of_civil (y m d : Z) : Z :=
  doe_of_civil (if m <=? 2 then y - 1 else y) m d - 719468.

Definition is_leap (y : Z) : bool :=
  (y mod 4 =? 0) && (negb (y mod 100 =? 0) || (y mod 400 =? 0)).

Definition days_in (m y : Z) : Z :=
  if m =? 2 then if is_leap y then 29 else 28
  else if (m =? 4) || (m =? 6) || (m =? 9) || (m =? 11) then 30 else 31.

(** ** Digits *)

(** The decimal digits of [n mod 10^w], exactly [w] of them. *)
Fixpoint digits (w : nat) (n : Z) : string :=
  match w with
  | O => ""
  | S w' => String (digit (n / 10 ^ Z.of_nat w' mod 10)) (digits w' n)
  end.

(** [appendInt(b, x, width)]. *)
Definition append_int (w : nat) (n : Z) : string :=
  let s := fmt_d (Z.abs n) in
  (if n <? 0 then "-" else "") +:+ digits (w - String.length s) 0 +:+ s.

(** The fraction below a second: nine digits without the trailing zeros. *)
Fixpoint frac_digits (w : nat) (n : Z) : string :=
  match w with
  | O => ""
  | S w' => if n =? 0 then ""
            else String (digit (n / 10 ^ Z.of_nat w')) (frac_digits w' (n mod 10 ^ Z.of_nat w'))
  end.

(** ** Format *)

Definition day_ns : Z := 86400 * time_second.

(** Hour, minute, second and nanosecond of an instant. *)
Definition clock_of (t : Z) : Z * Z * Z * Z :=
  let s := (t mod day_ns) / time_second in
  (s / 3600, s / 60 mod 60, s mod 60, t mod time_second).

Definition fmt_date (sep : string) (t : Z) : string :=
  let '(y, m, d) := civil_of_days (t / day_ns) in
  append_int 4 y +:+ sep +:+ append_int 2 m +:+ sep +:+ append_int 2 d.

Definition fmt_clock (sep : string) (t : Z) : string :=
  let '(hh, mm, ss, _) := clock_of t in
  append_int 2 hh +:+ sep +:+ append_int 2 mm +:+ sep +:+ append_int 2 ss.

Definition nanos (t : Z) : Z := t mod time_second.

(** [t.UTC().Format(time.RFC3339)]. *)
Definition format_rfc3339 (t : Z) : string :=
  fmt_date "-" t +:+ "T" +:+ fmt_clock ":" t +:+ "Z".

(** [t.UTC().Format(time.RFC3339Nano)]. *)
Definition format_nano (t : Z) : string :=
  fmt_date "-" t +:+ "T" +:+ fmt_clock ":" t
  +:+ (if nanos t =? 0 then "" else "." +:+ frac_digits 9 (nanos t)) +:+ "Z".

(** The layouts [20060102T150405Z] and [20060102T150405.000000000Z]. *)
Definition format_stamp (t : Z) : string :=
  fmt_date "" t +:+ "T" +:+ fmt_clock "" t +:+ "Z".
Definition format_stamp_nano (t : Z) : string :=
  fmt_date "" t +:+ "T" +:+ fmt_clock "" t +:+ "." +:+ digits 9 (nanos t) +:+ "Z".

(** ** Parse *)

Definition digit_val (c : ascii) : option Z :=
  let z := byte_of c - 48 in if (0 <=? z) && (z <=? 9) then Some z else None.

Fixpoint read_digits (w : nat) (acc : Z) (s : string) : option (Z * string) :=
  match w, s with
  | O, _ => Some (acc, s)
  | S w', String c s' =>
      match digit_val c with
      | Some z => read_digits w' (10 * acc + z) s'
      | None => None
      end
  | S _, EmptyString => None
  end.

(** The digits after the period; those beyond the ninth are dropped. *)
Fixpoint read_frac (w : nat) (s : string) : Z * string :=
  match s with
  | EmptyString => (0, s)
  | String c s' =>
      match digit_val c with
      | None => (0, s)
      | Some z =>
          match w with
          | O => read_frac O s'
          | S w' => let '(v, rest) := read_frac w' s' in (z * 10 ^ Z.of_nat w' + v, rest)
          end
      end
  end.

Definition comma_or_period (c : ascii) : bool := Ascii.eqb c "." || Ascii.eqb c ",".

Definition read_fraction (s : string) : Z * string :=
  match s with
  | String p ((String c _) as s') =>
      if comma_or_period p && match digit_val c with Some _ => true | None => false end
      then read_frac 9 s' else (0, s)
  | _ => (0, s)
  end.

(** [getnum(s, false)]: one or two digits. *)
Definition read_hour (s : string) : option (Z * string) :=
  match read_digits 2 0 s with
  | Some r => Some r
  | None => read_digits 1 0 s
  end.

(** The zone: [Z], or an offset. *)
Definition read_zone (s : string) : option Z :=
  match s with
  | String "Z" EmptyString => Some 0
  | String c rest =>
      if Ascii.eqb c "+" || Ascii.eqb c "-" then
        match read_digits 2 0 rest with
        | Some (hh, String ":" rest) =>
            match read_digits 2 0 rest with
            | Some (mm, EmptyString) =>
                if (hh <=? 24) && (mm <=? 60)
                then Some ((if Ascii.eqb c "-" then -1 else 1) * (3600 * hh + 60 * mm))
                else None
            | _ => None
            end
        | _ => None
        end
      else None
  | EmptyString => None
  end.

(** [w] digits and then the separator [sep]. *)
Definition read_field (w : nat) (sep : string) (s : string) : option (Z * string) :=
  match read_digits w 0 s with
  | Some (v, rest) =>
      match strip_prefix sep rest with Some rest => Some (v, rest) | None => None end
  | None => None
  end.

Definition time_of (y m d hh mm ss ns zone : Z) : Z :=
  (days_of_civil y m d * 86400 + hh * 3600 + mm * 60 + ss - zone) * time_second + ns.

(** [time.Parse(time.RFC3339Nano, s)]; [time.RFC3339] reads the same texts. *)
Definition parse_rfc3339 (s : string) : option Z :=
  '(y, s) ← read_field 4 "-" s;
  '(m, s) ← read_field 2 "-" s;
  '(d, s) ← read_field 2 "T" s;
  '(hh, s) ← read_hour s;
  s ← strip_prefix ":" s;
  '(mm, s) ← read_field 2 ":" s;
  '(ss, s) ← read_digits 2 0 s;
  let '(ns, s) := read_fraction s in
  zone ← read_zone s;
  if (1 <=? m) && (m <=? 12) && (1 <=? d) && (d <=? days_in m y)
     && (hh <=? 23) && (mm <=? 59) && (ss <=? 59)
  then Some (time_of y m d hh mm ss ns zone) else None.

(** [t, _ = time.Parse(...)]: the zero time when the text is not one. *)
Definition parse_or_zero (s : string) : Z := default time_zero (parse_rfc3339 s).

Example format_nano_ex : format_nano 1709210096012340000 = "2024-02-29T12:34:56.01234Z".
Proof. reflexivity. Qed.
Example format_zero_ex : format_rfc3339 time_zero = "0001-01-01T00:00:00Z".
Proof. reflexivity. Qed.
Example format_stamp_ex : format_stamp_nano 1709210096012340000 = "20240229T123456.012340000Z".
Proof. reflexivity. Qed.
Example parse_offset_ex :
  parse_rfc3339 "2024-02-29T14:34:56.01234+02:00" = Some 1709210096012340000
  /\ parse_rfc3339 "2023-02-29T14:34:56Z" = None
  /\ parse_rfc3339 "1970-01-01T1:00:00,5Z" = Some 3600500000000
  /\ parse_rfc3339 "1970-01-01T1:00:00.Z" = None.
Proof. repeat split. Qed.

(** ** The calendar is a bijection *)

Definition civil_ok (doe : Z) : bool :=
  let '(y, m, d) := civil_of_doe doe in
  (0 <=? y) && (1 <=? m) && (m <=? 12) && (1 <=? d) && (d <=? days_in m y)
  && (doe_of_civil (if m <=? 2 then y - 1 else y) m d =? doe).

Fixpoint all_from (p : Z -> bool) (n : nat) (z : Z) : bool :=
  match n with O => true | S n' => p z && all_from p n' (z + 1) end.

Lemma all_from_spec p n a z : all_from p n a = true -> a <= z < a + Z.of_nat n -> p z = true.
Proof.
  revert a. induction n as [|n IH]; intros a H Hz; [lia|]. cbn [all_from] in H. bool_hyps.
  destruct (Z.eq_dec z a) as [->|]; [done|]. apply (IH (a + 1)); [done|lia].
Qed.

(** The year of a day of a 400-year period that starts in March, and the day of
    that year; the last day of a year of 366 is the 29th of February. *)
Lemma year_of_era doe :
  0 <= doe < era_days ->
  let yoe := (doe - doe / 1460 + doe / 36524 - doe / 146096) / 365 in
  let doy := doe - (365 * yoe + yoe / 4 - yoe / 100) in
  0 <= yoe < 400 /\ 0 <= doy <= 365
  /\ (doy = 365 -> (yoe + 1) mod 4 = 0 /\ ((yoe + 1) mod 100 = 0 -> (yoe + 1) mod 400 = 0)).
Proof. intros H. unfold era_days in H. cbv zeta. Z.div_mod_to_equations. lia. Qed.

(** The month and the day of a day of such a year. *)
Definition doy_ok (doy : Z) : bool :=
  let mp := (5 * doy + 2) / 153 in
  let d := doy - (153 * mp + 2) / 5 + 1 in
  let m := if mp <? 10 then mp + 3 else mp - 9 in
  (1 <=? m) && (m <=? 12) && (1 <=? d)
  && (if m =? 2 then (d <=? 28) || (doy =? 365) && (d <=? 29)
      else d <=? days_in m 0)
  && ((153 * ((m + 9) mod 12) + 2) / 5 + d - 1 =? doy).

Lemma doys : all_from doy_ok 366 0 = true.
Proof. vm_compute. reflexivity. Qed.

Lemma days_in_other m y y' : (m =? 2) = false -> days_in m y = days_in m y'.
Proof. unfold days_in. by intros ->. Qed.

(** Every day of a 400-year period is a date of the calendar. *)
Lemma civil_era doe : 0 <= doe < era_days -> civil_ok doe = true.
Proof.
  intros H. apply year_of_era in H as (Hy & Hd & Hl). cbv zeta in *. unfold civil_ok, civil_of_doe. cbv zeta.
  set (yoe := (_ / 365)) in *. set (doy := doe - (365 * _ + _ - _)) in *.
  pose proof (all_from_spec _ _ _ doy doys ltac:(lia)) as Hm. unfold doy_ok in Hm. cbv zeta in Hm.
  set (mp := (5 * doy + 2) / 153) in *. set (d := doy - (_ + 2) / 5 + 1) in *.
  set (m := if mp <? 10 then mp + 3 else mp - 9) in *. bool_hyps.
  assert (He : doe_of_civil yoe m d = doe).
  { unfold doe_of_civil. rewrite (Z.div_small yoe 400) by lia. subst doy. lia. }
  destruct (m <=? 2) eqn:E; [replace (yoe + 1 - 1) with yoe by ring|]; rewrite He.
  all: destruct (m =? 2) eqn:E2; [|rewrite (days_in_other m _ 0) by done; lia].
  - unfold days_in, is_leap. rewrite E2. destruct (doy =? 365) eqn:E3.
    + apply Z.eqb_eq in E3. destruct (Hl E3) as [H4 H100]. rewrite H4.
      destruct ((yoe + 1) mod 100 =? 0) eqn:E4; [rewrite H100 by lia|]; simpl; lia.
    + destruct (_ && (negb _ || _)); lia.
  - lia.
Qed.

Lemma days_in_era m y k : days_in m (y + 400 * k) = days_in m y.
Proof.
  unfold days_in, is_leap.
  replace (y + 400 * k) with (y + (100 * k) * 4) at 1 by ring. rewrite Z.mod_add by done.
  replace (y + 400 * k) with (y + (4 * k) * 100) at 1 by ring. rewrite Z.mod_add by done.
  replace (y + 400 * k) with (y + k * 400) by ring. by rewrite Z.mod_add.
Qed.

Lemma doe_of_civil_era y m d k : doe_of_civil (y + 400 * k) m d = doe_of_civil y m d + era_days * k.
Proof.
  unfold doe_of_civil, era_days.
  replace ((y + 400 * k) / 4) with (y / 4 + 100 * k) by (rewrite <- Z.div_add by done; f_equal; ring).
  replace ((y + 400 * k) / 100) with (y / 100 + 4 * k) by (rewrite <- Z.div_add by done; f_equal; ring).
  replace ((y + 400 * k) / 400) with (y / 400 + k) by (rewrite <- Z.div_add by done; f_equal; ring).
  ring.
Qed.

(** The civil date of a day is a date of the calendar, and it is that day's. *)
Lemma civil_spec days y m d :
  civil_of_days days = (y, m, d) ->
  1 <= m <= 12 /\ 1 <= d <= days_in m y /\ days_of_civil y m d = days.
Proof.
  unfold civil_of_days. set (z := days + 719468).
  pose proof (Z.mod_pos_bound z era_days ltac:(done)) as Hb.
  assert (H : civil_ok (z mod era_days) = true).
  { by apply civil_era. }
  unfold civil_ok in H. destruct (civil_of_doe (z mod era_days)) as [[y0 m0] d0].
  intros [= <- <- <-]. bool_hyps. rewrite days_in_era. split; [lia|]. split; [lia|].
  unfold days_of_civil. set (k := z / era_days).
  replace (if m0 <=? 2 then y0 + 400 * k - 1 else y0 + 400 * k)
    with ((if m0 <=? 2 then y0 - 1 else y0) + 400 * k) by (case_test; ring).
  rewrite doe_of_civil_era. pose proof (Z.div_mod z era_days ltac:(done)). subst k z. lia.
Qed.

(** The instants of the years 0 to 9999. *)
Definition four_digit_year (t : Z) : Prop :=
  -62167219200 * time_second <= t < 253402300800 * time_second.

(** The day of a year that starts in March: the months to December take 306 days. *)
Lemma month_days m d y :
  3 <= m <= 12 -> 1 <= d <= days_in m y -> 0 <= (153 * ((m + 9) mod 12) + 2) / 5 + d - 1 <= 305.
Proof.
  intros Hm Hd. unfold days_in in Hd.
  assert (Hc : m = 3 \/ m = 4 \/ m = 5 \/ m = 6 \/ m = 7 \/ m = 8 \/ m = 9 \/ m = 10 \/ m = 11 \/ m = 12) by lia.
  repeat destruct Hc as [->|Hc]; [..|subst m]; cbn in Hd |- *; Z.div_mod_to_equations; lia.
Qed.

Lemma days_of_civil_mono y m d :
  1 <= m <= 12 -> 1 <= d <= days_in m y ->
  days_of_civil y 1 1 <= days_of_civil y m d < days_of_civil (y + 1) 1 1.
Proof.
  intros Hm Hd. unfold days_of_civil, doe_of_civil. change (1 <=? 2) with true. cbv iota.
  change ((153 * ((1 + 9) mod 12) + 2) / 5) with 306. replace (y + 1 - 1) with y by ring.
  destruct (m <=? 2) eqn:E.
  - unfold days_in, is_leap in Hd. assert (Hc : m = 1 \/ m = 2) by lia. destruct Hc as [-> | ->]; cbn in Hd |- *.
    + Z.div_mod_to_equations. lia.
    + destruct (y mod 4 =? 0) eqn:E4, (y mod 100 =? 0) eqn:E100, (y mod 400 =? 0) eqn:E400; cbn in Hd; bool_hyps;
        Z.div_mod_to_equations; lia.
  - pose proof (month_days m d y ltac:(lia) Hd) as Hb. revert Hb. generalize ((153 * ((m + 9) mod 12) + 2) / 5).
    clear. intros. Z.div_mod_to_equations. lia.
Qed.

Lemma four_digit_year_civil t y m d :
  four_digit_year t -> civil_of_days (t / day_ns) = (y, m, d) -> 0 <= y < 10000.
Proof.
  intros Ht H. apply civil_spec in H as (Hm & Hd & Hdays).
  pose proof (days_of_civil_mono y m d Hm Hd) as Hy. rewrite Hdays in Hy.
  assert (-719528 <= t / day_ns < 2932897).
  { unfold four_digit_year, day_ns, time_second in *. Z.div_mod_to_equations. lia. }
  unfold days_of_civil, doe_of_civil in Hy. cbn in Hy. Z.div_mod_to_equations. lia.
Qed.

(** ** Reading what was written *)

Lemma digit_val_digit n : 0 <= n < 10 -> digit_val (digit n) = Some n.
Proof.
  intros H. unfold digit_val, digit, byte_of, of_byte. rewrite Z.mod_small by lia.
  rewrite N_ascii_embedding by lia. rewrite Z2N.id by lia.
  replace (48 + n - 48) with n by ring. by replace ((0 <=? n) && (n <=? 9)) with true by (symmetry; lia).
Qed.

Lemma digit_val_digits_mod n k : 0 < k -> digit_val (digit (n / k mod 10)) = Some (n / k mod 10).
Proof. intros. apply digit_val_digit, Z.mod_pos_bound. lia. Qed.

Lemma pow10_S w : 10 ^ Z.of_nat (S w) = 10 * 10 ^ Z.of_nat w.
Proof. rewrite Nat2Z.inj_succ, Z.pow_succ_r by lia. done. Qed.

Lemma pow10_pos w : 0 < 10 ^ Z.of_nat w.
Proof. apply Z.pow_pos_nonneg; lia. Qed.

Lemma read_digits_written w acc n s :
  read_digits w acc (digits w n +:+ s) = Some (acc * 10 ^ Z.of_nat w + n mod 10 ^ Z.of_nat w, s).
Proof.
  revert acc. induction w as [|w IH]; intros acc.
  - cbn [digits String.append read_digits Z.of_nat]. rewrite Z.pow_0_r, Z.mod_1_r, Z.mul_1_r, Z.add_0_r. done.
  - cbn [digits String.append read_digits].
    rewrite digit_val_digits_mod by apply pow10_pos. rewrite IH, pow10_S. do 2 f_equal.
    pose proof (pow10_pos w) as HP. clear IH. revert HP. generalize (10 ^ Z.of_nat w). intros P HP.
    rewrite (Z.mul_comm 10 P), Z.rem_mul_r by lia. ring.
Qed.

(** Two- and four-digit numbers, by computation. *)
Lemma append_int_2_all : all_from (fun n => append_int 2 n =? digits 2 n)%string 100 0 = true.
Proof. vm_compute. reflexivity. Qed.
Lemma append_int_4_all : all_from (fun n => append_int 4 n =? digits 4 n)%string (Z.to_nat 10000) 0 = true.
Proof. vm_compute. reflexivity. Qed.

Lemma append_int_2 n : 0 <= n < 100 -> append_int 2 n = digits 2 n.
Proof. intros H. apply String.eqb_eq. apply (all_from_spec _ _ _ n append_int_2_all). lia. Qed.
Lemma append_int_4 n : 0 <= n < 10000 -> append_int 4 n = digits 4 n.
Proof. intros H. apply String.eqb_eq. apply (all_from_spec _ _ _ n append_int_4_all). rewrite Z2Nat.id; lia. Qed.

Lemma read_digits_2 n s : 0 <= n < 100 -> read_digits 2 0 (append_int 2 n +:+ s) = Some (n, s).
Proof.
  intros H. rewrite append_int_2, read_digits_written by done. rewrite Z.mod_small by (cbn; lia). done.
Qed.

Lemma read_hour_2 n s : 0 <= n < 100 -> read_hour (append_int 2 n +:+ s) = Some (n, s).
Proof. intros H. unfold read_hour. by rewrite read_digits_2. Qed.

Lemma read_field_2 n sep s : 0 <= n < 100 ->
  read_field 2 sep (append_int 2 n +:+ sep +:+ s) = Some (n, s).
Proof. intros H. unfold read_field. by rewrite read_digits_2, strip_prefix_app. Qed.

Lemma read_field_4 n sep s : 0 <= n < 10000 ->
  read_field 4 sep (append_int 4 n +:+ sep +:+ s) = Some (n, s).
Proof.
  intros H. unfold read_field. rewrite append_int_4, read_digits_written by done.
  rewrite Z.mod_small by (cbn; lia). by rewrite strip_prefix_app.
Qed.

Lemma read_frac_written w n c s :
  digit_val c = None -> 0 <= n < 10 ^ Z.of_nat w ->
  read_frac w (frac_digits w n +:+ String c s) = (n, String c s).
Proof.
  intros Hc. revert n. induction w as [|w IH]; intros n Hn.
  - cbn in Hn. replace n with 0 by lia. cbn. by rewrite Hc.
  - cbn [frac_digits]. destruct (Z.eqb_spec n 0) as [->|Hne].
    + cbn [String.append read_frac]. by rewrite Hc.
    + rewrite pow10_S in Hn. pose proof (pow10_pos w).
      cbn [String.append read_frac]. rewrite digit_val_digit.
      2:{ split; [apply Z.div_pos; lia|apply Z.div_lt_upper_bound; lia]. }
      rewrite IH by (apply Z.mod_pos_bound; lia). f_equal.
      pose proof (Z.div_mod n (10 ^ Z.of_nat w)). lia.
Qed.

Lemma read_fraction_written n :
  0 <= n < time_second ->
  read_fraction ((if n =? 0 then "" else "." +:+ frac_digits 9 n) +:+ "Z") = (n, "Z").
Proof.
  intros Hn. destruct (Z.eqb_spec n 0) as [->|Hne]; [done|].
  unfold read_fraction. cbn [String.append].
  pose proof (read_frac_written 9 n "Z" "" eq_refl Hn) as H.
  cbn [frac_digits] in H |- *. destruct (Z.eqb_spec n 0) as [|_]; [done|].
  cbn [String.append] in H |- *. rewrite digit_val_digit; [by rewrite H|].
  change (10 ^ Z.of_nat 8) with 100000000. unfold time_second in Hn.
  split; [apply Z.div_pos; lia|apply Z.div_lt_upper_bound; lia].
Qed.

Lemma clock_of_bounds t hh mm ss ns :
  clock_of t = (hh, mm, ss, ns) ->
  0 <= hh < 24 /\ 0 <= mm < 60 /\ 0 <= ss < 60 /\ 0 <= ns < time_second
  /\ t mod day_ns = (3600 * hh + 60 * mm + ss) * time_second + ns.
Proof.
  unfold clock_of, day_ns, time_second. intros [= <- <- <- <-].
  Z.div_mod_to_equations. lia.
Qed.

(** An instant of a four-digit year is read back from its text. *)
Theorem parse_format_nano t : four_digit_year t -> parse_rfc3339 (format_nano t) = Some t.
Proof.
  intros Ht. unfold format_nano, fmt_date, fmt_clock, parse_rfc3339, nanos.
  destruct (civil_of_days (t / day_ns)) as [[y m] d] eqn:Ec.
  pose proof (four_digit_year_civil _ _ _ _ Ht Ec) as Hy.
  apply civil_spec in Ec as (Hm & Hd & Hdays).
  assert (days_in m y <= 31) by (unfold days_in; repeat case_match; lia).
  destruct (clock_of t) as [[[hh mm] ss] ns] eqn:Eq.
  assert (Hns : ns = t mod time_second) by (unfold clock_of in Eq; congruence).
  apply clock_of_bounds in Eq as (H1 & H2 & H3 & H4 & Hday). rewrite <- Hns.
  rewrite !str_app_assoc.
  rewrite read_field_4 by lia. cbn [mbind option_bind].
  rewrite read_field_2 by lia. cbn [mbind option_bind].
  rewrite read_field_2 by lia. cbn [mbind option_bind].
  rewrite read_hour_2 by lia. cbn [mbind option_bind].
  rewrite strip_prefix_app. cbn [mbind option_bind].
  rewrite read_field_2 by lia. cbn [mbind option_bind].
  rewrite read_digits_2 by lia. cbn [mbind option_bind].
  rewrite read_fraction_written by lia. cbn [mbind option_bind read_zone].
  replace (_ && _) with true by (symmetry; rewrite !andb_true_iff, !Z.leb_le; lia). f_equal.
  unfold time_of. rewrite Hdays. pose proof (Z.div_mod t day_ns ltac:(done)) as Hdm.
  rewrite Hday in Hdm. revert Hdm. generalize (t / day_ns). unfold day_ns. intros q Hdm.
  rewrite Hdm. ring.
Qed.

(** ** Texts of times as file names *)

Lemma digit_no_slash n : Ascii.eqb (digit (n mod 10)) "/" = false.
Proof.
  pose proof (Z.mod_pos_bound n 10 ltac:(done)) as H. generalize dependent (n mod 10). intros m Hm.
  assert (m = 0 \/ m = 1 \/ m = 2 \/ m = 3 \/ m = 4 \/ m = 5 \/ m = 6 \/ m = 7 \/ m = 8 \/ m = 9) as Hc by lia.
  by destruct Hc as [->|[->|[->|[->|[->|[->|[->|[->|[->| ->]]]]]]]]].
Qed.

Lemma digits_no_slash w n : lacks "/" (digits w n) = true.
Proof.
  unfold lacks. induction w as [|w IH]; [done|]. cbn [digits str_forall]. by rewrite digit_no_slash, IH.
Qed.

Lemma dec_digits_no_slash fuel n acc : lacks "/" acc = true -> lacks "/" (dec_digits fuel n acc) = true.
Proof.
  unfold lacks. revert n acc. induction fuel as [|fuel IH]; intros n acc Ha; [done|].
  cbn [dec_digits]. assert (str_forall (fun x => negb (Ascii.eqb x "/")) (String (digit (n mod 10)) acc) = true).
  { cbn [str_forall]. by rewrite digit_no_slash. }
  destruct (n <? 10); auto.
Qed.

Lemma fmt_d_no_slash n : lacks "/" (fmt_d n) = true.
Proof.
  unfold fmt_d, lacks. destruct (n <? 0); rewrite ?str_forall_app; cbn [str_forall andb];
    by apply dec_digits_no_slash.
Qed.

Lemma append_int_no_slash w n : lacks "/" (append_int w n) = true.
Proof.
  unfold append_int. pose proof (digits_no_slash (w - String.length (fmt_d (Z.abs n))) 0) as H1.
  pose proof (fmt_d_no_slash (Z.abs n)) as H2. unfold lacks in *.
  rewrite !str_forall_app, H1, H2. by destruct (n <? 0).
Qed.

Lemma fmt_date_no_slash sep t : lacks "/" sep = true -> lacks "/" (fmt_date sep t) = true.
Proof.
  intros Hs. unfold fmt_date. destruct (civil_of_days _) as [[y m] d]. unfold lacks in *.
  rewrite !str_forall_app, Hs. pose proof append_int_no_slash as Ha. unfold lacks in Ha. by rewrite !Ha.
Qed.

Lemma fmt_clock_no_slash sep t : lacks "/" sep = true -> lacks "/" (fmt_clock sep t) = true.
Proof.
  intros Hs. unfold fmt_clock. destruct (clock_of t) as [[[hh mm] ss] ns]. unfold lacks in *.
  rewrite !str_forall_app, Hs. pose proof append_int_no_slash as Ha. unfold lacks in Ha. by rewrite !Ha.
Qed.

Lemma format_stamp_no_slash t : lacks "/" (format_stamp t) = true.
Proof.
  unfold format_stamp. pose proof (fmt_date_no_slash "" t eq_refl) as Hd.
  pose proof (fmt_clock_no_slash "" t eq_refl) as Hc. unfold lacks in *.
  rewrite !str_forall_app, Hd, Hc. done.
Qed.

Lemma format_stamp_nano_no_slash t : lacks "/" (format_stamp_nano t) = true.
Proof.
  unfold format_stamp_nano. pose proof (fmt_date_no_slash "" t eq_refl) as Hd.
  pose proof (fmt_clock_no_slash "" t eq_refl) as Hc. pose proof (digits_no_slash 9 (nanos t)) as Hn.
  unfold lacks in *. rewrite !str_forall_app, Hd, Hc, Hn. done.
Qed.
