(* ===== verification/GoJson.v ===== *)
(** * JSON text of Go values (package encoding/json)

    The quoting of a string and the encoding of a [map[string]string], as
    [json.Marshal] writes them: keys in order, no spaces, and the characters
    of HTML, the line separators and the control characters escaped. *)
From Stdlib Require Import ZArith Lia Bool Ascii String List.
From stdpp Require Import base strings option list.
From S2P Require Import Prelude GoString.

Local Open Scope Z_scope.

Definition char (z : Z) : string := String (of_byte z) "".
Definition dquote : string := char 34.
Definition backslash : string := char 92.

Definition hex_digit (n : Z) : string := char (if n <? 10 then 48 + n else 87 + n).

Definition json_rune (seg : Z * string) : string :=
  let '(r, bytes) := seg in
  if (r =? 34) || (r =? 92) then backslash +:+ bytes
  else if r =? 8 then backslash +:+ "b"
  else if r =? 12 then backslash +:+ "f"
  else if r =? 10 then backslash +:+ "n"
  else if r =? 13 then backslash +:+ "r"
  else if r =? 9 then backslash +:+ "t"
  else if (r <? 32) || (r =? 60) || (r =? 62) || (r =? 38) then
    backslash +:+ "u00" +:+ hex_digit (r / 16) +:+ hex_digit (r mod 16)
  else if (r =? rune_error) && (String.length bytes =? 1)%nat then backslash +:+ "ufffd"
  else if r =? 8232 then backslash +:+ "u2028"
  else if r =? 8233 then backslash +:+ "u2029"
  else bytes.

Definition json_quote (s : string) : string :=
  dquote +:+ fold_right (fun seg acc => json_rune seg +:+ acc) "" (utf8_segs s) +:+ dquote.

(** The members of an object, already sorted by key. *)
Fixpoint json_members (kv : list (string * string)) : string :=
  match kv with
  | [] => ""
  | [(k, v)] => json_quote k +:+ ":" +:+ json_quote v
  | (k, v) :: kv' => json_quote k +:+ ":" +:+ json_quote v +:+ "," +:+ json_members kv'
  end.

Definition json_map (kv : list (string * string)) : string := "{" +:+ json_members kv +:+ "}".
