(* ===== verification/GoJsonParse.v ===== *)
(** * Decoding JSON (package encoding/json)

    [json_parse] checks and reads a text; the decoders store a value into a Go
    variable the way [json.Unmarshal] does: an object's members one after the
    other into the field with that name (or that name in another case), [null]
    into nothing, and a value of the wrong type nowhere, which is an error once
    everything else is stored. *)
From Stdlib Require Import ZArith Lia Bool Ascii String List.
From stdpp Require Import base gmap strings option list.
From S2P Require Import Prelude GoString.

#[local] Set Warnings "-register-all".
Local Open Scope string_scope.
Local Open Scope Z_scope.

Inductive json :=
| VNull
| VBool (b : bool)
| VNum (text : string)
| VStr (s : string)
| VArr (l : list json)
| VObj (members : list (string * json)).

(** ** Reading a text *)

Definition is_ws (c : ascii) : bool :=
  let z := byte_of c in (z =? 32) || (z =? 9) || (z =? 10) || (z =? 13).

Fixpoint skip_ws (s : string) : string :=
  match s with
  | String c s' => if is_ws c then skip_ws s' else s
  | EmptyString => s
  end.

Definition is_digit (c : ascii) : bool := (48 <=? byte_of c) && (byte_of c <=? 57).

(** The longest prefix of digits. *)
Fixpoint span_digits (s : string) : string * string :=
  match s with
  | String c s' => if is_digit c then let '(d, r) := span_digits s' in (String c d, r) else ("", s)
  | EmptyString => ("", s)
  end.

Definition hex_val (c : ascii) : option Z :=
  let z := byte_of c in
  if (48 <=? z) && (z <=? 57) then Some (z - 48)
  else if (97 <=? z) && (z <=? 102) then Some (z - 87)
  else if (65 <=? z) && (z <=? 70) then Some (z - 55)
  else None.

Definition hex4 (s : string) : option (Z * string) :=
  match s with
  | String a (String b (String c (String d r))) =>
      a ← hex_val a; b ← hex_val b; c ← hex_val c; d ← hex_val d;
      Some (a * 4096 + b * 256 + c * 16 + d, r)
  | _ => None
  end.

Definition is_surrogate (r : Z) : bool := (55296 <=? r) && (r <=? 57343).

(** [utf16.DecodeRune] of a pair. *)
Definition join_surrogates (hi lo : Z) : option Z :=
  if (55296 <=? hi) && (hi <=? 56319) && (56320 <=? lo) && (lo <=? 57343)
  then Some ((hi - 55296) * 1024 + (lo - 56320) + 65536) else None.

Definition simple_escape (c : ascii) : option Z :=
  let z := byte_of c in
  if (z =? 34) || (z =? 92) || (z =? 47) then Some z
  else if z =? 98 then Some 8
  else if z =? 102 then Some 12
  else if z =? 110 then Some 10
  else if z =? 114 then Some 13
  else if z =? 116 then Some 9
  else None.

(** A string after its opening quote: its bytes and what follows. *)
Fixpoint read_string (fuel : nat) (s : string) : option (string * string) :=
  match fuel with
  | O => None
  | S fuel =>
      match s with
      | EmptyString => None
      | String c s1 =>
          let z := byte_of c in
          if z =? 34 then Some ("", s1)
          else if z <? 32 then None
          else if negb (z =? 92) then
            '(t, r) ← read_string fuel s1; Some (String c t, r)
          else
            match s1 with
            | String "u" s2 =>
                '(r1, s3) ← hex4 s2;
                if negb (is_surrogate r1) then
                  '(t, r) ← read_string fuel s3; Some (utf8_encode r1 +:+ t, r)
                else
                  let lone := '(t, r) ← read_string fuel s3; Some (utf8_encode rune_error +:+ t, r) in
                  match s3 with
                  | String b (String "u" s4) =>
                      match (if byte_of b =? 92 then hex4 s4 else None) with
                      | Some (r2, s5) =>
                          match join_surrogates r1 r2 with
                          | Some rr => '(t, r) ← read_string fuel s5; Some (utf8_encode rr +:+ t, r)
                          | None => lone
                          end
                      | None => lone
                      end
                  | _ => lone
                  end
            | String e s2 =>
                v ← simple_escape e;
                '(t, r) ← read_string fuel s2; Some (String (of_byte v) t, r)
            | EmptyString => None
            end
      end
  end.

(** Bytes that are not UTF-8 become U+FFFD. *)
Definition valid_utf8 (s : string) : string :=
  fold_right (fun r acc => utf8_encode r +:+ acc) "" (runes s).

(** A number: its text and what follows. *)
Definition read_exp (s : string) : option (string * string) :=
  match s with
  | String e s1 =>
      if (byte_of e =? 101) || (byte_of e =? 69) then
        let '(sign, s2) := match s1 with
                           | String c s2 => if (byte_of c =? 43) || (byte_of c =? 45)
                                            then (String c "", s2) else ("", s1)
                           | EmptyString => ("", s1)
                           end in
        let '(d, r) := span_digits s2 in
        if (d =? "")%string then None else Some (String e (sign +:+ d), r)
      else Some ("", s)
  | EmptyString => Some ("", s)
  end.

Definition read_frac_part (s : string) : option (string * string) :=
  match s with
  | String "." s1 =>
      let '(d, r) := span_digits s1 in
      if (d =? "")%string then None else Some (String "." d, r)
  | _ => Some ("", s)
  end.

Definition read_int_part (s : string) : option (string * string) :=
  match s with
  | String "0" r => Some ("0", r)
  | _ => let '(d, r) := span_digits s in if (d =? "")%string then None else Some (d, r)
  end.

Definition read_number (s : string) : option (string * string) :=
  let '(sign, s1) := match s with String "-" s1 => ("-", s1) | _ => ("", s) end in
  '(i, s2) ← read_int_part s1;
  '(f, s3) ← read_frac_part s2;
  '(e, r) ← read_exp s3;
  Some (sign +:+ i +:+ f +:+ e, r).

(** A value, starting at its first byte. *)
Fixpoint read_value (fuel : nat) (s : string) : option (json * string) :=
  match fuel with
  | O => None
  | S fuel =>
      match s with
      | EmptyString => None
      | String c s1 =>
          let z := byte_of c in
          if z =? 34 then
            '(t, r) ← read_string (S (String.length s1)) s1; Some (VStr (valid_utf8 t), r)
          else if z =? 123 then
            match skip_ws s1 with
            | String "}" r => Some (VObj [], r)
            | s2 => '(ms, r) ← read_members fuel s2; Some (VObj ms, r)
            end
          else if z =? 91 then
            match skip_ws s1 with
            | String "]" r => Some (VArr [], r)
            | s2 => '(l, r) ← read_elements fuel s2; Some (VArr l, r)
            end
          else
            match strip_prefix "true" s with
            | Some r => Some (VBool true, r)
            | None =>
            match strip_prefix "false" s with
            | Some r => Some (VBool false, r)
            | None =>
            match strip_prefix "null" s with
            | Some r => Some (VNull, r)
            | None => '(t, r) ← read_number s; Some (VNum t, r)
            end end end
      end
  end
with read_elements (fuel : nat) (s : string) : option (list json * string) :=
  match fuel with
  | O => None
  | S fuel =>
      '(v, r) ← read_value fuel (skip_ws s);
      match skip_ws r with
      | String "]" r => Some ([v], r)
      | String "," r => '(l, r) ← read_elements fuel r; Some (v :: l, r)
      | _ => None
      end
  end
with read_members (fuel : nat) (s : string) : option (list (string * json) * string) :=
  match fuel with
  | O => None
  | S fuel =>
      match skip_ws s with
      | String q s1 =>
          if byte_of q =? 34 then
            '(k, r) ← read_string (S (String.length s1)) s1;
            match skip_ws r with
            | String ":" r =>
                '(v, r) ← read_value fuel (skip_ws r);
                match skip_ws r with
                | String "}" r => Some ([(valid_utf8 k, v)], r)
                | String "," r => '(l, r) ← read_members fuel r; Some ((valid_utf8 k, v) :: l, r)
                | _ => None
                end
            | _ => None
            end
          else None
      | EmptyString => None
      end
  end.

(** The whole text is one value.  Every value takes a byte of its own, so the
    length of the text bounds the recursion. *)
Definition json_parse (s : string) : option json :=
  '(v, r) ← read_value (2 * String.length s + 2) (skip_ws s);
  if (skip_ws r =? "")%string then Some v else None.

(** ** Storing a value

    A decoder takes the value and the variable's present content; the flag says
    that a value of the wrong type was met. *)
Definition decoder (A : Type) : Type := json -> A -> A * bool.

Definition dec_string : decoder string := fun v x =>
  match v with VStr s => (s, false) | VNull => (x, false) | _ => (x, true) end.

Definition dec_bool : decoder bool := fun v x =>
  match v with VBool b => (b, false) | VNull => (x, false) | _ => (x, true) end.

(** [strconv.ParseInt(text, 10, 64)] of a JSON number. *)
Definition digits_value (s : string) : option Z :=
  if (s =? "")%string then None
  else fold_left (fun acc c => match acc with
                               | Some a => if is_digit c then Some (10 * a + (byte_of c - 48)) else None
                               | None => None
                               end) (list_ascii_of_string s) (Some 0).

Definition parse_int64 (s : string) : option Z :=
  let '(sign, body) := match s with
                       | String "-" r => (-1, r)
                       | String "+" r => (1, r)
                       | _ => (1, s)
                       end in
  v ← digits_value body;
  let n := sign * v in
  if (- 2 ^ 63 <=? n) && (n <? 2 ^ 63) then Some n else None.

Definition parse_uint64 (s : string) : option Z :=
  v ← digits_value s; if v <? 2 ^ 64 then Some v else None.

Definition dec_int64 : decoder Z := fun v x =>
  match v with
  | VNum t => match parse_int64 t with Some n => (n, false) | None => (x, true) end
  | VNull => (x, false)
  | _ => (x, true)
  end.

Definition dec_uint64 : decoder Z := fun v x =>
  match v with
  | VNum t => match parse_uint64 t with Some n => (n, false) | None => (x, true) end
  | VNull => (x, false)
  | _ => (x, true)
  end.

(** A pointer: [null] is nil, anything else goes into what it points to. *)
Definition dec_ptr {A} (zero : A) (dec : decoder A) : decoder (option A) := fun v x =>
  match v with
  | VNull => (None, false)
  | _ => let '(a, err) := dec v (default zero x) in (Some a, err)
  end.

(** A slice. *)
Definition dec_slice {A} (zero : A) (dec : decoder A) : decoder (list A) := fun v x =>
  match v with
  | VNull => ([], false)
  | VArr l => fold_right (fun v acc => let '(a, e1) := dec v zero in (a :: fst acc, e1 || snd acc)) ([], false) l
  | _ => (x, true)
  end.

(** A [json.RawMessage]: [None] before anything is stored. *)
Definition dec_raw : decoder (option json) := fun v _ => (Some v, false).

(** Case folding of member names, which are compared with ASCII field names. *)
Definition fold_rune (r : Z) : Z :=
  if (97 <=? r) && (r <=? 122) then r - 32
  else if r =? 383 then 83 else if r =? 8490 then 75 else r.

Definition fold_name (s : string) : list Z := map fold_rune (runes s).

(** The field a member goes to: the one with its name, else the first one with
    its name in another case. *)
Definition field_of (names : list string) (name : string) : option string :=
  if existsb (String.eqb name) names then Some name
  else List.find (fun n => bool_decide (fold_name n = fold_name name)) names.

(** What the members of an object leave in a variable, and whether one had the
    wrong type.  A struct's fields are independent variables: its value is put
    together from theirs with [<*>]. *)
Definition reader (A : Type) : Type := list (string * json) -> A * bool.

Definition field {B} (names : list string) (n : string) (d : decoder B) (x : B) : reader B := fun ms =>
  fold_left (fun acc m =>
    if bool_decide (field_of names (fst m) = Some n) then
      let '(y, e) := d (snd m) (fst acc) in (y, snd acc || e)
    else acc) ms (x, false).

Definition reader_ret {A} (a : A) : reader A := fun _ => (a, false).

Definition reader_ap {A B} (f : reader (A -> B)) (a : reader A) : reader B := fun ms =>
  let '(g, e1) := f ms in let '(x, e2) := a ms in (g x, e1 || e2).

Declare Scope reader_scope.
Delimit Scope reader_scope with reader.
Notation "f <*> a" := (reader_ap f a) (at level 61, left associativity) : reader_scope.
Notation "f <$$> a" := (reader_ap (reader_ret f) a) (at level 61, left associativity) : reader_scope.

(** A struct: [null] leaves it as it is. *)
Definition dec_struct {A} (fields : A -> reader A) : decoder A := fun v x =>
  match v with
  | VNull => (x, false)
  | VObj ms => fields x ms
  | _ => (x, true)
  end.

(** A [map[string]string]: a member of the wrong type stores the zero value. *)
Definition dec_string_map : decoder (gmap string string) := fun v x =>
  match v with
  | VNull => (∅, false)
  | VObj ms => fold_left (fun acc m =>
      let '(s, e) := dec_string (snd m) "" in (<[fst m := s]> (fst acc), snd acc || e)) ms (x, false)
  | _ => (x, true)
  end.

Inductive json_error := ErrSyntax | ErrType.

(** [json.Unmarshal(data, &x)], with the content of [x] afterwards. *)
Definition unmarshal {A} (dec : decoder A) (zero : A) (data : string) : A * option json_error :=
  match json_parse data with
  | None => (zero, Some ErrSyntax)
  | Some v => let '(x, e) := dec v zero in (x, if e then Some ErrType else None)
  end.

(** [json.Unmarshal(raw, &x)] of a [json.RawMessage]; a missing one is empty. *)
Definition unmarshal_raw {A} (dec : decoder A) (zero : A) (raw : option json) : A * option json_error :=
  match raw with
  | None => (zero, Some ErrSyntax)
  | Some v => let '(x, e) := dec v zero in (x, if e then Some ErrType else None)
  end.

(** [json.NewDecoder(body).Decode(&x)]: the first value of the text. *)
Definition decode_stream {A} (dec : decoder A) (zero : A) (body : string) : A * option json_error :=
  match read_value (2 * String.length body + 2) (skip_ws body) with
  | None => (zero, Some ErrSyntax)
  | Some (v, _) => let '(x, e) := dec v zero in (x, if e then Some ErrType else None)
  end.

(** A JSON text written with single quotes, for the examples. *)
Definition json_text (s : string) : string :=
  string_of_list_ascii (map (fun c => if Ascii.eqb c "'" then "034"%char else c) (list_ascii_of_string s)).

Example json_parse_ex :
  json_parse (json_text " {'a': [1, -2.5e+3, true, null, 'x\u00e9\n'], 'b':{} } ")
  = Some (VObj [("a", VArr [VNum "1"; VNum "-2.5e+3"; VBool true; VNull; VStr ("xé" +:+ String "010" "")]);
                ("b", VObj [])])
  /\ json_parse "[1,]" = None /\ json_parse "01" = None.
Proof. split; [|split]; vm_compute; reflexivity. Qed.
