(* ===== verification/GoJsonProofs.v ===== *)
(** * JSON text read back (package encoding/json)

    What the encoder writes is what the decoder reads, for strings
    ([read_quoted_string]) and for whole values ([read_encoded]): the bytes of a
    string that are not UTF-8 become U+FFFD on the way. *)
From Stdlib Require Import ZArith Lia Bool Ascii String List.
From stdpp Require Import base gmap strings option list.
From S2P Require Import Prelude GoString GoJson GoJsonParse.

Local Open Scope string_scope.
Local Open Scope Z_scope.

(** ** Decoding and encoding of runes *)

Definition scalar (r : Z) : bool := (0 <=? r) && (r <=? 1114111) && negb ((55296 <=? r) && (r <=? 57343)).
Definition high_bytes (b : string) : bool := str_forall (fun c => 128 <=? byte_of c) b.

(** A segment of a decoding. *)
Definition seg_ok (seg : Z * string) : Prop :=
  scalar (fst seg) = true /\
  (snd seg = utf8_encode (fst seg) \/ fst seg = rune_error /\ String.length (snd seg) = 1%nat)
  /\ (128 <= fst seg -> high_bytes (snd seg) = true).

Lemma bad_ok a : 128 <= byte_of a -> seg_ok (bad a).
Proof.
  intros H. split_and!; [done|by right|]. intros _. cbn. rewrite andb_true_r. by apply Z.leb_le.
Qed.

Ltac seg_bytes :=
  repeat match goal with
  | H : _ && _ = true |- _ => apply andb_true_iff in H as [? ?]
  | H : (_ <=? _) = true |- _ => apply Z.leb_le in H
  | H : is_cont _ _ _ = true |- _ => unfold is_cont in H
  end.

Lemma encode_2 x y : 194 <= byte_of x <= 223 -> 128 <= byte_of y <= 191 ->
  seg_ok ((byte_of x - 192) * 64 + (byte_of y - 128), String x (String y "")).
Proof.
  intros Hx Hy. set (r := _ + _). assert (Hr : 128 <= r < 2048) by lia.
  assert (E1 : 192 + r / 64 = byte_of x) by (subst r; Z.to_euclidean_division_equations; lia).
  assert (E2 : 128 + r mod 64 = byte_of y) by (subst r; Z.to_euclidean_division_equations; lia).
  split_and!; cbn [fst snd].
  - unfold scalar. lia.
  - left. unfold utf8_encode. rewrite E1, E2, !of_byte_of.
    by destruct ((0 <=? r) && (r <? 128)) eqn:E; [lia|]; replace ((128 <=? r) && (r <? 2048)) with true by lia.
  - intros _. cbn. lia.
Qed.

Lemma encode_3 x y z lo hi : 224 <= byte_of x <= 239 -> accept_range (byte_of x) = (lo, hi) ->
  lo <= byte_of y <= hi -> 128 <= byte_of z <= 191 ->
  seg_ok ((byte_of x - 224) * 4096 + (byte_of y - 128) * 64 + (byte_of z - 128), String x (String y (String z ""))).
Proof.
  intros Hx Ha Hy Hz. set (r := _ + _ + _).
  assert (Hr : 2048 <= r < 65536 /\ ~ (55296 <= r <= 57343) /\ 128 <= byte_of y <= 191).
  { subst r. unfold accept_range in Ha. repeat case_match; injection Ha as <- <-; rewrite ?Z.eqb_eq, ?Z.eqb_neq in *; lia. }
  assert (E1 : 224 + r / 4096 = byte_of x) by (subst r; Z.to_euclidean_division_equations; lia).
  assert (E2 : 128 + (r / 64) mod 64 = byte_of y) by (subst r; Z.to_euclidean_division_equations; lia).
  assert (E3 : 128 + r mod 64 = byte_of z) by (subst r; Z.to_euclidean_division_equations; lia).
  split_and!; cbn [fst snd].
  - unfold scalar. lia.
  - left. unfold utf8_encode. rewrite E1, E2, E3, !of_byte_of.
    destruct ((0 <=? r) && (r <? 128)) eqn:E; [lia|]. destruct ((128 <=? r) && (r <? 2048)) eqn:E'; [lia|].
    destruct (_ || _ || _) eqn:E''; [lia|]. by replace (r <? 65536) with true by lia.
  - intros _. cbn. lia.
Qed.

Lemma encode_4 x y z w lo hi : 240 <= byte_of x <= 244 -> accept_range (byte_of x) = (lo, hi) ->
  lo <= byte_of y <= hi -> 128 <= byte_of z <= 191 -> 128 <= byte_of w <= 191 ->
  seg_ok ((byte_of x - 240) * 262144 + (byte_of y - 128) * 4096 + (byte_of z - 128) * 64 + (byte_of w - 128),
          String x (String y (String z (String w "")))).
Proof.
  intros Hx Ha Hy Hz Hw. set (r := _ + _ + _ + _).
  assert (Hr : 65536 <= r <= 1114111 /\ 128 <= byte_of y <= 191).
  { subst r. unfold accept_range in Ha. repeat case_match; injection Ha as <- <-; rewrite ?Z.eqb_eq, ?Z.eqb_neq in *; lia. }
  assert (E1 : 240 + r / 262144 = byte_of x) by (subst r; Z.to_euclidean_division_equations; lia).
  assert (E2 : 128 + (r / 4096) mod 64 = byte_of y) by (subst r; Z.to_euclidean_division_equations; lia).
  assert (E3 : 128 + (r / 64) mod 64 = byte_of z) by (subst r; Z.to_euclidean_division_equations; lia).
  assert (E4 : 128 + r mod 64 = byte_of w) by (subst r; Z.to_euclidean_division_equations; lia).
  split_and!; cbn [fst snd].
  - unfold scalar. lia.
  - left. unfold utf8_encode. rewrite E1, E2, E3, E4, !of_byte_of.
    destruct ((0 <=? r) && (r <? 128)) eqn:E; [lia|]. destruct ((128 <=? r) && (r <? 2048)) eqn:E'; [lia|].
    destruct (_ || _ || _) eqn:E''; [lia|]. by replace (r <? 65536) with false by lia.
  - intros _. cbn. lia.
Qed.

Lemma utf8_segs_ok s : Forall seg_ok (utf8_segs s).
Proof.
  remember (String.length s) as n eqn:Hn. revert s Hn. induction n as [n IH] using lt_wf_ind. intros [|a s] ->; [constructor|].
  assert (IH' : forall s', (String.length s' <= String.length s)%nat -> Forall seg_ok (utf8_segs s')).
  { intros s' Hl. apply (IH (String.length s')); [cbn; lia|done]. }
  clear IH. cbn [utf8_segs]. destruct (accept_range (byte_of a)) as [lo hi] eqn:Ea.
  destruct (byte_of a <? 128) eqn:E1.
  { constructor; [|by apply IH']. pose proof (byte_of_range a). split_and!; cbn [fst snd].
    - unfold scalar. lia.
    - left. unfold utf8_encode. replace (_ && _) with true by lia. by rewrite of_byte_of.
    - lia. }
  assert (Hbad : seg_ok (bad a)) by (apply bad_ok; lia).
  destruct s as [|b s]; [by constructor; [done|constructor]|].
  destruct (_ && _ && is_cont lo hi b) eqn:E2.
  { seg_bytes. constructor; [|apply IH'; cbn; lia].
    assert (lo = 128 /\ hi = 191) as [-> ->] by (unfold accept_range in Ea; repeat case_match; lia || by injection Ea).
    apply encode_2; unfold is_cont in *; lia. }
  destruct s as [|c s]; [constructor; [done|]; apply IH'; cbn; lia|].
  destruct (_ && _ && is_cont lo hi b && _) eqn:E3.
  { seg_bytes. constructor; [|apply IH'; cbn; lia]. apply (encode_3 _ _ _ lo hi); unfold is_cont in *; lia || done. }
  destruct s as [|d s]; [constructor; [done|]; apply IH'; cbn; lia|].
  destruct (_ && _ && is_cont lo hi b && _ && _) eqn:E4.
  { seg_bytes. constructor; [|apply IH'; cbn; lia]. apply (encode_4 _ _ _ _ lo hi); unfold is_cont in *; lia || done. }
  constructor; [done|]. by apply IH'.
Qed.

(** The encoding of a rune is decoded as that rune, whatever follows. *)
Lemma utf8_segs_encode r s : scalar r = true -> utf8_segs (utf8_encode r +:+ s) = (r, utf8_encode r) :: utf8_segs s.
Proof.
  unfold scalar. intros H. assert (Hr : 0 <= r <= 1114111 /\ ~ (55296 <= r <= 57343)) by lia. clear H.
  unfold utf8_encode. destruct ((0 <=? r) && (r <? 128)) eqn:E1.
  { cbn [String.append utf8_segs]. rewrite byte_of_of by lia. destruct (accept_range r). by replace (r <? 128) with true by lia. }
  destruct ((128 <=? r) && (r <? 2048)) eqn:E2.
  { set (x := 192 + r / 64). set (y := 128 + r mod 64).
    assert (194 <= x <= 223 /\ 128 <= y <= 191 /\ (x - 192) * 64 + (y - 128) = r) as (Hx & Hy & E)
      by (subst x y; Z.to_euclidean_division_equations; lia).
    cbn [String.append utf8_segs]. rewrite !byte_of_of by lia.
    destruct (accept_range x) as [lo hi] eqn:Ea. unfold is_cont. rewrite byte_of_of by lia.
    assert (lo = 128 /\ hi = 191) as [-> ->] by (unfold accept_range in Ea; repeat case_match; lia || by injection Ea).
    replace (x <? 128) with false by lia. by replace (_ && _ && _) with true by lia; rewrite E. }
  destruct (_ || _ || _) eqn:E3; [lia|]. destruct (r <? 65536) eqn:E4.
  { set (x := 224 + r / 4096). set (y := 128 + (r / 64) mod 64). set (z := 128 + r mod 64).
    assert (224 <= x <= 239 /\ 128 <= y <= 191 /\ 128 <= z <= 191 /\ (x - 224) * 4096 + (y - 128) * 64 + (z - 128) = r
            /\ (x = 224 -> 160 <= y) /\ (x = 237 -> y <= 159)) as (Hx & Hy & Hz & E & H1 & H2)
      by (subst x y z; Z.to_euclidean_division_equations; lia).
    cbn [String.append utf8_segs]. rewrite !byte_of_of by lia.
    destruct (accept_range x) as [lo hi] eqn:Ea. unfold is_cont. rewrite !byte_of_of by lia.
    assert (lo <= y <= hi) by (unfold accept_range in Ea; repeat case_match; injection Ea as <- <-; rewrite ?Z.eqb_eq, ?Z.eqb_neq in *; lia).
    replace (x <? 128) with false by lia.
    replace ((194 <=? x) && (x <=? 223) && _) with false by lia.
    by replace (_ && _ && _ && _) with true by lia; rewrite E. }
  set (x := 240 + r / 262144). set (y := 128 + (r / 4096) mod 64). set (z := 128 + (r / 64) mod 64). set (w := 128 + r mod 64).
  assert (240 <= x <= 244 /\ 128 <= y <= 191 /\ 128 <= z <= 191 /\ 128 <= w <= 191
          /\ (x - 240) * 262144 + (y - 128) * 4096 + (z - 128) * 64 + (w - 128) = r
          /\ (x = 240 -> 144 <= y) /\ (x = 244 -> y <= 143)) as (Hx & Hy & Hz & Hw & E & H1 & H2)
    by (subst x y z w; Z.to_euclidean_division_equations; lia).
  cbn [String.append utf8_segs]. rewrite !byte_of_of by lia.
  destruct (accept_range x) as [lo hi] eqn:Ea. unfold is_cont. rewrite !byte_of_of by lia.
  assert (lo <= y <= hi) by (unfold accept_range in Ea; repeat case_match; injection Ea as <- <-; rewrite ?Z.eqb_eq, ?Z.eqb_neq in *; lia).
  replace (x <? 128) with false by lia.
  replace ((194 <=? x) && (x <=? 223) && _) with false by lia.
  replace ((224 <=? x) && (x <=? 239) && _ && _) with false by lia.
  by replace (_ && _ && _ && _ && _) with true by lia; rewrite E.
Qed.

Lemma runes_valid s : runes (valid_utf8 s) = runes s.
Proof.
  unfold valid_utf8, runes. pose proof (utf8_segs_ok s) as H. induction H as [|[r b] l [Hr _] _ IH]; [done|].
  cbn [map fold_right fst] in *. rewrite utf8_segs_encode by done. cbn [map fst]. by rewrite IH.
Qed.

Lemma valid_utf8_idem s : valid_utf8 (valid_utf8 s) = valid_utf8 s.
Proof. unfold valid_utf8 at 1. by rewrite runes_valid. Qed.

(** A text of ASCII is left as it is. *)
Lemma valid_utf8_ascii s : str_forall is_ascii_byte s = true -> valid_utf8 s = s.
Proof.
  intros H. unfold valid_utf8, runes. rewrite utf8_segs_ascii by done.
  induction s as [|c s IH]; [done|]. cbn [str_forall] in H. apply andb_true_iff in H as [Hc Hs].
  cbn [list_ascii_of_string map fst fold_right]. unfold is_ascii_byte in Hc. pose proof (byte_of_range c).
  rewrite utf8_encode_ascii by lia. rewrite of_byte_of. cbn [String.append]. by rewrite IH.
Qed.

(** ** Reading a string *)

Lemma read_string_mono n : forall m s x, read_string n s = Some x -> (n <= m)%nat -> read_string m s = Some x.
Proof.
  induction n as [|n IH]; intros [|m] s x H Hm; try done; [lia|].
  assert (Hn : (n <= m)%nat) by lia. cbn [read_string] in *.
  repeat (case_match; simplify_option_eq; try done);
    repeat match goal with
    | H : read_string n ?s = Some ?y |- _ => rewrite (IH m s y H Hn); clear H
    end; simplify_option_eq; try done.
Qed.

Lemma hex4_length s r s' : hex4 s = Some (r, s') -> String.length s = (4 + String.length s')%nat.
Proof.
  unfold hex4. intros H. do 4 (destruct s as [|? s]; [done|]). by simplify_option_eq.
Qed.

(** A text that is read is read with any fuel above its length. *)
Lemma read_string_fuel n : forall m s x, read_string n s = Some x -> (String.length s < m)%nat -> read_string m s = Some x.
Proof.
  induction n as [|n IH]; intros [|m] s x H Hm; try done; [lia|].
  cbn [read_string] in *.
  repeat (case_match; simplify_option_eq; try done);
    repeat match goal with H : hex4 _ = Some _ |- _ => apply hex4_length in H end; cbn [String.length] in *;
    repeat match goal with
    | H : read_string n ?s = Some ?y |- _ => rewrite (IH m s y H) by (cbn [String.length]; lia); clear H
    end; simplify_option_eq; try done.
Qed.

Lemma json_hex_digit n : 0 <= n < 16 -> exists c, hex_digit n = String c "" /\ hex_val c = Some n.
Proof.
  intros H. eexists. split; [reflexivity|].
  assert (Hall : forallb (fun k => bool_decide (hex_val (of_byte (if Z.of_nat k <? 10 then 48 + Z.of_nat k else 87 + Z.of_nat k)) = Some (Z.of_nat k))) (seq 0 16) = true) by (vm_compute; reflexivity).
  rewrite forallb_forall in Hall. specialize (Hall (Z.to_nat n)). rewrite in_seq, Z2Nat.id in Hall by lia.
  apply bool_decide_eq_true in Hall; [exact Hall|lia].
Qed.

(** What the text of a rune is read as. *)
Section read_rune.
Context (n : nat) (s t rest : string) (Hs : read_string n s = Some (t, rest)).

Lemma read_plain c : byte_of c <> 34 -> byte_of c <> 92 -> 32 <= byte_of c ->
  read_string (S n) (String c s) = Some (String c t, rest).
Proof.
  intros H1 H2 H3. cbn [read_string]. replace (byte_of c =? 34) with false by lia. replace (byte_of c <? 32) with false by lia.
  replace (byte_of c =? 92) with false by lia. cbn [negb]. by rewrite Hs.
Qed.

Lemma read_simple e v : e <> "u"%char -> simple_escape e = Some v ->
  read_string (S n) (String "\" (String e s)) = Some (String (of_byte v) t, rest).
Proof.
  intros He Hv. cbn [read_string]. change (byte_of "\") with 92. cbn [Z.eqb Z.ltb Z.compare Pos.eqb Pos.compare Pos.compare_cont negb].
  destruct e as [[] [] [] [] [] [] [] []]; try done; rewrite Hv; cbn; by rewrite Hs.
Qed.

Lemma read_unicode h r : hex4 (h +:+ s) = Some (r, s) -> is_surrogate r = false ->
  read_string (S n) (String "\" (String "u" (h +:+ s))) = Some (utf8_encode r +:+ t, rest).
Proof.
  intros Hh Hr. cbn [read_string]. change (byte_of "\") with 92. cbn [Z.eqb Z.ltb Z.compare Pos.eqb Pos.compare Pos.compare_cont negb].
  rewrite Hh. cbn. rewrite Hr. cbn. by rewrite Hs.
Qed.
End read_rune.

Lemma read_high b : forall n s t rest, high_bytes b = true -> read_string n s = Some (t, rest) ->
  exists m, read_string m (b +:+ s) = Some (b +:+ t, rest).
Proof.
  induction b as [|c b IH]; intros n s t rest Hb Hs; [by exists n|].
  cbn in Hb. apply andb_true_iff in Hb as [Hc Hb]. apply Z.leb_le in Hc.
  destruct (IH n s t rest Hb Hs) as [m Hm]. exists (S m). cbn [String.append]. apply read_plain; [done|lia..].
Qed.

Lemma read_json_rune r b n s t rest : seg_ok (r, b) -> read_string n s = Some (t, rest) ->
  exists m, read_string m (json_rune (r, b) +:+ s) = Some (utf8_encode r +:+ t, rest).
Proof.
  intros (Hr & Hb & Hh) Hs. cbn [fst snd] in *. unfold scalar in Hr.
  assert (Hlow : r < 128 -> b = String (of_byte r) "" /\ utf8_encode r = String (of_byte r) "").
  { intros H. rewrite utf8_encode_ascii by lia. split; [|done].
    destruct Hb as [->|[-> _]]; [by rewrite utf8_encode_ascii by lia|by compute in H]. }
  unfold json_rune.
  destruct ((r =? 34) || (r =? 92)) eqn:E1.
  { destruct Hlow as [-> ->]; [lia|]. exists (S n).
    assert (r = 34 \/ r = 92) as [-> | ->] by lia; by apply read_simple. }
  destruct (Z.eqb_spec r 8) as [->|]; [exists (S n); by apply read_simple|].
  destruct (Z.eqb_spec r 12) as [->|]; [exists (S n); by apply read_simple|].
  destruct (Z.eqb_spec r 10) as [->|]; [exists (S n); by apply read_simple|].
  destruct (Z.eqb_spec r 13) as [->|]; [exists (S n); by apply read_simple|].
  destruct (Z.eqb_spec r 9) as [->|]; [exists (S n); by apply read_simple|].
  destruct ((r <? 32) || (r =? 60) || (r =? 62) || (r =? 38)) eqn:E2.
  { exists (S n). destruct (json_hex_digit (r / 16)) as (c1 & Hc1 & Hv1); [Z.to_euclidean_division_equations; lia|].
    destruct (json_hex_digit (r mod 16)) as (c2 & Hc2 & Hv2); [Z.to_euclidean_division_equations; lia|].
    rewrite Hc1, Hc2. apply (read_unicode n s t rest Hs (String "0" (String "0" (String c1 (String c2 ""))))).
    - cbn [hex4 String.append]. change (hex_val "0") with (Some 0). rewrite Hv1, Hv2. cbn [mbind option_bind].
      do 2 f_equal. Z.to_euclidean_division_equations; lia.
    - unfold is_surrogate. lia. }
  destruct ((r =? rune_error) && _) eqn:E3.
  { apply andb_true_iff in E3 as [->%Z.eqb_eq _]. exists (S n). by apply (read_unicode n s t rest Hs "fffd"). }
  destruct (Z.eqb_spec r 8232) as [->|]; [exists (S n); by apply (read_unicode n s t rest Hs "2028")|].
  destruct (Z.eqb_spec r 8233) as [->|]; [exists (S n); by apply (read_unicode n s t rest Hs "2029")|].
  assert (Eb : b = utf8_encode r).
  { destruct Hb as [->|[-> Hl]]; [done|]. rewrite Hl in E3. by cbn in E3. }
  destruct (Z.ltb_spec r 128) as [Hlt|Hge].
  - destruct Hlow as [_ El]; [done|]. rewrite Eb, El. exists (S n). cbn [String.append].
    apply read_plain; [done|rewrite byte_of_of by lia; lia..].
  - rewrite <- Eb. eapply read_high; eauto.
Qed.

(** A quoted string followed by anything is read to its closing quote. *)
Lemma read_quoted_string s rest :
  exists text, json_quote s +:+ rest = String "034" (text +:+ String "034" rest)
  /\ read_string (S (String.length (text +:+ String "034" rest))) (text +:+ String "034" rest) = Some (valid_utf8 s, rest).
Proof.
  exists (fold_right (fun seg acc => json_rune seg +:+ acc) "" (utf8_segs s)). split.
  - unfold json_quote. by rewrite !str_app_assoc.
  - assert (H : exists m, read_string m (fold_right (fun seg acc => json_rune seg +:+ acc) "" (utf8_segs s) +:+ String "034" rest)
                = Some (valid_utf8 s, rest)).
    { unfold valid_utf8, runes. pose proof (utf8_segs_ok s) as H. induction H as [|[r b] l Hr _ IH]; [by exists 1%nat|].
      destruct IH as [n Hn]. cbn [fold_right map fst]. rewrite str_app_assoc. eapply read_json_rune; eauto. }
    destruct H as [m Hm]. eapply read_string_fuel; [exact Hm|lia].
Qed.

(** ** Reading a number *)

(** What may come after a number. *)
Definition ends_value (s : string) : bool :=
  match s with
  | "" => true
  | String c _ => negb (is_digit c || Ascii.eqb c "." || Ascii.eqb c "e" || Ascii.eqb c "E")
  end.

Lemma span_digits_app s rest : ends_value rest = true ->
  span_digits (s +:+ rest) = (fst (span_digits s), snd (span_digits s) +:+ rest).
Proof.
  intros Hr. induction s as [|c s IH]; cbn [String.append span_digits].
  - destruct rest as [|c rest]; [done|]. cbn in *. by destruct (is_digit c).
  - destruct (is_digit c); [|done]. rewrite IH. by destruct (span_digits s).
Qed.

Lemma read_int_part_app s d r rest : ends_value rest = true -> read_int_part s = Some (d, r) ->
  read_int_part (s +:+ rest) = Some (d, r +:+ rest).
Proof.
  intros Hr. destruct s as [|c s]; [done|]. unfold read_int_part.
  pose proof (span_digits_app (String c s) rest Hr) as E. cbn [String.append] in *. rewrite E. clear E.
  destruct (span_digits (String c s)) as [d' r']. cbn [fst snd].
  destruct c as [[] [] [] [] [] [] [] []]; try (destruct (d' =? "")%string; [done|]); by intros [= <- <-].
Qed.

Lemma read_frac_part_app s d r rest : ends_value rest = true -> read_frac_part s = Some (d, r) ->
  read_frac_part (s +:+ rest) = Some (d, r +:+ rest).
Proof.
  intros Hr. destruct s as [|c s].
  { intros [= <- <-]. cbn [String.append]. destruct rest as [|c rest]; [done|]. unfold ends_value in Hr.
    apply negb_true_iff in Hr. rewrite !orb_false_iff in Hr. destruct Hr as [[[_ Hd] _] _].
    destruct c as [[] [] [] [] [] [] [] []]; done. }
  unfold read_frac_part. cbn [String.append]. rewrite span_digits_app by done. destruct (span_digits s) as [d' r']. cbn [fst snd].
  destruct c as [[] [] [] [] [] [] [] []]; try (destruct (d' =? "")%string; [done|]); by intros [= <- <-].
Qed.

Lemma read_exp_app s d r rest : ends_value rest = true -> read_exp s = Some (d, r) ->
  read_exp (s +:+ rest) = Some (d, r +:+ rest).
Proof.
  intros Hr. destruct s as [|e s].
  { intros [= <- <-]. cbn [String.append]. destruct rest as [|c rest]; [done|]. unfold ends_value in Hr.
    apply negb_true_iff in Hr. rewrite !orb_false_iff in Hr. destruct Hr as [[_ H1] H2].
    unfold read_exp. destruct ((byte_of c =? 101) || _) eqn:E; [|done].
    exfalso. apply orb_true_iff in E as [E%Z.eqb_eq|E%Z.eqb_eq]; rewrite <- (of_byte_of c), E in H1, H2; done. }
  unfold read_exp. cbn [String.append]. destruct ((byte_of e =? 101) || _); [|by intros [= <- <-]].
  destruct s as [|c s]; [done|]. cbn [String.append]. pose proof (span_digits_app (String c s) rest Hr) as E. cbn [String.append] in E.
  destruct ((byte_of c =? 43) || _).
  - rewrite span_digits_app by done. destruct (span_digits s) as [d' r']. cbn [fst snd]. destruct (d' =? "")%string; [done|]. by intros [= <- <-].
  - rewrite E. destruct (span_digits (String c s)) as [d' r']. cbn [fst snd]. destruct (d' =? "")%string; [done|]. by intros [= <- <-].
Qed.

Lemma read_number_app s t r rest : ends_value rest = true -> read_number s = Some (t, r) ->
  read_number (s +:+ rest) = Some (t, r +:+ rest).
Proof.
  intros Hr. unfold read_number. destruct s as [|c s]; [done|]. cbn [String.append].
  assert (H : forall sign s1, (
    '(i, s2) ← read_int_part s1; '(f, s3) ← read_frac_part s2; '(e, r0) ← read_exp s3; Some (sign +:+ i +:+ f +:+ e, r0)) = Some (t, r) ->
    ('(i, s2) ← read_int_part (s1 +:+ rest); '(f, s3) ← read_frac_part s2; '(e, r0) ← read_exp s3; Some (sign +:+ i +:+ f +:+ e, r0))
    = Some (t, r +:+ rest)).
  { intros sign s1 H. destruct (read_int_part s1) as [[i s2]|] eqn:E1; [|done]. rewrite (read_int_part_app _ _ _ _ Hr E1).
    cbn [mbind option_bind] in *. destruct (read_frac_part s2) as [[f s3]|] eqn:E2; [|done]. rewrite (read_frac_part_app _ _ _ _ Hr E2).
    cbn [mbind option_bind] in *. destruct (read_exp s3) as [[e r0]|] eqn:E3; [|done]. rewrite (read_exp_app _ _ _ _ Hr E3).
    cbn [mbind option_bind] in *. by injection H as <- <-. }
  destruct c as [[] [] [] [] [] [] [] []]; first [apply (H "-" s)|apply (H "")].
Qed.

(** A text that is a number and nothing else. *)
Definition is_number (t : string) : bool := match read_number t with Some (t', "") => (t' =? t)%string | _ => false end.

Lemma is_number_app t rest : is_number t = true -> ends_value rest = true -> read_number (t +:+ rest) = Some (t, rest).
Proof.
  unfold is_number. intros H Hr. destruct (read_number t) as [[t' []]|] eqn:E; try done. apply String.eqb_eq in H as ->.
  exact (read_number_app _ _ _ _ Hr E).
Qed.

Lemma is_number_head t : is_number t = true ->
  exists c s, t = String c s /\ (is_digit c = true \/ c = "-"%char).
Proof.
  unfold is_number. destruct t as [|c s]; [done|]. intros H. exists c, s. split; [done|].
  destruct (decide (c = "-"%char)) as [->|Hne]; [by right|left]. destruct (is_digit c) eqn:Ed; [done|exfalso].
  assert (E : read_int_part (String c s) = None).
  { unfold read_int_part. cbn [span_digits]. rewrite Ed. cbn.
    destruct c as [[] [] [] [] [] [] [] []]; try done. }
  unfold read_number in H. destruct c as [[] [] [] [] [] [] [] []]; first [by rewrite E in H|done].
Qed.

(** ** Values *)

Fixpoint encode_json (v : json) : string :=
  match v with
  | VNull => "null"
  | VBool b => if b then "true" else "false"
  | VNum t => t
  | VStr s => json_quote s
  | VArr l => "[" +:+ str_join (map encode_json l) "," +:+ "]"
  | VObj ms => "{" +:+ str_join (map (fun kv => json_quote (fst kv) +:+ ":" +:+ encode_json (snd kv)) ms) "," +:+ "}"
  end.

(** A value whose numbers are. *)
Fixpoint encodable (v : json) : bool :=
  match v with
  | VNum t => is_number t
  | VArr l => forallb encodable l
  | VObj ms => forallb (fun kv => encodable (snd kv)) ms
  | _ => true
  end.

Fixpoint valid_json (v : json) : json :=
  match v with
  | VStr s => VStr (valid_utf8 s)
  | VArr l => VArr (map valid_json l)
  | VObj ms => VObj (map (fun kv => (valid_utf8 (fst kv), valid_json (snd kv))) ms)
  | _ => v
  end.

Section json_induction.
Context (P : json -> Prop).
Context (Hnull : P VNull) (Hbool : forall b, P (VBool b)) (Hnum : forall t, P (VNum t)) (Hstr : forall s, P (VStr s)).
Context (Harr : forall l, Forall P l -> P (VArr l)) (Hobj : forall ms, Forall (fun kv => P (snd kv)) ms -> P (VObj ms)).

Fixpoint json_nested_ind (v : json) : P v :=
  match v with
  | VNull => Hnull | VBool b => Hbool b | VNum t => Hnum t | VStr s => Hstr s
  | VArr l => Harr l ((fix go l : Forall P l := match l with [] => @List.Forall_nil _ _ | v :: l => @List.Forall_cons _ _ v l (json_nested_ind v) (go l) end) l)
  | VObj ms => Hobj ms ((fix go ms : Forall (fun kv => P (snd kv)) ms :=
      match ms with [] => @List.Forall_nil _ _ | kv :: ms => @List.Forall_cons _ _ kv ms (json_nested_ind (snd kv)) (go ms) end) ms)
  end.
End json_induction.

Definition starts_value (s : string) : Prop :=
  exists c r, s = String c r /\ is_ws c = false /\ c <> "]"%char /\ c <> "}"%char.

Lemma json_quote_head s : exists r, json_quote s = String "034" r.
Proof. by eexists. Qed.

Lemma encode_starts v : encodable v = true -> starts_value (encode_json v).
Proof.
  intros H. destruct v as [|b|t|s|l|ms]; cbn [encode_json encodable] in *; try (by eexists _, _).
  - destruct b; by eexists _, _.
  - apply is_number_head in H as (c & s & -> & Hc). exists c, s. split; [done|].
    destruct Hc as [Hc| ->]; [|done]. unfold is_digit in Hc. apply andb_true_iff in Hc as [H1%Z.leb_le H2%Z.leb_le].
    split_and!; [unfold is_ws; cbv zeta; lia|intros ->; by compute in H2|intros ->; by compute in H2].
Qed.

Lemma skip_ws_starts s : starts_value s -> skip_ws s = s.
Proof. intros (c & r & -> & Hc & _). cbn. by rewrite Hc. Qed.

Lemma starts_app s t : starts_value s -> starts_value (s +:+ t).
Proof. intros (c & r & -> & H). exists c, (r +:+ t). done. Qed.

Lemma starts_length s : starts_value s -> (1 <= String.length s)%nat.
Proof. intros (c & r & -> & _). cbn. lia. Qed.

Definition reads_back (v : json) : Prop := forall fuel rest,
  encodable v = true -> ends_value rest = true -> (2 * String.length (encode_json v) <= fuel)%nat ->
  read_value fuel (encode_json v +:+ rest) = Some (valid_json v, rest).

Lemma join_cons x y l : str_join (x :: y :: l) "," = x +:+ "," +:+ str_join (y :: l) ",".
Proof. done. Qed.

Lemma elements_read_back l : forall fuel rest, l <> [] -> Forall reads_back l -> forallb encodable l = true ->
  (1 + 2 * String.length (str_join (map encode_json l) ",") <= fuel)%nat ->
  read_elements fuel (str_join (map encode_json l) "," +:+ String "]" rest) = Some (map valid_json l, rest).
Proof.
  induction l as [|v l IH]; intros [|fuel] rest Hne Hl He Hf; try done; [lia|].
  inversion Hl as [|? ? Hv Hl']; subst. cbn [forallb] in He. apply andb_true_iff in He as [He He'].
  destruct l as [|w l].
  - cbn [map str_join String.concat] in *. cbn [read_elements]. rewrite skip_ws_starts by by apply starts_app, encode_starts.
    rewrite Hv; [|done..|lia]. done.
  - cbn [map] in *. rewrite join_cons in *. rewrite !str_app_assoc, !str_app_length in *. cbn [read_elements String.length] in *.
    rewrite skip_ws_starts by by apply starts_app, encode_starts.
    rewrite Hv; [|done..|lia]. cbn [mbind option_bind String.append skip_ws]. change (is_ws ",") with false. cbn iota.
    rewrite IH; [done..|]. lia.
Qed.

Lemma members_read_back ms : forall fuel rest, ms <> [] -> Forall (fun kv => reads_back (snd kv)) ms ->
  forallb (fun kv => encodable (snd kv)) ms = true ->
  let text := str_join (map (fun kv => json_quote (fst kv) +:+ ":" +:+ encode_json (snd kv)) ms) "," in
  (1 + 2 * String.length text <= fuel)%nat ->
  read_members fuel (text +:+ String "}" rest) = Some (map (fun kv => (valid_utf8 (fst kv), valid_json (snd kv))) ms, rest).
Proof.
  induction ms as [|[k v] ms IH]; intros [|fuel] rest Hne Hl He text Hf; subst text; try done; [lia|].
  inversion Hl as [|? ? Hv Hl']; subst. cbn [forallb fst snd] in *. apply andb_true_iff in He as [He He'].
  assert (Hkey : forall tail, 
    (2 * String.length (encode_json v) <= fuel)%nat -> ends_value tail = true ->
    read_members (S fuel) (json_quote k +:+ ":" +:+ encode_json v +:+ tail) =
    match skip_ws tail with
    | String "}" r => Some ([(valid_utf8 k, valid_json v)], r)
    | String "," r => '(l, r) ← read_members fuel r; Some ((valid_utf8 k, valid_json v) :: l, r)
    | _ => None
    end).
  { intros tail Hlen Htail. destruct (read_quoted_string k (":" +:+ encode_json v +:+ tail)) as (text & -> & Ht).
    cbn [read_members skip_ws]. change (is_ws "034") with false. cbn iota. change (byte_of "034" =? 34) with true. cbn iota.
    rewrite Ht. cbn [mbind option_bind String.append skip_ws]. change (is_ws ":") with false. cbn iota.
    rewrite skip_ws_starts by by apply starts_app, encode_starts. rewrite Hv by done. cbn [mbind option_bind].
    by rewrite valid_utf8_idem. }
  destruct ms as [|[k' v'] ms].
  - cbn [map str_join String.concat fst snd] in *. rewrite !str_app_length in Hf. cbn [String.length] in Hf.
    rewrite !str_app_assoc. rewrite Hkey; [done|lia|done].
  - cbn [map] in *. rewrite join_cons in *. cbn [fst snd] in *. rewrite !str_app_length in Hf. cbn [String.length] in Hf.
    rewrite !str_app_assoc. rewrite Hkey; [|lia|done]. cbn [String.append skip_ws]. change (is_ws ",") with false. cbn iota.
    rewrite IH; [done..|]. lia.
Qed.

Lemma all_read_back v : reads_back v.
Proof.
  induction v as [|b|t|s|l Hl|ms Hm] using json_nested_ind; intros [|fuel] rest He Hr Hf;
    try (pose proof (starts_length _ (encode_starts _ He)); lia).
  - done.
  - by destruct b.
  - cbn [encode_json valid_json encodable] in *. pose proof (is_number_app _ _ He Hr) as E.
    destruct (is_number_head _ He) as (c & s & -> & Hc). cbn [String.append] in *. cbn [read_value].
    assert (Hb : (48 <= byte_of c <= 57) \/ byte_of c = 45).
    { destruct Hc as [Hc| ->]; [left; unfold is_digit in Hc; lia|by right]. }
    replace (byte_of c =? 34) with false by lia. replace (byte_of c =? 123) with false by lia. replace (byte_of c =? 91) with false by lia.
    assert (Hp : forall d p, byte_of d <> byte_of c -> strip_prefix (String d p) (String c (s +:+ rest)) = None).
    { intros d p Hne. cbn. destruct (Ascii.eqb_spec d c) as [->|]; done. }
    rewrite !Hp by (match goal with |- byte_of ?d <> _ => change (byte_of d) with (ltac:(let v := eval vm_compute in (byte_of d) in exact v)) end; lia).
    by rewrite E.
  - cbn [encode_json valid_json]. destruct (read_quoted_string s rest) as (text & -> & Ht).
    cbn [read_value]. change (byte_of "034" =? 34) with true. cbn iota. rewrite Ht. cbn [mbind option_bind]. by rewrite valid_utf8_idem.
  - cbn [encode_json valid_json encodable] in *. rewrite !str_app_length in Hf. cbn [String.length] in Hf.
    destruct l as [|v l].
    + done.
    + cbn [String.append read_value]. change (byte_of "[" =? 34) with false. change (byte_of "[" =? 123) with false.
      change (byte_of "[" =? 91) with true. cbn iota. rewrite str_app_assoc. cbn [String.append].
      assert (Hs : starts_value (str_join (map encode_json (v :: l)) "," +:+ String "]" rest)).
      { apply starts_app. cbn [forallb] in He. apply andb_true_iff in He as [He _]. cbn [map]. destruct l; [by apply encode_starts|].
        cbn [map]. rewrite join_cons. by apply starts_app, encode_starts. }
      rewrite skip_ws_starts by done. assert (E := elements_read_back (v :: l) fuel rest ltac:(done) Hl He ltac:(lia)).
      revert E Hs. generalize (str_join (map encode_json (v :: l)) "," +:+ String "]" rest).
      intros text E (c & r & -> & _ & Hc & _). destruct c as [[] [] [] [] [] [] [] []]; try (rewrite E; reflexivity); exfalso; apply Hc; reflexivity.
  - cbn [encode_json valid_json encodable] in *. rewrite !str_app_length in Hf. cbn [String.length] in Hf.
    destruct ms as [|kv ms].
    + done.
    + cbn [String.append read_value]. change (byte_of "{" =? 34) with false. change (byte_of "{" =? 123) with true.
      cbn iota. rewrite str_app_assoc. cbn [String.append].
      assert (Hs : starts_value (str_join (map (fun kv => json_quote (fst kv) +:+ ":" +:+ encode_json (snd kv)) (kv :: ms)) "," +:+ String "}" rest)).
      { apply starts_app. cbn [map]. destruct ms; [|cbn [map]; rewrite join_cons; apply starts_app].
        all: cbn [str_join String.concat]; apply starts_app; destruct (json_quote_head (fst kv)) as [r ->]; by eexists _, _. }
      rewrite skip_ws_starts by done. assert (E := members_read_back (kv :: ms) fuel rest ltac:(done) Hm He ltac:(cbn zeta; lia)).
      cbn zeta in E. cbn [String.append] in E, Hs. revert E Hs. match goal with |- _ -> starts_value ?t -> _ => generalize t end.
      intros text E (c & r & -> & _ & _ & Hc). destruct c as [[] [] [] [] [] [] [] []]; try (rewrite E; reflexivity); exfalso; apply Hc; reflexivity.
Qed.

(** A text that is an encoding is read as the value, with its strings made valid;
    a stream is read to the end of the first value. *)
Lemma json_parse_encoded v : encodable v = true -> json_parse (encode_json v) = Some (valid_json v).
Proof.
  intros He. unfold json_parse. rewrite <- (str_app_nil_r (encode_json v)) at 2.
  rewrite skip_ws_starts by by apply starts_app, encode_starts. rewrite all_read_back by (done || lia). done.
Qed.

Lemma decode_encoded {A} (dec : decoder A) zero v rest : encodable v = true -> ends_value rest = true ->
  decode_stream dec zero (encode_json v +:+ rest) =
  (fst (dec (valid_json v) zero), if snd (dec (valid_json v) zero) then Some ErrType else None).
Proof.
  intros He Hr. unfold decode_stream. rewrite skip_ws_starts by by apply starts_app, encode_starts.
  rewrite all_read_back; [|done|done|rewrite str_app_length; lia]. by destruct (dec (valid_json v) zero).
Qed.

Lemma decode_exact {A} (dec : decoder A) zero v x :
  encodable v = true -> dec (valid_json v) zero = (x, false) -> decode_stream dec zero (encode_json v) = (x, None).
Proof. intros He Hd. rewrite <- (str_app_nil_r (encode_json v)), decode_encoded, Hd by done. done. Qed.

(** ** Decimal integers *)

Lemma is_digit_digit n : 0 <= n < 10 -> is_digit (digit n) = true /\ byte_of (digit n) = 48 + n.
Proof. intros H. unfold digit, is_digit. rewrite byte_of_of by lia. lia. Qed.

(** The digits of a number, most significant first. *)
Lemma dec_digits_shape fuel : forall n acc, 0 <= n < 10 ^ Z.of_nat fuel -> (0 < fuel)%nat ->
  exists d s, dec_digits fuel n acc = String d s +:+ acc
  /\ str_forall is_digit (String d s) = true /\ (d = "0"%char -> s = "")
  /\ forall v, fold_left (fun acc c => match acc with Some a => if is_digit c then Some (10 * a + (byte_of c - 48)) else None | None => None end)
       (list_ascii_of_string (String d s)) (Some v) = Some (v * 10 ^ Z.of_nat (String.length (String d s)) + n).
Proof.
  induction fuel as [|fuel IH]; intros n acc Hn Hf; [lia|]. cbn [dec_digits].
  assert (Hm : 0 <= n mod 10 < 10) by (apply Z.mod_pos_bound; lia). destruct (is_digit_digit _ Hm) as [Hd Hb].
  destruct (n <? 10) eqn:E.
  - apply Z.ltb_lt in E. exists (digit (n mod 10)), "". split_and!; [done|cbn; by rewrite Hd|done|].
    intros v. cbn [list_ascii_of_string fold_left]. rewrite Hd, Hb. f_equal. rewrite Z.mod_small by lia. cbn [String.length]. change (10 ^ Z.of_nat 1) with 10. lia.
  - apply Z.ltb_ge in E. assert (Hq : 0 <= n / 10 < 10 ^ Z.of_nat fuel).
    { rewrite Nat2Z.inj_succ, Z.pow_succ_r in Hn by lia. split; [apply Z.div_pos; lia|apply Z.div_lt_upper_bound; lia]. }
    destruct fuel as [|fuel]; [cbn in Hq; Z.to_euclidean_division_equations; lia|].
    destruct (IH (n / 10) (String (digit (n mod 10)) acc) Hq ltac:(lia)) as (d & s & -> & Hs & Hz & Hv).
    exists d, (s +:+ String (digit (n mod 10)) ""). split_and!.
    + cbn [String.append]. by rewrite str_app_assoc.
    + cbn [str_forall] in *. rewrite str_forall_app. cbn. rewrite Hd. apply andb_true_iff in Hs as [-> ->]. done.
    + intros ->. specialize (Hz eq_refl) as ->. assert (E0 : Some 0 = Some (n / 10)) by exact (Hv 0).
      injection E0 as E0. clear Hv. Z.to_euclidean_division_equations; lia.
    + intros v. cbn [list_ascii_of_string String.length].
      assert (El : forall a b, list_ascii_of_string (a +:+ b) = (list_ascii_of_string a ++ list_ascii_of_string b)%list).
      { induction a as [|c a IHa]; intros b; [done|]. cbn. by rewrite IHa. }
      rewrite El, app_comm_cons, fold_left_app. change (d :: list_ascii_of_string s) with (list_ascii_of_string (String d s)). rewrite Hv.
      cbn [list_ascii_of_string fold_left]. rewrite Hd, Hb, str_app_length. cbn [String.length].
      f_equal. rewrite Nat.add_1_r, (Nat2Z.inj_succ (S _)), Z.pow_succ_r by lia. Z.to_euclidean_division_equations; lia.
Qed.

Lemma fmt_d_shape n : - 10 ^ 20 < n < 10 ^ 20 ->
  exists d s, fmt_d n = (if n <? 0 then "-" else "") +:+ String d s
  /\ str_forall is_digit (String d s) = true /\ (d = "0"%char -> s = "") /\ digits_value (String d s) = Some (Z.abs n).
Proof.
  intros H. unfold fmt_d. destruct (Z.ltb_spec n 0).
  - destruct (dec_digits_shape 20 (- n) "") as (d & s & E & Hd & Hz & Hv); [cbn; lia|lia|]. exists d, s.
    rewrite E, str_app_nil_r. split_and!; [done..|]. unfold digits_value. cbn [String.eqb]. rewrite Hv. f_equal. lia.
  - destruct (dec_digits_shape 20 n "") as (d & s & E & Hd & Hz & Hv); [cbn; lia|lia|]. exists d, s.
    rewrite E, str_app_nil_r. split_and!; [done..|]. unfold digits_value. cbn [String.eqb]. rewrite Hv. f_equal. lia.
Qed.

Lemma span_digits_all s : str_forall is_digit s = true -> span_digits s = (s, "").
Proof. induction s as [|c s IH]; [done|]. cbn. intros [Hc Hs]%andb_true_iff. by rewrite Hc, IH. Qed.

Lemma read_int_digits d s : str_forall is_digit (String d s) = true -> (d = "0"%char -> s = "") ->
  read_int_part (String d s) = Some (String d s, "").
Proof.
  intros Hd Hz. unfold read_int_part. rewrite (span_digits_all _ Hd).
  destruct d as [[] [] [] [] [] [] [] []]; try done. by rewrite Hz.
Qed.

Lemma fmt_d_number n : - 10 ^ 20 < n < 10 ^ 20 -> is_number (fmt_d n) = true.
Proof.
  intros H. destruct (fmt_d_shape n H) as (d & s & -> & Hd & Hz & _). pose proof (read_int_digits d s Hd Hz) as E.
  unfold is_number, read_number. destruct (n <? 0); cbn [String.append].
  - rewrite E. cbn [mbind option_bind read_frac_part read_exp]. rewrite !str_app_nil_r. apply String.eqb_refl.
  - assert (Hm : d <> "-"%char) by (intros ->; done).
    destruct d as [[] [] [] [] [] [] [] []]; try done; rewrite E; cbn [mbind option_bind read_frac_part read_exp];
      rewrite !str_app_nil_r; apply String.eqb_refl.
Qed.

Lemma fmt_d_parsed n : - 2 ^ 63 <= n < 2 ^ 63 -> parse_int64 (fmt_d n) = Some n.
Proof.
  intros H. destruct (fmt_d_shape n) as (d & s & -> & Hd & Hz & Hv); [lia|]. unfold parse_int64.
  destruct (Z.ltb_spec n 0); cbn [String.append].
  - rewrite Hv. cbn [mbind option_bind]. rewrite Z.abs_neq by lia. replace (-1 * - n) with n by lia.
    by replace ((- 2 ^ 63 <=? n) && (n <? 2 ^ 63)) with true by lia.
  - assert (Hm : d <> "-"%char /\ d <> "+"%char) by (split; intros ->; done).
    destruct d as [[] [] [] [] [] [] [] []]; try (by destruct Hm); rewrite Hv; cbn [mbind option_bind];
      rewrite Z.abs_eq by lia; replace (1 * n) with n by lia; by replace ((- 2 ^ 63 <=? n) && (n <? 2 ^ 63)) with true by lia.
Qed.

(** ** Reading the fields of a struct from the members of an object *)

Definition named (names : list string) (n : string) (m : string * json) : bool := bool_decide (field_of names (fst m) = Some n).

Lemma field_filter {B} names n (d : decoder B) x ms :
  field names n d x ms =
  fold_left (fun acc m => let '(y, e) := d (snd m) (fst acc) in (y, snd acc || e)) (List.filter (named names n) ms) (x, false).
Proof.
  unfold field. generalize (x, false). induction ms as [|m ms IH]; intros acc; [done|].
  cbn [fold_left List.filter]. fold (named names n m). destruct (named names n m); apply IH.
Qed.

Lemma field_once {B} names n (d : decoder B) x ms v y :
  map snd (List.filter (named names n) ms) = [v] -> d v x = (y, false) -> field names n d x ms = (y, false).
Proof.
  rewrite field_filter. destruct (List.filter _ ms) as [|m [|]]; [done| |done]. intros [= <-] E. cbn [fold_left fst snd]. by rewrite E.
Qed.

Lemma field_absent {B} names n (d : decoder B) x ms : List.filter (named names n) ms = [] -> field names n d x ms = (x, false).
Proof. rewrite field_filter. by intros ->. Qed.

Lemma ap_reads {A B} (f : reader (A -> B)) (a : reader A) ms g x :
  f ms = (g, false) -> a ms = (x, false) -> reader_ap f a ms = (g x, false).
Proof. unfold reader_ap. by intros -> ->. Qed.

Lemma dec_ptr_reads {A} (zero : A) (d : decoder A) x v y : v <> VNull -> d v (default zero x) = (y, false) -> dec_ptr zero d v x = (Some y, false).
Proof. intros Hv E. destruct v; try done; cbn [dec_ptr]; by rewrite E. Qed.

(** The literal names of an object are valid as they are. *)
Ltac member_names :=
  repeat match goal with |- context [valid_utf8 (String ?c ?s)] =>
    let v := eval vm_compute in (valid_utf8 (String c s)) in change (valid_utf8 (String c s)) with v end.

(** Reads each field once or not at all; leaves the values that are not texts. *)
Ltac read_struct :=
  cbv beta zeta;
  lazymatch goal with
  | |- reader_ap _ _ _ = _ => eapply ap_reads; read_struct
  | |- reader_ret _ _ = _ => reflexivity
  | |- field _ _ _ _ _ = _ => first [ eapply field_absent; reflexivity | eapply field_once; [reflexivity | try reflexivity] ]
  end.
