(* ===== verification/GoFloat.v ===== *)
(** * Floating-point numbers and text (strconv.ParseFloat, fmt's %.6f)

    A [float64] is a binary64 datum of the standard library's [SpecFloat], whose
    rounding to nearest even both directions use. *)
From Stdlib Require Import ZArith Lia Bool Ascii String List.
From Corelib Require Import SpecFloat.
From stdpp Require Import base gmap strings option list.
From S2P Require Import Prelude GoString GoJsonParse.

#[local] Set Warnings "-register-all".
Local Open Scope string_scope.
Local Open Scope Z_scope.

Definition float_prec : Z := 53.
Definition float_emax : Z := 1024.

(** The double nearest to [m * 10 ^ e]. *)
Definition float_of_decimal (neg : bool) (m : Z) (e : Z) : spec_float :=
  match m with
  | Zpos p =>
      if 0 <=? e then binary_round float_prec float_emax neg (Z.to_pos (m * 10 ^ e)) 0
      else
        let '(q, e2, l) := SFdiv_core_binary float_prec float_emax m 0 (10 ^ (- e)) 0 in
        binary_round_aux float_prec float_emax neg q e2 l
  | _ => S754_zero neg
  end.

(** The exponent's digits, read until it is too large to matter. *)
Definition exp_value (s : string) : Z :=
  fold_left (fun acc c => if acc <? 10000 then 10 * acc + (byte_of c - 48) else acc)
    (list_ascii_of_string s) 0.

Definition dec_value (s : string) : Z :=
  fold_left (fun acc c => 10 * acc + (byte_of c - 48)) (list_ascii_of_string s) 0.

(** [strconv.ParseFloat(text, 64)] of a JSON number; [None] out of range. *)
Definition parse_json_float (text : string) : option spec_float :=
  let '(neg, s) := match text with String "-" s => (true, s) | _ => (false, text) end in
  let '(ip, s) := span_digits s in
  let '(fp, s) := match s with String "." s => span_digits s | _ => ("", s) end in
  let e := match s with
           | String _ (String "-" d) => - exp_value d
           | String _ (String "+" d) => exp_value d
           | String _ d => exp_value d
           | EmptyString => 0
           end in
  match float_of_decimal neg (dec_value (ip +:+ fp)) (e - Z.of_nat (String.length fp)) with
  | S754_infinity _ => None
  | x => Some x
  end.

Definition dec_float64 : decoder spec_float := fun v x =>
  match v with
  | VNum t => match parse_json_float t with Some n => (n, false) | None => (x, true) end
  | VNull => (x, false)
  | _ => (x, true)
  end.

(** ** [strconv.ParseFloat(s, 64)] *)

Definition lower_ascii (c : ascii) : ascii :=
  let z := byte_of c in if (65 <=? z) && (z <=? 90) then of_byte (z + 32) else c.

Fixpoint lower_string (s : string) : string :=
  match s with EmptyString => "" | String c s => String (lower_ascii c) (lower_string s) end.

Definition strip_sign (s : string) : bool * string :=
  match s with
  | String "+" r => (false, r)
  | String "-" r => (true, r)
  | _ => (false, s)
  end.

Definition special_float (s : string) : option spec_float :=
  let '(neg, r) := strip_sign s in
  if existsb (String.eqb (lower_string r)) ["inf"; "infinity"] then Some (S754_infinity neg)
  else if (lower_string s =? "nan")%string then Some S754_nan
  else None.

Definition digit_in (base : Z) (c : ascii) : option Z :=
  let z := byte_of (lower_ascii c) in
  if (48 <=? z) && (z <=? 57) then Some (z - 48)
  else if (base =? 16) && (97 <=? z) && (z <=? 102) then Some (z - 87)
  else None.

(** The mantissa: its value, its digits after the point, whether there was a
    point, a digit and an underscore, and the rest. *)
Fixpoint read_mantissa (base : Z) (s : string) (m frac : Z) (dot digits us : bool)
    : Z * Z * bool * bool * string :=
  match s with
  | EmptyString => (m, frac, digits, us, "")
  | String c r =>
      if Ascii.eqb c "_" then read_mantissa base r m frac dot digits true
      else if Ascii.eqb c "." then
        if dot then (m, frac, digits, us, s) else read_mantissa base r m frac true digits us
      else match digit_in base c with
           | Some d => read_mantissa base r (base * m + d) (if dot then frac + 1 else frac) dot true us
           | None => (m, frac, digits, us, s)
           end
  end.

(** The exponent's digits: its value, whether there was an underscore, the rest. *)
Fixpoint read_exponent (s : string) (e : Z) (us : bool) : Z * bool * string :=
  match s with
  | String c r =>
      if Ascii.eqb c "_" then read_exponent r e true
      else match digit_in 10 c with
           | Some d => read_exponent r (if e <? 10000 then 10 * e + d else e) us
           | None => (e, us, s)
           end
  | EmptyString => (e, us, "")
  end.

(** underscoreOK: [prev] is the kind of the byte before, a digit, an underscore
    or another. *)
Fixpoint underscores_ok (hex : bool) (prev : ascii) (s : string) : bool :=
  match s with
  | EmptyString => negb (Ascii.eqb prev "_")
  | String c r =>
      if (match digit_in (if hex then 16 else 10) c with Some _ => true | None => false end)
      then underscores_ok hex "0" r
      else if Ascii.eqb c "_" then Ascii.eqb prev "0" && underscores_ok hex "_" r
      else negb (Ascii.eqb prev "_") && underscores_ok hex "!" r
  end.

Definition underscoreOK (s : string) : bool :=
  let '(_, r) := strip_sign s in
  match r with
  | String "0" (String c r') =>
      if existsb (Ascii.eqb (lower_ascii c)) ["b"; "o"; "x"]%char
      then underscores_ok (Ascii.eqb (lower_ascii c) "x") "0" r'
      else underscores_ok false "^" r
  | _ => underscores_ok false "^" r
  end.

Definition finite_float (neg : bool) (base m e : Z) : option spec_float :=
  let x := if base =? 16 then
             match m with Zpos p => binary_round float_prec float_emax neg p e | _ => S754_zero neg end
           else float_of_decimal neg m e in
  match x with S754_infinity _ => None | _ => Some x end.

Definition ParseFloat (s : string) : option spec_float :=
  match special_float s with
  | Some x => Some x
  | None =>
      let '(neg, r) := strip_sign s in
      let '(base, r) := match r with
                        | String "0" (String c (String c' r')) =>
                            if Ascii.eqb (lower_ascii c) "x" then (16, String c' r') else (10, r)
                        | _ => (10, r)
                        end in
      let '(m, frac, digits, us, r) := read_mantissa base r 0 0 false false false in
      let frac := if base =? 16 then 4 * frac else frac in
      let mark := if base =? 16 then "p"%char else "e"%char in
      if negb digits then None
      else match r with
      | EmptyString =>
          if (base =? 16) || (us && negb (underscoreOK s)) then None else finite_float neg base m (- frac)
      | String c r =>
          if negb (Ascii.eqb (lower_ascii c) mark) then None
          else
            let '(eneg, r) := strip_sign r in
            match r with
            | String d _ =>
                match digit_in 10 d with
                | None => None
                | Some _ =>
                    let '(e, us', r) := read_exponent r 0 false in
                    if negb (r =? "")%string || ((us || us') && negb (underscoreOK s)) then None
                    else finite_float neg base m ((if eneg then - e else e) - frac)
                end
            | EmptyString => None
            end
      end
  end.

Example ParseFloat_ex :
  map (fun s => match ParseFloat s with Some _ => true | None => false end)
    ["45.49"; "-.5e3"; "1_000.5"; "0x1p-2"; "+Inf"; "nan"; "1e400"; "1__0"; "12a"; "0x1"; ""; "-"; "."; "1e"; "+nan"]
  = [true; true; true; true; true; true; false; false; false; false; false; false; false; false; false].
Proof. vm_compute. reflexivity. Qed.

(** [fmt.Sprintf("%.pf", x)]: the exact value to [p] places, a tie to even. *)
Definition scaled (p : Z) (m : positive) (e : Z) : Z :=
  if 0 <=? e then Zpos m * 2 ^ e * 10 ^ p
  else
    let n := Zpos m * 10 ^ p in
    let d := 2 ^ (- e) in
    let q := n / d in
    let r2 := 2 * (n mod d) in
    if (r2 <? d) || ((r2 =? d) && Z.even q) then q else q + 1.

Definition dec_text (n : Z) : string := dec_digits (S (Z.to_nat (Z.log2 n))) n "".

Fixpoint pad_zeros (width : nat) (s : string) : string :=
  match width with
  | O => s
  | S w => if (String.length s <=? w)%nat then String "0" (pad_zeros w s) else s
  end.

Definition fmt_fixed (p : nat) (x : spec_float) : string :=
  let text (neg : bool) (n : Z) :=
    let scale := 10 ^ Z.of_nat p in
    (if neg then "-" else "") +:+ dec_text (n / scale)
    +:+ (if (p =? 0)%nat then "" else "." +:+ pad_zeros p (dec_text (n mod scale))) in
  match x with
  | S754_zero neg => text neg 0
  | S754_finite neg m e => text neg (scaled (Z.of_nat p) m e)
  | S754_infinity neg => if neg then "-Inf" else "+Inf"
  | S754_nan => "NaN"
  end.

Definition fmt_f6 : spec_float -> string := fmt_fixed 6.

(** ** Arithmetic *)

Definition f_add : spec_float -> spec_float -> spec_float := SFadd float_prec float_emax.
Definition f_mul : spec_float -> spec_float -> spec_float := SFmul float_prec float_emax.
Definition f_div : spec_float -> spec_float -> spec_float := SFdiv float_prec float_emax.
Definition f_sub : spec_float -> spec_float -> spec_float := SFsub float_prec float_emax.
Definition f_ltb : spec_float -> spec_float -> bool := SFltb.
Definition f_leb : spec_float -> spec_float -> bool := SFleb.

(** [float64(n)] of an integer. *)
Definition f_of_int (n : Z) : spec_float := binary_normalize float_prec float_emax n 0 false.

(** A constant of the source, [m * 10 ^ e]. *)
Definition f_const (m e : Z) : spec_float := float_of_decimal false m e.

(** [time.Duration.Seconds] *)
Definition duration_seconds (d : Z) : spec_float :=
  f_add (f_of_int (Z.quot d time_second)) (f_div (f_of_int (Z.rem d time_second)) (f_const 1 9)).

Example fmt_f6_ex1 : fmap fmt_f6 (parse_json_float "-34.6037239") = Some "-34.603724".
Proof. vm_compute. reflexivity. Qed.
Example fmt_f6_ex2 : fmap fmt_f6 (parse_json_float "0.5e-6") = Some "0.000000".
Proof. vm_compute. reflexivity. Qed.
Example fmt_f6_ex3 : fmap fmt_f6 (parse_json_float "12E2") = Some "1200.000000".
Proof. vm_compute. reflexivity. Qed.
(** The double nearest to one tenth is slightly above it. *)
Example parse_json_float_tenth : parse_json_float "0.1" = Some (S754_finite false 7205759403792794 (-56)).
Proof. vm_compute. reflexivity. Qed.
Example parse_json_float_range : parse_json_float "1e309" = None.
Proof. vm_compute. reflexivity. Qed.

Example fmt_fixed_ex : fmt_fixed 2 (duration_seconds 1234567890) = "1.23" /\ fmt_fixed 0 (f_const 25 (-1)) = "2".
Proof. vm_compute. done. Qed.

(** The text is within half a unit of the last place. *)
Lemma scaled_close p m e :
  e < 0 -> 2 * Z.abs (scaled p m e * 2 ^ (- e) - Zpos m * 10 ^ p) <= 2 ^ (- e).
Proof.
  intros He. unfold scaled. cbv zeta. destruct (Z.leb_spec 0 e); [lia|].
  set (n := Zpos m * 10 ^ p). assert (Hd : 0 < 2 ^ (- e)) by (apply Z.pow_pos_nonneg; lia).
  generalize dependent (2 ^ (- e)). intros d Hd.
  pose proof (Z.div_mod n d ltac:(lia)) as Hdm. pose proof (Z.mod_pos_bound n d Hd) as Hm.
  assert (Hq : n / d * d - n = - (n mod d)) by lia.
  assert (Hq1 : (n / d + 1) * d - n = d - n mod d) by lia.
  destruct (Z.ltb_spec (2 * (n mod d)) d); cbn [orb andb]; [rewrite Hq; lia|].
  destruct (Z.eqb_spec (2 * (n mod d)) d); cbn [orb andb]; [destruct (Z.even _)|]; rewrite ?Hq, ?Hq1; lia.
Qed.

(** ** [strconv.FormatFloat(x, 'f', -1, 64)]

    The fewest decimal digits that read back as the float. *)

(** The fraction [m * 2^e]. *)
Definition float_num (m : positive) (e : Z) : Z := if 0 <=? e then Zpos m * 2 ^ e else Zpos m.
Definition float_den (e : Z) : Z := if 0 <=? e then 1 else 2 ^ (- e).

(** [num/den >= 10^k]. *)
Definition ge_pow10 (num den k : Z) : bool :=
  if 0 <=? k then den * 10 ^ k <=? num else den <=? num * 10 ^ (- k).

(** The power of ten of the leading digit. *)
Definition log10 (num den : Z) : Z :=
  let k := (Z.log2 num - Z.log2 den) * 30103 / 100000 in
  if ge_pow10 num den (k + 1) then k + 1 else if ge_pow10 num den k then k else k - 1.

Definition round_div (n d : Z) : Z :=
  let q := n / d in
  let r2 := 2 * (n mod d) in
  if (r2 <? d) || ((r2 =? d) && Z.even q) then q else q + 1.

(** [num/den * 10^s], rounded. *)
Definition scale10 (num den s : Z) : Z :=
  if 0 <=? s then round_div (num * 10 ^ s) den else round_div num (den * 10 ^ (- s)).

Fixpoint shortest (fuel : nat) (p : Z) (m : positive) (e : Z) : Z * Z :=
  let num := float_num m e in
  let den := float_den e in
  let s := p - 1 - log10 num den in
  let q := scale10 num den s in
  let '(q, s) := if q =? 10 ^ p then (q / 10, s - 1) else (q, s) in   (* rounded up to a power of ten *)
  match fuel with
  | O => (q, s)
  | S fuel =>
      if match float_of_decimal false q (- s) with
         | S754_finite false m' e' => (m' =? m)%positive && (e' =? e)
         | _ => false
         end
      then (q, s) else shortest fuel (p + 1) m e
  end.

(** The decimal [q * 10^-s]. *)
Definition decimal_text (q s : Z) : string :=
  if s <=? 0 then dec_text (q * 10 ^ (- s))
  else dec_text (q / 10 ^ s) +:+ "." +:+ pad_zeros (Z.to_nat s) (dec_text (q mod 10 ^ s)).

Definition FormatFloat (x : spec_float) : string :=
  match x with
  | S754_nan => "NaN"
  | S754_infinity s => if s then "-Inf" else "+Inf"
  | S754_zero s => if s then "-0" else "0"
  | S754_finite s m e => let '(q, d) := shortest 16 1 m e in (if s then "-" else "") +:+ decimal_text q d
  end.

Example format_ex :
  map (fun t => FormatFloat <$> ParseFloat t)
    ["45.49"; "-75.660"; "0.1"; "100"; "1e21"; "0.000001"; "3.0000000000000004"; "123456.789e2"; "5e-324"]
  = [Some "45.49"; Some "-75.66"; Some "0.1"; Some "100"; Some "1000000000000000000000"; Some "0.000001";
     Some "3.0000000000000004"; Some "12345678.9";
     Some ("0." +:+ string_of_list_ascii (repeat "0"%char 323) +:+ "5")].
Proof. vm_compute. reflexivity. Qed.
