(* ===== verification/Sha256.v ===== *)
(** * SHA-256 of the Go standard library (crypto/sha256, FIPS 180-4)

    [sha256_hex] is [fmt.Sprintf("%x", sha256.Sum256(data))], the digest text
    the program uses as deduplication key and as stored token hash.  Words are
    integers below 2^32. *)
From Stdlib Require Import ZArith Bool Ascii String List.
From stdpp Require Import base strings option list.
From S2P Require Import Prelude GoString GoJson.

Local Open Scope Z_scope.

Definition w32 (z : Z) : Z := z mod 2 ^ 32.
Definition add32 (a b : Z) : Z := w32 (a + b).
Definition rotr (n x : Z) : Z := Z.lor (Z.shiftr x n) (w32 (Z.shiftl x (32 - n))).
Definition not32 (x : Z) : Z := 2 ^ 32 - 1 - x.

Definition sha_ch (x y z : Z) : Z := Z.lxor (Z.land x y) (Z.land (not32 x) z).
Definition sha_maj (x y z : Z) : Z := Z.lxor (Z.lxor (Z.land x y) (Z.land x z)) (Z.land y z).
Definition sha_S0 (x : Z) : Z := Z.lxor (Z.lxor (rotr 2 x) (rotr 13 x)) (rotr 22 x).
Definition sha_S1 (x : Z) : Z := Z.lxor (Z.lxor (rotr 6 x) (rotr 11 x)) (rotr 25 x).
Definition sha_s0 (x : Z) : Z := Z.lxor (Z.lxor (rotr 7 x) (rotr 18 x)) (Z.shiftr x 3).
Definition sha_s1 (x : Z) : Z := Z.lxor (Z.lxor (rotr 17 x) (rotr 19 x)) (Z.shiftr x 10).

(** The constants of the standard: the first 32 bits of the fractional parts of
    the cube roots of the first 64 primes, and of the square roots of the first
    eight. *)
Definition is_prime (n : Z) : bool :=
  forallb (fun d => negb (n mod d =? 0)) (map Z.of_nat (seq 2 (Z.to_nat (Z.sqrt n) - 1))).
Definition primes : list Z :=
  Eval vm_compute in firstn 64 (List.filter is_prime (map Z.of_nat (seq 2 310))).

(** The integer cube root, bit by bit from [2 ^ b]. *)
Fixpoint cbrt (b : nat) (n acc : Z) : Z :=
  let acc' := acc + 2 ^ Z.of_nat b in
  let r := if acc' ^ 3 <=? n then acc' else acc in
  match b with
  | O => r
  | S b' => cbrt b' n r
  end.

Definition sha_K : list Z := Eval vm_compute in map (fun p => w32 (cbrt 40 (p * 2 ^ 96) 0)) primes.
Definition sha_H0 : list Z := Eval vm_compute in map (fun p => w32 (Z.sqrt (p * 2 ^ 64))) (firstn 8 primes).

(** The message schedule: the last sixteen words, newest first, extended. *)
Fixpoint schedule (n : nat) (w : list Z) : list Z :=
  match n with
  | O => w
  | S n' =>
      let at_ i := nth i w 0 in
      schedule n' (add32 (add32 (sha_s1 (at_ 1%nat)) (at_ 6%nat))
                         (add32 (sha_s0 (at_ 14%nat)) (at_ 15%nat)) :: w)
  end.

Definition sha_round (st : list Z) (kw : Z * Z) : list Z :=
  match st with
  | [a; b; c; d; e; f; g; h] =>
      let t1 := add32 (add32 (add32 h (sha_S1 e)) (add32 (sha_ch e f g) (fst kw))) (snd kw) in
      let t2 := add32 (sha_S0 a) (sha_maj a b c) in
      [add32 t1 t2; a; b; c; add32 d t1; e; f; g]
  | _ => st
  end.

Definition sha_block (st block : list Z) : list Z :=
  let w := rev (schedule 48 (rev block)) in
  zip_with add32 st (fold_left sha_round (zip sha_K w) st).

(** Big-endian bytes and words. *)
Fixpoint be_bytes (n : nat) (z : Z) : list Z :=
  match n with
  | O => []
  | S n' => (Z.shiftr z (8 * Z.of_nat n')) mod 256 :: be_bytes n' z
  end.

Fixpoint be_words (l : list Z) : list Z :=
  match l with
  | a :: b :: c :: d :: l' => (((a * 256 + b) * 256 + c) * 256 + d) :: be_words l'
  | _ => []
  end.

Fixpoint chunks (n : nat) (fuel : nat) (l : list Z) : list (list Z) :=
  match fuel, l with
  | S fuel', _ :: _ => firstn n l :: chunks n fuel' (skipn n l)
  | _, _ => []
  end.

Definition sha_pad (data : list Z) : list Z :=
  let len := Z.of_nat (length data) in
  let zeros := Z.to_nat ((55 - len) mod 64) in
  (data ++ [0x80] ++ repeat 0 zeros ++ be_bytes 8 (8 * len))%list.

Definition string_bytes (s : string) : list Z := map byte_of (list_ascii_of_string s).

Definition sha256 (data : string) : list Z :=
  let words := be_words (sha_pad (string_bytes data)) in
  flat_map (be_bytes 4) (fold_left sha_block (chunks 16 (length words) words) sha_H0).

Definition hex_bytes (l : list Z) : string :=
  String.concat "" (map (fun b => (hex_digit (b / 16) +:+ hex_digit (b mod 16))) l).

Definition sha256_hex (data : string) : string := hex_bytes (sha256 data).

(** FIPS 180-4 test vectors. *)
Example sha256_empty :
  sha256_hex "" = "e3b0c44298fc1c149afbf4c8996fb92427ae41e4649b934ca495991b7852b855"%string.
Proof. vm_compute. reflexivity. Qed.
Example sha256_abc :
  sha256_hex "abc" = "ba7816bf8f01cfea414140de5dae2223b00361a396177a9cb410ff61f20015ad"%string.
Proof. vm_compute. reflexivity. Qed.
Example sha256_two_blocks :
  sha256_hex "abcdbcdecdefdefgefghfghighijhijkijkljklmklmnlmnomnopnopq"
  = "248d6a61d20638b8e5c026930c3e6039a33ce45964ff2167f6ecedd419db06c1"%string.
Proof. vm_compute. reflexivity. Qed.

(** The digest is always 32 bytes, and its text never empty. *)
Lemma sha_block_length st block : length st = 8%nat -> length (sha_block st block) = 8%nat.
Proof.
  intros H. unfold sha_block. rewrite length_zip_with, H.
  assert (Hf : forall l st0, length st0 = 8%nat -> length (fold_left sha_round l st0) = 8%nat).
  { induction l as [|kw l IH]; intros st0 H0; [done|]. apply IH.
    do 9 (destruct st0 as [|? st0]; try done). }
  by rewrite Hf.
Qed.

Lemma sha256_length data : length (sha256 data) = 32%nat.
Proof.
  unfold sha256.
  assert (Hf : forall l st, length st = 8%nat -> length (fold_left sha_block l st) = 8%nat).
  { induction l as [|b l IH]; intros st H; [done|]. by apply IH, sha_block_length. }
  assert (Hm : forall l, length (flat_map (be_bytes 4) l) = (4 * length l)%nat).
  { induction l as [|x l IH]; [done|]. simpl in *. lia. }
  by rewrite Hm, Hf.
Qed.

Lemma sha256_hex_nonempty data : (sha256_hex data =? "")%string = false.
Proof.
  unfold sha256_hex, hex_bytes. pose proof (sha256_length data) as H.
  destruct (sha256 data) as [|b [|b' l]]; done.
Qed.
