(* ===== verification/Http.v ===== *)
(** * Requests and responses (package net/http)

    What the gateway's handlers read of a request and write of a response.
    Header names are already in canonical form, as the server stores them. *)
From Stdlib Require Import ZArith Lia Bool Ascii String List.
From stdpp Require Import base gmap strings option list.
From S2P Require Import Prelude GoString.

Local Open Scope string_scope.
Local Open Scope Z_scope.

Abbreviation Header := (gmap string (list string)).

(** [http.Header.Get]: the first value. *)
Definition header_get (h : Header) (name : string) : string :=
  match h !! name with Some (v :: _) => v | _ => "" end.

(** The body is what reading it to the end gives: [None] when that fails.
    A path value is a segment matched by the route's pattern. *)
Record Request := {
  rq_Method : string;
  rq_Header : Header;
  rq_Body : option string;
  rq_RemoteAddr : string;
  rq_PathValue : string -> string;
  rq_Query : string -> string }.

Definition StatusOK : Z := 200.
Definition StatusNoContent : Z := 204.
Definition StatusBadRequest : Z := 400.
Definition StatusUnauthorized : Z := 401.
Definition StatusForbidden : Z := 403.
Definition StatusNotFound : Z := 404.
Definition StatusMethodNotAllowed : Z := 405.
Definition StatusConflict : Z := 409.
Definition StatusTooManyRequests : Z := 429.
Definition StatusInternalServerError : Z := 500.
Definition StatusServiceUnavailable : Z := 503.

(** A response: its status and its body, as the value a handler encodes. *)
Record Response (B : Type) := { rp_Status : Z; rp_Body : option B }.
Arguments rp_Status {B}. Arguments rp_Body {B}. Arguments Build_Response {B}.

(** [io.ReadAll(io.LimitReader(r.Body, limit))]: the rest of a longer body is
    never read. *)
Fixpoint take_bytes (limit : Z) (s : string) : string :=
  match s with
  | EmptyString => ""
  | String c s => if 0 <? limit then String c (take_bytes (limit - 1) s) else ""
  end.

Definition read_limited (limit : Z) (r : Request) : option string := option_map (take_bytes limit) (rq_Body r).
