(* ===== verification/Signature.v ===== *)
(** * Webhook signatures (crypto/hmac, whatsapp/hmac.go, slack/hmac.go, webhook.go)

    HMAC-SHA256 over [Sha256.sha256], the hexadecimal codec of encoding/hex,
    and the four functions that check the signature of a webhook request: the
    two of the channel packages and the gateway's own copies. *)
From Stdlib Require Import ZArith Lia Bool Ascii String List.
From stdpp Require Import base gmap strings option list.
From S2P Require Import Prelude GoString GoJson GoJsonParse Sha256 Http.

Local Open Scope string_scope.
Local Open Scope Z_scope.

(** ** HMAC (RFC 2104) with 64-byte blocks *)

Definition bytes_string (l : list Z) : string := string_of_list_ascii (map of_byte l).

Definition hmac_block : nat := 64.

Definition hmac_key (key : string) : list Z :=
  let k := if (String.length key <=? hmac_block)%nat then string_bytes key else sha256 key in
  (k ++ repeat 0 (hmac_block - length k))%list.

Definition hmac_pad (key : string) (pad : Z) : string :=
  bytes_string (map (fun b => Z.lxor b pad) (hmac_key key)).

Definition hmac_sha256 (key data : string) : list Z :=
  sha256 (hmac_pad key 92 +:+ bytes_string (sha256 (hmac_pad key 54 +:+ data))).

(** RFC 4231, test case 2. *)
Example hmac_rfc4231 :
  hex_bytes (hmac_sha256 "Jefe" "what do ya want for nothing?")
  = "5bdcc146bf60754e6a042426089575c75a003f089d2739839dec58b964ec3843".
Proof. vm_compute. reflexivity. Qed.

(** ** [hex.DecodeString] *)
Fixpoint hex_decode (s : string) : option (list Z) :=
  match s with
  | EmptyString => Some []
  | String a (String b r) =>
      a ← hex_val a; b ← hex_val b; l ← hex_decode r; Some (a * 16 + b :: l)
  | String _ EmptyString => None
  end.

(** [subtle.ConstantTimeCompare(x, y) == 1]. *)
Definition bytes_eqb (x y : list Z) : bool := bool_decide (x = y).

(** ** whatsapp/hmac.go *)
Definition sig_prefix : string := "sha256=".

(** [signature[7:]] after [strings.HasPrefix], on both copies' lines. *)
Definition strip_sig (signature : string) : string :=
  match strip_prefix sig_prefix signature with Some r => r | None => signature end.

Definition VerifyHMAC (body signature key : string) : bool :=
  if (String.length signature =? 0)%nat || (String.length key =? 0)%nat then false
  else
    match hex_decode (strip_sig signature) with
    | None => false
    | Some sigBytes => bytes_eqb sigBytes (hmac_sha256 key body)
    end.

Definition verifyWhatsAppHMAC (body signature key : string) : bool :=
  if (signature =? "")%string || (key =? "")%string then false
  else
    match hex_decode (strip_sig signature) with
    | None => false
    | Some sigBytes => bytes_eqb sigBytes (hmac_sha256 key body)
    end.

(** ** slack/hmac.go *)
Definition abs64 (n : Z) : Z := if n <? 0 then int64 (- n) else n.

Definition slack_expected (timestamp body secret : string) : string :=
  "v0=" +:+ hex_bytes (hmac_sha256 secret ("v0:" +:+ timestamp +:+ ":" +:+ body)).

(** [now] is [time.Now().Unix()]. *)
Definition VerifySignature (now : Z) (body : string) (headers : Header) (signingSecret : string) : bool :=
  let timestamp := header_get headers "X-Slack-Request-Timestamp" in
  let signature := header_get headers "X-Slack-Signature" in
  if (timestamp =? "")%string || (signature =? "")%string || (signingSecret =? "")%string then false
  else
    match parse_int64 timestamp with
    | None => false
    | Some ts =>
        if 300 <? abs64 (int64 (now - ts)) then false
        else (signature =? slack_expected timestamp body signingSecret)%string
    end.

Definition verifySlackSignature (now : Z) (body : string) (headers : Header) (signingSecret : string) : bool :=
  let timestamp := header_get headers "X-Slack-Request-Timestamp" in
  let signature := header_get headers "X-Slack-Signature" in
  if (timestamp =? "")%string || (signature =? "")%string then false
  else
    match parse_int64 timestamp with
    | None => false
    | Some ts =>
        if 300 <? abs64 (int64 (now - ts)) then false
        else (signature =? slack_expected timestamp body signingSecret)%string
    end.

(** ** The hexadecimal codec *)

(** A digit's letter in lower case. *)
Definition lower_hex (c : ascii) : ascii :=
  let z := byte_of c in if (65 <=? z) && (z <=? 70) then of_byte (z + 32) else c.

Fixpoint lower_hex_str (s : string) : string :=
  match s with EmptyString => "" | String c s => String (lower_hex c) (lower_hex_str s) end.

Definition is_byte (b : Z) : bool := (0 <=? b) && (b <? 256).

(** Facts about single characters, checked on all 256. *)
Definition all_chars : list ascii := map (fun n => ascii_of_nat n) (seq 0 256).

Lemma all_chars_in c : In c all_chars.
Proof.
  unfold all_chars. apply in_map_iff. exists (nat_of_ascii c). split; [apply ascii_nat_embedding|].
  apply in_seq. pose proof (nat_ascii_bounded c). lia.
Qed.

Lemma char_forall (p : ascii -> bool) : forallb p all_chars = true -> forall c, p c = true.
Proof. intros H c. apply (proj1 (forallb_forall p all_chars) H), all_chars_in. Qed.

Definition hex_val_is (c : ascii) (n : Z) : bool :=
  match hex_val c with Some m => m =? n | None => false end.

Lemma hex_val_is_spec c n : hex_val_is c n = true <-> hex_val c = Some n.
Proof.
  unfold hex_val_is. destruct (hex_val c) as [m|]; [|done].
  rewrite Z.eqb_eq. split; [by intros ->|by intros [= ->]].
Qed.

Definition hex_digits : list Z := [0; 1; 2; 3; 4; 5; 6; 7; 8; 9; 10; 11; 12; 13; 14; 15].

Definition hex_ok (c : ascii) : bool :=
  forallb (fun n => Bool.eqb (String (lower_hex c) "" =? hex_digit n)%string (hex_val_is c n)) hex_digits.

Definition hex_small (c : ascii) : bool :=
  match hex_val c with Some n => (0 <=? n) && (n <? 16) | None => true end.

Lemma hex_val_digit c n :
  hex_val c = Some n <-> (0 <= n < 16 /\ String (lower_hex c) "" = hex_digit n).
Proof.
  assert (Hok : hex_ok c = true) by (by apply char_forall; vm_compute).
  assert (Hsm : hex_small c = true) by (by apply char_forall; vm_compute).
  assert (Hn : 0 <= n < 16 -> Bool.eqb (String (lower_hex c) "" =? hex_digit n)%string (hex_val_is c n) = true).
  { intros Hn. unfold hex_ok in Hok. rewrite forallb_forall in Hok. apply Hok.
    unfold hex_digits. simpl. lia. }
  rewrite <- hex_val_is_spec. split.
  - intros H. assert (Hr : 0 <= n < 16).
    { apply hex_val_is_spec in H. unfold hex_small in Hsm. rewrite H in Hsm. bool_hyps. lia. }
    split; [done|]. specialize (Hn Hr). rewrite H in Hn. apply eqb_prop in Hn. by apply String.eqb_eq.
  - intros [Hr H]. specialize (Hn Hr). rewrite H, String.eqb_refl in Hn. by apply eqb_prop in Hn.
Qed.

(** Decoding accepts exactly the hexadecimal texts of a list of bytes, in
    either case. *)
Lemma hex_bytes_cons b l : hex_bytes (b :: l) = hex_digit (b / 16) +:+ hex_digit (b mod 16) +:+ hex_bytes l.
Proof. unfold hex_bytes. by destruct l. Qed.

Lemma hex_decode_spec s l :
  hex_decode s = Some l <-> (Forall (fun b => 0 <= b < 256) l /\ lower_hex_str s = hex_bytes l).
Proof.
  revert s. induction l as [|b l IH]; intros s.
  - destruct s as [|a [|c s]]; simpl.
    + by split.
    + split; [done|by intros [_ ?]].
    + split; [|by intros [_ ?]]. intros H. by destruct (hex_val a), (hex_val c), (hex_decode s).
  - rewrite hex_bytes_cons. destruct s as [|a [|c s]].
    + split; [done|]. intros [_ H]. done.
    + split; [done|]. intros [_ H]. unfold hex_digit, char in H. simpl in H. injection H as _ H. done.
    + cbn [hex_decode lower_hex_str]. split.
      * intros H. destruct (hex_val a) as [x|] eqn:Ha; [|done]. destruct (hex_val c) as [y|] eqn:Hc; [|done].
        simpl in H. destruct (hex_decode s) as [l'|] eqn:Hs; [|done]. simpl in H. injection H as <- <-.
        apply IH in Hs as [Hl Hs]. apply hex_val_digit in Ha as [Hx Ha]. apply hex_val_digit in Hc as [Hy Hc].
        split; [constructor; [lia|done]|].
        replace ((x * 16 + y) / 16) with x by (rewrite Z.div_add_l, Z.div_small by lia; lia).
        replace ((x * 16 + y) mod 16) with y by (rewrite Z.add_comm, Z.mod_add, Z.mod_small by lia; lia).
        rewrite <- Ha, <- Hc. simpl. by rewrite Hs.
      * intros [Hl H]. apply Forall_cons in Hl as [Hb Hl].
        unfold hex_digit, char in H. simpl in H. injection H as Ha Hc Hs.
        assert (Ha' : hex_val a = Some (b / 16)).
        { apply hex_val_digit. split; [|by unfold hex_digit, char; rewrite Ha].
          pose proof (Z.div_pos b 16). pose proof (Z.div_lt_upper_bound b 16 16). lia. }
        assert (Hc' : hex_val c = Some (b mod 16)).
        { apply hex_val_digit. split; [apply Z.mod_pos_bound; lia|by unfold hex_digit, char; rewrite Hc]. }
        rewrite Ha', Hc'. simpl. rewrite (proj2 (IH s)) by done. simpl. do 2 f_equal.
        pose proof (Z.div_mod b 16). lia.
Qed.

Lemma be_bytes_range n v : Forall (fun b => 0 <= b < 256) (be_bytes n v).
Proof.
  induction n as [|n IH]; simpl; constructor; [apply Z.mod_pos_bound; lia|done].
Qed.

Lemma sha256_range data : Forall (fun b => 0 <= b < 256) (sha256 data).
Proof.
  unfold sha256. generalize (fold_left sha_block
    (chunks 16 (length (be_words (sha_pad (string_bytes data)))) (be_words (sha_pad (string_bytes data)))) sha_H0).
  intros l. induction l as [|x l IH]; [constructor|].
  cbn [flat_map]. apply Forall_app. split; [apply be_bytes_range|done].
Qed.

Lemma bytes_eqb_eq x y : bytes_eqb x y = true <-> x = y.
Proof. unfold bytes_eqb. by rewrite bool_decide_eq_true. Qed.

(** ** What the checks accept *)

Lemma verifyWhatsAppHMAC_eq body signature key :
  verifyWhatsAppHMAC body signature key = VerifyHMAC body signature key.
Proof. unfold verifyWhatsAppHMAC, VerifyHMAC. by destruct signature, key. Qed.

Lemma hmac_nonempty key data : hex_bytes (hmac_sha256 key data) <> "".
Proof.
  unfold hmac_sha256. match goal with |- context [sha256 ?d] => pose proof (sha256_length d) as Hl end.
  destruct (sha256 _) as [|b l]; [done|]. by rewrite hex_bytes_cons.
Qed.

Lemma VerifyHMAC_iff body signature key :
  VerifyHMAC body signature key = true <->
  key <> "" /\ lower_hex_str (strip_sig signature) = hex_bytes (hmac_sha256 key body).
Proof.
  rewrite <- verifyWhatsAppHMAC_eq. unfold verifyWhatsAppHMAC.
  destruct (String.eqb_spec signature "") as [->|Hs]; simpl orb.
  { split; [done|]. intros [_ H]. symmetry in H. by apply hmac_nonempty in H. }
  destruct (String.eqb_spec key "") as [->|Hk]; [by split; [|intros [? _]]|]. simpl orb.
  split.
  - intros H. split; [done|]. destruct (hex_decode (strip_sig signature)) as [l|] eqn:Hd; [|done].
    apply bytes_eqb_eq in H as ->. by apply hex_decode_spec in Hd as [_ Hd].
  - intros [_ H]. rewrite (proj2 (hex_decode_spec _ (hmac_sha256 key body))); [by apply bytes_eqb_eq|].
    split; [apply sha256_range|done].
Qed.

(** for a configured key, a WhatsApp webhook passes the signature check
    exactly when its signature header, with or without the [sha256=] prefix and
    in either case, spells the HMAC-SHA256 of the body under the key; without a
    key or a signature nothing passes.  The gateway's copy of the function
    computes the same. *)
Lemma whatsapp_signature_exact body signature key :
  verifyWhatsAppHMAC body signature key = VerifyHMAC body signature key /\
  (VerifyHMAC body signature key = true <->
   key <> "" /\ lower_hex_str (strip_sig signature) = hex_bytes (hmac_sha256 key body)).
Proof. split; [apply verifyWhatsAppHMAC_eq|apply VerifyHMAC_iff]. Qed.

(** The freshness test, with the wrap-around of [int64] subtraction. *)
Lemma abs64_fresh now ts :
  0 <= now < 2 ^ 62 -> - 2 ^ 63 <= ts < 2 ^ 63 ->
  (abs64 (int64 (now - ts)) <= 300 <-> Z.abs (now - ts) <= 300 \/ ts = now - 2 ^ 63).
Proof.
  intros Hn Ht. assert (Hd : (int64 (now - ts) = now - ts /\ now - ts < 2 ^ 63) \/ (int64 (now - ts) = now - ts - 2 ^ 64 /\ now - ts >= 2 ^ 63)).
  { destruct (Z.lt_ge_cases (now - ts) (2 ^ 63)); [left; split; [apply int64_small|]; lia|right].
    split; [|lia]. unfold int64. replace (now - ts + 2 ^ 63) with (now - ts - 2 ^ 63 + 1 * 2 ^ 64) by lia.
    rewrite Z.mod_add by lia. rewrite Z.mod_small; lia. }
  destruct Hd as [[Hd Hlt]|[Hd Hge]]; rewrite Hd; unfold abs64; case_test.
  - rewrite int64_small by lia. lia.
  - lia.
  - destruct (Z.eq_dec (now - ts) (2 ^ 63)) as [He|].
    + replace (int64 (- (now - ts - 2 ^ 64))) with (- 2 ^ 63)
        by (rewrite He; vm_compute; reflexivity). split; intros _; [right|]; lia.
    + rewrite int64_small by lia. lia.
  - lia.
Qed.

Lemma parse_int64_range s n : parse_int64 s = Some n -> - 2 ^ 63 <= n < 2 ^ 63.
Proof.
  unfold parse_int64. destruct (match s with String "-" r => _ | _ => _ end) as [sign body].
  destruct (digits_value body) as [v|]; simpl; [|done].
  destruct (_ && _) eqn:H; [|done]. intros [= <-]. bool_hyps. lia.
Qed.

(** A fresh timestamp header and the signature that goes with it. *)
Definition slack_signed (now : Z) (body : string) (headers : Header) (secret : string) : Prop :=
  let timestamp := header_get headers "X-Slack-Request-Timestamp" in
  exists ts, parse_int64 timestamp = Some ts /\
    (Z.abs (now - ts) <= 300 \/ ts = now - 2 ^ 63) /\
    header_get headers "X-Slack-Signature" = slack_expected timestamp body secret.

Lemma verifySlackSignature_iff now body headers secret :
  0 <= now < 2 ^ 62 -> verifySlackSignature now body headers secret = true <-> slack_signed now body headers secret.
Proof.
  intros Hn. unfold verifySlackSignature, slack_signed.
  set (timestamp := header_get headers "X-Slack-Request-Timestamp").
  set (signature := header_get headers "X-Slack-Signature").
  destruct (String.eqb_spec timestamp "") as [Ht|Ht].
  { rewrite Ht. split; [done|]. by intros (ts & H & _). }
  destruct (String.eqb_spec signature "") as [Hs|Hs]; simpl orb.
  { split; [done|]. intros (ts & _ & _ & H). rewrite Hs in H. done. }
  destruct (parse_int64 timestamp) as [ts|] eqn:Hp; [|by split; [|intros (? & ? & _)]].
  pose proof (abs64_fresh now ts Hn (parse_int64_range _ _ Hp)) as Hf.
  destruct (Z.ltb_spec 300 (abs64 (int64 (now - ts)))) as [Ha|Ha].
  - split; [done|]. intros (ts' & [= <-] & H & _). apply Hf in H. lia.
  - rewrite String.eqb_eq. split; [intros H; exists ts; by rewrite <- Hf|].
    by intros (ts' & _ & _ & H).
Qed.

Lemma verifySlackSignature_eq now body headers secret :
  secret <> "" -> verifySlackSignature now body headers secret = VerifySignature now body headers secret.
Proof.
  intros Hk. unfold VerifySignature, verifySlackSignature.
  assert (Hk' : (secret =? "")%string = false) by (by apply String.eqb_neq).
  by rewrite Hk', orb_false_r.
Qed.

(** with a signing secret, a Slack webhook passes the signature check
    exactly when its timestamp header is a decimal 64-bit integer, its
    signature header is [v0=] with the HMAC-SHA256 of [v0:timestamp:body] under
    the secret, and the timestamp is at most 300 seconds from the clock, before
    or after, or exactly [2^63] seconds before it, where the difference wraps
    around and [abs64] is negative.  The gateway's copy computes the same. *)
Lemma slack_signature_exact now body headers secret :
  0 <= now < 2 ^ 62 -> secret <> "" ->
  verifySlackSignature now body headers secret = VerifySignature now body headers secret /\
  (VerifySignature now body headers secret = true <-> slack_signed now body headers secret).
Proof.
  intros Hn Hk. rewrite <- verifySlackSignature_eq by done. split; [done|]. by apply verifySlackSignature_iff.
Qed.

Definition demo_slack_headers : Header :=
  {[ "X-Slack-Request-Timestamp" := ["-9223372035154775808"];
     "X-Slack-Signature" := [slack_expected "-9223372035154775808" "{}" "s"] ]}.

(** The timestamp [2^63] seconds in the past is fresh. *)
Lemma slack_signature_exact_witness : VerifySignature 1700000000 "{}" demo_slack_headers "s" = true.
Proof.
  destruct (slack_signature_exact 1700000000 "{}" demo_slack_headers "s" ltac:(lia) ltac:(done)) as [_ H].
  apply H. exists (-9223372035154775808). split; [vm_compute; reflexivity|].
  split; [right; reflexivity|vm_compute; reflexivity].
Defined.
