(* ===== verification/SessionKey.v ===== *)
(** * Session keys (pkg/session/key.go)

    [BuildSessionKey], [ParseSessionKey] and [SanitizeSessionID]. *)
From Stdlib Require Import ZArith Lia Bool Ascii String List.
From stdpp Require Import base strings option list.
From S2P Require Import Prelude GoString.

Local Open Scope string_scope.
Local Open Scope Z_scope.

(** ** Building and parsing *)

(** The errors of [ParseSessionKey], one per [fmt.Errorf]. *)
Inductive key_error :=
| ErrUserPrefix
| ErrChannelMarker
| ErrSessionMarker
| ErrEmptyComponent.

Record key_parts := KeyParts { kp_user : string; kp_channel : string; kp_session : string }.

Definition BuildSessionKey (userID channelType sessionID : string) : string :=
  "user:" +:+ userID +:+ ":channel:" +:+ channelType +:+ ":session:" +:+ sessionID.

Definition ParseSessionKey (key : string) : result key_error key_parts :=
  match strip_prefix "user:" key with
  | None => Err ErrUserPrefix
  | Some rest =>
      match str_cut ":channel:" rest with
      | None => Err ErrChannelMarker
      | Some (userID, rest) =>
          match str_cut ":session:" rest with
          | None => Err ErrSessionMarker
          | Some (channelType, sessionID) =>
              if (userID =? "")%string || (channelType =? "")%string || (sessionID =? "")%string
              then Err ErrEmptyComponent
              else Ok (KeyParts userID channelType sessionID)
          end
      end
  end.

(** ** Sanitizing *)

Definition is_alnum (r : Z) : bool :=
  ((97 <=? r) && (r <=? 122)) || ((65 <=? r) && (r <=? 90)) || ((48 <=? r) && (r <=? 57)).

(** Runes written as they are; spaces are skipped, the rest becomes [-]. *)
Definition kept_rune (r : Z) : bool := (r =? 45) || (r =? 95) || is_alnum r.

Definition sanitize_rune (r : Z) : string :=
  if kept_rune r then utf8_encode r
  else if is_space r then "" else "-".

Definition is_hyphen (c : ascii) : bool := byte_of c =? 45.

Definition SanitizeSessionID (s : string) : string :=
  if (s =? "")%string then "default"
  else
    let b := fold_right (fun r acc => sanitize_rune r +:+ acc) "" (runes s) in
    let result := trim_bytes is_hyphen b in
    if (result =? "")%string then "default" else result.

(** The characters a sanitized identifier is made of. *)
Definition safe_byte (c : ascii) : bool := kept_rune (byte_of c).

(** A path component without separators, dots, colons or spaces, that neither
    starts nor ends with a hyphen. *)
Definition is_safe_id (s : string) : bool :=
  negb (s =? "")%string && str_forall safe_byte s && (trim_bytes is_hyphen s =? s)%string.

(** ** Lemmas *)

Lemma str_eqb_nonempty s : s <> "" -> (s =? "")%string = false.
Proof. intros H. by apply String.eqb_neq. Qed.

Lemma kept_rune_ascii r : kept_rune r = true -> 0 <= r < 128.
Proof.
  unfold kept_rune, is_alnum. rewrite !orb_true_iff, !andb_true_iff, !Z.eqb_eq, !Z.leb_le. lia.
Qed.

Lemma sanitize_rune_safe r : str_forall safe_byte (sanitize_rune r) = true.
Proof.
  unfold sanitize_rune. destruct (kept_rune r) eqn:E.
  - pose proof (kept_rune_ascii r E). rewrite utf8_encode_ascii by done.
    simpl. unfold safe_byte. by rewrite byte_of_of, E by lia.
  - by destruct (is_space r).
Qed.

Lemma sanitize_body_safe l :
  str_forall safe_byte (fold_right (fun r acc => sanitize_rune r +:+ acc) "" l) = true.
Proof.
  induction l as [|r l IH]; [done|]. cbn [fold_right].
  by rewrite str_forall_app, sanitize_rune_safe, IH.
Qed.

(** Sanitizing leaves a string of safe characters as it is. *)
Lemma sanitize_body_id s :
  str_forall safe_byte s = true ->
  fold_right (fun r acc => sanitize_rune r +:+ acc) "" (runes s) = s.
Proof.
  intros H. unfold runes. rewrite utf8_segs_ascii.
  - rewrite map_map. cbn [fst]. revert H.
    induction s as [|c s IH]; [done|]. intros [Hc Hs]%andb_true_iff.
    cbn [list_ascii_of_string map fold_right]. rewrite IH by done.
    unfold sanitize_rune. unfold safe_byte in Hc. rewrite Hc.
    rewrite utf8_encode_ascii by (by apply kept_rune_ascii). by rewrite of_byte_of.
  - eapply str_forall_impl; [|exact H]. intros c Hc. unfold is_ascii_byte, safe_byte in *.
    apply kept_rune_ascii in Hc. lia.
Qed.

(** *** [trim_bytes] *)

Lemma str_forall_list p s : str_forall p s = true <-> Forall (fun c => p c = true) (list_ascii_of_string s).
Proof.
  induction s as [|c s IH]; simpl; [by split; [constructor|]|].
  rewrite andb_true_iff, IH. by rewrite list.Forall_cons.
Qed.

Lemma str_forall_trim p q s : str_forall q s = true -> str_forall q (trim_bytes p s) = true.
Proof.
  rewrite !str_forall_list. unfold trim_bytes, string_of_list, drop_while_end.
  rewrite list_ascii_of_string_of_list_ascii.
  intros H. apply Forall_rev, Forall_drop_while, Forall_rev, Forall_drop_while, H.
Qed.

Lemma drop_while_rev_comm {A} (p : A -> bool) l :
  drop_while p (drop_while_end p (drop_while p l)) = drop_while_end p (drop_while p l).
Proof.
  apply drop_while_id. intros x l' H. unfold drop_while_end in H.
  set (m := drop_while p l) in *.
  destruct (drop_while_suffix p (rev m)) as (pre & Hm & _).
  apply (f_equal (@rev A)) in Hm. rewrite rev_involutive, rev_app_distr, H in Hm.
  by eapply (drop_while_head p l x (l' ++ rev pre)).
Qed.

Lemma trim_bytes_idem p s : trim_bytes p (trim_bytes p s) = trim_bytes p s.
Proof.
  unfold trim_bytes, string_of_list. rewrite list_ascii_of_string_of_list_ascii. f_equal.
  rewrite drop_while_rev_comm. unfold drop_while_end at 1 2. rewrite rev_involutive.
  by rewrite drop_while_idem.
Qed.

Lemma sanitize_is_safe s : is_safe_id (SanitizeSessionID s) = true.
Proof.
  unfold SanitizeSessionID, is_safe_id. destruct (String.eqb_spec s ""); [done|].
  set (b := fold_right _ _ _). destruct (String.eqb_spec (trim_bytes is_hyphen b) ""); [done|].
  rewrite str_eqb_nonempty by done. rewrite trim_bytes_idem, String.eqb_refl.
  by rewrite str_forall_trim by apply sanitize_body_safe.
Qed.

Lemma sanitize_safe_id s : is_safe_id s = true -> SanitizeSessionID s = s.
Proof.
  unfold is_safe_id, SanitizeSessionID. intros H. bool_hyps.
  rewrite str_eqb_nonempty by done. rewrite sanitize_body_id by done.
  by rewrite H0, str_eqb_nonempty.
Qed.

Lemma safe_id_nonempty s : is_safe_id s = true -> s <> "".
Proof. unfold is_safe_id. intros H. by bool_hyps. Qed.

Lemma build_parse u c s :
  u <> "" -> c <> "" -> s <> "" -> lacks ":" u = true -> lacks ":" c = true ->
  ParseSessionKey (BuildSessionKey u c s) = Ok (KeyParts u c s).
Proof.
  intros Hu Hc Hs Lu Lc. unfold ParseSessionKey, BuildSessionKey.
  rewrite strip_prefix_app, str_cut_app by done. rewrite str_cut_app by done.
  by rewrite !str_eqb_nonempty.
Qed.
#[export] Hint Resolve safe_id_nonempty sanitize_is_safe : nipper.

(** ** Theorems *)

(** [ParseSessionKey] inverts [BuildSessionKey]: for non-empty components,
    a user and a channel without a colon, parsing the built key gives back the
    three components, whatever the session identifier holds. *)
Lemma parse_build_roundtrip u c s :
  u <> "" -> c <> "" -> s <> "" -> lacks ":" u = true -> lacks ":" c = true ->
  ParseSessionKey (BuildSessionKey u c s) = Ok (KeyParts u c s).
Proof. apply build_parse. Qed.

Lemma parse_build_roundtrip_witness :
  ParseSessionKey (BuildSessionKey "usr_1" "slack" "C1:x") = Ok (KeyParts "usr_1" "slack" "C1:x").
Proof. apply parse_build_roundtrip; done. Defined.

(** Every key [ParseSessionKey] accepts is the key [BuildSessionKey]
    builds from the components it returned, which are all non-empty. *)
Lemma build_parse_roundtrip key p :
  ParseSessionKey key = Ok p ->
  BuildSessionKey (kp_user p) (kp_channel p) (kp_session p) = key
  /\ kp_user p <> "" /\ kp_channel p <> "" /\ kp_session p <> "".
Proof.
  unfold ParseSessionKey. destruct (strip_prefix _ _) as [r|] eqn:E1; [|done].
  destruct (str_cut _ r) as [[u r2]|] eqn:E2; [|done].
  destruct (str_cut _ r2) as [[c s]|] eqn:E3; [|done].
  destruct (_ || _) eqn:E; [done|]. intros [= <-]. bool_hyps. simpl.
  apply strip_prefix_Some in E1 as ->. apply str_cut_sound in E2 as ->.
  apply str_cut_sound in E3 as ->. done.
Qed.

Lemma build_parse_roundtrip_witness :
  BuildSessionKey "u" "cron" "j" = "user:u:channel:cron:session:j"
  /\ "u" <> "" /\ "cron" <> "" /\ "j" <> "".
Proof. apply (build_parse_roundtrip "user:u:channel:cron:session:j" (KeyParts "u" "cron" "j")).
  reflexivity. Defined.

(** [SanitizeSessionID] always returns a safe path component: not empty,
    only letters, digits, [-] and [_], no leading or trailing hyphen; and it is
    idempotent. *)
Lemma sanitize_safe_idempotent s :
  is_safe_id (SanitizeSessionID s) = true
  /\ SanitizeSessionID (SanitizeSessionID s) = SanitizeSessionID s.
Proof. split; [|apply sanitize_safe_id]; auto with nipper. Qed.
