(* ===== verification/Models.v ===== *)
(** * Data types of the gateway (internal/models)

    Structs are records with the fields in the order of the source, named
    strings ([ChannelType], [QueueMode], [NipperEventType]) are strings with
    their constants, the marker interface [ChannelMeta] is a sum of its
    implementations.  A [float64] is an IEEE binary64 datum [spec_float]; an
    [any] decoded from JSON is [jsonv]; a nil-able pointer is an [option]. *)
From Stdlib Require Import ZArith Bool Ascii String List.
From Corelib Require Import SpecFloat.
From stdpp Require Import base gmap strings option list.
From S2P Require Import Prelude GoString.

#[local] Set Warnings "-register-all".
Local Open Scope string_scope.

Abbreviation float64 := spec_float.

(** The dynamic types [encoding/json] stores in an [any]. *)
Inductive jsonv :=
| JNull
| JBool (b : bool)
| JNumber (x : float64)
| JString (s : string)
| JArray (l : list jsonv)
| JObject (kv : list (string * jsonv)).

(** ** channel.go *)

Abbreviation ChannelType := string.

Definition ChannelTypeWhatsApp : ChannelType := "whatsapp".
Definition ChannelTypeSlack : ChannelType := "slack".
Definition ChannelTypeCron : ChannelType := "cron".
Definition ChannelTypeMQTT : ChannelType := "mqtt".
Definition ChannelTypeRabbitMQ : ChannelType := "rabbitmq".
Definition ChannelTypeWebSocket : ChannelType := "websocket".

Record ChannelCapabilities := {
  SupportsMarkdown : bool;
  SupportsStreaming : bool;
  SupportsImages : bool;
  SupportsDocuments : bool;
  SupportsAudio : bool;
  SupportsReactions : bool;
  SupportsThreads : bool;
  SupportsMessageEdits : bool }.

(** The zero value of the struct: every capability is off. *)
Definition no_capabilities : ChannelCapabilities :=
  Build_ChannelCapabilities false false false false false false false false.

Record DeliveryContext := {
  dc_ChannelType : ChannelType;
  dc_ChannelID : string;
  dc_ReplyMode : string;
  dc_ThreadID : string;
  dc_NotifyChannels : list string;
  dc_Capabilities : ChannelCapabilities }.

Definition zero_DeliveryContext : DeliveryContext :=
  Build_DeliveryContext "" "" "" "" [] no_capabilities.

Definition WhatsAppCapabilities : ChannelCapabilities := {|
  SupportsMarkdown := false;
  SupportsStreaming := false;
  SupportsImages := true;
  SupportsDocuments := true;
  SupportsAudio := true;
  SupportsReactions := false;
  SupportsThreads := false;
  SupportsMessageEdits := false |}.

Definition SlackCapabilities : ChannelCapabilities := {|
  SupportsMarkdown := true;
  SupportsStreaming := true;
  SupportsImages := true;
  SupportsDocuments := true;
  SupportsAudio := false;
  SupportsReactions := true;
  SupportsThreads := true;
  SupportsMessageEdits := true |}.

Definition CronCapabilities : ChannelCapabilities := {|
  SupportsMarkdown := false;
  SupportsStreaming := false;
  SupportsImages := false;
  SupportsDocuments := false;
  SupportsAudio := false;
  SupportsReactions := false;
  SupportsThreads := false;
  SupportsMessageEdits := false |}.

Definition MQTTCapabilities : ChannelCapabilities := {|
  SupportsMarkdown := false;
  SupportsStreaming := false;
  SupportsImages := false;
  SupportsDocuments := false;
  SupportsAudio := false;
  SupportsReactions := false;
  SupportsThreads := false;
  SupportsMessageEdits := false |}.

Definition RabbitMQCapabilities : ChannelCapabilities := {|
  SupportsMarkdown := false;
  SupportsStreaming := false;
  SupportsImages := false;
  SupportsDocuments := false;
  SupportsAudio := false;
  SupportsReactions := false;
  SupportsThreads := false;
  SupportsMessageEdits := false |}.

Record WhatsAppMeta := {
  wa_WuzapiUserID : string;
  wa_WuzapiInstanceName : string;
  wa_WuzapiBaseURL : string;
  wa_ChatJID : string;
  wa_SenderJID : string;
  wa_MessageID : string;
  wa_PushName : string;
  wa_IsGroup : bool;
  wa_IsFromMe : bool;
  wa_QuotedMessageID : string;
  wa_QuotedParticipant : string;
  wa_HasMedia : bool;
  wa_MediaType : string;
  wa_S3URL : string;
  wa_MediaKey : string }.

Record SlackMeta := {
  sl_TeamID : string;
  sl_ChannelID : string;
  sl_SlackUserID : string;
  sl_ThreadTS : string;
  sl_MessageTS : string;
  sl_AppID : string;
  sl_BotID : string;
  sl_BotToken : string }.

Record CronMeta := { cr_JobID : string; cr_ScheduleAt : string }.

Record MqttMeta := {
  mq_Broker : string;
  mq_Topic : string;
  mq_QoS : Z;
  mq_Retain : bool;
  mq_ClientID : string;
  mq_CorrelationID : string;
  mq_ResponseTopic : string }.

Record RabbitMqMeta := {
  rb_Exchange : string;
  rb_RoutingKey : string;
  rb_CorrelationID : string;
  rb_ReplyTo : string;
  rb_MessageID : string }.

(** The implementations of the marker interface; a nil [ChannelMeta] is
    [None] of [option ChannelMeta]. *)
Inductive ChannelMeta :=
| MetaWhatsApp (v : WhatsAppMeta)
| MetaSlack (v : SlackMeta)
| MetaCron (v : CronMeta)
| MetaMqtt (v : MqttMeta)
| MetaRabbitMq (v : RabbitMqMeta)
| MetaRaw (bytes : string).

(** [RawMeta.MarshalJSON]. *)
Definition RawMeta_MarshalJSON (r : string) : string :=
  if (r =? "")%string then "null" else r.

(** ** message.go *)

Record ContentPart := {
  cp_Type : string;
  cp_Text : string;
  cp_URL : string;
  cp_MimeType : string;
  cp_Caption : string;
  cp_Transcript : string;
  cp_Latitude : float64;
  cp_Longitude : float64;
  cp_Address : string }.

Definition float_zero : float64 := S754_zero false.

Record MessageContent := { mc_Text : string; mc_Parts : list ContentPart }.

Record NipperMessage := {
  nm_MessageID : string;
  nm_OriginMessageID : string;
  nm_UserID : string;
  nm_SessionKey : string;
  nm_ChannelType : ChannelType;
  nm_ChannelIdentity : string;
  nm_Content : MessageContent;
  nm_DeliveryContext : DeliveryContext;
  nm_Meta : option ChannelMeta;
  nm_Timestamp : Z;
  nm_DedupeKey : string }.

Abbreviation NipperEventType := string.

Definition EventTypeDelta : NipperEventType := "delta".
Definition EventTypeToolStart : NipperEventType := "tool_start".
Definition EventTypeToolProgress : NipperEventType := "tool_progress".
Definition EventTypeToolEnd : NipperEventType := "tool_end".
Definition EventTypeThinking : NipperEventType := "thinking".
Definition EventTypeError : NipperEventType := "error".
Definition EventTypeDone : NipperEventType := "done".
Definition EventTypeSkillLoaded : NipperEventType := "skill_loaded".
Definition EventTypeSkillExecutionStart : NipperEventType := "skill_execution_start".
Definition EventTypeSkillExecutionEnd : NipperEventType := "skill_execution_end".
Definition EventTypeSkillSecretResolved : NipperEventType := "skill_secret_resolved".

Record EventDelta := { ed_Text : string }.

Record EventToolInfo := {
  ti_ToolName : string;
  ti_ToolCallID : string;
  ti_Input : jsonv;
  ti_Output : jsonv;
  ti_ExitCode : Z }.

Record EventThinking := { et_Text : string }.

Record EventError := { ee_Code : string; ee_Message : string; ee_Recoverable : bool }.

Record EventSkillInfo := {
  si_SkillName : string;
  si_HasConfig : bool;
  si_HasEntrypoint : bool;
  si_Args : string;
  si_ExitCode : Z;
  si_DurationMs : Z;
  si_SecretName : string;
  si_Provider : string }.

(** session.go *)
Record ContextUsage := {
  cu_InputTokens : Z;
  cu_OutputTokens : Z;
  cu_CacheReadTokens : Z;
  cu_ContextWindow : Z;
  cu_UsagePercent : float64 }.

Record NipperEvent := {
  ev_EventID : string;
  ev_Type : NipperEventType;
  ev_SessionKey : string;
  ev_ResponseID : string;
  ev_Timestamp : Z;
  ev_Delta : option EventDelta;
  ev_ToolInfo : option EventToolInfo;
  ev_SkillInfo : option EventSkillInfo;
  ev_Thinking : option EventThinking;
  ev_Error : option EventError;
  ev_ContextUsage : option ContextUsage;
  ev_UserID : string }.

Record NipperResponse := {
  rs_ResponseID : string;
  rs_SessionKey : string;
  rs_UserID : string;
  rs_ChannelType : ChannelType;
  rs_ChannelIdentity : string;
  rs_Text : string;
  rs_Parts : list ContentPart;
  rs_DeliveryContext : DeliveryContext;
  rs_Meta : option ChannelMeta;
  rs_OriginMessageID : string;
  rs_Timestamp : Z;
  rs_ContextUsage : option ContextUsage }.

(** *** [NipperMessage.UnmarshalJSON]

    The decoding of a JSON text into a struct is package [encoding/json];
    [shadow] is the struct it fills, whose raw [meta] is decoded by the
    concrete type the channel selects. *)
Record shadow := {
  sh_msg : NipperMessage;   (* every field but Meta *)
  sh_Meta : string }.       (* json.RawMessage *)

Record meta_decoders (E : Type) := {
  dec_whatsapp : string -> result E WhatsAppMeta;
  dec_slack : string -> result E SlackMeta;
  dec_cron : string -> result E CronMeta;
  dec_mqtt : string -> result E MqttMeta;
  dec_rabbitmq : string -> result E RabbitMqMeta }.

Arguments dec_whatsapp {E}. Arguments dec_slack {E}. Arguments dec_cron {E}.
Arguments dec_mqtt {E}. Arguments dec_rabbitmq {E}.

Definition set_meta (m : NipperMessage) (v : option ChannelMeta) : NipperMessage := {|
  nm_MessageID := nm_MessageID m;
  nm_OriginMessageID := nm_OriginMessageID m;
  nm_UserID := nm_UserID m;
  nm_SessionKey := nm_SessionKey m;
  nm_ChannelType := nm_ChannelType m;
  nm_ChannelIdentity := nm_ChannelIdentity m;
  nm_Content := nm_Content m;
  nm_DeliveryContext := nm_DeliveryContext m;
  nm_Meta := v;
  nm_Timestamp := nm_Timestamp m;
  nm_DedupeKey := nm_DedupeKey m |}.

Definition result_map {E A B} (f : A -> B) (r : result E A) : result E B :=
  let* a := r in Ok (f a).

(** [old] is the receiver before the call: its [Meta] is kept when the text
    has none. *)
Definition NipperMessage_UnmarshalJSON {E} (unmarshal : string -> result E shadow)
    (d : meta_decoders E) (old : NipperMessage) (data : string) : result E NipperMessage :=
  let* s := unmarshal data in
  let m := set_meta (sh_msg s) (nm_Meta old) in
  if (sh_Meta s =? "")%string || (sh_Meta s =? "null")%string then Ok m
  else
    let ct := nm_ChannelType m in
    let store v := set_meta m (Some v) in
    if (ct =? ChannelTypeWhatsApp)%string then
      result_map (fun v => store (MetaWhatsApp v)) (dec_whatsapp d (sh_Meta s))
    else if (ct =? ChannelTypeSlack)%string then
      result_map (fun v => store (MetaSlack v)) (dec_slack d (sh_Meta s))
    else if (ct =? ChannelTypeCron)%string then
      result_map (fun v => store (MetaCron v)) (dec_cron d (sh_Meta s))
    else if (ct =? ChannelTypeMQTT)%string then
      result_map (fun v => store (MetaMqtt v)) (dec_mqtt d (sh_Meta s))
    else if (ct =? ChannelTypeRabbitMQ)%string then
      result_map (fun v => store (MetaRabbitMq v)) (dec_rabbitmq d (sh_Meta s))
    else Ok (store (MetaRaw (sh_Meta s))).

(** ** queue.go *)

Abbreviation QueueMode := string.

Definition QueueModeSteer : QueueMode := "steer".
Definition QueueModeCollect : QueueMode := "collect".
Definition QueueModeInterrupt : QueueMode := "interrupt".
Definition QueueModeQueue : QueueMode := "queue".

Record QueueItem := {
  qi_ID : string;
  qi_Message : NipperMessage;
  qi_Mode : QueueMode;
  qi_Priority : Z;
  qi_EnqueuedAt : Z;
  qi_CollectedMessages : list NipperMessage }.

Definition ControlMessageInterrupt : string := "interrupt".
Definition ControlMessageAbort : string := "abort".

Record ControlMessage := {
  cm_Type : string;
  cm_UserID : string;
  cm_SessionKey : string;
  cm_Timestamp : Z }.

(** ** user.go *)

Record PolicyData := {
  pd_Allow : list string;
  pd_Deny : list string;
  pd_RateLimit : list (string * jsonv);
  pd_Models : list (string * jsonv);
  pd_Extra : list (string * jsonv) }.

Record UserPolicy := {
  up_ID : Z;
  up_UserID : string;
  up_PolicyType : string;
  up_Data : PolicyData;
  up_CreatedAt : Z;
  up_UpdatedAt : Z }.

Record AdminAuditEntry := {
  aa_ID : Z;
  aa_Timestamp : Z;
  aa_Action : string;
  aa_Actor : string;
  aa_TargetUserID : string;
  aa_Details : string;
  aa_IPAddress : string }.

Abbreviation AgentStatus := string.
Definition AgentStatusProvisioned : AgentStatus := "provisioned".
Definition AgentStatusRegistered : AgentStatus := "registered".
Definition AgentStatusRevoked : AgentStatus := "revoked".

Record Agent := {
  ag_ID : string;
  ag_UserID : string;
  ag_Label : string;
  ag_TokenHash : string;
  ag_TokenPrefix : string;
  ag_RMQUsername : string;
  ag_Status : AgentStatus;
  ag_LastRegisteredAt : option Z;
  ag_LastRegisteredIP : string;
  ag_CreatedAt : Z;
  ag_UpdatedAt : Z }.

Record User := {
  us_ID : string;
  us_Name : string;
  us_Enabled : bool;
  us_DefaultModel : string;
  us_CreatedAt : Z;
  us_UpdatedAt : Z;
  us_Preferences : list (string * jsonv) }.

Record AgentHealthInfo := {
  ah_UserID : string;
  ah_Queue : string;
  ah_ConsumerCount : Z;
  ah_MessagesReady : Z;
  ah_Status : string }.

Record AgentHeartbeatInfo := {
  hb_AgentID : string;
  hb_UserID : string;
  hb_Status : string;
  hb_LastSeen : string }.

(** A blank message and meta, for the witnesses of the other files. *)
Definition zero_msg : NipperMessage :=
  Build_NipperMessage "" "" "" "" "" "" (Build_MessageContent "" []) zero_DeliveryContext
    None time_zero "".

Definition zero_wa : WhatsAppMeta :=
  Build_WhatsAppMeta "" "" "" "" "" "" "" false false "" "" false "" "" "".
Definition zero_slack : SlackMeta := Build_SlackMeta "" "" "" "" "" "" "" "".

(** ** The meta matches the channel *)

Definition meta_matches (ct : ChannelType) (v : ChannelMeta) : bool :=
  match v with
  | MetaWhatsApp _ => (ct =? ChannelTypeWhatsApp)%string
  | MetaSlack _ => (ct =? ChannelTypeSlack)%string
  | MetaCron _ => (ct =? ChannelTypeCron)%string
  | MetaMqtt _ => (ct =? ChannelTypeMQTT)%string
  | MetaRabbitMq _ => (ct =? ChannelTypeRabbitMQ)%string
  | MetaRaw _ => negb (existsb (String.eqb ct)
      [ChannelTypeWhatsApp; ChannelTypeSlack; ChannelTypeCron; ChannelTypeMQTT; ChannelTypeRabbitMQ])
  end.

(** Decoding a message keeps every other field of the decoded text and
    gives it the metadata of its channel: a fresh receiver's decoded [Meta] is
    nil exactly when the text has none, and otherwise is the struct of the
    message's channel (raw bytes for an unknown channel). *)
Lemma unmarshal_meta_matches {E} um (d : meta_decoders E) old data m :
  nm_Meta old = None ->
  NipperMessage_UnmarshalJSON um d old data = Ok m ->
  (exists s, um data = Ok s /\ set_meta m None = set_meta (sh_msg s) None
             /\ (nm_Meta m = None <-> sh_Meta s = "" \/ sh_Meta s = "null"))
  /\ (forall v, nm_Meta m = Some v -> meta_matches (nm_ChannelType m) v = true).
Proof.
  intros Hold. unfold NipperMessage_UnmarshalJSON. destruct (um data) as [s|]; [|done].
  cbn [result_bind]. rewrite Hold.
  destruct (String.eqb_spec (sh_Meta s) "") as [H1|H1]; cbn [orb];
    [intros [= <-]; split; [exists s; simpl; tauto|done]|].
  destruct (String.eqb_spec (sh_Meta s) "null") as [H2|H2];
    [intros [= <-]; split; [exists s; simpl; tauto|done]|].
  intros H. cut (exists v, m = set_meta (sh_msg s) (Some v)
      /\ meta_matches (nm_ChannelType (sh_msg s)) v = true).
  { intros (v & -> & Hv). split; [|by intros ? [= <-]].
    exists s. split; [done|]. split; [done|]. simpl. naive_solver. }
  revert H. cbn [nm_ChannelType set_meta]. unfold result_map.
  repeat match goal with
  | |- context [(?a =? ?b)%string] => destruct (String.eqb_spec a b) as [He|?];
      [rewrite He; match goal with |- context [result_bind ?r _] => destruct r end;
       [intros [= <-]; by eexists (_ _)|done]|]
  end.
  intros [= <-]. exists (MetaRaw (sh_Meta s)). split; [done|]. simpl.
  by repeat match goal with H : ?a <> ?b |- _ => apply String.eqb_neq in H; rewrite H end.
Qed.

(** A decoder that accepts every text, for the witness. *)
Definition demo_decoders : meta_decoders unit := {|
  dec_whatsapp _ := Ok zero_wa;
  dec_slack _ := Ok zero_slack;
  dec_cron s := Ok (Build_CronMeta s "");
  dec_mqtt s := Ok (Build_MqttMeta s "" 0 false "" "" "");
  dec_rabbitmq s := Ok (Build_RabbitMqMeta s "" "" "" "") |}.

Definition demo_unmarshal (data : string) : result unit shadow :=
  Ok (Build_shadow (Build_NipperMessage "" "" "" "" "slack" "" (Build_MessageContent "" [])
                      zero_DeliveryContext None time_zero "") data).

Lemma unmarshal_meta_matches_witness :
  exists m, NipperMessage_UnmarshalJSON demo_unmarshal demo_decoders zero_msg "{}" = Ok m
  /\ (forall v, nm_Meta m = Some v -> meta_matches (nm_ChannelType m) v = true)
  /\ nm_Meta m = Some (MetaSlack zero_slack).
Proof.
  eexists. split; [reflexivity|]. split; [|reflexivity].
  apply (unmarshal_meta_matches demo_unmarshal demo_decoders zero_msg "{}"); reflexivity.
Defined.
