(* ===== verification/GoAny.v ===== *)
(** * Values of any type (encoding/json into [interface{}])

    What the standard decoder makes of a JSON value when the program gives it no
    type, and the JSON such a value is written as; [any_json_read] and [any_map_read]:
    what was written is read back, bytes that are not UTF-8 replaced. *)
From Stdlib Require Import ZArith Bool Ascii String List.
From stdpp Require Import base strings option list.
From S2P Require Import Prelude GoString GoJsonParse GoJsonProofs GoFloat Models.

Local Open Scope string_scope.
Local Open Scope Z_scope.

(** What the standard decoder stores in an [interface{}]; a number that is out of
    range is an error. *)
Fixpoint to_any (v : json) : jsonv * bool :=
  match v with
  | VNull => (JNull, false)
  | VBool b => (JBool b, false)
  | VStr s => (JString s, false)
  | VNum t => match parse_json_float t with Some x => (JNumber x, false) | None => (JNull, true) end
  | VArr l => let rs := map to_any l in (JArray (map fst rs), existsb snd rs)
  | VObj m => let rs := map (fun kv => (fst kv, to_any (snd kv))) m in
              (JObject (map (fun kv => (fst kv, fst (snd kv))) rs), existsb (fun kv => snd (snd kv)) rs)
  end.

(** A [map[string]any]; the later of two members with a name stays. *)
Definition put_member (kv : string * jsonv) (m : list (string * jsonv)) : list (string * jsonv) :=
  (List.filter (fun x => negb (fst x =? fst kv)%string) m ++ [kv])%list.

Definition dec_any_map : decoder (list (string * jsonv)) := fun v x =>
  match v with
  | VNull => ([], false)
  | VObj m => fold_left (fun acc kv => let '(y, e) := to_any (snd kv) in (put_member (fst kv, y) (fst acc), snd acc || e))
                m (x, false)
  | _ => (x, true)
  end.

(** ** Induction on values *)

Lemma jsonv_deep_ind (P : jsonv -> Prop) :
  P JNull -> (forall b, P (JBool b)) -> (forall x, P (JNumber x)) -> (forall s, P (JString s)) ->
  (forall l, Forall P l -> P (JArray l)) -> (forall m, Forall (fun kv => P (snd kv)) m -> P (JObject m)) ->
  forall v, P v.
Proof.
  intros Hn Hb Hx Hs Ha Ho. fix IH 1. intros [| | | |l|m]; [done|apply Hb|apply Hx|apply Hs| |].
  - apply Ha. induction l as [|v l IHl]; constructor; [apply IH|exact IHl].
  - apply Ho. induction m as [|[k v] m IHm]; constructor; [apply IH|exact IHm].
Qed.

Lemma put_members ms : forall acc, NoDup (map fst (acc ++ ms)) ->
  fold_left (fun acc kv => put_member kv acc) ms acc = (acc ++ ms)%list.
Proof.
  induction ms as [|[k v] ms IH]; intros acc Hn; cbn [fold_left]; [by rewrite app_nil_r|].
  assert (E : put_member (k, v) acc = (acc ++ [(k, v)])%list).
  { unfold put_member. f_equal. rewrite map_app in Hn. apply NoDup_app in Hn as (_ & Hd & _). cbn [fst].
    induction acc as [|[k' v'] acc IHa]; [done|]. cbn [List.filter fst].
    destruct (String.eqb_spec k' k) as [->|]; cbn [negb].
    - exfalso. eapply (Hd k); cbn; left.
    - f_equal. apply IHa. intros x Hx. apply Hd. by right. }
  rewrite E, IH by by rewrite <- app_assoc. by rewrite <- app_assoc.
Qed.

(** ** Writing them *)

Fixpoint numbers (v : jsonv) : list float64 :=
  match v with
  | JNumber x => [x]
  | JArray l => flat_map numbers l
  | JObject m => flat_map (fun kv => numbers (snd kv)) m
  | _ => []
  end.

Fixpoint valid_any (v : jsonv) : jsonv :=
  match v with
  | JString s => JString (valid_utf8 s)
  | JArray l => JArray (map valid_any l)
  | JObject m => JObject (map (fun kv => (valid_utf8 (fst kv), valid_any (snd kv))) m)
  | _ => v
  end.
Definition valid_any_map (m : list (string * jsonv)) : list (string * jsonv) :=
  map (fun kv => (valid_utf8 (fst kv), valid_any (snd kv))) m.

Section writing.
(** How encoding/json writes a number. *)
Context (fmt_num : float64 -> string).

(** A map is listed in the order of its names, which is the one it is written in. *)
Fixpoint any_json (v : jsonv) : json :=
  match v with
  | JNull => VNull
  | JBool b => VBool b
  | JNumber x => VNum (fmt_num x)
  | JString s => VStr s
  | JArray l => VArr (map any_json l)
  | JObject m => VObj (map (fun kv => (fst kv, any_json (snd kv))) m)
  end.
Definition any_map_json (m : list (string * jsonv)) : json := VObj (map (fun kv => (fst kv, any_json (snd kv))) m).

(** A number is written as one, and read as the same. *)
Definition number_ok (x : float64) : Prop := is_number (fmt_num x) = true /\ parse_json_float (fmt_num x) = Some x.
Definition map_ok (m : list (string * jsonv)) : Prop := Forall number_ok (flat_map (fun kv => numbers (snd kv)) m).
Definition names_differ (m : list (string * jsonv)) : Prop := NoDup (map (fun kv => valid_utf8 (fst kv)) m).

Lemma any_json_read v : Forall number_ok (numbers v) ->
  encodable (any_json v) = true /\ to_any (valid_json (any_json v)) = (valid_any v, false).
Proof.
  induction v as [|b|x|s|l IH|m IH] using jsonv_deep_ind; intros Hn; cbn [numbers any_json encodable valid_json to_any valid_any] in *; try done.
  - apply Forall_cons in Hn as [[H1 H2] _]. by rewrite H2.
  - assert (H : forallb encodable (map any_json l) = true /\ map to_any (map valid_json (map any_json l)) = map (fun v => (valid_any v, false)) l).
    { induction IH as [|v l Hv Hl IHl]; [done|]. cbn [flat_map] in Hn. apply Forall_app in Hn as [H1 H2].
      destruct (Hv H1) as [E1 E2]. destruct (IHl H2) as [E3 E4]. cbn [map forallb]. by rewrite E1, E2, E3, E4. }
    destruct H as [E ->]. split; [done|]. rewrite map_map. cbn [fst]. f_equal. clear. by induction l.
  - assert (H : forallb (fun kv => encodable (snd kv)) (map (fun kv => (fst kv, any_json (snd kv))) m) = true
      /\ map (fun kv => (fst kv, to_any (snd kv))) (map (fun kv => (valid_utf8 (fst kv), valid_json (snd kv))) (map (fun kv => (fst kv, any_json (snd kv))) m))
         = map (fun kv => (valid_utf8 (fst kv), (valid_any (snd kv), false))) m).
    { induction IH as [|[k v] m Hv Hm IHm]; [done|]. cbn [flat_map fst snd] in Hn, Hv. apply Forall_app in Hn as [H1 H2].
      destruct (Hv H1) as [E1 E2]. destruct (IHm H2) as [E3 E4]. cbn [map forallb fst snd]. by rewrite E1, E2, E3, E4. }
    destruct H as [E ->]. split; [done|]. rewrite map_map. cbn [fst snd]. f_equal. clear. by induction m.
Qed.

Lemma any_map_encodable m : map_ok m -> encodable (any_map_json m) = true.
Proof.
  unfold map_ok. induction m as [|[k v] m IH]; intros Hn; [done|]. cbn [flat_map snd] in Hn. apply Forall_app in Hn as [H1 H2].
  specialize (IH H2). unfold any_map_json in *. cbn [map fst snd encodable forallb] in *. rewrite IH, andb_true_r. by apply any_json_read.
Qed.

Lemma any_map_read m : map_ok m -> names_differ m -> dec_any_map (valid_json (any_map_json m)) [] = (valid_any_map m, false).
Proof.
  intros Hn Hd. unfold any_map_json. cbn [valid_json dec_any_map].
  transitivity (fold_left (fun acc kv => put_member kv acc) (valid_any_map m) [], false).
  - generalize ([] : list (string * jsonv)) as acc. unfold map_ok in Hn. clear Hd. revert Hn.
    induction m as [|[k v] m IH]; intros Hn acc; [done|]. cbn [flat_map snd] in Hn. apply Forall_app in Hn as [H1 H2].
    cbn [map fold_left fst snd valid_any_map]. destruct (any_json_read v H1) as [_ ->]. cbn [orb]. apply IH. exact H2.
  - rewrite put_members; [done|]. unfold names_differ in Hd. cbn [app]. unfold valid_any_map. by rewrite map_map.
Qed.
End writing.

(** ** Maps are written in the order of their names *)

Fixpoint insert_member (kv : string * jsonv) (m : list (string * jsonv)) : list (string * jsonv) :=
  match m with
  | [] => [kv]
  | x :: m' => if String.ltb (fst kv) (fst x) then kv :: m else x :: insert_member kv m'
  end.
Definition sort_members (m : list (string * jsonv)) : list (string * jsonv) := fold_right insert_member [] m.

Fixpoint canon (v : jsonv) : jsonv :=
  match v with
  | JArray l => JArray (map canon l)
  | JObject m => JObject (sort_members (map (fun kv => (fst kv, canon (snd kv))) m))
  | _ => v
  end.
Definition canon_map (m : list (string * jsonv)) : list (string * jsonv) := sort_members (map (fun kv => (fst kv, canon (snd kv))) m).

(** [json.Marshal] of a value and of a map, when it succeeds. *)
Definition marshal_any (fmt_num : float64 -> string) (v : jsonv) : string := encode_json (any_json fmt_num (canon v)).
Definition marshal_any_map (fmt_num : float64 -> string) (m : list (string * jsonv)) : string := encode_json (any_map_json fmt_num (canon_map m)).

Lemma insert_member_perm kv m : insert_member kv m ≡ₚ kv :: m.
Proof. induction m as [|x m IH]; [done|]. cbn [insert_member]. destruct (String.ltb _ _); [done|]. rewrite IH. apply Permutation_swap. Qed.

Lemma sort_members_perm m : sort_members m ≡ₚ m.
Proof. induction m as [|x m IH]; [done|]. cbn. by rewrite insert_member_perm, IH. Qed.

Lemma canon_map_keys m : map fst (canon_map m) ≡ₚ map fst m.
Proof. unfold canon_map. rewrite sort_members_perm, map_map. done. Qed.

Lemma numbers_canon v : numbers (canon v) ≡ₚ numbers v.
Proof.
  induction v as [| | | |l IH|m IH] using jsonv_deep_ind; try done; cbn [canon numbers].
  - induction IH as [|v l Hv Hl IHl]; [done|]. cbn. by rewrite Hv, IHl.
  - assert (E : forall m1 m2 : list (string * jsonv), m1 ≡ₚ m2 -> flat_map (fun kv => numbers (snd kv)) m1 ≡ₚ flat_map (fun kv => numbers (snd kv)) m2).
    { intros m1 m2 H. by apply Permutation_flat_map. }
    rewrite (E _ _ (sort_members_perm _)). induction IH as [|v l Hv Hl IHl]; [done|]. cbn. by rewrite Hv, IHl.
Qed.

Lemma map_ok_canon fmt m : map_ok fmt m -> map_ok fmt (canon_map m).
Proof.
  unfold map_ok. intros H. pose proof (numbers_canon (JObject m)) as E. cbn [canon numbers] in E. fold (canon_map m) in E. by rewrite E.
Qed.

Lemma names_differ_canon m : names_differ m -> names_differ (canon_map m).
Proof.
  unfold names_differ. rewrite <- !(map_map fst valid_utf8). intros H. eapply NoDup_Permutation_proper; [|exact H]. by rewrite canon_map_keys.
Qed.

Lemma marshal_any_map_read fmt m : map_ok fmt m -> names_differ m ->
  unmarshal dec_any_map [] (marshal_any_map fmt m) = (valid_any_map (canon_map m), None).
Proof.
  intros Hn Hd. unfold unmarshal, marshal_any_map. rewrite json_parse_encoded by by apply any_map_encodable, map_ok_canon.
  by rewrite any_map_read by first [by apply map_ok_canon|by apply names_differ_canon].
Qed.

(** The names of a map that was read differ. *)
Lemma put_member_names kv m : NoDup (map fst m) -> NoDup (map fst (put_member kv m)).
Proof.
  intros H. unfold put_member. rewrite map_app. apply NoDup_app. split_and!.
  - by apply NoDup_map_filter.
  - intros x Hx. cbn. rewrite list_elem_of_singleton. intros ->. apply list_elem_of_In, in_map_iff in Hx as (y & E & Hy).
    apply filter_In in Hy as [_ Hy]. by rewrite E, String.eqb_refl in Hy.
  - apply NoDup_singleton.
Qed.

Lemma dec_any_map_names v x m e : dec_any_map v x = (m, e) -> NoDup (map fst x) -> NoDup (map fst m).
Proof.
  destruct v as [| | | | |ms]; cbn [dec_any_map]; try (by intros [= <- <-]); [intros [= <- <-] _; constructor|].
  generalize false. revert x. induction ms as [|[k v] ms IH]; intros x b; cbn [fold_left fst snd]; [by intros [= <- <-]|].
  destruct (to_any v) as [y e']. intros H Hx. eapply IH; [exact H|]. by apply put_member_names.
Qed.
