(* ===== verification/Whatsapp.v ===== *)
(** * WhatsApp normalizer (channels/whatsapp/normalizer.go)

    The webhook payload of Wuzapi as records with their JSON decoders, and
    [NormalizeInbound], which turns a payload into a message or ignores it. *)
From Stdlib Require Import ZArith Lia Bool Ascii String List.
From Corelib Require Import SpecFloat.
From stdpp Require Import base gmap strings option list.
From S2P Require Import Prelude GoString GoTime GoJsonParse GoFloat Models.

#[local] Set Warnings "-register-all".
Local Open Scope string_scope.
Local Open Scope Z_scope.
Local Open Scope reader_scope.

(** ** The payload *)

Record WuzapiMessageSource := {
  ms_Chat : string;
  ms_Sender : string;
  ms_IsFromMe : bool;
  ms_IsGroup : bool }.

Record WuzapiInfo := {
  wi_ID : string;
  wi_MessageSource : WuzapiMessageSource;
  wi_Chat : string;
  wi_Sender : string;
  wi_IsFromMe : bool;
  wi_IsGroup : bool;
  wi_SenderAlt : string;
  wi_PushName : string;
  wi_Timestamp : string;
  wi_Type : string }.

Record WuzapiS3 := {
  s3_URL : string;
  s3_MimeType : string;
  s3_FileName : string;
  s3_Size : Z }.

Record WuzapiEvent := {
  we_Info : WuzapiInfo;
  we_Message : option json;
  we_S3 : option WuzapiS3 }.

Record WuzapiWebhook := {
  wh_Type : string;
  wh_Event : option WuzapiEvent;
  wh_Info : WuzapiInfo;
  wh_Message : option json;
  wh_S3 : option WuzapiS3;
  wh_UserID : string;
  wh_InstanceName : string;
  wh_Token : string }.

Record wuzapiContextInfo := { ci_StanzaID : string; ci_Participant : string }.

Record wuzapiExtendedText := { xt_Text : string; xt_ContextInfo : option wuzapiContextInfo }.

Record wuzapiMediaMessage := {
  mm_Caption : string;
  mm_Mimetype : string;
  mm_FileLength : Z;
  mm_FileName : string;
  mm_URL : string;
  mm_MediaKey : string;
  mm_ContextInfo : option wuzapiContextInfo }.

Record wuzapiLocation := {
  lo_DegreesLatitude : float64;
  lo_DegreesLongitude : float64;
  lo_Name : string;
  lo_Address : string }.

Record wuzapiContact := { ct_DisplayName : string; ct_Vcard : string }.

Record wuzapiMessage := {
  wm_Conversation : string;
  wm_ExtendedText : option wuzapiExtendedText;
  wm_ImageMessage : option wuzapiMediaMessage;
  wm_AudioMessage : option wuzapiMediaMessage;
  wm_VideoMessage : option wuzapiMediaMessage;
  wm_DocumentMessage : option wuzapiMediaMessage;
  wm_StickerMessage : option wuzapiMediaMessage;
  wm_LocationMessage : option wuzapiLocation;
  wm_ContactMessage : option wuzapiContact }.

Definition zero_source := Build_WuzapiMessageSource "" "" false false.
Definition zero_info := Build_WuzapiInfo "" zero_source "" "" false false "" "" "" "".
Definition zero_s3 := Build_WuzapiS3 "" "" "" 0.
Definition zero_event := Build_WuzapiEvent zero_info None None.
Definition zero_webhook := Build_WuzapiWebhook "" None zero_info None None "" "" "".
Definition zero_context := Build_wuzapiContextInfo "" "".
Definition zero_text := Build_wuzapiExtendedText "" None.
Definition zero_media := Build_wuzapiMediaMessage "" "" 0 "" "" "" None.
Definition zero_location := Build_wuzapiLocation float_zero float_zero "" "".
Definition zero_contact := Build_wuzapiContact "" "".
Definition zero_wmsg := Build_wuzapiMessage "" None None None None None None None None.

(** *** Their JSON decoders, by the structs' tags *)

Definition dec_source : decoder WuzapiMessageSource := dec_struct (fun x =>
  let f {B} := @field B ["Chat"; "Sender"; "IsFromMe"; "IsGroup"] in
  Build_WuzapiMessageSource
    <$$> f "Chat" dec_string (ms_Chat x)
    <*> f "Sender" dec_string (ms_Sender x)
    <*> f "IsFromMe" dec_bool (ms_IsFromMe x)
    <*> f "IsGroup" dec_bool (ms_IsGroup x)).

Definition dec_info : decoder WuzapiInfo := dec_struct (fun x =>
  let f {B} := @field B ["ID"; "MessageSource"; "Chat"; "Sender"; "IsFromMe"; "IsGroup";
                         "SenderAlt"; "PushName"; "Timestamp"; "Type"] in
  Build_WuzapiInfo
    <$$> f "ID" dec_string (wi_ID x)
    <*> f "MessageSource" dec_source (wi_MessageSource x)
    <*> f "Chat" dec_string (wi_Chat x)
    <*> f "Sender" dec_string (wi_Sender x)
    <*> f "IsFromMe" dec_bool (wi_IsFromMe x)
    <*> f "IsGroup" dec_bool (wi_IsGroup x)
    <*> f "SenderAlt" dec_string (wi_SenderAlt x)
    <*> f "PushName" dec_string (wi_PushName x)
    <*> f "Timestamp" dec_string (wi_Timestamp x)
    <*> f "Type" dec_string (wi_Type x)).

Definition dec_s3 : decoder WuzapiS3 := dec_struct (fun x =>
  let f {B} := @field B ["url"; "mimeType"; "fileName"; "size"] in
  Build_WuzapiS3
    <$$> f "url" dec_string (s3_URL x)
    <*> f "mimeType" dec_string (s3_MimeType x)
    <*> f "fileName" dec_string (s3_FileName x)
    <*> f "size" dec_int64 (s3_Size x)).

Definition dec_event : decoder WuzapiEvent := dec_struct (fun x =>
  let f {B} := @field B ["Info"; "Message"; "s3"] in
  Build_WuzapiEvent
    <$$> f "Info" dec_info (we_Info x)
    <*> f "Message" dec_raw (we_Message x)
    <*> f "s3" (dec_ptr zero_s3 dec_s3) (we_S3 x)).

Definition dec_webhook : decoder WuzapiWebhook := dec_struct (fun x =>
  let f {B} := @field B ["type"; "event"; "Info"; "Message"; "s3"; "userID"; "instanceName"; "token"] in
  Build_WuzapiWebhook
    <$$> f "type" dec_string (wh_Type x)
    <*> f "event" (dec_ptr zero_event dec_event) (wh_Event x)
    <*> f "Info" dec_info (wh_Info x)
    <*> f "Message" dec_raw (wh_Message x)
    <*> f "s3" (dec_ptr zero_s3 dec_s3) (wh_S3 x)
    <*> f "userID" dec_string (wh_UserID x)
    <*> f "instanceName" dec_string (wh_InstanceName x)
    <*> f "token" dec_string (wh_Token x)).

Definition dec_context : decoder wuzapiContextInfo := dec_struct (fun x =>
  let f {B} := @field B ["StanzaId"; "Participant"] in
  Build_wuzapiContextInfo
    <$$> f "StanzaId" dec_string (ci_StanzaID x)
    <*> f "Participant" dec_string (ci_Participant x)).

Definition dec_text : decoder wuzapiExtendedText := dec_struct (fun x =>
  let f {B} := @field B ["Text"; "ContextInfo"] in
  Build_wuzapiExtendedText
    <$$> f "Text" dec_string (xt_Text x)
    <*> f "ContextInfo" (dec_ptr zero_context dec_context) (xt_ContextInfo x)).

Definition dec_media : decoder wuzapiMediaMessage := dec_struct (fun x =>
  let f {B} := @field B ["Caption"; "Mimetype"; "FileLength"; "FileName"; "URL"; "MediaKey"; "ContextInfo"] in
  Build_wuzapiMediaMessage
    <$$> f "Caption" dec_string (mm_Caption x)
    <*> f "Mimetype" dec_string (mm_Mimetype x)
    <*> f "FileLength" dec_uint64 (mm_FileLength x)
    <*> f "FileName" dec_string (mm_FileName x)
    <*> f "URL" dec_string (mm_URL x)
    <*> f "MediaKey" dec_string (mm_MediaKey x)
    <*> f "ContextInfo" (dec_ptr zero_context dec_context) (mm_ContextInfo x)).

Definition dec_location : decoder wuzapiLocation := dec_struct (fun x =>
  let f {B} := @field B ["DegreesLatitude"; "DegreesLongitude"; "Name"; "Address"] in
  Build_wuzapiLocation
    <$$> f "DegreesLatitude" dec_float64 (lo_DegreesLatitude x)
    <*> f "DegreesLongitude" dec_float64 (lo_DegreesLongitude x)
    <*> f "Name" dec_string (lo_Name x)
    <*> f "Address" dec_string (lo_Address x)).

Definition dec_contact : decoder wuzapiContact := dec_struct (fun x =>
  let f {B} := @field B ["DisplayName"; "Vcard"] in
  Build_wuzapiContact
    <$$> f "DisplayName" dec_string (ct_DisplayName x)
    <*> f "Vcard" dec_string (ct_Vcard x)).

Definition dec_wmsg : decoder wuzapiMessage := dec_struct (fun x =>
  let f {B} := @field B ["Conversation"; "ExtendedTextMessage"; "ImageMessage"; "AudioMessage";
    "VideoMessage"; "DocumentMessage"; "StickerMessage"; "LocationMessage"; "ContactMessage"] in
  let media := dec_ptr zero_media dec_media in
  Build_wuzapiMessage
    <$$> f "Conversation" dec_string (wm_Conversation x)
    <*> f "ExtendedTextMessage" (dec_ptr zero_text dec_text) (wm_ExtendedText x)
    <*> f "ImageMessage" media (wm_ImageMessage x)
    <*> f "AudioMessage" media (wm_AudioMessage x)
    <*> f "VideoMessage" media (wm_VideoMessage x)
    <*> f "DocumentMessage" media (wm_DocumentMessage x)
    <*> f "StickerMessage" media (wm_StickerMessage x)
    <*> f "LocationMessage" (dec_ptr zero_location dec_location) (wm_LocationMessage x)
    <*> f "ContactMessage" (dec_ptr zero_contact dec_contact) (wm_ContactMessage x)).

(** ** The envelope's fields, whichever layout has them *)

Definition ResolvedChat (i : WuzapiInfo) : string :=
  if negb (ms_Chat (wi_MessageSource i) =? "")%string then ms_Chat (wi_MessageSource i)
  else wi_Chat i.

Definition ResolvedSender (i : WuzapiInfo) : string :=
  if negb (wi_SenderAlt i =? "")%string then wi_SenderAlt i
  else if negb (ms_Sender (wi_MessageSource i) =? "")%string then ms_Sender (wi_MessageSource i)
  else wi_Sender i.

Definition ResolvedIsFromMe (i : WuzapiInfo) : bool :=
  if negb (ms_Chat (wi_MessageSource i) =? "")%string then ms_IsFromMe (wi_MessageSource i)
  else wi_IsFromMe i.

Definition ResolvedIsGroup (i : WuzapiInfo) : bool :=
  if negb (ms_Chat (wi_MessageSource i) =? "")%string then ms_IsGroup (wi_MessageSource i)
  else wi_IsGroup i.

(** ** JIDs *)

(** [strings.Index(s, sep)] splits at the first separator; an index of zero or
    none leaves the text alone, as the code's two tests do. *)
Definition normalizeJID (jid : string) : string :=
  match str_cut "@" jid with
  | None => jid
  | Some (user, domain) =>
      if (user =? "")%string then jid
      else
        let user := match str_cut ":" user with
                    | Some (u, _) => if (u =? "")%string then user else u
                    | None => user
                    end in
        user +:+ "@" +:+ domain
  end.

(** ** Content *)

Definition part (type text url mime caption : string) : ContentPart :=
  Build_ContentPart type text url mime caption "" float_zero float_zero "".

Definition formatLocationText (loc : wuzapiLocation) : string :=
  if negb (lo_Name loc =? "")%string then "📍 " +:+ lo_Name loc
  else "📍 " +:+ fmt_f6 (lo_DegreesLatitude loc) +:+ ", " +:+ fmt_f6 (lo_DegreesLongitude loc).

Definition s3_url (s3 : option WuzapiS3) : string :=
  match s3 with Some s => s3_URL s | None => "" end.

Definition buildMediaContent (media : wuzapiMediaMessage) (partType : string) (s3 : option WuzapiS3) : MessageContent :=
  let caption := mm_Caption media in
  let parts := [part partType "" (s3_url s3) (mm_Mimetype media) caption] in
  {| mc_Text := if (caption =? "")%string then "[" +:+ partType +:+ " message]" else caption;
     mc_Parts := if (caption =? "")%string then parts else part "text" caption "" "" "" :: parts |}.

Definition extractContent (msg : wuzapiMessage) (s3 : option WuzapiS3) : MessageContent * string :=
  if negb (wm_Conversation msg =? "")%string then (Build_MessageContent (wm_Conversation msg) [], "")
  else match wm_ExtendedText msg with
  | Some t => (Build_MessageContent (xt_Text t) [], "")
  | None => match wm_ImageMessage msg with
  | Some m => (buildMediaContent m "image" s3, "image")
  | None => match wm_AudioMessage msg with
  | Some m => (buildMediaContent m "audio" s3, "audio")
  | None => match wm_VideoMessage msg with
  | Some m => (buildMediaContent m "video" s3, "video")
  | None => match wm_DocumentMessage msg with
  | Some m => (buildMediaContent m "document" s3, "document")
  | None => match wm_StickerMessage msg with
  | Some m => (buildMediaContent m "image" s3, "sticker")
  | None => match wm_LocationMessage msg with
  | Some l => (Build_MessageContent (formatLocationText l)
                 [Build_ContentPart "location" "" "" "" "" "" (lo_DegreesLatitude l)
                    (lo_DegreesLongitude l) (lo_Address l)], "")
  | None => match wm_ContactMessage msg with
  | Some c => (Build_MessageContent
                 (if (ct_DisplayName c =? "")%string then "Shared contact" else ct_DisplayName c)
                 [part "contact" (ct_Vcard c) "" "" ""], "")
  | None => (Build_MessageContent "" [], "")
  end end end end end end end end.

(** The quoted message: the first of these that has a context. *)
Definition quoted_context (msg : wuzapiMessage) : option wuzapiContextInfo :=
  let of_media (m : option wuzapiMediaMessage) := m ≫= mm_ContextInfo in
  match wm_ExtendedText msg ≫= xt_ContextInfo with
  | Some ci => Some ci
  | None => match of_media (wm_ImageMessage msg) with
  | Some ci => Some ci
  | None => match of_media (wm_AudioMessage msg) with
  | Some ci => Some ci
  | None => match of_media (wm_VideoMessage msg) with
  | Some ci => Some ci
  | None => match of_media (wm_DocumentMessage msg) with
  | Some ci => Some ci
  | None => of_media (wm_StickerMessage msg)
  end end end end end.

(** [setQuotedContext] on the two fields it sets. *)
Definition setQuotedContext (msg : wuzapiMessage) : string * string :=
  match quoted_context msg with
  | Some ci => (ci_StanzaID ci, ci_Participant ci)
  | None => ("", "")
  end.

(** ** NormalizeInbound *)

Record NormalizerConfig := { nc_WuzapiBaseURL : string; nc_WuzapiInstanceName : string }.

(** The event object of the JSON mode takes the place of the top-level fields. *)
Definition flatten (wh : WuzapiWebhook) : WuzapiWebhook :=
  match wh_Event wh with
  | None => wh
  | Some e => {|
      wh_Type := wh_Type wh;
      wh_Event := wh_Event wh;
      wh_Info := we_Info e;
      wh_Message := we_Message e;
      wh_S3 := match we_S3 e with Some s => Some s | None => wh_S3 wh end;
      wh_UserID := wh_UserID wh;
      wh_InstanceName := wh_InstanceName wh;
      wh_Token := wh_Token wh |}
  end.

Definition inbound_timestamp (now : Z) (text : string) : Z :=
  if (text =? "")%string then now else default now (parse_rfc3339 text).

Definition inbound_message (uuid : string) (now : Z) (wh : WuzapiWebhook) (msg : wuzapiMessage)
    (cfg : NormalizerConfig) : NipperMessage :=
  let '(content, mediaType) := extractContent msg (wh_S3 wh) in
  let i := wh_Info wh in
  let chatJID := normalizeJID (ResolvedChat i) in
  let senderJID := normalizeJID (ResolvedSender i) in
  let '(quoted, participant) := setQuotedContext msg in
  let meta := {|
    wa_WuzapiUserID := wh_UserID wh;
    wa_WuzapiInstanceName := wh_InstanceName wh;
    wa_WuzapiBaseURL := nc_WuzapiBaseURL cfg;
    wa_ChatJID := chatJID;
    wa_SenderJID := senderJID;
    wa_MessageID := wi_ID i;
    wa_PushName := wi_PushName i;
    wa_IsGroup := ResolvedIsGroup i;
    wa_IsFromMe := false;
    wa_QuotedMessageID := quoted;
    wa_QuotedParticipant := participant;
    wa_HasMedia := negb (mediaType =? "")%string;
    wa_MediaType := mediaType;
    wa_S3URL := s3_url (wh_S3 wh);
    wa_MediaKey := "" |} in
  {| nm_MessageID := uuid;
     nm_OriginMessageID := wi_ID i;
     nm_UserID := "";
     nm_SessionKey := "";
     nm_ChannelType := ChannelTypeWhatsApp;
     nm_ChannelIdentity := senderJID;
     nm_Content := content;
     nm_DeliveryContext := Build_DeliveryContext ChannelTypeWhatsApp chatJID "inline" "" [] WhatsAppCapabilities;
     nm_Meta := Some (MetaWhatsApp meta);
     nm_Timestamp := inbound_timestamp now (wi_Timestamp i);
     nm_DedupeKey := "" |}.

(** [uuid] and [now] are what [uuid.New] and [time.Now] give this call. *)
Definition NormalizeInbound (uuid : string) (now : Z) (raw : string) (cfg : NormalizerConfig)
    : result string (option NipperMessage) :=
  match unmarshal dec_webhook zero_webhook raw with
  | (_, Some _) => Err "whatsapp normalizer: unmarshal webhook"
  | (wh, None) =>
      if negb (wh_Type wh =? "Message")%string then Ok None
      else
        let wh := flatten wh in
        if ResolvedIsFromMe (wh_Info wh) then Ok None
        else
          match unmarshal_raw dec_wmsg zero_wmsg (wh_Message wh) with
          | (_, Some _) => Err "whatsapp normalizer: unmarshal message"
          | (msg, None) => Ok (Some (inbound_message uuid now wh msg cfg))
          end
  end.

(** ** Addresses *)

Lemma str_cut_at a b : lacks "@" a = true -> str_cut "@" (a +:+ "@" +:+ b) = Some (a, b).
Proof. intros H. by apply (str_cut_app "@" "" a b). Qed.

(** The part before the device suffix. *)
Definition jid_user (user : string) : string :=
  match str_cut ":" user with
  | Some (u, _) => if (u =? "")%string then user else u
  | None => user
  end.

Lemma jid_user_idem u : jid_user (jid_user u) = jid_user u.
Proof.
  unfold jid_user at 2 3. destruct (str_cut ":" u) as [[a b]|] eqn:E; [|unfold jid_user; by rewrite E].
  destruct (String.eqb_spec a "") as [->|Ha]; [unfold jid_user; by rewrite E|].
  apply str_cut_first in E as [Hl _]. unfold jid_user. by rewrite (str_cut_lacks ":" "").
Qed.

Lemma jid_user_ne u : u <> "" -> jid_user u <> "".
Proof.
  intros H. unfold jid_user. destruct (str_cut ":" u) as [[a b]|]; [|done].
  by destruct (String.eqb_spec a "").
Qed.

Lemma jid_user_lacks c u : lacks c u = true -> lacks c (jid_user u) = true.
Proof.
  intros H. unfold jid_user. destruct (str_cut ":" u) as [[a b]|] eqn:E; [|done].
  destruct (String.eqb_spec a ""); [done|]. apply str_cut_sound in E. subst u.
  rewrite lacks_app in H. by apply andb_true_iff in H as [H _].
Qed.

Lemma normalizeJID_at u d :
  lacks "@" u = true -> u <> "" -> normalizeJID (u +:+ "@" +:+ d) = jid_user u +:+ "@" +:+ d.
Proof.
  intros Hu Hne. unfold normalizeJID. rewrite str_cut_at by done.
  by destruct (String.eqb_spec u "").
Qed.

Lemma normalizeJID_cases jid :
  (normalizeJID jid = jid) \/
  (exists u d, lacks "@" u = true /\ u <> "" /\ jid = u +:+ "@" +:+ d /\ normalizeJID jid = jid_user u +:+ "@" +:+ d).
Proof.
  destruct (str_cut "@" jid) as [[u d]|] eqn:E; [|left; unfold normalizeJID; by rewrite E].
  destruct (String.eqb_spec u "") as [->|Hu]; [left; unfold normalizeJID; by rewrite E|right].
  apply str_cut_first in E as [Hl ->]. exists u, d. do 3 (split; [done|]). by apply normalizeJID_at.
Qed.

Lemma normalizeJID_idem jid : normalizeJID (normalizeJID jid) = normalizeJID jid.
Proof.
  destruct (normalizeJID_cases jid) as [H|(u & d & Hl & Hu & -> & H)]; [by rewrite !H|].
  rewrite H. rewrite normalizeJID_at by auto using jid_user_lacks, jid_user_ne.
  by rewrite jid_user_idem.
Qed.

(** A device suffix does not change whom a message is from. *)
Lemma normalizeJID_device user device domain :
  user <> "" -> lacks "@" user = true -> lacks ":" user = true -> lacks "@" device = true ->
  normalizeJID (user +:+ ":" +:+ device +:+ "@" +:+ domain) = normalizeJID (user +:+ "@" +:+ domain).
Proof.
  intros Hu Ha Hc Hd.
  replace (user +:+ ":" +:+ device +:+ "@" +:+ domain) with ((user +:+ ":" +:+ device) +:+ "@" +:+ domain)
    by (by rewrite !str_app_assoc).
  rewrite !normalizeJID_at; try done.
  - f_equal. unfold jid_user. rewrite (str_cut_lacks ":" "" user) by done.
    rewrite (str_cut_app ":" "" user device) by done. by destruct (String.eqb_spec user "").
  - rewrite !lacks_app, Ha, Hd. done.
  - intros H. by apply str_app_eq_nil in H as [-> _].
Qed.
