(* ===== verification/WhatsappDelivery.v ===== *)
(** * WhatsApp delivery (channels/whatsapp/delivery.go, adapter.go)

    The client of the Wuzapi API as a state monad over the requests made so
    far.  [answer] is the outside world: the error, if any, of the request made
    last, whatever came before it; [cancelled] tells whether the context has
    been cancelled by then. *)
From Stdlib Require Import ZArith Lia Bool Ascii String List.
From stdpp Require Import base gmap strings option list.
From S2P Require Import Prelude GoString GoJsonParse Models Whatsapp.

Local Open Scope string_scope.
Local Open Scope Z_scope.
Local Open Scope state_scope.

(** ** Text in chunks *)

(** One chunk and what is left of a text longer than [maxLen]. *)
Definition chunk_cut (maxLen : nat) (text : string) : nat :=
  match last_index "010" (str_take maxLen text) with
  | Some (S n) => S n
  | _ => maxLen
  end.

Definition strip_newline (text : string) : string :=
  match text with String c s => if Ascii.eqb c "010" then s else text | EmptyString => "" end.

Fixpoint split_loop (fuel maxLen : nat) (text : string) : list string :=
  match fuel with
  | O => []
  | S fuel =>
      if (text =? "")%string then []
      else if (String.length text <=? maxLen)%nat then [text]
      else
        let cut := chunk_cut maxLen text in
        str_take cut text :: split_loop fuel maxLen (strip_newline (str_drop cut text))
  end.

(** Every chunk takes at least one byte. *)
Definition splitTextChunks (text : string) (maxLen : nat) : list string :=
  if (String.length text <=? maxLen)%nat then [text]
  else split_loop (S (String.length text)) maxLen text.

(** A text put together from its chunks, at most one newline left out after
    each. *)
Inductive chunks_of : string -> list string -> Prop :=
| chunks_nil : chunks_of "" []
| chunks_here c text l : chunks_of text l -> chunks_of (c +:+ text) (c :: l)
| chunks_line c text l : chunks_of text l -> chunks_of (c +:+ String "010" text) (c :: l).

Lemma chunk_cut_bounds maxLen text :
  (1 <= maxLen)%nat -> (1 <= chunk_cut maxLen text <= maxLen)%nat.
Proof.
  intros H. unfold chunk_cut. destruct (last_index "010" (str_take maxLen text)) as [[|n]|] eqn:E; [lia| |lia].
  apply last_index_lt in E. rewrite str_take_length in E. lia.
Qed.

Lemma strip_newline_cases text :
  strip_newline text = text \/ text = String "010" (strip_newline text).
Proof.
  destruct text as [|c s]; [by left|]. simpl. destruct (Ascii.eqb_spec c "010") as [->|]; [by right|by left].
Qed.

Lemma strip_newline_length text : (String.length (strip_newline text) <= String.length text)%nat.
Proof. destruct text as [|c s]; simpl; [lia|]. destruct (Ascii.eqb c "010"); simpl; lia. Qed.

Definition chunk_fits (maxLen : nat) (c : string) : Prop := (1 <= String.length c <= maxLen)%nat.

Lemma split_loop_spec maxLen : (1 <= maxLen)%nat -> forall fuel text,
  (String.length text < fuel)%nat ->
  Forall (chunk_fits maxLen) (split_loop fuel maxLen text) /\ chunks_of text (split_loop fuel maxLen text).
Proof.
  intros Hm. induction fuel as [|fuel IH]; intros text Hf; [lia|]. cbn [split_loop].
  destruct (String.eqb_spec text "") as [->|Hne]; [split; [constructor|apply chunks_nil]|].
  assert (Hl : (1 <= String.length text)%nat) by (destruct text; [done|simpl; lia]).
  destruct (Nat.leb_spec (String.length text) maxLen) as [Hle|Hgt].
  { split; [constructor; [split; lia|constructor]|].
    rewrite <- (str_app_nil_r text) at 1. apply chunks_here, chunks_nil. }
  pose proof (chunk_cut_bounds maxLen text Hm) as Hc. set (cut := chunk_cut maxLen text) in *.
  pose proof (strip_newline_length (str_drop cut text)) as Hs. rewrite str_drop_length in Hs.
  destruct (IH (strip_newline (str_drop cut text)) ltac:(lia)) as [HF HC].
  split.
  - constructor; [|done]. unfold chunk_fits. rewrite str_take_length. lia.
  - rewrite <- (str_take_drop cut text) at 1.
    destruct (strip_newline_cases (str_drop cut text)) as [He|He].
    + rewrite <- He at 1. by apply chunks_here.
    + rewrite He at 1. by apply chunks_line.
Qed.

(** a text is cut into chunks of one to [maxLen] bytes that, put together
    again with at most a newline between two of them, are the whole text: the
    loop ends and no byte but newlines is lost. *)
Lemma split_text_complete text maxLen :
  (1 <= maxLen)%nat -> text <> "" ->
  Forall (chunk_fits maxLen) (splitTextChunks text maxLen) /\ chunks_of text (splitTextChunks text maxLen).
Proof.
  intros Hm Hne. unfold splitTextChunks. destruct (Nat.leb_spec (String.length text) maxLen) as [Hle|Hgt].
  - assert (Hl : (1 <= String.length text)%nat) by (destruct text; [done|simpl; lia]).
    split; [constructor; [split; lia|constructor]|].
    rewrite <- (str_app_nil_r text) at 1. apply chunks_here, chunks_nil.
  - apply split_loop_spec; lia.
Qed.

Lemma split_text_complete_witness :
  splitTextChunks "ab" 1 = ["a"; "b"] /\ chunks_of "ab" (splitTextChunks "ab" 1).
Proof. split; [reflexivity|]. apply (split_text_complete "ab" 1); [lia|done]. Defined.

(** Bytes are counted, not characters: a hard cut goes through a character of
    several bytes, and both halves are invalid UTF-8. *)
Example split_cuts_character :
  splitTextChunks "aé" 2 = ["a" +:+ String "195" ""; String "169" ""].
Proof. reflexivity. Qed.

(** ** The client *)

(** A request: its path and what its payload holds. *)
Inductive wcall :=
| SendText (phone body : string) (context : option (string * string)) (linkPreview : bool)
| SendImage (phone : string) (image caption : string)
| SendDocument (phone : string) (document caption : string)
| Presence (phone state : string)
| MarkRead (id phone : string)
| React (phone body id : string)
| RegisterWebhook (url : string) (events : list string)
| ConfigureHMAC (key : string).

Record DeliveryOptions := {
  MarkAsRead : bool;
  ShowTyping : bool;
  QuoteOriginal : bool }.

Definition maxRetries : nat := 3.

Definition phoneFromJID (jid : string) : string :=
  match str_cut "@" jid with
  | Some (u, _) => if (u =? "")%string then jid else u
  | None => jid
  end.

Definition resolveTargetJID (meta : WhatsAppMeta) : string :=
  let chat := normalizeJID (wa_ChatJID meta) in
  let sender := normalizeJID (wa_SenderJID meta) in
  if has_suffix chat "@g.us" then chat
  else if has_suffix chat "@s.whatsapp.net" then chat
  else if negb (sender =? "")%string then sender
  else chat.

Section client.

Context (answer : list wcall -> option string) (cancelled : list wcall -> bool).
Context (ctx_err : string).
(** [unicode.ToLower] outside ASCII; package formatting; the S3 client and
    base64, for the parts of a response. *)
Context (fold : Z -> Z) (format : string -> string).
Context (is_s3_endpoint : string -> bool) (fetch : string -> result string string) (base64 : string -> string).
Context (opts : DeliveryOptions).

Abbreviation M := (State (list wcall)).

Definition post (c : wcall) : M (option string) := fun log =>
  let log := (log ++ [c])%list in (answer log, log).

Fixpoint post_loop (attempts : nat) (c : wcall) (lastErr : string) : M (option string) :=
  match attempts with
  | O => sret (Some ("wuzapi POST failed after 3 attempts: " +:+ lastErr))
  | S attempts =>
      do e <- post c;
      match e with
      | None => sret None
      | Some e =>
          do stop <- sget cancelled;
          if stop : bool then sret (Some ctx_err) else post_loop attempts c e
      end
  end.

Definition postWithRetry (c : wcall) : M (option string) := post_loop maxRetries c "".

Definition sendText (phone text : string) (meta : WhatsAppMeta) : M (option string) :=
  postWithRetry (SendText phone text
    (if QuoteOriginal opts && negb (wa_MessageID meta =? "")%string
     then Some (wa_MessageID meta, wa_SenderJID meta) else None)
    (str_contains text "http://" || str_contains text "https://")).

Definition resolveImagePayload (p : ContentPart) : result string string :=
  if (cp_URL p =? "")%string then Ok ""
  else if negb (has_prefix (cp_URL p) "s3://") && negb (is_s3_endpoint (cp_URL p)) then Ok (cp_URL p)
  else
    match fetch (cp_URL p) with
    | Err e => Err ("whatsapp delivery: fetch image bytes from S3 URL: " +:+ e)
    | Ok data =>
        if (String.length data =? 0)%nat then Err "whatsapp delivery: empty image bytes"
        else Ok (base64 data)
    end.

Definition sendImage (phone : string) (p : ContentPart) : M (option string) :=
  match resolveImagePayload p with
  | Err e => sret (Some e)
  | Ok image => postWithRetry (SendImage phone image (cp_Caption p))
  end.

Definition sendDocument (phone : string) (p : ContentPart) : M (option string) :=
  postWithRetry (SendDocument phone (cp_URL p) (cp_Caption p)).

Definition isImageMIME (mime : string) : bool := has_prefix (to_lower fold (trim_space mime)) "image/".

Definition with_caption (p : ContentPart) : ContentPart :=
  if (cp_Caption p =? "")%string then p
  else Build_ContentPart (cp_Type p) (cp_Text p) (cp_URL p) (cp_MimeType p) (format (cp_Caption p))
         (cp_Transcript p) (cp_Latitude p) (cp_Longitude p) (cp_Address p).

Definition sendPart (phone : string) (p : ContentPart) : M (option string) :=
  if (cp_Type p =? "image")%string then sendImage phone (with_caption p)
  else if (cp_Type p =? "document")%string then
    if isImageMIME (cp_MimeType p) then sendImage phone (with_caption p)
    else sendDocument phone (with_caption p)
  else sret None.

(** The chunks one after the other, up to the first that fails. *)
Fixpoint sendChunks (phone : string) (meta : WhatsAppMeta) (chunks : list string) : M (option string) :=
  match chunks with
  | [] => sret None
  | c :: chunks =>
      do e <- sendText phone c meta;
      match e with
      | Some e => sret (Some e)
      | None => sendChunks phone meta chunks
      end
  end.

(** The parts one after the other; the first error is kept. *)
Fixpoint sendParts (phone : string) (err : option string) (parts : list ContentPart) : M (option string) :=
  match parts with
  | [] => sret err
  | p :: parts =>
      do e <- sendPart phone p;
      sendParts phone (match err with Some _ => err | None => e end) parts
  end.

Definition setPresence (phone state : string) : M (option string) := post (Presence phone state).
Definition markRead (id targetJID : string) : M (option string) :=
  post (MarkRead id (phoneFromJID targetJID)).

Definition when (b : bool) (m : M (option string)) : M unit :=
  if b then (do _ <- m; sret tt) else sret tt.

Definition extractWAMeta (resp : NipperResponse) : option WhatsAppMeta :=
  match rs_Meta resp with Some (MetaWhatsApp m) => Some m | _ => None end.

Definition DeliverResponse (resp : NipperResponse) : M (option string) :=
  match extractWAMeta resp with
  | None => sret (Some "whatsapp delivery: response missing WhatsAppMeta")
  | Some meta =>
      let targetJID := resolveTargetJID meta in
      let phone := phoneFromJID targetJID in
      if (phone =? "")%string then sret (Some "whatsapp delivery: could not extract phone from target JID")
      else
        run when (ShowTyping opts) (setPresence phone "composing");
        do err <- (if (rs_Text resp =? "")%string then sret None
                   else sendChunks phone meta (splitTextChunks (rs_Text resp) 4000));
        do err <- sendParts phone err (rs_Parts resp);
        run when (MarkAsRead opts && negb (wa_MessageID meta =? "")%string) (markRead (wa_MessageID meta) targetJID);
        run when (ShowTyping opts) (setPresence phone "paused");
        sret err
  end.

(** [now] is [time.Now().UnixNano()], which chooses the emoji. *)
Definition inbound_emoji (now : Z) : string :=
  nth (Z.to_nat (Z.rem now 3)) ["🔥"; "👌"; "⭐"] "".

Definition SendInboundFeedback (now : Z) (meta : WhatsAppMeta) : M (option string) :=
  let targetJID := resolveTargetJID meta in
  let phone := phoneFromJID targetJID in
  let has_id := negb (wa_MessageID meta =? "")%string in
  if (phone =? "")%string then sret (Some "whatsapp delivery: could not extract phone from target JID")
  else
    run when (MarkAsRead opts && has_id) (markRead (wa_MessageID meta) targetJID);
    run when has_id (post (React phone (inbound_emoji now) (wa_MessageID meta)));
    run when (ShowTyping opts) (setPresence phone "composing");
    sret None.

(** *** The adapter *)

Definition NotifyInbound (now : Z) (msg : option NipperMessage) : M unit :=
  match msg with
  | Some m =>
      match nm_Meta m with
      | Some (MetaWhatsApp meta) => run SendInboundFeedback now meta; sret tt
      | _ => sret tt
      end
  | None => sret tt
  end.

Definition SendTypingIndicator (meta : option ChannelMeta) : M (option string) :=
  if negb (ShowTyping opts) then sret None
  else
    match meta with
    | Some (MetaWhatsApp meta) =>
        let phone := phoneFromJID (resolveTargetJID meta) in
        if (phone =? "")%string then sret None else setPresence phone "composing"
    | _ => sret None
    end.

(** Streaming events are not delivered. *)
Definition DeliverEvent (event : option NipperEvent) : M (option string) := sret None.

Definition default_events : list string :=
  ["Message"; "ReadReceipt"; "ChatPresence"; "Connected"; "Disconnected"].

(** A failure of either request is logged; the gateway starts all the same. *)
Definition Start (hmacKey gatewayURL webhookPath : string) (events : list string) : M (option string) :=
  run when (negb (hmacKey =? "")%string) (post (ConfigureHMAC hmacKey));
  let path := if (webhookPath =? "")%string then "/webhook/whatsapp" else webhookPath in
  let events := match events with [] => default_events | _ => events end in
  run post (RegisterWebhook (gatewayURL +:+ path) events);
  sret None.

End client.

(** ** What reaches the user *)

Definition wcall_phone (c : wcall) : option string :=
  match c with
  | SendText p _ _ _ | SendImage p _ _ | SendDocument p _ _ | Presence p _ | MarkRead _ p | React p _ _ => Some p
  | RegisterWebhook _ _ | ConfigureHMAC _ => None
  end.

Definition wcall_text (c : wcall) : option string :=
  match c with SendText _ b _ _ => Some b | _ => None end.

(** The texts among [calls], made after [pre], that the server accepted. *)
Fixpoint accepted_texts (answer : list wcall -> option string) (pre calls : list wcall) : list string :=
  match calls with
  | [] => []
  | c :: calls =>
      let pre := (pre ++ [c])%list in
      match wcall_text c, answer pre with
      | Some b, None => b :: accepted_texts answer pre calls
      | _, _ => accepted_texts answer pre calls
      end
  end.

Lemma accepted_texts_app answer pre c1 c2 :
  accepted_texts answer pre (c1 ++ c2)
  = (accepted_texts answer pre c1 ++ accepted_texts answer (pre ++ c1) c2)%list.
Proof.
  revert pre. induction c1 as [|c c1 IH]; intros pre; simpl; [by rewrite app_nil_r|].
  rewrite IH, <- app_assoc. simpl. by destruct (wcall_text c), (answer (pre ++ [c])%list).
Qed.

Lemma accepted_texts_mute answer pre calls :
  Forall (fun c => wcall_text c = None) calls -> accepted_texts answer pre calls = [].
Proof.
  intros H. revert pre. induction H as [|c calls Hc _ IH]; intros pre; simpl; [done|]. by rewrite Hc.
Qed.

(** A computation appends requests to the log and ends in [Q]. *)
Definition runs {A} (m : State (list wcall) A) (Q : list wcall -> A -> list wcall -> Prop) : Prop :=
  forall log, exists r calls, m log = (r, (log ++ calls)%list) /\ Q log r calls.

Lemma runs_ret {A} (a : A) (Q : list wcall -> A -> list wcall -> Prop) :
  (forall log, Q log a []) -> runs (sret a) Q.
Proof. intros H log. exists a, []. by rewrite app_nil_r. Qed.

Lemma runs_bind {A B} (m : State (list wcall) A) (k : A -> State (list wcall) B) Q1 Q2 :
  runs m Q1 -> (forall a, runs (k a) (Q2 a)) ->
  runs (sbind m k) (fun log r calls => exists a c1 c2,
    calls = (c1 ++ c2)%list /\ Q1 log a c1 /\ Q2 a (log ++ c1)%list r c2).
Proof.
  intros Hm Hk log. destruct (Hm log) as (a & c1 & E & H1). destruct (Hk a (log ++ c1)%list) as (r & c2 & E2 & H2).
  exists r, (c1 ++ c2)%list. split; [unfold sbind; rewrite E, E2; by rewrite app_assoc|].
  by exists a, c1, c2.
Qed.

Lemma runs_mono {A} (m : State (list wcall) A) (Q Q' : list wcall -> A -> list wcall -> Prop) :
  runs m Q -> (forall log r calls, Q log r calls -> Q' log r calls) -> runs m Q'.
Proof. intros H HQ log. destruct (H log) as (r & calls & E & Hq). exists r, calls. auto. Qed.

Section delivered.

Context (answer : list wcall -> option string) (cancelled : list wcall -> bool) (ctx_err : string).
Context (fold : Z -> Z) (format : string -> string).
Context (is_s3_endpoint : string -> bool) (fetch : string -> result string string) (base64 : string -> string).
Context (opts : DeliveryOptions).

(** Requests that carry no text, to one phone. *)
Definition quiet (phone : string) (calls : list wcall) : Prop :=
  Forall (fun c => wcall_text c = None /\ wcall_phone c = Some phone) calls.

Definition to_phone (phone : string) (calls : list wcall) : Prop :=
  Forall (fun c => wcall_phone c = Some phone) calls.

Lemma quiet_to_phone phone calls : quiet phone calls -> to_phone phone calls.
Proof. intros H. eapply Forall_impl; [exact H|]. by intros c [_ ?]. Qed.

Lemma quiet_texts phone pre calls : quiet phone calls -> accepted_texts answer pre calls = [].
Proof. intros H. apply accepted_texts_mute. eapply Forall_impl; [exact H|]. by intros c [? _]. Qed.

Lemma quiet_app phone c1 c2 : quiet phone c1 -> quiet phone c2 -> quiet phone (c1 ++ c2).
Proof. intros. by apply Forall_app. Qed.

(** [postWithRetry] repeats the request until the server accepts it or the
    context is cancelled, three times at most, and reports exactly whether the
    last one was accepted. *)
Definition retried (n : nat) (c : wcall) (log : list wcall) (r : option string) (calls : list wcall) : Prop :=
  exists k, (k < n)%nat /\ calls = repeat c (S k) /\
    (forall j, (j < k)%nat -> answer (log ++ repeat c (S j))%list <> None) /\
    (r = None <-> answer (log ++ calls)%list = None).

Lemma post_loop_S n c last log :
  post_loop answer cancelled ctx_err (S n) c last log
  = match answer (log ++ [c])%list with
    | None => (None, (log ++ [c])%list)
    | Some e => if cancelled (log ++ [c])%list then (Some ctx_err, (log ++ [c])%list)
                else post_loop answer cancelled ctx_err n c e (log ++ [c])%list
    end.
Proof.
  cbn [post_loop]. unfold sbind, post, sget. destruct (answer _); [|done]. by destruct (cancelled _).
Qed.

Lemma post_loop_runs n c last :
  runs (post_loop answer cancelled ctx_err (S n) c last) (retried (S n) c).
Proof.
  revert last. induction n as [|n IH]; intros last log.
  - rewrite post_loop_S. destruct (answer (log ++ [c])%list) as [e|] eqn:E.
    + exists (Some (if cancelled (log ++ [c])%list then ctx_err
        else "wuzapi POST failed after 3 attempts: " +:+ e)), [c].
      split; [by destruct (cancelled (log ++ [c])%list)|]. exists O. split; [lia|].
      split; [done|]. split; [intros j Hj; lia|]. by rewrite E.
    + exists None, [c]. split; [done|]. exists O. repeat split; try done; try lia.
  - rewrite post_loop_S. destruct (answer (log ++ [c])%list) as [e|] eqn:E.
    + destruct (cancelled (log ++ [c])%list).
      * exists (Some ctx_err), [c]. split; [done|]. exists O. split; [lia|]. split; [done|].
        split; [intros j Hj; lia|]. by rewrite E.
      * destruct (IH e (log ++ [c])%list) as (r & calls & Hr & k & Hk & -> & Hf & Hn).
        exists r, (repeat c (S (S k))). split; [rewrite Hr; by rewrite <- app_assoc|].
        exists (S k). split; [lia|]. split; [done|]. rewrite <- app_assoc in Hn. split; [|done].
        intros [|j] Hj; [simpl; by rewrite E|]. specialize (Hf j ltac:(lia)). by rewrite <- app_assoc in Hf.
    + exists None, [c]. split; [done|]. exists O. repeat split; try done; try lia.
Qed.

Lemma postWithRetry_runs c : runs (postWithRetry answer cancelled ctx_err c) (retried maxRetries c).
Proof. apply post_loop_runs. Qed.

Lemma repeat_quiet phone c n :
  wcall_text c = None -> wcall_phone c = Some phone -> quiet phone (repeat c n).
Proof. intros H1 H2. induction n; constructor; auto. Qed.

Lemma retry_quiet phone c :
  wcall_text c = None -> wcall_phone c = Some phone ->
  runs (postWithRetry answer cancelled ctx_err c) (fun _ _ calls => quiet phone calls).
Proof.
  intros H1 H2. eapply runs_mono; [apply postWithRetry_runs|].
  intros log r calls (k & _ & -> & _). by apply repeat_quiet.
Qed.

Lemma post_quiet phone c :
  wcall_text c = None -> wcall_phone c = Some phone ->
  runs (post answer c) (fun _ _ calls => quiet phone calls).
Proof. intros H1 H2 log. exists (answer (log ++ [c])%list), [c]. split; [done|]. by apply (repeat_quiet phone c 1). Qed.

Lemma when_quiet phone b m :
  runs m (fun _ _ calls => quiet phone calls) -> runs (when b m) (fun _ _ calls => quiet phone calls).
Proof.
  intros H. unfold when. destruct b; [|apply runs_ret; constructor].
  eapply runs_mono; [apply (runs_bind m _ _ (fun _ _ _ calls => calls = []) H); intros a; by apply runs_ret|].
  intros log r calls (a & c1 & c2 & -> & Hq & ->). by rewrite app_nil_r.
Qed.

Lemma sendPart_quiet phone p :
  runs (sendPart answer cancelled ctx_err fold format is_s3_endpoint fetch base64 phone p)
       (fun _ _ calls => quiet phone calls).
Proof.
  assert (Himg : forall p, runs (sendImage answer cancelled ctx_err is_s3_endpoint fetch base64 phone p)
                   (fun _ _ calls => quiet phone calls)).
  { intros q. unfold sendImage. destruct (resolveImagePayload _ _ _); [by apply retry_quiet|].
    apply runs_ret. constructor. }
  unfold sendPart. destruct (cp_Type p =? "image")%string; [apply Himg|].
  destruct (cp_Type p =? "document")%string; [|apply runs_ret; constructor].
  destruct (isImageMIME fold (cp_MimeType p)); [apply Himg|by apply retry_quiet].
Qed.

(** Quiet requests that do not forget an error [e]. *)
Definition keeps_error (phone : string) (e : option string) (_ : list wcall) (r : option string)
    (calls : list wcall) : Prop :=
  quiet phone calls /\ (r = None -> e = None).

Lemma keeps_after {A} phone e (m : State (list wcall) A) k :
  runs m (fun _ _ calls => quiet phone calls) -> (forall a, runs (k a) (keeps_error phone e)) ->
  runs (sbind m k) (keeps_error phone e).
Proof.
  intros Hm Hk. eapply runs_mono; [apply (runs_bind m k _ _ Hm Hk)|].
  intros log r calls (a & c1 & c2 & -> & Hq1 & Hq2 & Hr). split; [by apply quiet_app|done].
Qed.

(** An error met before stays. *)
Lemma sendParts_quiet phone parts err :
  runs (sendParts answer cancelled ctx_err fold format is_s3_endpoint fetch base64 phone err parts)
       (keeps_error phone err).
Proof.
  revert err. induction parts as [|p parts IH]; intros err; cbn [sendParts].
  - apply runs_ret. by split; [constructor|].
  - apply keeps_after; [apply sendPart_quiet|]. intros e. eapply runs_mono; [apply IH|].
    intros log r calls [Hq Hr]. split; [done|]. intros Hn. apply Hr in Hn. by destruct err.
Qed.

(** The chunks accepted, in order and without a gap. *)
Lemma sendChunks_runs phone meta chunks :
  runs (sendChunks answer cancelled ctx_err opts phone meta chunks)
       (fun log r calls => to_phone phone calls /\ accepted_texts answer log calls `prefix_of` chunks
          /\ (r = None -> accepted_texts answer log calls = chunks)).
Proof.
  induction chunks as [|c chunks IH]; cbn [sendChunks].
  - apply runs_ret. intros log. split; [constructor|]. by split; [exists []|].
  - set (call := SendText phone c (if QuoteOriginal opts && negb (wa_MessageID meta =? "")%string
      then Some (wa_MessageID meta, wa_SenderJID meta) else None)
      (str_contains c "http://" || str_contains c "https://")).
    assert (Htp : forall k, to_phone phone (repeat call k)) by (induction k; constructor; done).
    assert (Hacc : forall k log, (forall j, (j < k)%nat -> answer (log ++ repeat call (S j))%list <> None) ->
      accepted_texts answer log (repeat call (S k))
      = match answer (log ++ repeat call (S k))%list with None => [c] | Some _ => [] end).
    { induction k as [|k IHk]; intros log Hj.
      - simpl. by destruct (answer (log ++ [call])%list).
      - pose proof (Hj O ltac:(lia)) as H0. simpl in H0.
        change (repeat call (S (S k))) with ([call] ++ repeat call (S k))%list.
        rewrite accepted_texts_app, IHk, app_assoc.
        + simpl. by destruct (answer (log ++ [call])%list).
        + intros j Hlt. specialize (Hj (S j) ltac:(lia)). by rewrite <- app_assoc. }
    intros log. destruct (postWithRetry_runs call log) as (r & calls & E & k & Hk & -> & Hf & Hn).
    specialize (Hacc k log Hf).
    unfold sbind at 1. unfold sendText. fold call. rewrite E. destruct r as [e|].
    + exists (Some e), (repeat call (S k)). split; [done|]. split; [done|]. rewrite Hacc.
      destruct (answer _) eqn:Ea; [|by destruct Hn as [_ Hn]; specialize (Hn eq_refl)].
      by split; [exists (c :: chunks)|].
    + destruct (IH (log ++ repeat call (S k))%list) as (r & calls & E2 & Ht & Hp & Hc).
      exists r, (repeat call (S k) ++ calls)%list. split; [rewrite E2; by rewrite app_assoc|].
      split; [apply Forall_app; split; [apply Htp|done]|]. rewrite accepted_texts_app, Hacc, (proj1 Hn eq_refl).
      split; [by apply prefix_cons|]. intros Hr. cbn [app]. f_equal. by apply Hc.
Qed.

(** The chunks of [chunks] accepted so far, and what a nil error says of them. *)
Definition delivers (phone : string) (chunks : list string) (log : list wcall) (r : option string)
    (calls : list wcall) : Prop :=
  to_phone phone calls /\ accepted_texts answer log calls `prefix_of` chunks /\
  (r = None -> accepted_texts answer log calls = chunks).

Lemma delivers_after {A} phone chunks (m : State (list wcall) A) k :
  runs m (fun _ _ calls => quiet phone calls) -> (forall a, runs (k a) (delivers phone chunks)) ->
  runs (sbind m k) (delivers phone chunks).
Proof.
  intros Hm Hk. eapply runs_mono; [apply (runs_bind m k _ _ Hm Hk)|].
  intros log r calls (a & c1 & c2 & -> & Hq & Ht & Hpre & Hr). unfold delivers.
  rewrite accepted_texts_app, (quiet_texts phone) by done.
  split; [apply Forall_app; split; [by apply quiet_to_phone|done]|done].
Qed.

Lemma delivers_before phone chunks m k :
  runs m (delivers phone chunks) -> (forall e, runs (k e) (keeps_error phone e)) ->
  runs (sbind m k) (delivers phone chunks).
Proof.
  intros Hm Hk. eapply runs_mono; [apply (runs_bind m k _ _ Hm Hk)|].
  intros log r calls (a & c1 & c2 & -> & (Ht & Hpre & Hr) & Hq & Hn). unfold delivers.
  rewrite accepted_texts_app, (quiet_texts phone _ c2), app_nil_r by done.
  split; [apply Forall_app; split; [done|by apply quiet_to_phone]|auto].
Qed.

Lemma keeps_before phone e m k :
  runs m (keeps_error phone e) -> (forall e', runs (k e') (keeps_error phone e')) ->
  runs (sbind m k) (keeps_error phone e).
Proof.
  intros Hm Hk. eapply runs_mono; [apply (runs_bind m k _ _ Hm Hk)|].
  intros log r calls (a & c1 & c2 & -> & [Hq1 H1] & Hq2 & H2). split; [by apply quiet_app|auto].
Qed.

(** delivering a response sends requests only to the phone of the chat,
    or of the sender where the chat has none; the texts the server accepts are
    the chunks of the response in their order, each once and without a gap,
    whatever fails and however often it is retried; and no error is reported
    only if all of them were accepted. *)
Lemma deliver_in_order resp meta :
  extractWAMeta resp = Some meta ->
  phoneFromJID (resolveTargetJID meta) <> "" ->
  let chunks := if (rs_Text resp =? "")%string then [] else splitTextChunks (rs_Text resp) 4000 in
  let '(err, log) := DeliverResponse answer cancelled ctx_err fold format is_s3_endpoint fetch base64 opts resp [] in
  to_phone (phoneFromJID (resolveTargetJID meta)) log /\
  accepted_texts answer [] log `prefix_of` chunks /\
  (err = None -> accepted_texts answer [] log = chunks).
Proof.
  intros Hm Hp chunks. set (phone := phoneFromJID (resolveTargetJID meta)) in *.
  cut (runs (DeliverResponse answer cancelled ctx_err fold format is_s3_endpoint fetch base64 opts resp)
         (delivers phone chunks)).
  { intros H. destruct (H []) as (r & calls & -> & Hq). exact Hq. }
  assert (Hw : forall b c, wcall_text c = None -> wcall_phone c = Some phone ->
    runs (when b (post answer c)) (fun _ _ calls => quiet phone calls))
    by (intros; by apply when_quiet, post_quiet).
  unfold DeliverResponse. rewrite Hm. fold phone. destruct (String.eqb_spec phone ""); [done|].
  apply delivers_after; [by apply Hw|intros _].
  apply delivers_before.
  - unfold chunks. destruct (rs_Text resp =? "")%string; [|apply sendChunks_runs].
    apply runs_ret. intros log. split; [constructor|]. by split; [exists []|].
  - intros err. apply keeps_before; [apply sendParts_quiet|intros e].
    apply keeps_after; [by apply Hw|intros _]. apply keeps_after; [by apply Hw|intros _].
    apply runs_ret. by split; [constructor|].
Qed.

End delivered.

(** For the witness: the first request to send a text fails, the others
    succeed. *)
Definition demo_answer (log : list wcall) : option string :=
  if (length (List.filter (fun c => if wcall_text c then true else false) log) =? 1)%nat then Some "status 500" else None.

Definition demo_wa : WhatsAppMeta :=
  Build_WhatsAppMeta "" "" "" "549115555:26@s.whatsapp.net" "549115555@s.whatsapp.net" "M1" "" false false "" ""
    false "" "" "".

Definition demo_response : NipperResponse :=
  Build_NipperResponse "r" "k" "u" "whatsapp" "549115555@s.whatsapp.net" "hello" [] zero_DeliveryContext
    (Some (MetaWhatsApp demo_wa)) "M1" 0 None.

Lemma deliver_in_order_witness :
  let '(err, log) := DeliverResponse demo_answer (fun _ => false) "" id id (fun _ => false) Ok id
    (Build_DeliveryOptions true true false) demo_response [] in
  length log = 5%nat /\ to_phone "549115555" log /\ accepted_texts demo_answer [] log = ["hello"].
Proof.
  pose proof (deliver_in_order demo_answer (fun _ => false) "" id id (fun _ => false) Ok id
    (Build_DeliveryOptions true true false) demo_response demo_wa eq_refl ltac:(discriminate)) as H.
  vm_compute in H |- *. destruct H as (H1 & _ & H2). split; [reflexivity|]. split; [exact H1|exact (H2 eq_refl)].
Defined.

(** ** A reply goes where the message came from *)

Lemma resolveTargetJID_normal meta :
  normalizeJID (wa_ChatJID meta) = wa_ChatJID meta -> normalizeJID (wa_SenderJID meta) = wa_SenderJID meta ->
  resolveTargetJID meta
  = if has_suffix (wa_ChatJID meta) "@g.us" || has_suffix (wa_ChatJID meta) "@s.whatsapp.net" then wa_ChatJID meta
    else if (wa_SenderJID meta =? "")%string then wa_ChatJID meta else wa_SenderJID meta.
Proof.
  intros H1 H2. unfold resolveTargetJID. rewrite H1, H2.
  destruct (has_suffix _ "@g.us"); [done|]. destruct (has_suffix _ "@s.whatsapp.net"); [done|].
  by destruct (wa_SenderJID meta =? "")%string.
Qed.

(** a payload becomes a message only when it decodes to a [Message] event
    that is not from the gateway's own account, so its own replies are never
    answered; the sender's and the chat's addresses carry no device; and a
    response with the message's metadata goes to the chat it came from when
    that is a group or a phone, and to the sender otherwise. *)
Lemma whatsapp_inbound_reply uuid now raw cfg m :
  NormalizeInbound uuid now raw cfg = Ok (Some m) ->
  exists wh w,
    unmarshal dec_webhook zero_webhook raw = (wh, None) /\
    wh_Type wh = "Message" /\ ResolvedIsFromMe (wh_Info (flatten wh)) = false /\
    nm_Meta m = Some (MetaWhatsApp w) /\
    nm_ChannelIdentity m = normalizeJID (ResolvedSender (wh_Info (flatten wh))) /\
    dc_ChannelID (nm_DeliveryContext m) = normalizeJID (ResolvedChat (wh_Info (flatten wh))) /\
    resolveTargetJID w =
      (let chat := dc_ChannelID (nm_DeliveryContext m) in
       if has_suffix chat "@g.us" || has_suffix chat "@s.whatsapp.net" then chat
       else if (nm_ChannelIdentity m =? "")%string then chat else nm_ChannelIdentity m).
Proof.
  unfold NormalizeInbound. destruct (unmarshal dec_webhook zero_webhook raw) as [wh [e|]]; [done|].
  destruct (String.eqb_spec (wh_Type wh) "Message") as [Ht|]; [|done]. cbn [negb].
  destruct (ResolvedIsFromMe (wh_Info (flatten wh))) eqn:Hme; [done|].
  destruct (unmarshal_raw dec_wmsg zero_wmsg (wh_Message (flatten wh))) as [msg [e|]]; [done|].
  intros [= <-]. unfold inbound_message.
  destruct (extractContent msg (wh_S3 (flatten wh))) as [content media].
  destruct (setQuotedContext msg) as [q p]. eexists wh, _.
  do 3 (split; [done|]). split; [reflexivity|]. do 2 (split; [reflexivity|]).
  apply resolveTargetJID_normal; apply normalizeJID_idem.
Qed.

Definition demo_payload : string := json_text
  "{'type':'Message','event':{'Info':{'ID':'M1','Chat':'5491:3@s.whatsapp.net','Sender':'5491:3@s.whatsapp.net'},
    'Message':{'conversation':'hi'}},'userID':'7'}".

Lemma whatsapp_inbound_reply_witness :
  exists m w, NormalizeInbound "id" 5 demo_payload (Build_NormalizerConfig "" "") = Ok (Some m) /\
    mc_Text (nm_Content m) = "hi" /\ nm_Meta m = Some (MetaWhatsApp w) /\ resolveTargetJID w = "5491@s.whatsapp.net".
Proof.
  eexists. eassert (H : NormalizeInbound "id" 5 demo_payload (Build_NormalizerConfig "" "") = Ok (Some _))
    by (vm_compute; reflexivity).
  destruct (whatsapp_inbound_reply _ _ _ _ _ H) as (wh & w & _ & _ & _ & Hm & _ & _ & Hr).
  exists w. split; [exact H|]. split; [reflexivity|]. split; [exact Hm|]. rewrite Hr. reflexivity.
Defined.
