(* ===== verification/Slack.v ===== *)
(** * Slack normalizer (channels/slack/normalizer.go)

    The Events API payload as records with their JSON decoders, and
    [NormalizeInbound], which turns a new message of a user into a message and
    ignores everything else. *)
From Stdlib Require Import ZArith Lia Bool Ascii String List.
From stdpp Require Import base gmap strings option list.
From S2P Require Import Prelude GoString GoTime GoJsonParse Models.

Local Open Scope string_scope.
Local Open Scope Z_scope.
Local Open Scope reader_scope.

Record SlackFile := {
  sf_ID : string;
  sf_Name : string;
  sf_MimeType : string;
  sf_URLPrivate : string;
  sf_Size : Z }.

Record SlackEvent := {
  se_Type : string;
  se_Subtype : string;
  se_User : string;
  se_BotID : string;
  se_Text : string;
  se_Channel : string;
  se_TS : string;
  se_ThreadTS : string;
  se_ChannelType : string;
  se_Files : list SlackFile }.

Record SlackEnvelope := {
  sv_Token : string;
  sv_TeamID : string;
  sv_APIAppID : string;
  sv_Type : string;
  sv_Challenge : string;
  sv_Event : option json;
  sv_EventID : string;
  sv_EventTime : Z }.

Definition zero_file := Build_SlackFile "" "" "" "" 0.
Definition zero_event := Build_SlackEvent "" "" "" "" "" "" "" "" "" [].
Definition zero_envelope := Build_SlackEnvelope "" "" "" "" "" None "" 0.

Definition dec_file : decoder SlackFile := dec_struct (fun x =>
  let f {B} := @field B ["id"; "name"; "mimetype"; "url_private"; "size"] in
  Build_SlackFile
    <$$> f "id" dec_string (sf_ID x)
    <*> f "name" dec_string (sf_Name x)
    <*> f "mimetype" dec_string (sf_MimeType x)
    <*> f "url_private" dec_string (sf_URLPrivate x)
    <*> f "size" dec_int64 (sf_Size x)).

Definition dec_event : decoder SlackEvent := dec_struct (fun x =>
  let f {B} := @field B ["type"; "subtype"; "user"; "bot_id"; "text"; "channel"; "ts"; "thread_ts";
                         "channel_type"; "files"] in
  Build_SlackEvent
    <$$> f "type" dec_string (se_Type x)
    <*> f "subtype" dec_string (se_Subtype x)
    <*> f "user" dec_string (se_User x)
    <*> f "bot_id" dec_string (se_BotID x)
    <*> f "text" dec_string (se_Text x)
    <*> f "channel" dec_string (se_Channel x)
    <*> f "ts" dec_string (se_TS x)
    <*> f "thread_ts" dec_string (se_ThreadTS x)
    <*> f "channel_type" dec_string (se_ChannelType x)
    <*> f "files" (dec_slice zero_file dec_file) (se_Files x)).

Definition dec_envelope : decoder SlackEnvelope := dec_struct (fun x =>
  let f {B} := @field B ["token"; "team_id"; "api_app_id"; "type"; "challenge"; "event"; "event_id"; "event_time"] in
  Build_SlackEnvelope
    <$$> f "token" dec_string (sv_Token x)
    <*> f "team_id" dec_string (sv_TeamID x)
    <*> f "api_app_id" dec_string (sv_APIAppID x)
    <*> f "type" dec_string (sv_Type x)
    <*> f "challenge" dec_string (sv_Challenge x)
    <*> f "event" dec_raw (sv_Event x)
    <*> f "event_id" dec_string (sv_EventID x)
    <*> f "event_time" dec_int64 (sv_EventTime x)).

Record NormalizerConfig := { nc_BotToken : string; nc_AppID : string }.

Definition mimeToPartType (mime : string) : string :=
  if (5 <=? String.length mime)%nat && (str_take 5 mime =? "image")%string then "image"
  else if (5 <=? String.length mime)%nat && (str_take 5 mime =? "audio")%string then "audio"
  else if (5 <=? String.length mime)%nat && (str_take 5 mime =? "video")%string then "video"
  else "document".

Definition content_part (type text url mime caption : string) : ContentPart :=
  Build_ContentPart type text url mime caption "" float_zero float_zero "".

Definition buildContent (event : SlackEvent) : MessageContent :=
  match se_Files event with
  | [] => Build_MessageContent (se_Text event) []
  | files => {|
      mc_Text := if (se_Text event =? "")%string
                 then "[" +:+ fmt_d (Z.of_nat (length files)) +:+ " file(s) attached]" else se_Text event;
      mc_Parts := (if (se_Text event =? "")%string then [] else [content_part "text" (se_Text event) "" "" ""])
        ++ map (fun f => content_part (mimeToPartType (sf_MimeType f)) "" (sf_URLPrivate f) (sf_MimeType f) (sf_Name f)) files |}
  end.

Definition isFilteredSubtype (subtype : string) : bool :=
  existsb (String.eqb subtype)
    ["message_changed"; "message_deleted"; "message_replied";
     "channel_join"; "channel_leave"; "channel_topic"; "channel_purpose";
     "channel_name"; "channel_archive"; "channel_unarchive";
     "group_join"; "group_leave"; "group_topic"; "group_purpose";
     "group_name"; "group_archive"; "group_unarchive";
     "file_share"; "file_comment"; "file_mention";
     "pinned_item"; "unpinned_item";
     "bot_message"; "bot_add"; "bot_remove";
     "ekm_access_denied"; "me_message";
     "thread_broadcast"].

Definition inbound_message (uuid : string) (now : Z) (env : SlackEnvelope) (event : SlackEvent)
    (cfg : NormalizerConfig) : NipperMessage :=
  let meta := {|
    sl_TeamID := sv_TeamID env;
    sl_ChannelID := se_Channel event;
    sl_SlackUserID := se_User event;
    sl_ThreadTS := se_ThreadTS event;
    sl_MessageTS := se_TS event;
    sl_AppID := sv_APIAppID env;
    sl_BotID := "";
    sl_BotToken := nc_BotToken cfg |} in
  let threaded := negb (se_ThreadTS event =? "")%string in
  {| nm_MessageID := uuid;
     nm_OriginMessageID := se_TS event;
     nm_UserID := "";
     nm_SessionKey := "";
     nm_ChannelType := ChannelTypeSlack;
     nm_ChannelIdentity := se_User event;
     nm_Content := buildContent event;
     nm_DeliveryContext := Build_DeliveryContext ChannelTypeSlack (se_Channel event)
       (if threaded then "thread" else "inline") (if threaded then se_ThreadTS event else "") [] SlackCapabilities;
     nm_Meta := Some (MetaSlack meta);
     nm_Timestamp := if 0 <? sv_EventTime env then sv_EventTime env * time_second else now;
     nm_DedupeKey := "" |}.

Definition NormalizeInbound (uuid : string) (now : Z) (raw : string) (cfg : NormalizerConfig)
    : result string (option NipperMessage) :=
  match unmarshal dec_envelope zero_envelope raw with
  | (_, Some _) => Err "slack normalizer: unmarshal envelope"
  | (env, None) =>
      if (sv_Type env =? "url_verification")%string then Ok None
      else if negb (sv_Type env =? "event_callback")%string then Ok None
      else match sv_Event env with
      | None => Ok None
      | Some raw_event =>
          match unmarshal_raw dec_event zero_event (Some raw_event) with
          | (_, Some _) => Err "slack normalizer: unmarshal event"
          | (event, None) =>
              if negb (se_Type event =? "message")%string then Ok None
              else if negb (se_BotID event =? "")%string then Ok None
              else if isFilteredSubtype (se_Subtype event) then Ok None
              else if (se_User event =? "")%string then Ok None
              else Ok (Some (inbound_message uuid now env event cfg))
          end
      end
  end.
