(* ===== verification/SlackDelivery.v ===== *)
(** * Slack delivery (channels/slack/delivery.go, adapter.go)

    The client of the Slack Web API: a state monad over the requests made so far
    and the messages being streamed.  [api] is the outside world: the body of
    the answer to the request made last, or an error, whatever came before. *)
From Stdlib Require Import ZArith Lia Bool Ascii String List.
From stdpp Require Import base gmap strings option list.
From S2P Require Import Prelude GoString GoJsonParse Models Slack.

Local Open Scope string_scope.
Local Open Scope Z_scope.
Local Open Scope state_scope.
Local Open Scope reader_scope.

(** A request, by its method, and what its payload holds. *)
Inductive scall :=
| PostMessage (token channel text thread_ts : string)
| Update (token channel ts text : string)
| ReactionAdd (token channel timestamp name : string)
| ReactionRemove (token channel timestamp name : string)
| AuthTest (token : string).

Record SlackClient := {
  sc_streamMessages : gmap string string;
  sc_log : list scall }.

Record api_result := { ar_OK : bool; ar_Error : string; ar_TS : string }.
Definition zero_result := Build_api_result false "" "".

(** The anonymous result structs; all but that of chat.postMessage lack [ts]. *)
Definition dec_result : decoder api_result := dec_struct (fun x =>
  let f {B} := @field B ["ok"; "error"; "ts"] in
  Build_api_result
    <$$> f "ok" dec_bool (ar_OK x)
    <*> f "error" dec_string (ar_Error x)
    <*> f "ts" dec_string (ar_TS x)).

Definition dec_result_no_ts : decoder api_result := dec_struct (fun x =>
  let f {B} := @field B ["ok"; "error"] in
  (fun ok err => Build_api_result ok err "")
    <$$> f "ok" dec_bool (ar_OK x)
    <*> f "error" dec_string (ar_Error x)).

Definition maxRetries : nat := 3.

Section client.

Context (api : list scall -> result string string) (cancelled : list scall -> bool).
Context (ctx_err : string) (botToken : string).

Abbreviation M := (State SlackClient).

Definition apiCall (c : scall) : M (result string string) := fun st =>
  let log := (sc_log st ++ [c])%list in
  (api log, {| sc_streamMessages := sc_streamMessages st; sc_log := log |}).

Fixpoint call_loop (attempts : nat) (c : scall) (lastErr : string) : M (result string string) :=
  match attempts with
  | O => sret (Err ("slack call failed after 3 attempts: " +:+ lastErr))
  | S attempts =>
      do r <- apiCall c;
      match r with
      | Ok body => sret (Ok body)
      | Err e =>
          do stop <- sget (fun st => cancelled (sc_log st));
          if stop : bool then sret (Err ctx_err) else call_loop attempts c e
      end
  end.

Definition apiCallWithRetry (c : scall) : M (result string string) := call_loop maxRetries c "".

(** What the answer's body says. *)
Definition post_result (body : result string string) : result string string :=
  let* body := body in
  match unmarshal dec_result zero_result body with
  | (_, Some _) => Err "slack: parse postMessage response"
  | (r, None) => if ar_OK r then Ok (ar_TS r) else Err ("slack: chat.postMessage: " +:+ ar_Error r)
  end.

(** [benign] is the error that counts as success. *)
Definition ok_result (what benign : string) (body : result string string) : option string :=
  match body with
  | Err e => Some e
  | Ok body =>
      match unmarshal dec_result_no_ts zero_result body with
      | (_, Some _) => Some ("slack: parse " +:+ what +:+ " response")
      | (r, None) =>
          if ar_OK r || (negb (benign =? "")%string && (ar_Error r =? benign)%string) then None
          else Some ("slack: " +:+ what +:+ ": " +:+ ar_Error r)
      end
  end.

Definition chatPostMessageReturningTS (token channel threadTS text : string) : M (result string string) :=
  do body <- apiCallWithRetry (PostMessage token channel text threadTS);
  sret (post_result body).

Definition error_of {A} (r : result string A) : option string :=
  match r with Ok _ => None | Err e => Some e end.

Definition chatPostMessage (token channel threadTS text : string) : M (option string) :=
  do r <- chatPostMessageReturningTS token channel threadTS text;
  sret (error_of r).

Definition chatUpdate (token channel messageTS text : string) : M (option string) :=
  do body <- apiCallWithRetry (Update token channel messageTS text);
  sret (ok_result "chat.update" "" body).

Definition AddReaction (token channel messageTS emoji : string) : M (option string) :=
  do body <- apiCall (ReactionAdd token channel messageTS emoji);
  sret (ok_result "reactions.add" "already_reacted" body).

Definition RemoveReaction (token channel messageTS emoji : string) : M (option string) :=
  do body <- apiCall (ReactionRemove token channel messageTS emoji);
  sret (ok_result "reactions.remove" "no_reaction" body).

Definition AuthTest_call : M (option string) :=
  do body <- apiCall (AuthTest botToken);
  sret (ok_result "auth.test" "" body).

Definition resolveToken (meta : SlackMeta) : string :=
  if negb (sl_BotToken meta =? "")%string then sl_BotToken meta else botToken.

Definition resolveTokenFromMeta (meta : SlackMeta) : string :=
  if negb (sl_BotToken meta =? "")%string then sl_BotToken meta else botToken.

Definition extractSlackMeta (resp : NipperResponse) : option SlackMeta :=
  match rs_Meta resp with Some (MetaSlack m) => Some m | _ => None end.

(** Events do not carry the metadata. *)
Definition extractSlackMetaFromEvent (event : NipperEvent) : option SlackMeta := None.

(** The streamed message of a session; taking it forgets it. *)
Definition set_streams (f : gmap string string -> gmap string string) (st : SlackClient) : SlackClient :=
  {| sc_streamMessages := f (sc_streamMessages st); sc_log := sc_log st |}.

Definition stream_of (key : string) (st : SlackClient) : string := default "" (sc_streamMessages st !! key).

Definition take_stream (key : string) : M string :=
  do ts <- sget (stream_of key);
  run smodify (set_streams (delete key));
  sret ts.

Definition DeliverResponse (resp : NipperResponse) : M (option string) :=
  match extractSlackMeta resp with
  | None => sret (Some "slack delivery: response missing SlackMeta")
  | Some meta =>
      let token := resolveToken meta in
      let channel := if (sl_ChannelID meta =? "")%string then dc_ChannelID (rs_DeliveryContext resp)
                     else sl_ChannelID meta in
      if (channel =? "")%string then sret (Some "slack delivery: no channel ID")
      else
        let threadTS := if (sl_ThreadTS meta =? "")%string then dc_ThreadID (rs_DeliveryContext resp)
                        else sl_ThreadTS meta in
        do existingTS <- take_stream (rs_SessionKey resp);
        if negb (existingTS =? "")%string then chatUpdate token channel existingTS (rs_Text resp)
        else chatPostMessage token channel threadTS (rs_Text resp)
  end.

Definition handleDelta (token channel threadTS sessionKey text : string) : M (option string) :=
  do existingTS <- sget (stream_of sessionKey);
  if negb (existingTS =? "")%string then chatUpdate token channel existingTS text
  else
    do r <- chatPostMessageReturningTS token channel threadTS text;
    match r with
    | Err e => sret (Some e)
    | Ok ts => run smodify (set_streams (<[sessionKey := ts]>)); sret None
    end.

Definition DeliverEvent (event : NipperEvent) : M (option string) :=
  match extractSlackMetaFromEvent event with
  | None => sret None
  | Some meta =>
      let token := resolveTokenFromMeta meta in
      let channel := sl_ChannelID meta in
      let threadTS := sl_ThreadTS meta in
      if (channel =? "")%string then sret None
      else if (ev_Type event =? EventTypeDelta)%string then
        match ev_Delta event with
        | None => sret None
        | Some d => handleDelta token channel threadTS (ev_SessionKey event) (ed_Text d)
        end
      else if (ev_Type event =? EventTypeDone)%string then
        do existingTS <- take_stream (ev_SessionKey event);
        match ev_Delta event with
        | Some d => if negb (existingTS =? "")%string then chatUpdate token channel existingTS (ed_Text d) else sret None
        | None => sret None
        end
      else if (ev_Type event =? EventTypeError)%string then
        match ev_Error event with
        | None => sret None
        | Some err =>
            let text := ":warning: Error: " +:+ ee_Message err in
            do existingTS <- take_stream (ev_SessionKey event);
            if negb (existingTS =? "")%string then chatUpdate token channel existingTS text
            else chatPostMessage token channel threadTS text
        end
      else sret None
  end.

(** *** The adapter *)

Fixpoint react_all (token channel messageTS : string) (emojis : list string) : M unit :=
  match emojis with
  | [] => sret tt
  | e :: emojis => run AddReaction token channel messageTS e; react_all token channel messageTS emojis
  end.

Definition NotifyInbound (msg : option NipperMessage) : M unit :=
  match msg ≫= nm_Meta with
  | Some (MetaSlack meta) =>
      if (sl_ChannelID meta =? "")%string then sret tt
      else if (sl_MessageTS meta =? "")%string then sret tt
      else react_all (resolveToken meta) (sl_ChannelID meta) (sl_MessageTS meta) ["fire"; "ok_hand"; "star"]
  | _ => sret tt
  end.

(** The two indicators, by the request they make. *)
Definition indicator (react : string -> string -> string -> string -> M (option string))
    (dc : DeliveryContext) (meta : option ChannelMeta) : M (option string) :=
  match meta with
  | Some (MetaSlack meta) =>
      let channel := if (sl_ChannelID meta =? "")%string then dc_ChannelID dc else sl_ChannelID meta in
      if (sl_MessageTS meta =? "")%string then sret None
      else react (resolveToken meta) channel (sl_MessageTS meta) "thinking_face"
  | _ => sret None
  end.

Definition SendTypingIndicator := indicator AddReaction.
Definition RemoveTypingIndicator := indicator RemoveReaction.

Definition HealthCheck : M (option string) :=
  if (botToken =? "")%string then sret (Some "slack: bot_token not configured") else AuthTest_call.

(** ** What the user sees *)

(** [apiCallWithRetry] repeats the request, three times at most, and gives the
    first answer that is no error. *)
Lemma call_loop_log n c last st :
  exists k, (k < S n)%nat /\
    snd (call_loop (S n) c last st)
      = {| sc_streamMessages := sc_streamMessages st; sc_log := sc_log st ++ repeat c (S k) |} /\
    match api (sc_log st ++ repeat c (S k))%list with
    | Ok body => fst (call_loop (S n) c last st) = Ok body
    | Err _ => exists e, fst (call_loop (S n) c last st) = Err e
    end.
Proof.
  revert last st. induction n as [|n IH]; intros last st.
  - exists O. cbn [call_loop]. unfold sbind, apiCall, sget. simpl.
    destruct (api (sc_log st ++ [c])%list) as [body|e] eqn:E; [repeat split; lia|].
    split; [lia|]. destruct (cancelled _); simpl; eauto.
  - assert (Hs : forall m, call_loop (S m) c last st =
      match api (sc_log st ++ [c])%list with
      | Ok body => (Ok body, Build_SlackClient (sc_streamMessages st) (sc_log st ++ [c]))
      | Err e => if cancelled (sc_log st ++ [c])%list
                 then (Err ctx_err, Build_SlackClient (sc_streamMessages st) (sc_log st ++ [c]))
                 else call_loop m c e (Build_SlackClient (sc_streamMessages st) (sc_log st ++ [c]))
      end).
    { intros m. cbn [call_loop]. unfold sbind, apiCall, sget. simpl.
      destruct (api _); [done|]. by destruct (cancelled _). }
    rewrite Hs. destruct (api (sc_log st ++ [c])%list) as [body|e] eqn:E.
    + exists O. simpl. rewrite E. repeat split; lia.
    + destruct (cancelled (sc_log st ++ [c])%list).
      * exists O. simpl. rewrite E. split; [lia|]. eauto.
      * destruct (IH e (Build_SlackClient (sc_streamMessages st) (sc_log st ++ [c]))) as (k & Hk & Hl & Hr).
        exists (S k). split; [lia|]. simpl sc_log in Hl, Hr. rewrite <- app_assoc in Hl, Hr. done.
Qed.

(** an event becomes a message only when it is a new message of a person,
    not of a bot and not an edit, a deletion or another subtype, so the bot's
    own posts are never answered; and a response with the message's metadata is
    posted to the channel and the thread of the message, by the same request at
    most three times, and reported delivered only if Slack answered [ok]. *)
Lemma slack_inbound_reply uuid now raw cfg m resp st :
  NormalizeInbound uuid now raw cfg = Ok (Some m) ->
  rs_Meta resp = nm_Meta m -> rs_DeliveryContext resp = nm_DeliveryContext m ->
  dc_ChannelID (nm_DeliveryContext m) <> "" ->
  sc_streamMessages st !! rs_SessionKey resp = None ->
  (exists env event, unmarshal dec_envelope zero_envelope raw = (env, None) /\
     unmarshal_raw dec_event zero_event (sv_Event env) = (event, None) /\
     se_BotID event = "" /\ isFilteredSubtype (se_Subtype event) = false /\
     nm_ChannelIdentity m = se_User event /\ se_User event <> "") /\
  let '(err, st') := DeliverResponse resp st in
  exists token k, (1 <= k <= 3)%nat /\
    sc_log st' = (sc_log st ++ repeat (PostMessage token (dc_ChannelID (nm_DeliveryContext m)) (rs_Text resp)
                                        (dc_ThreadID (nm_DeliveryContext m))) k)%list /\
    (err = None -> exists body, api (sc_log st') = Ok body /\ ar_OK (fst (unmarshal dec_result zero_result body)) = true).
Proof.
  intros Hn Hm Hdc Hc Hs. revert Hn Hc. unfold NormalizeInbound.
  destruct (unmarshal dec_envelope zero_envelope raw) as [env [e|]]; [done|].
  destruct (sv_Type env =? "url_verification")%string; [done|].
  destruct (negb (sv_Type env =? "event_callback")%string); [done|].
  destruct (sv_Event env) as [raw_event|] eqn:Ev; [|done].
  destruct (unmarshal_raw dec_event zero_event (Some raw_event)) as [event [e|]] eqn:Ed; [done|].
  destruct (negb (se_Type event =? "message")%string); [done|].
  destruct (String.eqb_spec (se_BotID event) "") as [Hb|]; [|done]. cbn [negb].
  destruct (isFilteredSubtype (se_Subtype event)) eqn:Hf; [done|].
  destruct (String.eqb_spec (se_User event) "") as [|Hu]; [done|]. intros [= <-] Hc.
  split; [exists env, event; rewrite Ev; naive_solver|].
  unfold DeliverResponse, extractSlackMeta. rewrite Hm, Hdc. cbn [nm_Meta inbound_message].
  set (meta := Build_SlackMeta _ _ _ _ _ _ _ _). cbn [nm_DeliveryContext inbound_message dc_ChannelID dc_ThreadID] in *.
  change (sl_ChannelID meta) with (se_Channel event). change (sl_ThreadTS meta) with (se_ThreadTS event).
  destruct (String.eqb_spec (se_Channel event) ""); [done|]. rewrite (proj2 (String.eqb_neq _ _)) by done.
  set (thread := if (se_ThreadTS event =? "")%string then _ else _).
  assert (Ht : thread = (if negb (se_ThreadTS event =? "")%string then se_ThreadTS event else ""))
    by (unfold thread; by destruct (se_ThreadTS event =? "")%string).
  unfold take_stream, sbind at 1, sbind at 1, sbind at 1, sget at 1, stream_of. rewrite Hs. cbn [default].
  cbn [smodify sret negb String.eqb]. rewrite <- Ht.
  unfold chatPostMessage, chatPostMessageReturningTS, apiCallWithRetry, maxRetries, sbind, sret.
  set (call := PostMessage _ _ _ _). set (st1 := set_streams _ st).
  destruct (call_loop_log 2 call "" st1) as (k & Hk & Hl & Hr).
  destruct (call_loop 3 call "" st1) as [r st']. cbn [fst snd] in Hl, Hr.
  exists (resolveToken meta), (S k). split; [lia|]. rewrite Hl. split; [done|]. cbn [sc_log].
  change (sc_log st1) with (sc_log st) in *. destruct (api _) as [body|e].
  - subst r. unfold post_result. cbn [result_bind]. destruct (unmarshal dec_result zero_result body) as [a [|]] eqn:Eu; [done|].
    destruct (ar_OK a) eqn:Eo; [|done]. intros _. exists body. by rewrite Eu.
  - destruct Hr as [e' ->]. done.
Qed.

(** An event makes no request and changes nothing, whatever it is: on Slack
    neither deltas nor errors of the agent are seen before the final response. *)
Lemma slack_events_undelivered event st : DeliverEvent event st = (None, st).
Proof. reflexivity. Qed.

End client.

Definition demo_event : string := json_text
  "{'type':'event_callback','team_id':'T1','event_time':7,
    'event':{'type':'message','user':'U1','text':'hi','channel':'C1','ts':'1.0','thread_ts':'0.5'}}".

Definition demo_api (log : list scall) : result string string :=
  if (length log =? 1)%nat then Err "HTTP 500" else Ok (json_text "{'ok':true,'ts':'2.0'}").

Lemma slack_inbound_reply_witness :
  exists m, NormalizeInbound "id" 5 demo_event (Build_NormalizerConfig "xoxb" "") = Ok (Some m) /\
    let resp := Build_NipperResponse "r" "k" "u" "slack" "U1" "hello" [] (nm_DeliveryContext m) (nm_Meta m) "" 0 None in
    let '(err, st) := DeliverResponse demo_api (fun _ => false) "" "" resp (Build_SlackClient ∅ []) in
    err = None /\ exists token, sc_log st = repeat (PostMessage token "C1" "hello" "0.5") 2.
Proof.
  eexists. eassert (H : NormalizeInbound "id" 5 demo_event (Build_NormalizerConfig "xoxb" "") = Ok (Some _))
    by (vm_compute; reflexivity).
  split; [exact H|]. cbv zeta.
  match goal with |- context [DeliverResponse _ _ _ _ ?resp ?st] =>
    pose proof (slack_inbound_reply demo_api (fun _ => false) "" "" _ _ _ _ _ resp st H eq_refl eq_refl
      ltac:(vm_compute; discriminate) eq_refl) as [_ Hd] end.
  destruct (DeliverResponse _ _ _ _ _ _) as [err st] eqn:E. destruct Hd as (token & k & _ & Hl & _).
  vm_compute in E. injection E as <- <-. split; [reflexivity|]. exists token. vm_compute in Hl |- *.
  destruct k as [|[|[|k]]]; try discriminate Hl. exact Hl.
Defined.
