(* ===== verification/Broker.v ===== *)
(** * The gateway's connections to RabbitMQ (queue/broker.go, the loop of consumer.go)

    Two connections, one per side, each with a goroutine that watches it and dials
    again when it is lost.  The goroutines, the calls of the gateway and the network
    interleave: a step relation over the broker's fields, the connections that are
    open and where each goroutine is.  [broker_connections] is the invariant, that
    no connection is forgotten and each side has one at most; [close_leaks] is the
    run in which one is left open after [Close]. *)
From Stdlib Require Import ZArith Lia Bool Ascii String List.
From stdpp Require Import base gmap sets strings option list.
From S2P Require Import Prelude GoString.

Local Open Scope string_scope.
Local Open Scope Z_scope.

(** ** The back-off *)

(** The double nearest to an integer, ties to even. *)
Definition f64 (z : Z) : Z :=
  let a := Z.abs z in
  if a <? 2 ^ 53 then z
  else
    let s := 2 ^ (Z.log2 a - 52) in
    let q := a / s in
    let r := a mod s in
    Z.sgn z * s * (if (s <? 2 * r) || ((s =? 2 * r) && Z.odd q) then q + 1 else q).

Record ReconnectDelays := { rd_InitialDelayMS : Z; rd_MaxDelayMS : Z }.

Definition positive_or (dflt d : Z) : Z := if d <=? 0 then dflt else d.
Definition initial_delay (cfg : ReconnectDelays) : Z := positive_or time_second (int64 (rd_InitialDelayMS cfg * time_millisecond)).
Definition max_delay (cfg : ReconnectDelays) : Z := positive_or (30 * time_second) (int64 (rd_MaxDelayMS cfg * time_millisecond)).

(** [time.Duration(math.Min(float64(delay*2), float64(maxDelay)))]. *)
Definition next_delay (cfg : ReconnectDelays) (delay : Z) : Z := int64 (Z.min (f64 (int64 (delay * 2))) (f64 (max_delay cfg))).

(** What one turn of [reconnectWithBackoff] ends with. *)
Inductive dial_outcome := Refused | Connected (c : nat) | Cancelled.

(** The waits, and the connection: [Some None] is the nil of a cancelled context,
    [None] a loop that is still going. *)
Fixpoint backoff_loop (cfg : ReconnectDelays) (delay : Z) (outcomes : list dial_outcome) : list Z * option (option nat) :=
  match outcomes with
  | [] => ([], None)
  | Cancelled :: _ => ([delay], Some None)
  | Connected c :: _ => ([delay], Some (Some c))
  | Refused :: outcomes => let '(waits, r) := backoff_loop cfg (next_delay cfg delay) outcomes in (delay :: waits, r)
  end.

Definition reconnectWithBackoff (cfg : ReconnectDelays) (outcomes : list dial_outcome) : list Z * option (option nat) :=
  backoff_loop cfg (initial_delay cfg) outcomes.

(** ** The broker *)

Inductive side := Publish | Consume.
#[global] Instance side_eq : EqDecision side. Proof. solve_decision. Defined.

Definition upd {A} (n : side) (x : A) (f : side -> A) : side -> A := fun m => if decide (m = n) then x else f m.

(** Where the goroutine of a side is: not started, at the select over the close
    notification of a connection, at the select over the delay, between the dial that
    succeeded and [setFn], returned. *)
Inductive watcher := Unstarted | Watching (c : nat) | Waiting (delay : Z) | Dialed (c : nat) | Stopped.

Record Broker := {
  bk_conn : side -> option nat;      (* publishConn, consumeConn *)
  bk_watch : side -> watcher;
  bk_open : gset nat;                (* the connections that are not closed *)
  bk_lost : gset nat;                (* those whose close notification has an error *)
  bk_next : nat;                     (* the next connection *)
  bk_cancelled : bool;
  bk_callbacks : list nat;           (* reconnectCallbacks *)
  bk_called : list nat }.            (* the callbacks started *)

Definition NewBroker : Broker := Build_Broker (fun _ => None) (fun _ => Unstarted) ∅ ∅ 0 false [] [].

Definition set_conn (n : side) (c : option nat) (b : Broker) : Broker :=
  Build_Broker (upd n c (bk_conn b)) (bk_watch b) (bk_open b) (bk_lost b) (bk_next b) (bk_cancelled b) (bk_callbacks b) (bk_called b).
Definition set_watch (n : side) (w : watcher) (b : Broker) : Broker :=
  Build_Broker (bk_conn b) (upd n w (bk_watch b)) (bk_open b) (bk_lost b) (bk_next b) (bk_cancelled b) (bk_callbacks b) (bk_called b).
Definition close_conns (cs : gset nat) (b : Broker) : Broker :=
  Build_Broker (bk_conn b) (bk_watch b) (bk_open b ∖ cs) (bk_lost b) (bk_next b) (bk_cancelled b) (bk_callbacks b) (bk_called b).
Definition lose (c : nat) (b : Broker) : Broker :=
  Build_Broker (bk_conn b) (bk_watch b) (bk_open b ∖ {[c]}) ({[c]} ∪ bk_lost b) (bk_next b) (bk_cancelled b) (bk_callbacks b) (bk_called b).
Definition cancel (b : Broker) : Broker :=
  Build_Broker (bk_conn b) (bk_watch b) (bk_open b) (bk_lost b) (bk_next b) true (bk_callbacks b) (bk_called b).
Definition OnReconnect (fn : nat) (b : Broker) : Broker :=
  Build_Broker (bk_conn b) (bk_watch b) (bk_open b) (bk_lost b) (bk_next b) (bk_cancelled b) (bk_callbacks b ++ [fn]) (bk_called b).
Definition notifyReconnect (b : Broker) : Broker :=
  Build_Broker (bk_conn b) (bk_watch b) (bk_open b) (bk_lost b) (bk_next b) (bk_cancelled b) (bk_callbacks b) (bk_called b ++ bk_callbacks b).

(** [amqp.Dial] that succeeds. *)
Definition dial (b : Broker) : nat * Broker :=
  (bk_next b,
   Build_Broker (bk_conn b) (bk_watch b) ({[bk_next b]} ∪ bk_open b) (bk_lost b) (S (bk_next b)) (bk_cancelled b) (bk_callbacks b) (bk_called b)).

(** [Connect], given the URL and the errors of the two dials. *)
Definition Connect (amqpURL : result string string) (pub_error con_error : option string) (b : Broker) : option string * Broker :=
  match amqpURL with
  | Err e => (Some ("building AMQP URL: " +:+ e), b)
  | Ok _ =>
      match pub_error with
      | Some e => (Some ("dialing publish connection: " +:+ e), b)
      | None =>
          let '(pubConn, b) := dial b in
          let b := set_conn Publish (Some pubConn) b in
          match con_error with
          | Some e => (Some ("dialing consume connection: " +:+ e), close_conns {[pubConn]} b)
          | None =>
              let '(conConn, b) := dial b in
              let b := set_conn Consume (Some conConn) b in
              (None, set_watch Consume (Watching conConn) (set_watch Publish (Watching pubConn) b))
          end
      end
  end.

Definition conn_open (n : side) (b : Broker) : bool :=
  match bk_conn b n with Some c => bool_decide (c ∈ bk_open b) | None => false end.

Definition side_name (n : side) : string := match n with Publish => "publish" | Consume => "consume" end.

(** [PublishChannel] and [ConsumeChannel], given what a connection answers. *)
Definition side_channel (n : side) (channel : nat -> result string nat) (b : Broker) : result string nat :=
  match bk_conn b n with
  | Some c => if bool_decide (c ∈ bk_open b) then channel c else Err (side_name n +:+ " connection not available")
  | None => Err (side_name n +:+ " connection not available")
  end.
Definition PublishChannel := side_channel Publish.
Definition ConsumeChannel := side_channel Consume.

Definition IsConnected (b : Broker) : bool := conn_open Publish b && conn_open Consume b.

(** What [Close] does under the lock: the errors of the connections' own [Close]. *)
Definition held (b : Broker) : gset nat :=
  match bk_conn b Publish with Some c => {[c]} | None => ∅ end ∪ match bk_conn b Consume with Some c => {[c]} | None => ∅ end.

Definition close_error (n : side) (answer : nat -> option string) (b : Broker) : list string :=
  match bk_conn b n with
  | Some c => if bool_decide (c ∈ bk_open b)
              then match answer c with Some e => [side_name n +:+ ": " +:+ e] | None => [] end else []
  | None => []
  end.

Definition close_held (answer : nat -> option string) (b : Broker) : option string * Broker :=
  let errs := (close_error Publish answer b ++ close_error Consume answer b)%list in
  (match errs with [] => None | _ => Some ("closing broker connections: [" +:+ str_join errs " " +:+ "]") end, close_conns (held b) b).

Section steps.
Context (cfg : ReconnectDelays).

(** The steps of the goroutines, of the network and of the gateway. *)
Inductive step : Broker -> Broker -> Prop :=
| StepLose b c : c ∈ bk_open b -> step b (lose c b)
| StepReturn b n c : bk_watch b n = Watching c -> bk_cancelled b = true -> step b (set_watch n Stopped b)
| StepNotice b n c : bk_watch b n = Watching c -> c ∉ bk_open b -> (c ∈ bk_lost b \/ bk_cancelled b = false) ->
    step b (set_watch n (Waiting (initial_delay cfg)) b)
| StepGiveUp b n d : bk_watch b n = Waiting d -> bk_cancelled b = true -> step b (set_watch n Stopped b)
| StepRefused b n d : bk_watch b n = Waiting d -> step b (set_watch n (Waiting (next_delay cfg d)) b)
| StepDial b n d : bk_watch b n = Waiting d -> step b (set_watch n (Dialed (fst (dial b))) (snd (dial b)))
| StepSet b n c : bk_watch b n = Dialed c -> step b (notifyReconnect (set_watch n (Watching c) (set_conn n (Some c) b)))
| StepOnReconnect b fn : step b (OnReconnect fn b)
| StepCancel b : step b (cancel b)
| StepClose b answer : bk_cancelled b = true -> step b (snd (close_held answer b)).


End steps.

(** ** The delays *)

Definition delay_after (cfg : ReconnectDelays) (k : nat) : Z :=
  match k with O => initial_delay cfg | _ => Z.min (initial_delay cfg * 2 ^ Z.of_nat k) (max_delay cfg) end.

Lemma f64_exact z : Z.abs z < 2 ^ 53 -> f64 z = z.
Proof. intros H. unfold f64. by rewrite (proj2 (Z.ltb_lt _ _) H). Qed.

Lemma positive_or_pos d x : 0 < d -> 0 < positive_or d x.
Proof. unfold positive_or. case_test; lia. Qed.
Lemma initial_delay_pos cfg : 0 < initial_delay cfg.
Proof. by apply positive_or_pos. Qed.
Lemma max_delay_pos cfg : 0 < max_delay cfg.
Proof. by apply positive_or_pos. Qed.

Section delays.
Context (cfg : ReconnectDelays).
(** Twenty-six days at most. *)
Context (Hi : initial_delay cfg < 2 ^ 51) (Hm : max_delay cfg < 2 ^ 51).

Lemma delay_after_range k : 0 < delay_after cfg k < 2 ^ 51.
Proof.
  pose proof (initial_delay_pos cfg). pose proof (max_delay_pos cfg). destruct k as [|k]; cbn [delay_after]; [lia|].
  assert (0 < 2 ^ Z.of_nat (S k)) by (apply Z.pow_pos_nonneg; lia). nia.
Qed.

Lemma next_delay_after k : next_delay cfg (delay_after cfg k) = delay_after cfg (S k).
Proof.
  pose proof (delay_after_range k). pose proof (delay_after_range (S k)). pose proof (max_delay_pos cfg).
  unfold next_delay. rewrite (int64_small (_ * 2)), !f64_exact, int64_small by lia. cbn [delay_after].
  rewrite Nat2Z.inj_succ, Z.pow_succ_r by lia. destruct k as [|k]; cbn [delay_after]; [change (2 ^ Z.of_nat 0) with 1|]; lia.
Qed.

Definition dialed (o : dial_outcome) : option (option nat) :=
  match o with Refused => None | Connected c => Some (Some c) | Cancelled => Some None end.

Fixpoint attempted (outcomes : list dial_outcome) : nat :=
  match outcomes with [] => O | Refused :: l => S (attempted l) | _ :: _ => 1%nat end.

Lemma backoff_loop_spec outcomes : forall k,
  backoff_loop cfg (delay_after cfg k) outcomes =
  (map (delay_after cfg) (seq k (attempted outcomes)), List.find (fun o => bool_decide (is_Some (dialed o))) outcomes ≫= dialed).
Proof.
  induction outcomes as [|o l IH]; intros k; [done|]. destruct o as [|c|]; cbn [backoff_loop attempted List.find dialed]; [|done|done].
  by rewrite next_delay_after, IH.
Qed.

(** The dials end with the first one that is not refused, and the wait before the
    first is the initial delay, before the others twice the one before, up to the
    maximum. *)
Lemma reconnect_waits outcomes :
  reconnectWithBackoff cfg outcomes =
  (map (delay_after cfg) (seq 0 (attempted outcomes)), List.find (fun o => bool_decide (is_Some (dialed o))) outcomes ≫= dialed).
Proof. apply (backoff_loop_spec outcomes 0). Qed.
End delays.

(** ** The connections *)

Record inv (b : Broker) : Prop := {
  inv_open : forall c, c ∈ bk_open b -> (c < bk_next b)%nat;
  inv_conn : forall n c, bk_conn b n = Some c -> (c < bk_next b)%nat;
  inv_dialed : forall n c, bk_watch b n = Dialed c -> (c < bk_next b)%nat;
  inv_held : forall c, c ∈ bk_open b -> exists n, bk_conn b n = Some c \/ bk_watch b n = Dialed c;
  inv_watching : forall n c, bk_watch b n = Watching c -> bk_conn b n = Some c;
  inv_reconnecting : forall n c, bk_conn b n = Some c -> c ∈ bk_open b ->
    match bk_watch b n with Waiting _ | Dialed _ => False | _ => True end }.

Lemma Connect_inv url pub con b : Connect url pub con NewBroker = (None, b) -> inv b.
Proof.
  unfold Connect. destruct url as [u|]; [|done]. destruct pub; [done|]. destruct con; [done|]. cbn. intros [= <-].
  constructor; cbn.
  - set_solver by lia.
  - intros [] c; cbn; intros [= <-]; lia.
  - intros [] c; cbn; done.
  - intros c Hc. assert (c = 0 \/ c = 1)%nat as [-> | ->] by set_solver; [exists Publish|exists Consume]; by left.
  - intros [] c; cbn; intros [= <-]; done.
  - intros [] c; cbn; done.
Qed.

(** Steps that dial nothing and leave the goroutines where they are. *)
Lemma inv_smaller b b' : inv b -> bk_conn b' = bk_conn b -> bk_watch b' = bk_watch b -> bk_next b' = bk_next b ->
  bk_open b' ⊆ bk_open b -> inv b'.
Proof.
  intros [H1 H2 H0 H3 H4 H5] Ec Ew En Ho. constructor; rewrite ?Ec, ?Ew, ?En; try done.
  - intros c Hc. by apply H1, Ho.
  - intros c Hc. by apply H3, Ho.
  - intros n c Hc Hin. by eapply H5, Ho.
Qed.

Lemma upd_same {A} n (x : A) f : upd n x f n = x.
Proof. unfold upd. by rewrite decide_True. Qed.
Lemma upd_other {A} n m (x : A) f : m <> n -> upd n x f m = f m.
Proof. intros H. unfold upd. by rewrite decide_False. Qed.

(** A goroutine that stops watching, or has not dialed yet. *)
Lemma inv_idle b n w : inv b -> (forall c, bk_watch b n <> Dialed c) ->
  match w with Watching _ | Dialed _ => False | Waiting _ => forall c, bk_conn b n = Some c -> c ∉ bk_open b | _ => True end ->
  inv (set_watch n w b).
Proof.
  intros [H1 H2 H0 H3 H4 H5] Hd Hw. constructor; cbn; try done.
  - intros m c. destruct (decide (m = n)) as [->|Hne]; [rewrite upd_same; by intros ->|rewrite upd_other by done; apply H0].
  - intros c Hc. destruct (H3 c Hc) as [m [Hm|Hm]]; exists m; [by left|right]. rewrite upd_other; [done|]. intros ->. by eapply Hd.
  - intros m c. destruct (decide (m = n)) as [->|Hne]; [rewrite upd_same; intros ->; done|rewrite upd_other by done; apply H4].
  - intros m c Hc Hin. destruct (decide (m = n)) as [->|Hne]; [|rewrite upd_other by done; by eapply H5].
    rewrite upd_same. destruct w; try done. by eapply Hw.
Qed.

Lemma inv_dial b n d : inv b -> bk_watch b n = Waiting d -> inv (set_watch n (Dialed (fst (dial b))) (snd (dial b))).
Proof.
  intros [H1 H2 H0 H3 H4 H5] Hw. constructor; cbn.
  - intros c [->%elem_of_singleton|Hc]%elem_of_union; [lia|]. specialize (H1 c Hc). lia.
  - intros m c Hc. specialize (H2 m c Hc). lia.
  - intros m c. destruct (decide (m = n)) as [->|Hne]; [rewrite upd_same; intros [= <-]; lia|rewrite upd_other by done].
    intros Hc. specialize (H0 m c Hc). lia.
  - intros c [->%elem_of_singleton|Hc]%elem_of_union; [exists n; right; by rewrite upd_same|].
    destruct (H3 c Hc) as [m [Hm|Hm]]; exists m; [by left|right]. rewrite upd_other; [done|]. intros ->. by rewrite Hm in Hw.
  - intros m c. destruct (decide (m = n)) as [->|Hne]; [by rewrite upd_same|rewrite upd_other by done; apply H4].
  - intros m c Hc [->%elem_of_singleton|Hin]%elem_of_union; [specialize (H2 m _ Hc); lia|]. specialize (H5 m c Hc Hin).
    destruct (decide (m = n)) as [->|Hne]; [by rewrite Hw in H5|by rewrite upd_other].
Qed.

Lemma inv_set b n c : inv b -> bk_watch b n = Dialed c -> inv (set_watch n (Watching c) (set_conn n (Some c) b)).
Proof.
  intros [H1 H2 H0 H3 H4 H5] Hw. constructor; cbn; [done| | | | |].
  - intros m x. destruct (decide (m = n)) as [->|Hne]; [rewrite upd_same; intros [= <-]; by eapply H0|rewrite upd_other by done; apply H2].
  - intros m x. destruct (decide (m = n)) as [->|Hne]; [by rewrite upd_same|rewrite upd_other by done; apply H0].
  - intros x Hx. destruct (H3 x Hx) as [m Hm]. destruct (decide (m = n)) as [->|Hne].
    + exists n. left. rewrite upd_same. destruct Hm as [Hm|Hm]; [|congruence]. specialize (H5 n x Hm Hx). by rewrite Hw in H5.
    + exists m. by rewrite !upd_other.
  - intros m x. destruct (decide (m = n)) as [->|Hne]; [rewrite !upd_same; by intros [= ->]|rewrite !upd_other by done; apply H4].
  - intros m x Hm Hx. destruct (decide (m = n)) as [->|Hne]; [by rewrite upd_same|]. rewrite !upd_other in * by done. by eapply H5.
Qed.

Lemma broker_step_inv cfg b b' : inv b -> step cfg b b' -> inv b'.
Proof.
  intros Hi Hs. destruct Hs as [b c Hc|b n c Hw Hx|b n c Hw Ho Hl|b n d Hw Hx|b n d Hw|b n d Hw|b n c Hw|b fn|b|b answer Hx].
  - apply (inv_smaller b); try done. cbn. set_solver.
  - apply inv_idle; [done|congruence|done].
  - apply inv_idle; [done|congruence|]. intros x Hx. apply (inv_watching b Hi) in Hw. by simplify_eq.
  - apply inv_idle; [done|congruence|done].
  - apply inv_idle; [done|congruence|]. intros x Hx Hin. pose proof (inv_reconnecting b Hi n x Hx Hin) as H. by rewrite Hw in H.
  - by apply (inv_dial b n d).
  - eapply inv_smaller; [by apply (inv_set b n c)|done..].
  - by apply (inv_smaller b).
  - by apply (inv_smaller b).
  - apply (inv_smaller b); try done. cbn. set_solver.
Qed.

Lemma reachable_inv cfg b b' : inv b -> rtc (step cfg) b b' -> inv b'.
Proof. intros Hi Hs. induction Hs as [|x y z Hxy _ IH]; [done|]. by apply IH, (broker_step_inv cfg x). Qed.

(** The connection a side answers for. *)
Definition owned (b : Broker) (n : side) : gset nat :=
  match bk_watch b n with Dialed c => {[c]} | _ => match bk_conn b n with Some c => {[c]} | None => ∅ end end.

Lemma owned_size b n : (size (owned b n) <= 1)%nat.
Proof. unfold owned. destruct (bk_watch b n), (bk_conn b n); rewrite ?size_singleton, ?size_empty; lia. Qed.

Lemma open_owned b : inv b -> bk_open b ⊆ owned b Publish ∪ owned b Consume.
Proof.
  intros Hi c Hc. destruct (inv_held b Hi c Hc) as [n Hn]. assert (Ho : c ∈ owned b n); [|destruct n; set_solver].
  unfold owned. destruct Hn as [Hn|Hn]; [|rewrite Hn; set_solver]. rewrite Hn. pose proof (inv_reconnecting b Hi n c Hn Hc) as H.
  destruct (bk_watch b n); try done; set_solver.
Qed.

(** ** After [Close] *)

(** No goroutine can dial any more. *)
Definition quiet (b : Broker) : Prop :=
  bk_cancelled b = true /\ bk_open b = ∅ /\ forall n, bk_watch b n = Stopped \/ exists c, bk_watch b n = Watching c /\ c ∉ bk_lost b.

Lemma quiet_step cfg b b' : quiet b -> step cfg b b' -> quiet b'.
Proof.
  intros (Hc & Ho & Hw) Hs. assert (Hq : forall n w, bk_watch b n = w -> match w with Stopped => True | Watching c => c ∉ bk_lost b | _ => False end).
  { intros n w <-. by destruct (Hw n) as [-> | (c & -> & H)]. }
  destruct Hs as [b c Hin|b n c Hn Hx|b n c Hn Hx Hl|b n d Hn Hx|b n d Hn|b n d Hn|b n c Hn|b fn|b|b answer Hx].
  1: by rewrite Ho in Hin.
  2: { destruct Hl as [Hl|Hl]; [by destruct (Hq n _ Hn)|congruence]. }
  2-5: by destruct (Hq n _ Hn).
  2-3: by split_and!.
  - split_and!; [done..|]. intros m. cbn. destruct (decide (m = n)) as [->|Hne]; [left; apply upd_same|rewrite upd_other by done; apply Hw].
  - split_and!; [done| |done]. cbn. rewrite Ho. set_solver.
Qed.

Lemma quiet_reachable cfg b b' : quiet b -> rtc (step cfg) b b' -> quiet b'.
Proof. intros Hi Hs. induction Hs as [|x y z Hxy _ IH]; [done|]. by apply IH, (quiet_step cfg x). Qed.

(** C24: The gateway forgets no connection to the broker: from a start that succeeds, whatever
    is lost, dialed again, cancelled or closed and in whatever order, a connection that
    is open is the one its side's field holds, or the one its goroutine has just dialed
    to replace a closed one; so there are two at most.  When [Close] finds both
    goroutines watching connections that were not lost, nothing is open from then on. *)
Theorem broker_connections cfg url pub con b0 b :
  Connect url pub con NewBroker = (None, b0) -> rtc (step cfg) b0 b ->
  (forall c, c ∈ bk_open b -> exists n, bk_conn b n = Some c \/ bk_watch b n = Dialed c)
  /\ (forall n c, bk_watch b n = Dialed c -> conn_open n b = false)
  /\ (size (bk_open b) <= 2)%nat
  /\ (bk_cancelled b = true -> (forall n, exists c, bk_watch b n = Watching c /\ c ∉ bk_lost b) ->
       forall answer b', rtc (step cfg) (snd (close_held answer b)) b' -> bk_open b' = ∅).
Proof.
  intros Hc Hs. pose proof (reachable_inv cfg b0 b (Connect_inv _ _ _ _ Hc) Hs) as Hi. split_and!.
  - apply (inv_held b Hi).
  - intros n c Hn. unfold conn_open. destruct (bk_conn b n) as [x|] eqn:Hx; [|done]. apply bool_decide_eq_false_2. intros Hin.
    pose proof (inv_reconnecting b Hi n x Hx Hin) as H. by rewrite Hn in H.
  - pose proof (open_owned b Hi) as H. apply subseteq_size in H. pose proof (size_union_alt (owned b Publish) (owned b Consume)) as E.
    pose proof (owned_size b Publish). pose proof (owned_size b Consume).
    assert (size (owned b Consume ∖ owned b Publish) <= size (owned b Consume))%nat by (apply subseteq_size; set_solver). lia.
  - intros Hx Hw answer b' Hs'. assert (Hq : quiet (snd (close_held answer b))); [|by apply (quiet_reachable cfg _ b' Hq Hs')].
    split_and!; [done| |intros n; right; apply Hw]. cbn. apply set_eq. intros c. split; [|set_solver].
    intros [Hin Hout]%elem_of_difference. destruct (inv_held b Hi c Hin) as [n Hn]. destruct (Hw n) as (x & Hx' & _).
    destruct Hn as [Hn|Hn]; [|congruence]. exfalso. apply Hout. unfold held. destruct n; rewrite Hn; set_solver.
Qed.

(** ** Runs *)

Definition demo_delays : ReconnectDelays := Build_ReconnectDelays 1000 30000.
Definition connected : Broker := snd (Connect (Ok "amqp://mq:5672") None None NewBroker).

Lemma broker_connections_witness :
  IsConnected connected = true /\ IsConnected (lose 0 connected) = false
  /\ (size (bk_open (set_watch Publish (Waiting (initial_delay demo_delays)) (lose 0 connected))) <= 2)%nat.
Proof.
  split; [vm_compute; reflexivity|]. split; [vm_compute; reflexivity|].
  refine (proj1 (proj2 (proj2 (broker_connections demo_delays (Ok "amqp://mq:5672") None None connected _ _ _)))).
  - reflexivity.
  - eapply rtc_l; [apply (StepLose demo_delays connected 0); set_solver|].
    apply rtc_once. apply (StepNotice demo_delays _ Publish 0); [reflexivity|set_solver|left; set_solver].
Defined.

(** A dial that succeeds while [Close] runs leaves a connection open that nothing
    closes any more: the goroutine stores it after [Close] is done and returns. *)
Lemma close_leaks : exists b,
  rtc (step demo_delays) connected b /\ bk_cancelled b = true /\ (forall n, bk_watch b n = Stopped) /\ bk_open b = {[2%nat]}
  /\ exists b1, rtc (step demo_delays) connected b1 /\ rtc (step demo_delays) (snd (close_held (fun _ => None) (cancel b1))) b.
Proof.
  set (b0 := set_watch Publish (Waiting (initial_delay demo_delays)) (lose 0 connected)).
  set (b1 := set_watch Publish (Dialed 2) (snd (dial b0))).
  set (b2 := snd (close_held (fun _ => None) (cancel b1))).
  set (b3 := notifyReconnect (set_watch Publish (Watching 2) (set_conn Publish (Some 2%nat) b2))).
  assert (H1 : rtc (step demo_delays) connected b1).
  { eapply rtc_l; [apply (StepLose demo_delays connected 0); set_solver|].
    eapply rtc_l; [apply (StepNotice demo_delays _ Publish 0); [done|set_solver|left; set_solver]|].
    apply rtc_once. exact (StepDial demo_delays b0 Publish (initial_delay demo_delays) eq_refl). }
  assert (H2 : rtc (step demo_delays) b1 b2) by (by eapply rtc_l; [apply StepCancel|apply rtc_once; exact (StepClose demo_delays (cancel b1) (fun _ => None) eq_refl)]).
  assert (H3 : rtc (step demo_delays) b2 (set_watch Consume Stopped (set_watch Publish Stopped b3))).
  { eapply rtc_l; [exact (StepSet demo_delays b2 Publish 2 eq_refl)|].
    eapply rtc_l; [exact (StepReturn demo_delays b3 Publish 2 eq_refl eq_refl)|]. apply rtc_once.
    exact (StepReturn demo_delays (set_watch Publish Stopped b3) Consume 1 eq_refl eq_refl). }
  eexists. split; [by etransitivity; [exact H1|etransitivity; [exact H2|exact H3]]|]. split_and!; [done|by intros []| |].
  - by vm_compute.
  - exists b1. split; [exact H1|exact H3].
Qed.

(** [Connect] that fails on the second dial leaves a closed connection in the field. *)
Example connect_half :
  let '(e, b) := Connect (Ok "amqp://mq:5672") None (Some "refused") NewBroker in
  e = Some "dialing consume connection: refused" /\ bk_conn b Publish = Some 0%nat /\ IsConnected b = false
  /\ PublishChannel (fun _ => Ok 7%nat) b = Err "publish connection not available".
Proof. by vm_compute. Qed.

(** The waits of a broker that comes back at the seventh dial; the first may exceed
    the maximum. *)
Example reconnect_demo :
  reconnectWithBackoff demo_delays [Refused; Refused; Refused; Refused; Refused; Refused; Connected 3; Refused] =
    (map (fun s => s * time_second) [1; 2; 4; 8; 16; 30; 30], Some (Some 3%nat))
  /\ reconnectWithBackoff (Build_ReconnectDelays 60000 30000) [Refused; Cancelled] = ([60 * time_second; 30 * time_second], Some None).
Proof. by vm_compute. Qed.

(** ** The loop of the event consumer (consumer.go) *)

(** What a select that includes the context and the stop channel is woken by. *)
Inductive signal := NoSignal | ContextDone | StopRequested.

Definition signalled (ctx_error : string) (s : signal) : option (option string) :=
  match s with NoSignal => None | ContextDone => Some (Some ctx_error) | StopRequested => Some None end.

(** A turn of [Start]: the error of [consume], what the select after it finds, and
    what ends the wait. *)
Record turn := { tu_consume : option string; tu_after : signal; tu_wait : signal }.

Definition consumer_pause : Z := 2 * time_second.

(** The pauses, and the error [Start] returns with, if it does. *)
Fixpoint consumer_loop (ctx_error : string) (turns : list turn) : nat * option (option string) :=
  match turns with
  | [] => (0%nat, None)
  | t :: turns =>
      match (if tu_consume t then signalled ctx_error (tu_after t) else None) with
      | Some r => (0%nat, Some r)
      | None =>
          match signalled ctx_error (tu_wait t) with
          | Some r => (0%nat, Some r)
          | None => let '(n, r) := consumer_loop ctx_error turns in (S n, r)
          end
      end
  end.

Definition Start (handler_set : bool) (ctx_error : string) (turns : list turn) : nat * option (option string) :=
  if handler_set then consumer_loop ctx_error turns else (0%nat, Some (Some "handler must be set before starting consumer")).

(** [Stop]: closing the channel once. *)
Definition Stop (closed : bool) : bool * bool := (true, negb closed).

Definition woken (t : turn) : bool :=
  match tu_wait t with NoSignal => match tu_consume t, tu_after t with Some _, ContextDone => true | Some _, StopRequested => true | _, _ => false end
  | _ => true end.

(** The consumer returns at the first turn that sees the context done or the stop,
    and at no other: an error of the channel only makes it try again, two seconds
    later. *)
Lemma consumer_returns ctx_error turns :
  match Start true ctx_error turns with
  | (n, Some r) => exists t, turns !! n = Some t /\ woken t = true /\ (r = None \/ r = Some ctx_error) /\ forallb (fun t => negb (woken t)) (take n turns) = true
  | (n, None) => n = length turns /\ forallb (fun t => negb (woken t)) turns = true
  end.
Proof.
  cbn [Start]. induction turns as [|[c a w] turns IH]; [done|]. cbn [consumer_loop tu_consume tu_after tu_wait].
  destruct c as [e|], a, w; cbn [signalled]; try (by eexists; split_and!; [reflexivity|reflexivity|auto|reflexivity]).
  all: destruct (consumer_loop ctx_error turns) as [n [r|]]; [exact IH|destruct IH as [-> IH]; by split].
Qed.
