(* ===== verification/RabbitMq.v ===== *)
(** * RabbitMQ channel (channels/rabbitmq)

    The routing keys and queues of a user, the normalizer, the delivery client,
    the handling of a delivery, and the connection: its set-up, the subscriptions
    and the goroutine that connects again, as a step relation.  The AMQP library is
    a parameter: what the broker answers. *)
From Stdlib Require Import ZArith Lia Bool Ascii String List.
From stdpp Require Import base gmap strings option list.
From S2P Require Import Prelude GoString GoTime GoJsonParse Models Broker.

Local Open Scope string_scope.
Local Open Scope Z_scope.
Local Open Scope reader_scope.

Record RabbitMQInboundPayload := {
  rp_Text : string;
  rp_Source : string;
  rp_CorrelationID : string;
  rp_MessageID : string;
  rp_Headers : gmap string string }.

Definition zero_payload := Build_RabbitMQInboundPayload "" "" "" "" ∅.

Definition dec_payload : decoder RabbitMQInboundPayload := dec_struct (fun x =>
  let f {B} := @field B ["text"; "source"; "correlationId"; "messageId"; "headers"] in
  Build_RabbitMQInboundPayload
    <$$> f "text" dec_string (rp_Text x)
    <*> f "source" dec_string (rp_Source x)
    <*> f "correlationId" dec_string (rp_CorrelationID x)
    <*> f "messageId" dec_string (rp_MessageID x)
    <*> f "headers" dec_string_map (rp_Headers x)).

Record InboundMeta := {
  im_Exchange : string;
  im_RoutingKey : string;
  im_Queue : string;
  im_ConsumerTag : string;
  im_DeliveryTag : Z;
  im_ReplyTo : string;
  im_MessageID : string;
  im_Headers : gmap string string }.

Definition zero_meta := Build_InboundMeta "" "" "" "" 0 "" "" ∅.

Definition dec_meta : decoder InboundMeta := dec_struct (fun x =>
  let f {B} := @field B ["Exchange"; "RoutingKey"; "Queue"; "ConsumerTag"; "DeliveryTag"; "ReplyTo";
                         "MessageID"; "Headers"] in
  Build_InboundMeta
    <$$> f "Exchange" dec_string (im_Exchange x)
    <*> f "RoutingKey" dec_string (im_RoutingKey x)
    <*> f "Queue" dec_string (im_Queue x)
    <*> f "ConsumerTag" dec_string (im_ConsumerTag x)
    <*> f "DeliveryTag" dec_uint64 (im_DeliveryTag x)
    <*> f "ReplyTo" dec_string (im_ReplyTo x)
    <*> f "MessageID" dec_string (im_MessageID x)
    <*> f "Headers" dec_string_map (im_Headers x)).

(** ** Names *)

Definition OutboundRoutingKey (userID : string) : string := "nipper." +:+ userID +:+ ".outbox".
Definition InboundRoutingKey (userID : string) : string := "nipper." +:+ userID +:+ ".inbox".
Definition InboundQueueName (userID : string) : string := "nipper-" +:+ userID +:+ "-inbox".
Definition OutboundQueueName (userID : string) : string := "nipper-" +:+ userID +:+ "-outbox".

(** [strings.Join(parts, ".")]. *)
Definition join_dots (parts : list string) : string := String.concat "." parts.

Definition extractUserIDFromRoutingKey (key : string) : string :=
  let parts := split_on "." key in
  if (3 <=? length parts)%nat && (nth 0 parts "" =? "nipper")%string
     && (nth (length parts - 1) parts "" =? "inbox")%string
  then join_dots (firstn (length parts - 2) (skipn 1 parts)) else "".

(** [strings.TrimSuffix]. *)
Definition trim_suffix (s suf : string) : string :=
  if has_suffix s suf then str_take (String.length s - String.length suf) s else s.

Definition extractUserIDFromQueue (queue : string) : string :=
  match strip_prefix "nipper-" queue with
  | None => ""
  | Some trimmed => if has_suffix queue "-inbox" then trim_suffix trimmed "-inbox" else ""
  end.

Definition header (name : string) (h : gmap string string) : string := default "" (h !! name).

(** The user: the header, else the routing key, else the queue. *)
Definition resolveUserID (meta : InboundMeta) : string :=
  let h := header "x-nipper-user" (im_Headers meta) in
  let k := extractUserIDFromRoutingKey (im_RoutingKey meta) in
  if negb (h =? "")%string then h
  else if negb (k =? "")%string then k
  else extractUserIDFromQueue (im_Queue meta).

Definition resolveReplyMode (replyTo : string) : string :=
  if negb (replyTo =? "")%string then "reply-to" else "direct".

(** ** NormalizeInbound *)

Definition inbound_message (uuid : string) (now : Z) (userID : string) (payload : RabbitMQInboundPayload)
    (meta : InboundMeta) : NipperMessage :=
  let originMsgID := if negb (rp_MessageID payload =? "")%string then rp_MessageID payload
                     else if negb (im_MessageID meta =? "")%string then im_MessageID meta
                     else "rabbitmq:" +:+ im_RoutingKey meta +:+ ":" +:+ fmt_d now in
  let correlationID := if (rp_CorrelationID payload =? "")%string then header "x-correlation-id" (im_Headers meta)
                       else rp_CorrelationID payload in
  let replyTo := if (im_ReplyTo meta =? "")%string then header "x-reply-to" (im_Headers meta) else im_ReplyTo meta in
  {| nm_MessageID := uuid;
     nm_OriginMessageID := originMsgID;
     nm_UserID := userID;
     nm_SessionKey := "";
     nm_ChannelType := ChannelTypeRabbitMQ;
     nm_ChannelIdentity := "rabbitmq:" +:+ userID;
     nm_Content := Build_MessageContent (rp_Text payload) [];
     nm_DeliveryContext := Build_DeliveryContext ChannelTypeRabbitMQ
       (if negb (replyTo =? "")%string then replyTo else OutboundQueueName userID)
       (resolveReplyMode replyTo) "" [] RabbitMQCapabilities;
     nm_Meta := Some (MetaRabbitMq (Build_RabbitMqMeta (im_Exchange meta) (im_RoutingKey meta) correlationID
                                      replyTo (im_MessageID meta)));
     nm_Timestamp := now;
     nm_DedupeKey := "" |}.

(** [decoded] is what [json.Unmarshal] makes of the body. *)
Definition normalize (uuid : string) (now : Z) (decoded : RabbitMQInboundPayload * option json_error)
    (meta : InboundMeta) : result string (option NipperMessage) :=
  match decoded with
  | (_, Some _) => Err "rabbitmq normalizer: unmarshal payload"
  | (payload, None) =>
      if (trim_space (rp_Text payload) =? "")%string then Ok None
      else if (resolveUserID meta =? "")%string then
        Err "rabbitmq normalizer: cannot determine userId from routing key or headers"
      else Ok (Some (inbound_message uuid now (resolveUserID meta) payload meta))
  end.

Definition NormalizeInbound (uuid : string) (now : Z) (raw : string) (meta : InboundMeta)
    : result string (option NipperMessage) :=
  normalize uuid now (unmarshal dec_payload zero_payload raw) meta.

(** [Adapter.NormalizeInbound]: the body comes wrapped with its metadata. *)
Record wrapper := { wr_Body : option json; wr_Meta : InboundMeta }.

Definition dec_wrapper : decoder wrapper := dec_struct (fun x =>
  let f {B} := @field B ["_body"; "_meta"] in
  Build_wrapper <$$> f "_body" dec_raw (wr_Body x) <*> f "_meta" dec_meta (wr_Meta x)).

Definition Adapter_NormalizeInbound (uuid : string) (now : Z) (raw : string) : result string (option NipperMessage) :=
  match unmarshal dec_wrapper (Build_wrapper None zero_meta) raw with
  | (_, Some _) => Err "rabbitmq normalise: unmarshal wrapper"
  | (w, None) =>
      match wr_Body w with
      | None | Some VNull => Err "rabbitmq normalise: _body is required"
      | Some v => normalize uuid now (unmarshal_raw dec_payload zero_payload (Some v)) (wr_Meta w)
      end
  end.

(** ** Delivery *)

Record RabbitMQResponsePayload := {
  rr_ResponseID : string;
  rr_InReplyTo : string;
  rr_SessionKey : string;
  rr_UserID : string;
  rr_Text : string;
  rr_Parts : list ContentPart;
  rr_CorrelationID : string;
  rr_Timestamp : string }.

Definition extractRabbitMQMeta (resp : NipperResponse) : option RabbitMqMeta :=
  match rs_Meta resp with Some (MetaRabbitMq m) => Some m | _ => None end.

Definition resolveTarget (exchangeOutbound : string) (resp : NipperResponse) : string * string :=
  match extractRabbitMQMeta resp with
  | Some meta => if negb (rb_ReplyTo meta =? "")%string then ("", rb_ReplyTo meta)
                 else (exchangeOutbound, OutboundRoutingKey (rs_UserID resp))
  | None => (exchangeOutbound, OutboundRoutingKey (rs_UserID resp))
  end.

Definition buildHeaders (resp : NipperResponse) : gmap string string :=
  let headers := {[ "x-nipper-response-id" := rs_ResponseID resp; "content-type" := "application/json" ]} in
  match extractRabbitMQMeta resp with
  | Some meta => if negb (rb_CorrelationID meta =? "")%string
                 then <["x-correlation-id" := rb_CorrelationID meta]> headers else headers
  | None => headers
  end.

Definition buildPayload (resp : NipperResponse) : RabbitMQResponsePayload := {|
  rr_ResponseID := rs_ResponseID resp;
  rr_InReplyTo := rs_OriginMessageID resp;
  rr_SessionKey := rs_SessionKey resp;
  rr_UserID := rs_UserID resp;
  rr_Text := rs_Text resp;
  rr_Parts := rs_Parts resp;
  rr_CorrelationID := match extractRabbitMQMeta resp with Some meta => rb_CorrelationID meta | None => "" end;
  rr_Timestamp := format_rfc3339 (rs_Timestamp resp) |}.

Record publication := {
  pub_exchange : string;
  pub_routingKey : string;
  pub_headers : gmap string string;
  pub_payload : RabbitMQResponsePayload }.

(** [publisher] is [None] for nil and tells whether the broker is connected. *)
Definition DeliverResponse (publisher : option bool) (exchangeOutbound : string) (resp : NipperResponse)
    : result string publication :=
  match publisher with
  | None => Err "rabbitmq delivery: publisher is nil"
  | Some false => Err "rabbitmq delivery: not connected to broker"
  | Some true =>
      let '(exchange, key) := resolveTarget exchangeOutbound resp in
      Ok {| pub_exchange := exchange; pub_routingKey := key;
            pub_headers := buildHeaders resp; pub_payload := buildPayload resp |}
  end.

(** ** Handling a delivery *)

(** How a delivery is settled: acknowledged, or refused and put back or not. *)
Inductive settlement := Ack | Nack (requeue : bool).

(** An AMQP delivery; header values that are not strings are left out. *)
Record Delivery := {
  dl_Body : string;
  dl_Exchange : string;
  dl_RoutingKey : string;
  dl_ConsumerTag : string;
  dl_DeliveryTag : Z;
  dl_ReplyTo : string;
  dl_MessageId : string;
  dl_Headers : gmap string string }.

(** [handler] is [None] before [SetHandler]; it gives its error, and the state
    [S] it changes is the pipeline's. *)
Definition handleDelivery {S} (handler : option (NipperMessage -> State S (option string)))
    (uuid : string) (now : Z) (userID : string) (d : Delivery) : State S settlement :=
  match handler with
  | None => sret (Nack true)
  | Some handler =>
      let meta := {|
        im_Exchange := dl_Exchange d;
        im_RoutingKey := dl_RoutingKey d;
        im_Queue := InboundQueueName userID;
        im_ConsumerTag := dl_ConsumerTag d;
        im_DeliveryTag := dl_DeliveryTag d;
        im_ReplyTo := dl_ReplyTo d;
        im_MessageID := dl_MessageId d;
        im_Headers := dl_Headers d |} in
      match NormalizeInbound uuid now (dl_Body d) meta with
      | Err _ => sret (Nack false)
      | Ok None => sret Ack
      | Ok (Some msg) => fun st =>
          match handler msg st with
          | (Some _, st) => (Nack true, st)
          | (None, st) => (Ack, st)
          end
      end
  end.

(** ** The user of a key *)

Lemma split_on_cons sep s : exists w ws, split_on sep s = w :: ws.
Proof.
  destruct s as [|c s]; simpl; [eauto|]. destruct (Ascii.eqb c sep); [eauto|].
  destruct (split_on sep s); eauto.
Qed.

Lemma split_on_sep sep a b : split_on sep (a +:+ String sep b) = (split_on sep a ++ split_on sep b)%list.
Proof.
  induction a as [|c a IH]; simpl; [by rewrite Ascii.eqb_refl|].
  rewrite IH. destruct (Ascii.eqb c sep); [done|]. destruct (split_on_cons sep a) as (w & ws & ->). done.
Qed.

Lemma join_split s : join_dots (split_on "." s) = s.
Proof.
  unfold join_dots. induction s as [|c s IH]; [done|]. cbn [split_on].
  destruct (split_on_cons "." s) as (w & ws & E). rewrite E in *.
  destruct (Ascii.eqb_spec c ".") as [->|_].
  - change (String.concat "." ("" :: w :: ws)) with (String "." (String.concat "." (w :: ws))). by rewrite IH.
  - replace (String.concat "." (String c w :: ws)) with (String c (String.concat "." (w :: ws))) by (by destruct ws).
    by rewrite IH.
Qed.

Lemma extract_routing_key user : extractUserIDFromRoutingKey (InboundRoutingKey user) = user.
Proof.
  unfold extractUserIDFromRoutingKey, InboundRoutingKey.
  assert (E : split_on "." ("nipper." +:+ user +:+ ".inbox") = "nipper" :: (split_on "." user ++ ["inbox"])%list).
  { change ("nipper." +:+ user +:+ ".inbox") with ("nipper" +:+ String "." (user +:+ String "." "inbox")).
    by rewrite !split_on_sep. }
  rewrite E. cbn [length nth]. rewrite length_app. cbn [length].
  destruct (split_on_cons "." user) as (w & ws & Eu).
  replace (S (length (split_on "." user) + 1) - 1)%nat with (S (length (split_on "." user))) by lia.
  replace (S (length (split_on "." user) + 1) - 2)%nat with (length (split_on "." user)) by lia.
  cbn [nth skipn]. rewrite app_nth2, Nat.sub_diag by lia. simpl nth.
  rewrite drop_0, take_app_length, join_split.
  assert (Hl : (3 <=? S (length (split_on "." user) + 1))%nat = true)
    by (apply Nat.leb_le; rewrite Eu; simpl; lia).
  by rewrite Hl.
Qed.

Lemma extract_queue user : extractUserIDFromQueue (InboundQueueName user) = user.
Proof.
  unfold extractUserIDFromQueue, InboundQueueName. rewrite strip_prefix_app.
  replace ("nipper-" +:+ user +:+ "-inbox") with (("nipper-" +:+ user) +:+ "-inbox") by (by rewrite str_app_assoc).
  unfold trim_suffix. rewrite !has_suffix_app, str_app_length, Nat.add_sub. apply str_take_app.
Qed.

(** C39: a delivery with a user's routing key is settled once.  A body that does
    not decode is refused for good and a blank one acknowledged, and neither
    reaches the handler; any other body reaches it as a message of that user,
    or of the user its [x-nipper-user] header names, and is acknowledged when
    the handler succeeds and put back when it fails. *)
Theorem rabbit_delivery_settled {S} (handler : NipperMessage -> State S (option string)) uuid now user d (st : S) :
  dl_RoutingKey d = InboundRoutingKey user -> user <> "" ->
  let '(payload, err) := unmarshal dec_payload zero_payload (dl_Body d) in
  let '(settled, st') := handleDelivery (Some handler) uuid now user d st in
  match err with
  | Some _ => settled = Nack false /\ st' = st
  | None =>
      if (trim_space (rp_Text payload) =? "")%string then settled = Ack /\ st' = st
      else exists msg, let '(e, st1) := handler msg st in
        st' = st1 /\ settled = (match e with None => Ack | Some _ => Nack true end) /\
        mc_Text (nm_Content msg) = rp_Text payload /\
        nm_UserID msg = (let h := header "x-nipper-user" (dl_Headers d) in if (h =? "")%string then user else h)
  end.
Proof.
  intros Hk Hu. unfold handleDelivery, NormalizeInbound, normalize.
  destruct (unmarshal dec_payload zero_payload (dl_Body d)) as [payload [e|]]; [done|].
  destruct (trim_space (rp_Text payload) =? "")%string eqn:Hb; [done|].
  set (meta := Build_InboundMeta _ _ _ _ _ _ _ _).
  assert (Hr : resolveUserID meta = (let h := header "x-nipper-user" (dl_Headers d) in if (h =? "")%string then user else h)).
  { unfold resolveUserID. subst meta. cbn [im_Headers im_RoutingKey im_Queue]. rewrite Hk, extract_routing_key.
    destruct (header "x-nipper-user" (dl_Headers d) =? "")%string; [|done]. cbn [negb].
    by destruct (String.eqb_spec user ""). }
  destruct (String.eqb_spec (resolveUserID meta) "") as [He|He].
  - exfalso. rewrite Hr in He. cbv zeta in He. destruct (String.eqb_spec (header "x-nipper-user" (dl_Headers d)) ""); done.
  - set (msg := inbound_message uuid now (resolveUserID meta) payload meta).
    destruct (handler msg st) as [[e|] st1] eqn:Eh; exists msg; rewrite Eh; done.
Qed.

Definition demo_delivery : Delivery :=
  Build_Delivery (json_text "{'text':'hi'}") "nipper.in" (InboundRoutingKey "a.b") "" 1 "" "m1"
    {[ "x-nipper-user" := "root" ]}.

(** The header decides, whatever queue the delivery came from. *)
Lemma rabbit_delivery_settled_witness :
  exists msg, handleDelivery (S := list string) (Some (fun m st => (None, nm_UserID m :: st))) "id" 5 "a.b" demo_delivery []
    = (Ack, [nm_UserID msg]) /\ nm_UserID msg = "root".
Proof.
  pose proof (rabbit_delivery_settled (fun m (st : list string) => (None, nm_UserID m :: st)) "id" 5 "a.b" demo_delivery []
    eq_refl ltac:(discriminate)) as H.
  destruct (unmarshal dec_payload zero_payload (dl_Body demo_delivery)) as [payload err] eqn:E.
  vm_compute in E. injection E as <- <-. cbv beta iota in H.
  destruct (handleDelivery _ _ _ _ _ _) as [settled st'] eqn:E2. vm_compute in E2. injection E2 as <- <-.
  match type of H with if ?b then _ else _ => change b with false in H end. cbv iota in H.
  destruct H as (msg & Hst & _ & _ & Hu). exists msg. rewrite Hst, Hu. split; reflexivity.
Defined.

(** ** Connecting and subscribing (adapter.go) *)

Record ChanConfig := {
  ch_ExchangeInbound : string;
  ch_ExchangeOutbound : string;
  ch_ExchangeDLX : string;
  ch_Prefetch : Z;
  ch_Reconnect : ReconnectDelays }.

(** The calls of a connection and its channel. *)
Inductive amqp_call :=
| CallChannel
| CallQos (prefetch : Z)
| CallExchange (name : string)
| CallQueue (name : string) (dlx : option string)
| CallBind (queue key exchange : string)
| CallConsume (queue tag : string)
| CallCloseChannel.

Section setup.
Context (cfg : ChanConfig) (call_error : amqp_call -> option string).

Definition dead_letters : option string := if (ch_ExchangeDLX cfg =? "")%string then None else Some (ch_ExchangeDLX cfg).

(** The calls that set a channel up, with what precedes the error of each. *)
Definition setup_calls : list (amqp_call * string) :=
  ([(CallQos (if ch_Prefetch cfg <=? 0 then 1 else ch_Prefetch cfg), "setting QoS: ");
    (CallExchange (ch_ExchangeInbound cfg), "declaring inbound exchange: ");
    (CallExchange (ch_ExchangeOutbound cfg), "declaring outbound exchange: ")]
   ++ match dead_letters with Some dlx => [(CallExchange dlx, "declaring DLX exchange: ")] | None => [] end)%list.

Fixpoint call_all (calls : list (amqp_call * string)) : list amqp_call * option string :=
  match calls with
  | [] => ([], None)
  | (c, what) :: calls =>
      match call_error c with
      | Some e => ([c], Some (what +:+ e))
      | None => let '(made, e) := call_all calls in (c :: made, e)
      end
  end.

(** One user of [subscribeAll]; an error skips the user. *)
Definition subscribe_user (userID : string) : list amqp_call * bool :=
  let queue := InboundQueueName userID in
  let '(made, e) := call_all [(CallQueue queue dead_letters, ""); (CallBind queue (InboundRoutingKey userID) (ch_ExchangeInbound cfg), "");
                              (CallConsume queue ("nipper-channel-" +:+ userID), "")] in
  (made, match e with None => true | Some _ => false end).

(** The calls made, and the users whose queues are consumed. *)
Definition subscribeAll (users : option (result string (list string))) : list amqp_call * list string :=
  match users with
  | Some (Ok users) =>
      (flat_map (fun u => fst (subscribe_user u)) users, List.filter (fun u => snd (subscribe_user u)) users)
  | _ => ([], [])
  end.

Definition setup (users : option (result string (list string))) : list amqp_call * result string (list string) :=
  match call_error CallChannel with
  | Some e => ([CallChannel], Err ("opening AMQP channel: " +:+ e))
  | None =>
      match call_all setup_calls with
      | (made, Some e) => ((CallChannel :: made ++ [CallCloseChannel])%list, Err e)
      | (made, None) => let '(subs, consumers) := subscribeAll users in ((CallChannel :: made ++ subs)%list, Ok consumers)
      end
  end.
End setup.

(** Where the goroutine of the adapter is: none, at the select over the connection's
    close notification, in [reconnectLoop], between the connection and its set-up;
    the flag says whether [watchConnection] called the loop, or [Start]. *)
Inductive task := NoTask | WatchConn (c : nat) | Reconnecting (watch : bool) (delay : Z) | SettingUp (watch : bool) (delay : Z) (c : nat).

Record ConnState := {
  cs_conn : option nat;
  cs_connected : bool;
  cs_consumers : list string;      (* the users that are counted as consumed *)
  cs_consuming : list string;      (* those whose delivery channel is open *)
  cs_open : gset nat;              (* the connections that are not closed *)
  cs_lost : gset nat;              (* those closed with an error *)
  cs_next : nat;
  cs_stopped : bool;               (* stopCh is closed *)
  cs_task : task }.

Definition with_task (t : task) (s : ConnState) : ConnState :=
  Build_ConnState (cs_conn s) (cs_connected s) (cs_consumers s) (cs_consuming s) (cs_open s) (cs_lost s) (cs_next s) (cs_stopped s) t.
Definition with_consuming (us : list string) (s : ConnState) : ConnState :=
  Build_ConnState (cs_conn s) (cs_connected s) (cs_consumers s) us (cs_open s) (cs_lost s) (cs_next s) (cs_stopped s) (cs_task s).
Definition connect (s : ConnState) : ConnState :=
  Build_ConnState (cs_conn s) (cs_connected s) (cs_consumers s) (cs_consuming s) ({[cs_next s]} ∪ cs_open s) (cs_lost s) (S (cs_next s))
    (cs_stopped s) (cs_task s).
(** The delivery channels of a connection that is closed are closed with it. *)
Definition ready (c : nat) (consumers : list string) (s : ConnState) : ConnState :=
  Build_ConnState (Some c) true consumers (if decide (c ∈ cs_open s) then consumers else []) (cs_open s) (cs_lost s) (cs_next s)
    (cs_stopped s) (cs_task s).
Definition close_conn (c : nat) (lost : bool) (s : ConnState) : ConnState :=
  Build_ConnState (cs_conn s) (cs_connected s) (cs_consumers s) (if decide (cs_conn s = Some c) then [] else cs_consuming s)
    (cs_open s ∖ {[c]}) (if lost then {[c]} ∪ cs_lost s else cs_lost s) (cs_next s) (cs_stopped s) (cs_task s).
Definition disconnected (s : ConnState) : ConnState :=
  Build_ConnState (cs_conn s) false [] (cs_consuming s) (cs_open s) (cs_lost s) (cs_next s) (cs_stopped s) (cs_task s).
Definition stop_signal (s : ConnState) : ConnState :=
  Build_ConnState (cs_conn s) (cs_connected s) (cs_consumers s) (cs_consuming s) (cs_open s) (cs_lost s) (cs_next s) true (cs_task s).
Definition stop_close (s : ConnState) : ConnState :=
  Build_ConnState (cs_conn s) false (cs_consumers s) [] (cs_open s ∖ match cs_conn s with Some c => {[c]} | None => ∅ end) (cs_lost s)
    (cs_next s) (cs_stopped s) (cs_task s).

Definition new_conn : ConnState := Build_ConnState None false [] [] ∅ ∅ 0 false NoTask.

Definition HealthCheck (s : ConnState) : option string :=
  if cs_connected s then None else Some "rabbitmq channel: not connected to broker".
Definition ConsumerCount (s : ConnState) : nat := length (cs_consumers s).

(** [Start], given whether the connection is made and what its set-up gives; there is
    no error. *)
Definition start_conn (cfg : ChanConfig) (made : bool) (set_up : result string (list string)) (s : ConnState) : ConnState :=
  let retry := with_task (Reconnecting false (initial_delay (ch_Reconnect cfg))) in
  if made then
    let c := cs_next s in
    let s := connect s in
    match set_up with
    | Err _ => retry (close_conn c false s)
    | Ok consumers => with_task (WatchConn c) (ready c consumers s)
    end
  else retry s.

(** What the adapter's goroutine does. *)
Inductive adapter_step (cfg : ChanConfig) : ConnState -> ConnState -> Prop :=
| ConnNotice s c : cs_task s = WatchConn c -> c ∉ cs_open s -> (c ∈ cs_lost s \/ cs_stopped s = false) ->
    adapter_step cfg s (with_task (Reconnecting true (initial_delay (ch_Reconnect cfg))) (disconnected s))
| ConnReturn s : cs_stopped s = true -> match cs_task s with WatchConn _ | Reconnecting _ _ => True | _ => False end ->
    adapter_step cfg s (with_task NoTask s)
| ConnRefused s w d : cs_task s = Reconnecting w d -> adapter_step cfg s (with_task (Reconnecting w (next_delay (ch_Reconnect cfg) d)) s)
| ConnDial s w d : cs_task s = Reconnecting w d -> adapter_step cfg s (with_task (SettingUp w d (cs_next s)) (connect s))
| ConnFailed s w d c call_error users made e : cs_task s = SettingUp w d c -> setup cfg call_error users = (made, Err e) ->
    adapter_step cfg s (with_task (Reconnecting w (next_delay (ch_Reconnect cfg) d)) (close_conn c false s))
| ConnReady s w d c call_error users made consumers : cs_task s = SettingUp w d c -> setup cfg call_error users = (made, Ok consumers) ->
    adapter_step cfg s (with_task (if w then WatchConn c else NoTask) (ready c consumers s)).

(** What happens to it: a connection is lost; the broker closes the channel alone, or
    cancels a consumer, and the loops over their deliveries return; [Stop] is called. *)
Inductive outside_step : ConnState -> ConnState -> Prop :=
| ConnLose s c : c ∈ cs_open s -> outside_step s (close_conn c true s)
| ConnChannelLost s : outside_step s (with_consuming [] s)
| ConnCancelled s user : outside_step s (with_consuming (List.filter (fun u => negb (u =? user)%string) (cs_consuming s)) s)
| ConnStop s : cs_stopped s = false -> outside_step s (stop_signal s)
| ConnStopClose s : cs_stopped s = true -> outside_step s (stop_close s).

Definition conn_step (cfg : ChanConfig) (s s' : ConnState) : Prop := adapter_step cfg s s' \/ outside_step s s'.

(** The connection in use is open. *)
Definition live (s : ConnState) : Prop := exists c, cs_conn s = Some c /\ c ∈ cs_open s.

Definition watched (s : ConnState) : Prop :=
  cs_stopped s = false ->
  match cs_task s with
  | NoTask => False
  | WatchConn c => cs_conn s = Some c /\ cs_connected s = true
  | Reconnecting w _ => w = true /\ cs_connected s = false
  | SettingUp w _ c => w = true /\ cs_connected s = false
  end.

Lemma watched_step cfg s s' : watched s -> conn_step cfg s s' -> watched s'.
Proof.
  intros Hw [Hs|Hs] Hn.
  - destruct Hs as [s c Ht Ho Hl|s Hx Ht|s w d Ht|s w d Ht|s w d c ce us made e Ht He|s w d c ce us made cons Ht He];
      cbn in *; try congruence; specialize (Hw Hn); rewrite Ht in Hw; try done. by destruct Hw as [-> _].
  - destruct Hs as [s c Hc|s|s u|s Hx|s Hx]; cbn in *; try congruence; by apply Hw.
Qed.

Lemma watched_run cfg s s' : watched s -> rtc (conn_step cfg) s s' -> watched s'.
Proof. intros Hi Hs. induction Hs as [|x y z Hxy _ IH]; [done|]. by apply IH, (watched_step cfg x). Qed.

(** The broker takes the channel, its prefetch and the exchanges; it may refuse a
    queue, a binding or a consumer. *)
Definition takes_channels (call_error : amqp_call -> option string) : Prop := forall c,
  match c with CallQueue _ _ | CallBind _ _ _ | CallConsume _ _ => True | _ => call_error c = None end.

(** The queue of a user is declared, bound to the inbound exchange with the user's key
    and consumed. *)
Definition takes_user (cfg : ChanConfig) (call_error : amqp_call -> option string) (user : string) : Prop :=
  call_error (CallQueue ("nipper-" +:+ user +:+ "-inbox") (if decide (ch_ExchangeDLX cfg = "") then None else Some (ch_ExchangeDLX cfg))) = None /\
  call_error (CallBind ("nipper-" +:+ user +:+ "-inbox") ("nipper." +:+ user +:+ ".inbox") (ch_ExchangeInbound cfg)) = None /\
  call_error (CallConsume ("nipper-" +:+ user +:+ "-inbox") ("nipper-channel-" +:+ user)) = None.

Lemma call_all_ok call_error calls : (forall c, In c calls -> call_error (fst c) = None) -> call_all call_error calls = (map fst calls, None).
Proof.
  induction calls as [|[c what] calls IH]; intros H; [done|]. cbn.
  pose proof (H (c, what) (or_introl eq_refl)) as Hc. cbn in Hc. rewrite Hc.
  by rewrite IH by (intros c' Hc'; apply H; by right).
Qed.

Lemma subscribe_user_ok cfg call_error user : snd (subscribe_user cfg call_error user) = true <-> takes_user cfg call_error user.
Proof.
  unfold subscribe_user, takes_user, InboundQueueName, InboundRoutingKey. cbn [call_all].
  assert (Hd : dead_letters cfg = if decide (ch_ExchangeDLX cfg = "") then None else Some (ch_ExchangeDLX cfg)).
  { unfold dead_letters. by destruct (String.eqb_spec (ch_ExchangeDLX cfg) ""), (decide (ch_ExchangeDLX cfg = "")). }
  rewrite Hd. set (q := CallQueue _ _). set (bd := CallBind _ _ _). set (cn := CallConsume _ _).
  destruct (call_error q); cbn; [naive_solver|]. destruct (call_error bd); cbn; [naive_solver|]. destruct (call_error cn); cbn; naive_solver.
Qed.

Lemma setup_ok cfg call_error us : takes_channels call_error -> exists made consumers,
  setup cfg call_error (Some (Ok us)) = (made, Ok consumers) /\
  forall u, In u consumers <-> In u us /\ takes_user cfg call_error u.
Proof.
  intros H. unfold setup. rewrite (H CallChannel). rewrite call_all_ok.
  - eexists _, _. split; [reflexivity|]. intros u. rewrite filter_In. by rewrite subscribe_user_ok.
  - intros c Hc. unfold setup_calls in Hc. apply in_app_or in Hc as [Hc|Hc].
    + destruct Hc as [<-|[<-|[<-|[]]]]; [apply (H (CallQos _))|apply (H (CallExchange _))..].
    + destruct (dead_letters cfg); [|done]. destruct Hc as [<-|[]]. apply (H (CallExchange _)).
Qed.


Definition demo_chan : ChanConfig := Build_ChanConfig "in" "out" "dlx" 0 (Build_ReconnectDelays 0 0).

(** The calls of a set-up in which a user's queue cannot be declared. *)
Example setup_demo :
  setup demo_chan (fun c => match c with CallQueue "nipper-b-inbox" _ => Some "no" | _ => None end) (Some (Ok ["a"; "b"])) =
  ([CallChannel; CallQos 1; CallExchange "in"; CallExchange "out"; CallExchange "dlx";
    CallQueue "nipper-a-inbox" (Some "dlx"); CallBind "nipper-a-inbox" "nipper.a.inbox" "in"; CallConsume "nipper-a-inbox" "nipper-channel-a";
    CallQueue "nipper-b-inbox" (Some "dlx")], Ok ["a"])
  /\ setup demo_chan (fun c => match c with CallExchange "out" => Some "no" | _ => None end) None =
     ([CallChannel; CallQos 1; CallExchange "in"; CallExchange "out"; CallCloseChannel], Err "declaring outbound exchange: no").
Proof. by vm_compute. Qed.


(** When the broker closes the channel and not the connection, nobody is consumed any
    more, and the adapter, which watches the connection only, stays so and healthy:
    none of its own steps leads out of that state. *)
Lemma rabbit_channel_unnoticed : exists s,
  rtc (conn_step demo_chan) (start_conn demo_chan true (Ok ["a"]) new_conn) s /\ cs_stopped s = false /\ live s /\
  HealthCheck s = None /\ ConsumerCount s = 1%nat /\ cs_consuming s = [] /\ forall s', ~ adapter_step demo_chan s s'.
Proof.
  set (s0 := start_conn demo_chan true (Ok ["a"]) new_conn). exists (with_consuming [] s0).
  split; [apply rtc_once; right; constructor|]. split_and!; try done; [exists 0%nat; split; [done|cbn; set_solver]|].
  intros s' Hs. inversion Hs as [s c Ht Ho Hl|s Hx Ht|s w d Ht|s w d Ht|s w d c ce us made e Ht He|s w d c ce us made cons Ht He]; subst; try done.
  injection Ht as <-. apply Ho. cbn. set_solver.
Qed.

(** A channel that did not connect when it was started is connected by the background
    loop, but nobody watches that connection: when it is lost the adapter stays
    without one, and healthy, until it is stopped. *)
Lemma rabbit_start_unwatched : exists s,
  rtc (conn_step demo_chan) (start_conn demo_chan false (Ok []) new_conn) s /\ cs_stopped s = false
  /\ forall s', rtc (conn_step demo_chan) s s' -> cs_stopped s' = false -> HealthCheck s' = None /\ ~ live s'.
Proof.
  set (s0 := start_conn demo_chan false (Ok []) new_conn).
  set (s1 := with_task (SettingUp false (initial_delay (ch_Reconnect demo_chan)) 0) (connect s0)).
  set (s2 := with_task NoTask (ready 0 ["a"] s1)).
  set (s3 := close_conn 0 true s2).
  exists s3. split_and!; [|done|].
  - eapply rtc_l; [left; exact (ConnDial demo_chan s0 false _ eq_refl)|].
    eapply rtc_l; [left; exact (ConnReady demo_chan s1 false _ 0 (fun _ => None) (Some (Ok ["a"])) _ _ eq_refl eq_refl)|].
    apply rtc_once. right. exact (ConnLose s2 0%nat ltac:(set_solver)).
  - assert (Hi : forall s', rtc (conn_step demo_chan) s3 s' -> cs_task s' = NoTask /\ cs_open s' = ∅ /\ (cs_stopped s' = false -> cs_connected s' = true)).
    { intros s' Hs. assert (H0 : cs_task s3 = NoTask /\ cs_open s3 = ∅ /\ (cs_stopped s3 = false -> cs_connected s3 = true)).
      { split_and!; [done|by vm_compute|done]. }
      revert H0. induction Hs as [|x y z Hxy _ IH]; [done|]. intros (Ht & Ho & Hc). apply IH. destruct Hxy as [Hxy|Hxy].
      - destruct Hxy as [s c Ht'|s Hx Ht'|s w d Ht'|s w d Ht'|s w d c ce us made e Ht'|s w d c ce us made cons Ht']; try congruence. done.
      - destruct Hxy as [s c Hin|s|s u|s Hx|s Hx]; cbn; try done.
        + by rewrite Ho in Hin.
        + rewrite Ho. split_and!; [done|set_solver|congruence]. }
    intros s' Hs Hn. destruct (Hi s' Hs) as (_ & Ho & Hc). split; [unfold HealthCheck; by rewrite Hc|].
    intros (c & _ & Hin). by rewrite Ho in Hin.
Qed.
