(* ===== verification/Limiter.v ===== *)
(** * Sliding-window rate limiter (internal/ratelimit/limiter.go)

    [Limiter] keeps, per key, the instants of the allowed events.  A call
    reads its clock once ([Allow], [Count], [Cleanup] pass [time.Now()] to
    [allowAt], [countAt], [cleanupAt]), here the argument [now]; the mutex
    makes every call atomic, so an execution is a sequence of calls. *)
From Stdlib Require Import ZArith Lia Bool Ascii String List.
From stdpp Require Import base gmap strings option fin_maps list.
From S2P Require Import Prelude.

Local Open Scope Z_scope.

(** ** State and operations *)

Record Limiter := {
  windows : gmap string (list Z);   (* map[string]*window, a window is its events *)
  l_max : Z;
  l_window : Z }.

Definition NewLimiter (max windowDuration : Z) : Limiter :=
  {| windows := ∅; l_max := max; l_window := windowDuration |}.

Definition set_windows (l : Limiter) (w : gmap string (list Z)) : Limiter :=
  {| windows := w; l_max := l_max l; l_window := l_window l |}.

(** [w.prune]: the loop advances while the front is older than the cutoff. *)
Definition prune (cutoff : Z) (events : list Z) : list Z :=
  drop_while (fun t => time_before t cutoff) events.

Definition events_of (l : Limiter) (key : string) : list Z := default [] (windows l !! key).

Definition retry_after (l : Limiter) (events : list Z) (now : Z) : Z :=
  let r := match events with
           | [] => l_window l
           | e :: _ => e + l_window l - now
           end in
  if r <? 0 then 0 else r.

Definition allowAt (key : string) (now : Z) (l : Limiter) : (bool * Z) * Limiter :=
  let cutoff := now - l_window l in
  let events := prune cutoff (events_of l key) in
  if l_max l <=? Z.of_nat (length events) then
    ((false, retry_after l events now), set_windows l (<[key := events]> (windows l)))
  else
    ((true, 0), set_windows l (<[key := (events ++ [now])%list]> (windows l))).

Definition Reset (key : string) (l : Limiter) : Limiter :=
  set_windows l (delete key (windows l)).

Definition countAt (key : string) (now : Z) (l : Limiter) : Z * Limiter :=
  match windows l !! key with
  | None => (0, l)
  | Some ev =>
      let events := prune (now - l_window l) ev in
      (Z.of_nat (length events), set_windows l (<[key := events]> (windows l)))
  end.

Definition cleanupAt (now : Z) (l : Limiter) : Limiter :=
  set_windows l (omap (fun ev =>
    match prune (now - l_window l) ev with
    | [] => None
    | ev' => Some ev'
    end) (windows l)).

(** ** Executions

    A call at a clock value; [steps] runs calls and logs the allowed events,
    newest last. *)
Inductive call :=
| CAllow (key : string)
| CCount (key : string)
| CReset (key : string)
| CCleanup.

Definition step (now : Z) (c : call) (l : Limiter) : list (string * Z) * Limiter :=
  match c with
  | CAllow key =>
      let '((ok, _), l') := allowAt key now l in
      (if ok then [(key, now)] else [], l')
  | CCount key => ([], snd (countAt key now l))
  | CReset key => ([], Reset key l)
  | CCleanup => ([], cleanupAt now l)
  end.

Fixpoint steps (cs : list (Z * call)) (l : Limiter) : list (string * Z) * Limiter :=
  match cs with
  | [] => ([], l)
  | (now, c) :: cs' =>
      let '(ev, l') := step now c l in
      let '(ev', l'') := steps cs' l' in
      ((ev ++ ev')%list, l'')
  end.

(** Clock values do not go back. *)
Fixpoint clock_ok (t0 : Z) (cs : list (Z * call)) : Prop :=
  match cs with
  | [] => True
  | (now, _) :: cs' => t0 <= now /\ clock_ok now cs'
  end.

Definition times_of (key : string) (log : list (string * Z)) : list Z :=
  map snd (List.filter (fun e => String.eqb (fst e) key) log).

(** Allowed events of [key] in the closed interval [[a, b]]. *)
Definition in_span (a b t : Z) : bool := (a <=? t) && (t <=? b).
Definition allowed_in (key : string) (a b : Z) (log : list (string * Z)) : nat :=
  count_if (in_span a b) (times_of key log).

(** ** Lemmas *)

Lemma prune_absorb c1 c2 ev : c1 <= c2 -> prune c2 (prune c1 ev) = prune c2 ev.
Proof. intros H. apply drop_while_absorb. intros x. unfold_time. lia. Qed.

Lemma prune_nil_absorb c1 c2 ev : c1 <= c2 -> prune c1 ev = [] -> prune c2 ev = [].
Proof. intros H E. by rewrite <- (prune_absorb c1 c2 ev H), E. Qed.

(** Pruning drops only entries before the cutoff. *)
Lemma count_prune c a b ev :
  c <= a -> count_if (in_span a b) (prune c ev) = count_if (in_span a b) ev.
Proof.
  intros H. unfold prune. destruct (drop_while_suffix (fun t => time_before t c) ev)
    as (pre & Hl & Hp). rewrite Hl at 2. rewrite count_if_app, (count_if_none _ pre); [done|].
  eapply List.Forall_impl; [|exact Hp]. intros t. unfold_time. unfold in_span. cbn beta. lia.
Qed.

Lemma times_of_app k l1 l2 : times_of k (l1 ++ l2) = (times_of k l1 ++ times_of k l2)%list.
Proof. unfold times_of. by rewrite List.filter_app, map_app. Qed.

(** The state tracks the log of [k]: it holds at least the allowed events of
    the current window, and no window of the log is over the limit. *)
Record tracks (k : string) (t : Z) (log : list (string * Z)) (l : Limiter) : Prop := {
  tr_events : forall a b, t - l_window l <= a ->
    (allowed_in k a b log <= count_if (in_span a b) (events_of l k))%nat;
  tr_limit : forall a,
    Z.of_nat (allowed_in k a (a + l_window l) log) <= Z.max 0 (l_max l) }.

Lemma events_of_insert l k k' ev :
  events_of (set_windows l (<[k := ev]> (windows l))) k'
  = if decide (k = k') then ev else events_of l k'.
Proof.
  unfold events_of. cbn [windows set_windows]. rewrite lookup_insert. by case_decide.
Qed.

Lemma cleanup_events l now k : events_of (cleanupAt now l) k = prune (now - l_window l) (events_of l k).
Proof.
  unfold events_of, cleanupAt. cbn [windows set_windows]. rewrite lookup_omap.
  destruct (windows l !! k) as [ev|]; simpl; [|done]. by destruct (prune _ ev).
Qed.

Lemma step_params now c l ev l' :
  step now c l = (ev, l') -> l_max l' = l_max l /\ l_window l' = l_window l.
Proof.
  destruct c as [key|key|key|]; simpl.
  - unfold allowAt. destruct (_ <=? _); by intros [= <- <-].
  - unfold countAt. destruct (windows l !! key); by intros [= <- <-].
  - by intros [= <- <-].
  - by intros [= <- <-].
Qed.

(** Every step rewrites the events of a key to a pruned version of them, or
    forgets them, or appends the clock to the pruned ones and logs it. *)
Lemma step_events now c l evs l' k :
  step now c l = (evs, l') ->
  (evs = [] /\ (events_of l' k = events_of l k
                \/ events_of l' k = prune (now - l_window l) (events_of l k)
                \/ c = CReset k))
  \/ (c = CAllow k /\ evs = [(k, now)]
      /\ events_of l' k = (prune (now - l_window l) (events_of l k) ++ [now])%list
      /\ Z.of_nat (length (prune (now - l_window l) (events_of l k))) < l_max l)
  \/ (exists k', k <> k' /\ evs = [(k', now)] /\ events_of l' k = events_of l k).
Proof.
  destruct c as [key|key|key|]; simpl.
  - unfold allowAt. case_test; intros [= <- <-]; rewrite events_of_insert;
      destruct (decide (key = k)) as [Heq|Hne]; [subst; auto|auto|subst|].
    + right; left. auto.
    + right; right. exists key. auto.
  - unfold countAt. destruct (windows l !! key) as [ev|] eqn:E; intros [= <- <-]; [|auto].
    rewrite events_of_insert. case_decide; subst; auto. unfold events_of. rewrite E. auto.
  - intros [= <- <-]. left. split; [done|]. destruct (decide (key = k)) as [Heq|Hne]; [subst; auto|].
    left. unfold events_of, Reset. cbn [windows set_windows]. by rewrite lookup_delete_ne.
  - intros [= <- <-]. rewrite cleanup_events. auto.
Qed.

Lemma allowed_in_app k a b l1 l2 :
  allowed_in k a b (l1 ++ l2) = (allowed_in k a b l1 + allowed_in k a b l2)%nat.
Proof. unfold allowed_in. by rewrite times_of_app, count_if_app. Qed.

Lemma allowed_in_one k a b k' t :
  allowed_in k a b [(k', t)]
  = if (String.eqb k' k) && in_span a b t then 1%nat else 0%nat.
Proof.
  unfold allowed_in, times_of, count_if. simpl. destruct (String.eqb k' k); simpl; [|done].
  by destruct (in_span a b t).
Qed.

Lemma step_tracks k t now log c l evs l' :
  t <= now -> c <> CReset k -> step now c l = (evs, l') ->
  tracks k t log l -> tracks k now (log ++ evs) l'.
Proof.
  intros Ht Hc Hs [He Hl]. destruct (step_params _ _ _ _ _ Hs) as [Hmax Hwin].
  destruct (step_events _ _ _ _ _ k Hs)
    as [(-> & [Hev|[Hev|Hev]])|[(-> & -> & Hev & Hlen)|(k' & Hk & -> & Hev)]]; [..|].
  - split; rewrite app_nil_r, ?Hmax, Hwin, ?Hev; [|done]. intros a b Ha. apply He. lia.
  - split; rewrite app_nil_r, ?Hmax, Hwin, ?Hev; [|done]. intros a b Ha.
    rewrite count_prune by lia. apply He. lia.
  - done.
  - split; rewrite ?Hmax, Hwin, ?Hev; intros a; [intros b|]; [intros Ha|];
      rewrite allowed_in_app, allowed_in_one, String.eqb_refl; cbn [andb].
    + rewrite count_if_app, count_prune by lia. specialize (He a b ltac:(lia)).
      unfold count_if at 2. simpl. destruct (in_span a b now); simpl; lia.
    + destruct (in_span a _ now) eqn:Hin; [|specialize (Hl a); lia].
      unfold in_span in Hin. specialize (He a (a + l_window l) ltac:(lia)).
      rewrite <- (count_prune (now - l_window l)) in He by lia.
      pose proof (count_if_le (in_span a (a + l_window l))
                    (prune (now - l_window l) (events_of l k))). lia.
  - split; rewrite ?Hmax, Hwin, ?Hev; intros a; [intros b Ha|];
      rewrite allowed_in_app, allowed_in_one; rewrite (proj2 (String.eqb_neq k' k)) by done;
      cbn [andb]; rewrite Nat.add_0_r; [apply He; lia|apply Hl].
Qed.

Lemma steps_tracks k cs : forall t log l evs l',
  clock_ok t cs -> Forall (fun c => snd c <> CReset k) cs -> steps cs l = (evs, l') ->
  tracks k t log l -> exists t', tracks k t' (log ++ evs) l'.
Proof.
  induction cs as [|[now c] cs IH]; intros t log l evs l' Hclk Hnr Hs Htr; simpl in Hs.
  - injection Hs as <- <-. exists t. by rewrite app_nil_r.
  - destruct Hclk as [Ht Hclk]. apply list.Forall_cons in Hnr as [Hc Hnr].
    destruct (step now c l) as [ev1 l1] eqn:E1. destruct (steps cs l1) as [ev2 l2] eqn:E2.
    injection Hs as <- <-. rewrite app_assoc.
    eapply IH; [done..|]. by eapply step_tracks.
Qed.

Lemma steps_params cs : forall l evs l',
  steps cs l = (evs, l') -> l_max l' = l_max l /\ l_window l' = l_window l.
Proof.
  induction cs as [|[now c] cs IH]; intros l evs l' Hs; simpl in Hs; [by injection Hs as <- <-|].
  destruct (step now c l) as [ev1 l1] eqn:E1. destruct (steps cs l1) as [ev2 l2] eqn:E2.
  injection Hs as <- <-. apply step_params in E1 as [<- <-]. by eapply IH.
Qed.

Lemma tracks_init k t max w : tracks k t [] (NewLimiter max w).
Proof. split; intros; unfold allowed_in, count_if; simpl; lia. Qed.

(** The answer to a call on a state whose window of [k] is [ev]. *)
Lemma allow_again l k ev later :
  fst (fst (allowAt k later (set_windows l (<[k := ev]> (windows l)))))
  = negb (l_max l <=? Z.of_nat (length (prune (later - l_window l) ev))).
Proof.
  unfold allowAt. rewrite events_of_insert, decide_True by done.
  change (l_window (set_windows _ _)) with (l_window l).
  change (l_max (set_windows _ _)) with (l_max l). by destruct (_ <=? _).
Qed.

(** ** Theorems *)

(** The limit holds in every window: in any execution of [Allow], [Count]
    and [Cleanup] calls on a fresh limiter with a clock that does not go back,
    at most [max] events of a key are allowed in any interval of the window's
    length, closed at both ends, as long as the key is not [Reset]. *)
Lemma limit_per_window max w t0 cs k log l a :
  clock_ok t0 cs -> Forall (fun c => snd c <> CReset k) cs ->
  steps cs (NewLimiter max w) = (log, l) ->
  Z.of_nat (allowed_in k a (a + w) log) <= Z.max 0 max.
Proof.
  intros Hclk Hnr Hs.
  destruct (steps_tracks k cs t0 [] _ _ _ Hclk Hnr Hs (tracks_init k t0 max w)) as [t' [_ Hl]].
  destruct (steps_params _ _ _ _ Hs) as [Hm Hw]. specialize (Hl a). simpl in *. congruence.
Qed.

Definition demo_calls : list (Z * call) :=
  [(10, CAllow "u"); (11, CAllow "u"); (12, CAllow "u"); (20, CCleanup); (21, CAllow "u")].

Lemma limit_per_window_witness :
  Z.of_nat (allowed_in "u" 10 20 (fst (steps demo_calls (NewLimiter 2 10)))) <= Z.max 0 2
  /\ allowed_in "u" 10 20 (fst (steps demo_calls (NewLimiter 2 10))) = 2%nat.
Proof.
  split; [|reflexivity].
  apply (limit_per_window 2 10 0 demo_calls "u" _ (snd (steps demo_calls (NewLimiter 2 10))) 10).
  - simpl. lia.
  - repeat constructor; discriminate.
  - reflexivity.
Defined.

(** [Cleanup] is invisible: at any later clock, [Allow] and [Count] answer
    as if it had not run. *)
Lemma cleanup_transparent l now0 now k :
  now0 <= now ->
  fst (allowAt k now (cleanupAt now0 l)) = fst (allowAt k now l)
  /\ fst (countAt k now (cleanupAt now0 l)) = fst (countAt k now l).
Proof.
  intros Ht.
  assert (Hp : prune (now - l_window l) (events_of (cleanupAt now0 l) k)
               = prune (now - l_window l) (events_of l k))
    by (rewrite cleanup_events; apply prune_absorb; lia).
  assert (Hc : forall l' : Limiter, fst (countAt k now l')
               = Z.of_nat (length (prune (now - l_window l') (events_of l' k)))).
  { intros l'. unfold countAt, events_of. by destruct (windows l' !! k). }
  split.
  - unfold allowAt. change (l_window (cleanupAt now0 l)) with (l_window l).
    rewrite Hp. change (l_max (cleanupAt now0 l)) with (l_max l). by destruct (_ <=? _).
  - rewrite !Hc. change (l_window (cleanupAt now0 l)) with (l_window l). by rewrite Hp.
Qed.

Lemma cleanup_transparent_witness :
  fst (allowAt "u" 30 (cleanupAt 25 (snd (steps demo_calls (NewLimiter 2 10)))))
  = fst (allowAt "u" 30 (snd (steps demo_calls (NewLimiter 2 10)))).
Proof. apply cleanup_transparent. lia. Defined.

(** The retry-after hint: with room for one event at least, a denied call
    returns a non-negative wait, after which the window's oldest event has
    exactly the window's age; the key stays denied until strictly later than
    that instant, and any call strictly later, if nothing else was recorded,
    is allowed. *)
Lemma retry_hint l k now r l' :
  1 <= l_max l -> 0 <= l_window l ->
  Z.of_nat (length (events_of l k)) <= l_max l ->
  allowAt k now l = ((false, r), l') ->
  0 <= r
  /\ (forall later, now <= later <= now + r -> fst (fst (allowAt k later l')) = false)
  /\ (forall later, now + r < later -> fst (fst (allowAt k later l')) = true).
Proof.
  intros Hmax Hw Hlen Hcall.
  assert (Hsuf : exists pre, events_of l k = (pre ++ prune (now - l_window l) (events_of l k))%list)
    by (destruct (drop_while_suffix (fun t => time_before t (now - l_window l)) (events_of l k))
          as (pre & H & _); by exists pre).
  destruct Hsuf as [pre Hsuf].
  assert (Hhd : forall x l'', prune (now - l_window l) (events_of l k) = x :: l'' ->
                  now - l_window l <= x).
  { intros x l'' H. apply drop_while_head in H. revert H. unfold_time. lia. }
  set (ev := prune _ (events_of l k)) in *.
  rewrite Hsuf, length_app in Hlen.
  unfold allowAt in Hcall. fold ev in Hcall.
  case_test_in Hcall; [|done]. injection Hcall as <- <-.
  destruct ev as [|e ev'] eqn:Eev; [simpl in *; lia|].
  assert (He : now - l_window l <= e) by (by eapply Hhd).
  unfold retry_after. destruct (Z.ltb_spec (e + l_window l - now) 0); [lia|].
  split; [lia|].
  split; intros later Hlater; rewrite allow_again; unfold prune; simpl; unfold_time.
  - destruct (Z.ltb_spec e (later - l_window l)); [lia|].
    by rewrite (proj2 (Z.leb_le _ _)).
  - destruct (Z.ltb_spec e (later - l_window l)); [|lia].
    destruct (drop_while_suffix (fun t => time_before t (later - l_window l)) ev') as (p2 & H2 & _).
    apply (f_equal length) in H2. rewrite length_app in H2. unfold_time.
    apply negb_true_iff, Z.leb_gt. simpl in Hlen. lia.
Qed.

Lemma retry_hint_witness :
  fst (fst (allowAt "u" 20 (snd (allowAt "u" 12 (snd (steps (firstn 2 demo_calls) (NewLimiter 2 10)))))))
  = false.
Proof.
  refine (proj1 (proj2 (retry_hint (snd (steps (firstn 2 demo_calls) (NewLimiter 2 10)))
    "u" 12 8 (snd (allowAt "u" 12 (snd (steps (firstn 2 demo_calls) (NewLimiter 2 10)))))
    _ _ _ _)) 20 _).
  - vm_compute. discriminate.
  - vm_compute. discriminate.
  - vm_compute. discriminate.
  - reflexivity.
  - lia.
Defined.
