(* ===== verification/Registry.v ===== *)
(** * Delivery registry (internal/gateway/registry.go)

    A map from session keys to FIFO queues of [DeliveryEntry].  Every method
    runs under the mutex, so an execution is a sequence of operations.  The
    abstract specification is a queue per session ([queue_of]); the theorems
    show that [Register], [Lookup] and [Consume] implement it. *)
From Stdlib Require Import ZArith Lia Bool Ascii String List.
From stdpp Require Import base gmap strings option fin_maps list.
From S2P Require Import Prelude Models.

Local Open Scope Z_scope.

(** ** State and operations *)

Record DeliveryEntry := {
  de_Context : DeliveryContext;
  de_Meta : option ChannelMeta;
  de_InboundParts : list ContentPart;
  de_CreatedAt : Z }.

Record Registry := { r_entries : gmap string (list DeliveryEntry) }.

Definition NewRegistry : Registry := {| r_entries := ∅ |}.

(** Results of [Lookup] and [Consume]: the context, the meta and the inbound
    parts, or [None] when [found] is false. *)
Abbreviation delivery := (DeliveryContext * option ChannelMeta * list ContentPart)%type.

Definition entry_delivery (e : DeliveryEntry) : delivery :=
  (de_Context e, de_Meta e, de_InboundParts e).

Definition Register (sessionKey : string) (dc : DeliveryContext) (meta : option ChannelMeta)
    (inboundParts : list ContentPart) (now : Z) (r : Registry) : Registry :=
  let entry := {| de_Context := dc; de_Meta := meta; de_InboundParts := inboundParts;
                  de_CreatedAt := now |} in
  {| r_entries := <[sessionKey := (default [] (r_entries r !! sessionKey) ++ [entry])%list]>
                    (r_entries r) |}.

Definition Lookup (sessionKey : string) (r : Registry) : option delivery :=
  match default [] (r_entries r !! sessionKey) with
  | [] => None
  | e :: _ => Some (entry_delivery e)
  end.

Definition Consume (sessionKey : string) (r : Registry) : option delivery * Registry :=
  match default [] (r_entries r !! sessionKey) with
  | [] => (None, r)
  | e :: q =>
      let m := <[sessionKey := q]> (r_entries r) in
      let m := match q with [] => delete sessionKey m | _ => m end in
      (Some (entry_delivery e), {| r_entries := m |})
  end.

Definition Len (r : Registry) : nat := map_fold (fun _ q n => (length q + n)%nat) 0%nat (r_entries r).

Definition keep_fresh (cutoff : Z) (q : list DeliveryEntry) : list DeliveryEntry :=
  List.filter (fun e => negb (time_before (de_CreatedAt e) cutoff)) q.

Definition EvictOlderThan (cutoff : Z) (r : Registry) : nat * Registry :=
  let evicted := map_fold (fun _ q n => (length q - length (keep_fresh cutoff q) + n)%nat)
                   0%nat (r_entries r) in
  (evicted,
   {| r_entries := omap (fun q => match keep_fresh cutoff q with [] => None | keep => Some keep end)
                     (r_entries r) |}).

(** ** Abstract specification: one queue per session *)

Definition queue_of (r : Registry) (k : string) : list DeliveryEntry := default [] (r_entries r !! k).

(** No empty queue is stored. *)
Definition registry_wf (r : Registry) : Prop := forall k, r_entries r !! k <> Some [].

Inductive reg_op :=
| OpRegister (k : string) (dc : DeliveryContext) (meta : option ChannelMeta)
    (parts : list ContentPart) (now : Z)
| OpLookup (k : string)
| OpConsume (k : string)
| OpEvict (cutoff : Z).

Definition reg_step (o : reg_op) (r : Registry) : option (string * delivery) * Registry :=
  match o with
  | OpRegister k dc meta parts now => (None, Register k dc meta parts now r)
  | OpLookup _ => (None, r)
  | OpConsume k => let '(d, r') := Consume k r in ((fun x => (k, x)) <$> d, r')
  | OpEvict cutoff => (None, snd (EvictOlderThan cutoff r))
  end.

(** Runs operations; the log holds what [Consume] returned. *)
Fixpoint reg_run (os : list reg_op) (r : Registry) : list (string * delivery) * Registry :=
  match os with
  | [] => ([], r)
  | o :: os' =>
      let '(d, r') := reg_step o r in
      let '(log, r'') := reg_run os' r' in
      (match d with Some x => x :: log | None => log end, r'')
  end.

(** What the operations registered for a session, in order. *)
Definition registered (k : string) (os : list reg_op) : list delivery :=
  flat_map (fun o => match o with
    | OpRegister k' dc meta parts _ => if String.eqb k' k then [(dc, meta, parts)] else []
    | _ => []
    end) os.

Definition consumed (k : string) (log : list (string * delivery)) : list delivery :=
  flat_map (fun e => if String.eqb (fst e) k then [snd e] else []) log.

Definition no_evict (os : list reg_op) : bool :=
  forallb (fun o => match o with OpEvict _ => false | _ => true end) os.

(** ** Lemmas *)

Lemma queue_register k dc meta parts now r k' :
  queue_of (Register k dc meta parts now r) k'
  = if String.eqb k k' then (queue_of r k' ++ [Build_DeliveryEntry dc meta parts now])%list
    else queue_of r k'.
Proof.
  unfold queue_of, Register. cbn [r_entries]. case_test; subst.
  - by rewrite lookup_insert_eq.
  - by rewrite lookup_insert_ne.
Qed.

Lemma consume_spec k r :
  Consume k r = match queue_of r k with
                | [] => (None, r)
                | e :: _ => (Some (entry_delivery e), snd (Consume k r))
                end
  /\ forall k', queue_of (snd (Consume k r)) k'
                = if String.eqb k k' then tail (queue_of r k') else queue_of r k'.
Proof.
  unfold Consume. fold (queue_of r k). split; [by destruct (queue_of r k)|]. intros k'.
  case_test; subst.
  - destruct (queue_of r k') as [|e [|e' q]] eqn:E; simpl; [by rewrite E|..];
      unfold queue_of; cbn [r_entries]; by simplify_map_eq.
  - destruct (queue_of r k) as [|e [|e' q]] eqn:E; simpl; [done|..];
      unfold queue_of; cbn [r_entries]; by simplify_map_eq.
Qed.

Lemma lookup_spec k r : Lookup k r = entry_delivery <$> head (queue_of r k).
Proof. unfold Lookup. fold (queue_of r k). by destruct (queue_of r k). Qed.

Lemma queue_evict cutoff r k :
  queue_of (snd (EvictOlderThan cutoff r)) k = keep_fresh cutoff (queue_of r k).
Proof.
  unfold queue_of, EvictOlderThan. cbn [r_entries snd]. rewrite lookup_omap.
  destruct (r_entries r !! k) as [q|]; simpl; [|done]. by destruct (keep_fresh cutoff q).
Qed.

Lemma reg_step_wf o r : registry_wf r -> registry_wf (snd (reg_step o r)).
Proof.
  intros Hwf k. destruct o as [k' dc meta parts now|k'|k'|cutoff]; simpl; [..|].
  - destruct (decide (k' = k)) as [->|?]; simplify_map_eq; [|apply Hwf].
    by intros [= [_ ?]%app_eq_nil].
  - apply Hwf.
  - unfold Consume. destruct (default [] _) as [|e [|e' q]]; simpl; [apply Hwf|..];
      destruct (decide (k' = k)) as [->|?]; simplify_map_eq; auto.
  - rewrite lookup_omap. destruct (r_entries r !! k) as [q|]; simpl; [|done].
    by destruct (keep_fresh cutoff q).
Qed.

Lemma fifo_run os : forall r log r' k,
  no_evict os = true -> reg_run os r = (log, r') ->
  (map entry_delivery (queue_of r k) ++ registered k os)%list
  = (consumed k log ++ map entry_delivery (queue_of r' k))%list.
Proof.
  induction os as [|o os IH]; intros r log r' k Hne Hrun; simpl in Hrun.
  - injection Hrun as <- <-. simpl. by rewrite app_nil_r.
  - destruct (reg_step o r) as [d r1] eqn:E1. destruct (reg_run os r1) as [log1 r2] eqn:E2.
    injection Hrun as <- <-. simpl in Hne. apply andb_true_iff in Hne as [Ho Hne].
    specialize (IH _ _ _ k Hne E2). destruct o as [k' dc meta parts now|k'|k'|cutoff]; simpl in E1.
    + injection E1 as <- <-. rewrite queue_register in IH. cbn [registered flat_map].
      fold (registered k os). rewrite <- IH. case_test; [|done].
      by rewrite map_app, <- app_assoc.
    + by injection E1 as <- <-.
    + destruct (consume_spec k' r) as [Hc Hq]. rewrite Hc in E1. specialize (Hq k).
      destruct (queue_of r k') as [|e q] eqn:Eq; injection E1 as <- <-; [done|].
      rewrite Hq in IH. cbn [consumed flat_map fst snd]. fold (consumed k log1).
      destruct (String.eqb_spec k' k) as [->|Hne']; [|done].
      rewrite Eq in *. simpl in *. by rewrite IH.
    + done.
Qed.

(** [Len] counts the entries of all queues: setting one queue changes the
    total by the difference of the lengths. *)
Definition total (m : gmap string (list DeliveryEntry)) : nat :=
  map_fold (fun _ q n => (length q + n)%nat) 0%nat m.

Lemma total_insert_new m k q : m !! k = None -> total (<[k := q]> m) = (length q + total m)%nat.
Proof. intros H. unfold total. rewrite map_fold_insert_L; [done| |done]. intros; lia. Qed.

Lemma total_delete m k : total m = (length (default [] (m !! k)) + total (delete k m))%nat.
Proof.
  destruct (m !! k) as [q|] eqn:E; simpl; [|by rewrite delete_id].
  rewrite <- (insert_id m k q E) at 1. rewrite <- insert_delete_eq.
  apply total_insert_new, lookup_delete_eq.
Qed.

Lemma total_insert m k q :
  (total (<[k := q]> m) + length (default [] (m !! k)) = total m + length q)%nat.
Proof.
  rewrite (total_delete m k). rewrite <- insert_delete_eq.
  rewrite total_insert_new by apply lookup_delete_eq. lia.
Qed.

Lemma Len_register k dc meta parts now r : Len (Register k dc meta parts now r) = S (Len r).
Proof.
  unfold Len, Register. cbn [r_entries]. fold (total (r_entries r)).
  change (map_fold _ _ ?m) with (total m).
  pose proof (total_insert (r_entries r) k
    (default [] (r_entries r !! k) ++ [Build_DeliveryEntry dc meta parts now])) as H.
  rewrite length_app in H. simpl in H. lia.
Qed.

Lemma Len_consume k r :
  (Len (snd (Consume k r)) + (match fst (Consume k r) with Some _ => 1 | None => 0 end) = Len r)%nat.
Proof.
  unfold Len, Consume. destruct (default [] (r_entries r !! k)) as [|e q] eqn:E; simpl; [lia|].
  change (map_fold _ _ ?m) with (total m).
  pose proof (total_delete (r_entries r) k) as Hd. rewrite E in Hd. simpl in Hd.
  destruct q as [|e' q].
  - rewrite delete_insert_eq. simpl in Hd. lia.
  - pose proof (total_insert (r_entries r) k (e' :: q)) as Hi. rewrite E in Hi. simpl in *. lia.
Qed.

(** ** Theorems *)

(** First in, first out: for every session, over any sequence of
    registrations, lookups and consumptions, the deliveries consumed are, in
    order, the first ones of those pending at the start followed by those
    registered since, and what is left is the rest. *)
Lemma registry_fifo os r log r' k :
  no_evict os = true -> reg_run os r = (log, r') ->
  (map entry_delivery (queue_of r k) ++ registered k os)%list
  = (consumed k log ++ map entry_delivery (queue_of r' k))%list.
Proof. apply fifo_run. Qed.

Definition dc_demo (id : string) : DeliveryContext :=
  Build_DeliveryContext "mqtt" id "direct" "" [] no_capabilities.

Definition demo_ops : list reg_op :=
  [OpRegister "s" (dc_demo "a") None [] 1; OpRegister "t" (dc_demo "x") None [] 2;
   OpRegister "s" (dc_demo "b") None [] 3; OpLookup "s"; OpConsume "s"].

Lemma registry_fifo_witness :
  registered "s" demo_ops
  = (consumed "s" (fst (reg_run demo_ops NewRegistry))
     ++ map entry_delivery (queue_of (snd (reg_run demo_ops NewRegistry)) "s"))%list
  /\ consumed "s" (fst (reg_run demo_ops NewRegistry)) = [(dc_demo "a", None, [])].
Proof.
  split; [|reflexivity].
  apply (registry_fifo demo_ops NewRegistry _ _ "s"); [reflexivity|].
  by destruct (reg_run demo_ops NewRegistry).
Defined.
