(* ===== verification/Dedup.v ===== *)
(** * Deduplication (internal/gateway/dedup.go)

    [Deduplicator] maps keys to the instant their entry expires.
    [IsDuplicate] reads the clock twice, to test an entry ([t1]) and to set a
    new one ([t2]); the eviction loop runs [evictExpired] every 30 seconds, at
    any point between calls. *)
From Stdlib Require Import ZArith Lia Bool Ascii String List.
From stdpp Require Import base gmap strings option fin_maps list.
From S2P Require Import Prelude GoString.

Local Open Scope Z_scope.

(** ** State and operations *)

Abbreviation DeduplicationStrategy := string.
Definition DeduplicationByMessageID : DeduplicationStrategy := "message-id".
Definition DeduplicationByPrompt : DeduplicationStrategy := "prompt".
Definition DeduplicationNone : DeduplicationStrategy := "none".

Record Deduplicator := {
  dd_entries : gmap string Z;   (* key -> expiresAt *)
  dd_window : Z }.

Definition NewDeduplicator (defaultWindow : Z) : Deduplicator :=
  {| dd_entries := ∅; dd_window := defaultWindow |}.

Definition buildKey (userID : string) (strategy : DeduplicationStrategy) (rawKey : string) : string :=
  userID +:+ ":" +:+ strategy +:+ ":" +:+ rawKey.

Definition is_dup_key (key : string) (t1 t2 : Z) (d : Deduplicator) : bool * Deduplicator :=
  let fresh m := (false, {| dd_entries := <[key := t2 + dd_window d]> m; dd_window := dd_window d |}) in
  match dd_entries d !! key with
  | Some expiresAt =>
      if time_before t1 expiresAt then (true, d)
      else fresh (delete key (dd_entries d))
  | None => fresh (dd_entries d)
  end.

Definition IsDuplicate (userID : string) (strategy : DeduplicationStrategy) (rawKey : string)
    (t1 t2 : Z) (d : Deduplicator) : bool * Deduplicator :=
  if (strategy =? DeduplicationNone)%string || (rawKey =? "")%string then (false, d)
  else is_dup_key (buildKey userID strategy rawKey) t1 t2 d.

Definition dedup_Len (d : Deduplicator) : nat := size (dd_entries d).

Definition evictExpired (now : Z) (d : Deduplicator) : Deduplicator :=
  {| dd_entries := omap (fun e => if time_after now e then None else Some e) (dd_entries d);
     dd_window := dd_window d |}.

(** ** Executions *)

Inductive dd_op :=
| DCheck (userID strategy rawKey : string) (t1 t2 : Z)
| DEvict (now : Z).

Definition dd_step (o : dd_op) (d : Deduplicator) : option bool * Deduplicator :=
  match o with
  | DCheck u s k t1 t2 => let '(b, d') := IsDuplicate u s k t1 t2 d in (Some b, d')
  | DEvict now => (None, evictExpired now d)
  end.

Fixpoint dd_run (os : list dd_op) (d : Deduplicator) : list (dd_op * option bool) * Deduplicator :=
  match os with
  | [] => ([], d)
  | o :: os' =>
      let '(b, d') := dd_step o d in
      let '(log, d'') := dd_run os' d' in
      ((o, b) :: log, d'')
  end.

Definition op_start (o : dd_op) : Z := match o with DCheck _ _ _ t1 _ => t1 | DEvict now => now end.
Definition op_end (o : dd_op) : Z := match o with DCheck _ _ _ _ t2 => t2 | DEvict now => now end.

(** The clock read by successive calls does not go back. *)
Fixpoint dd_clock (t0 : Z) (os : list dd_op) : Prop :=
  match os with
  | [] => True
  | o :: os' => t0 <= op_start o /\ op_start o <= op_end o /\ dd_clock (op_end o) os'
  end.

(** The instants at which a raw key of a user was accepted (not a duplicate). *)
Definition accepted (key : string) (log : list (dd_op * option bool)) : list Z :=
  flat_map (fun e => match e with
    | (DCheck u s k _ t2, Some false) =>
        if negb ((s =? DeduplicationNone)%string || (k =? "")%string)
           && (buildKey u s k =? key)%string then [t2] else []
    | _ => []
    end) log.

(** Successive accepted instants are at least a window apart. *)
Fixpoint spaced (w : Z) (last : option Z) (ts : list Z) : Prop :=
  match ts with
  | [] => True
  | t :: ts' => match last with Some l => l + w <= t | None => True end /\ spaced w (Some t) ts'
  end.

(** ** Lemmas *)

Lemma buildKey_inj u s k u' s' k' :
  lacks ":" u = true -> lacks ":" u' = true -> lacks ":" s = true -> lacks ":" s' = true ->
  buildKey u s k = buildKey u' s' k' -> u = u' /\ s = s' /\ k = k'.
Proof.
  intros Hu Hu' Hs Hs' H. unfold buildKey in H. cbn [String.append] in H.
  apply field_inj in H as [<- H]; [|done..]. by apply field_inj in H as [<- <-].
Qed.

(** [last] is the last accepted instant of [key]: its entry is in the map
    until the window has passed. *)
Definition remembers (key : string) (t : Z) (last : option Z) (d : Deduplicator) : Prop :=
  match last with
  | Some l => dd_entries d !! key = Some (l + dd_window d) \/ l + dd_window d <= t
  | None => True
  end.

Lemma is_dup_other key key' t1 t2 d :
  key <> key' ->
  dd_entries (snd (is_dup_key key t1 t2 d)) !! key' = dd_entries d !! key'.
Proof.
  intros H. unfold is_dup_key. destruct (dd_entries d !! key) as [e|]; [destruct (time_before _ _)|];
    cbn [snd dd_entries]; by simplify_map_eq.
Qed.

Lemma is_dup_window key t1 t2 d : dd_window (snd (is_dup_key key t1 t2 d)) = dd_window d.
Proof. unfold is_dup_key. by destruct (dd_entries d !! key); [destruct (time_before _ _)|]. Qed.

Lemma is_dup_self key t1 t2 d last :
  t1 <= t2 -> remembers key t1 last d ->
  match is_dup_key key t1 t2 d with
  | (true, d') => d' = d
  | (false, d') => (match last with Some l => l + dd_window d <= t2 | None => True end)
                   /\ dd_entries d' !! key = Some (t2 + dd_window d)
  end.
Proof.
  intros Ht Hr. unfold is_dup_key, remembers in *. unfold_time.
  destruct (dd_entries d !! key) as [e|] eqn:E.
  - case_test; [done|]. cbn [dd_entries]. split; [|by rewrite lookup_insert_eq].
    destruct last; [|done]. destruct Hr as [[= ->]|?]; lia.
  - cbn [dd_entries]. split; [|by rewrite lookup_insert_eq]. destruct last; [|done].
    destruct Hr as [?|?]; [done|lia].
Qed.

Lemma remembers_le key t t' last d : t <= t' -> remembers key t last d -> remembers key t' last d.
Proof. unfold remembers. destruct last; [|done]. intros ? [?|?]; [auto|right; lia]. Qed.

Lemma remembers_evict key t now last d :
  t <= now -> remembers key t last d -> remembers key now last (evictExpired now d).
Proof.
  unfold remembers, evictExpired. destruct last as [l|]; [|done]. cbn [dd_entries dd_window].
  intros Ht [Hin|Hpast]; [|right; lia]. rewrite lookup_omap, Hin. simpl. unfold_time.
  case_test; [right; lia|by left].
Qed.

Lemma dd_run_spaced key os : forall t d log d' last,
  dd_clock t os -> dd_run os d = (log, d') -> remembers key t last d ->
  spaced (dd_window d) last (accepted key log).
Proof.
  induction os as [|o os IH]; intros t d log d' last Hclk Hrun Hr; simpl in Hrun.
  - by injection Hrun as <- <-.
  - destruct (dd_step o d) as [b d1] eqn:E1. destruct (dd_run os d1) as [log1 d2] eqn:E2.
    injection Hrun as <- <-. destruct Hclk as (Hs & Hse & Hclk).
    destruct o as [u s k t1 t2|now]; simpl in *.
    + unfold IsDuplicate in E1.
      destruct ((s =? DeduplicationNone)%string || (k =? "")%string); simpl.
      { injection E1 as <- <-. eapply IH; [done..|]. eapply remembers_le; [|done]. lia. }
      pose proof (is_dup_window (buildKey u s k) t1 t2 d) as Hw.
      destruct (String.eqb_spec (buildKey u s k) key) as [Heq|Hne].
      * subst key. pose proof (is_dup_self _ t1 t2 d last Hse (remembers_le _ _ _ _ _ Hs Hr)) as Hself.
        destruct (is_dup_key _ t1 t2 d) as [[|] d3] eqn:E; simpl in *; injection E1 as <- <-; simpl.
        -- subst d3. eapply IH; [done..|]. eapply remembers_le; [|done]. lia.
        -- destruct Hself as [Hl Hin]. split; [done|]. rewrite <- Hw.
           eapply IH; [done..|]. left. by rewrite Hw.
      * pose proof (is_dup_other _ key t1 t2 d Hne) as Hoth.
        destruct (is_dup_key (buildKey u s k) t1 t2 d) as [b' d3] eqn:E; simpl in *.
        injection E1 as <- <-.
        assert (Hsp : spaced (dd_window d) last (accepted key log1)).
        { rewrite <- Hw. eapply IH; [done..|]. eapply (remembers_le _ t); [lia|].
          unfold remembers in *. by rewrite Hoth, Hw. }
        by destruct b'.
    + injection E1 as <- <-. change (spaced (dd_window (evictExpired now d)) last (accepted key log1)).
      eapply IH; [exact Hclk|exact E2|]. by apply (remembers_evict key t).
Qed.

(** ** Theorems *)

(** At most one acceptance per window: in any interleaving of duplicate
    checks and evictions under a clock that does not go back, two acceptances
    of the same key are at least the deduplication window apart. *)
Lemma accepted_spaced key t0 os w log d :
  dd_clock t0 os -> dd_run os (NewDeduplicator w) = (log, d) ->
  spaced w None (accepted key log).
Proof. intros Hclk Hrun. by eapply (dd_run_spaced key os t0 (NewDeduplicator w)). Qed.

Definition demo_checks : list dd_op :=
  [DCheck "u" "message-id" "m1" 1 2; DCheck "u" "message-id" "m1" 5 5;
   DCheck "u" "prompt" "m1" 6 6; DEvict 40; DCheck "u" "message-id" "m1" 41 41].

Lemma accepted_spaced_witness :
  spaced 30 None (accepted "u:message-id:m1" (fst (dd_run demo_checks (NewDeduplicator 30))))
  /\ accepted "u:message-id:m1" (fst (dd_run demo_checks (NewDeduplicator 30))) = [2; 41].
Proof.
  split; [|reflexivity].
  apply (accepted_spaced _ 0 demo_checks 30 _ (snd (dd_run demo_checks (NewDeduplicator 30)))).
  - simpl. lia.
  - reflexivity.
Defined.

(** Different messages do not suppress each other: checking one
    (user, strategy, raw key) leaves the entry of any other one unchanged,
    when users and strategies have no colon (every generated user id and every
    strategy constant). *)
Lemma dedup_independent u s k u' s' k' t1 t2 d :
  lacks ":" u = true -> lacks ":" u' = true -> lacks ":" s = true -> lacks ":" s' = true ->
  (u, s, k) <> (u', s', k') ->
  dd_entries (snd (IsDuplicate u s k t1 t2 d)) !! buildKey u' s' k' = dd_entries d !! buildKey u' s' k'.
Proof.
  intros Hu Hu' Hs Hs' Hne. unfold IsDuplicate. destruct (_ || _); [done|].
  apply is_dup_other. intros (-> & -> & ->)%buildKey_inj; auto.
Qed.

Lemma dedup_independent_witness :
  dd_entries (snd (IsDuplicate "u" "prompt" "h" 1 1 (NewDeduplicator 30))) !! buildKey "v" "prompt" "h"
  = None.
Proof. apply (dedup_independent "u" "prompt" "h" "v" "prompt" "h"); done. Defined.
