(* ===== verification/Repo.v ===== *)
(** * The repository interface (internal/datastore/interface.go)

    [Repository] is the interface the gateway's components are written
    against: the operations they call, each at a clock value [now], on a state
    the implementation chooses.  Reads may change the state too (a cache does).
    The SQLite store (file Sqlite) and the caching wrapper (file Cache) are
    instances. *)
From Stdlib Require Import ZArith Bool Ascii String List.
From stdpp Require Import base strings option list.
From S2P Require Import Prelude GoString Models.

(** Errors are opaque texts: no caller inspects them. *)
Abbreviation repo_error := string.

Class Repository (S : Type) := {
  IsUserEnabled : Z -> string -> S -> result repo_error bool * S;
  ResolveIdentity : Z -> string -> string -> S -> result repo_error string * S;
  AddIdentity : Z -> string -> string -> string -> S -> result repo_error unit * S;
  RemoveIdentity : Z -> Z -> S -> result repo_error unit * S;
  IsAllowed : Z -> string -> string -> S -> result repo_error bool * S;
  SetAllowed : Z -> string -> string -> bool -> string -> S -> result repo_error unit * S;
  RemoveAllowed : Z -> string -> string -> S -> result repo_error unit * S;
  DeleteUser : Z -> string -> S -> result repo_error unit * S;
  ListUsers : Z -> S -> result repo_error (list User) * S;
  ListAgents : Z -> string -> S -> result repo_error (list Agent) * S;
  LogAdminAction : Z -> AdminAuditEntry -> S -> result repo_error unit * S }.

(** ** What an implementation promises

    The access view of a state: who is enabled, who may use which channel, who
    owns an identity (the empty string when nobody does).  Two views are
    equivalent when they answer alike about users and channels whose names have
    no colon (generated user ids and channel types have none; the caching
    implementation builds its keys with colons). *)
Record access_view := {
  v_enabled : string -> bool;
  v_allowed : string -> string -> bool;
  v_owner : string -> string -> string }.

Definition plain (s : string) : Prop := lacks ":" s = true.

Definition view_eq (a b : access_view) : Prop :=
  (forall u, v_enabled a u = v_enabled b u)
  /\ (forall u c, plain u -> v_allowed a u c = v_allowed b u c)
  /\ (forall c i, plain c -> v_owner a c i = v_owner b c i).

#[export] Instance view_eq_equivalence : Equivalence view_eq.
Proof.
  split.
  - by intros a.
  - intros a b (H1 & H2 & H3). split; [|split]; intros; symmetry; auto.
  - intros a b c (H1 & H2 & H3) (G1 & G2 & G3).
    split; [|split]; intros; [by rewrite H1|by rewrite H2, G2|by rewrite H3, G3].
Qed.

(** An implementation's reads answer by the view of the state at the clock
    value of the call, without changing it; so does writing an audit entry. *)
Class RepositorySpec (S : Type) `{Repository S} := {
  repo_ok : S -> Prop;
  view : Z -> S -> access_view;
  spec_enabled : forall now u st, repo_ok st -> exists st',
    IsUserEnabled now u st = (Ok (v_enabled (view now st) u), st')
    /\ repo_ok st' /\ view_eq (view now st') (view now st);
  spec_allowed : forall now u c st, repo_ok st -> plain u -> exists st',
    IsAllowed now u c st = (Ok (v_allowed (view now st) u c), st')
    /\ repo_ok st' /\ view_eq (view now st') (view now st);
  spec_resolve : forall now c i st, repo_ok st -> plain c -> exists st',
    ResolveIdentity now c i st = (Ok (v_owner (view now st) c i), st')
    /\ repo_ok st' /\ view_eq (view now st') (view now st);
  spec_audit : forall now e st, repo_ok st ->
    repo_ok (snd (LogAdminAction now e st))
    /\ view_eq (view now (snd (LogAdminAction now e st))) (view now st) }.
