(* ===== verification/Guard.v ===== *)
(** * Allowlist guard (internal/allowlist/guard.go)

    [Guard.Check] against any repository.  Logging is not modelled; the audit
    entry is, since it is written through the repository. *)
From Stdlib Require Import ZArith Lia Bool Ascii String List.
From stdpp Require Import base strings option list.
From S2P Require Import Prelude GoString GoJson Models Repo.

Local Open Scope string_scope.

Inductive RejectionReason :=
| RejectionUnknownIdentity
| RejectionUserDisabled
| RejectionNotInAllowlist.

Definition reason_text (r : RejectionReason) : string :=
  match r with
  | RejectionUnknownIdentity => "unknown_identity"
  | RejectionUserDisabled => "user_disabled"
  | RejectionNotInAllowlist => "not_in_allowlist"
  end.

(** The errors of [Check], with the call that failed. *)
Inductive guard_error :=
| ErrIsUserEnabled (e : repo_error)
| ErrIsAllowed (channel : string) (e : repo_error).

Section guard.
Context {S : Type} `{Repository S}.

(** The entry [writeRejection] logs. *)
Definition rejection_entry (now : Z) (reason : RejectionReason) (channelType userID : string)
    : AdminAuditEntry :=
  let details := json_map [("channel_identity", "[REDACTED]"); ("channel_type", channelType);
                           ("reason", reason_text reason)] in
  {| aa_ID := 0; aa_Timestamp := now; aa_Action := "message.rejected"; aa_Actor := "system";
     aa_TargetUserID := userID; aa_Details := details; aa_IPAddress := "" |}.

(** A failure to write the entry is logged and dropped. *)
Definition writeRejection (now : Z) (reason : RejectionReason)
    (channelType channelIdentity userID : string) (st : S) : S :=
  snd (LogAdminAction now (rejection_entry now reason channelType userID) st).

Definition Check (now : Z) (userID channelType channelIdentity : string) (st : S)
    : result guard_error bool * S :=
  if (userID =? "")%string then
    (Ok false, writeRejection now RejectionUnknownIdentity channelType channelIdentity "" st)
  else
    match IsUserEnabled now userID st with
    | (Err e, st) => (Err (ErrIsUserEnabled e), st)
    | (Ok false, st) =>
        (Ok false, writeRejection now RejectionUserDisabled channelType channelIdentity userID st)
    | (Ok true, st) =>
        match IsAllowed now userID channelType st with
        | (Err e, st) => (Err (ErrIsAllowed channelType e), st)
        | (Ok true, st) => (Ok true, st)
        | (Ok false, st) =>
            match IsAllowed now userID "*" st with
            | (Err e, st) => (Err (ErrIsAllowed "*" e), st)
            | (Ok true, st) => (Ok true, st)
            | (Ok false, st) =>
                (Ok false, writeRejection now RejectionNotInAllowlist channelType
                             channelIdentity userID st)
            end
        end
    end.

(** ** Theorems *)

Lemma check_identity_irrelevant now u ct id1 id2 st :
  Check now u ct id1 st = Check now u ct id2 st.
Proof. reflexivity. Qed.

(** Fail closed: the guard answers yes only for a known user the
    repository reports enabled and allowed, on the channel or by the wildcard,
    and then writes no audit entry; every refusal is a rejection it audits
    exactly once, or an error of the repository that writes none. *)
Lemma check_fails_closed now u ct ident st :
  match Check now u ct ident st with
  | (Ok true, st') =>
      u <> "" /\ exists st1 st2,
        IsUserEnabled now u st = (Ok true, st1)
        /\ (IsAllowed now u ct st1 = (Ok true, st')
            \/ IsAllowed now u ct st1 = (Ok false, st2)
               /\ IsAllowed now u "*" st2 = (Ok true, st'))
  | (Ok false, st') =>
      exists reason st0, st' = snd (LogAdminAction now (rejection_entry now reason ct u) st0)
        /\ (reason = RejectionUnknownIdentity <-> u = "")
  | (Err (ErrIsUserEnabled e), st') => IsUserEnabled now u st = (Err e, st')
  | (Err (ErrIsAllowed _ e), st') =>
      exists st0 c, (c = ct \/ c = "*") /\ IsAllowed now u c st0 = (Err e, st')
  end.
Proof.
  unfold Check, writeRejection. destruct (String.eqb_spec u "") as [->|Hu].
  { exists RejectionUnknownIdentity, st. done. }
  destruct (IsUserEnabled now u st) as [[[|]|e] st1] eqn:E1; [| |done].
  2: { exists RejectionUserDisabled, st1. done. }
  destruct (IsAllowed now u ct st1) as [[[|]|e] st2] eqn:E2.
  - split; [done|]. exists st1, st2. auto.
  - destruct (IsAllowed now u "*" st2) as [[[|]|e] st3] eqn:E3.
    + split; [done|]. exists st1, st2. auto.
    + exists RejectionNotInAllowlist, st3. done.
    + exists st2, "*". auto.
  - exists st1, ct. auto.
Qed.

(** Against an implementation that keeps its promise. *)
Context `{!RepositorySpec S}.

Definition access_granted (v : access_view) (u ct : string) : bool :=
  negb (u =? "")%string && v_enabled v u && (v_allowed v u ct || v_allowed v u "*").

(** The guard decides access: on any repository that answers by an access
    view, [Check] never fails, says yes exactly when the user is known, enabled,
    and allowed on the channel or by the wildcard entry, and leaves the view as
    it was. *)
Lemma check_decides now u ct ident st :
  repo_ok st -> plain u -> exists st',
    Check now u ct ident st = (Ok (access_granted (view now st) u ct), st')
    /\ repo_ok st' /\ view_eq (view now st') (view now st).
Proof.
  intros Hok Hp. unfold Check, access_granted, writeRejection.
  destruct (String.eqb_spec u "") as [->|Hu]; simpl.
  { eexists. split; [done|]. by apply spec_audit. }
  destruct (spec_enabled now u st Hok) as (st1 & -> & Hok1 & Hv1).
  destruct (v_enabled (view now st) u); simpl.
  2: { eexists. split; [done|]. destruct (spec_audit now
         (rejection_entry now RejectionUserDisabled ct u) st1 Hok1). split; [done|]. by etrans. }
  destruct (spec_allowed now u ct st1 Hok1 Hp) as (st2 & -> & Hok2 & Hv2).
  rewrite (proj1 (proj2 Hv1) u ct Hp).
  destruct (v_allowed (view now st) u ct); simpl; [exists st2; split; [done|split; [done|by etrans]]|].
  destruct (spec_allowed now u "*" st2 Hok2 Hp) as (st3 & -> & Hok3 & Hv3).
  rewrite (proj1 (proj2 Hv2) u _ Hp), (proj1 (proj2 Hv1) u _ Hp).
  destruct (v_allowed (view now st) u "*"); simpl;
    [exists st3; split; [done|split; [done|by etrans; [|etrans]]]|].
  eexists. split; [done|]. destruct (spec_audit now
    (rejection_entry now RejectionNotInAllowlist ct u) st3 Hok3). split; [done|].
  by do 3 (etrans; [|done]).
Qed.
End guard.
