(* ===== verification/Sqlite.v ===== *)
(** * The SQLite store (internal/datastore/sqlite)

    The tables are lists of rows in insertion (rowid) order, and every method
    is the effect of its SQL statement on them: UNIQUE and PRIMARY KEY
    conflicts, [ON CONFLICT] clauses, foreign keys (switched on by [Open]) with
    their [ON DELETE CASCADE], [ORDER BY] on the stored texts.  Timestamps are
    stored as RFC3339Nano text ([format_nano], file GoTime) and read back
    ([parse_or_zero]); preference and policy blobs are stored as decoded values.
    I/O failures of the database are not modelled: errors are the ones the
    statements themselves raise. *)
From Stdlib Require Import ZArith Lia Bool Ascii String List.
From stdpp Require Import base strings option list.
From S2P Require Import Prelude GoString GoTime Models Repo.

Local Open Scope string_scope.

(** ** Rows *)

Record user_row := {
  ur_id : string; ur_name : string; ur_enabled : bool; ur_model : string;
  ur_created : string; ur_updated : string; ur_prefs : list (string * jsonv) }.

Record identity_row := {
  ir_id : Z; ir_user : string; ir_channel : string; ir_identity : string;
  ir_verified : bool; ir_created : string }.

Record allowed_row := {
  al_id : Z; al_user : string; al_channel : string; al_enabled : bool;
  al_created : string; al_by : string }.

Record agent_row := {
  gr_id : string; gr_user : string; gr_label : string; gr_hash : string; gr_prefix : string;
  gr_rmq : option string; gr_status : string; gr_last_at : option string;
  gr_last_ip : option string; gr_created : string; gr_updated : string }.

(** config.CronJob and config.AtJob; [jb_when] is the schedule or run_at. *)
Record job := {
  jb_ID : string; jb_UserID : string; jb_when : string; jb_Prompt : string;
  jb_NotifyChannels : list string }.

(** The policy's data is stored decoded, the instants as text. *)
Record policy_row := {
  pr_id : Z; pr_user : string; pr_type : string; pr_data : PolicyData;
  pr_created : string; pr_updated : string }.

Record audit_row := {
  au_id : Z; au_timestamp : string; au_action : string; au_actor : string;
  au_target : string; au_details : string; au_ip : string }.

Record Db := {
  t_users : list user_row;
  t_identities : list identity_row; seq_identities : Z;
  t_allowed : list allowed_row; seq_allowed : Z;
  t_agents : list agent_row;
  t_cron : list job;
  t_at : list job;
  t_audit : list audit_row; seq_audit : Z;
  t_policies : list policy_row; seq_policies : Z }.

Definition empty_db : Db := Build_Db [] [] 1 [] 1 [] [] [] [] 1 [] 1.

Definition set_users (f : list user_row -> list user_row) (d : Db) : Db :=
  Build_Db (f (t_users d)) (t_identities d) (seq_identities d) (t_allowed d) (seq_allowed d)
    (t_agents d) (t_cron d) (t_at d) (t_audit d) (seq_audit d)
    (t_policies d) (seq_policies d).
Definition set_agents (f : list agent_row -> list agent_row) (d : Db) : Db :=
  Build_Db (t_users d) (t_identities d) (seq_identities d) (t_allowed d) (seq_allowed d)
    (f (t_agents d)) (t_cron d) (t_at d) (t_audit d) (seq_audit d)
    (t_policies d) (seq_policies d).
Definition set_cron (f : list job -> list job) (d : Db) : Db :=
  Build_Db (t_users d) (t_identities d) (seq_identities d) (t_allowed d) (seq_allowed d)
    (t_agents d) (f (t_cron d)) (t_at d) (t_audit d) (seq_audit d)
    (t_policies d) (seq_policies d).
Definition set_at (f : list job -> list job) (d : Db) : Db :=
  Build_Db (t_users d) (t_identities d) (seq_identities d) (t_allowed d) (seq_allowed d)
    (t_agents d) (t_cron d) (f (t_at d)) (t_audit d) (seq_audit d)
    (t_policies d) (seq_policies d).
Definition set_identities (f : list identity_row -> list identity_row) (seq : Z) (d : Db) : Db :=
  Build_Db (t_users d) (f (t_identities d)) seq (t_allowed d) (seq_allowed d)
    (t_agents d) (t_cron d) (t_at d) (t_audit d) (seq_audit d)
    (t_policies d) (seq_policies d).
Definition set_allowed (f : list allowed_row -> list allowed_row) (seq : Z) (d : Db) : Db :=
  Build_Db (t_users d) (t_identities d) (seq_identities d) (f (t_allowed d)) seq
    (t_agents d) (t_cron d) (t_at d) (t_audit d) (seq_audit d)
    (t_policies d) (seq_policies d).

Definition set_policies (f : list policy_row -> list policy_row) (seq : Z) (d : Db) : Db :=
  Build_Db (t_users d) (t_identities d) (seq_identities d) (t_allowed d) (seq_allowed d)
    (t_agents d) (t_cron d) (t_at d) (t_audit d) (seq_audit d) (f (t_policies d)) seq.
Definition set_audit (f : list audit_row -> list audit_row) (seq : Z) (d : Db) : Db :=
  Build_Db (t_users d) (t_identities d) (seq_identities d) (t_allowed d) (seq_allowed d)
    (t_agents d) (t_cron d) (t_at d) (f (t_audit d)) seq (t_policies d) (seq_policies d).

(** [REFERENCES users(id)]. *)
Definition has_user (u : string) (d : Db) : bool :=
  existsb (fun r => (ur_id r =? u)%string) (t_users d).

(** [ORDER BY key]: rows sorted by the bytes of a text column, rowid order for
    equal ones. *)
Fixpoint insert_by {A} (key : A -> string) (x : A) (l : list A) : list A :=
  match l with
  | [] => [x]
  | y :: l' => match String.compare (key x) (key y) with
               | Gt => y :: insert_by key x l'
               | _ => x :: y :: l'
               end
  end.

Definition order_by {A} (key : A -> string) (l : list A) : list A :=
  fold_right (insert_by key) [] l.

Section sqlite.

(** ** users.go *)

Definition scanUser (r : user_row) : User := {|
  us_ID := ur_id r; us_Name := ur_name r; us_Enabled := ur_enabled r;
  us_DefaultModel := ur_model r; us_CreatedAt := parse_or_zero (ur_created r);
  us_UpdatedAt := parse_or_zero (ur_updated r); us_Preferences := ur_prefs r |}.

Definition GetUser (userID : string) (d : Db) : result repo_error User :=
  match List.find (fun r => (ur_id r =? userID)%string) (t_users d) with
  | Some r => Ok (scanUser r)
  | None => Err "user not found"
  end.

(** [newID] is the identifier [models.GenerateUserID] draws. *)
Definition CreateUser (now : Z) (newID name defaultModel : string)
    (prefs : list (string * jsonv)) (d : Db) : result repo_error User * Db :=
  if (name =? "")%string then (Err "user name is required", d)
  else
    let model := if (defaultModel =? "")%string then "claude-sonnet-4-20250514" else defaultModel in
    let ts := format_nano now in
    if has_user newID d then (Err "create user: UNIQUE constraint failed", d)
    else
      let d := set_users (fun t => t ++ [Build_user_row newID name true model ts ts prefs])%list d in
      (GetUser newID d, d).

Record UpdateUserRequest := {
  uu_Name : option string; uu_DefaultModel : option string; uu_Enabled : option bool;
  uu_Preferences : option (list (string * jsonv)) }.

Definition UpdateUser (now : Z) (userID : string) (updates : UpdateUserRequest) (d : Db)
    : result repo_error User * Db :=
  match GetUser userID d with
  | Err e => (Err e, d)
  | Ok user =>
      let name := default (us_Name user) (uu_Name updates) in
      let model := default (us_DefaultModel user) (uu_DefaultModel updates) in
      let enabled := default (us_Enabled user) (uu_Enabled updates) in
      let prefs := default (us_Preferences user) (uu_Preferences updates) in
      let ts := format_nano now in
      (Ok {| us_ID := us_ID user; us_Name := name; us_Enabled := enabled; us_DefaultModel := model;
             us_CreatedAt := us_CreatedAt user; us_UpdatedAt := parse_or_zero ts;
             us_Preferences := prefs |},
       set_users (map (fun r =>
         if (ur_id r =? userID)%string
         then Build_user_row (ur_id r) name enabled model (ur_created r) ts prefs
         else r)) d)
  end.

(** Deleting a user deletes the rows that reference it. *)
Definition sql_DeleteUser (userID : string) (d : Db) : result repo_error unit * Db :=
  if has_user userID d then
    (Ok tt,
     {| t_users := List.filter (fun r => negb (ur_id r =? userID)%string) (t_users d);
        t_identities := List.filter (fun r => negb (ir_user r =? userID)%string) (t_identities d);
        seq_identities := seq_identities d;
        t_allowed := List.filter (fun r => negb (al_user r =? userID)%string) (t_allowed d);
        seq_allowed := seq_allowed d;
        t_agents := List.filter (fun r => negb (gr_user r =? userID)%string) (t_agents d);
        t_cron := List.filter (fun r => negb (jb_UserID r =? userID)%string) (t_cron d);
        t_at := List.filter (fun r => negb (jb_UserID r =? userID)%string) (t_at d);
        t_audit := t_audit d; seq_audit := seq_audit d;
        t_policies := List.filter (fun r => negb (pr_user r =? userID)%string) (t_policies d);
        seq_policies := seq_policies d |})
  else (Err ("user not found: " +:+ userID), d).

Definition sql_ListUsers (d : Db) : list User := map scanUser (order_by ur_created (t_users d)).

Definition sql_IsUserEnabled (userID : string) (d : Db) : bool :=
  match List.find (fun r => (ur_id r =? userID)%string) (t_users d) with
  | Some r => ur_enabled r
  | None => false
  end.

(** ** identities.go *)

Definition is_identity (channelType channelIdentity : string) (r : identity_row) : bool :=
  (ir_channel r =? channelType)%string && (ir_identity r =? channelIdentity)%string.

Definition sql_AddIdentity (now : Z) (userID channelType channelIdentity : string) (d : Db)
    : result repo_error unit * Db :=
  if existsb (is_identity channelType channelIdentity) (t_identities d) then (Ok tt, d)
  else if has_user userID d then
    (Ok tt, set_identities (fun t => t ++ [Build_identity_row (seq_identities d) userID channelType
                                              channelIdentity false (format_nano now)])%list
              (seq_identities d + 1) d)
  else (Err "add identity: FOREIGN KEY constraint failed", d).

Definition sql_RemoveIdentity (id : Z) (d : Db) : result repo_error unit * Db :=
  if existsb (fun r => ir_id r =? id)%Z (t_identities d) then
    (Ok tt, set_identities (List.filter (fun r => negb (ir_id r =? id)%Z)) (seq_identities d) d)
  else (Err "identity not found", d).

Definition ListIdentities (userID : string) (d : Db) : list identity_row :=
  order_by ir_created (List.filter (fun r => (ir_user r =? userID)%string) (t_identities d)).

Definition sql_ResolveIdentity (channelType channelIdentity : string) (d : Db) : string :=
  match List.find (is_identity channelType channelIdentity) (t_identities d) with
  | Some r => ir_user r
  | None => ""
  end.

(** ** allowlist.go *)

Definition is_entry (userID channelType : string) (r : allowed_row) : bool :=
  (al_user r =? userID)%string && (al_channel r =? channelType)%string.

(** The rows of the user for the channel or the wildcard; the channel's own
    row comes first. *)
Definition sql_IsAllowed (userID channelType : string) (d : Db) : bool :=
  match List.find (is_entry userID channelType) (t_allowed d) with
  | Some r => al_enabled r
  | None =>
      match List.find (is_entry userID "*") (t_allowed d) with
      | Some r => al_enabled r
      | None => false
      end
  end.

Definition sql_SetAllowed (now : Z) (userID channelType : string) (enabled : bool)
    (createdBy : string) (d : Db) : result repo_error unit * Db :=
  if existsb (is_entry userID channelType) (t_allowed d) then
    (Ok tt, set_allowed (map (fun r =>
       if is_entry userID channelType r
       then Build_allowed_row (al_id r) (al_user r) (al_channel r) enabled (al_created r) (al_by r)
       else r)) (seq_allowed d) d)
  else if has_user userID d then
    (Ok tt, set_allowed (fun t => t ++ [Build_allowed_row (seq_allowed d) userID channelType enabled
                                          (format_nano now) createdBy])%list (seq_allowed d + 1) d)
  else (Err "set allowed: FOREIGN KEY constraint failed", d).

Definition sql_RemoveAllowed (userID channelType : string) (d : Db) : result repo_error unit * Db :=
  if existsb (is_entry userID channelType) (t_allowed d) then
    (Ok tt, set_allowed (List.filter (fun r => negb (is_entry userID channelType r))) (seq_allowed d) d)
  else (Err ("allowlist entry not found: user=" +:+ userID +:+ " channel=" +:+ channelType), d).

Definition ListAllowed (channelType : string) (d : Db) : list allowed_row :=
  order_by al_created
    (if (channelType =? "")%string || (channelType =? "*")%string then t_allowed d
     else List.filter (fun r => (al_channel r =? channelType)%string) (t_allowed d)).

(** ** agents.go *)

Definition scanAgent (r : agent_row) : Agent := {|
  ag_ID := gr_id r; ag_UserID := gr_user r; ag_Label := gr_label r; ag_TokenHash := gr_hash r;
  ag_TokenPrefix := gr_prefix r; ag_RMQUsername := default "" (gr_rmq r);
  ag_Status := gr_status r; ag_LastRegisteredAt := parse_or_zero <$> gr_last_at r;
  ag_LastRegisteredIP := default "" (gr_last_ip r);
  ag_CreatedAt := parse_or_zero (gr_created r); ag_UpdatedAt := parse_or_zero (gr_updated r) |}.

Definition agent_id (userID label : string) : string := "agt-" +:+ userID +:+ "-" +:+ label.

Definition GetAgent (agentID : string) (d : Db) : result repo_error Agent :=
  match List.find (fun r => (gr_id r =? agentID)%string) (t_agents d) with
  | Some r => Ok (scanAgent r)
  | None => Err "agent not found"
  end.

Definition ProvisionAgent (now : Z) (userID label tokenHash tokenPrefix : string) (d : Db)
    : result repo_error Agent * Db :=
  let ts := format_nano now in
  let agentID := agent_id userID label in
  if existsb (fun r => (gr_id r =? agentID)%string
                       || (gr_user r =? userID)%string && (gr_label r =? label)%string) (t_agents d)
  then (Err "provision agent: UNIQUE constraint failed", d)
  else if has_user userID d then
    let d := set_agents (fun t => t ++ [Build_agent_row agentID userID label tokenHash tokenPrefix None
                                           AgentStatusProvisioned None None ts ts])%list d in
    (GetAgent agentID d, d)
  else (Err "provision agent: FOREIGN KEY constraint failed", d).

Definition GetAgentByTokenHash (tokenHash : string) (d : Db) : result repo_error Agent :=
  match List.find (fun r => (gr_hash r =? tokenHash)%string) (t_agents d) with
  | Some r => Ok (scanAgent r)
  | None => Err "agent not found"
  end.

Definition sql_ListAgents (userID : string) (d : Db) : list Agent :=
  map scanAgent (order_by gr_created
    (if (userID =? "")%string then t_agents d
     else List.filter (fun r => (gr_user r =? userID)%string) (t_agents d))).

Definition update_agent (agentID : string) (f : agent_row -> agent_row) (d : Db) : Db :=
  set_agents (map (fun r => if (gr_id r =? agentID)%string then f r else r)) d.

(** [meta] is the IP of the registration metadata, when given. *)
Definition UpdateAgentStatus (now : Z) (agentID : string) (status : AgentStatus)
    (meta : option string) (d : Db) : Db :=
  let ts := format_nano now in
  match meta with
  | Some ip => update_agent agentID (fun r =>
      Build_agent_row (gr_id r) (gr_user r) (gr_label r) (gr_hash r) (gr_prefix r) (gr_rmq r)
        status (Some ts) (Some ip) (gr_created r) ts) d
  | None => update_agent agentID (fun r =>
      Build_agent_row (gr_id r) (gr_user r) (gr_label r) (gr_hash r) (gr_prefix r) (gr_rmq r)
        status (gr_last_at r) (gr_last_ip r) (gr_created r) ts) d
  end.

Definition SetAgentRMQUsername (now : Z) (agentID rmqUsername : string) (d : Db) : Db :=
  update_agent agentID (fun r =>
    Build_agent_row (gr_id r) (gr_user r) (gr_label r) (gr_hash r) (gr_prefix r) (Some rmqUsername)
      (gr_status r) (gr_last_at r) (gr_last_ip r) (gr_created r) (format_nano now)) d.

Definition RotateAgentToken (now : Z) (agentID newTokenHash newTokenPrefix : string) (d : Db) : Db :=
  update_agent agentID (fun r =>
    Build_agent_row (gr_id r) (gr_user r) (gr_label r) newTokenHash newTokenPrefix (gr_rmq r)
      (gr_status r) (gr_last_at r) (gr_last_ip r) (gr_created r) (format_nano now)) d.

Definition RevokeAgent (now : Z) (agentID : string) (d : Db) : Db :=
  update_agent agentID (fun r =>
    Build_agent_row (gr_id r) (gr_user r) (gr_label r) (gr_hash r) (gr_prefix r) (gr_rmq r)
      AgentStatusRevoked (gr_last_at r) (gr_last_ip r) (gr_created r) (format_nano now)) d.

Definition DeleteAgent (agentID : string) (d : Db) : result repo_error unit * Db :=
  if existsb (fun r => (gr_id r =? agentID)%string) (t_agents d) then
    (Ok tt, set_agents (List.filter (fun r => negb (gr_id r =? agentID)%string)) d)
  else (Err ("agent not found: " +:+ agentID), d).

(** ** cron_jobs.go and at_jobs.go: primary key (user_id, id) *)

Definition is_job (id userID : string) (r : job) : bool :=
  (jb_ID r =? id)%string && (jb_UserID r =? userID)%string.

Definition add_job (what : string) (j : job) (t : list job) (d : Db) : result repo_error (list job) :=
  if existsb (is_job (jb_ID j) (jb_UserID j)) t then Err (what +:+ ": UNIQUE constraint failed")
  else if has_user (jb_UserID j) d then Ok (t ++ [j])%list
  else Err (what +:+ ": FOREIGN KEY constraint failed").

Definition remove_job (what : string) (id userID : string) (t : list job)
    : result repo_error (list job) :=
  if existsb (is_job id userID) t then Ok (List.filter (fun r => negb (is_job id userID r)) t)
  else Err (what +:+ " not found or not owned by user").

Definition store_jobs (set : (list job -> list job) -> Db -> Db) (r : result repo_error (list job))
    (d : Db) : result repo_error unit * Db :=
  match r with
  | Ok t => (Ok tt, set (fun _ => t) d)
  | Err e => (Err e, d)
  end.

Definition ListCronJobs (d : Db) : list job := order_by jb_UserID (order_by jb_ID (t_cron d)).
Definition ListCronJobsByUser (userID : string) (d : Db) : list job :=
  order_by jb_ID (List.filter (fun r => (jb_UserID r =? userID)%string) (t_cron d)).
Definition AddCronJob (j : job) (d : Db) : result repo_error unit * Db :=
  store_jobs set_cron (add_job "add cron job" j (t_cron d) d) d.
Definition RemoveCronJob (id userID : string) (d : Db) : result repo_error unit * Db :=
  store_jobs set_cron (remove_job "cron job" id userID (t_cron d)) d.

Definition ListAtJobs (d : Db) : list job := order_by jb_UserID (order_by jb_when (t_at d)).
Definition ListAtJobsByUser (userID : string) (d : Db) : list job :=
  order_by jb_when (List.filter (fun r => (jb_UserID r =? userID)%string) (t_at d)).
Definition AddAtJob (j : job) (d : Db) : result repo_error unit * Db :=
  store_jobs set_at (add_job "add at job" j (t_at d) d) d.
Definition RemoveAtJob (id userID : string) (d : Db) : result repo_error unit * Db :=
  store_jobs set_at (remove_job "at job" id userID (t_at d)) d.

(** ** policies.go *)

Definition is_policy (userID policyType : string) (r : policy_row) : bool :=
  (pr_user r =? userID)%string && (pr_type r =? policyType)%string.

(** No policy is not an error. *)
Definition GetUserPolicy (userID policyType : string) (d : Db) : result repo_error (option PolicyData) :=
  Ok (pr_data <$> List.find (is_policy userID policyType) (t_policies d)).

Definition SetUserPolicy (now : Z) (userID policyType : string) (data : PolicyData) (d : Db)
    : result repo_error unit * Db :=
  let ts := format_nano now in
  if has_user userID d then
    if existsb (is_policy userID policyType) (t_policies d) then
      (Ok tt, set_policies (map (fun r => if is_policy userID policyType r
                then Build_policy_row (pr_id r) (pr_user r) (pr_type r) data (pr_created r) ts else r))
                (seq_policies d) d)
    else
      (Ok tt, set_policies (fun t => t ++ [Build_policy_row (seq_policies d) userID policyType data ts ts])%list
                (seq_policies d + 1) d)
  else (Err "set user policy: FOREIGN KEY constraint failed", d).

Definition DeleteUserPolicy (userID policyType : string) (d : Db) : Db :=
  set_policies (List.filter (fun r => negb (is_policy userID policyType r))) (seq_policies d) d.

Definition scanPolicy (r : policy_row) : UserPolicy := {|
  up_ID := pr_id r; up_UserID := pr_user r; up_PolicyType := pr_type r; up_Data := pr_data r;
  up_CreatedAt := parse_or_zero (pr_created r); up_UpdatedAt := parse_or_zero (pr_updated r) |}.

Definition ListUserPolicies (userID : string) (d : Db) : list UserPolicy :=
  map scanPolicy (order_by pr_type (List.filter (fun r => (pr_user r =? userID)%string) (t_policies d))).

(** ** audit.go *)

Definition sql_LogAdminAction (now : Z) (e : AdminAuditEntry) (d : Db) : Db :=
  let ts := if time_is_zero (aa_Timestamp e) then now else aa_Timestamp e in
  set_audit (fun t => t ++ [Build_audit_row (seq_audit d) (format_nano ts) (aa_Action e) (aa_Actor e)
                              (aa_TargetUserID e) (aa_Details e) (aa_IPAddress e)])%list
    (seq_audit d + 1) d.

Record AuditQueryFilters := {
  af_Since : option Z; af_Until : option Z; af_Action : string; af_TargetUserID : string; af_Limit : Z }.

(** [a <= b] on text columns: by their bytes. *)
Definition text_leb (a b : string) : bool :=
  match String.compare a b with Gt => false | _ => true end.

Definition audit_matches (f : AuditQueryFilters) (r : audit_row) : bool :=
  match af_Since f with Some t => text_leb (format_nano t) (au_timestamp r) | None => true end
  && match af_Until f with Some t => text_leb (au_timestamp r) (format_nano t) | None => true end
  && ((af_Action f =? "")%string || (au_action r =? af_Action f)%string)
  && ((af_TargetUserID f =? "")%string || (au_target r =? af_TargetUserID f)%string).

Definition scan_audit (r : audit_row) : AdminAuditEntry :=
  Build_AdminAuditEntry (au_id r) (parse_or_zero (au_timestamp r)) (au_action r) (au_actor r)
    (au_target r) (au_details r) (au_ip r).

(** [ORDER BY timestamp DESC]: of equal timestamps, the older row first. *)
Fixpoint insert_desc (x : audit_row) (l : list audit_row) : list audit_row :=
  match l with
  | [] => [x]
  | y :: l' => match String.compare (au_timestamp x) (au_timestamp y) with
               | Lt => y :: insert_desc x l'
               | _ => x :: y :: l'
               end
  end.

Definition QueryAuditLog (f : AuditQueryFilters) (d : Db) : list AdminAuditEntry :=
  let rows := fold_right insert_desc [] (List.filter (audit_matches f) (t_audit d)) in
  map scan_audit (if (0 <? af_Limit f)%Z then firstn (Z.to_nat (af_Limit f)) rows else rows).

#[export] Instance sqlite_repository : Repository Db := {
  IsUserEnabled now u d := (Ok (sql_IsUserEnabled u d), d);
  ResolveIdentity now c i d := (Ok (sql_ResolveIdentity c i d), d);
  AddIdentity := sql_AddIdentity;
  RemoveIdentity now id d := sql_RemoveIdentity id d;
  IsAllowed now u c d := (Ok (sql_IsAllowed u c d), d);
  SetAllowed := sql_SetAllowed;
  RemoveAllowed now u c d := sql_RemoveAllowed u c d;
  DeleteUser now u d := sql_DeleteUser u d;
  ListUsers now d := (Ok (sql_ListUsers d), d);
  ListAgents now u d := (Ok (sql_ListAgents u d), d);
  LogAdminAction now e d := (Ok tt, sql_LogAdminAction now e d) }.

Definition sqlite_view (d : Db) : access_view := {|
  v_enabled u := sql_IsUserEnabled u d;
  v_allowed u c := sql_IsAllowed u c d;
  v_owner c i := sql_ResolveIdentity c i d |}.

#[export] Program Instance sqlite_spec : RepositorySpec Db := {
  repo_ok _ := True;
  view _ d := sqlite_view d }.
Solve All Obligations with
  (intros; unfold sqlite_view; first [eexists; repeat split; reflexivity | repeat split]).
End sqlite.
