(* ===== verification/Config.v ===== *)
(** * The gateway's configuration (internal/config/config.go)

    The structs of the configuration file and their zero values, the JSON the
    admin server makes of them ([json.Marshal]: no struct but CronJob has json
    tags, so the members are named like the fields), and which fields are
    secrets.  A slice or map without elements is nil. *)
From Stdlib Require Import ZArith Lia Bool Ascii String List.
From stdpp Require Import base strings option list.
From S2P Require Import Prelude GoString GoFloat Models Sqlite.

Local Open Scope string_scope.
Local Open Scope Z_scope.

Record AdminAuthConfig := {
  AdminAuth_Enabled : bool;
  AdminAuth_Token : string }.

Record AdminConfig := {
  Admin_Enabled : bool;
  Admin_Bind : string;
  Admin_Port : Z;
  Admin_Auth : AdminAuthConfig }.

Record GatewayConfig := {
  Gateway_Bind : string;
  Gateway_Port : Z;
  Gateway_BaseURL : string;
  Gateway_ReadTimeoutSeconds : Z;
  Gateway_WriteTimeoutSeconds : Z;
  Gateway_Admin : AdminConfig }.

Record DeliveryOptions := {
  DeliveryOptions_MarkAsRead : bool;
  DeliveryOptions_ShowTyping : bool;
  DeliveryOptions_QuoteOriginal : bool }.

Record S3DefaultConfig := {
  S3Default_Endpoint : string;
  S3Default_Bucket : string;
  S3Default_AccessKey : string;
  S3Default_SecretKey : string;
  S3Default_Region : string;
  S3Default_UseSSL : bool }.

Record WhatsAppConfig := {
  WhatsApp_WuzapiBaseURL : string;
  WhatsApp_WuzapiToken : string;
  WhatsApp_WuzapiHMACKey : string;
  WhatsApp_WuzapiInstanceName : string;
  WhatsApp_WebhookPath : string;
  WhatsApp_Events : list string;
  WhatsApp_Delivery : DeliveryOptions;
  WhatsApp_S3 : S3DefaultConfig }.

Record WhatsAppChannelConfig := {
  WhatsAppChannel_Enabled : bool;
  WhatsAppChannel_Config : WhatsAppConfig }.

Record SlackConfig := {
  Slack_AppToken : string;
  Slack_BotToken : string;
  Slack_SigningSecret : string;
  Slack_WebhookPath : string }.

Record SlackChannelConfig := {
  SlackChannel_Enabled : bool;
  SlackChannel_Config : SlackConfig }.

Record CronChannelConfig := {
  CronChannel_Enabled : bool;
  CronChannel_Timezone : string;
  CronChannel_Jobs : list job }.

Record ReconnectConfig := {
  Reconnect_Enabled : bool;
  Reconnect_InitialDelayMS : Z;
  Reconnect_MaxDelayMS : Z }.

Record MQTTConfig := {
  MQTT_Broker : string;
  MQTT_ClientID : string;
  MQTT_Username : string;
  MQTT_Password : string;
  MQTT_TopicPrefix : string;
  MQTT_QoS : Z;
  MQTT_CleanSession : bool;
  MQTT_KeepAlive : Z;
  MQTT_Reconnect : ReconnectConfig }.

Record MQTTChannelConfig := {
  MQTTChannel_Enabled : bool;
  MQTTChannel_Config : MQTTConfig }.

Record RabbitMQChanConfig := {
  RabbitMQChan_URL : string;
  RabbitMQChan_Username : string;
  RabbitMQChan_Password : string;
  RabbitMQChan_VHost : string;
  RabbitMQChan_ExchangeInbound : string;
  RabbitMQChan_ExchangeOutbound : string;
  RabbitMQChan_ExchangeDLX : string;
  RabbitMQChan_Prefetch : Z;
  RabbitMQChan_Heartbeat : Z;
  RabbitMQChan_Reconnect : ReconnectConfig }.

Record RabbitMQChannelConfig := {
  RabbitMQChannel_Enabled : bool;
  RabbitMQChannel_Config : RabbitMQChanConfig }.

Record ChannelsConfig := {
  Channels_WhatsApp : WhatsAppChannelConfig;
  Channels_Slack : SlackChannelConfig;
  Channels_Cron : CronChannelConfig;
  Channels_MQTT : MQTTChannelConfig;
  Channels_RabbitMQ : RabbitMQChannelConfig }.

Record QueueRabbitMQConfig := {
  QueueRabbitMQ_URL : string;
  QueueRabbitMQ_Username : string;
  QueueRabbitMQ_Password : string;
  QueueRabbitMQ_VHost : string;
  QueueRabbitMQ_Heartbeat : Z;
  QueueRabbitMQ_Reconnect : ReconnectConfig }.

Record ChannelQueueMode := {
  ChannelQueueMode_Mode : string;
  ChannelQueueMode_DebounceMS : Z;
  ChannelQueueMode_CollectCap : Z;
  ChannelQueueMode_Priority : Z }.

Record QueueConfig := {
  Queue_Transport : string;
  Queue_RabbitMQ : QueueRabbitMQConfig;
  Queue_DefaultMode : string;
  Queue_PerChannel : list (string * ChannelQueueMode) }.

Record AgentRegistrationConfig := {
  AgentRegistration_Enabled : bool;
  AgentRegistration_RateLimit : Z;
  AgentRegistration_TokenRotationOnRegister : bool }.

Record RMQManagementConfig := {
  RMQManagement_URL : string;
  RMQManagement_Username : string;
  RMQManagement_Password : string }.

Record AgentsConfig := {
  Agents_HealthCheckIntervalSeconds : Z;
  Agents_ConsumerTimeoutSeconds : Z;
  Agents_Registration : AgentRegistrationConfig;
  Agents_RabbitMQManagement : RMQManagementConfig }.

Record PerUserRateLimit := {
  PerUserRateLimit_MessagesPerMinute : Z;
  PerUserRateLimit_MessagesPerHour : Z }.

Record RateLimitConfig := {
  RateLimit_PerUser : PerUserRateLimit }.

Record ToolPolicy := {
  ToolPolicy_Allow : list string;
  ToolPolicy_Deny : list string }.

Record ToolsConfig := {
  Tools_Policy : ToolPolicy }.

Record SecurityConfig := {
  Security_RateLimit : RateLimitConfig;
  Security_Tools : ToolsConfig }.

Record BackupConfig := {
  Backup_Enabled : bool;
  Backup_Schedule : string;
  Backup_RetentionDays : Z;
  Backup_Path : string }.

Record DatastoreConfig := {
  Datastore_Path : string;
  Datastore_WALMode : bool;
  Datastore_BusyTimeoutMS : Z;
  Datastore_Backup : BackupConfig }.

Record TracingConfig := {
  Tracing_Enabled : bool;
  Tracing_Exporter : string;
  Tracing_Protocol : string;
  Tracing_Endpoint : string;
  Tracing_URLPath : string;
  Tracing_ServiceName : string;
  Tracing_SampleRate : float64 }.

Record MetricsConfig := {
  Metrics_Enabled : bool;
  Metrics_Exporter : string;
  Metrics_PrometheusPort : Z;
  Metrics_Endpoint : string }.

Record TelemetryConfig := {
  Telemetry_Tracing : TracingConfig;
  Telemetry_Metrics : MetricsConfig }.

Record SanitizerConfig := {
  Sanitizer_PIIRedaction : bool;
  Sanitizer_CredentialDetection : bool;
  Sanitizer_SecretScrubbing : bool }.

Record ObservabilityConfig := {
  Observability_Enabled : bool;
  Observability_Sanitizer : SanitizerConfig }.

Record Config := {
  Cfg_Gateway : GatewayConfig;
  Cfg_Channels : ChannelsConfig;
  Cfg_Queue : QueueConfig;
  Cfg_Agents : AgentsConfig;
  Cfg_Security : SecurityConfig;
  Cfg_Datastore : DatastoreConfig;
  Cfg_Telemetry : TelemetryConfig;
  Cfg_Observability : ObservabilityConfig;
  Cfg_RawSecretFields : list (string * string) }.

Definition zero_AdminAuthConfig : AdminAuthConfig :=
  Build_AdminAuthConfig false "".
Definition zero_AdminConfig : AdminConfig :=
  Build_AdminConfig false "" 0 zero_AdminAuthConfig.
Definition zero_GatewayConfig : GatewayConfig :=
  Build_GatewayConfig "" 0 "" 0 0 zero_AdminConfig.
Definition zero_DeliveryOptions : DeliveryOptions :=
  Build_DeliveryOptions false false false.
Definition zero_S3DefaultConfig : S3DefaultConfig :=
  Build_S3DefaultConfig "" "" "" "" "" false.
Definition zero_WhatsAppConfig : WhatsAppConfig :=
  Build_WhatsAppConfig "" "" "" "" "" [] zero_DeliveryOptions zero_S3DefaultConfig.
Definition zero_WhatsAppChannelConfig : WhatsAppChannelConfig :=
  Build_WhatsAppChannelConfig false zero_WhatsAppConfig.
Definition zero_SlackConfig : SlackConfig :=
  Build_SlackConfig "" "" "" "".
Definition zero_SlackChannelConfig : SlackChannelConfig :=
  Build_SlackChannelConfig false zero_SlackConfig.
Definition zero_CronChannelConfig : CronChannelConfig :=
  Build_CronChannelConfig false "" [].
Definition zero_ReconnectConfig : ReconnectConfig :=
  Build_ReconnectConfig false 0 0.
Definition zero_MQTTConfig : MQTTConfig :=
  Build_MQTTConfig "" "" "" "" "" 0 false 0 zero_ReconnectConfig.
Definition zero_MQTTChannelConfig : MQTTChannelConfig :=
  Build_MQTTChannelConfig false zero_MQTTConfig.
Definition zero_RabbitMQChanConfig : RabbitMQChanConfig :=
  Build_RabbitMQChanConfig "" "" "" "" "" "" "" 0 0 zero_ReconnectConfig.
Definition zero_RabbitMQChannelConfig : RabbitMQChannelConfig :=
  Build_RabbitMQChannelConfig false zero_RabbitMQChanConfig.
Definition zero_ChannelsConfig : ChannelsConfig :=
  Build_ChannelsConfig zero_WhatsAppChannelConfig zero_SlackChannelConfig zero_CronChannelConfig zero_MQTTChannelConfig zero_RabbitMQChannelConfig.
Definition zero_QueueRabbitMQConfig : QueueRabbitMQConfig :=
  Build_QueueRabbitMQConfig "" "" "" "" 0 zero_ReconnectConfig.
Definition zero_ChannelQueueMode : ChannelQueueMode :=
  Build_ChannelQueueMode "" 0 0 0.
Definition zero_QueueConfig : QueueConfig :=
  Build_QueueConfig "" zero_QueueRabbitMQConfig "" [].
Definition zero_AgentRegistrationConfig : AgentRegistrationConfig :=
  Build_AgentRegistrationConfig false 0 false.
Definition zero_RMQManagementConfig : RMQManagementConfig :=
  Build_RMQManagementConfig "" "" "".
Definition zero_AgentsConfig : AgentsConfig :=
  Build_AgentsConfig 0 0 zero_AgentRegistrationConfig zero_RMQManagementConfig.
Definition zero_PerUserRateLimit : PerUserRateLimit :=
  Build_PerUserRateLimit 0 0.
Definition zero_RateLimitConfig : RateLimitConfig :=
  Build_RateLimitConfig zero_PerUserRateLimit.
Definition zero_ToolPolicy : ToolPolicy :=
  Build_ToolPolicy [] [].
Definition zero_ToolsConfig : ToolsConfig :=
  Build_ToolsConfig zero_ToolPolicy.
Definition zero_SecurityConfig : SecurityConfig :=
  Build_SecurityConfig zero_RateLimitConfig zero_ToolsConfig.
Definition zero_BackupConfig : BackupConfig :=
  Build_BackupConfig false "" 0 "".
Definition zero_DatastoreConfig : DatastoreConfig :=
  Build_DatastoreConfig "" false 0 zero_BackupConfig.
Definition zero_TracingConfig : TracingConfig :=
  Build_TracingConfig false "" "" "" "" "" float_zero.
Definition zero_MetricsConfig : MetricsConfig :=
  Build_MetricsConfig false "" 0 "".
Definition zero_TelemetryConfig : TelemetryConfig :=
  Build_TelemetryConfig zero_TracingConfig zero_MetricsConfig.
Definition zero_SanitizerConfig : SanitizerConfig :=
  Build_SanitizerConfig false false false.
Definition zero_ObservabilityConfig : ObservabilityConfig :=
  Build_ObservabilityConfig false zero_SanitizerConfig.
Definition zero_Config : Config :=
  Build_Config zero_GatewayConfig zero_ChannelsConfig zero_QueueConfig zero_AgentsConfig zero_SecurityConfig zero_DatastoreConfig zero_TelemetryConfig zero_ObservabilityConfig [].

(** ** JSON *)

Definition json_int (z : Z) : jsonv := JNumber (f_of_int z).
Definition json_slice {A} (f : A -> jsonv) (l : list A) : jsonv :=
  match l with [] => JNull | _ => JArray (map f l) end.
(** The keys of a map, which are sorted. *)
Definition json_map {A} (f : A -> jsonv) (l : list (string * A)) : jsonv :=
  match l with [] => JNull | _ => JObject (map (fun x => (fst x, f (snd x))) (order_by fst l)) end.

Definition json_job (j : job) : jsonv := JObject
  ([("id", JString (jb_ID j)); ("schedule", JString (jb_when j)); ("user_id", JString (jb_UserID j));
    ("prompt", JString (jb_Prompt j))]
   ++ match jb_NotifyChannels j with [] => [] | l => [("notify_channels", json_slice JString l)] end)%list.

Definition json_AdminAuthConfig (c : AdminAuthConfig) : jsonv := JObject
  [("Enabled", JBool (AdminAuth_Enabled c));
   ("Token", JString (AdminAuth_Token c))].

Definition json_AdminConfig (c : AdminConfig) : jsonv := JObject
  [("Enabled", JBool (Admin_Enabled c));
   ("Bind", JString (Admin_Bind c));
   ("Port", json_int (Admin_Port c));
   ("Auth", json_AdminAuthConfig (Admin_Auth c))].

Definition json_GatewayConfig (c : GatewayConfig) : jsonv := JObject
  [("Bind", JString (Gateway_Bind c));
   ("Port", json_int (Gateway_Port c));
   ("BaseURL", JString (Gateway_BaseURL c));
   ("ReadTimeoutSeconds", json_int (Gateway_ReadTimeoutSeconds c));
   ("WriteTimeoutSeconds", json_int (Gateway_WriteTimeoutSeconds c));
   ("Admin", json_AdminConfig (Gateway_Admin c))].

Definition json_DeliveryOptions (c : DeliveryOptions) : jsonv := JObject
  [("MarkAsRead", JBool (DeliveryOptions_MarkAsRead c));
   ("ShowTyping", JBool (DeliveryOptions_ShowTyping c));
   ("QuoteOriginal", JBool (DeliveryOptions_QuoteOriginal c))].

Definition json_S3DefaultConfig (c : S3DefaultConfig) : jsonv := JObject
  [("Endpoint", JString (S3Default_Endpoint c));
   ("Bucket", JString (S3Default_Bucket c));
   ("AccessKey", JString (S3Default_AccessKey c));
   ("SecretKey", JString (S3Default_SecretKey c));
   ("Region", JString (S3Default_Region c));
   ("UseSSL", JBool (S3Default_UseSSL c))].

Definition json_WhatsAppConfig (c : WhatsAppConfig) : jsonv := JObject
  [("WuzapiBaseURL", JString (WhatsApp_WuzapiBaseURL c));
   ("WuzapiToken", JString (WhatsApp_WuzapiToken c));
   ("WuzapiHMACKey", JString (WhatsApp_WuzapiHMACKey c));
   ("WuzapiInstanceName", JString (WhatsApp_WuzapiInstanceName c));
   ("WebhookPath", JString (WhatsApp_WebhookPath c));
   ("Events", json_slice JString (WhatsApp_Events c));
   ("Delivery", json_DeliveryOptions (WhatsApp_Delivery c));
   ("S3", json_S3DefaultConfig (WhatsApp_S3 c))].

Definition json_WhatsAppChannelConfig (c : WhatsAppChannelConfig) : jsonv := JObject
  [("Enabled", JBool (WhatsAppChannel_Enabled c));
   ("Config", json_WhatsAppConfig (WhatsAppChannel_Config c))].

Definition json_SlackConfig (c : SlackConfig) : jsonv := JObject
  [("AppToken", JString (Slack_AppToken c));
   ("BotToken", JString (Slack_BotToken c));
   ("SigningSecret", JString (Slack_SigningSecret c));
   ("WebhookPath", JString (Slack_WebhookPath c))].

Definition json_SlackChannelConfig (c : SlackChannelConfig) : jsonv := JObject
  [("Enabled", JBool (SlackChannel_Enabled c));
   ("Config", json_SlackConfig (SlackChannel_Config c))].

Definition json_CronChannelConfig (c : CronChannelConfig) : jsonv := JObject
  [("Enabled", JBool (CronChannel_Enabled c));
   ("Timezone", JString (CronChannel_Timezone c));
   ("Jobs", json_slice json_job (CronChannel_Jobs c))].

Definition json_ReconnectConfig (c : ReconnectConfig) : jsonv := JObject
  [("Enabled", JBool (Reconnect_Enabled c));
   ("InitialDelayMS", json_int (Reconnect_InitialDelayMS c));
   ("MaxDelayMS", json_int (Reconnect_MaxDelayMS c))].

Definition json_MQTTConfig (c : MQTTConfig) : jsonv := JObject
  [("Broker", JString (MQTT_Broker c));
   ("ClientID", JString (MQTT_ClientID c));
   ("Username", JString (MQTT_Username c));
   ("Password", JString (MQTT_Password c));
   ("TopicPrefix", JString (MQTT_TopicPrefix c));
   ("QoS", json_int (MQTT_QoS c));
   ("CleanSession", JBool (MQTT_CleanSession c));
   ("KeepAlive", json_int (MQTT_KeepAlive c));
   ("Reconnect", json_ReconnectConfig (MQTT_Reconnect c))].

Definition json_MQTTChannelConfig (c : MQTTChannelConfig) : jsonv := JObject
  [("Enabled", JBool (MQTTChannel_Enabled c));
   ("Config", json_MQTTConfig (MQTTChannel_Config c))].

Definition json_RabbitMQChanConfig (c : RabbitMQChanConfig) : jsonv := JObject
  [("URL", JString (RabbitMQChan_URL c));
   ("Username", JString (RabbitMQChan_Username c));
   ("Password", JString (RabbitMQChan_Password c));
   ("VHost", JString (RabbitMQChan_VHost c));
   ("ExchangeInbound", JString (RabbitMQChan_ExchangeInbound c));
   ("ExchangeOutbound", JString (RabbitMQChan_ExchangeOutbound c));
   ("ExchangeDLX", JString (RabbitMQChan_ExchangeDLX c));
   ("Prefetch", json_int (RabbitMQChan_Prefetch c));
   ("Heartbeat", json_int (RabbitMQChan_Heartbeat c));
   ("Reconnect", json_ReconnectConfig (RabbitMQChan_Reconnect c))].

Definition json_RabbitMQChannelConfig (c : RabbitMQChannelConfig) : jsonv := JObject
  [("Enabled", JBool (RabbitMQChannel_Enabled c));
   ("Config", json_RabbitMQChanConfig (RabbitMQChannel_Config c))].

Definition json_ChannelsConfig (c : ChannelsConfig) : jsonv := JObject
  [("WhatsApp", json_WhatsAppChannelConfig (Channels_WhatsApp c));
   ("Slack", json_SlackChannelConfig (Channels_Slack c));
   ("Cron", json_CronChannelConfig (Channels_Cron c));
   ("MQTT", json_MQTTChannelConfig (Channels_MQTT c));
   ("RabbitMQ", json_RabbitMQChannelConfig (Channels_RabbitMQ c))].

Definition json_QueueRabbitMQConfig (c : QueueRabbitMQConfig) : jsonv := JObject
  [("URL", JString (QueueRabbitMQ_URL c));
   ("Username", JString (QueueRabbitMQ_Username c));
   ("Password", JString (QueueRabbitMQ_Password c));
   ("VHost", JString (QueueRabbitMQ_VHost c));
   ("Heartbeat", json_int (QueueRabbitMQ_Heartbeat c));
   ("Reconnect", json_ReconnectConfig (QueueRabbitMQ_Reconnect c))].

Definition json_ChannelQueueMode (c : ChannelQueueMode) : jsonv := JObject
  [("Mode", JString (ChannelQueueMode_Mode c));
   ("DebounceMS", json_int (ChannelQueueMode_DebounceMS c));
   ("CollectCap", json_int (ChannelQueueMode_CollectCap c));
   ("Priority", json_int (ChannelQueueMode_Priority c))].

Definition json_QueueConfig (c : QueueConfig) : jsonv := JObject
  [("Transport", JString (Queue_Transport c));
   ("RabbitMQ", json_QueueRabbitMQConfig (Queue_RabbitMQ c));
   ("DefaultMode", JString (Queue_DefaultMode c));
   ("PerChannel", json_map json_ChannelQueueMode (Queue_PerChannel c))].

Definition json_AgentRegistrationConfig (c : AgentRegistrationConfig) : jsonv := JObject
  [("Enabled", JBool (AgentRegistration_Enabled c));
   ("RateLimit", json_int (AgentRegistration_RateLimit c));
   ("TokenRotationOnRegister", JBool (AgentRegistration_TokenRotationOnRegister c))].

Definition json_RMQManagementConfig (c : RMQManagementConfig) : jsonv := JObject
  [("URL", JString (RMQManagement_URL c));
   ("Username", JString (RMQManagement_Username c));
   ("Password", JString (RMQManagement_Password c))].

Definition json_AgentsConfig (c : AgentsConfig) : jsonv := JObject
  [("HealthCheckIntervalSeconds", json_int (Agents_HealthCheckIntervalSeconds c));
   ("ConsumerTimeoutSeconds", json_int (Agents_ConsumerTimeoutSeconds c));
   ("Registration", json_AgentRegistrationConfig (Agents_Registration c));
   ("RabbitMQManagement", json_RMQManagementConfig (Agents_RabbitMQManagement c))].

Definition json_PerUserRateLimit (c : PerUserRateLimit) : jsonv := JObject
  [("MessagesPerMinute", json_int (PerUserRateLimit_MessagesPerMinute c));
   ("MessagesPerHour", json_int (PerUserRateLimit_MessagesPerHour c))].

Definition json_RateLimitConfig (c : RateLimitConfig) : jsonv := JObject
  [("PerUser", json_PerUserRateLimit (RateLimit_PerUser c))].

Definition json_ToolPolicy (c : ToolPolicy) : jsonv := JObject
  [("Allow", json_slice JString (ToolPolicy_Allow c));
   ("Deny", json_slice JString (ToolPolicy_Deny c))].

Definition json_ToolsConfig (c : ToolsConfig) : jsonv := JObject
  [("Policy", json_ToolPolicy (Tools_Policy c))].

Definition json_SecurityConfig (c : SecurityConfig) : jsonv := JObject
  [("RateLimit", json_RateLimitConfig (Security_RateLimit c));
   ("Tools", json_ToolsConfig (Security_Tools c))].

Definition json_BackupConfig (c : BackupConfig) : jsonv := JObject
  [("Enabled", JBool (Backup_Enabled c));
   ("Schedule", JString (Backup_Schedule c));
   ("RetentionDays", json_int (Backup_RetentionDays c));
   ("Path", JString (Backup_Path c))].

Definition json_DatastoreConfig (c : DatastoreConfig) : jsonv := JObject
  [("Path", JString (Datastore_Path c));
   ("WALMode", JBool (Datastore_WALMode c));
   ("BusyTimeoutMS", json_int (Datastore_BusyTimeoutMS c));
   ("Backup", json_BackupConfig (Datastore_Backup c))].

Definition json_TracingConfig (c : TracingConfig) : jsonv := JObject
  [("Enabled", JBool (Tracing_Enabled c));
   ("Exporter", JString (Tracing_Exporter c));
   ("Protocol", JString (Tracing_Protocol c));
   ("Endpoint", JString (Tracing_Endpoint c));
   ("URLPath", JString (Tracing_URLPath c));
   ("ServiceName", JString (Tracing_ServiceName c));
   ("SampleRate", JNumber (Tracing_SampleRate c))].

Definition json_MetricsConfig (c : MetricsConfig) : jsonv := JObject
  [("Enabled", JBool (Metrics_Enabled c));
   ("Exporter", JString (Metrics_Exporter c));
   ("PrometheusPort", json_int (Metrics_PrometheusPort c));
   ("Endpoint", JString (Metrics_Endpoint c))].

Definition json_TelemetryConfig (c : TelemetryConfig) : jsonv := JObject
  [("Tracing", json_TracingConfig (Telemetry_Tracing c));
   ("Metrics", json_MetricsConfig (Telemetry_Metrics c))].

Definition json_SanitizerConfig (c : SanitizerConfig) : jsonv := JObject
  [("PIIRedaction", JBool (Sanitizer_PIIRedaction c));
   ("CredentialDetection", JBool (Sanitizer_CredentialDetection c));
   ("SecretScrubbing", JBool (Sanitizer_SecretScrubbing c))].

Definition json_ObservabilityConfig (c : ObservabilityConfig) : jsonv := JObject
  [("Enabled", JBool (Observability_Enabled c));
   ("Sanitizer", json_SanitizerConfig (Observability_Sanitizer c))].

Definition json_Config (c : Config) : jsonv := JObject
  [("Gateway", json_GatewayConfig (Cfg_Gateway c));
   ("Channels", json_ChannelsConfig (Cfg_Channels c));
   ("Queue", json_QueueConfig (Cfg_Queue c));
   ("Agents", json_AgentsConfig (Cfg_Agents c));
   ("Security", json_SecurityConfig (Cfg_Security c));
   ("Datastore", json_DatastoreConfig (Cfg_Datastore c));
   ("Telemetry", json_TelemetryConfig (Cfg_Telemetry c));
   ("Observability", json_ObservabilityConfig (Cfg_Observability c));
   ("RawSecretFields", json_map JString (Cfg_RawSecretFields c))].

