(* ===== verification/Mqtt.v ===== *)
(** * MQTT channel (channels/mqtt)

    The topics of a user, the normalizer, the delivery client and the adapter's
    subscriptions.  The broker's client (paho) is a parameter: what it answers
    to a call. *)
From Stdlib Require Import ZArith Lia Bool Ascii String List.
From stdpp Require Import base gmap strings option list.
From S2P Require Import Prelude GoString GoTime GoJsonParse Models Config.

Local Open Scope string_scope.
Local Open Scope Z_scope.
Local Open Scope reader_scope.

Record MQTTInboundPayload := {
  mp_Text : string;
  mp_CorrelationID : string;
  mp_ResponseTopic : string;
  mp_MessageID : string }.

Definition zero_payload := Build_MQTTInboundPayload "" "" "" "".

Definition dec_payload : decoder MQTTInboundPayload := dec_struct (fun x =>
  let f {B} := @field B ["text"; "correlationId"; "responseTopic"; "messageId"] in
  Build_MQTTInboundPayload
    <$$> f "text" dec_string (mp_Text x)
    <*> f "correlationId" dec_string (mp_CorrelationID x)
    <*> f "responseTopic" dec_string (mp_ResponseTopic x)
    <*> f "messageId" dec_string (mp_MessageID x)).

Record NormalizerConfig := { nc_Broker : string; nc_TopicPrefix : string; nc_DefaultQoS : Z }.

(** ** Topics *)

(** [strings.TrimRight(s, "/")]. *)
Fixpoint trim_slashes (s : string) : string :=
  match s with
  | EmptyString => ""
  | String c s' =>
      let t := trim_slashes s' in
      if (t =? "")%string && Ascii.eqb c "/" then "" else String c t
  end.

(** The prefix the three functions compute. *)
Definition topic_prefix (prefix : string) : string :=
  let p := trim_slashes prefix in if (p =? "")%string then "nipper" else p.

Definition ExtractUserIDFromTopic (topic prefix : string) : result string string :=
  match strip_prefix (topic_prefix prefix +:+ "/") topic with
  | None => Err "topic does not start with expected prefix"
  | Some rest =>
      match split_n2 rest "/" with
      | u :: _ => if (u =? "")%string then Err "topic has no userId segment" else Ok u
      | [] => Err "topic has no userId segment"
      end
  end.

Definition OutboxTopic (topicPrefix userID : string) : string :=
  topic_prefix topicPrefix +:+ "/" +:+ userID +:+ "/outbox".

Definition InboxTopic (topicPrefix userID : string) : string :=
  topic_prefix topicPrefix +:+ "/" +:+ userID +:+ "/inbox".

(** ** NormalizeInbound *)

Definition inbound_message (uuid : string) (now : Z) (userID topic : string) (payload : MQTTInboundPayload)
    (cfg : NormalizerConfig) : NipperMessage :=
  {| nm_MessageID := uuid;
     nm_OriginMessageID := if (mp_MessageID payload =? "")%string
                           then "mqtt:" +:+ userID +:+ ":" +:+ fmt_d now else mp_MessageID payload;
     nm_UserID := userID;
     nm_SessionKey := "";
     nm_ChannelType := ChannelTypeMQTT;
     nm_ChannelIdentity := "mqtt:" +:+ userID;
     nm_Content := Build_MessageContent (mp_Text payload) [];
     nm_DeliveryContext := Build_DeliveryContext ChannelTypeMQTT topic "direct" "" [] MQTTCapabilities;
     nm_Meta := Some (MetaMqtt (Build_MqttMeta (nc_Broker cfg) topic (nc_DefaultQoS cfg) false userID
                                  (mp_CorrelationID payload) (mp_ResponseTopic payload)));
     nm_Timestamp := now;
     nm_DedupeKey := "" |}.

(** [decoded] is what [json.Unmarshal] makes of the payload. *)
Definition normalize (uuid : string) (now : Z) (decoded : MQTTInboundPayload * option json_error) (topic : string)
    (cfg : NormalizerConfig) : result string (option NipperMessage) :=
  match ExtractUserIDFromTopic topic (nc_TopicPrefix cfg) with
  | Err e => Err ("mqtt normalizer: " +:+ e)
  | Ok userID =>
      match decoded with
      | (_, Some _) => Err "mqtt normalizer: unmarshal payload"
      | (payload, None) =>
          if (trim_space (mp_Text payload) =? "")%string then Ok None
          else Ok (Some (inbound_message uuid now userID topic payload cfg))
      end
  end.

Definition NormalizeInbound (uuid : string) (now : Z) (raw topic : string) (cfg : NormalizerConfig)
    : result string (option NipperMessage) :=
  normalize uuid now (unmarshal dec_payload zero_payload raw) topic cfg.

(** ** Delivery *)

(** [byte(n)] of an [int]. *)
Definition to_byte (n : Z) : Z := n mod 256.

(** [NewDeliveryClient]'s quality of service, and a subscription's. *)
Definition default_qos (n : Z) : Z := if 2 <? to_byte n then 1 else to_byte n.

Definition extractMQTTMeta (resp : NipperResponse) : option MqttMeta :=
  match rs_Meta resp with Some (MetaMqtt m) => Some m | _ => None end.

Definition resolveOutboundTopic (topicPrefix : string) (resp : NipperResponse) : string :=
  match extractMQTTMeta resp with
  | Some meta => if negb (mq_ResponseTopic meta =? "")%string then mq_ResponseTopic meta
                 else OutboxTopic topicPrefix (rs_UserID resp)
  | None => OutboxTopic topicPrefix (rs_UserID resp)
  end.

Definition resolveQoS (defaultQoS : Z) (resp : NipperResponse) : Z :=
  match extractMQTTMeta resp with
  | Some meta => if to_byte (mq_QoS meta) <=? 2 then to_byte (mq_QoS meta) else defaultQoS
  | None => defaultQoS
  end.

Record MQTTResponsePayload := {
  rp_ResponseID : string;
  rp_SessionKey : string;
  rp_UserID : string;
  rp_Text : string;
  rp_Parts : list ContentPart;
  rp_CorrelationID : string;
  rp_Timestamp : string }.

Definition buildPayload (resp : NipperResponse) : MQTTResponsePayload := {|
  rp_ResponseID := rs_ResponseID resp;
  rp_SessionKey := rs_SessionKey resp;
  rp_UserID := rs_UserID resp;
  rp_Text := rs_Text resp;
  rp_Parts := rs_Parts resp;
  rp_CorrelationID := match extractMQTTMeta resp with Some meta => mq_CorrelationID meta | None => "" end;
  rp_Timestamp := format_rfc3339 (rs_Timestamp resp) |}.

Record publication := {
  pub_topic : string;
  pub_qos : Z;
  pub_retained : bool;
  pub_payload : MQTTResponsePayload }.

(** The delivery client: [publisher] is [None] for nil and tells whether the
    broker is connected.  The publication, if one is made. *)
Definition DeliverResponse (publisher : option bool) (topicPrefix : string) (defaultQoS : Z)
    (resp : NipperResponse) : result string publication :=
  match publisher with
  | None => Err "mqtt delivery: publisher is nil"
  | Some false => Err "mqtt delivery: not connected to broker"
  | Some true => Ok {|
      pub_topic := resolveOutboundTopic topicPrefix resp;
      pub_qos := resolveQoS defaultQoS resp;
      pub_retained := false;
      pub_payload := buildPayload resp |}
  end.

(** ** The adapter

    [SubscribeUser] and [UnsubscribeUser] keep the list of subscribed users;
    [answer] is the error of the client's call, a time-out included. *)
Definition SubscribeUser (connected : bool) (answer : option string) (userID : string) (subscribers : list string)
    : option string * list string :=
  if negb connected then (Some "mqtt: not connected", subscribers)
  else
    match answer with
    | Some e => (Some ("mqtt subscribe: " +:+ e), subscribers)
    | None => (None, if existsb (String.eqb userID) subscribers then subscribers else (subscribers ++ [userID])%list)
    end.

Fixpoint remove_first (userID : string) (l : list string) : list string :=
  match l with
  | [] => []
  | s :: l => if (s =? userID)%string then l else s :: remove_first userID l
  end.

Definition UnsubscribeUser (connected : bool) (answer : option string) (userID : string) (subscribers : list string)
    : option string * list string :=
  if negb connected then (Some "mqtt: not connected", subscribers)
  else
    match answer with
    | Some e => (Some ("mqtt unsubscribe: " +:+ e), subscribers)
    | None => (None, remove_first userID subscribers)
    end.

(** On every connection the list is built anew, from the users there are. *)
Definition subscribeAll (users : result string (list string)) (answer : string -> option string)
    (subscribers : list string) : list string :=
  match users with
  | Err _ => subscribers
  | Ok users => List.filter (fun u => match answer u with None => true | Some _ => false end) users
  end.

(** [Adapter.NormalizeInbound]: the payload comes wrapped with its topic. *)
Record wrapper := { wr_Topic : string; wr_Payload : option json }.
Definition zero_wrapper := Build_wrapper "" None.

Definition dec_wrapper : decoder wrapper := dec_struct (fun x =>
  let f {B} := @field B ["_topic"; "_payload"] in
  Build_wrapper <$$> f "_topic" dec_string (wr_Topic x) <*> f "_payload" dec_raw (wr_Payload x)).

Definition Adapter_NormalizeInbound (uuid : string) (now : Z) (raw : string) (cfg : NormalizerConfig)
    : result string (option NipperMessage) :=
  match unmarshal dec_wrapper zero_wrapper raw with
  | (_, Some _) => Err "mqtt normalise: unmarshal wrapper"
  | (w, None) =>
      if (wr_Topic w =? "")%string then Err "mqtt normalise: _topic is required"
      else match wr_Payload w with
      | None | Some VNull => Err "mqtt normalise: _payload is required"
      | Some v => normalize uuid now (unmarshal_raw dec_payload zero_payload (Some v)) (wr_Topic w) cfg
      end
  end.

(** *** The connection

    What the client is made with; [co_ConnectRetry] is the library's own value: whether
    a first connection that fails is tried again. *)
Record client_options := {
  co_Broker : string; co_ClientID : string; co_CleanSession : bool; co_AutoReconnect : bool; co_OrderMatters : bool;
  co_Username : string; co_Password : string; co_KeepAlive : Z; co_ConnectRetryInterval : option Z; co_MaxReconnectInterval : option Z;
  co_ConnectRetry : bool }.

Definition positive (n default : Z) : Z := if n <=? 0 then default else n.

Definition start_options (cfg : MQTTConfig) : client_options :=
  let r := MQTT_Reconnect cfg in
  let interval (n default : Z) := if Reconnect_Enabled r then Some (int64 (positive n default * time_millisecond)) else None in {|
  co_Broker := MQTT_Broker cfg;
  co_ClientID := MQTT_ClientID cfg;
  co_CleanSession := MQTT_CleanSession cfg;
  co_AutoReconnect := Reconnect_Enabled r;
  co_OrderMatters := false;
  co_Username := MQTT_Username cfg;
  co_Password := MQTT_Password cfg;
  co_KeepAlive := int64 (positive (MQTT_KeepAlive cfg) 60 * time_second);
  co_ConnectRetryInterval := interval (Reconnect_InitialDelayMS r) 1000;
  co_MaxReconnectInterval := interval (Reconnect_MaxDelayMS r) 30000;
  co_ConnectRetry := false |}.

(** The adapter: whether it has a client, its list and its flag. *)
Record Adapter := { ad_client : bool; ad_subscribers : list string; ad_connected : bool }.
Definition NewAdapter : Adapter := Build_Adapter false [] false.
Definition adapter_normCfg (cfg : MQTTConfig) : NormalizerConfig := Build_NormalizerConfig (MQTT_Broker cfg) (MQTT_TopicPrefix cfg) (MQTT_QoS cfg).

(** What became of a first connection. *)
Inductive connect_answer := ConnectTimeout | ConnectFailed (e : string) | ConnectDone.

Definition Start (answer : connect_answer) (a : Adapter) : Adapter :=
  Build_Adapter true (ad_subscribers a) (match answer with ConnectDone => true | _ => ad_connected a end).

(** The result tells whether the client is disconnected; [up]: whether it says it
    is connected. *)
Definition Stop (up : bool) (a : Adapter) : bool * Adapter := (ad_client a && up, Build_Adapter (ad_client a) (ad_subscribers a) false).

Definition HealthCheck (up : bool) (a : Adapter) : option string :=
  if negb (ad_client a) then Some "mqtt: client not initialized"
  else if negb up then Some "mqtt: not connected to broker" else None.

(** [users]: none without a lister. *)
Definition onConnect (users : option (result string (list string))) (answer : string -> option string) (a : Adapter) : Adapter :=
  Build_Adapter (ad_client a) (match users with Some u => subscribeAll u answer (ad_subscribers a) | None => ad_subscribers a end) true.
Definition onConnectionLost (a : Adapter) : Adapter := Build_Adapter (ad_client a) (ad_subscribers a) false.

(** What the handler is given of a publication, when there is one. *)
Definition onMessage (handler : bool) (uuid : string) (now : Z) (topic payload : string) (cfg : MQTTConfig) : option NipperMessage :=
  if negb handler then None
  else match NormalizeInbound uuid now payload topic (adapter_normCfg cfg) with Ok m => m | Err _ => None end.

(** The adapter's delivery: [resp] may be nil, and there is no client before a start. *)
Definition Adapter_DeliverResponse (up : bool) (a : Adapter) (cfg : MQTTConfig) (resp : option NipperResponse) : result string (option publication) :=
  match resp with
  | None => Ok None
  | Some resp =>
      if negb (ad_client a) then Err "mqtt: delivery client not initialized"
      else match DeliverResponse (Some up) (MQTT_TopicPrefix cfg) (default_qos (MQTT_QoS cfg)) resp with
           | Ok p => Ok (Some p)
           | Err e => Err e
           end
  end.

Definition publishTimeout : Z := 10 * time_second.

(** A publication by the client: none, when it takes longer than the timeout. *)
Definition Publish (topic : string) (answer : option (option string)) : option string :=
  match answer with None => Some ("mqtt publish to " +:+ topic +:+ " timed out") | Some e => e end.

Definition Validate (cfg : MQTTConfig) : option string :=
  if (MQTT_Broker cfg =? "")%string then Some "mqtt: broker is required"
  else if (MQTT_ClientID cfg =? "")%string then Some "mqtt: client_id is required"
  else if (MQTT_TopicPrefix cfg =? "")%string then Some "mqtt: topic_prefix is required"
  else None.

Definition InboxTopicForUser (cfg : MQTTConfig) (userID : string) : string := InboxTopic (MQTT_TopicPrefix cfg) userID.
Definition OutboxTopicForUser (cfg : MQTTConfig) (userID : string) : string := OutboxTopic (MQTT_TopicPrefix cfg) userID.

(** The slice up to the end of the scheme: without one, its place is -1, and the slice
    the first two bytes, which there are when an at sign is not the first. *)
Definition redact_scheme (brokerURL : string) : string :=
  match str_cut "://" brokerURL with Some (scheme, _) => scheme +:+ "://" | None => str_take (Z.to_nat (-1 + 3)) brokerURL end.
Definition RedactBrokerURL (brokerURL : string) : string :=
  match str_cut "@" brokerURL with
  | Some (String c before, after) => redact_scheme brokerURL +:+ "[REDACTED]@" +:+ after
  | _ => brokerURL
  end.

(** *** Subscribing in sections

    The list is emptied under the lock, then grows by one user after the other; other
    calls may come between. *)
Definition subscribe_one (answer : string -> option string) (subscribers : list string) (userID : string) : list string :=
  match answer userID with None => (subscribers ++ [userID])%list | Some _ => subscribers end.

Lemma subscribeAll_steps users answer old : subscribeAll (Ok users) answer old = fold_left (subscribe_one answer) users [].
Proof.
  unfold subscribeAll. change (List.filter _ users) with ([] ++ List.filter (fun u => match answer u with None => true | Some _ => false end) users)%list.
  generalize (@nil string). induction users as [|u users IH]; intros acc; cbn [List.filter fold_left]; [by rewrite app_nil_r|].
  rewrite <- IH. unfold subscribe_one. destruct (answer u); [done|]. by rewrite <- app_assoc.
Qed.

(** A user who is subscribed while all are is twice in the list, and unsubscribing
    leaves one. *)
Example subscribed_twice :
  let l := subscribe_one (fun _ => None) (snd (SubscribeUser true None "ann" [])) "ann" in
  l = ["ann"; "ann"] /\ snd (UnsubscribeUser true None "ann" l) = ["ann"].
Proof. vm_compute. done. Qed.

(** A first connection that fails is not tried again, whatever the configuration. *)
Lemma no_retry cfg : co_ConnectRetry (start_options cfg) = false.
Proof. done. Qed.

(** The flag: a connection that is up keeps the list of those it could subscribe. *)
Lemma connected_list users answer a u :
  In u (ad_subscribers (onConnect (Some (Ok users)) answer a)) <-> In u users /\ answer u = None.
Proof. cbn. rewrite filter_In. split; intros [Hu Ha]; split; try done; [by destruct (answer u)|by rewrite Ha]. Qed.

(** A password with an at sign shows what follows it, and a broker without scheme its
    first two bytes. *)
Example redacted_at : RedactBrokerURL "tcp://ann:p@ss@host" = "tcp://[REDACTED]@ss@host".
Proof. vm_compute. reflexivity. Qed.
Example redacted_plain : map RedactBrokerURL ["tcp://host"; "ann:pw@host"; "tcp://ann:pw@host"] =
  ["tcp://host"; "an[REDACTED]@host"; "tcp://[REDACTED]@host"].
Proof. vm_compute. reflexivity. Qed.

(** ** The user a topic belongs to *)

Lemma extract_inbox prefix user rest :
  user <> "" -> lacks "/" user = true ->
  ExtractUserIDFromTopic (topic_prefix prefix +:+ "/" +:+ user +:+ "/" +:+ rest) prefix = Ok user.
Proof.
  intros Hu Hl. unfold ExtractUserIDFromTopic.
  replace (topic_prefix prefix +:+ "/" +:+ user +:+ "/" +:+ rest)
    with ((topic_prefix prefix +:+ "/") +:+ (user +:+ "/" +:+ rest)) by (by rewrite !str_app_assoc).
  rewrite strip_prefix_app. unfold split_n2. rewrite (str_cut_app "/" "" user rest) by done.
  by destruct (String.eqb_spec user "").
Qed.

Lemma extract_sound topic prefix user :
  ExtractUserIDFromTopic topic prefix = Ok user ->
  user <> "" /\ lacks "/" user = true /\
  exists rest, topic = topic_prefix prefix +:+ "/" +:+ user +:+ rest /\ (rest = "" \/ exists r, rest = String "/" r).
Proof.
  unfold ExtractUserIDFromTopic.
  destruct (strip_prefix (topic_prefix prefix +:+ "/") topic) as [rest|] eqn:E; [|done].
  apply strip_prefix_Some in E as ->. unfold split_n2.
  destruct (str_cut "/" rest) as [[u r]|] eqn:Ec.
  - destruct (String.eqb_spec u "") as [|Hu]; [done|]. intros [= <-]. split; [done|].
    apply str_cut_first in Ec as [Hl ->]. split; [done|]. exists ("/" +:+ r).
    split; [by rewrite !str_app_assoc|]. right. by exists r.
  - destruct (String.eqb_spec rest "") as [|Hu]; [done|]. intros [= <-]. split; [done|].
    split; [by apply str_cut_none|].
    exists "". split; [by rewrite str_app_nil_r, str_app_assoc|by left].
Qed.

(** the messages of a user's inbox topic, and of no other user's, become
    messages of that user, whatever the prefix; and a message that asks for no
    other topic is answered on that user's outbox topic. *)
Lemma mqtt_user_roundtrip uuid now raw prefix user other cfg m resp qos :
  nc_TopicPrefix cfg = prefix -> user <> "" -> lacks "/" user = true ->
  NormalizeInbound uuid now raw (InboxTopic prefix other) cfg = Ok (Some m) ->
  (lacks "/" other = true -> nm_UserID m = user <-> other = user) /\
  (rs_Meta resp = nm_Meta m -> rs_UserID resp = nm_UserID m ->
   forall mm, nm_Meta m = Some (MetaMqtt mm) -> mq_ResponseTopic mm = "" ->
   exists p, DeliverResponse (Some true) prefix qos resp = Ok p /\ pub_topic p = OutboxTopic prefix (nm_UserID m)).
Proof.
  intros Hp Hu Hl. unfold NormalizeInbound, normalize. rewrite Hp.
  destruct (ExtractUserIDFromTopic (InboxTopic prefix other) prefix) as [u|e] eqn:Ex; [|done].
  destruct (unmarshal dec_payload zero_payload raw) as [payload [e|]]; [done|].
  destruct (trim_space _ =? "")%string; [done|]. intros [= <-]. cbn [nm_UserID inbound_message]. split.
  - intros Ho. destruct (String.eqb_spec other "") as [->|Hne].
    + (* the topic has an empty user segment *)
      unfold ExtractUserIDFromTopic, InboxTopic in Ex.
      replace (topic_prefix prefix +:+ "/" +:+ "" +:+ "/inbox")
        with ((topic_prefix prefix +:+ "/") +:+ "/inbox") in Ex by (by rewrite !str_app_assoc).
      by rewrite strip_prefix_app in Ex.
    + assert (Ex' : ExtractUserIDFromTopic (InboxTopic prefix other) prefix = Ok other)
        by (by apply (extract_inbox prefix other "inbox")).
      rewrite Ex' in Ex. by injection Ex as <-.
  - intros Hm Hu2 mm [= <-] Hr. eexists. split; [reflexivity|]. simpl. unfold resolveOutboundTopic, extractMQTTMeta.
    rewrite Hm. cbn [nm_Meta inbound_message]. simpl in Hr. simpl. rewrite Hr. simpl. by rewrite Hu2.
Qed.

Lemma mqtt_user_roundtrip_witness :
  exists m, NormalizeInbound "id" 5 (json_text "{'text':'hi'}") (InboxTopic "home/" "ann")
              (Build_NormalizerConfig "tcp://b" "home/" 1) = Ok (Some m) /\ nm_UserID m = "ann".
Proof.
  eexists. eassert (H : NormalizeInbound "id" 5 (json_text "{'text':'hi'}") (InboxTopic "home/" "ann")
    (Build_NormalizerConfig "tcp://b" "home/" 1) = Ok (Some _)) by (vm_compute; reflexivity).
  split; [exact H|].
  apply (mqtt_user_roundtrip "id" 5 _ "home/" "ann" "ann" (Build_NormalizerConfig "tcp://b" "home/" 1) _ (Build_NipperResponse "" "" "" "" "" "" []
    zero_DeliveryContext None "" 0 None) 0 eq_refl ltac:(discriminate) eq_refl H); reflexivity.
Defined.

(** The last segment is not looked at: what is published on a user's outbox is
    normalised as if it had been sent by the user. *)
Lemma mqtt_outbox_accepted prefix user :
  user <> "" -> lacks "/" user = true -> ExtractUserIDFromTopic (OutboxTopic prefix user) prefix = Ok user.
Proof. intros Hu Hl. by apply (extract_inbox prefix user "outbox"). Qed.

(** Subscribing keeps the list without duplicates, and unsubscribing undoes it. *)
Lemma SubscribeUser_NoDup c a u l : NoDup l -> NoDup (snd (SubscribeUser c a u l)).
Proof.
  intros H. unfold SubscribeUser. destruct (negb c); [done|]. destruct a; [done|]. simpl.
  destruct (existsb (String.eqb u) l) eqn:E; [done|].
  apply NoDup_app. split; [done|]. split; [|repeat constructor; by intros ?%elem_of_nil].
  intros x Hx [->|?%elem_of_nil]%elem_of_cons; [|done].
  apply list_elem_of_In, (existsb_false_In _ _ _ E) in Hx. by rewrite String.eqb_refl in Hx.
Qed.

Lemma remove_first_app u l : existsb (String.eqb u) l = false -> remove_first u (l ++ [u]) = l.
Proof.
  induction l as [|x l IH]; simpl; [by rewrite String.eqb_refl|].
  rewrite String.eqb_sym. destruct (String.eqb x u); [done|]. intros H. by rewrite IH.
Qed.
