(* ===== verification/SqliteProofs.v ===== *)
(** * The SQLite store: invariants and access control

    The integrity of the tables (unique keys, foreign keys) as an invariant of
    every operation, what deleting a user removes, and the access decision the
    guard takes on this store. *)
From Stdlib Require Import ZArith Lia Bool Ascii String List.
From stdpp Require Import base strings option list.
From S2P Require Import Prelude GoString Models Repo Guard Sqlite.

Local Open Scope string_scope.

Section proofs.

(** ** Operations as steps *)

Inductive db_op :=
| OCreateUser (now : Z) (id name model : string) (prefs : list (string * jsonv))
| OUpdateUser (now : Z) (id : string) (u : UpdateUserRequest)
| ODeleteUser (id : string)
| OAddIdentity (now : Z) (u c i : string)
| ORemoveIdentity (id : Z)
| OSetAllowed (now : Z) (u c : string) (e : bool) (by_ : string)
| ORemoveAllowed (u c : string)
| OProvision (now : Z) (u label hash prefix : string)
| OUpdateAgentStatus (now : Z) (id status : string) (ip : option string)
| OSetRMQ (now : Z) (id rmq : string)
| ORotate (now : Z) (id hash prefix : string)
| ORevoke (now : Z) (id : string)
| ODeleteAgent (id : string)
| OAddCron (j : job) | ORemoveCron (id u : string)
| OAddAt (j : job) | ORemoveAt (id u : string)
| OSetPolicy (now : Z) (u type : string) (data : PolicyData)
| ODeletePolicy (u type : string)
| OAudit (now : Z) (e : AdminAuditEntry).

Definition db_step (o : db_op) (d : Db) : Db :=
  match o with
  | OCreateUser now id name model prefs => snd (CreateUser now id name model prefs d)
  | OUpdateUser now id u => snd (UpdateUser now id u d)
  | ODeleteUser id => snd (sql_DeleteUser id d)
  | OAddIdentity now u c i => snd (sql_AddIdentity now u c i d)
  | ORemoveIdentity id => snd (sql_RemoveIdentity id d)
  | OSetAllowed now u c e b => snd (sql_SetAllowed now u c e b d)
  | ORemoveAllowed u c => snd (sql_RemoveAllowed u c d)
  | OProvision now u l h p => snd (ProvisionAgent now u l h p d)
  | OUpdateAgentStatus now id s ip => UpdateAgentStatus now id s ip d
  | OSetRMQ now id r => SetAgentRMQUsername now id r d
  | ORotate now id h p => RotateAgentToken now id h p d
  | ORevoke now id => RevokeAgent now id d
  | ODeleteAgent id => snd (DeleteAgent id d)
  | OAddCron j => snd (AddCronJob j d)
  | ORemoveCron id u => snd (RemoveCronJob id u d)
  | OAddAt j => snd (AddAtJob j d)
  | ORemoveAt id u => snd (RemoveAtJob id u d)
  | OSetPolicy now u t data => snd (SetUserPolicy now u t data d)
  | ODeletePolicy u t => DeleteUserPolicy u t d
  | OAudit now e => sql_LogAdminAction now e d
  end.

(** ** Integrity *)

Definition refs {A} (owner : A -> string) (t : list A) (d : Db) : Prop :=
  forall r, In r t -> has_user (owner r) d = true.

(** Ordering rows only permutes them. *)
Lemma insert_by_In {A} (key : A -> string) x l y : In y (insert_by key x l) <-> y = x \/ In y l.
Proof.
  induction l as [|z l IH]; simpl; [naive_solver|]. destruct (String.compare _ _); simpl; rewrite ?IH; naive_solver.
Qed.

Lemma order_by_In {A} (key : A -> string) l y : In y (order_by key l) <-> In y l.
Proof. induction l as [|x l IH]; simpl; [done|]. rewrite insert_by_In, IH. naive_solver. Qed.

Definition identity_key (r : identity_row) := (ir_channel r, ir_identity r).
Definition allowed_key (r : allowed_row) := (al_user r, al_channel r).
Definition job_key (r : job) := (jb_ID r, jb_UserID r).
Definition policy_key (r : policy_row) := (pr_user r, pr_type r).

Record db_ok (d : Db) : Prop := {
  ok_users : NoDup (map ur_id (t_users d));
  ok_identities : NoDup (map identity_key (t_identities d));
  ok_identity_refs : refs ir_user (t_identities d) d;
  ok_allowed : NoDup (map allowed_key (t_allowed d));
  ok_allowed_refs : refs al_user (t_allowed d) d;
  ok_agents : NoDup (map gr_id (t_agents d));
  ok_agent_refs : refs gr_user (t_agents d) d;
  ok_cron : NoDup (map job_key (t_cron d));
  ok_cron_refs : refs jb_UserID (t_cron d) d;
  ok_at : NoDup (map job_key (t_at d));
  ok_at_refs : refs jb_UserID (t_at d) d;
  ok_policies : NoDup (map policy_key (t_policies d));
  ok_policy_refs : refs pr_user (t_policies d) d }.

Lemma has_user_ids u d d' :
  map ur_id (t_users d') = map ur_id (t_users d) -> has_user u d' = has_user u d.
Proof.
  unfold has_user. intros H.
  assert (forall l : list user_row, existsb (fun r => (ur_id r =? u)%string) l
                    = existsb (fun x => (x =? u)%string) (map ur_id l)) as E
    by (induction l; simpl; congruence).
  by rewrite !E, H.
Qed.

Lemma has_user_filter u v d d' :
  t_users d' = List.filter (fun r => negb (ur_id r =? v)%string) (t_users d) ->
  u <> v -> has_user u d = true -> has_user u d' = true.
Proof.
  unfold has_user. intros -> Hne (r & Hin & Hr)%existsb_exists. apply existsb_exists. exists r.
  split; [|done]. apply filter_In. split; [done|]. apply String.eqb_eq in Hr as ->.
  by apply negb_true_iff, String.eqb_neq.
Qed.

(** A row added for a user of the table, rows kept, updated in place or
    deleted keep the foreign keys. *)
Lemma refs_same {A} (f : A -> string) t d d' :
  t_users d' = t_users d -> refs f t d -> refs f t d'.
Proof. unfold refs, has_user. by intros ->. Qed.

Lemma refs_filter {A} (f : A -> string) (p : A -> bool) t d : refs f t d -> refs f (List.filter p t) d.
Proof. intros H r [Hin _]%filter_In. auto. Qed.

Lemma refs_snoc {A} (f : A -> string) t x d :
  refs f t d -> has_user (f x) d = true -> refs f (t ++ [x])%list d.
Proof. intros H Hx r [Hin|[<-|[]]]%in_app_iff; auto. Qed.

Lemma refs_update {A} (f : A -> string) (p : A -> bool) (g : A -> A) t d :
  (forall x, f (g x) = f x) -> refs f t d -> refs f (map (fun r => if p r then g r else r) t) d.
Proof.
  intros Hg H r (x & <- & Hin)%in_map_iff. destruct (p x); [rewrite Hg|]; auto.
Qed.

Lemma refs_delete {A} (f : A -> string) t u d d' :
  t_users d' = List.filter (fun r => negb (ur_id r =? u)%string) (t_users d) ->
  refs f t d -> refs f (List.filter (fun r => negb (f r =? u)%string) t) d'.
Proof.
  intros Hd H r [Hin Hne]%filter_In. apply negb_true_iff, String.eqb_neq in Hne.
  eapply has_user_filter; eauto.
Qed.

Lemma refs_ids {A} (f : A -> string) t d d' :
  map ur_id (t_users d') = map ur_id (t_users d) -> refs f t d -> refs f t d'.
Proof. intros Hd H r Hin. rewrite (has_user_ids _ _ _ Hd). auto. Qed.

Lemma refs_create {A} (f : A -> string) t d d' x :
  t_users d' = (t_users d ++ [x])%list -> refs f t d -> refs f t d'.
Proof.
  intros Hd H r Hin. unfold has_user. rewrite Hd, existsb_app. fold (has_user (f r) d).
  by rewrite H.
Qed.
#[local] Hint Resolve refs_same refs_filter refs_snoc refs_update NoDup_map_filter : nipper.

Lemma update_agent_ok id g d :
  (forall r, gr_id (g r) = gr_id r) -> (forall r, gr_user (g r) = gr_user r) ->
  db_ok d -> db_ok (update_agent id g d).
Proof.
  intros Hi Hu []. unfold update_agent, set_agents.
  split; cbn [t_users t_identities t_allowed t_agents t_cron t_at t_policies]; try done.
  - by rewrite map_update_key.
  - eapply refs_same; [|by apply refs_update]. done.
Qed.

Lemma add_job_ok what j t d t' :
  add_job what j t d = Ok t' -> NoDup (map job_key t) -> refs jb_UserID t d ->
  NoDup (map job_key t') /\ refs jb_UserID t' d.
Proof.
  unfold add_job. destruct (existsb _ t) eqn:E; [done|]. destruct (has_user _ d) eqn:Eu; [|done].
  intros [= <-] Hn Hr. split; [|by apply refs_snoc]. apply NoDup_map_snoc; [done|].
  intros y Hin [= Hid Hus]. apply (existsb_false_In _ _ y E) in Hin. revert Hin.
  unfold is_job. by rewrite Hid, Hus, !String.eqb_refl.
Qed.

Lemma remove_job_ok what id u t d t' :
  remove_job what id u t = Ok t' -> NoDup (map job_key t) -> refs jb_UserID t d ->
  NoDup (map job_key t') /\ refs jb_UserID t' d.
Proof.
  unfold remove_job. destruct (existsb _ t); [|done]. intros [= <-] Hn Hr.
  auto with nipper.
Qed.

Lemma set_cron_ok t d :
  NoDup (map job_key t) -> refs jb_UserID t d -> db_ok d -> db_ok (set_cron (fun _ => t) d).
Proof. intros Hn Hr []. by split. Qed.

Lemma set_at_ok t d :
  NoDup (map job_key t) -> refs jb_UserID t d -> db_ok d -> db_ok (set_at (fun _ => t) d).
Proof. intros Hn Hr []. by split. Qed.

Lemma create_user_ok now id name model prefs d :
  db_ok d -> db_ok (snd (CreateUser now id name model prefs d)).
Proof.
  intros Hok. unfold CreateUser. destruct (name =? "")%string; [done|].
  destruct (has_user id d) eqn:E; [done|]. destruct Hok. unfold set_users.
  split; cbn [t_users t_identities t_allowed t_agents t_cron t_at t_policies snd]; try done;
    try (eapply refs_create; [reflexivity|done]).
  apply NoDup_map_snoc; [done|]. intros y Hin Heq.
  apply (existsb_false_In _ _ y E) in Hin. simpl in Heq. by rewrite Heq, String.eqb_refl in Hin.
Qed.

Lemma update_user_ok now id u d :
  db_ok d -> db_ok (snd (UpdateUser now id u d)).
Proof.
  intros Hok. unfold UpdateUser. destruct (GetUser id d) as [user|e]; [|done]. cbn [snd].
  destruct Hok. unfold set_users.
  split; cbn [t_users t_identities t_allowed t_agents t_cron t_at t_policies]; try done;
    try (eapply refs_ids; [|done]; cbn [t_users]); by rewrite map_update_key.
Qed.

Lemma delete_user_ok id d : db_ok d -> db_ok (snd (sql_DeleteUser id d)).
Proof.
  intros Hok. unfold sql_DeleteUser. destruct (has_user id d); [|done]. destruct Hok.
  split; cbn [t_users t_identities t_allowed t_agents t_cron t_at t_policies snd];
    auto using NoDup_map_filter; (eapply refs_delete; [reflexivity|done]).
Qed.

Lemma identities_ok t seq d :
  NoDup (map identity_key t) -> refs ir_user t d -> db_ok d -> db_ok (set_identities (fun _ => t) seq d).
Proof. intros Hn Hr []. by split. Qed.

Lemma allowed_ok t seq d :
  NoDup (map allowed_key t) -> refs al_user t d -> db_ok d -> db_ok (set_allowed (fun _ => t) seq d).
Proof. intros Hn Hr []. by split. Qed.

Lemma add_identity_ok now u c i d :
  db_ok d -> db_ok (snd (sql_AddIdentity now u c i d)).
Proof.
  intros Hok. unfold sql_AddIdentity. destruct (existsb _ _) eqn:E; [done|].
  destruct (has_user u d) eqn:Eu; [|done]. cbn [snd].
  apply (identities_ok (t_identities d ++ [_])%list); [| |done]; destruct Hok; [|by apply refs_snoc].
  apply NoDup_map_snoc; [done|]. intros y Hin [= Hc Hi].
  apply (existsb_false_In _ _ y E) in Hin. revert Hin. unfold is_identity.
  by rewrite Hc, Hi, !String.eqb_refl.
Qed.

Lemma set_allowed_ok now u c e b d :
  db_ok d -> db_ok (snd (sql_SetAllowed now u c e b d)).
Proof.
  intros Hok. unfold sql_SetAllowed. destruct (existsb _ _) eqn:E; cbn [snd].
  - apply (allowed_ok (map _ (t_allowed d))); [| |done]; destruct Hok.
    + by rewrite map_update_key.
    + by apply refs_update.
  - destruct (has_user u d) eqn:Eu; [|done].
    apply (allowed_ok (t_allowed d ++ [_])%list); [| |done]; destruct Hok; [|by apply refs_snoc].
    apply NoDup_map_snoc; [done|]. intros y Hin [= Hu Hc].
    apply (existsb_false_In _ _ y E) in Hin. revert Hin. unfold is_entry.
    by rewrite Hc, Hu, !String.eqb_refl.
Qed.

Lemma policies_ok t seq d :
  NoDup (map policy_key t) -> refs pr_user t d -> db_ok d -> db_ok (set_policies (fun _ => t) seq d).
Proof. intros Hn Hr []. by split. Qed.

Lemma set_policy_ok now u ty data d :
  db_ok d -> db_ok (snd (SetUserPolicy now u ty data d)).
Proof.
  intros Hok. unfold SetUserPolicy. destruct (has_user u d) eqn:Eu; [|done].
  destruct (existsb _ _) eqn:E; cbn [snd].
  - apply (policies_ok (map _ (t_policies d))); [| |done]; destruct Hok.
    + by rewrite map_update_key.
    + by apply refs_update.
  - apply (policies_ok (t_policies d ++ [_])%list); [| |done]; destruct Hok; [|by apply refs_snoc].
    apply NoDup_map_snoc; [done|]. intros y Hin [= Hu Hc].
    apply (existsb_false_In _ _ y E) in Hin. revert Hin. unfold is_policy.
    by rewrite Hc, Hu, !String.eqb_refl.
Qed.

Lemma provision_ok now u l h p d :
  db_ok d -> db_ok (snd (ProvisionAgent now u l h p d)).
Proof.
  intros Hok. unfold ProvisionAgent. destruct (existsb _ _) eqn:E; [done|].
  destruct (has_user u d) eqn:Eu; [|done]. destruct Hok. cbn [snd]. unfold set_agents.
  split; cbn [t_users t_identities t_allowed t_agents t_cron t_at t_policies]; try done;
    [|by apply refs_snoc].
  apply NoDup_map_snoc; [done|]. intros y Hin Heq. cbn [gr_id] in Heq.
  apply (existsb_false_In _ _ y E) in Hin. revert Hin. by rewrite Heq, String.eqb_refl.
Qed.

(** A failed addition to the scheduler is undone exactly. *)
Lemma filter_not_existsb {A} (p : A -> bool) l : existsb p l = false -> List.filter (fun x => negb (p x)) l = l.
Proof.
  induction l as [|x l IH]; [done|]. simpl. intros [H1 H2]%orb_false_iff. rewrite H1. simpl. by rewrite IH.
Qed.

Lemma job_rollback what what' j t d t' :
  add_job what j t d = Ok t' ->
  t' = (t ++ [j])%list /\ existsb (is_job (jb_ID j) (jb_UserID j)) t = false /\
  remove_job what' (jb_ID j) (jb_UserID j) t' = Ok t.
Proof.
  unfold add_job, remove_job. destruct (existsb _ t) eqn:E; [done|]. destruct (has_user _ d); [|done].
  intros [= <-]. split; [done|]. split; [done|].
  assert (Hj : is_job (jb_ID j) (jb_UserID j) j = true) by (unfold is_job; by rewrite !String.eqb_refl).
  rewrite existsb_app, E. simpl. rewrite Hj. simpl. rewrite List.filter_app, filter_not_existsb by done.
  simpl. rewrite Hj. simpl. by rewrite app_nil_r.
Qed.

(** ** Theorems *)

(** C35: Integrity: every operation of the store keeps the tables well formed:
    user ids, (channel, identity) pairs, (user, channel) entries, agent ids
    and (id, user) job keys and (user, type) policies are unique, and every
    identity, allowlist entry, agent, job and policy belongs to an existing user. *)
Theorem db_integrity os d :
  db_ok d -> db_ok (fold_left (fun d o => db_step o d) os d).
Proof.
  revert d. induction os as [|o os IH]; intros d Hok; simpl; [done|]. apply IH.
  destruct o; simpl.
  - by apply create_user_ok.
  - by apply update_user_ok.
  - by apply delete_user_ok.
  - by apply add_identity_ok.
  - unfold sql_RemoveIdentity. destruct (existsb _ _); [|done].
    apply (identities_ok (List.filter _ (t_identities d))); [| |done]; destruct Hok; auto with nipper.
  - by apply set_allowed_ok.
  - unfold sql_RemoveAllowed. destruct (existsb _ _); [|done].
    apply (allowed_ok (List.filter _ (t_allowed d))); [| |done]; destruct Hok; auto with nipper.
  - by apply provision_ok.
  - unfold UpdateAgentStatus. destruct ip; by apply update_agent_ok.
  - by apply update_agent_ok.
  - by apply update_agent_ok.
  - by apply update_agent_ok.
  - unfold DeleteAgent. destruct (existsb _ _); [|done]. destruct Hok.
    split; simpl; auto with nipper.
  - unfold AddCronJob, store_jobs. destruct (add_job _ _ _ _) eqn:E; [|done].
    apply add_job_ok in E as []; [by apply set_cron_ok|apply Hok..].
  - unfold RemoveCronJob, store_jobs. destruct (remove_job _ _ _ _) eqn:E; [|done].
    eapply remove_job_ok in E as []; [by apply set_cron_ok|apply Hok..].
  - unfold AddAtJob, store_jobs. destruct (add_job _ _ _ _) eqn:E; [|done].
    apply add_job_ok in E as []; [by apply set_at_ok|apply Hok..].
  - unfold RemoveAtJob, store_jobs. destruct (remove_job _ _ _ _) eqn:E; [|done].
    eapply remove_job_ok in E as []; [by apply set_at_ok|apply Hok..].
  - by apply set_policy_ok.
  - apply (policies_ok (List.filter _ (t_policies d))); [| |done]; destruct Hok; auto with nipper.
  - by destruct Hok.
Qed.
End proofs.

Lemma db_integrity_witness :
  db_ok (fold_left (fun d o => db_step o d)
    [OCreateUser 0 "u" "Al" "" []; OAddIdentity 1 "u" "slack" "U1"; ODeleteUser "u"] empty_db).
Proof.
  apply (db_integrity). split; simpl; try apply NoDup_nil_2; by intros r [].
Defined.


(** Texts of instants do not sort by time: an entry written half a second after
    [Since], itself a whole second, is left out. *)
Example audit_since_skips :
  let entry := Build_AdminAuditEntry 0 (10 * time_second + time_second / 2)%Z "user.create" "a" "u" "{}" "" in
  QueryAuditLog (Build_AuditQueryFilters (Some (10 * time_second)%Z) None "" "" 0) (sql_LogAdminAction 0 entry empty_db) = []
  /\ (10 * time_second <= aa_Timestamp entry)%Z.
Proof. split; [vm_compute; reflexivity|vm_compute; discriminate]. Qed.

(** ** Access control *)

Lemma is_entry_iff u c r : is_entry u c r = true <-> al_user r = u /\ al_channel r = c.
Proof. unfold is_entry. by rewrite andb_true_iff, !String.eqb_eq. Qed.

Lemma find_entry d r :
  db_ok d -> In r (t_allowed d) ->
  List.find (is_entry (al_user r) (al_channel r)) (t_allowed d) = Some r.
Proof.
  intros Hok Hin. apply (find_unique allowed_key); [apply Hok|done|by apply is_entry_iff|].
  intros x [Hu Hc]%is_entry_iff. unfold allowed_key. congruence.
Qed.

Lemma find_entry_some d u c r :
  List.find (is_entry u c) (t_allowed d) = Some r ->
  In r (t_allowed d) /\ al_user r = u /\ al_channel r = c.
Proof. intros [Hin Hp]%find_some. by rewrite <- is_entry_iff. Qed.

Lemma user_enabled_iff d u :
  db_ok d -> sql_IsUserEnabled u d = true <->
  exists r, In r (t_users d) /\ ur_id r = u /\ ur_enabled r = true.
Proof.
  intros Hok. unfold sql_IsUserEnabled. split.
  - destruct (List.find _ _) as [r|] eqn:E; [|done]. intros He.
    apply find_some in E as [Hin Hu]. apply String.eqb_eq in Hu. eauto.
  - intros (r & Hin & Hu & He). rewrite (find_unique ur_id _ (t_users d) r); [done|apply Hok|done|..].
    + by apply String.eqb_eq.
    + intros x Hx. apply String.eqb_eq in Hx. congruence.
Qed.

Definition has_enabled_entry (d : Db) (u c : string) : Prop :=
  exists r, In r (t_allowed d) /\ al_user r = u /\ al_channel r = c /\ al_enabled r = true.

Lemma find_entry_enabled d u c r :
  db_ok d -> In r (t_allowed d) -> al_user r = u -> al_channel r = c ->
  List.find (is_entry u c) (t_allowed d) = Some r.
Proof. intros Hok Hin <- <-. by apply find_entry. Qed.

Lemma allowed_cases d u c :
  db_ok d ->
  (sql_IsAllowed u c d = true -> has_enabled_entry d u c \/ has_enabled_entry d u "*")
  /\ (has_enabled_entry d u c -> sql_IsAllowed u c d = true).
Proof.
  intros Hok. unfold sql_IsAllowed, has_enabled_entry. split.
  - destruct (List.find (is_entry u c) _) as [r|] eqn:E.
    + intros He. left. apply find_entry_some in E as (? & ? & ?). eauto 6.
    + destruct (List.find (is_entry u "*") _) as [r|] eqn:E'; [|done].
      intros He. right. apply find_entry_some in E' as (? & ? & ?). eauto 6.
  - intros (r & Hin & Hu & Hc & He). by rewrite (find_entry_enabled d u c r).
Qed.

Section access.
#[local] Instance db_repository : Repository Db := sqlite_repository.
#[local] Instance db_spec : RepositorySpec Db := sqlite_spec.

(** Access on the SQLite store: on well-formed tables the guard lets a
    user through exactly when the account is enabled and the user has an
    enabled entry for the channel or an enabled wildcard entry (so a disabled
    entry for the channel does not take precedence over an enabled wildcard);
    it never fails and never changes who has access. *)
Lemma sqlite_access now d u ct ident :
  db_ok d -> u <> "" -> exists b d',
    Check now u ct ident d = (Ok b, d')
    /\ view_eq (sqlite_view d') (sqlite_view d)
    /\ (b = true <->
        (exists r, In r (t_users d) /\ ur_id r = u /\ ur_enabled r = true)
        /\ (has_enabled_entry d u ct \/ has_enabled_entry d u "*")).
Proof.
  intros Hok Hu. exists (access_granted (sqlite_view d) u ct), (snd (Check now u ct ident d)).
  split; [|split].
  { unfold Check, access_granted. rewrite (proj2 (String.eqb_neq u "") Hu). cbn.
    destruct (sql_IsUserEnabled u d); [|done]. cbn. destruct (sql_IsAllowed u ct d); [done|]. cbn.
    by destruct (sql_IsAllowed u "*" d). }
  { unfold Check. rewrite (proj2 (String.eqb_neq u "") Hu). cbn.
    destruct (sql_IsUserEnabled u d); [|done]. cbn. destruct (sql_IsAllowed u ct d); [done|]. cbn.
    by destruct (sql_IsAllowed u "*" d). }
  unfold access_granted. rewrite (proj2 (String.eqb_neq u "") Hu). cbn [negb andb v_enabled v_allowed sqlite_view].
  rewrite andb_true_iff, orb_true_iff, user_enabled_iff by done.
  destruct (allowed_cases d u ct Hok) as [H1 H2]. destruct (allowed_cases d u "*" Hok) as [H3 H4].
  tauto.
Qed.

(** Deleting a user takes everything away: afterwards the guard refuses
    the account on every channel, it owns no identity and has no agent, job or policy;
    the access of every other user is as before, and so is the owner of every
    identity another user had. *)
Lemma delete_user_revokes u d d' :
  u <> "" -> db_ok d -> sql_DeleteUser u d = (Ok tt, d') ->
  (forall ct, access_granted (sqlite_view d') u ct = false)
  /\ (forall c i, sql_ResolveIdentity c i d' <> u)
  /\ sql_ListAgents u d' = [] /\ ListCronJobsByUser u d' = [] /\ ListAtJobsByUser u d' = []
  /\ ListUserPolicies u d' = []
  /\ (forall v ct, v <> u ->
        access_granted (sqlite_view d') v ct = access_granted (sqlite_view d) v ct)
  /\ (forall c i, sql_ResolveIdentity c i d <> u ->
        sql_ResolveIdentity c i d' = sql_ResolveIdentity c i d).
Proof.
  intros Hu Hok. unfold sql_DeleteUser. destruct (has_user u d); [|done]. intros [= <-].
  assert (Hself : forall x, (x =? u)%string = true -> negb (x =? u)%string = false)
    by (intros x ->; done).
  assert (Hother : forall v x, v <> u -> (x =? v)%string = true -> negb (x =? u)%string = true).
  { intros v x Hv Hx. apply String.eqb_eq in Hx as ->. by apply negb_true_iff, String.eqb_neq. }
  repeat split.
  - intros ct. unfold access_granted. cbn [v_enabled sqlite_view sql_IsUserEnabled t_users].
    unfold sql_IsUserEnabled. cbn [t_users]. rewrite find_filter_none by auto. by destruct (negb _).
  - intros c i. unfold sql_ResolveIdentity. cbn [t_identities].
    destruct (List.find _ _) as [r|] eqn:E; [|by intros <-].
    apply find_some in E as [Hin _]. apply filter_In in Hin as [_ Hne].
    by apply negb_true_iff, String.eqb_neq in Hne.
  - unfold sql_ListAgents. cbn [t_agents]. rewrite (proj2 (String.eqb_neq u "") Hu).
    by rewrite (filter_filter_nil (fun r => (gr_user r =? u)%string)) by auto.
  - unfold ListCronJobsByUser. cbn [t_cron].
    by rewrite (filter_filter_nil (fun r => (jb_UserID r =? u)%string)) by auto.
  - unfold ListAtJobsByUser. cbn [t_at].
    by rewrite (filter_filter_nil (fun r => (jb_UserID r =? u)%string)) by auto.
  - unfold ListUserPolicies. cbn [t_policies].
    by rewrite (filter_filter_nil (fun r => (pr_user r =? u)%string)) by auto.
  - intros v ct Hv. unfold access_granted. cbn [v_enabled v_allowed sqlite_view].
    assert (Ha : forall p, (forall r, p r = true -> al_user r = v) ->
      List.find p (List.filter (fun r => negb (al_user r =? u)%string) (t_allowed d))
      = List.find p (t_allowed d)).
    { intros p Hp. apply find_filter_ne. intros r Hr. apply negb_true_iff, String.eqb_neq.
      by rewrite (Hp _ Hr). }
    unfold sql_IsUserEnabled, sql_IsAllowed. cbn [t_users t_allowed].
    rewrite find_filter_ne by eauto.
    by rewrite !Ha by (intros r [? _]%is_entry_iff; done).
  - intros c i Hne. unfold sql_ResolveIdentity in *. cbn [t_identities].
    destruct (List.find (is_identity c i) (t_identities d)) as [r|] eqn:E.
    + apply find_some in E as [Hin Hp].
      rewrite (find_unique identity_key _ _ r); [done|apply NoDup_map_filter, Hok|..|done|].
      * apply filter_In. split; [done|]. by apply negb_true_iff, String.eqb_neq.
      * intros x Hx. unfold is_identity, identity_key in *. bool_hyps. congruence.
    + apply find_none_iff in E.
      rewrite (proj2 (find_none_iff _ _)); [done|]. apply not_true_is_false.
      intros (r & [Hin _]%filter_In & Hp)%existsb_exists.
      by rewrite (existsb_false_In _ _ _ E Hin) in Hp.
Qed.

(** An identity belongs to its first owner: linking an identity never
    fails for an existing user, never changes the owner it already has, gives
    it to the user when it had none, and leaves every other identity alone. *)
Lemma identity_first_owner now u c i d :
  u <> "" -> db_ok d -> has_user u d = true -> Forall (fun r => ir_user r <> "") (t_identities d) ->
  exists d', sql_AddIdentity now u c i d = (Ok tt, d')
  /\ sql_ResolveIdentity c i d'
     = (if (sql_ResolveIdentity c i d =? "")%string then u else sql_ResolveIdentity c i d)
  /\ (forall c' i', (c', i') <> (c, i) -> sql_ResolveIdentity c' i' d' = sql_ResolveIdentity c' i' d).
Proof.
  intros Hu Hok Hhas Hne. unfold sql_AddIdentity. rewrite Hhas.
  destruct (existsb (is_identity c i) (t_identities d)) eqn:E.
  - exists d. split; [done|]. split; [|done]. unfold sql_ResolveIdentity.
    destruct (List.find _ _) as [r|] eqn:Ef; [|apply find_none_iff in Ef; congruence].
    apply find_some in Ef as [Hin _]. apply list_elem_of_In in Hin.
    rewrite list.Forall_forall in Hne. by rewrite (proj2 (String.eqb_neq _ "") (Hne _ Hin)).
  - eexists. split; [done|]. unfold sql_ResolveIdentity, set_identities. cbn [t_identities].
    apply find_none_iff in E. rewrite E. split.
    + rewrite find_app, E. simpl. unfold is_identity at 1. cbn [ir_channel ir_identity].
      by rewrite !String.eqb_refl.
    + intros c' i' Hk. rewrite find_app. cbn [List.find].
      destruct (List.find (is_identity c' i') (t_identities d)); [done|].
      unfold is_identity at 1. cbn [ir_channel ir_identity].
      destruct (String.eqb_spec c c'), (String.eqb_spec i i'); simpl; congruence.
Qed.
End access.

(** ** Witnesses: two users, one with a disabled channel entry and an enabled
    wildcard. *)
Definition demo_db : Db :=
  fold_left (fun d o => db_step o d)
    [OCreateUser 0 "u" "Al" "" []; OCreateUser 0 "v" "Bo" "" [];
     OSetAllowed 0 "u" "slack" false "admin"; OSetAllowed 0 "u" "*" true "admin";
     OAddIdentity 0 "u" "slack" "U1"; OAddIdentity 0 "v" "slack" "U2";
     OAddCron (Build_job "j" "u" "@daily" "p" [])] empty_db.

Lemma demo_db_ok : db_ok demo_db.
Proof.
  split; try (apply (bool_decide_unpack _); vm_compute; exact I);
    intros r Hin; simpl in Hin; repeat destruct Hin as [<-|Hin]; try reflexivity; done.
Qed.

Lemma sqlite_access_witness :
  exists b d', @Check Db (sqlite_repository) 7 "u" "slack" "U1" demo_db = (Ok b, d')
  /\ view_eq (sqlite_view d') (sqlite_view demo_db)
  /\ (b = true <->
      (exists r, In r (t_users demo_db) /\ ur_id r = "u" /\ ur_enabled r = true)
      /\ (has_enabled_entry demo_db "u" "slack" \/ has_enabled_entry demo_db "u" "*")).
Proof. apply (sqlite_access); [apply demo_db_ok|discriminate]. Defined.

Lemma delete_user_revokes_witness :
  access_granted (sqlite_view (snd (sql_DeleteUser "u" demo_db))) "u" "slack" = false
  /\ access_granted (sqlite_view demo_db) "u" "slack" = true.
Proof.
  split; [|reflexivity].
  apply (delete_user_revokes "u" demo_db); [discriminate|apply demo_db_ok|reflexivity].
Defined.

Lemma identity_first_owner_witness :
  exists d', sql_AddIdentity 9 "v" "slack" "U1" demo_db = (Ok tt, d')
  /\ sql_ResolveIdentity "slack" "U1" d'
     = (if (sql_ResolveIdentity "slack" "U1" demo_db =? "")%string then "v"
        else sql_ResolveIdentity "slack" "U1" demo_db)
  /\ (forall c' i', (c', i') <> ("slack", "U1") ->
        sql_ResolveIdentity c' i' d' = sql_ResolveIdentity c' i' demo_db).
Proof.
  apply identity_first_owner; [discriminate|apply demo_db_ok|reflexivity|].
  simpl. repeat constructor; discriminate.
Defined.
