(* ===== verification/Cache.v ===== *)
(** * The caching repository (internal/datastore/cache.go)

    [CachedRepository] wraps any repository with the TTL cache of package
    go-cache, which is not part of the program: [TTLCache] states what its
    [Get], [Set], [Delete] and [Flush] promise, and [map_cache] is a concrete
    cache with these properties. *)
From Stdlib Require Import ZArith Lia Bool Ascii String List.
From stdpp Require Import base gmap strings option fin_maps list.
From S2P Require Import Prelude GoString Models Repo Sqlite SqliteProofs.

Local Open Scope string_scope.

(** ** The cache *)

(** The dynamic values the wrapper stores. *)
Inductive cval := CBool (b : bool) | CStr (s : string) | CPolicy (p : option PolicyData) | CAgent (a : Agent).

Class TTLCache (C : Type) := {
  cget : Z -> string -> C -> option cval;         (* Get at a clock value *)
  cset : Z -> string -> cval -> Z -> C -> C;      (* Set with a TTL *)
  cdel : string -> C -> C;
  cflush : C -> C;
  cempty : C;
  cget_empty : forall t k, cget t k cempty = None;
  cget_set_ne : forall t t0 k k' v ttl c, k <> k' -> cget t k' (cset t0 k v ttl c) = cget t k' c;
  (** A stored item is returned until it expires, and not after. *)
  cget_set_live : forall t0 k v ttl c, (0 < ttl)%Z -> cget t0 k (cset t0 k v ttl c) = Some v;
  cget_set_eq : forall t t0 k v v' ttl c,
    cget t k (cset t0 k v ttl c) = Some v' -> v' = v /\ (t <= t0 + ttl)%Z;
  cget_del_eq : forall t k c, cget t k (cdel k c) = None;
  cget_del_ne : forall t k k' c, k <> k' -> cget t k' (cdel k c) = cget t k' c;
  cget_flush : forall t k c, cget t k (cflush c) = None;
  (** What is live later is live now. *)
  cget_mono : forall t t' k v c, (t <= t')%Z -> cget t' k c = Some v -> cget t k c = Some v }.

Definition identityTTL : Z := 60 * time_second.
Definition allowedTTL : Z := 60 * time_second.
Definition userTTL : Z := 60 * time_second.
Definition policyTTL : Z := 300 * time_second.
Definition agentTTL : Z := 60 * time_second.

Definition identityKey (channelType channelIdentity : string) : string :=
  "identity:" +:+ channelType +:+ ":" +:+ channelIdentity.
Definition allowedKey (userID channelType : string) : string :=
  "allowed:" +:+ userID +:+ ":" +:+ channelType.
Definition userEnabledKey (userID : string) : string := "user_enabled:" +:+ userID.
Definition policyKey (userID policyType : string) : string := "policy:" +:+ userID +:+ ":" +:+ policyType.
Definition agentTokenKey (tokenHash : string) : string := "agent_token:" +:+ tokenHash.

(** The type assertion [v.(string)] or [v.(bool)] on a value of another type. *)
Definition panic {A} : result repo_error A := Err "panic: interface conversion".

(** The operations of the interface on agents, policies and users' settings: reads,
    which do not change the store, and writes at a clock value. *)
Class AgentStore (S : Type) := {
  st_GetAgentByTokenHash : string -> S -> result repo_error Agent;
  st_GetUserPolicy : string -> string -> S -> result repo_error (option PolicyData);
  st_UpdateUser : Z -> string -> UpdateUserRequest -> S -> result repo_error User * S;
  st_SetUserPolicy : Z -> string -> string -> PolicyData -> S -> result repo_error unit * S;
  st_DeleteUserPolicy : string -> string -> S -> result repo_error unit * S;
  st_RotateAgentToken : Z -> string -> string -> string -> S -> result repo_error unit * S;
  st_UpdateAgentStatus : Z -> string -> AgentStatus -> option string -> S -> result repo_error unit * S;
  st_SetAgentRMQUsername : Z -> string -> string -> S -> result repo_error unit * S;
  st_RevokeAgent : Z -> string -> S -> result repo_error unit * S;
  st_DeleteAgent : string -> S -> result repo_error unit * S }.

#[export] Instance sqlite_agents : AgentStore Db := {
  st_GetAgentByTokenHash := GetAgentByTokenHash;
  st_GetUserPolicy := GetUserPolicy;
  st_UpdateUser := UpdateUser;
  st_SetUserPolicy := SetUserPolicy;
  st_DeleteUserPolicy u p d := (Ok tt, DeleteUserPolicy u p d);
  st_RotateAgentToken now a h p d := (Ok tt, RotateAgentToken now a h p d);
  st_UpdateAgentStatus now a st m d := (Ok tt, UpdateAgentStatus now a st m d);
  st_SetAgentRMQUsername now a r d := (Ok tt, SetAgentRMQUsername now a r d);
  st_RevokeAgent now a d := (Ok tt, RevokeAgent now a d);
  st_DeleteAgent := DeleteAgent }.

Record Cached (S C : Type) := { inner : S; cache : C }.
Arguments inner {S C}. Arguments cache {S C}. Arguments Build_Cached {S C}.

Section cached.
Context {S C : Type} `{HRepo : Repository S} `{HStore : AgentStore S} `{HCache : TTLCache C}.
Abbreviation st := (Cached S C).

(** ** Cached reads *)

Definition cached_ResolveIdentity (now : Z) (channelType channelIdentity : string) (s : st)
    : result repo_error string * st :=
  let key := identityKey channelType channelIdentity in
  match cget now key (cache s) with
  | Some (CStr v) => (Ok v, s)
  | Some _ => (panic, s)
  | None =>
      match ResolveIdentity now channelType channelIdentity (inner s) with
      | (Err e, i) => (Err e, Build_Cached i (cache s))
      | (Ok userID, i) =>
          (Ok userID, Build_Cached i (cset now key (CStr userID) identityTTL (cache s)))
      end
  end.

Definition cached_IsAllowed (now : Z) (userID channelType : string) (s : st)
    : result repo_error bool * st :=
  let key := allowedKey userID channelType in
  match cget now key (cache s) with
  | Some (CBool v) => (Ok v, s)
  | Some _ => (panic, s)
  | None =>
      match IsAllowed now userID channelType (inner s) with
      | (Err e, i) => (Err e, Build_Cached i (cache s))
      | (Ok allowed, i) =>
          (Ok allowed, Build_Cached i (cset now key (CBool allowed) allowedTTL (cache s)))
      end
  end.

Definition cached_IsUserEnabled (now : Z) (userID : string) (s : st)
    : result repo_error bool * st :=
  let key := userEnabledKey userID in
  match cget now key (cache s) with
  | Some (CBool v) => (Ok v, s)
  | Some _ => (panic, s)
  | None =>
      match IsUserEnabled now userID (inner s) with
      | (Err e, i) => (Err e, Build_Cached i (cache s))
      | (Ok enabled, i) =>
          (Ok enabled, Build_Cached i (cset now key (CBool enabled) userTTL (cache s)))
      end
  end.

Definition cached_GetUserPolicy (now : Z) (userID policyType : string) (s : st)
    : result repo_error (option PolicyData) * st :=
  let key := policyKey userID policyType in
  match cget now key (cache s) with
  | Some (CPolicy v) => (Ok v, s)
  | Some _ => (panic, s)
  | None =>
      match st_GetUserPolicy userID policyType (inner s) with
      | Err e => (Err e, s)
      | Ok data => (Ok data, Build_Cached (inner s) (cset now key (CPolicy data) policyTTL (cache s)))
      end
  end.

Definition cached_GetAgentByTokenHash (now : Z) (tokenHash : string) (s : st) : result repo_error Agent * st :=
  let key := agentTokenKey tokenHash in
  match cget now key (cache s) with
  | Some (CAgent v) => (Ok v, s)
  | Some _ => (panic, s)
  | None =>
      match st_GetAgentByTokenHash tokenHash (inner s) with
      | Err e => (Err e, s)
      | Ok agent => (Ok agent, Build_Cached (inner s) (cset now key (CAgent agent) agentTTL (cache s)))
      end
  end.

(** ** Writes: the inner repository first, then the cache *)

Definition invalidating {A} (r : result repo_error A * S) (f : C -> C) (s : st)
    : result repo_error A * st :=
  match r with
  | (Err e, i) => (Err e, Build_Cached i (cache s))
  | (Ok a, i) => (Ok a, Build_Cached i (f (cache s)))
  end.

Definition cached_AddIdentity (now : Z) (u c i : string) (s : st) :=
  invalidating (AddIdentity now u c i (inner s)) (cdel (identityKey c i)) s.
Definition cached_RemoveIdentity (now : Z) (id : Z) (s : st) :=
  invalidating (RemoveIdentity now id (inner s)) (fun c => c) s.
Definition cached_SetAllowed (now : Z) (u c : string) (e : bool) (by_ : string) (s : st) :=
  invalidating (SetAllowed now u c e by_ (inner s)) (cdel (allowedKey u c)) s.
Definition cached_RemoveAllowed (now : Z) (u c : string) (s : st) :=
  invalidating (RemoveAllowed now u c (inner s)) (cdel (allowedKey u c)) s.
Definition cached_DeleteUser (now : Z) (u : string) (s : st) :=
  invalidating (DeleteUser now u (inner s)) (cdel (userEnabledKey u)) s.

Definition cached_UpdateUser (now : Z) (u : string) (updates : UpdateUserRequest) (s : st) :=
  invalidating (st_UpdateUser now u updates (inner s)) (cdel (userEnabledKey u)) s.
Definition cached_SetUserPolicy (now : Z) (u p : string) (data : PolicyData) (s : st) :=
  invalidating (st_SetUserPolicy now u p data (inner s)) (cdel (policyKey u p)) s.
Definition cached_DeleteUserPolicy (u p : string) (s : st) :=
  invalidating (st_DeleteUserPolicy u p (inner s)) (cdel (policyKey u p)) s.
Definition cached_RotateAgentToken (now : Z) (a hash prefix : string) (s : st) :=
  invalidating (st_RotateAgentToken now a hash prefix (inner s)) cflush s.
Definition cached_UpdateAgentStatus (now : Z) (a : string) (status : AgentStatus) (meta : option string) (s : st) :=
  invalidating (st_UpdateAgentStatus now a status meta (inner s)) cflush s.
Definition cached_DeleteAgent (a : string) (s : st) := invalidating (st_DeleteAgent a (inner s)) cflush s.
Definition cached_RevokeAgent (now : Z) (a : string) (s : st) := invalidating (st_RevokeAgent now a (inner s)) cflush s.

Definition pass_through {A} (r : result repo_error A * S) (s : st) : result repo_error A * st :=
  (fst r, Build_Cached (snd r) (cache s)).

Definition cached_SetAgentRMQUsername (now : Z) (a r : string) (s : st) :=
  pass_through (st_SetAgentRMQUsername now a r (inner s)) s.

#[export] Instance cached_repository : Repository st := {
  IsUserEnabled := cached_IsUserEnabled;
  ResolveIdentity := cached_ResolveIdentity;
  AddIdentity := cached_AddIdentity;
  RemoveIdentity := cached_RemoveIdentity;
  IsAllowed := cached_IsAllowed;
  SetAllowed := cached_SetAllowed;
  RemoveAllowed := cached_RemoveAllowed;
  DeleteUser := cached_DeleteUser;
  ListUsers now s := pass_through (ListUsers now (inner s)) s;
  ListAgents now u s := pass_through (ListAgents now u (inner s)) s;
  LogAdminAction now e s := pass_through (LogAdminAction now e (inner s)) s }.

(** ** Keys do not collide *)

Lemma identityKey_inj c i c' i' :
  plain c -> plain c' -> identityKey c i = identityKey c' i' -> c = c' /\ i = i'.
Proof. intros Hc Hc' Hk%str_app_inj_l. by apply field_inj in Hk. Qed.

Lemma allowedKey_inj u c u' c' :
  plain u -> plain u' -> allowedKey u c = allowedKey u' c' -> u = u' /\ c = c'.
Proof. intros Hc Hc' Hk%str_app_inj_l. by apply field_inj in Hk. Qed.

Lemma userEnabledKey_inj u u' : userEnabledKey u = userEnabledKey u' -> u = u'.
Proof. apply str_app_inj_l. Qed.

Lemma policyKey_inj u p u' p' : plain u -> plain u' -> policyKey u p = policyKey u' p' -> u = u' /\ p = p'.
Proof. intros Hc Hc' Hk%str_app_inj_l. by apply field_inj in Hk. Qed.

Lemma agentTokenKey_inj h h' : agentTokenKey h = agentTokenKey h' -> h = h'.
Proof. apply str_app_inj_l. Qed.

(** Keys of the five kinds start differently. *)
Lemma key_kinds u c i u' c' p h :
  identityKey c i <> allowedKey u c' /\ identityKey c i <> userEnabledKey u' /\ allowedKey u c' <> userEnabledKey u'
  /\ policyKey u p <> identityKey c i /\ policyKey u p <> allowedKey u' c' /\ policyKey u p <> userEnabledKey u'
  /\ agentTokenKey h <> identityKey c i /\ agentTokenKey h <> allowedKey u' c' /\ agentTokenKey h <> userEnabledKey u'
  /\ agentTokenKey h <> policyKey u p.
Proof. done. Qed.

(** ** The wrapper implements the interface *)

Context `{!RepositorySpec S}.

(** Values under the keys of a kind have the kind's type. *)
Definition typed (s : st) : Prop :=
  (forall now u v, cget now (userEnabledKey u) (cache s) = Some v -> exists b, v = CBool b)
  /\ (forall now u c v, cget now (allowedKey u c) (cache s) = Some v -> exists b, v = CBool b)
  /\ (forall now c i v, cget now (identityKey c i) (cache s) = Some v -> exists x, v = CStr x).

Definition cached_view (now : Z) (s : st) : access_view :=
  let v := view now (inner s) in {|
  v_enabled u := match cget now (userEnabledKey u) (cache s) with
                 | Some (CBool b) => b | _ => v_enabled v u end;
  v_allowed u c := match cget now (allowedKey u c) (cache s) with
                   | Some (CBool b) => b | _ => v_allowed v u c end;
  v_owner c i := match cget now (identityKey c i) (cache s) with
                 | Some (CStr x) => x | _ => v_owner v c i end |}.

(** A value stored under a key: other keys, and later clocks, see nothing new. *)
Lemma typed_set s i' key v ttl now :
  typed s ->
  (forall u, key = userEnabledKey u -> exists b, v = CBool b) ->
  (forall u c, key = allowedKey u c -> exists b, v = CBool b) ->
  (forall c i, key = identityKey c i -> exists x, v = CStr x) ->
  typed (Build_Cached i' (cset now key v ttl (cache s))).
Proof.
  intros (T1 & T2 & T3) H1 H2 H3. unfold typed; cbn [cache].
  split; [|split]; intros *;
    match goal with |- cget _ ?k _ = _ -> _ => destruct (decide (key = k)) as [->|Hne] end;
    try (rewrite cget_set_ne by done; eauto);
    intros [-> _]%cget_set_eq; eauto.
Qed.

Lemma view_set_eq now s i' key v ttl :
  view_eq (view now i') (view now (inner s)) -> (0 < ttl)%Z ->
  cget now key (cache s) = None ->
  (forall u, key = userEnabledKey u -> v = CBool (v_enabled (view now (inner s)) u)) ->
  (forall u c, plain u -> key = allowedKey u c -> v = CBool (v_allowed (view now (inner s)) u c)) ->
  (forall c i, plain c -> key = identityKey c i -> v = CStr (v_owner (view now (inner s)) c i)) ->
  view_eq (cached_view now (Build_Cached i' (cset now key v ttl (cache s)))) (cached_view now s).
Proof.
  intros (V1 & V2 & V3) Httl Hmiss H1 H2 H3. unfold cached_view; cbn [cache inner].
  split; [|split]; cbn [v_enabled v_allowed v_owner]; intros *; try intros Hp;
    match goal with |- context [cget _ ?k (cset _ _ _ _ _)] => destruct (decide (key = k)) as [->|Hne] end;
    try (rewrite cget_set_ne by done; rewrite ?V1, ?V2, ?V3 by done; done);
    rewrite cget_set_live, Hmiss by done; [by rewrite (H1 _ eq_refl)|by rewrite (H2 _ _ Hp eq_refl)|by rewrite (H3 _ _ Hp eq_refl)].
Qed.

#[export] Program Instance cached_spec : RepositorySpec st := {
  repo_ok s := repo_ok (inner s) /\ typed s;
  view := cached_view }.
Next Obligation.
  intros now u s [Hok Ht]. unfold IsUserEnabled, cached_repository, cached_IsUserEnabled.
  unfold cached_view at 1. cbn [v_enabled].
  destruct (cget now (userEnabledKey u) (cache s)) as [v|] eqn:E.
  - destruct (proj1 Ht _ _ _ E) as [b ->]. by exists s.
  - destruct (spec_enabled now u (inner s) Hok) as (i' & -> & Hok' & Hv). eexists.
    split; [done|]. split; [split; [done|]|].
    + apply typed_set; [done|eauto..]; by intros.
    + apply view_set_eq; auto; try by intros.
      by intros ? <-%userEnabledKey_inj.
Qed.
Next Obligation.
  intros now u c s [Hok Ht] Hp. unfold IsAllowed, cached_repository, cached_IsAllowed.
  unfold cached_view at 1. cbn [v_allowed].
  destruct (cget now (allowedKey u c) (cache s)) as [v|] eqn:E.
  - destruct (proj1 (proj2 Ht) _ _ _ _ E) as [b ->]. by exists s.
  - destruct (spec_allowed now u c (inner s) Hok Hp) as (i' & -> & Hok' & Hv). eexists.
    split; [done|]. split; [split; [done|]|].
    + apply typed_set; [done|eauto..]; by intros.
    + apply view_set_eq; auto; try by intros.
      by intros ? ? ? [<- <-]%allowedKey_inj.
Qed.
Next Obligation.
  intros now c i s [Hok Ht] Hp. unfold ResolveIdentity, cached_repository, cached_ResolveIdentity.
  unfold cached_view at 1. cbn [v_owner].
  destruct (cget now (identityKey c i) (cache s)) as [v|] eqn:E.
  - destruct (proj2 (proj2 Ht) _ _ _ _ E) as [x ->]. by exists s.
  - destruct (spec_resolve now c i (inner s) Hok Hp) as (i' & -> & Hok' & Hv). eexists.
    split; [done|]. split; [split; [done|]|].
    + apply typed_set; [done|eauto..]; by intros.
    + apply view_set_eq; auto; try by intros.
      by intros ? ? ? [<- <-]%identityKey_inj.
Qed.
Next Obligation.
  intros now e s [Hok Ht]. unfold LogAdminAction, cached_repository, pass_through. cbn [snd inner].
  destruct (spec_audit now e (inner s) Hok) as [Hok' (V1 & V2 & V3)]. split; [done|].
  unfold cached_view. cbn [inner cache].
  split; [|split]; cbn [v_enabled v_allowed v_owner]; intros; by rewrite ?V1, ?V2, ?V3.
Qed.

(** ** What a write makes visible *)

Lemma invalidating_ok {A} (r : result repo_error A * S) f s a s' :
  invalidating r f s = (Ok a, s') -> r = (Ok a, inner s') /\ cache s' = f (cache s).
Proof. unfold invalidating. destruct r as [[x|e] i]; [|done]. by intros [= <- <-]. Qed.

(** Read your writes: after a write through the wrapper succeeds, the
    question it answers is answered by the inner repository at once, whatever
    was cached: the allowlist entry set or removed, the enabled flag of a
    deleted user, the owner of an added identity. *)
Lemma cached_writes_visible now u c s s' now' :
  ((exists e b, cached_SetAllowed now u c e b s = (Ok tt, s')) \/ cached_RemoveAllowed now u c s = (Ok tt, s') ->
     v_allowed (cached_view now' s') u c = v_allowed (view now' (inner s')) u c)
  /\ (cached_DeleteUser now u s = (Ok tt, s') ->
     v_enabled (cached_view now' s') u = v_enabled (view now' (inner s')) u)
  /\ (forall i, cached_AddIdentity now u c i s = (Ok tt, s') ->
     v_owner (cached_view now' s') c i = v_owner (view now' (inner s')) c i).
Proof.
  split; [|split].
  - intros [(e & b & Hs)|Hs]; apply invalidating_ok in Hs as [_ Hc];
      cbn [cached_view v_allowed]; by rewrite Hc, cget_del_eq.
  - intros Hs; apply invalidating_ok in Hs as [_ Hc];
      cbn [cached_view v_enabled]; by rewrite Hc, cget_del_eq.
  - intros i Hs; apply invalidating_ok in Hs as [_ Hc];
      cbn [cached_view v_owner]; by rewrite Hc, cget_del_eq.
Qed.

(** ** Staleness

    A history of the inner repository: its states with the clock value at
    which the wrapper saw them, newest first.  Between the wrapper's reads the
    inner repository may change in any way ([HChange]: another process, or a
    write that does not touch the cached entry), and writes drop entries. *)
Inductive history : list (Z * S) -> Z -> st -> Prop :=
| HStart t i : repo_ok i -> history [(t, i)] t (Build_Cached i cempty)
| HEnabled h t now u s : history h t s -> (t <= now)%Z ->
    history ((now, inner s) :: h) now (snd (cached_IsUserEnabled now u s))
| HAllowed h t now u c s : history h t s -> (t <= now)%Z -> plain u ->
    history ((now, inner s) :: h) now (snd (cached_IsAllowed now u c s))
| HResolve h t now c i s : history h t s -> (t <= now)%Z -> plain c ->
    history ((now, inner s) :: h) now (snd (cached_ResolveIdentity now c i s))
| HPolicy h t now u p s : history h t s -> (t <= now)%Z -> plain u ->
    history ((now, inner s) :: h) now (snd (cached_GetUserPolicy now u p s))
| HAgent h t now hash s : history h t s -> (t <= now)%Z ->
    history ((now, inner s) :: h) now (snd (cached_GetAgentByTokenHash now hash s))
| HChange h t now i s : history h t s -> (t <= now)%Z -> repo_ok i ->
    history ((now, i) :: h) now (Build_Cached i (cache s))
| HDelete h t now i key s : history h t s -> (t <= now)%Z -> repo_ok i ->
    history ((now, i) :: h) now (Build_Cached i (cdel key (cache s)))
| HFlush h t now i s : history h t s -> (t <= now)%Z -> repo_ok i ->
    history ((now, i) :: h) now (Build_Cached i (cflush (cache s))).

(** [v] was the answer of [f] at a point of the history at most [ttl] old. *)
Definition seen {A} (h : list (Z * S)) (now ttl : Z) (f : Z -> S -> A) (v : A) : Prop :=
  exists t i, In (t, i) h /\ (t <= now <= t + ttl)%Z /\ v = f t i.

(** What may be found under a key. *)
Definition genuine (h : list (Z * S)) (now : Z) (k : string) (v : cval) : Prop :=
  (forall u, k = userEnabledKey u -> exists b, v = CBool b /\ seen h now userTTL (fun t i => v_enabled (view t i) u) b)
  /\ (forall u c, plain u -> k = allowedKey u c -> exists b, v = CBool b /\ seen h now allowedTTL (fun t i => v_allowed (view t i) u c) b)
  /\ (forall c i, plain c -> k = identityKey c i -> exists x, v = CStr x /\ seen h now identityTTL (fun t r => v_owner (view t r) c i) x)
  /\ (forall u p, plain u -> k = policyKey u p -> exists d, v = CPolicy d /\ seen h now policyTTL (fun _ i => st_GetUserPolicy u p i) (Ok d))
  /\ (forall hash, k = agentTokenKey hash -> exists a, v = CAgent a /\ seen h now agentTTL (fun _ i => st_GetAgentByTokenHash hash i) (Ok a)).

Definition fresh (h : list (Z * S)) (t : Z) (s : st) : Prop :=
  forall now k v, (t <= now)%Z -> cget now k (cache s) = Some v -> genuine h now k v.

Lemma seen_cons {A} h p now ttl (f : Z -> S -> A) v : seen h now ttl f v -> seen (p :: h) now ttl f v.
Proof. intros (t & i & Hin & Ht & Hv). exists t, i. simpl. auto. Qed.

Lemma seen_now {A} h t now ttl (f : Z -> S -> A) i : (t <= now <= t + ttl)%Z -> seen ((t, i) :: h) now ttl f (f t i).
Proof. intros Ht. exists t, i. simpl. auto. Qed.

Lemma genuine_cons h p now k v : genuine h now k v -> genuine (p :: h) now k v.
Proof.
  intros (G1 & G2 & G3 & G4 & G5). split_and!; intros *.
  - intros E. destruct (G1 _ E) as (? & ? & ?). eauto using seen_cons.
  - intros Hp E. destruct (G2 _ _ Hp E) as (? & ? & ?). eauto using seen_cons.
  - intros Hp E. destruct (G3 _ _ Hp E) as (? & ? & ?). eauto using seen_cons.
  - intros Hp E. destruct (G4 _ _ Hp E) as (? & ? & ?). eauto using seen_cons.
  - intros E. destruct (G5 _ E) as (? & ? & ?). eauto using seen_cons.
Qed.

(** A cache whose live items were live before stays fresh. *)
Lemma fresh_sub h t now p s s' :
  fresh h t s -> (t <= now)%Z ->
  (forall now' k v, cget now' k (cache s') = Some v -> cget now' k (cache s) = Some v) ->
  fresh (p :: h) now s'.
Proof. intros Hf Ht Hsub now' k v Hnow Hg. apply genuine_cons, Hf; [lia|by apply Hsub]. Qed.

(** Storing the inner repository's answer. *)
Lemma fresh_set h t now key v ttl s i' :
  fresh h t s -> (t <= now)%Z ->
  (forall now', (now <= now' <= now + ttl)%Z -> genuine ((now, inner s) :: h) now' key v) ->
  fresh ((now, inner s) :: h) now (Build_Cached i' (cset now key v ttl (cache s))).
Proof.
  intros Hf Ht Hv now' k w Hnow'. cbn [cache]. destruct (decide (key = k)) as [->|Hne].
  - intros [-> Hexp]%cget_set_eq. by apply Hv.
  - rewrite cget_set_ne by done. intros Hg. apply genuine_cons, Hf; [lia|done].
Qed.

(** The answer is genuine under its key, and no key of another kind is that one. *)
Ltac genuine_answer inj :=
  let Ek := fresh "Ek" in intros ? ?; split_and!; intros *; first [intros ? Ek|intros Ek]; try done;
  first [apply inj in Ek as [<- <-]; [|done..]|apply inj in Ek as <-]; eexists; (split; [reflexivity|]).

Lemma history_ok h t s : history h t s -> repo_ok (inner s) /\ fresh h t s.
Proof.
  induction 1 as [t i Hi|h t now u s Hh [Hok Hf] Ht|h t now u c s Hh [Hok Hf] Ht Hp
    |h t now c i s Hh [Hok Hf] Ht Hp|h t now u p s Hh [Hok Hf] Ht Hp|h t now hash s Hh [Hok Hf] Ht|h t now i s Hh [Hok Hf] Ht Hi
    |h t now i key s Hh [Hok Hf] Ht Hi|h t now i s Hh [Hok Hf] Ht Hi].
  - split; [done|]. intros now k v _. cbn [cache]. by rewrite cget_empty.
  - unfold cached_IsUserEnabled. destruct (cget now (userEnabledKey u) (cache s)) as [v|] eqn:E.
    + split; [by destruct v|]. apply (fresh_sub h t now _ s); [done|done|by destruct v].
    + destruct (spec_enabled now u (inner s) Hok) as (i' & -> & Hok' & Hv). split; [done|].
      apply (fresh_set h t); [done..|]. genuine_answer userEnabledKey_inj. by apply (seen_now _ _ _ _ (fun t i => v_enabled (view t i) u)).
  - unfold cached_IsAllowed. destruct (cget now (allowedKey u c) (cache s)) as [v|] eqn:E.
    + split; [by destruct v|]. apply (fresh_sub h t now _ s); [done|done|by destruct v].
    + destruct (spec_allowed now u c (inner s) Hok Hp) as (i' & -> & Hok' & Hv). split; [done|].
      apply (fresh_set h t); [done..|]. genuine_answer allowedKey_inj. by apply (seen_now _ _ _ _ (fun t i => v_allowed (view t i) u c)).
  - unfold cached_ResolveIdentity. destruct (cget now (identityKey c i) (cache s)) as [v|] eqn:E.
    + split; [by destruct v|]. apply (fresh_sub h t now _ s); [done|done|by destruct v].
    + destruct (spec_resolve now c i (inner s) Hok Hp) as (i' & -> & Hok' & Hv). split; [done|].
      apply (fresh_set h t); [done..|]. genuine_answer identityKey_inj. by apply (seen_now _ _ _ _ (fun t r => v_owner (view t r) c i)).
  - unfold cached_GetUserPolicy. destruct (cget now (policyKey u p) (cache s)) as [v|] eqn:E.
    + split; [by destruct v|]. apply (fresh_sub h t now _ s); [done|done|by destruct v].
    + destruct (st_GetUserPolicy u p (inner s)) as [d|e] eqn:Ep; [|split; [done|]; by apply (fresh_sub h t now _ s)].
      split; [done|]. apply (fresh_set h t); [done..|]. genuine_answer policyKey_inj. rewrite <- Ep. by apply (seen_now _ _ _ _ (fun _ i => st_GetUserPolicy u p i)).
  - unfold cached_GetAgentByTokenHash. destruct (cget now (agentTokenKey hash) (cache s)) as [v|] eqn:E.
    + split; [by destruct v|]. apply (fresh_sub h t now _ s); [done|done|by destruct v].
    + destruct (st_GetAgentByTokenHash hash (inner s)) as [a|e] eqn:Ep; [|split; [done|]; by apply (fresh_sub h t now _ s)].
      split; [done|]. apply (fresh_set h t); [done..|]. genuine_answer agentTokenKey_inj. rewrite <- Ep. by apply (seen_now _ _ _ _ (fun _ i => st_GetAgentByTokenHash hash i)).
  - split; [done|]. by apply (fresh_sub h t now _ s).
  - split; [done|]. apply (fresh_sub h t now _ s); [done|done|]. cbn [cache]. intros now' k v.
    destruct (decide (key = k)) as [->|Hne]; [by rewrite cget_del_eq|by rewrite cget_del_ne].
  - split; [done|]. apply (fresh_sub h t now _ s); [done|done|]. cbn [cache]. intros now' k v.
    by rewrite cget_flush.
Qed.

(** C36: Bounded staleness: in any history of the wrapper (reads, writes, and
    arbitrary changes of the inner repository behind its back) an answer is
    never older than its TTL: it is the inner repository's current one or one
    it would have given at a point of the history at most 60 seconds ago, or 300
    for a policy. *)
Theorem cached_staleness h t s now u c i p hash :
  history h t s -> (t <= now)%Z -> plain u -> plain c ->
  let h := (now, inner s) :: h in
  seen h now userTTL (fun t r => v_enabled (view t r) u) (v_enabled (view now s) u)
  /\ seen h now allowedTTL (fun t r => v_allowed (view t r) u c) (v_allowed (view now s) u c)
  /\ seen h now identityTTL (fun t r => v_owner (view t r) c i) (v_owner (view now s) c i)
  /\ seen h now policyTTL (fun _ r => st_GetUserPolicy u p r) (fst (cached_GetUserPolicy now u p s))
  /\ seen h now agentTTL (fun _ r => st_GetAgentByTokenHash hash r) (fst (cached_GetAgentByTokenHash now hash s)).
Proof.
  intros Hh Ht Hu Hc h'. destruct (history_ok _ _ _ Hh) as [_ Hf].
  assert (Hnow : forall A ttl (f : Z -> S -> A), (0 <= ttl)%Z -> seen h' now ttl f (f now (inner s))) by (intros; apply seen_now; lia).
  cbn [view cached_spec cached_view v_enabled v_allowed v_owner]. unfold cached_GetUserPolicy, cached_GetAgentByTokenHash.
  split_and!.
  - destruct (cget now (userEnabledKey u) _) as [v|] eqn:E; [|by apply (Hnow _ _ (fun t r => v_enabled (view t r) u))].
    apply (Hf _ _ _ Ht) in E as (G & _). destruct (G u eq_refl) as (b & -> & Hs). by apply seen_cons.
  - destruct (cget now (allowedKey u c) _) as [v|] eqn:E; [|by apply (Hnow _ _ (fun t r => v_allowed (view t r) u c))].
    apply (Hf _ _ _ Ht) in E as (_ & G & _). destruct (G u c Hu eq_refl) as (b & -> & Hs). by apply seen_cons.
  - destruct (cget now (identityKey c i) _) as [v|] eqn:E; [|by apply (Hnow _ _ (fun t r => v_owner (view t r) c i))].
    apply (Hf _ _ _ Ht) in E as (_ & _ & G & _). destruct (G c i Hc eq_refl) as (b & -> & Hs). by apply seen_cons.
  - destruct (cget now (policyKey u p) _) as [v|] eqn:E.
    + apply (Hf _ _ _ Ht) in E as (_ & _ & _ & G & _). destruct (G u p Hu eq_refl) as (b & -> & Hs). by apply seen_cons.
    + pose proof (Hnow _ policyTTL (fun _ r => st_GetUserPolicy u p r)) as Hp. cbn beta in Hp. destruct (st_GetUserPolicy u p (inner s)); by apply Hp.
  - destruct (cget now (agentTokenKey hash) _) as [v|] eqn:E.
    + apply (Hf _ _ _ Ht) in E as (_ & _ & _ & _ & G). destruct (G hash eq_refl) as (b & -> & Hs). by apply seen_cons.
    + pose proof (Hnow _ agentTTL (fun _ r => st_GetAgentByTokenHash hash r)) as Hp. cbn beta in Hp. destruct (st_GetAgentByTokenHash hash (inner s)); by apply Hp.
Qed.

(** A token that is rotated, and the one of an agent that is revoked, deleted or
    given another status, is looked up anew, as is a policy that was written. *)
Lemma agent_writes_visible now a s s' now' :
  (exists h p, cached_RotateAgentToken now a h p s = (Ok tt, s')) \/ (exists x m, cached_UpdateAgentStatus now a x m s = (Ok tt, s'))
  \/ cached_RevokeAgent now a s = (Ok tt, s') \/ cached_DeleteAgent a s = (Ok tt, s') ->
  forall hash, fst (cached_GetAgentByTokenHash now' hash s') = st_GetAgentByTokenHash hash (inner s').
Proof.
  intros Hw hash. assert (Hc : cache s' = cflush (cache s)) by (destruct Hw as [(? & ? & H)|[(? & ? & H)|[H|H]]]; by apply invalidating_ok in H as [_ ?]).
  unfold cached_GetAgentByTokenHash. rewrite Hc, cget_flush. by destruct (st_GetAgentByTokenHash hash (inner s')).
Qed.

Lemma policy_writes_visible now u p s s' now' :
  (exists d, cached_SetUserPolicy now u p d s = (Ok tt, s')) \/ cached_DeleteUserPolicy u p s = (Ok tt, s') ->
  fst (cached_GetUserPolicy now' u p s') = st_GetUserPolicy u p (inner s').
Proof.
  intros Hw. assert (Hc : cache s' = cdel (policyKey u p) (cache s)) by (destruct Hw as [(? & H)|H]; by apply invalidating_ok in H as [_ ?]).
  unfold cached_GetUserPolicy. rewrite Hc, cget_del_eq. by destruct (st_GetUserPolicy u p (inner s')).
Qed.
End cached.

(** ** A concrete cache *)

Definition map_get (t : Z) (k : string) (c : gmap string (cval * Z)) : option cval :=
  match c !! k with
  | Some (v, e) => if (t <=? e)%Z then Some v else None
  | None => None
  end.

#[export] Instance map_cache : TTLCache (gmap string (cval * Z)).
Proof.
  refine {|
    cget := map_get;
    cset t k v ttl c := <[k := (v, (t + ttl)%Z)]> c;
    cdel k c := delete k c;
    cflush c := ∅;
    cempty := ∅ |}; intros *; unfold map_get.
  - by rewrite lookup_empty.
  - intros. by rewrite lookup_insert_ne.
  - intros. rewrite lookup_insert_eq. by rewrite (proj2 (Z.leb_le _ _)) by lia.
  - rewrite lookup_insert_eq. case_test; [|done]. by intros [= <-].
  - by rewrite lookup_delete_eq.
  - intros. by rewrite lookup_delete_ne.
  - by rewrite lookup_empty.
  - intros Ht. destruct (c !! k) as [[v' e]|]; [|done]. do 2 case_test; try done; lia.
Defined.

(** ** Witnesses: the wrapper over the SQLite store *)

Abbreviation demo_cached := (Cached Db (gmap string (cval * Z))).

#[local] Instance demo_repository : Repository Db := sqlite_repository.
#[local] Instance demo_spec : RepositorySpec Db := sqlite_spec.

Definition demo_start : demo_cached := Build_Cached demo_db cempty.
(** The wrapper after it answered for the user on the channel. *)
Definition demo_warm : demo_cached := Eval vm_compute in snd (cached_IsAllowed 5 "u" "slack" demo_start).
Lemma demo_warm_eq : snd (cached_IsAllowed 5 "u" "slack" demo_start) = demo_warm.
Proof. vm_compute. reflexivity. Qed.

Lemma cached_writes_visible_witness :
  let s' := snd (cached_SetAllowed 6 "u" "slack" true "admin" demo_warm) in
  v_allowed (view 7 demo_warm) "u" "slack" = false
  /\ v_allowed (view 7 s') "u" "slack" = v_allowed (view 7 (inner s')) "u" "slack"
  /\ v_allowed (view 7 s') "u" "slack" = true.
Proof.
  intros s'. split; [vm_compute; reflexivity|]. split; [|vm_compute; reflexivity].
  apply (cached_writes_visible 6 "u" "slack" demo_warm s' 7). left. exists true, "admin". reflexivity.
Defined.

Lemma demo_history : history [(5%Z, demo_db); (5%Z, demo_db)] 5 demo_warm.
Proof.
  rewrite <- demo_warm_eq. refine (HAllowed [(5%Z, demo_db)] 5 5 "u" "slack" demo_start _ (Z.le_refl 5) eq_refl).
  by apply HStart.
Qed.

Lemma cached_staleness_witness :
  let s := Build_Cached empty_db (cache demo_warm) in
  let h := [(9%Z, empty_db); (9%Z, empty_db); (5%Z, demo_db); (5%Z, demo_db)] in
  seen h 9 userTTL (fun t r => v_enabled (view t r) "u") (v_enabled (view 9 s) "u")
  /\ seen h 9 allowedTTL (fun t r => v_allowed (view t r) "u" "slack") (v_allowed (view 9 s) "u" "slack")
  /\ seen h 9 identityTTL (fun t r => v_owner (view t r) "slack" "U1") (v_owner (view 9 s) "slack" "U1")
  /\ seen h 9 policyTTL (fun _ r => st_GetUserPolicy "u" "tools" r) (fst (cached_GetUserPolicy 9 "u" "tools" s))
  /\ seen h 9 agentTTL (fun _ r => st_GetAgentByTokenHash "h" r) (fst (cached_GetAgentByTokenHash 9 "h" s)).
Proof.
  intros s h. apply (cached_staleness [(9%Z, empty_db); (5%Z, demo_db); (5%Z, demo_db)] 9 s);
    [|lia|reflexivity|reflexivity].
  apply (HChange _ 5); [exact demo_history|lia|done].
Defined.

(** ** What the cache keeps of an agent *)

Definition agent_db : Db := snd (ProvisionAgent 0 "u" "home" "h" "npa" demo_db).
Definition agent_warm : demo_cached := snd (cached_GetAgentByTokenHash 5 "h" (Build_Cached agent_db cempty)).
Definition found (r : result repo_error Agent * demo_cached) : option (string * AgentStatus) :=
  match fst r with Ok a => Some (ag_RMQUsername a, ag_Status a) | Err _ => None end.

(** After a user is deleted, or an agent is given a user name, its token is answered
    from the cache. *)
Example deleted_user_token :
  let s := snd (cached_DeleteUser 6 "u" agent_warm) in
  found (cached_GetAgentByTokenHash 7 "h" s) = Some ("", AgentStatusProvisioned)
  /\ GetAgentByTokenHash "h" (inner s) = Err "agent not found".
Proof. vm_compute. done. Qed.

Example renamed_agent_token :
  let s := snd (cached_SetAgentRMQUsername 6 "agt-u-home" "agent-u" agent_warm) in
  found (cached_GetAgentByTokenHash 7 "h" s) = Some ("", AgentStatusProvisioned)
  /\ found (cached_GetAgentByTokenHash 7 "h" (snd (cached_RevokeAgent 8 "agt-u-home" s))) = Some ("agent-u", AgentStatusRevoked).
Proof. vm_compute. done. Qed.
