(* ===== verification/Resolver.v ===== *)
(** * Session key resolution (internal/gateway/resolver.go) *)
From Stdlib Require Import ZArith Lia Bool Ascii String List.
From stdpp Require Import base strings option list.
From S2P Require Import Prelude GoString SessionKey Models.

Local Open Scope string_scope.

Definition nonempty (s : string) : bool := negb (s =? "")%string.

(** The identifier the channel's metadata gives, if the metadata has the
    channel's type and the field is set. *)
Definition channel_session (msg : NipperMessage) : option string :=
  let ct := nm_ChannelType msg in
  match nm_Meta msg with
  | Some (MetaWhatsApp meta) =>
      if (ct =? ChannelTypeWhatsApp)%string && nonempty (wa_ChatJID meta)
      then Some (wa_ChatJID meta) else None
  | Some (MetaSlack meta) =>
      if (ct =? ChannelTypeSlack)%string && nonempty (sl_ChannelID meta)
      then Some (if nonempty (sl_ThreadTS meta)
                 then sl_ChannelID meta +:+ "-" +:+ sl_ThreadTS meta
                 else sl_ChannelID meta)
      else None
  | Some (MetaCron meta) =>
      if (ct =? ChannelTypeCron)%string && nonempty (cr_JobID meta)
      then Some (cr_JobID meta) else None
  | Some (MetaMqtt meta) =>
      if (ct =? ChannelTypeMQTT)%string && nonempty (mq_ClientID meta)
      then Some (mq_ClientID meta) else None
  | Some (MetaRabbitMq meta) =>
      if (ct =? ChannelTypeRabbitMQ)%string then
        if nonempty (rb_CorrelationID meta) then Some (rb_CorrelationID meta)
        else if nonempty (rb_RoutingKey meta) then Some (rb_RoutingKey meta) else None
      else None
  | _ => None
  end.

Definition deriveSessionID (msg : NipperMessage) : string :=
  match channel_session msg with
  | Some s => SanitizeSessionID s
  | None =>
      if nonempty (nm_ChannelIdentity msg) then SanitizeSessionID (nm_ChannelIdentity msg)
      else SanitizeSessionID (nm_MessageID msg)
  end.

Inductive resolve_error := ErrNoUserID.

Definition Resolve (msg : NipperMessage) : result resolve_error string :=
  if (nm_UserID msg =? "")%string then Err ErrNoUserID
  else Ok (BuildSessionKey (nm_UserID msg) (nm_ChannelType msg) (deriveSessionID msg)).

(** ** Lemmas *)

Lemma derive_safe msg : is_safe_id (deriveSessionID msg) = true.
Proof.
  unfold deriveSessionID. destruct (channel_session msg); [|destruct (nonempty _)];
    apply sanitize_is_safe.
Qed.

Lemma resolve_ok msg :
  nm_UserID msg <> "" ->
  Resolve msg = Ok (BuildSessionKey (nm_UserID msg) (nm_ChannelType msg) (deriveSessionID msg)).
Proof. intros H. unfold Resolve. by rewrite str_eqb_nonempty. Qed.

Lemma resolve_parse msg :
  nm_UserID msg <> "" -> nm_ChannelType msg <> "" ->
  lacks ":" (nm_UserID msg) = true -> lacks ":" (nm_ChannelType msg) = true ->
  exists key, Resolve msg = Ok key
    /\ ParseSessionKey key
       = Ok (KeyParts (nm_UserID msg) (nm_ChannelType msg) (deriveSessionID msg))
    /\ is_safe_id (deriveSessionID msg) = true.
Proof.
  intros Hu Hc Lu Lc. eexists. split; [by apply resolve_ok|]. split; [|apply derive_safe].
  apply build_parse; auto. apply safe_id_nonempty, derive_safe.
Qed.

(** ** Theorems *)

(** The resolved key is the agent's address of the session: for a message
    with a user and a channel without a colon, [Resolve] succeeds, and the
    agent's [ParseSessionKey] reads back the user, the channel and a session
    identifier that is a safe path component. *)
Lemma resolve_key_parses msg :
  nm_UserID msg <> "" -> nm_ChannelType msg <> "" ->
  lacks ":" (nm_UserID msg) = true -> lacks ":" (nm_ChannelType msg) = true ->
  exists key sid, Resolve msg = Ok key
    /\ ParseSessionKey key = Ok (KeyParts (nm_UserID msg) (nm_ChannelType msg) sid)
    /\ is_safe_id sid = true.
Proof.
  intros Hu Hc Lu Lc. destruct (resolve_parse msg Hu Hc Lu Lc) as (key & H1 & H2 & H3). eauto.
Qed.

Definition with_wa (user ct ident chat sender : string) : NipperMessage :=
  {| nm_MessageID := "m"; nm_OriginMessageID := ""; nm_UserID := user; nm_SessionKey := "";
     nm_ChannelType := ct; nm_ChannelIdentity := ident;
     nm_Content := Build_MessageContent "hi" [];
     nm_DeliveryContext := zero_DeliveryContext;
     nm_Meta := Some (MetaWhatsApp (Build_WhatsAppMeta "" "" "" chat sender "" "" true false
                                      "" "" false "" "" ""));
     nm_Timestamp := 0; nm_DedupeKey := "" |}.

Lemma resolve_key_parses_witness :
  exists key sid, Resolve (with_wa "usr_1" "whatsapp" "1@lid" "55:2@g.us" "1@s") = Ok key
    /\ ParseSessionKey key = Ok (KeyParts "usr_1" "whatsapp" sid)
    /\ is_safe_id sid = true.
Proof. apply (resolve_key_parses (with_wa "usr_1" "whatsapp" "1@lid" "55:2@g.us" "1@s")); done. Defined.

(** Everyone in a WhatsApp chat shares the session: two messages of the
    same user in the same chat resolve to the same key, whoever sent them,
    under whichever identity and message id they arrived. *)
Lemma whatsapp_session_per_chat m1 m2 w1 w2 :
  nm_UserID m1 = nm_UserID m2 ->
  nm_ChannelType m1 = ChannelTypeWhatsApp -> nm_ChannelType m2 = ChannelTypeWhatsApp ->
  nm_Meta m1 = Some (MetaWhatsApp w1) -> nm_Meta m2 = Some (MetaWhatsApp w2) ->
  wa_ChatJID w1 = wa_ChatJID w2 -> wa_ChatJID w1 <> "" ->
  Resolve m1 = Resolve m2.
Proof.
  intros Hu Hc1 Hc2 Hm1 Hm2 Hj Hne. unfold Resolve, deriveSessionID, channel_session.
  rewrite Hu, Hc1, Hc2, Hm1, Hm2, <- Hj. unfold nonempty. by rewrite (str_eqb_nonempty (wa_ChatJID w1)) by done.
Qed.

Lemma whatsapp_session_per_chat_witness :
  Resolve (with_wa "u" "whatsapp" "1@lid" "g@g.us" "1@s")
  = Resolve (with_wa "u" "whatsapp" "2@lid" "g@g.us" "2@s").
Proof.
  apply (whatsapp_session_per_chat (with_wa "u" "whatsapp" "1@lid" "g@g.us" "1@s")
    (with_wa "u" "whatsapp" "2@lid" "g@g.us" "2@s")
    (Build_WhatsAppMeta "" "" "" "g@g.us" "1@s" "" "" true false "" "" false "" "" "")
    (Build_WhatsAppMeta "" "" "" "g@g.us" "2@s" "" "" true false "" "" false "" "" ""));
  try reflexivity. discriminate.
Defined.
