(* ===== verification/Collect.v ===== *)
(** * Collect buffers (internal/gateway/router.go: enqueueCollect, flushCollectBuffer)

    In collect mode the router keeps a buffer per user and channel, flushed as
    one queue item when a debounce timer fires or when a cap is reached.  A
    flush runs in a goroutine of its own: the one [time.AfterFunc] starts when
    the timer fires, or the one [enqueueCollect] starts at the cap.  The state
    holds the buffers (guarded by [collectMu]), the armed timers and the flush
    goroutines that have not yet taken the mutex; [cstep] interleaves the
    critical sections in any order.  A batch is published after its goroutine has
    given the mutex back, in any order and with an answer that may be an error;
    [preach] adds these publications. *)
From Stdlib Require Import ZArith Lia Bool Ascii String List.
From stdpp Require Import base gmap strings option fin_maps list.
From S2P Require Import Prelude GoString Models.

Local Open Scope string_scope.

(** ** Configuration (internal/config/config.go) *)

Record ChannelQueueMode := {
  cq_Mode : string;
  cq_Priority : Z;
  cq_DebounceMS : Z;
  cq_CollectCap : Z }.

Record QueueConfig := {
  qc_DefaultMode : string;
  qc_PerChannel : gmap string ChannelQueueMode }.

(** ** State *)

Record collectBuffer := {
  cb_msgs : list NipperMessage;
  cb_timer : nat;            (* the timer of the buffer *)
  cb_cap : Z;
  cb_mode : QueueMode;
  cb_priority : Z }.

Record Collect := {
  c_buffers : gmap string collectBuffer;
  c_timers : gmap nat (Z * string);   (* armed timers: debounce, key flushed *)
  c_next : nat;                       (* timers created so far *)
  c_flushing : list string }.         (* flush goroutines before the mutex *)

Definition NewCollect : Collect := Build_Collect ∅ ∅ 0 [].

(** The batch a flush takes out of a buffer. *)
Record batch := {
  bt_key : string;
  bt_msgs : list NipperMessage;
  bt_mode : QueueMode;
  bt_priority : Z }.

(** ** Operations *)

Definition bufKey (msg : NipperMessage) : string :=
  nm_UserID msg +:+ ":" +:+ nm_ChannelType msg.

(** The cap and the debounce of a new buffer. *)
Definition collect_settings (cfg : option QueueConfig) (ct : ChannelType) : Z * Z :=
  let capVal := 5%Z in
  let debounce := (2 * time_second)%Z in
  match cfg with
  | None => (capVal, debounce)
  | Some q =>
      match qc_PerChannel q !! ct with
      | None => (capVal, debounce)
      | Some chCfg =>
          (if (0 <? cq_CollectCap chCfg)%Z then cq_CollectCap chCfg else capVal,
           if (0 <? cq_DebounceMS chCfg)%Z then int64 (cq_DebounceMS chCfg * time_millisecond) else debounce)
      end
  end.

(** The buffer of the message's key, opened with its timer if there is none. *)
Definition open_buffer (cfg : option QueueConfig) (msg : NipperMessage) (mode : QueueMode)
    (priority : Z) (c : Collect) : collectBuffer * Collect :=
  let key := bufKey msg in
  match c_buffers c !! key with
  | Some buf => (buf, c)
  | None =>
      let '(capVal, debounce) := collect_settings cfg (nm_ChannelType msg) in
      let buf := {| cb_msgs := []; cb_timer := c_next c; cb_cap := capVal;
                    cb_mode := mode; cb_priority := priority |} in
      (buf, {| c_buffers := <[key := buf]> (c_buffers c);
               c_timers := <[c_next c := (debounce, key)]> (c_timers c);
               c_next := S (c_next c);
               c_flushing := c_flushing c |})
  end.

Definition append_msg (key : string) (msg : NipperMessage) (buf : collectBuffer) (c : Collect) : Collect :=
  let buf := {| cb_msgs := (cb_msgs buf ++ [msg])%list; cb_timer := cb_timer buf;
                cb_cap := cb_cap buf; cb_mode := cb_mode buf; cb_priority := cb_priority buf |} in
  let full := (cb_cap buf <=? Z.of_nat (length (cb_msgs buf)))%Z in
  {| c_buffers := <[key := buf]> (c_buffers c);
     c_timers := if full then delete (cb_timer buf) (c_timers c) else c_timers c;
     c_next := c_next c;
     c_flushing := if full then (c_flushing c ++ [key])%list else c_flushing c |}.

Definition enqueueCollect (cfg : option QueueConfig) (msg : NipperMessage) (mode : QueueMode)
    (priority : Z) (c : Collect) : Collect :=
  let '(buf, c) := open_buffer cfg msg mode priority c in
  append_msg (bufKey msg) msg buf c.

(** The critical section of [flushCollectBuffer]. *)
Definition takeCollect (key : string) (c : Collect) : option batch * Collect :=
  match c_buffers c !! key with
  | None => (None, c)
  | Some buf =>
      match cb_msgs buf with
      | [] => (None, c)
      | msgs =>
          (Some {| bt_key := key; bt_msgs := msgs; bt_mode := cb_mode buf;
                   bt_priority := cb_priority buf |},
           {| c_buffers := delete key (c_buffers c); c_timers := c_timers c;
              c_next := c_next c; c_flushing := c_flushing c |})
      end
  end.

(** The item published for a batch; its primary message is the last one. *)
Definition collect_item (uuid : string) (now : Z) (b : batch) : option QueueItem :=
  (fun primary => {| qi_ID := uuid; qi_Message := primary; qi_Mode := bt_mode b;
                     qi_Priority := bt_priority b; qi_EnqueuedAt := now;
                     qi_CollectedMessages := bt_msgs b |}) <$> list.last (bt_msgs b).

(** What becomes of a batch once it is taken: [publisher] is [None] for nil and
    gives the error of its [n]-th call; a batch that is not published is logged
    and gone. *)
Inductive outcome :=
| Published (item : QueueItem)
| PublishFailed (e : string)
| NoPublisher
| EmptyBatch.   (* the last message of none: a panic *)

Definition publishCollect (publisher : option (nat -> QueueItem -> option string)) (uuid : string) (now : Z) (n : nat)
    (b : batch) : outcome :=
  match collect_item uuid now b with
  | None => EmptyBatch
  | Some item =>
      match publisher with
      | None => NoPublisher
      | Some publish => match publish n item with Some e => PublishFailed e | None => Published item end
      end
  end.

(** A timer fires: its goroutine is about to flush. *)
Definition fireTimer (id : nat) (c : Collect) : Collect :=
  match c_timers c !! id with
  | None => c
  | Some (_, key) =>
      {| c_buffers := c_buffers c; c_timers := delete id (c_timers c);
         c_next := c_next c; c_flushing := (c_flushing c ++ [key])%list |}
  end.

Definition set_flushing (l : list string) (c : Collect) : Collect :=
  {| c_buffers := c_buffers c; c_timers := c_timers c; c_next := c_next c; c_flushing := l |}.

(** ** Executions *)

Section steps.
Variable cfg : option QueueConfig.

Inductive collect_event :=
| EvEnqueue (msg : NipperMessage) (mode : QueueMode) (priority : Z)
| EvTimer (id : nat)
| EvFlush (key : string) (b : option batch).

Inductive cstep : collect_event -> Collect -> Collect -> Prop :=
| CEnqueue msg mode priority c :
    cstep (EvEnqueue msg mode priority) c (enqueueCollect cfg msg mode priority c)
| CTimer id d key c : c_timers c !! id = Some (d, key) ->
    cstep (EvTimer id) c (fireTimer id c)
| CFlush l1 key l2 b c c' : c_flushing c = (l1 ++ key :: l2)%list ->
    takeCollect key (set_flushing (l1 ++ l2) c) = (b, c') ->
    cstep (EvFlush key b) c c'.

(** Traces, newest event last. *)
Inductive creach : list collect_event -> Collect -> Prop :=
| CStart : creach [] NewCollect
| CNext tr e c c' : creach tr c -> cstep e c c' -> creach (tr ++ [e]) c'.

(** What was enqueued under a key, and what the flushes took, in order. *)
Definition enqueued (k : string) (tr : list collect_event) : list NipperMessage :=
  flat_map (fun e => match e with
    | EvEnqueue m _ _ => if (bufKey m =? k)%string then [m] else []
    | _ => [] end) tr.

Definition batches (tr : list collect_event) : list batch :=
  flat_map (fun e => match e with EvFlush _ (Some b) => [b] | _ => [] end) tr.

Definition flushed (k : string) (tr : list collect_event) : list NipperMessage :=
  flat_map (fun b => if (bt_key b =? k)%string then bt_msgs b else []) (batches tr).

Definition buffered (k : string) (c : Collect) : list NipperMessage :=
  match c_buffers c !! k with Some b => cb_msgs b | None => [] end.

(** A flush of the key is on its way. *)
Definition will_flush (k : string) (c : Collect) : Prop :=
  k ∈ c_flushing c \/ exists id d, c_timers c !! id = Some (d, k).

(** ** Invariant *)

Record collect_wf (c : Collect) : Prop := {
  wf_key : forall k b, c_buffers c !! k = Some b -> Forall (fun m => bufKey m = k) (cb_msgs b);
  wf_next : forall k b, c_buffers c !! k = Some b -> (cb_timer b < c_next c)%nat;
  wf_distinct : forall k k' b b', c_buffers c !! k = Some b -> c_buffers c !! k' = Some b' ->
    cb_timer b = cb_timer b' -> k = k';
  (** An unflushed buffer's own timer is armed for its key. *)
  wf_armed : forall k b, c_buffers c !! k = Some b ->
    k ∈ c_flushing c \/ exists d, c_timers c !! cb_timer b = Some (d, k) }.

(** Buffers are not empty, and a full one is being flushed: true of every
    buffer between critical sections. *)
Definition settled (c : Collect) (k : string) : Prop :=
  forall b, c_buffers c !! k = Some b ->
    cb_msgs b <> []
    /\ ((cb_cap b <= Z.of_nat (length (cb_msgs b)))%Z -> k ∈ c_flushing c).

Definition collect_ok (c : Collect) : Prop := collect_wf c /\ forall k, settled c k.

Lemma open_buffer_ok msg mode priority c buf c' :
  open_buffer cfg msg mode priority c = (buf, c') -> collect_ok c ->
  collect_wf c' /\ (forall k, k <> bufKey msg -> settled c' k)
  /\ c_buffers c' !! bufKey msg = Some buf
  /\ (forall k, buffered k c' = buffered k c) /\ cb_msgs buf = buffered (bufKey msg) c.
Proof.
  unfold open_buffer, buffered. intros H [[W1 W2 W3 W4] Hs].
  destruct (c_buffers c !! bufKey msg) as [b|] eqn:E.
  { injection H as <- <-. rewrite E. split; [by split|done]. }
  destruct (collect_settings cfg (nm_ChannelType msg)) as [cp db]. injection H as <- <-.
  split; [split|split; [|split; [|split]]]; cbn [c_buffers c_timers c_next c_flushing].
  - intros k b [[<- <-]|[? ?]]%lookup_insert_Some; [constructor|eauto].
  - intros k b [[<- <-]|[? ?]]%lookup_insert_Some; cbn; [lia|]. apply W2 in H0. lia.
  - intros k k' b b' [[<- <-]|[? Hb]]%lookup_insert_Some [[<- <-]|[? Hb']]%lookup_insert_Some; cbn;
      [done|apply W2 in Hb'; lia|apply W2 in Hb; lia|eauto].
  - intros k b [[<- <-]|[? Hb]]%lookup_insert_Some; cbn.
    + right. exists db. by rewrite lookup_insert_eq.
    + destruct (W4 _ _ Hb) as [|[d Hd]]; [by left|]. right. exists d.
      apply W2 in Hb. rewrite lookup_insert_ne by lia. done.
  - intros k Hk b Hb. cbn in *. rewrite lookup_insert_ne in Hb by done. by apply Hs in Hb.
  - by rewrite lookup_insert_eq.
  - intros k. destruct (decide (bufKey msg = k)) as [<-|Hk]; [by rewrite lookup_insert_eq, E|].
    by rewrite lookup_insert_ne.
  - done.
Qed.

Lemma append_msg_ok msg buf c :
  let c' := append_msg (bufKey msg) msg buf c in
  collect_wf c -> (forall k, k <> bufKey msg -> settled c k) ->
  c_buffers c !! bufKey msg = Some buf ->
  collect_ok c'
  /\ forall k, buffered k c' = if (bufKey msg =? k)%string then (cb_msgs buf ++ [msg])%list else buffered k c.
Proof.
  intros c' [W1 W2 W3 W4] Hs Hb. subst c'. unfold append_msg, buffered.
  cbn [cb_cap cb_msgs cb_timer]. set (full := (cb_cap buf <=? _)%Z). split; [split; [split|]|];
    cbn [c_buffers c_timers c_next c_flushing].
  - intros k b [[<- <-]|[? ?]]%lookup_insert_Some; cbn; [|eauto].
    apply Forall_app. split; [eauto|by constructor].
  - intros k b [[<- <-]|[? ?]]%lookup_insert_Some; cbn; eauto.
  - intros k k' b b' [[<- <-]|[? Hb1]]%lookup_insert_Some [[<- <-]|[? Hb2]]%lookup_insert_Some;
      cbn; eauto.
  - intros k b [[<- <-]|[Hk Hb1]]%lookup_insert_Some; cbn.
    + destruct full; [left; set_solver|]. apply (W4 _ _ Hb).
    + destruct (W4 _ _ Hb1) as [|[d Hd]]; [left; destruct full; set_solver|]. right. exists d.
      destruct full; [|done]. rewrite lookup_delete_ne; [done|]. intros He. apply Hk. eauto.
  - intros k b Hb0. cbn in Hb0. apply lookup_insert_Some in Hb0 as [[<- <-]|[Hk Hb1]]; cbn.
    + split; [by intros [_ ?]%app_eq_nil|]. intros Hf%Z.leb_le. subst full. rewrite Hf. set_solver.
    + destruct (Hs k (not_eq_sym Hk) b Hb1) as [? Hcap]. split; [done|]. intros Hf%Hcap.
      destruct full; set_solver.
  - intros k. case_test; subst; [by rewrite lookup_insert_eq|by rewrite lookup_insert_ne].
Qed.

Lemma enqueue_ok msg mode priority c :
  let c' := enqueueCollect cfg msg mode priority c in
  collect_ok c -> collect_ok c'
  /\ forall k, buffered k c' = (buffered k c ++ if (bufKey msg =? k)%string then [msg] else [])%list.
Proof.
  intros c' Hok. subst c'. unfold enqueueCollect.
  destruct (open_buffer cfg msg mode priority c) as [buf c1] eqn:E.
  destruct (open_buffer_ok _ _ _ _ _ _ E Hok) as (W & Hs & Hb & Hold & Hm).
  destruct (append_msg_ok msg buf c1 W Hs Hb) as [Hok' Hnew]. split; [done|].
  intros k. rewrite Hnew, Hold, Hm. case_test; subst; [done|]. by rewrite app_nil_r.
Qed.

Lemma timer_ok id d key c :
  c_timers c !! id = Some (d, key) -> collect_ok c ->
  collect_ok (fireTimer id c) /\ key ∈ c_flushing (fireTimer id c)
  /\ forall k, buffered k (fireTimer id c) = buffered k c.
Proof.
  intros Hid [[W1 W2 W3 W4] Hs]. unfold fireTimer. rewrite Hid.
  split; [split; [split|]|split]; try done; cbn [c_buffers c_timers c_next c_flushing].
  - intros k b Hb. destruct (W4 _ _ Hb) as [|[d' Hd]]; [left; set_solver|].
    destruct (decide (id = cb_timer b)) as [->|Hne]; [left; set_solver|].
    right. exists d'. by rewrite lookup_delete_ne.
  - intros k b Hb. destruct (Hs _ _ Hb) as [? Hc]. split; [done|]. cbn. set_solver.
  - set_solver.
Qed.

(** Taking a batch out, when a flush goroutine of the key runs. *)
Lemma flush_ok l1 key l2 b c c' :
  c_flushing c = (l1 ++ key :: l2)%list ->
  takeCollect key (set_flushing (l1 ++ l2) c) = (b, c') -> collect_ok c ->
  collect_ok c' /\ c_flushing c' = (l1 ++ l2)%list /\ buffered key c' = []
  /\ (forall k, k <> key -> buffered k c' = buffered k c)
  /\ match b with
     | None => buffered key c = []
     | Some b => bt_key b = key /\ bt_msgs b = buffered key c /\ bt_msgs b <> []
                 /\ Forall (fun m => bufKey m = key) (bt_msgs b)
     end.
Proof.
  intros Hf Ht [[W1 W2 W3 W4] Hs]. unfold takeCollect, set_flushing, buffered in *. cbn in Ht.
  assert (Hin : forall k, k <> key -> k ∈ c_flushing c -> k ∈ (l1 ++ l2)%list)
    by (intros k; rewrite Hf; set_solver).
  destruct (c_buffers c !! key) as [buf|] eqn:E.
  - destruct (Hs _ _ E) as [Hne Hcap]. pose proof (W1 _ _ E) as Hall.
    destruct (cb_msgs buf) as [|m ms] eqn:Em; [done|]. injection Ht as <- <-.
    cbn [c_buffers c_timers c_next c_flushing bt_key bt_msgs].
    split; [split; [split|]|]; cbn [c_buffers c_timers c_next c_flushing].
    + intros k b' [? Hb]%lookup_delete_Some. eauto.
    + intros k b' [? Hb]%lookup_delete_Some. eauto.
    + intros k k' b1 b2 [? Hb1]%lookup_delete_Some [? Hb2]%lookup_delete_Some. eauto.
    + intros k b' [? Hb]%lookup_delete_Some. destruct (W4 _ _ Hb); eauto.
    + intros k b' Hb0. cbn in Hb0. apply lookup_delete_Some in Hb0 as [? Hb].
      destruct (Hs _ _ Hb). split; [done|]. cbn; eauto.
    + rewrite lookup_delete_eq. repeat split; try done. intros k Hk. by rewrite lookup_delete_ne.
  - injection Ht as <- <-. cbn [c_buffers c_flushing]. rewrite E.
    split; [split; [split; try done|]|done].
    + intros k b' Hb. cbn in *. assert (k <> key) by congruence. destruct (W4 _ _ Hb); eauto.
    + intros k b' Hb. cbn in *. assert (k <> key) by congruence. destruct (Hs _ _ Hb); eauto.
Qed.
Definition good_batch (b : batch) : Prop :=
  bt_msgs b <> [] /\ Forall (fun m => bufKey m = bt_key b) (bt_msgs b).

(** Every enqueued message is, in order, in a flushed batch or in the buffer. *)
Definition conserved (tr : list collect_event) (c : Collect) : Prop :=
  (forall k, enqueued k tr = (flushed k tr ++ buffered k c)%list) /\ Forall good_batch (batches tr).

Lemma enqueued_snoc k tr e : enqueued k (tr ++ [e]) = (enqueued k tr ++ enqueued k [e])%list.
Proof. apply flat_map_app. Qed.

Lemma batches_snoc tr e : batches (tr ++ [e]) = (batches tr ++ batches [e])%list.
Proof. apply flat_map_app. Qed.

Lemma flushed_snoc k tr e : flushed k (tr ++ [e]) = (flushed k tr ++ flushed k [e])%list.
Proof. unfold flushed. by rewrite batches_snoc, flat_map_app. Qed.

Lemma step_conserved tr e c c' :
  cstep e c c' -> collect_ok c -> conserved tr c -> collect_ok c' /\ conserved (tr ++ [e]) c'.
Proof.
  unfold conserved. intros Hstep Hok [Hc Hb]. rewrite batches_snoc, list.Forall_app.
  setoid_rewrite enqueued_snoc. setoid_rewrite flushed_snoc. setoid_rewrite Hc.
  destruct Hstep as [msg mode pr c|id d key c Hid|l1 key l2 b c c' Hf Ht]; simpl.
  - destruct (enqueue_ok msg mode pr c Hok) as [Hok' Hnew]. split; [done|]. split; [|done].
    intros k. by rewrite Hnew, !app_nil_r, app_assoc.
  - destruct (timer_ok _ _ _ _ Hid Hok) as (Hok' & _ & Hnew). split; [done|]. split; [|done].
    intros k. by rewrite Hnew, !app_nil_r.
  - destruct (flush_ok _ _ _ _ _ _ Hf Ht Hok) as (Hok' & _ & Hnil & Hother & Hbatch).
    split; [done|]. destruct b as [b|]; simpl.
    + destruct Hbatch as (<- & Hm & Hne & Hall). split; [|by repeat constructor].
      intros k. unfold flushed. simpl. case_test; subst; rewrite ?app_nil_r.
      * by rewrite Hnil, app_nil_r, Hm.
      * by rewrite Hother.
    + split; [|by repeat constructor]. intros k. unfold flushed. simpl. rewrite !app_nil_r.
      destruct (decide (k = key)) as [->|Hk]; [by rewrite Hnil, Hbatch|by rewrite Hother].
Qed.

Lemma creach_conserved tr c : creach tr c -> collect_ok c /\ conserved tr c.
Proof.
  induction 1 as [|tr e c c' _ [Hok Hc] Hstep]; [|by eapply step_conserved].
  split; [split; [split|]|split; [done|constructor]]; by intros.
Qed.

(** ** Publication *)

Section publication.
Variable publisher : option (nat -> QueueItem -> option string).

(** With the batches that are taken and not yet handed to the publisher, and what
    became of the others. *)
Record Publishing := {
  p_collect : Collect;
  p_inflight : list batch;
  p_outcomes : list (batch * outcome) }.

(** The critical sections and the publications, which need not come in the order of
    the batches. *)
Inductive preach : list collect_event -> Publishing -> Prop :=
| PStart : preach [] (Build_Publishing NewCollect [] [])
| PSection tr e p c : preach tr p -> cstep e (p_collect p) c ->
    preach (tr ++ [e]) (Build_Publishing c (p_inflight p ++ batches [e]) (p_outcomes p))
| PPublish tr p l1 b l2 uuid now : preach tr p -> p_inflight p = (l1 ++ b :: l2)%list ->
    preach tr (Build_Publishing (p_collect p) (l1 ++ l2)
                 (p_outcomes p ++ [(b, publishCollect publisher uuid now (length (p_outcomes p)) b)])).

(** What the publisher was given for a batch, and what it answered. *)
Definition outcome_of (b : batch) (o : outcome) : Prop :=
  exists item before primary n,
    bt_msgs b = (before ++ [primary])%list /\ qi_Message item = primary /\ qi_CollectedMessages item = bt_msgs b /\
    qi_Mode item = bt_mode b /\ qi_Priority item = bt_priority b /\
    match publisher with
    | None => o = NoPublisher
    | Some publish => (publish n item = None /\ o = Published item) \/ (exists e, publish n item = Some e /\ o = PublishFailed e)
    end.

Lemma publish_outcome uuid now n b : bt_msgs b <> [] -> outcome_of b (publishCollect publisher uuid now n b).
Proof.
  intros Hne. destruct (bt_msgs b) as [|m l _] eqn:E using rev_ind; [done|]. clear Hne.
  set (item := Build_QueueItem uuid m (bt_mode b) (bt_priority b) now (bt_msgs b)).
  assert (Hitem : collect_item uuid now b = Some item) by (unfold collect_item; rewrite E, last_snoc, <- E; done).
  exists item, l, m, n. repeat split; [done|]. unfold publishCollect. rewrite Hitem. destruct publisher as [publish|]; [|done].
  destruct (publish n item) as [e|]; [right; eauto|by left].
Qed.

Lemma preach_creach tr p : preach tr p -> creach tr (p_collect p).
Proof. induction 1 as [|tr e p c _ IH Hs|]; [constructor|by econstructor|done]. Qed.

Lemma preach_batches tr p : preach tr p -> batches tr ≡ₚ (map fst (p_outcomes p) ++ p_inflight p)%list.
Proof.
  induction 1 as [|tr e p c _ IH Hs|tr p l1 b l2 uuid now _ IH Hl]; cbn [p_collect p_inflight p_outcomes]; [done|..].
  - by rewrite batches_snoc, IH, app_assoc.
  - rewrite IH, Hl, map_app, <- Permutation_middle, <- app_assoc. done.
Qed.

Lemma preach_outcomes tr p : preach tr p -> Forall (fun bo => outcome_of (fst bo) (snd bo)) (p_outcomes p).
Proof.
  induction 1 as [|tr e p c _ IH Hs|tr p l1 b l2 uuid now Hr IH Hl]; [constructor|done|]. cbn [p_outcomes].
  apply list.Forall_app. split; [done|]. constructor; [|constructor]. cbn [fst snd]. apply publish_outcome.
  destruct (creach_conserved _ _ (preach_creach _ _ Hr)) as [_ [_ Hg]]. rewrite (preach_batches _ _ Hr), Hl in Hg.
  rewrite !list.Forall_app, Forall_cons in Hg. by destruct Hg as (_ & _ & [Hne _] & _).
Qed.

End publication.

Definition pending_work (c : Collect) : nat := 2 * size (c_timers c) + length (c_flushing c).

Definition is_enqueue (e : collect_event) : bool := match e with EvEnqueue _ _ _ => true | _ => false end.

Lemma step_decreases e c c' :
  cstep e c c' -> is_enqueue e = false -> (pending_work c' < pending_work c)%nat.
Proof.
  unfold pending_work. intros [msg mode pr c1|id d key c1 Hid|l1 key l2 b c1 c2 Hf Ht] He; [done|..].
  - unfold fireTimer. rewrite Hid. cbn [c_timers c_flushing]. rewrite length_app. simpl.
    rewrite map_size_delete_Some by eauto.
    assert (size (c_timers c1) <> 0%nat) by (intros Hz%map_size_empty_inv; by rewrite Hz in Hid).
    lia.
  - assert (c_timers c2 = c_timers c1 /\ c_flushing c2 = (l1 ++ l2)%list) as [-> ->].
    { revert Ht. unfold takeCollect, set_flushing. cbn.
      destruct (c_buffers c1 !! key) as [buf|]; [destruct (cb_msgs buf)|]; by intros [= _ <-]. }
    rewrite Hf, !length_app. simpl. lia.
Qed.

(** C34: No message is stranded: a key with buffered messages always has an
    armed timer or a flush on its way, every timer and flush step makes
    progress, and when none is left everything enqueued has been flushed. *)
Theorem collect_no_stranding tr c :
  creach tr c ->
  (forall k, buffered k c <> [] -> will_flush k c)
  /\ (forall e c', cstep e c c' -> is_enqueue e = false -> (pending_work c' < pending_work c)%nat)
  /\ (pending_work c = 0%nat -> forall k, flushed k tr = enqueued k tr)
  /\ (forall k b, c_buffers c !! k = Some b ->
       (cb_cap b <= Z.of_nat (length (cb_msgs b)))%Z -> k ∈ c_flushing c).
Proof.
  intros H. destruct (creach_conserved _ _ H) as [[[_ _ _ W4] Hs] [Hc _]].
  assert (Hw : forall k, buffered k c <> [] -> will_flush k c).
  { intros k. unfold buffered, will_flush. destruct (c_buffers c !! k) as [b|] eqn:E; [|done].
    intros _. destruct (W4 _ _ E) as [|[d Hd]]; eauto. }
  split; [done|]. split; [intros; by eapply step_decreases|]. split.
  - intros Hz k. unfold pending_work in Hz. rewrite Hc.
    destruct (buffered k c) eqn:E; [by rewrite app_nil_r|].
    destruct (Hw k) as [Hin|(id & d & Hid)]; [by rewrite E|..]; exfalso.
    + destruct (c_flushing c); [set_solver|simpl in Hz; lia].
    + assert (size (c_timers c) = 0%nat) as Ht%map_size_empty_inv by lia. by rewrite Ht in Hid.
  - intros k b Hb. apply (Hs k b Hb).
Qed.
End steps.

(** ** Witnesses: three messages of a user with a cap of two *)

Definition demo_cfg : option QueueConfig :=
  Some (Build_QueueConfig "queue" {[ "slack" := Build_ChannelQueueMode "collect" 0 500 2 ]}).

Definition demo_text (t : string) : NipperMessage :=
  Build_NipperMessage t "" "u" "k" "slack" "U1" (Build_MessageContent t []) zero_DeliveryContext
    None 0 "".

Definition demo_c1 := enqueueCollect demo_cfg (demo_text "a") "collect" 0 NewCollect.
Definition demo_c2 := enqueueCollect demo_cfg (demo_text "b") "collect" 0 demo_c1.
Definition demo_c3 := enqueueCollect demo_cfg (demo_text "c") "collect" 0 demo_c2.
Definition demo_c4 := snd (takeCollect "u:slack" (set_flushing ["u:slack"] demo_c3)).
Definition demo_batch := Build_batch "u:slack" [demo_text "a"; demo_text "b"; demo_text "c"] "collect" 0.

Definition demo_trace : list collect_event :=
  [EvEnqueue (demo_text "a") "collect" 0; EvEnqueue (demo_text "b") "collect" 0;
   EvEnqueue (demo_text "c") "collect" 0; EvFlush "u:slack" (Some demo_batch)].

(** The flush the cap starts takes the third message too. *)
Lemma demo_reach : creach demo_cfg demo_trace demo_c4.
Proof.
  assert (H3 : creach demo_cfg (([] ++ [EvEnqueue (demo_text "a") "collect" 0])
    ++ [EvEnqueue (demo_text "b") "collect" 0] ++ [EvEnqueue (demo_text "c") "collect" 0]) demo_c3).
  { rewrite app_assoc. repeat (eapply CNext; [|apply CEnqueue]). apply CStart. }
  apply (CNext _ _ _ _ _ H3). apply (CFlush _ [] "u:slack" ["u:slack"]); reflexivity.
Qed.

(** A publisher whose first call fails, and the publication of the batch. *)
Definition demo_publisher : option (nat -> QueueItem -> option string) :=
  Some (fun n _ => if (n =? 0)%nat then Some "closed" else None).

Lemma demo_preach publisher : preach demo_cfg publisher demo_trace
  (Build_Publishing demo_c4 [] [(demo_batch, publishCollect publisher "id" 7 0 demo_batch)]).
Proof.
  pose proof (PSection _ _ _ _ _ _ (PStart demo_cfg publisher) (CEnqueue demo_cfg (demo_text "a") "collect" 0 NewCollect)) as H1.
  pose proof (PSection _ _ _ _ _ _ H1 (CEnqueue demo_cfg (demo_text "b") "collect" 0 demo_c1)) as H2.
  pose proof (PSection _ _ _ _ _ _ H2 (CEnqueue demo_cfg (demo_text "c") "collect" 0 demo_c2)) as H3.
  pose proof (PSection demo_cfg publisher _ (EvFlush "u:slack" (Some demo_batch)) _ demo_c4 H3
    (CFlush demo_cfg [] "u:slack" ["u:slack"] (Some demo_batch) demo_c3 demo_c4 eq_refl eq_refl)) as H4.
  exact (PPublish demo_cfg publisher _ _ [] demo_batch [] "id" 7 H4 eq_refl).
Qed.


(** Two batches of a key in flight: the later one may be published first. *)
Lemma collect_overtakes tr p b1 b2 publish (uuid : string) (now : Z) :
  preach demo_cfg (Some publish) tr p -> p_inflight p = [b1; b2] -> p_outcomes p = [] ->
  exists p', preach demo_cfg (Some publish) tr p' /\ map fst (p_outcomes p') = [b2; b1] /\ p_inflight p' = [].
Proof.
  intros H Hi Ho. pose proof (PPublish _ _ _ _ [b1] b2 [] uuid now H Hi) as H1.
  pose proof (PPublish _ _ _ _ [] b1 [] uuid now H1 eq_refl) as H2. eexists. split; [exact H2|]. cbn. by rewrite Ho.
Qed.

Lemma collect_no_stranding_witness :
  (buffered "u:slack" demo_c4 <> [] -> will_flush "u:slack" demo_c4)
  /\ c_flushing demo_c4 = ["u:slack"].
Proof. split; [|reflexivity]. apply (collect_no_stranding _ _ _ demo_reach). Defined.
