(* ===== verification/Router.v ===== *)
(** * Message router (internal/gateway/router.go)

    The pipeline every inbound message takes: resolve the user, ask the guard,
    resolve the session key, register the delivery, suppress duplicates, and
    publish the message or hand it to the collect buffers (file Collect).
    The handlers are state-passing functions over [RouterState]; the effects on
    the outside world are its log.  [clk] and [uuid] give the successive
    readings of the clock and of the UUID generator, and a [Publisher] the
    outcome of each publication. *)
From Stdlib Require Import ZArith Lia Bool Ascii String List.
From stdpp Require Import base gmap strings option fin_maps list.
From S2P Require Import Prelude GoString Sha256 SessionKey Models Registry Dedup Repo Guard.
From S2P Require Import Sqlite SqliteProofs Resolver Collect.

Local Open Scope string_scope.

(** ** Updates of a message *)

Definition with_ids (id : string) (ts : Z) (m : NipperMessage) : NipperMessage := {|
  nm_MessageID := id;
  nm_OriginMessageID := nm_OriginMessageID m;
  nm_UserID := nm_UserID m;
  nm_SessionKey := nm_SessionKey m;
  nm_ChannelType := nm_ChannelType m;
  nm_ChannelIdentity := nm_ChannelIdentity m;
  nm_Content := nm_Content m;
  nm_DeliveryContext := nm_DeliveryContext m;
  nm_Meta := nm_Meta m;
  nm_Timestamp := ts;
  nm_DedupeKey := nm_DedupeKey m |}.

Definition with_route (user session : string) (m : NipperMessage) : NipperMessage := {|
  nm_MessageID := nm_MessageID m;
  nm_OriginMessageID := nm_OriginMessageID m;
  nm_UserID := user;
  nm_SessionKey := session;
  nm_ChannelType := nm_ChannelType m;
  nm_ChannelIdentity := nm_ChannelIdentity m;
  nm_Content := nm_Content m;
  nm_DeliveryContext := nm_DeliveryContext m;
  nm_Meta := nm_Meta m;
  nm_Timestamp := nm_Timestamp m;
  nm_DedupeKey := nm_DedupeKey m |}.

(** ** State and effects *)

Inductive effect :=
| EffNotifyInbound (msg : NipperMessage)
| EffPublishMessage (item : QueueItem) (err : option string)
| EffPublishControl (userID : string) (ctrl : ControlMessage) (err : option string).

Record RouterState (S : Type) := {
  rt_repo : S;
  rt_registry : Registry;
  rt_dedup : Deduplicator;
  rt_collect : Collect;
  rt_tick : nat;
  rt_log : list effect }.
Arguments rt_repo {S}. Arguments rt_registry {S}. Arguments rt_dedup {S}.
Arguments rt_collect {S}. Arguments rt_tick {S}. Arguments rt_log {S}.
Arguments Build_RouterState {S}.

Record Publisher := {
  pub_message : nat -> QueueItem -> option string;
  pub_control : nat -> string -> ControlMessage -> option string }.

Inductive router_error :=
| ErrNormalise (e : string)
| ErrAllowlist (e : guard_error)
| ErrResolver (e : resolve_error)
| ErrNoPublisher
| ErrPublish (e : string).

(** The handlers. *)
Abbreviation M S A := (State (RouterState S) A).
Local Open Scope state_scope.

(** ** Choices made from the message and the configuration *)

Definition PromptHash (text : string) : string := sha256_hex text.

Definition dedupStrategy (msg : NipperMessage) : DeduplicationStrategy :=
  if nonempty (nm_OriginMessageID msg) then DeduplicationByMessageID
  else if nonempty (mc_Text (nm_Content msg)) then DeduplicationByPrompt
  else DeduplicationNone.

Definition deriveDedupKey (msg : NipperMessage) : string :=
  if nonempty (nm_OriginMessageID msg) then nm_OriginMessageID msg
  else if nonempty (mc_Text (nm_Content msg)) then PromptHash (mc_Text (nm_Content msg))
  else "".

Definition queueModeFor (cfg : option QueueConfig) (ct : ChannelType) : QueueMode * Z :=
  match cfg with
  | Some q =>
      match qc_PerChannel q !! ct with
      | Some chCfg => (cq_Mode chCfg, cq_Priority chCfg)
      | None => (if nonempty (qc_DefaultMode q) then qc_DefaultMode q else QueueModeQueue, 0%Z)
      end
  | None => (QueueModeQueue, 0%Z)
  end.

(** The identities under which a sender may be known. *)
Definition candidates (msg : NipperMessage) : list string :=
  nm_ChannelIdentity msg ::
  (if (nm_ChannelType msg =? ChannelTypeWhatsApp)%string then
     match nm_Meta msg with
     | Some (MetaWhatsApp meta) => [wa_SenderJID meta; wa_ChatJID meta]
     | _ => []
     end
   else []).

(** The candidates without empty ones and repetitions, in order. *)
Fixpoint uniq_from (seen : list string) (l : list string) : list string :=
  match l with
  | [] => []
  | c :: l' =>
      if (c =? "")%string || existsb (String.eqb c) seen then uniq_from seen l'
      else c :: uniq_from (c :: seen) l'
  end.

Section router.
Context {S : Type} `{Repository S}.
Variable clk : nat -> Z.
Variable uuid : nat -> string.
Variable cfg : option QueueConfig.
Variable publisher : option Publisher.

(** ** Primitive actions *)

Definition next_tick : M S nat := fun st =>
  (rt_tick st, {| rt_repo := rt_repo st; rt_registry := rt_registry st; rt_dedup := rt_dedup st;
                  rt_collect := rt_collect st; rt_tick := Datatypes.S (rt_tick st); rt_log := rt_log st |}).
Definition time_now : M S Z := do n <- next_tick; sret (clk n).
Definition new_uuid : M S string := do n <- next_tick; sret (uuid n).

Definition on_repo {A} (f : S -> A * S) : M S A := fun st =>
  let '(a, r) := f (rt_repo st) in
  (a, {| rt_repo := r; rt_registry := rt_registry st; rt_dedup := rt_dedup st;
         rt_collect := rt_collect st; rt_tick := rt_tick st; rt_log := rt_log st |}).
Definition on_registry (f : Registry -> Registry) : M S unit := fun st =>
  (tt, {| rt_repo := rt_repo st; rt_registry := f (rt_registry st); rt_dedup := rt_dedup st;
          rt_collect := rt_collect st; rt_tick := rt_tick st; rt_log := rt_log st |}).
Definition on_dedup (f : Deduplicator -> bool * Deduplicator) : M S bool := fun st =>
  let '(b, d) := f (rt_dedup st) in
  (b, {| rt_repo := rt_repo st; rt_registry := rt_registry st; rt_dedup := d;
         rt_collect := rt_collect st; rt_tick := rt_tick st; rt_log := rt_log st |}).
Definition on_collect (f : Collect -> Collect) : M S unit := fun st =>
  (tt, {| rt_repo := rt_repo st; rt_registry := rt_registry st; rt_dedup := rt_dedup st;
          rt_collect := f (rt_collect st); rt_tick := rt_tick st; rt_log := rt_log st |}).
Definition emit (e : effect) : M S unit := fun st =>
  (tt, {| rt_repo := rt_repo st; rt_registry := rt_registry st; rt_dedup := rt_dedup st;
          rt_collect := rt_collect st; rt_tick := rt_tick st; rt_log := (rt_log st ++ [e])%list |}).

(** ** The pipeline *)

(** Tries the candidates in turn; a repository error moves on to the next. *)
Fixpoint resolve_candidates (now : Z) (channel primary : string) (l : list string) : M S string :=
  match l with
  | [] => sret ""
  | identity :: l' =>
      do r <- on_repo (ResolveIdentity now channel identity);
      match r with
      | Err _ => resolve_candidates now channel primary l'
      | Ok userID =>
          if (identity =? primary)%string then sret userID
          else run on_repo (AddIdentity now userID channel primary); sret userID
      end
  end.

Definition resolveUser (msg : NipperMessage) : M S string :=
  if (nm_ChannelIdentity msg =? "")%string then sret ""
  else
    do now <- time_now;
    resolve_candidates now (nm_ChannelType msg) (nm_ChannelIdentity msg) (uniq_from [] (candidates msg)).

Definition buildQueueItem (msg : NipperMessage) (mode : QueueMode) (priority : Z) : M S QueueItem :=
  do id <- new_uuid;
  do now <- time_now;
  sret {| qi_ID := id; qi_Message := msg; qi_Mode := mode; qi_Priority := priority;
          qi_EnqueuedAt := now; qi_CollectedMessages := [] |}.

Definition publishMessage (p : Publisher) (item : QueueItem) : M S (option string) :=
  do n <- next_tick;
  let err := pub_message p n item in
  run emit (EffPublishMessage item err); sret err.

(** Steps 9 and 10: publish, and interrupt the agent in interrupt mode; a
    failed control message is only logged. *)
Definition publish_step (msg : NipperMessage) (mode : QueueMode) (priority : Z)
    : M S (result router_error unit) :=
  do item <- buildQueueItem msg mode priority;
  match publisher with
  | None => sret (Err ErrNoPublisher)
  | Some p =>
      do err <- publishMessage p item;
      match err with
      | Some e => sret (Err (ErrPublish e))
      | None =>
          if (mode =? QueueModeInterrupt)%string then
            do now <- time_now;
            let ctrl := {| cm_Type := ControlMessageInterrupt; cm_UserID := nm_UserID msg;
                           cm_SessionKey := nm_SessionKey msg; cm_Timestamp := now |} in
            do n <- next_tick;
            run emit (EffPublishControl (nm_UserID msg) ctrl (pub_control p n (nm_UserID msg) ctrl));
            sret (Ok tt)
          else sret (Ok tt)
      end
  end.

(** Steps 7 to 10. *)
Definition enqueue_step (msg : NipperMessage) : M S (result router_error unit) :=
  let '(mode, priority) := queueModeFor cfg (nm_ChannelType msg) in
  if (mode =? QueueModeCollect)%string then
    run on_collect (enqueueCollect cfg msg mode priority); sret (Ok tt)
  else publish_step msg mode priority.

(** Steps 5 and 6: the delivery is registered before the duplicate test. *)
Definition register_step (msg : NipperMessage) (onAccepted : bool) : M S (result router_error unit) :=
  do now <- time_now;
  run on_registry (Register (nm_SessionKey msg) (nm_DeliveryContext msg) (nm_Meta msg)
                     (mc_Parts (nm_Content msg)) now);
  do t1 <- time_now;
  do t2 <- time_now;
  do dup <- on_dedup (IsDuplicate (nm_UserID msg) (dedupStrategy msg) (deriveDedupKey msg) t1 t2);
  if (dup : bool) then sret (Ok tt)
  else
    run (if onAccepted then emit (EffNotifyInbound msg) else sret tt);
    enqueue_step msg.

(** Step 4. *)
Definition session_step (msg : NipperMessage) (onAccepted : bool) : M S (result router_error unit) :=
  match Resolve msg with
  | Err e => sret (Err (ErrResolver e))
  | Ok sessionKey => register_step (with_route (nm_UserID msg) sessionKey msg) onAccepted
  end.

(** Step 3: cron messages are not checked. *)
Definition guard_step (msg : NipperMessage) (onAccepted : bool) : M S (result router_error unit) :=
  if negb (nm_ChannelType msg =? ChannelTypeCron)%string then
    do now <- time_now;
    do r <- on_repo (Check now (nm_UserID msg) (nm_ChannelType msg) (nm_ChannelIdentity msg));
    match r with
    | Err e => sret (Err (ErrAllowlist e))
    | Ok false => sret (Ok tt)
    | Ok true => session_step msg onAccepted
    end
  else session_step msg onAccepted.

Definition handle_normalized (msg : NipperMessage) (onAccepted : bool) : M S (result router_error unit) :=
  do id <- (if (nm_MessageID msg =? "")%string then new_uuid else sret (nm_MessageID msg));
  do ts <- (if time_is_zero (nm_Timestamp msg) then time_now else sret (nm_Timestamp msg));
  let msg := with_ids id ts msg in
  do user <- (if (nm_UserID msg =? "")%string then resolveUser msg else sret (nm_UserID msg));
  guard_step (with_route user (nm_SessionKey msg) msg) onAccepted.

Definition handleNormalizedMessage (msg : option NipperMessage) (onAccepted : bool)
    : M S (result router_error unit) :=
  match msg with
  | None => sret (Ok tt)
  | Some msg => handle_normalized msg onAccepted
  end.

(** The entry points. [notifies] is the adapter's optional extension. *)
Definition HandleMessage (normalized : result string (option NipperMessage)) (notifies : bool)
    : M S (result router_error unit) :=
  match normalized with
  | Err e => sret (Err (ErrNormalise e))
  | Ok None => sret (Ok tt)
  | Ok (Some msg) => handleNormalizedMessage (Some msg) notifies
  end.

Definition HandleNormalizedMessage (msg : option NipperMessage) : M S (result router_error unit) :=
  handleNormalizedMessage msg false.

(** [flushCollectBuffer]: the batch is published as one item; a failure is
    logged and the batch dropped. *)
Definition flushCollectBuffer (key : string) : M S unit :=
  do b <- sget (fun st => fst (takeCollect key (rt_collect st)));
  run on_collect (fun c => snd (takeCollect key c));
  match b with
  | None => sret tt
  | Some b =>
      do id <- new_uuid;
      do now <- time_now;
      match collect_item id now b, publisher with
      | Some item, Some p => run publishMessage p item; sret tt
      | _, _ => sret tt
      end
  end.

(** ** Specification

    The gateway is looked at through the access view of its repository, which
    the clock readings of a call are assumed not to change (no cached answer
    expires in the middle of a call). *)

Context `{!RepositorySpec S}.
Hypothesis view_steady : forall s n, view_eq (view (clk n) s) (view (clk 0) s).

Abbreviation view_of st := (view (clk 0) (rt_repo st)).

(** The user a message is from. *)
Definition sender (v : access_view) (msg : NipperMessage) : string :=
  if nonempty (nm_UserID msg) then nm_UserID msg
  else if nonempty (nm_ChannelIdentity msg) then v_owner v (nm_ChannelType msg) (nm_ChannelIdentity msg)
  else "".

(** Nothing but the repository's bookkeeping and the clock moved. *)
Record untouched (st st' : RouterState S) : Prop := {
  u_registry : rt_registry st' = rt_registry st;
  u_dedup : rt_dedup st' = rt_dedup st;
  u_collect : rt_collect st' = rt_collect st;
  u_log : rt_log st' = rt_log st;
  u_ok : repo_ok (rt_repo st) -> repo_ok (rt_repo st');
  u_view : repo_ok (rt_repo st) -> view_eq (view_of st') (view_of st) }.

#[local] Instance untouched_preorder : PreOrder untouched.
Proof.
  split; [by intros st; split|].
  intros st1 st2 st3 [H1 H2 H3 H4 H5 H6] [G1 G2 G3 G4 G5 G6]. split; try congruence; auto.
  intros Hok. rewrite G6 by auto. auto.
Qed.

Lemma tick_untouched st : untouched st (snd (next_tick st)).
Proof. by split. Qed.

Lemma repo_untouched {A} (f : S -> A * S) st n :
  (repo_ok (rt_repo st) -> repo_ok (snd (f (rt_repo st)))
    /\ view_eq (view (clk n) (snd (f (rt_repo st)))) (view (clk n) (rt_repo st))) ->
  untouched st (snd (on_repo f st)) /\ fst (on_repo f st) = fst (f (rt_repo st)).
Proof.
  intros Hf. unfold on_repo. destruct (f (rt_repo st)) as [a r]. simpl. split; [|done].
  split; try done; intros Hok; destruct (Hf Hok) as [Hr Hv]; [done|]. simpl.
  by rewrite <- (view_steady r n), Hv, view_steady.
Qed.

(** The sender is resolved by the primary identity alone. *)
Lemma resolve_candidates_first n channel c l st :
  repo_ok (rt_repo st) -> plain channel ->
  exists st', resolve_candidates (clk n) channel c (c :: l) st = (v_owner (view_of st) channel c, st')
              /\ untouched st st'.
Proof.
  intros Hok Hp. destruct (spec_resolve (clk n) channel c (rt_repo st) Hok Hp) as (s' & Hr & Hok' & Hv).
  destruct (repo_untouched (ResolveIdentity (clk n) channel c) st n) as [Hu _]; [by rewrite Hr|].
  unfold on_repo in Hu. rewrite Hr in Hu. simpl. unfold sbind, on_repo. rewrite Hr.
  rewrite String.eqb_refl. eexists. split; [|exact Hu]. f_equal.
  apply (view_steady (rt_repo st) n), Hp.
Qed.

Lemma resolveUser_spec msg st :
  repo_ok (rt_repo st) -> plain (nm_ChannelType msg) -> nm_UserID msg = "" ->
  exists st', resolveUser msg st = (sender (view_of st) msg, st') /\ untouched st st'.
Proof.
  intros Hok Hp Hu. unfold resolveUser, sender, nonempty. rewrite Hu, String.eqb_refl. cbn [negb].
  destruct (String.eqb_spec (nm_ChannelIdentity msg) "") as [Hi|Hi]; cbn [negb]; [by exists st|].
  unfold candidates. cbn [uniq_from existsb]. rewrite (str_eqb_nonempty _ Hi). cbn [orb].
  match goal with |- context [resolve_candidates _ _ _ (_ :: ?l)] =>
    destruct (resolve_candidates_first (rt_tick st) (nm_ChannelType msg) (nm_ChannelIdentity msg) l
      (snd (next_tick st)) Hok Hp) as (st' & Hr & Hu') end.
  exists st'. split; [exact Hr|]. etrans; [apply tick_untouched|done].
Qed.

Lemma cond_tick (b : bool) {A} (f : nat -> A) (a : A) st :
  exists x st', (if b then (do n <- next_tick; sret (f n)) else sret a) st = (x, st')
    /\ untouched st st' /\ (if b then exists n, x = f n else x = a).
Proof.
  destruct b; simpl; eexists _, _; (split; [reflexivity|]); split; eauto; by split.
Qed.

(** Steps 1 and 2: the message the guard sees. *)
Lemma handle_front msg acc st :
  repo_ok (rt_repo st) -> plain (nm_ChannelType msg) ->
  exists id ts st1, handle_normalized msg acc st
      = guard_step (with_route (sender (view_of st) msg) (nm_SessionKey msg) (with_ids id ts msg)) acc st1
    /\ untouched st st1
    /\ (nm_MessageID msg <> "" -> id = nm_MessageID msg)
    /\ (nm_MessageID msg = "" -> exists n, id = uuid n).
Proof.
  intros Hok Hp. unfold handle_normalized, new_uuid, time_now, sbind.
  destruct (cond_tick (nm_MessageID msg =? "")%string uuid (nm_MessageID msg) st) as (id & st1 & E1 & U1 & Hid).
  unfold sbind in E1. rewrite E1.
  destruct (cond_tick (time_is_zero (nm_Timestamp msg)) clk (nm_Timestamp msg) st1) as (ts & st2 & E2 & U2 & _).
  unfold sbind in E2. rewrite E2.
  assert (U : untouched st st2) by (by etrans).
  assert (Hids : (nm_MessageID msg <> "" -> id = nm_MessageID msg)
                 /\ (nm_MessageID msg = "" -> exists n, id = uuid n))
    by (destruct (String.eqb_spec (nm_MessageID msg) ""); done).
  change (nm_UserID (with_ids id ts msg)) with (nm_UserID msg).
  destruct (String.eqb_spec (nm_UserID msg) "") as [Hu|Hu].
  - destruct (resolveUser_spec (with_ids id ts msg) st2) as (st3 & -> & U3); [by apply U|done|done|].
    exists id, ts, st3. split; [|split; [by etrans|done]]. do 2 f_equal. unfold sender. simpl.
    rewrite Hu. simpl. destruct (nonempty (nm_ChannelIdentity msg)); [|done].
    by apply (u_view _ _ U Hok).
  - exists id, ts, st2. split; [|done]. unfold sender, nonempty. by rewrite (str_eqb_nonempty _ Hu).
Qed.

(** Step 3. *)
Lemma guard_step_spec msg acc st :
  repo_ok (rt_repo st) -> plain (nm_UserID msg) -> nm_ChannelType msg <> ChannelTypeCron ->
  exists st1, untouched st st1
    /\ guard_step msg acc st = if access_granted (view_of st) (nm_UserID msg) (nm_ChannelType msg)
                               then session_step msg acc st1 else (Ok tt, st1).
Proof.
  intros Hok Hp Hc. unfold guard_step. rewrite (proj2 (String.eqb_neq _ _) Hc). simpl.
  unfold sbind, time_now, sbind, next_tick, sret.
  set (st0 := Build_RouterState _ _ _ _ _ _). set (n := rt_tick st).
  destruct (check_decides (clk n) (nm_UserID msg) (nm_ChannelType msg) (nm_ChannelIdentity msg)
    (rt_repo st0) Hok Hp) as (s' & Hr & Hok' & Hv).
  destruct (repo_untouched (Check (clk n) (nm_UserID msg) (nm_ChannelType msg)
    (nm_ChannelIdentity msg)) st0 n) as [Hu Hres]; [by rewrite Hr|].
  destruct (on_repo _ st0) as [res st1] eqn:E. simpl in *. exists st1.
  split; [etrans; [|exact Hu]; by split|]. subst res. rewrite Hr. simpl.
  destruct (view_steady (rt_repo st) n) as (V1 & V2 & V3). unfold access_granted.
  rewrite V1, !V2 by done. by destruct (_ && _ && _).
Qed.

(** Who gets in: a known user the guard grants access, or the user of a cron
    message. *)
Definition admitted (v : access_view) (msg : NipperMessage) : bool :=
  let u := sender v msg in
  if (nm_ChannelType msg =? ChannelTypeCron)%string then nonempty u
  else access_granted v u (nm_ChannelType msg).

Lemma access_granted_eq a b u c :
  view_eq a b -> plain u -> access_granted a u c = access_granted b u c.
Proof. intros (V1 & V2 & _) Hp. unfold access_granted. by rewrite V1, !V2. Qed.

Lemma admitted_sender v msg : admitted v msg = true -> sender v msg <> "".
Proof.
  unfold admitted, access_granted, nonempty. intros Ha Hu. rewrite Hu in Ha. simpl in Ha. by destruct (_ =? _)%string.
Qed.

(** Steps 1 to 4. *)
Lemma handle_admission msg acc st :
  repo_ok (rt_repo st) -> plain (nm_ChannelType msg) -> plain (sender (view_of st) msg) ->
  exists id ts st1, untouched st st1
  /\ (nm_MessageID msg <> "" -> id = nm_MessageID msg)
  /\ handle_normalized msg acc st =
    (if admitted (view_of st) msg then
       let m0 := with_route (sender (view_of st) msg) (nm_SessionKey msg) (with_ids id ts msg) in
       register_step (with_route (sender (view_of st) msg)
         (BuildSessionKey (sender (view_of st) msg) (nm_ChannelType msg) (deriveSessionID m0)) m0) acc st1
     else (if (nm_ChannelType msg =? ChannelTypeCron)%string then Err (ErrResolver ErrNoUserID) else Ok tt, st1)).
Proof.
  intros Hok Hc Hu. destruct (handle_front msg acc st Hok Hc) as (id & ts & st1 & -> & U1 & Hid & _).
  exists id, ts. set (m0 := with_route _ _ _).
  assert (Hsess : forall st', sender (view_of st) msg <> "" -> session_step m0 acc st' =
    register_step (with_route (sender (view_of st) msg)
         (BuildSessionKey (sender (view_of st) msg) (nm_ChannelType msg) (deriveSessionID m0)) m0) acc st').
  { intros st' Hne. unfold session_step. by rewrite resolve_ok. }
  unfold admitted. destruct (String.eqb_spec (nm_ChannelType msg) ChannelTypeCron) as [He|Hne].
  - exists st1. split; [done|]. split; [done|]. unfold guard_step.
    change (nm_ChannelType m0) with (nm_ChannelType msg). rewrite He, String.eqb_refl. cbn [negb].
    rewrite <- He. unfold nonempty. destruct (String.eqb_spec (sender (view_of st) msg) "") as [E|E]; cbn [negb];
      [|by apply Hsess]. unfold session_step, Resolve. change (nm_UserID m0) with (sender (view_of st) msg).
    rewrite E. reflexivity.
  - destruct (guard_step_spec m0 acc st1) as (st2 & U2 & Hg); [by apply U1|done|done|].
    exists st2. split; [by etrans|]. split; [done|].
    change (nm_UserID m0) with (sender (view_of st) msg) in Hg.
    change (nm_ChannelType m0) with (nm_ChannelType msg) in Hg.
    rewrite (access_granted_eq (view_of st1) (view_of st)) in Hg by (done || by apply U1).
    rewrite Hg. destruct (access_granted _ _ _) eqn:E; [|reflexivity]. apply Hsess.
    apply (admitted_sender (view_of st)). unfold admitted.
    by rewrite (proj2 (String.eqb_neq _ _) Hne).
Qed.

(** What happens to an admitted message [m], as the gateway's contract: the
    delivery is registered, and then the message is a duplicate, is buffered,
    or is published (or the failure reported). *)
Definition notes (acc : bool) (m : NipperMessage) : list effect :=
  if acc then [EffNotifyInbound m] else [].

Inductive published (m : NipperMessage) (mode : QueueMode) (priority : Z)
    : list effect -> result router_error unit -> Prop :=
| PubNone : publisher = None -> published m mode priority [] (Err ErrNoPublisher)
| PubFail item e : publisher <> None -> qi_Message item = m ->
    published m mode priority [EffPublishMessage item (Some e)] (Err (ErrPublish e))
| PubOk item : publisher <> None -> qi_Message item = m -> qi_Mode item = mode ->
    qi_Priority item = priority -> qi_CollectedMessages item = [] -> mode <> QueueModeInterrupt ->
    published m mode priority [EffPublishMessage item None] (Ok tt)
| PubInterrupt item ctrl err : publisher <> None -> qi_Message item = m -> qi_Mode item = mode ->
    qi_Priority item = priority -> qi_CollectedMessages item = [] -> mode = QueueModeInterrupt ->
    cm_Type ctrl = ControlMessageInterrupt -> cm_SessionKey ctrl = nm_SessionKey m ->
    cm_UserID ctrl = nm_UserID m ->
    published m mode priority
      [EffPublishMessage item None; EffPublishControl (nm_UserID m) ctrl err] (Ok tt).

Inductive routed (m : NipperMessage) (acc : bool) (t1 t2 : Z) (st st' : RouterState S)
    : result router_error unit -> Prop :=
| RDuplicate :
    fst (IsDuplicate (nm_UserID m) (dedupStrategy m) (deriveDedupKey m) t1 t2 (rt_dedup st)) = true ->
    rt_log st' = rt_log st -> rt_collect st' = rt_collect st ->
    routed m acc t1 t2 st st' (Ok tt)
| RCollected priority :
    fst (IsDuplicate (nm_UserID m) (dedupStrategy m) (deriveDedupKey m) t1 t2 (rt_dedup st)) = false ->
    queueModeFor cfg (nm_ChannelType m) = (QueueModeCollect, priority) ->
    rt_log st' = (rt_log st ++ notes acc m)%list ->
    rt_collect st' = enqueueCollect cfg m QueueModeCollect priority (rt_collect st) ->
    routed m acc t1 t2 st st' (Ok tt)
| RPublished mode priority effs r :
    fst (IsDuplicate (nm_UserID m) (dedupStrategy m) (deriveDedupKey m) t1 t2 (rt_dedup st)) = false ->
    queueModeFor cfg (nm_ChannelType m) = (mode, priority) -> mode <> QueueModeCollect ->
    published m mode priority effs r ->
    rt_log st' = (rt_log st ++ notes acc m ++ effs)%list -> rt_collect st' = rt_collect st ->
    routed m acc t1 t2 st st' r.

Lemma publish_step_spec m mode priority st : exists effs r st',
  publish_step m mode priority st = (r, st') /\ published m mode priority effs r
  /\ rt_log st' = (rt_log st ++ effs)%list /\ rt_collect st' = rt_collect st
  /\ rt_registry st' = rt_registry st /\ rt_dedup st' = rt_dedup st /\ rt_repo st' = rt_repo st.
Proof.
  unfold publish_step, buildQueueItem, new_uuid, time_now, sbind, next_tick, sret.
  destruct publisher as [p|] eqn:Ep.
  2: { eexists [], _, _. split; [reflexivity|]. split; [by constructor|]. simpl. by rewrite app_nil_r. }
  simpl. unfold publishMessage, sbind, next_tick, sret, emit. simpl.
  set (item := Build_QueueItem _ _ _ _ _ _). destruct (pub_message p _ item) as [e|] eqn:Em.
  { eexists [_], _, _. split; [reflexivity|]. simpl. split; [|done]. apply PubFail; [by rewrite Ep|done]. }
  destruct (String.eqb_spec mode QueueModeInterrupt) as [Hi|Hi]; simpl.
  - eexists [_; _], _, _. split; [reflexivity|]. simpl. rewrite <- app_assoc.
    split; [|done]. apply PubInterrupt; try done. by rewrite Ep.
  - eexists [_], _, _. split; [reflexivity|]. simpl. split; [|done]. apply PubOk; try done. by rewrite Ep.
Qed.

Lemma register_step_spec m acc st :
  let now := clk (rt_tick st) in
  let t1 := clk (1 + rt_tick st) in
  let t2 := clk (2 + rt_tick st) in
  exists r st', register_step m acc st = (r, st')
  /\ rt_repo st' = rt_repo st
  /\ rt_registry st' = Register (nm_SessionKey m) (nm_DeliveryContext m) (nm_Meta m)
                         (mc_Parts (nm_Content m)) now (rt_registry st)
  /\ rt_dedup st' = snd (IsDuplicate (nm_UserID m) (dedupStrategy m) (deriveDedupKey m) t1 t2 (rt_dedup st))
  /\ routed m acc t1 t2 st st' r.
Proof.
  cbn zeta. unfold register_step, time_now, sbind, next_tick, sret, on_registry, on_dedup. simpl.
  destruct (IsDuplicate _ _ _ _ _ _) as [dup d'] eqn:Ed. destruct dup.
  { eexists _, _. split; [reflexivity|]. simpl. repeat split. apply RDuplicate; by rewrite ?Ed. }
  set (stn := Build_RouterState _ _ _ _ _ _).
  assert (Hn : exists stm, (if acc then emit (EffNotifyInbound m) else (fun st => (tt, st))) stn = (tt, stm)
    /\ rt_log stm = (rt_log st ++ notes acc m)%list /\ rt_collect stm = rt_collect st
    /\ rt_registry stm = rt_registry stn /\ rt_dedup stm = d' /\ rt_repo stm = rt_repo st).
  { destruct acc; simpl; eexists; (split; [reflexivity|]); simpl; by rewrite ?app_nil_r. }
  destruct Hn as (stm & -> & Hl & Hc & Hr & Hd & Hs). unfold enqueue_step.
  destruct (queueModeFor cfg (nm_ChannelType m)) as [mode priority] eqn:Eq.
  destruct (String.eqb_spec mode QueueModeCollect) as [->|Hm].
  - unfold sbind, on_collect, sret. eexists _, _. split; [reflexivity|]. simpl.
    repeat split; try done. eapply RCollected; simpl; rewrite ?Ed, ?Hc, ?Hl; try done.
  - destruct (publish_step_spec m mode priority stm) as (effs & r & st' & -> & Hp & Hl' & Hc' & Hr' & Hd' & Hs').
    exists r, st'. rewrite Hs', Hr', Hd'. repeat split; try done.
    eapply RPublished; rewrite ?Ed; try done; [|congruence]. by rewrite Hl', Hl, app_assoc.
Qed.

(** C1: The router fails closed: a message whose sender is unknown, disabled
    or not allowed on its channel (for cron: one without a user) leaves no
    trace: nothing is registered, buffered, notified or published, and no
    fingerprint is remembered. *)
Theorem router_fails_closed msg acc st :
  repo_ok (rt_repo st) -> plain (nm_ChannelType msg) -> plain (sender (view_of st) msg) ->
  admitted (view_of st) msg = false ->
  exists st', handleNormalizedMessage (Some msg) acc st
    = (if (nm_ChannelType msg =? ChannelTypeCron)%string then Err (ErrResolver ErrNoUserID) else Ok tt, st')
  /\ untouched st st'.
Proof.
  intros Hok Hc Hu Hn. destruct (handle_admission msg acc st Hok Hc Hu) as (id & ts & st1 & U & _ & Hh).
  rewrite Hn in Hh. simpl. eauto.
Qed.

(** C21: The router routes every admitted message by its contract: its delivery
    is registered under a session key the agent can parse, and the message is
    suppressed as a duplicate, buffered, or published as one queue item in the
    mode of its channel, in that order of tests; failures to publish are
    reported. *)
Theorem router_routes msg acc st :
  repo_ok (rt_repo st) -> plain (nm_ChannelType msg) -> plain (sender (view_of st) msg) ->
  nm_ChannelType msg <> "" -> admitted (view_of st) msg = true ->
  exists m now t1 t2 r st', handleNormalizedMessage (Some msg) acc st = (r, st')
  /\ ParseSessionKey (nm_SessionKey m)
     = Ok (KeyParts (sender (view_of st) msg) (nm_ChannelType msg) (deriveSessionID m))
  /\ nm_UserID m = sender (view_of st) msg /\ nm_ChannelType m = nm_ChannelType msg
  /\ nm_Content m = nm_Content msg
  /\ nm_DeliveryContext m = nm_DeliveryContext msg /\ nm_Meta m = nm_Meta msg
  /\ nm_OriginMessageID m = nm_OriginMessageID msg
  /\ (nm_MessageID msg <> "" -> nm_MessageID m = nm_MessageID msg)
  /\ rt_registry st' = Register (nm_SessionKey m) (nm_DeliveryContext m) (nm_Meta m)
                         (mc_Parts (nm_Content m)) now (rt_registry st)
  /\ rt_dedup st' = snd (IsDuplicate (nm_UserID m) (dedupStrategy m) (deriveDedupKey m) t1 t2 (rt_dedup st))
  /\ routed m acc t1 t2 st st' r
  /\ repo_ok (rt_repo st') /\ view_eq (view_of st') (view_of st).
Proof.
  intros Hok Hc Hu Hne Ha. destruct (handle_admission msg acc st Hok Hc Hu) as (id & ts & st1 & U & Hid & Hh).
  rewrite Ha in Hh. cbn zeta in Hh. set (m := with_route _ (BuildSessionKey _ _ _) _) in Hh.
  destruct (register_step_spec m acc st1) as (r & st' & Hr & Hs & Hreg & Hd & Hrt).
  rewrite Hr in Hh. eexists m, _, _, _, r, st'. split; [exact Hh|].
  split. { apply build_parse; try done; [by apply admitted_sender|apply safe_id_nonempty, derive_safe]. }
  rewrite (u_registry _ _ U) in Hreg. rewrite (u_dedup _ _ U) in Hd.
  repeat split; try done; rewrite ?Hs; try by apply U.
  - destruct Hrt; [apply RDuplicate|eapply RCollected|eapply RPublished];
      rewrite <- ?(u_dedup _ _ U), <- ?(u_log _ _ U), <- ?(u_collect _ _ U); eauto.
Qed.

(** A fingerprint accepted for the first time is a duplicate for a window. *)
Lemma repeat_duplicate u strat k t1 t2 t1' t2' d :
  strat <> DeduplicationNone -> k <> "" ->
  dd_entries d !! buildKey u strat k = None -> (t1' < t2 + dd_window d)%Z ->
  fst (IsDuplicate u strat k t1' t2' (snd (IsDuplicate u strat k t1 t2 d))) = true.
Proof.
  intros Hs Hk Hnone Ht. unfold IsDuplicate.
  rewrite (proj2 (String.eqb_neq _ _) Hs), (proj2 (String.eqb_neq _ _) Hk). cbn [orb].
  unfold is_dup_key at 2. rewrite Hnone. cbn [snd]. unfold is_dup_key. cbn [dd_entries].
  rewrite lookup_insert_eq. unfold time_before. by rewrite (proj2 (Z.ltb_lt _ _) Ht).
Qed.

(** A message is accepted once: after a message with an origin id was
    handled for the first time, a second one of the same sender with the same
    id within the deduplication window is answered without an error and is
    neither buffered nor published, whatever became of the first (a failed
    publication is not retried); it only leaves one more delivery in the
    registry, which no response will consume. *)
Lemma router_repeat_silent m1 m2 acc1 acc2 st r1 st1 :
  repo_ok (rt_repo st) ->
  plain (nm_ChannelType m1) -> plain (nm_ChannelType m2) -> plain (sender (view_of st) m1) ->
  sender (view_of st) m2 = sender (view_of st) m1 ->
  admitted (view_of st) m1 = true -> admitted (view_of st) m2 = true ->
  nm_OriginMessageID m1 <> "" -> nm_OriginMessageID m2 = nm_OriginMessageID m1 ->
  dd_entries (rt_dedup st)
    !! buildKey (sender (view_of st) m1) DeduplicationByMessageID (nm_OriginMessageID m1) = None ->
  (forall i j, (clk i < clk j + dd_window (rt_dedup st))%Z) ->
  handleNormalizedMessage (Some m1) acc1 st = (r1, st1) ->
  exists st2 k, handleNormalizedMessage (Some m2) acc2 st1 = (Ok tt, st2)
  /\ rt_log st2 = rt_log st1 /\ rt_collect st2 = rt_collect st1
  /\ length (queue_of (rt_registry st2) k) = (1 + length (queue_of (rt_registry st1) k))%nat.
Proof.
  intros Hok Hc1 Hc2 Hu He Ha1 Ha2 Ho1 Ho2 Hnone Hclk Hr1.
  destruct (handle_admission m1 acc1 st Hok Hc1 Hu) as (id1 & ts1 & sa & U1 & _ & Hh1).
  simpl in Hr1. rewrite Ha1, Hr1 in Hh1. cbn zeta in Hh1.
  set (x1 := with_route _ (BuildSessionKey _ _ _) _) in Hh1.
  destruct (register_step_spec x1 acc1 sa) as (r & st' & Hreg & Hs & _ & Hd & _).
  rewrite Hreg in Hh1. injection Hh1 as -> ->.
  assert (Hok1 : repo_ok (rt_repo st')) by (rewrite Hs; by apply U1).
  assert (Hv : view_eq (view_of st') (view_of st)) by (rewrite Hs; by apply U1).
  assert (Hsend : sender (view_of st') m2 = sender (view_of st) m1).
  { rewrite <- He. unfold sender. destruct (nonempty (nm_UserID m2)); [done|].
    destruct (nonempty (nm_ChannelIdentity m2)); [|done]. by apply Hv. }
  destruct (handle_admission m2 acc2 st' Hok1 Hc2) as (id2 & ts2 & sb & U2 & _ & Hh2); [by rewrite Hsend|].
  assert (Ha2' : admitted (view_of st') m2 = true).
  { rewrite <- Ha2. unfold admitted. rewrite Hsend, He. destruct (_ =? _)%string; [done|].
    by apply access_granted_eq. }
  rewrite Ha2' in Hh2. cbn zeta in Hh2. set (x2 := with_route _ (BuildSessionKey _ _ _) _) in Hh2.
  destruct (register_step_spec x2 acc2 sb) as (r2 & st2 & Hreg2 & _ & Hrg2 & _ & Hrt).
  exists st2, (nm_SessionKey x2). simpl. rewrite Hh2, Hreg2.
  assert (Hne : nonempty (nm_OriginMessageID m1) = true)
    by (unfold nonempty; by rewrite (str_eqb_nonempty _ Ho1)).
  assert (Hstrat : forall x, nm_OriginMessageID x = nm_OriginMessageID m1 ->
            dedupStrategy x = DeduplicationByMessageID /\ deriveDedupKey x = nm_OriginMessageID m1).
  { intros x Hx. unfold dedupStrategy, deriveDedupKey. by rewrite Hx, Hne. }
  destruct (Hstrat x1 eq_refl) as [Hs1 Hk1]. destruct (Hstrat x2 Ho2) as [Hs2 Hk2].
  rewrite (u_dedup _ _ U1), Hs1, Hk1 in Hd.
  assert (Hdup : forall t1 t2, (exists i, t1 = clk i) ->
            fst (IsDuplicate (nm_UserID x2) (dedupStrategy x2) (deriveDedupKey x2) t1 t2 (rt_dedup sb)) = true).
  { intros t1 t2 [i ->]. change (nm_UserID x2) with (sender (view_of st') m2).
    rewrite Hs2, Hk2, Hsend, (u_dedup _ _ U2), Hd. by apply repeat_duplicate. }
  assert (Hq : length (queue_of (rt_registry st2) (nm_SessionKey x2))
               = (1 + length (queue_of (rt_registry st') (nm_SessionKey x2)))%nat).
  { rewrite Hrg2, (u_registry _ _ U2), queue_register, String.eqb_refl, length_app. simpl. lia. }
  destruct Hrt as [_ Hl Hc|pr Hd2|md pr ef rr Hd2]; [|rewrite Hdup in Hd2 by eauto; done..].
  by rewrite Hl, Hc, (u_log _ _ U2), (u_collect _ _ U2).
Qed.

(** The sender is known by the primary identity alone: whatever further
    identities the metadata offers, a repository that keeps its contract (an
    unknown identity is the empty user, not an error) resolves two messages
    with the same channel identity to the same user, so the WhatsApp fallback
    to the sender and chat JIDs is never taken. *)
Lemma resolve_primary_only m1 m2 st :
  repo_ok (rt_repo st) -> plain (nm_ChannelType m1) ->
  nm_UserID m1 = "" -> nm_UserID m2 = "" ->
  nm_ChannelType m2 = nm_ChannelType m1 -> nm_ChannelIdentity m2 = nm_ChannelIdentity m1 ->
  fst (resolveUser m1 st) = fst (resolveUser m2 st)
  /\ untouched st (snd (resolveUser m1 st)).
Proof.
  intros Hok Hp Hu1 Hu2 Hc Hi. destruct (resolveUser_spec m1 st Hok Hp Hu1) as (s1 & -> & U1).
  destruct (resolveUser_spec m2 st Hok) as (s2 & -> & _); [by rewrite Hc|done|].
  split; [|done]. simpl. unfold sender. by rewrite Hu1, Hu2, Hc, Hi.
Qed.
End router.

(** ** Witnesses: Al ("u") on Slack, whose wildcard entry is enabled *)

#[local] Instance demo_repository : Repository Db := sqlite_repository.
#[local] Instance demo_spec : RepositorySpec Db := sqlite_spec.

Definition demo_clk (n : nat) : Z := Z.of_nat n.
Definition demo_uuid (n : nat) : string := "id" +:+ fmt_d (Z.of_nat n).
(** The first publication fails. *)
Definition demo_publisher : Publisher :=
  {| pub_message n _ := if Nat.leb n 9 then Some "broker down" else None; pub_control _ _ _ := None |}.

Definition demo_msg (ident origin text : string) : NipperMessage :=
  {| nm_MessageID := ""; nm_OriginMessageID := origin; nm_UserID := ""; nm_SessionKey := "";
     nm_ChannelType := "slack"; nm_ChannelIdentity := ident; nm_Content := Build_MessageContent text [];
     nm_DeliveryContext := zero_DeliveryContext;
     nm_Meta := Some (MetaSlack (Build_SlackMeta "T" "C9" "U1" "" "" "" "" ""));
     nm_Timestamp := time_zero; nm_DedupeKey := "" |}.

Definition demo_router : RouterState Db :=
  Build_RouterState demo_db NewRegistry (NewDeduplicator 1000) NewCollect 0 [].

Lemma demo_steady (s : Db) (n : nat) : view_eq (view (demo_clk n) s) (view (demo_clk 0) s).
Proof. done. Qed.

Lemma router_fails_closed_witness :
  exists st', handleNormalizedMessage demo_clk demo_uuid None (Some demo_publisher)
                (Some (demo_msg "U2" "1" "hi")) true demo_router = (Ok tt, st')
  /\ untouched demo_clk demo_router st'.
Proof.
  apply (router_fails_closed demo_clk demo_uuid None (Some demo_publisher) demo_steady
    (demo_msg "U2" "1" "hi") true demo_router); [exact I|reflexivity..].
Defined.

Lemma router_routes_witness :
  exists m t1 t2 r st', handleNormalizedMessage demo_clk demo_uuid None (Some demo_publisher)
                (Some (demo_msg "U1" "1" "hi")) true demo_router = (r, st')
  /\ ParseSessionKey (nm_SessionKey m) = Ok (KeyParts "u" "slack" (deriveSessionID m))
  /\ routed None (Some demo_publisher) m true t1 t2 demo_router st' r
  /\ r = Err (ErrPublish "broker down").
Proof.
  destruct (router_routes demo_clk demo_uuid None (Some demo_publisher) demo_steady
    (demo_msg "U1" "1" "hi") true demo_router I eq_refl eq_refl ltac:(discriminate) eq_refl)
    as (m & now & t1 & t2 & r & st' & Hh & Hp & _ & _ & _ & _ & _ & _ & _ & _ & _ & Hr & _).
  exists m, t1, t2, r, st'. split; [exact Hh|]. split; [exact Hp|]. split; [exact Hr|].
  assert (E : fst (handleNormalizedMessage demo_clk demo_uuid None (Some demo_publisher)
      (Some (demo_msg "U1" "1" "hi")) true demo_router) = Err (ErrPublish "broker down"))
    by (vm_compute; reflexivity).
  rewrite Hh in E. exact E.
Defined.

Lemma router_repeat_silent_witness :
  let handle m := handleNormalizedMessage (fun _ => 5%Z) demo_uuid None (Some demo_publisher)
                    (Some m) true in
  let st1 := snd (handle (demo_msg "U1" "1" "hi") demo_router) in
  exists st2 k, handle (demo_msg "U1" "1" "hi again") st1 = (Ok tt, st2)
  /\ rt_log st2 = rt_log st1 /\ rt_collect st2 = rt_collect st1
  /\ length (queue_of (rt_registry st2) k) = (1 + length (queue_of (rt_registry st1) k))%nat.
Proof.
  intros handle st1.
  apply (router_repeat_silent (fun _ => 5%Z) demo_uuid None (Some demo_publisher)
    (fun s _ => demo_steady s 5) (demo_msg "U1" "1" "hi") (demo_msg "U1" "1" "hi again") true true demo_router
    (fst (handle (demo_msg "U1" "1" "hi") demo_router)) st1);
    [exact I|reflexivity|reflexivity|reflexivity|reflexivity|reflexivity|reflexivity|discriminate
    |reflexivity|reflexivity| |apply surjective_pairing].
  intros _ _. reflexivity.
Defined.

Lemma resolve_primary_only_witness :
  fst (resolveUser demo_clk (demo_msg "U1" "1" "hi") demo_router)
  = fst (resolveUser demo_clk (demo_msg "U1" "2" "") demo_router)
  /\ untouched demo_clk demo_router (snd (resolveUser demo_clk (demo_msg "U1" "1" "hi") demo_router)).
Proof.
  apply (resolve_primary_only demo_clk demo_steady (demo_msg "U1" "1" "hi") (demo_msg "U1" "2" "")
    demo_router I); reflexivity.
Defined.
