(* ===== verification/Webhook.v ===== *)
(** * Webhook endpoints (gateway/webhook.go)

    The two handlers, composed with the channels' normalizers and the message
    router: a request in, a response and the router's next state out. *)
From Stdlib Require Import ZArith Lia Bool Ascii String List.
From stdpp Require Import base gmap strings option list.
From S2P Require Import Prelude GoString GoJson GoJsonParse Sha256 Http Signature Models.
From S2P Require Import Limiter Registry Dedup Repo Sqlite Collect Router.
From S2P Require Whatsapp Slack.

Local Open Scope string_scope.
Local Open Scope Z_scope.
Local Open Scope state_scope.
Local Open Scope reader_scope.

Definition maxWebhookBody : Z := 10 * 1024 * 1024.

Abbreviation response := (Response string).

Definition status (code : Z) : response := Build_Response code None.

(** What the handlers read of the body themselves. *)
Definition dec_wa_type : decoder string := dec_struct (fun x => field ["type"] "type" dec_string x).

Record slack_envelope := { en_Type : string; en_Challenge : string; en_Event : option string }.

Definition dec_event_type : decoder string := dec_struct (fun x => field ["type"] "type" dec_string x).

Definition dec_slack_envelope : decoder slack_envelope := dec_struct (fun x =>
  let f {B} := @field B ["type"; "challenge"; "event"] in
  Build_slack_envelope
    <$$> f "type" dec_string (en_Type x)
    <*> f "challenge" dec_string (en_Challenge x)
    <*> f "event" (dec_ptr "" dec_event_type) (en_Event x)).

(** [json.NewEncoder(w).Encode(map[string]string{"challenge": c})]. *)
Definition challenge_body (c : string) : string := json_map [("challenge", c)] +:+ String "010" "".

Record ServerConfig := {
  wuzapi_hmac_key : string;
  slack_signing_secret : string;
  wa_cfg : option Whatsapp.NormalizerConfig;   (* the adapters registered *)
  sl_cfg : option Slack.NormalizerConfig }.

Section webhook.

Context {S : Type} `{Repository S}.
Context (clk : nat -> Z) (uuid : nat -> string) (qcfg : option QueueConfig) (publisher : option Publisher).
Context (cfg : ServerConfig).

Abbreviation M := (State (RouterState S)).

(** The pipeline on one adapter's normalizer; an error is logged. *)
Definition pipeline (normalize : string -> Z -> result string (option NipperMessage)) : M unit :=
  do now <- time_now clk;
  do id <- new_uuid uuid;
  run HandleMessage clk uuid qcfg publisher (normalize id now) true;
  sret tt.

(** After the signature check. *)
Definition wa_event (body : string) : M response :=
  match unmarshal dec_wa_type "" body with
  | (_, Some _) => sret (status StatusOK)
  | (type, None) =>
      if negb (type =? "Message")%string then sret (status StatusOK)
      else match wa_cfg cfg with
      | None => sret (status StatusOK)
      | Some ncfg =>
          run pipeline (fun id now => Whatsapp.NormalizeInbound id now body ncfg);
          sret (status StatusOK)
      end
  end.

Definition handleWebhookWhatsApp (r : Request) : M response :=
  match read_limited maxWebhookBody r with
  | None => sret (status StatusOK)
  | Some body =>
      let hmacKey := wuzapi_hmac_key cfg in
      if negb (hmacKey =? "")%string
         && negb (verifyWhatsAppHMAC body (header_get (rq_Header r) "X-Hmac-Signature") hmacKey)
      then sret (status StatusUnauthorized)
      else wa_event body
  end.

Definition sl_event (body : string) : M response :=
  match unmarshal dec_slack_envelope (Build_slack_envelope "" "" None) body with
  | (_, Some _) => sret (status StatusOK)
  | (env, None) =>
      if (en_Type env =? "url_verification")%string then
        sret (Build_Response StatusOK (Some (challenge_body (en_Challenge env))))
      else if negb (en_Type env =? "event_callback")%string
              || negb (bool_decide (en_Event env = Some "message")) then sret (status StatusOK)
      else match sl_cfg cfg with
      | None => sret (status StatusOK)
      | Some ncfg =>
          run pipeline (fun id now => Slack.NormalizeInbound id now body ncfg);
          sret (status StatusOK)
      end
  end.

(** [now] is [time.Now().Unix()] when the signature is checked. *)
Definition handleWebhookSlack (now : Z) (r : Request) : M response :=
  match read_limited maxWebhookBody r with
  | None => sret (status StatusOK)
  | Some body =>
      let signingSecret := slack_signing_secret cfg in
      if negb (signingSecret =? "")%string
         && negb (verifySlackSignature now body (rq_Header r) signingSecret)
      then sret (status StatusUnauthorized)
      else sl_event body
  end.

(** ** Who gets in *)

Lemma wa_event_spec body st :
  let '(resp, st') := wa_event body st in
  rp_Status resp = 200 /\
  (st' = st \/ exists ncfg, wa_cfg cfg = Some ncfg /\ fst (unmarshal dec_wa_type "" body) = "Message" /\
     st' = snd (pipeline (fun id now => Whatsapp.NormalizeInbound id now body ncfg) st)).
Proof.
  unfold wa_event. destruct (unmarshal dec_wa_type "" body) as [type [e|]]; [split; [done|by left]|].
  destruct (String.eqb_spec type "Message") as [->|]; [|split; [done|by left]]. cbn [negb].
  destruct (wa_cfg cfg) as [ncfg|]; [|split; [done|by left]].
  unfold sbind. destruct (pipeline _ st) as [u st'] eqn:E. split; [done|]. right. exists ncfg. by rewrite E.
Qed.

Lemma sl_event_spec body st :
  let '(resp, st') := sl_event body st in
  rp_Status resp = 200 /\
  (st' = st \/ exists ncfg, sl_cfg cfg = Some ncfg /\
     st' = snd (pipeline (fun id now => Slack.NormalizeInbound id now body ncfg) st)).
Proof.
  unfold sl_event. destruct (unmarshal dec_slack_envelope _ body) as [env [e|]]; [split; [done|by left]|].
  destruct (en_Type env =? "url_verification")%string; [split; [done|by left]|].
  destruct (_ || _); [split; [done|by left]|].
  destruct (sl_cfg cfg) as [ncfg|]; [|split; [done|by left]].
  unfold sbind. destruct (pipeline _ st) as [u st'] eqn:E. split; [done|]. right. exists ncfg. by rewrite E.
Qed.

(** The signature of a WhatsApp request spells the HMAC of the body. *)
Definition wa_signed (r : Request) (body : string) : Prop :=
  lower_hex_str (strip_sig (header_get (rq_Header r) "X-Hmac-Signature"))
  = hex_bytes (hmac_sha256 (wuzapi_hmac_key cfg) body).

(** C22: with a key configured, a request to the WhatsApp webhook changes
    nothing and is answered 401 unless its signature header spells the
    HMAC-SHA256 of the bytes read under the key; every other request is answered
    200, whatever its body and whatever the pipeline does, so that the sender
    never retries, and reaches the pipeline only as a [Message] event. *)
Theorem whatsapp_webhook_gate r st body :
  read_limited maxWebhookBody r = Some body ->
  let '(resp, st') := handleWebhookWhatsApp r st in
  (wuzapi_hmac_key cfg <> "" -> ~ wa_signed r body -> rp_Status resp = 401 /\ st' = st) /\
  (wuzapi_hmac_key cfg = "" \/ wa_signed r body -> rp_Status resp = 200) /\
  (st' = st \/ exists ncfg, wa_cfg cfg = Some ncfg /\ fst (unmarshal dec_wa_type "" body) = "Message" /\
     st' = snd (pipeline (fun id now => Whatsapp.NormalizeInbound id now body ncfg) st)).
Proof.
  intros Hb. unfold handleWebhookWhatsApp. rewrite Hb, verifyWhatsAppHMAC_eq.
  pose proof (VerifyHMAC_iff body (header_get (rq_Header r) "X-Hmac-Signature") (wuzapi_hmac_key cfg)) as Hv.
  fold (wa_signed r body) in Hv. pose proof (wa_event_spec body st) as He.
  destruct (String.eqb_spec (wuzapi_hmac_key cfg) "") as [Hk|Hk]; cbn [negb andb];
    [|destruct (VerifyHMAC _ _ _); cbn [negb andb]].
  - destruct (wa_event body st) as [resp st']. tauto.
  - destruct (wa_event body st) as [resp st']. tauto.
  - split; [done|]. split; [|by left]. intros [?|Hs]; [done|]. by destruct Hv as [_ Hv]; specialize (Hv (conj Hk Hs)).
Qed.

(** with a signing secret configured, a request to the Slack webhook
    changes nothing and is answered 401 unless its signature is the one of its
    timestamp and of the bytes read and its timestamp is fresh, the challenge
    of a URL verification included; every other request is answered 200. *)
Lemma slack_webhook_gate now r st body :
  0 <= now < 2 ^ 62 ->
  read_limited maxWebhookBody r = Some body ->
  let secret := slack_signing_secret cfg in
  let '(resp, st') := handleWebhookSlack now r st in
  (secret <> "" -> ~ slack_signed now body (rq_Header r) secret -> rp_Status resp = 401 /\ rp_Body resp = None /\ st' = st) /\
  (secret = "" \/ slack_signed now body (rq_Header r) secret -> rp_Status resp = 200) /\
  (st' = st \/ exists ncfg, sl_cfg cfg = Some ncfg /\
     st' = snd (pipeline (fun id now => Slack.NormalizeInbound id now body ncfg) st)).
Proof.
  intros Hn Hb secret. unfold handleWebhookSlack. rewrite Hb. fold secret.
  pose proof (verifySlackSignature_iff now body (rq_Header r) secret Hn) as Hv.
  pose proof (sl_event_spec body st) as He.
  destruct (String.eqb_spec secret "") as [Hk|Hk]; cbn [negb andb];
    [|destruct (verifySlackSignature _ _ _ _); cbn [negb andb]].
  - destruct (sl_event body st) as [resp st']. tauto.
  - destruct (sl_event body st) as [resp st']. tauto.
  - split; [done|]. split; [|by left]. intros [?|Hs]; [done|]. by apply Hv in Hs.
Qed.

End webhook.

(** ** Witnesses: Al ("u") writes on Slack; somebody without the key posts to
    the WhatsApp endpoint *)

#[local] Instance demo_repository : Repository Db := sqlite_repository.

Definition demo_config : ServerConfig :=
  Build_ServerConfig "key" "s" (Some (Whatsapp.Build_NormalizerConfig "" "")) (Some (Slack.Build_NormalizerConfig "xoxb" "")).

Definition post (headers : Header) (body : string) : Request :=
  Build_Request "POST" headers (Some body) "203.0.113.7:4711" (fun _ => "") (fun _ => "").

Definition demo_body : string := json_text
  "{'type':'event_callback','event':{'type':'message','user':'U1','text':'hi','channel':'C9','ts':'1.0'}}".

Definition demo_signed : Request :=
  post {[ "X-Slack-Request-Timestamp" := ["1700000000"];
          "X-Slack-Signature" := [slack_expected "1700000000" demo_body "s"] ]} demo_body.

Lemma whatsapp_webhook_gate_witness :
  let r := post {[ "X-Hmac-Signature" := ["sha256=00"] ]} "{}" in
  let '(resp, st) := handleWebhookWhatsApp demo_clk demo_uuid None (Some demo_publisher) demo_config r demo_router in
  rp_Status resp = 401 /\ st = demo_router.
Proof.
  intros r. pose proof (whatsapp_webhook_gate demo_clk demo_uuid None (Some demo_publisher) demo_config r demo_router "{}" eq_refl) as H.
  destruct (handleWebhookWhatsApp _ _ _ _ _ _ _) as [resp st]. destruct H as (H & _).
  apply H; [discriminate|vm_compute; discriminate].
Defined.

(** A signed message of a known user is published. *)
Lemma slack_webhook_gate_witness :
  let '(resp, st) := handleWebhookSlack demo_clk demo_uuid None (Some demo_publisher) demo_config 1700000100 demo_signed demo_router in
  rp_Status resp = 200 /\ match rt_log st with [EffNotifyInbound _; EffPublishMessage _ _] => True | _ => False end.
Proof.
  pose proof (slack_webhook_gate demo_clk demo_uuid None (Some demo_publisher) demo_config 1700000100 demo_signed demo_router
    demo_body ltac:(lia) ltac:(vm_compute; reflexivity)) as H.
  destruct (handleWebhookSlack _ _ _ _ _ _ _ _) as [resp st] eqn:E. destruct H as (_ & H & _). split.
  - apply H. right. exists 1700000000. split; [vm_compute; reflexivity|].
    split; [left; vm_compute; discriminate|vm_compute; reflexivity].
  - vm_compute in E. injection E as _ <-. exact I.
Defined.
