(* ===== verification/Dispatcher.v ===== *)
(** * Event dispatcher (internal/gateway/dispatcher.go)

    Routes agent events to channel adapters by the delivery context at the
    front of the session's registry queue (file Registry).  An adapter is the
    outcomes of its calls and its optional extensions; the calls themselves
    are the effects in the log. *)
From Stdlib Require Import ZArith Lia Bool Ascii String List.
From stdpp Require Import base gmap strings option fin_maps list.
From S2P Require Import Prelude GoString Models Registry Resolver.

Local Open Scope string_scope.
Local Open Scope state_scope.

Definition accumulatorTimeout : Z := 5 * time_minute.
Definition deliveryMaxRetries : nat := 3.

Record accumulator := {
  acc_builder : string;
  acc_createdAt : Z;
  acc_userID : string;
  acc_event : option NipperEvent }.

(** A Go channel of events: capacity and pending values.  A subscriber blocked
    in a receive is a channel with a free place. *)
Record wschan := { ws_cap : nat; ws_buf : list NipperEvent }.

(** The outcome of an adapter's calls, indexed by the calls made so far; the
    optional interfaces are options. *)
Record Adapter := {
  ad_DeliverResponse : nat -> NipperResponse -> option string;
  ad_DeliverEvent : nat -> NipperEvent -> option string;
  ad_TypingIndicator : option (nat -> option string);
  ad_TypingIndicatorRemover : option (nat -> option string) }.

Inductive dispatch_effect :=
| DeliverResponse (ct : ChannelType) (resp : NipperResponse) (err : option string)
| DeliverEvent (ct : ChannelType) (event : NipperEvent) (err : option string)
| SendTyping (ct : ChannelType) (sessionKey : string) (dc : DeliveryContext) (meta : option ChannelMeta)
| RemoveTyping (ct : ChannelType) (sessionKey : string) (dc : DeliveryContext) (meta : option ChannelMeta).

Record Dispatcher := {
  d_registry : Registry;
  d_accumulators : gmap string accumulator;
  d_typingSent : gmap string bool;
  d_wsSubscribers : gmap string (list nat);   (* channels by identity *)
  d_channels : gmap nat wschan;               (* the channels themselves *)
  d_tick : nat;
  d_log : list dispatch_effect }.

Definition NewDispatcher (registry : Registry) : Dispatcher :=
  Build_Dispatcher registry ∅ ∅ ∅ ∅ 0 [].

(** *** Updates of the parts of the state *)
Definition set_registry (r : Registry) (d : Dispatcher) : Dispatcher :=
  Build_Dispatcher r (d_accumulators d) (d_typingSent d) (d_wsSubscribers d) (d_channels d) (d_tick d) (d_log d).
Definition set_accumulators (f : gmap string accumulator -> gmap string accumulator) (d : Dispatcher) : Dispatcher :=
  Build_Dispatcher (d_registry d) (f (d_accumulators d)) (d_typingSent d) (d_wsSubscribers d)
    (d_channels d) (d_tick d) (d_log d).
Definition set_typing (f : gmap string bool -> gmap string bool) (d : Dispatcher) : Dispatcher :=
  Build_Dispatcher (d_registry d) (d_accumulators d) (f (d_typingSent d)) (d_wsSubscribers d)
    (d_channels d) (d_tick d) (d_log d).
Definition set_subscribers (f : gmap string (list nat) -> gmap string (list nat)) (d : Dispatcher) : Dispatcher :=
  Build_Dispatcher (d_registry d) (d_accumulators d) (d_typingSent d) (f (d_wsSubscribers d))
    (d_channels d) (d_tick d) (d_log d).
Definition set_channels (f : gmap nat wschan -> gmap nat wschan) (d : Dispatcher) : Dispatcher :=
  Build_Dispatcher (d_registry d) (d_accumulators d) (d_typingSent d) (d_wsSubscribers d)
    (f (d_channels d)) (d_tick d) (d_log d).

Section dispatcher.
Variable clk : nat -> Z.
Variable uuid : nat -> string.
Variable fold : Z -> Z.               (* unicode.ToLower beyond ASCII *)
Variable cancelled : nat -> bool.     (* is the context done at that point *)
Variable adapters : gmap ChannelType Adapter.

Abbreviation M A := (State Dispatcher A).

Definition next_tick : M nat := fun d =>
  (d_tick d, Build_Dispatcher (d_registry d) (d_accumulators d) (d_typingSent d)
               (d_wsSubscribers d) (d_channels d) (S (d_tick d)) (d_log d)).
Definition time_now : M Z := do n <- next_tick; sret (clk n).
Definition emit (e : dispatch_effect) : M unit := smodify (fun d =>
  Build_Dispatcher (d_registry d) (d_accumulators d) (d_typingSent d) (d_wsSubscribers d)
    (d_channels d) (d_tick d) (d_log d ++ [e])).

(** ** Delivery *)

(** The attempts left; between two attempts the context may be cancelled. *)
Fixpoint delivery_attempts (left : nat) (ct : ChannelType) (adapter : Adapter) (resp : NipperResponse)
    : M unit :=
  match left with
  | O => sret tt
  | S left' =>
      do n <- next_tick;
      let err := ad_DeliverResponse adapter n resp in
      run emit (DeliverResponse ct resp err);
      match err with
      | None => sret tt
      | Some _ =>
          if (0 <? left')%nat then
            do c <- next_tick;
            if cancelled c then sret tt else delivery_attempts left' ct adapter resp
          else sret tt
      end
  end.

Definition deliverWithRetry (ct : ChannelType) (adapter : Adapter) (resp : NipperResponse) : M unit :=
  delivery_attempts deliveryMaxRetries ct adapter resp.

(** ** Assembling responses *)

Definition is_image_part (p : ContentPart) : bool :=
  (cp_Type p =? "image")%string
  || has_prefix (to_lower fold (trim_space (cp_MimeType p))) "image/".

Definition image_part (p : ContentPart) : ContentPart :=
  Build_ContentPart "image" "" (cp_URL p) (cp_MimeType p) "" "" float_zero float_zero "".

Definition outboundMediaParts (dc : DeliveryContext) (inboundParts : list ContentPart) : list ContentPart :=
  if negb (dc_ChannelType dc =? ChannelTypeWhatsApp)%string then []
  else
    match List.find (fun p => nonempty (cp_URL p) && is_image_part p) inboundParts with
    | Some p => [image_part p]
    | None => []
    end.

Definition delta_text (event : NipperEvent) : string :=
  match ev_Delta event with Some delta => ed_Text delta | None => "" end.

Definition acc_text (key : string) (d : Dispatcher) : string :=
  match d_accumulators d !! key with Some acc => acc_builder acc | None => "" end.

(** The text of the final response: the accumulated text, or the delta of the
    event itself when nothing was accumulated. *)
Definition final_text (event : NipperEvent) (d : Dispatcher) : string :=
  let text := acc_text (ev_SessionKey event) d in
  if (text =? "")%string then delta_text event else text.

Definition response (id : string) (event : NipperEvent) (text : string) (parts : list ContentPart)
    (dc : DeliveryContext) (meta : option ChannelMeta) (now : Z) (usage : option ContextUsage)
    : NipperResponse := {|
  rs_ResponseID := id;
  rs_SessionKey := ev_SessionKey event;
  rs_UserID := ev_UserID event;
  rs_ChannelType := dc_ChannelType dc;
  rs_ChannelIdentity := "";
  rs_Text := text;
  rs_Parts := parts;
  rs_DeliveryContext := dc;
  rs_Meta := meta;
  rs_OriginMessageID := "";
  rs_Timestamp := now;
  rs_ContextUsage := usage |}.

Definition assembleFinalResponse (event : NipperEvent) (dc : DeliveryContext)
    (meta : option ChannelMeta) (inboundParts : list ContentPart) : M NipperResponse :=
  do text <- sget (final_text event);
  do now <- time_now;
  sret (response (ev_ResponseID event) event text (outboundMediaParts dc inboundParts) dc meta now
          (ev_ContextUsage event)).

Definition assembleResponseFromEvent (event : NipperEvent) (dc : DeliveryContext)
    (meta : option ChannelMeta) (inboundParts : list ContentPart) : M NipperResponse :=
  do now <- time_now;
  sret (response (ev_ResponseID event) event (delta_text event) (outboundMediaParts dc inboundParts)
          dc meta now (ev_ContextUsage event)).

Definition error_text (event : NipperEvent) : string :=
  match ev_Error event with
  | Some e => if nonempty (ee_Message e) then ee_Message e
              else "An error occurred while processing your message."
  | None => "An error occurred while processing your message."
  end.

Definition assembleErrorResponse (event : NipperEvent) (dc : DeliveryContext)
    (meta : option ChannelMeta) : M NipperResponse :=
  do n <- next_tick;
  do now <- time_now;
  sret (response (uuid n) event (error_text event) [] dc meta now None).

Definition clearAccumulator (sessionKey : string) : M unit :=
  smodify (set_accumulators (delete sessionKey)).

(** ** Streaming and buffered channels *)

Definition handleStreamingEvent (event : NipperEvent) (ct : ChannelType) (adapter : Adapter)
    (dc : DeliveryContext) (meta : option ChannelMeta) (inboundParts : list ContentPart) : M unit :=
  if (ev_Type event =? EventTypeDone)%string then
    do resp <- assembleResponseFromEvent event dc meta inboundParts;
    deliverWithRetry ct adapter resp
  else
    do n <- next_tick;
    emit (DeliverEvent ct event (ad_DeliverEvent adapter n event)).

(** A delta event: appended to the session's accumulator. *)
Definition accumulate (event : NipperEvent) (now : Z) (m : gmap string accumulator)
    : gmap string accumulator :=
  let acc := match m !! ev_SessionKey event with
             | Some acc => acc
             | None => Build_accumulator "" now (ev_UserID event) None
             end in
  <[ev_SessionKey event := {| acc_builder := acc_builder acc +:+ delta_text event;
                              acc_createdAt := acc_createdAt acc;
                              acc_userID := acc_userID acc;
                              acc_event := Some event |}]> m.

Definition handleBufferedEvent (event : NipperEvent) (ct : ChannelType) (adapter : Adapter)
    (dc : DeliveryContext) (meta : option ChannelMeta) (inboundParts : list ContentPart) : M unit :=
  if (ev_Type event =? EventTypeDelta)%string then
    do now <- time_now;
    smodify (set_accumulators (accumulate event now))
  else if (ev_Type event =? EventTypeError)%string then
    do resp <- assembleErrorResponse event dc meta;
    run deliverWithRetry ct adapter resp;
    clearAccumulator (ev_SessionKey event)
  else if (ev_Type event =? EventTypeDone)%string then
    do resp <- assembleFinalResponse event dc meta inboundParts;
    run deliverWithRetry ct adapter resp;
    clearAccumulator (ev_SessionKey event)
  else sret tt.

(** ** Typing indicators *)

Definition typing (key : string) (d : Dispatcher) : bool := default false (d_typingSent d !! key).

Definition maybeSendTypingIndicator (ct : ChannelType) (adapter : Adapter) (sessionKey : string)
    (dc : DeliveryContext) (meta : option ChannelMeta) : M unit :=
  do sent <- sget (typing sessionKey);
  if (sent : bool) then sret tt
  else
    run smodify (set_typing <[sessionKey := true]>);
    match ad_TypingIndicator adapter with
    | None => sret tt
    | Some _ => emit (SendTyping ct sessionKey dc meta)
    end.

Definition clearTypingSent (ct : ChannelType) (adapter : Adapter) (sessionKey : string)
    (dc : DeliveryContext) (meta : option ChannelMeta) : M unit :=
  do wasSent <- sget (typing sessionKey);
  run smodify (set_typing (delete sessionKey));
  if negb wasSent then sret tt
  else
    match ad_TypingIndicatorRemover adapter with
    | None => sret tt
    | Some _ => emit (RemoveTyping ct sessionKey dc meta)
    end.

(** ** Broadcast *)

Definition broadcast_meta (ct : ChannelType) (channelID : string) : option ChannelMeta :=
  if (ct =? ChannelTypeWhatsApp)%string then
    Some (MetaWhatsApp (Build_WhatsAppMeta "" "" "" channelID channelID "" "" false false "" "" false "" "" ""))
  else if (ct =? ChannelTypeSlack)%string then
    Some (MetaSlack (Build_SlackMeta "" channelID "" "" "" "" "" ""))
  else None.

Definition broadcast_context (ct : ChannelType) (channelID : string) : DeliveryContext :=
  Build_DeliveryContext ct channelID "" "" [] no_capabilities.

Definition broadcast_target (event : NipperEvent) (text target : string) : M unit :=
  match split_n2 target ":" with
  | [ct; channelID] =>
      match adapters !! ct with
      | None => sret tt
      | Some adapter =>
          do now <- time_now;
          deliverWithRetry ct adapter
            (response (ev_ResponseID event) event text [] (broadcast_context ct channelID)
               (broadcast_meta ct channelID) now (ev_ContextUsage event))
      end
  | _ => sret tt
  end.

Definition deliverBroadcast (event : NipperEvent) (dc : DeliveryContext) : M unit :=
  do text <- sget (final_text event);
  run sfor (broadcast_target event text) (dc_NotifyChannels dc);
  clearAccumulator (ev_SessionKey event).

(** ** WebSocket subscribers *)

Definition SubscribeWebSocket (sessionKey : string) (ch : nat) : M unit :=
  smodify (set_subscribers (fun m => <[sessionKey := (default [] (m !! sessionKey) ++ [ch])%list]> m)).

Fixpoint remove_first (ch : nat) (l : list nat) : list nat :=
  match l with
  | [] => []
  | s :: l' => if (s =? ch)%nat then l' else s :: remove_first ch l'
  end.

Definition UnsubscribeWebSocket (sessionKey : string) (ch : nat) : M unit :=
  smodify (set_subscribers (fun m =>
    let subs := default [] (m !! sessionKey) in
    match remove_first ch subs with
    | [] => delete sessionKey m
    | subs' => <[sessionKey := subs']> m
    end)).

(** A send that would block is dropped. *)
Definition ws_send (event : NipperEvent) (m : gmap nat wschan) (ch : nat) : gmap nat wschan :=
  match m !! ch with
  | Some c => if (length (ws_buf c) <? ws_cap c)%nat
              then <[ch := Build_wschan (ws_cap c) (ws_buf c ++ [event])]> m else m
  | None => m
  end.

Definition fanOutToWebSocket (event : NipperEvent) : M unit := fun d =>
  let subs := default [] (d_wsSubscribers d !! ev_SessionKey event) in
  (tt, set_channels (fun m => fold_left (ws_send event) subs m) d).

(** ** The event handler *)

Definition is_terminal (event : NipperEvent) : bool :=
  (ev_Type event =? EventTypeDone)%string || (ev_Type event =? EventTypeError)%string.

(** The front entry of the session: popped by a terminal event. *)
Definition route_event (event : NipperEvent) : M (option delivery) := fun d =>
  if is_terminal event then
    let '(found, r) := Consume (ev_SessionKey event) (d_registry d) in (found, set_registry r d)
  else (Lookup (ev_SessionKey event) (d_registry d), d).

Definition dispatch_to (event : NipperEvent) (adapter : Adapter) (dc : DeliveryContext)
    (meta : option ChannelMeta) (inboundParts : list ContentPart) : M unit :=
  let ct := dc_ChannelType dc in
  run (if (ev_Type event =? EventTypeThinking)%string || (ev_Type event =? EventTypeToolStart)%string
       then maybeSendTypingIndicator ct adapter (ev_SessionKey event) dc meta else sret tt);
  run (if is_terminal event then clearTypingSent ct adapter (ev_SessionKey event) dc meta else sret tt);
  if SupportsStreaming (dc_Capabilities dc)
  then handleStreamingEvent event ct adapter dc meta inboundParts
  else handleBufferedEvent event ct adapter dc meta inboundParts.

Definition HandleEvent (event : NipperEvent) : M unit :=
  do found <- route_event event;
  match found with
  | None => sret tt
  | Some (dc, meta, inboundParts) =>
      run fanOutToWebSocket event;
      if (dc_ReplyMode dc =? "broadcast")%string && (ev_Type event =? EventTypeDone)%string then
        deliverBroadcast event dc
      else
        match adapters !! dc_ChannelType dc with
        | None => sret tt
        | Some adapter => dispatch_to event adapter dc meta inboundParts
        end
  end.

(** ** Sweeping *)

(** Old accumulators are dropped, and then every typing flag of a session
    without an accumulator. *)
Definition evictStaleAccumulators (now : Z) : M unit :=
  let cutoff := (now - accumulatorTimeout)%Z in
  run smodify (set_accumulators (fun m =>
        omap (fun acc => if time_before (acc_createdAt acc) cutoff then None else Some acc) m));
  smodify (fun d => set_typing (fun m =>
        map_imap (fun k b => match d_accumulators d !! k with Some _ => Some b | None => None end) m) d).

(** ** Sessions do not interfere

    An operation is local to a session when it leaves the queues, accumulators
    and typing flags of the others alone, and its effects carry its key. *)
Definition effect_key (e : dispatch_effect) : string :=
  match e with
  | DeliverResponse _ resp _ => rs_SessionKey resp
  | DeliverEvent _ event _ => ev_SessionKey event
  | SendTyping _ key _ _ | RemoveTyping _ key _ _ => key
  end.

Record touches (key : string) (d d' : Dispatcher) : Prop := {
  tc_queue : forall k, k <> key -> queue_of (d_registry d') k = queue_of (d_registry d) k;
  tc_acc : forall k, k <> key -> d_accumulators d' !! k = d_accumulators d !! k;
  tc_typing : forall k, k <> key -> d_typingSent d' !! k = d_typingSent d !! k;
  tc_log : exists effs, d_log d' = (d_log d ++ effs)%list /\ Forall (fun e => effect_key e = key) effs }.

#[local] Instance touches_preorder key : PreOrder (touches key).
Proof.
  split.
  - intros d. split; try done. exists []. by rewrite app_nil_r.
  - intros d1 d2 d3 [Q1 A1 T1 (e1 & L1 & F1)] [Q2 A2 T2 (e2 & L2 & F2)]. split.
    + intros k Hk. by rewrite Q2, Q1.
    + intros k Hk. by rewrite A2, A1.
    + intros k Hk. by rewrite T2, T1.
    + exists (e1 ++ e2)%list. rewrite L2, L1, app_assoc. split; [done|]. by apply Forall_app.
Qed.

Definition local_to {A} (key : string) (m : M A) : Prop := forall d, touches key d (snd (m d)).

Lemma local_ret {A} key (a : A) : local_to key (sret a).
Proof. intros d. reflexivity. Qed.

Lemma local_bind {A B} key (m : M A) (f : A -> M B) :
  local_to key m -> (forall a, local_to key (f a)) -> local_to key (sbind m f).
Proof.
  intros Hm Hf d. unfold sbind. specialize (Hm d). destruct (m d) as [a d']. simpl in Hm.
  etrans; [exact Hm|apply Hf].
Qed.

Lemma local_get {A} key (f : Dispatcher -> A) : local_to key (sget f).
Proof. intros d. reflexivity. Qed.

Lemma local_tick key : local_to key next_tick.
Proof. intros d. split; try done. exists []. by rewrite app_nil_r. Qed.

Lemma local_now key : local_to key time_now.
Proof. apply local_bind; [apply local_tick|]. intros. apply local_ret. Qed.

Lemma local_emit key e : effect_key e = key -> local_to key (emit e).
Proof. intros He d. split; try done. exists [e]. by repeat constructor. Qed.

Lemma local_if {A} key (b : bool) (m1 m2 : M A) :
  local_to key m1 -> local_to key m2 -> local_to key (if b then m1 else m2).
Proof. by destruct b. Qed.

Lemma local_for {A} key (f : A -> M unit) l : (forall a, local_to key (f a)) -> local_to key (sfor f l).
Proof.
  intros Hf. induction l as [|a l IH]; [apply local_ret|]. intros d. simpl. etrans; [apply Hf|apply IH].
Qed.

Lemma local_acc key f :
  (forall m k, k <> key -> (f m : gmap string accumulator) !! k = m !! k) -> local_to key (smodify (set_accumulators f)).
Proof. intros Hf d. split; try done; [intros; by apply Hf|]. exists []. by rewrite app_nil_r. Qed.

Lemma local_typing key f :
  (forall m k, k <> key -> (f m : gmap string bool) !! k = m !! k) -> local_to key (smodify (set_typing f)).
Proof. intros Hf d. split; try done; [intros; by apply Hf|]. exists []. by rewrite app_nil_r. Qed.

#[local] Hint Resolve local_ret local_bind local_get local_tick local_now local_emit local_if local_for
  local_acc local_typing : nipper.

(** The same, when the result of [m] matters. *)
Lemma local_bind_with {A B} key (m : M A) (f : A -> M B) :
  local_to key m -> (forall d, local_to key (f (fst (m d)))) -> local_to key (sbind m f).
Proof.
  intros Hm Hf d. unfold sbind. specialize (Hm d). specialize (Hf d). destruct (m d) as [a d'].
  etrans; [exact Hm|apply Hf].
Qed.

Lemma local_attempts key left ct ad resp :
  rs_SessionKey resp = key -> local_to key (delivery_attempts left ct ad resp).
Proof.
  intros Hk. induction left as [|left IH]; simpl; auto with nipper.
  apply local_bind; [apply local_tick|]. intros n.
  apply local_bind; [by apply local_emit|]. intros _.
  destruct (ad_DeliverResponse ad n resp); auto 6 with nipper.
Qed.

Lemma local_streaming ev ct ad dc meta parts :
  local_to (ev_SessionKey ev) (handleStreamingEvent ev ct ad dc meta parts).
Proof.
  unfold handleStreamingEvent. apply local_if.
  - apply local_bind_with; [unfold assembleResponseFromEvent; auto with nipper|].
    intros d. by apply local_attempts.
  - auto with nipper.
Qed.

Lemma local_clear key : local_to key (clearAccumulator key).
Proof. apply local_acc. intros m k Hk. by rewrite lookup_delete_ne. Qed.

Lemma local_buffered ev ct ad dc meta parts :
  local_to (ev_SessionKey ev) (handleBufferedEvent ev ct ad dc meta parts).
Proof.
  unfold handleBufferedEvent. repeat apply local_if; auto with nipper.
  - apply local_bind; auto with nipper. intros now. apply local_acc.
    intros m k Hk. unfold accumulate. by rewrite lookup_insert_ne.
  - apply local_bind_with; [unfold assembleErrorResponse; auto 6 with nipper|]. intros d.
    apply local_bind; [by apply local_attempts|]. intros _. apply local_clear.
  - apply local_bind_with; [unfold assembleFinalResponse; auto 6 with nipper|]. intros d.
    apply local_bind; [by apply local_attempts|]. intros _. apply local_clear.
Qed.

Lemma local_typing_indicator ct ad key dc meta : local_to key (maybeSendTypingIndicator ct ad key dc meta).
Proof.
  apply local_bind; auto with nipper. intros b. apply local_if; auto with nipper.
  apply local_bind; [apply local_typing; intros; by rewrite lookup_insert_ne|]. intros _.
  destruct (ad_TypingIndicator ad); auto with nipper.
Qed.

Lemma local_clear_typing ct ad key dc meta : local_to key (clearTypingSent ct ad key dc meta).
Proof.
  apply local_bind; auto with nipper. intros b.
  apply local_bind; [apply local_typing; intros; by rewrite lookup_delete_ne|]. intros _.
  apply local_if; auto with nipper. destruct (ad_TypingIndicatorRemover ad); auto with nipper.
Qed.

Lemma local_broadcast ev dc : local_to (ev_SessionKey ev) (deliverBroadcast ev dc).
Proof.
  apply local_bind; auto with nipper. intros text. apply local_bind; [|intros _; apply local_clear].
  apply local_for. intros target. unfold broadcast_target.
  destruct (split_n2 target ":") as [|ct [|id [|]]]; auto with nipper.
  destruct (adapters !! ct); auto with nipper.
  apply local_bind; auto with nipper. intros now. by apply local_attempts.
Qed.

Lemma local_fanout key ev : local_to key (fanOutToWebSocket ev).
Proof. intros d. split; try done. exists []. by rewrite app_nil_r. Qed.

Lemma local_route ev : local_to (ev_SessionKey ev) (route_event ev).
Proof.
  intros d. unfold route_event. destruct (is_terminal ev); [|reflexivity].
  pose proof (proj2 (consume_spec (ev_SessionKey ev) (d_registry d))) as Hq.
  destruct (Consume _ _) as [found r]. simpl in *. split; try done; simpl.
  - intros k Hk. rewrite Hq. by rewrite (proj2 (String.eqb_neq _ _) (not_eq_sym Hk)).
  - exists []. by rewrite app_nil_r.
Qed.

Lemma local_handle ev : local_to (ev_SessionKey ev) (HandleEvent ev).
Proof.
  apply local_bind; [apply local_route|]. intros [[[dc meta] parts]|]; auto with nipper.
  apply local_bind; [apply local_fanout|]. intros _. apply local_if; [apply local_broadcast|].
  destruct (adapters !! dc_ChannelType dc) as [ad|]; auto with nipper. unfold dispatch_to.
  apply local_bind; [apply local_if; [apply local_typing_indicator|apply local_ret]|]. intros _.
  apply local_bind; [apply local_if; [apply local_clear_typing|apply local_ret]|]. intros _.
  apply local_if; [apply local_streaming|apply local_buffered].
Qed.

(** ** What a session observes *)

(** The answers accepted by an adapter for a session: to whom and what. *)
Definition answer : Type := DeliveryContext * option ChannelMeta * string.

Definition delivered (k : string) (log : list dispatch_effect) : list answer :=
  flat_map (fun e => match e with
    | DeliverResponse _ resp None =>
        if (rs_SessionKey resp =? k)%string
        then [(rs_DeliveryContext resp, rs_Meta resp, rs_Text resp)] else []
    | _ => [] end) log.

Lemma delivered_app k l1 l2 : delivered k (l1 ++ l2) = (delivered k l1 ++ delivered k l2)%list.
Proof. apply flat_map_app. Qed.

Definition obs (k : string) (d : Dispatcher) : list DeliveryEntry * string * list answer :=
  (queue_of (d_registry d) k, acc_text k d, delivered k (d_log d)).

Lemma touches_obs key k d d' : touches key d d' -> k <> key -> obs k d' = obs k d.
Proof.
  intros [Hq Ha _ (effs & Hl & Hf)] Hk. unfold obs, acc_text. rewrite Hq, Ha, Hl, delivered_app by done.
  assert (delivered k effs = []) as ->; [|by rewrite app_nil_r].
  clear Hl. unfold delivered. induction Hf as [|e effs He _ IH]; [done|]. simpl. rewrite IH.
  destruct e as [ct resp [|]| | |]; try done. simpl in He.
  by rewrite He, (proj2 (String.eqb_neq _ _) (not_eq_sym Hk)).
Qed.

(** An adapter that accepts a response within three attempts. *)
Definition reliable (ad : Adapter) : Prop := forall n resp,
  ad_DeliverResponse ad n resp = None \/ ad_DeliverResponse ad (2 + n) resp = None
  \/ ad_DeliverResponse ad (4 + n) resp = None.

Lemma deliver_obs ct ad resp d :
  reliable ad -> (forall n, cancelled n = false) ->
  let d' := snd (deliverWithRetry ct ad resp d) in
  obs (rs_SessionKey resp) d'
  = (queue_of (d_registry d) (rs_SessionKey resp), acc_text (rs_SessionKey resp) d,
     (delivered (rs_SessionKey resp) (d_log d)
      ++ [(rs_DeliveryContext resp, rs_Meta resp, rs_Text resp)])%list).
Proof.
  intros Hr Hc d'. subst d'. unfold deliverWithRetry, deliveryMaxRetries, delivery_attempts.
  cbn -[Nat.ltb]. change (0 <? 2)%nat with true. change (0 <? 1)%nat with true. cbn -[Nat.ltb].
  destruct (Hr (d_tick d) resp) as [E|[E|E]]; simpl in E;
    repeat (rewrite ?E, ?Hc; cbn -[Nat.ltb];
            match goal with |- context [ad_DeliverResponse ad ?n resp] =>
              destruct (ad_DeliverResponse ad n resp) eqn:? end || idtac); try congruence;
    unfold obs, acc_text, smodify; cbn [snd d_registry d_accumulators d_log];
    rewrite !delivered_app; simpl; by rewrite String.eqb_refl, ?app_nil_r.
Qed.

(** ** The contract of a buffered session

    [conv_step] is the session as its user sees it: the deliveries waiting for
    an answer and the text received so far. *)
Inductive disp_op :=
| DRegister (k : string) (dc : DeliveryContext) (meta : option ChannelMeta)
    (parts : list ContentPart) (now : Z)
| DEvent (ev : NipperEvent).

Definition disp_step (o : disp_op) (d : Dispatcher) : Dispatcher :=
  match o with
  | DRegister k dc meta parts now => set_registry (Register k dc meta parts now (d_registry d)) d
  | DEvent ev => snd (HandleEvent ev d)
  end.

Definition disp_run (os : list disp_op) (d : Dispatcher) : Dispatcher :=
  fold_left (fun d o => disp_step o d) os d.

Definition conv_event (ev : NipperEvent)
    (c : list DeliveryEntry * string * list answer) : list DeliveryEntry * string * list answer :=
  let '(queue, text, out) := c in
  match queue with
  | [] => c
  | e :: q =>
      if (ev_Type ev =? EventTypeDelta)%string then (queue, text +:+ delta_text ev, out)
      else if (ev_Type ev =? EventTypeError)%string then
        (q, "", out ++ [(de_Context e, de_Meta e, error_text ev)])%list
      else if (ev_Type ev =? EventTypeDone)%string then
        (q, "", out ++ [(de_Context e, de_Meta e,
                         if (text =? "")%string then delta_text ev else text)])%list
      else c
  end.

Definition conv_step (k : string) (o : disp_op)
    (c : list DeliveryEntry * string * list answer) : list DeliveryEntry * string * list answer :=
  match o with
  | DRegister k' dc meta parts now =>
      let '(queue, text, out) := c in
      if (k' =? k)%string
      then ((queue ++ [Build_DeliveryEntry dc meta parts now])%list, text, out) else c
  | DEvent ev => if (ev_SessionKey ev =? k)%string then conv_event ev c else c
  end.

(** Deliveries through a reliable adapter, buffered and not broadcast. *)
Definition buffered_dc (dc : DeliveryContext) : Prop :=
  SupportsStreaming (dc_Capabilities dc) = false /\ dc_ReplyMode dc <> "broadcast"
  /\ exists ad, adapters !! dc_ChannelType dc = Some ad /\ reliable ad.

Definition buffered_op (k : string) (o : disp_op) : Prop :=
  match o with DRegister k' dc _ _ _ => k' = k -> buffered_dc dc | DEvent _ => True end.

Lemma fanout_obs k ev d : obs k (snd (fanOutToWebSocket ev d)) = obs k d.
Proof. done. Qed.

Lemma typing_obs k ct ad key dc meta d : obs k (snd (maybeSendTypingIndicator ct ad key dc meta d)) = obs k d.
Proof.
  unfold maybeSendTypingIndicator, sbind, sget. destruct (typing key d); [done|].
  destruct (ad_TypingIndicator ad); [|done]. unfold obs, acc_text. simpl.
  by rewrite delivered_app, app_nil_r.
Qed.

Lemma clear_typing_obs k ct ad key dc meta d : obs k (snd (clearTypingSent ct ad key dc meta d)) = obs k d.
Proof.
  unfold clearTypingSent, sbind, sget. destruct (typing key d); [|done].
  destruct (ad_TypingIndicatorRemover ad); [|done]. unfold obs, acc_text. simpl.
  by rewrite delivered_app, app_nil_r.
Qed.

Lemma clear_obs k d q t out :
  obs k d = (q, t, out) -> obs k (snd (clearAccumulator k d)) = (q, "", out).
Proof.
  unfold obs, acc_text. intros [= <- _ <-]. simpl. by rewrite lookup_delete_eq.
Qed.

Section answers.
Hypothesis not_cancelled : forall n, cancelled n = false.

Lemma accumulate_text ev now d :
  acc_text (ev_SessionKey ev) (set_accumulators (accumulate ev now) d)
  = acc_text (ev_SessionKey ev) d +:+ delta_text ev.
Proof.
  unfold acc_text, set_accumulators, accumulate. cbn [d_accumulators]. rewrite lookup_insert_eq.
  cbn [acc_builder]. by destruct (d_accumulators d !! ev_SessionKey ev).
Qed.

Lemma deliver_clear_obs k ct ad (mk : M NipperResponse) d q t out :
  reliable ad -> obs k d = (q, t, out) -> obs k (snd (mk d)) = obs k d ->
  rs_SessionKey (fst (mk d)) = k ->
  obs k (snd ((do resp <- mk; run deliverWithRetry ct ad resp; clearAccumulator k) d))
  = (q, "", (out ++ [(rs_DeliveryContext (fst (mk d)), rs_Meta (fst (mk d)), rs_Text (fst (mk d)))])%list).
Proof.
  intros Hr Ho Hmk Hk. unfold sbind. destruct (mk d) as [resp d1]. simpl in *.
  pose proof (deliver_obs ct ad resp d1 Hr not_cancelled) as Hd.
  destruct (deliverWithRetry ct ad resp d1) as [[] d2]. simpl in Hd. rewrite Hk in Hd.
  apply clear_obs with (t := t). rewrite Hd. rewrite Ho in Hmk. unfold obs in Hmk.
  by injection Hmk as -> -> ->.
Qed.

(** The buffered handler, on the front delivery. *)
Lemma buffered_obs ev ad dc meta parts q t out d e :
  reliable ad -> obs (ev_SessionKey ev) d = (if is_terminal ev then q else e :: q, t, out) ->
  de_Context e = dc -> de_Meta e = meta ->
  obs (ev_SessionKey ev) (snd (handleBufferedEvent ev (dc_ChannelType dc) ad dc meta parts d))
  = conv_event ev (e :: q, t, out).
Proof.
  intros Hr Ho <- <-. set (k := ev_SessionKey ev) in *. unfold handleBufferedEvent, conv_event, is_terminal in *.
  destruct (String.eqb_spec (ev_Type ev) EventTypeDelta) as [Ht|_].
  { rewrite Ht in Ho. unfold obs in *. injection Ho as Hq <- Hout.
    change (acc_text k (snd ((do now <- time_now; smodify (set_accumulators (accumulate ev now))) d)))
      with (acc_text k (set_accumulators (accumulate ev (clk (d_tick d))) d)).
    rewrite (accumulate_text ev (clk (d_tick d)) d : acc_text k _ = _). by rewrite <- Hq, <- Hout. }
  destruct (String.eqb_spec (ev_Type ev) EventTypeError) as [Ht|_].
  { rewrite orb_true_r in Ho.
    exact (deliver_clear_obs k _ ad (assembleErrorResponse ev _ _) d q t out Hr Ho eq_refl eq_refl). }
  destruct (String.eqb_spec (ev_Type ev) EventTypeDone) as [Ht|Ht]; [|done].
  assert (Htext : final_text ev d = if (t =? "")%string then delta_text ev else t).
  { unfold final_text. fold k. unfold obs in Ho. by injection Ho as _ -> _. }
  rewrite <- Htext.
  exact (deliver_clear_obs k _ ad (assembleFinalResponse ev _ _ parts) d q t out Hr Ho eq_refl eq_refl).
Qed.

(** The observation after the event's delivery was looked up. *)
Lemma route_obs ev d e q t out :
  obs (ev_SessionKey ev) d = (e :: q, t, out) ->
  exists d1, route_event ev d = (Some (entry_delivery e), d1)
    /\ obs (ev_SessionKey ev) d1 = (if is_terminal ev then q else e :: q, t, out).
Proof.
  intros Ho. unfold route_event. unfold obs in Ho. injection Ho as Hq Ht Hout.
  destruct (is_terminal ev).
  - destruct (consume_spec (ev_SessionKey ev) (d_registry d)) as [Hc Hr]. rewrite Hq in Hc.
    destruct (Consume _ _) as [found r]. injection Hc as ->. eexists. split; [done|].
    unfold obs, acc_text in *. simpl in *. rewrite Hr, String.eqb_refl, Hq. by rewrite <- Ht, <- Hout.
  - exists d. rewrite lookup_spec, Hq. split; [done|]. unfold obs. by rewrite Hq, Ht, Hout.
Qed.

Lemma handle_obs ev d q t out :
  obs (ev_SessionKey ev) d = (q, t, out) -> Forall (fun e => buffered_dc (de_Context e)) q ->
  obs (ev_SessionKey ev) (snd (HandleEvent ev d)) = conv_event ev (q, t, out).
Proof.
  intros Ho Hb. unfold HandleEvent, sbind. destruct q as [|e q].
  - assert (Hnone : route_event ev d = (None, d)).
    { unfold route_event. unfold obs in Ho. injection Ho as Hq _ _.
      destruct (consume_spec (ev_SessionKey ev) (d_registry d)) as [Hc _]. rewrite Hq in Hc.
      rewrite Hc, lookup_spec, Hq. destruct (is_terminal ev); [|done]. by destruct d. }
    by rewrite Hnone.
  - destruct (route_obs _ _ _ _ _ _ Ho) as (d1 & -> & Ho1).
    apply list.Forall_cons in Hb as [(Hs & Hm & ad & Had & Hr) _]. unfold entry_delivery.
    rewrite (proj2 (String.eqb_neq _ _) Hm). cbn [andb]. rewrite Had. unfold dispatch_to, sbind.
    rewrite <- (fanout_obs _ ev) in Ho1. destruct (fanOutToWebSocket ev d1) as [[] d2]. simpl in Ho1.
    assert (Hty : forall (b : bool) (m : M unit) d0, (forall d0, obs (ev_SessionKey ev) (snd (m d0)) = obs (ev_SessionKey ev) d0) ->
      obs (ev_SessionKey ev) (snd ((if b then m else sret tt) d0)) = obs (ev_SessionKey ev) d0)
      by (by intros []).
    match goal with |- context [(if ?b then maybeSendTypingIndicator ?a ?b' ?c ?f ?g else sret tt) d2] =>
      pose proof (Hty b (maybeSendTypingIndicator a b' c f g) d2 (typing_obs _ _ _ _ _ _)) as H1;
      destruct ((if b then maybeSendTypingIndicator a b' c f g else sret tt) d2) as [[] d3] end.
    match goal with |- context [(if ?b then clearTypingSent ?a ?b' ?c ?f ?g else sret tt) d3] =>
      pose proof (Hty b (clearTypingSent a b' c f g) d3 (clear_typing_obs _ _ _ _ _ _)) as H2;
      destruct ((if b then clearTypingSent a b' c f g else sret tt) d3) as [[] d4] end.
    simpl in H1, H2. rewrite Hs. apply buffered_obs; try done. by rewrite H2, H1.
Qed.

Lemma conv_event_queue ev q t out :
  let '(q', _, _) := conv_event ev (q, t, out) in q' = q \/ exists e, q = e :: q'.
Proof. destruct q as [|e q]; simpl; [by left|]. repeat case_test; eauto. Qed.

(** C8: Every answer goes to the message it answers. On any interleaving of
    registrations and agent events of any number of sessions, a session whose
    deliveries are buffered and whose adapter accepts a response within three
    attempts is answered as its contract says: each terminal event pops the
    oldest waiting delivery and sends it, once, the text of the deltas received
    since the last terminal event (or the final event's own), or the error. *)
Theorem dispatcher_answers k os d :
  Forall (fun e => buffered_dc (de_Context e)) (queue_of (d_registry d) k) ->
  Forall (buffered_op k) os ->
  obs k (disp_run os d) = fold_left (fun c o => conv_step k o c) os (obs k d).
Proof.
  intros Hq Hos. revert d Hq. induction Hos as [|o os Ho _ IH]; intros d Hq; [done|]. simpl.
  assert (Hstep : obs k (disp_step o d) = conv_step k o (obs k d)).
  { destruct o as [k' dc meta parts now|ev]; simpl.
    - unfold obs, acc_text. simpl. rewrite queue_register. by destruct (k' =? k)%string.
    - destruct (String.eqb_spec (ev_SessionKey ev) k) as [<-|Hne].
      + unfold obs at 2. by apply handle_obs.
      + apply (touches_obs (ev_SessionKey ev)); [apply local_handle|by apply not_eq_sym]. }
  rewrite IH, Hstep; [done|].
  change (queue_of (d_registry (disp_step o d)) k) with (fst (fst (obs k (disp_step o d)))).
  rewrite Hstep. destruct o as [k' dc meta parts now|ev]; cbn [conv_step].
  - unfold obs. destruct (String.eqb_spec k' k); [|done]. apply list.Forall_app. split; [done|].
    repeat constructor; by apply Ho.
  - destruct (_ =? _)%string; [|done]. unfold obs.
    pose proof (conv_event_queue ev (queue_of (d_registry d) k) (acc_text k d) (delivered k (d_log d))) as Hc.
    destruct (conv_event _ _) as [[q' t'] o']. destruct Hc as [->|[e He]]; [exact Hq|].
    rewrite He in Hq. by apply list.Forall_cons in Hq as [_ ?].
Qed.
End answers.

(** ** Retries *)

Lemma attempts_shape left ct ad resp d : (0 < left)%nat ->
  exists errs last n, delivery_attempts left ct ad resp d
    = (tt, Build_Dispatcher (d_registry d) (d_accumulators d) (d_typingSent d) (d_wsSubscribers d)
             (d_channels d) n (d_log d ++ map (DeliverResponse ct resp) (errs ++ [last])))
  /\ Forall (fun e => e <> None) errs /\ (length errs < left)%nat
  /\ (last = None \/ S (length errs) = left \/ exists c, cancelled c = true).
Proof.
  revert d. induction left as [|left IH]; intros d Hl; [lia|].
  simpl. unfold sbind, next_tick, emit, smodify, sret. cbn [d_tick d_log d_registry d_accumulators
    d_typingSent d_wsSubscribers d_channels].
  destruct (ad_DeliverResponse ad (d_tick d) resp) as [e|] eqn:E.
  2: { exists [], None. eexists. split; [reflexivity|]. split; [constructor|]. simpl. split; [lia|by left]. }
  destruct (Nat.ltb_spec 0 left) as [Hl'|Hl'].
  2: { exists [], (Some e). eexists. split; [reflexivity|]. split; [constructor|]. simpl.
       split; [lia|]. right. left. lia. }
  cbn [d_tick]. destruct (cancelled (S (d_tick d))) eqn:Ec.
  { exists [], (Some e). eexists. split; [reflexivity|]. split; [constructor|]. simpl. split; [lia|eauto]. }
  match goal with |- context [delivery_attempts left ct ad resp ?d1] =>
    destruct (IH d1 Hl') as (errs & last & n & -> & Hf & Hn & Hlast) end.
  exists (Some e :: errs), last, n. simpl. rewrite <- app_assoc. split; [done|].
  split; [by constructor|]. split; [lia|]. destruct Hlast as [|[|]]; eauto.
Qed.

(** A response is attempted at least once and at most three times, never
    again after it was accepted, and given up early only when the context was
    cancelled; failed deliveries change nothing else. *)
Lemma delivery_bounded ct ad resp d :
  exists errs last n, deliverWithRetry ct ad resp d
    = (tt, Build_Dispatcher (d_registry d) (d_accumulators d) (d_typingSent d) (d_wsSubscribers d)
             (d_channels d) n (d_log d ++ map (DeliverResponse ct resp) (errs ++ [last])))
  /\ Forall (fun e => e <> None) errs /\ (length errs < 3)%nat
  /\ (last = None \/ S (length errs) = 3%nat \/ exists c, cancelled c = true).
Proof. apply attempts_shape. unfold deliveryMaxRetries. lia. Qed.

(** ** The sweep and the typing indicator *)

Definition is_removal (k : string) (e : dispatch_effect) : bool :=
  match e with RemoveTyping _ key _ _ => (key =? k)%string | _ => false end.

Lemma sweep_typing now k d :
  typing k (snd (evictStaleAccumulators now d))
  = match d_accumulators (snd (evictStaleAccumulators now d)) !! k with
    | Some _ => typing k d | None => false end.
Proof.
  unfold typing, evictStaleAccumulators, sbind, smodify, set_typing, set_accumulators.
  cbn [snd d_typingSent d_accumulators]. rewrite map_lookup_imap.
  destruct (omap _ (d_accumulators d) !! k);
    by destruct (d_typingSent d !! k).
Qed.

Lemma attempts_no_removal k ct ad resp d :
  exists effs, d_log (snd (deliverWithRetry ct ad resp d)) = (d_log d ++ effs)%list
    /\ Forall (fun e => is_removal k e = false) effs.
Proof.
  destruct (attempts_shape deliveryMaxRetries ct ad resp d) as (errs & last & n & E & _);
    [unfold deliveryMaxRetries; lia|].
  unfold deliverWithRetry. rewrite E. eexists. split; [reflexivity|].
  apply list.Forall_forall. by intros e (err & -> & _)%list_elem_of_fmap.
Qed.

(** The cleanup sweep, run every minute, forgets the typing indicator of
    every session without accumulated text, running or not: a streaming session
    (which never accumulates) swept between its first event and its final one is
    answered without the removal of its indicator. *)
Lemma sweep_forgets_typing now k d ev e q :
  ev_SessionKey ev = k -> ev_Type ev = EventTypeDone ->
  d_accumulators d !! k = None ->
  queue_of (d_registry d) k = e :: q ->
  dc_ReplyMode (de_Context e) <> "broadcast" -> SupportsStreaming (dc_Capabilities (de_Context e)) = true ->
  exists effs, d_log (snd (HandleEvent ev (snd (evictStaleAccumulators now d)))) = (d_log d ++ effs)%list
    /\ Forall (fun e => is_removal k e = false) effs.
Proof.
  intros <- Ht Hacc Hq Hb Hs. set (k := ev_SessionKey ev) in *.
  pose proof (sweep_typing now k d) as Hty. set (d0 := snd (evictStaleAccumulators now d)) in *.
  assert (Ha0 : d_accumulators d0 !! k = None).
  { unfold d0, evictStaleAccumulators, sbind, smodify, set_typing, set_accumulators.
    cbn [snd d_accumulators]. by rewrite lookup_omap, Hacc. }
  rewrite Ha0 in Hty. change (d_log d) with (d_log d0).
  change (d_registry d) with (d_registry d0) in Hq. clearbody d0. clear Ha0 Hacc d.
  unfold HandleEvent, sbind, route_event, is_terminal. rewrite Ht. cbn [String.eqb orb andb].
  destruct (consume_spec k (d_registry d0)) as [Hc _]. rewrite Hq in Hc. fold k.
  change ((EventTypeDone =? EventTypeDone)%string) with true. cbn [orb].
  destruct (Consume k (d_registry d0)) as [found r]. injection Hc as ->.
  unfold entry_delivery. rewrite (proj2 (String.eqb_neq _ _) Hb). cbn [andb].
  unfold fanOutToWebSocket.
  destruct (adapters !! dc_ChannelType (de_Context e)) as [ad|]; [|by exists []; rewrite app_nil_r].
  unfold dispatch_to, sbind, clearTypingSent, sbind, sget, is_terminal. rewrite Ht. fold k.
  change ((EventTypeDone =? EventTypeThinking)%string || (EventTypeDone =? EventTypeToolStart)%string) with false.
  change ((EventTypeDone =? EventTypeDone)%string) with true. cbn [orb]. unfold sret at 1.
  match goal with |- context [typing k ?d1] => change (typing k d1) with (typing k d0) end.
  rewrite Hty. cbn [negb]. unfold smodify. rewrite Hs.
  unfold handleStreamingEvent. rewrite Ht.
  change ((EventTypeDone =? EventTypeDone)%string) with true. cbn iota.
  unfold sbind, sret. cbv beta.
  match goal with |- context [assembleResponseFromEvent ?a ?b ?c ?f ?d1] =>
    destruct (assembleResponseFromEvent a b c f d1) as [resp d2] eqn:E;
    assert (Hl : d_log d2 = d_log d0) by (change d2 with (snd (resp, d2)); by rewrite <- E) end.
  rewrite <- Hl. apply attempts_no_removal.
Qed.
End dispatcher.

(** ** Witnesses: a WhatsApp session and a Slack session *)

Definition demo_adapter : Adapter := {|
  ad_DeliverResponse n _ := if Nat.even (n / 2) then None else Some "down";
  ad_DeliverEvent _ _ := None;
  ad_TypingIndicator := Some (fun _ => None);
  ad_TypingIndicatorRemover := Some (fun _ => None) |}.

Definition demo_adapters : gmap ChannelType Adapter :=
  {[ "whatsapp" := demo_adapter; "slack" := demo_adapter ]}.

Definition demo_event (k ty text : string) : NipperEvent :=
  Build_NipperEvent "e" ty k "r" 0 (Some (Build_EventDelta text)) None None None None None "u".

Definition wa_dc : DeliveryContext :=
  Build_DeliveryContext "whatsapp" "c" "" "" [] WhatsAppCapabilities.
Definition slack_dc : DeliveryContext :=
  Build_DeliveryContext "slack" "c" "" "" [] SlackCapabilities.

Definition demo_ops : list disp_op :=
  [DRegister "k" wa_dc None [] 0; DRegister "s" slack_dc None [] 0;
   DEvent (demo_event "k" "delta" "Hel"); DEvent (demo_event "s" "delta" "x");
   DRegister "k" wa_dc None [] 1; DEvent (demo_event "k" "delta" "lo");
   DEvent (demo_event "k" "done" ""); DEvent (demo_event "k" "done" "bye")].

Definition demo_run (os : list disp_op) : Dispatcher :=
  disp_run (fun _ => 0%Z) (fun _ => "id") (fun r => r) (fun _ => false) demo_adapters os
    (NewDispatcher NewRegistry).

Lemma demo_reliable : reliable demo_adapter.
Proof.
  intros n resp. unfold demo_adapter. cbn [ad_DeliverResponse].
  replace ((2 + n) / 2)%nat with (S (n / 2)) by (change (2 + n)%nat with (1 * 2 + n)%nat; rewrite Nat.div_add_l by lia; lia).
  destruct (Nat.even (n / 2)) eqn:E; [by left|]. right. left.
  by rewrite Nat.even_succ, <- Nat.negb_even, E.
Qed.

Lemma dispatcher_answers_witness :
  obs "k" (demo_run demo_ops)
  = fold_left (fun c o => conv_step "k" o c) demo_ops (obs "k" (NewDispatcher NewRegistry))
  /\ delivered "k" (d_log (demo_run demo_ops)) = [(wa_dc, None, "Hello"); (wa_dc, None, "bye")].
Proof.
  split; [|vm_compute; reflexivity].
  apply (dispatcher_answers (fun _ => 0%Z) (fun _ => "id") (fun r => r) (fun _ => false) demo_adapters
    (fun _ => eq_refl) "k" demo_ops); [constructor|].
  assert (buffered_dc demo_adapters wa_dc).
  { split; [reflexivity|]. split; [discriminate|]. exists demo_adapter.
    split; [reflexivity|apply demo_reliable]. }
  repeat (apply list.Forall_cons; split; [by simpl; intros|]). by apply list.Forall_nil.
Defined.

Lemma sweep_forgets_typing_witness :
  let d := demo_run [DRegister "s" slack_dc None [] 0; DEvent (demo_event "s" "thinking" "")] in
  let handle := HandleEvent (fun _ => 0%Z) (fun _ => "id") (fun r => r) (fun _ => false) demo_adapters in
  typing "s" d = true
  /\ existsb (is_removal "s") (d_log (snd (handle (demo_event "s" "done" "x") d))) = true
  /\ exists effs, d_log (snd (handle (demo_event "s" "done" "x") (snd (evictStaleAccumulators 5 d))))
      = (d_log d ++ effs)%list
     /\ Forall (fun e => is_removal "s" e = false) effs.
Proof.
  intros d handle. split; [vm_compute; reflexivity|]. split; [vm_compute; reflexivity|].
  apply (sweep_forgets_typing (fun _ => 0%Z) (fun _ => "id") (fun r => r) (fun _ => false) demo_adapters
    5 "s" d (demo_event "s" "done" "x") (Build_DeliveryEntry slack_dc None [] 0) []);
    try reflexivity. discriminate.
Defined.
