(* ===== verification/Queue.v ===== *)
(** * The Gateway-Agent queue system (internal/queue)

    The topology the gateway declares, the publisher and the event consumer,
    against an AMQP channel whose calls may fail.  What the broker does with a
    topic exchange is its documentation: [topic_spec]. *)
From Stdlib Require Import ZArith Lia Bool Ascii String List.
From stdpp Require Import base gmap strings option fin_maps sets list.
From S2P Require Import Prelude GoString Models.

Local Open Scope string_scope.
Local Open Scope state_scope.

(** ** topology.go *)

Definition ExchangeSessions : string := "nipper.sessions".
Definition ExchangeEvents : string := "nipper.events".
Definition ExchangeControl : string := "nipper.control".
Definition ExchangeSessionsDLX : string := "nipper.sessions.dlx".
Definition ExchangeLogs : string := "nipper.logs".
Definition QueueEventsGateway : string := "nipper-events-gateway".
Definition QueueSessionsDLQ : string := "nipper-sessions-dlq".

Definition userQueueMessageTTL : Z := 300000.
Definition userQueueMaxLength : Z := 50.
Definition dlqMessageTTL : Z := 86400000.

Definition UserAgentQueue (userID : string) : string := "nipper-agent-" +:+ userID.
Definition UserControlQueue (userID : string) : string := "nipper-control-" +:+ userID.

(** Values of an [amqp.Table]. *)
Inductive table_value := TInt32 (n : Z) | TInt64 (n : Z) | TString (s : string).
Abbreviation table := (list (string * table_value)).

(** The declarations of a channel; durable, not auto-deleted, not exclusive. *)
Inductive amqp_decl :=
| ExchangeDeclare (name kind : string)
| QueueDeclare (name : string) (args : table)
| QueueBind (queue key exchange : string).

(** The broker's view of what was declared. *)
Record BrokerState := {
  b_exchanges : gmap string string;
  b_queues : gmap string table;
  b_bindings : list (string * string * string);   (* queue, key, exchange *)
  b_calls : nat }.

Definition empty_broker : BrokerState := Build_BrokerState ∅ ∅ [] 0.

Inductive topology_error :=
| ErrExchange (name e : string)
| ErrQueue (name e : string)
| ErrBind (queue e : string).

Definition apply_decl (d : amqp_decl) (b : BrokerState) : BrokerState :=
  match d with
  | ExchangeDeclare n k => Build_BrokerState (<[n := k]> (b_exchanges b)) (b_queues b) (b_bindings b) (b_calls b)
  | QueueDeclare n a => Build_BrokerState (b_exchanges b) (<[n := a]> (b_queues b)) (b_bindings b) (b_calls b)
  | QueueBind q k e => Build_BrokerState (b_exchanges b) (b_queues b) (b_bindings b ++ [(q, k, e)]) (b_calls b)
  end.

Definition decl_error (d : amqp_decl) (e : string) : topology_error :=
  match d with
  | ExchangeDeclare n _ => ErrExchange n e
  | QueueDeclare n _ => ErrQueue n e
  | QueueBind q _ _ => ErrBind q e
  end.

Definition topology_decls : list amqp_decl :=
  [ExchangeDeclare ExchangeSessions "topic"; ExchangeDeclare ExchangeEvents "topic";
   ExchangeDeclare ExchangeControl "topic"; ExchangeDeclare ExchangeSessionsDLX "fanout";
   ExchangeDeclare ExchangeLogs "topic";
   QueueDeclare QueueEventsGateway [];
   QueueDeclare QueueSessionsDLQ [("x-message-ttl", TInt64 dlqMessageTTL)];
   QueueBind QueueEventsGateway "nipper.events.#" ExchangeEvents;
   QueueBind QueueSessionsDLQ "#" ExchangeSessionsDLX].

Definition agent_args : table :=
  [("x-dead-letter-exchange", TString ExchangeSessionsDLX);
   ("x-dead-letter-routing-key", TString "nipper.sessions.dlq");
   ("x-message-ttl", TInt32 userQueueMessageTTL);
   ("x-max-length", TInt32 userQueueMaxLength);
   ("x-overflow", TString "reject-publish")].

Definition user_decls (userID : string) : list amqp_decl :=
  [QueueDeclare (UserAgentQueue userID) agent_args;
   QueueBind (UserAgentQueue userID) ("nipper.sessions." +:+ userID +:+ ".#") ExchangeSessions;
   QueueDeclare (UserControlQueue userID) [];
   QueueBind (UserControlQueue userID) ("nipper.control." +:+ userID) ExchangeControl].

Section channel.
(** The outcome of the channel's calls. *)
Variable call_error : nat -> amqp_decl -> option string.

Definition declare (d : amqp_decl) : State BrokerState (result topology_error unit) := fun b =>
  let b1 := Build_BrokerState (b_exchanges b) (b_queues b) (b_bindings b) (S (b_calls b)) in
  match call_error (b_calls b) d with
  | Some e => (Err (decl_error d e), b1)
  | None => (Ok tt, apply_decl d b1)
  end.

(** The declarations in order, up to the first error. *)
Fixpoint declare_all (ds : list amqp_decl) : State BrokerState (result topology_error unit) :=
  match ds with
  | [] => sret (Ok tt)
  | d :: ds' =>
      do r <- declare d;
      match r with Ok _ => declare_all ds' | Err e => sret (Err e) end
  end.

Definition DeclareTopology : State BrokerState (result topology_error unit) :=
  declare_all topology_decls.

Definition DeclareUserQueues (userID : string) : State BrokerState (result topology_error unit) :=
  declare_all (user_decls userID).

(** The gateway's startup: the static topology, then every user's queues; an error of
    a user is logged, and the next user's turn comes.  It gives the users that had
    one. *)
Fixpoint declare_users (us : list string) : State BrokerState (list string) :=
  match us with
  | [] => sret []
  | u :: us' =>
      do r <- DeclareUserQueues u;
      do failed <- declare_users us';
      sret (match r with Ok _ => failed | Err _ => u :: failed end)
  end.

Definition startup (us : list string) : State BrokerState (result topology_error (list string)) :=
  do r <- DeclareTopology;
  match r with
  | Ok _ => do failed <- declare_users us; sret (Ok failed)
  | Err e => sret (Err e)
  end.

(** ** Lemmas on successful declarations *)

Lemma declare_all_ok ds b b' :
  declare_all ds b = (Ok tt, b') ->
  b_bindings b' = (b_bindings b ++ flat_map (fun d => match d with QueueBind q k e => [(q, k, e)] | _ => [] end) ds)%list
  /\ (forall q, is_Some (b_queues b' !! q) <-> is_Some (b_queues b !! q)
        \/ exists a, In (QueueDeclare q a) ds).
Proof.
  revert b. induction ds as [|d ds IH]; intros b; simpl.
  - intros [= <-]. rewrite app_nil_r. split; [done|]. naive_solver.
  - unfold sbind, declare. destruct (call_error (b_calls b) d); [done|]. intros H.
    destruct (IH _ H) as [Hb Hq]. rewrite Hb. split.
    + destruct d; simpl; [done..|]. by rewrite <- app_assoc.
    + intros q. rewrite Hq. destruct d as [n k|n a|n k e]; simpl; [naive_solver| |naive_solver].
      destruct (decide (n = q)) as [->|Hne].
      * rewrite lookup_insert_eq. naive_solver.
      * rewrite lookup_insert_ne by done. naive_solver.
Qed.

Definition user_bindings (u : string) : list (string * string * string) :=
  [(UserAgentQueue u, "nipper.sessions." +:+ u +:+ ".#", ExchangeSessions);
   (UserControlQueue u, "nipper.control." +:+ u, ExchangeControl)].

Lemma declare_users_ok us b b' :
  declare_users us b = ([], b') -> b_bindings b' = (b_bindings b ++ flat_map user_bindings us)%list.
Proof.
  revert b. induction us as [|u us IH]; intros b; cbn [declare_users].
  - intros [= <-]. by rewrite app_nil_r.
  - unfold sbind. destruct (DeclareUserQueues u b) as [r b1] eqn:E. destruct (declare_users us b1) as [failed b2] eqn:H.
    destruct r as [[]|e]; [|done]. intros [= -> ->].
    apply declare_all_ok in E as [Hb _]. rewrite (IH _ H), Hb, <- app_assoc. done.
Qed.

Lemma startup_ok us b' :
  startup us empty_broker = (Ok [], b') ->
  b_bindings b' = ((QueueEventsGateway, "nipper.events.#", ExchangeEvents)
    :: (QueueSessionsDLQ, "#", ExchangeSessionsDLX) :: flat_map user_bindings us)%list.
Proof.
  unfold startup, sbind. destruct (DeclareTopology empty_broker) as [[[]|e] b1] eqn:E; [|done].
  destruct (declare_users us b1) as [failed b2] eqn:H. intros [= -> ->].
  apply declare_all_ok in E as [Hb _]. by rewrite (declare_users_ok _ _ _ H), Hb.
Qed.
End channel.

(** ** Topic routing, as the broker documents it *)

(** The words of a routing key, between dots. *)
Definition dot_words (s : string) : list string := split_on "." s.

(** ["*"] stands for one word and ["#"] for zero or more. *)
Inductive topic_words : list string -> list string -> Prop :=
| TNil : topic_words [] []
| TStar w p k : topic_words p k -> topic_words ("*" :: p) (w :: k)
| THashNone p k : topic_words p k -> topic_words ("#" :: p) k
| THashMore w p k : topic_words ("#" :: p) k -> topic_words ("#" :: p) (w :: k)
| TWord w p k : w <> "*" -> w <> "#" -> topic_words p k -> topic_words (w :: p) (w :: k).

Definition topic_spec (matches : string -> string -> bool) : Prop :=
  forall pattern key, matches pattern key = true <-> topic_words (dot_words pattern) (dot_words key).

(** A decision procedure, for the witnesses. *)
Fixpoint words_match (p k : list string) : bool :=
  match p with
  | [] => match k with [] => true | _ => false end
  | w :: p' =>
      if (w =? "#")%string then
        (fix some (k : list string) : bool :=
           words_match p' k || match k with [] => false | _ :: k' => some k' end) k
      else match k with
           | [] => false
           | x :: k' => ((w =? "*")%string || (w =? x)%string) && words_match p' k'
           end
  end.

Lemma words_match_spec p k : words_match p k = true <-> topic_words p k.
Proof.
  split.
  - revert k. induction p as [|w p IH]; intros k; simpl.
    { destruct k; [constructor|done]. }
    destruct (String.eqb_spec w "#") as [->|Hh].
    { induction k as [|x k IHk]; intros [H|H]%orb_true_iff; try done.
      - by apply THashNone, IH.
      - by apply THashNone, IH.
      - by apply THashMore, IHk. }
    destruct k as [|x k]; [done|]. intros [[Hs|Hx]%orb_true_iff H]%andb_true_iff.
    + apply String.eqb_eq in Hs as ->. by apply TStar, IH.
    + apply String.eqb_eq in Hx as ->. destruct (String.eqb_spec x "*") as [->|];
        [by apply TStar, IH|by apply TWord, IH].
  - induction 1 as [|w p k _ IH|p k _ IH|w p k _ IH|w p k H1 H2 _ IH]; simpl; try done.
    + destruct k; simpl; by rewrite IH.
    + by rewrite orb_true_r || (simpl in IH; rewrite IH; by rewrite orb_true_r).
    + rewrite (proj2 (String.eqb_neq _ _) H2), String.eqb_refl, orb_true_r. done.
Qed.

Definition demo_matches (pattern key : string) : bool := words_match (dot_words pattern) (dot_words key).

Lemma demo_topic_spec : topic_spec demo_matches.
Proof. intros p k. apply words_match_spec. Qed.

(** ** publisher.go *)

Definition session_key_routing (userID sessionKey : string) : string :=
  "nipper.sessions." +:+ userID +:+ "." +:+ sessionKey.
Definition control_routing (userID : string) : string := "nipper.control." +:+ userID.

Record publishing := {
  pb_exchange : string;
  pb_key : string;
  pb_MessageId : string;
  pb_Headers : list (string * table_value) }.

Inductive publish_error :=
| ErrNilItem
| ErrGetChannel (e : string)
| ErrPublishing (exchange key e : string).

(** The cached channel (by identity) and what the broker accepted. *)
Record PublisherState := {
  p_ch : option nat;
  p_sent : list publishing;
  p_calls : nat }.

Section publisher.
Variable is_closed : nat -> nat -> bool.               (* call, channel *)
Variable open_channel : nat -> result string nat.
Variable publish_outcome : nat -> nat -> publishing -> option string.

Abbreviation P A := (State PublisherState A).

Definition next_call : P nat := fun p => (p_calls p, Build_PublisherState (p_ch p) (p_sent p) (S (p_calls p))).
Definition set_ch (c : option nat) : P unit :=
  smodify (fun p => Build_PublisherState c (p_sent p) (p_calls p)).

Definition getChannel : P (result string nat) :=
  do n <- next_call;
  do cached <- sget p_ch;
  let reopen := match open_channel n with
                | Err e => sret (Err e)
                | Ok ch => run set_ch (Some ch); sret (Ok ch)
                end in
  match cached with
  | Some ch => if negb (is_closed n ch) then sret (Ok ch) else reopen
  | None => reopen
  end.

(** Publishing on the cached channel; a failure invalidates it. *)
Definition publish_on (m : publishing) : P (result publish_error unit) :=
  do r <- getChannel;
  match r with
  | Err e => sret (Err (ErrGetChannel e))
  | Ok ch =>
      do n <- next_call;
      match publish_outcome n ch m with
      | Some e => run set_ch None; sret (Err (ErrPublishing (pb_exchange m) (pb_key m) e))
      | None =>
          run smodify (fun p => Build_PublisherState (p_ch p) (p_sent p ++ [m]) (p_calls p));
          sret (Ok tt)
      end
  end.

(** The body is the item's JSON; its text is not modelled, and a queue item
    always marshals. *)
Definition item_publishing (item : QueueItem) : publishing :=
  let userID := nm_UserID (qi_Message item) in
  let sessionID := nm_SessionKey (qi_Message item) in
  {| pb_exchange := ExchangeSessions;
     pb_key := session_key_routing userID sessionID;
     pb_MessageId := qi_ID item;
     pb_Headers := [("x-nipper-user-id", TString userID); ("x-nipper-session-key", TString sessionID);
                    ("x-nipper-queue-mode", TString (qi_Mode item));
                    ("x-nipper-priority", TInt32 ((qi_Priority item + 2 ^ 31) mod 2 ^ 32 - 2 ^ 31))] |}.

Definition PublishMessage (item : option QueueItem) : P (result publish_error unit) :=
  match item with
  | None => sret (Err ErrNilItem)
  | Some item => publish_on (item_publishing item)
  end.

Definition PublishControl (userID : string) (msg : option ControlMessage) : P (result publish_error unit) :=
  match msg with
  | None => sret (Err ErrNilItem)
  | Some _ => publish_on (Build_publishing ExchangeControl (control_routing userID) "" [])
  end.

(** ** Theorems on publishing *)

Lemma publish_on_spec m p : exists r p', publish_on m p = (r, p')
  /\ match r with
     | Ok _ => p_sent p' = (p_sent p ++ [m])%list /\ is_Some (p_ch p')
     | Err (ErrPublishing _ _ _) => p_sent p' = p_sent p /\ p_ch p' = None
     | Err _ => p_sent p' = p_sent p /\ p_ch p' = p_ch p
     end.
Proof.
  unfold publish_on, getChannel, sbind, next_call, sget, set_ch, smodify, sret. cbn [p_ch p_calls p_sent].
  destruct (p_ch p) as [ch|] eqn:E; [destruct (is_closed (p_calls p) ch); cbn [negb]|];
    try destruct (open_channel (p_calls p)) as [ch'|e]; cbn [p_ch p_calls p_sent];
    try destruct (publish_outcome _ _ m); eexists _, _; (split; [reflexivity|]); simpl; eauto.
Qed.

(** A message is published to its user's routing key exactly once or an
    error is returned: success means the broker accepted one message with the
    key of the item's user, a failed publication leaves nothing sent and no
    cached channel (the next call opens a fresh one). *)
Lemma publish_once item p : exists r p', PublishMessage (Some item) p = (r, p')
  /\ match r with
     | Ok _ => exists m, p_sent p' = (p_sent p ++ [m])%list /\ pb_exchange m = ExchangeSessions
               /\ pb_key m = session_key_routing (nm_UserID (qi_Message item)) (nm_SessionKey (qi_Message item))
               /\ pb_MessageId m = qi_ID item
     | Err e => p_sent p' = p_sent p /\ (p_ch p' = None \/ p_ch p' = p_ch p)
     end.
Proof.
  destruct (publish_on_spec (item_publishing item) p) as (r & p' & H & Hr). exists r, p'.
  split; [exact H|]. destruct r as [u|[| |]]; [|intuition..].
  exists (item_publishing item). destruct Hr. auto.
Qed.
End publisher.

(** ** consumer.go: one delivery *)

Inductive settlement := Ack | Nack (requeue : bool).

(** [handleDelivery]: the handler runs on events that decode; its state is
    that of the client. *)
Definition handleDelivery {St} (decode : string -> option NipperEvent)
    (handler : NipperEvent -> State St (option string)) (body : string) : State St settlement :=
  match decode body with
  | None => sret (Nack false)
  | Some event =>
      do err <- handler event;
      match err with
      | Some _ => sret (Nack false)
      | None => sret Ack
      end
  end.

(** ** Isolation of the users' queues *)

Section routing.
Variable matches : string -> string -> bool.

(** The queues a message published to a topic exchange reaches. *)
Definition route_one (exchange key : string) (bd : string * string * string) : list string :=
  let '(q, k, e) := bd in if (e =? exchange)%string && matches k key then [q] else [].

Definition routes (b : BrokerState) (exchange key : string) : list string :=
  flat_map (route_one exchange key) (b_bindings b).

Hypothesis matches_spec : topic_spec matches.

Definition plain_word (u : string) : Prop := lacks "." u = true /\ u <> "*" /\ u <> "#".

Lemma dot_words_app a s : lacks "." a = true -> dot_words (a +:+ "." +:+ s) = a :: dot_words s.
Proof. apply split_on_app. Qed.

Lemma dot_words_plain a : lacks "." a = true -> dot_words a = [a].
Proof. apply split_on_plain. Qed.

Lemma topic_cons_inv w p x k :
  w <> "*" -> w <> "#" -> topic_words (w :: p) (x :: k) <-> w = x /\ topic_words p k.
Proof. intros H1 H2. split; [by inversion 1|]. intros [-> H]. by constructor. Qed.

Lemma topic_hash k : topic_words ["#"] k.
Proof. induction k; [apply THashNone, TNil|by apply THashMore]. Qed.

Lemma topic_nil : topic_words [] [].
Proof. constructor. Qed.

Lemma agent_binding_matches u v key :
  plain_word u -> lacks "." v = true ->
  matches ("nipper.sessions." +:+ u +:+ ".#") (session_key_routing v key) = true <-> u = v.
Proof.
  intros (Hl & H1 & H2) Hv. rewrite (matches_spec _ _). unfold session_key_routing.
  change ("nipper.sessions." +:+ u +:+ ".#") with ("nipper" +:+ "." +:+ ("sessions" +:+ "." +:+ (u +:+ "." +:+ "#"))).
  change ("nipper.sessions." +:+ v +:+ "." +:+ key)
    with ("nipper" +:+ "." +:+ ("sessions" +:+ "." +:+ (v +:+ "." +:+ key))).
  rewrite !dot_words_app by done. rewrite !topic_cons_inv by done. split; [tauto|].
  intros ->. split; [done|]. split; [done|]. split; [done|]. apply topic_hash.
Qed.

Lemma control_binding_matches u v :
  plain_word u -> lacks "." v = true ->
  matches ("nipper.control." +:+ u) (control_routing v) = true <-> u = v.
Proof.
  intros (Hl & H1 & H2) Hv. rewrite (matches_spec _ _). unfold control_routing.
  change ("nipper.control." +:+ u) with ("nipper" +:+ "." +:+ ("control" +:+ "." +:+ u)).
  change ("nipper.control." +:+ v) with ("nipper" +:+ "." +:+ ("control" +:+ "." +:+ v)).
  rewrite !dot_words_app by done. rewrite !dot_words_plain by done.
  rewrite !topic_cons_inv by done. split; [tauto|]. intros ->. repeat split. apply topic_nil.
Qed.

(** Exactly one of the users' bindings matches. *)
Lemma flat_map_one (f : string * string * string -> list string) (q : string -> string) us u :
  NoDup us -> u ∈ us ->
  (forall v, v ∈ us -> flat_map f (user_bindings v) = if decide (v = u) then [q u] else []) ->
  flat_map f (flat_map user_bindings us) = [q u].
Proof.
  induction us as [|v us IH]; [set_solver|]. intros [Hv Hn]%list.NoDup_cons Hin Hf.
  change (flat_map user_bindings (v :: us)) with (user_bindings v ++ flat_map user_bindings us)%list.
  rewrite flat_map_app, (Hf v) by set_solver. destruct (decide (v = u)) as [->|Hne].
  - assert (flat_map f (flat_map user_bindings us) = []) as ->; [|done].
    clear IH Hin. induction us as [|w us IH]; [done|].
    change (flat_map user_bindings (w :: us)) with (user_bindings w ++ flat_map user_bindings us)%list.
    rewrite flat_map_app, (Hf w) by set_solver. rewrite decide_False by set_solver.
    apply IH; [set_solver|by apply list.NoDup_cons in Hn as [_ ?]|]. intros x Hx. apply Hf. set_solver.
  - apply IH; [done|set_solver|]. intros x Hx. apply Hf. set_solver.
Qed.

(** C38: Users are isolated: after a startup without errors, a message
    published for a user reaches that user's agent queue and nothing else, and
    a control signal that user's control queue and nothing else, whatever the
    session key, provided user ids are single words of a routing key. *)
Theorem sessions_isolated call_error us b u key :
  startup call_error us empty_broker = (Ok [], b) ->
  NoDup us -> Forall plain_word us -> u ∈ us ->
  routes b ExchangeSessions (session_key_routing u key) = [UserAgentQueue u]
  /\ routes b ExchangeControl (control_routing u) = [UserControlQueue u].
Proof.
  intros Hs Hn Hp Hin. unfold routes. rewrite (startup_ok _ _ _ Hs).
  rewrite list.Forall_forall in Hp. destruct (Hp u Hin) as (Hu & _).
  split.
  - apply (flat_map_one (route_one ExchangeSessions (session_key_routing u key)) UserAgentQueue); [done|done|].
    intros v Hv. pose proof (agent_binding_matches v u key (Hp v Hv) Hu) as Hm.
    unfold user_bindings, route_one. cbn [flat_map].
    change (ExchangeSessions =? ExchangeSessions)%string with true.
    change (ExchangeControl =? ExchangeSessions)%string with false. cbn [andb].
    destruct (matches _ _).
    + rewrite decide_True by (by apply Hm). by rewrite (proj1 Hm eq_refl).
    + rewrite decide_False; [done|]. intros He. by apply Hm in He.
  - apply (flat_map_one (route_one ExchangeControl (control_routing u)) UserControlQueue); [done|done|].
    intros v Hv. pose proof (control_binding_matches v u (Hp v Hv) Hu) as Hm.
    unfold user_bindings, route_one. cbn [flat_map].
    change (ExchangeSessions =? ExchangeControl)%string with false.
    change (ExchangeControl =? ExchangeControl)%string with true. cbn [andb].
    destruct (matches _ _).
    + rewrite decide_True by (by apply Hm). by rewrite (proj1 Hm eq_refl).
    + rewrite decide_False; [done|]. intros He. by apply Hm in He.
Qed.
End routing.

Definition demo_broker (us : list string) : BrokerState := snd (startup (fun _ _ => None) us empty_broker).

Lemma sessions_isolated_witness :
  routes demo_matches (demo_broker ["usr_1"; "usr_2"]) ExchangeSessions
    (session_key_routing "usr_1" "user:usr_1:channel:slack:session:a.b") = [UserAgentQueue "usr_1"]
  /\ routes demo_matches (demo_broker ["usr_1"; "usr_2"]) ExchangeControl (control_routing "usr_1")
     = [UserControlQueue "usr_1"].
Proof.
  apply (sessions_isolated demo_matches demo_topic_spec (fun _ _ => None) ["usr_1"; "usr_2"]).
  - vm_compute. reflexivity.
  - apply (bool_decide_unpack _). reflexivity.
  - repeat constructor; discriminate.
  - left.
Defined.
