(* ===== verification/Register.v ===== *)
(** * Agent registration (gateway/register.go)

    [Handle] as a state monad over what it changes: the store, the rate limiter,
    the calls made to the broker's management API and the broker's queues.  The
    management API, the AMQP channel, the random generator and fmt's [%q] are
    parameters. *)
From Stdlib Require Import ZArith Lia Bool Ascii String List.
From stdpp Require Import base gmap strings option list.
From S2P Require Import Prelude GoString GoJson GoJsonParse Sha256 Http Models.
From S2P Require Import Limiter Repo Sqlite Queue.

Local Open Scope string_scope.
Local Open Scope Z_scope.
Local Open Scope state_scope.
Local Open Scope reader_scope.

(** ** The request *)

Record registrationRequest := {
  rq_AgentType : string;
  rq_Version : string;
  rq_Hostname : string;
  rq_Capabilities : list string }.

Definition zero_request := Build_registrationRequest "" "" "" [].

Definition dec_request : decoder registrationRequest := dec_struct (fun x =>
  let f {B} := @field B ["agent_type"; "version"; "hostname"; "capabilities"] in
  Build_registrationRequest
    <$$> f "agent_type" dec_string (rq_AgentType x)
    <*> f "version" dec_string (rq_Version x)
    <*> f "hostname" dec_string (rq_Hostname x)
    <*> f "capabilities" (dec_slice "" dec_string) (rq_Capabilities x)).

Definition extractBearerToken (r : Request) : string :=
  match strip_prefix "Bearer " (header_get (rq_Header r) "Authorization") with
  | None => ""
  | Some token => trim_space token
  end.

Definition hashToken (token : string) : string := sha256_hex token.

Definition clientIP (r : Request) : string :=
  let xff := header_get (rq_Header r) "X-Forwarded-For" in
  let xri := header_get (rq_Header r) "X-Real-Ip" in
  if negb (xff =? "")%string then trim_space (hd "" (split_n2 xff ","))
  else if negb (xri =? "")%string then trim_space xri
  else
    match last_index ":" (rq_RemoteAddr r) with
    | Some idx => str_take idx (rq_RemoteAddr r)
    | None => rq_RemoteAddr r
    end.

(** ** The response *)

Record VhostPermissions := { vp_Configure : string; vp_Write : string; vp_Read : string }.

Record rmq_blob := {
  rb_URL : string;
  rb_Username : string;
  rb_Password : string;
  rb_VHost : string;
  rb_AgentQueue : string;
  rb_ControlQueue : string;
  rb_Exchanges : string * string * string * string;   (* sessions, events, control, logs *)
  rb_EventsPublish : string;
  rb_LogsPublish : string }.

Record result_blob := {
  bl_AgentID : string;
  bl_UserID : string;
  bl_UserName : string;
  bl_RabbitMQ : rmq_blob;
  bl_User : User;                      (* id, name, default model, preferences *)
  bl_ToolsPolicy : option PolicyData }.

Inductive reg_body :=
| RegError (error : string)
| RegLimited (retry_after : Z)
| RegResult (blob : result_blob).

Inductive mgmt_call :=
| CreateRMQUser (username password : string)
| SetPermissions (vhost username : string) (perms : VhostPermissions)
| CloseUserConnections (username : string).

Record RegState := {
  rg_db : Db;
  rg_limiter : Limiter;
  rg_mgmt : list mgmt_call;
  rg_broker : BrokerState }.

Definition set_db (f : Db -> Db) (st : RegState) : RegState :=
  Build_RegState (f (rg_db st)) (rg_limiter st) (rg_mgmt st) (rg_broker st).
Definition set_limiter (l : Limiter) (st : RegState) : RegState :=
  Build_RegState (rg_db st) l (rg_mgmt st) (rg_broker st).
Definition set_broker (b : BrokerState) (st : RegState) : RegState :=
  Build_RegState (rg_db st) (rg_limiter st) (rg_mgmt st) b.

Record RegConfig := {
  rc_URL : string;
  rc_VHost : string;
  rc_Allow : list string;
  rc_Deny : list string }.

Definition user_permissions (userID : string) : VhostPermissions :=
  let own := "^(nipper-agent-" +:+ userID +:+ "|nipper-control-" +:+ userID +:+ ")$" in
  {| vp_Configure := own;
     vp_Write := "^(nipper" +:+ backslash +:+ ".events|nipper" +:+ backslash +:+ ".logs)$";
     vp_Read := own |}.

Definition rmq_username (agentID : string) : string := "agent-" +:+ agentID.

Section register.

(** The handler's readings of the clock, in order. *)
Context (clk : nat -> Z).
Context (cfg : option RegConfig) (limited : bool).
(** The management client, if any: the error of the last call made, and whether
    it can close connections. *)
Context (mgmt : option (list mgmt_call -> option string)) (closes : bool).
(** The broker, if any: the channel it opens, by the errors of its calls. *)
Context (broker : option (result string (nat -> amqp_decl -> option string))).
Context (password : result string string) (quote : string -> string).

Abbreviation M := (State RegState).
Abbreviation reg_response := (Response reg_body).

Definition writeRegisterError (code : Z) (errMsg : string) : reg_response :=
  Build_Response code (Some (RegError errMsg)).

(** [int(retryAfter.Seconds())], at least one. *)
Definition writeRegisterRateLimited (retryAfter : Z) : reg_response :=
  let retrySeconds := Z.quot retryAfter time_second in
  Build_Response StatusTooManyRequests (Some (RegLimited (if retrySeconds <? 1 then 1 else retrySeconds))).

Definition audit (e : AdminAuditEntry) : M unit := smodify (set_db (sql_LogAdminAction (clk 9) e)).

Definition auditRegistrationFailure (r : Request) (userID reason : string) : M unit :=
  audit {| aa_ID := 0; aa_Timestamp := clk 8; aa_Action := "agent.register_failed"; aa_Actor := "system";
           aa_TargetUserID := userID;
           aa_Details := "{" +:+ quote "reason" +:+ ":" +:+ quote reason +:+ "," +:+ quote "ip" +:+ ":"
                         +:+ quote (clientIP r) +:+ "}";
           aa_IPAddress := clientIP r |}.

Definition auditRegistrationSuccess (r : Request) (agent : Agent) (body : registrationRequest) : M unit :=
  audit {| aa_ID := 0; aa_Timestamp := clk 8; aa_Action := "agent.registered"; aa_Actor := "system";
           aa_TargetUserID := ag_UserID agent;
           aa_Details := "{" +:+ quote "agent_id" +:+ ":" +:+ quote (ag_ID agent) +:+ ","
                         +:+ quote "agent_type" +:+ ":" +:+ quote (rq_AgentType body) +:+ ","
                         +:+ quote "version" +:+ ":" +:+ quote (rq_Version body) +:+ ","
                         +:+ quote "ip" +:+ ":" +:+ quote (clientIP r) +:+ "}";
           aa_IPAddress := clientIP r |}.

Definition call (answer : list mgmt_call -> option string) (c : mgmt_call) : M (option string) := fun st =>
  let log := (rg_mgmt st ++ [c])%list in
  (answer log, Build_RegState (rg_db st) (rg_limiter st) log (rg_broker st)).

Definition vhost : string :=
  match cfg with
  | Some c => if negb (rc_VHost c =? "")%string then rc_VHost c else "/nipper"
  | None => "/nipper"
  end.

(** The per-user policy, else the configured default when it has rules. *)
Definition tools_policy (userID : string) (d : Db) : option PolicyData :=
  match GetUserPolicy userID "tools" d with
  | Ok (Some pd) => Some pd
  | _ =>
      match cfg with
      | Some c =>
          match rc_Allow c, rc_Deny c with
          | [], [] => None
          | allow, deny => Some (Build_PolicyData allow deny [] [] [])
          end
      | None => None
      end
  end.

Definition blob (agent : Agent) (user : User) (pw : string) (d : Db) : result_blob := {|
  bl_AgentID := ag_ID agent;
  bl_UserID := ag_UserID agent;
  bl_UserName := us_Name user;
  bl_RabbitMQ := {|
    rb_URL := match cfg with Some c => rc_URL c | None => "" end;
    rb_Username := rmq_username (ag_ID agent);
    rb_Password := pw;
    rb_VHost := vhost;
    rb_AgentQueue := UserAgentQueue (ag_UserID agent);
    rb_ControlQueue := UserControlQueue (ag_UserID agent);
    rb_Exchanges := (ExchangeSessions, ExchangeEvents, ExchangeControl, "nipper.logs");
    rb_EventsPublish := "nipper.events." +:+ ag_UserID agent +:+ ".{sessionId}";
    rb_LogsPublish := "nipper.logs." +:+ ag_UserID agent +:+ ".{eventType}" |};
  bl_User := user;
  bl_ToolsPolicy := tools_policy (ag_UserID agent) d |}.

(** Steps 10b and 10c: best effort, errors are logged. *)
Definition close_stale (answer : list mgmt_call -> option string) (username : string) : M unit :=
  if closes then (do _ <- call answer (CloseUserConnections username); sret tt) else sret tt.

Definition ensure_queues (userID : string) : M unit :=
  match broker with
  | Some (Ok call_error) => smodify (fun st =>
      set_broker (snd (DeclareUserQueues call_error userID (rg_broker st))) st)
  | _ => sret tt
  end.

(** Steps 11 to 14. *)
Definition finish (r : Request) (agent : Agent) (user : User) (body : registrationRequest) (pw : string)
    : M reg_response :=
  run smodify (set_db (UpdateAgentStatus (clk 5) (ag_ID agent) AgentStatusRegistered (Some (clientIP r))));
  run smodify (set_db (SetAgentRMQUsername (clk 6) (ag_ID agent) (rmq_username (ag_ID agent))));
  run auditRegistrationSuccess r agent body;
  do d <- sget rg_db;
  sret (Build_Response StatusOK (Some (RegResult (blob agent user pw d)))).

(** Steps 6 to 10. *)
Definition provision (r : Request) (agent : Agent) (user : User) : M reg_response :=
  let body := match rq_Body r with Some b => fst (decode_stream dec_request zero_request b) | None => zero_request end in
  match mgmt with
  | None => sret (writeRegisterError StatusServiceUnavailable "service_unavailable")
  | Some answer =>
      let username := rmq_username (ag_ID agent) in
      match password with
      | Err _ => sret (writeRegisterError StatusInternalServerError "internal_error")
      | Ok pw =>
          do e <- call answer (CreateRMQUser username pw);
          match e with
          | Some _ => sret (writeRegisterError StatusServiceUnavailable "service_unavailable")
          | None =>
              do e <- call answer (SetPermissions vhost username (user_permissions (ag_UserID agent)));
              match e with
              | Some _ => sret (writeRegisterError StatusServiceUnavailable "service_unavailable")
              | None =>
                  run close_stale answer username;
                  run ensure_queues (ag_UserID agent);
                  finish r agent user body pw
              end
          end
      end
  end.

(** Step 5. *)
Definition limit (agent : Agent) : M (bool * Z) :=
  if limited then fun st =>
    let key := if (ag_TokenPrefix agent =? "")%string then ag_ID agent else ag_TokenPrefix agent in
    let '(r, l) := allowAt key (clk 0) (rg_limiter st) in (r, set_limiter l st)
  else sret (true, 0).

Definition Handle (r : Request) : M reg_response :=
  let token := extractBearerToken r in
  if (token =? "")%string then sret (writeRegisterError StatusUnauthorized "unauthorized")
  else
    do found <- sget (fun st => GetAgentByTokenHash (hashToken token) (rg_db st));
    match found with
    | Err _ =>
        run auditRegistrationFailure r "" "invalid_token";
        sret (writeRegisterError StatusUnauthorized "unauthorized")
    | Ok agent =>
        if (ag_Status agent =? AgentStatusRevoked)%string then
          run auditRegistrationFailure r (ag_UserID agent) "agent_revoked";
          sret (writeRegisterError StatusUnauthorized "unauthorized")
        else
          do owner <- sget (fun st => GetUser (ag_UserID agent) (rg_db st));
          match owner with
          | Err _ =>
              run auditRegistrationFailure r (ag_UserID agent) "user_not_found";
              sret (writeRegisterError StatusUnauthorized "unauthorized")
          | Ok user =>
              if negb (us_Enabled user) then
                run auditRegistrationFailure r (ag_UserID agent) "user_disabled";
                sret (writeRegisterError StatusForbidden "user_disabled")
              else
                do allowed <- limit agent;
                if fst allowed : bool then provision r agent user
                else sret (writeRegisterRateLimited (snd allowed))
          end
    end.

End register.

(** ** Who is given credentials *)

Lemma find_some_iff {A} (p : A -> bool) l x : List.find p l = Some x -> In x l /\ p x = true.
Proof. apply find_some. Qed.

Lemma GetAgentByTokenHash_row h d agent :
  GetAgentByTokenHash h d = Ok agent -> exists row, In row (t_agents d) /\ gr_hash row = h /\ agent = scanAgent row.
Proof.
  unfold GetAgentByTokenHash. destruct (List.find _ _) as [row|] eqn:E; [|done]. intros [= <-].
  apply find_some in E as [Hin Hh]. exists row. apply String.eqb_eq in Hh. done.
Qed.

Lemma GetUser_row u d user :
  GetUser u d = Ok user -> exists row, In row (t_users d) /\ ur_id row = u /\ user = scanUser row.
Proof.
  unfold GetUser. destruct (List.find _ _) as [row|] eqn:E; [|done]. intros [= <-].
  apply find_some in E as [Hin Hh]. exists row. apply String.eqb_eq in Hh. done.
Qed.

Section safety.

Context (clk : nat -> Z) (cfg : option RegConfig) (limited : bool).
Context (mgmt : option (list mgmt_call -> option string)) (closes : bool).
Context (broker : option (result string (nat -> amqp_decl -> option string))).
Context (password : result string string) (quote : string -> string).

Abbreviation HandleR := (Handle clk cfg limited mgmt closes broker password quote).

(** The account the broker is given for an agent. *)
Definition account_calls (agent : Agent) (pw : string) : list mgmt_call :=
  ([CreateRMQUser (rmq_username (ag_ID agent)) pw;
    SetPermissions (vhost cfg) (rmq_username (ag_ID agent)) (user_permissions (ag_UserID agent))]
   ++ if closes then [CloseUserConnections (rmq_username (ag_ID agent))] else [])%list.

(** A response with credentials follows exactly the calls that make them. *)
Definition provisioned (agent : Agent) (user : User) (st : RegState) (resp : Response reg_body) (st' : RegState) : Prop :=
  match rp_Body resp with
  | Some (RegResult b) =>
      rp_Status resp = 200 /\
      rg_mgmt st' = (rg_mgmt st ++ account_calls agent (rb_Password (bl_RabbitMQ b)))%list /\
      b = blob cfg agent user (rb_Password (bl_RabbitMQ b)) (rg_db st') /\
      (exists e, t_audit (rg_db st') = (t_audit (rg_db st) ++ [e])%list /\
         au_action e = "agent.registered" /\ au_target e = ag_UserID agent)
  | _ => (500 <= rp_Status resp) /\ rg_db st' = rg_db st /\ rg_broker st' = rg_broker st
  end.

Lemma finish_spec r agent user body pw st :
  exists d', finish clk cfg quote r agent user body pw st
             = (Build_Response 200 (Some (RegResult (blob cfg agent user pw d'))), set_db (fun _ => d') st) /\
    exists e, t_audit d' = (t_audit (rg_db st) ++ [e])%list /\
      au_action e = "agent.registered" /\ au_target e = ag_UserID agent.
Proof.
  eexists. split; [reflexivity|]. eexists. split; [reflexivity|]. by split.
Qed.

Lemma provision_spec r agent user st :
  let '(resp, st') := provision clk cfg mgmt closes broker password quote r agent user st in
  rg_limiter st' = rg_limiter st /\ provisioned agent user st resp st'.
Proof.
  unfold provision. destruct mgmt as [answer|]; [|done]. destruct password as [pw|e]; [|done].
  unfold sbind at 1, call at 1. cbv beta iota zeta. destruct (answer _) as [e|]; [done|].
  unfold sbind at 1, call at 1. cbn [rg_mgmt rg_db rg_limiter rg_broker]. destruct (answer _) as [e|]; [done|].
  set (body := match rq_Body r with Some b => _ | None => _ end).
  set (st1 := Build_RegState _ _ _ _).
  assert (Hc : exists b, (run close_stale closes answer (rmq_username (ag_ID agent));
                          run ensure_queues broker (ag_UserID agent);
                          finish clk cfg quote r agent user body pw) st1
               = finish clk cfg quote r agent user body pw
                   (Build_RegState (rg_db st) (rg_limiter st) (rg_mgmt st ++ account_calls agent pw) b)).
  { generalize (finish clk cfg quote r agent user body pw). intros F.
    unfold close_stale, ensure_queues, account_calls, sbind, smodify, sret, call. subst st1. cbn [rg_mgmt].
    rewrite <- !app_assoc.
    destruct closes, broker as [[ce|]|]; cbn [rg_mgmt rg_db rg_limiter rg_broker set_broker app];
      rewrite <- ?app_assoc; cbn [app]; eexists; reflexivity. }
  destruct Hc as [b ->].
  destruct (finish_spec r agent user body pw (Build_RegState (rg_db st) (rg_limiter st) (rg_mgmt st ++ account_calls agent pw) b))
    as (d' & -> & He).
  split; [done|]. unfold provisioned. cbn [rp_Body rp_Status set_db rg_mgmt rg_db blob bl_RabbitMQ rb_Password].
  by repeat split.
Qed.

(** A reading of the broker's regular expressions, for those of the form [^(x|y)$]
    where [x] and [y] are characters without a meaning of their own and characters
    behind a backslash: exactly the two texts are matched. *)
Definition plain_char (c : ascii) : bool :=
  let x := byte_of c in
  ((48 <=? x) && (x <=? 57)) || ((65 <=? x) && (x <=? 90)) || ((97 <=? x) && (x <=? 122)) || (x =? 45) || (x =? 95).

Fixpoint literal (s : string) : option string :=
  match s with
  | "" => Some ""
  | String "\" (String c s) => String c <$> literal s
  | String c s => if plain_char c then String c <$> literal s else None
  end.

Definition two_names (pattern : string) : option (string * string) :=
  match strip_prefix "^(" pattern with
  | Some t =>
      match str_cut ")$" t with
      | Some (names, "") =>
          match str_cut "|" names with
          | Some (x, y) => match literal x, literal y with Some x, Some y => Some (x, y) | _, _ => None end
          | None => None
          end
      | _ => None
      end
  | None => None
  end.

Lemma literal_plain u : str_forall plain_char u = true -> literal u = Some u.
Proof.
  induction u as [|c u IH]; [done|]. intros H. cbn [str_forall] in H. apply andb_true_iff in H as [Hc Hu].
  cbn [literal]. rewrite (IH Hu), Hc. destruct c as [[] [] [] [] [] [] [] []]; reflexivity || discriminate.
Qed.

Lemma plain_lacks c u : plain_char c = false -> str_forall plain_char u = true -> lacks c u = true.
Proof.
  intros Hc. apply str_forall_impl. intros x Hx. apply negb_true_iff, Ascii.eqb_neq. congruence.
Qed.

(** A pattern of two names of plain characters. *)
Lemma two_names_plain x y : str_forall plain_char x = true -> str_forall plain_char y = true ->
  two_names ("^(" +:+ x +:+ "|" +:+ y +:+ ")$") = Some (x, y).
Proof.
  intros Hx Hy. unfold two_names. cbn [String.append strip_prefix Ascii.eqb Bool.eqb].
  replace (x +:+ String "|" (y +:+ ")$")) with ((x +:+ "|" +:+ y) +:+ String ")" "$" +:+ "")
    by (rewrite !str_app_assoc; reflexivity).
  rewrite str_cut_app.
  - change (x +:+ "|" +:+ y) with (x +:+ String "|" "" +:+ y).
    rewrite str_cut_app by (by apply plain_lacks). by rewrite !literal_plain.
  - unfold lacks. rewrite !str_forall_app. rewrite !andb_true_iff. repeat split; by apply (plain_lacks ")").
Qed.

(** C23: credentials are only given to an agent the store holds under the hash
    of the presented token, that is not revoked and whose user exists and is
    enabled.  They are those of the account [agent-ID] just made in the broker
    with the password of the response, and its rights are set in these words: to
    configure and to read, the queues [nipper-agent-USER] and [nipper-control-USER] of
    the agent's user, which are the queues the response names; to write, the
    exchanges [nipper.events] and [nipper.logs].  A user id of letters, digits,
    hyphens and underscores makes these patterns match those names and no others.
    The success is audited.  A refused request (401, 403 or 429) makes no call to
    the broker, declares no queue and leaves every agent as it was. *)
Theorem register_only_entitled r st :
  let '(resp, st') := HandleR r st in
  match rp_Body resp with
  | Some (RegResult b) =>
      exists row user perms, In row (t_agents (rg_db st)) /\ gr_hash row = sha256_hex (extractBearerToken r) /\
        extractBearerToken r <> "" /\ gr_status row <> AgentStatusRevoked /\
        In user (t_users (rg_db st)) /\ ur_id user = gr_user row /\ ur_enabled user = true /\
        provisioned (scanAgent row) (scanUser user) (set_limiter (rg_limiter st') st) resp st' /\
        bl_UserID b = gr_user row /\
        rb_AgentQueue (bl_RabbitMQ b) = "nipper-agent-" +:+ gr_user row /\
        rb_ControlQueue (bl_RabbitMQ b) = "nipper-control-" +:+ gr_user row /\
        rb_Username (bl_RabbitMQ b) = "agent-" +:+ gr_id row /\
        rg_mgmt st' = (rg_mgmt st
          ++ [CreateRMQUser ("agent-" +:+ gr_id row) (rb_Password (bl_RabbitMQ b));
              SetPermissions (rb_VHost (bl_RabbitMQ b)) ("agent-" +:+ gr_id row) perms]
          ++ (if closes then [CloseUserConnections ("agent-" +:+ gr_id row)] else []))%list /\
        vp_Configure perms = "^(nipper-agent-" +:+ gr_user row +:+ "|nipper-control-" +:+ gr_user row +:+ ")$" /\
        vp_Read perms = vp_Configure perms /\
        (str_forall plain_char (gr_user row) = true ->
           two_names (vp_Configure perms) = Some ("nipper-agent-" +:+ gr_user row, "nipper-control-" +:+ gr_user row)) /\
        two_names (vp_Write perms) = Some ("nipper.events", "nipper.logs")
  | _ => rp_Status resp <> 200 /\ t_agents (rg_db st') = t_agents (rg_db st) /\ rg_broker st' = rg_broker st /\
         (rp_Status resp < 500 -> rg_mgmt st' = rg_mgmt st)
  end.
Proof.
  unfold Handle. destruct (String.eqb_spec (extractBearerToken r) "") as [|Ht]; [done|].
  unfold sbind at 1, sget at 1. cbv beta iota.
  destruct (GetAgentByTokenHash (hashToken (extractBearerToken r)) (rg_db st)) as [agent|e] eqn:Ea; [|done].
  destruct (String.eqb_spec (ag_Status agent) AgentStatusRevoked) as [|Hs]; [done|].
  unfold sbind at 1, sget at 1. cbv beta iota.
  destruct (GetUser (ag_UserID agent) (rg_db st)) as [user|e] eqn:Eu; [|done].
  destruct (us_Enabled user) eqn:Een; [|done]. cbn [negb].
  apply GetAgentByTokenHash_row in Ea as (row & Hin & Hh & ->).
  apply GetUser_row in Eu as (urow & Hinu & Hidu & ->).
  unfold sbind at 1.
  assert (Hl : exists a l, limit clk limited (scanAgent row) st = (a, set_limiter l st)).
  { unfold limit. destruct limited; [|exists (true, 0), (rg_limiter st); by destruct st].
    destruct (allowAt _ _ _) as [x l]. by exists x, l. }
  destruct Hl as (a & l & ->). destruct (fst a); [|done].
  pose proof (provision_spec r (scanAgent row) (scanUser urow) (set_limiter l st)) as Hp.
  destruct (provision _ _ _ _ _ _ _ _ _ _ _) as [resp st'].
  destruct Hp as [Hlim Hp]. simpl in Hlim. unfold provisioned in *. destruct (rp_Body resp) as [[?|?|b]|] eqn:Eb.
  1,2,4: destruct Hp as (Hc & Hd & Hbr); rewrite Hd, Hbr; repeat split; lia.
  exists row, urow, (user_permissions (gr_user row)). rewrite Hlim. pose proof Hp as (_ & Hm & Hb & _).
  do 7 (split; [done|]). split; [exact Hp|]. rewrite Hb. do 4 (split; [done|]).
  split; [exact Hm|]. do 2 (split; [done|]).
  split; [|reflexivity]. intros Hu.
  apply (two_names_plain ("nipper-agent-" +:+ gr_user row) ("nipper-control-" +:+ gr_user row)); by rewrite str_forall_app, Hu.
Qed.

End safety.

(** ** An agent registers; a revoked one does not *)

Definition demo_agents : Db :=
  snd (ProvisionAgent 1 "u1" "home" (hashToken "npr-t0ken") "npr-t0" (snd (CreateUser 0 "u1" "Al" "" [] empty_db))).

Definition demo_request : Request :=
  Build_Request "POST" {[ "Authorization" := ["Bearer npr-t0ken "] ]} (Some "{}") "10.0.0.9:5000" (fun _ => "") (fun _ => "").

Definition demo_handle (d : Db) : Response reg_body * RegState :=
  Handle (fun n => Z.of_nat n) None true (Some (fun _ => None)) true (Some (Ok (fun _ _ => None))) (Ok "s3cret") json_quote
    demo_request (Build_RegState d (NewLimiter 10 time_minute) [] empty_broker).

Example register_demo :
  let '(resp, st) := demo_handle demo_agents in
  rp_Status resp = 200 /\ map ag_Status (sql_ListAgents "u1" (rg_db st)) = ["registered"] /\
  length (rg_mgmt st) = 3%nat /\ is_Some (b_queues (rg_broker st) !! "nipper-agent-u1").
Proof. vm_compute. repeat split. by eexists. Qed.

Example register_revoked_demo :
  let '(resp, st) := demo_handle (RevokeAgent 2 "agt-u1-home" demo_agents) in
  rp_Status resp = 401 /\ rg_mgmt st = [] /\ map au_action (t_audit (rg_db st)) = ["agent.register_failed"].
Proof. vm_compute. by repeat split. Qed.
