(* ===== verification/HealthMon.v ===== *)
(** * Agent health (internal/gateway/healthmon.go, heartbeat_store.go)

    The health monitor polls the queue statistics of every user with an active
    agent and caches a status per user; the heartbeat store keeps what agents
    report.  The management API is a parameter: its answer for a virtual host
    and a queue. *)
From Stdlib Require Import ZArith Lia Bool Ascii String List.
From stdpp Require Import base gmap strings option fin_maps list.
From S2P Require Import Prelude GoString GoTime Models Repo Resolver Sqlite SqliteProofs Queue.

Local Open Scope string_scope.

(** ** Data *)

Record AgentHealthStatus := {
  hs_UserID : string;
  hs_QueueName : string;
  hs_ConsumerCount : Z;
  hs_MessagesReady : Z;
  hs_MessagesUnacknowledged : Z;
  hs_Status : string;
  hs_DegradedSince : option Z;
  hs_LastChecked : Z }.

Record QueueInfo := {
  qn_MessagesReady : Z;
  qn_MessagesUnacknowledged : Z;
  qn_Consumers : Z }.

Abbreviation statuses := (gmap string AgentHealthStatus).

(** ** Deriving and recording a status *)

Definition DeriveAgentStatus (consumers messagesReady messagesUnacked : Z) : string :=
  if (0 <? consumers)%Z && (0 <? messagesUnacked)%Z then "processing"
  else if (0 <? consumers)%Z then "idle"
  else if (consumers =? 0)%Z && (0 <? messagesReady)%Z then "degraded"
  else "offline".

(** The start of the degraded period, kept while it lasts. *)
Definition degraded_since (existing : option AgentHealthStatus) (status : string) (now : Z) : option Z :=
  if (status =? "degraded")%string then
    match existing with
    | Some e =>
        match hs_DegradedSince e with
        | Some t => if (hs_Status e =? "degraded")%string then Some t else Some now
        | None => Some now
        end
    | None => Some now
    end
  else None.

Definition updateStatus (userID queueName : string) (consumers ready unacked now : Z) (m : statuses)
    : statuses :=
  let status := DeriveAgentStatus consumers ready unacked in
  <[userID := {| hs_UserID := userID; hs_QueueName := queueName; hs_ConsumerCount := consumers;
                 hs_MessagesReady := ready; hs_MessagesUnacknowledged := unacked;
                 hs_Status := status;
                 hs_DegradedSince := degraded_since (m !! userID) status now;
                 hs_LastChecked := now |}]> m.

Definition GetStatus (userID : string) (m : statuses) : option AgentHealthStatus := m !! userID.

Definition health_info (s : AgentHealthStatus) : AgentHealthInfo := {|
  ah_UserID := hs_UserID s;
  ah_Queue := hs_QueueName s;
  ah_ConsumerCount := hs_ConsumerCount s;
  ah_MessagesReady := hs_MessagesReady s;
  ah_Status := hs_Status s |}.

(** In the order of the map's iteration, which Go leaves open. *)
Definition GetAllStatuses (m : statuses) : list AgentHealthInfo :=
  map (fun p => health_info (snd p)) (map_to_list m).

(** ** A check cycle *)

Section check.
Context {S : Type} `{Repository S}.
Variable vhost_cfg : option string.    (* queueCfg.VHost *)
Variable GetQueueInfo : string -> string -> result string QueueInfo.

Definition has_active_agent (agents : list Agent) : bool :=
  existsb (fun a => negb (ag_Status a =? AgentStatusRevoked)%string) agents.

Definition vhost : string :=
  match vhost_cfg with
  | Some v => if nonempty v then v else "/nipper"
  | None => "/nipper"
  end.

Record HealthState := {
  hm_repo : S;
  hm_statuses : statuses;
  hm_seen : gset string;       (* users checked in this cycle *)
  hm_consumers : Z }.          (* totalConsumers *)

(** One user of the cycle, at the clock value [now]. *)
Definition check_user (now : Z) (user : User) (st : HealthState) : HealthState :=
  match ListAgents now (us_ID user) (hm_repo st) with
  | (Err _, r) => Build_HealthState r (hm_statuses st) (hm_seen st) (hm_consumers st)
  | (Ok agents, r) =>
      if negb (has_active_agent agents) then
        Build_HealthState r (hm_statuses st) (hm_seen st) (hm_consumers st)
      else
        let queueName := UserAgentQueue (us_ID user) in
        let seen := {[ us_ID user ]} ∪ hm_seen st in
        match GetQueueInfo vhost queueName with
        | Err _ =>
            Build_HealthState r (updateStatus (us_ID user) queueName 0 0 0 now (hm_statuses st))
              seen (hm_consumers st)
        | Ok info =>
            Build_HealthState r
              (updateStatus (us_ID user) queueName (qn_Consumers info) (qn_MessagesReady info)
                 (qn_MessagesUnacknowledged info) now (hm_statuses st))
              seen (hm_consumers st + qn_Consumers info)
        end
  end.

(** Entries of users not checked are removed. The result has the metrics. *)
Definition checkAll (now : Z) (m : statuses) (repo : S) : option (Z * nat) * (statuses * S) :=
  match ListUsers now repo with
  | (Err _, r) => (None, (m, r))
  | (Ok users, r) =>
      let st := fold_left (fun st u => check_user now u st) users (Build_HealthState r m ∅ 0) in
      let m' := filter (fun p => p.1 ∈ hm_seen st) (hm_statuses st) in
      (Some (hm_consumers st, size m'), (m', hm_repo st))
  end.
End check.
Arguments HealthState : clear implicits.

(** ** The degraded period over a history of checks *)

(** Checks of one user, oldest first: the instant and the queue's numbers. *)
Abbreviation check := (Z * (Z * Z * Z))%type.

Definition check_status (c : check) : string :=
  let '(_, (consumers, ready, unacked)) := c in DeriveAgentStatus consumers ready unacked.

Definition record_checks (u q : string) (cs : list check) (m : statuses) : statuses :=
  fold_left (fun m c => let '(now, (consumers, ready, unacked)) := c in
                        updateStatus u q consumers ready unacked now m) cs m.

(** The first check of the run of degraded checks that ends the list. *)
Fixpoint run_start (start : option Z) (cs : list check) : option Z :=
  match cs with
  | [] => start
  | c :: cs' =>
      run_start (if (check_status c =? "degraded")%string
                 then Some (default (fst c) start) else None) cs'
  end.

(** ** Theorems *)

(** An entry says since when it is degraded exactly when it is. *)
Definition entry_ok (e : AgentHealthStatus) : Prop :=
  hs_Status e = DeriveAgentStatus (hs_ConsumerCount e) (hs_MessagesReady e) (hs_MessagesUnacknowledged e)
  /\ (hs_DegradedSince e = None <-> hs_Status e <> "degraded").

Definition statuses_ok (m : statuses) : Prop :=
  forall u e, m !! u = Some e -> hs_UserID e = u /\ hs_QueueName e = UserAgentQueue u /\ entry_ok e.

Lemma degraded_since_spec existing status now :
  degraded_since existing status now = None <-> status <> "degraded".
Proof.
  unfold degraded_since. destruct (String.eqb_spec status "degraded") as [->|Hne]; [|done].
  destruct existing as [e|]; [|done]. destruct (hs_DegradedSince e); [|done].
  by destruct (_ =? _)%string.
Qed.

Lemma update_ok u c r n now m :
  statuses_ok m -> statuses_ok (updateStatus u (UserAgentQueue u) c r n now m).
Proof.
  intros Hok u' e. unfold updateStatus. intros [[<- <-]|[_ He]]%lookup_insert_Some; [|by apply Hok].
  cbn. split; [done|]. split; [done|]. split; [done|]. cbn. apply degraded_since_spec.
Qed.

Lemma record_checks_since u q cs m e0 :
  cs <> [] -> (forall e, m !! u = Some e -> entry_ok e) ->
  e0 = (m !! u) ->
  exists e, record_checks u q cs m !! u = Some e
    /\ hs_DegradedSince e = run_start (match e0 with Some e => hs_DegradedSince e | None => None end) cs
    /\ last (map check_status cs) = Some (hs_Status e).
Proof.
  intros Hne Hok ->. revert m Hne Hok. induction cs as [|[now [[c r] n]] cs IH]; [done|].
  intros m _ Hok. cbn [record_checks fold_left run_start].
  set (m' := updateStatus u q c r n now m).
  assert (He : exists e, m' !! u = Some e /\ entry_ok e /\ hs_Status e = DeriveAgentStatus c r n
    /\ hs_DegradedSince e = if (DeriveAgentStatus c r n =? "degraded")%string
         then Some (default now (match m !! u with Some e => hs_DegradedSince e | None => None end)) else None).
  { eexists. split; [apply lookup_insert_eq|]. cbn. split; [split; [done|apply degraded_since_spec]|].
    split; [done|]. unfold degraded_since. destruct (_ =? _)%string; [|done].
    destruct (m !! u) as [e|] eqn:E; [|done]. destruct (Hok _ eq_refl) as [_ Hd].
    destruct (hs_DegradedSince e) as [t|]; [|done]. cbn.
    destruct (String.eqb_spec (hs_Status e) "degraded") as [|Hn]; [done|]. by apply Hd in Hn. }
  destruct He as (e & He & Hoke & Hs & Hd). destruct cs as [|c' cs].
  - exists e. split; [exact He|]. split; [exact Hd|]. cbn. by rewrite Hs.
  - destruct (IH m') as (e' & He' & Hd' & Hl'); [done|by rewrite He; intros ? [= <-]|].
    exists e'. split; [exact He'|]. rewrite Hd', He, Hd. split; [done|exact Hl'].
Qed.

(** Degraded since: after any checks of a user, starting without an entry,
    the entry has the status of the last one, and its degraded period starts at
    the first check of the unbroken run of degraded checks it ends. *)
Lemma degraded_period u cs :
  cs <> [] ->
  exists e, record_checks u (UserAgentQueue u) cs ∅ !! u = Some e
    /\ last (map check_status cs) = Some (hs_Status e)
    /\ hs_DegradedSince e = run_start None cs.
Proof.
  intros Hne. destruct (record_checks_since u (UserAgentQueue u) cs ∅ None Hne) as (e & H1 & H2 & H3);
    [intros e; by rewrite lookup_empty|by rewrite lookup_empty|]. eauto.
Qed.

(** *** A cycle tracks the active users *)
Section cycle.
Context {S : Type} `{Repository S}.
Variable vhost_cfg : option string.
Variable GetQueueInfo : string -> string -> result string QueueInfo.

(** Reading the lists does not change the repository's answers: it stays in
    states that [readable] describes, whose agents are [agents_of]. *)
Variable readable : S -> Prop.
Variable agents_of : string -> list Agent.
Variable users : list User.
Hypothesis lists_agents : forall now u st, readable st ->
  exists st', ListAgents now u st = (Ok (agents_of u), st') /\ readable st'.

Definition active (u : string) : Prop :=
  exists user, In user users /\ us_ID user = u /\ has_active_agent (agents_of u) = true.

Abbreviation cycle now := (fun st u => check_user vhost_cfg GetQueueInfo now u st).

Lemma cycle_spec now us st :
  readable (hm_repo st) -> statuses_ok (hm_statuses st) ->
  (forall u, u ∈ hm_seen st -> is_Some (hm_statuses st !! u)) ->
  let st' := fold_left (cycle now) us st in
  statuses_ok (hm_statuses st')
  /\ (forall u, u ∈ hm_seen st' -> is_Some (hm_statuses st' !! u))
  /\ (forall u, u ∈ hm_seen st' <-> u ∈ hm_seen st
        \/ exists user, In user us /\ us_ID user = u /\ has_active_agent (agents_of u) = true).
Proof.
  revert st. induction us as [|user us IH]; intros st Hrd Hok Hseen.
  { split; [done|]. split; [done|]. intros u. split; [by left|]. intros [|(? & [] & _)]; done. }
  cbn [fold_left]. destruct (lists_agents now (us_ID user) (hm_repo st) Hrd) as (r & Hr & Hrd1).
  assert (Hstep : let st1 := cycle now st user in
    readable (hm_repo st1) /\ statuses_ok (hm_statuses st1) /\ (forall u, u ∈ hm_seen st1 -> is_Some (hm_statuses st1 !! u))
    /\ forall u, u ∈ hm_seen st1 <-> u ∈ hm_seen st
         \/ us_ID user = u /\ has_active_agent (agents_of u) = true).
  { cbn zeta. unfold check_user. rewrite Hr. destruct (has_active_agent (agents_of (us_ID user))) eqn:Ea; cbn [negb].
    - assert (Hd : forall c rd n, is_Some (updateStatus (us_ID user) (UserAgentQueue (us_ID user)) c rd n now
                (hm_statuses st) !! us_ID user)) by (intros; unfold updateStatus; by rewrite lookup_insert_eq).
      assert (Ho : forall c rd n u, is_Some (hm_statuses st !! u) ->
                is_Some (updateStatus (us_ID user) (UserAgentQueue (us_ID user)) c rd n now (hm_statuses st) !! u)).
      { intros c rd n u Hu. unfold updateStatus. destruct (decide (us_ID user = u)) as [->|];
          [by rewrite lookup_insert_eq|by rewrite lookup_insert_ne]. }
      destruct (GetQueueInfo _ _) as [info|]; cbn [hm_statuses hm_seen hm_repo];
        (split; [done|]); (split; [by apply update_ok|]); (split; [set_solver|]); intros u; rewrite elem_of_union, elem_of_singleton;
        (split; [intros [->|]; [by right|by left]|intros [|[<- _]]; [by right|by left]]).
    - cbn [hm_statuses hm_seen hm_repo]. split; [done|]. split; [done|]. split; [done|]. intros u. split; [by left|].
      intros [|[<- ?]]; congruence. }
  destruct Hstep as (Hrd2 & Hok1 & Hseen1 & Hiff1). destruct (IH _ Hrd2 Hok1 Hseen1) as (Hok2 & Hseen2 & Hiff2).
  split; [done|]. split; [done|]. intros u. rewrite Hiff2, Hiff1. simpl. naive_solver.
Qed.

(** A check cycle tracks exactly the users with an active agent: when the
    repository can be read, the cache afterwards has one consistent entry (its
    own user and queue, the status its numbers derive, degraded since exactly
    when degraded) per user with an agent that is not revoked, and no other. *)
Lemma check_tracks_active now m repo repo' :
  ListUsers now repo = (Ok users, repo') -> readable repo' -> statuses_ok m ->
  exists total st m', checkAll vhost_cfg GetQueueInfo now m repo = (Some (total, size m'), (m', st))
  /\ statuses_ok m' /\ forall u, is_Some (GetStatus u m') <-> active u.
Proof.
  intros Hu Hrd Hok. unfold checkAll. rewrite Hu. eexists _, _, _. split; [reflexivity|].
  destruct (cycle_spec now users (Build_HealthState repo' m ∅ 0)) as (Hok' & Hseen & Hiff);
    [done|done|by intros u Hin; set_solver|].
  split.
  - intros u e [He _]%map_lookup_filter_Some. by apply Hok'.
  - intros u. unfold GetStatus. split.
    + intros [e [_ Hin]%map_lookup_filter_Some]. apply Hiff in Hin as [Hin|]; [set_solver|done].
    + intros Ha. assert (Hin : u ∈ hm_seen (fold_left (cycle now) users (Build_HealthState repo' m ∅ 0)))
        by (apply Hiff; by right).
      destruct (Hseen u Hin) as [e He]. exists e. by apply map_lookup_filter_Some.
Qed.
End cycle.

(** A repository error on a user's agents removes the user's entry. *)
Lemma check_error_drops {S} `{Repository S} vc gq now m repo r1 r2 user e :
  ListUsers now repo = (Ok [user], r1) -> ListAgents now (us_ID user) r1 = (Err e, r2) ->
  GetStatus (us_ID user) (fst (snd (checkAll vc gq now m repo))) = None.
Proof.
  intros Hu Ha. unfold checkAll. rewrite Hu. cbn [fold_left]. unfold check_user. cbn [hm_repo].
  rewrite Ha. cbn. unfold GetStatus. apply map_lookup_filter_None. right. intros ? _. set_solver.
Qed.

(** ** Heartbeats (heartbeat_store.go) *)

Record heartbeatEntry := {
  he_AgentID : string; he_UserID : string; he_Status : string; he_LastSeen : Z }.

Abbreviation heartbeats := (gmap string heartbeatEntry).
Definition NewAgentHeartbeatStore : heartbeats := ∅.
Definition defaultStaleStatus : string := "failed".

Definition Record_ (agentID userID status : string) (now : Z) (m : heartbeats) : heartbeats :=
  <[agentID := Build_heartbeatEntry agentID userID status now]> m.

Definition GetAll (m : heartbeats) : list AgentHeartbeatInfo :=
  map (fun p => let e := snd p in
         Build_AgentHeartbeatInfo (he_AgentID e) (he_UserID e) (he_Status e) (format_rfc3339 (he_LastSeen e)))
    (map_to_list m).

Definition MarkStaleAsFailed (olderThan now : Z) (m : heartbeats) : heartbeats :=
  let cutoff := (now - olderThan)%Z in
  fmap (fun e => if time_before (he_LastSeen e) cutoff && negb (he_Status e =? defaultStaleStatus)%string
                 then Build_heartbeatEntry (he_AgentID e) (he_UserID e) defaultStaleStatus (he_LastSeen e)
                 else e) m.

(** An agent is marked failed exactly when it has been silent: after a
    sweep, an agent not heard of within the limit has the failed status, every
    other agent the status it reported last, and no agent is forgotten. *)
Lemma stale_marked_failed olderThan now m a :
  MarkStaleAsFailed olderThan now m !! a
  = (fun e => Build_heartbeatEntry (he_AgentID e) (he_UserID e)
       (if time_before (he_LastSeen e) (now - olderThan) then defaultStaleStatus else he_Status e)
       (he_LastSeen e)) <$> m !! a.
Proof.
  unfold MarkStaleAsFailed. rewrite lookup_fmap. destruct (m !! a) as [[i u s t]|]; [|done]. cbn.
  destruct (time_before t _); [|done]. cbn. by destruct (String.eqb_spec s defaultStaleStatus) as [->|].
Qed.

(** ** Witnesses: a user with an active agent and one with a revoked agent *)

Definition health_db : Db :=
  fold_left (fun d o => db_step o d)
    [OProvision 0 "u" "box" "h1" "p1"; OProvision 0 "v" "box" "h2" "p2"; ORevoke 0 (agent_id "v" "box")] demo_db.

Definition health_queue (vhost queue : string) : result string QueueInfo := Ok (Build_QueueInfo 3 0 0).

#[local] Instance health_repository : Repository Db := sqlite_repository.

Lemma degraded_period_witness :
  exists e, record_checks "u" (UserAgentQueue "u") [(1, (1, 0, 0)); (2, (0, 3, 0)); (3, (0, 4, 0))]%Z ∅ !! "u" = Some e
    /\ last (map check_status [(1, (1, 0, 0)); (2, (0, 3, 0)); (3, (0, 4, 0))]%Z) = Some (hs_Status e)
    /\ hs_DegradedSince e = Some 2%Z.
Proof. apply (degraded_period "u" [(1, (1, 0, 0)); (2, (0, 3, 0)); (3, (0, 4, 0))]%Z). discriminate. Defined.

Lemma check_tracks_active_witness :
  exists total st m', checkAll None health_queue 7 ∅ health_db = (Some (total, size m'), (m', st))
  /\ statuses_ok m' /\ forall u, is_Some (GetStatus u m')
       <-> active (fun u => sql_ListAgents u health_db) (sql_ListUsers health_db) u.
Proof.
  apply (check_tracks_active None health_queue (fun d => d = health_db)
    (fun u => sql_ListAgents u health_db) (sql_ListUsers health_db)) with (repo' := health_db).
  - intros now u st ->. eexists. split; reflexivity.
  - reflexivity.
  - reflexivity.
  - intros u e. by rewrite lookup_empty.
Defined.
