(* ===== verification/Scheduler.v ===== *)
(** * Cron scheduler (internal/channels/cron/scheduler.go)

    Recurring jobs are entries of the cron library, which is not part of the
    program: [CronLib] is what its [AddFunc] and [Remove] promise about the live
    entries.  One-shot jobs are timers; a timer that fires runs the job and
    then, in a later critical section, cleans up ([finish_at]), so other calls
    may come in between. *)
From Stdlib Require Import ZArith Lia Bool Ascii String List.
From stdpp Require Import base gmap strings option fin_maps list.
From S2P Require Import Prelude GoString GoTime SessionKey Models Repo Sqlite Resolver.

Local Open Scope string_scope.

(** ** The cron library *)

Class CronLib (C : Type) := {
  cl_empty : C;
  cl_add : string -> job -> C -> result string (nat * C);
  cl_remove : nat -> C -> C;
  cl_entry : C -> nat -> option job;         (* live entries: they keep firing *)
  cl_empty_entry : forall id, cl_entry cl_empty id = None;
  cl_add_new : forall spec j c id c', cl_add spec j c = Ok (id, c') -> cl_entry c id = None;
  cl_add_entry : forall spec j c id c' id', cl_add spec j c = Ok (id, c') ->
    cl_entry c' id' = if Nat.eqb id id' then Some j else cl_entry c id';
  cl_remove_entry : forall id c id',
    cl_entry (cl_remove id c) id' = if Nat.eqb id id' then None else cl_entry c id' }.

(** cronJobKey and atJobKey *)
Definition job_key (userID id : string) : string := userID +:+ ":" +:+ id.
Definition cronJobKey (j : job) : string := job_key (jb_UserID j) (jb_ID j).
Definition atJobKey (j : job) : string := job_key (jb_UserID j) (jb_ID j).

Inductive sched_error :=
| ErrMissingField
| ErrAlreadyRegistered (key : string)
| ErrSchedule (e : string)
| ErrRunAt
| ErrPast.

Definition job_complete (j : job) : bool :=
  nonempty (jb_ID j) && nonempty (jb_when j) && nonempty (jb_UserID j) && nonempty (jb_Prompt j).

(** The first job of a list with the ids is removed. *)
Fixpoint remove_first_job (userID id : string) (l : list job) : list job :=
  match l with
  | [] => []
  | j :: l' => if (jb_UserID j =? userID)%string && (jb_ID j =? id)%string then l'
               else j :: remove_first_job userID id l'
  end.

(** The optional user validator. *)
Definition validated (validator : option (string -> result string bool)) (userID : string) : bool :=
  match validator with
  | None => true
  | Some v => match v userID with Ok b => b | Err _ => false end
  end.

(** ** Recurring jobs *)

Record CronState (C : Type) := {
  sc_cron : C;
  sc_entryIDs : gmap string nat;
  sc_jobs : list job }.
Arguments sc_cron {C}. Arguments sc_entryIDs {C}. Arguments sc_jobs {C}. Arguments Build_CronState {C}.

Section cron.
Context {C : Type} `{CronLib C}.

Definition NewCron : CronState C := Build_CronState cl_empty ∅ [].

Definition register_job (j : job) (s : CronState C) : result sched_error (CronState C) :=
  match cl_add (jb_when j) j (sc_cron s) with
  | Err e => Err (ErrSchedule e)
  | Ok (id, c) => Ok (Build_CronState c (<[cronJobKey j := id]> (sc_entryIDs s)) (sc_jobs s ++ [j]))
  end.

(** One job of [LoadJobs]: skipped when incomplete, of an invalid user, or with
    an invalid schedule. *)
Definition load_job (validator : option (string -> result string bool)) (s : CronState C) (j : job)
    : CronState C :=
  if negb (job_complete j) then s
  else if negb (validated validator (jb_UserID j)) then s
  else match register_job j s with Ok s' => s' | Err _ => s end.

Definition LoadJobs (jobs : list job) (validator : option (string -> result string bool))
    (s : CronState C) : CronState C :=
  fold_left (load_job validator) jobs (Build_CronState (sc_cron s) (sc_entryIDs s) []).

Definition AddJob (j : job) (s : CronState C) : result sched_error unit * CronState C :=
  if negb (job_complete j) then (Err ErrMissingField, s)
  else
    match sc_entryIDs s !! cronJobKey j with
    | Some _ => (Err (ErrAlreadyRegistered (cronJobKey j)), s)
    | None =>
        match register_job j s with
        | Err e => (Err e, s)
        | Ok s' => (Ok tt, s')
        end
    end.

Definition RemoveJob (userID id : string) (s : CronState C) : bool * CronState C :=
  let key := job_key userID id in
  match sc_entryIDs s !! key with
  | None => (false, s)
  | Some entryID =>
      (true, Build_CronState (cl_remove entryID (sc_cron s)) (delete key (sc_entryIDs s))
               (remove_first_job userID id (sc_jobs s)))
  end.

Definition Jobs (s : CronState C) : list job := sc_jobs s.
Definition JobCount (s : CronState C) : nat := length (sc_jobs s).

Inductive cron_op := OpAdd (j : job) | OpRemove (userID id : string).

Definition cron_step (s : CronState C) (o : cron_op) : CronState C :=
  match o with
  | OpAdd j => snd (AddJob j s)
  | OpRemove u i => snd (RemoveJob u i s)
  end.

Definition op_plain (o : cron_op) : Prop :=
  match o with OpAdd j => plain (jb_UserID j) | OpRemove u _ => plain u end.

(** *** Lemmas *)

Lemma job_key_inj u i u' i' : plain u -> plain u' -> job_key u i = job_key u' i' -> u = u' /\ i = i'.
Proof. intros Hu Hu'. apply field_inj; done. Qed.

(** The jobs the scheduler reports are the ones that fire. *)
Record cron_ok (s : CronState C) : Prop := {
  co_plain : Forall (fun j => plain (jb_UserID j)) (sc_jobs s);
  co_distinct : NoDup (map cronJobKey (sc_jobs s));
  co_listed : forall k id, sc_entryIDs s !! k = Some id ->
    exists j, j ∈ sc_jobs s /\ cronJobKey j = k /\ cl_entry (sc_cron s) id = Some j;
  co_live : forall id j, cl_entry (sc_cron s) id = Some j ->
    j ∈ sc_jobs s /\ sc_entryIDs s !! cronJobKey j = Some id;
  co_registered : forall j, j ∈ sc_jobs s -> is_Some (sc_entryIDs s !! cronJobKey j) }.

Lemma key_of_job j l : NoDup (map cronJobKey l) -> j ∈ l ->
  forall j', j' ∈ l -> cronJobKey j' = cronJobKey j -> j' = j.
Proof.
  induction l as [|x l IH]; [set_solver|]. simpl. intros [Hx Hn]%list.NoDup_cons Hj j' Hj' He.
  assert (Hkey : forall y, y ∈ l -> cronJobKey y ∈ map cronJobKey l)
    by (intros y Hy; apply list_elem_of_In, in_map; by apply list_elem_of_In).
  apply elem_of_cons in Hj as [->|Hj]; apply elem_of_cons in Hj' as [->|Hj']; [done|..].
  - apply Hkey in Hj'. congruence.
  - apply Hkey in Hj. congruence.
  - eauto.
Qed.

Lemma register_ok j s s' :
  cron_ok s -> plain (jb_UserID j) -> sc_entryIDs s !! cronJobKey j = None ->
  register_job j s = Ok s' -> cron_ok s' /\ sc_jobs s' = (sc_jobs s ++ [j])%list.
Proof.
  intros [P D L E R] Hp Hnew. unfold register_job.
  destruct (cl_add (jb_when j) j (sc_cron s)) as [[id c]|] eqn:Ea; [|done]. intros [= <-].
  pose proof (cl_add_new _ _ _ _ _ Ea) as Hid. split; [|done]. split; cbn [sc_cron sc_entryIDs sc_jobs].
  - apply list.Forall_app. split; [done|by repeat constructor].
  - apply NoDup_map_snoc; [done|]. intros y Hy He. apply list_elem_of_In in Hy.
    destruct (R y Hy) as [? Hs]. congruence.
  - intros k i [[<- <-]|[Hne Hk]]%lookup_insert_Some.
    + exists j. split; [set_solver|]. split; [done|]. by rewrite (cl_add_entry _ _ _ _ _ _ Ea), Nat.eqb_refl.
    + destruct (L _ _ Hk) as (j' & Hin & <- & He). exists j'. split; [set_solver|]. split; [done|].
      rewrite (cl_add_entry _ _ _ _ _ _ Ea). case_test; [congruence|done].
  - intros i j'. rewrite (cl_add_entry _ _ _ _ _ _ Ea). case_test.
    + intros [= <-]. subst i. split; [set_solver|]. by rewrite lookup_insert_eq.
    + intros He. destruct (E _ _ He) as [Hin Hk]. split; [set_solver|].
      rewrite lookup_insert_ne; [done|]. congruence.
  - intros j' [Hin| ->%list_elem_of_singleton]%elem_of_app.
    + destruct (decide (cronJobKey j = cronJobKey j')) as [He|He];
        [rewrite He, lookup_insert_eq; eauto|by rewrite lookup_insert_ne; auto].
    + by rewrite lookup_insert_eq.
Qed.

Lemma remove_first_spec u i l :
  NoDup (map cronJobKey l) -> Forall (fun j => plain (jb_UserID j)) l -> plain u ->
  forall j, j ∈ remove_first_job u i l <-> j ∈ l /\ cronJobKey j <> job_key u i.
Proof.
  intros Hn Hp Hu. induction l as [|x l IH]; simpl in *.
  { intros j. split; [set_solver|]. intros [? _]; set_solver. }
  apply list.NoDup_cons in Hn as [Hx Hn]. apply list.Forall_cons in Hp as [Hpx Hp].
  assert (Hkey : forall y, y ∈ l -> cronJobKey y ∈ map cronJobKey l)
    by (intros y Hy; apply list_elem_of_In, in_map; by apply list_elem_of_In).
  intros j. destruct (String.eqb_spec (jb_UserID x) u) as [<-|H1],
    (String.eqb_spec (jb_ID x) i) as [<-|H2]; simpl; rewrite ?elem_of_cons, ?IH by done.
  - split; [|by intros [[->|] ?]]. intros Hj. split; [by right|]. intros He. apply Hkey in Hj.
    rewrite He in Hj. done.
  - assert (cronJobKey x <> job_key (jb_UserID x) i) by (intros [_ ?]%job_key_inj; done). naive_solver.
  - assert (cronJobKey x <> job_key u (jb_ID x)) by (intros [? _]%job_key_inj; done). naive_solver.
  - assert (cronJobKey x <> job_key u i) by (intros [? _]%job_key_inj; done). naive_solver.
Qed.

Lemma remove_first_sublist u i l : sublist (remove_first_job u i l) l.
Proof.
  induction l as [|x l IH]; simpl; [constructor|]. destruct (_ && _); [by constructor|by constructor].
Qed.

Lemma sublist_NoDup_map {A B} (f : A -> B) l1 l2 : sublist l1 l2 -> NoDup (map f l2) -> NoDup (map f l1).
Proof.
  intros Hs. induction Hs as [|x l1 l2 Hs IH|x l1 l2 Hs IH]; [done|..]; simpl;
    intros [Hx Hn]%list.NoDup_cons; [|auto]. apply list.NoDup_cons. split; [|auto].
  intros Hin. apply Hx. apply list_elem_of_In, in_map_iff in Hin as (y & <- & Hy).
  apply list_elem_of_In, in_map. apply list_elem_of_In in Hy. apply list_elem_of_In.
  by eapply sublist_subseteq.
Qed.

Lemma remove_ok u i s : cron_ok s -> plain u -> cron_ok (snd (RemoveJob u i s)).
Proof.
  intros Hok Hu. unfold RemoveJob. destruct (sc_entryIDs s !! job_key u i) as [id|] eqn:Ei; [|done].
  destruct Hok as [P D L E R]. cbn [snd].
  pose proof (remove_first_spec u i (sc_jobs s) D P Hu) as Hrem.
  pose proof (remove_first_sublist u i (sc_jobs s)) as Hsub.
  destruct (L _ _ Ei) as (j0 & Hj0 & Hk0 & He0). split; cbn [sc_cron sc_entryIDs sc_jobs].
  - apply list.Forall_forall. intros j [Hj _]%Hrem. rewrite list.Forall_forall in P. by apply P.
  - by eapply sublist_NoDup_map.
  - intros k id' [Hne Hk]%lookup_delete_Some. destruct (L _ _ Hk) as (j & Hj & Hjk & He).
    exists j. split; [apply Hrem; split; [done|congruence]|]. split; [done|].
    rewrite cl_remove_entry. case_test; [congruence|done].
  - intros id' j. rewrite cl_remove_entry. case_test; [done|]. intros He.
    destruct (E _ _ He) as [Hj Hk]. assert (cronJobKey j <> job_key u i) by congruence.
    split; [by apply Hrem|]. by rewrite lookup_delete_ne.
  - intros j [Hj Hne]%Hrem. rewrite lookup_delete_ne by done. by apply R.
Qed.

Lemma load_job_ok validator s j :
  cron_ok s -> plain (jb_UserID j) -> sc_entryIDs s !! cronJobKey j = None ->
  cron_ok (load_job validator s j)
  /\ forall k, sc_entryIDs s !! k = None -> k <> cronJobKey j -> sc_entryIDs (load_job validator s j) !! k = None.
Proof.
  intros Hok Hp Hnew. unfold load_job.
  destruct (job_complete j); cbn [negb]; [|done]. destruct (validated validator _); cbn [negb]; [|done].
  destruct (register_job j s) as [s'|] eqn:E; [|done]. destruct (register_ok j s s' Hok Hp Hnew E) as [Hok' _].
  split; [done|]. intros k Hk Hne. revert E. unfold register_job.
  destruct (cl_add _ _ _) as [[id c]|]; [|done]. intros [= <-]. cbn [sc_entryIDs].
  by rewrite lookup_insert_ne.
Qed.

Lemma load_jobs_ok validator jobs : forall s,
  cron_ok s -> Forall (fun j => plain (jb_UserID j)) jobs -> NoDup (map cronJobKey jobs) ->
  (forall j, j ∈ jobs -> sc_entryIDs s !! cronJobKey j = None) ->
  cron_ok (fold_left (load_job validator) jobs s).
Proof.
  induction jobs as [|j jobs IH]; intros s Hok Hp Hn Hnew; [done|]. simpl.
  apply list.Forall_cons in Hp as [Hpj Hp]. apply list.NoDup_cons in Hn as [Hj Hn].
  destruct (load_job_ok validator s j Hok Hpj) as [Hok' Hother]; [apply Hnew; set_solver|].
  apply IH; [done..|]. intros j' Hj'. apply Hother; [apply Hnew; set_solver|].
  intros He. apply Hj. rewrite <- He. apply list_elem_of_In, in_map. by apply list_elem_of_In.
Qed.

Lemma cron_step_ok s o : cron_ok s -> op_plain o -> cron_ok (cron_step s o).
Proof.
  intros Hok Hp. destruct o as [j|u i]; [|by apply remove_ok]. simpl. unfold AddJob.
  destruct (job_complete j); cbn [negb]; [|done]. destruct (sc_entryIDs s !! cronJobKey j) eqn:E; [done|].
  destruct (register_job j s) as [s'|] eqn:Er; [|done]. by apply (register_ok j s s').
Qed.

(** C40: The scheduler runs the jobs it lists: after loading the database's jobs
    (whose user and id pairs are distinct) and any further additions and
    removals, exactly the jobs that [Jobs] reports have a live entry in the cron
    library, each exactly one; so a removed job never fires again. *)
Theorem scheduler_consistent validator jobs os :
  Forall (fun j => plain (jb_UserID j)) jobs -> NoDup (map cronJobKey jobs) -> Forall op_plain os ->
  let s := fold_left cron_step os (LoadJobs jobs validator NewCron) in
  NoDup (map cronJobKey (Jobs s))
  /\ (forall j, j ∈ Jobs s <-> exists id, cl_entry (sc_cron s) id = Some j)
  /\ (forall id id' j, cl_entry (sc_cron s) id = Some j -> cl_entry (sc_cron s) id' = Some j -> id = id')
  /\ (forall u i, plain u -> let s' := snd (RemoveJob u i s) in
       forall id j, cl_entry (sc_cron s') id = Some j -> cronJobKey j <> job_key u i).
Proof.
  intros Hp Hn Hos s.
  assert (Hok : cron_ok s).
  { unfold s. assert (H0 : cron_ok (LoadJobs jobs validator NewCron)).
    { apply load_jobs_ok; [|done..|intros; apply lookup_empty].
      split; cbn; [constructor|constructor|..].
      - intros k id. by rewrite lookup_empty.
      - intros id j. by rewrite cl_empty_entry.
      - intros j Hj. set_solver. }
    clear Hp Hn s. revert H0. generalize (LoadJobs jobs validator NewCron).
    induction Hos as [|o os Ho _ IH]; intros s0 H0; [done|]. apply IH. by apply cron_step_ok. }
  split; [apply Hok|]. split.
  - intros j. split.
    + intros Hj. destruct (co_registered _ Hok j Hj) as [id Hid].
      destruct (co_listed _ Hok _ _ Hid) as (j' & Hj' & Hk & He). exists id.
      by rewrite <- (key_of_job j (sc_jobs s) (co_distinct _ Hok) Hj j' Hj' Hk).
    + intros [id He]. by apply (co_live _ Hok) in He as [? _].
  - split.
    + intros id id' j H1 H2. apply (co_live _ Hok) in H1 as [_ H1], H2 as [_ H2]. congruence.
    + intros u i Hu s' id j He. pose proof (remove_ok u i s Hok Hu) as Hok'.
      apply (co_live _ Hok') in He as [Hj _]. unfold s', RemoveJob in Hj.
      destruct (sc_entryIDs s !! job_key u i) as [id0|] eqn:Ei.
      * cbn in Hj. by apply (remove_first_spec u i _ (co_distinct _ Hok) (co_plain _ Hok) Hu) in Hj as [_ ?].
      * cbn in Hj. intros Hk. destruct (co_registered _ Hok j Hj) as [? Hs]. congruence.
Qed.
End cron.

(** A concrete library: entries by identity, schedules that are not empty. *)
#[local] Instance list_cron : CronLib (nat * gmap nat job).
Proof.
  refine {|
    cl_empty := (0%nat, ∅);
    cl_add spec j c := if (spec =? "bad")%string then Err "parse" else
      let id := fresh (dom (snd c)) in Ok (id, (S (fst c), <[id := j]> (snd c)));
    cl_remove id c := (fst c, delete id (snd c));
    cl_entry c id := snd c !! id |}.
  - intros id. apply lookup_empty.
  - intros spec j c id c'. destruct (spec =? "bad")%string; [done|]. intros [= <- _].
    apply not_elem_of_dom, is_fresh.
  - intros spec j c id c' id'. destruct (spec =? "bad")%string; [done|]. intros [= <- <-]. simpl.
    case_test; [subst; by rewrite lookup_insert_eq|by rewrite lookup_insert_ne].
  - intros id c id'. simpl. case_test; [subst; by rewrite lookup_delete_eq|by rewrite lookup_delete_ne].
Defined.

Definition demo_job (u i sched : string) : job := Build_job i u sched "say hi" ["slack:C1"].

Lemma scheduler_consistent_witness :
  let s := fold_left cron_step [OpAdd (demo_job "u" "b" "@daily"); OpRemove "u" "a"]
             (LoadJobs [demo_job "u" "a" "@daily"; demo_job "v" "a" "bad"] None (NewCron (C := nat * gmap nat job))) in
  (forall j, j ∈ Jobs s <-> exists id, cl_entry (sc_cron s) id = Some j)
  /\ Jobs s = [demo_job "u" "b" "@daily"].
Proof.
  intros s. split; [|vm_compute; reflexivity].
  apply (scheduler_consistent None [demo_job "u" "a" "@daily"; demo_job "v" "a" "bad"]
           [OpAdd (demo_job "u" "b" "@daily"); OpRemove "u" "a"]).
  - repeat constructor.
  - apply (bool_decide_unpack _). reflexivity.
  - repeat constructor.
Defined.

(** ** Fired jobs *)

Section fire.
Variable uuid : string.

(** [time.Time.UnixMilli] *)
Definition unix_milli (t : Z) : Z := (t / time_millisecond)%Z.

Definition job_message (prefix : string) (j : job) (now : Z) : NipperMessage := {|
  nm_MessageID := uuid;
  nm_OriginMessageID := prefix +:+ ":" +:+ jb_ID j +:+ ":" +:+ fmt_d (unix_milli now);
  nm_UserID := jb_UserID j;
  nm_SessionKey := "";
  nm_ChannelType := ChannelTypeCron;
  nm_ChannelIdentity := prefix +:+ ":" +:+ jb_ID j;
  nm_Content := Build_MessageContent (jb_Prompt j) [];
  nm_DeliveryContext := Build_DeliveryContext ChannelTypeCron (jb_ID j) "broadcast" ""
                          (jb_NotifyChannels j) CronCapabilities;
  nm_Meta := Some (MetaCron (Build_CronMeta (jb_ID j) (format_rfc3339 now)));
  nm_Timestamp := now;
  nm_DedupeKey := "" |}.

(** The messages handed to the handler; its errors are only logged. *)
Definition fireJob (has_handler : bool) (j : job) (now : Z) : option NipperMessage :=
  if has_handler then Some (job_message "cron" j now) else None.
Definition fireAtJob (has_handler : bool) (j : job) (now : Z) : option NipperMessage :=
  if has_handler then Some (job_message "at" j now) else None.
End fire.

(** A fired job reaches its user's session: the message of a cron or at job
    resolves to a session key the agent can parse, of the job's user, the cron
    channel and the job's id made safe, the same at every firing. *)
Lemma fired_job_session uuid j now m :
  plain (jb_UserID j) -> job_complete j = true ->
  fireJob uuid true j now = Some m \/ fireAtJob uuid true j now = Some m ->
  exists key, Resolve m = Ok key
    /\ ParseSessionKey key = Ok (KeyParts (jb_UserID j) "cron" (SanitizeSessionID (jb_ID j))).
Proof.
  intros Hp Hc Hf.
  assert (Hm : exists prefix, m = job_message uuid prefix j now) by (destruct Hf as [[= <-]|[= <-]]; eauto).
  destruct Hm as [prefix ->]. unfold job_complete, nonempty in Hc. bool_hyps.
  destruct (resolve_parse (job_message uuid prefix j now)) as (key & H1' & H2' & _); [done..|].
  exists key. split; [done|]. rewrite H2'. simpl. unfold deriveSessionID, channel_session. simpl.
  unfold nonempty. by rewrite (str_eqb_nonempty (jb_ID j)) by done.
Qed.

Lemma fired_job_session_witness :
  exists key, Resolve (job_message "id" "at" (demo_job "u" "job 1" "@daily") 5) = Ok key
    /\ ParseSessionKey key = Ok (KeyParts "u" "cron" (SanitizeSessionID "job 1")).
Proof.
  apply (fired_job_session "id" (demo_job "u" "job 1" "@daily") 5); [reflexivity|reflexivity|].
  right. reflexivity.
Defined.

(** ** One-shot jobs *)

Record AtState := {
  at_timers : gmap string nat;        (* atTimers: key -> timer *)
  at_armed : gmap nat (Z * job);      (* armed timers: delay and job *)
  at_next : nat;
  at_jobs : list job;                 (* atJobs *)
  at_firing : list job;               (* fired, not yet cleaned up *)
  at_fired : list job;                (* fired so far *)
  at_cleanups : list (string * string) }.   (* database deletions: id, user *)

Definition NewAt : AtState := Build_AtState ∅ ∅ 0 [] [] [] [].

(** scheduleAtJob, at clock value [now]. *)
Definition scheduleAtJob (j : job) (runAt now : Z) (s : AtState) : AtState :=
  Build_AtState (<[atJobKey j := at_next s]> (at_timers s))
    (<[at_next s := ((runAt - now)%Z, j)]> (at_armed s)) (S (at_next s))
    (at_jobs s ++ [j]) (at_firing s) (at_fired s) (at_cleanups s).

Definition cleanup_db (has_cleanup : bool) (j : job) (s : AtState) : AtState :=
  Build_AtState (at_timers s) (at_armed s) (at_next s) (at_jobs s) (at_firing s) (at_fired s)
    (if has_cleanup then at_cleanups s ++ [(jb_ID j, jb_UserID j)] else at_cleanups s).

(** One job of LoadAtJobs: expired and unreadable ones are deleted. *)
Definition load_at_job (has_cleanup : bool) (validator : option (string -> result string bool))
    (now : Z) (s : AtState) (j : job) : AtState :=
  match parse_rfc3339 (jb_when j) with
  | None => cleanup_db has_cleanup j s
  | Some runAt =>
      if time_before runAt now then cleanup_db has_cleanup j s
      else if negb (validated validator (jb_UserID j)) then s
      else scheduleAtJob j runAt now s
  end.

Definition LoadAtJobs (has_cleanup : bool) (jobs : list job)
    (validator : option (string -> result string bool)) (now : Z) (s : AtState) : AtState :=
  fold_left (load_at_job has_cleanup validator now) jobs s.

Definition AddAtJob (j : job) (now : Z) (s : AtState) : result sched_error unit * AtState :=
  if negb (job_complete j) then (Err ErrMissingField, s)
  else
    match parse_rfc3339 (jb_when j) with
    | None => (Err ErrRunAt, s)
    | Some runAt =>
        if time_before runAt now then (Err ErrPast, s)
        else
          match at_timers s !! atJobKey j with
          | Some _ => (Err (ErrAlreadyRegistered (atJobKey j)), s)
          | None => (Ok tt, scheduleAtJob j runAt now s)
          end
    end.

Definition RemoveAtJob (userID id : string) (s : AtState) : bool * AtState :=
  let key := job_key userID id in
  match at_timers s !! key with
  | None => (false, s)
  | Some timer =>
      (true, Build_AtState (delete key (at_timers s)) (delete timer (at_armed s)) (at_next s)
               (remove_first_job userID id (at_jobs s)) (at_firing s) (at_fired s) (at_cleanups s))
  end.

(** A timer fires: its goroutine runs the job. *)
Definition fire_at (timer : nat) (s : AtState) : AtState :=
  match at_armed s !! timer with
  | None => s
  | Some (_, j) =>
      Build_AtState (at_timers s) (delete timer (at_armed s)) (at_next s) (at_jobs s)
        (at_firing s ++ [j]) (at_fired s ++ [j]) (at_cleanups s)
  end.

(** The goroutine's critical section and database cleanup, after the job ran;
    [n] is its place among the running ones. *)
Definition finish_at (has_cleanup : bool) (n : nat) (s : AtState) : AtState :=
  match at_firing s !! n with
  | None => s
  | Some j =>
      cleanup_db has_cleanup j
        (Build_AtState (delete (atJobKey j) (at_timers s)) (at_armed s) (at_next s)
           (remove_first_job (jb_UserID j) (jb_ID j) (at_jobs s))
           (delete n (at_firing s)) (at_fired s) (at_cleanups s))
  end.

Inductive at_op :=
| AtAdd (j : job) (now : Z)
| AtRemove (userID id : string)
| AtFire (timer : nat)
| AtFinish (n : nat).

Definition at_step (s : AtState) (o : at_op) : AtState :=
  match o with
  | AtAdd j now => snd (AddAtJob j now s)
  | AtRemove u i => snd (RemoveAtJob u i s)
  | AtFire timer => fire_at timer s
  | AtFinish n => finish_at true n s
  end.

Definition key_firing (k : string) (s : AtState) : bool :=
  existsb (fun j => (atJobKey j =? k)%string) (at_firing s).

(** User ids without a colon, and no job added under the key of one that is
    running. *)
Definition at_op_ok (s : AtState) (o : at_op) : Prop :=
  match o with
  | AtAdd j _ => plain (jb_UserID j) /\ key_firing (atJobKey j) s = false
  | AtRemove u _ => plain u
  | _ => True
  end.

Fixpoint at_run_ok (os : list at_op) (s : AtState) : Prop :=
  match os with
  | [] => True
  | o :: os' => at_op_ok s o /\ at_run_ok os' (at_step s o)
  end.

Record at_ok (s : AtState) : Prop := {
  ao_plain : Forall (fun j => plain (jb_UserID j)) (at_jobs s ++ at_firing s);
  ao_distinct : NoDup (map atJobKey (at_jobs s));
  ao_firing : NoDup (map atJobKey (at_firing s));
  ao_armed : forall t d j, at_armed s !! t = Some (d, j) ->
    at_timers s !! atJobKey j = Some t /\ j ∈ at_jobs s /\ key_firing (atJobKey j) s = false
    /\ (t < at_next s)%nat;
  ao_inj : forall k k' t, at_timers s !! k = Some t -> at_timers s !! k' = Some t -> k = k';
  ao_next : forall k t, at_timers s !! k = Some t -> (t < at_next s)%nat;
  ao_timers : forall k t, at_timers s !! k = Some t ->
    (exists d j, at_armed s !! t = Some (d, j) /\ atJobKey j = k) \/ key_firing k s = true;
  ao_jobs : forall j, j ∈ at_jobs s -> is_Some (at_timers s !! atJobKey j) }.

(** *** Lemmas *)

Lemma key_firing_iff k s : key_firing k s = true <-> exists j, j ∈ at_firing s /\ atJobKey j = k.
Proof.
  unfold key_firing. rewrite existsb_exists. split; intros (j & Hj & Hk); exists j.
  - apply list_elem_of_In in Hj. by apply String.eqb_eq in Hk.
  - split; [by apply list_elem_of_In|by apply String.eqb_eq].
Qed.

Lemma map_delete {A B} (f : A -> B) n (l : list A) : map f (delete n l) = delete n (map f l).
Proof. revert n. induction l as [|x l IH]; intros [|n]; simpl; [done..|]. f_equal. apply IH. Qed.

Lemma schedule_at_ok j runAt now s :
  at_ok s -> plain (jb_UserID j) -> key_firing (atJobKey j) s = false ->
  at_timers s !! atJobKey j = None -> at_ok (scheduleAtJob j runAt now s).
Proof.
  intros [P D F A I N T J] Hp Hf Hnew. split; cbn [scheduleAtJob at_timers at_armed at_next at_jobs at_firing].
  - rewrite <- app_assoc. apply list.Forall_app in P as [P1 P2]. apply list.Forall_app. split; [done|].
    by apply list.Forall_cons.
  - apply NoDup_map_snoc; [done|]. intros y Hy He. apply list_elem_of_In in Hy.
    destruct (J y Hy) as [? Hs]. unfold atJobKey, cronJobKey in *. congruence.
  - done.
  - intros t d j' [[<- [= <- <-]]|[Hne Ht]]%lookup_insert_Some.
    + rewrite lookup_insert_eq. split; [done|]. split; [set_solver|]. split; [done|lia].
    + destruct (A _ _ _ Ht) as (H1' & H2' & H3' & H4'). assert (atJobKey j <> atJobKey j') by congruence.
      rewrite lookup_insert_ne by done. split; [done|]. split; [set_solver|]. split; [done|lia].
  - intros k k' t [[<- <-]|[? Hk]]%lookup_insert_Some [[<- ?]|[? Hk']]%lookup_insert_Some; try done;
      [apply N in Hk'; lia|subst; apply N in Hk; lia|eauto].
  - intros k t [[<- <-]|[? Hk]]%lookup_insert_Some; [lia|]. apply N in Hk. lia.
  - intros k t [[<- <-]|[Hne Hk]]%lookup_insert_Some.
    + left. eexists _, j. by rewrite lookup_insert_eq.
    + destruct (T _ _ Hk) as [(d & j' & Ht & <-)|Hk']; [|by right]. left. exists d, j'.
      assert (t < at_next s)%nat by (by apply (A t d j')). rewrite lookup_insert_ne by lia. done.
  - intros j' [Hin| ->%list_elem_of_singleton]%elem_of_app; [|by rewrite lookup_insert_eq].
    destruct (decide (atJobKey j = atJobKey j')) as [He|He];
      [rewrite He, lookup_insert_eq; eauto|rewrite lookup_insert_ne; auto].
Qed.

Lemma remove_at_ok u i s : at_ok s -> plain u -> at_ok (snd (RemoveAtJob u i s)).
Proof.
  intros Hok Hu. unfold RemoveAtJob. destruct (at_timers s !! job_key u i) as [t0|] eqn:Et; [|done].
  destruct Hok as [P D F A I N T J]. cbn [snd]. apply list.Forall_app in P as [P1 P2].
  pose proof (remove_first_spec u i (at_jobs s) D P1 Hu) as Hrem.
  split; cbn [at_timers at_armed at_next at_jobs at_firing].
  - apply list.Forall_app. split; [|done]. apply list.Forall_forall. intros j [Hj _]%Hrem.
    rewrite list.Forall_forall in P1. by apply P1.
  - eapply sublist_NoDup_map; [apply remove_first_sublist|done].
  - done.
  - intros t d j [Hne Ht]%lookup_delete_Some. destruct (A _ _ _ Ht) as (H1' & H2' & H3' & H4').
    assert (Hk : atJobKey j <> job_key u i) by congruence. rewrite lookup_delete_ne by done.
    split; [done|]. split; [by apply Hrem|]. split; [done|lia].
  - intros k k' t [_ Hk]%lookup_delete_Some [_ Hk']%lookup_delete_Some. eauto.
  - intros k t [_ Hk]%lookup_delete_Some. eauto.
  - intros k t [Hne Hk]%lookup_delete_Some. destruct (T _ _ Hk) as [(d & j & Ht & <-)|]; [|by right].
    left. exists d, j. rewrite lookup_delete_ne; [done|]. intros <-. eauto.
  - intros j [Hj Hne]%Hrem. rewrite lookup_delete_ne by done. by apply J.
Qed.

Lemma fire_at_ok t s : at_ok s -> at_ok (fire_at t s).
Proof.
  intros Hok. unfold fire_at. destruct (at_armed s !! t) as [[d j]|] eqn:Et; [|done].
  destruct Hok as [P D F A I N T J]. apply list.Forall_app in P as [P1 P2].
  destruct (A _ _ _ Et) as (Hk & Hj & Hf & Hn).
  split; cbn [at_timers at_armed at_next at_jobs at_firing]; try done.
  - apply list.Forall_app. split; [done|]. apply list.Forall_app. split; [done|].
    apply list.Forall_cons. split; [|done]. rewrite list.Forall_forall in P1. by apply P1.
  - apply NoDup_map_snoc; [done|]. intros y Hy He. apply list_elem_of_In in Hy.
    assert (key_firing (atJobKey j) s = true) by (apply key_firing_iff; eauto). congruence.
  - intros t' d' j' [Hne Ht]%lookup_delete_Some. destruct (A _ _ _ Ht) as (H1' & H2' & H3' & H4').
    split; [done|]. split; [done|]. split; [|done]. unfold key_firing in *. cbn [at_firing].
    rewrite existsb_app, H3'. simpl. rewrite orb_false_r. apply String.eqb_neq. congruence.
  - intros k t' Hk'. destruct (decide (t = t')) as [<-|Hne].
    + right. rewrite (I _ _ _ Hk' Hk). apply key_firing_iff. exists j. cbn [at_firing]. set_solver.
    + destruct (T _ _ Hk') as [(d' & j' & Ht & <-)|Hf'].
      * left. exists d', j'. by rewrite lookup_delete_ne.
      * right. apply key_firing_iff in Hf' as (j' & Hj' & <-). apply key_firing_iff. exists j'.
        cbn [at_firing]. set_solver.
Qed.

Lemma finish_at_ok b n s : at_ok s -> at_ok (finish_at b n s).
Proof.
  intros Hok. unfold finish_at. destruct (at_firing s !! n) as [j|] eqn:En; [|done].
  destruct Hok as [P D F A I N T J]. apply list.Forall_app in P as [P1 P2].
  assert (Hin : j ∈ at_firing s) by (by apply list_elem_of_lookup_2 with n).
  assert (Hp : plain (jb_UserID j)) by (rewrite list.Forall_forall in P2; by apply P2).
  pose proof (remove_first_spec (jb_UserID j) (jb_ID j) (at_jobs s) D P1 Hp) as Hrem.
  assert (Hsub : sublist (delete n (at_firing s)) (at_firing s)) by apply sublist_delete.
  assert (Hfk : key_firing (atJobKey j) s = true) by (apply key_firing_iff; eauto).
  assert (Hother : forall k, k <> atJobKey j -> key_firing k s = true ->
            existsb (fun j0 => (atJobKey j0 =? k)%string) (delete n (at_firing s)) = true).
  { intros k Hne Hf. apply key_firing_iff in Hf as (j' & Hj' & <-). apply existsb_exists. exists j'.
    split; [|apply String.eqb_refl]. apply list_elem_of_In. apply list_elem_of_lookup_1 in Hj' as [n' Hn'].
    apply list_elem_of_lookup. destruct (decide (n' < n)%nat).
    - exists n'. by rewrite list_lookup_delete_lt by lia.
    - assert (n' <> n) by congruence. exists (n' - 1)%nat. rewrite list_lookup_delete_ge by lia.
      by replace (S (n' - 1)) with n' by lia. }
  split; cbn [cleanup_db at_timers at_armed at_next at_jobs at_firing].
  - apply list.Forall_app. split.
    + apply list.Forall_forall. intros j' [Hj' _]%Hrem. rewrite list.Forall_forall in P1. by apply P1.
    + apply list.Forall_forall. intros j' Hj'. rewrite list.Forall_forall in P2. apply P2.
      by eapply elem_of_sublist.
  - eapply sublist_NoDup_map; [apply remove_first_sublist|done].
  - by eapply sublist_NoDup_map.
  - intros t d j' Ht. destruct (A _ _ _ Ht) as (H1' & H2' & H3' & H4').
    assert (Hne : atJobKey j' <> atJobKey j) by congruence. rewrite lookup_delete_ne by done.
    split; [done|]. split; [by apply Hrem|]. split; [|done]. unfold key_firing in *. cbn.
    apply not_true_is_false. intros (x & Hx & He)%existsb_exists. apply list_elem_of_In in Hx.
    assert (x ∈ at_firing s) by (by eapply elem_of_sublist).
    assert (existsb (fun j0 => (atJobKey j0 =? atJobKey j')%string) (at_firing s) = true)
      by (apply existsb_exists; exists x; split; [by apply list_elem_of_In|done]). congruence.
  - intros k k' t [_ Hk]%lookup_delete_Some [_ Hk']%lookup_delete_Some. eauto.
  - intros k t [_ Hk]%lookup_delete_Some. eauto.
  - intros k t [Hne Hk]%lookup_delete_Some. destruct (T _ _ Hk) as [(d & j' & Ht & <-)|Hf].
    + left. eauto.
    + right. by apply Hother.
  - intros j' [Hj' Hne]%Hrem. rewrite lookup_delete_ne by done. by apply J.
Qed.

Lemma at_step_ok s o : at_ok s -> at_op_ok s o -> at_ok (at_step s o).
Proof.
  intros Hok Ho. destruct o as [j now|u i|t|n]; simpl in *;
    [|by apply remove_at_ok|by apply fire_at_ok|by apply finish_at_ok].
  destruct Ho as [Hp Hf]. unfold AddAtJob. destruct (job_complete j); cbn [negb]; [|done].
  destruct (parse_rfc3339 _) as [runAt|]; [|done]. destruct (time_before runAt now); [done|].
  destruct (at_timers s !! atJobKey j) eqn:E; [done|]. by apply schedule_at_ok.
Qed.

Lemma at_run_invariant os s : at_ok s -> at_run_ok os s -> at_ok (fold_left at_step os s).
Proof.
  revert s. induction os as [|o os IH]; intros s Hok Hr; [done|]. destruct Hr as [Ho Hr]. simpl.
  apply IH; [by apply at_step_ok|done].
Qed.

(** The pending at jobs are the armed ones: on any interleaving of
    additions, removals, firings and cleanups that adds no job under the key of
    a running one, every armed timer belongs to a job that [AtJobs] lists and
    [RemoveAtJob] finds, and once a removal succeeded no timer of its key is
    armed: a removed job does not fire. *)
Lemma at_jobs_consistent os :
  at_run_ok os NewAt ->
  let s := fold_left at_step os NewAt in
  (forall t d j, at_armed s !! t = Some (d, j) ->
     j ∈ at_jobs s /\ fst (RemoveAtJob (jb_UserID j) (jb_ID j) s) = true)
  /\ (forall j, j ∈ at_jobs s -> (exists t d, at_armed s !! t = Some (d, j)) \/ key_firing (atJobKey j) s = true)
  /\ (forall u i, plain u -> let s' := snd (RemoveAtJob u i s) in
       forall t d j, at_armed s' !! t = Some (d, j) -> atJobKey j <> job_key u i).
Proof.
  intros Hr s. assert (Hok : at_ok s).
  { apply at_run_invariant; [|done]. split; cbn; try constructor; try by intros; try set_solver.
    all: intros; rewrite ?lookup_empty in *; done. }
  split; [|split].
  - intros t d j Ht. destruct (ao_armed _ Hok _ _ _ Ht) as (Hk & Hj & _). split; [done|].
    unfold RemoveAtJob. change (job_key (jb_UserID j) (jb_ID j)) with (atJobKey j). by rewrite Hk.
  - intros j Hj. destruct (ao_jobs _ Hok j Hj) as [t Ht].
    destruct (ao_timers _ Hok _ _ Ht) as [(d & j' & Ha & Hk)|]; [|by right]. left. exists t, d.
    destruct (ao_armed _ Hok _ _ _ Ha) as (_ & Hj' & _).
    by rewrite <- (key_of_job j (at_jobs s) (ao_distinct _ Hok) Hj j' Hj' Hk).
  - intros u i Hu s' t d j Ht. pose proof (remove_at_ok u i s Hok Hu) as Hok'.
    destruct (ao_armed _ Hok' _ _ _ Ht) as (Hk & _). fold s' in Hk. intros He. rewrite He in Hk.
    unfold s', RemoveAtJob in Hk. destruct (at_timers s !! job_key u i) eqn:E; cbn in Hk; [|congruence].
    by rewrite lookup_delete_eq in Hk.
Qed.

Definition demo_at (id : string) : job := demo_job "u" id "1970-01-01T00:00:01Z".

Lemma at_jobs_consistent_witness :
  let os := [AtAdd (demo_at "a") 5; AtAdd (demo_at "b") 6; AtFire 0; AtRemove "u" "b"] in
  let s := fold_left at_step os NewAt in
  at_jobs s = [demo_at "a"]
  /\ (forall j, j ∈ at_jobs s -> (exists t d, at_armed s !! t = Some (d, j)) \/ key_firing (atJobKey j) s = true).
Proof.
  intros os s. split; [vm_compute; reflexivity|].
  apply (at_jobs_consistent os). vm_compute. repeat split.
Defined.

(** The condition is needed: a job removed and added again while the old
    one is still running is cleaned up with it.  Its timer stays armed, so it
    fires, but it is no longer listed, cannot be removed, and its database row
    is deleted. *)
Lemma at_job_readded_lost :
  let j1 := demo_at "a" in
  let s := fold_left at_step
             [AtAdd j1 5; AtFire 0; AtRemove "u" "a"; AtAdd j1 7; AtFinish 0] NewAt in
  at_armed s !! 1%nat = Some (999999993%Z, j1) /\ at_jobs s = [] /\ fst (RemoveAtJob "u" "a" s) = false
  /\ at_cleanups s = [("a", "u")].
Proof. vm_compute. done. Qed.
