(* ===== verification/AgentApi.v ===== *)
(** * The agents' endpoints (gateway/agent_cron_handler.go, agent_at_handler.go,
      agent_notify_handler.go, health_handler.go)

    What an agent may do for its user with its token: list, add and remove the
    user's jobs, send the user a notice, and report its health.  The state is
    the store, the two schedulers, the heartbeats and what was delivered. *)
From Stdlib Require Import ZArith Lia Bool Ascii String List.
From stdpp Require Import base gmap strings option fin_maps list.
From S2P Require Import Prelude GoString GoTime GoJsonParse Sha256 Http Models.
From S2P Require Import Repo Sqlite SqliteProofs HealthMon Scheduler Limiter Queue Register.

Local Open Scope string_scope.
Local Open Scope Z_scope.
Local Open Scope state_scope.
Local Open Scope reader_scope.

Definition StatusCreated : Z := 201.

Inductive api_body :=
| ApiError (error : string)
| ApiOK
| ApiJobs (jobs : list job)
| ApiJob (j : job).

Record ApiState (C : Type) := {
  as_db : Db;
  as_cron : CronState C;
  as_at : AtState;
  as_heartbeats : heartbeats;
  as_sent : list NipperResponse }.
Arguments as_db {C}. Arguments as_cron {C}. Arguments as_at {C}.
Arguments as_heartbeats {C}. Arguments as_sent {C}. Arguments Build_ApiState {C}.

(** ** Who is asking *)

(** [resolveAgentUser] of the cron and the at handler, which also check the
    session's user when the request names one. *)
Definition agent_active (a : Agent) : bool :=
  (ag_Status a =? "provisioned")%string || (ag_Status a =? "registered")%string.

Definition resolveAgentUser (r : Request) (d : Db) : result (Z * string) string :=
  let token := extractBearerToken r in
  if (token =? "")%string then Err (StatusUnauthorized, "unauthorized")
  else match GetAgentByTokenHash (hashToken token) d with
  | Err _ => Err (StatusUnauthorized, "unauthorized")
  | Ok agent =>
      if negb (agent_active agent) then Err (StatusForbidden, "agent revoked")
      else
        let headerUserID := trim_space (header_get (rq_Header r) "X-Nipper-User-Id") in
        if negb (headerUserID =? "")%string then
          if negb (headerUserID =? ag_UserID agent)%string
          then Err (StatusForbidden, "X-Nipper-User-Id does not match agent")
          else Ok headerUserID
        else Ok (ag_UserID agent)
  end.

(** The notify handler's. *)
Definition notify_resolveAgentUser (r : Request) (d : Db) : result (Z * string) string :=
  let token := extractBearerToken r in
  if (token =? "")%string then Err (StatusUnauthorized, "unauthorized")
  else match GetAgentByTokenHash (hashToken token) d with
  | Err _ => Err (StatusUnauthorized, "unauthorized")
  | Ok agent =>
      if negb (agent_active agent) then Err (StatusForbidden, "agent revoked")
      else Ok (ag_UserID agent)
  end.

(** The user's identities on the channels the user may use, cron apart. *)
Definition resolveNotifyChannels (userID : string) (d : Db) : list string :=
  map (fun r => ir_channel r +:+ ":" +:+ ir_identity r)
    (List.filter (fun r => negb (ir_channel r =? "cron")%string && sql_IsAllowed userID (ir_channel r) d)
       (ListIdentities userID d)).

Record addRequest := { ar_ID : string; ar_When : string; ar_Prompt : string }.
Definition zero_add := Build_addRequest "" "" "".

Definition dec_add (when : string) : decoder addRequest := dec_struct (fun x =>
  let f {B} := @field B ["id"; when; "prompt"] in
  Build_addRequest
    <$$> f "id" dec_string (ar_ID x)
    <*> f when dec_string (ar_When x)
    <*> f "prompt" dec_string (ar_Prompt x)).

Section api.

Context {C : Type} `{CronLib C}.
(** [time.Now()]; whether the cron channel is enabled; the registered adapters,
    whose delivery errors are only logged. *)
Context (now : Z) (enabled : bool).
Context (has_adapter : ChannelType -> bool) (uuid : string).

Abbreviation M := (State (ApiState C)).
Abbreviation api_response := (Response api_body).

Definition reply (code : Z) (b : api_body) : api_response := Build_Response code (Some b).
Definition refuse (e : Z * string) : api_response := reply (fst e) (ApiError (snd e)).

Definition set_db (d : Db) (s : ApiState C) : ApiState C :=
  Build_ApiState d (as_cron s) (as_at s) (as_heartbeats s) (as_sent s).
Definition set_cron (c : CronState C) (s : ApiState C) : ApiState C :=
  Build_ApiState (as_db s) c (as_at s) (as_heartbeats s) (as_sent s).
Definition set_at (a : AtState) (s : ApiState C) : ApiState C :=
  Build_ApiState (as_db s) (as_cron s) a (as_heartbeats s) (as_sent s).

(** A change of the store that may fail. *)
Definition on_db {A} (f : Db -> A * Db) : M A := fun s => let '(a, d) := f (as_db s) in (a, set_db d s).
Definition on_cron {A} (f : CronState C -> A * CronState C) : M A := fun s =>
  let '(a, c) := f (as_cron s) in (a, set_cron c s).
Definition on_at {A} (f : AtState -> A * AtState) : M A := fun s => let '(a, t) := f (as_at s) in (a, set_at t s).

Definition with_user (resolve : Request -> Db -> result (Z * string) string) (r : Request)
    (k : string -> M api_response) : M api_response :=
  do who <- sget (fun s => resolve r (as_db s));
  match who with
  | Err e => sret (refuse e)
  | Ok userID => k userID
  end.

(** ** Recurring jobs *)

Definition Cron_HandleList (r : Request) : M api_response :=
  with_user resolveAgentUser r (fun userID =>
    do jobs <- sget (fun s => ListCronJobsByUser userID (as_db s));
    sret (reply StatusOK (ApiJobs jobs))).

(** The body of an addition. *)
Definition add_body (when : string) (r : Request) : result string addRequest :=
  match rq_Body r with
  | None => Err "invalid JSON"
  | Some b => match decode_stream (dec_add when) zero_add b with
              | (_, Some _) => Err "invalid JSON"
              | (body, None) => Ok body
              end
  end.

Definition body_complete (body : addRequest) : bool :=
  negb ((ar_ID body =? "")%string || (ar_When body =? "")%string || (ar_Prompt body =? "")%string).

Definition requested_job (userID : string) (body : addRequest) (d : Db) : job :=
  Build_job (ar_ID body) userID (ar_When body) (ar_Prompt body) (resolveNotifyChannels userID d).

(** The scheduler's part of an addition, and the roll-back; the scheduler's error
    is appended to the message. *)
Definition schedule_cron (userID : string) (j : job) : M api_response :=
  do added <- on_cron (Scheduler.AddJob j);
  match added with
  | Ok _ => sret (reply StatusCreated (ApiJob j))
  | Err _ =>
      do _ <- on_db (Sqlite.RemoveCronJob (jb_ID j) userID);
      sret (reply StatusBadRequest (ApiError "invalid schedule or job already registered"))
  end.

Definition Cron_HandleAdd (r : Request) : M api_response :=
  with_user resolveAgentUser r (fun userID =>
    match add_body "schedule" r with
    | Err e => sret (reply StatusBadRequest (ApiError e))
    | Ok body =>
        if negb (body_complete body) then
          sret (reply StatusBadRequest (ApiError "id, schedule, and prompt are required"))
        else if (trim_space (ar_Prompt body) =? "")%string then
          sret (reply StatusBadRequest (ApiError "prompt must be non-empty (cron jobs are prompts only)"))
        else if negb enabled then
          sret (reply StatusServiceUnavailable (ApiError "cron channel is disabled"))
        else
          do j <- sget (fun s => requested_job userID body (as_db s));
          do stored <- on_db (Sqlite.AddCronJob j);
          match stored with
          | Err _ => sret (reply StatusConflict (ApiError "job id already exists for this user"))
          | Ok _ => schedule_cron userID j
          end
    end).

Definition Cron_HandleRemove (r : Request) : M api_response :=
  with_user resolveAgentUser r (fun userID =>
    let id := rq_PathValue r "id" in
    if (id =? "")%string then sret (reply StatusBadRequest (ApiError "job id required"))
    else
      do removed <- on_db (Sqlite.RemoveCronJob id userID);
      match removed with
      | Err _ => sret (reply StatusNotFound (ApiError "job not found or not owned by user"))
      | Ok _ =>
          if enabled then
            do _ <- on_cron (Scheduler.RemoveJob userID id);
            sret (Build_Response StatusNoContent None)
          else sret (Build_Response StatusNoContent None)
      end).

(** ** One-shot jobs *)

Definition At_HandleList (r : Request) : M api_response :=
  with_user resolveAgentUser r (fun userID =>
    do jobs <- sget (fun s => ListAtJobsByUser userID (as_db s));
    sret (reply StatusOK (ApiJobs jobs))).

Definition schedule_at (userID : string) (j : job) : M api_response :=
  do added <- on_at (Scheduler.AddAtJob j now);
  match added with
  | Ok _ => sret (reply StatusCreated (ApiJob j))
  | Err _ =>
      do _ <- on_db (Sqlite.RemoveAtJob (jb_ID j) userID);
      sret (reply StatusBadRequest (ApiError "invalid job"))
  end.

Definition At_HandleAdd (r : Request) : M api_response :=
  with_user resolveAgentUser r (fun userID =>
    match add_body "run_at" r with
    | Err e => sret (reply StatusBadRequest (ApiError e))
    | Ok body =>
        if negb (body_complete body) then
          sret (reply StatusBadRequest (ApiError "id, run_at, and prompt are required"))
        else if (trim_space (ar_Prompt body) =? "")%string then
          sret (reply StatusBadRequest (ApiError "prompt must be non-empty"))
        else match parse_rfc3339 (ar_When body) with
        | None => sret (reply StatusBadRequest (ApiError "run_at must be a valid RFC3339 timestamp"))
        | Some runAt =>
            if time_before runAt now then sret (reply StatusBadRequest (ApiError "run_at is in the past"))
            else if negb enabled then
              sret (reply StatusServiceUnavailable (ApiError "cron channel is disabled (at jobs require cron channel)"))
            else
              do j <- sget (fun s => requested_job userID body (as_db s));
              do stored <- on_db (Sqlite.AddAtJob j);
              match stored with
              | Err _ => sret (reply StatusConflict (ApiError "job id already exists for this user"))
              | Ok _ => schedule_at userID j
              end
        end
    end).

Definition At_HandleRemove (r : Request) : M api_response :=
  with_user resolveAgentUser r (fun userID =>
    let id := rq_PathValue r "id" in
    if (id =? "")%string then sret (reply StatusBadRequest (ApiError "job id required"))
    else
      do removed <- on_db (Sqlite.RemoveAtJob id userID);
      match removed with
      | Err _ => sret (reply StatusNotFound (ApiError "job not found or not owned by user"))
      | Ok _ =>
          if enabled then
            do _ <- on_at (Scheduler.RemoveAtJob userID id);
            sret (Build_Response StatusNoContent None)
          else sret (Build_Response StatusNoContent None)
      end).

(** ** Notices *)

Definition notify_response (userID text : string) (ct channelID : string) : NipperResponse :=
  Build_NipperResponse uuid ("system-notify-" +:+ uuid) userID ct "" text []
    (Build_DeliveryContext ct channelID "" "" [] no_capabilities)
    (if (ct =? ChannelTypeWhatsApp)%string then
       Some (MetaWhatsApp (Build_WhatsAppMeta "" "" "" channelID channelID "" "" false false "" "" false "" "" ""))
     else if (ct =? ChannelTypeSlack)%string then Some (MetaSlack (Build_SlackMeta "" channelID "" "" "" "" "" ""))
     else None)
    "" now None.

Definition add_sent (r : NipperResponse) (s : ApiState C) : ApiState C :=
  Build_ApiState (as_db s) (as_cron s) (as_at s) (as_heartbeats s) (as_sent s ++ [r])%list.

(** Delivery errors are logged. *)
Definition notify_one (userID text target : string) : M unit :=
  match split_n2 target ":" with
  | [ct; channelID] =>
      if has_adapter ct then smodify (add_sent (notify_response userID text ct channelID)) else sret tt
  | _ => sret tt
  end.

Definition dec_message : decoder string := dec_struct (fun x => field ["message"] "message" dec_string x).

Definition Notify_Handle (r : Request) : M api_response :=
  with_user notify_resolveAgentUser r (fun userID =>
    match rq_Body r with
    | None => sret (reply StatusBadRequest (ApiError "invalid JSON"))
    | Some b =>
        match decode_stream dec_message "" b with
        | (_, Some _) => sret (reply StatusBadRequest (ApiError "invalid JSON"))
        | (message, None) =>
            if (trim_space message =? "")%string then
              sret (reply StatusBadRequest (ApiError "message is required"))
            else
              do targets <- sget (fun s => resolveNotifyChannels userID (as_db s));
              run sfor (notify_one userID message) targets;
              sret (reply StatusOK ApiOK)
        end
    end).

(** ** Health *)

Definition normalizeHealthStatus (fold : Z -> Z) (s : string) : string :=
  let t := to_lower fold (trim_space s) in
  if existsb (String.eqb t) ["healthy"; "degraded"; "unhealthy"] then t else "unknown".

Definition dec_status : decoder string := dec_struct (fun x => field ["status"; "message"] "status" dec_string x).

(** Here only a revoked agent is refused; the body is optional. *)
Definition Health_Handle (fold : Z -> Z) (has_heartbeat : bool) (r : Request) : M api_response :=
  let token := extractBearerToken r in
  if (token =? "")%string then sret (reply StatusUnauthorized (ApiError "unauthorized"))
  else
    do found <- sget (fun s => GetAgentByTokenHash (hashToken token) (as_db s));
    match found with
    | Err _ => sret (reply StatusUnauthorized (ApiError "unauthorized"))
    | Ok agent =>
        if (ag_Status agent =? AgentStatusRevoked)%string then sret (reply StatusForbidden (ApiError "agent revoked"))
        else
          let status := match rq_Body r with Some b => fst (decode_stream dec_status "" b) | None => "" end in
          run (if has_heartbeat then smodify (fun s =>
                 Build_ApiState (as_db s) (as_cron s) (as_at s)
                   (Record_ (ag_ID agent) (ag_UserID agent) (normalizeHealthStatus fold status) now (as_heartbeats s))
                   (as_sent s)) else sret tt);
          sret (reply StatusOK ApiOK)
    end.

End api.

(** ** The agent behind a request *)

(** The request carries the token of an agent in use. *)
Definition entitled (r : Request) (d : Db) (userID : string) : Prop :=
  exists row, In row (t_agents d) /\ gr_hash row = sha256_hex (extractBearerToken r) /\
    extractBearerToken r <> "" /\ (gr_status row = "provisioned" \/ gr_status row = "registered") /\
    gr_user row = userID.

Lemma active_entitled r d agent :
  extractBearerToken r <> "" -> GetAgentByTokenHash (hashToken (extractBearerToken r)) d = Ok agent ->
  agent_active agent = true -> entitled r d (ag_UserID agent).
Proof.
  intros Ht Ha Hs. apply GetAgentByTokenHash_row in Ha as (row & Hin & Hh & ->).
  unfold agent_active in Hs. apply orb_true_iff in Hs. rewrite !String.eqb_eq in Hs. by exists row.
Qed.

Lemma resolveAgentUser_entitled r d u : resolveAgentUser r d = Ok u -> entitled r d u.
Proof.
  unfold resolveAgentUser. destruct (String.eqb_spec (extractBearerToken r) "") as [|Ht]; [done|].
  destruct (GetAgentByTokenHash _ d) as [agent|] eqn:Ea; [|done].
  destruct (agent_active agent) eqn:Es; [|done]. cbn [negb].
  destruct (negb (trim_space _ =? "")%string).
  - destruct (String.eqb_spec (trim_space (header_get (rq_Header r) "X-Nipper-User-Id")) (ag_UserID agent)) as [->|]; [|done].
    intros [= <-]. by apply active_entitled.
  - intros [= <-]. by apply active_entitled.
Qed.

Lemma notify_resolve_entitled r d u : notify_resolveAgentUser r d = Ok u -> entitled r d u.
Proof.
  unfold notify_resolveAgentUser. destruct (String.eqb_spec (extractBearerToken r) "") as [|Ht]; [done|].
  destruct (GetAgentByTokenHash _ d) as [agent|] eqn:Ea; [|done].
  destruct (agent_active agent) eqn:Es; [|done]. intros [= <-]. by apply active_entitled.
Qed.

Section effects.

Context {C : Type} `{CronLib C}.
Context (now : Z) (enabled : bool) (has_adapter : ChannelType -> bool) (uuid : string).

Lemma with_user_eq resolve r k (s : ApiState C) :
  with_user resolve r k s = match resolve r (as_db s) with Err e => (refuse e, s) | Ok u => k u s end.
Proof. unfold with_user, sbind, sget. by destruct (resolve r (as_db s)). Qed.

(** What a request did to the recurring jobs. *)
Inductive cron_effect (userID : string) (s : ApiState C) : ApiState C -> Prop :=
| cron_same : cron_effect userID s s
| cron_added j c :
    jb_UserID j = userID ->
    add_job "add cron job" j (t_cron (as_db s)) (as_db s) = Ok (t_cron (as_db s) ++ [j])%list ->
    Scheduler.AddJob j (as_cron s) = (Ok tt, c) ->
    cron_effect userID s (set_cron c (set_db (Sqlite.set_cron (fun _ => t_cron (as_db s) ++ [j])%list (as_db s)) s))
| cron_removed id :
    existsb (is_job id userID) (t_cron (as_db s)) = true ->
    cron_effect userID s
      (set_cron (if enabled then snd (Scheduler.RemoveJob userID id (as_cron s)) else as_cron s)
        (set_db (Sqlite.set_cron (fun _ => List.filter (fun x => negb (is_job id userID x)) (t_cron (as_db s))) (as_db s)) s)).

Lemma set_cron_same d : Sqlite.set_cron (fun _ => t_cron d) d = d.
Proof. by destruct d. Qed.

Lemma schedule_cron_effect userID j (s : ApiState C) t :
  jb_UserID j = userID -> add_job "add cron job" j (t_cron (as_db s)) (as_db s) = Ok t ->
  cron_effect userID s (snd (schedule_cron userID j (set_db (Sqlite.set_cron (fun _ => t) (as_db s)) s))).
Proof.
  intros Hu Ha. destruct (job_rollback _ "cron job" j _ _ _ Ha) as (-> & _ & Hr). rewrite Hu in Hr.
  unfold schedule_cron, sbind, on_cron. cbn [as_cron set_db].
  destruct (AddJob j (as_cron s)) as [[[]|e] c] eqn:Es; cbn [snd].
  - by apply (cron_added _ s j c).
  - assert (c = as_cron s) as ->.
    { revert Es. unfold AddJob. destruct (negb _); [by intros [= _ <-]|].
      destruct (sc_entryIDs _ !! _); [by intros [= _ <-]|]. destruct (register_job _ _); [done|by intros [= _ <-]]. }
    unfold on_db, RemoveCronJob, store_jobs. cbn [as_db set_cron set_db t_cron Sqlite.set_cron]. rewrite Hr.
    cbn [sret snd]. assert (Hs : forall s0 : ApiState C, s0 = s -> cron_effect userID s s0)
      by (intros ? ->; apply cron_same). apply Hs. destruct s as [d ? ? ? ?]. by destruct d.
Qed.

Lemma cron_add_effect r s userID :
  resolveAgentUser r (as_db s) = Ok userID ->
  cron_effect userID s (snd (Cron_HandleAdd enabled r s)).
Proof.
  intros Hu. unfold Cron_HandleAdd. rewrite with_user_eq, Hu.
  destruct (add_body "schedule" r) as [body|]; [|apply cron_same].
  destruct (negb (body_complete body)); [apply cron_same|].
  destruct (trim_space (ar_Prompt body) =? "")%string; [apply cron_same|].
  destruct (negb enabled); [apply cron_same|].
  unfold sbind at 1, sget. unfold sbind at 1, on_db at 1, Sqlite.AddCronJob, store_jobs.
  destruct (add_job _ _ _ _) as [t|] eqn:Ea.
  - by apply schedule_cron_effect.
  - cbn [sret snd]. destruct s. apply cron_same.
Qed.

Lemma cron_remove_effect r s userID :
  resolveAgentUser r (as_db s) = Ok userID ->
  cron_effect userID s (snd (Cron_HandleRemove enabled r s)).
Proof.
  intros Hu. unfold Cron_HandleRemove. rewrite with_user_eq, Hu. cbv zeta.
  destruct (rq_PathValue r "id" =? "")%string; [apply cron_same|].
  unfold sbind at 1, on_db at 1, Sqlite.RemoveCronJob, store_jobs, remove_job.
  destruct (existsb _ _) eqn:E; [|cbn [sret snd]; destruct s; apply cron_same].
  pose proof (cron_removed userID s (rq_PathValue r "id") E) as Hr. revert Hr.
  destruct enabled; unfold sbind, on_cron, sret; cbn [as_cron set_db snd].
  - by destruct (RemoveJob userID (rq_PathValue r "id") (as_cron s)).
  - done.
Qed.

(** *** The store and the scheduler agree *)

Record api_ok (s : ApiState C) : Prop := {
  ak_db : db_ok (as_db s);
  ak_cron : cron_ok (as_cron s);
  ak_plain : forall row, In row (t_agents (as_db s)) -> plain (gr_user row);
  ak_jobs : forall j, In j (t_cron (as_db s)) <-> j ∈ sc_jobs (as_cron s) }.

Lemma is_job_key id u j : is_job id u j = true <-> jb_ID j = id /\ jb_UserID j = u.
Proof. unfold is_job. by rewrite andb_true_iff, !String.eqb_eq. Qed.

Lemma add_job_jobs j (c c' : CronState C) :
  cron_ok c -> plain (jb_UserID j) -> AddJob j c = (Ok tt, c') -> cron_ok c' /\ sc_jobs c' = (sc_jobs c ++ [j])%list.
Proof.
  intros Hok Hp. unfold AddJob. destruct (negb _); [done|].
  destruct (sc_entryIDs c !! cronJobKey j) eqn:E; [done|].
  destruct (register_job j c) as [c1|] eqn:Er; [|done]. intros [= <-]. by apply (register_ok j c).
Qed.

Lemma remove_job_jobs u id (c : CronState C) :
  cron_ok c -> plain u -> (exists j, j ∈ sc_jobs c /\ is_job id u j = true) ->
  forall j, j ∈ sc_jobs (snd (RemoveJob u id c)) <-> j ∈ sc_jobs c /\ is_job id u j = false.
Proof.
  intros Hok Hu (j0 & Hj0 & Hid). apply is_job_key in Hid as [<- <-].
  destruct (co_registered _ Hok j0 Hj0) as [e He]. unfold RemoveJob.
  change (job_key (jb_UserID j0) (jb_ID j0)) with (cronJobKey j0). rewrite He. cbn [snd sc_jobs].
  intros j. rewrite (remove_first_spec _ _ _ (co_distinct _ Hok) (co_plain _ Hok) Hu).
  pose proof (co_plain _ Hok) as Hpl. rewrite list.Forall_forall in Hpl.
  split; intros [Hj Hne]; (split; [done|]).
  - apply not_true_is_false. intros [Hi Hs]%is_job_key. apply Hne. unfold cronJobKey. by rewrite Hi, Hs.
  - intros Hk. apply job_key_inj in Hk as [Hs Hi]; [|by apply Hpl|done].
    apply not_true_iff_false in Hne. apply Hne. by apply is_job_key.
Qed.

Lemma cron_effect_ok userID s s' :
  enabled = true -> api_ok s -> plain userID -> cron_effect userID s s' -> api_ok s'.
Proof.
  intros Hen Hok Hp He. destruct He as [|j c Hu Ha Hs|id Hr]; [done|..]; destruct Hok as [Kd Kc Kp Kj].
  - destruct (add_job_ok _ _ _ _ _ Ha (ok_cron _ Kd) (ok_cron_refs _ Kd)) as [Hn Hrefs].
    destruct (add_job_jobs j _ _ Kc ltac:(by rewrite Hu) Hs) as [Hc Hl].
    split; cbn [as_db as_cron set_cron set_db]; [by apply set_cron_ok|done|done|].
    intros x. cbn [t_cron Sqlite.set_cron]. rewrite Hl, in_app_iff, elem_of_app, Kj, list_elem_of_singleton. simpl.
    split; [intros [?|[<-|[]]]|intros [?| ->]]; auto.
  - assert (Ho : remove_job "cron job" id userID (t_cron (as_db s))
               = Ok (List.filter (fun x => negb (is_job id userID x)) (t_cron (as_db s))))
      by (unfold remove_job; by rewrite Hr).
    destruct (remove_job_ok _ _ _ _ _ _ Ho (ok_cron _ Kd) (ok_cron_refs _ Kd)) as [Hn Hrefs].
    rewrite Hen. split; cbn [as_db as_cron set_cron set_db]; [by apply set_cron_ok|by apply remove_ok|done|].
    intros x. cbn [t_cron Sqlite.set_cron]. rewrite remove_job_jobs; [|done..|].
    + rewrite filter_In, negb_true_iff, Kj. done.
    + apply existsb_exists in Hr as (x0 & Hx & Hid). exists x0. by rewrite <- Kj.
Qed.

Inductive cron_request := CronList (r : Request) | CronAdd (r : Request) | CronRemove (r : Request).

Definition cron_handle (q : cron_request) : State (ApiState C) (Response api_body) :=
  match q with
  | CronList r => Cron_HandleList r
  | CronAdd r => Cron_HandleAdd enabled r
  | CronRemove r => Cron_HandleRemove enabled r
  end.

Definition request_of (q : cron_request) : Request :=
  match q with CronList r | CronAdd r | CronRemove r => r end.

Lemma cron_handle_effect q s :
  snd (cron_handle q s) = s \/
  exists u, resolveAgentUser (request_of q) (as_db s) = Ok u /\ cron_effect u s (snd (cron_handle q s)).
Proof.
  destruct (resolveAgentUser (request_of q) (as_db s)) as [u|e] eqn:E.
  - right. exists u. split; [done|]. destruct q as [r|r|r]; simpl in *.
    + unfold Cron_HandleList. rewrite with_user_eq, E. apply cron_same.
    + by apply cron_add_effect.
    + by apply cron_remove_effect.
  - left. destruct q as [r|r|r]; simpl in *; unfold Cron_HandleList, Cron_HandleAdd, Cron_HandleRemove;
      by rewrite with_user_eq, E.
Qed.

Lemma cron_run_ok qs s :
  enabled = true -> api_ok s -> api_ok (fold_left (fun s q => snd (cron_handle q s)) qs s).
Proof.
  intros Hen. revert s. induction qs as [|q qs IH]; intros s Hok; [done|]. apply IH.
  destruct (cron_handle_effect q s) as [->|(u & Hu & He)]; [done|].
  apply (cron_effect_ok u s); [done..| |done].
  apply resolveAgentUser_entitled in Hu as (row & Hin & _ & _ & _ & <-). by apply Hok.
Qed.

(** the jobs stored are the jobs that fire: whatever sequence of requests
    agents make to list, add and remove recurring jobs, valid or not, the
    store's jobs stay exactly those with a live entry in the cron library; an
    addition the scheduler refuses is rolled back. *)
Lemma cron_api_consistent qs s :
  enabled = true -> api_ok s ->
  let s' := fold_left (fun s q => snd (cron_handle q s)) qs s in
  forall j, In j (t_cron (as_db s')) <-> exists id, cl_entry (sc_cron (as_cron s')) id = Some j.
Proof.
  intros Hen Hok s' j. pose proof (cron_run_ok qs s Hen Hok) as Hok'. fold s' in Hok'.
  rewrite (ak_jobs _ Hok'). split.
  - intros Hj. destruct (co_registered _ (ak_cron _ Hok') j Hj) as [id Hid].
    destruct (co_listed _ (ak_cron _ Hok') _ _ Hid) as (j' & Hj' & Hk & He). exists id.
    by rewrite <- (key_of_job j _ (co_distinct _ (ak_cron _ Hok')) Hj j' Hj' Hk).
  - intros [id He]. by apply (co_live _ (ak_cron _ Hok')) in He as [? _].
Qed.

End effects.

(** ** What a request may touch *)

Inductive api_request :=
| ReqCron (q : cron_request)
| ReqAtList (r : Request) | ReqAtAdd (r : Request) | ReqAtRemove (r : Request)
| ReqNotify (r : Request)
| ReqHealth (r : Request).

Definition api_request_of (q : api_request) : Request :=
  match q with
  | ReqCron q => request_of q
  | ReqAtList r | ReqAtAdd r | ReqAtRemove r | ReqNotify r | ReqHealth r => r
  end.

(** Another user's jobs. *)
Definition others_jobs (u : string) (l : list job) : list job :=
  List.filter (fun j => negb (jb_UserID j =? u)%string) l.

Lemma others_snoc u l j : jb_UserID j = u -> others_jobs u (l ++ [j]) = others_jobs u l.
Proof.
  intros Hj. unfold others_jobs. rewrite List.filter_app. simpl. by rewrite Hj, String.eqb_refl, app_nil_r.
Qed.

Lemma others_filter u id l :
  others_jobs u (List.filter (fun x => negb (is_job id u x)) l) = others_jobs u l.
Proof.
  unfold others_jobs, is_job. induction l as [|j l IH]; [done|]. simpl.
  destruct (jb_UserID j =? u)%string eqn:E.
  - rewrite andb_true_r. destruct (jb_ID j =? id)%string; simpl; [done|]. by rewrite E.
  - rewrite andb_false_r. simpl. rewrite E. simpl. by rewrite IH.
Qed.

Lemma others_remove_first u id l : others_jobs u (remove_first_job u id l) = others_jobs u l.
Proof.
  unfold others_jobs. induction l as [|j l IH]; [done|]. simpl.
  destruct (jb_UserID j =? u)%string eqn:E; simpl.
  - destruct (jb_ID j =? id)%string; [done|]. simpl. by rewrite E.
  - rewrite E. simpl. by rewrite IH.
Qed.

Lemma split_n2_sound s sep a b : split_n2 s sep = [a; b] -> s = a +:+ sep +:+ b.
Proof.
  unfold split_n2. destruct (str_cut sep s) as [[x y]|] eqn:E; [|done].
  intros [= -> ->]. by apply str_cut_sound.
Qed.

Section scope.

Context {C : Type} `{CronLib C}.
Context (now : Z) (enabled : bool) (has_adapter : ChannelType -> bool) (uuid : string).
Context (fold : Z -> Z) (has_heartbeat : bool).

Definition api_handle (q : api_request) : State (ApiState C) (Response api_body) :=
  match q with
  | ReqCron q => cron_handle enabled q
  | ReqAtList r => At_HandleList r
  | ReqAtAdd r => At_HandleAdd now enabled r
  | ReqAtRemove r => At_HandleRemove enabled r
  | ReqNotify r => Notify_Handle now has_adapter uuid r
  | ReqHealth r => Health_Handle now fold has_heartbeat r
  end.

(** The notice goes to an identity the user has on a channel the user may use. *)
Definition notice_of (u : string) (d : Db) (n : NipperResponse) : Prop :=
  rs_UserID n = u /\
  exists i, In i (t_identities d) /\ ir_user i = u /\ ir_channel i <> "cron" /\
    sql_IsAllowed u (ir_channel i) d = true /\
    rs_ChannelType n +:+ ":" +:+ dc_ChannelID (rs_DeliveryContext n) = ir_channel i +:+ ":" +:+ ir_identity i.

(** Only what belongs to [u] changed: its jobs, its notices, the heartbeats of
    its agents. *)
Record only_user (u : string) (s s' : ApiState C) : Prop := {
  ou_tables : Sqlite.set_at (fun _ => t_at (as_db s)) (Sqlite.set_cron (fun _ => t_cron (as_db s)) (as_db s')) = as_db s;
  ou_cron : others_jobs u (t_cron (as_db s')) = others_jobs u (t_cron (as_db s));
  ou_at : others_jobs u (t_at (as_db s')) = others_jobs u (t_at (as_db s));
  ou_sched : others_jobs u (sc_jobs (as_cron s')) = others_jobs u (sc_jobs (as_cron s));
  ou_armed : others_jobs u (at_jobs (as_at s')) = others_jobs u (at_jobs (as_at s));
  ou_sent : exists l, as_sent s' = (as_sent s ++ l)%list /\ Forall (notice_of u (as_db s)) l;
  ou_heart : forall a, as_heartbeats s' !! a = as_heartbeats s !! a \/
    exists e, as_heartbeats s' !! a = Some e /\ he_UserID e = u /\ he_AgentID e = a }.

Lemma only_user_refl u s : only_user u s s.
Proof.
  split; try done; [by destruct s as [[] ? ? ? ?]| |by left]. exists []. by rewrite app_nil_r.
Qed.

(** A change of the two job tables and of the schedulers only. *)
Lemma only_user_jobs u s c a tc ta :
  others_jobs u tc = others_jobs u (t_cron (as_db s)) -> others_jobs u ta = others_jobs u (t_at (as_db s)) ->
  others_jobs u (sc_jobs c) = others_jobs u (sc_jobs (as_cron s)) ->
  others_jobs u (at_jobs a) = others_jobs u (at_jobs (as_at s)) ->
  only_user u s (Build_ApiState (Sqlite.set_at (fun _ => ta) (Sqlite.set_cron (fun _ => tc) (as_db s))) c a
                   (as_heartbeats s) (as_sent s)).
Proof.
  intros. split; cbn; try done; [by destruct (as_db s)| |by left]. exists []. by rewrite app_nil_r.
Qed.
Lemma cron_effect_scope u s s' : cron_effect enabled u s s' -> only_user u s s'.
Proof.
  intros [|j c Hu _ Ha|id _]; [apply only_user_refl|..].
  - assert (Hs : exists l, sc_jobs c = l /\ others_jobs u l = others_jobs u (sc_jobs (as_cron s))).
    { revert Ha. unfold AddJob. destruct (negb _); [done|]. destruct (sc_entryIDs _ !! _); [done|].
      unfold register_job. destruct (cl_add _ _ _) as [[i c1]|]; [|done]. intros [= <-]. eexists.
      split; [done|]. by apply others_snoc. }
    destruct Hs as (l & <- & Hl).
    pose proof (only_user_jobs u s c (as_at s) (t_cron (as_db s) ++ [j]) (t_at (as_db s))) as Ho.
    rewrite others_snoc in Ho by done. specialize (Ho eq_refl eq_refl Hl eq_refl). destruct s as [[] ? ? ? ?]. apply Ho.
  - pose proof (only_user_jobs u s
      (if enabled then snd (RemoveJob u id (as_cron s)) else as_cron s) (as_at s)
      (List.filter (fun x => negb (is_job id u x)) (t_cron (as_db s))) (t_at (as_db s))) as Ho.
    rewrite others_filter in Ho. destruct s as [[] ? ? ? ?]. apply Ho; [done..| |done].
    destruct enabled; [|done]. unfold RemoveJob. cbn [as_cron].
    destruct (sc_entryIDs _ !! _); [|done]. apply others_remove_first.
Qed.

Lemma at_add_scope r u s :
  resolveAgentUser r (as_db s) = Ok u -> only_user u s (snd (At_HandleAdd now enabled r s)).
Proof.
  intros Hu. unfold At_HandleAdd. rewrite with_user_eq, Hu.
  destruct (add_body "run_at" r) as [body|]; [|apply only_user_refl].
  destruct (negb (body_complete body)); [apply only_user_refl|].
  destruct (trim_space (ar_Prompt body) =? "")%string; [apply only_user_refl|].
  destruct (parse_rfc3339 (ar_When body)) as [runAt|]; [|apply only_user_refl].
  destruct (time_before runAt now); [apply only_user_refl|].
  destruct (negb enabled); [apply only_user_refl|].
  unfold sbind at 1, sget. set (j := requested_job u body (as_db s)).
  assert (Hj : jb_UserID j = u) by done.
  unfold sbind at 1, on_db at 1, Sqlite.AddAtJob, store_jobs.
  destruct (add_job _ _ _ _) as [t|] eqn:Ea; [|cbn [sret snd]; destruct s; apply only_user_refl].
  destruct (job_rollback _ "at job" j _ _ _ Ea) as (-> & _ & Hr). rewrite Hj in Hr.
  unfold schedule_at, sbind, on_at. cbn [as_at set_db].
  destruct (AddAtJob j now (as_at s)) as [[[]|e] a] eqn:Es; cbn [snd].
  - pose proof (only_user_jobs u s (as_cron s) a (t_cron (as_db s)) (t_at (as_db s) ++ [j])) as Ho.
    rewrite others_snoc in Ho by done. specialize (Ho eq_refl eq_refl eq_refl).
    destruct s as [[] ? ? ? ?]. apply Ho. revert Es. unfold AddAtJob. destruct (negb _); [done|].
    destruct (parse_rfc3339 _) as [x|]; [|done]. destruct (time_before _ _); [done|].
    destruct (at_timers _ !! _); [done|]. intros [= <-]. by apply others_snoc.
  - assert (a = as_at s) as ->.
    { revert Es. unfold AddAtJob. destruct (negb _); [by intros [= _ <-]|].
      destruct (parse_rfc3339 _) as [x|]; [|by intros [= _ <-]]. destruct (time_before _ _); [by intros [= _ <-]|].
      destruct (at_timers _ !! _); [by intros [= _ <-]|done]. }
    unfold on_db, Sqlite.RemoveAtJob, store_jobs. cbn [as_db AgentApi.set_at set_db t_at Sqlite.set_at]. rewrite Hr.
    cbn [sret snd]. assert (Hs : forall s0, s0 = s -> only_user u s s0) by (intros ? ->; apply only_user_refl).
    apply Hs. by destruct s as [[] ? ? ? ?].
Qed.

Lemma at_remove_scope r u s :
  resolveAgentUser r (as_db s) = Ok u -> only_user u s (snd (At_HandleRemove enabled r s)).
Proof.
  intros Hu. unfold At_HandleRemove. rewrite with_user_eq, Hu. cbv zeta.
  destruct (rq_PathValue r "id" =? "")%string; [apply only_user_refl|].
  unfold sbind at 1, on_db at 1, Sqlite.RemoveAtJob, store_jobs, remove_job.
  destruct (existsb _ _) eqn:E; [|cbn [sret snd]; destruct s; apply only_user_refl].
  pose proof (only_user_jobs u s (as_cron s)
    (if enabled then snd (RemoveAtJob u (rq_PathValue r "id") (as_at s)) else as_at s) (t_cron (as_db s))
    (List.filter (fun x => negb (is_job (rq_PathValue r "id") u x)) (t_at (as_db s)))) as Ho.
  rewrite others_filter in Ho. specialize (Ho eq_refl eq_refl eq_refl).
  destruct s as [[] ? ? ? ?]. revert Ho. destruct enabled; unfold sbind, on_at, sret; cbn [as_at set_db snd as_db].
  - unfold RemoveAtJob. destruct (at_timers _ !! _); intros Ho; apply Ho; [apply others_remove_first|done].
  - intros Ho. by apply Ho.
Qed.

Lemma channels_notice u d t n :
  In t (resolveNotifyChannels u d) -> rs_UserID n = u ->
  t = rs_ChannelType n +:+ ":" +:+ dc_ChannelID (rs_DeliveryContext n) -> notice_of u d n.
Proof.
  unfold resolveNotifyChannels. intros (i & <- & Hin)%in_map_iff Hu He. split; [done|]. exists i.
  apply filter_In in Hin as [Hin Hc]. apply andb_true_iff in Hc as [Hc Ha].
  unfold ListIdentities in Hin. apply order_by_In, filter_In in Hin as [Hin Hi].
  apply negb_true_iff, String.eqb_neq in Hc. by apply String.eqb_eq in Hi.
Qed.

Lemma notify_loop u text ts (s : ApiState C) :
  exists l, snd (sfor (notify_one now has_adapter uuid u text) ts s)
              = Build_ApiState (as_db s) (as_cron s) (as_at s) (as_heartbeats s) (as_sent s ++ l)
    /\ forall n, In n l -> rs_UserID n = u /\
         In (rs_ChannelType n +:+ ":" +:+ dc_ChannelID (rs_DeliveryContext n)) ts.
Proof.
  revert s. induction ts as [|t ts IH]; intros s.
  - exists []. rewrite app_nil_r. by destruct s.
  - simpl. destruct (IH (snd (notify_one now has_adapter uuid u text t s))) as (l & -> & Hl). unfold notify_one.
    destruct (split_n2 t ":") as [|ct [|id [|]]] eqn:Et; try (exists l; split; [done|]; intros n Hn; split;
      [by apply Hl|right; by apply Hl]).
    destruct (has_adapter ct).
    + exists (notify_response now uuid u text ct id :: l). cbn. split; [by rewrite <- app_assoc|].
      apply split_n2_sound in Et. intros n [<-|Hn]; [by split; [|left]|split; [by apply Hl|right; by apply Hl]].
    + exists l. split; [done|]. intros n Hn. split; [by apply Hl|right; by apply Hl].
Qed.

Lemma notify_scope r u s :
  notify_resolveAgentUser r (as_db s) = Ok u -> only_user u s (snd (Notify_Handle now has_adapter uuid r s)).
Proof.
  intros Hu. unfold Notify_Handle. rewrite with_user_eq, Hu.
  destruct (rq_Body r) as [b|]; [|apply only_user_refl].
  destruct (decode_stream dec_message "" b) as [message [e|]]; [apply only_user_refl|].
  destruct (trim_space message =? "")%string; [apply only_user_refl|]. unfold sbind, sget.
  destruct (notify_loop u message (resolveNotifyChannels u (as_db s)) s) as (l & Hs & Hl).
  destruct (sfor _ _ s) as [[] s1]. simpl in Hs. subst s1. cbn [sret snd].
  split; try done; [by destruct (as_db s)| |by left]. exists l. split; [done|].
  apply List.Forall_forall. intros n Hn. destruct (Hl n Hn) as [Hn1 Hn2]. by eapply channels_notice.
Qed.

Lemma health_scope r (s : ApiState C) :
  snd (Health_Handle now fold has_heartbeat r s) = s \/
  exists row, In row (t_agents (as_db s)) /\ gr_hash row = sha256_hex (extractBearerToken r) /\
    extractBearerToken r <> "" /\ gr_status row <> AgentStatusRevoked /\
    only_user (gr_user row) s (snd (Health_Handle now fold has_heartbeat r s)).
Proof.
  unfold Health_Handle. destruct (String.eqb_spec (extractBearerToken r) "") as [|Ht]; [by left|].
  destruct (GetAgentByTokenHash (hashToken (extractBearerToken r)) (as_db s)) as [agent|] eqn:Ea;
    unfold sbind, sget; rewrite Ea; [|by left].
  destruct (String.eqb_spec (ag_Status agent) AgentStatusRevoked) as [|Hs]; [by left|]. right.
  apply GetAgentByTokenHash_row in Ea as (row & Hin & Hh & ->). exists row. do 4 (split; [done|]).
  destruct has_heartbeat; [cbn [smodify sret snd]|apply only_user_refl].
  split; cbn; try done; [by destruct (as_db s)|exists []; by rewrite app_nil_r|].
  intros a. destruct (decide (a = gr_id row)) as [->|Hne]; [right|left; by apply lookup_insert_ne].
  eexists. split; [by apply lookup_insert_eq|done].
Qed.

(** C32: An agent acts for its own user only.  Any request to these endpoints
    either changes nothing, or carries the token of an agent that is not
    revoked and changes only what belongs to that agent's user [u]: the jobs of
    other users in the store and in the schedulers, and every other table, stay
    as they were; every notice sent goes to an identity of [u] on a channel [u]
    may use; only heartbeats of agents of [u] change. *)
Theorem agent_api_scoped q s :
  let s' := snd (api_handle q s) in
  s' = s \/
  exists row, In row (t_agents (as_db s)) /\ gr_hash row = sha256_hex (extractBearerToken (api_request_of q)) /\
    extractBearerToken (api_request_of q) <> "" /\ gr_status row <> AgentStatusRevoked /\
    only_user (gr_user row) s s'.
Proof.
  assert (Hent : forall r u s', entitled r (as_db s) u -> only_user u s s' ->
    exists row, In row (t_agents (as_db s)) /\ gr_hash row = sha256_hex (extractBearerToken r) /\
      extractBearerToken r <> "" /\ gr_status row <> AgentStatusRevoked /\ only_user (gr_user row) s s').
  { intros r u s' (row & Hin & Hh & Ht & Hs & <-) Ho. exists row. do 3 (split; [done|]). split; [|done].
    by destruct Hs as [-> | ->]. }
  destruct q as [q|r|r|r|r|r]; cbn [api_handle api_request_of].
  - destruct (cron_handle_effect enabled q s) as [?|(u & Hu & He)]; [by left|right].
    apply (Hent _ u); [by apply resolveAgentUser_entitled|by apply cron_effect_scope].
  - left. unfold At_HandleList. rewrite with_user_eq. by destruct (resolveAgentUser r _).
  - destruct (resolveAgentUser r (as_db s)) as [u|e] eqn:E.
    + right. apply (Hent _ u); [by apply resolveAgentUser_entitled|by apply at_add_scope].
    + left. unfold At_HandleAdd. by rewrite with_user_eq, E.
  - destruct (resolveAgentUser r (as_db s)) as [u|e] eqn:E.
    + right. apply (Hent _ u); [by apply resolveAgentUser_entitled|by apply at_remove_scope].
    + left. unfold At_HandleRemove. by rewrite with_user_eq, E.
  - destruct (notify_resolveAgentUser r (as_db s)) as [u|e] eqn:E.
    + right. apply (Hent _ u); [by apply notify_resolve_entitled|by apply notify_scope].
    + left. unfold Notify_Handle. by rewrite with_user_eq, E.
  - apply health_scope.
Qed.

End scope.

(** ** An agent's requests *)

#[local] Existing Instance Scheduler.list_cron.

Definition demo_api : ApiState (nat * gmap nat job) :=
  Build_ApiState (snd (AddIdentity 2 "u1" "slack" "U07" (snd (SetAllowed 2 "u1" "slack" true "admin" demo_agents))))
    NewCron NewAt ∅ [].

Definition api_request_with (body : string) (id : string) : Request :=
  Build_Request "POST" {[ "Authorization" := ["Bearer npr-t0ken"] ]} (Some body) "10.0.0.9:5000"
    (fun k => if (k =? "id")%string then id else "") (fun _ => "").

Definition demo_cron_requests : list cron_request :=
  [CronAdd (api_request_with (json_text "{'id':'a','schedule':'@daily','prompt':'hi'}") "");
   CronAdd (api_request_with (json_text "{'id':'b','schedule':'bad','prompt':'hi'}") "");
   CronAdd (api_request_with (json_text "{'id':'c','schedule':'@hourly','prompt':'ho'}") "");
   CronAdd (api_request_with (json_text "{'id':'c','schedule':'@daily','prompt':'ho'}") "");
   CronRemove (api_request_with "" "a")].

Lemma demo_api_ok : api_ok demo_api.
Proof.
  split.
  - split; try (apply (bool_decide_unpack _); vm_compute; exact I);
      intros r Hin; simpl in Hin; repeat destruct Hin as [<-|Hin]; try reflexivity; done.
  - split; cbn; try constructor; intros; try set_solver; by rewrite ?lookup_empty in *.
  - intros row Hin. simpl in Hin. destruct Hin as [<-|[]]. reflexivity.
  - intros j. simpl. split; [done|set_solver].
Qed.

Lemma cron_api_consistent_witness :
  let s' := fold_left (fun s q => snd (cron_handle true q s)) demo_cron_requests demo_api in
  map (fun j => (jb_ID j, jb_NotifyChannels j)) (t_cron (as_db s')) = [("c", ["slack:U07"])]
  /\ forall j, In j (t_cron (as_db s')) <-> exists id, cl_entry (sc_cron (as_cron s')) id = Some j.
Proof.
  intros s'. split; [vm_compute; reflexivity|].
  apply (cron_api_consistent true demo_cron_requests demo_api); [reflexivity|apply demo_api_ok].
Defined.

(** The requests of the theorem run one after the other.  When a removal runs
    between the two halves of an addition, the store has no such job but the
    scheduler fires it. *)
Example cron_add_remove_race :
  let j := Build_job "a" "u1" "@daily" "hi" [] in
  let s1 := snd (on_db (Sqlite.AddCronJob j) demo_api) in
  let s2 := snd (cron_handle true (CronRemove (api_request_with "" "a")) s1) in
  let s3 := snd (schedule_cron "u1" j s2) in
  t_cron (as_db s3) = [] /\ sc_jobs (as_cron s3) = [j].
Proof. vm_compute. done. Qed.

Example notify_demo :
  let '(resp, s') := Notify_Handle 7 (fun _ => true) "id-1" (api_request_with (json_text "{'message':'hello'}") "") demo_api in
  rp_Status resp = 200 /\ map (fun n => (rs_ChannelType n, dc_ChannelID (rs_DeliveryContext n), rs_Text n)) (as_sent s')
                          = [("slack", "U07", "hello")].
Proof. vm_compute. done. Qed.
