(* ===== verification/JobTools.v ===== *)
(** * The gateway's server (gateway/server.go) and the agent's job tools (agent/tools/cron.go, at.go)

    First the requests that reach each handler, and where the server listens; the
    handlers are in [Webhook], [Register] and [AgentApi], the router is a third
    party's and a parameter.  The tools ask the gateway over HTTP: the section
    [tools] has them over any gateway, and the section [composition] puts the handlers of [AgentApi] behind
    the requests.  [job_tools_faithful] says that a tool reports a job as added
    exactly when the gateway has stored it as it was asked for. *)
From Stdlib Require Import ZArith Lia Bool Ascii String List.
From stdpp Require Import base strings option list gmap fin_maps.
From S2P Require Import Prelude GoString GoTime GoJson GoJsonParse GoJsonProofs Sha256 Http SessionKey Models Repo.
From S2P Require Import Sqlite SqliteProofs Register Scheduler AgentApi.

Local Open Scope string_scope.
Local Open Scope Z_scope.

Inductive route_handler :=
| RMetrics | RWebhookWhatsApp | RWebhookSlack | RRegister | RAgentHealth
| RCronList | RCronAdd | RCronRemove | RAtList | RAtAdd | RAtRemove | RNotify | RHealth.

#[export] Instance route_handler_eq_dec : EqDecision route_handler.
Proof. solve_decision. Defined.

(** What the server is built with: a dependency that is absent has no routes. *)
Record ServerDeps := {
  sd_whatsapp : bool; sd_slack : bool; sd_register : bool; sd_health : bool; sd_cron : bool; sd_at : bool;
  sd_notify : bool; sd_metrics : bool }.

(** A pattern, a method and a handler. *)
Record route := { rt_pattern : string; rt_method : string; rt_handler : route_handler }.

Definition cron_path : string := "/agents/me/cron/jobs".
Definition at_path : string := "/agents/me/at/jobs".

Definition job_routes (path : string) (rl add remove : route_handler) : list route :=
  [Build_route path "GET" rl; Build_route path "POST" add; Build_route (path +:+ "/{id}") "DELETE" remove].

Definition when (b : bool) (l : list route) : list route := if b then l else [].

Definition registerRoutes (d : ServerDeps) : list route :=
  (when (sd_whatsapp d) [Build_route "/webhook/whatsapp" "POST" RWebhookWhatsApp]
   ++ when (sd_slack d) [Build_route "/webhook/slack" "POST" RWebhookSlack]
   ++ when (sd_register d) [Build_route "/agents/register" "POST" RRegister]
   ++ when (sd_health d) [Build_route "/agents/health" "POST" RAgentHealth]
   ++ when (sd_cron d) (job_routes cron_path RCronList RCronAdd RCronRemove)
   ++ when (sd_at d) (job_routes at_path RAtList RAtAdd RAtRemove)
   ++ when (sd_notify d) [Build_route "/agents/me/notify" "POST" RNotify]
   ++ [Build_route "/health" "GET" RHealth])%list.

(** The routes of [NewServer]. *)
Definition server_routes (d : ServerDeps) : list route :=
  (when (sd_metrics d) [Build_route "/metrics" "GET" RMetrics] ++ registerRoutes d)%list.

(** Address, read and write time limit; the settings are 0 or empty when absent. *)
Record http_server := { hs_Addr : string; hs_ReadTimeout : Z; hs_WriteTimeout : Z }.

Definition seconds_or (default : Z) (n : Z) : Z :=
  if 0 <? n then int64 (n * time_second) else default * time_second.

Definition NewServer (bind : string) (port readTimeout writeTimeout : Z) : http_server :=
  Build_http_server
    ((if (bind =? "")%string then "127.0.0.1" else bind) +:+ ":" +:+ fmt_d (if 0 <? port then port else 18789))
    (seconds_or 30 readTimeout) (seconds_or 30 writeTimeout).

Definition handleHealth : Response string :=
  Build_Response StatusOK (Some (encode_json (VObj [("ok", VBool true); ("status", VStr "healthy")]) +:+ String "010" "")).

(** Two routes never compete: a pattern with its method has one handler. *)
Lemma routes_distinct d : NoDup (map (fun r => (rt_pattern r, rt_method r)) (server_routes d)).
Proof.
  destruct d as [[] [] [] [] [] [] [] []]; apply (bool_decide_unpack _); vm_compute; exact I.
Qed.

Local Open Scope reader_scope.

(** ** Requests *)

Record http_call := { hc_Method : string; hc_URL : string; hc_Header : Header; hc_Body : option string }.

(** What [client.Do] and the reading of the body give. *)
Record http_reply := { hr_Status : Z; hr_Body : result string string }.

(** [url.PathEscape]. *)
Definition path_unescaped (c : ascii) : bool :=
  is_alnum (byte_of c) || existsb (Ascii.eqb c) ["-"; "_"; "."; "~"; "$"; "&"; "+"; ":"; "="; "@"]%char.
Definition upper_hex (n : Z) : ascii := of_byte (if n <? 10 then 48 + n else 55 + n).
Fixpoint PathEscape (s : string) : string :=
  match s with
  | EmptyString => ""
  | String c s =>
      (if path_unescaped c then String c ""
       else String "%" (String (upper_hex (byte_of c / 16)) (String (upper_hex (byte_of c mod 16)) ""))) +:+ PathEscape s
  end.

Record JobItem := { it_ID : string; it_When : string; it_UserID : string; it_Prompt : string }.
Definition zero_item : JobItem := Build_JobItem "" "" "" "".

Definition dec_item (when : string) : decoder JobItem := dec_struct (fun x =>
  let f {B} := @field B ["id"; when; "user_id"; "prompt"] in
  Build_JobItem
    <$$> f "id" dec_string (it_ID x)
    <*> f when dec_string (it_When x)
    <*> f "user_id" dec_string (it_UserID x)
    <*> f "prompt" dec_string (it_Prompt x)).

Record gateway_response (R : Type) := { gr_OK : bool; gr_Result : R; gr_Error : string }.
Arguments Build_gateway_response {R}. Arguments gr_OK {R}. Arguments gr_Result {R}. Arguments gr_Error {R}.

Definition dec_gateway {R} (zero : R) (dec : decoder R) : decoder (gateway_response R) := dec_struct (fun x =>
  let f {B} := @field B ["ok"; "result"; "error"] in
  Build_gateway_response
    <$$> f "ok" dec_bool (gr_OK x)
    <*> f "result" dec (gr_Result x)
    <*> f "error" dec_string (gr_Error x)).

Definition gatewayListResponse (when : string) (body : string) : gateway_response (list JobItem) * option json_error :=
  decode_stream (dec_gateway [] (dec_slice zero_item (dec_item when))) (Build_gateway_response false [] "") body.
Definition gatewayAddResponse (when : string) (body : string) : gateway_response (option JobItem) * option json_error :=
  decode_stream (dec_gateway None (dec_ptr zero_item (dec_item when))) (Build_gateway_response false None "") body.

(** Decoding into a [json.Number]: a number, or a string that is one. *)
Definition dec_number : decoder unit := fun v _ =>
  match v with VNum _ => (tt, false) | VNull => (tt, false) | VStr s => (tt, negb (is_number s)) | _ => (tt, true) end.
Definition bare_number (body : string) : bool :=
  match decode_stream dec_number tt body with (_, None) => true | _ => false end.

Definition dec_error : decoder string := dec_struct (fun x => field ["error"] "error" dec_string x).

(** The outcomes of the tools. *)
Record JobListResult := { jl_Jobs : list JobItem; jl_Count : Z }.
Record JobResult := { jr_Success : bool; jr_Message : string }.

Definition cronTimeout : Z := 15 * time_second.

Record cronClient := { cc_baseURL : string; cc_authToken : string; cc_userID : string }.

Section tools.
(** The environment, the session's user in the context, the quoting of package fmt,
    and the errors of [http.NewRequest]. *)
Context (env : string -> option string) (ctx_user : string) (printable : Z -> bool) (bad_url : string -> option string).
(** The gateway and the network: [Err] when no response comes. *)
Context {S : Type} (send : http_call -> State S (result string http_reply)).

Abbreviation M := (State S).

Definition getenv (key : string) : string := default "" (env key).

Definition newCronClient : result string cronClient :=
  let baseURL := getenv "NIPPER_GATEWAY_URL" in
  let authToken := getenv "NIPPER_AUTH_TOKEN" in
  if (baseURL =? "")%string then Err "NIPPER_GATEWAY_URL is not set"
  else if (authToken =? "")%string then Err "NIPPER_AUTH_TOKEN is not set"
  else Ok (Build_cronClient baseURL authToken ctx_user).

(** [newAtClient] has the same. *)
Definition newAtClient : result string cronClient := newCronClient.

Definition setCronHeaders (c : cronClient) (h : Header) : Header :=
  let h := <["Authorization" := ["Bearer " +:+ cc_authToken c]]> h in
  if (cc_userID c =? "")%string then h else <["X-Nipper-User-Id" := [cc_userID c]]> h.

(** A request and its response, with its status. *)
Definition exchange {A} (client : result string cronClient) (method path : string) (body : option string)
    (k : http_reply -> result string A) : M (result string A) :=
  match client with
  | Err e => sret (Err e)
  | Ok c =>
      let url := cc_baseURL c +:+ path in
      match bad_url url with
      | Some e => sret (Err e)
      | None =>
          let h := setCronHeaders c ∅ in
          let h := match body with Some _ => <["Content-Type" := ["application/json"]]> h | None => h end in
          sbind (send (Build_http_call method url h body)) (fun r =>
          sret match r with Err e => Err ("request failed: " +:+ e) | Ok resp => k resp end)
      end
  end.

(** A list; [numbers]: a bare number is an empty one. *)
Definition exec_list (client : result string cronClient) (path when : string) (numbers : bool) : M (result string JobListResult) :=
  exchange client "GET" path None (fun resp =>
    match hr_Body resp with
    | Err e => Err ("read response: " +:+ e)
    | Ok text =>
        match gatewayListResponse when text with
        | (_, Some _) =>
            if numbers && bare_number text then Ok (Build_JobListResult [] 0) else Err "decode response"
        | (body, None) =>
            if gr_OK body then Ok (Build_JobListResult (gr_Result body) (Z.of_nat (length (gr_Result body))))
            else if (hr_Status resp =? StatusUnauthorized) || (hr_Status resp =? StatusForbidden)
            then Err ("gateway auth failed: " +:+ gr_Error body)
            else Err ("gateway returned: " +:+ gr_Error body)
        end
    end).

Definition exec_add (client : result string cronClient) (path when : string) (id at_ prompt : string) (done_ : string)
    : M (result string JobResult) :=
  if (id =? "")%string || (at_ =? "")%string || (prompt =? "")%string
  then sret (Ok (Build_JobResult false ("id, " +:+ when +:+ ", and prompt are required")))
  else
    (* [json.Marshal] of a map: the keys in order, "id", "prompt" and then [when]. *)
    let body := VObj [("id", VStr id); ("prompt", VStr prompt); (when, VStr at_)] in
    exchange client "POST" path (Some (encode_json body)) (fun resp =>
      match hr_Body resp with
      | Err e => Err ("read response: " +:+ e)
      | Ok text =>
          match gatewayAddResponse when text with
          | (_, Some _) => if bare_number text then Ok (Build_JobResult true done_) else Err "decode response"
          | (res, None) => Ok (if gr_OK res then Build_JobResult true done_ else Build_JobResult false (gr_Error res))
          end
      end).

Definition exec_remove (client : result string cronClient) (path id : string) (done_ : string) : M (result string JobResult) :=
  if (id =? "")%string then sret (Ok (Build_JobResult false "id is required"))
  else
    exchange client "DELETE" (path +:+ "/" +:+ PathEscape id) None (fun resp =>
      if (hr_Status resp =? StatusNoContent) || (hr_Status resp =? StatusOK) then Ok (Build_JobResult true done_)
      else
        let text := match hr_Body resp with Ok text => text | Err _ => "" end in
        match decode_stream dec_error "" text with
        | (e, None) => if (e =? "")%string then Ok (Build_JobResult false "job not found or not owned by user")
                       else Ok (Build_JobResult false e)
        | (_, Some _) => Ok (Build_JobResult false "job not found or not owned by user")
        end).

Definition ExecCronListJobs : M (result string JobListResult) := exec_list newCronClient cron_path "schedule" true.
Definition ExecCronAddJob (id schedule prompt : string) : M (result string JobResult) :=
  exec_add newCronClient cron_path "schedule" id schedule prompt
    ("Cron job " +:+ go_quote printable id +:+ " added. Schedule: " +:+ schedule).
Definition ExecCronRemoveJob (id : string) : M (result string JobResult) :=
  exec_remove newCronClient cron_path id ("Cron job " +:+ go_quote printable id +:+ " removed.").

Definition ExecAtListJobs : M (result string JobListResult) := exec_list newAtClient at_path "run_at" false.
Definition ExecAtAddJob (id runAt prompt : string) : M (result string JobResult) :=
  exec_add newAtClient at_path "run_at" id runAt prompt ("AT job " +:+ go_quote printable id +:+ " scheduled for " +:+ runAt).
Definition ExecAtRemoveJob (id : string) : M (result string JobResult) :=
  exec_remove newAtClient at_path id ("AT job " +:+ go_quote printable id +:+ " removed.").
End tools.

(** ** The gateway behind the requests *)

(** [cronAddResponse], [cronListResponse] and those of the one-shot jobs. *)
Definition job_json (when : string) (j : job) : json :=
  VObj ([("id", VStr (jb_ID j)); (when, VStr (jb_when j)); ("user_id", VStr (jb_UserID j)); ("prompt", VStr (jb_Prompt j))]
        ++ match jb_NotifyChannels j with [] => [] | l => [("notify_channels", VArr (map VStr l))] end).

Definition response_json (when : string) (b : api_body) : json :=
  match b with
  | ApiError e => VObj ([("ok", VBool false)] ++ (if (e =? "")%string then [] else [("error", VStr e)]))
  | ApiOK => VObj [("ok", VBool true)]
  | ApiJobs [] => VObj [("ok", VBool true)]
  | ApiJobs l => VObj [("ok", VBool true); ("result", VArr (map (job_json when) l))]
  | ApiJob j => VObj [("ok", VBool true); ("result", job_json when j)]
  end.

Definition written (when : string) (resp : Response api_body) : http_reply :=
  Build_http_reply (rp_Status resp)
    (Ok match rp_Body resp with Some b => encode_json (response_json when b) | None => "" end).

Section composition.
Context {C : Type} `{CronLib C}.
Context (now : Z) (enabled : bool).
(** The router: the handler of a path with its variables. *)
Context (mux : list route -> string -> string -> option (route_handler * (string -> string))).
Context (deps : ServerDeps) (base : string).

(** The handlers of the jobs; the others have states of their own. *)
Definition job_handler (h : route_handler) : option (string * (Request -> State (ApiState C) (Response api_body))) :=
  match h with
  | RCronList => Some ("schedule", Cron_HandleList)
  | RCronAdd => Some ("schedule", Cron_HandleAdd enabled)
  | RCronRemove => Some ("schedule", Cron_HandleRemove enabled)
  | RAtList => Some ("run_at", At_HandleList)
  | RAtAdd => Some ("run_at", At_HandleAdd now enabled)
  | RAtRemove => Some ("run_at", At_HandleRemove enabled)
  | _ => None
  end.

Definition request_of (q : http_call) (vars : string -> string) : Request :=
  Build_Request (hc_Method q) (hc_Header q) (Some (default "" (hc_Body q))) "" vars (fun _ => "").

Definition serve (q : http_call) : State (ApiState C) (result string http_reply) :=
  match strip_prefix base (hc_URL q) with
  | None => sret (Err "no such host")
  | Some path =>
      match mux (server_routes deps) (hc_Method q) path with
      | None => sret (Ok (Build_http_reply StatusNotFound (Ok "404 page not found")))
      | Some (h, vars) =>
          match job_handler h with
          | Some (when, handle) => sbind (handle (request_of q vars)) (fun resp => sret (Ok (written when resp)))
          | None => sret (Err "not a job route")
          end
      end
  end.
End composition.

(** ** What a request and a response mean to the other side *)

Lemma add_body_read when id at_ prompt r :
  In when ["schedule"; "run_at"] ->
  rq_Body r = Some (encode_json (VObj [("id", VStr id); ("prompt", VStr prompt); (when, VStr at_)])) ->
  add_body when r = Ok (Build_addRequest (valid_utf8 id) (valid_utf8 at_) (valid_utf8 prompt)).
Proof.
  intros Hw Hb. unfold add_body. rewrite Hb.
  rewrite (decode_exact (dec_add when) zero_add _ (Build_addRequest (valid_utf8 id) (valid_utf8 at_) (valid_utf8 prompt))); [done|done|].
  cbn [valid_json map fst snd]. unfold dec_add, dec_struct. destruct Hw as [<-|[<-|[]]]; member_names; read_struct.
Qed.

Lemma job_encodable when j : encodable (job_json when j) = true.
Proof.
  unfold job_json. cbn [encodable]. rewrite forallb_app. apply andb_true_iff. split; [done|].
  destruct (jb_NotifyChannels j) as [|x l]; [done|]. cbn [forallb snd encodable]. rewrite andb_true_r.
  induction (x :: l) as [|y l' IH]; [done|]. exact IH.
Qed.

Lemma dec_item_job when j : In when ["schedule"; "run_at"] ->
  dec_item when (valid_json (job_json when j)) zero_item =
  (Build_JobItem (valid_utf8 (jb_ID j)) (valid_utf8 (jb_when j)) (valid_utf8 (jb_UserID j)) (valid_utf8 (jb_Prompt j)), false).
Proof.
  intros Hw. unfold job_json. cbn [valid_json]. rewrite map_app. cbn [map fst snd valid_json]. unfold dec_item, dec_struct.
  destruct Hw as [<-|[<-|[]]]; destruct (jb_NotifyChannels j) as [|x l]; cbn [map valid_json fst snd]; member_names; read_struct.
Qed.

Lemma add_response_job when j : In when ["schedule"; "run_at"] ->
  exists item, gatewayAddResponse when (encode_json (response_json when (ApiJob j))) = (Build_gateway_response true item "", None).
Proof.
  intros Hw. eexists. unfold gatewayAddResponse. apply decode_exact.
  - cbn [response_json encodable forallb snd]. by rewrite job_encodable.
  - cbn [response_json valid_json map fst snd]. member_names. unfold dec_gateway, dec_struct at 1. read_struct.
    apply dec_ptr_reads; [done|]. by apply dec_item_job.
Qed.

Lemma add_response_error when e :
  gatewayAddResponse when (encode_json (response_json when (ApiError e))) = (Build_gateway_response false None (valid_utf8 e), None).
Proof.
  unfold gatewayAddResponse. apply decode_exact; unfold response_json; destruct (String.eqb_spec e "") as [->|]; try done;
    cbn [valid_json map fst snd app]; member_names; unfold dec_gateway, dec_struct at 1; read_struct.
Qed.

(** ** What an addition does *)

Section additions.
Context {C : Type} `{CronLib C}.
Context (now : Z) (enabled : bool).

(** The answer of the gateway and the jobs it keeps: one more, or the same. *)
Definition add_outcome (table : Db -> list job) (body : addRequest) (r : Request) (s : ApiState C)
    (resp : Response api_body) (s' : ApiState C) : Prop :=
  (exists u, resolveAgentUser r (as_db s) = Ok u
     /\ (exists j, resp = Build_Response StatusCreated (Some (ApiJob j)))
     /\ table (as_db s') = (table (as_db s) ++ [requested_job u body (as_db s)])%list)
  \/ (exists code e, resp = Build_Response code (Some (ApiError e)) /\ table (as_db s') = table (as_db s)).

Lemma refused table body r s code e : add_outcome table body r s (reply code (ApiError e)) s.
Proof. right. by exists code, e. Qed.

Lemma cron_add_outcome r s body : add_body "schedule" r = Ok body ->
  add_outcome t_cron body r s (fst (Cron_HandleAdd enabled r s)) (snd (Cron_HandleAdd enabled r s)).
Proof.
  intros Hb. unfold Cron_HandleAdd. rewrite with_user_eq. destruct (resolveAgentUser r (as_db s)) as [u|e] eqn:Hu; [|apply refused].
  rewrite Hb. destruct (negb (body_complete body)); [apply refused|].
  destruct (trim_space (ar_Prompt body) =? "")%string; [apply refused|]. destruct (negb enabled); [apply refused|].
  unfold sbind at 1 3, sget. set (j := requested_job u body (as_db s)). unfold sbind at 1 2, on_db at 1 2, Sqlite.AddCronJob, store_jobs.
  destruct (add_job _ _ _ _) as [t|] eqn:Ea.
  2: { destruct s. right. by eexists _, _. }
  destruct (job_rollback _ "cron job" j _ _ _ Ea) as (-> & _ & Hr). change (jb_UserID j) with u in Hr.
  unfold schedule_cron, sbind, on_cron. cbn [as_cron set_db].
  destruct (AddJob j (as_cron s)) as [[[]|e] c]; cbn [fst snd sret].
  - left. exists u. split; [done|]. split; [by eexists|done].
  - right. unfold on_db, RemoveCronJob, store_jobs. cbn [as_db AgentApi.set_cron set_db t_cron Sqlite.set_cron]. rewrite Hr. by eexists _, _.
Qed.

Lemma at_add_outcome r s body : add_body "run_at" r = Ok body ->
  add_outcome t_at body r s (fst (At_HandleAdd now enabled r s)) (snd (At_HandleAdd now enabled r s)).
Proof.
  intros Hb. unfold At_HandleAdd. rewrite with_user_eq. destruct (resolveAgentUser r (as_db s)) as [u|e] eqn:Hu; [|apply refused].
  rewrite Hb. destruct (negb (body_complete body)); [apply refused|].
  destruct (trim_space (ar_Prompt body) =? "")%string; [apply refused|].
  destruct (parse_rfc3339 (ar_When body)) as [runAt|]; [|apply refused]. destruct (time_before runAt now); [apply refused|].
  destruct (negb enabled); [apply refused|].
  unfold sbind at 1 3, sget. set (j := requested_job u body (as_db s)). unfold sbind at 1 2, on_db at 1 2, Sqlite.AddAtJob, store_jobs.
  destruct (add_job _ _ _ _) as [t|] eqn:Ea.
  2: { destruct s. right. by eexists _, _. }
  destruct (job_rollback _ "at job" j _ _ _ Ea) as (-> & _ & Hr). change (jb_UserID j) with u in Hr.
  unfold schedule_at, sbind, on_at. cbn [as_at set_db].
  destruct (AddAtJob j now (as_at s)) as [[[]|e] a]; cbn [fst snd sret].
  - left. exists u. split; [done|]. split; [by eexists|done].
  - right. unfold on_db, Sqlite.RemoveAtJob, store_jobs. cbn [as_db AgentApi.set_at set_db t_at Sqlite.set_at]. rewrite Hr. by eexists _, _.
Qed.

(** What is asked for is stored for the user of the agent, or nothing is. *)
Definition faithful (table : Db -> list job) (ctx_user token id at_ prompt : string) (s : ApiState C)
    (out : result string JobResult * ApiState C) : Prop :=
  (exists u msg, out.1 = Ok (Build_JobResult true msg)
     /\ (exists row, In row (t_agents (as_db s)) /\ gr_hash row = sha256_hex (trim_space token) /\ gr_user row = u)
     /\ (trim_space ctx_user <> "" -> u = trim_space ctx_user)
     /\ table (as_db out.2) = (table (as_db s) ++
          [Build_job (valid_utf8 id) u (valid_utf8 at_) (valid_utf8 prompt) (resolveNotifyChannels u (as_db s))])%list)
  \/ (exists msg, out.1 = Ok (Build_JobResult false msg) /\ table (as_db out.2) = table (as_db s)).
End additions.

Section faithful.
Context {C : Type} `{CronLib C}.
Context (now : Z) (enabled : bool).
Context (mux : list route -> string -> string -> option (route_handler * (string -> string))).
Context (deps : ServerDeps).
Context (env : string -> option string) (ctx_user : string) (printable : Z -> bool) (bad_url : string -> option string).

Abbreviation base := (getenv env "NIPPER_GATEWAY_URL").
Abbreviation token := (getenv env "NIPPER_AUTH_TOKEN").
Abbreviation gateway := (serve now enabled mux deps base).

(** The headers of an addition name the token and, when there is one, the user. *)
Definition add_headers : Header :=
  <["Content-Type" := ["application/json"]]> (setCronHeaders (Build_cronClient base token ctx_user) ∅).

Lemma add_headers_auth : header_get add_headers "Authorization" = "Bearer " +:+ token.
Proof.
  unfold add_headers, setCronHeaders, header_get. cbn [cc_authToken cc_userID].
  rewrite lookup_insert_ne by done. destruct (ctx_user =? "")%string; [|rewrite lookup_insert_ne by done]; by rewrite lookup_insert_eq.
Qed.

Lemma add_headers_user : header_get add_headers "X-Nipper-User-Id" = ctx_user.
Proof.
  unfold add_headers, setCronHeaders, header_get. cbn [cc_authToken cc_userID]. rewrite lookup_insert_ne by done.
  destruct (String.eqb_spec ctx_user "") as [->|]; [by rewrite lookup_insert_ne, lookup_empty by done|by rewrite lookup_insert_eq].
Qed.

Lemma resolved_user r d u : rq_Header r = add_headers -> resolveAgentUser r d = Ok u ->
  (exists row, In row (t_agents d) /\ gr_hash row = sha256_hex (trim_space token) /\ gr_user row = u)
  /\ (trim_space ctx_user <> "" -> u = trim_space ctx_user).
Proof.
  intros Hh Hu. split.
  - apply resolveAgentUser_entitled in Hu as (row & Hin & Hhash & _ & _ & Hu). exists row. split_and!; [done| |done].
    rewrite Hhash. unfold extractBearerToken. rewrite Hh, add_headers_auth. by rewrite strip_prefix_app.
  - intros Hc. unfold resolveAgentUser in Hu. rewrite Hh, add_headers_user in Hu. destruct (_ =? "")%string; [done|].
    destruct (GetAgentByTokenHash _ d) as [agent|]; [|done]. destruct (negb (agent_active agent)); [done|].
    destruct (String.eqb_spec (trim_space ctx_user) "") as [|_]; [done|]. cbn [negb] in Hu.
    destruct (negb _); [done|]. by injection Hu as <-.
Qed.

Lemma add_faithful path when h handle table vars id at_ prompt done_ s :
  In when ["schedule"; "run_at"] ->
  base <> "" -> token <> "" -> bad_url (base +:+ path) = None -> mux (server_routes deps) "POST" path = Some (h, vars) ->
  job_handler now enabled h = Some (when, handle) ->
  (forall r body, add_body when r = Ok body -> add_outcome table body r s (fst (handle r s)) (snd (handle r s))) ->
  faithful table ctx_user token id at_ prompt s
    (exec_add bad_url gateway (newCronClient env ctx_user) path when id at_ prompt done_ s).
Proof.
  intros Hw Hb Ht Hurl Hmux Hh Hout. unfold exec_add. destruct (_ || _ || _); [right; by eexists|].
  unfold exchange, newCronClient. fold base token.
  rewrite (proj2 (String.eqb_neq _ _) Hb), (proj2 (String.eqb_neq _ _) Ht). cbn [cc_baseURL]. rewrite Hurl.
  fold add_headers. set (text := encode_json _). unfold sbind at 1, serve. cbn [hc_URL hc_Method]. rewrite strip_prefix_app, Hmux, Hh.
  set (r := request_of _ vars).
  assert (Hr : add_body when r = Ok (Build_addRequest (valid_utf8 id) (valid_utf8 at_) (valid_utf8 prompt)))
    by (by apply add_body_read).
  specialize (Hout r _ Hr). unfold sbind at 1. destruct (handle r s) as [resp s']. cbn [fst snd] in Hout.
  unfold sret, faithful. cbn [fst snd written hr_Body hr_Status].
  destruct Hout as [(u & Hu & (j & ->) & Ht')|(code & e & -> & Ht')]; cbn [rp_Body rp_Status].
  - left. destruct (add_response_job when j Hw) as [item ->]. exists u, done_. split; [done|].
    destruct (resolved_user r (as_db s) u eq_refl Hu) as [H1 H2]. split_and!; [exact H1|exact H2|exact Ht'].
  - right. rewrite add_response_error. eexists. by split.
Qed.

(** C3: The job tools and the gateway agree: an agent's tool reports a recurring or a
    one-shot job as added exactly when the gateway has put it last in the store, with
    the id, the schedule or the instant and the prompt that were asked for, for the user
    of the agent that has the token, who is the user of the session when the tool names
    one; in every other case it reports a failure and the store has the same jobs as
    before.  The texts go over the wire as JSON, so bytes that are not UTF-8 are
    replaced. *)
Theorem job_tools_faithful (s : ApiState C) id at_ prompt vars :
  base <> "" -> token <> "" -> (forall url, bad_url url = None) ->
  mux (server_routes deps) "POST" cron_path = Some (RCronAdd, vars) ->
  mux (server_routes deps) "POST" at_path = Some (RAtAdd, vars) ->
  faithful t_cron ctx_user token id at_ prompt s (ExecCronAddJob env ctx_user printable bad_url gateway id at_ prompt s)
  /\ faithful t_at ctx_user token id at_ prompt s (ExecAtAddJob env ctx_user printable bad_url gateway id at_ prompt s).
Proof.
  intros Hb Ht Hurl Hc Ha. split.
  - eapply add_faithful; try done; [by left|]. intros r body. apply cron_add_outcome.
  - eapply add_faithful; try done; [by right; left|]. intros r body. apply at_add_outcome.
Qed.
End faithful.

(** ** An agent with a session *)

(** A router over segments, a pattern in braces takes one. *)
Fixpoint match_segments (pat path : list string) : option (list (string * string)) :=
  match pat, path with
  | [], [] => Some []
  | p :: pat, x :: path =>
      match match_segments pat path with
      | None => None
      | Some vs =>
          if has_prefix p "{" then Some ((str_take (String.length p - 2) (str_drop 1 p), x) :: vs)
          else if (p =? x)%string then Some vs else None
      end
  | _, _ => None
  end.

Fixpoint demo_mux (rs : list route) (method path : string) : option (route_handler * (string -> string)) :=
  match rs with
  | [] => None
  | r :: rs =>
      match match_segments (split_on "/" (rt_pattern r)) (split_on "/" path) with
      | Some vs => if (rt_method r =? method)%string
                   then Some (rt_handler r, fun k => default "" (snd <$> List.find (fun v => (fst v =? k)%string) vs))
                   else demo_mux rs method path
      | None => demo_mux rs method path
      end
  end.

Definition demo_deps : ServerDeps := Build_ServerDeps true true true true true true true false.

Definition demo_tool_env (n : string) : option string :=
  if (n =? "NIPPER_GATEWAY_URL")%string then Some "http://gw:18789"
  else if (n =? "NIPPER_AUTH_TOKEN")%string then Some "npr-t0ken" else None.

#[local] Existing Instance Scheduler.list_cron.

Definition demo_gateway : http_call -> State (ApiState (nat * gmap nat job)) (result string http_reply) :=
  serve 0 true demo_mux demo_deps "http://gw:18789".

(** A job is added, added again, listed and removed. *)
Example job_tools_demo :
  let add := ExecCronAddJob demo_tool_env "u1" (fun _ => true) (fun _ => None) demo_gateway "a/b" "@daily" "say hi" in
  let (r1, s1) := add demo_api in
  let (r2, s2) := add s1 in
  let (r3, s3) := ExecCronListJobs demo_tool_env "" (fun _ => None) demo_gateway s2 in
  let (r4, s4) := ExecCronRemoveJob demo_tool_env "" (fun _ => true) (fun _ => None) demo_gateway "a" s3 in
  let (r5, s5) := ExecCronAddJob demo_tool_env "u2" (fun _ => true) (fun _ => None) demo_gateway "c" "@daily" "say hi" s4 in
  (r1, r2, r3, r4, r5) =
  (Ok (Build_JobResult true (json_text "Cron job 'a/b' added. Schedule: @daily")),
   Ok (Build_JobResult false "job id already exists for this user"),
   Ok (Build_JobListResult [Build_JobItem "a/b" "@daily" "u1" "say hi"] 1),
   Ok (Build_JobResult false "job not found or not owned by user"),
   Ok (Build_JobResult false "X-Nipper-User-Id does not match agent")).
Proof. vm_compute. reflexivity. Qed.

Lemma job_tools_faithful_witness :
  exists msg, fst (ExecCronAddJob demo_tool_env "u1" (fun _ => true) (fun _ => None) demo_gateway "a" "@daily" "say hi" demo_api)
                = Ok (Build_JobResult true msg)
  /\ faithful t_cron "u1" "npr-t0ken" "a" "@daily" "say hi" demo_api
       (ExecCronAddJob demo_tool_env "u1" (fun _ => true) (fun _ => None) demo_gateway "a" "@daily" "say hi" demo_api).
Proof.
  eexists. split; [vm_compute; reflexivity|].
  refine (proj1 (job_tools_faithful 0 true demo_mux demo_deps demo_tool_env "u1" (fun _ => true) (fun _ => None)
                   demo_api "a" "@daily" "say hi" _ _ _ _ _ _)).
  - discriminate.
  - discriminate.
  - reflexivity.
  - reflexivity.
  - reflexivity.
Defined.
