(* ===== verification/Management.v ===== *)
(** * The client of the broker's management API (queue/management.go)

    Its requests and what it makes of the answers, over any server.
    [evicts_user] says that closing a user's connections closes those and no other,
    over a server that keeps the documentation of the API. *)
From Stdlib Require Import ZArith Lia Bool Ascii String List.
From stdpp Require Import base gmap strings option list.
From S2P Require Import Prelude GoString GoJson GoJsonParse GoJsonProofs Http Models Register JobTools.

Local Open Scope string_scope.
Local Open Scope Z_scope.
Local Open Scope state_scope.
Local Open Scope reader_scope.

Definition managementClientTimeout : Z := 10 * time_second.

Record QueueInfo := {
  qu_Name : string;
  qu_Messages : Z;
  qu_MessagesReady : Z;
  qu_MessagesUnacknowledged : Z;
  qu_Consumers : Z }.
Definition zero_QueueInfo : QueueInfo := Build_QueueInfo "" 0 0 0 0.

Definition dec_QueueInfo : decoder QueueInfo := dec_struct (fun x =>
  let f {B} := @field B ["name"; "messages"; "messages_ready"; "messages_unacknowledged"; "consumers"] in
  Build_QueueInfo
    <$$> f "name" dec_string (qu_Name x)
    <*> f "messages" dec_int64 (qu_Messages x)
    <*> f "messages_ready" dec_int64 (qu_MessagesReady x)
    <*> f "messages_unacknowledged" dec_int64 (qu_MessagesUnacknowledged x)
    <*> f "consumers" dec_int64 (qu_Consumers x)).

Record connectionInfo := { ci_Name : string; ci_User : string }.
Definition zero_connectionInfo : connectionInfo := Build_connectionInfo "" "".

Definition dec_connectionInfo : decoder connectionInfo := dec_struct (fun x =>
  let f {B} := @field B ["name"; "user"] in
  Build_connectionInfo <$$> f "name" dec_string (ci_Name x) <*> f "user" dec_string (ci_User x)).

Definition dec_connections : decoder (list (option connectionInfo)) :=
  dec_slice None (dec_ptr zero_connectionInfo dec_connectionInfo).

Definition percentEncodeVHost (vhost : string) : string :=
  if (vhost =? "/")%string then "%2F"
  else match vhost with String "/" s => "%2F" +:+ s | _ => vhost end.

Record HTTPManagementClient := { mc_baseURL : string; mc_username : string; mc_password : string }.

Section client.
(** The [Authorization] header of [SetBasicAuth], the errors of [http.NewRequest],
    and the server behind [client.Do]. *)
Context (basic_auth : string -> string -> string) (bad_url : string -> option string).
Context {S : Type} (send : http_call -> State S (result string http_reply)).
Context (m : HTTPManagementClient).

Abbreviation M := (State S).

Definition headers (with_body : bool) : Header :=
  let h := {[ "Authorization" := [basic_auth (mc_username m) (mc_password m)] ]} in
  if with_body then <["Content-Type" := ["application/json"]]> h else h.

(** [do]: the error, and what was read of the response when it was to be. *)
Definition do_request {R} (method path : string) (body : option json) (read : option (string -> R * option json_error))
    : M (result string (option R)) :=
  let url := mc_baseURL m +:+ path in
  let at_ := method +:+ " " +:+ path in
  match bad_url url with
  | Some e => sret (Err ("creating request " +:+ method +:+ " " +:+ url +:+ ": " +:+ e))
  | None =>
      do r <- send (Build_http_call method url (headers (match body with Some _ => true | None => false end)) (encode_json <$> body));
      sret match r with
      | Err e => Err ("management API " +:+ at_ +:+ ": " +:+ e)
      | Ok reply =>
          let raw := match hr_Body reply with Ok s => s | Err _ => "" end in
          if 400 <=? hr_Status reply
          then Err ("management API " +:+ at_ +:+ ": status " +:+ fmt_d (hr_Status reply) +:+ ": " +:+ raw)
          else
            match read with
            | Some f =>
                if hr_Status reply =? StatusNoContent then Ok None
                else match f raw with
                     | (x, None) => Ok (Some x)
                     | (_, Some _) => Err "decoding management API response"
                     end
            | None => Ok None
            end
      end
  end.

Definition no_result (method path : string) (body : option json) : M (option string) :=
  do r <- do_request (R := unit) method path body None;
  sret (match r with Ok _ => None | Err e => Some e end).

Definition CreateUser (username password : string) : M (option string) :=
  no_result "PUT" ("/api/users/" +:+ username) (Some (VObj [("password", VStr password); ("tags", VStr "")])).

Definition DeleteUser (username : string) : M (option string) := no_result "DELETE" ("/api/users/" +:+ username) None.

Definition permissions_json (p : VhostPermissions) : json :=
  VObj [("configure", VStr (vp_Configure p)); ("write", VStr (vp_Write p)); ("read", VStr (vp_Read p))].

Definition SetVhostPermissions (vhost username : string) (perms : VhostPermissions) : M (option string) :=
  no_result "PUT" ("/api/permissions/" +:+ percentEncodeVHost vhost +:+ "/" +:+ username) (Some (permissions_json perms)).

Definition GetQueueInfo (vhost queueName : string) : M (result string QueueInfo) :=
  do r <- do_request "GET" ("/api/queues/" +:+ percentEncodeVHost vhost +:+ "/" +:+ queueName) None
            (Some (decode_stream dec_QueueInfo zero_QueueInfo));
  sret (match r with Ok i => Ok (default zero_QueueInfo i) | Err e => Err e end).

Definition ListQueues (vhost : string) : M (result string (list (option QueueInfo))) :=
  do r <- do_request "GET" ("/api/queues/" +:+ percentEncodeVHost vhost) None
            (Some (decode_stream (dec_slice None (dec_ptr zero_QueueInfo dec_QueueInfo)) []));
  sret (match r with Ok l => Ok (default [] l) | Err e => Err e end).

Definition is_of (username : string) (c : option connectionInfo) : option string :=
  match c with
  | Some c => if negb (ci_User c =? username)%string || (ci_Name c =? "")%string then None else Some (ci_Name c)
  | None => None
  end.

Fixpoint close_each (username : string) (conns : list (option connectionInfo)) : M (option string) :=
  match conns with
  | [] => sret None
  | c :: conns =>
      match is_of username c with
      | None => close_each username conns
      | Some name =>
          do err <- no_result "DELETE" ("/api/connections/" +:+ PathEscape name) None;
          match err with Some e => sret (Some e) | None => close_each username conns end
      end
  end.

Definition CloseUserConnections (username : string) : M (option string) :=
  do r <- do_request "GET" "/api/connections" None (Some (decode_stream dec_connections []));
  match r with
  | Err e => sret (Some e)
  | Ok conns => close_each username (default [] conns)
  end.
End client.

(** ** Escaped names *)

Definition hex_value (c : ascii) : Z := if byte_of c <? 65 then byte_of c - 48 else byte_of c - 55.

(** The segment of a path as a server reads it. *)
Fixpoint PathUnescape (s : string) : string :=
  match s with
  | String "%" (String x (String y s)) => String (of_byte (16 * hex_value x + hex_value y)) (PathUnescape s)
  | String c s => String c (PathUnescape s)
  | EmptyString => ""
  end.

Lemma path_escape_byte c s :
  PathUnescape (PathEscape (String c s)) = String c (PathUnescape (PathEscape s)).
Proof. cbn [PathEscape]. generalize (PathEscape s). intros t. by destruct c as [[] [] [] [] [] [] [] []]. Qed.

Lemma path_escape_roundtrip s : PathUnescape (PathEscape s) = s.
Proof. induction s as [|c s IH]; [done|]. by rewrite path_escape_byte, IH. Qed.

(** ** A server that keeps the documentation of the API *)

Section server.
Context (basic_auth : string -> string -> string) (bad_url : string -> option string) (m : HTTPManagementClient).
Context (no_bad_url : forall u, bad_url u = None).
(** Its connections: names and users. *)
Abbreviation conns := (list (string * string)).
Context (send : http_call -> State conns (result string http_reply)).

Definition connection_json (c : string * string) : json := VObj [("name", VStr (fst c)); ("user", VStr (snd c))].

(** Listing gives the connections and changes nothing; deleting closes the one named. *)
Definition lists : Prop := forall h b l, exists text,
  send (Build_http_call "GET" (mc_baseURL m +:+ "/api/connections") h b) l = (Ok (Build_http_reply 200 (Ok text)), l)
  /\ text = encode_json (VArr (map connection_json l)).
Definition deletes : Prop := forall h b n l,
  send (Build_http_call "DELETE" (mc_baseURL m +:+ "/api/connections/" +:+ PathEscape n) h b) l =
  (Ok (Build_http_reply StatusNoContent (Ok "")), List.filter (fun c => negb (fst c =? n)%string) l).

Definition read_connection (c : string * string) : option connectionInfo := Some (Build_connectionInfo (valid_utf8 (fst c)) (valid_utf8 (snd c))).

Lemma connections_read l :
  decode_stream dec_connections [] (encode_json (VArr (map connection_json l))) = (map read_connection l, None).
Proof.
  apply decode_exact.
  - cbn [encodable]. induction l as [|c l IH]; [done|]. exact IH.
  - cbn [valid_json]. unfold dec_connections, dec_slice. induction l as [|c l IH]; [done|]. cbn [map fold_right]. rewrite IH. clear IH.
    assert (E : dec_ptr zero_connectionInfo dec_connectionInfo (valid_json (connection_json c)) None = (read_connection c, false)); [|by rewrite E].
    unfold connection_json. cbn [valid_json map fst snd]. member_names. apply dec_ptr_reads; [done|].
    unfold dec_connectionInfo, dec_struct. read_struct.
Qed.

Definition belongs (username : string) (c : string * string) : bool := (snd c =? username)%string && negb (fst c =? "")%string.

Lemma deleted (Hd : deletes) n l : no_result basic_auth bad_url send m "DELETE" ("/api/connections/" +:+ PathEscape n) None l =
  (None, List.filter (fun c => negb (fst c =? n)%string) l).
Proof. unfold no_result, sbind at 1, do_request. rewrite no_bad_url. unfold sbind. cbn [fmap option_fmap option_map]. rewrite Hd. done. Qed.

Lemma close_each_spec username (Hd : deletes) names : forall l,
  close_each basic_auth bad_url send m username (map read_connection names) l =
  (None, List.filter (fun c => negb (existsb (fun n => (fst c =? n)%string)
           (omap (is_of username) (map read_connection names)))) l).
Proof.
  induction names as [|c names IH]; intros l; cbn [map close_each].
  - cbn. f_equal. symmetry. induction l as [|x l IH]; [done|]. cbn. by f_equal.
  - unfold omap, list_omap in *. destruct (is_of username (read_connection c)) as [n|]; [|apply IH].
    unfold sbind. rewrite (deleted Hd), IH. f_equal. cbn [existsb]. clear. induction l as [|x l IH]; [done|]. cbn [List.filter].
    destruct (fst x =? n)%string eqn:E; cbn [negb orb List.filter]; [done|]. destruct (existsb _ _); cbn [negb]; [done|]. by f_equal.
Qed.

Lemma named_of username l : Forall (fun c => valid_utf8 (fst c) = fst c /\ valid_utf8 (snd c) = snd c) l ->
  omap (is_of username) (map read_connection l) = map fst (List.filter (belongs username) l).
Proof.
  induction 1 as [|c l [Hn Hu] _ IH]; [done|]. unfold omap, list_omap in *. cbn [map List.filter]. unfold is_of at 1, read_connection at 1, belongs at 1.
  cbn [ci_User ci_Name]. rewrite Hn, Hu. destruct (snd c =? username)%string, (fst c =? "")%string; cbn [negb orb andb map]; by rewrite IH.
Qed.

Lemma NoDup_map_inj {A B} (f : A -> B) l : NoDup (map f l) -> forall x y, In x l -> In y l -> f x = f y -> x = y.
Proof.
  induction l as [|z l IH]; [done|]. cbn [map]. intros [Hz Hn]%NoDup_cons x y [<-|Hx] [<-|Hy] E; [done| | |by apply IH].
  - exfalso. apply Hz. rewrite E. by apply list_elem_of_In, in_map.
  - exfalso. apply Hz. rewrite <- E. by apply list_elem_of_In, in_map.
Qed.

(** C25: Evicting a user from the broker closes every connection of that user that has a
    name, and no connection of anybody else, whatever characters the names have: over a
    server that lists its connections and closes the one named by the unescaped path. *)
Theorem evicts_user username l :
  lists -> deletes -> NoDup (map fst l) -> Forall (fun c => valid_utf8 (fst c) = fst c /\ valid_utf8 (snd c) = snd c) l ->
  CloseUserConnections basic_auth bad_url send m username l = (None, List.filter (fun c => negb (belongs username c)) l).
Proof.
  intros Hl Hd Hn Hv. unfold CloseUserConnections, sbind at 1, do_request. rewrite no_bad_url. unfold sbind at 1.
  edestruct Hl as (text & -> & ->). cbn [hr_Status hr_Body sret]. change (400 <=? 200) with false. change (200 =? StatusNoContent) with false. cbn iota.
  rewrite connections_read. cbn [from_option id]. rewrite close_each_spec by done. f_equal. rewrite named_of by done.
  apply filter_ext_in. intros x Hx. f_equal. apply eq_bool_prop_intro. rewrite !Is_true_true, existsb_exists. split.
  - intros (n & Hin & Hxn). apply String.eqb_eq in Hxn as <-. apply in_map_iff in Hin as (y & Hy & [Hin Hb]%filter_In).
    by rewrite <- (NoDup_map_inj _ _ Hn y x Hin Hx Hy).
  - intros Hb. exists (fst x). split; [|apply String.eqb_refl]. apply in_map, filter_In. by split.
Qed.
End server.

(** ** A server *)

Definition demo_client : HTTPManagementClient := Build_HTTPManagementClient "http://mq:15672" "admin" "pw".

Definition demo_server (q : http_call) : State (list (string * string)) (result string http_reply) := fun l =>
  if (hc_Method q =? "GET")%string then
    (Ok (if (hc_URL q =? "http://mq:15672/api/connections")%string
         then Build_http_reply 200 (Ok (encode_json (VArr (map connection_json l)))) else Build_http_reply 404 (Ok "")), l)
  else match strip_prefix "http://mq:15672/api/connections/" (hc_URL q) with
       | Some p => (Ok (Build_http_reply StatusNoContent (Ok "")), List.filter (fun c => negb (fst c =? PathUnescape p)%string) l)
       | None => (Ok (Build_http_reply 404 (Ok "")), l)
       end.

Definition demo_conns : list (string * string) :=
  [("10.0.0.7:1 -> mq", "agent-a"); ("10.0.0.8:1 -> mq", "agent-b"); ("x/y?z", "agent-a"); ("", "agent-a")].

Lemma evicts_user_witness :
  CloseUserConnections (fun u p => u) (fun _ => None) demo_server demo_client "agent-a" demo_conns =
  (None, [("10.0.0.8:1 -> mq", "agent-b"); ("", "agent-a")]).
Proof.
  refine (evicts_user (fun u p => u) (fun _ => None) demo_client _ demo_server "agent-a" demo_conns _ _ _ _).
  - reflexivity.
  - intros h b l. eexists. split; reflexivity.
  - intros h b n l. unfold demo_server. cbn [hc_Method hc_URL]. change ("DELETE" =? "GET")%string with false. cbn iota.
    change (mc_baseURL demo_client +:+ "/api/connections/" +:+ PathEscape n) with ("http://mq:15672/api/connections/" +:+ PathEscape n).
    rewrite strip_prefix_app, path_escape_roundtrip. reflexivity.
  - repeat (constructor; [set_solver|]). constructor.
  - repeat (constructor; [split; reflexivity|]). constructor.
Defined.

(** A failed request stops the eviction; the answer's text is in the error. *)
Example management_errors :
  no_result (fun u p => u) (fun _ => None) demo_server demo_client "DELETE" "/api/users/x" None [] =
    (Some "management API DELETE /api/users/x: status 404: ", [])
  /\ GetQueueInfo (fun u p => u) (fun _ => None)
       (fun q => sret (Ok (Build_http_reply 200 (Ok (json_text "{'name':'nipper-agent-u','messages_ready':3,'consumers':1,'idle':true}")))))
       demo_client "/nipper" "nipper-agent-u" tt
     = (Ok (Build_QueueInfo "nipper-agent-u" 0 3 0 1), tt).
Proof. by vm_compute. Qed.

(** Only the first slash of a virtual host is encoded. *)
Example vhost_paths :
  map percentEncodeVHost ["/"; "/nipper"; "nipper"; "/a/b"; ""] = ["%2F"; "%2Fnipper"; "nipper"; "%2Fa/b"; ""].
Proof. reflexivity. Qed.
