(* ===== verification/AgentRegister.v ===== *)
(** * The agent's side of the registration (agent/registration/client.go, types.go)

    The client asks until an answer decides: [registration_decides] says which one
    does and how long it waits before each attempt.  The section [received] puts the
    handler of [Register] behind the request, its answer encoded as JSON:
    [registration_received] says that each of the gateway's decisions is the one the
    agent acts on, and that the agent has the credentials it was given. *)
From Stdlib Require Import ZArith Lia Bool Ascii String List.
From stdpp Require Import base gmap strings option list.
From S2P Require Import Prelude GoString GoTime GoJson GoJsonParse GoJsonProofs GoFloat Http Models GoAny.
From S2P Require Import Limiter Repo Sqlite Queue Register.

Local Open Scope string_scope.
Local Open Scope Z_scope.
Local Open Scope reader_scope.

Definition registerPath : string := "/agents/register".
Definition healthPath : string := "/agents/health".
Definition agentType : string := "eino-go".
Definition agentVersion : string := "0.1.0".
Definition defaultTimeoutSec : Z := 15.

(** ** types.go *)

Record QueuesConfig := { qc_Agent : string; qc_Control : string }.
Record ExchangesConfig := { ec_Sessions : string; ec_Events : string; ec_Control : string; ec_Logs : string }.
Record RoutingKeysConfig := { rk_EventsPublish : string; rk_LogsPublish : string }.
Record RMQConfig := {
  rm_URL : string; rm_TLSURL : string; rm_Username : string; rm_Password : string; rm_VHost : string;
  rm_Queues : QueuesConfig; rm_Exchanges : ExchangesConfig; rm_RoutingKeys : RoutingKeysConfig }.
Record UserInfo := {
  ui_ID : string; ui_Name : string; ui_DefaultModel : string; ui_Preferences : list (string * jsonv) }.
Record ToolsPolicy := { tp_Allow : list string; tp_Deny : list string }.
Record RegistrationResult := {
  rs_AgentID : string; rs_UserID : string; rs_UserName : string; rs_RabbitMQ : RMQConfig; rs_User : UserInfo;
  rs_Policies : option ToolsPolicy }.

Definition zero_RMQConfig : RMQConfig :=
  Build_RMQConfig "" "" "" "" "" (Build_QueuesConfig "" "") (Build_ExchangesConfig "" "" "" "") (Build_RoutingKeysConfig "" "").
Definition zero_RegistrationResult : RegistrationResult :=
  Build_RegistrationResult "" "" "" zero_RMQConfig (Build_UserInfo "" "" "" []) None.

Definition dec_QueuesConfig : decoder QueuesConfig := dec_struct (fun x =>
  let f {B} := @field B ["agent"; "control"] in
  Build_QueuesConfig <$$> f "agent" dec_string (qc_Agent x) <*> f "control" dec_string (qc_Control x)).

Definition dec_ExchangesConfig : decoder ExchangesConfig := dec_struct (fun x =>
  let f {B} := @field B ["sessions"; "events"; "control"; "logs"] in
  Build_ExchangesConfig
    <$$> f "sessions" dec_string (ec_Sessions x) <*> f "events" dec_string (ec_Events x)
    <*> f "control" dec_string (ec_Control x) <*> f "logs" dec_string (ec_Logs x)).

Definition dec_RoutingKeysConfig : decoder RoutingKeysConfig := dec_struct (fun x =>
  let f {B} := @field B ["events_publish"; "logs_publish"] in
  Build_RoutingKeysConfig
    <$$> f "events_publish" dec_string (rk_EventsPublish x) <*> f "logs_publish" dec_string (rk_LogsPublish x)).

Definition dec_RMQConfig : decoder RMQConfig := dec_struct (fun x =>
  let f {B} := @field B ["url"; "tls_url"; "username"; "password"; "vhost"; "queues"; "exchanges"; "routing_keys"] in
  Build_RMQConfig
    <$$> f "url" dec_string (rm_URL x) <*> f "tls_url" dec_string (rm_TLSURL x)
    <*> f "username" dec_string (rm_Username x) <*> f "password" dec_string (rm_Password x)
    <*> f "vhost" dec_string (rm_VHost x) <*> f "queues" dec_QueuesConfig (rm_Queues x)
    <*> f "exchanges" dec_ExchangesConfig (rm_Exchanges x) <*> f "routing_keys" dec_RoutingKeysConfig (rm_RoutingKeys x)).

Definition dec_UserInfo : decoder UserInfo := dec_struct (fun x =>
  let f {B} := @field B ["id"; "name"; "default_model"; "preferences"] in
  Build_UserInfo
    <$$> f "id" dec_string (ui_ID x) <*> f "name" dec_string (ui_Name x)
    <*> f "default_model" dec_string (ui_DefaultModel x) <*> f "preferences" dec_any_map (ui_Preferences x)).

Definition dec_ToolsPolicy : decoder ToolsPolicy := dec_struct (fun x =>
  let f {B} := @field B ["allow"; "deny"] in
  Build_ToolsPolicy <$$> f "allow" (dec_slice "" dec_string) (tp_Allow x) <*> f "deny" (dec_slice "" dec_string) (tp_Deny x)).

Definition dec_PoliciesInfo : decoder (option ToolsPolicy) := dec_struct (fun x =>
  field ["tools"] "tools" (dec_ptr (Build_ToolsPolicy [] []) dec_ToolsPolicy) x).

Definition dec_RegistrationResult : decoder RegistrationResult := dec_struct (fun x =>
  let f {B} := @field B ["agent_id"; "user_id"; "user_name"; "rabbitmq"; "user"; "policies"] in
  Build_RegistrationResult
    <$$> f "agent_id" dec_string (rs_AgentID x) <*> f "user_id" dec_string (rs_UserID x)
    <*> f "user_name" dec_string (rs_UserName x) <*> f "rabbitmq" dec_RMQConfig (rs_RabbitMQ x)
    <*> f "user" dec_UserInfo (rs_User x) <*> f "policies" dec_PoliciesInfo (rs_Policies x)).

Record registrationResponse := { re_OK : bool; re_Result : option RegistrationResult; re_Error : string }.

Definition dec_registrationResponse : decoder registrationResponse := dec_struct (fun x =>
  let f {B} := @field B ["ok"; "result"; "error"] in
  Build_registrationResponse
    <$$> f "ok" dec_bool (re_OK x)
    <*> f "result" (dec_ptr zero_RegistrationResult dec_RegistrationResult) (re_Result x)
    <*> f "error" dec_string (re_Error x)).

(** ** client.go *)

Record Client := { cl_gatewayURL : string; cl_authToken : string }.

Section client.
Context (env : string -> option string).

Definition NewClientFromEnv : result string Client :=
  let gatewayURL := default "" (env "NIPPER_GATEWAY_URL") in
  let authToken := default "" (env "NIPPER_AUTH_TOKEN") in
  if (gatewayURL =? "")%string then Err "NIPPER_GATEWAY_URL environment variable is required"
  else if (authToken =? "")%string then Err "NIPPER_AUTH_TOKEN environment variable is required"
  else Ok (Build_Client gatewayURL authToken).
End client.

(** The body of the request, for the host's name and the platform. *)
Definition register_body (hostname goarch goos : string) : string :=
  json_map [("agent_type", agentType); ("goarch", goarch); ("goos", goos); ("hostname", hostname); ("version", agentVersion)].

(** An answer, with its Retry-After header. *)
Record reg_reply := { rr_Status : Z; rr_RetryAfter : string; rr_Body : string }.

Definition parseRetryAfter (header : string) : Z :=
  if (header =? "")%string then 0
  else match parse_int64 header with None => 0 | Some secs => int64 (secs * time_second) end.

Inductive attempt :=
| Registered (r : RegistrationResult)
| Retry (after : Z)
| Fatal (e : string).

(** [None]: no answer; [bad_url]: the error of making the request. *)
Definition doRegister (bad_url : option string) (reply : option reg_reply) : attempt :=
  match bad_url with
  | Some e => Fatal ("building registration request: " +:+ e)
  | None =>
      match reply with
      | None => Retry 0
      | Some r =>
          if rr_Status r =? StatusOK then
            match decode_stream dec_registrationResponse (Build_registrationResponse false None "") (rr_Body r) with
            | (_, Some _) => Fatal "decoding registration response"
            | (resp, None) =>
                match re_Result resp with
                | Some result => if re_OK resp then Registered result else Fatal ("gateway returned ok=false: " +:+ re_Error resp)
                | None => Fatal ("gateway returned ok=false: " +:+ re_Error resp)
                end
            end
          else if rr_Status r =? StatusUnauthorized then Fatal "registration failed: invalid or revoked token (401)"
          else if rr_Status r =? StatusForbidden then Fatal "registration failed: user disabled (403)"
          else if rr_Status r =? StatusTooManyRequests then Retry (parseRetryAfter (rr_RetryAfter r))
          else Retry 0
      end
  end.

Definition maxDelay : Z := 30 * time_second.

(** The wait before the next attempt, and the delay after that. *)
Definition wait_for (delay retryAfter : Z) : Z :=
  let wait := if 0 <? retryAfter then retryAfter else delay in
  if maxDelay <? wait then maxDelay else wait.
Definition next_delay (delay : Z) : Z := if maxDelay <? delay * 2 then maxDelay else delay * 2.

(** The loop over the attempts' outcomes; a wait that the context ends is [Fatal]
    with the context's error.  [None]: the client is still asking. *)
Fixpoint register_loop (delay : Z) (attempts : list attempt) : list Z * option (result string RegistrationResult) :=
  match attempts with
  | [] => ([], None)
  | Registered r :: _ => ([], Some (Ok r))
  | Fatal e :: _ => ([], Some (Err e))
  | Retry after :: attempts =>
      let '(waits, out) := register_loop (next_delay delay) attempts in (wait_for delay after :: waits, out)
  end.

Definition ClientRegister (bad_url : option string) (replies : list (option reg_reply))
    : list Z * option (result string RegistrationResult) :=
  register_loop time_second (map (doRegister bad_url) replies).

Definition heartbeat_body (status : string) : string :=
  json_map [("status", if (status =? "")%string then "healthy" else status)].

(** The error of [SendHeartbeat], given the status of the answer. *)
Definition SendHeartbeat (bad_url : option string) (reply : result string Z) : option string :=
  match bad_url with
  | Some e => Some ("building heartbeat request: " +:+ e)
  | None =>
      match reply with
      | Err e => Some e
      | Ok status => if status =? StatusOK then None else Some ("heartbeat returned " +:+ fmt_d status)
      end
  end.

(** The instants of the heartbeats of a process that starts at 0, while it runs. *)
Definition StartHeartbeat (interval : Z) (ticks : nat) : list Z :=
  if interval <=? 0 then [] else map (fun n => Z.of_nat n * interval) (seq 0 (S ticks)).

(** ** When it is over and how long it takes *)

Definition decisive (a : attempt) : bool := match a with Retry _ => false | _ => true end.
Definition outcome (a : attempt) : option (result string RegistrationResult) :=
  match a with Registered r => Some (Ok r) | Fatal e => Some (Err e) | Retry _ => None end.

(** The delay before attempt [n + 2], when no answer asks for another. *)
Definition backoff (n : nat) : Z := if (n <=? 4)%nat then 2 ^ Z.of_nat n * time_second else maxDelay.

Lemma backoff_step n : next_delay (backoff n) = backoff (S n).
Proof. do 6 (destruct n as [|n]; [reflexivity|]). reflexivity. Qed.

(** The attempts before the one that decides. *)
Fixpoint undecided (attempts : list attempt) : list Z :=
  match attempts with Retry after :: l => after :: undecided l | _ => [] end.

Lemma register_loop_spec attempts : forall n,
  register_loop (backoff n) attempts =
  (imap (fun k after => wait_for (backoff (n + k)) after) (undecided attempts), List.find decisive attempts ≫= outcome).
Proof.
  induction attempts as [|a attempts IH]; intros n; [done|]. destruct a as [r|after|e]; cbn [register_loop undecided List.find decisive]; [done| |done].
  rewrite backoff_step, IH. cbn [imap]. rewrite Nat.add_0_r. f_equal. f_equal. apply imap_ext. intros k x _. cbn. f_equal. f_equal. lia.
Qed.

Lemma backoff_range n : 0 < backoff n <= maxDelay.
Proof. do 5 (destruct n as [|n]; [done|]). done. Qed.

Lemma wait_range delay after : 0 < delay <= maxDelay -> 0 < wait_for delay after <= maxDelay.
Proof. intros H. unfold wait_for. destruct (Z.ltb_spec 0 after); case_test; lia. Qed.

(** The registration is decided by the first answer that is not to be retried: it ends
    with the result or the error of that one, and goes on as long as there is none.
    Before each further attempt it waits, more than nothing and at most thirty seconds,
    for what the gateway asked or else one second, doubled each time up to thirty. *)
Theorem registration_decides bad_url replies :
  let attempts := map (doRegister bad_url) replies in
  snd (ClientRegister bad_url replies) = List.find decisive attempts ≫= outcome
  /\ (snd (ClientRegister bad_url replies) = None <-> Forall (fun a => decisive a = false) attempts)
  /\ Forall (fun w => 0 < w <= maxDelay) (fst (ClientRegister bad_url replies))
  /\ forall k after, undecided attempts !! k = Some after ->
       fst (ClientRegister bad_url replies) !! k = Some (wait_for (backoff k) after).
Proof.
  intros attempts. unfold ClientRegister. fold attempts. change time_second with (backoff 0).
  rewrite register_loop_spec. cbn [fst snd Nat.add]. split_and!; [done| | |].
  - induction attempts as [|a l IH]; [done|]. destruct a; cbn [List.find decisive]; rewrite Forall_cons; cbn; [naive_solver|tauto|naive_solver].
  - apply Forall_lookup. intros k w Hw. rewrite list_lookup_imap in Hw. destruct (undecided attempts !! k) as [after|]; [|done].
    injection Hw as <-. apply wait_range, backoff_range.
  - intros k after Hk. by rewrite list_lookup_imap, Hk.
Qed.

(** ** What the gateway sends *)

Section sent.
(** How encoding/json writes a number. *)
Context (fmt_num : float64 -> string).
Abbreviation any_map_json := (any_map_json fmt_num).
Abbreviation map_ok := (map_ok fmt_num).

Definition omit_empty {A} (name : string) (enc : list A -> json) (l : list A) : list (string * json) :=
  match l with [] => [] | _ => [(name, enc l)] end.
Definition strings_json (l : list string) : json := VArr (map VStr l).

Definition policy_json (p : PolicyData) : json :=
  VObj (omit_empty "allow" strings_json (pd_Allow p) ++ omit_empty "deny" strings_json (pd_Deny p)
        ++ omit_empty "rateLimit" any_map_json (pd_RateLimit p) ++ omit_empty "models" any_map_json (pd_Models p)
        ++ omit_empty "extra" any_map_json (pd_Extra p)).

Definition rmq_json (r : rmq_blob) : json :=
  let '(sessions, events, control, logs) := rb_Exchanges r in
  VObj [("url", VStr (rb_URL r)); ("username", VStr (rb_Username r)); ("password", VStr (rb_Password r)); ("vhost", VStr (rb_VHost r));
        ("queues", VObj [("agent", VStr (rb_AgentQueue r)); ("control", VStr (rb_ControlQueue r))]);
        ("exchanges", VObj [("sessions", VStr sessions); ("events", VStr events); ("control", VStr control); ("logs", VStr logs)]);
        ("routing_keys", VObj [("events_publish", VStr (rb_EventsPublish r)); ("logs_publish", VStr (rb_LogsPublish r))])].

Definition user_json (u : User) : json :=
  VObj [("id", VStr (us_ID u)); ("name", VStr (us_Name u)); ("default_model", VStr (us_DefaultModel u));
        ("preferences", any_map_json (us_Preferences u))].

Definition blob_json (b : result_blob) : json :=
  VObj [("agent_id", VStr (bl_AgentID b)); ("user_id", VStr (bl_UserID b)); ("user_name", VStr (bl_UserName b));
        ("rabbitmq", rmq_json (bl_RabbitMQ b)); ("user", user_json (bl_User b));
        ("policies", VObj match bl_ToolsPolicy b with Some p => [("tools", policy_json p)] | None => [] end)].

Definition reg_body_json (b : reg_body) : json :=
  match b with
  | RegError e => VObj [("error", VStr e); ("ok", VBool false)]
  | RegLimited n => VObj [("error", VStr "rate_limited"); ("ok", VBool false); ("retry_after", VNum (fmt_d n))]
  | RegResult b => VObj [("ok", VBool true); ("result", blob_json b)]
  end.

(** The answer on the wire. *)
Definition sent (resp : Response reg_body) : reg_reply :=
  Build_reg_reply (rp_Status resp)
    (match rp_Body resp with Some (RegLimited n) => fmt_d n | _ => "" end)
    (match rp_Body resp with Some b => encode_json (reg_body_json b) | None => "" end).

Lemma policy_encodable p : map_ok (pd_RateLimit p) -> map_ok (pd_Models p) -> map_ok (pd_Extra p) -> encodable (policy_json p) = true.
Proof.
  intros H1 H2 H3. assert (Hs : forall l, encodable (strings_json l) = true) by (intros l; induction l; done).
  assert (Ho : forall A name (enc : list A -> json) l, encodable (enc l) = true -> forallb (fun kv => encodable (snd kv)) (omit_empty name enc l) = true).
  { intros A name enc l E. destruct l; [done|]. cbn [omit_empty forallb snd]. by rewrite E. }
  unfold policy_json. cbn [encodable]. rewrite !forallb_app, !Ho by first [apply Hs | by apply any_map_encodable]. done.
Qed.
End sent.

Definition valid_strings : list string -> list string := map valid_utf8.

(** The registration as the agent has it. *)
Definition received (b : result_blob) : RegistrationResult :=
  let r := bl_RabbitMQ b in
  let '(sessions, events, control, logs) := rb_Exchanges r in
  {| rs_AgentID := valid_utf8 (bl_AgentID b); rs_UserID := valid_utf8 (bl_UserID b); rs_UserName := valid_utf8 (bl_UserName b);
     rs_RabbitMQ := Build_RMQConfig (valid_utf8 (rb_URL r)) "" (valid_utf8 (rb_Username r)) (valid_utf8 (rb_Password r)) (valid_utf8 (rb_VHost r))
       (Build_QueuesConfig (valid_utf8 (rb_AgentQueue r)) (valid_utf8 (rb_ControlQueue r)))
       (Build_ExchangesConfig (valid_utf8 sessions) (valid_utf8 events) (valid_utf8 control) (valid_utf8 logs))
       (Build_RoutingKeysConfig (valid_utf8 (rb_EventsPublish r)) (valid_utf8 (rb_LogsPublish r)));
     rs_User := Build_UserInfo (valid_utf8 (us_ID (bl_User b))) (valid_utf8 (us_Name (bl_User b))) (valid_utf8 (us_DefaultModel (bl_User b)))
       (valid_any_map (us_Preferences (bl_User b)));
     rs_Policies := (fun p => Build_ToolsPolicy (valid_strings (pd_Allow p)) (valid_strings (pd_Deny p))) <$> bl_ToolsPolicy b |}.

(** The numbers of an answer are written as they are read, and no two preferences
    have a name. *)
Definition sendable (fmt_num : float64 -> string) (b : result_blob) : Prop :=
  map_ok fmt_num (us_Preferences (bl_User b)) /\ names_differ (us_Preferences (bl_User b))
  /\ forall p, bl_ToolsPolicy b = Some p -> map_ok fmt_num (pd_RateLimit p) /\ map_ok fmt_num (pd_Models p) /\ map_ok fmt_num (pd_Extra p).

Lemma strings_read l : dec_slice "" dec_string (valid_json (strings_json l)) [] = (valid_strings l, false).
Proof. cbn [strings_json valid_json dec_slice]. induction l as [|x l IH]; [done|]. cbn [map fold_right valid_json]. by rewrite IH. Qed.

Lemma policy_read fmt p :
  dec_ToolsPolicy (valid_json (policy_json fmt p)) (Build_ToolsPolicy [] []) =
  (Build_ToolsPolicy (valid_strings (pd_Allow p)) (valid_strings (pd_Deny p)), false).
Proof.
  unfold policy_json. cbn [valid_json]. rewrite !map_app. unfold dec_ToolsPolicy, dec_struct.
  pose proof (strings_read (pd_Allow p)) as Ha. pose proof (strings_read (pd_Deny p)) as Hd.
  destruct (pd_Allow p), (pd_Deny p), (pd_RateLimit p), (pd_Models p), (pd_Extra p); cbn [omit_empty map fst snd app]; member_names;
    read_struct; first [exact Ha|exact Hd].
Qed.

Section reading.
Context (fmt_num : float64 -> string) (b : result_blob) (Hb : sendable fmt_num b).

Lemma blob_encodable : encodable (blob_json fmt_num b) = true.
Proof.
  destruct Hb as (H1 & _ & H2). unfold blob_json, rmq_json, user_json. destruct (rb_Exchanges (bl_RabbitMQ b)) as [[[? ?] ?] ?].
  cbn [encodable forallb snd]. rewrite any_map_encodable by done. destruct (bl_ToolsPolicy b) as [p|]; [|done].
  cbn [forallb snd]. destruct (H2 p eq_refl) as (? & ? & ?). by rewrite policy_encodable.
Qed.

Lemma rmq_read : dec_RMQConfig (valid_json (rmq_json (bl_RabbitMQ b))) zero_RMQConfig = (rs_RabbitMQ (received b), false).
Proof.
  unfold rmq_json, received. destruct (rb_Exchanges (bl_RabbitMQ b)) as [[[? ?] ?] ?]. cbn [valid_json map fst snd rs_RabbitMQ].
  member_names. unfold dec_RMQConfig, dec_struct at 1. read_struct.
Qed.

Lemma user_read : dec_UserInfo (valid_json (user_json fmt_num (bl_User b))) (Build_UserInfo "" "" "" []) = (rs_User (received b), false).
Proof.
  destruct Hb as (H1 & H2 & _). unfold user_json, received. destruct (rb_Exchanges (bl_RabbitMQ b)) as [[[? ?] ?] ?].
  cbn [valid_json map fst snd rs_User]. member_names. unfold dec_UserInfo, dec_struct. read_struct. by apply any_map_read.
Qed.

Lemma result_read : dec_RegistrationResult (valid_json (blob_json fmt_num b)) zero_RegistrationResult = (received b, false).
Proof.
  replace (received b) with (Build_RegistrationResult (valid_utf8 (bl_AgentID b)) (valid_utf8 (bl_UserID b)) (valid_utf8 (bl_UserName b))
    (rs_RabbitMQ (received b)) (rs_User (received b)) (rs_Policies (received b)))
    by (unfold received; by destruct (rb_Exchanges (bl_RabbitMQ b)) as [[[? ?] ?] ?]).
  unfold blob_json. cbn [valid_json map fst snd]. member_names. unfold dec_RegistrationResult, dec_struct. read_struct.
  - apply rmq_read.
  - apply user_read.
  - unfold received. destruct (rb_Exchanges (bl_RabbitMQ b)) as [[[? ?] ?] ?]. cbn [rs_Policies].
    destruct (bl_ToolsPolicy b) as [p|]; cbn [map fst snd]; unfold dec_PoliciesInfo, dec_struct; member_names; read_struct.
    apply dec_ptr_reads; [done|]. apply policy_read.
Qed.

Lemma response_read : decode_stream dec_registrationResponse (Build_registrationResponse false None "")
    (encode_json (reg_body_json fmt_num (RegResult b))) = (Build_registrationResponse true (Some (received b)) "", None).
Proof.
  apply decode_exact.
  - cbn [reg_body_json encodable forallb snd]. by rewrite blob_encodable.
  - cbn [reg_body_json valid_json map fst snd]. member_names. unfold dec_registrationResponse, dec_struct. read_struct.
    apply dec_ptr_reads; [done|]. apply result_read.
Qed.
End reading.

(** ** The gateway behind the request *)

Section composition.
Context (clk : nat -> Z) (cfg : option RegConfig) (limited : bool).
Context (mgmt : option (list mgmt_call -> option string)) (closes : bool).
Context (broker : option (result string (nat -> amqp_decl -> option string))).
Context (password : result string string) (quote : string -> string).
Context (fmt_num : float64 -> string).

Abbreviation HandleR := (Handle clk cfg limited mgmt closes broker password quote).

(** The answers of the handler. *)
Inductive answered : Response reg_body -> Prop :=
| AnsResult b : answered (Build_Response 200 (Some (RegResult b)))
| AnsLimited n : 1 <= n -> answered (Build_Response 429 (Some (RegLimited n)))
| AnsRefused code e : In code [401; 403] -> answered (Build_Response code (Some (RegError e)))
| AnsUnavailable code e : In code [500; 503] -> answered (Build_Response code (Some (RegError e))).
#[local] Hint Constructors answered : core.

Lemma provision_answered r agent user st :
  answered (fst (provision clk cfg mgmt closes broker password quote r agent user st)).
Proof.
  assert (H500 : forall code e, In code [500; 503] -> answered (writeRegisterError code e)) by (intros; by apply AnsUnavailable).
  unfold provision. destruct mgmt as [answer|]; [|apply H500; cbn; auto]. destruct password as [pw|e]; [|apply H500; cbn; auto].
  unfold sbind at 1. destruct (call _ _ st) as [[e|] st1]; [apply H500; cbn; auto|].
  unfold sbind at 1. destruct (call _ _ st1) as [[e|] st2]; [apply H500; cbn; auto|].
  unfold sbind at 1. destruct (close_stale _ _ _ st2) as [u st3]. unfold sbind at 1. destruct (ensure_queues _ _ st3) as [u' st4].
  destruct (finish_spec clk cfg quote r agent user
    (match rq_Body r with Some b => fst (decode_stream dec_request zero_request b) | None => zero_request end) pw st4) as (d' & -> & _).
  constructor.
Qed.

Lemma handle_answered r st : answered (fst (HandleR r st)).
Proof.
  assert (H401 : forall code e, In code [401; 403] -> answered (writeRegisterError code e)) by (intros; by apply AnsRefused).
  unfold Handle. destruct (_ =? "")%string; [apply H401; cbn; auto|]. unfold sbind at 1, sget at 1. cbv beta iota.
  destruct (GetAgentByTokenHash _ _) as [agent|e]; [|apply H401; cbn; auto].
  destruct (_ =? _)%string; [apply H401; cbn; auto|]. unfold sbind at 1, sget at 1. cbv beta iota.
  destruct (GetUser _ _) as [user|e]; [|apply H401; cbn; auto]. destruct (negb (us_Enabled user)); [apply H401; cbn; auto|].
  unfold sbind at 1. destruct (limit clk limited agent st) as [[[] after] st1]; cbn [fst snd].
  - apply provision_answered.
  - apply AnsLimited. case_test; lia.
Qed.

Lemma sent_retry n : 1 <= n <= 9223372036 -> parseRetryAfter (fmt_d n) = n * time_second.
Proof.
  intros Hn. assert (Hp : parse_int64 (fmt_d n) = Some n) by (apply fmt_d_parsed; lia). unfold parseRetryAfter.
  destruct (String.eqb_spec (fmt_d n) "") as [E|_]; [by rewrite E in Hp|]. rewrite Hp. apply int64_small. unfold time_second. lia.
Qed.

(** C4: What the gateway decides is what the agent acts on: it takes itself for registered
    exactly when the gateway answered with credentials, and then it has the broker
    account, the queues, the exchanges, the routing keys, the user and the tool rules
    the gateway sent; it gives up exactly when the gateway refused the token or the
    user; when the gateway limited it it retries after the seconds it was told, and
    when the gateway failed it retries.  The texts go over the wire as JSON, so bytes
    that are not UTF-8 are replaced. *)
Theorem registration_received r st :
  let resp := fst (HandleR r st) in
  (forall b, rp_Body resp = Some (RegResult b) -> sendable fmt_num b) ->
  (forall n, rp_Body resp = Some (RegLimited n) -> n * time_second < 2 ^ 63) ->
  match doRegister None (Some (sent fmt_num resp)) with
  | Registered res => exists b, resp = Build_Response 200 (Some (RegResult b)) /\ res = received b
  | Retry after =>
      (exists n, resp = Build_Response 429 (Some (RegLimited n)) /\ 1 <= n /\ after = n * time_second)
      \/ (exists code e, resp = Build_Response code (Some (RegError e)) /\ In code [500; 503] /\ after = 0)
  | Fatal _ => exists code e, resp = Build_Response code (Some (RegError e)) /\ In code [401; 403]
  end.
Proof.
  cbv zeta. pose proof (handle_answered r st) as H. revert H. generalize (fst (HandleR r st)). intros resp H Hs Hn.
  unfold doRegister, sent. cbn [rr_Status rr_Body rr_RetryAfter].
  destruct H as [b|n Hpos|code e Hc|code e Hc]; cbn [rp_Body rp_Status] in *.
  - change (200 =? StatusOK) with true. rewrite response_read by by apply Hs. cbn. eauto.
  - specialize (Hn n eq_refl). unfold time_second in Hn. cbn - [parseRetryAfter fmt_d]. left. exists n. rewrite sent_retry by lia. done.
  - destruct Hc as [<-|[<-|[]]]; cbn; eexists _, _; split; try reflexivity; cbn; auto.
  - destruct Hc as [<-|[<-|[]]]; cbn; right; eexists _, _; split; try reflexivity; cbn; auto.
Qed.
End composition.

(** ** An agent registers *)

Definition demo_numbers (x : float64) : string := "1".

Lemma registration_received_witness :
  let resp := fst (demo_handle demo_agents) in
  rp_Status resp = 200 /\
  match doRegister None (Some (sent demo_numbers resp)) with
  | Registered res => exists b, resp = Build_Response 200 (Some (RegResult b)) /\ res = received b
  | Retry after =>
      (exists n, resp = Build_Response 429 (Some (RegLimited n)) /\ 1 <= n /\ after = n * time_second)
      \/ (exists code e, resp = Build_Response code (Some (RegError e)) /\ In code [500; 503] /\ after = 0)
  | Fatal _ => exists code e, resp = Build_Response code (Some (RegError e)) /\ In code [401; 403]
  end.
Proof.
  split; [vm_compute; reflexivity|]. unfold demo_handle.
  refine (registration_received (fun n => Z.of_nat n) None true (Some (fun _ => None)) true (Some (Ok (fun _ _ => None))) (Ok "s3cret") json_quote
    demo_numbers demo_request (Build_RegState demo_agents (NewLimiter 10 time_minute) [] empty_broker) _ _).
  - intros b Hb. vm_compute in Hb. injection Hb as <-. split_and!; try constructor; discriminate.
  - intros n Hb. vm_compute in Hb. discriminate Hb.
Defined.

(** A wait the gateway asks for is cut to thirty seconds. *)
Example retry_after_capped :
  ClientRegister None [Some (Build_reg_reply 429 "60" ""); Some (Build_reg_reply 401 "" "")] =
  ([30 * time_second], Some (Err "registration failed: invalid or revoked token (401)")).
Proof. vm_compute. reflexivity. Qed.

Example registration_demo :
  match ClientRegister None [None; Some (Build_reg_reply 503 "" ""); Some (sent demo_numbers (fst (demo_handle demo_agents)))] with
  | (waits, Some (Ok res)) => waits = [time_second; 2 * time_second] /\ rm_Username (rs_RabbitMQ res) = "agent-agt-u1-home"
      /\ qc_Agent (rm_Queues (rs_RabbitMQ res)) = "nipper-agent-u1"
  | _ => False
  end.
Proof. vm_compute. by repeat split. Qed.
