(* ===== verification/AgentText.v ===== *)
(** * What the agent makes of the model's text (agent/runtime.go)

    Language models leak reasoning blocks and template tokens into their
    answers, or answer with garbage.  This file models how the agent recognises
    and removes them, and how it reads the kind of a failure from its text. *)
From Stdlib Require Import ZArith Lia Bool Ascii String List.
From stdpp Require Import base gmap strings option list.
From S2P Require Import Prelude GoString.

Local Open Scope string_scope.
Local Open Scope Z_scope.

(** ** Kinds of failures, by their texts *)

Definition mentions (msg : string) (texts : list string) : bool := existsb (str_contains msg) texts.

Definition isImagesNotSupportedErr (fold : Z -> Z) (err : string) : bool :=
  mentions (to_lower fold err)
    ["does not support images"; "model does not support images"; "image input is not supported";
     "image inputs are not supported"].

Definition isMCPTransportError (err : string) : bool :=
  mentions err ["transport has been closed"; "transport error"].

Definition isRateLimitError (fold : Z -> Z) (err : string) : bool :=
  mentions (to_lower fold err) ["429"; "rate limit"; "too many requests"].

Definition isSpecialTokenLeakage (err : string) : bool :=
  mentions err ["<|channel|>"; "<|message|>"; "<|start|>"; "<|end|>"; "<|im_start|>"; "<|im_end|>"]
  || (str_contains err "Failed to parse input" && str_contains err "<|").

Definition toolNameFromNotFoundError (err : string) : string :=
  match str_cut "tool " err with
  | None => ""
  | Some (_, rest) =>
      match str_cut " not found" rest with
      | None => ""
      | Some (name, _) => trim_space name
      end
  end.

(** ** Reasoning blocks *)

Definition join (sep : string) (l : list string) : string := String.concat sep l.

(** The loop: the pieces outside the blocks and the trimmed ones inside. *)
Fixpoint think_loop (fuel : nat) (remaining : string) : list string * list string :=
  match fuel with
  | O => ([], [])
  | S fuel =>
      match str_cut "<think>" remaining with
      | None => ([remaining], [])
      | Some (before, afterOpen) =>
          match str_cut "</think>" afterOpen with
          | None => ([before], [trim_space afterOpen])
          | Some (inside, rest) =>
              let '(clean, think) := think_loop fuel rest in
              (before :: clean, trim_space inside :: think)
          end
      end
  end.

Definition two_newlines : string := String "010" (String "010" "").

(** (cleaned, thinking) *)
Definition stripThinkTags (content : string) : string * string :=
  if str_contains content "<think>" then
    let '(clean, think) := think_loop (S (String.length content)) content in
    (trim_space (join "" clean), trim_space (join two_newlines think))
  else (content, "").

(** ** Template tokens *)

Fixpoint token_loop (fuel : nat) (remaining : string) : string :=
  match fuel with
  | O => ""
  | S fuel =>
      match str_cut "<|" remaining with
      | None => remaining
      | Some (before, afterMarker) =>
          match str_cut "|>" afterMarker with
          | None => remaining
          | Some (_, rest) => before +:+ token_loop fuel rest
          end
      end
  end.

Definition stripChatTemplateTokens (content : string) : string :=
  if str_contains content "<|" then trim_space (token_loop (S (String.length content)) content)
  else content.

(** ** Garbage *)

Definition isNonMeaningfulRune (r : Z) : bool :=
  existsb (Z.eqb r) [46; 8230; 8212; 8211; 45; 8209]            (* . … — – - ‑ *)
  || existsb (Z.eqb r) [42; 63; 33; 44; 59; 58]                 (* * ? ! , ; : *)
  || existsb (Z.eqb r) [10; 13; 32; 9]
  || existsb (Z.eqb r) [8203; 8204; 8205; 8288; 8289; 65279]
  || ((8290 <=? r) && (r <=? 8292))
  || (r =? 173).

Definition total_runes (rs : list Z) : Z := Z.of_nat (length rs).
Definition meaningful_runes (rs : list Z) : Z := Z.of_nat (count_if (fun r => negb (isNonMeaningfulRune r)) rs).

(** Patterns 1 and 4: fewer than a fifth of more than ten runes mean anything. *)
Definition mostly_filler (rs : list Z) : bool :=
  (10 <? total_runes rs) && (meaningful_runes rs <? total_runes rs / 5).

(** Pattern 2: the longest run of equal neighbouring pairs of bytes. *)
Fixpoint bigrams (s : string) : list string :=
  match s with
  | String a (String b s) => String a (String b "") :: bigrams s
  | _ => []
  end.

Fixpoint longest_repeat (prev : string) (l : list string) (current best : Z) : Z :=
  match l with
  | [] => best
  | x :: l =>
      if (x =? prev)%string then longest_repeat x l (current + 1) (Z.max best (current + 1))
      else longest_repeat x l 0 best
  end.

Definition repeats (s : string) : bool :=
  (50 <? Z.of_nat (String.length s))
  && match bigrams s with
     | [] => false
     | x :: l => 15 <? longest_repeat x l 0 0
     end.

(** Pattern 3: control characters and undecodable bytes. *)
Definition is_control_rune (r : Z) : bool :=
  (r =? rune_error) || ((r <? 32) && negb (r =? 10) && negb (r =? 13) && negb (r =? 9)).

Definition mostly_control (rs : list Z) : bool :=
  (10 <? total_runes rs) && (total_runes rs / 4 <? Z.of_nat (count_if is_control_rune rs)).

(** Pattern 4: the first quarter or the first half. *)
Definition filler_prefix (rs : list Z) (frac : Z) : bool :=
  let segLen := total_runes rs / frac in
  (20 <=? segLen) && mostly_filler (take (Z.to_nat segLen) rs).

Definition garbled_prefix (rs : list Z) : bool :=
  (80 <? total_runes rs) && (filler_prefix rs 4 || filler_prefix rs 2).

(** Pattern 5: two thirds of the lines are filler or stubs. *)
Definition filler_line (line : string) : bool :=
  let rs := runes line in
  ((0 <? total_runes rs) && (meaningful_runes rs <=? total_runes rs / 4))
  || ((total_runes rs <=? 8) && (meaningful_runes rs <=? 6)).

Definition garbled_lines (s : string) : bool :=
  let lines := List.filter (fun l => negb (l =? "")%string) (map trim_space (split_on "010" s)) in
  let n := Z.of_nat (length lines) in
  (100 <? Z.of_nat (String.length s)) && (5 <? n)
  && (n * 2 / 3 <=? Z.of_nat (length (List.filter filler_line lines))).

Definition isGarbledOutput (content : string) : bool :=
  let trimmed := trim_space content in
  if (trimmed =? "")%string then false
  else
    let rs := runes trimmed in
    mostly_filler rs || repeats trimmed || mostly_control rs || garbled_prefix rs || garbled_lines trimmed.

(** ** What can be saved of it *)

Definition isGarbledLine (line : string) : bool :=
  let total := total_runes (runes line) in
  let meaningful := meaningful_runes (runes line) in
  if total =? 0 then true
  else if total <=? 2 then meaningful =? 0
  else meaningful * 5 <? total * 2.

Definition narrationPrefixes : list string :=
  ["the user sent"; "the user asked"; "the user wants"; "the user is"; "the user has"; "the user gave";
   "the user said"; "the user requested"; "we need to"; "we should"; "we fetched"; "we turned"; "we called";
   "we got"; "now we need"; "now i need"; "let me "; "let's craft"; "let's respond"; "let's reply";
   "i need to"; "i should"; "i will"; "i'll "; "first, i"; "next, i"; "the tool responded";
   "the tool returned"; "the tool call"; "the tool succeeded"; "now we must"; "it seems the";
   "it seems like"; "it looks like"; "it appears that"; "use whatsapp"].

Definition isReasoningNarration (fold : Z -> Z) (line : string) : bool :=
  existsb (has_prefix (to_lower fold line)) narrationPrefixes.

(** [strings.Split(s, sep)] for any non-empty [sep]. *)
Fixpoint split_str (fuel : nat) (sep s : string) : list string :=
  match fuel with
  | O => [s]
  | S fuel => match str_cut sep s with Some (a, b) => a :: split_str fuel sep b | None => [s] end
  end.

Definition paragraphs (content : string) : list string :=
  split_str (String.length content) two_newlines content.

(** The walk backwards; the paragraphs come last one first, [clean] is in order. *)
Fixpoint salvage_loop (fold : Z -> Z) (back clean : list string) : list string :=
  match back with
  | [] => clean
  | p :: back =>
      let p := trim_space p in
      if (p =? "")%string then salvage_loop fold back clean
      else if isGarbledLine p || isReasoningNarration fold p then clean
      else salvage_loop fold back (p :: clean)
  end.

Definition salvageCleanSuffix (fold : Z -> Z) (content : string) : string :=
  let clean := salvage_loop fold (rev (paragraphs content)) [] in
  match clean with
  | [] => ""
  | _ =>
      let result := join two_newlines clean in
      if total_runes (runes result) <? 10 then "" else result
  end.

(** ** From the model's answer to the user's (steps of handleMessage) *)

Definition empty_reply : string := "Sorry, I wasn't able to generate a response. Please try again.".
Definition garbled_reply : string :=
  "Sorry, my response was garbled. This can happen near context limits or after model changes. Please try again or send /new to start a fresh session.".

(** A reply with neither text nor tool calls is replaced before the blocks and
    tokens are stripped, which happens before garbage is looked for. *)
Definition strip_reply (content : string) (toolCalls : nat) : string :=
  let content := if (trim_space content =? "")%string && (toolCalls =? 0)%nat then empty_reply else content in
  let '(cleaned, thinking) := stripThinkTags content in
  let content := if (thinking =? "")%string then content else cleaned in
  stripChatTemplateTokens content.

Definition clean_reply (fold : Z -> Z) (content : string) (toolCalls : nat) : string :=
  let content := strip_reply content toolCalls in
  if isGarbledOutput content then
    let salvaged := salvageCleanSuffix fold content in
    if (salvaged =? "")%string then garbled_reply else salvaged
  else content.

(** ** Texts for events and logs *)

Definition sanitizeSkillArgs (args : string) : string :=
  if (String.length args <=? 256)%nat then args else str_take 256 args +:+ "...".

Definition debugTruncate (s : string) (maxLen : nat) : string :=
  if (String.length s <=? maxLen)%nat then s else str_take maxLen s +:+ "... [truncated]".

(** ** What is stripped *)

(** A reply as it is read: texts, each followed by a block; then the last text,
    possibly followed by a block that is not closed. *)
Definition think_text (l : list (string * string)) (last : string) (unclosed : option string) : string :=
  fold_right (fun x rest => fst x +:+ "<think>" +:+ snd x +:+ "</think>" +:+ rest)
    (last +:+ match unclosed with Some k => "<think>" +:+ k | None => "" end) l.

Lemma think_loop_spec fuel s :
  (String.length s < fuel)%nat ->
  exists l last unclosed,
    s = think_text l last unclosed /\
    Forall (fun x => str_cut "<think>" (fst x) = None /\ str_cut "</think>" (snd x) = None) l /\
    str_cut "<think>" last = None /\
    (forall k, unclosed = Some k -> str_cut "</think>" k = None) /\
    think_loop fuel s
    = ((map fst l ++ [last])%list, (map (fun x => trim_space (snd x)) l ++ match unclosed with Some k => [trim_space k] | None => [] end)%list).
Proof.
  revert s. induction fuel as [|fuel IH]; intros s Hf; [lia|]. cbn [think_loop].
  destruct (str_cut "<think>" s) as [[before after]|] eqn:E1.
  - pose proof (str_cut_before "<think>" s before after ltac:(done) E1) as Hb.
    apply str_cut_sound in E1 as ->. destruct (str_cut "</think>" after) as [[inside rest]|] eqn:E2.
    + pose proof (str_cut_before "</think>" after inside rest ltac:(done) E2) as Hi.
      apply str_cut_sound in E2 as ->.
      destruct (IH rest) as (l & last & unclosed & -> & Hl & Hlast & Hu & ->).
      { revert Hf. rewrite !str_app_length. simpl. lia. }
      exists ((before, inside) :: l), last, unclosed. split; [done|]. split; [by constructor|]. done.
    + exists [], before, (Some after). split; [done|]. split; [constructor|]. split; [done|].
      split; [by intros ? [= <-]|done].
  - exists [], s, None. cbn. rewrite str_app_nil_r. repeat split; [constructor|done..].
Qed.

(** Reasoning blocks are removed whole.  Every reply reads as texts
    without an opening tag separated by blocks without a closing tag, possibly
    ending in an unclosed block; [stripThinkTags] returns exactly the texts,
    joined and trimmed, and, apart, the trimmed contents of the blocks. *)
Theorem strip_think_spec content :
  exists l last unclosed,
    content = think_text l last unclosed /\
    Forall (fun x => str_cut "<think>" (fst x) = None /\ str_cut "</think>" (snd x) = None) l /\
    str_cut "<think>" last = None /\
    (forall k, unclosed = Some k -> str_cut "</think>" k = None) /\
    stripThinkTags content =
      if match l, unclosed with [], None => true | _, _ => false end then (content, "")
      else (trim_space (join "" (map fst l ++ [last])),
            trim_space (join two_newlines (map (fun x => trim_space (snd x)) l
                                           ++ match unclosed with Some k => [trim_space k] | None => [] end))).
Proof.
  destruct (think_loop_spec (S (String.length content)) content ltac:(lia)) as (l & last & unclosed & Hc & Hl & Hlast & Hu & He).
  exists l, last, unclosed. do 4 (split; [done|]). unfold stripThinkTags, str_contains. rewrite He.
  assert (Ho : forall a b, str_cut "<think>" a = None -> str_cut "<think>" (a +:+ "<think>" +:+ b) = Some (a, b))
    by (intros a b; apply (str_cut_at_sep "<" "think>"); reflexivity).
  destruct l as [|[t k] l]; [destruct unclosed as [k|]|].
  - rewrite Hc at 1. cbn [think_text fold_right]. by rewrite Ho.
  - rewrite Hc at 1. cbn [think_text fold_right]. by rewrite str_app_nil_r, Hlast.
  - rewrite Hc at 1. cbn [think_text fold_right fst]. inversion Hl as [|? ? [Ht _] _]. by rewrite Ho.
Qed.

(** Texts, each followed by a token [<|x|>], then the last text. *)
Definition token_text (l : list (string * string)) (last : string) : string :=
  fold_right (fun x rest => fst x +:+ "<|" +:+ snd x +:+ "|>" +:+ rest) last l.

Lemma token_loop_spec fuel s :
  (String.length s < fuel)%nat ->
  exists l last, s = token_text l last /\
    Forall (fun x => str_cut "<|" (fst x) = None /\ str_cut "|>" (snd x) = None) l /\
    (forall a b, str_cut "<|" last = Some (a, b) -> str_cut "|>" b = None) /\
    token_loop fuel s = join "" (map fst l ++ [last]).
Proof.
  revert s. induction fuel as [|fuel IH]; intros s Hf; [lia|]. cbn [token_loop].
  destruct (str_cut "<|" s) as [[before after]|] eqn:E1; [destruct (str_cut "|>" after) as [[inside rest]|] eqn:E2|].
  - pose proof (str_cut_before "<|" s before after ltac:(done) E1) as Hb.
    pose proof (str_cut_before "|>" after inside rest ltac:(done) E2) as Hi.
    apply str_cut_sound in E1 as ->. apply str_cut_sound in E2 as ->.
    destruct (IH rest) as (l & last & -> & Hl & Hlast & ->).
    { revert Hf. rewrite !str_app_length. simpl. lia. }
    exists ((before, inside) :: l), last. split; [done|]. split; [by constructor|]. split; [done|].
    unfold join. cbn [map fst List.app]. destruct (map fst l); done.
  - exists [], s. split; [done|]. split; [constructor|]. split; [|done]. intros a b He. congruence.
  - exists [], s. split; [done|]. split; [constructor|]. split; [|done]. intros a b He. congruence.
Qed.

(** A text of at most ten characters is never taken for garbage. *)
Lemma segs_length s : (String.length s <= 4 * length (utf8_segs s))%nat.
Proof.
  induction s as [|a b r rest He IH] using utf8_ind; [simpl; lia|].
  assert (Hb : (String.length b <= 3)%nat).
  { clear IH. revert He. generalize (b +:+ rest). intros s. cbn [utf8_segs].
    destruct (accept_range (byte_of a)) as [lo hi]. destruct (_ <? 128); [by intros [= _ <- _]; simpl; lia|].
    destruct s as [|b1 s]; [by intros [= _ <- _]; simpl; lia|].
    destruct (_ && _ && _); [by intros [= _ <- _]; simpl; lia|].
    destruct s as [|b2 s]; [by intros [= _ <- _]; simpl; lia|].
    destruct (_ && _ && _ && _); [by intros [= _ <- _]; simpl; lia|].
    destruct s as [|b3 s]; [by intros [= _ <- _]; simpl; lia|].
    destruct (_ && _ && _ && _ && _); by intros [= _ <- _]; simpl; lia. }
  rewrite He. cbn [String.length length]. rewrite str_app_length. lia.
Qed.

Lemma short_not_garbled content :
  total_runes (runes (trim_space content)) <= 10 -> isGarbledOutput content = false.
Proof.
  unfold isGarbledOutput. set (t := trim_space content). intros Hn.
  pose proof (segs_length t) as Hl. unfold total_runes, runes in Hn. rewrite length_map in Hn.
  destruct (t =? "")%string; [done|]. cbv zeta.
  unfold mostly_filler, mostly_control, garbled_prefix, repeats, garbled_lines, total_runes, runes.
  rewrite !length_map.
  destruct (Z.ltb_spec 10 (Z.of_nat (length (utf8_segs t)))); [lia|].
  destruct (Z.ltb_spec 80 (Z.of_nat (length (utf8_segs t)))); [lia|].
  destruct (Z.ltb_spec 50 (Z.of_nat (String.length t))); [lia|].
  destruct (Z.ltb_spec 100 (Z.of_nat (String.length t))); [lia|]. done.
Qed.

(** *** The saved suffix *)

Definition sound_paragraph (fold : Z -> Z) (p : string) : Prop :=
  isGarbledLine p = false /\ isReasoningNarration fold p = false.

(** The trimmed paragraphs that are not blank. *)
Definition trimmed_paragraphs (l : list string) : list string :=
  List.filter (fun p => negb (p =? "")%string) (map trim_space l).

Lemma trimmed_app l1 l2 : trimmed_paragraphs (l1 ++ l2) = (trimmed_paragraphs l1 ++ trimmed_paragraphs l2)%list.
Proof. unfold trimmed_paragraphs. by rewrite map_app, List.filter_app. Qed.

Lemma salvage_loop_spec fold back clean :
  Forall (sound_paragraph fold) clean ->
  exists front tail,
    rev back = (front ++ tail)%list /\
    salvage_loop fold back clean = (trimmed_paragraphs tail ++ clean)%list /\
    Forall (sound_paragraph fold) (salvage_loop fold back clean) /\
    (front = [] \/ exists p front', front = (front' ++ [p])%list /\ ~ sound_paragraph fold (trim_space p)).
Proof.
  revert clean. induction back as [|p back IH]; intros clean Hc.
  - exists [], []. repeat split; [done|by left].
  - cbn [salvage_loop rev]. cbv zeta. destruct (String.eqb_spec (trim_space p) "") as [He|He].
    + destruct (IH clean Hc) as (front & tail & Hb & Hs & Hf & Hm). exists front, (tail ++ [p])%list.
      rewrite Hb, <- app_assoc, trimmed_app. repeat split; try done.
      unfold trimmed_paragraphs at 2. simpl. rewrite He. simpl. by rewrite app_nil_r.
    + destruct (isGarbledLine (trim_space p) || isReasoningNarration fold (trim_space p)) eqn:E.
      * exists (rev back ++ [p])%list, []. rewrite app_nil_r. repeat split; try done. right.
        exists p, (rev back). split; [done|]. intros [H1 H2]. by rewrite H1, H2 in E.
      * apply orb_false_iff in E. destruct (IH (trim_space p :: clean)) as (front & tail & Hb & Hs & Hf & Hm).
        { by constructor. }
        exists front, (tail ++ [p])%list. rewrite Hb, <- app_assoc, trimmed_app, Hs. repeat split; try done.
        -- unfold trimmed_paragraphs at 3. simpl. apply String.eqb_neq in He. rewrite He. simpl. by rewrite <- app_assoc.
        -- by rewrite <- Hs.
Qed.

(** What the user gets of a garbled reply.  A reply that is not garbage
    once stripped is sent as it is, and so is every reply of at most ten
    characters; of garbage, either the fixed notice is sent or a text of at
    least ten characters: the trimmed paragraphs of a suffix of the reply, none
    of them filler or narration, and none could be added. *)
Lemma clean_reply_sound fold content calls :
  let stripped := strip_reply content calls in
  let reply := clean_reply fold content calls in
  (isGarbledOutput stripped = false -> reply = stripped) /\
  (total_runes (runes (trim_space stripped)) <= 10 -> reply = stripped) /\
  (isGarbledOutput stripped = true ->
     reply = garbled_reply \/
     exists front tail,
       paragraphs stripped = (front ++ tail)%list /\
       reply = join two_newlines (trimmed_paragraphs tail) /\
       Forall (sound_paragraph fold) (trimmed_paragraphs tail) /\
       10 <= total_runes (runes reply) /\
       (front = [] \/ exists p front', front = (front' ++ [p])%list /\ ~ sound_paragraph fold (trim_space p))).
Proof.
  cbv zeta. unfold clean_reply. split; [by intros ->|]. split; [by intros H; rewrite short_not_garbled|]. intros ->.
  unfold salvageCleanSuffix. pose proof (salvage_loop_spec fold (rev (paragraphs (strip_reply content calls))) []
    ltac:(constructor)) as (front & tail & Hb & Hs & Hf & Hm).
  rewrite Hs in *. rewrite rev_involutive in Hb. rewrite app_nil_r in *.
  destruct (trimmed_paragraphs tail) as [|p ps] eqn:Et; [by left|].
  destruct (Z.ltb_spec (total_runes (runes (join two_newlines (p :: ps)))) 10) as [|Hn]; [by left|].
  destruct (String.eqb_spec (join two_newlines (p :: ps)) "") as [He|_].
  { rewrite He in Hn. by vm_compute in Hn. }
  right. exists front, tail. rewrite Et. by repeat split.
Qed.

(** Only reasoning: the guard against empty replies has passed, and the user
    gets an empty answer. *)
Example thinking_only_blank fold :
  clean_reply fold "<think>The user greets me.</think>" 0 = "".
Proof. reflexivity. Qed.

(** A block without text in it, which models emit when they are asked not to
    think, is not stripped: [stripThinkTags] reports no thinking. *)
Example empty_think_kept fold :
  clean_reply fold ("<think>" +:+ two_newlines +:+ "</think>Good morning to you.") 0
  = "<think>" +:+ two_newlines +:+ "</think>Good morning to you.".
Proof. vm_compute. reflexivity. Qed.

(** Removing a block can put a tag together. *)
Example think_tag_made :
  stripThinkTags "<thi<think>x</think>nk>hidden" = ("<think>hidden", "x").
Proof. vm_compute. reflexivity. Qed.

(** A line indented by forty blanks, or a rule of as many signs, is garbage to the second test. *)
Example indentation_garbled :
  isGarbledOutput ("def f():" +:+ String "010" ("                                        " +:+ "return compute(1)")) = true.
Proof. vm_compute. reflexivity. Qed.

Example salvage_demo fold : (forall r, r < 128 -> fold r = r) ->
  salvageCleanSuffix fold ("... -- ..." +:+ two_newlines +:+ "We should answer." +:+ two_newlines
                           +:+ "It is 21 degrees." +:+ two_newlines +:+ "Take a jacket.")
  = "It is 21 degrees." +:+ two_newlines +:+ "Take a jacket.".
Proof. intros _. vm_compute. reflexivity. Qed.
