(* ===== verification/ToolDedup.v ===== *)
(** * Repeated tool calls (agent/tooldedup.go)

    A language model may ask for the same tool call again and again.  Within
    one run every tool is wrapped in a guard that shares a tracker of the calls
    made, by tool name and hash of the arguments, and answers the repetitions
    itself. *)
From Stdlib Require Import ZArith Lia Bool Ascii String List.
From stdpp Require Import base gmap strings option list.
From S2P Require Import Prelude GoString Sha256.

Local Open Scope string_scope.
Local Open Scope Z_scope.
Local Open Scope state_scope.

Definition maxIdenticalToolCalls : Z := 4.
Definition maxIdenticalSkillExecCalls : Z := 2.

(** dedupKey *)
Abbreviation dedupKey := (string * list Z)%type.
Abbreviation toolCallTracker := (gmap dedupKey Z).
Definition newToolCallTracker : toolCallTracker := ∅.

Definition dedup_key (name argsJSON : string) : dedupKey := (name, sha256 argsJSON).

Definition call_limit (name : string) : Z :=
  if (name =? "skill_exec")%string then maxIdenticalSkillExecCalls else maxIdenticalToolCalls.

(** (count, exceeded) *)
Definition check (name argsJSON : string) (t : toolCallTracker) : (Z * bool) * toolCallTracker :=
  let key := dedup_key name argsJSON in
  let count := default 0 (t !! key) + 1 in
  ((count, call_limit name <? count), <[key := count]> t).

Definition exceeded_message (printable : Z -> bool) (name : string) (count : Z) : string :=
  let q := String "034" "" in
  let obj (text : string) := "{" +:+ q +:+ "error" +:+ q +:+ ":" +:+ q +:+ text +:+ q +:+ "}" in
  if (name =? "skill_exec")%string then
    obj "skill_exec has been called too many times with the same arguments. Do NOT call skill_exec again. Use the captions from the first tool result to write a summary, then call list_folders to get the youtube-videos folder ID (or create_folder if missing), then call create_note with that parent_id and tag_names. You MUST call create_note."
  else if (name =? "web_fetch")%string then
    obj "web_fetch has been called too many times with the same URL. The result will not change — do NOT retry. Use the title from the previous result and your knowledge to produce a summary. Proceed to create the Joplin note."
  else
    obj ("Tool " +:+ go_quote printable name +:+ " has been called " +:+ fmt_d count
         +:+ " times with identical arguments. The result will not change — do NOT call it again. Use the data you already have and proceed to the next step.").

(** A tool: its name and description, when [Info] succeeds, and what it does. *)
Record tool (St : Type) := {
  tl_Info : result string (string * string);
  tl_InvokableRun : option (string -> State St (result string string)) }.
Arguments tl_Info {St}. Arguments tl_InvokableRun {St}. Arguments Build_tool {St}.

Section tools.
Context {St : Type} (printable : Z -> bool).

(** The name is empty when [Info] fails: its error is ignored. *)
Definition tool_name (t : tool St) : string :=
  match tl_Info t with Ok (name, _) => name | Err _ => "" end.

Definition InvokableRun (name : string) (inner : string -> State St (result string string)) (argumentsInJSON : string)
    : State (toolCallTracker * St) (result string string) := fun s =>
  let '((count, exceeded), tr) := check name argumentsInJSON (fst s) in
  if exceeded then (Ok (exceeded_message printable name count), (tr, snd s))
  else let '(r, st) := inner argumentsInJSON (snd s) in (r, (tr, st)).

(** The state of the wrapped tools carries the tracker they share. *)
Definition wrapToolsWithDedup (tools : list (tool St)) : list (tool (toolCallTracker * St)) :=
  map (fun t => Build_tool (tl_Info t) (InvokableRun (tool_name t) <$> tl_InvokableRun t)) tools.

Definition sanitizeToolDescriptions (tools : list (tool St)) : list (tool St) :=
  map (fun t =>
    match tl_InvokableRun t with
    | None => t
    | Some _ =>
        Build_tool
          (match tl_Info t with
           | Ok (name, desc) => Ok (name, if (desc =? "")%string then name else desc)
           | Err e => Err e
           end)
          (tl_InvokableRun t)
    end) tools.

(** ** A run of calls *)

(** The model's calls, by index among the tools, in order, and the results. *)
Fixpoint run_calls (tools : list (tool (toolCallTracker * St))) (calls : list (nat * string))
    : State (toolCallTracker * St) (list (option (result string string))) :=
  match calls with
  | [] => sret []
  | (i, args) :: calls =>
      match tools !! i ≫= tl_InvokableRun with
      | None => do rs <- run_calls tools calls; sret (None :: rs)
      | Some invoke => do r <- invoke args; do rs <- run_calls tools calls; sret (Some r :: rs)
      end
  end.
End tools.

(** ** How often a tool runs *)

Section counting.
Context {St : Type} (printable : Z -> bool) (tools : list (tool St)).

(** Tools that count their own runs. *)
Definition counted (t : tool St) : tool (list dedupKey * St) :=
  Build_tool (tl_Info t)
    ((fun invoke args s => let '(r, st) := invoke args (snd s) in
        (r, ((fst s ++ [dedup_key (tool_name t) args])%list, st))) <$> tl_InvokableRun t).

(** The key of a call to an invokable tool. *)
Definition call_key (c : nat * string) : option dedupKey :=
  t ← tools !! fst c; match tl_InvokableRun t with Some _ => Some (dedup_key (tool_name t) (snd c)) | None => None end.

Definition asked (k : dedupKey) (calls : list (nat * string)) : Z :=
  Z.of_nat (count_if (fun c => bool_decide (call_key c = Some k)) calls).

Definition ran (k : dedupKey) (log : list dedupKey) : Z := Z.of_nat (count_if (fun x => bool_decide (x = k)) log).

Lemma tool_at i : wrapToolsWithDedup printable (map counted tools) !! i
  = (fun t => Build_tool (tl_Info t) (InvokableRun printable (tool_name (counted t)) <$> tl_InvokableRun (counted t))) <$> tools !! i.
Proof. unfold wrapToolsWithDedup. rewrite !list_lookup_fmap. by destruct (tools !! i). Qed.

Lemma count_cons {A} (p : A -> bool) x l : count_if p (x :: l) = ((if p x then 1 else 0) + count_if p l)%nat.
Proof. unfold count_if. simpl. by destruct (p x). Qed.

Lemma ran_snoc k log x : ran k (log ++ [x]) = ran k log + (if bool_decide (x = k) then 1 else 0).
Proof. unfold ran. rewrite count_if_app, count_cons. unfold count_if at 2. simpl. destruct (bool_decide _); lia. Qed.

(** What the tracker and the log say of the calls made so far. *)
Definition tracked (before : dedupKey -> Z) (s : toolCallTracker * (list dedupKey * St)) : Prop :=
  forall k, 0 <= before k /\ default 0 (fst s !! k) = before k /\ ran k (fst (snd s)) = Z.min (call_limit (fst k)) (before k).

Lemma limit_pos name : 0 < call_limit name.
Proof. unfold call_limit. by destruct (_ =? _)%string. Qed.

Lemma asked_cons k c calls :
  asked k (c :: calls) = (if bool_decide (call_key c = Some k) then 1 else 0) + asked k calls.
Proof. unfold asked. rewrite count_cons. destruct (bool_decide _); lia. Qed.

Lemma run_calls_tracked calls before s :
  tracked before s ->
  tracked (fun k => before k + asked k calls)
    (snd (run_calls (wrapToolsWithDedup printable (map counted tools)) calls s)).
Proof.
  revert before s. induction calls as [|[i args] calls IH]; intros before s Ht.
  - intros k. unfold asked, count_if. simpl. rewrite Z.add_0_r. apply Ht.
  - assert (Hskip : call_key (i, args) = None ->
      tracked (fun k => before k + asked k ((i, args) :: calls))
        (snd (run_calls (wrapToolsWithDedup printable (map counted tools)) calls s))).
    { intros Hn k. rewrite asked_cons, Hn. apply (IH before s Ht k). }
    cbn [run_calls]. rewrite tool_at.
    destruct (tools !! i) as [t|] eqn:Ei; [destruct (tl_InvokableRun t) as [invoke|] eqn:Er|];
      cbn -[InvokableRun]; rewrite ?Er; cbn -[InvokableRun].
    2,3: specialize (Hskip ltac:(unfold call_key; cbn; rewrite Ei; cbn; by rewrite ?Er));
      unfold sbind; by destruct (run_calls _ calls s) as [rs s'].
    clear Hskip. set (key := dedup_key (tool_name t) args).
    assert (Hkey : call_key (i, args) = Some key) by (unfold call_key; cbn; rewrite Ei; cbn; by rewrite Er).
    unfold sbind. match goal with |- context [InvokableRun ?p ?n ?f ?a s] => set (step := InvokableRun p n f a s) end.
    assert (Hs : tracked (fun k => before k + (if bool_decide (Some key = Some k) then 1 else 0)) (snd step)).
    { intros k. destruct (Ht key) as (Hk0 & Hk1 & Hk2). destruct (Ht k) as (Hp0 & Hp1 & Hp2).
      unfold step, InvokableRun, check. change (tool_name (counted t)) with (tool_name t). cbv zeta. fold key.
      rewrite Hk1. pose proof (limit_pos (fst k)).
      destruct (call_limit (tool_name t) <? before key + 1) eqn:El.
      - apply Z.ltb_lt in El. cbn [fst snd]. case_bool_decide as Heq.
        + injection Heq as <-. rewrite lookup_insert_eq. cbn [default]. split; [lia|]. split; [done|].
          rewrite Hk2. change (fst key) with (tool_name t). lia.
        + rewrite lookup_insert_ne by congruence. by rewrite Z.add_0_r.
      - apply Z.ltb_ge in El. destruct (invoke args (snd (snd s))) as [r st]. cbn [fst snd].
        rewrite ran_snoc. fold key. case_bool_decide as Heq.
        + injection Heq as <-. rewrite bool_decide_eq_true_2 by done. rewrite lookup_insert_eq. cbn [default].
          split; [lia|]. split; [done|]. rewrite Hk2. change (fst key) with (tool_name t). lia.
        + rewrite bool_decide_eq_false_2 by congruence. rewrite lookup_insert_ne by congruence. by rewrite !Z.add_0_r. }
    destruct step as [r s1]. specialize (IH _ _ Hs). cbn [snd] in IH |- *.
    destruct (run_calls _ calls s1) as [rs s2]. intros k. rewrite asked_cons, Hkey. cbn [sret snd] in IH |- *.
    destruct (IH k) as (? & ? & ?). rewrite Z.add_assoc. done.
Qed.

(** A tool runs a bounded number of times on the same arguments.  Over any
    calls the model makes in one run, in any order and to any tools, a tool runs
    on given arguments (told apart by their SHA-256 hash) as often as asked, but
    at most four times, twice for [skill_exec]. *)
Lemma dedup_bounds_runs calls st k :
  ran k (fst (snd (snd (run_calls (wrapToolsWithDedup printable (map counted tools)) calls
                          (newToolCallTracker, ([], st))))))
  = Z.min (call_limit (fst k)) (asked k calls).
Proof.
  pose proof (run_calls_tracked calls (fun _ => 0) (newToolCallTracker, ([], st))) as Ht.
  destruct (Ht ltac:(intros k'; pose proof (limit_pos (fst k')); unfold newToolCallTracker; cbn [fst snd];
    rewrite lookup_empty; unfold ran, count_if; simpl; lia) k) as (_ & _ & Hr). exact Hr.
Qed.
End counting.

(** Two tools that cannot be told by name, because their [Info] fails, share
    their counters. *)
Example unnamed_tools_share printable :
  let t r := Build_tool (Err "no info") (Some (fun _ (n : nat) => (Ok r, S n))) in
  let '(rs, (_, n)) := run_calls (wrapToolsWithDedup printable [t "a"; t "b"])
                         [(0%nat, "{}"); (0%nat, "{}"); (0%nat, "{}"); (0%nat, "{}"); (1%nat, "{}")]
                         (newToolCallTracker, 0%nat) in
  n = 4%nat /\ nth 4 rs None <> Some (Ok "b").
Proof. vm_compute. split; [reflexivity|discriminate]. Qed.
