(* ===== verification/Usage.v ===== *)
(** * Token usage and costs (agent/usage.go)

    What the agent counts of each session's requests: tokens, costs, and how
    full the model's context window is. *)
From Stdlib Require Import ZArith Lia Bool Ascii String List.
From Corelib Require Import SpecFloat.
From stdpp Require Import base gmap strings option list.
From S2P Require Import Prelude GoString GoTime GoFloat Models.

#[local] Set Warnings "-register-all".
Local Open Scope string_scope.
Local Open Scope Z_scope.

(** ** Counting one request's calls *)

Record requestTokenAccumulator := {
  ta_promptTokens : Z;
  ta_completionTokens : Z;
  ta_steps : Z;                 (* an int32 *)
  ta_lastPromptTokens : Z;
  ta_lastTTFTNs : Z;
  ta_lastGenDurNs : Z }.

Definition no_tokens : requestTokenAccumulator := Build_requestTokenAccumulator 0 0 0 0 0 0.

Definition int32 (z : Z) : Z := (z + 2 ^ 31) mod 2 ^ 32 - 2 ^ 31.

Definition Add (prompt completion : Z) (a : requestTokenAccumulator) : requestTokenAccumulator := {|
  ta_promptTokens := int64 (ta_promptTokens a + prompt);
  ta_completionTokens := int64 (ta_completionTokens a + completion);
  ta_steps := int32 (ta_steps a + 1);
  ta_lastPromptTokens := prompt;
  ta_lastTTFTNs := ta_lastTTFTNs a;
  ta_lastGenDurNs := ta_lastGenDurNs a |}.

Definition AddTiming (ttft genDuration : Z) (a : requestTokenAccumulator) : requestTokenAccumulator := {|
  ta_promptTokens := ta_promptTokens a;
  ta_completionTokens := ta_completionTokens a;
  ta_steps := ta_steps a;
  ta_lastPromptTokens := ta_lastPromptTokens a;
  ta_lastTTFTNs := ttft;
  ta_lastGenDurNs := genDuration |}.

(** ** Costs *)

(** Model names or parts of them, with the prices of a token read and of a
    token written. *)
Definition modelCostPerToken : list (string * (float64 * float64)) :=
  [("gpt-4o", (f_const 25 (-7), f_const 10 (-6)));
   ("gpt-4o-mini", (f_const 15 (-8), f_const 6 (-7)));
   ("gpt-4-turbo", (f_const 10 (-6), f_const 30 (-6)));
   ("gpt-4", (f_const 30 (-6), f_const 60 (-6)));
   ("gpt-3.5-turbo", (f_const 5 (-7), f_const 15 (-7)));
   ("claude-sonnet", (f_const 3 (-6), f_const 15 (-6)));
   ("claude-haiku", (f_const 25 (-8), f_const 125 (-8)));
   ("claude-opus", (f_const 15 (-6), f_const 75 (-6)));
   ("o1", (f_const 15 (-6), f_const 60 (-6)));
   ("o1-mini", (f_const 3 (-6), f_const 12 (-6)));
   ("o3-mini", (f_const 11 (-7), f_const 44 (-7)));
   ("gemini-1.5-pro", (f_const 125 (-8), f_const 5 (-6)));
   ("gemini-1.5-flash", (f_const 75 (-9), f_const 3 (-7)));
   ("mistral-large", (f_const 2 (-6), f_const 6 (-6)));
   ("mistral-small", (f_const 2 (-7), f_const 6 (-7)))].

(** The table is a Go map: [order] is the order in which an iteration visits
    it, a permutation that differs from call to call. *)
Definition estimateCost (fold : Z -> Z) (order : list (string * (float64 * float64))) (model : string)
    (inputTokens outputTokens : Z) : float64 :=
  match List.find (fun e => str_contains (to_lower fold model) (fst e)) order with
  | Some (_, (i, o)) => f_add (f_mul (f_of_int inputTokens) i) (f_mul (f_of_int outputTokens) o)
  | None => float_zero
  end.

(** ** Sessions *)

Record SessionUsage := {
  su_TotalInputTokens : Z;
  su_TotalOutputTokens : Z;
  su_TotalRequests : Z;
  su_EstimatedCostUSD : float64;
  su_ContextWindowSize : Z;
  su_LastUsagePercent : float64;
  su_LastPromptTokens : Z;
  su_LastRequestInputTokens : Z;
  su_StartedAt : Z }.

(** The map [sessions]; the model and the window are fixed. *)
Abbreviation UsageTracker := (gmap string SessionUsage).
Definition NewUsageTracker : UsageTracker := ∅.

Section tracker.
Context (fold : Z -> Z) (model : string) (contextWindowMax : Z).

Definition new_usage (now : Z) : SessionUsage :=
  Build_SessionUsage 0 0 0 float_zero 0 float_zero 0 0 now.

Definition percent (part whole : Z) : float64 := f_mul (f_div (f_of_int part) (f_of_int whole)) (f_of_int 100).

Definition fill_percent (lastPromptTokens : Z) : float64 :=
  let p := percent lastPromptTokens contextWindowMax in
  if f_ltb (f_of_int 100) p then f_of_int 100 else p.

(** [order]: the iteration of the price table in this call. *)
Definition record_usage (order : list (string * (float64 * float64))) (inputTokens outputTokens lastPromptTokens : Z)
    (u : SessionUsage) : SessionUsage := {|
  su_TotalInputTokens := int64 (su_TotalInputTokens u + inputTokens);
  su_TotalOutputTokens := int64 (su_TotalOutputTokens u + outputTokens);
  su_TotalRequests := int64 (su_TotalRequests u + 1);
  su_EstimatedCostUSD := f_add (su_EstimatedCostUSD u) (estimateCost fold order model inputTokens outputTokens);
  su_ContextWindowSize := if 0 <? contextWindowMax then contextWindowMax else su_ContextWindowSize u;
  su_LastUsagePercent := if 0 <? contextWindowMax then fill_percent lastPromptTokens else su_LastUsagePercent u;
  su_LastPromptTokens := if 0 <? contextWindowMax then lastPromptTokens else su_LastPromptTokens u;
  su_LastRequestInputTokens := inputTokens;
  su_StartedAt := su_StartedAt u |}.

Definition Record_ (order : list (string * (float64 * float64))) (now : Z) (sessionKey : string)
    (inputTokens outputTokens lastPromptTokens : Z) (t : UsageTracker) : UsageTracker :=
  <[sessionKey := record_usage order inputTokens outputTokens lastPromptTokens
                    (default (new_usage now) (t !! sessionKey))]> t.

Definition Get (sessionKey : string) (t : UsageTracker) : option SessionUsage := t !! sessionKey.
Definition Reset (sessionKey : string) (t : UsageTracker) : UsageTracker := delete sessionKey t.

Definition nl : string := String "010" "".

Definition FormatUsage (sessionKey : string) (t : UsageTracker) : string :=
  match Get sessionKey t with
  | None => "No usage data for this session."
  | Some u =>
      "*Session Usage*" +:+ nl +:+ nl
      +:+ "- Model: " +:+ model +:+ nl
      +:+ "- Session started: " +:+ format_rfc3339 (su_StartedAt u) +:+ nl
      +:+ "- Total requests: " +:+ fmt_d (su_TotalRequests u) +:+ nl
      +:+ "- Input tokens: " +:+ fmt_d (su_TotalInputTokens u) +:+ nl
      +:+ "- Output tokens: " +:+ fmt_d (su_TotalOutputTokens u) +:+ nl
      +:+ "- Total tokens: " +:+ fmt_d (int64 (su_TotalInputTokens u + su_TotalOutputTokens u)) +:+ nl
      +:+ (if 0 <? su_ContextWindowSize u then
             "- Context window: " +:+ fmt_d (su_ContextWindowSize u) +:+ " tokens" +:+ nl
             +:+ "- Last context usage: " +:+ fmt_fixed 1 (su_LastUsagePercent u) +:+ "%" +:+ nl
           else "")
      +:+ "- Estimated cost: $" +:+ fmt_fixed 6 (su_EstimatedCostUSD u) +:+ " USD" +:+ nl
  end.
End tracker.

(** ** The footer of an answer *)

Record FooterTiming := { ft_TTFT : Z; ft_GenerationDuration : Z }.

Definition FormatResponseFooter (fold : Z -> Z) (order : list (string * (float64 * float64))) (model : string)
    (promptTokens completionTokens steps lastPromptTokens contextWindowMax compactionThresholdPct elapsed : Z)
    (timing : option FooterTiming) : string :=
  let secs := duration_seconds elapsed in
  let total := int64 (promptTokens + completionTokens) in
  nl +:+ nl +:+ "—" +:+ nl +:+ fmt_fixed 2 secs +:+ "s"
  +:+ (if 0 <? total then
         let gen := match timing with Some t => ft_GenerationDuration t | None => 0 end in
         let tokPerSec :=
           if (0 <? gen) && (0 <? completionTokens) then f_div (f_of_int completionTokens) (duration_seconds gen)
           else if f_ltb float_zero secs && (0 <? completionTokens) then f_div (f_of_int completionTokens) secs
           else float_zero in
         let cost := estimateCost fold order model promptTokens completionTokens in
         " · " +:+ fmt_d total +:+ " tokens (in: " +:+ fmt_d promptTokens +:+ ", out: " +:+ fmt_d completionTokens +:+ ")"
         +:+ (if 1 <? steps then " · " +:+ fmt_d steps +:+ " steps" else "")
         +:+ (if f_ltb float_zero tokPerSec then " · " +:+ fmt_fixed 0 tokPerSec +:+ " tok/s" else "")
         +:+ match timing with
             | Some t => if 0 <? ft_TTFT t then " · TTFT: " +:+ fmt_fixed 2 (duration_seconds (ft_TTFT t)) +:+ "s" else ""
             | None => ""
             end
         +:+ (if (0 <? contextWindowMax) && (0 <? lastPromptTokens) then
                " · Ctx: " +:+ fmt_fixed 0 (percent lastPromptTokens contextWindowMax) +:+ "%"
                +:+ (if 0 <? compactionThresholdPct then "/" +:+ fmt_d compactionThresholdPct +:+ "%" else "")
              else "")
         +:+ (if f_ltb float_zero cost then " · $" +:+ fmt_fixed 4 cost else "")
       else "").

(** ** What the tracker adds up *)

Lemma int64_add a b : int64 (int64 a + b) = int64 (a + b).
Proof.
  unfold int64. replace (a + b + 2 ^ 63) with ((a + 2 ^ 63) + b) by lia.
  replace ((a + 2 ^ 63) mod 2 ^ 64 - 2 ^ 63 + b + 2 ^ 63) with ((a + 2 ^ 63) mod 2 ^ 64 + b) by lia.
  by rewrite Zplus_mod_idemp_l.
Qed.

Section sums.
Context (fold : Z -> Z) (model : string) (contextWindowMax : Z).

(** One call of [Record]. *)
Record usage_call := {
  uc_order : list (string * (float64 * float64)); uc_now : Z; uc_key : string;
  uc_input : Z; uc_output : Z; uc_prompt : Z }.

Definition do_record (t : UsageTracker) (c : usage_call) : UsageTracker :=
  Record_ fold model contextWindowMax (uc_order c) (uc_now c) (uc_key c) (uc_input c) (uc_output c) (uc_prompt c) t.

Definition calls_of (key : string) (calls : list usage_call) : list usage_call :=
  List.filter (fun c => (uc_key c =? key)%string) calls.

Definition total (f : usage_call -> Z) (calls : list usage_call) : Z := fold_right (fun c s => f c + s) 0 calls.

(** The usage after the calls of one session, the last one first. *)
Definition sums (calls : list usage_call) (u : SessionUsage) : Prop :=
  match calls with
  | [] => False
  | c :: _ =>
      su_TotalInputTokens u = int64 (total uc_input calls) /\
      su_TotalOutputTokens u = int64 (total uc_output calls) /\
      su_TotalRequests u = int64 (Z.of_nat (length calls)) /\
      su_LastRequestInputTokens u = uc_input c /\
      (0 < contextWindowMax -> su_LastPromptTokens u = uc_prompt c /\
         su_LastUsagePercent u = fill_percent contextWindowMax (uc_prompt c)) /\
      su_StartedAt u = uc_now (List.last calls c)
  end.

Lemma last_default {A} (x : A) l d d' : List.last (x :: l) d = List.last (x :: l) d'.
Proof. revert x. induction l as [|y l IH]; intros x; [done|]. apply (IH y). Qed.

Lemma record_sums calls c u :
  match calls with [] => u = new_usage (uc_now c) | _ => sums calls u end ->
  sums (c :: calls)
    (record_usage fold model contextWindowMax (uc_order c) (uc_input c) (uc_output c) (uc_prompt c) u).
Proof.
  intros H. unfold sums, record_usage.
  cbn [su_TotalInputTokens su_TotalOutputTokens su_TotalRequests su_LastRequestInputTokens su_LastPromptTokens
       su_LastUsagePercent su_StartedAt].
  assert (Hw : 0 < contextWindowMax -> (0 <? contextWindowMax) = true) by (intros; by apply Z.ltb_lt).
  destruct calls as [|c0 calls].
  - subst u. unfold new_usage, total. cbn. rewrite !Z.add_0_r. repeat split; intros; rewrite Hw by done; done.
  - destruct H as (-> & -> & -> & _ & _ & Hs). rewrite Hs, !int64_add.
    split; [f_equal; unfold total; simpl; lia|]. split; [f_equal; unfold total; simpl; lia|].
    split; [f_equal; cbn [length]; lia|]. split; [done|]. split; [by intros Hp; rewrite Hw|].
    f_equal. cbn [List.last]. destruct calls as [|c1 calls]; [done|]. apply last_default.
Qed.

Lemma calls_snoc key calls c :
  calls_of key (calls ++ [c]) = (calls_of key calls ++ if (uc_key c =? key)%string then [c] else [])%list.
Proof. unfold calls_of. rewrite List.filter_app. simpl. by destruct (_ =? _)%string. Qed.

(** The tracker's figures are those of the session's own requests: after
    any requests of any sessions, a session has the sums (in Go's 64-bit
    integers) of the tokens of its own, how many they were, and the context
    fill of the last one; a session without requests has no figures. *)
Lemma usage_tracks calls key :
  match Get key (fold_left do_record calls NewUsageTracker) with
  | None => calls_of key calls = []
  | Some u => sums (rev (calls_of key calls)) u
  end.
Proof.
  induction calls as [|c calls IH] using rev_ind; [done|].
  rewrite fold_left_app, calls_snoc, rev_app_distr. cbn [fold_left].
  unfold Get in *. unfold do_record at 1, Record_.
  destruct (String.eqb_spec (uc_key c) key) as [->|Hne].
  - rewrite lookup_insert_eq. cbn [rev List.app]. apply record_sums.
    destruct (fold_left do_record calls NewUsageTracker !! key) as [u|]; cbn [default].
    + by destruct (rev (calls_of key calls)).
    + by rewrite IH.
  - rewrite lookup_insert_ne by done. cbn [rev List.app]. by rewrite app_nil_r.
Qed.
End sums.

(** Prices are looked up by substring in the order of a map iteration: the cost
    of a model whose name contains several entries' depends on it. *)
Example cost_depends_on_order :
  let cost order := fmt_fixed 6 (estimateCost (fun r => r) order "gpt-4o-mini" 1000000 0) in
  cost modelCostPerToken = "2.500000" /\ cost (rev modelCostPerToken) = "30.000000".
Proof. vm_compute. done. Qed.

Example footer_demo :
  FormatResponseFooter (fun r => r) modelCostPerToken "gpt-4-turbo" 1200 300 2 900 8000 60 2500000000
    (Some (Build_FooterTiming 400000000 1500000000))
  = nl +:+ nl +:+ "—" +:+ nl
    +:+ "2.50s · 1500 tokens (in: 1200, out: 300) · 2 steps · 200 tok/s · TTFT: 0.40s · Ctx: 11%/60% · $0.0210".
Proof. vm_compute. reflexivity. Qed.
