(* ===== verification/SessionTypes.v ===== *)
(** * Session files: data (pkg/session/types.go and the records of store.go, lock.go)

    The files of the session store are values: a metadata file is a [Session],
    [sessions.json] a [sessionIndex], a lock file its [lockContent], a
    transcript its lines.  A file that decodes as none of these is [FBad].  The
    JSON text is kept only where the code depends on it, the length of a
    transcript line ([line_size]). *)
From Stdlib Require Import ZArith Bool Ascii String List.
From stdpp Require Import base gmap strings option list.
From S2P Require Import Prelude GoString GoTime GoJson Models.

Local Open Scope string_scope.
Local Open Scope Z_scope.

(** ** types.go *)

Inductive SessionStatus := StatusActive | StatusArchived | StatusExpired.

Record ContextUsage := {
  cu_InputTokens : Z;
  cu_OutputTokens : Z;
  cu_CacheReadTokens : Z;
  cu_ContextWindow : Z;
  cu_UsagePercent : float64 }.

Record SessionMetadata := {
  sm_Model : string;
  sm_CompactionLevel : string;
  sm_CompactionCount : Z;
  sm_MessageCount : Z;
  sm_ContextUsage : ContextUsage;
  sm_LastActivityAt : Z;
  sm_ChannelMeta : jsonv }.

Record Session := {
  se_Key : string;
  se_ID : string;
  se_UserID : string;
  se_ChannelType : string;
  se_Status : SessionStatus;
  se_Metadata : SessionMetadata;
  se_CreatedAt : Z;
  se_UpdatedAt : Z }.

Record TranscriptLine := {
  tl_Role : string;
  tl_Content : string;
  tl_Timestamp : Z;
  tl_RunID : string;
  tl_TokenCount : Z }.

Record CreateSessionRequest := {
  cr_UserID : string;
  cr_SessionID : string;
  cr_ChannelType : string;
  cr_Model : string;
  cr_ChannelMeta : jsonv }.

(** The zero usage. *)
Definition no_usage : ContextUsage := {|
  cu_InputTokens := 0; cu_OutputTokens := 0; cu_CacheReadTokens := 0;
  cu_ContextWindow := 0; cu_UsagePercent := SpecFloat.S754_zero false |}.

(** ** The session index (store.go) *)

Record sessionIndexEntry := {
  ie_SessionID : string;
  ie_SessionKey : string;
  ie_ChannelType : string;
  ie_Status : SessionStatus;
  ie_Model : string;
  ie_MessageCount : Z;
  ie_CreatedAt : Z;
  ie_UpdatedAt : Z }.

Record sessionIndex := {
  ix_UserID : string;
  ix_Sessions : list sessionIndexEntry;
  ix_UpdatedAt : Z }.

Definition sessionToIndexEntry (sess : Session) : sessionIndexEntry := {|
  ie_SessionID := se_ID sess;
  ie_SessionKey := se_Key sess;
  ie_ChannelType := se_ChannelType sess;
  ie_Status := se_Status sess;
  ie_Model := sm_Model (se_Metadata sess);
  ie_MessageCount := sm_MessageCount (se_Metadata sess);
  ie_CreatedAt := se_CreatedAt sess;
  ie_UpdatedAt := se_UpdatedAt sess |}.

(** The fields the index does not have are zero: the user, the counters, the
    last activity and the channel metadata. *)
Definition indexEntryToSession (e : sessionIndexEntry) : Session := {|
  se_Key := ie_SessionKey e;
  se_ID := ie_SessionID e;
  se_UserID := "";
  se_ChannelType := ie_ChannelType e;
  se_Status := ie_Status e;
  se_Metadata := {|
    sm_Model := ie_Model e; sm_CompactionLevel := ""; sm_CompactionCount := 0;
    sm_MessageCount := ie_MessageCount e; sm_ContextUsage := no_usage;
    sm_LastActivityAt := time_zero; sm_ChannelMeta := JNull |};
  se_CreatedAt := ie_CreatedAt e;
  se_UpdatedAt := ie_UpdatedAt e |}.

(** ** The lock file (lock.go) *)

Record lockContent := {
  lc_PID : Z;
  lc_AcquiredAt : string;
  lc_UserID : string }.

(** ** Transcript lines *)

(** The JSON text of a line: [runId] and [tokenCount] have [omitempty]. *)
Definition line_text (l : TranscriptLine) : string :=
  "{" +:+ json_quote "role" +:+ ":" +:+ json_quote (tl_Role l)
  +:+ "," +:+ json_quote "content" +:+ ":" +:+ json_quote (tl_Content l)
  +:+ "," +:+ json_quote "timestamp" +:+ ":" +:+ json_quote (format_nano (tl_Timestamp l))
  +:+ (if (tl_RunID l =? "")%string then ""
       else "," +:+ json_quote "runId" +:+ ":" +:+ json_quote (tl_RunID l))
  +:+ (if tl_TokenCount l =? 0 then ""
       else "," +:+ json_quote "tokenCount" +:+ ":" +:+ fmt_d (tl_TokenCount l))
  +:+ "}".

Definition line_size (l : TranscriptLine) : Z := Z.of_nat (String.length (line_text l)).

(** A line of a transcript file: its length without the newline and what
    [LoadTranscript] makes of it. *)
Inductive line_content :=
| LJson (l : TranscriptLine)
| LBlank
| LMalformed.

Record raw_line := RawLine { rl_size : Z; rl_content : line_content }.

Definition encode_line (l : TranscriptLine) : raw_line := RawLine (line_size l) (LJson l).

(** ** File contents *)

Inductive FileData :=
| FMeta (s : Session)
| FIndex (i : sessionIndex)
| FLock (l : lockContent)
| FLines (ls : list raw_line)
| FBad.

Definition as_session (d : FileData) : option Session := match d with FMeta s => Some s | _ => None end.
Definition as_index (d : FileData) : option sessionIndex := match d with FIndex i => Some i | _ => None end.
Definition as_lock (d : FileData) : option lockContent := match d with FLock l => Some l | _ => None end.
Definition as_lines (d : FileData) : list raw_line := match d with FLines l => l | _ => [] end.
