(* ===== verification/SessionText.v ===== *)
(** * The text of a transcript (pkg/session/store.go, AppendTranscript and LoadTranscript)

    The session store is modelled over lines of a transcript as values.  This file
    has the bytes: what [AppendTranscript] writes for a line and what
    [LoadTranscript] makes of the bytes of a file.  [transcript_text_roundtrip]
    says that the second undoes the first, so that the values stand for the
    bytes. *)
From Stdlib Require Import ZArith Lia Bool Ascii String List.
From stdpp Require Import base gmap strings option list.
From S2P Require Import Prelude GoString GoTime GoJson GoJsonParse GoJsonProofs Models SessionTypes.

Local Open Scope string_scope.
Local Open Scope Z_scope.
Local Open Scope reader_scope.

(** [parseStrictRFC3339], which [time.Time.UnmarshalJSON] uses: an hour of one digit,
    a comma before the fraction and an offset of a day or more are refused. *)
Definition strict_rfc3339 (s : string) : option Z :=
  let tail := str_drop (String.length s - 5) s in
  if bool_decide (String.get 12 s = Some ":"%char) || bool_decide (String.get 19 s = Some ","%char)
     || negb (has_suffix s "Z") && (has_prefix tail "24" || has_suffix tail "60")
  then None else parse_rfc3339 s.

Definition dec_time : decoder Z := fun v x =>
  match v with
  | VNull => (x, false)
  | VStr s => match strict_rfc3339 s with Some t => (t, false) | None => (x, true) end
  | _ => (x, true)
  end.

Definition zero_line : TranscriptLine := Build_TranscriptLine "" "" time_zero "" 0.

Definition dec_TranscriptLine : decoder TranscriptLine := dec_struct (fun x =>
  let f {B} := @field B ["role"; "content"; "timestamp"; "runId"; "tokenCount"] in
  Build_TranscriptLine
    <$$> f "role" dec_string (tl_Role x)
    <*> f "content" dec_string (tl_Content x)
    <*> f "timestamp" dec_time (tl_Timestamp x)
    <*> f "runId" dec_string (tl_RunID x)
    <*> f "tokenCount" dec_int64 (tl_TokenCount x)).

Definition newline : ascii := "010"%char.

(** The lines [bufio.ScanLines] gives: without the newline and a carriage return
    before it; nothing after the last newline is no line. *)
Definition drop_cr (s : string) : string :=
  let n := (String.length s - 1)%nat in if (str_drop n s =? String "013" "")%string then str_take n s else s.

Definition scan_text (s : string) : list string :=
  let ws := split_on newline s in
  map drop_cr (if bool_decide (last ws = Some "") then removelast ws else ws).

(** One turn of the loop of [LoadTranscript]. *)
Definition read_line (s : string) : raw_line :=
  RawLine (Z.of_nat (String.length s))
    (if (trim_space s =? "")%string then LBlank
     else match unmarshal dec_TranscriptLine zero_line s with
          | (l, None) => LJson l
          | (_, Some _) => LMalformed
          end).

Definition read_transcript (text : string) : list raw_line := map read_line (scan_text text).

(** The file after a line is appended. *)
Definition append_text (text : string) (l : TranscriptLine) : string := text +:+ line_text l +:+ String newline "".

(** ** The line as a value *)

Definition line_json (l : TranscriptLine) : json :=
  VObj ([("role", VStr (tl_Role l)); ("content", VStr (tl_Content l)); ("timestamp", VStr (format_nano (tl_Timestamp l)))]
        ++ (if (tl_RunID l =? "")%string then [] else [("runId", VStr (tl_RunID l))])
        ++ (if tl_TokenCount l =? 0 then [] else [("tokenCount", VNum (fmt_d (tl_TokenCount l)))])).

(** What can be written: the year has four digits and the count is an [int]. *)
Definition storable (l : TranscriptLine) : Prop :=
  four_digit_year (tl_Timestamp l) /\ - 2 ^ 63 <= tl_TokenCount l < 2 ^ 63.

(** Bytes that are not UTF-8 do not survive. *)
Definition valid_line (l : TranscriptLine) : TranscriptLine :=
  Build_TranscriptLine (valid_utf8 (tl_Role l)) (valid_utf8 (tl_Content l)) (tl_Timestamp l) (valid_utf8 (tl_RunID l)) (tl_TokenCount l).

Lemma line_text_json l : line_text l = encode_json (line_json l).
Proof.
  unfold line_text, line_json. destruct (tl_RunID l =? "")%string, (tl_TokenCount l =? 0); cbn [app encode_json map fst snd str_join];
    repeat match goal with |- context [json_quote ?x] => generalize (json_quote x); intro end;
    unfold str_join; cbn [String.concat]; repeat first [rewrite str_app_assoc | progress cbn [String.append]]; reflexivity.
Qed.

Lemma line_json_encodable l : storable l -> encodable (line_json l) = true.
Proof.
  intros [_ Hn]. unfold line_json. cbn. destruct (tl_RunID l =? "")%string, (tl_TokenCount l =? 0); cbn; try done;
    rewrite fmt_d_number; done || lia.
Qed.

(** ** The timestamp *)

Lemma digit_not c n : In c [":"%char; ","%char; "Z"%char; "010"%char] -> digit (n mod 10) <> c.
Proof.
  intros Hc E. pose proof (Z.mod_pos_bound n 10 ltac:(lia)) as Hn. destruct (is_digit_digit _ Hn) as [Hd _].
  rewrite E in Hd. repeat destruct Hc as [<-|Hc]; by compute in Hd.
Qed.

Lemma format_nano_shape t : four_digit_year t -> exists pre rest,
  format_nano t = pre +:+ rest /\ String.length pre = 19%nat /\ String.get 12 pre <> Some ":"%char
  /\ ((rest = "Z") \/ exists f, rest = "." +:+ f +:+ "Z").
Proof.
  intros Ht. unfold format_nano, fmt_date, fmt_clock, nanos.
  destruct (civil_of_days (t / day_ns)) as [[y m] d] eqn:Ec.
  pose proof (four_digit_year_civil _ _ _ _ Ht Ec) as Hy. apply civil_spec in Ec as (Hm & Hd & Hdays).
  assert (days_in m y <= 31) by (unfold days_in; repeat case_match; lia).
  destruct (clock_of t) as [[[hh mm] ss] ns] eqn:Eq. apply clock_of_bounds in Eq as (H1 & H2 & H3 & _ & _).
  rewrite (append_int_4 y), !append_int_2 by lia.
  eexists ((digits 4 y +:+ "-" +:+ digits 2 m +:+ "-" +:+ digits 2 d) +:+ "T" +:+ (digits 2 hh +:+ ":" +:+ digits 2 mm +:+ ":" +:+ digits 2 ss)), _.
  split; [rewrite !str_app_assoc; reflexivity|]. split; [reflexivity|]. split.
  - cbn. intros [= E]. revert E. apply digit_not. by left.
  - destruct (t mod time_second =? 0); [by left|]. right. eexists. rewrite str_app_assoc. reflexivity.
Qed.

Lemma get_app_l n a b : (n < String.length a)%nat -> String.get n (a +:+ b) = String.get n a.
Proof. revert n. induction a as [|c a IH]; intros [|n] H; cbn in *; try lia; [done|]. apply IH. lia. Qed.
Lemma get_app_r n a b : (String.length a <= n)%nat -> String.get n (a +:+ b) = String.get (n - String.length a) b.
Proof. revert n. induction a as [|c a IH]; intros [|n] H; cbn in *; try lia; try done. apply IH. lia. Qed.

Lemma strict_format_nano t : four_digit_year t -> strict_rfc3339 (format_nano t) = Some t.
Proof.
  intros Ht. destruct (format_nano_shape t Ht) as (pre & rest & E & Hl & H12 & Hr).
  unfold strict_rfc3339. rewrite parse_format_nano by done. rewrite E.
  rewrite get_app_l, get_app_r, Hl by lia. change (19 - 19)%nat with 0%nat.
  rewrite bool_decide_false by done. rewrite bool_decide_false by (by destruct Hr as [->|[f ->]]).
  assert (Hz : has_suffix (pre +:+ rest) "Z" = true).
  { destruct Hr as [->|[f ->]]; [apply has_suffix_app|]. rewrite <- !str_app_assoc. apply has_suffix_app. }
  by rewrite Hz.
Qed.

Definition time_char (c : ascii) : bool := is_digit c || existsb (Ascii.eqb c) ["-"; "T"; ":"; "."; "Z"]%char.

Lemma time_digits w n : str_forall time_char (digits w n) = true.
Proof.
  induction w as [|w IH]; [done|]. cbn. rewrite IH, andb_true_r. unfold time_char.
  by rewrite (proj1 (is_digit_digit _ (Z.mod_pos_bound _ 10 ltac:(lia)))).
Qed.

Lemma time_frac w : forall n, 0 <= n < 10 ^ Z.of_nat w -> str_forall time_char (frac_digits w n) = true.
Proof.
  induction w as [|w IH]; intros n Hn; [done|]. cbn [frac_digits]. destruct (n =? 0); [done|]. cbn [str_forall].
  rewrite pow10_S in Hn. pose proof (pow10_pos w). rewrite IH by (apply Z.mod_pos_bound; lia). rewrite andb_true_r. unfold time_char.
  rewrite (proj1 (is_digit_digit (n / 10 ^ Z.of_nat w) ltac:(split; [apply Z.div_pos; lia|apply Z.div_lt_upper_bound; lia]))). done.
Qed.

Lemma time_format_nano t : four_digit_year t -> str_forall time_char (format_nano t) = true.
Proof.
  intros Ht. unfold format_nano, fmt_date, fmt_clock, nanos.
  destruct (civil_of_days (t / day_ns)) as [[y m] d] eqn:Ec.
  pose proof (four_digit_year_civil _ _ _ _ Ht Ec) as Hy. apply civil_spec in Ec as (Hm & Hd & Hdays).
  assert (days_in m y <= 31) by (unfold days_in; repeat case_match; lia).
  destruct (clock_of t) as [[[hh mm] ss] ns] eqn:Eq. apply clock_of_bounds in Eq as (H1 & H2 & H3 & _ & _).
  rewrite (append_int_4 y), !append_int_2 by lia. rewrite !str_forall_app, !time_digits.
  destruct (t mod time_second =? 0); [done|]. rewrite str_forall_app, time_frac; [done|]. apply Z.mod_pos_bound. done.
Qed.

Lemma time_char_ascii c : time_char c = true -> is_ascii_byte c = true.
Proof.
  unfold time_char, is_digit, is_ascii_byte. intros [H|H]%orb_true_iff.
  - lia.
  - apply existsb_exists in H as (x & Hx & E%Ascii.eqb_eq). subst x. cbn [In] in Hx. repeat destruct Hx as [<-|Hx]; done.
Qed.

Lemma valid_line_json l : storable l -> valid_json (line_json l) = line_json (valid_line l).
Proof.
  intros [Ht _]. unfold line_json, valid_line. cbn [tl_Role tl_Content tl_Timestamp tl_RunID tl_TokenCount].
  assert (Hid : (valid_utf8 (tl_RunID l) =? "")%string = (tl_RunID l =? "")%string).
  { destruct (tl_RunID l) as [|c s]; [done|]. unfold valid_utf8, runes.
    destruct (utf8_segs_step c s) as (r & b & rest & -> & _). cbn. unfold utf8_encode. by repeat case_match. }
  rewrite Hid. cbn [valid_json]. f_equal. rewrite !map_app. cbn [map fst snd valid_json].
  rewrite (valid_utf8_ascii (format_nano _)).
  2: { eapply str_forall_impl; [exact time_char_ascii|by apply time_format_nano]. }
  by destruct (tl_RunID l =? "")%string, (tl_TokenCount l =? 0).
Qed.

Lemma dec_line l : storable l -> dec_TranscriptLine (line_json l) zero_line = (l, false).
Proof.
  intros [Ht Hn]. unfold dec_TranscriptLine, dec_struct, line_json.
  destruct l as [role content ts run_id count]. cbn [tl_Role tl_Content tl_Timestamp tl_RunID tl_TokenCount] in *.
  destruct (String.eqb_spec run_id "") as [->|Hr], (Z.eqb_spec count 0) as [->|Hc]; cbn [app];
    unfold reader_ap, reader_ret, field; cbn [fold_left fst snd];
    repeat match goal with |- context [bool_decide (field_of ?a ?b = Some ?c)] =>
      let v := eval vm_compute in (bool_decide (field_of a b = Some c)) in change (bool_decide (field_of a b = Some c)) with v end;
    cbn [dec_string dec_time dec_int64 fst snd]; rewrite strict_format_nano by done; rewrite ?fmt_d_parsed by done; reflexivity.
Qed.

Lemma unmarshal_line l : storable l -> unmarshal dec_TranscriptLine zero_line (line_text l) = (valid_line l, None).
Proof.
  intros H. unfold unmarshal. rewrite line_text_json, json_parse_encoded by by apply line_json_encodable.
  rewrite valid_line_json by done. by rewrite dec_line.
Qed.

(** ** The lines of a file *)

Lemma lacks_high b c : high_bytes b = true -> byte_of c < 128 -> lacks c b = true.
Proof.
  intros H Hc. eapply str_forall_impl; [|exact H]. cbn. intros x Hx. apply negb_true_iff, Ascii.eqb_neq. intros ->. lia.
Qed.

Lemma json_rune_newline seg : seg_ok seg -> lacks newline (json_rune seg) = true.
Proof.
  destruct seg as [r b]. intros (Hr & Hb & Hh). cbn [fst snd] in *. unfold scalar in Hr. unfold json_rune.
  assert (Hlow : 0 <= r < 128 -> r <> 10 -> lacks newline b = true).
  { intros H Hne. destruct Hb as [->|[-> _]]; [|unfold rune_error in H; lia]. rewrite utf8_encode_ascii by lia. cbn. rewrite andb_true_r.
    apply negb_true_iff, Ascii.eqb_neq. intros E. apply Hne. rewrite <- (byte_of_of r), E by lia. done. }
  destruct ((r =? 34) || (r =? 92)) eqn:E1; [rewrite lacks_app; apply Hlow; lia|].
  destruct (r =? 8); [done|]. destruct (r =? 12); [done|]. destruct (Z.eqb_spec r 10); [done|]. destruct (r =? 13); [done|]. destruct (r =? 9); [done|].
  destruct ((r <? 32) || _ || _ || _) eqn:E2.
  { assert (Hd : forall n, 0 <= n < 16 -> lacks newline (hex_digit n) = true).
    { intros k Hk. unfold hex_digit, char. cbn. rewrite andb_true_r. apply negb_true_iff, Ascii.eqb_neq. intros E.
      assert (Hx : byte_of (of_byte (if k <? 10 then 48 + k else 87 + k)) = 10) by (by rewrite E).
      rewrite byte_of_of in Hx by (case_test; lia). case_test_in Hx; lia. }
    rewrite !lacks_app, !Hd by (Z.to_euclidean_division_equations; lia). done. }
  destruct ((r =? rune_error) && _); [done|]. destruct (r =? 8232); [done|]. destruct (r =? 8233); [done|].
  destruct (Z.ltb_spec r 128); [apply Hlow; lia|]. apply lacks_high; [by apply Hh|done].
Qed.

Lemma json_quote_newline s : lacks newline (json_quote s) = true.
Proof.
  unfold json_quote. rewrite !lacks_app. apply andb_true_iff. split; [done|]. rewrite andb_true_r.
  pose proof (utf8_segs_ok s) as H. induction H as [|seg l Hs _ IH]; [done|]. cbn [fold_right]. rewrite lacks_app.
  by rewrite (json_rune_newline _ Hs), IH.
Qed.

Lemma fmt_d_newline n : - 10 ^ 20 < n < 10 ^ 20 -> lacks newline (fmt_d n) = true.
Proof.
  intros H. destruct (fmt_d_shape n H) as (d & s & -> & Hd & _). rewrite lacks_app. apply andb_true_iff. split.
  - by destruct (n <? 0).
  - eapply str_forall_impl; [|exact Hd]. intros c Hc. apply negb_true_iff, Ascii.eqb_neq. by intros ->.
Qed.

Lemma line_text_newline l : storable l -> lacks newline (line_text l) = true.
Proof.
  intros [_ Hn]. unfold line_text. rewrite !lacks_app, !json_quote_newline.
  destruct (tl_RunID l =? "")%string, (tl_TokenCount l =? 0); rewrite ?lacks_app, ?json_quote_newline, ?fmt_d_newline by lia; done.
Qed.

Lemma drop_cr_line x : drop_cr (x +:+ "}") = x +:+ "}".
Proof.
  unfold drop_cr. rewrite str_app_length. cbn [String.length]. rewrite Nat.add_sub. by rewrite str_drop_app.
Qed.

Lemma line_text_braces l : exists x, line_text l = ("{" +:+ x) +:+ "}".
Proof. rewrite line_text_json. unfold line_json. cbn [encode_json]. eexists. by rewrite str_app_assoc. Qed.

Lemma kept_last {A} (p : A -> bool) l x : p x = false -> In x (drop_while p (l ++ [x])).
Proof.
  intros Hx. induction l as [|y l IH]; cbn; [rewrite Hx; by left|]. destruct (p y); [exact IH|].
  right. apply in_or_app. right. by left.
Qed.

Lemma segs_bytes_nil l x : segs_bytes l = "" -> In x l -> snd x = "".
Proof.
  induction l as [|y l IH]; [done|]. cbn. intros [Hy Hl]%str_app_eq_nil [->|Hx]; [done|]. by apply IH.
Qed.

Lemma line_not_blank x : (trim_space ("{" +:+ x) =? "")%string = false.
Proof.
  apply String.eqb_neq. intros E. unfold trim_space, trim_segs in E. cbn [String.append utf8_segs] in E.
  change (byte_of "{") with 123 in E. cbn in E. unfold drop_while_end in E. cbn [rev] in E.
  apply (segs_bytes_nil _ (123, "{")) in E; [done|]. apply -> in_rev. by apply kept_last.
Qed.

Lemma read_line_text l : storable l -> read_line (line_text l) = RawLine (line_size l) (LJson (valid_line l)).
Proof.
  intros H. unfold read_line, line_size. rewrite unmarshal_line by done.
  destruct (line_text_braces l) as [x ->]. by rewrite str_app_assoc, line_not_blank.
Qed.

Definition file_text (ls : list TranscriptLine) : string := fold_left append_text ls "".

Lemma file_text_app ls : forall text, fold_left append_text ls text = text +:+ file_text ls.
Proof.
  unfold file_text. induction ls as [|l ls IH]; intros text; cbn [fold_left]; [by rewrite str_app_nil_r|].
  rewrite IH, (IH (append_text "" l)). unfold append_text. cbn [String.append]. by rewrite !str_app_assoc.
Qed.

Lemma split_file_text ls : Forall storable ls -> split_on newline (file_text ls) = (map line_text ls ++ [""])%list.
Proof.
  induction 1 as [|l ls Hl _ IH]; [done|]. unfold file_text. cbn [fold_left]. rewrite file_text_app. unfold append_text. cbn [String.append].
  rewrite str_app_assoc. cbn [String.append]. rewrite split_on_app by by apply line_text_newline. by rewrite IH.
Qed.

(** C13: What is appended to a transcript is what is loaded from its bytes: the file that
    any appends leave is read as exactly these lines, one for each append and in their
    order, with every field as it was written but for bytes that are not UTF-8.  So the
    lines of the model stand for the file, and a text with newlines, quotes or control
    characters cannot break the file into other lines. *)
Theorem transcript_text_roundtrip ls : Forall storable ls ->
  read_transcript (file_text ls) = map (fun l => RawLine (line_size l) (LJson (valid_line l))) ls.
Proof.
  intros H. unfold read_transcript, scan_text. rewrite split_file_text by done.
  rewrite last_snoc, bool_decide_true, removelast_last by done. rewrite !map_map. apply map_ext_in.
  intros l Hl. rewrite List.Forall_forall in H. specialize (H l Hl). destruct (line_text_braces l) as [x E].
  rewrite E, drop_cr_line, <- E. by apply read_line_text.
Qed.

(** A line of UTF-8 is loaded as it was. *)
Lemma encode_line_read l : storable l -> valid_line l = l -> read_line (line_text l) = encode_line l.
Proof. intros H Hv. rewrite read_line_text, Hv by done. done. Qed.

Definition demo_transcript : list TranscriptLine :=
  [Build_TranscriptLine "user" ("a" +:+ String newline ("{" +:+ dquote +:+ "<é>")) 1709210096012340000 "" 7;
   Build_TranscriptLine "assistant" (String "255" "ok") 0 "r1" 0].

Lemma transcript_text_roundtrip_witness :
  Forall storable demo_transcript
  /\ map rl_content (read_transcript (file_text demo_transcript))
     = map LJson [Build_TranscriptLine "user" ("a" +:+ String newline ("{" +:+ dquote +:+ "<é>")) 1709210096012340000 "" 7;
                  Build_TranscriptLine "assistant" (utf8_encode rune_error +:+ "ok") 0 "r1" 0].
Proof.
  assert (H : Forall storable demo_transcript).
  { repeat constructor; unfold demo_transcript, storable, four_digit_year, time_second; cbn [tl_Timestamp tl_TokenCount]; lia. }
  split; [exact H|]. rewrite (transcript_text_roundtrip _ H). vm_compute. reflexivity.
Defined.
