(* ===== verification/Oidc.v ===== *)
(** * Signing in to MCP servers (agent/mcp/oidc)

    The discovery of the endpoints, the two flows that get a token, its refreshing
    and the store that keeps it encrypted.  What the package reaches, the network,
    the clock and the waiting, acts on a world that is a parameter; so are the
    cipher and the key derivation.  [token_kept] is the round trip of a token
    through the store, [device_flow_ends] the termination of the polling, and
    [signed_in] what a successful [EnsureToken] leaves behind. *)
From Stdlib Require Import ZArith Lia Bool Ascii String List.
From stdpp Require Import base gmap strings option list.
From S2P Require Import Prelude GoString GoTime GoJson GoJsonParse GoJsonProofs Sha256 Http SessionKey Models Mqtt JobTools SessionText.

Local Open Scope string_scope.
Local Open Scope Z_scope.
Local Open Scope state_scope.
Local Open Scope reader_scope.

(** ** Texts on the wire *)

(** [base64.RawURLEncoding]. *)
Definition base64_chars : string := "ABCDEFGHIJKLMNOPQRSTUVWXYZabcdefghijklmnopqrstuvwxyz0123456789-_".
Definition base64_char (n : Z) : ascii := default "A"%char (String.get (Z.to_nat n) base64_chars).
Fixpoint base64url (l : list Z) : string :=
  match l with
  | a :: b :: c :: l =>
      String (base64_char (a / 4)) (String (base64_char (a mod 4 * 16 + b / 16))
        (String (base64_char (b mod 16 * 4 + c / 64)) (String (base64_char (c mod 64)) (base64url l))))
  | [a; b] => String (base64_char (a / 4)) (String (base64_char (a mod 4 * 16 + b / 16)) (String (base64_char (b mod 16 * 4)) ""))
  | [a] => String (base64_char (a / 4)) (String (base64_char (a mod 4 * 16)) "")
  | [] => ""
  end.

(** [url.QueryEscape] and [url.Values.Encode], which sorts by name. *)
Definition query_unescaped (c : ascii) : bool := is_alnum (byte_of c) || existsb (Ascii.eqb c) ["-"; "_"; "."; "~"]%char.
Fixpoint QueryEscape (s : string) : string :=
  match s with
  | EmptyString => ""
  | String c s =>
      (if (c =? " ")%char then "+" else if query_unescaped c then String c ""
       else String "%" (String (upper_hex (byte_of c / 16)) (String (upper_hex (byte_of c mod 16)) ""))) +:+ QueryEscape s
  end.

Definition form : Type := list (string * string).
Fixpoint insert_value (kv : string * string) (f : form) : form :=
  match f with
  | [] => [kv]
  | x :: f' => if String.ltb (fst kv) (fst x) then kv :: f else x :: insert_value kv f'
  end.
Definition form_encode (f : form) : string :=
  str_join (map (fun kv => QueryEscape (fst kv) +:+ "=" +:+ QueryEscape (snd kv)) (fold_left (fun acc kv => insert_value kv acc) f [])) "&".

(** ** The token store (token_store.go) *)

(** The expiry is an instant. *)
Record StoredToken := { tk_AccessToken : string; tk_TokenType : string; tk_RefreshToken : string; tk_Expiry : Z }.
Definition zero_token : StoredToken := Build_StoredToken "" "" "" time_zero.

Definition token_json (t : StoredToken) : json :=
  VObj ([("access_token", VStr (tk_AccessToken t)); ("token_type", VStr (tk_TokenType t))]
        ++ (if (tk_RefreshToken t =? "")%string then [] else [("refresh_token", VStr (tk_RefreshToken t))])
        ++ [("expiry", VStr (format_nano (tk_Expiry t)))])%list.

Definition dec_token : decoder StoredToken := dec_struct (fun x =>
  let f {B} := @field B ["access_token"; "token_type"; "refresh_token"; "expiry"] in
  Build_StoredToken
    <$$> f "access_token" dec_string (tk_AccessToken x) <*> f "token_type" dec_string (tk_TokenType x)
    <*> f "refresh_token" dec_string (tk_RefreshToken x) <*> f "expiry" dec_time (tk_Expiry x)).

Definition saltLen : nat := 16.
Definition nonceLen : nat := 12.

(** A store, with its file. *)
Record TokenStore := { ts_password : string; ts_file : option string; ts_cached : option StoredToken }.

Section store.
(** Argon2id, and AES-256-GCM: key, nonce and text. *)
Context (derive : string -> string -> string) (seal : string -> string -> string -> string)
        (open_ : string -> string -> string -> option string).

Definition deriveKey (password salt : string) : string := derive password salt.

(** [random] is what the generator gives for the salt and the nonce. *)
Definition encrypt (random : result string (string * string)) (data password : string) : result string string :=
  match random with
  | Err e => Err ("generating " +:+ e)
  | Ok (salt, nonce) => Ok (salt +:+ nonce +:+ seal (deriveKey password salt) nonce data)
  end.

Definition decrypt (data password : string) : result string string :=
  if (String.length data <? saltLen + nonceLen)%nat then Err "ciphertext too short"
  else
    let salt := str_take saltLen data in
    let nonce := str_take nonceLen (str_drop saltLen data) in
    match open_ (deriveKey password salt) nonce (str_drop (saltLen + nonceLen) data) with
    | Some plain => Ok plain
    | None => Err "decrypting: cipher: message authentication failed"
    end.

(** A file that is not there is not an error. *)
Definition GetToken (s : TokenStore) : result string (option StoredToken) * TokenStore :=
  match ts_cached s with
  | Some t => (Ok (Some t), s)
  | None =>
      match ts_file s with
      | None => (Ok None, s)
      | Some raw =>
          match decrypt raw (ts_password s) with
          | Err e => (Err ("decrypting token: " +:+ e), s)
          | Ok plain =>
              match unmarshal dec_token zero_token plain with
              | (_, Some _) => (Err "unmarshalling token", s)
              | (t, None) => (Ok (Some t), Build_TokenStore (ts_password s) (ts_file s) (Some t))
              end
          end
      end
  end.

(** [disk]: the error of making the directory or of writing the file, which is then
    as it was. *)
Definition SaveToken (random : result string (string * string)) (disk : option string) (t : StoredToken) (s : TokenStore)
    : option string * TokenStore :=
  if negb ((-62167219200 * time_second <=? tk_Expiry t) && (tk_Expiry t <? 253402300800 * time_second)) then (Some "marshalling token", s)
  else
    match encrypt random (encode_json (token_json t)) (ts_password s) with
    | Err e => (Some ("encrypting token: " +:+ e), s)
    | Ok enc =>
        match disk with
        | Some e => (Some e, s)
        | None => (None, Build_TokenStore (ts_password s) (Some enc) (Some t))
        end
    end.

(** [remove]: the error of removing a file that is there. *)
Definition DeleteToken (remove : option string) (s : TokenStore) : option string * TokenStore :=
  match ts_file s, remove with
  | Some f, Some e => (Some ("removing token file: " +:+ e), Build_TokenStore (ts_password s) (Some f) None)
  | _, _ => (None, Build_TokenStore (ts_password s) None None)
  end.

(** A process that starts with what is on the disk. *)
Definition restarted (s : TokenStore) : TokenStore := Build_TokenStore (ts_password s) (ts_file s) None.

Definition valid_token (t : StoredToken) : StoredToken :=
  Build_StoredToken (valid_utf8 (tk_AccessToken t)) (valid_utf8 (tk_TokenType t)) (valid_utf8 (tk_RefreshToken t)) (tk_Expiry t).

Lemma expiry_read t x : four_digit_year t -> dec_time (VStr (valid_utf8 (format_nano t))) x = (t, false).
Proof.
  intros Ht. rewrite valid_utf8_ascii.
  2: { eapply str_forall_impl; [exact time_char_ascii|by apply time_format_nano]. }
  unfold dec_time. by rewrite strict_format_nano.
Qed.

Lemma token_read t : four_digit_year (tk_Expiry t) -> dec_token (valid_json (token_json t)) zero_token = (valid_token t, false).
Proof.
  intros Ht. unfold token_json, valid_token. cbn [valid_json]. rewrite !map_app.
  destruct (String.eqb_spec (tk_RefreshToken t) "") as [->|_]; cbn [map fst snd app valid_json]; member_names;
    unfold dec_token, dec_struct; read_struct; by apply expiry_read.
Qed.

(** C27: A token that was saved is there for the next process: whatever the salt and the
    nonce of the right lengths, with a cipher that opens what it sealed, the file holds
    neither less nor more than the token, bytes that are not UTF-8 replaced; the process
    that saved it has it as it was.  After a deletion neither the process itself nor a
    later one has a token; when the file cannot be removed, that is reported, and both
    still have what the file holds. *)
Theorem token_kept salt nonce t s s' :
  (forall key n data, open_ key n (seal key n data) = Some data) ->
  String.length salt = saltLen -> String.length nonce = nonceLen ->
  SaveToken (Ok (salt, nonce)) None t s = (None, s') ->
  fst (GetToken s') = Ok (Some t)
  /\ fst (GetToken (restarted s')) = Ok (Some (valid_token t))
  /\ (let '(e, gone) := DeleteToken None s' in
      e = None /\ fst (GetToken gone) = Ok None /\ fst (GetToken (restarted gone)) = Ok None)
  /\ (forall why, let '(e, kept) := DeleteToken (Some why) s' in
      e = Some ("removing token file: " +:+ why) /\ fst (GetToken kept) = Ok (Some (valid_token t))
      /\ fst (GetToken (restarted kept)) = Ok (Some (valid_token t))).
Proof.
  intros Hlaw Hs Hn. unfold SaveToken. destruct (negb _) eqn:Hy; [done|]. cbn [encrypt]. intros [= <-].
  split; [done|]. match goal with |- ?P /\ _ => enough (Hread : P) by (by split) end.
  apply negb_false_iff, andb_true_iff in Hy as [H1 H2]. assert (Hfy : four_digit_year (tk_Expiry t)) by (unfold four_digit_year; lia).
  unfold GetToken, restarted. cbn [ts_cached ts_file ts_password]. unfold decrypt. set (data := salt +:+ nonce +:+ _).
  assert (Hlen : (String.length data <? saltLen + nonceLen)%nat = false).
  { unfold data. rewrite !str_app_length, Hs, Hn. apply Nat.ltb_ge. lia. }
  rewrite Hlen. assert (E1 : str_take saltLen data = salt) by (unfold data; rewrite <- Hs; apply str_take_app).
  assert (E2 : str_drop saltLen data = nonce +:+ seal (deriveKey (ts_password s) salt) nonce (encode_json (token_json t)))
    by (unfold data; rewrite <- Hs; apply str_drop_app).
  assert (E3 : str_drop (saltLen + nonceLen) data = seal (deriveKey (ts_password s) salt) nonce (encode_json (token_json t))).
  { unfold data. rewrite <- Hs, <- Hn, <- str_app_length, <- str_app_assoc. apply str_drop_app. }
  rewrite E1, E2, E3. rewrite <- Hn at 1. rewrite str_take_app, Hlaw. unfold unmarshal. rewrite json_parse_encoded.
  - by rewrite token_read.
  - unfold token_json. by destruct (tk_RefreshToken t =? "")%string.
Qed.
End store.

(** ** Configuration and discovery (provider.go, discovery.go) *)

Record OIDCEndpoints := { ep_Authorization : string; ep_DeviceAuthorization : string; ep_Token : string }.

Record ProviderConfig := {
  pc_ClientID : string;
  pc_ClientSecret : string;
  pc_Scopes : list string;
  pc_IssuerURL : string;
  pc_AuthorizationURL : string;
  pc_DeviceAuthURL : string;
  pc_TokenURL : string;
  pc_Audience : string;
  pc_Flow : string }.

Definition dec_wellKnownResponse : decoder OIDCEndpoints := dec_struct (fun x =>
  let f {B} := @field B ["authorization_endpoint"; "device_authorization_endpoint"; "token_endpoint"] in
  Build_OIDCEndpoints
    <$$> f "authorization_endpoint" dec_string (ep_Authorization x)
    <*> f "device_authorization_endpoint" dec_string (ep_DeviceAuthorization x)
    <*> f "token_endpoint" dec_string (ep_Token x)).

(** An explicit value is not replaced. *)
Definition or_discovered (explicit discovered : string) : string := if (explicit =? "")%string then discovered else explicit.

(** ** The answers of the endpoints (device_flow.go) *)

Record DeviceAuthResponse := {
  da_DeviceCode : string; da_UserCode : string; da_VerificationURI : string; da_VerificationURL : string;
  da_VerificationURIComplete : string; da_ExpiresIn : Z; da_Interval : Z }.
Definition zero_DeviceAuthResponse : DeviceAuthResponse := Build_DeviceAuthResponse "" "" "" "" "" 0 0.

Definition dec_DeviceAuthResponse : decoder DeviceAuthResponse := dec_struct (fun x =>
  let f {B} := @field B ["device_code"; "user_code"; "verification_uri"; "verification_url"; "verification_uri_complete";
                         "expires_in"; "interval"] in
  Build_DeviceAuthResponse
    <$$> f "device_code" dec_string (da_DeviceCode x) <*> f "user_code" dec_string (da_UserCode x)
    <*> f "verification_uri" dec_string (da_VerificationURI x) <*> f "verification_url" dec_string (da_VerificationURL x)
    <*> f "verification_uri_complete" dec_string (da_VerificationURIComplete x)
    <*> f "expires_in" dec_int64 (da_ExpiresIn x) <*> f "interval" dec_int64 (da_Interval x)).

Record tokenResponse := { tr_AccessToken : string; tr_TokenType : string; tr_RefreshToken : string; tr_ExpiresIn : Z; tr_Error : string }.
Definition zero_tokenResponse : tokenResponse := Build_tokenResponse "" "" "" 0 "".

Definition dec_tokenResponse : decoder tokenResponse := dec_struct (fun x =>
  let f {B} := @field B ["access_token"; "token_type"; "refresh_token"; "expires_in"; "error"] in
  Build_tokenResponse
    <$$> f "access_token" dec_string (tr_AccessToken x) <*> f "token_type" dec_string (tr_TokenType x)
    <*> f "refresh_token" dec_string (tr_RefreshToken x) <*> f "expires_in" dec_int64 (tr_ExpiresIn x)
    <*> f "error" dec_string (tr_Error x)).

Inductive pollResult := PollToken (t : StoredToken) | PollError (e : string) | PollSlower | PollPending.

(** PKCE (authcode_flow.go), from the bytes of the generator. *)
Record pkceChallenge := { pk_Verifier : string; pk_Challenge : string; pk_Method : string }.

Definition pkce_of (random : list Z) : pkceChallenge :=
  let verifier := base64url random in
  Build_pkceChallenge verifier (base64url (sha256 verifier)) "S256".

Definition generatePKCE (random : result string (list Z)) : result string pkceChallenge :=
  match random with Err e => Err ("generating PKCE verifier: " +:+ e) | Ok r => Ok (pkce_of r) end.
Definition generateState (random : result string (list Z)) : result string string :=
  match random with Err e => Err ("generating state: " +:+ e) | Ok r => Ok (base64url r) end.

(** What the browser's redirect brings, from its query. *)
Inductive authCodeResult := CodeError (e : string) | CodeReceived (code state : string).

Definition query_get (name : string) (q : form) : string := default "" (snd <$> List.find (fun kv => (fst kv =? name)%string) q).

Definition callback (q : form) : authCodeResult :=
  let errParam := query_get "error" q in
  if negb (errParam =? "")%string
  then CodeError ("authorization error: " +:+ errParam +:+ " (" +:+ query_get "error_description" q +:+ ")")
  else CodeReceived (query_get "code" q) (query_get "state" q).

(** What the wait for the redirect ends with. *)
Inductive awaited := ServerFailed (e : string) | TimedOut | Redirected (q : form).

Section world.
Context {W : Type}.
(** The world: requests, the clock, waits (with the error of the context when they
    are cut short), and the notice to the user. *)
Context (send : http_call -> State W (result string http_reply)) (now : State W Z) (wait : Z -> State W (option string)).
Context (notify : string -> string -> string -> Z -> State W unit).
Context (bad_url : string -> option string) (quote : string -> string) (fold : Z -> Z).
(** [net.Listen], and the wait for the redirect at a port; net/url's setting of
    values in the query of a URL. *)
Context (listen : State W (result string Z)) (await : Z -> string -> State W awaited) (set_query : string -> form -> result string string).
Context (random : nat -> State W (result string (list Z))).

Abbreviation M := (State W).

Definition request (creating asking : string) (q : http_call) : M (result string http_reply) :=
  match bad_url (hc_URL q) with
  | Some e => sret (Err (creating +:+ ": " +:+ e))
  | None =>
      do r <- send q;
      sret (match r with Ok reply => Ok reply | Err e => Err (asking +:+ ": " +:+ e) end)
  end.

Definition post (url : string) (f : form) : http_call :=
  Build_http_call "POST" url {[ "Content-Type" := ["application/x-www-form-urlencoded"] ]} (Some (form_encode f)).

Definition read_json {A} (dec : decoder A) (zero : A) (what : string) (reply : http_reply) : result string A :=
  match hr_Body reply with
  | Ok body => match decode_stream dec zero body with (x, None) => Ok x | (_, Some _) => Err what end
  | Err _ => Err what
  end.

Definition fetchWellKnown (issuerURL : string) : M (result string OIDCEndpoints) :=
  do r <- request "creating request" "fetching well-known config"
            (Build_http_call "GET" (trim_slashes issuerURL +:+ "/.well-known/openid-configuration") ∅ None);
  sret (match r with
        | Err e => Err e
        | Ok reply =>
            if negb (hr_Status reply =? StatusOK) then Err ("well-known config returned status " +:+ fmt_d (hr_Status reply))
            else read_json dec_wellKnownResponse (Build_OIDCEndpoints "" "" "") "decoding well-known config" reply
        end).

Definition Discover (issuerURL authorizationURL deviceAuthURL tokenURL : string) : M (result string OIDCEndpoints) :=
  let explicit := Build_OIDCEndpoints authorizationURL deviceAuthURL tokenURL in
  do found <- (if (issuerURL =? "")%string then sret (Ok explicit)
               else do r <- fetchWellKnown issuerURL;
                    sret match r with
                         | Err e => Err ("oidc discovery from " +:+ issuerURL +:+ ": " +:+ e)
                         | Ok d => Ok (Build_OIDCEndpoints (or_discovered authorizationURL (ep_Authorization d))
                                         (or_discovered deviceAuthURL (ep_DeviceAuthorization d)) (or_discovered tokenURL (ep_Token d)))
                         end);
  sret match found with
       | Err e => Err e
       | Ok ep => if (ep_Token ep =? "")%string then Err "token_endpoint not found and no explicit override provided" else Ok ep
       end.

(** ** The device flow *)

Definition client_form (cfg : ProviderConfig) : form :=
  ([("client_id", pc_ClientID cfg)] ++ (if (pc_ClientSecret cfg =? "")%string then [] else [("client_secret", pc_ClientSecret cfg)]))%list.

Definition RequestDeviceCode (ep : OIDCEndpoints) (cfg : ProviderConfig) : M (result string DeviceAuthResponse) :=
  let data := (client_form cfg ++ match pc_Scopes cfg with [] => [] | l => [("scope", str_join l " ")] end
               ++ (if (pc_Audience cfg =? "")%string then [] else [("audience", pc_Audience cfg)]))%list in
  do r <- request "creating device auth request" "requesting device code" (post (ep_DeviceAuthorization ep) data);
  sret (match r with
        | Err e => Err e
        | Ok reply =>
            if negb (hr_Status reply =? StatusOK) then Err ("device authorization endpoint returned status " +:+ fmt_d (hr_Status reply))
            else match read_json dec_DeviceAuthResponse zero_DeviceAuthResponse "decoding device auth response" reply with
                 | Err e => Err e
                 | Ok d =>
                     let uri := if (da_VerificationURI d =? "")%string && negb (da_VerificationURL d =? "")%string
                                then da_VerificationURL d else da_VerificationURI d in
                     Ok (Build_DeviceAuthResponse (da_DeviceCode d) (da_UserCode d) uri (da_VerificationURL d)
                           (da_VerificationURIComplete d) (da_ExpiresIn d) (da_Interval d))
                 end
        end).

Definition after_seconds (t s : Z) : Z := t + int64 (s * time_second).

Definition exchangeDeviceCode (ep : OIDCEndpoints) (cfg : ProviderConfig) (deviceCode : string) : M pollResult :=
  let data := ([("grant_type", "urn:ietf:params:oauth:grant-type:device_code"); ("device_code", deviceCode)] ++ client_form cfg)%list in
  do r <- request "creating token request" "polling token endpoint" (post (ep_Token ep) data);
  match r with
  | Err e => sret (PollError e)
  | Ok reply =>
      match read_json dec_tokenResponse zero_tokenResponse "decoding token response" reply with
      | Err e => sret (PollError e)
      | Ok t =>
          if (tr_Error t =? "")%string then
            do n <- now;
            sret (PollToken (Build_StoredToken (tr_AccessToken t) (tr_TokenType t) (tr_RefreshToken t) (after_seconds n (tr_ExpiresIn t))))
          else if (tr_Error t =? "authorization_pending")%string then sret PollPending
          else if (tr_Error t =? "slow_down")%string then sret PollSlower
          else if (tr_Error t =? "expired_token")%string then sret (PollError "device code expired")
          else if (tr_Error t =? "access_denied")%string then sret (PollError "access denied by user")
          else sret (PollError ("token endpoint error: " +:+ tr_Error t))
      end
  end.

(** The polls, at most [fuel]; [None] when that is not enough. *)
Fixpoint poll (fuel : nat) (ep : OIDCEndpoints) (cfg : ProviderConfig) (deviceCode : string) (interval deadline : Z)
    : M (option (result string StoredToken)) :=
  match fuel with
  | O => sret None
  | S fuel =>
      do cut <- wait (int64 (interval * time_second));
      match cut with
      | Some e => sret (Some (Err e))
      | None =>
          do n <- now;
          if time_after n deadline then sret (Some (Err "device code expired"))
          else
            do r <- exchangeDeviceCode ep cfg deviceCode;
            match r with
            | PollError e => sret (Some (Err e))
            | PollSlower => poll fuel ep cfg deviceCode (interval + 5) deadline
            | PollToken t => sret (Some (Ok t))
            | PollPending => poll fuel ep cfg deviceCode interval deadline
            end
      end
  end.

Definition PollForToken (fuel : nat) (ep : OIDCEndpoints) (cfg : ProviderConfig) (d : DeviceAuthResponse)
    : M (option (result string StoredToken)) :=
  let interval := if da_Interval d <? 5 then 5 else da_Interval d in
  do n <- now;
  poll fuel ep cfg (da_DeviceCode d) interval (after_seconds n (da_ExpiresIn d)).

(** ** The authorization code flow *)

Definition exchangeAuthCode (ep : OIDCEndpoints) (cfg : ProviderConfig) (code redirectURI : string) (pkce : pkceChallenge)
    : M (result string StoredToken) :=
  let data := ([("grant_type", "authorization_code"); ("code", code); ("redirect_uri", redirectURI); ("code_verifier", pk_Verifier pkce)]
               ++ client_form cfg)%list in
  do r <- request "creating token exchange request" "exchanging authorization code" (post (ep_Token ep) data);
  match r with
  | Err e => sret (Err e)
  | Ok reply =>
      if (hr_Status reply <? 200) || (300 <=? hr_Status reply) then sret (Err ("token exchange failed: " +:+ fmt_d (hr_Status reply)))
      else match read_json dec_tokenResponse zero_tokenResponse "decoding token response" reply with
           | Err e => sret (Err e)
           | Ok t =>
               if negb (tr_Error t =? "")%string then sret (Err ("token endpoint error: " +:+ tr_Error t))
               else
                 do expiry <- (if 0 <? tr_ExpiresIn t then do n <- now; sret (after_seconds n (tr_ExpiresIn t)) else sret time_zero);
                 sret (Ok (Build_StoredToken (tr_AccessToken t) (tr_TokenType t) (tr_RefreshToken t) expiry))
           end
  end.

Definition auth_query (cfg : ProviderConfig) (redirectURI state : string) (pkce : pkceChallenge) : form :=
  ([("response_type", "code"); ("client_id", pc_ClientID cfg); ("redirect_uri", redirectURI); ("state", state);
    ("code_challenge", pk_Challenge pkce); ("code_challenge_method", pk_Method pkce); ("access_type", "offline"); ("prompt", "consent")]
   ++ match pc_Scopes cfg with [] => [] | l => [("scope", str_join l " ")] end)%list.

Definition buildAuthURL (authEndpoint : string) (cfg : ProviderConfig) (redirectURI state : string) (pkce : pkceChallenge) : result string string :=
  match set_query authEndpoint (auth_query cfg redirectURI state pkce) with
  | Ok u => Ok u
  | Err e => Err ("parsing authorization endpoint: " +:+ e)
  end.

Definition redirect_uri (port : Z) : string := "http://127.0.0.1:" +:+ fmt_d port +:+ "/callback".

(** What comes after the redirect. *)
Definition redirected (ep : OIDCEndpoints) (cfg : ProviderConfig) (redirectURI state : string) (pkce : pkceChallenge) (r : authCodeResult)
    : M (result string StoredToken) :=
  match r with
  | CodeError e => sret (Err e)
  | CodeReceived code state' =>
      if negb (state' =? state)%string then sret (Err ("state mismatch: expected " +:+ quote state +:+ ", got " +:+ quote state'))
      else if (code =? "")%string then sret (Err "no authorization code received")
      else exchangeAuthCode ep cfg code redirectURI pkce
  end.

Definition RunAuthCodeFlow (ep : OIDCEndpoints) (cfg : ProviderConfig) (notified : bool) (serverName : string) : M (result string StoredToken) :=
  do r <- random 32;
  match generatePKCE r with
  | Err e => sret (Err e)
  | Ok pkce =>
      do r <- random 16;
      match generateState r with
      | Err e => sret (Err e)
      | Ok state =>
          do l <- listen;
          match l with
          | Err e => sret (Err ("binding localhost listener: " +:+ e))
          | Ok port =>
              match buildAuthURL (ep_Authorization ep) cfg (redirect_uri port) state pkce with
              | Err e => sret (Err e)
              | Ok url =>
                  run (if notified then notify serverName url "OPEN_IN_BROWSER" 300 else sret tt);
                  do a <- await port url;
                  match a with
                  | ServerFailed e => sret (Err ("localhost server: " +:+ e))
                  | TimedOut => sret (Err "authorization code flow timed out after 5m0s")
                  | Redirected q => redirected ep cfg (redirect_uri port) state pkce (callback q)
                  end
              end
          end
      end
  end.

(** ** The provider (provider.go) *)

(** The store's cipher, its salts and nonces, the errors of the disk, and the fuel
    of the polling. *)
Context (derive : string -> string -> string) (seal : string -> string -> string -> string)
        (open_ : string -> string -> string -> option string).
Context (salts : State W (result string (string * string))) (disk : State W (option string)) (fuel : nat).

Record Provider := { pv_cfg : ProviderConfig; pv_endpoints : OIDCEndpoints; pv_serverName : string; pv_notified : bool }.

Definition NewProvider (cfg : ProviderConfig) (serverName : string) (notified : bool) : M (result string Provider) :=
  if (pc_ClientID cfg =? "")%string then sret (Err "client_id is required for OIDC auth")
  else if (pc_IssuerURL cfg =? "")%string && (pc_TokenURL cfg =? "")%string then sret (Err "either issuer_url or token_url is required")
  else
    do r <- Discover (pc_IssuerURL cfg) (pc_AuthorizationURL cfg) (pc_DeviceAuthURL cfg) (pc_TokenURL cfg);
    sret match r with
         | Err e => Err ("OIDC discovery: " +:+ e)
         | Ok ep => Ok (Build_Provider cfg ep serverName notified)
         end.

Definition refreshToken (p : Provider) (stored : StoredToken) : M (result string StoredToken) :=
  let data := ([("grant_type", "refresh_token"); ("refresh_token", tk_RefreshToken stored)] ++ client_form (pv_cfg p))%list in
  do r <- request "" "" (post (ep_Token (pv_endpoints p)) data);
  match r with
  | Err e => sret (Err e)
  | Ok reply =>
      if (hr_Status reply <? 200) || (300 <=? hr_Status reply) then sret (Err ("token refresh failed: " +:+ fmt_d (hr_Status reply)))
      else match read_json dec_tokenResponse zero_tokenResponse "decoding refresh response" reply with
           | Err e => sret (Err e)
           | Ok t =>
               do expiry <- (if 0 <? tr_ExpiresIn t then do n <- now; sret (after_seconds n (tr_ExpiresIn t)) else sret time_zero);
               sret (Ok (Build_StoredToken (tr_AccessToken t) (tr_TokenType t)
                           (if (tr_RefreshToken t =? "")%string then tk_RefreshToken stored else tr_RefreshToken t) expiry))
           end
  end.

Definition verify_url (d : DeviceAuthResponse) : string :=
  if (da_VerificationURIComplete d =? "")%string then da_VerificationURI d else da_VerificationURIComplete d.

(** [None] when the fuel of the polling is not enough. *)
Definition runDeviceFlow (p : Provider) : M (option (result string StoredToken)) :=
  if (ep_DeviceAuthorization (pv_endpoints p) =? "")%string
  then sret (Some (Err "device_authorization_endpoint not available; configure device_auth_url or use authorization_code flow"))
  else
    do r <- RequestDeviceCode (pv_endpoints p) (pv_cfg p);
    match r with
    | Err e => sret (Some (Err ("requesting device code: " +:+ e)))
    | Ok d =>
        run (if pv_notified p then notify (pv_serverName p) (verify_url d) (da_UserCode d) (da_ExpiresIn d) else sret tt);
        PollForToken fuel (pv_endpoints p) (pv_cfg p) d
    end.

Definition runAuthCodeFlow (p : Provider) : M (result string StoredToken) :=
  if (ep_Authorization (pv_endpoints p) =? "")%string
  then sret (Err "authorization_endpoint not available; configure authorization_url or check issuer discovery")
  else RunAuthCodeFlow (pv_endpoints p) (pv_cfg p) (pv_notified p) (pv_serverName p).

(** The operations that use the store. *)
Abbreviation P := (State (TokenStore * W)).
Definition outside {A} (m : M A) : P A := fun '(s, w) => let '(a, w) := m w in (a, (s, w)).
Definition stored : P (result string (option StoredToken)) := fun '(s, w) => let '(r, s) := GetToken derive open_ s in (r, (s, w)).
Definition save (what : string) (t : StoredToken) : P (option string) :=
  do r <- outside salts;
  do d <- outside disk;
  do e <- (fun '(s, w) => let '(e, s) := SaveToken derive seal r d t s in (e, (s, w)));
  sret (match e with Some e => Some (what +:+ ": " +:+ e) | None => None end).

Definition is_zero_time (t : Z) : bool := t =? time_zero.

(** The token is not past its expiry at [n]; one without expiry is not current. *)
Definition current (t : StoredToken) (n : Z) : bool := negb (is_zero_time (tk_Expiry t)) && time_after (tk_Expiry t) n.

Definition interactive (p : Provider) : M (option (result string StoredToken)) :=
  if (to_lower fold (pc_Flow (pv_cfg p)) =? "authorization_code")%string
  then do r <- runAuthCodeFlow p; sret (Some r)
  else runDeviceFlow p.

Definition sign_in (p : Provider) : P (option (option string)) :=
  do r <- outside (interactive p);
  match r with
  | None => sret None
  | Some (Err e) => sret (Some (Some e))
  | Some (Ok t) => do e <- save "saving new token" t; sret (Some e)
  end.

(** The error, if any; [None] when the fuel of the polling is not enough. *)
Definition EnsureToken (p : Provider) : P (option (option string)) :=
  do r <- stored;
  match r with
  | Err e => sret (Some (Some ("reading stored token: " +:+ e)))
  | Ok None => sign_in p
  | Ok (Some t) =>
      do valid <- (if is_zero_time (tk_Expiry t) then sret false else do n <- outside now; sret (time_after (tk_Expiry t) n));
      if valid : bool then sret (Some None)
      else if (tk_RefreshToken t =? "")%string then sign_in p
      else
        do r <- outside (refreshToken p t);
        match r with
        | Ok refreshed => do e <- save "saving refreshed token" refreshed; sret (Some e)
        | Err _ => sign_in p
        end
  end.

(** The source of tokens for the requests. *)
Definition Token (p : Provider) : P (result string StoredToken) :=
  do r <- stored;
  match r with
  | Err e => sret (Err ("reading token from store: " +:+ e))
  | Ok None => sret (Err "no OIDC token available; run device authorization flow first")
  | Ok (Some t) =>
      do expired <- (if is_zero_time (tk_Expiry t) then sret false else do n <- outside now; sret (time_before (tk_Expiry t) n));
      if (expired : bool) && negb (tk_RefreshToken t =? "")%string then
        do r <- outside (refreshToken p t);
        match r with
        | Err e => sret (Err ("token refresh failed: " +:+ e))
        | Ok refreshed =>
            do e <- save "saving refreshed token" refreshed;
            sret (match e with Some e => Err e | None => Ok refreshed end)
        end
      else sret (Ok t)
  end.
End world.

(** ** The polling ends *)

Section termination.
Context {W : Type}.
Context (send : http_call -> State W (result string http_reply)) (now : State W Z) (wait : Z -> State W (option string)).
Context (bad_url : string -> option string) (clock : W -> Z).
(** The clock does not go back, [now] reads it, and a wait that is not cut short
    takes as long as asked. *)
Context (now_reads : forall w, fst (now w) = clock w /\ clock w <= clock (snd (now w)))
        (send_takes : forall q w, clock w <= clock (snd (send q w)))
        (wait_takes : forall d w, fst (wait d w) = None -> clock w + d <= clock (snd (wait d w))).

Lemma request_takes creating asking q w : clock w <= clock (snd (request send bad_url creating asking q w)).
Proof.
  unfold request. destruct (bad_url _); [cbn; lia|]. unfold sbind. pose proof (send_takes q w) as H. by destruct (send q w) as [[r|e] w'].
Qed.

Lemma exchange_takes ep cfg code w : clock w <= clock (snd (exchangeDeviceCode send now bad_url ep cfg code w)).
Proof.
  unfold exchangeDeviceCode. unfold sbind at 1. match goal with |- context [request _ _ ?c ?a ?q w] => pose proof (request_takes c a q w) as H;
    destruct (request send bad_url c a q w) as [[reply|e] w'] end; cbn [snd] in H; [|exact H].
  destruct (read_json _ _ _ reply) as [t|e]; [|exact H]. destruct (tr_Error t =? "")%string.
  - unfold sbind. pose proof (now_reads w') as [_ Hn]. destruct (now w') as [n w'']. cbn in *. lia.
  - by repeat (case_match; [exact H|]).
Qed.

Lemma poll_ends ep cfg code deadline fuel : forall interval w,
  (0 < fuel)%nat -> 5 <= interval -> interval + 5 * Z.of_nat fuel < 2 ^ 33 ->
  deadline < clock w + 5 * Z.of_nat fuel * time_second ->
  exists r, fst (poll send now wait bad_url fuel ep cfg code interval deadline w) = Some r.
Proof.
  induction fuel as [|fuel IH]; intros interval w Hf Hi Hb Hd; [lia|]. cbn [poll]. unfold sbind at 1.
  rewrite int64_small by (unfold time_second; lia).
  pose proof (wait_takes (interval * time_second) w) as Hw. destruct (wait _ w) as [[e|] w1]; [by eexists|]. specialize (Hw eq_refl). cbn [snd] in Hw.
  unfold sbind at 1. pose proof (now_reads w1) as [Hn Hn']. destruct (now w1) as [n w2]. cbn [fst snd] in *. subst n. unfold time_after.
  destruct (Z.ltb_spec deadline (clock w1)) as [Hlt|Hge]; [by eexists|].
  assert (Hfuel : (0 < fuel)%nat) by (unfold time_second in *; lia).
  unfold sbind at 1. pose proof (exchange_takes ep cfg code w2) as He.
  destruct (exchangeDeviceCode send now bad_url ep cfg code w2) as [[t|e| |] w3]; cbn [snd] in He; try (by eexists);
    (apply IH; [done|lia|lia|unfold time_second in *; lia]).
Qed.

(** C28: The polling for the token ends: with one poll for every five seconds the device
    code is good for and one more, whatever the endpoint answers, it has come to a
    token or an error. *)
Theorem device_flow_ends ep cfg d fuel w :
  0 <= da_ExpiresIn d < 2 ^ 31 -> da_Interval d < 2 ^ 31 -> da_ExpiresIn d < 5 * Z.of_nat fuel < 2 ^ 32 ->
  exists r, fst (PollForToken send now wait bad_url fuel ep cfg d w) = Some r.
Proof.
  intros He Hi Hf. unfold PollForToken, sbind. pose proof (now_reads w) as [Hn Hn']. destruct (now w) as [n w']. cbn [fst snd] in *. subst n.
  apply poll_ends; [lia| | |].
  - case_test; lia.
  - case_test; lia.
  - unfold after_seconds. rewrite int64_small by (unfold time_second; lia). unfold time_second. lia.
Qed.
End termination.

(** ** What a success leaves behind *)

Section outcomes.
Context {W : Type}.
Context (send : http_call -> State W (result string http_reply)) (now : State W Z) (wait : Z -> State W (option string)).
Context (notify : string -> string -> string -> Z -> State W unit).
Context (bad_url : string -> option string) (quote : string -> string) (fold : Z -> Z).
Context (listen : State W (result string Z)) (await : Z -> string -> State W awaited) (set_query : string -> form -> result string string).
Context (random : nat -> State W (result string (list Z))).
Context (derive : string -> string -> string) (seal : string -> string -> string -> string)
        (open_ : string -> string -> string -> option string).
Context (salts : State W (result string (string * string))) (disk : State W (option string)) (fuel : nat).

(** A code is exchanged only when the redirect has the state that was generated, a
    code and no error; anything else sends nothing. *)
Lemma redirected_guarded ep cfg uri state pkce q w :
  let r := redirected send now bad_url quote ep cfg uri state pkce (callback q) w in
  (query_get "error" q = "" /\ query_get "state" q = state /\ query_get "code" q <> ""
   /\ r = exchangeAuthCode send now bad_url ep cfg (query_get "code" q) uri pkce w)
  \/ exists e, r = (Err e, w).
Proof.
  unfold callback. destruct (String.eqb_spec (query_get "error" q) "") as [He|He]; cbn [negb redirected]; [|right; by eexists].
  destruct (String.eqb_spec (query_get "state" q) state) as [Hs|Hs]; cbn [negb]; [|right; by eexists].
  destruct (String.eqb_spec (query_get "code" q) "") as [Hc|Hc]; [right; by eexists|by left].
Qed.

Lemma GetToken_cached s t s' : GetToken derive open_ s = (Ok (Some t), s') -> ts_cached s' = Some t.
Proof.
  unfold GetToken. destruct (ts_cached s) eqn:E; [intros [= <- <-]; done|]. destruct (ts_file s); [|done].
  destruct (decrypt _ _ _ _); [|done]. destruct (unmarshal _ _ _) as [x [e|]]; [done|]. by intros [= <- <-].
Qed.

Lemma save_cached what t sw sw' : save derive seal salts disk what t sw = (None, sw') -> ts_cached (fst sw') = Some t.
Proof.
  unfold save, sbind, outside. destruct sw as [s w]. destruct (salts w) as [r w1]. destruct (disk w1) as [d w2].
  unfold SaveToken. destruct (negb _); [done|]. destruct (encrypt _ _ _ _ _); [|done]. destruct d; [done|]. cbn. by intros [= <-].
Qed.

Abbreviation Ensure := (EnsureToken send now wait notify bad_url quote fold listen await set_query random derive seal open_ salts disk fuel).

(** A provider that has signed in has a token at hand: [EnsureToken] without an error
    leaves one in the store, whether it was there, was refreshed or is new. *)
Lemma signed_in p sw sw' : Ensure p sw = (Some None, sw') -> exists t, ts_cached (fst sw') = Some t.
Proof.
  assert (Hsave : forall what t sw sw', (do e <- save derive seal salts disk what t; sret (Some e)) sw = (Some None, sw') -> exists t, ts_cached (fst sw') = Some t).
  { intros what t sw0 sw1. unfold sbind, sret. destruct (save _ _ _ _ _ _ sw0) as [[e|] sw2] eqn:E; [done|]. intros [= <-].
    exists t. by eapply save_cached. }
  assert (Hsign : forall sw sw', sign_in send now wait notify bad_url quote fold listen await set_query random derive seal salts disk fuel p sw = (Some None, sw') ->
    exists t, ts_cached (fst sw') = Some t).
  { intros sw0 sw1. unfold sign_in, sbind at 1. destruct (outside _ sw0) as [[[t|e]|] sw2]; [apply Hsave|done|done]. }
  unfold EnsureToken, sbind at 1. unfold stored. destruct sw as [s w]. destruct (GetToken derive open_ s) as [[[t|]|e] s1] eqn:Eg; [|apply Hsign|done].
  unfold sbind at 1. match goal with |- (let '(a, s2) := ?m (s1, w) in _) = _ -> _ => destruct (m (s1, w)) as [valid sw1] eqn:Ev end.
  assert (Hs : fst sw1 = s1).
  { revert Ev. destruct (is_zero_time (tk_Expiry t)); [by intros [= _ <-]|]. unfold sbind, outside, sret. destruct (now w). by intros [= _ <-]. }
  destruct valid.
  - intros [= <-]. exists t. rewrite Hs. by eapply GetToken_cached.
  - destruct (tk_RefreshToken t =? "")%string; [apply Hsign|]. unfold sbind at 1. destruct (outside _ sw1) as [[r|e] sw2]; [apply Hsave|apply Hsign].
Qed.
End outcomes.

(** ** A world *)

(** The answers that are left, and the time. *)
Definition demo_world : Type := list http_reply * Z.
Definition demo_send (q : http_call) : State demo_world (result string http_reply) := fun '(l, t) =>
  match l with r :: l => (Ok r, (l, t)) | [] => (Err "no answer", ([], t)) end.
Definition demo_now : State demo_world Z := fun w => (snd w, w).
Definition demo_wait (d : Z) : State demo_world (option string) := fun '(l, t) => (None, (l, t + d)).

Definition demo_answer (s : string) : http_reply := Build_http_reply 200 (Ok (json_text s)).
Definition demo_pending : http_reply := Build_http_reply 400 (Ok (json_text "{'error':'authorization_pending'}")).
Definition demo_slower : http_reply := Build_http_reply 400 (Ok (json_text "{'error':'slow_down'}")).
Definition demo_device (expires : Z) : DeviceAuthResponse := Build_DeviceAuthResponse "dev" "AB-CD" "http://v" "" "" expires 1.
Definition demo_endpoints : OIDCEndpoints := Build_OIDCEndpoints "http://a" "http://d" "http://t".
Definition demo_provider_cfg : ProviderConfig := Build_ProviderConfig "id" "" [] "http://i" "" "" "" "" "device".

(** The tokens come after polls at five, ten and twenty seconds. *)
Example device_flow_demo :
  PollForToken demo_send demo_now demo_wait (fun _ => None) 9 demo_endpoints demo_provider_cfg (demo_device 60)
    ([demo_pending; demo_slower; demo_answer "{'access_token':'T','token_type':'Bearer','expires_in':3600}"], 0) =
  (Some (Ok (Build_StoredToken "T" "Bearer" "" (3620 * time_second))), ([], 20 * time_second)).
Proof. vm_compute. reflexivity. Qed.

Lemma device_flow_ends_witness :
  exists r, fst (PollForToken demo_send demo_now demo_wait (fun _ => None) 5 demo_endpoints demo_provider_cfg (demo_device 20)
                   (repeat demo_pending 9, 0)) = Some r /\ r = Err "device code expired".
Proof.
  destruct (device_flow_ends demo_send demo_now demo_wait (fun _ => None) snd
              (fun w => conj eq_refl (Z.le_refl _))
              (fun q w => match w with (r :: l, t) => Z.le_refl t | ([], t) => Z.le_refl t end)
              (fun d w => match w with (l, t) => fun _ => Z.le_refl (t + d) end)
              demo_endpoints demo_provider_cfg (demo_device 20) 5 (repeat demo_pending 9, 0)) as [r Hr].
  - cbn. lia.
  - cbn. lia.
  - cbn. lia.
  - exists r. split; [exact Hr|]. vm_compute in Hr. by injection Hr as <-.
Defined.

(** An answer without a token, of any status, is taken for one. *)
Example empty_token_accepted :
  exchangeDeviceCode demo_send demo_now (fun _ => None) demo_endpoints demo_provider_cfg "dev" ([Build_http_reply 500 (Ok "{}")], 7) =
  (PollToken (Build_StoredToken "" "" "" 7), ([], 7)).
Proof. vm_compute. reflexivity. Qed.

(** The example of RFC 7636, appendix B. *)
Example pkce_rfc7636 :
  pkce_of [116; 24; 223; 180; 151; 153; 224; 37; 79; 250; 96; 125; 216; 173; 187; 186; 22; 212; 37; 77; 105; 214; 191; 240; 91; 88; 5; 88;
           83; 132; 141; 121] =
  Build_pkceChallenge "dBjftJeZ4CVP-mB92K27uhbUJU1p1r_wW1gFWFOEjXk" "E9Melhoa2OwvFrEMTJguCHaoeK1t8URWbuGJSstw-cM" "S256".
Proof. vm_compute. reflexivity. Qed.

Example form_demo : form_encode [("scope", "a b/c"); ("client_id", "x&y"); ("audience", "-_.~")] = "audience=-_.~&client_id=x%26y&scope=a+b%2Fc".
Proof. vm_compute. reflexivity. Qed.

(** ** The store and the provider *)

Definition demo_seal (key nonce data : string) : string := data.
Definition demo_open (key nonce data : string) : option string := Some data.
Definition demo_store : TokenStore := Build_TokenStore "pw" None None.
Definition demo_token : StoredToken := Build_StoredToken "T" "Bearer" "R" 5000000000.
Definition saved_store : TokenStore :=
  snd (SaveToken (fun p s => p) demo_seal (Ok ("0123456789abcdef", "0123456789ab")) None demo_token demo_store).

Lemma token_kept_witness :
  fst (GetToken (fun p s => p) demo_open saved_store) = Ok (Some demo_token)
  /\ fst (GetToken (fun p s => p) demo_open (restarted saved_store)) = Ok (Some (valid_token demo_token))
  /\ fst (GetToken (fun p s => p) demo_open (snd (DeleteToken None saved_store))) = Ok None.
Proof.
  edestruct (token_kept (fun p s => p) demo_seal demo_open "0123456789abcdef" "0123456789ab" demo_token demo_store saved_store)
    as (H1 & H2 & (_ & H3 & _) & _); cycle 4; [by split_and!|..].
  - intros key n data. reflexivity.
  - reflexivity.
  - reflexivity.
  - vm_compute. reflexivity.
Defined.

Definition demo_provider : Provider := Build_Provider demo_provider_cfg demo_endpoints "srv" false.

Definition demo_ensure (s : TokenStore) (w : demo_world) : option (option string) * (TokenStore * demo_world) :=
  EnsureToken demo_send demo_now demo_wait (fun _ _ _ _ => sret tt) (fun _ => None) (fun s => s) (fun r => r)
    (sret (Err "no port")) (fun _ _ => sret TimedOut) (fun u _ => Ok u) (fun _ => sret (Err "no bytes"))
    (fun p s => p) demo_seal demo_open (sret (Ok ("0123456789abcdef", "0123456789ab"))) (sret None) 30 demo_provider (s, w).
Definition demo_source (s : TokenStore) (w : demo_world) : result string StoredToken * (TokenStore * demo_world) :=
  Token demo_send demo_now (fun _ => None) (fun p s => p) demo_seal demo_open (sret (Ok ("0123456789abcdef", "0123456789ab"))) (sret None) demo_provider (s, w).

(** A token that has expired is refreshed, and keeps its refresh token. *)
Example refresh_demo :
  let '(r, (s, _)) := demo_ensure saved_store ([demo_answer "{'access_token':'T2','token_type':'Bearer','expires_in':60}"], 9000000000) in
  r = Some None /\ ts_cached s = Some (Build_StoredToken "T2" "Bearer" "R" 69000000000).
Proof. by vm_compute. Qed.

(** A refreshed token without a lifetime has no expiry: requests use it for good, but
    each start refreshes it again. *)
Example no_expiry_demo :
  let '(r, (s, w)) := demo_ensure saved_store ([demo_answer "{'access_token':'T2'}"; demo_answer "{'access_token':'T3'}"], 9000000000) in
  r = Some None /\ fst (demo_source s w) = Ok (Build_StoredToken "T2" "" "R" time_zero)
  /\ match demo_ensure s w with (r, (s, _)) => ts_cached s = Some (Build_StoredToken "T3" "" "R" time_zero) end.
Proof. vm_compute. by repeat split. Qed.

(** A redirect that reports an error ends the flow whoever makes it. *)
Example forged_error :
  callback [("error", "denied"); ("state", "not the state")] = CodeError "authorization error: denied ()".
Proof. reflexivity. Qed.
