(* ===== verification/SessionFs.v ===== *)
(** * The operating system under the session store

    Package session is written against [os], [path/filepath], the clock and the
    random sources.  This file models what it uses of them: cleaned paths, a
    file system whose calls are atomic, and programs as sequences of calls
    ([prog]), so that a crash between two calls and the interleaving of several
    processes are statements about the same definitions the functional theorems
    are about.

    Not modelled: permissions, a full disk, links other than the lock's (a link
    is a copy: a linked file is never written again), a crash in the middle of
    one write. *)
From Stdlib Require Import ZArith Lia Bool Ascii String List.
From stdpp Require Import base gmap strings option list.
From S2P Require Import Prelude GoString SessionKey SessionTypes.

Local Open Scope string_scope.
Local Open Scope Z_scope.

(** ** Paths (path/filepath, Unix)

    A cleaned path is rooted or not, with its components, the last one first. *)
Definition path : Type := bool * list string.

(** One component of [Clean]: [.] and the empty ones vanish, [..] removes the
    component before it, or stays at the start of a relative path. *)
Definition clean_step (p : path) (c : string) : path :=
  let '(rooted, cs) := p in
  if (c =? "")%string || (c =? ".")%string then p
  else if (c =? "..")%string then
    match cs with
    | [] => (rooted, if rooted then [] else [".."])
    | x :: cs' => (rooted, if (x =? "..")%string then ".." :: cs else cs')
    end
  else (rooted, c :: cs).

(** [filepath.Clean]. *)
Definition Clean (s : string) : path :=
  fold_left clean_step (split_on "/" s) (has_prefix s "/", []).

(** [filepath.Join(p, elem)] for a non-empty [p]. *)
Definition Join (p : path) (elem : string) : path := fold_left clean_step (split_on "/" elem) p.

(** [p + suffix], for a path with a component. *)
Definition path_add (p : path) (suffix : string) : path :=
  match p with
  | (r, c :: cs) => (r, (c +:+ suffix) :: cs)
  | (r, []) => (r, [suffix])
  end.

Definition parent (p : path) : path := (fst p, tail (snd p)).
Definition base_name (p : path) : string := hd "" (snd p).

(** ** The file system *)

Inductive os_error := ErrNotExist | ErrExist | ErrOther.

Record file := File { f_data : FileData; f_mtime : Z }.

Record FS := { fs_files : gmap path file; fs_dirs : gset path }.

(** [name] with the directories it is in: the prefixes of the components. *)
Fixpoint ancestors (r : bool) (cs : list string) : list path :=
  (r, cs) :: match cs with [] => [] | _ :: cs' => ancestors r cs' end.

Definition is_dir (fs : FS) (p : path) : bool := bool_decide (p ∈ fs_dirs fs).
Definition is_file (fs : FS) (p : path) : bool :=
  match fs_files fs !! p with Some _ => true | None => false end.

Definition set_file (p : path) (f : file) (fs : FS) : FS :=
  {| fs_files := <[p := f]> (fs_files fs); fs_dirs := fs_dirs fs |}.
Definition del_file (p : path) (fs : FS) : FS :=
  {| fs_files := delete p (fs_files fs); fs_dirs := fs_dirs fs |}.

(** Why a file cannot be made at [p], if it cannot. *)
Definition cannot_make (fs : FS) (p : path) : option os_error :=
  if is_dir fs p then Some ErrOther
  else if is_dir fs (parent p) then None else Some ErrNotExist.

Definition fs_read (fs : FS) (p : path) : result os_error FileData :=
  match fs_files fs !! p with
  | Some f => Ok (f_data f)
  | None => Err (if is_dir fs p then ErrOther else ErrNotExist)
  end.

Definition fs_stat (fs : FS) (p : path) : result os_error Z :=
  match fs_files fs !! p with
  | Some f => Ok (f_mtime f)
  | None => Err ErrNotExist
  end.

(** [O_CREATE|O_TRUNC]. *)
Definition fs_write (fs : FS) (now : Z) (p : path) (d : FileData) : result os_error unit * FS :=
  match cannot_make fs p with
  | Some e => (Err e, fs)
  | None => (Ok tt, set_file p (File d now) fs)
  end.

(** [O_CREATE|O_EXCL]. *)
Definition fs_create (fs : FS) (now : Z) (p : path) (d : FileData) : result os_error unit * FS :=
  if is_file fs p || is_dir fs p then (Err ErrExist, fs) else fs_write fs now p d.

(** [O_APPEND|O_CREATE] and one [Write]. *)
Definition fs_append (fs : FS) (now : Z) (p : path) (l : raw_line) : result os_error unit * FS :=
  let ls := match fs_files fs !! p with Some f => as_lines (f_data f) | None => [] end in
  fs_write fs now p (FLines (ls ++ [l])).

Definition fs_link (fs : FS) (old new : path) : result os_error unit * FS :=
  match fs_files fs !! old with
  | None => (Err ErrNotExist, fs)
  | Some f =>
      if is_file fs new || is_dir fs new then (Err ErrExist, fs)
      else match cannot_make fs new with
           | Some e => (Err e, fs)
           | None => (Ok tt, set_file new f fs)
           end
  end.

Definition fs_rename (fs : FS) (old new : path) : result os_error unit * FS :=
  match fs_files fs !! old with
  | None => (Err ErrNotExist, fs)
  | Some f =>
      match cannot_make fs new with
      | Some e => (Err e, fs)
      | None => (Ok tt, set_file new f (del_file old fs))
      end
  end.

Definition fs_remove (fs : FS) (p : path) : FS := del_file p fs.

Definition fs_mkdir_all (fs : FS) (p : path) : result os_error unit * FS :=
  let ps := ancestors (fst p) (snd p) in
  if existsb (is_file fs) ps then (Err ErrOther, fs)
  else (Ok tt, {| fs_files := fs_files fs; fs_dirs := fs_dirs fs ∪ list_to_set ps |}).

(** The names in a directory in the order of [os.ReadDir]; directories are
    listed too, which the callers skip, so only files are kept here. *)
Fixpoint insert_name (x : string) (l : list string) : list string :=
  match l with
  | [] => [x]
  | y :: l' => match String.compare x y with Gt => y :: insert_name x l' | _ => x :: l end
  end.

Definition sort_names (l : list string) : list string := fold_right insert_name [] l.

Definition fs_read_dir (fs : FS) (p : path) : result os_error (list string) :=
  if is_dir fs p then
    Ok (sort_names (map (fun kv => base_name (fst kv))
          (List.filter (fun kv => bool_decide (parent (fst kv) = p /\ snd (fst kv) <> []))
             (map_to_list (fs_files fs)))))
  else Err (if is_file fs p then ErrOther else ErrNotExist).

(** ** Programs: sequences of calls

    What a process asks of its surroundings: the file system, the clock, the
    random sources, whether its context is done, and the index cache of its
    [Store] (each access of which holds the store's mutex). *)
Record indexCacheEntry := { ic_index : sessionIndex; ic_expiresAt : Z }.

(** A [context.Context]: the instant it is done, [None] for [Background]. *)
Abbreviation context := (option Z).

Inductive call : Type -> Type :=
| ReadFile (p : path) : call (result os_error FileData)
| Stat (p : path) : call (result os_error Z)
| WriteFile (p : path) (d : FileData) : call (result os_error unit)
| CreateFile (p : path) (d : FileData) : call (result os_error unit)
| AppendLine (p : path) (l : raw_line) : call (result os_error unit)
| Link (old new : path) : call (result os_error unit)
| Rename (old new : path) : call (result os_error unit)
| Remove (p : path) : call unit
| MkdirAll (p : path) : call (result os_error unit)
| ReadDir (p : path) : call (result os_error (list string))
| Now : call Z
| Sleep (d : Z) : call unit
| RandHex : call string
| NewUUID : call string
| Done (ctx : context) : call bool
| CacheGet (u : string) : call (option indexCacheEntry)
| CachePut (u : string) (e : indexCacheEntry) : call unit
| CacheDelete (u : string) : call unit.

Inductive prog (A : Type) : Type :=
| Ret (a : A)
| Step {X : Type} (c : call X) (k : X -> prog A).
Arguments Ret {A} a.
Arguments Step {A X} c k.

Fixpoint pbind {A B} (m : prog A) (f : A -> prog B) : prog B :=
  match m with
  | Ret a => f a
  | Step c k => Step c (fun x => pbind (k x) f)
  end.

Declare Scope prog_scope.
Delimit Scope prog_scope with prog.
Notation "'call!' x '<-' c ; k" := (Step c (fun x => k))
  (at level 100, x pattern, c at level 100, k at level 200) : prog_scope.
Notation "'call_!' c ; k" := (Step c (fun _ => k))
  (at level 100, c at level 100, k at level 200) : prog_scope.
Notation "'sub!' x '<-' m ; k" := (pbind m (fun x => k))
  (at level 100, x pattern, m at level 100, k at level 200) : prog_scope.
Open Scope prog_scope.

(** *** Errors

    An error with the texts [fmt.Errorf("...: %w", err)] wrapped around it. *)
Inductive error :=
| EOs (e : os_error)
| EKey (e : key_error)
| ESessionNotFound
| EText (msg : string)
| EWrap (msg : string) (e : error).

(** [errors.Is(err, ErrSessionNotFound)]. *)
Fixpoint is_not_found (e : error) : bool :=
  match e with
  | ESessionNotFound => true
  | EWrap _ e => is_not_found e
  | _ => false
  end.

(** [if err := m; err != nil { return fmt.Errorf(msg: %w) }]. *)
Notation "'try!' x '<-' m 'else' msg ; k" :=
  (pbind m (fun r => match r with Ok x => k | Err e => Ret (Err (EWrap msg e)) end))
  (at level 100, x pattern, m at level 100, msg at level 9, k at level 200) : prog_scope.

(** A call of package [os] whose error is returned wrapped. *)
Definition os_call {A} (c : call (result os_error A)) : prog (result error A) :=
  call! r <- c; Ret (match r with Ok a => Ok a | Err e => Err (EOs e) end).

(** ** Running a program

    [env_lag n] is the time the [n]-th call of the process takes; the random
    sources answer by the number of the call too. *)
Record Env := {
  env_lag : nat -> Z;
  env_hex : nat -> string;
  env_uuid : nat -> string }.

Record World := {
  w_fs : FS;
  w_cache : gmap string indexCacheEntry;
  w_now : Z;
  w_calls : nat }.

Definition with_fs (w : World) (fs : FS) : World :=
  {| w_fs := fs; w_cache := w_cache w; w_now := w_now w; w_calls := w_calls w |}.
Definition with_cache (w : World) (c : gmap string indexCacheEntry) : World :=
  {| w_fs := w_fs w; w_cache := c; w_now := w_now w; w_calls := w_calls w |}.
Definition with_now (w : World) (t : Z) : World :=
  {| w_fs := w_fs w; w_cache := w_cache w; w_now := t; w_calls := w_calls w |}.

Definition on_fs {A} (w : World) (r : A * FS) : A * World := (fst r, with_fs w (snd r)).

Section interp.
Variable env : Env.

Definition tick (w : World) : World :=
  {| w_fs := w_fs w; w_cache := w_cache w;
     w_now := w_now w + env_lag env (w_calls w); w_calls := S (w_calls w) |}.

Definition perform {X} (c : call X) (w : World) : X * World :=
  match c in call X return X * World with
  | ReadFile p => (fs_read (w_fs w) p, w)
  | Stat p => (fs_stat (w_fs w) p, w)
  | WriteFile p d => on_fs w (fs_write (w_fs w) (w_now w) p d)
  | CreateFile p d => on_fs w (fs_create (w_fs w) (w_now w) p d)
  | AppendLine p l => on_fs w (fs_append (w_fs w) (w_now w) p l)
  | Link old new => on_fs w (fs_link (w_fs w) old new)
  | Rename old new => on_fs w (fs_rename (w_fs w) old new)
  | Remove p => (tt, with_fs w (fs_remove (w_fs w) p))
  | MkdirAll p => on_fs w (fs_mkdir_all (w_fs w) p)
  | ReadDir p => (fs_read_dir (w_fs w) p, w)
  | Now => (w_now w, w)
  | Sleep d => (tt, with_now w (w_now w + Z.max 0 d))
  | RandHex => (env_hex env (w_calls w), w)
  | NewUUID => (env_uuid env (w_calls w), w)
  | Done ctx => (match ctx with Some t => t <=? w_now w | None => false end, w)
  | CacheGet u => (w_cache w !! u, w)
  | CachePut u e => (tt, with_cache w (<[u := e]> (w_cache w)))
  | CacheDelete u => (tt, with_cache w (delete u (w_cache w)))
  end.

Definition do_call {X} (c : call X) (w : World) : X * World :=
  let '(x, w') := perform c w in (x, tick w').

Fixpoint exec {A} (m : prog A) (w : World) : A * World :=
  match m with
  | Ret a => (a, w)
  | Step c k => let '(x, w') := do_call c w in exec (k x) w'
  end.

(** The world when the process dies after [n] calls. *)
Fixpoint crash {A} (n : nat) (m : prog A) (w : World) : World :=
  match n, m with
  | S n, Step c k => let '(x, w') := do_call c w in crash n (k x) w'
  | _, _ => w
  end.
End interp.

(** ** Composition *)
Section laws.
Variable env : Env.

Lemma exec_bind {A B} (m : prog A) (f : A -> prog B) w :
  exec env (pbind m f) w = exec env (f (fst (exec env m w))) (snd (exec env m w)).
Proof.
  revert w. induction m as [a|X c k IH]; intros w; [done|].
  cbn [pbind exec]. destruct (do_call env c w) as [x w']. apply IH.
Qed.

Lemma crash_0 {A} (m : prog A) w : crash env 0 m w = w.
Proof. by destruct m. Qed.

(** A crash in a composition is a crash in the first part, or in the second
    after the first has run. *)
Lemma crash_bind {A B} n (m : prog A) (f : A -> prog B) w :
  (exists n1, crash env n (pbind m f) w = crash env n1 m w)
  \/ exists n2, crash env n (pbind m f) w = crash env n2 (f (fst (exec env m w))) (snd (exec env m w)).
Proof.
  revert n w. induction m as [a|X c k IH]; intros n w; [right; by exists n|].
  destruct n as [|n]; [left; by exists 0%nat|]. cbn [pbind crash exec].
  destruct (do_call env c w) as [x w'] eqn:E. destruct (IH x n w') as [[n1 H]|[n2 H]].
  - left. exists (S n1). cbn [crash]. by rewrite E.
  - right. by exists n2.
Qed.

(** What holds at every point where the process may die. *)
Definition always {A} (P : World -> Prop) (m : prog A) (w : World) : Prop :=
  forall n, P (crash env n m w).

Lemma always_bind {A B} P (m : prog A) (f : A -> prog B) w :
  always P m w -> always P (f (fst (exec env m w))) (snd (exec env m w)) ->
  always P (pbind m f) w.
Proof. intros H1 H2 n. destruct (crash_bind n m f w) as [[k ->]|[k ->]]; [apply H1|apply H2]. Qed.

Lemma exec_crash {A} (m : prog A) w : exists n, snd (exec env m w) = crash env n m w.
Proof.
  revert w. induction m as [a|X c k IH]; intros w; [by exists 0%nat|]. cbn [exec].
  destruct (do_call env c w) as [x w'] eqn:E. destruct (IH x w') as [n Hn].
  exists (S n). cbn [crash]. by rewrite E.
Qed.

Lemma always_end {A} P (m : prog A) w : always P m w -> P (snd (exec env m w)).
Proof. intros H. destruct (exec_crash m w) as [n ->]. apply H. Qed.

Lemma always_ret {A} P (a : A) w : P w -> always P (Ret a) w.
Proof. intros H n. by destruct n. Qed.

Lemma always_step {A X} P (c : call X) (k : X -> prog A) w :
  P w -> always P (k (fst (do_call env c w))) (snd (do_call env c w)) -> always P (Step c k) w.
Proof.
  intros H0 H n. destruct n as [|n]; [done|]. cbn [crash]. specialize (H n).
  by destruct (do_call env c w).
Qed.

(** ** What a program may write

    [writes S m]: whatever the calls answer, [m] only changes files in [S]. *)
Definition call_writes (S : path -> Prop) {X} (c : call X) : Prop :=
  match c with
  | WriteFile p _ | CreateFile p _ | AppendLine p _ | Remove p => S p
  | Link _ new => S new
  | Rename old new => S old /\ S new
  | _ => True
  end.

Fixpoint writes (S : path -> Prop) {A} (m : prog A) : Prop :=
  match m with
  | Ret _ => True
  | Step c k => call_writes S c /\ forall x, writes S (k x)
  end.

Lemma writes_bind S {A B} (m : prog A) (f : A -> prog B) :
  writes S m -> (forall a, writes S (f a)) -> writes S (pbind m f).
Proof.
  intros Hm Hf. induction m as [a|X c k IH]; [apply Hf|].
  destruct Hm as [Hc Hk]. split; [done|]. intros x. by apply IH.
Qed.

Lemma writes_mono (S T : path -> Prop) {A} (m : prog A) :
  (forall p, S p -> T p) -> writes S m -> writes T m.
Proof.
  intros H. induction m as [a|X c k IH]; [done|]. intros [Hc Hk]. split; [|auto].
  destruct c; cbn in *; naive_solver.
Qed.

Definition file_at (w : World) (p : path) : option file := fs_files (w_fs w) !! p.

Lemma lookup_set_file fs p f q :
  fs_files (set_file p f fs) !! q = if bool_decide (p = q) then Some f else fs_files fs !! q.
Proof. cbn. case_bool_decide; [subst; apply lookup_insert_eq|by apply lookup_insert_ne]. Qed.

Lemma lookup_del_file fs p q :
  fs_files (del_file p fs) !! q = if bool_decide (p = q) then None else fs_files fs !! q.
Proof. cbn. case_bool_decide; [subst; apply lookup_delete_eq|by apply lookup_delete_ne]. Qed.

Lemma fs_write_frame fs now p d q :
  p <> q -> fs_files (snd (fs_write fs now p d)) !! q = fs_files fs !! q.
Proof.
  intros Hne. unfold fs_write. destruct (cannot_make fs p); [done|].
  cbn [snd]. rewrite lookup_set_file. by rewrite bool_decide_false.
Qed.

Lemma perform_frame S {X} (c : call X) w q :
  call_writes S c -> ~ S q -> file_at (snd (do_call env c w)) q = file_at w q.
Proof.
  intros Hc Hq. unfold do_call, file_at.
  destruct c; cbn [call_writes perform fst snd on_fs tick with_fs with_cache with_now w_fs] in *; try done.
  - apply fs_write_frame. congruence.
  - unfold fs_create. destruct (_ || _); [done|]. apply fs_write_frame. congruence.
  - apply fs_write_frame. congruence.
  - unfold fs_link. destruct (fs_files _ !! old); [|done]. destruct (_ || _); [done|].
    destruct (cannot_make _ _); [done|]. cbn [snd].
    rewrite lookup_set_file, bool_decide_false; [done|congruence].
  - unfold fs_rename. destruct (fs_files _ !! old); [|done]. destruct (cannot_make _ _); [done|].
    destruct Hc as [Ho Hn]. cbn [snd].
    rewrite lookup_set_file, lookup_del_file, !bool_decide_false by congruence. done.
  - unfold fs_remove. rewrite lookup_del_file, bool_decide_false by congruence. done.
  - unfold fs_mkdir_all. by destruct (existsb _ _).
Qed.

Lemma crash_frame S {A} (m : prog A) n w q :
  writes S m -> ~ S q -> file_at (crash env n m w) q = file_at w q.
Proof.
  revert n w. induction m as [a|X c k IH]; intros n w Hm Hq; [by destruct n|].
  destruct n as [|n]; [done|]. destruct Hm as [Hc Hk]. cbn [crash].
  pose proof (perform_frame S c w q Hc Hq) as Hp. destruct (do_call env c w) as [x w'].
  rewrite IH; auto.
Qed.

Lemma exec_frame S {A} (m : prog A) w q :
  writes S m -> ~ S q -> file_at (snd (exec env m w)) q = file_at w q.
Proof.
  revert w. induction m as [a|X c k IH]; intros w Hm Hq; [done|].
  destruct Hm as [Hc Hk]. cbn [exec].
  pose proof (perform_frame S c w q Hc Hq) as Hp. destruct (do_call env c w) as [x w'].
  rewrite IH; auto.
Qed.

(** Directories are never removed. *)
Lemma do_call_dirs {X} (c : call X) w : fs_dirs (w_fs w) ⊆ fs_dirs (w_fs (snd (do_call env c w))).
Proof.
  unfold do_call. destruct c; cbn [perform snd on_fs tick with_fs with_cache with_now w_fs]; try done;
    unfold fs_create, fs_append, fs_link, fs_rename, fs_write, fs_mkdir_all;
    repeat case_match; cbn; try done; set_solver.
Qed.

Lemma exec_dirs {A} (m : prog A) w : fs_dirs (w_fs w) ⊆ fs_dirs (w_fs (snd (exec env m w))).
Proof.
  revert w. induction m as [a|X c k IH]; intros w; [done|]. cbn [exec].
  pose proof (do_call_dirs c w) as Hd. destruct (do_call env c w) as [x w'].
  etrans; [apply Hd|apply IH].
Qed.
End laws.

(** ** Joining names *)

Definition is_name (s : string) : bool :=
  lacks "/" s && negb ((s =? "") || (s =? ".") || (s =? ".."))%string.

Lemma Join_name d n : is_name n = true -> Join d n = (fst d, n :: snd d).
Proof.
  intros H. unfold is_name in H. bool_hyps. unfold Join. rewrite split_on_plain by done.
  destruct d as [r cs]. simpl. by repeat case_test.
Qed.

Lemma path_inj (d : path) n n' : (fst d, n :: snd d) = (fst d, n' :: snd d) -> n = n'.
Proof. congruence. Qed.

(** ** Two goroutines of one process

    A schedule says whose call is next: the first's ([false]) or the second's
    ([true]); a turn of a finished program is skipped. *)
Section interleave.
Variable env : Env.

Fixpoint interleave {A B} (sched : list bool) (m1 : prog A) (m2 : prog B) (w : World)
    : prog A * prog B * World :=
  match sched with
  | [] => (m1, m2, w)
  | false :: sched =>
      match m1 with
      | Ret _ => interleave sched m1 m2 w
      | Step c k => let '(x, w') := do_call env c w in interleave sched (k x) m2 w'
      end
  | true :: sched =>
      match m2 with
      | Ret _ => interleave sched m1 m2 w
      | Step c k => let '(x, w') := do_call env c w in interleave sched m1 (k x) w'
      end
  end.
End interleave.

Definition result_of {A} (m : prog A) : option A := match m with Ret a => Some a | Step _ _ => None end.
