(* ===== verification/SessionLock.v ===== *)
(** * The session file lock (pkg/session/lock.go)

    [FileLock] is an advisory lock: the lock is held while the lock file
    exists, and a file older than 30 minutes may be taken away. *)
From Stdlib Require Import ZArith Lia Bool Ascii String List.
From stdpp Require Import base gmap strings option list.
From S2P Require Import Prelude GoString GoTime SessionTypes SessionFs.

Local Open Scope string_scope.
Local Open Scope Z_scope.

Definition staleLockThreshold : Z := 30 * time_minute.
Definition malformedLockThreshold : Z := 5 * time_minute.
Definition lockMaxWait : Z := 10 * time_second.
Definition lockRetryBase : Z := 100 * time_millisecond.
Definition lockRetryMax : Z := 800 * time_millisecond.

(** [time.Since(t) > limit], of a file that cannot be read: at once. *)
Definition since_exceeds (t limit : Z) : prog bool :=
  call! now <- Now; Ret (limit <? now - t).

Definition lockFileIsStale (p : path) : prog bool :=
  call! info <- Stat p;
  match info with
  | Err _ => Ret true
  | Ok mtime =>
      call! data <- ReadFile p;
      match data with
      | Err _ => Ret true
      | Ok d =>
          match as_lock d ≫= (fun lc => parse_rfc3339 (lc_AcquiredAt lc)) with
          | None => since_exceeds mtime malformedLockThreshold
          | Some t => since_exceeds t staleLockThreshold
          end
      end
  end.

Definition next_delay (delay : Z) : Z :=
  if lockRetryMax <? delay * 2 then lockRetryMax else delay * 2.

(** The loop of [Lock]; [fuel] bounds the attempts. *)
Fixpoint lock_loop (fuel : nat) (tmp lock : path) (ctx : context) (deadline delay : Z)
    : prog (result error unit) :=
  match fuel with
  | O => Ret (Err (EText "out of fuel"))
  | S fuel =>
      call! r <- Link tmp lock;
      match r with
      | Ok _ => Ret (Ok tt)
      | Err ErrExist =>
          sub! stale <- lockFileIsStale lock;
          if stale then call_! Remove lock; lock_loop fuel tmp lock ctx deadline delay
          else
            call! now <- Now;
            if time_after now deadline then Ret (Err (EText "could not acquire lock"))
            else
              call! done <- Done ctx;
              if done then Ret (Err (EText "lock acquire cancelled"))
              else call_! Sleep delay; lock_loop fuel tmp lock ctx deadline (next_delay delay)
      | Err e => Ret (Err (EWrap "file lock link" (EOs e)))
      end
  end.

Definition tmp_path (p : path) (rnd : string) : path := path_add p ("." +:+ rnd +:+ ".tmp").

Section lock.
Variable pid : Z.
Variable fuel : nat.

(** [Lock] of a [FileLock] at [p]; the temporary file is removed on return. *)
Definition Lock (p : path) (ctx : context) (userID : string) : prog (result error unit) :=
  call! rnd <- RandHex;
  let tmp := tmp_path p rnd in
  call! now <- Now;
  call! w <- WriteFile tmp (FLock (Build_lockContent pid (format_nano now) userID));
  match w with
  | Err e => Ret (Err (EWrap "file lock prepare temp" (EOs e)))
  | Ok _ =>
      call! now <- Now;
      sub! r <- lock_loop fuel tmp p ctx (now + lockMaxWait) lockRetryBase;
      call_! Remove tmp;
      Ret r
  end.
End lock.

Definition Unlock (p : path) : prog unit := call_! Remove p; Ret tt.

(** The body of a [CleanStaleLocks] pass over the names of a directory. *)
Fixpoint clean_locks (dir : path) (names : list string) : prog unit :=
  match names with
  | [] => Ret tt
  | n :: ns =>
      if has_suffix n ".jsonl.lock" then
        sub! stale <- lockFileIsStale (Join dir n);
        if stale then call_! Remove (Join dir n); clean_locks dir ns
        else clean_locks dir ns
      else clean_locks dir ns
  end.

Definition CleanStaleLocks (dir : path) : prog (result error unit) :=
  call! r <- ReadDir dir;
  match r with
  | Err ErrNotExist => Ret (Ok tt)
  | Err e => Ret (Err (EWrap "clean stale locks: read dir" (EOs e)))
  | Ok names => sub! _ <- clean_locks dir names; Ret (Ok tt)
  end.

(** ** What a call of [Lock] does

    For one process: time passes, nothing else changes but the lock file. *)
Section lock_spec.
Variable env : Env.
Hypothesis lag_pos : forall n, 0 <= env_lag env n.

(** Same files, directories and cache, possibly later. *)
Definition only_time (w w' : World) : Prop :=
  w_fs w' = w_fs w /\ w_cache w' = w_cache w /\ w_now w <= w_now w'.

Lemma only_time_trans w1 w2 w3 : only_time w1 w2 -> only_time w2 w3 -> only_time w1 w3.
Proof. unfold only_time. intros (? & ? & ?) (? & ? & ?). repeat split; [congruence..|lia]. Qed.

Lemma only_time_refl w : only_time w w.
Proof. repeat split; lia. Qed.

Definition reads_only {X} (c : call X) : bool :=
  match c with
  | ReadFile _ | Stat _ | ReadDir _ | Now | Sleep _ | RandHex | NewUUID | Done _ | CacheGet _ => true
  | _ => false
  end.

Lemma do_call_reads {X} (c : call X) w : reads_only c = true -> only_time w (snd (do_call env c w)).
Proof.
  intros H. pose proof (lag_pos (w_calls w)) as Hl. unfold do_call, only_time.
  destruct c; try discriminate H; cbn; repeat split; lia.
Qed.

(** A program of reading calls only. *)
Fixpoint only_reads {A} (m : prog A) : Prop :=
  match m with
  | Ret _ => True
  | Step c k => reads_only c = true /\ forall x, only_reads (k x)
  end.

Lemma exec_reads {A} (m : prog A) w : only_reads m -> only_time w (snd (exec env m w)).
Proof.
  revert w. induction m as [a|X c k IH]; intros w Hm; [apply only_time_refl|].
  destruct Hm as [Hc Hk]. cbn [exec]. pose proof (do_call_reads c w Hc) as Ht.
  destruct (do_call env c w) as [x w']. eapply only_time_trans; [apply Ht|]. by apply IH.
Qed.

(** When the file [f] counts as stale: more than half an hour after the instant it
    names, or, when it names none, five minutes after it was written. *)
Definition stale_at (now : Z) (f : file) : bool :=
  match as_lock (f_data f) ≫= (fun lc => parse_rfc3339 (lc_AcquiredAt lc)) with
  | None => 300 * time_second <? now - f_mtime f
  | Some t => 1800 * time_second <? now - t
  end.

(** The lock [p] could be taken between [w] and [w']: there was none, or it was stale
    by then. *)
Definition was_free (p : path) (w w' : World) : Prop :=
  file_at w p = None \/ exists g, file_at w p = Some g /\ stale_at (w_now w') g = true.

Lemma stale_mono t1 t2 f : t1 <= t2 -> stale_at t1 f = true -> stale_at t2 f = true.
Proof. intros Ht. unfold stale_at. destruct (_ ≫= _); rewrite !Z.ltb_lt; lia. Qed.

Lemma exec_stale p f w :
  file_at w p = Some f ->
  exists t, w_now w <= t <= w_now (snd (exec env (lockFileIsStale p) w))
  /\ fst (exec env (lockFileIsStale p) w) = stale_at t f.
Proof.
  intros Hf. unfold file_at in Hf. pose proof (lag_pos (w_calls w)). pose proof (lag_pos (S (w_calls w))). pose proof (lag_pos (S (S (w_calls w)))).
  assert (Hs : fs_stat (w_fs w) p = Ok (f_mtime f)) by (unfold fs_stat; by rewrite Hf).
  assert (Hr : fs_read (w_fs w) p = Ok (f_data f)) by (unfold fs_read; by rewrite Hf).
  unfold lockFileIsStale, stale_at. cbn [exec]. unfold do_call. cbn [perform].
  rewrite Hs. cbn [exec]. unfold do_call. cbn [perform tick w_fs]. rewrite Hr. cbn [exec].
  destruct (as_lock (f_data f) ≫= _); cbn; (eexists; split; [|reflexivity]; lia).
Qed.

Lemma stale_reads p : only_reads (lockFileIsStale p).
Proof.
  split; [done|]. intros [t|e]; [|done]. split; [done|]. intros [d|e]; [|done].
  destruct (as_lock d ≫= _); by split.
Qed.

(** A place where a file can be made. *)
Definition makeable (w : World) (p : path) : Prop :=
  parent p ∈ fs_dirs (w_fs w) /\ p ∉ fs_dirs (w_fs w).

Lemma makeable_dirs w w' p : fs_dirs (w_fs w') = fs_dirs (w_fs w) -> makeable w p -> makeable w' p.
Proof. unfold makeable. by intros ->. Qed.

Lemma cannot_make_none w p : makeable w p -> cannot_make (w_fs w) p = None.
Proof.
  intros [H1 H2]. unfold cannot_make, is_dir. by rewrite bool_decide_false, bool_decide_true.
Qed.

(** From [w] to [w'] only the file [p] changed; it is now [f]. *)
Definition changed_to (p : path) (f : option file) (w w' : World) : Prop :=
  file_at w' p = f /\ (forall q, q <> p -> file_at w' q = file_at w q)
  /\ fs_dirs (w_fs w') = fs_dirs (w_fs w) /\ w_cache w' = w_cache w /\ w_now w <= w_now w'.

Lemma only_time_changed p w w' : only_time w w' -> changed_to p (file_at w p) w w'.
Proof. intros (Hf & Hc & Ht). unfold changed_to, file_at. rewrite Hf. repeat split; congruence. Qed.

Lemma changed_only_time p f w1 w2 w3 :
  only_time w1 w2 -> changed_to p f w2 w3 -> changed_to p f w1 w3.
Proof.
  intros (Hf & Hc & Ht) (H1 & H2 & H3 & H4 & H5). unfold changed_to, file_at in *.
  rewrite Hf in *. repeat split; [done|done|congruence|congruence|lia].
Qed.

Lemma changed_trans p f g w1 w2 w3 :
  changed_to p f w1 w2 -> changed_to p g w2 w3 -> changed_to p g w1 w3.
Proof.
  intros (H1 & H2 & H3 & H4 & H5) (K1 & K2 & K3 & K4 & K5).
  repeat split; [done| |congruence..|lia]. intros q Hq. by rewrite K2, H2.
Qed.

Lemma changed_then_time p f w1 w2 w3 :
  changed_to p f w1 w2 -> only_time w2 w3 -> changed_to p f w1 w3.
Proof.
  intros Hc Ht. apply (changed_trans p f f _ _ _ Hc). destruct Hc as [<- _].
  by apply only_time_changed.
Qed.

Lemma do_remove p w : changed_to p None w (snd (do_call env (Remove p) w)).
Proof.
  pose proof (lag_pos (w_calls w)). cbn. unfold changed_to, file_at. cbn.
  split; [apply lookup_delete_eq|]. repeat split; [|lia]. intros q Hq. by apply lookup_delete_ne.
Qed.

Lemma do_write p d w :
  makeable w p ->
  fst (do_call env (WriteFile p d) w) = Ok tt
  /\ changed_to p (Some (File d (w_now w))) w (snd (do_call env (WriteFile p d) w)).
Proof.
  intros Hm. pose proof (lag_pos (w_calls w)). unfold do_call. cbn [perform]. unfold fs_write.
  rewrite cannot_make_none by done. cbn. split; [done|]. unfold changed_to, file_at. cbn.
  split; [apply lookup_insert_eq|]. repeat split; [|lia]. intros q Hq. by apply lookup_insert_ne.
Qed.

Lemma do_link old new f w :
  file_at w old = Some f -> makeable w new ->
  match file_at w new with
  | None => fst (do_call env (Link old new) w) = Ok tt
            /\ changed_to new (Some f) w (snd (do_call env (Link old new) w))
  | Some _ => fst (do_call env (Link old new) w) = Err ErrExist
              /\ only_time w (snd (do_call env (Link old new) w))
  end.
Proof.
  intros Ho Hm. pose proof (lag_pos (w_calls w)). unfold do_call, file_at in *. cbn [perform].
  unfold fs_link, is_file. rewrite Ho. pose proof (proj2 Hm) as Hnd.
  destruct (fs_files (w_fs w) !! new) as [g|] eqn:E; cbn [orb].
  - cbn. split; [done|]. repeat split; cbn; try done. lia.
  - unfold is_dir. rewrite bool_decide_false by done. rewrite cannot_make_none by done. cbn.
    split; [done|]. unfold changed_to, file_at. cbn. split; [apply lookup_insert_eq|].
    repeat split; [|lia]. intros q Hq. by apply lookup_insert_ne.
Qed.

Lemma delay_grows delay : lockRetryBase <= delay -> lockRetryBase <= next_delay delay.
Proof. unfold next_delay, lockRetryBase, lockRetryMax, time_millisecond. case_test; lia. Qed.

(** An error that is not a lack of fuel. *)
Definition real_error (e : error) : Prop := e <> EText "out of fuel".
Definition free_after (r : result error unit) (f : file) (old : option file) : option file :=
  match r with Ok _ => Some f | Err _ => old end.

(** The lock file is there: [Lock] has to wait, or removes it as stale. *)
Definition lock_result (p : path) (f : file) (w : World) (r : result error unit) (w' : World) : Prop :=
  changed_to p (free_after r f (file_at w p)) w w'
  /\ match r with Ok _ => was_free p w w' | Err e => real_error e /\ file_at w p <> None end.

Lemma lock_loop_free fuel tmp p ctx deadline delay f w :
  (0 < fuel)%nat -> file_at w tmp = Some f -> makeable w p -> file_at w p = None ->
  fst (exec env (lock_loop fuel tmp p ctx deadline delay) w) = Ok tt
  /\ changed_to p (Some f) w (snd (exec env (lock_loop fuel tmp p ctx deadline delay) w)).
Proof.
  intros Hfuel Ht Hm Hp. destruct fuel as [|fuel]; [lia|]. cbn [lock_loop exec].
  pose proof (do_link tmp p f w Ht Hm) as Hl. rewrite Hp in Hl.
  destruct (do_call env (Link tmp p) w) as [r w1]. destruct Hl as [Hr Hc]. cbn in Hr, Hc. by subst r.
Qed.

Lemma lock_result_step p f w w1 r w' :
  only_time w w1 -> lock_result p f w1 r w' -> lock_result p f w r w'.
Proof.
  intros Ht [Hc He]. unfold lock_result.
  assert (Hp : file_at w1 p = file_at w p) by (unfold file_at; by rewrite (proj1 Ht)).
  rewrite Hp in Hc. split; [by eapply changed_only_time|]. unfold was_free in *. by rewrite Hp in He.
Qed.

(** *** The loop, one call at a time *)
Definition locks (p : path) (f : file) (m : prog (result error unit)) (w : World) : Prop :=
  lock_result p f w (fst (exec env m w)) (snd (exec env m w)).

Lemma locks_reads {A} p f (m : prog A) k w :
  only_reads m -> locks p f (k (fst (exec env m w))) (snd (exec env m w)) -> locks p f (pbind m k) w.
Proof.
  intros Hm Hk. unfold locks. rewrite exec_bind. eapply lock_result_step; [by apply (exec_reads m)|done].
Qed.

Lemma locks_call {X} p f (c : call X) k w :
  reads_only c = true -> locks p f (k (fst (do_call env c w))) (snd (do_call env c w)) ->
  locks p f (Step c k) w.
Proof.
  intros Hc Hk. apply (locks_reads p f (call! x <- c; Ret x)); [by split|]. cbn [exec].
  destruct (do_call env c w). apply Hk.
Qed.

Lemma locks_error p f e w : real_error e -> file_at w p <> None -> locks p f (Ret (Err e)) w.
Proof. intros He Hp. split; [|done]. apply only_time_changed, only_time_refl. Qed.

(** The lock [p] is taken by another; our temporary file is ready. *)
Definition held (tmp p : path) (f : file) (w : World) : Prop :=
  file_at w tmp = Some f /\ makeable w p /\ file_at w p <> None.

Lemma held_time tmp p f w w' : only_time w w' -> held tmp p f w -> held tmp p f w'.
Proof.
  intros (Hf & _) (H1 & H2 & H3). unfold held, file_at, makeable in *. by rewrite Hf.
Qed.

(** A stale lock is removed, and the next link succeeds. *)
Lemma locks_stale fuel tmp p ctx deadline delay f w :
  (0 < fuel)%nat -> tmp <> p -> held tmp p f w ->
  fst (exec env (call_! Remove p; lock_loop fuel tmp p ctx deadline delay) w) = Ok tt
  /\ changed_to p (Some f) w (snd (exec env (call_! Remove p; lock_loop fuel tmp p ctx deadline delay) w)).
Proof.
  intros Hfuel Hne (Ht & Hm & _). cbn [exec]. pose proof (do_remove p w) as Hr.
  destruct (do_call env (Remove p) w) as [u w1]. cbn [snd] in Hr.
  pose proof Hr as (Hr1 & Hr2 & Hr3 & _).
  destruct (lock_loop_free fuel tmp p ctx deadline delay f w1) as [Hc He]; [done|by rewrite Hr2| |done|].
  { eapply makeable_dirs; [exact Hr3|exact Hm]. }
  split; [done|]. by eapply changed_trans.
Qed.

Lemma locks_ok p f m w :
  fst (exec env m w) = Ok tt /\ changed_to p (Some f) w (snd (exec env m w)) -> was_free p w (snd (exec env m w)) ->
  locks p f m w.
Proof. intros [Hr Hc] Hf. unfold locks, lock_result. by rewrite Hr. Qed.

(** The bound on the attempts: every wait is at least [lockRetryBase]. *)
Definition enough (fuel : nat) (wait : Z) : Prop := wait < (Z.of_nat fuel - 2) * lockRetryBase.

Lemma lock_loop_spec fuel tmp p ctx deadline delay f w :
  (2 <= fuel)%nat -> enough fuel (deadline - w_now w) -> lockRetryBase <= delay ->
  tmp <> p -> file_at w tmp = Some f -> makeable w p ->
  locks p f (lock_loop fuel tmp p ctx deadline delay) w.
Proof.
  revert delay w. induction fuel as [|fuel IH]; [lia|]. intros delay w H2 Hen Hd Hne Ht Hm.
  destruct (file_at w p) as [g|] eqn:Hp; [|apply locks_ok; [apply lock_loop_free; auto with lia|by left]].
  assert (Hh : held tmp p f w) by (repeat split; try apply Hm; congruence).
  unfold locks. cbn [lock_loop exec]. pose proof (do_link tmp p f w Ht Hm) as Hl. rewrite Hp in Hl.
  destruct (do_call env (Link tmp p) w) as [r w1]. cbn in Hl. destruct Hl as [-> Hw1].
  apply lock_result_step with w1; [done|]. apply (held_time _ _ _ _ _ Hw1) in Hh.
  apply locks_reads; [apply stale_reads|].
  assert (Hp1 : file_at w1 p = Some g) by (unfold file_at in *; by rewrite (proj1 Hw1)).
  destruct (exec_stale p g w1 Hp1) as (t & Hto & Hst).
  pose proof (exec_reads _ w1 (stale_reads p)) as Hw2. apply (held_time _ _ _ _ _ Hw2) in Hh.
  destruct (exec env (lockFileIsStale p) w1) as [stale w2]. cbn [fst snd] in *.
  destruct stale.
  { pose proof (locks_stale fuel tmp p ctx deadline delay f w2 ltac:(lia) Hne Hh) as Hok.
    apply locks_ok; [exact Hok|]. right. exists g. split; [unfold file_at in *; by rewrite (proj1 Hw2)|].
    apply (stale_mono t); [|done]. destruct Hok as [_ (_ & _ & _ & _ & Hlater)]. lia. }
  apply locks_call; [done|]. pose proof (do_call_reads Now w2 eq_refl) as Hw3.
  assert (Hnow : fst (do_call env Now w2) = w_now w2) by done. rewrite Hnow.
  apply (held_time _ _ _ _ _ Hw3) in Hh. revert Hw3 Hh. generalize (snd (do_call env Now w2)).
  intros w3 Hw3 Hh. destruct (time_after (w_now w2) deadline) eqn:Ha.
  { apply locks_error; [by intros [=]|apply Hh]. }
  apply locks_call; [done|]. pose proof (do_call_reads (Done ctx) w3 eq_refl) as Hw4.
  apply (held_time _ _ _ _ _ Hw4) in Hh. revert Hw4 Hh.
  destruct (do_call env (Done ctx) w3) as [done w4]. cbn [fst snd]. intros Hw4 Hh.
  destruct done; [apply locks_error; [by intros [=]|apply Hh]|].
  apply locks_call; [done|]. pose proof (do_call_reads (Sleep delay) w4 eq_refl) as Hw5.
  assert (Hsl : w_now w4 + delay <= w_now (snd (do_call env (Sleep delay) w4))).
  { pose proof (lag_pos (w_calls w4)). cbn. lia. }
  apply (held_time _ _ _ _ _ Hw5) in Hh. destruct Hh as (Ht5 & Hm5 & _).
  destruct Hw1 as (_ & _ & T1), Hw2 as (_ & _ & T2), Hw3 as (_ & _ & T3), Hw4 as (_ & _ & T4).
  unfold time_after, enough, lockRetryBase, time_millisecond in *. apply Z.ltb_ge in Ha.
  apply IH; [lia|lia|by apply delay_grows|done..].
Qed.

(** A lock that is stale when [Lock] starts does not keep it out. *)
Lemma lock_loop_stale fuel tmp p ctx deadline delay f g w :
  (2 <= fuel)%nat -> tmp <> p -> file_at w tmp = Some f -> makeable w p ->
  file_at w p = Some g -> stale_at (w_now w) g = true ->
  fst (exec env (lock_loop fuel tmp p ctx deadline delay) w) = Ok tt.
Proof.
  intros H2 Hne Ht Hm Hp Hst. destruct fuel as [|fuel]; [lia|]. cbn [lock_loop exec].
  pose proof (do_link tmp p f w Ht Hm) as Hl. rewrite Hp in Hl.
  destruct (do_call env (Link tmp p) w) as [r w1]. cbn in Hl. destruct Hl as [-> Hw1].
  assert (Hh : held tmp p f w1).
  { apply (held_time _ _ _ w); [done|]. repeat split; try apply Hm; congruence. }
  assert (Hp1 : file_at w1 p = Some g) by (unfold file_at in *; by rewrite (proj1 Hw1)).
  rewrite exec_bind. destruct (exec_stale p g w1 Hp1) as (t & [Ht1 _] & ->).
  rewrite (stale_mono (w_now w) t g); [|destruct Hw1; lia|done].
  apply (locks_stale _ _ _ _ _ _ f); [lia|done|].
  eapply held_time; [apply exec_reads, stale_reads|done].
Qed.

(** ** [Lock] as a whole *)

Lemma path_add_neq p s : s <> "" -> snd p <> [] -> path_add p s <> p.
Proof.
  destruct p as [r [|c cs]]; cbn; [done|]. intros Hs _ [= H]. apply Hs.
  apply (str_app_inj_l c). by rewrite str_app_nil_r.
Qed.

Lemma tmp_path_neq p rnd : snd p <> [] -> tmp_path p rnd <> p.
Proof. apply path_add_neq. done. Qed.

Lemma path_add_parent p s : snd p <> [] -> parent (path_add p s) = parent p.
Proof. by destruct p as [r [|c cs]]. Qed.

(** The name [Lock] draws for its temporary file is not in use. *)
Definition fresh_tmp (p : path) (w : World) : Prop :=
  let tmp := tmp_path p (env_hex env (w_calls w)) in
  file_at w tmp = None /\ tmp ∉ fs_dirs (w_fs w).

(** The outcome of [Lock]: the lock was free and the file is ours, or nothing changed and the
    lock was held by a lock that is not stale. *)
Definition lock_outcome (pid : Z) (p : path) (userID : string) (w : World)
    (r : result error unit) (w' : World) : Prop :=
  (forall q, q <> p -> file_at w' q = file_at w q)
  /\ fs_dirs (w_fs w') = fs_dirs (w_fs w) /\ w_cache w' = w_cache w /\ w_now w <= w_now w'
  /\ match r with
     | Ok _ => was_free p w w' /\ exists t, w_now w <= t /\ exists t',
         file_at w' p = Some (File (FLock (Build_lockContent pid (format_nano t) userID)) t')
     | Err e => real_error e /\ file_at w' p = file_at w p
                /\ exists g, file_at w p = Some g /\ stale_at (w_now w) g = false
     end.

(** [Lock] writes its temporary file, and then enters the loop. *)
Lemma lock_prepare pid fuel p ctx userID w :
  snd p <> [] -> makeable w p -> fresh_tmp p w ->
  let tmp := tmp_path p (env_hex env (w_calls w)) in
  exists w1 t t' t1,
    exec env (Lock pid fuel p ctx userID) w
    = exec env (sub! r <- lock_loop fuel tmp p ctx (t1 + lockMaxWait) lockRetryBase;
                call_! Remove tmp; Ret r) w1
    /\ changed_to tmp (Some (File (FLock (Build_lockContent pid (format_nano t) userID)) t')) w w1
    /\ w_now w <= t /\ t1 <= w_now w1.
Proof.
  intros Hp Hm [Hfresh Hnd] tmp. fold tmp in Hfresh, Hnd. unfold Lock. cbn [exec].
  pose proof (do_call_reads RandHex w eq_refl) as H1.
  assert (Hx : fst (do_call env RandHex w) = env_hex env (w_calls w)) by done.
  destruct (do_call env RandHex w) as [rnd w1]. cbn [fst snd] in *. subst rnd. fold tmp.
  pose proof (do_call_reads Now w1 eq_refl) as H2.
  assert (Hx : fst (do_call env Now w1) = w_now w1) by done.
  destruct (do_call env Now w1) as [t w2]. cbn [fst snd] in *. subst t.
  pose proof (only_time_trans _ _ _ H1 H2) as H12.
  set (c := FLock (Build_lockContent pid (format_nano (w_now w1)) userID)).
  assert (Hm2 : makeable w2 tmp).
  { unfold makeable, tmp, tmp_path. rewrite path_add_parent by done. rewrite (proj1 H12).
    split; [apply Hm|done]. }
  destruct (do_write tmp c w2 Hm2) as [Hok Hw].
  destruct (do_call env (WriteFile tmp c) w2) as [r w3]. cbn [fst snd] in *. subst r. cbn [exec].
  pose proof (do_call_reads Now w3 eq_refl) as H4.
  assert (Hx : fst (do_call env Now w3) = w_now w3) by done.
  destruct (do_call env Now w3) as [t w4]. cbn [fst snd] in *. subst t.
  exists w4, (w_now w1), (w_now w2), (w_now w3). split; [done|]. split; [|split; [apply H1|apply H4]].
  eapply changed_only_time; [exact H12|]. eapply changed_then_time; [exact Hw|done].
Qed.

Lemma changed_file p f w w' q :
  changed_to p f w w' -> file_at w' q = if bool_decide (q = p) then f else file_at w q.
Proof. intros (H1 & H2 & _). case_bool_decide; [by subst|by apply H2]. Qed.

Lemma lock_spec pid fuel p ctx userID w :
  (103 <= fuel)%nat -> snd p <> [] -> makeable w p -> fresh_tmp p w ->
  lock_outcome pid p userID w (fst (exec env (Lock pid fuel p ctx userID) w))
    (snd (exec env (Lock pid fuel p ctx userID) w)).
Proof.
  intros Hfuel Hp Hm Hfresh.
  destruct (lock_prepare pid fuel p ctx userID w Hp Hm Hfresh) as (w1 & t & t' & t1 & -> & Hw1 & Ht & Ht1).
  destruct Hfresh as [Hfresh _]. set (tmp := tmp_path p (env_hex env (w_calls w))) in *.
  assert (Hne : tmp <> p) by (by apply tmp_path_neq).
  set (f := File _ t') in *. rewrite exec_bind.
  set (loop := lock_loop fuel tmp p ctx (t1 + lockMaxWait) lockRetryBase).
  assert (Hat : file_at w1 tmp = Some f) by apply Hw1.
  assert (Hm1 : makeable w1 p) by (eapply makeable_dirs; [apply Hw1|done]).
  assert (Hp1 : file_at w1 p = file_at w p) by (apply Hw1; congruence).
  assert (Hl : locks p f loop w1).
  { apply lock_loop_spec; [lia| |done..].
    unfold enough, lockMaxWait, lockRetryBase, time_second, time_millisecond. lia. }
  assert (Hst : forall g, file_at w p = Some g -> stale_at (w_now w) g = true ->
                fst (exec env loop w1) = Ok tt).
  { intros g Hg Hs. apply (lock_loop_stale _ _ _ _ _ _ f g); [lia|done..|by rewrite Hp1|].
    eapply stale_mono; [|done]. apply Hw1. }
  destruct Hl as [Hch Herr]. destruct (exec env loop w1) as [r w2]. cbn [fst snd exec] in *.
  pose proof (do_remove tmp w2) as Hrm. destruct (do_call env (Remove tmp) w2) as [u w3].
  cbn [fst snd] in *. unfold lock_outcome.
  assert (Hfinal : forall q, file_at w3 q = if bool_decide (q = p) then free_after r f (file_at w p) else file_at w q).
  { intros q. rewrite (changed_file _ _ _ _ _ Hrm), (changed_file _ _ _ _ _ Hch), Hp1, (changed_file _ _ _ _ _ Hw1).
    repeat case_bool_decide; congruence. }
  destruct Hw1 as (_ & _ & D1 & C1 & T1), Hch as (_ & _ & D2 & C2 & T2), Hrm as (_ & _ & D3 & C3 & T3).
  split; [|split; [congruence|split; [congruence|split; [lia|]]]].
  { intros q Hq. rewrite Hfinal. by rewrite bool_decide_false. }
  specialize (Hfinal p). rewrite bool_decide_true in Hfinal by done.
  destruct r as [[]|e]; cbn [free_after] in Hfinal.
  { split; [|by eauto 6]. destruct Herr as [Hn|(g & Hg & Hs)]; [left; congruence|]. right. exists g. split; [congruence|].
    by apply (stale_mono (w_now w2)). }
  destruct Herr as [He Hpn]. split; [done|]. split; [done|]. rewrite Hp1 in Hpn.
  destruct (file_at w p) as [g|]; [|done]. exists g. split; [done|].
  destruct (stale_at (w_now w) g) eqn:Es; [|done]. by specialize (Hst g eq_refl Es).
Qed.
End lock_spec.

(** ** Theorems *)


(** *** Concrete processes *)
Definition demo_env : Env := {|
  env_lag := fun _ => time_millisecond;
  env_hex := fun n => fmt_d (Z.of_nat n);
  env_uuid := fun n => "uuid-" +:+ fmt_d (Z.of_nat n) |}.

(** 12:00:00 on January 1, 2025. *)
Definition demo_noon : Z := 1735732800 * time_second.

Definition demo_lock : path := (true, ["s.jsonl.lock"; "d"]).

(** The lock of a process that died at 11:00. *)
Definition dead_lock : file :=
  File (FLock (Build_lockContent 9 "2025-01-01T11:00:00Z" "u")) (demo_noon - 60 * time_minute).

Definition demo_locked : World := {|
  w_fs := {| fs_files := {[ demo_lock := dead_lock ]}; fs_dirs := {[ (true, ["d"]) ]} |};
  w_cache := ∅; w_now := demo_noon; w_calls := 0 |}.


(** Removing a stale lock is a race: two goroutines that both find the lock
    of a dead process stale can both return from [Lock] successfully, the
    second by removing the lock the first has just taken. *)
Lemma stale_lock_race :
  exists sched,
    let '(m1, m2, w) := interleave demo_env sched
        (Lock 7 103 demo_lock None "a") (Lock 7 103 demo_lock None "b") demo_locked in
    result_of m1 = Some (Ok tt) /\ result_of m2 = Some (Ok tt)
    /\ (exists t t', file_at w demo_lock = Some (File (FLock (Build_lockContent 7 t "b")) t')).
Proof.
  exists (repeat false 8 ++ repeat true 8 ++ repeat false 9 ++ repeat true 9)%list.
  destruct (interleave _ _ _ _ _) as [[m1 m2] w] eqn:E. vm_compute in E.
  injection E as <- <- <-. split; [reflexivity|]. split; [reflexivity|].
  eexists _, _. vm_compute. reflexivity.
Qed.
