(* ===== verification/SessionStore.v ===== *)
(** * The session store (pkg/session/store.go)

    [Store] keeps, per user, a directory with a metadata file and a transcript
    per session and an index of all sessions, which it caches for 45 seconds.
    The methods are programs over the calls of file SessionFs; what they do to the
    files of a user, one after the other, is in the second part. *)
From Stdlib Require Import ZArith Lia Bool Ascii String List.
From stdpp Require Import base gmap strings option list.
From S2P Require Import Prelude GoString GoTime SessionKey Models SessionTypes SessionFs SessionLock.

Local Open Scope string_scope.
Local Open Scope Z_scope.

Definition indexCacheTTL : Z := 45 * time_second.

(** The limit of the transcript scanner's buffer: a line and its newline. *)
Definition max_line : Z := 10 * 1024 * 1024.

(** A [Store]: its base path, its process and the bound on lock attempts. *)
Class StoreConfig := { basePath : string; store_pid : Z; lock_fuel : nat }.

Section store.
Context `{StoreConfig}.

(** ** Paths *)

(** [filepath.Join(s.basePath, "users", userID)]: an empty base is left out. *)
Definition userDir (userID : string) : path :=
  Join (Join (Clean basePath) "users") userID.
Definition sessionsDir (userID : string) : path := Join (userDir userID) "sessions".
Definition archiveDir (userID : string) : path := Join (sessionsDir userID) "archive".
Definition transcriptPath (userID sessionID : string) : path :=
  Join (sessionsDir userID) (sessionID +:+ ".jsonl").
Definition lockPath (userID sessionID : string) : path :=
  Join (sessionsDir userID) (sessionID +:+ ".jsonl.lock").
Definition metaPath (userID sessionID : string) : path :=
  Join (sessionsDir userID) (sessionID +:+ ".meta.json").
Definition indexPath (userID : string) : path := Join (sessionsDir userID) "sessions.json".

(** ** Utilities *)

(** The text of a value always encodes: the clock stays below year 10000 and
    no number is infinite. *)
Definition atomicWriteJSON (p : path) (d : FileData) : prog (result error unit) :=
  let tmp := path_add p ".tmp" in
  try! _ <- os_call (WriteFile tmp d) else "write temp file";
  call! r <- Rename tmp p;
  match r with
  | Ok _ => Ret (Ok tt)
  | Err e => call_! Remove tmp; Ret (Err (EWrap "rename" (EOs e)))
  end.

(** ** Index helpers *)

Definition refreshIndexCache (userID : string) : prog (result error sessionIndex) :=
  call! r <- ReadFile (indexPath userID);
  match r with
  | Err ErrNotExist => Ret (Ok {| ix_UserID := userID; ix_Sessions := []; ix_UpdatedAt := time_zero |})
  | Err e => Ret (Err (EWrap "read session index" (EOs e)))
  | Ok d =>
      match as_index d with
      | None => Ret (Err (EText "decode session index"))
      | Some idx =>
          call! now <- Now;
          call_! CachePut userID {| ic_index := idx; ic_expiresAt := now + indexCacheTTL |};
          Ret (Ok idx)
      end
  end.

Definition loadIndex (userID : string) : prog (result error sessionIndex) :=
  call! entry <- CacheGet userID;
  match entry with
  | Some e =>
      call! now <- Now;
      if time_before now (ic_expiresAt e) then Ret (Ok (ic_index e)) else refreshIndexCache userID
  | None => refreshIndexCache userID
  end.

(** The first entry of the session is replaced; without one, it is added. *)
Fixpoint put_entry (e : sessionIndexEntry) (l : list sessionIndexEntry) : list sessionIndexEntry :=
  match l with
  | [] => [e]
  | x :: l' => if (ie_SessionID x =? ie_SessionID e)%string then e :: l' else x :: put_entry e l'
  end.

Definition upsertIndex (userID : string) (sess : Session) : prog (result error unit) :=
  call_! CacheDelete userID;
  sub! r <- refreshIndexCache userID;
  match r with
  | Err e => Ret (Err e)
  | Ok idx =>
      call! now <- Now;
      let idx := {| ix_UserID := if (ix_UserID idx =? "")%string then userID else ix_UserID idx;
                    ix_Sessions := put_entry (sessionToIndexEntry sess) (ix_Sessions idx);
                    ix_UpdatedAt := now |} in
      try! _ <- atomicWriteJSON (indexPath userID) (FIndex idx) else "write session index";
      call! now <- Now;
      call_! CachePut userID {| ic_index := idx; ic_expiresAt := now + indexCacheTTL |};
      Ret (Ok tt)
  end.

(** The entries of the metadata files among [names]; unreadable ones are
    skipped. *)
Fixpoint scan_metas (dir : path) (names : list string) : prog (list sessionIndexEntry) :=
  match names with
  | [] => Ret []
  | n :: ns =>
      if negb (has_suffix n ".meta.json") then scan_metas dir ns
      else
        call! r <- ReadFile (Join dir n);
        sub! rest <- scan_metas dir ns;
        Ret match r with
            | Ok (FMeta sess) => sessionToIndexEntry sess :: rest
            | _ => rest
            end
  end.

Definition rebuildIndex (userID : string) : prog (result error unit) :=
  call_! CacheDelete userID;
  let sessDir := sessionsDir userID in
  call! r <- ReadDir sessDir;
  match r with
  | Err ErrNotExist => Ret (Ok tt)
  | Err e => Ret (Err (EWrap "rebuild index: read dir" (EOs e)))
  | Ok names =>
      call! now <- Now;
      sub! entries <- scan_metas sessDir names;
      try! _ <- atomicWriteJSON (indexPath userID)
                  (FIndex {| ix_UserID := userID; ix_Sessions := entries; ix_UpdatedAt := now |})
        else "rebuild index: write";
      Ret (Ok tt)
  end.

(** ** The operations *)

(** [CreateSession] once the identifier of the session is chosen. *)
Definition create_with (req : CreateSessionRequest) (sessionID : string) : prog (result error Session) :=
  let userID := cr_UserID req in
  try! _ <- os_call (MkdirAll (sessionsDir userID)) else "CreateSession: mkdir sessions dir";
  try! _ <- os_call (MkdirAll (archiveDir userID)) else "CreateSession: mkdir archive dir";
  call! now <- Now;
  let sess := {|
    se_Key := BuildSessionKey userID (cr_ChannelType req) sessionID;
    se_ID := sessionID;
    se_UserID := userID;
    se_ChannelType := cr_ChannelType req;
    se_Status := StatusActive;
    se_Metadata := {|
      sm_Model := cr_Model req; sm_CompactionLevel := ""; sm_CompactionCount := 0;
      sm_MessageCount := 0; sm_ContextUsage := no_usage; sm_LastActivityAt := now;
      sm_ChannelMeta := cr_ChannelMeta req |};
    se_CreatedAt := now;
    se_UpdatedAt := now |} in
  try! _ <- atomicWriteJSON (metaPath userID sessionID) (FMeta sess) else "CreateSession: write meta";
  call! r <- CreateFile (transcriptPath userID sessionID) (FLines []);
  match r with
  | Err ErrNotExist => Ret (Err (EWrap "CreateSession: create transcript" (EOs ErrNotExist)))
  | Err ErrOther => Ret (Err (EWrap "CreateSession: create transcript" (EOs ErrOther)))
  | Ok _ | Err ErrExist =>
      try! _ <- upsertIndex userID sess else "CreateSession: update index";
      Ret (Ok sess)
  end.

Definition CreateSession (req : CreateSessionRequest) : prog (result error Session) :=
  if (cr_UserID req =? "")%string then Ret (Err (EText "CreateSession: userID is required"))
  else if (cr_SessionID req =? "")%string then call! u <- NewUUID; create_with req u
  else create_with req (cr_SessionID req).

Definition GetSession (sessionKey : string) : prog (result error Session) :=
  match ParseSessionKey sessionKey with
  | Err e => Ret (Err (EWrap "GetSession" (EKey e)))
  | Ok kp =>
      call! r <- ReadFile (metaPath (kp_user kp) (kp_session kp));
      Ret match r with
          | Err ErrNotExist => Err ESessionNotFound
          | Err e => Err (EWrap "GetSession: read meta" (EOs e))
          | Ok d => match as_session d with
                    | None => Err (EText "GetSession: decode meta")
                    | Some sess => Ok sess
                    end
          end
  end.

Definition ListSessions (userID : string) : prog (result error (list Session)) :=
  try! idx <- loadIndex userID else "ListSessions";
  Ret (Ok (map indexEntryToSession (ix_Sessions idx))).

(** The scan of a transcript: blank and malformed lines are skipped; a line
    that does not fit the buffer ends the scan with an error. *)
Fixpoint scan_lines (ls : list raw_line) : option (list TranscriptLine) :=
  match ls with
  | [] => Some []
  | l :: ls' =>
      if max_line <=? rl_size l then None
      else rest ← scan_lines ls';
           Some match rl_content l with LJson tl => tl :: rest | LBlank | LMalformed => rest end
  end.

Definition LoadTranscript (sessionKey : string) : prog (result error (list TranscriptLine)) :=
  match ParseSessionKey sessionKey with
  | Err e => Ret (Err (EWrap "LoadTranscript" (EKey e)))
  | Ok kp =>
      call! r <- ReadFile (transcriptPath (kp_user kp) (kp_session kp));
      Ret match r with
          | Err ErrNotExist => Err ESessionNotFound
          | Err e => Err (EWrap "LoadTranscript: open" (EOs e))
          | Ok d => match scan_lines (as_lines d) with
                    | None => Err (EText "LoadTranscript: scan: token too long")
                    | Some lines => Ok lines
                    end
          end
  end.

Definition lock_session (userID sessionID : string) (ctx : context) : prog (result error unit) :=
  Lock store_pid lock_fuel (lockPath userID sessionID) ctx userID.
Definition unlock_session (userID sessionID : string) : prog unit := Unlock (lockPath userID sessionID).

Definition AppendTranscript (sessionKey : string) (line : TranscriptLine) : prog (result error unit) :=
  match ParseSessionKey sessionKey with
  | Err e => Ret (Err (EWrap "AppendTranscript" (EKey e)))
  | Ok kp =>
      try! _ <- lock_session (kp_user kp) (kp_session kp) None else "AppendTranscript: acquire lock";
      call! r <- AppendLine (transcriptPath (kp_user kp) (kp_session kp)) (encode_line line);
      sub! _ <- unlock_session (kp_user kp) (kp_session kp);
      Ret match r with
          | Ok _ => Ok tt
          | Err e => Err (EWrap "AppendTranscript: open transcript" (EOs e))
          end
  end.

Definition with_meta (sess : Session) (meta : SessionMetadata) (now : Z) : Session := {|
  se_Key := se_Key sess; se_ID := se_ID sess; se_UserID := se_UserID sess;
  se_ChannelType := se_ChannelType sess; se_Status := se_Status sess;
  se_Metadata := meta; se_CreatedAt := se_CreatedAt sess; se_UpdatedAt := now |}.

Definition with_status (sess : Session) (st : SessionStatus) (now : Z) : Session := {|
  se_Key := se_Key sess; se_ID := se_ID sess; se_UserID := se_UserID sess;
  se_ChannelType := se_ChannelType sess; se_Status := st;
  se_Metadata := se_Metadata sess; se_CreatedAt := se_CreatedAt sess; se_UpdatedAt := now |}.

Definition UpdateMeta (sessionKey : string) (meta : SessionMetadata) : prog (result error unit) :=
  match ParseSessionKey sessionKey with
  | Err e => Ret (Err (EWrap "UpdateMeta" (EKey e)))
  | Ok kp =>
      let p := metaPath (kp_user kp) (kp_session kp) in
      call! r <- ReadFile p;
      match r with
      | Err ErrNotExist => Ret (Err ESessionNotFound)
      | Err e => Ret (Err (EWrap "UpdateMeta: read meta" (EOs e)))
      | Ok d =>
          match as_session d with
          | None => Ret (Err (EText "UpdateMeta: decode meta"))
          | Some sess =>
              call! now <- Now;
              let sess := with_meta sess meta now in
              try! _ <- atomicWriteJSON p (FMeta sess) else "UpdateMeta: write meta";
              sub! _ <- upsertIndex (kp_user kp) sess;
              Ret (Ok tt)
          end
      end
  end.

Definition UpdateIndex (userID : string) : prog (result error unit) := rebuildIndex userID.

(** The metadata part of [ArchiveSession]; failures to write are ignored. *)
Definition archive_meta (userID sessionID : string) : prog (result error unit) :=
  call! r <- ReadFile (metaPath userID sessionID);
  match r with
  | Err ErrNotExist => Ret (Ok tt)
  | Err e => Ret (Err (EWrap "ArchiveSession: read meta" (EOs e)))
  | Ok d =>
      match as_session d with
      | None => Ret (Ok tt)
      | Some sess =>
          call! now <- Now;
          let sess := with_status sess StatusArchived now in
          sub! _ <- atomicWriteJSON (metaPath userID sessionID) (FMeta sess);
          sub! _ <- upsertIndex userID sess;
          Ret (Ok tt)
      end
  end.

Definition archive_name (sessionID : string) (ts : Z) : string :=
  sessionID +:+ "-" +:+ format_stamp ts +:+ ".jsonl".

(** [ArchiveSession] while it holds the lock. *)
Definition archive_locked (userID sessionID : string) : prog (result error unit) :=
  call! ts <- Now;
  let archivePath := Join (archiveDir userID) (archive_name sessionID ts) in
  try! _ <- os_call (MkdirAll (archiveDir userID)) else "ArchiveSession: mkdir archive";
  call! r <- Rename (transcriptPath userID sessionID) archivePath;
  match r with
  | Ok _ | Err ErrNotExist => archive_meta userID sessionID
  | Err e => Ret (Err (EWrap "ArchiveSession: move transcript" (EOs e)))
  end.

Definition ArchiveSession (ctx : context) (sessionKey : string) : prog (result error unit) :=
  match ParseSessionKey sessionKey with
  | Err e => Ret (Err (EWrap "ArchiveSession" (EKey e)))
  | Ok kp =>
      try! _ <- lock_session (kp_user kp) (kp_session kp) ctx else "ArchiveSession: acquire lock";
      sub! r <- archive_locked (kp_user kp) (kp_session kp);
      sub! _ <- unlock_session (kp_user kp) (kp_session kp);
      Ret r
  end.

Definition ResetSession (ctx : context) (sessionKey : string) : prog (result error string) :=
  match ParseSessionKey sessionKey with
  | Err e => Ret (Err (EWrap "ResetSession" (EKey e)))
  | Ok kp =>
      sub! r <- GetSession sessionKey;
      let req old := {|
        cr_UserID := kp_user kp; cr_SessionID := ""; cr_ChannelType := kp_channel kp;
        cr_Model := match old with Some s => sm_Model (se_Metadata s) | None => "" end;
        cr_ChannelMeta := match old with Some s => sm_ChannelMeta (se_Metadata s) | None => JNull end |} in
      let go old :=
        try! _ <- ArchiveSession ctx sessionKey else "ResetSession: archive";
        try! newSess <- CreateSession (req old) else "ResetSession: create new session";
        Ret (Ok (se_Key newSess)) in
      match r with
      | Ok old => go (Some old)
      | Err e => if is_not_found e then go None
                 else Ret (Err (EWrap "ResetSession: load old session" e))
      end
  end.
End store.

(** ** File names *)

Lemma file_name s suf :
  lacks "/" s = true -> lacks "/" suf = true -> (2 < String.length suf)%nat ->
  is_name (s +:+ suf) = true.
Proof.
  intros Hs Hx Hl. unfold is_name. rewrite lacks_app, Hs, Hx. cbn [andb].
  pose proof (str_app_length s suf) as Hlen.
  apply negb_true_iff. rewrite !orb_false_iff, !String.eqb_neq.
  repeat split; intros He; rewrite He in Hlen; cbn in Hlen; lia.
Qed.

(** The last byte of a file name tells its kind. *)
Fixpoint last_byte (s : string) : option ascii :=
  match s with
  | EmptyString => None
  | String c EmptyString => Some c
  | String _ s' => last_byte s'
  end.

Lemma last_byte_app a c b : last_byte (a +:+ String c b) = last_byte (String c b).
Proof.
  induction a as [|x a IH]; [done|]. cbn [String.append last_byte]. rewrite IH.
  destruct a; done.
Qed.

Lemma str_app_inj_r a b c : a +:+ c = b +:+ c -> a = b.
Proof.
  revert b. induction a as [|x a IH]; intros [|y b] H; [done|..].
  - apply (f_equal String.length) in H. rewrite !str_app_length in H. cbn in H. lia.
  - apply (f_equal String.length) in H. rewrite !str_app_length in H. cbn in H. lia.
  - cbn in H. injection H as -> H. f_equal. by apply IH.
Qed.

Section paths.
Context `{StoreConfig}.

Definition in_dir (d : path) (n : string) : path := (fst d, n :: snd d).

Lemma in_dir_inj d d' n n' : in_dir d n = in_dir d' n' -> d = d' /\ n = n'.
Proof. destruct d, d'. unfold in_dir. cbn. intros [= -> -> ->]. done. Qed.

Lemma parent_in_dir d n : parent (in_dir d n) = d.
Proof. by destruct d. Qed.

Lemma path_add_in_dir d n s : path_add (in_dir d n) s = in_dir d (n +:+ s).
Proof. by destruct d. Qed.

Lemma session_path u s suf :
  lacks "/" s = true -> lacks "/" suf = true -> (2 < String.length suf)%nat ->
  Join (sessionsDir u) (s +:+ suf) = in_dir (sessionsDir u) (s +:+ suf).
Proof. intros. apply Join_name. by apply file_name. Qed.

Lemma transcript_eq u s : lacks "/" s = true -> transcriptPath u s = in_dir (sessionsDir u) (s +:+ ".jsonl").
Proof. intros. apply session_path; [done..|cbn; lia]. Qed.
Lemma lock_eq u s : lacks "/" s = true -> lockPath u s = in_dir (sessionsDir u) (s +:+ ".jsonl.lock").
Proof. intros. apply session_path; [done..|cbn; lia]. Qed.
Lemma meta_eq u s : lacks "/" s = true -> metaPath u s = in_dir (sessionsDir u) (s +:+ ".meta.json").
Proof. intros. apply session_path; [done..|cbn; lia]. Qed.
Lemma index_eq u : indexPath u = in_dir (sessionsDir u) "sessions.json".
Proof. by apply Join_name. Qed.
Lemma archive_eq u : archiveDir u = in_dir (sessionsDir u) "archive".
Proof. by apply Join_name. Qed.

(** Users whose names are path components have directories of their own. *)
Lemma sessions_dir_eq u :
  is_name u = true -> sessionsDir u = in_dir (in_dir (in_dir (Clean basePath) "users") u) "sessions".
Proof.
  intros Hu. unfold sessionsDir, userDir. rewrite !Join_name by done. done.
Qed.

Lemma sessions_dir_inj u v : is_name u = true -> is_name v = true ->
  sessionsDir u = sessionsDir v -> u = v.
Proof.
  intros Hu Hv. rewrite !sessions_dir_eq by done. by intros [[_ ?]%in_dir_inj _]%in_dir_inj.
Qed.
End paths.

(** Two file names of different kinds are different. *)
Ltac names_ne :=
  let He := fresh "He" in
  intros He; repeat (apply in_dir_inj in He as [_ He]);
  first
    [ discriminate He
    | apply (f_equal last_byte) in He; rewrite ?last_byte_app in He; discriminate He
    | rewrite ?str_app_assoc in He; apply str_app_inj_l in He; discriminate He ].

(** ** Transcripts *)

Section transcripts.
Context `{StoreConfig}.
Variable env : Env.
Hypothesis lag_pos : forall n, 0 <= env_lag env n.
Hypothesis fuel_enough : (103 <= lock_fuel)%nat.

Definition lines_at (w : World) (p : path) : list raw_line :=
  match file_at w p with Some f => as_lines (f_data f) | None => [] end.

(** The directories of a user exist, and the files of a session are not
    directories: as [CreateSession] leaves them. *)
Record session_dir (w : World) (u s : string) : Prop := {
  sd_dir : sessionsDir u ∈ fs_dirs (w_fs w);
  sd_lock : lockPath u s ∉ fs_dirs (w_fs w);
  sd_transcript : transcriptPath u s ∉ fs_dirs (w_fs w);
  sd_tmp : fresh_tmp env (lockPath u s) w }.

Lemma makeable_lock w u s : lacks "/" s = true -> session_dir w u s -> makeable w (lockPath u s).
Proof. intros Hs [H1 H2 _ _]. split; [|done]. by rewrite lock_eq, parent_in_dir. Qed.

Lemma makeable_transcript w u s : lacks "/" s = true -> session_dir w u s -> makeable w (transcriptPath u s).
Proof. intros Hs [H1 _ H2 _]. split; [|done]. by rewrite transcript_eq, parent_in_dir. Qed.

Lemma do_append p l w :
  makeable w p ->
  fst (do_call env (AppendLine p l) w) = Ok tt
  /\ changed_to p (Some (File (FLines (lines_at w p ++ [l])) (w_now w))) w (snd (do_call env (AppendLine p l) w)).
Proof.
  intros Hm. pose proof (lag_pos (w_calls w)). unfold do_call. cbn [perform].
  unfold fs_append, fs_write. rewrite cannot_make_none by done. cbn. split; [done|].
  unfold changed_to, file_at. cbn.
  split; [apply lookup_insert_eq|]. repeat split; [|lia]. intros q Hq. by apply lookup_insert_ne.
Qed.

(** *** Appending *)
Definition append_outcome (u s : string) (l : TranscriptLine) (w : World)
    (r : result error unit) (w' : World) : Prop :=
  let T := transcriptPath u s in
  fs_dirs (w_fs w') = fs_dirs (w_fs w)
  /\ match r with
  | Ok _ =>
      lines_at w' T = (lines_at w T ++ [encode_line l])%list /\ file_at w' T <> None
      /\ file_at w' (lockPath u s) = None
      /\ forall q, q <> T -> q <> lockPath u s -> file_at w' q = file_at w q
  | Err e => (forall q, file_at w' q = file_at w q) /\ file_at w (lockPath u s) <> None
  end.

Lemma append_spec key kp l w :
  ParseSessionKey key = Ok kp -> lacks "/" (kp_session kp) = true ->
  session_dir w (kp_user kp) (kp_session kp) ->
  append_outcome (kp_user kp) (kp_session kp) l w
    (fst (exec env (AppendTranscript key l) w)) (snd (exec env (AppendTranscript key l) w)).
Proof.
  intros Hk Hs Hd. unfold AppendTranscript. rewrite Hk. destruct kp as [u c s]. cbn [kp_user kp_session] in *.
  rewrite exec_bind. set (T := transcriptPath u s). set (K := lockPath u s).
  assert (Hne : T <> K) by (unfold T, K; rewrite transcript_eq, lock_eq by done; names_ne).
  assert (HKp : snd K <> []) by (unfold K; by rewrite lock_eq).
  pose proof (lock_spec env lag_pos store_pid lock_fuel K None u w fuel_enough HKp
                (makeable_lock w u s Hs Hd) (sd_tmp _ _ _ Hd)) as Hl.
  unfold lock_session. fold K. destruct (exec env (Lock store_pid lock_fuel K None u) w) as [r w1].
  cbn [fst snd] in *. destruct Hl as (Hl1 & Hl2 & _ & _ & Hl). destruct r as [[]|e].
  2:{ cbn. split; [done|]. split.
      - intros q. destruct (decide (q = K)) as [->|Hq]; [apply Hl|by apply Hl1].
      - fold K. destruct Hl as (_ & _ & f & -> & _). done. }
  cbn [exec]. assert (Hm : makeable w1 T).
  { eapply makeable_dirs; [exact Hl2|by apply makeable_transcript]. }
  destruct (do_append T (encode_line l) w1 Hm) as [Hok Ha].
  destruct (do_call env (AppendLine T (encode_line l)) w1) as [r w2]. cbn [fst snd] in *. subst r.
  rewrite exec_bind. unfold unlock_session, Unlock. fold K. cbn [exec].
  pose proof (do_remove env lag_pos K w2) as Hr.
  destruct (do_call env (Remove K) w2) as [x w3]. cbn [fst snd exec append_outcome] in *. fold T K.
  assert (HT : file_at w3 T = file_at w2 T) by (apply Hr; congruence).
  destruct Ha as (Ha1 & Ha2 & Ha3 & _). split; [destruct Hr as (_ & _ & ? & _); congruence|].
  fold T K. unfold lines_at in Ha1 |- *. rewrite HT, Ha1, (Hl1 T Hne). cbn [f_data as_lines].
  split; [done|]. split; [done|]. split; [apply Hr|].
  intros q Hq1 Hq2. destruct Hr as (_ & Hr & _). rewrite Hr, Ha2, Hl1 by done. done.
Qed.

(** *** Loading *)

Lemma scan_lines_app ls l lines :
  scan_lines ls = Some lines ->
  scan_lines (ls ++ [encode_line l]) = if line_size l <? max_line then Some (lines ++ [l])%list else None.
Proof.
  revert lines. induction ls as [|x ls IH]; intros lines; cbn [scan_lines app].
  - intros [= <-]. cbn [rl_size encode_line rl_content]. repeat case_test; try lia; done.
  - destruct (max_line <=? rl_size x); [done|]. destruct (scan_lines ls) as [rest|] eqn:E; [|done].
    cbn. intros [= <-]. rewrite (IH rest) by done. destruct (line_size l <? max_line); [|done].
    cbn. by destruct (rl_content x).
Qed.

Lemma exec_load key kp w :
  ParseSessionKey key = Ok kp ->
  fst (exec env (LoadTranscript key) w)
  = match fs_read (w_fs w) (transcriptPath (kp_user kp) (kp_session kp)) with
    | Err ErrNotExist => Err ESessionNotFound
    | Err e => Err (EWrap "LoadTranscript: open" (EOs e))
    | Ok d => match scan_lines (as_lines d) with
              | None => Err (EText "LoadTranscript: scan: token too long")
              | Some lines => Ok lines
              end
    end.
Proof. intros Hk. unfold LoadTranscript. rewrite Hk. done. Qed.

(** Reading depends on the file and on which paths are directories. *)
Lemma fs_read_same w w' p :
  file_at w' p = file_at w p -> fs_dirs (w_fs w') = fs_dirs (w_fs w) ->
  fs_read (w_fs w') p = fs_read (w_fs w) p.
Proof. unfold file_at, fs_read, is_dir. by intros -> ->. Qed.

Lemma load_lines key kp w ls :
  ParseSessionKey key = Ok kp ->
  transcriptPath (kp_user kp) (kp_session kp) ∉ fs_dirs (w_fs w) ->
  fst (exec env (LoadTranscript key) w) = Ok ls
  \/ fst (exec env (LoadTranscript key) w) = Err ESessionNotFound /\ ls = [] ->
  scan_lines (lines_at w (transcriptPath (kp_user kp) (kp_session kp))) = Some ls.
Proof.
  intros Hk Hd. rewrite (exec_load key kp) by done. unfold lines_at, fs_read, file_at.
  destruct (fs_files (w_fs w) !! _) as [f|].
  - destruct (scan_lines _); [|intros [?|[? _]]; done]. intros [?|[? _]]; congruence.
  - unfold is_dir. rewrite bool_decide_false by done. intros [?|[_ ->]]; [congruence|done].
Qed.

(** The line a session's transcript has after the append of [l]. *)
Definition loads_after (ls : list TranscriptLine) (l : TranscriptLine) : result error (list TranscriptLine) :=
  if line_size l <? max_line then Ok (ls ++ [l])%list
  else Err (EText "LoadTranscript: scan: token too long").

(** C10: An appended line is the last one read back, and no other session is
    touched: after a successful [AppendTranscript], [LoadTranscript] returns the
    lines it returned before, in order, and the new one (for a line of 10 MiB or
    more it fails from then on); the transcripts of all other sessions and users
    read as before; an append that fails changes no file. *)
Theorem append_load key kp l w :
  ParseSessionKey key = Ok kp -> is_name (kp_user kp) = true -> lacks "/" (kp_session kp) = true ->
  session_dir w (kp_user kp) (kp_session kp) ->
  let load k w := fst (exec env (LoadTranscript k) w) in
  let '(r, w') := exec env (AppendTranscript key l) w in
  match r with
  | Ok _ =>
      (forall ls, load key w = Ok ls \/ load key w = Err ESessionNotFound /\ ls = [] ->
         load key w' = loads_after ls l)
      /\ forall key2 kp2, ParseSessionKey key2 = Ok kp2 ->
         is_name (kp_user kp2) = true -> lacks "/" (kp_session kp2) = true ->
         (kp_user kp2, kp_session kp2) <> (kp_user kp, kp_session kp) -> load key2 w' = load key2 w
  | Err e => forall q, file_at w' q = file_at w q
  end.
Proof.
  intros Hk Hu Hs Hd load. pose proof (append_spec key kp l w Hk Hs Hd) as Ho.
  destruct (exec env (AppendTranscript key l) w) as [r w']. cbn [fst snd] in Ho.
  destruct Ho as [Hdirs Ho]. destruct r as [[]|e]; [|apply Ho]. destruct Ho as (Ha & Hex & _ & Hfr).
  split.
  - intros ls Hls. apply (load_lines key kp) in Hls; [|done|apply Hd].
    unfold load. rewrite (exec_load key kp) by done. unfold loads_after, fs_read.
    unfold lines_at in Ha at 1. unfold file_at in Hex, Ha at 1.
    destruct (fs_files (w_fs w') !! _) as [f|]; [|done].
    rewrite Ha, (scan_lines_app _ _ _ Hls). by destruct (line_size l <? max_line).
  - intros key2 kp2 Hk2 Hu2 Hs2 Hne. unfold load. rewrite !(exec_load key2 kp2) by done.
    rewrite (fs_read_same w w'); [done| |done]. apply Hfr.
    + rewrite !transcript_eq by done. intros [Hdir Hn]%in_dir_inj. apply Hne. f_equal.
      * by apply sessions_dir_inj.
      * by apply str_app_inj_r in Hn.
    + rewrite transcript_eq, lock_eq by done. names_ne.
Qed.
End transcripts.

(** ** A concrete store *)
#[local] Instance demo_store : StoreConfig := {| basePath := "/data"; store_pid := 7; lock_fuel := 103 |}.

Definition demo_empty : World := {|
  w_fs := {| fs_files := ∅; fs_dirs := ∅ |}; w_cache := ∅; w_now := demo_noon; w_calls := 0 |}.

Definition demo_line (text : string) : TranscriptLine := {|
  tl_Role := "user"; tl_Content := text; tl_Timestamp := demo_noon; tl_RunID := ""; tl_TokenCount := 0 |}.

Definition demo_key : string := BuildSessionKey "u" "slack" "s".

(** A session with the given lines. *)
Fixpoint demo_append (ls : list string) : prog unit :=
  match ls with
  | [] => Ret tt
  | l :: ls => sub! _ <- AppendTranscript demo_key (demo_line l); demo_append ls
  end.

Definition demo_session (ls : list string) : World :=
  snd (exec demo_env
    (sub! _ <- CreateSession (Build_CreateSessionRequest "u" "s" "slack" "m" JNull); demo_append ls)
    demo_empty).

Lemma demo_lag n : 0 <= env_lag demo_env n.
Proof. vm_compute. discriminate. Qed.

Lemma append_load_witness :
  fst (exec demo_env (LoadTranscript demo_key)
        (snd (exec demo_env (AppendTranscript demo_key (demo_line "c")) (demo_session ["a"; "b"]))))
  = loads_after [demo_line "a"; demo_line "b"] (demo_line "c").
Proof.
  pose proof (append_load demo_env demo_lag (le_n 103) demo_key (KeyParts "u" "slack" "s") (demo_line "c")
                (demo_session ["a"; "b"])) as Hl.
  destruct (exec demo_env (AppendTranscript demo_key (demo_line "c")) (demo_session ["a"; "b"])) as [r w'] eqn:E.
  assert (Hr : r = Ok tt) by (vm_compute in E; congruence). rewrite Hr in Hl.
  refine (proj1 (Hl _ _ _ _) _ _); [reflexivity|reflexivity|reflexivity| |left; vm_compute; reflexivity].
  split; try (apply (bool_decide_unpack _); vm_compute; exact I).
Defined.
