(* ===== verification/Compaction.v ===== *)
(** * Transcript compaction (pkg/session/compaction.go)

    [Compact] keeps the last lines of a transcript and writes the others to a
    new archive file first.  The transcript is loaded and rewritten without the
    session lock, which is taken for the final rename only.
    At every point at which a compaction may die the lines of the session are on disk;
    what two processes can do to each other is in the last part. *)
From Stdlib Require Import ZArith Lia Bool Ascii String List.
From stdpp Require Import base gmap strings option list.
From S2P Require Import Prelude GoString GoTime SessionKey Models SessionTypes SessionFs SessionLock SessionStore.

Local Open Scope string_scope.
Local Open Scope Z_scope.

Record CompactionResult := {
  cp_OriginalLineCount : Z;
  cp_ArchivedLineCount : Z;
  cp_RemainingLineCount : Z;
  cp_CompactionCount : Z;
  cp_Compacted : bool }.

Section compactor.
Context `{StoreConfig}.

(** One [Write] per line, to a file that is open. *)
Fixpoint write_lines (p : path) (lines : list TranscriptLine) : prog (result os_error unit) :=
  match lines with
  | [] => Ret (Ok tt)
  | l :: ls =>
      call! r <- AppendLine p (encode_line l);
      match r with Err e => Ret (Err e) | Ok _ => write_lines p ls end
  end.

Definition compact_name (sessionID : string) (ts : Z) : string :=
  sessionID +:+ "-compact-" +:+ format_stamp_nano ts +:+ ".jsonl".

Definition writeCompactionArchive (userID sessionID : string) (lines : list TranscriptLine)
    : prog (result error unit) :=
  let archDir := archiveDir userID in
  try! _ <- os_call (MkdirAll archDir) else "mkdir archive dir";
  call! ts <- Now;
  let archPath := Join archDir (compact_name sessionID ts) in
  try! _ <- os_call (CreateFile archPath (FLines [])) else "create archive file";
  sub! r <- write_lines archPath lines;
  Ret match r with Ok _ => Ok tt | Err e => Err (EWrap "write archive line" (EOs e)) end.

Definition rewriteTranscript (ctx : context) (userID sessionID : string)
    (lines : list TranscriptLine) : prog (result error unit) :=
  let p := transcriptPath userID sessionID in
  let tmp := path_add p ".compact.tmp" in
  try! _ <- os_call (WriteFile tmp (FLines [])) else "open temp transcript";
  sub! r <- write_lines tmp lines;
  match r with
  | Err e => call_! Remove tmp; Ret (Err (EWrap "write line" (EOs e)))
  | Ok _ =>
      sub! l <- lock_session userID sessionID ctx;
      match l with
      | Err e => call_! Remove tmp; Ret (Err (EWrap "acquire lock for compaction rename" e))
      | Ok _ =>
          call! r <- Rename tmp p;
          match r with
          | Err e =>
              call_! Remove tmp;
              sub! _ <- unlock_session userID sessionID;
              Ret (Err (EWrap "rename compacted transcript" (EOs e)))
          | Ok _ => sub! _ <- unlock_session userID sessionID; Ret (Ok tt)
          end
      end
  end.

Definition compacted_meta (meta : SessionMetadata) (kept : Z) : SessionMetadata := {|
  sm_Model := sm_Model meta; sm_CompactionLevel := sm_CompactionLevel meta;
  sm_CompactionCount := int64 (sm_CompactionCount meta + 1);
  sm_MessageCount := kept;
  sm_ContextUsage := sm_ContextUsage meta; sm_LastActivityAt := sm_LastActivityAt meta;
  sm_ChannelMeta := sm_ChannelMeta meta |}.

Definition zlen {A} (l : list A) : Z := Z.of_nat (length l).

Definition Compact (ctx : context) (sessionKey : string) (keepLines : Z)
    : prog (result error CompactionResult) :=
  if keepLines <? 1 then Ret (Err (EText "Compact: keepLines must be >= 1"))
  else
    try! lines <- LoadTranscript sessionKey else "Compact: load transcript";
    if zlen lines <=? keepLines then
      Ret (Ok {| cp_OriginalLineCount := zlen lines; cp_ArchivedLineCount := 0;
                 cp_RemainingLineCount := zlen lines; cp_CompactionCount := 0;
                 cp_Compacted := false |})
    else
      let splitAt := (length lines - Z.to_nat keepLines)%nat in
      let toArchive := take splitAt lines in
      let toKeep := drop splitAt lines in
      match ParseSessionKey sessionKey with
      | Err e => Ret (Err (EWrap "Compact: parse key" (EKey e)))
      | Ok kp =>
          try! _ <- writeCompactionArchive (kp_user kp) (kp_session kp) toArchive
            else "Compact: write archive";
          try! _ <- rewriteTranscript ctx (kp_user kp) (kp_session kp) toKeep
            else "Compact: rewrite transcript";
          try! sess <- GetSession sessionKey else "Compact: get session";
          let meta := compacted_meta (se_Metadata sess) (zlen toKeep) in
          try! _ <- UpdateMeta sessionKey meta else "Compact: update meta";
          Ret (Ok {| cp_OriginalLineCount := zlen lines; cp_ArchivedLineCount := zlen toArchive;
                     cp_RemainingLineCount := zlen toKeep;
                     cp_CompactionCount := sm_CompactionCount meta; cp_Compacted := true |})
      end.

Definition ShouldCompact (lineCount maxLines : Z) : bool := maxLines <? lineCount.
End compactor.

(** ** What the parts write *)
Section frames.
Context `{StoreConfig}.

Definition lock_files (p q : path) : Prop := q = p \/ exists rnd, q = tmp_path p rnd.

Lemma writes_reads S {A} (m : prog A) : only_reads m -> writes S m.
Proof.
  induction m as [a|X c k IH]; [done|]. intros [Hc Hk]. split; [by destruct c|]. intros x. auto.
Qed.

Lemma writes_lock_loop fuel tmp p ctx deadline delay :
  writes (lock_files p) (lock_loop fuel tmp p ctx deadline delay).
Proof.
  revert delay. induction fuel as [|fuel IH]; intros delay; [done|].
  split; [by left|]. intros [[]|[]]; try done.
  apply writes_bind; [apply writes_reads, stale_reads|]. intros [].
  - split; [by left|]. intros _. apply IH.
  - split; [done|]. intros now. destruct (time_after now deadline); [done|].
    split; [done|]. intros []; [done|]. split; [done|]. intros _. apply IH.
Qed.

Lemma writes_lock u s ctx : writes (lock_files (lockPath u s)) (lock_session u s ctx).
Proof.
  split; [done|]. intros rnd. split; [done|]. intros now. split; [right; eauto|].
  intros [[]|e]; [|done]. split; [done|]. intros now'.
  apply writes_bind; [apply writes_lock_loop|]. intros r. split; [right; eauto|done].
Qed.

Lemma writes_unlock u s : writes (lock_files (lockPath u s)) (unlock_session u s).
Proof. split; [by left|done]. Qed.

Lemma writes_lines p lines : writes (fun q => q = p) (write_lines p lines).
Proof. induction lines as [|l lines IH]; [done|]. split; [done|]. by intros [|]. Qed.

Lemma writes_json p d : writes (fun q => q = p \/ q = path_add p ".tmp") (atomicWriteJSON p d).
Proof. split; [by right|]. intros [[]|e]; [|done]. split; [by split; auto|]. intros [[]|e]; [done|]. split; [by right|done]. Qed.

Lemma writes_refresh S u : writes S (refreshIndexCache u).
Proof.
  split; [done|]. intros [d|[]]; try done. destruct (as_index d); [|done]. repeat split.
Qed.

(** The files of the index and of a session's metadata, with their temporary
    files. *)
Definition meta_files (u s : string) (q : path) : Prop :=
  (q = metaPath u s \/ q = path_add (metaPath u s) ".tmp")
  \/ (q = indexPath u \/ q = path_add (indexPath u) ".tmp").

Lemma writes_upsert u s sess : writes (meta_files u s) (upsertIndex u sess).
Proof.
  split; [done|]. intros _. apply writes_bind; [apply writes_refresh|].
  intros [idx|e]; [|done]. split; [done|]. intros now. apply writes_bind.
  - eapply writes_mono; [|apply writes_json]. intros q. by right.
  - intros [[]|e]; [|done]. repeat split.
Qed.

Lemma writes_update_meta key kp meta :
  ParseSessionKey key = Ok kp ->
  writes (meta_files (kp_user kp) (kp_session kp)) (UpdateMeta key meta).
Proof.
  intros Hk. unfold UpdateMeta. rewrite Hk. split; [done|]. intros [d|[]]; try done.
  destruct (as_session d); [|done]. split; [done|]. intros now. apply writes_bind.
  - eapply writes_mono; [|apply writes_json]. intros q. by left.
  - intros [[]|e]; [|done]. apply writes_bind; [apply writes_upsert|done].
Qed.

Lemma compact_path u s ts :
  lacks "/" s = true ->
  Join (archiveDir u) (compact_name s ts) = in_dir (archiveDir u) (compact_name s ts).
Proof.
  intros Hs. apply Join_name. unfold compact_name. apply file_name; [done| |].
  - rewrite !lacks_app, format_stamp_nano_no_slash. done.
  - rewrite str_app_length. cbn. lia.
Qed.

Lemma writes_archive u s lines :
  lacks "/" s = true ->
  writes (fun q => exists ts, q = in_dir (archiveDir u) (compact_name s ts)) (writeCompactionArchive u s lines).
Proof.
  intros Hs. apply writes_bind; [by repeat split|]. intros [[]|e]; [|done]. split; [done|]. intros ts.
  rewrite compact_path by done. apply writes_bind; [split; [by exists ts|done]|]. intros [[]|e]; [|done].
  apply writes_bind; [|done]. eapply writes_mono; [|apply writes_lines]. intros q ->. by exists ts.
Qed.
End frames.

(** ** What the parts leave behind when they succeed *)
Section contents.
Context `{StoreConfig}.
Variable env : Env.

Lemma append_ok p l w x :
  fst (do_call env (AppendLine p l) w) = Ok x ->
  lines_at (snd (do_call env (AppendLine p l) w)) p = (lines_at w p ++ [l])%list.
Proof.
  unfold do_call. cbn [perform]. unfold fs_append, fs_write.
  destruct (cannot_make _ _); [done|]. intros _. unfold lines_at, file_at. cbn.
  by rewrite lookup_insert_eq.
Qed.

Lemma write_lines_ok p lines w x :
  fst (exec env (write_lines p lines) w) = Ok x ->
  lines_at (snd (exec env (write_lines p lines) w)) p = (lines_at w p ++ map encode_line lines)%list.
Proof.
  revert w. induction lines as [|l lines IH]; intros w; cbn [write_lines exec].
  - intros _. cbn. by rewrite app_nil_r.
  - pose proof (append_ok p (encode_line l) w) as Ha.
    destruct (do_call env (AppendLine p (encode_line l)) w) as [[y|e] w1]; cbn [fst snd] in *; [|done].
    intros Hx. rewrite (IH _ Hx), (Ha _ eq_refl), <- app_assoc. done.
Qed.

Lemma create_ok p w x :
  fst (do_call env (CreateFile p (FLines [])) w) = Ok x ->
  lines_at (snd (do_call env (CreateFile p (FLines [])) w)) p = [].
Proof.
  unfold do_call. cbn [perform]. unfold fs_create, fs_write.
  destruct (_ || _); [done|]. destruct (cannot_make _ _); [done|]. intros _.
  unfold lines_at, file_at. cbn. by rewrite lookup_insert_eq.
Qed.

Lemma write_ok p w x :
  fst (do_call env (WriteFile p (FLines [])) w) = Ok x ->
  lines_at (snd (do_call env (WriteFile p (FLines [])) w)) p = [].
Proof.
  unfold do_call. cbn [perform]. unfold fs_write. destruct (cannot_make _ _); [done|]. intros _.
  unfold lines_at, file_at. cbn. by rewrite lookup_insert_eq.
Qed.

Lemma rename_ok old new w x :
  old <> new -> fst (do_call env (Rename old new) w) = Ok x ->
  lines_at (snd (do_call env (Rename old new) w)) new = lines_at w old.
Proof.
  intros Hne. unfold do_call. cbn [perform]. unfold fs_rename, lines_at, file_at.
  destruct (fs_files (w_fs w) !! old) as [f|]; [|done]. destruct (cannot_make _ _); [done|]. intros _.
  cbn. by rewrite lookup_insert_eq.
Qed.

Lemma rename_err old new w e q :
  fst (do_call env (Rename old new) w) = Err e ->
  file_at (snd (do_call env (Rename old new) w)) q = file_at w q.
Proof.
  unfold do_call. cbn [perform]. unfold fs_rename, file_at.
  destruct (fs_files (w_fs w) !! old) as [f|]; [|done]. by destruct (cannot_make _ _).
Qed.

(** An archive that was written holds the lines. *)
Lemma archive_ok u s lines w x :
  lacks "/" s = true ->
  fst (exec env (writeCompactionArchive u s lines) w) = Ok x ->
  exists ts, lines_at (snd (exec env (writeCompactionArchive u s lines) w))
               (in_dir (archiveDir u) (compact_name s ts)) = map encode_line lines.
Proof.
  intros Hs. unfold writeCompactionArchive. rewrite exec_bind.
  destruct (exec env (os_call _) w) as [[[]|e] w1]; [|done]. cbn [fst snd exec].
  destruct (do_call env Now w1) as [ts w2]. rewrite compact_path by done.
  set (A := in_dir _ _). rewrite exec_bind. pose proof (create_ok A w2) as Hc.
  unfold os_call. cbn [exec]. destruct (do_call env (CreateFile A (FLines [])) w2) as [[y|e] w3]; [|done].
  cbn [fst snd exec] in *. rewrite exec_bind. pose proof (write_lines_ok A lines w3) as Hw.
  destruct (exec env (write_lines A lines) w3) as [[z|e] w4]; [|done]. cbn [fst snd exec] in *.
  intros _. exists ts. fold A. by rewrite (Hw z eq_refl), (Hc y eq_refl).
Qed.
End contents.

(** ** A compaction from its start in [w0] *)
Section crash.
Context `{StoreConfig}.
Variable env : Env.
Variables (u s : string) (w0 : World) (archived kept : list TranscriptLine).
Hypothesis Hs : lacks "/" s = true.

Let T := transcriptPath u s.
Let tmp := path_add T ".compact.tmp".
Let A ts := in_dir (archiveDir u) (compact_name s ts).

(** The transcript is the one the compaction loaded. *)
Definition untouched (w : World) : Prop := file_at w T = file_at w0 T.

(** The transcript holds the kept lines and an archive file all others. *)
Definition split_up (w : World) : Prop :=
  exists ts, lines_at w T = map encode_line kept /\ lines_at w (A ts) = map encode_line archived.

Definition archive_written (w : World) : Prop :=
  exists ts, lines_at w (A ts) = map encode_line archived.

Definition all_safe (w : World) : Prop := untouched w \/ split_up w.

Lemma T_eq : T = in_dir (sessionsDir u) (s +:+ ".jsonl").
Proof. by apply transcript_eq. Qed.

Lemma tmp_eq : tmp = in_dir (sessionsDir u) (s +:+ (".jsonl" +:+ ".compact.tmp")).
Proof. unfold tmp. rewrite T_eq, path_add_in_dir, str_app_assoc. done. Qed.

Lemma lock_file_eq q : lock_files (lockPath u s) q ->
  exists x, q = in_dir (sessionsDir u) (s +:+ (".jsonl.lock" +:+ x)) /\ (x = "" \/ exists rnd, x = "." +:+ rnd +:+ ".tmp").
Proof.
  rewrite lock_eq by done. intros [->|[rnd ->]].
  - exists "". split; [done|by left].
  - exists ("." +:+ rnd +:+ ".tmp"). split; [|right; eauto].
    unfold tmp_path. by rewrite path_add_in_dir, !str_app_assoc.
Qed.

Lemma T_not_lock : ~ lock_files (lockPath u s) T.
Proof.
  intros (x & He & _)%lock_file_eq. rewrite T_eq in He. apply in_dir_inj in He as [_ He].
  apply str_app_inj_l in He. discriminate He.
Qed.

Lemma tmp_not_lock : ~ lock_files (lockPath u s) tmp.
Proof.
  intros (x & He & _)%lock_file_eq. rewrite tmp_eq in He. apply in_dir_inj in He as [_ He].
  apply str_app_inj_l in He. discriminate He.
Qed.

Lemma T_not_tmp : T <> tmp.
Proof. rewrite T_eq, tmp_eq. names_ne. Qed.

(** Nothing outside the archive directory is an archive file. *)
Lemma A_not_session ts n : A ts <> in_dir (sessionsDir u) n.
Proof.
  unfold A. rewrite archive_eq. intros [He _]%in_dir_inj. apply (f_equal (fun p => length (snd p))) in He.
  unfold in_dir in He. cbn in He. lia.
Qed.

Lemma A_not_lock ts : ~ lock_files (lockPath u s) (A ts).
Proof. intros (x & He & _)%lock_file_eq. by apply A_not_session in He. Qed.

Lemma A_not_tmp ts : A ts <> tmp.
Proof. rewrite tmp_eq. apply A_not_session. Qed.

Lemma T_not_archive ts : T <> A ts.
Proof. rewrite T_eq. apply not_eq_sym, A_not_session. Qed.

Lemma meta_file_eq q : meta_files u s q ->
  exists n, q = in_dir (sessionsDir u) n /\ n <> s +:+ ".jsonl".
Proof.
  unfold meta_files. rewrite meta_eq, index_eq, !path_add_in_dir by done.
  intros [[->| ->]|[->| ->]]; (eexists; split; [done|]); intros He;
    apply (f_equal last_byte) in He; rewrite ?last_byte_app in He; discriminate He.
Qed.

Lemma T_not_meta : ~ meta_files u s T.
Proof. intros (n & He & Hn)%meta_file_eq. rewrite T_eq in He. by apply in_dir_inj in He as [_ <-]. Qed.

Lemma A_not_meta ts : ~ meta_files u s (A ts).
Proof. intros (n & He & _)%meta_file_eq. by apply A_not_session in He. Qed.

(** Programs that leave the transcript, and the archive, alone. *)
Lemma always_untouched {B} S (m : prog B) w :
  writes S m -> ~ S T -> untouched w -> always env all_safe m w.
Proof. intros Hm HT Hu n. left. unfold untouched. by rewrite (crash_frame env S). Qed.

Lemma split_up_frame w w' :
  file_at w' T = file_at w T -> (forall ts, file_at w' (A ts) = file_at w (A ts)) ->
  split_up w -> split_up w'.
Proof. intros HT HA (ts & H1 & H2). exists ts. unfold lines_at in *. by rewrite HT, HA. Qed.

Lemma always_split_up {B} S (m : prog B) w :
  writes S m -> ~ S T -> (forall ts, ~ S (A ts)) -> split_up w ->
  always env all_safe m w /\ split_up (snd (exec env m w)).
Proof.
  intros Hm HT HA Hw. split.
  - intros n. right. eapply split_up_frame; [| |exact Hw]; intros; by rewrite (crash_frame env S).
  - eapply split_up_frame; [| |exact Hw]; intros; by rewrite (exec_frame env S).
Qed.

Lemma untouched_frame {B} S (m : prog B) w :
  writes S m -> ~ S T -> untouched w -> untouched (snd (exec env m w)).
Proof. intros Hm HT Hw. unfold untouched. by rewrite (exec_frame env S). Qed.

Lemma archive_written_frame {B} S (m : prog B) w :
  writes S m -> (forall ts, ~ S (A ts)) -> archive_written w -> archive_written (snd (exec env m w)).
Proof.
  intros Hm HA (ts & Hw). exists ts. unfold lines_at in *. by rewrite (exec_frame env S).
Qed.

(** A program that succeeds only with the lines split up, safe throughout. *)
Definition safe_split {B} (m : prog (result error B)) (w : World) : Prop :=
  always env all_safe m w
  /\ forall x, fst (exec env m w) = Ok x -> split_up (snd (exec env m w)).

Lemma safe_split_err {B} (e : error) w : all_safe w -> safe_split (Ret (A:=result error B) (Err e)) w.
Proof. intros Hw. split; [by apply always_ret|done]. Qed.

Lemma safe_split_bind {B C} (m : prog B) (f : B -> prog (result error C)) w :
  always env all_safe m w -> safe_split (f (fst (exec env m w))) (snd (exec env m w)) ->
  safe_split (pbind m f) w.
Proof.
  intros Hm [H1 H2]. split; [by apply always_bind|]. intros x. rewrite exec_bind. apply H2.
Qed.

Lemma safe_split_after {B} (m : prog (result error B)) w :
  writes (lock_files (lockPath u s)) m \/ writes (meta_files u s) m ->
  split_up w -> safe_split m w.
Proof.
  intros [Hm|Hm] Hw.
  - edestruct (always_split_up _ m w Hm) as [H1 H2]; [apply T_not_lock|apply A_not_lock|done|]. by split.
  - edestruct (always_split_up _ m w Hm) as [H1 H2]; [apply T_not_meta|apply A_not_meta|done|]. by split.
Qed.

(** The rename is the one step from the old transcript to the new one. *)
Lemma rename_split w x :
  archive_written w -> lines_at w tmp = map encode_line kept ->
  fst (do_call env (Rename tmp T) w) = Ok x -> split_up (snd (do_call env (Rename tmp T) w)).
Proof.
  intros (ts & HA) Htmp Hok. exists ts. split.
  - rewrite (rename_ok env tmp T w x), Htmp; [done|apply not_eq_sym, T_not_tmp|done].
  - pose proof (exec_frame env (fun q => q = tmp \/ q = T) (call! r <- Rename tmp T; Ret r) w (A ts)) as Hf.
    unfold lines_at in *. cbn [exec] in Hf. destruct (do_call env (Rename tmp T) w) as [r w'].
    cbn [fst snd] in *. rewrite Hf; [done|by repeat split; auto|].
    intros [He|He]; [by apply A_not_tmp in He|symmetry in He; by apply T_not_archive in He].
Qed.

Lemma rename_phase w :
  untouched w -> archive_written w -> lines_at w tmp = map encode_line kept ->
  safe_split (call! r <- Rename tmp T;
              match r with
              | Err e => call_! Remove tmp; sub! _ <- unlock_session u s;
                         Ret (Err (EWrap "rename compacted transcript" (EOs e)))
              | Ok _ => sub! _ <- unlock_session u s; Ret (Ok tt)
              end) w.
Proof.
  intros Hu HA Htmp. change (Step (Rename tmp T) ?k) with (pbind (call! r <- Rename tmp T; Ret r) k).
  apply safe_split_bind.
  - apply always_step; [by left|]. apply always_ret.
    pose proof (rename_split w) as Hok. pose proof (rename_err env tmp T w) as Herr.
    destruct (do_call env (Rename tmp T) w) as [[x|e] w']; cbn [fst snd] in *.
    + right. by apply (Hok x).
    + left. unfold untouched. by rewrite (Herr e).
  - pose proof (rename_split w) as Hok. pose proof (rename_err env tmp T w) as Herr. cbn [exec].
    destruct (do_call env (Rename tmp T) w) as [[x|e] w']; cbn [fst snd] in *.
    + apply safe_split_after; [left|by apply (Hok x)]. apply writes_bind; [apply writes_unlock|done].
    + split; [|done].
      apply (always_untouched (fun q => q = tmp \/ lock_files (lockPath u s) q)).
      * split; [by left|]. intros _. apply writes_bind; [|done].
        eapply writes_mono; [|apply writes_unlock]. auto.
      * intros [He|He]; [by apply T_not_tmp in He|by apply T_not_lock in He].
      * unfold untouched. by rewrite (Herr e).
Qed.

Definition is_tmp (q : path) : Prop := q = tmp.

Lemma T_not_is_tmp : ~ is_tmp T.
Proof. apply T_not_tmp. Qed.
Lemma A_not_is_tmp ts : ~ is_tmp (A ts).
Proof. apply A_not_tmp. Qed.

Lemma cleanup_safe {B} (e : error) w :
  untouched w -> safe_split (call_! Remove tmp; Ret (A:=result error B) (Err e)) w.
Proof.
  intros Hu. split; [|done]. by apply (always_untouched is_tmp); [repeat split|apply T_not_is_tmp|].
Qed.

Lemma rewrite_safe ctx w :
  untouched w -> archive_written w -> safe_split (rewriteTranscript ctx u s kept) w.
Proof.
  intros Hu HA. unfold rewriteTranscript. fold T tmp.
  assert (W1 : writes is_tmp (os_call (WriteFile tmp (FLines [])))) by by repeat split.
  apply safe_split_bind; [by apply (always_untouched is_tmp); [|apply T_not_is_tmp|]|].
  apply (untouched_frame _ _ _ W1 T_not_is_tmp) in Hu.
  apply (archive_written_frame _ _ _ W1 A_not_is_tmp) in HA.
  pose proof (write_ok env tmp w) as Htmp. revert Hu HA. unfold os_call. cbn [exec].
  destruct (do_call env (WriteFile tmp (FLines [])) w) as [[x|e] w1]; cbn [fst snd exec] in *;
    intros Hu HA; [|by apply safe_split_err; left].
  specialize (Htmp x eq_refl). pose proof (writes_lines tmp kept) as W2.
  apply safe_split_bind; [by apply (always_untouched is_tmp); [|apply T_not_is_tmp|]|].
  apply (untouched_frame _ _ _ W2 T_not_is_tmp) in Hu.
  apply (archive_written_frame _ _ _ W2 A_not_is_tmp) in HA.
  pose proof (write_lines_ok env tmp kept w1) as Hlines. rewrite Htmp in Hlines. revert Hu HA Hlines.
  destruct (exec env (write_lines tmp kept) w1) as [[y|e] w2]; cbn [fst snd];
    intros Hu HA Hlines; [|by apply cleanup_safe].
  specialize (Hlines y eq_refl). pose proof (writes_lock u s ctx) as W3.
  apply safe_split_bind; [apply (always_untouched _ _ _ W3); [apply T_not_lock|done]|].
  apply (untouched_frame _ _ _ W3 T_not_lock) in Hu.
  apply (archive_written_frame _ _ _ W3 A_not_lock) in HA.
  pose proof (exec_frame env _ _ w2 tmp W3 tmp_not_lock) as Hk. revert Hu HA Hk.
  destruct (exec env (lock_session u s ctx) w2) as [[[]|e] w3]; cbn [fst snd];
    intros Hu HA Hk; [|by apply cleanup_safe].
  apply rename_phase; [done..|]. unfold lines_at in *. by rewrite Hk.
Qed.

(** Writing the archive keeps the transcript, and comes first. *)
Lemma archive_safe w :
  untouched w ->
  let m := writeCompactionArchive u s archived in
  always env all_safe m w /\ untouched (snd (exec env m w))
  /\ forall x, fst (exec env m w) = Ok x -> archive_written (snd (exec env m w)).
Proof.
  intros Hu m. pose proof (writes_archive u s archived Hs) as W.
  assert (HT : ~ (exists ts, T = in_dir (archiveDir u) (compact_name s ts))).
  { intros [ts He]. by apply (T_not_archive ts). }
  split; [by apply (always_untouched _ _ _ W)|]. split; [by apply (untouched_frame _ _ _ W)|].
  intros x. by apply archive_ok.
Qed.
End crash.

(** ** The whole compaction *)
Section compact.
Context `{StoreConfig}.
Variable env : Env.

Lemma load_reads key : only_reads (LoadTranscript key).
Proof. unfold LoadTranscript. destruct (ParseSessionKey key); by repeat split. Qed.

Lemma get_reads key : only_reads (GetSession key).
Proof. unfold GetSession. destruct (ParseSessionKey key); by repeat split. Qed.

(** Every result a program can return, whatever the calls answer. *)
Fixpoint returns {A} (R : A -> Prop) (m : prog A) : Prop :=
  match m with
  | Ret a => R a
  | Step c k => forall x, returns R (k x)
  end.

Lemma returns_bind {A B} (R : B -> Prop) (m : prog A) f :
  (forall a, returns R (f a)) -> returns R (pbind m f).
Proof. intros Hf. induction m as [a|X c k IH]; [apply Hf|]. intros x. apply IH. Qed.

Lemma exec_returns {A} (R : A -> Prop) (m : prog A) w : returns R m -> R (fst (exec env m w)).
Proof.
  revert w. induction m as [a|X c k IH]; intros w Hm; [done|]. cbn [exec].
  destruct (do_call env c w) as [x w']. by apply IH.
Qed.

(** [Compact] from the point where the lines are loaded and are too many. *)
Definition compact_rest ctx key (kp : key_parts) (n : Z) (archived kept : list TranscriptLine)
    : prog (result error CompactionResult) :=
  try! _ <- writeCompactionArchive (kp_user kp) (kp_session kp) archived else "Compact: write archive";
  try! _ <- rewriteTranscript ctx (kp_user kp) (kp_session kp) kept else "Compact: rewrite transcript";
  try! sess <- GetSession key else "Compact: get session";
  let meta := compacted_meta (se_Metadata sess) (zlen kept) in
  try! _ <- UpdateMeta key meta else "Compact: update meta";
  Ret (Ok {| cp_OriginalLineCount := n; cp_ArchivedLineCount := zlen archived;
             cp_RemainingLineCount := zlen kept;
             cp_CompactionCount := sm_CompactionCount meta; cp_Compacted := true |}).

Definition counts_of (archived kept : list TranscriptLine) (r : result error CompactionResult) : Prop :=
  match r with
  | Ok r => cp_RemainingLineCount r = zlen kept /\ cp_ArchivedLineCount r = zlen archived
  | Err _ => True
  end.

Lemma compact_rest_counts ctx key kp n archived kept :
  returns (counts_of archived kept) (compact_rest ctx key kp n archived kept).
Proof.
  unfold compact_rest.
  repeat first [done | apply returns_bind; intros [?|?] | progress cbn [returns counts_of]].
Qed.

Lemma compact_rest_safe ctx key kp n archived kept w0 w :
  ParseSessionKey key = Ok kp -> lacks "/" (kp_session kp) = true ->
  untouched (kp_user kp) (kp_session kp) w0 w ->
  safe_split env (kp_user kp) (kp_session kp) w0 archived kept (compact_rest ctx key kp n archived kept) w.
Proof.
  intros Hk Hs Hu. unfold compact_rest.
  destruct (archive_safe env _ _ w0 archived kept Hs w Hu) as (H1 & H2 & H3).
  apply safe_split_bind; [done|]. revert H2 H3.
  destruct (exec env (writeCompactionArchive _ _ archived) w) as [[x|e] w1]; cbn [fst snd];
    intros H2 H3; [|by apply safe_split_err; left].
  destruct (rewrite_safe env _ _ w0 archived kept Hs ctx w1 H2 (H3 x eq_refl)) as [H4 H5].
  apply safe_split_bind; [done|]. clear H2 H3.
  pose proof (always_end _ _ _ _ H4) as Hend. revert H5 Hend.
  destruct (exec env (rewriteTranscript _ _ _ kept) w1) as [[y|e] w2]; cbn [fst snd];
    intros H5 Hend; [|by apply safe_split_err].
  apply safe_split_after; [done|right|by apply (H5 y)].
  apply writes_bind; [apply writes_reads, get_reads|]. intros [sess|e]; [|done].
  apply writes_bind; [by apply writes_update_meta|by intros [[]|e]].
Qed.

Lemma compact_unfold ctx key kp keep w lines :
  ParseSessionKey key = Ok kp -> fst (exec env (LoadTranscript key) w) = Ok lines ->
  1 <= keep < zlen lines ->
  exec env (Compact ctx key keep) w
  = exec env (let k := (length lines - Z.to_nat keep)%nat in
              compact_rest ctx key kp (zlen lines) (take k lines) (drop k lines))
      (snd (exec env (LoadTranscript key) w)).
Proof.
  intros Hk Hload Hkeep. unfold Compact. rewrite (proj2 (Z.ltb_ge keep 1)) by lia.
  rewrite exec_bind, Hload, (proj2 (Z.leb_gt (zlen lines) keep)), Hk by lia. done.
Qed.

(** Compactions that have nothing to do only read. *)
Lemma compact_idle ctx key keep w lines :
  fst (exec env (LoadTranscript key) w) = Ok lines -> ~ (1 <= keep < zlen lines) ->
  (forall n p, file_at (crash env n (Compact ctx key keep) w) p = file_at w p)
  /\ forall r, fst (exec env (Compact ctx key keep) w) = Ok r -> cp_Compacted r = false.
Proof.
  intros Hload Hkeep. unfold Compact. destruct (Z.ltb_spec keep 1) as [H1|H1].
  { split; [by intros []|done]. }
  assert (H2 : zlen lines <= keep) by lia. split.
  - intros n p. match goal with |- context [pbind _ ?f] =>
      destruct (crash_bind env n (LoadTranscript key) f w) as [[n1 ->]|[n1 ->]] end.
    + apply (crash_frame env (fun _ => False)); [apply writes_reads, load_reads|auto].
    + rewrite Hload, (proj2 (Z.leb_le _ _) H2).
      destruct n1; apply (exec_frame env (fun _ => False)); auto; apply writes_reads, load_reads.
  - intros r. rewrite exec_bind, Hload, (proj2 (Z.leb_le _ _) H2). by intros [= <-].
Qed.

(** A compaction is safe throughout when what follows the loading is. *)
Lemma compact_always ctx key kp keep w lines (k := (length lines - Z.to_nat keep)%nat) :
  ParseSessionKey key = Ok kp -> fst (exec env (LoadTranscript key) w) = Ok lines ->
  1 <= keep < zlen lines ->
  always env (all_safe (kp_user kp) (kp_session kp) w (take k lines) (drop k lines))
    (compact_rest ctx key kp (zlen lines) (take k lines) (drop k lines))
    (snd (exec env (LoadTranscript key) w)) ->
  always env (all_safe (kp_user kp) (kp_session kp) w (take k lines) (drop k lines)) (Compact ctx key keep) w.
Proof.
  intros Hk Hload Hkeep Hrest. unfold Compact. rewrite (proj2 (Z.ltb_ge keep 1)) by lia.
  apply always_bind.
  - intros n. left. apply (crash_frame env (fun _ => False)); [apply writes_reads, load_reads|auto].
  - rewrite Hload, (proj2 (Z.leb_gt (zlen lines) keep)), Hk by lia. done.
Qed.

(** C11: No crash loses a line: whenever a compaction dies, the session's
    transcript is either the file it was, or it holds exactly the last
    [keepLines] lines while an archive file holds exactly the others, in order;
    and a compaction that reports success has split the lines this way. *)
Theorem compact_crash_safe ctx key kp keep w lines :
  ParseSessionKey key = Ok kp -> lacks "/" (kp_session kp) = true ->
  fst (exec env (LoadTranscript key) w) = Ok lines ->
  let k := (length lines - Z.to_nat keep)%nat in
  let split_up := split_up (kp_user kp) (kp_session kp) (take k lines) (drop k lines) in
  (forall n, let w' := crash env n (Compact ctx key keep) w in
     file_at w' (transcriptPath (kp_user kp) (kp_session kp))
     = file_at w (transcriptPath (kp_user kp) (kp_session kp)) \/ split_up w')
  /\ (forall r, fst (exec env (Compact ctx key keep) w) = Ok r -> cp_Compacted r = true ->
        split_up (snd (exec env (Compact ctx key keep) w))
        /\ cp_RemainingLineCount r = keep /\ cp_ArchivedLineCount r = zlen lines - keep).
Proof.
  intros Hk Hs Hload k split.
  pose proof (writes_reads (fun _ => False) _ (load_reads key)) as Wl.
  assert (Hu : untouched (kp_user kp) (kp_session kp) w (snd (exec env (LoadTranscript key) w))).
  { apply (exec_frame env (fun _ => False)); auto. }
  destruct (decide (1 <= keep < zlen lines)) as [Hkeep|Hkeep].
  - rewrite (compact_unfold ctx key kp keep w lines) by done. cbv zeta. fold k.
    pose proof (compact_rest_safe ctx key kp (zlen lines) (take k lines) (drop k lines) w _ Hk Hs Hu) as [Ha Hok].
    pose proof (exec_returns _ _ (snd (exec env (LoadTranscript key) w))
                  (compact_rest_counts ctx key kp (zlen lines) (take k lines) (drop k lines))) as Hc.
    split.
    + apply (compact_always ctx key kp keep w lines Hk Hload Hkeep). exact Ha.
    + intros r Hr _. rewrite Hr in Hc. destruct Hc as [-> ->]. split; [by apply (Hok r)|].
      unfold zlen, k in *. rewrite length_take, length_drop. lia.
  - destruct (compact_idle ctx key keep w lines Hload Hkeep) as [Hi Hn]. split.
    + intros n. left. apply Hi.
    + intros r Hr Hcp. specialize (Hn r Hr); congruence.
Qed.
End compact.

(** ** A concrete compaction *)
#[local] Existing Instance demo_store.

Lemma compact_crash_safe_witness :
  fst (exec demo_env (LoadTranscript demo_key) (demo_session ["a"; "b"; "c"]))
  = Ok [demo_line "a"; demo_line "b"; demo_line "c"]
  /\ split_up "u" "s" [demo_line "a"; demo_line "b"] [demo_line "c"]
       (snd (exec demo_env (Compact None demo_key 1) (demo_session ["a"; "b"; "c"]))).
Proof.
  assert (Hload : fst (exec demo_env (LoadTranscript demo_key) (demo_session ["a"; "b"; "c"]))
                  = Ok [demo_line "a"; demo_line "b"; demo_line "c"]) by (vm_compute; reflexivity).
  split; [exact Hload|].
  pose proof (compact_crash_safe demo_env None demo_key (KeyParts "u" "slack" "s") 1
                (demo_session ["a"; "b"; "c"]) _ eq_refl eq_refl Hload) as [_ H].
  destruct (fst (exec demo_env (Compact None demo_key 1) (demo_session ["a"; "b"; "c"]))) as [r|e] eqn:E.
  - refine (proj1 (H r eq_refl _)). vm_compute in E. injection E as <-. reflexivity.
  - exfalso. vm_compute in E. discriminate E.
Defined.

(** Whether a line with this text is in some file. *)
Definition text_on_disk (text : string) (w : World) : bool :=
  existsb (fun pf => existsb (fun l => match rl_content l with
                                       | LJson tl => (tl_Content tl =? text)%string
                                       | _ => false
                                       end) (as_lines (f_data (snd pf))))
    (map_to_list (fs_files (w_fs w))).

(** A line appended during a compaction can vanish: there is a schedule on
    which a compaction and an append to the same session both report success,
    and the appended line is in no file of the store, since the compaction
    replaces the transcript by lines it loaded before it took the lock. *)
Lemma compaction_loses_append :
  exists sched,
    let '(m1, m2, w) := interleave demo_env sched (Compact None demo_key 1)
        (AppendTranscript demo_key (demo_line "late")) (demo_session ["a"; "b"; "c"]) in
    (exists r, result_of m1 = Some (Ok r) /\ cp_Compacted r = true)
    /\ result_of m2 = Some (Ok tt) /\ text_on_disk "late" w = false
    /\ text_on_disk "a" w = true /\ text_on_disk "c" w = true.
Proof.
  exists (repeat false 2 ++ repeat true 20 ++ repeat false 60)%list.
  assert (H : (let '(m1, m2, w) := interleave demo_env (repeat false 2 ++ repeat true 20 ++ repeat false 60)
                 (Compact None demo_key 1) (AppendTranscript demo_key (demo_line "late"))
                 (demo_session ["a"; "b"; "c"]) in
               (result_of m1, result_of m2, text_on_disk "late" w, text_on_disk "a" w && text_on_disk "c" w))
              = (Some (Ok (Build_CompactionResult 3 2 1 1 true)), Some (Ok tt), false, true))
    by (vm_compute; reflexivity).
  destruct (interleave _ _ _ _ _) as [[m1 m2] w]. injection H as H1 H2 H3 H4.
  apply andb_true_iff in H4 as [H4 H5]. split; [by exists (Build_CompactionResult 3 2 1 1 true)|done].
Qed.
