(* ===== verification/SessionIndex.v ===== *)
(** * The session store: coherence of the index

    [sessions.json] and its cache describe the metadata files: every operation of the
    store, on any user, takes a coherent state to a coherent state; hence what
    [ListSessions] returns. *)
From Stdlib Require Import ZArith Lia Bool Ascii String List.
From stdpp Require Import base gmap strings option list.
From S2P Require Import Prelude GoString GoTime SessionKey Models SessionTypes SessionFs SessionLock SessionStore Compaction.

Local Open Scope string_scope.
Local Open Scope Z_scope.

(** ** The index as a list of entries with distinct sessions *)

Lemma put_entry_In e x l :
  NoDup (map ie_SessionID l) ->
  In x (put_entry e l) <-> x = e \/ In x l /\ ie_SessionID x <> ie_SessionID e.
Proof.
  induction l as [|y l IH]; cbn [put_entry map In]; [naive_solver|].
  intros [Hy Hl]%list.NoDup_cons.
  assert (Hn : forall z, In z l -> ie_SessionID z <> ie_SessionID y).
  { intros z Hz He. apply Hy. rewrite <- He. apply list_elem_of_In, in_map, Hz. }
  destruct (String.eqb_spec (ie_SessionID y) (ie_SessionID e)) as [He|He]; cbn [In].
  - split; [intros [->|Hin]; [by left|right; split; [by right|rewrite <- He; auto]]|].
    intros [->|[[->|Hin] Hx]]; [by left|done|by right].
  - rewrite IH by done. split.
    + intros [->|[->|[Hin Hx]]]; [right; by split; [left|]|by left|right; by split; [right|]].
    + intros [->|[[->|Hin] Hx]]; [by right; left|by left|by right; right].
Qed.

Lemma put_entry_ids e l : NoDup (map ie_SessionID l) -> NoDup (map ie_SessionID (put_entry e l)).
Proof.
  induction l as [|y l IH]; cbn [put_entry map]; [intros _; apply list.NoDup_singleton|].
  intros Hn. pose proof Hn as [Hy Hl]%list.NoDup_cons.
  destruct (String.eqb_spec (ie_SessionID y) (ie_SessionID e)) as [He|He]; cbn [map].
  - rewrite <- He. by apply list.NoDup_cons.
  - apply list.NoDup_cons. split; [|by apply IH]. intros Hin.
    apply list_elem_of_In, in_map_iff in Hin as (x & Hx & Hin). apply put_entry_In in Hin; [|done].
    destruct Hin as [->|[Hin _]]; [done|]. apply Hy. rewrite <- Hx. by apply list_elem_of_In, in_map.
Qed.

Section index.
Context `{StoreConfig}.

(** The file at [metaPath u s], decoded. *)
Definition meta_at (w : World) (u s : string) : option Session :=
  f ← file_at w (metaPath u s); as_session (f_data f).

Definition index_at (w : World) (u : string) : option sessionIndex :=
  f ← file_at w (indexPath u); as_index (f_data f).

(** For the sessions in [P], the entries are exactly those of the metadata
    files. *)
Definition describes (P : string -> Prop) (es : list sessionIndexEntry)
    (metas : string -> option Session) : Prop :=
  NoDup (map ie_SessionID es)
  /\ forall e, P (ie_SessionID e) -> In e es <-> exists s sess,
       lacks "/" s = true /\ metas s = Some sess /\ e = sessionToIndexEntry sess.

(** The files coherence is about. *)
Definition meta_name (u s : string) : path := in_dir (sessionsDir u) (s +:+ ".meta.json").
Definition index_file (u : string) (q : path) : Prop :=
  q = indexPath u \/ exists s, q = meta_name u s.

Record coherent_on (P : string -> Prop) (u : string) (w : World) : Prop := {
  co_dirs : forall n, in_dir (sessionsDir u) n ∈ fs_dirs (w_fs w) -> n = "archive";
  co_meta : forall s f, file_at w (meta_name u s) = Some f ->
    lacks "/" s = true /\ exists sess, f_data f = FMeta sess /\ se_ID sess = s;
  co_index : forall f, file_at w (indexPath u) = Some f ->
    exists idx, f_data f = FIndex idx /\ describes P (ix_Sessions idx) (meta_at w u);
  co_none : file_at w (indexPath u) = None ->
    forall s, P s -> lacks "/" s = true -> file_at w (metaPath u s) = None;
  co_cache : forall e, w_cache w !! u = Some e -> index_at w u = Some (ic_index e);
  co_home : forall q f, index_file u q -> file_at w q = Some f -> sessionsDir u ∈ fs_dirs (w_fs w) }.

(** The whole index. *)
Definition every (s : string) : Prop := True.
Definition but (s0 s : string) : Prop := s <> s0.
Abbreviation coherent := (coherent_on every).

Definition a_session_dir (p : path) : Prop :=
  exists v, is_name v = true /\ (p = sessionsDir v \/ p = archiveDir v).

(** Calls that do not concern the index of [u]. *)
Definition call_keeps (u : string) {X} (c : call X) : Prop :=
  match c with
  | WriteFile p _ | CreateFile p _ | AppendLine p _ | Remove p | Link _ p => ~ index_file u p
  | Rename old new => ~ index_file u old /\ ~ index_file u new
  | MkdirAll p => a_session_dir p
  | CachePut v _ | CacheDelete v => v <> u
  | _ => True
  end.

Fixpoint keeps (u : string) {A} (m : prog A) : Prop :=
  match m with
  | Ret _ => True
  | Step c k => call_keeps u c /\ forall x, keeps u (k x)
  end.

Lemma keeps_bind u {A B} (m : prog A) (f : A -> prog B) :
  keeps u m -> (forall a, keeps u (f a)) -> keeps u (pbind m f).
Proof.
  intros Hm Hf. induction m as [a|X c k IH]; [apply Hf|].
  destruct Hm as [Hc Hk]. split; [done|]. intros x. by apply IH.
Qed.

Lemma keeps_reads u {A} (m : prog A) : only_reads m -> keeps u m.
Proof.
  induction m as [a|X c k IH]; [done|]. intros [Hc Hk]. split; [by destruct c|]. auto.
Qed.

(** A session directory has no ancestor below another session directory, but
    its archive. *)
Lemma ancestors_length r cs q : In q (ancestors r cs) -> (length (snd q) <= length cs)%nat.
Proof.
  induction cs as [|c cs IH]; cbn [ancestors In]; intros [<-|Hin]; cbn; [done|done|done|].
  specialize (IH Hin). lia.
Qed.

Lemma ancestors_self r cs q : In q (ancestors r cs) -> length (snd q) = length cs -> q = (r, cs).
Proof.
  destruct cs as [|c cs]; cbn [ancestors In]; intros [<-|Hin]; try done.
  apply ancestors_length in Hin. cbn. lia.
Qed.

Lemma session_dir_ancestor u p n :
  is_name u = true -> a_session_dir p ->
  In (in_dir (sessionsDir u) n) (ancestors (fst p) (snd p)) -> n = "archive".
Proof.
  intros Hu (v & Hv & [->| ->]) Hin.
  - apply ancestors_length in Hin. rewrite !sessions_dir_eq in Hin by done. unfold in_dir in Hin. cbn in Hin. lia.
  - rewrite archive_eq in Hin. apply ancestors_self in Hin.
    + destruct (in_dir (sessionsDir v) "archive") as [r cs] eqn:E. cbn [fst snd] in Hin.
      rewrite <- E in Hin. by apply in_dir_inj in Hin as [_ ->].
    + rewrite !sessions_dir_eq by done. done.
Qed.

(** Coherence depends on the index files, the directory and the cached entry. *)
Lemma coherent_same P u w w' :
  (forall q, index_file u q -> file_at w' q = file_at w q) ->
  (forall n, in_dir (sessionsDir u) n ∈ fs_dirs (w_fs w') -> n = "archive") ->
  w_cache w' !! u = w_cache w !! u -> fs_dirs (w_fs w) ⊆ fs_dirs (w_fs w') ->
  coherent_on P u w -> coherent_on P u w'.
Proof.
  intros Hf Hd Hc Hsub [H1 H2 H3 H4 H5 H6].
  assert (Hi : file_at w' (indexPath u) = file_at w (indexPath u)) by (apply Hf; by left).
  assert (Hn : forall s, file_at w' (meta_name u s) = file_at w (meta_name u s)).
  { intros s. apply Hf. right. eauto. }
  assert (Hm : forall s, lacks "/" s = true -> file_at w' (metaPath u s) = file_at w (metaPath u s)).
  { intros s Hs. rewrite meta_eq by done. apply Hn. }
  split; [done|..].
  - intros s f. rewrite Hn. by apply H2.
  - intros f. rewrite Hi. intros Hx. destruct (H3 f Hx) as (idx & Hidx & Hnd & Hes). exists idx.
    split; [done|]. split; [done|]. intros e He0. rewrite Hes by done. unfold meta_at.
    split; intros (s & sess & Hs & Hse & He); exists s, sess; [rewrite Hm by done|rewrite Hm in Hse by done]; done.
  - rewrite Hi. intros Hx s HP Hs. rewrite Hm by done. by apply H4.
  - intros e. rewrite Hc. unfold index_at. rewrite Hi. apply H5.
  - intros q f Hq. rewrite Hf by done. intros Hx. apply Hsub. by eapply H6.
Qed.

(** Programs that neither make directories nor use the cache. *)
Definition files_only {X} (c : call X) : Prop :=
  match c with MkdirAll _ | CachePut _ _ | CacheDelete _ => False | _ => True end.

Fixpoint on_files {A} (m : prog A) : Prop :=
  match m with Ret _ => True | Step c k => files_only c /\ forall x, on_files (k x) end.

Lemma on_files_bind {A B} (m : prog A) (f : A -> prog B) :
  on_files m -> (forall a, on_files (f a)) -> on_files (pbind m f).
Proof.
  intros Hm Hf. induction m as [a|X c k IH]; [apply Hf|].
  destruct Hm as [Hc Hk]. split; [done|]. intros x. by apply IH.
Qed.

Lemma on_files_reads {A} (m : prog A) : only_reads m -> on_files m.
Proof. induction m as [a|X c k IH]; [done|]. intros [Hc Hk]. split; [by destruct c|]. auto. Qed.

Lemma on_files_json p d : on_files (atomicWriteJSON p d).
Proof. split; [done|]. intros [[]|e]; [|done]. split; [done|]. intros [[]|e]; by repeat split. Qed.

Section env.
Variable env : Env.

Lemma call_keeps_file u {X} (c : call X) w q :
  call_keeps u c -> index_file u q -> file_at (snd (do_call env c w)) q = file_at w q.
Proof.
  intros Hc Hq. apply (perform_frame env (fun p => p <> q)); [|naive_solver].
  destruct c; cbn in *; naive_solver.
Qed.

Lemma call_keeps_cache u {X} (c : call X) w :
  call_keeps u c -> w_cache (snd (do_call env c w)) !! u = w_cache w !! u.
Proof.
  intros Hc. unfold do_call. destruct c; cbn [perform snd on_fs tick with_fs with_cache with_now w_cache]; try done.
  - by apply lookup_insert_ne.
  - by apply lookup_delete_ne.
Qed.

Lemma call_keeps_dirs u {X} (c : call X) w n :
  is_name u = true -> call_keeps u c ->
  in_dir (sessionsDir u) n ∈ fs_dirs (w_fs (snd (do_call env c w))) ->
  in_dir (sessionsDir u) n ∈ fs_dirs (w_fs w) \/ n = "archive".
Proof.
  intros Hu Hc. unfold do_call.
  destruct c; cbn [perform snd on_fs tick with_fs with_cache with_now w_fs]; try (by left);
    unfold fs_create, fs_append, fs_link, fs_rename, fs_write, fs_mkdir_all;
    repeat case_match; cbn; try (by left).
  intros [Hin|Hin]%elem_of_union; [by left|]. right. apply elem_of_list_to_set, list_elem_of_In in Hin.
  by eapply session_dir_ancestor.
Qed.

Lemma do_call_keeps P u {X} (c : call X) w :
  is_name u = true -> call_keeps u c -> coherent_on P u w -> coherent_on P u (snd (do_call env c w)).
Proof.
  intros Hu Hc Hw. eapply coherent_same; [| | | |exact Hw].
  - intros q. by apply call_keeps_file.
  - intros n Hn. apply call_keeps_dirs in Hn; [|done..]. destruct Hn as [Hn| ->]; [|done].
    by apply (co_dirs P u w Hw).
  - by apply call_keeps_cache.
  - apply do_call_dirs.
Qed.

Lemma exec_keeps P u {A} (m : prog A) w :
  is_name u = true -> keeps u m -> coherent_on P u w -> coherent_on P u (snd (exec env m w)).
Proof.
  intros Hu. revert w. induction m as [a|X c k IH]; intros w Hm Hw; [done|].
  destruct Hm as [Hc Hk]. cbn [exec]. pose proof (do_call_keeps P u c w Hu Hc Hw) as Hp.
  destruct (do_call env c w) as [x w']. by apply IH.
Qed.

Lemma exec_cache {A} (m : prog A) w : on_files m -> w_cache (snd (exec env m w)) = w_cache w.
Proof.
  revert w. induction m as [a|X c k IH]; intros w Hm; [done|]. destruct Hm as [Hc Hk]. cbn [exec].
  assert (Hp : w_cache (snd (do_call env c w)) = w_cache w) by (unfold do_call; by destruct c).
  destruct (do_call env c w) as [x w']. rewrite IH by auto. exact Hp.
Qed.

(** ** Writing metadata and index *)

Lemma do_rename old new f w :
  file_at w old = Some f -> makeable w new ->
  fst (do_call env (Rename old new) w) = Ok tt
  /\ (forall q, file_at (snd (do_call env (Rename old new) w)) q
        = if bool_decide (new = q) then Some f else if bool_decide (old = q) then None else file_at w q)
  /\ fs_dirs (w_fs (snd (do_call env (Rename old new) w))) = fs_dirs (w_fs w)
  /\ w_cache (snd (do_call env (Rename old new) w)) = w_cache w.
Proof.
  intros Ho Hm. unfold do_call, file_at in *. cbn [perform]. unfold fs_rename. rewrite Ho.
  rewrite cannot_make_none by done. cbn [fst snd on_fs tick with_fs w_fs w_cache fs_dirs set_file del_file].
  split; [done|]. split; [|done]. intros q. rewrite <- lookup_del_file. apply lookup_set_file.
Qed.

(** In a directory where it can make files, [atomicWriteJSON] succeeds. *)
Lemma json_exec d n data w :
  d ∈ fs_dirs (w_fs w) -> in_dir d n ∉ fs_dirs (w_fs w) -> in_dir d (n +:+ ".tmp") ∉ fs_dirs (w_fs w) ->
  let '(r, w') := exec env (atomicWriteJSON (in_dir d n) data) w in
  r = Ok tt /\ (exists f, file_at w' (in_dir d n) = Some f /\ f_data f = data)
  /\ (forall q, q <> in_dir d n -> q <> in_dir d (n +:+ ".tmp") -> file_at w' q = file_at w q)
  /\ fs_dirs (w_fs w') = fs_dirs (w_fs w) /\ w_cache w' = w_cache w.
Proof.
  intros Hd Hn Ht. unfold atomicWriteJSON, os_call. rewrite path_add_in_dir.
  set (p := in_dir d n) in *. set (t := in_dir d (n +:+ ".tmp")) in *. cbn [pbind exec].
  assert (Hw : exists w1, do_call env (WriteFile t data) w = (Ok tt, w1)
     /\ (forall q, file_at w1 q = if bool_decide (t = q) then Some (File data (w_now w)) else file_at w q)
     /\ fs_dirs (w_fs w1) = fs_dirs (w_fs w) /\ w_cache w1 = w_cache w).
  { eexists. unfold do_call. cbn [perform]. unfold fs_write. rewrite cannot_make_none.
    2:{ split; [by unfold t; rewrite parent_in_dir|done]. }
    split; [reflexivity|]. split; [|done]. intros q. apply lookup_set_file. }
  destruct Hw as (w1 & -> & Hf1 & Hd1 & Hc1). cbn [exec].
  assert (Hm : makeable w1 p).
  { split; rewrite Hd1; [by unfold p; rewrite parent_in_dir|done]. }
  pose proof (do_rename t p (File data (w_now w)) w1) as Hr.
  rewrite Hf1, bool_decide_true in Hr by done. destruct (Hr eq_refl Hm) as (Hr1 & Hr2 & Hr3 & Hr4).
  destruct (do_call env (Rename t p) w1) as [r w2]. cbn [fst snd] in *. subst r. cbn [exec].
  split; [done|]. split; [|split; [|split; congruence]].
  - exists (File data (w_now w)). by rewrite Hr2, bool_decide_true.
  - intros q Hq1 Hq2. by rewrite Hr2, Hf1, !bool_decide_false by congruence.
Qed.

Lemma meta_name_free P u w s : coherent_on P u w -> lacks "/" s = true ->
  in_dir (sessionsDir u) (s +:+ ".meta.json") ∉ fs_dirs (w_fs w)
  /\ in_dir (sessionsDir u) ((s +:+ ".meta.json") +:+ ".tmp") ∉ fs_dirs (w_fs w).
Proof.
  intros Hw _. split; intros Hin; apply (co_dirs _ _ _ Hw) in Hin;
    apply (f_equal last_byte) in Hin; rewrite last_byte_app in Hin; discriminate Hin.
Qed.

Lemma meta_index_ne u s : lacks "/" s = true -> metaPath u s <> indexPath u.
Proof.
  intros Hs. rewrite meta_eq, index_eq by done. intros [_ He]%in_dir_inj.
  apply (f_equal (fun x => has_suffix x ".meta.json")) in He. rewrite has_suffix_app in He. discriminate He.
Qed.

Lemma meta_inj u s s' : lacks "/" s = true -> lacks "/" s' = true -> metaPath u s = metaPath u s' -> s = s'.
Proof. intros Hs Hs'. rewrite !meta_eq by done. intros [_ He]%in_dir_inj. by apply str_app_inj_r in He. Qed.

Lemma tmp_not_index_file u n : ~ index_file u (in_dir (sessionsDir u) (n +:+ ".tmp")).
Proof.
  intros [He|(s & He)]; [rewrite index_eq in He|];
    apply in_dir_inj in He as [_ He]; apply (f_equal last_byte) in He;
    rewrite ?last_byte_app in He; discriminate He.
Qed.

Lemma meta_id P u w s sess :
  coherent_on P u w -> lacks "/" s = true -> meta_at w u s = Some sess ->
  se_ID sess = s /\ exists f, file_at w (metaPath u s) = Some f /\ f_data f = FMeta sess.
Proof.
  intros Hw Hs. unfold meta_at. destruct (file_at w (metaPath u s)) as [f|] eqn:E; [|done].
  rewrite meta_eq in E by done. destruct (co_meta _ _ _ Hw s f E) as (_ & sess' & Hf & Hid). cbn. rewrite Hf. intros [= <-]. eauto.
Qed.

Lemma meta_at_same u s w w' :
  file_at w' (metaPath u s) = file_at w (metaPath u s) -> meta_at w' u s = meta_at w u s.
Proof. unfold meta_at. by intros ->. Qed.

(** The entries agree with one state of the metadata files, so they agree with
    any other state that differs in sessions outside [P] only. *)
Lemma describes_change P Q u es w w' :
  coherent_on Q u w -> (forall s sess, lacks "/" s = true -> meta_at w' u s = Some sess -> se_ID sess = s) ->
  (forall s, P s -> lacks "/" s = true -> meta_at w' u s = meta_at w u s) ->
  (forall s, P s -> Q s) ->
  describes Q es (meta_at w u) -> describes P es (meta_at w' u).
Proof.
  intros Hw Hid' Hsame Hsub [Hn He]. split; [done|]. intros e HP. rewrite He by auto.
  split; intros (s & sess & Hs & Hm & ->).
  - exists s, sess. split; [done|]. split; [|done]. rewrite Hsame; [done| |done].
    by rewrite <- (proj1 (meta_id _ _ _ _ _ Hw Hs Hm)).
  - exists s, sess. split; [done|]. split; [|done]. rewrite <- Hsame; [done| |done].
    by rewrite <- (Hid' _ _ Hs Hm).
Qed.

(** Writing the metadata of a session: the index is still right for the others. *)
Lemma write_meta u s sess w :
  lacks "/" s = true -> se_ID sess = s -> coherent u w -> sessionsDir u ∈ fs_dirs (w_fs w) ->
  let '(r, w') := exec env (atomicWriteJSON (metaPath u s) (FMeta sess)) w in
  r = Ok tt /\ coherent_on (but s) u w' /\ meta_at w' u s = Some sess
  /\ sessionsDir u ∈ fs_dirs (w_fs w').
Proof.
  intros Hs Hid Hw Hd. destruct (meta_name_free _ _ _ s Hw Hs) as [H1 H2].
  pose proof (json_exec (sessionsDir u) (s +:+ ".meta.json") (FMeta sess) w Hd H1 H2) as Hj.
  rewrite <- meta_eq in Hj by done.
  destruct (exec env _ w) as [r w']. destruct Hj as (Hr & (f & Hf & Hfd) & Hfr & Hdirs & Hcache).
  assert (Hi : file_at w' (indexPath u) = file_at w (indexPath u)).
  { apply Hfr; [apply not_eq_sym, meta_index_ne, Hs|]. intros He. apply (tmp_not_index_file u (s +:+ ".meta.json")).
    rewrite <- He. by left. }
  assert (Hm : forall s', s' <> s -> lacks "/" s' = true -> file_at w' (metaPath u s') = file_at w (metaPath u s')).
  { intros s' Hne Hs'. apply Hfr; [by intros ?%meta_inj|]. intros He.
    apply (tmp_not_index_file u (s +:+ ".meta.json")). rewrite <- He. right. exists s'. by apply meta_eq. }
  assert (Hms : meta_at w' u s = Some sess) by (unfold meta_at; rewrite Hf; cbn; by rewrite Hfd).
  assert (Hco : forall s' f', file_at w' (meta_name u s') = Some f' ->
            lacks "/" s' = true /\ exists sess', f_data f' = FMeta sess' /\ se_ID sess' = s').
  { intros s' f'. destruct (decide (s' = s)) as [->|Hne].
    - unfold meta_name. rewrite <- meta_eq, Hf by done. intros [= <-]. eauto.
    - rewrite Hfr; [apply (co_meta _ _ _ Hw)| |].
      + rewrite meta_eq by done. by intros [_ ?%str_app_inj_r]%in_dir_inj.
      + intros He. apply (tmp_not_index_file u (s +:+ ".meta.json")). rewrite <- He. right. eauto. }
  split; [done|]. split; [|split; [done|by rewrite Hdirs]]. split.
  - rewrite Hdirs. apply (co_dirs _ _ _ Hw).
  - done.
  - intros g. rewrite Hi. intros Hg. destruct (co_index _ _ _ Hw g Hg) as (idx & Hidx & Hdes).
    exists idx. split; [done|]. eapply (describes_change _ every u); [exact Hw| | |done|exact Hdes].
    + intros s' sess' Hs'. unfold meta_at. destruct (file_at w' (metaPath u s')) as [f'|] eqn:E; [|done].
      rewrite meta_eq in E by done. destruct (Hco s' f' E) as (_ & sess2 & Hf2 & Hid2). cbn. rewrite Hf2. by intros [= <-].
    + intros s' Hne Hs'. by apply meta_at_same, Hm.
  - rewrite Hi. intros Hn s' Hne Hs'. rewrite Hm by done. by apply (co_none _ _ _ Hw).
  - intros e. rewrite Hcache. unfold index_at. rewrite Hi. apply (co_cache _ _ _ Hw).
  - intros _ _ _ _. by rewrite Hdirs.
Qed.

(** The cache may hold nothing, or what the file holds. *)
Lemma coherent_cache P u w w' :
  w_fs w' = w_fs w -> (forall e, w_cache w' !! u = Some e -> index_at w u = Some (ic_index e)) ->
  coherent_on P u w -> coherent_on P u w'.
Proof.
  intros Hf Hc [H1 H2 H3 H4 H5 H6]. unfold index_at, meta_at, file_at in *.
  split; unfold index_at, meta_at, file_at in *; rewrite Hf; try done.
Qed.

Lemma refresh_spec P u w :
  coherent_on P u w ->
  exists idx w', exec env (refreshIndexCache u) w = (Ok idx, w') /\ w_fs w' = w_fs w
    /\ coherent_on P u w' /\ describes P (ix_Sessions idx) (meta_at w u).
Proof.
  intros Hw. unfold refreshIndexCache. cbn [exec]. unfold do_call at 1. cbn [perform].
  unfold fs_read. destruct (fs_files (w_fs w) !! indexPath u) as [f|] eqn:E.
  - destruct (co_index _ _ _ Hw f E) as (idx & Hidx & Hd). rewrite Hidx. cbn [as_index exec].
    unfold do_call. cbn [perform exec]. eexists idx, _. split; [reflexivity|]. cbn. split; [done|].
    split; [|done]. apply (coherent_cache P u w); [done| |done]. intros e.
    assert (Hi : index_at w u = Some idx) by (unfold index_at, file_at; rewrite E; cbn; by rewrite Hidx).
    rewrite Hi. cbn. rewrite lookup_insert_eq. by intros [= <-].
  - assert (Hnd : is_dir (w_fs w) (indexPath u) = false).
    { unfold is_dir. apply bool_decide_false. rewrite index_eq. intros Hin.
      by apply (co_dirs _ _ _ Hw) in Hin. }
    rewrite Hnd. cbn [exec]. eexists _, _. split; [reflexivity|]. split; [done|]. split.
    { apply (coherent_cache P u w); [done| |done]. apply (co_cache _ _ _ Hw). }
    cbn. split; [constructor|]. intros e HP. split; [done|]. intros (s & sess & Hs & Hm & ->).
    destruct (meta_id _ _ _ _ _ Hw Hs Hm) as (Hid & g & Hg & _). cbn in HP.
    rewrite Hid in HP. by rewrite (co_none _ _ _ Hw E s HP Hs) in Hg.
Qed.

(** The entries after the update describe all sessions. *)
Lemma describes_put u s sess es w :
  coherent_on (but s) u w -> lacks "/" s = true -> meta_at w u s = Some sess ->
  describes (but s) es (meta_at w u) -> describes every (put_entry (sessionToIndexEntry sess) es) (meta_at w u).
Proof.
  intros Hw Hs Hm [Hn He]. destruct (meta_id _ _ _ _ _ Hw Hs Hm) as [Hid _].
  split; [by apply put_entry_ids|]. intros e _. rewrite put_entry_In by done. cbn [ie_SessionID sessionToIndexEntry].
  rewrite Hid. split.
  - intros [->|[Hin Hne]]; [by exists s, sess|]. by apply He.
  - intros (s' & sess' & Hs' & Hm' & ->). destruct (meta_id _ _ _ _ _ Hw Hs' Hm') as [Hid' _].
    destruct (decide (s' = s)) as [->|Hne]; [left; congruence|]. right. cbn. rewrite Hid'.
    split; [|done]. apply He; [cbn; by rewrite Hid'|by exists s', sess'].
Qed.

(** Writing an index that describes the metadata files makes it coherent. *)
Lemma write_index P u idx w :
  coherent_on P u w -> sessionsDir u ∈ fs_dirs (w_fs w) -> describes every (ix_Sessions idx) (meta_at w u) ->
  let '(r, w') := exec env (atomicWriteJSON (indexPath u) (FIndex idx)) w in
  r = Ok tt /\ coherent u (with_cache w' (delete u (w_cache w'))) /\ index_at w' u = Some idx
  /\ sessionsDir u ∈ fs_dirs (w_fs w').
Proof.
  intros Hw Hd Hdes.
  assert (H1 : in_dir (sessionsDir u) "sessions.json" ∉ fs_dirs (w_fs w)).
  { intros Hin. by apply (co_dirs _ _ _ Hw) in Hin. }
  assert (H2 : in_dir (sessionsDir u) ("sessions.json" +:+ ".tmp") ∉ fs_dirs (w_fs w)).
  { intros Hin. by apply (co_dirs _ _ _ Hw) in Hin. }
  pose proof (json_exec (sessionsDir u) "sessions.json" (FIndex idx) w Hd H1 H2) as Hj.
  rewrite <- index_eq in Hj.
  destruct (exec env _ w) as [r w']. destruct Hj as (Hr & (f & Hf & Hfd) & Hfr & Hdirs & Hcache).
  assert (Hm : forall s, lacks "/" s = true -> file_at w' (metaPath u s) = file_at w (metaPath u s)).
  { intros s Hs. apply Hfr; [by apply meta_index_ne|]. intros He.
    apply (tmp_not_index_file u "sessions.json"). rewrite <- He. right. exists s. by apply meta_eq. }
  assert (Hi : index_at w' u = Some idx) by (unfold index_at; rewrite Hf; cbn; by rewrite Hfd).
  split; [done|]. split; [|split; [done|by rewrite Hdirs]].
  split; cbn [w_fs with_cache w_cache]; unfold file_at; cbn [w_fs with_cache];
    fold (file_at w' (indexPath u)).
  - rewrite Hdirs. apply (co_dirs _ _ _ Hw).
  - intros s g. change (fs_files (w_fs w') !! meta_name u s) with (file_at w' (meta_name u s)).
    rewrite Hfr; [apply (co_meta _ _ _ Hw)| |].
    + rewrite index_eq. intros [_ He]%in_dir_inj.
      apply (f_equal (fun x => has_suffix x ".meta.json")) in He. rewrite has_suffix_app in He. discriminate He.
    + intros He. apply (tmp_not_index_file u "sessions.json"). rewrite <- He. right. eauto.
  - intros g. rewrite Hf. intros [= <-]. exists idx. split; [done|]. destruct Hdes as [Hn He].
    split; [done|]. intros e HP. rewrite He by done.
    split; intros (s & sess & Hs & Hse & ->); exists s, sess; (split; [done|]; split; [|done]);
      rewrite <- Hse; [|symmetry]; by apply (meta_at_same u s w w'), Hm.
  - rewrite Hf. done.
  - intros e. by rewrite lookup_delete_eq.
  - intros _ _ _ _. by rewrite Hdirs.
Qed.

Lemma coherent_put u w idx t :
  coherent u (with_cache w (delete u (w_cache w))) -> index_at w u = Some idx ->
  coherent u (with_cache w (<[u := {| ic_index := idx; ic_expiresAt := t |}]> (w_cache w))).
Proof.
  intros Hw Hi. eapply coherent_cache; [| |exact Hw]; [done|]. cbn. intros e.
  rewrite lookup_insert_eq. intros [= <-]. exact Hi.
Qed.

Lemma coherent_tick P u w : coherent_on P u w -> coherent_on P u (tick env w).
Proof. intros Hw. eapply coherent_same; [| | | |exact Hw]; try done. apply (co_dirs _ _ _ Hw). Qed.

Lemma upsert_spec u s sess w :
  lacks "/" s = true -> coherent_on (but s) u w -> meta_at w u s = Some sess ->
  sessionsDir u ∈ fs_dirs (w_fs w) ->
  exists w', exec env (upsertIndex u sess) w = (Ok tt, w') /\ coherent u w'
    /\ sessionsDir u ∈ fs_dirs (w_fs w').
Proof.
  intros Hs Hw Hm Hd. unfold upsertIndex. cbn [exec]. unfold do_call at 1. cbn [perform].
  set (w1 := tick env (with_cache w (delete u (w_cache w)))).
  assert (Hw1 : coherent_on (but s) u w1).
  { apply coherent_tick. eapply coherent_cache; [| |exact Hw]; [done|]. cbn. intros e.
    by rewrite lookup_delete_eq. }
  rewrite exec_bind. destruct (refresh_spec _ u w1 Hw1) as (idx & w2 & -> & Hf2 & Hw2 & Hdes).
  cbn [fst snd exec]. unfold do_call at 1. cbn [perform].
  set (w3 := tick env w2). assert (Hfs3 : w_fs w3 = w_fs w) by (cbn; rewrite Hf2; done).
  assert (Hw3 : coherent_on (but s) u w3) by by apply coherent_tick.
  assert (Hm3 : meta_at w3 u s = Some sess) by (unfold meta_at, file_at in *; by rewrite Hfs3).
  set (idx' := {| ix_Sessions := put_entry (sessionToIndexEntry sess) (ix_Sessions idx) |}).
  rewrite exec_bind. pose proof (write_index (but s) u idx' w3 Hw3) as Hwr.
  destruct (exec env (atomicWriteJSON (indexPath u) (FIndex idx')) w3) as [r w4].
  destruct Hwr as (-> & Hc4 & Hi4 & Hd4).
  { by rewrite Hfs3. }
  { apply describes_put with s; [done..|]. eapply (describes_change (but s) (but s) u _ w1); [done| | |done|done].
    - intros s' sess' Hs' Hx. by apply (meta_id _ _ _ _ _ Hw3 Hs' Hx).
    - intros s' _ _. apply meta_at_same. unfold file_at. by rewrite Hfs3. }
  cbn [fst snd exec]. unfold do_call. cbn [perform exec]. eexists. split; [reflexivity|]. split; [|done].
  apply coherent_tick. cbn [with_cache w_cache tick].
  pose proof (coherent_put u w4 idx' (w_now w4 + indexCacheTTL) Hc4 Hi4) as Hp.
  eapply coherent_same; [| | | |exact Hp]; [done|apply (co_dirs _ _ _ Hp)|done|done].
Qed.

(** ** Rebuilding from the directory *)

Lemma insert_name_perm x l : insert_name x l ≡ₚ x :: l.
Proof.
  induction l as [|y l IH]; [done|]. cbn [insert_name]. destruct (String.compare x y); [done..|].
  rewrite IH. apply perm_swap.
Qed.

Lemma sort_names_perm l : sort_names l ≡ₚ l.
Proof. induction l as [|x l IH]; [done|]. cbn [sort_names fold_right]. by rewrite insert_name_perm, IH. Qed.

Lemma in_parent p d : parent p = d -> snd p <> [] -> p = in_dir d (base_name p).
Proof. destruct p as [r [|c cs]]; cbn; [done|]. by intros <- _. Qed.

Lemma read_dir_In fs d names :
  fs_read_dir fs d = Ok names ->
  NoDup names /\ forall n, In n names <-> exists f, fs_files fs !! in_dir d n = Some f.
Proof.
  unfold fs_read_dir. destruct (is_dir fs d); [|by destruct (is_file fs d)]. intros [= <-].
  set (kept := List.filter _ _).
  assert (Hk : forall kv, In kv kept <-> fs_files fs !! fst kv = Some (snd kv) /\ parent (fst kv) = d /\ snd (fst kv) <> []).
  { intros [p f]. unfold kept. rewrite filter_In, bool_decide_eq_true, <- list_elem_of_In, elem_of_map_to_list. done. }
  split.
  - rewrite sort_names_perm. assert (Hkeys : NoDup (map fst kept)).
    { unfold kept. apply NoDup_map_filter. apply NoDup_fst_map_to_list. }
    assert (Hb : map fst kept = map (in_dir d) (map (fun kv => base_name (fst kv)) kept)).
    { rewrite map_map. apply map_ext_in. intros kv (_ & Hp & Hn)%Hk. by apply in_parent. }
    rewrite Hb in Hkeys. by apply NoDup_fmap_1 in Hkeys.
  - intros n. rewrite <- list_elem_of_In, sort_names_perm, list_elem_of_In, in_map_iff. split.
    + intros ([p f] & <- & (Hf & Hp & Hn)%Hk). exists f. cbn [fst] in *. by rewrite <- (in_parent p d).
    + intros [f Hf]. exists (in_dir d n, f). split; [done|]. apply Hk. cbn [fst snd].
      split; [done|]. split; [apply parent_in_dir|]. by destruct d.
Qed.

(** What [scan_metas] collects, from a fixed file system. *)
Definition meta_entries (fs : FS) (d : path) (names : list string) : list sessionIndexEntry :=
  omap (fun n => if has_suffix n ".meta.json" then
                   match fs_read fs (Join d n) with
                   | Ok (FMeta sess) => Some (sessionToIndexEntry sess)
                   | _ => None
                   end
                 else None) names.

Lemma scan_metas_spec d names w :
  exists w', exec env (scan_metas d names) w = (meta_entries (w_fs w) d names, w')
    /\ w_fs w' = w_fs w /\ w_cache w' = w_cache w.
Proof.
  revert w. induction names as [|n names IH]; intros w; [by exists w|].
  cbn [scan_metas meta_entries omap list_omap]. destruct (has_suffix n ".meta.json"); cbn [negb]; [|apply IH].
  cbn [exec]. unfold do_call at 1. cbn [perform]. rewrite exec_bind.
  destruct (IH (tick env w)) as (w' & -> & Hf & Hc). cbn [fst snd exec]. exists w'.
  split; [|done]. f_equal. cbn. by destruct (fs_read (w_fs w) (Join d n)) as [[]|].
Qed.

Lemma has_suffix_inv s suf : has_suffix s suf = true -> exists a, s = a +:+ suf.
Proof.
  induction s as [|c s IH]; cbn [has_suffix].
  - rewrite orb_false_r, String.eqb_eq. intros <-. by exists "".
  - intros [->%String.eqb_eq|H']%orb_true_iff; [by exists ""|]. destruct (IH H') as [a ->]. by exists (String c a).
Qed.

(** In a directory whose metadata files are well named, the entries collected
    are those of all sessions. *)
Lemma meta_entries_describe P u w names :
  coherent_on P u w -> fs_read_dir (w_fs w) (sessionsDir u) = Ok names ->
  describes every (meta_entries (w_fs w) (sessionsDir u) names) (meta_at w u).
Proof.
  intros Hw Hn. destruct (read_dir_In _ _ _ Hn) as [Hnd Hin].
  assert (Hread : forall s f, file_at w (meta_name u s) = Some f ->
     exists sess, fs_read (w_fs w) (Join (sessionsDir u) (s +:+ ".meta.json")) = Ok (FMeta sess)
                  /\ se_ID sess = s /\ lacks "/" s = true /\ meta_at w u s = Some sess).
  { intros s f Hf. destruct (co_meta _ _ _ Hw s f Hf) as (Hs & sess & Hfd & Hid). exists sess.
    change (Join (sessionsDir u) (s +:+ ".meta.json")) with (metaPath u s).
    unfold meta_at. rewrite meta_eq by done. fold (meta_name u s). rewrite Hf.
    unfold fs_read. unfold file_at in Hf. rewrite Hf. cbn. by rewrite Hfd. }
  assert (Hentry : forall e, In e (meta_entries (w_fs w) (sessionsDir u) names) <->
     exists s sess, In (s +:+ ".meta.json") names /\ lacks "/" s = true /\ meta_at w u s = Some sess
                    /\ e = sessionToIndexEntry sess).
  { intros e. unfold meta_entries. rewrite <- list_elem_of_In, list_elem_of_omap. split.
    - intros (n & Hel & He). destruct (has_suffix n ".meta.json") eqn:E; [|done].
      apply has_suffix_inv in E as [s ->]. apply list_elem_of_In in Hel. pose proof Hel as [f Hf]%Hin.
      destruct (Hread s f Hf) as (sess & Hr & _ & Hs & Hm). rewrite Hr in He. injection He as <-. eauto 6.
    - intros (s & sess & Hel & Hs & Hm & ->). exists (s +:+ ".meta.json").
      split; [by apply list_elem_of_In|]. rewrite has_suffix_app. pose proof Hel as [f Hf]%Hin.
      destruct (Hread s f Hf) as (sess' & Hr & _ & _ & Hm'). rewrite Hr. congruence. }
  split.
  - apply NoDup_map_omap; [done|]. intros n1 n2 e1 e2 H1 H2 He1 He2 Hid.
    destruct (has_suffix n1 ".meta.json") eqn:E1; [|done]. destruct (has_suffix n2 ".meta.json") eqn:E2; [|done].
    apply has_suffix_inv in E1 as [s1 ->], E2 as [s2 ->].
    apply Hin in H1 as [f1 H1], H2 as [f2 H2].
    destruct (Hread s1 f1 H1) as (sess1 & Hr1 & Hi1 & _), (Hread s2 f2 H2) as (sess2 & Hr2 & Hi2 & _).
    rewrite Hr1 in He1. rewrite Hr2 in He2. injection He1 as <-. injection He2 as <-. cbn in Hid. congruence.
  - intros e _. rewrite Hentry. split.
    + intros (s & sess & _ & Hs & Hm & He). by exists s, sess.
    + intros (s & sess & Hs & Hm & He). exists s, sess. split; [|done].
      destruct (meta_id _ _ _ _ _ Hw Hs Hm) as (_ & f & Hf & _). apply Hin. exists f.
      by rewrite meta_eq in Hf.
Qed.

(** [UpdateIndex] makes the index coherent, whatever it was. *)
Lemma rebuild_spec P u w :
  coherent_on P u w -> sessionsDir u ∈ fs_dirs (w_fs w) ->
  exists w', exec env (rebuildIndex u) w = (Ok tt, w') /\ coherent u w'.
Proof.
  intros Hw Hd. unfold rebuildIndex. cbn [exec]. unfold do_call at 1. cbn [perform].
  set (w1 := tick env (with_cache w (delete u (w_cache w)))).
  assert (Hw1 : coherent_on P u w1).
  { apply coherent_tick. eapply coherent_cache; [| |exact Hw]; [done|]. cbn. intros e.
    by rewrite lookup_delete_eq. }
  cbn [exec]. unfold do_call at 1. cbn [perform].
  destruct (fs_read_dir (w_fs w1) (sessionsDir u)) as [names|e] eqn:En.
  2:{ unfold fs_read_dir, is_dir in En. rewrite bool_decide_true in En by done. done. }
  cbn [exec]. unfold do_call at 1. cbn [perform]. rewrite exec_bind.
  set (w3 := tick env (tick env w1)).
  destruct (scan_metas_spec (sessionsDir u) names w3) as (w4 & -> & Hf4 & Hc4). cbn [fst snd].
  assert (Hw4 : coherent_on P u w4).
  { apply (coherent_cache P u w1); [exact Hf4| |done]. rewrite Hc4. apply (co_cache _ _ _ Hw1). }
  set (idx := {| ix_UserID := u |}). rewrite exec_bind.
  pose proof (write_index P u idx w4 Hw4) as Hwr.
  destruct (exec env (atomicWriteJSON (indexPath u) (FIndex idx)) w4) as [r w5] eqn:Ej.
  destruct Hwr as (-> & Hc5 & Hi5 & Hd5).
  { by rewrite Hf4. }
  { cbn [ix_Sessions idx]. replace (w_fs w3) with (w_fs w4) by done.
    apply (meta_entries_describe P); [done|]. by rewrite Hf4. }
  cbn [fst snd exec]. eexists. split; [reflexivity|]. eapply coherent_cache; [| |exact Hc5]; [done|].
  intros e He. exfalso. pose proof (exec_cache (atomicWriteJSON (indexPath u) (FIndex idx)) w4 (on_files_json _ _)) as Hx.
  rewrite Ej in Hx. cbn [snd] in Hx. rewrite Hx, Hc4 in He. cbn in He. by rewrite lookup_delete_eq in He.
Qed.
End env.

(** ** Programs that leave the index of [u] alone *)

Lemma index_file_in_dir u v n :
  is_name u = true -> is_name v = true -> index_file u (in_dir (sessionsDir v) n) ->
  u = v /\ (n = "sessions.json" \/ exists s, n = s +:+ ".meta.json").
Proof.
  intros Hu Hv [He|(s & He)]; [rewrite index_eq in He|];
    apply in_dir_inj in He as [Hd Hn]; (split; [by apply sessions_dir_inj|]); eauto.
Qed.

Lemma not_index_tail u v n c x :
  is_name u = true -> is_name v = true -> last_byte (String c x) <> Some "n"%char ->
  ~ index_file u (in_dir (sessionsDir v) (n +:+ String c x)).
Proof.
  intros Hu Hv Hl Hi. apply index_file_in_dir in Hi as [_ [He|[s He]]]; [| |done..];
    apply (f_equal last_byte) in He; rewrite ?last_byte_app in He; rewrite He in Hl; by apply Hl.
Qed.

Lemma not_index_archive u v n : is_name u = true -> is_name v = true ->
  ~ index_file u (in_dir (archiveDir v) n).
Proof.
  intros Hu Hv. rewrite archive_eq.
  intros [He|(s & He)]; [rewrite index_eq in He|];
    apply in_dir_inj in He as [Hd _]; apply (f_equal (fun p => length (snd p))) in Hd;
    rewrite !sessions_dir_eq in Hd by done; unfold in_dir in Hd; cbn in Hd; lia.
Qed.

Lemma not_index_transcript u v s : is_name u = true -> is_name v = true -> lacks "/" s = true ->
  ~ index_file u (transcriptPath v s).
Proof. intros Hu Hv Hs. rewrite transcript_eq by done. by apply not_index_tail. Qed.

Lemma not_index_lock u v s q : is_name u = true -> is_name v = true -> lacks "/" s = true ->
  lock_files (lockPath v s) q -> ~ index_file u q.
Proof.
  intros Hu Hv Hs (x & -> & [->|[rnd ->]])%lock_file_eq; [| |done].
  - rewrite str_app_nil_r. by apply not_index_tail.
  - rewrite <- str_app_assoc. rewrite <- (str_app_assoc _ "." (rnd +:+ ".tmp")), <- str_app_assoc.
    by apply not_index_tail.
Qed.

Lemma keeps_files u (S : path -> Prop) {A} (m : prog A) :
  (forall q, S q -> ~ index_file u q) -> writes S m -> on_files m -> keeps u m.
Proof.
  intros HS. induction m as [a|X c k IH]; [done|]. intros [Hc Hk] [Hf Hr]. split; [|auto].
  destruct c; cbn in *; naive_solver.
Qed.

Lemma on_files_lock_loop fuel tmp p ctx deadline delay : on_files (lock_loop fuel tmp p ctx deadline delay).
Proof.
  revert delay. induction fuel as [|fuel IH]; intros delay; [done|].
  split; [done|]. intros [[]|[]]; try done.
  apply on_files_bind; [apply on_files_reads, stale_reads|]. intros [].
  - split; [done|]. intros _. apply IH.
  - split; [done|]. intros now. destruct (time_after now deadline); [done|].
    split; [done|]. intros []; [done|]. split; [done|]. intros _. apply IH.
Qed.

Lemma on_files_lock v s ctx : on_files (lock_session v s ctx).
Proof.
  split; [done|]. intros rnd. split; [done|]. intros now. split; [done|].
  intros [[]|e]; [|done]. split; [done|]. intros now'.
  apply on_files_bind; [apply on_files_lock_loop|]. by repeat split.
Qed.

Section users.
Variables u v : string.
Hypothesis Hu : is_name u = true.
Hypothesis Hv : is_name v = true.

Lemma keeps_lock s ctx : lacks "/" s = true -> keeps u (lock_session v s ctx).
Proof.
  intros Hs. apply (keeps_files u (lock_files (lockPath v s)));
    [intros q; by apply not_index_lock|apply writes_lock|apply on_files_lock].
Qed.

Lemma keeps_unlock s : lacks "/" s = true -> keeps u (unlock_session v s).
Proof.
  intros Hs. apply (keeps_files u (lock_files (lockPath v s)));
    [intros q; by apply not_index_lock|apply writes_unlock|by repeat split].
Qed.

Lemma keeps_append key kp l :
  ParseSessionKey key = Ok kp -> kp_user kp = v -> lacks "/" (kp_session kp) = true ->
  keeps u (AppendTranscript key l).
Proof.
  intros Hk Hkv Hs. unfold AppendTranscript. rewrite Hk, Hkv.
  apply keeps_bind; [by apply keeps_lock|]. intros [[]|e]; [|done].
  split; [by apply not_index_transcript|]. intros r. apply keeps_bind; [by apply keeps_unlock|done].
Qed.

Lemma on_files_lines p lines : on_files (write_lines p lines).
Proof. induction lines as [|l lines IH]; [done|]. split; [done|]. by intros [|]. Qed.

Lemma keeps_compaction_archive s lines :
  lacks "/" s = true -> keeps u (writeCompactionArchive v s lines).
Proof.
  intros Hs. apply keeps_bind; [split; [exists v; by split; [|right]|done]|]. intros [[]|e]; [|done].
  split; [done|]. intros ts. rewrite compact_path by done.
  apply keeps_bind; [split; [by apply not_index_archive|done]|]. intros [[]|e]; [|done].
  apply keeps_bind; [|done]. apply (keeps_files u _ _) with (2 := writes_lines _ _); [|apply on_files_lines].
  intros q ->. by apply not_index_archive.
Qed.

Lemma keeps_rewrite ctx s lines : lacks "/" s = true -> keeps u (rewriteTranscript ctx v s lines).
Proof.
  intros Hs. unfold rewriteTranscript. rewrite (transcript_eq v s Hs), path_add_in_dir.
  set (tmp := in_dir (sessionsDir v) ((s +:+ ".jsonl") +:+ ".compact.tmp")).
  assert (Ht : ~ index_file u tmp) by (by apply not_index_tail).
  assert (Hrm : forall (B : Type) (r : B), keeps u (call_! Remove tmp; Ret r)) by (intros; by repeat split).
  apply keeps_bind; [by repeat split|]. intros [[]|e]; [|done].
  apply keeps_bind.
  { apply (keeps_files u _ _) with (2 := writes_lines _ _); [|apply on_files_lines]. by intros q ->. }
  intros [[]|e]; [|apply Hrm]. apply keeps_bind; [by apply keeps_lock|]. intros [[]|e]; [|apply Hrm].
  split; [split; [done|]; rewrite <- transcript_eq by done; by apply not_index_transcript|].
  intros [[]|e].
  - apply keeps_bind; [by apply keeps_unlock|done].
  - split; [done|]. intros _. apply keeps_bind; [by apply keeps_unlock|done].
Qed.

(** What concerns another user's index. *)
Hypothesis Hne : v <> u.

Lemma not_index_other n : ~ index_file u (in_dir (sessionsDir v) n).
Proof. intros Hi. by apply index_file_in_dir in Hi as [-> _]. Qed.

Lemma keeps_json_other n d : keeps u (atomicWriteJSON (in_dir (sessionsDir v) n) d).
Proof.
  apply (keeps_files u _ _) with (2 := writes_json _ _); [|apply on_files_json].
  rewrite path_add_in_dir. intros q [->| ->]; apply not_index_other.
Qed.

Lemma keeps_refresh_other : keeps u (refreshIndexCache v).
Proof.
  split; [done|]. intros [d|[]]; try done. destruct (as_index d); [|done]. by repeat split.
Qed.

Lemma keeps_upsert_other sess : keeps u (upsertIndex v sess).
Proof.
  split; [done|]. intros _. apply keeps_bind; [apply keeps_refresh_other|]. intros [idx|e]; [|done].
  split; [done|]. intros now. apply keeps_bind; [rewrite index_eq; apply keeps_json_other|].
  intros [[]|e]; [|done]. by repeat split.
Qed.

Lemma keeps_update_meta_other key kp meta :
  ParseSessionKey key = Ok kp -> kp_user kp = v -> lacks "/" (kp_session kp) = true ->
  keeps u (UpdateMeta key meta).
Proof.
  intros Hk Hkv Hs. unfold UpdateMeta. rewrite Hk, Hkv. split; [done|]. intros [d|[]]; try done.
  destruct (as_session d); [|done]. split; [done|]. intros now.
  apply keeps_bind; [rewrite meta_eq by done; apply keeps_json_other|]. intros [[]|e]; [|done].
  apply keeps_bind; [apply keeps_upsert_other|done].
Qed.

Lemma keeps_archive_meta_other s : lacks "/" s = true -> keeps u (archive_meta v s).
Proof.
  intros Hs. split; [done|]. intros [d|[]]; try done. destruct (as_session d); [|done].
  split; [done|]. intros now.
  apply keeps_bind; [rewrite meta_eq by done; apply keeps_json_other|]. intros r.
  apply keeps_bind; [apply keeps_upsert_other|done].
Qed.

Lemma keeps_scan d names : keeps u (scan_metas d names).
Proof.
  induction names as [|n names IH]; [done|]. cbn [scan_metas].
  destruct (negb _); [done|]. split; [done|]. intros r. apply keeps_bind; [done|done].
Qed.

Lemma keeps_rebuild_other : keeps u (rebuildIndex v).
Proof.
  split; [done|]. intros _. split; [done|]. intros [names|[]]; try done. split; [done|]. intros now.
  apply keeps_bind; [apply keeps_scan|]. intros es.
  apply keeps_bind; [rewrite index_eq; apply keeps_json_other|]. by intros [[]|e].
Qed.
End users.
End index.

(** * Every operation *)

Abbreviation coherent := (coherent_on every).

Section index.
Context `{StoreConfig}.

(** ** Operations *)
Section operations.
Variable env : Env.
Hypothesis uuid_plain : forall n, lacks "/" (env_uuid env n) = true.
Variable u : string.
Hypothesis Hu : is_name u = true.

(** Programs that take a coherent index to a coherent index. *)
Definition preserves {A} (m : prog A) : Prop :=
  forall w, coherent u w -> coherent u (snd (exec env m w)).

Lemma preserves_keeps {A} (m : prog A) : keeps u m -> preserves m.
Proof. intros Hm w. by apply exec_keeps. Qed.

Lemma preserves_reads {A} (m : prog A) : only_reads m -> preserves m.
Proof. intros Hm. by apply preserves_keeps, keeps_reads. Qed.

Lemma preserves_bind {A B} (m : prog A) (f : A -> prog B) :
  preserves m -> (forall a, preserves (f a)) -> preserves (pbind m f).
Proof. intros Hm Hf w Hw. rewrite exec_bind. apply Hf, Hm, Hw. Qed.

Lemma preserves_ret {A} (a : A) : preserves (Ret a).
Proof. by intros w. Qed.

Lemma preserves_call {A X} (c : call X) (k : X -> prog A) :
  call_keeps u c -> (forall x, preserves (k x)) -> preserves (Step c k).
Proof.
  intros Hc Hk. apply (preserves_bind (call! x <- c; Ret x)); [|done].
  apply preserves_keeps. by split.
Qed.

(** Metadata and index entry of a session, written one after the other. *)
Lemma put_session s sess w :
  lacks "/" s = true -> se_ID sess = s -> coherent u w -> sessionsDir u ∈ fs_dirs (w_fs w) ->
  exists w1 w2, exec env (atomicWriteJSON (metaPath u s) (FMeta sess)) w = (Ok tt, w1)
    /\ exec env (upsertIndex u sess) w1 = (Ok tt, w2) /\ coherent u w2.
Proof.
  intros Hs Hid Hw Hd. pose proof (write_meta env u s sess w Hs Hid Hw Hd) as Hm.
  destruct (exec env (atomicWriteJSON _ _) w) as [r w1]. destruct Hm as (-> & H1 & H2 & H3).
  destruct (upsert_spec env u s sess w1 Hs H1 H2 H3) as (w2 & He & Hw2 & _). eauto.
Qed.

(** Reading the metadata of a session of [u]. *)
Lemma read_meta s w d :
  lacks "/" s = true -> coherent u w -> fst (do_call env (ReadFile (metaPath u s)) w) = Ok d ->
  exists sess, d = FMeta sess /\ se_ID sess = s /\ sessionsDir u ∈ fs_dirs (w_fs w).
Proof.
  intros Hs Hw. cbn. unfold fs_read. destruct (fs_files (w_fs w) !! metaPath u s) as [f|] eqn:E.
  2:{ by destruct (is_dir _ _). }
  intros [= <-]. rewrite meta_eq in E by done. destruct (co_meta _ _ _ Hw s f E) as (_ & sess & Hf & Hid).
  exists sess. split; [done|]. split; [done|]. apply (co_home _ _ _ Hw (meta_name u s) f); [right; eauto|exact E].
Qed.

Lemma preserves_update_meta key kp meta :
  ParseSessionKey key = Ok kp -> is_name (kp_user kp) = true -> lacks "/" (kp_session kp) = true ->
  preserves (UpdateMeta key meta).
Proof.
  intros Hk Hv Hs. destruct (decide (kp_user kp = u)) as [Heq|Hne].
  2:{ apply preserves_keeps. by apply (keeps_update_meta_other u (kp_user kp) Hu Hv Hne key kp). }
  intros w Hw. unfold UpdateMeta. rewrite Hk, Heq. cbn [exec].
  pose proof (read_meta (kp_session kp) w) as Hr.
  pose proof (do_call_keeps env every u (ReadFile (metaPath u (kp_session kp))) w Hu I Hw) as Hw1.
  assert (Hf1 : w_fs (snd (do_call env (ReadFile (metaPath u (kp_session kp))) w)) = w_fs w) by done.
  destruct (do_call env (ReadFile _) w) as [[d|e] w1]; cbn [fst snd] in *; [|by destruct e].
  destruct (Hr d Hs Hw eq_refl) as (sess & -> & Hid & Hd). cbn [as_session exec].
  destruct (put_session (kp_session kp) (with_meta sess meta (fst (do_call env Now w1)))
              (snd (do_call env Now w1)) Hs Hid) as (w2 & w3 & E1 & E2 & Hw3).
  { by apply (do_call_keeps env every u Now). }
  { cbn. by rewrite Hf1. }
  destruct (do_call env Now w1) as [now w1']. cbn [fst snd] in *.
  rewrite exec_bind, E1. cbn [fst snd]. rewrite exec_bind, E2. done.
Qed.

Lemma preserves_archive_meta v s : is_name v = true -> lacks "/" s = true -> preserves (archive_meta v s).
Proof.
  intros Hv Hs. destruct (decide (v = u)) as [->|Hne].
  2:{ apply preserves_keeps. by apply keeps_archive_meta_other. }
  intros w Hw. unfold archive_meta. cbn [exec]. pose proof (read_meta s w) as Hr.
  pose proof (do_call_keeps env every u (ReadFile (metaPath u s)) w Hu I Hw) as Hw1.
  assert (Hf1 : w_fs (snd (do_call env (ReadFile (metaPath u s)) w)) = w_fs w) by done.
  destruct (do_call env (ReadFile _) w) as [[d|e] w1]; cbn [fst snd] in *; [|by destruct e].
  destruct (Hr d Hs Hw eq_refl) as (sess & -> & Hid & Hd). cbn [as_session exec].
  destruct (put_session s (with_status sess StatusArchived (fst (do_call env Now w1)))
              (snd (do_call env Now w1)) Hs Hid) as (w2 & w3 & E1 & E2 & Hw3).
  { by apply (do_call_keeps env every u Now). }
  { cbn. by rewrite Hf1. }
  destruct (do_call env Now w1) as [now w1']. cbn [fst snd] in *.
  rewrite exec_bind, E1. cbn [fst snd]. rewrite exec_bind, E2. done.
Qed.

Lemma archive_path v s ts :
  lacks "/" s = true -> Join (archiveDir v) (archive_name s ts) = in_dir (archiveDir v) (archive_name s ts).
Proof.
  intros Hs. apply Join_name. unfold archive_name. apply file_name; [done| |].
  - rewrite !lacks_app, format_stamp_no_slash. done.
  - rewrite !str_app_length. cbn. lia.
Qed.

Lemma preserves_archive ctx key kp :
  ParseSessionKey key = Ok kp -> is_name (kp_user kp) = true -> lacks "/" (kp_session kp) = true ->
  preserves (ArchiveSession ctx key).
Proof.
  intros Hk Hv Hs. unfold ArchiveSession. rewrite Hk. destruct kp as [v c s]. cbn [kp_user kp_session] in *.
  apply preserves_bind; [by apply preserves_keeps, keeps_lock|]. intros [[]|e]; [|apply preserves_ret].
  apply preserves_bind.
  - unfold archive_locked. apply preserves_call; [done|]. intros ts.
    apply preserves_bind; [apply preserves_keeps; split; [exists v; by split; [|right]|done]|].
    intros [[]|e]; [|apply preserves_ret]. rewrite archive_path by done. apply preserves_call.
    + split; [by apply not_index_transcript|by apply not_index_archive].
    + intros [[]|[]]; try apply preserves_ret; by apply preserves_archive_meta.
  - intros r. apply preserves_bind; [by apply preserves_keeps, keeps_unlock|]. intros _. apply preserves_ret.
Qed.

(** A directory that was made is there. *)
Lemma mkdir_ok p w w1 :
  exec env (os_call (MkdirAll p)) w = (Ok tt, w1) -> p ∈ fs_dirs (w_fs w1).
Proof.
  unfold os_call. cbn [exec]. unfold do_call. cbn [perform]. unfold fs_mkdir_all.
  destruct (existsb _ _); cbn; [done|]. intros [= <-]. cbn. apply elem_of_union. right.
  destruct p as [r [|c cs]]; cbn; set_solver.
Qed.

Lemma mkdir_session v p w :
  is_name v = true -> p = sessionsDir v \/ p = archiveDir v -> coherent u w ->
  coherent u (snd (exec env (os_call (MkdirAll p)) w)).
Proof. intros Hv Hp. apply preserves_keeps. split; [exists v; by split|done]. Qed.

(** The transcript of a new session can be made, or is there already. *)
Lemma create_transcript P s w :
  coherent_on P u w -> lacks "/" s = true -> sessionsDir u ∈ fs_dirs (w_fs w) ->
  fst (do_call env (CreateFile (transcriptPath u s) (FLines [])) w) = Ok tt
  \/ fst (do_call env (CreateFile (transcriptPath u s) (FLines [])) w) = Err ErrExist.
Proof.
  intros Hw Hs Hd. unfold do_call. cbn [perform]. unfold fs_create.
  destruct (is_file _ _ || is_dir _ _) eqn:E; [by right|]. apply orb_false_iff in E as [_ E].
  unfold fs_write, cannot_make, is_dir in *. rewrite E, transcript_eq, parent_in_dir by done.
  rewrite bool_decide_true by done. by left.
Qed.

Lemma preserves_create_with req s :
  is_name (cr_UserID req) = true -> lacks "/" s = true -> preserves (create_with req s).
Proof.
  intros Hv Hs w Hw. unfold create_with. rewrite exec_bind.
  pose proof (mkdir_session _ _ w Hv (or_introl eq_refl) Hw) as Hw1.
  pose proof (mkdir_ok (sessionsDir (cr_UserID req)) w) as Hd1.
  destruct (exec env (os_call _) w) as [[[]|e] w1]; cbn [fst snd] in *; [|done].
  specialize (Hd1 w1 eq_refl). rewrite exec_bind.
  pose proof (mkdir_session _ _ w1 Hv (or_intror eq_refl) Hw1) as Hw2.
  pose proof (exec_dirs env (os_call (MkdirAll (archiveDir (cr_UserID req)))) w1) as Hsub.
  destruct (exec env (os_call _) w1) as [[[]|e] w2]; cbn [fst snd] in *; [|done].
  assert (Hd2 : sessionsDir (cr_UserID req) ∈ fs_dirs (w_fs w2)) by set_solver. clear Hsub Hd1 Hw1.
  cbn [exec]. pose proof (do_call_keeps env every u Now w2 Hu I Hw2) as Hw3.
  assert (Hd3 : sessionsDir (cr_UserID req) ∈ fs_dirs (w_fs (snd (do_call env Now w2)))) by done.
  destruct (do_call env Now w2) as [now w3]. cbn [fst snd] in *. set (sess := Build_Session _ _ _ _ _ _ _ _).
  destruct (decide (cr_UserID req = u)) as [Heq|Hne].
  2:{ apply (exec_keeps env every u); [done| |done]. apply keeps_bind.
      - rewrite meta_eq by done. by apply keeps_json_other.
      - intros [[]|e]; [|done]. split; [by apply not_index_transcript|].
        intros [[]|[]]; try done; (apply keeps_bind; [by apply keeps_upsert_other|by intros [[]|e]]). }
  rewrite Heq in *. rewrite exec_bind. pose proof (write_meta env u s sess w3 Hs eq_refl Hw3 Hd3) as Hm.
  destruct (exec env (atomicWriteJSON _ _) w3) as [r w4]. destruct Hm as (-> & H1 & H2 & H3). cbn [fst snd exec].
  pose proof (create_transcript _ s w4 H1 Hs H3) as Hc.
  assert (Hk : call_keeps u (CreateFile (transcriptPath u s) (FLines []))) by by apply not_index_transcript.
  pose proof (do_call_keeps env _ u _ w4 Hu Hk H1) as Hw5.
  assert (Hm5 : meta_at (snd (do_call env (CreateFile (transcriptPath u s) (FLines [])) w4)) u s = Some sess).
  { rewrite <- H2. apply meta_at_same. apply (call_keeps_file env u); [done|]. right. exists s. by apply meta_eq. }
  pose proof (do_call_dirs env (CreateFile (transcriptPath u s) (FLines [])) w4 _ H3) as Hd5.
  destruct (do_call env (CreateFile _ _) w4) as [r w5]. cbn [fst snd] in *.
  destruct (upsert_spec env u s sess w5 Hs Hw5 Hm5 Hd5) as (w6 & E6 & Hw6 & _).
  destruct Hc as [-> | ->]; rewrite exec_bind, E6; done.
Qed.

Lemma preserves_create req :
  (cr_UserID req = "" \/ is_name (cr_UserID req) = true) -> lacks "/" (cr_SessionID req) = true ->
  preserves (CreateSession req).
Proof.
  intros Hv Hs. unfold CreateSession. destruct (String.eqb_spec (cr_UserID req) "") as [He|He]; [apply preserves_ret|].
  destruct Hv as [?|Hv]; [done|]. destruct (cr_SessionID req =? "")%string; [|by apply preserves_create_with].
  intros w Hw. cbn [exec]. pose proof (do_call_keeps env every u NewUUID w Hu I Hw) as Hw1.
  assert (Hx : fst (do_call env NewUUID w) = env_uuid env (w_calls w)) by done.
  destruct (do_call env NewUUID w) as [x w1]. cbn [fst snd] in *. subst x.
  by apply preserves_create_with.
Qed.

(** A key whose user and session are file names. *)
Definition plain_key (key : string) : Prop :=
  forall kp, ParseSessionKey key = Ok kp -> is_name (kp_user kp) = true /\ lacks "/" (kp_session kp) = true.

Lemma preserves_reset ctx key : plain_key key -> preserves (ResetSession ctx key).
Proof.
  intros Hp. unfold ResetSession. destruct (ParseSessionKey key) as [kp|e] eqn:Hk; [|apply preserves_ret].
  destruct (Hp kp Hk) as [Hv Hs].
  assert (Hgo : forall old : CreateSessionRequest, cr_UserID old = kp_user kp -> cr_SessionID old = "" ->
    preserves (try! _ <- ArchiveSession ctx key else "ResetSession: archive";
               try! newSess <- CreateSession old else "ResetSession: create new session";
               Ret (Ok (se_Key newSess)))).
  { intros old H1 H2. apply preserves_bind; [by apply (preserves_archive ctx key kp)|].
    intros [[]|e]; [|apply preserves_ret]. apply preserves_bind.
    - apply preserves_create; [right; by rewrite H1|by rewrite H2].
    - intros [x|e]; apply preserves_ret. }
  apply preserves_bind; [apply preserves_reads, get_reads|]. intros [old|e]; [by apply Hgo|].
  destruct (is_not_found e); [by apply Hgo|apply preserves_ret].
Qed.

Lemma preserves_compact ctx key n : plain_key key -> preserves (Compact ctx key n).
Proof.
  intros Hp. unfold Compact. destruct (n <? 1); [apply preserves_ret|].
  apply preserves_bind; [apply preserves_reads, load_reads|]. intros [lines|e]; [|apply preserves_ret].
  destruct (zlen lines <=? n); [apply preserves_ret|].
  destruct (ParseSessionKey key) as [kp|e] eqn:Hk; [|apply preserves_ret]. destruct (Hp kp Hk) as [Hv Hs].
  apply preserves_bind; [by apply preserves_keeps, keeps_compaction_archive|].
  intros [[]|e]; [|apply preserves_ret]. apply preserves_bind; [by apply preserves_keeps, keeps_rewrite|].
  intros [[]|e]; [|apply preserves_ret]. apply preserves_bind; [apply preserves_reads, get_reads|].
  intros [sess|e]; [|apply preserves_ret].
  apply preserves_bind; [by apply (preserves_update_meta key kp)|]. intros [[]|e]; apply preserves_ret.
Qed.

Lemma preserves_rebuild v : is_name v = true -> preserves (UpdateIndex v).
Proof.
  intros Hv. destruct (decide (v = u)) as [->|Hne]; [|apply preserves_keeps; by apply keeps_rebuild_other].
  intros w Hw. destruct (decide (sessionsDir u ∈ fs_dirs (w_fs w))) as [Hd|Hd].
  - destruct (rebuild_spec env every u w Hw Hd) as (w' & He & Hw'). unfold UpdateIndex. by rewrite He.
  - unfold UpdateIndex, rebuildIndex. cbn [exec]. unfold do_call at 1. cbn [perform].
    set (w1 := tick env _). assert (Hw1 : coherent u w1).
    { apply coherent_tick. eapply coherent_cache; [| |exact Hw]; [done|]. cbn. intros e.
      by rewrite lookup_delete_eq. }
    cbn [exec]. unfold do_call at 1. cbn [perform]. unfold fs_read_dir, is_dir.
    rewrite bool_decide_false by done. destruct (is_file _ _); by apply coherent_tick.
Qed.

(** [loadIndex] answers from the cache or from the file, with the same entries. *)
Lemma load_index_spec w :
  coherent u w -> exists idx w', exec env (loadIndex u) w = (Ok idx, w') /\ coherent u w'
    /\ describes every (ix_Sessions idx) (meta_at w u).
Proof.
  intros Hw. unfold loadIndex. cbn [exec]. unfold do_call at 1. cbn [perform].
  assert (Hr : forall w1, w_fs w1 = w_fs w -> coherent u w1 ->
    exists idx w', exec env (refreshIndexCache u) w1 = (Ok idx, w') /\ coherent u w'
      /\ describes every (ix_Sessions idx) (meta_at w u)).
  { intros w1 Hf Hw1. destruct (refresh_spec env every u w1 Hw1) as (idx & w' & He & _ & Hw' & Hd).
    exists idx, w'. split; [done|]. split; [done|]. unfold meta_at, file_at in *. by rewrite <- Hf. }
  destruct (w_cache w !! u) as [e|] eqn:Ec; cbn [exec]; [|apply Hr; [done|by apply coherent_tick]].
  unfold do_call at 1. cbn [perform]. destruct (time_before _ _); [|by apply Hr; [|do 2 apply coherent_tick]].
  cbn [exec]. eexists _, _. split; [reflexivity|]. split; [by do 2 apply coherent_tick|].
  pose proof (co_cache _ _ _ Hw e Ec) as Hi. unfold index_at in Hi.
  destruct (file_at w (indexPath u)) as [f|] eqn:Ef; [|done].
  destruct (co_index _ _ _ Hw f Ef) as (idx & Hf & Hd). cbn in Hi. rewrite Hf in Hi. by injection Hi as <-.
Qed.

(** *** Sequences of operations *)
Inductive store_op :=
| OpCreate (req : CreateSessionRequest)
| OpAppend (key : string) (l : TranscriptLine)
| OpMeta (key : string) (meta : SessionMetadata)
| OpArchive (ctx : context) (key : string)
| OpReset (ctx : context) (key : string)
| OpCompact (ctx : context) (key : string) (keepLines : Z)
| OpList (user : string)
| OpRebuild (user : string).

Definition op_prog (o : store_op) : prog unit :=
  match o with
  | OpCreate req => sub! _ <- CreateSession req; Ret tt
  | OpAppend key l => sub! _ <- AppendTranscript key l; Ret tt
  | OpMeta key meta => sub! _ <- UpdateMeta key meta; Ret tt
  | OpArchive ctx key => sub! _ <- ArchiveSession ctx key; Ret tt
  | OpReset ctx key => sub! _ <- ResetSession ctx key; Ret tt
  | OpCompact ctx key n => sub! _ <- Compact ctx key n; Ret tt
  | OpList v => sub! _ <- ListSessions v; Ret tt
  | OpRebuild v => sub! _ <- UpdateIndex v; Ret tt
  end.

Definition run_ops (os : list store_op) (w : World) : World :=
  fold_left (fun w o => snd (exec env (op_prog o) w)) os w.

(** Users and sessions are named by file names. *)
Definition op_plain (o : store_op) : Prop :=
  match o with
  | OpCreate req => (cr_UserID req = "" \/ is_name (cr_UserID req) = true) /\ lacks "/" (cr_SessionID req) = true
  | OpAppend key _ | OpMeta key _ | OpArchive _ key | OpReset _ key | OpCompact _ key _ => plain_key key
  | OpList v | OpRebuild v => is_name v = true
  end.

Lemma preserves_list v : is_name v = true -> preserves (ListSessions v).
Proof.
  intros Hv. destruct (decide (v = u)) as [->|Hne].
  - intros w Hw. unfold ListSessions. rewrite exec_bind.
    destruct (load_index_spec w Hw) as (idx & w' & He & Hw' & _). by rewrite He.
  - apply preserves_keeps, keeps_bind; [|by intros [idx|e]]. split; [done|].
    intros [e|]; [split; [done|]; intros now; destruct (time_before _ _); [done|]|]; by apply keeps_refresh_other.
Qed.

Lemma preserves_op o : op_plain o -> preserves (op_prog o).
Proof.
  assert (Hdone : forall (A : Type) (m : prog A), preserves m -> preserves (sub! _ <- m; Ret tt)).
  { intros A m Hm. by apply preserves_bind; [|intros; apply preserves_ret]. }
  intros Ho. destruct o as [req|key l|key meta|ctx key|ctx key|ctx key n|v|v]; apply Hdone; cbn in Ho.
  - destruct Ho. by apply preserves_create.
  - destruct (ParseSessionKey key) as [kp|e] eqn:Hk.
    + destruct (Ho kp Hk). by apply preserves_keeps, (keeps_append u (kp_user kp) Hu) with kp.
    + unfold AppendTranscript. rewrite Hk. apply preserves_ret.
  - destruct (ParseSessionKey key) as [kp|e] eqn:Hk.
    + destruct (Ho kp Hk). by apply (preserves_update_meta key kp).
    + unfold UpdateMeta. rewrite Hk. apply preserves_ret.
  - destruct (ParseSessionKey key) as [kp|e] eqn:Hk.
    + destruct (Ho kp Hk). by apply (preserves_archive ctx key kp).
    + unfold ArchiveSession. rewrite Hk. apply preserves_ret.
  - by apply preserves_reset.
  - by apply preserves_compact.
  - by apply preserves_list.
  - by apply preserves_rebuild.
Qed.

Lemma run_ops_coherent os w : Forall op_plain os -> coherent u w -> coherent u (run_ops os w).
Proof.
  intros Hos. revert w. induction Hos as [|o os Ho _ IH]; intros w Hw; [done|].
  apply IH. by apply preserves_op.
Qed.
End operations.

(** C12: The list of sessions is the sessions: after any sequence of operations
    of the store on a coherent state (an empty disk is one), for any users,
    [ListSessions] of a user returns exactly one session per metadata file of
    the user, with the key, status, model, message count and times that
    [GetSession] reads there, whether it answers from the index file or from
    its cache. *)
Theorem listed_sessions env u os w :
  (forall n, lacks "/" (env_uuid env n) = true) -> is_name u = true ->
  Forall op_plain os -> coherent u w ->
  let w' := run_ops env os w in
  exists es, fst (exec env (ListSessions u) w') = Ok (map indexEntryToSession es)
    /\ NoDup (map ie_SessionID es)
    /\ forall e, In e es <-> exists s sess,
         lacks "/" s = true /\ meta_at w' u s = Some sess /\ e = sessionToIndexEntry sess.
Proof.
  intros Huuid Hu Hos Hw w'. pose proof (run_ops_coherent env Huuid u Hu os w Hos Hw) as Hw'.
  destruct (load_index_spec env u w' Hw') as (idx & w2 & He & _ & Hn & Hes). exists (ix_Sessions idx).
  unfold ListSessions. rewrite exec_bind, He. split; [done|]. split; [done|]. intros e. by apply Hes.
Qed.
End index.

(** ** A concrete run *)
#[local] Existing Instance demo_store.

Definition demo_ops : list store_op :=
  [OpCreate (Build_CreateSessionRequest "u" "s" "slack" "m" JNull);
   OpAppend demo_key (demo_line "hello");
   OpCreate (Build_CreateSessionRequest "v" "s" "cron" "m" JNull);
   OpMeta demo_key (compacted_meta (compacted_meta (Build_SessionMetadata "m2" "" 0 1 no_usage 0 JNull) 3) 4);
   OpList "u"; OpReset None demo_key; OpRebuild "v"].

Lemma coherent_empty u : coherent u demo_empty.
Proof.
  split; unfold file_at; cbn; intros; rewrite ?lookup_empty in *; set_solver.
Qed.

Lemma listed_sessions_witness :
  exists es, fst (exec demo_env (ListSessions "u") (run_ops demo_env demo_ops demo_empty))
             = Ok (map indexEntryToSession es)
    /\ NoDup (map ie_SessionID es) /\ length es = 2%nat.
Proof.
  assert (Hp : plain_key demo_key) by (intros kp H; vm_compute in H; injection H as <-; done).
  destruct (listed_sessions demo_env "u" demo_ops demo_empty) as (es & H1 & H2 & _).
  - intros n. change (lacks "/" ("uuid-" +:+ fmt_d (Z.of_nat n)) = true).
    by rewrite lacks_app, fmt_d_no_slash.
  - reflexivity.
  - repeat (constructor; [first [exact Hp | reflexivity | split; [right|]; reflexivity]|]). constructor.
  - apply coherent_empty.
  - exists es. split; [exact H1|]. split; [exact H2|].
    apply (f_equal (fun r => match r with Ok l => length l | Err _ => 0%nat end)) in H1.
    rewrite length_map in H1. rewrite <- H1. vm_compute. reflexivity.
Defined.
