(* ===== verification/GoRegexp.v ===== *)
(** * Regular expressions (package regexp)

    The syntax the program's patterns use, read from the text of the pattern,
    and the leftmost-first matching of package regexp by backtracking, with its
    captures.  The denotation [matches] of the expressions: the matcher finds a match
    exactly when there is one, at the leftmost place ([MatchString_spec]), and
    [ReplaceAllFunc_scan] says what [ReplaceAllStringFunc] makes of a text. *)
From Stdlib Require Import ZArith Lia Bool Ascii String List.
From stdpp Require Import base strings option list.
From S2P Require Import Prelude GoString.

Local Open Scope string_scope.
Local Open Scope Z_scope.

(** ** Expressions

    A text is its runes with their bytes ([utf8_segs]).  An assertion looks at
    the runes before and after a position. *)
Abbreviation cell := (Z * string)%type.

Inductive re :=
| Eps
| Chr (p : Z -> bool)
| Assert (f : option Z -> option Z -> bool)
| Cat (a b : re)
| Alt (a b : re)
| Star (greedy : bool) (a : re)
| Group (n : nat) (a : re).

Definition Plus (greedy : bool) (a : re) : re := Cat a (Star greedy a).
Definition Opt (greedy : bool) (a : re) : re := if greedy then Alt a Eps else Alt Eps a.

(** [a{n}], [a{n,}] and [a{n,m}]. *)
Fixpoint times (n : nat) (a : re) : re := match n with O => Eps | S n => Cat a (times n a) end.
Fixpoint at_most (greedy : bool) (n : nat) (a : re) : re :=
  match n with O => Eps | S n => Opt greedy (Cat a (at_most greedy n a)) end.
Definition repeated (greedy : bool) (lo : nat) (hi : option nat) (a : re) : re :=
  match hi with
  | None => Cat (times lo a) (Star greedy a)
  | Some hi => Cat (times lo a) (at_most greedy (hi - lo) a)
  end.

(** ** Classes and assertions *)

Definition re_digit (r : Z) : bool := (48 <=? r) && (r <=? 57).
Definition re_space (r : Z) : bool := existsb (Z.eqb r) [9; 10; 12; 13; 32].
Definition re_word (r : Z) : bool :=
  re_digit r || (65 <=? r) && (r <=? 90) || (97 <=? r) && (r <=? 122) || (r =? 95).

(** The runes that are the same as [r] up to case, for the letters of ASCII: the
    Kelvin sign folds to k and the long s to s. *)
Definition orbit (r : Z) : list Z :=
  if (65 <=? r) && (r <=? 90) then
    [r; r + 32] ++ (if r =? 75 then [8490] else if r =? 83 then [383] else [])
  else if (97 <=? r) && (r <=? 122) then
    [r; r - 32] ++ (if r =? 107 then [8490] else if r =? 115 then [383] else [])
  else if r =? 8490 then [8490; 75; 107]
  else if r =? 383 then [383; 83; 115]
  else [r].

Definition is_word_at (r : option Z) : bool := match r with Some r => re_word r | None => false end.

Definition begin_text (prev next : option Z) : bool := match prev with None => true | _ => false end.
Definition end_text (prev next : option Z) : bool := match next with None => true | _ => false end.
Definition begin_line (prev next : option Z) : bool :=
  match prev with None => true | Some r => r =? 10 end.
Definition end_line (prev next : option Z) : bool :=
  match next with None => true | Some r => r =? 10 end.
Definition word_boundary (prev next : option Z) : bool :=
  negb (eqb (is_word_at prev) (is_word_at next)).

(** ** Syntax *)

(** (?i), (?m) and (?s). *)
Record re_flags := { fold_case : bool; multi_line : bool; dot_nl : bool }.
Definition no_flags : re_flags := Build_re_flags false false false.

Definition rune_of (c : ascii) : Z := byte_of c.
Coercion rune_of : ascii >-> Z.

Definition folded (fl : re_flags) (p : Z -> bool) (r : Z) : bool :=
  if fold_case fl then existsb p (orbit r) else p r.

Definition lit (fl : re_flags) (c : Z) : re := Chr (folded fl (fun r => r =? c)).

(** A class escape, else [None]. *)
Definition class_escape (c : Z) : option (Z -> bool) :=
  if c =? "s"%char then Some re_space
  else if c =? "d"%char then Some re_digit
  else if c =? "w"%char then Some re_word
  else None.

(** The rune of an escaped punctuation or control character. *)
Definition rune_escape (c : Z) : Z :=
  if c =? "n"%char then 10 else if c =? "t"%char then 9 else c.

(** The members of a class, up to its bracket. *)
Fixpoint p_class (fuel : nat) (p : Z -> bool) (s : list Z) : option ((Z -> bool) * list Z) :=
  match fuel with
  | O => None
  | S fuel =>
      let member (c : Z) (s : list Z) :=
        match s with
        | dash :: hi :: s' =>
            if (dash =? "-"%char) && negb (hi =? "]"%char) then
              p_class fuel (fun r => p r || (c <=? r) && (r <=? hi)) s'
            else p_class fuel (fun r => p r || (r =? c)) s
        | _ => p_class fuel (fun r => p r || (r =? c)) s
        end in
      match s with
      | [] => None
      | c :: s =>
          if c =? "]"%char then Some (p, s)
          else if c =? "\"%char then
            match s with
            | [] => None
            | e :: s =>
                match class_escape e with
                | Some q => p_class fuel (fun r => p r || q r) s
                | None => member (rune_escape e) s
                end
            end
          else member c s
      end
  end.

Fixpoint p_number (n : nat) (some : bool) (s : list Z) : option nat * list Z :=
  match s with
  | c :: s' => if re_digit c then p_number (10 * n + Z.to_nat (c - 48)) true s'
               else (if some then Some n else None, s)
  | [] => (if some then Some n else None, [])
  end.

(** The repetition after an atom. *)
Definition p_lazy (s : list Z) : bool * list Z :=
  match s with c :: s' => if c =? "?"%char then (false, s') else (true, s) | [] => (true, []) end.

Definition p_repeat (a : re) (s : list Z) : option (re * list Z) :=
  match s with
  | [] => Some (a, [])
  | c :: s' =>
      let quantified (q : bool -> re) (s : list Z) := let '(g, s) := p_lazy s in Some (q g, s) in
      if c =? "*"%char then quantified (fun g => Star g a) s'
      else if c =? "+"%char then quantified (fun g => Plus g a) s'
      else if c =? "?"%char then quantified (fun g => Opt g a) s'
      else if c =? "{"%char then
        match p_number 0 false s' with
        | (Some lo, c1 :: s1) =>
            if c1 =? "}"%char then quantified (fun g => repeated g lo (Some lo) a) s1
            else if c1 =? ","%char then
              match p_number 0 false s1 with
              | (hi, c2 :: s2) =>
                  if c2 =? "}"%char then quantified (fun g => repeated g lo hi a) s2 else None
              | _ => None
              end
            else None
        | _ => None
        end
      else Some (a, s)
  end.

Fixpoint p_flags (fl : re_flags) (s : list Z) : option (re_flags * bool * list Z) :=
  match s with
  | [] => None
  | c :: s =>
      if c =? ")"%char then Some (fl, true, s)
      else if c =? ":"%char then Some (fl, false, s)
      else if c =? "i"%char then p_flags (Build_re_flags true (multi_line fl) (dot_nl fl)) s
      else if c =? "m"%char then p_flags (Build_re_flags (fold_case fl) true (dot_nl fl)) s
      else if c =? "s"%char then p_flags (Build_re_flags (fold_case fl) (multi_line fl) true) s
      else None
  end.

Fixpoint p_name (name : string) (s : list Z) : option (string * list Z) :=
  match s with
  | [] => None
  | c :: s => if c =? ">"%char then Some (name, s) else p_name (name +:+ utf8_encode c) s
  end.

Definition alternatives (alts : list re) (last : re) : re := fold_right Alt last alts.

(** What is read so far: the number of the next group and the groups' names. *)
Record p_state := { next_group : nat; group_names : list (string * nat) }.

(** A sequence of atoms and alternatives up to a closing parenthesis or the end:
    [acc] is the sequence so far, [alts] the alternatives before it. *)
Fixpoint p_seq (fuel : nat) (fl : re_flags) (ps : p_state) (alts : list re) (acc : re) (s : list Z)
    : option (re * p_state * list Z) :=
  match fuel with
  | O => None
  | S fuel =>
      let done := Some (alternatives alts acc, ps, s) in
      let atom (ps : p_state) (a : re) (s : list Z) :=
        match p_repeat a s with
        | Some (a, s) => p_seq fuel fl ps alts (Cat acc a) s
        | None => None
        end in
      let grouped (wrap : re -> re) (fl : re_flags) (ps : p_state) (s : list Z) :=
        match p_seq fuel fl ps [] Eps s with
        | Some (a, ps, c :: s) => if c =? ")"%char then atom ps (wrap a) s else None
        | _ => None
        end in
      let captured (name : option string) (s : list Z) :=
        let n := next_group ps in
        let names := match name with Some x => (x, n) :: group_names ps | None => group_names ps end in
        grouped (Group n) fl (Build_p_state (S n) names) s in
      match s with
      | [] => done
      | c :: s' =>
          if c =? ")"%char then done
          else if c =? "|"%char then p_seq fuel fl ps (alts ++ [acc]) Eps s'
          else if c =? "^"%char then atom ps (Assert (if multi_line fl then begin_line else begin_text)) s'
          else if c =? "$"%char then atom ps (Assert (if multi_line fl then end_line else end_text)) s'
          else if c =? "."%char then atom ps (Chr (fun r => dot_nl fl || negb (r =? 10))) s'
          else if c =? "["%char then
            match s' with
            | c1 :: s1 =>
                if c1 =? "^"%char then
                  match p_class (length s1) (fun _ => false) s1 with
                  | Some (p, s) => atom ps (Chr (fun r => negb (folded fl p r))) s
                  | None => None
                  end
                else
                  match p_class (length s') (fun _ => false) s' with
                  | Some (p, s) => atom ps (Chr (folded fl p)) s
                  | None => None
                  end
            | [] => None
            end
          else if c =? "\"%char then
            match s' with
            | [] => None
            | e :: s =>
                if e =? "b"%char then atom ps (Assert word_boundary) s
                else match class_escape e with
                     | Some p => atom ps (Chr p) s
                     | None => atom ps (lit fl (rune_escape e)) s
                     end
            end
          else if c =? "("%char then
            match s' with
            | c1 :: s1 =>
                if negb (c1 =? "?"%char) then captured None s'
                else match s1 with
                | c2 :: s2 =>
                    if c2 =? "P"%char then
                      match s2 with
                      | _ :: s3 => match p_name "" s3 with Some (x, s) => captured (Some x) s | None => None end
                      | [] => None
                      end
                    else match p_flags fl s1 with
                    | Some (fl, true, s) => p_seq fuel fl ps alts acc s
                    | Some (fl, false, s) => grouped (fun a => a) fl ps s
                    | None => None
                    end
                | [] => None
                end
            | [] => None
            end
          else atom ps (lit fl c) s'
      end
  end.

(** [regexp.Compile]: [None] for a pattern outside the syntax above. *)
Record Regexp := { re_prog : re; re_names : list (string * nat) }.

Definition compile (pattern : string) : option Regexp :=
  let s := runes pattern in
  match p_seq (S (length s)) no_flags (Build_p_state 1 []) [] Eps s with
  | Some (r, ps, []) => Some (Build_Regexp r (group_names ps))
  | _ => None
  end.

(** [regexp.MustCompile], of a pattern in this syntax. *)
Definition must_compile (pattern : string) : Regexp :=
  match compile pattern with Some r => r | None => Build_Regexp Eps [] end.

(** ** Matching *)

(** What is behind a position and what is ahead, and the groups' texts, the
    latest first. *)
Record mstate := { m_prev : option Z; m_rest : list cell; m_caps : list (nat * string) }.

Definition next_of (rest : list cell) : option Z := match rest with c :: _ => Some (fst c) | [] => None end.

(** The cells between two positions. *)
Definition between (rest rest' : list cell) : list cell := firstn (length rest - length rest') rest.

(** [k] is what comes after the match; the alternatives are tried in their
    order, so the first success is the preferred match.  An iteration of a star
    must consume. *)
Fixpoint mt {A} (r : re) (st : mstate) (k : mstate -> option A) {struct r} : option A :=
  match r with
  | Eps => k st
  | Chr p =>
      match m_rest st with
      | c :: rest => if p (fst c) then k (Build_mstate (Some (fst c)) rest (m_caps st)) else None
      | [] => None
      end
  | Assert f => if f (m_prev st) (next_of (m_rest st)) then k st else None
  | Cat a b => mt a st (fun st => mt b st k)
  | Alt a b => match mt a st k with Some x => Some x | None => mt b st k end
  | Star greedy a =>
      (fix loop (n : nat) (st : mstate) : option A :=
         match n with
         | O => k st
         | S n =>
             let again := mt a st (fun st' =>
               if (length (m_rest st') <? length (m_rest st))%nat then loop n st' else None) in
             if greedy then match again with Some x => Some x | None => k st end
             else match k st with Some x => Some x | None => again end
         end) (length (m_rest st)) st
  | Group n a =>
      mt a st (fun st' =>
        k (Build_mstate (m_prev st') (m_rest st')
             ((n, segs_bytes (between (m_rest st) (m_rest st'))) :: m_caps st')))
  end.

(** The leftmost match from a position: the cells before it, and the state after. *)
Fixpoint find (r : re) (prev : option Z) (rest : list cell) : option (list cell * mstate) :=
  match mt r (Build_mstate prev rest []) Some with
  | Some st => Some ([], st)
  | None =>
      match rest with
      | [] => None
      | c :: rest => match find r (Some (fst c)) rest with
                     | Some (pre, st) => Some (c :: pre, st)
                     | None => None
                     end
      end
  end.

Definition MatchString (r : Regexp) (s : string) : bool :=
  match find (re_prog r) None (utf8_segs s) with Some _ => true | None => false end.

(** A match as the replacement sees it: the whole text and the groups'. *)
Record submatch := { sm_text : string; sm_caps : list (nat * string) }.

Definition group (m : submatch) (n : nat) : string :=
  if (n =? 0)%nat then sm_text m
  else match List.find (fun c => (fst c =? n)%nat) (sm_caps m) with Some (_, t) => t | None => "" end.

(** [ReplaceAllStringFunc], with the submatches: a match of nothing right after
    a match is passed over ([just]). *)
Fixpoint replace_loop (fuel : nat) (r : re) (repl : submatch -> string) (prev : option Z)
    (rest : list cell) (just : bool) : string :=
  match fuel with
  | O => segs_bytes rest
  | S fuel =>
      match find r prev rest with
      | None => segs_bytes rest
      | Some (pre, st) =>
          let w := between (skipn (length pre) rest) (m_rest st) in
          segs_bytes pre +:+
          (if just && (length pre =? 0)%nat && (length w =? 0)%nat then ""
           else repl (Build_submatch (segs_bytes w) (m_caps st))) +:+
          match w with
          | _ :: _ => replace_loop fuel r repl (m_prev st) (m_rest st) true
          | [] =>
              match m_rest st with
              | [] => ""
              | c :: rest => snd c +:+ replace_loop fuel r repl (Some (fst c)) rest false
              end
          end
      end
  end.

Definition ReplaceAllFunc (r : Regexp) (repl : submatch -> string) (s : string) : string :=
  replace_loop (S (length (utf8_segs s))) (re_prog r) repl None (utf8_segs s) false.

(** The templates of [ReplaceAllString]: [$name] and [${name}], a name being the
    longest run of letters, digits and underscores; an unknown one is empty. *)
Fixpoint word_prefix (s : string) : string * string :=
  match s with
  | String c s' => if re_word c then let '(w, t) := word_prefix s' in (String c w, t) else ("", s)
  | EmptyString => ("", "")
  end.

Definition group_text (r : Regexp) (m : submatch) (name : string) : string :=
  match p_number 0 false (runes name) with
  | (Some n, []) => group m n
  | _ => match List.find (fun x => (fst x =? name)%string) (re_names r) with
         | Some (_, n) => group m n
         | None => ""
         end
  end.

Fixpoint expand (fuel : nat) (r : Regexp) (m : submatch) (t : string) : string :=
  match fuel with
  | O => ""
  | S fuel =>
      match str_cut "$" t with
      | None => t
      | Some (before, after) =>
          before +:+
          match after with
          | String "$" t => "$" +:+ expand fuel r m t
          | String "{" t' =>
              let '(name, t) := word_prefix t' in
              match name, t with
              | String _ _, String "}" t => group_text r m name +:+ expand fuel r m t
              | _, _ => "$" +:+ expand fuel r m after
              end
          | _ =>
              let '(name, t) := word_prefix after in
              if (name =? "")%string then "$" +:+ expand fuel r m after
              else group_text r m name +:+ expand fuel r m t
          end
      end
  end.

Definition ReplaceAllString (r : Regexp) (template s : string) : string :=
  ReplaceAllFunc r (fun m => expand (S (String.length template)) r m template) s.

(** * What a pattern matches *)

(** ** Denotation *)

(** The rune before the end of [w] when [prev] is before its start. *)
Definition prev_of (prev : option Z) (w : list cell) : option Z :=
  fold_left (fun _ c => Some (fst c)) w prev.

(** [matches r prev w post]: [r] matches the text [w] after [prev] and before
    [post]. *)
Inductive matches : re -> option Z -> list cell -> list cell -> Prop :=
| MEps prev post : matches Eps prev [] post
| MChr p prev c post : p (fst c) = true -> matches (Chr p) prev [c] post
| MAssert f prev post : f prev (next_of post) = true -> matches (Assert f) prev [] post
| MCat a b prev u v post :
    matches a prev u (v ++ post) -> matches b (prev_of prev u) v post -> matches (Cat a b) prev (u ++ v) post
| MAltL a b prev w post : matches a prev w post -> matches (Alt a b) prev w post
| MAltR a b prev w post : matches b prev w post -> matches (Alt a b) prev w post
| MStarNil g a prev post : matches (Star g a) prev [] post
| MStarMore g a prev u v post :
    u <> [] -> matches a prev u (v ++ post) -> matches (Star g a) (prev_of prev u) v post ->
    matches (Star g a) prev (u ++ v) post
| MGroup n a prev w post : matches a prev w post -> matches (Group n a) prev w post.

#[export] Hint Constructors matches : nipper.

Lemma prev_of_app prev u v : prev_of prev (u ++ v) = prev_of (prev_of prev u) v.
Proof. apply fold_left_app. Qed.

(** A state reached by reading [w]. *)
Definition reads (r : re) (st st' : mstate) : Prop :=
  exists w, m_rest st = (w ++ m_rest st')%list /\ matches r (m_prev st) w (m_rest st')
            /\ m_prev st' = prev_of (m_prev st) w.

(** The iteration of a star, named. *)
Section star.
Context {A : Type} (g : bool) (a : re) (k : mstate -> option A).

Fixpoint star_loop (n : nat) (st : mstate) : option A :=
  match n with
  | O => k st
  | S n =>
      let again := mt a st (fun st' =>
        if (length (m_rest st') <? length (m_rest st))%nat then star_loop n st' else None) in
      if g then match again with Some x => Some x | None => k st end
      else match k st with Some x => Some x | None => again end
  end.
End star.

Lemma mt_star {A} g a st (k : mstate -> option A) :
  mt (Star g a) st k = star_loop g a k (length (m_rest st)) st.
Proof. reflexivity. Qed.

(** ** Soundness *)

Lemma mt_sound {A} r : forall st (k : mstate -> option A) x,
  mt r st k = Some x -> exists st', reads r st st' /\ k st' = Some x.
Proof.
  induction r as [|p|f|a IHa b IHb|a IHa b IHb|g a IHa|n a IHa]; intros st k x H.
  - exists st. split; [|done]. exists []. by split_and!; [|constructor|].
  - simpl in H. destruct (m_rest st) as [|c rest] eqn:E; [done|]. destruct (p (fst c)) eqn:Ep; [|done].
    eexists. split; [|exact H]. exists [c]. rewrite E. by split_and!; [|constructor|].
  - simpl in H. destruct (f _ _) eqn:Ef; [|done]. exists st. split; [|done].
    exists []. by split_and!; [|constructor|].
  - simpl in H. apply IHa in H as (s1 & (u & Hu & Ma & Hp) & H). apply IHb in H as (s2 & (v & Hv & Mb & Hq) & H).
    exists s2. split; [|done]. exists (u ++ v)%list. rewrite Hu, Hv, <- app_assoc, Hq, Hp, prev_of_app. split_and!; [done| |done].
    constructor; [by rewrite <- Hv|by rewrite <- Hp].
  - simpl in H. destruct (mt a st k) as [y|] eqn:E.
    + injection H as ->. apply IHa in E as (s1 & (w & ? & ? & ?) & ?). exists s1. split; [|done].
      exists w. eauto with nipper.
    + apply IHb in H as (s1 & (w & ? & ? & ?) & ?). exists s1. split; [|done]. exists w. eauto with nipper.
  - rewrite mt_star in H. revert H. generalize (length (m_rest st)). intros n. revert st.
    assert (Hnil : forall st, reads (Star g a) st st).
    { intros st. exists []. by split_and!; [|constructor|]. }
    assert (Hmore : forall st s1 st', reads a st s1 -> (length (m_rest s1) < length (m_rest st))%nat ->
                      reads (Star g a) s1 st' -> reads (Star g a) st st').
    { intros st s1 st' (u & Hu & Ma & Hp) Hl (v & Hv & Mb & Hq). exists (u ++ v)%list.
      rewrite Hu, Hv, <- app_assoc, Hq, Hp, prev_of_app. split_and!; [done| |done].
      constructor; [|by rewrite <- Hv|by rewrite <- Hp]. intros ->. rewrite Hu in Hl. simpl in Hl. lia. }
    induction n as [|n IH]; intros st H; [by exists st|]. simpl in H.
    assert (Hagain : forall y, mt a st (fun st' => if (length (m_rest st') <? length (m_rest st))%nat
                                          then star_loop g a k n st' else None) = Some y ->
                      y = x -> exists st', reads (Star g a) st st' /\ k st' = Some x).
    { intros y Hy ->. apply IHa in Hy as (s1 & H1 & Hy). destruct (Nat.ltb_spec (length (m_rest s1)) (length (m_rest st))); [|done].
      apply IH in Hy as (s2 & H2 & Hk). exists s2. split; [|done]. by eapply Hmore. }
    destruct g.
    + destruct (mt a st _) as [y|]; [|by exists st]. injection H as ->. by eapply Hagain.
    + destruct (k st) as [y|] eqn:E; [injection H as ->; by exists st|]. by eapply Hagain.
  - simpl in H. apply IHa in H as (s1 & (w & Hw & Ha & Hp) & Hk). eexists. split; [|exact Hk].
    exists w. eauto with nipper.
Qed.

(** ** Continuations and fuel *)

Lemma mt_ext {A} r : forall st (k k' : mstate -> option A),
  (forall st, k st = k' st) -> mt r st k = mt r st k'.
Proof.
  induction r as [|p|f|a IHa b IHb|a IHa b IHb|g a IHa|n a IHa]; intros st k k' H.
  - apply H.
  - simpl. destruct (m_rest st); [done|]. by destruct (p _).
  - simpl. by destruct (f _ _).
  - simpl. apply IHa. intros st'. by apply IHb.
  - simpl. by rewrite (IHa st k k'), (IHb st k k').
  - rewrite !mt_star. generalize (length (m_rest st)). intros n. revert st.
    induction n as [|n IH]; intros st; cbn [star_loop]; [apply H|]. rewrite H.
    erewrite (IHa st _ _); [reflexivity|]. intros st'. cbv beta. destruct (_ <? _)%nat; [apply IH|done].
  - simpl. apply IHa. intros st'. apply H.
Qed.

(** An iteration consumes, so the number of cells is fuel enough. *)
Lemma star_fuel {A} g a (k : mstate -> option A) n : forall m st,
  (length (m_rest st) <= n)%nat -> (length (m_rest st) <= m)%nat ->
  star_loop g a k n st = star_loop g a k m st.
Proof.
  assert (H0 : forall m st, length (m_rest st) = 0%nat -> star_loop g a k m st = k st).
  { intros [|m] st Hl; [done|]. cbn [star_loop].
    replace (mt a st _) with (@None A); [by destruct g, (k st)|]. symmetry.
    destruct (mt a st _) eqn:E; [|done]. apply mt_sound in E as (s1 & _ & E). rewrite Hl in E.
    destruct (Nat.ltb_spec (length (m_rest s1)) 0); [lia|done]. }
  induction n as [|n IH]; intros [|m] st Hn Hm; [done|rewrite !H0 by lia; done|rewrite !H0 by lia; done|].
  cbn [star_loop]. erewrite (mt_ext a st); [reflexivity|]. intros st'. cbv beta.
  destruct (Nat.ltb_spec (length (m_rest st')) (length (m_rest st))); [|done]. apply IH; lia.
Qed.

(** ** Completeness

    A match whose continuation succeeds whatever the groups hold is found,
    perhaps after another one. *)
Definition goes_on {A} (k : mstate -> option A) (prev : option Z) (rest : list cell) : Prop :=
  forall caps, k (Build_mstate prev rest caps) <> None.

Lemma mt_complete {A} r prev w post :
  matches r prev w post ->
  forall (k : mstate -> option A), goes_on k (prev_of prev w) post ->
  goes_on (fun st => mt r st k) prev (w ++ post).
Proof.
  induction 1 as [prev post|p prev c post Hp|f prev post Hf|a b prev u v post _ IHa _ IHb|a b prev w post _ IH
                 |a b prev w post _ IH|g a prev post|g a prev u v post Hu _ IHa _ IHs|n a prev w post _ IH];
    intros k Hk caps; cbn [mt m_rest m_prev m_caps].
  - apply Hk.
  - simpl. rewrite Hp. apply Hk.
  - simpl. rewrite Hf. apply Hk.
  - rewrite <- app_assoc. apply (IHa (fun st => mt b st k)). apply IHb. by rewrite <- prev_of_app.
  - specialize (IH k Hk caps). cbv beta in IH. by destruct (mt a _ k).
  - specialize (IH k Hk caps). by destruct (mt a _ k).
  - change (star_loop g a k (length ([] ++ post)) (Build_mstate prev ([] ++ post) caps) <> None). simpl.
    specialize (Hk caps). simpl in Hk. destruct (length post); cbn [star_loop]; [exact Hk|].
    destruct g; [destruct (mt a _ _); [done|exact Hk]|destruct (k _); [done|by destruct Hk]].
  - rewrite <- app_assoc. set (n := length (u ++ v ++ post)).
    change (star_loop g a k n (Build_mstate prev (u ++ v ++ post) caps) <> None).
    assert (Hn : (length (v ++ post) < n)%nat).
    { subst n. rewrite (length_app u). destruct u; [done|]. simpl. lia. }
    destruct n as [|n]; [lia|].
    enough (Ha : mt a (Build_mstate prev (u ++ v ++ post) caps) (fun st' =>
               if (length (m_rest st') <? length (u ++ v ++ post))%nat then star_loop g a k n st' else None) <> None).
    { cbn [star_loop m_rest]. destruct g; [by destruct (mt a _ _)|]. destruct (k _); [done|exact Ha]. }
    apply IHa. intros caps'. cbn [m_rest].
    replace (length (v ++ post) <? length (u ++ v ++ post))%nat with true.
    2:{ symmetry. apply Nat.ltb_lt. rewrite (length_app u). destruct u; [done|]. simpl. lia. }
    rewrite prev_of_app in Hk. specialize (IHs k Hk caps'). cbn [mt m_rest] in IHs.
    change (star_loop g a k (length (v ++ post)) (Build_mstate (prev_of prev u) (v ++ post) caps') <> None) in IHs.
    erewrite star_fuel; [exact IHs|..]; cbn [m_rest]; lia.
  - apply (IH _). intros caps'. apply Hk.
Qed.

(** ** Finding *)

Lemma find_sound r : forall rest prev pre st,
  find r prev rest = Some (pre, st) ->
  exists w, rest = (pre ++ w ++ m_rest st)%list /\ matches r (prev_of prev pre) w (m_rest st)
    /\ m_prev st = prev_of (prev_of prev pre) w
    /\ mt r (Build_mstate (prev_of prev pre) (w ++ m_rest st) []) Some = Some st
    /\ forall pre' u post, rest = (pre' ++ u ++ post)%list -> matches r (prev_of prev pre') u post ->
         (length pre <= length pre')%nat.
Proof.
  induction rest as [|c rest IH]; intros prev pre st H; simpl in H.
  - destruct (mt r _ Some) as [st'|] eqn:E; [|done]. injection H as <- <-.
    pose proof E as E'. apply mt_sound in E as (s1 & (w & Hw & Hm & Hp) & [= ->]). exists w. cbn [m_rest m_prev] in *.
    rewrite Hw in E'. split_and!; [done|done|done|done|]. intros. simpl. lia.
  - destruct (mt r _ Some) as [st'|] eqn:E.
    + injection H as <- <-. pose proof E as E'. apply mt_sound in E as (s1 & (w & Hw & Hm & Hp) & [= ->]).
      exists w. cbn [m_rest m_prev] in *. rewrite Hw in E'. split_and!; [done|done|done|done|]. intros. simpl. lia.
    + destruct (find r (Some (fst c)) rest) as [[pre1 st1]|] eqn:F; [|done]. injection H as <- <-.
      apply IH in F as (w & -> & Hm & Hp & He & Hl). exists w. split_and!; [done|done|done|done|].
      intros [|c' pre'] u post Heq Hu.
      * exfalso. simpl in Hu, Heq. apply (mt_complete _ _ _ _ Hu Some) with (caps := []); [by intros ?|].
        by rewrite <- Heq.
      * simpl in Heq. injection Heq as <- Heq. simpl. apply le_n_S. by apply (Hl pre' u post).
Qed.

Lemma find_complete r pre w post : forall prev,
  matches r (prev_of prev pre) w post -> find r prev (pre ++ w ++ post) <> None.
Proof.
  induction pre as [|c pre IH]; intros prev H; simpl.
  - assert (E : mt r (Build_mstate prev (w ++ post) []) Some <> None).
    { by apply (mt_complete _ _ _ _ H Some). }
    destruct (w ++ post)%list; simpl; by destruct (mt r _ Some).
  - destruct (mt r _ Some); [done|]. specialize (IH (Some (fst c)) H). by destruct (find _ _ _) as [[]|].
Qed.

(** A text matches when some part of it does. *)
Theorem MatchString_spec r s :
  MatchString r s = true <->
  exists pre w post, utf8_segs s = (pre ++ w ++ post)%list /\ matches (re_prog r) (prev_of None pre) w post.
Proof.
  unfold MatchString. split.
  - destruct (find _ None _) as [[pre st]|] eqn:E; [|done]. intros _.
    apply find_sound in E as (w & -> & Hm & _). by exists pre, w, (m_rest st).
  - intros (pre & w & post & -> & Hm). apply find_complete in Hm. by destruct (find _ _ _).
Qed.

(** ** Texts without a match *)

Lemma ReplaceAllFunc_none r repl s : MatchString r s = false -> ReplaceAllFunc r repl s = s.
Proof.
  unfold MatchString, ReplaceAllFunc. cbn [replace_loop].
  destruct (find _ _ _); [done|]. intros _. apply utf8_segs_bytes.
Qed.

(** [r] matches only texts with a rune of [q]. *)
Inductive requires (q : Z -> bool) : re -> Prop :=
| QChr p : (forall c, p c = true -> q c = true) -> requires q (Chr p)
| QCatL a b : requires q a -> requires q (Cat a b)
| QCatR a b : requires q b -> requires q (Cat a b)
| QAlt a b : requires q a -> requires q b -> requires q (Alt a b)
| QGroup n a : requires q a -> requires q (Group n a).

Lemma requires_spec q r prev w post :
  requires q r -> matches r prev w post -> exists c, In c w /\ q (fst c) = true.
Proof.
  intros Hq. revert prev w post.
  induction Hq as [p Hp|a b _ IH|a b _ IH|a b _ IHa _ IHb|n a _ IH]; intros prev w post Hm;
    inversion Hm; subst.
  - exists c. split; [by left|auto].
  - edestruct IH as (c & ? & ?); [eassumption|]. exists c. by rewrite in_app_iff; auto.
  - edestruct IH as (c & ? & ?); [eassumption|]. exists c. by rewrite in_app_iff; auto.
  - by eapply IHa.
  - by eapply IHb.
  - by eapply IH.
Qed.

Definition lacks_runes (q : Z -> bool) (s : string) : bool := forallb (fun r => negb (q r)) (runes s).

Lemma requires_none q r s : requires q (re_prog r) -> lacks_runes q s = true -> MatchString r s = false.
Proof.
  intros Hq Hs. destruct (MatchString r s) eqn:E; [|done].
  apply MatchString_spec in E as (pre & w & post & Hw & Hm).
  destruct (requires_spec _ _ _ _ _ Hq Hm) as (c & Hin & Hc).
  unfold lacks_runes in Hs. rewrite forallb_forall in Hs.
  assert (Hi : In (fst c) (runes s)).
  { apply in_map. rewrite Hw, !in_app_iff. auto. }
  apply Hs in Hi. by rewrite Hc in Hi.
Qed.

(** ** What is replaced

    An expression that matches only texts of at least one rune. *)
Fixpoint consuming (r : re) : bool :=
  match r with
  | Eps | Assert _ | Star _ _ => false
  | Chr _ => true
  | Cat a b => consuming a || consuming b
  | Alt a b => consuming a && consuming b
  | Group _ a => consuming a
  end.

Lemma consuming_spec r prev w post : consuming r = true -> matches r prev w post -> w <> [].
Proof.
  intros Hc Hm. induction Hm as [| | |a b ? u v ? _ IHa _ IHb|a b ? w ? _ IH|a b ? w ? _ IH| | |n a ? w ? _ IH];
    simpl in Hc; try done.
  - intros [-> ->]%app_eq_nil. apply orb_true_iff in Hc as [Hc|Hc]; [by apply IHa|by apply IHb].
  - apply andb_true_iff in Hc as [? _]. auto.
  - apply andb_true_iff in Hc as [_ ?]. auto.
  - auto.
Qed.

(** The text is cut at the leftmost matches, one after the other; each is
    replaced and the rest is kept. *)
Inductive replaced (r : re) (repl : submatch -> string) : option Z -> list cell -> string -> Prop :=
| RNone prev rest : find r prev rest = None -> replaced r repl prev rest (segs_bytes rest)
| RMatch prev pre w st out :
    find r prev (pre ++ w ++ m_rest st) = Some (pre, st) ->
    matches r (prev_of prev pre) w (m_rest st) -> w <> [] ->
    mt r (Build_mstate (prev_of prev pre) (w ++ m_rest st) []) Some = Some st ->
    replaced r repl (m_prev st) (m_rest st) out ->
    replaced r repl prev (pre ++ w ++ m_rest st)
      (segs_bytes pre +:+ repl (Build_submatch (segs_bytes w) (m_caps st)) +:+ out).

Lemma between_app w rest : between (w ++ rest) rest = w.
Proof.
  unfold between. rewrite length_app, Nat.add_sub, firstn_app, Nat.sub_diag, firstn_O, app_nil_r. apply firstn_all.
Qed.

Lemma replace_loop_spec r repl fuel : consuming r = true ->
  forall prev rest just, (length rest < fuel)%nat ->
  replaced r repl prev rest (replace_loop fuel r repl prev rest just).
Proof.
  intros Hc. induction fuel as [|fuel IH]; intros prev rest just Hl; [lia|]. cbn [replace_loop].
  destruct (find r prev rest) as [[pre st]|] eqn:E; [|by constructor].
  pose proof E as E'. apply find_sound in E' as (w & -> & Hm & _ & He & _).
  rewrite drop_app_length, between_app.
  pose proof (consuming_spec _ _ _ _ Hc Hm) as Hw. destruct w as [|c w]; [done|]. rewrite andb_false_r.
  apply (RMatch _ _ _ _ (c :: w)); [done|done|done|done|]. apply IH. rewrite !length_app in Hl. simpl in Hl. lia.
Qed.

Lemma ReplaceAllFunc_spec r repl s : consuming (re_prog r) = true ->
  replaced (re_prog r) repl None (utf8_segs s) (ReplaceAllFunc r repl s).
Proof. intros Hc. apply replace_loop_spec; [done|]. lia. Qed.

(** ** Greedy runs of one class *)

Fixpoint span (p : Z -> bool) (l : list cell) : list cell * list cell :=
  match l with
  | c :: l' => if p (fst c) then let '(a, b) := span p l' in (c :: a, b) else ([], l)
  | [] => ([], [])
  end.

Lemma span_app p l : (fst (span p l) ++ snd (span p l))%list = l.
Proof. induction l as [|c l IH]; [done|]. simpl. destruct (p _); [|done]. destruct (span p l). simpl in *. by rewrite IH. Qed.

Lemma span_ext p q l : (forall x, p x = q x) -> span p l = span q l.
Proof. intros H. induction l as [|c l IH]; [done|]. simpl. by rewrite H, IH. Qed.

Lemma span_stops p l c l' : snd (span p l) = c :: l' -> p (fst c) = false.
Proof.
  induction l as [|x l IH]; [done|]. simpl. destruct (p (fst x)) eqn:E; [|by intros [= <- <-]].
  destruct (span p l). exact IH.
Qed.

Lemma mt_run p prev rest caps :
  mt (Star true (Chr p)) (Build_mstate prev rest caps) Some
  = Some (Build_mstate (prev_of prev (fst (span p rest))) (snd (span p rest)) caps).
Proof.
  rewrite mt_star. cbn [m_rest]. revert prev. induction rest as [|c rest IH]; intros prev; [done|].
  cbn [length star_loop mt m_rest m_caps span]. destruct (p (fst c)) eqn:E; [|done].
  replace (length rest <? S (length rest))%nat with true by (symmetry; apply Nat.ltb_lt; lia).
  rewrite IH. by destruct (span p rest).
Qed.

(** The same before a continuation that refuses a rune of the class. *)
Lemma mt_run_then {A} p (k : mstate -> option A) prev rest caps :
  (forall prev c rest caps, p (fst c) = true -> k (Build_mstate prev (c :: rest) caps) = None) ->
  mt (Star true (Chr p)) (Build_mstate prev rest caps) k
  = k (Build_mstate (prev_of prev (fst (span p rest))) (snd (span p rest)) caps).
Proof.
  intros Hk. rewrite mt_star. cbn [m_rest]. revert prev. induction rest as [|c rest IH]; intros prev; [done|].
  cbn [length star_loop mt m_rest m_caps span]. destruct (p (fst c)) eqn:E; [|done].
  replace (length rest <? S (length rest))%nat with true by (symmetry; apply Nat.ltb_lt; lia).
  rewrite IH, Hk by done. destruct (span p rest). by destruct (k _).
Qed.

(** ** Replacing what a position decides

    [head l] is the match at the start of [l], if any: the text matched and the
    rest.  The text is then read from left to right. *)
Section scanning.
Context (r : re) (head : list cell -> option (list cell * list cell)) (f : string -> string).
Context (Hc : consuming r = true).
Context (Hhead : forall prev l,
  match mt r (Build_mstate prev l []) Some with
  | Some st => exists w, head l = Some (w, m_rest st) /\ l = (w ++ m_rest st)%list
  | None => head l = None
  end).

Fixpoint scan (n : nat) (l : list cell) : string :=
  match n, l with
  | S n, c :: l' =>
      match head l with
      | Some (w, rest) => f (segs_bytes w) +:+ scan n rest
      | None => snd c +:+ scan n l'
      end
  | _, _ => ""
  end.

Lemma head_shorter l w rest : head l = Some (w, rest) -> (length rest < length l)%nat.
Proof.
  intros H. specialize (Hhead None l). destruct (mt r _ Some) as [st|] eqn:E; [|congruence].
  destruct Hhead as (w' & H' & Hl). rewrite H in H'. injection H' as -> ->.
  apply mt_sound in E as (st' & (u & Hu & Hm & _) & [= ->]). cbn [m_rest m_prev] in *.
  pose proof (consuming_spec _ _ _ _ Hc Hm). destruct u; [done|]. rewrite Hu. simpl. rewrite length_app. lia.
Qed.

Lemma head_nil : head [] = None.
Proof. destruct (head []) as [[w rest]|] eqn:E; [|done]. apply head_shorter in E. simpl in E. lia. Qed.

Lemma scan_fuel n : forall m l, (length l <= n)%nat -> (length l <= m)%nat -> scan n l = scan m l.
Proof.
  induction n as [|n IH]; intros [|m] [|c l]; simpl; try done; try lia. intros H1 H2.
  destruct (head (c :: l)) as [[w rest]|] eqn:E; f_equal; apply IH; try lia;
    apply head_shorter in E; simpl in E; lia.
Qed.

Lemma scan_none l : forall prev n, (length l <= n)%nat -> find r prev l = None -> scan n l = segs_bytes l.
Proof.
  induction l as [|c l IH]; intros prev [|n] Hn H; simpl in *; try done; try lia.
  specialize (Hhead prev (c :: l)). destruct (mt r _ Some); [done|]. rewrite Hhead.
  destruct (find r _ l) as [[]|] eqn:E; [done|]. by rewrite (IH (Some (fst c))) by (done || lia).
Qed.

Lemma scan_match l : forall prev n pre st w, (length l <= n)%nat -> find r prev l = Some (pre, st) ->
  l = (pre ++ w ++ m_rest st)%list ->
  scan n l = segs_bytes pre +:+ f (segs_bytes w) +:+ scan n (m_rest st).
Proof.
  induction l as [|c l IH]; intros prev n pre st w Hn H Hl; simpl in H.
  - pose proof (Hhead prev []) as Hh. destruct (mt r _ Some); [|done].
    destruct Hh as (u & Hu & _). by rewrite head_nil in Hu.
  - destruct n as [|n]; [simpl in Hn; lia|]. pose proof (Hhead prev (c :: l)) as Hh. cbn [scan].
    destruct (mt r _ Some) as [st'|].
    + injection H as <- <-. destruct Hh as (u & Hu & Hl'). rewrite Hu.
      assert (u = w) as ->. { rewrite Hl in Hl'. simpl in Hl'. by apply app_inv_tail in Hl'. }
      apply head_shorter in Hu. rewrite (scan_fuel n (S n)) by (simpl in *; lia). done.
    + rewrite Hh. destruct (find r _ l) as [[pre' st']|] eqn:E; [|done]. injection H as <- <-.
      simpl in Hl. injection Hl as Hl. rewrite (IH _ n pre' st' w) by (done || simpl in *; lia).
      rewrite (scan_fuel n (S n)).
      * change (segs_bytes (c :: pre')) with (snd c +:+ segs_bytes pre'). by rewrite str_app_assoc.
      * apply (f_equal length) in Hl. rewrite !length_app in Hl. simpl in *. lia.
      * apply (f_equal length) in Hl. rewrite !length_app in Hl. simpl in *. lia.
Qed.

Lemma ReplaceAllFunc_scan R s : re_prog R = r ->
  ReplaceAllFunc R (fun m => f (sm_text m)) s = scan (length (utf8_segs s)) (utf8_segs s).
Proof.
  intros HR. pose proof (ReplaceAllFunc_spec R (fun m => f (sm_text m)) s ltac:(by rewrite HR)) as H.
  rewrite HR in H. revert H. generalize (ReplaceAllFunc R (fun m => f (sm_text m)) s), (utf8_segs s), (@None Z).
  intros out l prev H. induction H as [prev rest Hf|prev pre w st out Hf Hm Hw He Hr IH].
  - symmetry. by apply (scan_none _ prev).
  - cbn [sm_text]. rewrite IH. symmetry. rewrite (scan_match _ prev _ pre st w) by done.
    do 2 f_equal. apply scan_fuel; rewrite ?length_app; lia.
Qed.
End scanning.
