(* ===== verification/Formatting.v ===== *)
(** * WhatsApp formatting (internal/formatting/whatsapp.go)

    The model's Markdown in the notation of WhatsApp: eleven replacements, one
    after the other, whose patterns are read from the source's texts. *)
From Stdlib Require Import ZArith Lia Bool Ascii String List.
From stdpp Require Import base strings option list.
From S2P Require Import Prelude GoString GoRegexp.

Local Open Scope string_scope.
Local Open Scope Z_scope.

Definition mdBoldRe : Regexp := must_compile "\*\*(.+?)\*\*".
Definition mdBoldUnderRe : Regexp := must_compile "__(.+?)__".
Definition mdStrikeRe : Regexp := must_compile "~~(.+?)~~".
Definition mdImageRe : Regexp := must_compile "!\[(?:[^\]]*)\]\((?P<url>[^)]+)\)".
Definition mdLinkRe : Regexp := must_compile "\[(?P<label>[^\]]+)\]\((?P<url>[^)]+)\)".
Definition mdLinkFallbackRe : Regexp := must_compile "\[([^\]]*)\]\s*\(\s*([^)]*)\s*\)".
Definition mdHrRe : Regexp := must_compile "(?m)^\s*(?:[-*_]\s*){3,}$".
Definition mdHeaderRe : Regexp := must_compile "(?m)^#{1,6}\s+(.+?)$".
Definition mdListMarkerRe : Regexp := must_compile "(?m)^(\s*)[*+]\s+".
Definition mdCodeFenceLangRe : Regexp := must_compile "(?m)^```[a-zA-Z0-9]+\s*$".
Definition excessiveNewlines : Regexp := must_compile "\n{3,}".
Definition literalBoldBeforeStarRe : Regexp := must_compile "(?i)\bbold\s*\*".
Definition literalItalicAfterStarRe : Regexp := must_compile "\*\s*(?i)italic\b".
Definition unclosedBoldAtLineStartRe : Regexp := must_compile "(?m)^(\s*\*)([^\n*]+)(\s*)$".

Definition nl_byte : ascii := "010".
Definition nl : string := String nl_byte "".

Section whatsapp.
(** The lower case outside ASCII. *)
Context (fold : Z -> Z).

(** 2. [label] and address on lines of their own. *)
Definition link_text (m : submatch) : string :=
  let label := trim_space (group m 1) in
  let u := trim_space (group m 2) in
  if (label =? "")%string || (label =? u)%string then u else label +:+ nl +:+ u.

(** 2b. *)
Definition fallback_text (m : submatch) : string :=
  let label := trim_space (group m 1) in
  let u := trim_space (group m 2) in
  if has_prefix (to_lower fold u) "http://" || has_prefix (to_lower fold u) "https://" then u
  else if negb (label =? "")%string then label else u.

(** 5. *)
Definition header_text (m : submatch) : string :=
  let text := trim_space (group m 1) in
  if (text =? "")%string then ""
  else if has_prefix text "*" && has_suffix text "*" then text
  else "*" +:+ text +:+ "*".

Definition whatsapp_steps (s : string) : string :=
  let out := ReplaceAllString mdImageRe "${url}" s in
  let out := ReplaceAllFunc mdLinkRe link_text out in
  let out := ReplaceAllFunc mdLinkFallbackRe fallback_text out in
  let out := ReplaceAllString mdListMarkerRe "$1- " out in
  let out := ReplaceAllString mdBoldRe "*$1*" out in
  let out := ReplaceAllString mdBoldUnderRe "*$1*" out in
  let out := ReplaceAllString mdStrikeRe "~$1~" out in
  let out := ReplaceAllFunc mdHeaderRe header_text out in
  let out := ReplaceAllString mdHrRe "" out in
  let out := ReplaceAllString mdCodeFenceLangRe "```" out in
  let out := ReplaceAllString literalBoldBeforeStarRe "*" out in
  let out := ReplaceAllString literalItalicAfterStarRe "*" out in
  ReplaceAllString unclosedBoldAtLineStartRe "$1$2*$3" out.

Definition WhatsApp (s : string) : string :=
  if (s =? "")%string then s
  else trim_space (ReplaceAllString excessiveNewlines (nl +:+ nl) (whatsapp_steps s)).
End whatsapp.

(** ** Plain text

    A text without the characters that any of the patterns needs is only
    trimmed. *)
Definition special (r : Z) : bool := existsb (Z.eqb r) (runes ("*_~[#+-`" +:+ nl)).

(** A pattern needs a special character. *)
Ltac class_in := 
  let c := fresh "c" in let H := fresh "H" in
  intros c; unfold special; destruct c as [|c|c]; try discriminate;
  repeat (destruct c as [c|c|]; try discriminate); intros H; reflexivity.
Ltac needs_special :=
  first [apply QChr; class_in
        | apply QCatL; needs_special
        | apply QCatR; needs_special
        | apply QAlt; needs_special
        | apply QGroup; needs_special].

Lemma plain_none s r : lacks_runes special s = true -> requires special (re_prog r) ->
  forall f, ReplaceAllFunc r f s = s.
Proof. intros Hs Hq f. by apply ReplaceAllFunc_none, (requires_none _ _ _ Hq). Qed.

(** A text without the characters of Markdown is only trimmed. *)
Theorem plain_kept fold s : lacks_runes special s = true -> WhatsApp fold s = trim_space s.
Proof.
  intros Hs. unfold WhatsApp. destruct (String.eqb_spec s "") as [->|_]; [done|].
  unfold whatsapp_steps, ReplaceAllString. cbv zeta.
  repeat match goal with
  | |- context [ReplaceAllFunc ?r _ s] => rewrite (plain_none s r Hs ltac:(vm_compute; needs_special))
  end. done.
Qed.

Lemma plain_kept_witness :
  WhatsApp (fun r => r) " It is 21 degrees, take a jacket. " = "It is 21 degrees, take a jacket.".
Proof. rewrite plain_kept by (vm_compute; reflexivity). vm_compute. reflexivity. Defined.

(** ** Blank lines *)

(** No three newlines in a row, [n] of them being before the text. *)
Fixpoint calm (n : nat) (s : string) : bool :=
  match s with
  | EmptyString => true
  | String c s => if Ascii.eqb c nl_byte then (n <? 2)%nat && calm (S n) s else calm 0 s
  end.

Fixpoint calm_cells (n : nat) (l : list cell) : bool :=
  match l with
  | [] => true
  | c :: l => if fst c =? 10 then (n <? 2)%nat && calm_cells (S n) l else calm_cells 0 l
  end.

(** The newlines at the end. *)
Definition trail (n : nat) (l : list cell) : nat := fold_left (fun n c => if fst c =? 10 then S n else O) l n.

(** The bytes of a decoded rune: a newline is a byte, and no other rune has that
    byte. *)
Definition nl_cell (c : cell) : bool :=
  if fst c =? 10 then (snd c =? nl)%string
  else negb (snd c =? "")%string && str_forall (fun b => negb (Ascii.eqb b nl_byte)) (snd c).

Lemma high_not_nl b : 128 <= byte_of b -> Ascii.eqb b nl_byte = false.
Proof. intros H. destruct (Ascii.eqb_spec b nl_byte) as [->|]; [|done]. vm_compute in H. by destruct H. Qed.

Lemma low_nl a : byte_of a < 128 -> nl_cell (byte_of a, String a "") = true.
Proof.
  intros _. unfold nl_cell. cbn [fst snd]. destruct (Z.eqb_spec (byte_of a) 10) as [H|H].
  - assert (a = nl_byte) as ->; [|done]. unfold byte_of in H.
    rewrite <- (ascii_N_embedding a). replace (N_of_ascii a) with 10%N by lia. done.
  - simpl. rewrite andb_true_r. apply negb_true_iff. destruct (Ascii.eqb_spec a nl_byte) as [->|]; [done|done].
Qed.

Lemma cont_high lo hi b : 128 <= lo -> is_cont lo hi b = true -> 128 <= byte_of b.
Proof. unfold is_cont. intros. bool_hyps. lia. Qed.

Lemma high_cell r a b : 128 <= r -> 128 <= byte_of a -> str_forall (fun c => 128 <=? byte_of c) b = true ->
  nl_cell (r, String a b) = true.
Proof.
  intros Hr Ha Hb. unfold nl_cell. cbn [fst snd]. replace (r =? 10) with false by lia.
  cbn [str_forall]. rewrite (high_not_nl a) by done. simpl.
  eapply str_forall_impl; [|exact Hb]. intros c Hc%Z.leb_le. by apply negb_true_iff, high_not_nl.
Qed.

Lemma accept_high x : 128 <= fst (accept_range x).
Proof. unfold accept_range. repeat case_test; simpl; lia. Qed.

Lemma utf8_step_nl a s :
  exists r b rest, utf8_segs (String a s) = (r, String a b) :: utf8_segs rest
                   /\ s = b +:+ rest /\ nl_cell (r, String a b) = true.
Proof.
  assert (Hbad : forall s', byte_of a <? 128 = false -> utf8_segs (String a s) = bad a :: utf8_segs s' -> s = s' ->
    exists r b rest, utf8_segs (String a s) = (r, String a b) :: utf8_segs rest
                     /\ s = b +:+ rest /\ nl_cell (r, String a b) = true).
  { intros s' Ha He ->. eexists _, "", s'. split; [exact He|]. split; [done|].
    apply high_cell; [done|lia|done]. }
  revert Hbad. cbn [utf8_segs]. pose proof (accept_high (byte_of a)) as Hlo.
  assert (Hr3 : byte_of a = 224 -> fst (accept_range (byte_of a)) = 160) by (by intros ->).
  assert (Hr4 : byte_of a = 240 -> fst (accept_range (byte_of a)) = 144) by (by intros ->).
  destruct (accept_range (byte_of a)) as [lo hi]. cbn [fst] in Hlo, Hr3, Hr4. intros Hbad.
  destruct (byte_of a <? 128) eqn:Ha.
  { eexists _, "", s. split; [done|]. split; [done|]. apply low_nl. lia. }
  destruct s as [|b s2]; [by eapply (Hbad "")|].
  destruct (_ && _ && is_cont lo hi b) eqn:E2.
  { eexists _, (String b ""), s2. split; [done|]. split; [done|]. bool_hyps.
    pose proof (cont_high lo hi b Hlo ltac:(done)).
    apply high_cell; [lia|lia|]. simpl. rewrite andb_true_r. by apply Z.leb_le. }
  destruct s2 as [|c s3]; [by eapply Hbad|].
  destruct (_ && _ && is_cont lo hi b && _) eqn:E3.
  { eexists _, (String b (String c "")), s3. split; [done|]. split; [done|]. bool_hyps.
    pose proof (cont_high lo hi b Hlo ltac:(done)). pose proof (cont_high 128 191 c ltac:(lia) ltac:(done)).
    assert (Hb : lo <= byte_of b) by (unfold is_cont in *; bool_hyps; lia).
    apply high_cell; [|lia|simpl; rewrite !andb_true_iff, !Z.leb_le; done].
    destruct (Z.eq_dec (byte_of a) 224) as [e|]; [specialize (Hr3 e)|]; lia. }
  destruct s3 as [|d s4]; [by eapply Hbad|].
  destruct (_ && _ && is_cont lo hi b && _ && _) eqn:E4; [|by eapply Hbad].
  eexists _, (String b (String c (String d ""))), s4. split; [done|]. split; [done|]. bool_hyps.
  pose proof (cont_high lo hi b Hlo ltac:(done)). pose proof (cont_high 128 191 c ltac:(lia) ltac:(done)).
  pose proof (cont_high 128 191 d ltac:(lia) ltac:(done)).
  assert (Hb : lo <= byte_of b) by (unfold is_cont in *; bool_hyps; lia).
  apply high_cell; [|lia|simpl; rewrite !andb_true_iff, !Z.leb_le; done].
  destruct (Z.eq_dec (byte_of a) 240) as [e|]; [specialize (Hr4 e)|]; lia.
Qed.

Lemma utf8_segs_nl s : Forall (fun c => nl_cell c = true) (utf8_segs s).
Proof.
  remember (String.length s) as n eqn:Hn. revert s Hn.
  induction n as [n IH] using lt_wf_ind. intros [|a s] ->; [constructor|].
  destruct (utf8_step_nl a s) as (r & b & rest & He & -> & Hc). rewrite He. constructor; [done|].
  eapply IH; [|done]. cbn [String.length]. rewrite str_app_length. lia.
Qed.

(** The runs of newlines of the bytes are those of the cells. *)
Lemma calm_plain n b t : b <> "" -> str_forall (fun b => negb (Ascii.eqb b nl_byte)) b = true ->
  calm n (b +:+ t) = calm 0 t.
Proof.
  revert n. induction b as [|c b IH]; intros n Hne Hb; [done|]. cbn [str_forall] in Hb. bool_hyps.
  cbn [String.append calm]. rewrite H. destruct b as [|d b]; [done|]. by apply IH.
Qed.

Lemma calm_bytes l t : Forall (fun c => nl_cell c = true) l ->
  forall n, calm n (segs_bytes l +:+ t) = calm_cells n l && calm (trail n l) t.
Proof.
  intros Hl. induction Hl as [|[r b] l Hc Hl IH]; intros n; [done|].
  change (segs_bytes ((r, b) :: l)) with (b +:+ segs_bytes l). rewrite str_app_assoc.
  change (trail n ((r, b) :: l)) with (trail (if r =? 10 then S n else O) l).
  unfold nl_cell in Hc. cbn [calm_cells fst snd] in *. destruct (r =? 10).
  - apply String.eqb_eq in Hc as ->. change (calm n (nl +:+ ?t)) with ((n <? 2)%nat && calm (S n) t).
    rewrite IH. by rewrite andb_assoc.
  - bool_hyps. rewrite calm_plain by done. apply IH.
Qed.

Lemma calm_mono s : forall n m, (m <= n)%nat -> calm n s = true -> calm m s = true.
Proof.
  induction s as [|c s IH]; intros n m Hm; [done|]. cbn [calm]. destruct (Ascii.eqb c nl_byte); [|done].
  intros [H1 H2]%andb_true_iff. apply andb_true_iff. split.
  - apply Nat.ltb_lt in H1. apply Nat.ltb_lt. lia.
  - revert H2. apply IH. lia.
Qed.

Lemma calm_prefix a b : forall n, calm n (a +:+ b) = true -> calm n a = true.
Proof.
  induction a as [|c a IH]; intros n; [done|]. cbn [String.append calm].
  destruct (Ascii.eqb c nl_byte); [|apply IH]. intros [-> H]%andb_true_iff. by apply IH.
Qed.

Lemma calm_suffix a b : forall n, calm n (a +:+ b) = true -> calm 0 b = true.
Proof.
  induction a as [|c a IH]; intros n; [apply calm_mono; lia|]. cbn [String.append calm].
  destruct (Ascii.eqb c nl_byte); [|apply IH]. intros [_ H]%andb_true_iff. by eapply IH.
Qed.

(** ** The collapse of newlines *)

Definition is_nl (r : Z) : bool := r =? 10.
Definition newline_run : re := Cat Eps (Cat (times 3 (Chr is_nl)) (Star true (Chr is_nl))).

Lemma excessiveNewlines_prog : re_prog excessiveNewlines = newline_run.
Proof. vm_compute. reflexivity. Qed.

Definition starts_nl (l : list cell) : bool := match l with c :: _ => is_nl (fst c) | [] => false end.

Lemma three_match prev c1 c2 c3 post :
  is_nl (fst c1) = true -> is_nl (fst c2) = true -> is_nl (fst c3) = true ->
  matches newline_run prev [c1; c2; c3] post.
Proof.
  intros H1 H2 H3. apply (MCat _ _ _ [] [c1; c2; c3]); [constructor|].
  apply (MCat _ _ _ [c1; c2; c3] []); [|constructor].
  apply (MCat _ _ _ [c1]); [by constructor|]. apply (MCat _ _ _ [c2]); [by constructor|].
  apply (MCat _ _ _ [c3]); [by constructor|constructor].
Qed.

(** The run is taken whole. *)
Lemma run_taken prev rest st :
  mt newline_run (Build_mstate prev rest []) Some = Some st ->
  starts_nl rest = true /\ starts_nl (m_rest st) = false.
Proof.
  unfold newline_run. cbn [mt times m_rest m_caps m_prev].
  destruct rest as [|c1 rest]; [done|]. destruct (is_nl (fst c1)) eqn:E1; [|done].
  destruct rest as [|c2 rest]; [done|]. destruct (is_nl (fst c2)); [|done].
  destruct rest as [|c3 rest]; [done|]. destruct (is_nl (fst c3)); [|done].
  change (mt (Star true (Chr is_nl)) (Build_mstate (Some (fst c3)) rest []) Some = Some st ->
          starts_nl (c1 :: c2 :: c3 :: rest) = true /\ starts_nl (m_rest st) = false).
  rewrite mt_run. intros [= <-]. split; [exact E1|]. cbn [m_rest].
  destruct (snd (span is_nl rest)) as [|c l] eqn:E; [done|]. by apply span_stops in E.
Qed.

(** Newlines that are not calm hold a run. *)
Lemma stormy l : forall n, (n <= 2)%nat -> Forall (fun c => nl_cell c = true) l -> calm_cells n l = false ->
  exists pre c1 c2 c3 post, (repeat (10, nl) n ++ l = pre ++ [c1; c2; c3] ++ post)%list
    /\ is_nl (fst c1) = true /\ is_nl (fst c2) = true /\ is_nl (fst c3) = true.
Proof.
  induction l as [|c l IH]; intros n Hn Hl H; [done|]. inversion Hl as [|? ? Hc Hl']; subst. cbn [calm_cells] in H.
  destruct (fst c =? 10) eqn:E.
  - destruct (Nat.ltb_spec n 2) as [Hlt|Hge].
    + cbn [andb] in H. assert (c = (10, nl)) as ->.
      { unfold nl_cell in Hc. rewrite E in Hc. apply String.eqb_eq in Hc. destruct c; cbn in *. f_equal; [lia|done]. }
      destruct (IH (S n) ltac:(lia) Hl' H) as (pre & c1 & c2 & c3 & post & He & Hs).
      exists pre, c1, c2, c3, post. split; [|done]. rewrite <- He.
      change ((10, nl) :: l)%list with ([(10, nl)] ++ l)%list. rewrite app_assoc. f_equal.
      by rewrite <- repeat_cons.
    + assert (n = 2)%nat as -> by lia. exists [], (10, nl), (10, nl), c, l. done.
  - destruct (IH O ltac:(lia) Hl' H) as (pre & c1 & c2 & c3 & post & He & Hs). simpl in He. subst l.
    exists (repeat (10, nl) n ++ c :: pre)%list, c1, c2, c3, post. split; [|done]. by rewrite <- app_assoc.
Qed.

Lemma trail_snoc n l c : trail n (l ++ [c]) = if fst c =? 10 then S (trail n l) else O.
Proof. unfold trail. by rewrite fold_left_app. Qed.

Lemma calm_cells_start n l : starts_nl l = false -> calm_cells n l = calm_cells 0 l.
Proof. destruct l as [|c l]; [done|]. cbn [starts_nl calm_cells]. unfold is_nl. by intros ->. Qed.

Lemma collapsed_calm prev rest out :
  replaced newline_run (fun _ => nl +:+ nl) prev rest out -> Forall (fun c => nl_cell c = true) rest ->
  forall n, n = O \/ starts_nl rest = false -> calm n out = true.
Proof.
  induction 1 as [prev rest Hf|prev pre w st out Hf Hm Hw He Hr IH]; intros Hl n Hn.
  - rewrite <- (str_app_nil_r (segs_bytes rest)), calm_bytes by done. rewrite andb_true_r.
    replace (calm_cells n rest) with (calm_cells 0 rest) by (destruct Hn as [->|Hn]; [done|by rewrite (calm_cells_start n)]).
    destruct (calm_cells 0 rest) eqn:E; [done|].
    destruct (stormy rest 0 ltac:(lia) Hl E) as (pre & c1 & c2 & c3 & post & Hs & H1 & H2 & H3). simpl in Hs. exfalso.
    apply (find_complete newline_run pre [c1; c2; c3] post prev); [by apply three_match|]. by rewrite <- Hf, Hs.
  - pose proof (run_taken _ _ _ He) as [Hs Hp].
    apply Forall_app in Hl as [Hpre Hl]. apply Forall_app in Hl as [_ Hpost].
    destruct (find_sound _ _ _ _ _ Hf) as (_ & _ & _ & _ & _ & Hleft).
    assert (Hpc : calm_cells 0 pre = true).
    { destruct (calm_cells 0 pre) eqn:E; [done|].
      destruct (stormy pre 0 ltac:(lia) Hpre E) as (p & c1 & c2 & c3 & post & Hq & H1 & H2 & H3). simpl in Hq. exfalso.
      pose proof (Hleft p [c1; c2; c3] (post ++ w ++ m_rest st)%list) as Hle.
      rewrite Hq in Hle at 1. rewrite <- app_assoc in Hle.
      specialize (Hle eq_refl (three_match _ _ _ _ _ H1 H2 H3)). rewrite Hq, length_app in Hle. simpl in Hle. lia. }
    assert (Ht : trail n pre = O).
    { destruct pre as [|c pre _] using rev_ind.
      - simpl. destruct Hn as [->|Hn]; [done|]. simpl in Hn. congruence.
      - rewrite trail_snoc. destruct (fst c =? 10) eqn:E; [|done]. exfalso.
        destruct (mt_sound _ _ _ _ He) as (_ & _). unfold newline_run in He. cbn [mt times m_rest m_caps m_prev] in He.
        destruct (w ++ m_rest st)%list as [|c1 l1] eqn:Ew; [done|]. destruct (is_nl (fst c1)) eqn:E1; [|done].
        destruct l1 as [|c2 l2]; [done|]. destruct (is_nl (fst c2)) eqn:E2; [|done].
        pose proof (Hleft pre [c; c1; c2] l2) as Hle. rewrite <- app_assoc in Hle.
        specialize (Hle eq_refl (three_match _ _ _ _ _ E E1 E2)). rewrite length_app in Hle. simpl in Hle. lia. }
    rewrite calm_bytes, Ht by done.
    replace (calm_cells n pre) with true.
    + cbn [andb]. change (calm 0 ((nl +:+ nl) +:+ out)) with (calm 2 out). apply IH; [done|by right].
    + symmetry. destruct Hn as [->|Hn]; [done|]. rewrite calm_cells_start; [done|].
      destruct pre as [|c pre]; [done|]. exact Hn.
Qed.

Lemma trim_middle s : exists a b, s = a +:+ trim_space s +:+ b.
Proof.
  unfold trim_space, trim_segs, drop_while_end. set (p := fun x : Z * string => is_space (fst x)).
  set (l := utf8_segs s).
  assert (Hd : forall l : list (Z * string), exists u, l = (u ++ drop_while p l)%list).
  { induction l0 as [|c l0 [u Hu]]; [by exists []|]. simpl. destruct (p c); [|by exists []].
    exists (c :: u). simpl. by rewrite <- Hu. }
  assert (Hs : forall a b, segs_bytes (a ++ b) = segs_bytes a +:+ segs_bytes b).
  { induction a as [|c a IH]; intros b; [done|]. simpl. unfold segs_bytes in *. cbn [fold_right]. by rewrite IH, str_app_assoc. }
  destruct (Hd l) as [u Hu]. destruct (Hd (rev (drop_while p l))) as [v Hv].
  exists (segs_bytes u), (segs_bytes (rev v)). rewrite <- !Hs, <- rev_app_distr, <- Hv, rev_involutive, <- Hu.
  symmetry. apply utf8_segs_bytes.
Qed.

(** A formatted text has at most one blank line in a row. *)
Lemma formatted_calm fold s : calm 0 (WhatsApp fold s) = true.
Proof.
  unfold WhatsApp. destruct (String.eqb_spec s "") as [->|_]; [done|].
  set (out := ReplaceAllString _ _ _).
  assert (H : calm 0 out = true).
  { assert (Ho : out = ReplaceAllFunc excessiveNewlines (fun _ => nl +:+ nl) (whatsapp_steps fold s)) by reflexivity.
    rewrite Ho. pose proof (ReplaceAllFunc_spec excessiveNewlines (fun _ => nl +:+ nl) (whatsapp_steps fold s)
      ltac:(by rewrite excessiveNewlines_prog)) as Hr. rewrite excessiveNewlines_prog in Hr.
    apply (collapsed_calm _ _ _ Hr); [apply utf8_segs_nl|by left]. }
  destruct (trim_middle out) as (a & b & Hab). rewrite Hab in H. apply calm_suffix in H. by apply calm_prefix in H.
Qed.

(** ** What the rewriting loses

    The word "bold" in bold type, names with underscores, comments in a fenced
    block, and an index followed by a call. *)
Example bold_word_vanishes : WhatsApp (fun r => r) "a **bold** move" = "a ** move".
Proof. vm_compute. reflexivity. Qed.
Example dunder_is_bold : WhatsApp (fun r => r) "def __init__(self)" = "def *init*(self)".
Proof. vm_compute. reflexivity. Qed.
Example code_is_rewritten :
  WhatsApp (fun r => r) ("```sh" +:+ nl +:+ "# install" +:+ nl +:+ "```") = "```" +:+ nl +:+ "*install*" +:+ nl +:+ "```".
Proof. vm_compute. reflexivity. Qed.
Example index_call_is_link : WhatsApp (fun r => r) "y = f[i](x)" = "y = fi" +:+ nl +:+ "x".
Proof. vm_compute. reflexivity. Qed.
