(* ===== verification/ConfigLoad.v ===== *)
(** * Loading the gateway's configuration (internal/config/loader.go,
      defaults.go, dump.go)

    Defaults, the resolution of environment placeholders, validation, and
    [Load] over the files viper reads.  [resolve_exact] says what a placeholder
    becomes; [loaded_sound] what holds of a configuration that was loaded. *)
From Stdlib Require Import ZArith Lia Bool Ascii String List SpecFloat.
From stdpp Require Import base strings option list.
From S2P Require Import Prelude GoString GoJsonProofs GoFloat GoRegexp Models Sqlite SessionKey SessionFs Config.

Local Open Scope string_scope.
Local Open Scope Z_scope.

(** ** defaults.go: fields that are zero get a default *)

Definition or_string (s d : string) : string := if (s =? "")%string then d else s.
Definition or_int (z d : Z) : Z := if z =? 0 then d else z.
(** [x == 0] of a float64, which the negative zero satisfies. *)
Definition or_float (x d : float64) : float64 := match x with S754_zero _ => d | _ => x end.

Definition default_admin (a : AdminConfig) : AdminConfig := {|
  Admin_Enabled := Admin_Enabled a;
  Admin_Bind := or_string (Admin_Bind a) "127.0.0.1";
  Admin_Port := or_int (Admin_Port a) 18790;
  Admin_Auth := Admin_Auth a |}.

Definition default_gateway (g : GatewayConfig) : GatewayConfig := {|
  Gateway_Bind := or_string (Gateway_Bind g) "127.0.0.1";
  Gateway_Port := or_int (Gateway_Port g) 18789;
  Gateway_BaseURL := Gateway_BaseURL g;
  Gateway_ReadTimeoutSeconds := or_int (Gateway_ReadTimeoutSeconds g) 30;
  Gateway_WriteTimeoutSeconds := or_int (Gateway_WriteTimeoutSeconds g) 30;
  Gateway_Admin := default_admin (Gateway_Admin g) |}.

Definition default_reconnect (r : ReconnectConfig) : ReconnectConfig := {|
  Reconnect_Enabled := Reconnect_Enabled r;
  Reconnect_InitialDelayMS := or_int (Reconnect_InitialDelayMS r) 1000;
  Reconnect_MaxDelayMS := or_int (Reconnect_MaxDelayMS r) 30000 |}.

Definition default_queue (q : QueueConfig) : QueueConfig :=
  let r := Queue_RabbitMQ q in {|
  Queue_Transport := Queue_Transport q;
  Queue_RabbitMQ := {|
    QueueRabbitMQ_URL := QueueRabbitMQ_URL r;
    QueueRabbitMQ_Username := QueueRabbitMQ_Username r;
    QueueRabbitMQ_Password := QueueRabbitMQ_Password r;
    QueueRabbitMQ_VHost := QueueRabbitMQ_VHost r;
    QueueRabbitMQ_Heartbeat := or_int (QueueRabbitMQ_Heartbeat r) 60;
    QueueRabbitMQ_Reconnect := default_reconnect (QueueRabbitMQ_Reconnect r) |};
  Queue_DefaultMode := or_string (Queue_DefaultMode q) "steer";
  Queue_PerChannel := Queue_PerChannel q |}.

Definition default_agents (a : AgentsConfig) : AgentsConfig := {|
  Agents_HealthCheckIntervalSeconds := or_int (Agents_HealthCheckIntervalSeconds a) 30;
  Agents_ConsumerTimeoutSeconds := or_int (Agents_ConsumerTimeoutSeconds a) 60;
  Agents_Registration := Agents_Registration a;
  Agents_RabbitMQManagement := Agents_RabbitMQManagement a |}.

Definition default_security (s : SecurityConfig) : SecurityConfig :=
  let p := RateLimit_PerUser (Security_RateLimit s) in {|
  Security_RateLimit := {| RateLimit_PerUser := {|
    PerUserRateLimit_MessagesPerMinute := or_int (PerUserRateLimit_MessagesPerMinute p) 20;
    PerUserRateLimit_MessagesPerHour := or_int (PerUserRateLimit_MessagesPerHour p) 200 |} |};
  Security_Tools := Security_Tools s |}.

Definition default_datastore (d : DatastoreConfig) : DatastoreConfig :=
  let b := Datastore_Backup d in {|
  Datastore_Path := or_string (Datastore_Path d) "~/.open-nipper/nipper.db";
  Datastore_WALMode := Datastore_WALMode d;
  Datastore_BusyTimeoutMS := or_int (Datastore_BusyTimeoutMS d) 5000;
  Datastore_Backup := {|
    Backup_Enabled := Backup_Enabled b;
    Backup_Schedule := or_string (Backup_Schedule b) "0 2 * * *";
    Backup_RetentionDays := or_int (Backup_RetentionDays b) 30;
    Backup_Path := or_string (Backup_Path b) "~/.open-nipper/backups/" |} |}.

Definition default_telemetry (t : TelemetryConfig) : TelemetryConfig :=
  let c := Telemetry_Tracing t in let m := Telemetry_Metrics t in {|
  Telemetry_Tracing := {|
    Tracing_Enabled := Tracing_Enabled c; Tracing_Exporter := Tracing_Exporter c;
    Tracing_Protocol := Tracing_Protocol c; Tracing_Endpoint := Tracing_Endpoint c;
    Tracing_URLPath := Tracing_URLPath c;
    Tracing_ServiceName := or_string (Tracing_ServiceName c) "open-nipper-gateway";
    Tracing_SampleRate := or_float (Tracing_SampleRate c) (f_of_int 1) |};
  Telemetry_Metrics := {|
    Metrics_Enabled := Metrics_Enabled m; Metrics_Exporter := Metrics_Exporter m;
    Metrics_PrometheusPort := or_int (Metrics_PrometheusPort m) 9090;
    Metrics_Endpoint := Metrics_Endpoint m |} |}.

Definition default_channels (c : ChannelsConfig) : ChannelsConfig :=
  let w := WhatsAppChannel_Config (Channels_WhatsApp c) in
  let s := SlackChannel_Config (Channels_Slack c) in
  let m := MQTTChannel_Config (Channels_MQTT c) in {|
  Channels_WhatsApp := Build_WhatsAppChannelConfig (WhatsAppChannel_Enabled (Channels_WhatsApp c)) {|
    WhatsApp_WuzapiBaseURL := WhatsApp_WuzapiBaseURL w; WhatsApp_WuzapiToken := WhatsApp_WuzapiToken w;
    WhatsApp_WuzapiHMACKey := WhatsApp_WuzapiHMACKey w;
    WhatsApp_WuzapiInstanceName := WhatsApp_WuzapiInstanceName w;
    WhatsApp_WebhookPath := or_string (WhatsApp_WebhookPath w) "/webhook/whatsapp";
    WhatsApp_Events := WhatsApp_Events w; WhatsApp_Delivery := WhatsApp_Delivery w; WhatsApp_S3 := WhatsApp_S3 w |};
  Channels_Slack := Build_SlackChannelConfig (SlackChannel_Enabled (Channels_Slack c)) {|
    Slack_AppToken := Slack_AppToken s; Slack_BotToken := Slack_BotToken s;
    Slack_SigningSecret := Slack_SigningSecret s;
    Slack_WebhookPath := or_string (Slack_WebhookPath s) "/webhook/slack" |};
  Channels_Cron := Channels_Cron c;
  Channels_MQTT := Build_MQTTChannelConfig (MQTTChannel_Enabled (Channels_MQTT c)) {|
    MQTT_Broker := MQTT_Broker m; MQTT_ClientID := MQTT_ClientID m;
    MQTT_Username := MQTT_Username m; MQTT_Password := MQTT_Password m;
    MQTT_TopicPrefix := or_string (MQTT_TopicPrefix m) "nipper";
    MQTT_QoS := or_int (MQTT_QoS m) 1;
    MQTT_CleanSession := MQTT_CleanSession m;
    MQTT_KeepAlive := or_int (MQTT_KeepAlive m) 60;
    MQTT_Reconnect := MQTT_Reconnect m |};
  Channels_RabbitMQ := Channels_RabbitMQ c |}.

Definition applyDefaults (c : Config) : Config := {|
  Cfg_Gateway := default_gateway (Cfg_Gateway c);
  Cfg_Channels := default_channels (Cfg_Channels c);
  Cfg_Queue := default_queue (Cfg_Queue c);
  Cfg_Agents := default_agents (Cfg_Agents c);
  Cfg_Security := default_security (Cfg_Security c);
  Cfg_Datastore := default_datastore (Cfg_Datastore c);
  Cfg_Telemetry := default_telemetry (Cfg_Telemetry c);
  Cfg_Observability := Cfg_Observability c;
  Cfg_RawSecretFields := Cfg_RawSecretFields c |}.

(** ** loader.go: placeholders *)

Definition envVarPattern : Regexp := must_compile "\$\{([^}]+)\}".

Section load.
(** [os.LookupEnv]. *)
Context (env : string -> option string).

(** The name is the match without its first two bytes and its last. *)
Definition expand_var (text : string) : string :=
  match env (str_take (String.length text - 3) (str_drop 2 text)) with Some val => val | None => text end.

Definition resolveString (s : string) : string :=
  ReplaceAllFunc envVarPattern (fun m => expand_var (sm_text m)) s.

Definition resolve_gateway (g : GatewayConfig) : GatewayConfig :=
  let a := Gateway_Admin g in
  Build_GatewayConfig (Gateway_Bind g) (Gateway_Port g) (resolveString (Gateway_BaseURL g))
    (Gateway_ReadTimeoutSeconds g) (Gateway_WriteTimeoutSeconds g)
    (Build_AdminConfig (Admin_Enabled a) (Admin_Bind a) (Admin_Port a)
       (Build_AdminAuthConfig (AdminAuth_Enabled (Admin_Auth a)) (resolveString (AdminAuth_Token (Admin_Auth a))))).

Definition resolve_channels (c : ChannelsConfig) : ChannelsConfig :=
  let w := WhatsAppChannel_Config (Channels_WhatsApp c) in
  let s := SlackChannel_Config (Channels_Slack c) in
  let m := MQTTChannel_Config (Channels_MQTT c) in
  let r := RabbitMQChannel_Config (Channels_RabbitMQ c) in
  Build_ChannelsConfig
    (Build_WhatsAppChannelConfig (WhatsAppChannel_Enabled (Channels_WhatsApp c))
       (Build_WhatsAppConfig (WhatsApp_WuzapiBaseURL w) (resolveString (WhatsApp_WuzapiToken w))
          (resolveString (WhatsApp_WuzapiHMACKey w)) (WhatsApp_WuzapiInstanceName w) (WhatsApp_WebhookPath w)
          (WhatsApp_Events w) (WhatsApp_Delivery w) (WhatsApp_S3 w)))
    (Build_SlackChannelConfig (SlackChannel_Enabled (Channels_Slack c))
       (Build_SlackConfig (resolveString (Slack_AppToken s)) (resolveString (Slack_BotToken s))
          (resolveString (Slack_SigningSecret s)) (Slack_WebhookPath s)))
    (Channels_Cron c)
    (Build_MQTTChannelConfig (MQTTChannel_Enabled (Channels_MQTT c))
       (Build_MQTTConfig (MQTT_Broker m) (MQTT_ClientID m) (resolveString (MQTT_Username m))
          (resolveString (MQTT_Password m)) (MQTT_TopicPrefix m) (MQTT_QoS m) (MQTT_CleanSession m)
          (MQTT_KeepAlive m) (MQTT_Reconnect m)))
    (Build_RabbitMQChannelConfig (RabbitMQChannel_Enabled (Channels_RabbitMQ c))
       (Build_RabbitMQChanConfig (RabbitMQChan_URL r) (resolveString (RabbitMQChan_Username r))
          (resolveString (RabbitMQChan_Password r)) (RabbitMQChan_VHost r) (RabbitMQChan_ExchangeInbound r)
          (RabbitMQChan_ExchangeOutbound r) (RabbitMQChan_ExchangeDLX r) (RabbitMQChan_Prefetch r)
          (RabbitMQChan_Heartbeat r) (RabbitMQChan_Reconnect r))).

Definition resolve_telemetry (t : TelemetryConfig) : TelemetryConfig :=
  let c := Telemetry_Tracing t in let m := Telemetry_Metrics t in
  Build_TelemetryConfig
    (Build_TracingConfig (Tracing_Enabled c) (Tracing_Exporter c) (resolveString (Tracing_Protocol c))
       (resolveString (Tracing_Endpoint c)) (resolveString (Tracing_URLPath c))
       (resolveString (Tracing_ServiceName c)) (Tracing_SampleRate c))
    (Build_MetricsConfig (Metrics_Enabled m) (Metrics_Exporter m) (Metrics_PrometheusPort m)
       (resolveString (Metrics_Endpoint m))).

Definition resolveEnvPlaceholders (c : Config) : Config :=
  let q := Queue_RabbitMQ (Cfg_Queue c) in
  let m := Agents_RabbitMQManagement (Cfg_Agents c) in
  Build_Config (resolve_gateway (Cfg_Gateway c)) (resolve_channels (Cfg_Channels c))
    (Build_QueueConfig (Queue_Transport (Cfg_Queue c))
       (Build_QueueRabbitMQConfig (QueueRabbitMQ_URL q) (resolveString (QueueRabbitMQ_Username q))
          (resolveString (QueueRabbitMQ_Password q)) (QueueRabbitMQ_VHost q) (QueueRabbitMQ_Heartbeat q)
          (QueueRabbitMQ_Reconnect q))
       (Queue_DefaultMode (Cfg_Queue c)) (Queue_PerChannel (Cfg_Queue c)))
    (Build_AgentsConfig (Agents_HealthCheckIntervalSeconds (Cfg_Agents c))
       (Agents_ConsumerTimeoutSeconds (Cfg_Agents c)) (Agents_Registration (Cfg_Agents c))
       (Build_RMQManagementConfig (RMQManagement_URL m) (resolveString (RMQManagement_Username m))
          (resolveString (RMQManagement_Password m))))
    (Cfg_Security c) (Cfg_Datastore c) (resolve_telemetry (Cfg_Telemetry c)) (Cfg_Observability c)
    (Cfg_RawSecretFields c).

(** The secrets of a configuration, by their names in the file. *)
Definition collectRawSecretFields (c : Config) : list (string * string) :=
  let ch := Cfg_Channels c in
  [("channels.whatsapp.config.wuzapi_token", WhatsApp_WuzapiToken (WhatsAppChannel_Config (Channels_WhatsApp ch)));
   ("channels.whatsapp.config.wuzapi_hmac_key", WhatsApp_WuzapiHMACKey (WhatsAppChannel_Config (Channels_WhatsApp ch)));
   ("channels.slack.config.bot_token", Slack_BotToken (SlackChannel_Config (Channels_Slack ch)));
   ("channels.slack.config.signing_secret", Slack_SigningSecret (SlackChannel_Config (Channels_Slack ch)));
   ("channels.slack.config.app_token", Slack_AppToken (SlackChannel_Config (Channels_Slack ch)));
   ("channels.mqtt.config.password", MQTT_Password (MQTTChannel_Config (Channels_MQTT ch)));
   ("channels.rabbitmq_channel.config.password", RabbitMQChan_Password (RabbitMQChannel_Config (Channels_RabbitMQ ch)));
   ("queue.rabbitmq.password", QueueRabbitMQ_Password (Queue_RabbitMQ (Cfg_Queue c)));
   ("agents.rabbitmq_management.password", RMQManagement_Password (Agents_RabbitMQManagement (Cfg_Agents c)));
   ("gateway.admin.auth.token", AdminAuth_Token (Admin_Auth (Gateway_Admin (Cfg_Gateway c))))].

(** ** Paths and validation *)

Definition path_text (p : path) : string :=
  if fst p then "/" +:+ str_join (rev (snd p)) "/"
  else match snd p with [] => "." | cs => str_join (rev cs) "/" end.

(** [os.UserHomeDir]. *)
Definition UserHomeDir : result string string :=
  match env "HOME" with
  | Some (String c h) => Ok (String c h)
  | _ => Err "$HOME is not defined"
  end.

Definition expandTilde (p : string) : result string string :=
  if negb (has_prefix p "~") then Ok p
  else match UserHomeDir with
       | Err e => Err ("cannot determine home directory: " +:+ e)
       | Ok home => Ok (path_text (Join (Clean home) (str_drop 1 p)))
       end.

Definition ExpandDatastorePath (c : Config) : result string string := expandTilde (Datastore_Path (Cfg_Datastore c)).

(** The requirements of an enabled channel: a field and its name. *)
Definition channel_requirements (c : ChannelsConfig) : list (bool * string * string) :=
  let w := Channels_WhatsApp c in let s := Channels_Slack c in let m := Channels_MQTT c in
  [(WhatsAppChannel_Enabled w, WhatsApp_WuzapiBaseURL (WhatsAppChannel_Config w),
    "channels.whatsapp.config.wuzapi_base_url is required when whatsapp is enabled");
   (WhatsAppChannel_Enabled w, WhatsApp_WuzapiToken (WhatsAppChannel_Config w),
    "channels.whatsapp.config.wuzapi_token is required when whatsapp is enabled");
   (SlackChannel_Enabled s, Slack_BotToken (SlackChannel_Config s),
    "channels.slack.config.bot_token is required when slack is enabled");
   (SlackChannel_Enabled s, Slack_SigningSecret (SlackChannel_Config s),
    "channels.slack.config.signing_secret is required when slack is enabled");
   (MQTTChannel_Enabled m, MQTT_Broker (MQTTChannel_Config m),
    "channels.mqtt.config.broker is required when mqtt is enabled")].

Definition missing (r : bool * string * string) : bool := let '(enabled, value, _) := r in enabled && (value =? "")%string.

Definition Validate (c : Config) : option string :=
  let g := Cfg_Gateway c in
  if Gateway_Port g =? Admin_Port (Gateway_Admin g) then
    Some ("gateway.port and gateway.admin.port must be different (both are " +:+ fmt_d (Gateway_Port g) +:+ ")")
  else match List.find missing (channel_requirements (Cfg_Channels c)) with
  | Some (_, _, text) => Some text
  | None =>
      match expandTilde (Datastore_Path (Cfg_Datastore c)) with
      | Err e => Some ("datastore.path is invalid: " +:+ e)
      | Ok _ => None
      end
  end.

(** ** Load

    viper reads the file ([read], which tells a missing file apart), merges the
    overlay when it exists, and decodes what it has over its own defaults. *)
Inductive read_error := NotExist | ReadFailed (e : string).

(** [filepath.Ext] and [strings.TrimSuffix] of it: the text before the last dot
    of the last element. *)
Definition without_ext (p : string) : string :=
  match last_index "." p with
  | None => p
  | Some i =>
      match last_index "/" p with
      | Some j => if (i <? j)%nat then p else str_take i p
      | None => str_take i p
      end
  end.

Context (read : string -> option read_error) (exists_file : string -> bool) (merge : string -> option string)
        (unmarshal : string -> bool -> result string Config).

Definition set_raw (raw : list (string * string)) (c : Config) : Config :=
  Build_Config (Cfg_Gateway c) (Cfg_Channels c) (Cfg_Queue c) (Cfg_Agents c) (Cfg_Security c) (Cfg_Datastore c)
    (Cfg_Telemetry c) (Cfg_Observability c) raw.

(** What follows the decoding. *)
Definition finish (c : Config) : result string Config :=
  let c := applyDefaults c in
  let c := set_raw (collectRawSecretFields c) c in
  let c := resolveEnvPlaceholders c in
  match Validate c with Some e => Err ("config: validation: " +:+ e) | None => Ok c end.

Definition Load (configPath : string) : result string Config :=
  match expandTilde configPath with
  | Err e => Err ("config: expand path: " +:+ e)
  | Ok expanded =>
      match read expanded with
      | Some (ReadFailed e) => Err ("config: read " +:+ expanded +:+ ": " +:+ e)
      | _ =>
          let localPath := without_ext expanded +:+ ".local.yaml" in
          let overlay := exists_file localPath in
          match (if overlay then merge localPath else None) with
          | Some e => Err ("config: merge local overlay " +:+ localPath +:+ ": " +:+ e)
          | None =>
              match unmarshal expanded overlay with
              | Err e => Err ("config: unmarshal: " +:+ e)
              | Ok c => finish c
              end
          end
      end
  end.
End load.

(** ** What a placeholder becomes *)

Definition not_brace (x : Z) : bool := negb (x =? 125).

(** The placeholder at the start of a text: ["${"], at least one rune other than
    ["}"], and the first ["}"]. *)
Definition placeholder (l : list cell) : option (list cell * list cell) :=
  match l with
  | d :: o :: rest =>
      if (fst d =? 36) && (fst o =? 123) then
        match span not_brace rest with
        | (c :: name, close :: rest') => Some ((d :: o :: c :: name ++ [close])%list, rest')
        | _ => None
        end
      else None
  | _ => None
  end.

(** The reference reading of a text, byte by byte: at ["${"], a name that is not
    empty and ends at the first ["}"] stands for the value of its variable when it
    is set, and the reading goes on after it; everything else is kept. *)
Fixpoint expanded (env : string -> option string) (n : nat) (s : string) : string :=
  match n, s with
  | S n, String c s' =>
      match match strip_prefix "${" s with Some tail => str_cut "}" tail | None => None end with
      | Some (String _ _ as name, rest) =>
          match env name with Some v => v | None => "${" +:+ name +:+ "}" end +:+ expanded env n rest
      | _ => String c (expanded env n s')
      end
  | _, _ => ""
  end.

Lemma env_pattern : exists d o b n,
  (forall x, d x = (x =? 36)) /\ (forall x, o x = (x =? 123)) /\ (forall x, b x = (x =? 125)) /\
  (forall x, n x = not_brace x) /\
  re_prog envVarPattern
  = Cat (Cat (Cat (Cat Eps (Chr d)) (Chr o)) (Group 1 (Cat Eps (Cat (Chr n) (Star true (Chr n)))))) (Chr b).
Proof.
  do 4 eexists. split_and!; cycle 4.
  - vm_compute. reflexivity.
  - intros x. by destruct x as [|p|]; [done| |done]; do 7 (destruct p as [p|p|]; try done).
  - intros x. by destruct x as [|p|]; [done| |done]; do 8 (destruct p as [p|p|]; try done).
  - intros x. by destruct x as [|p|]; [done| |done]; do 8 (destruct p as [p|p|]; try done).
  - intros x. by destruct x as [|p|]; [done| |done]; do 8 (destruct p as [p|p|]; try done).
Qed.

Lemma placeholder_head prev l :
  match mt (re_prog envVarPattern) (Build_mstate prev l []) Some with
  | Some st => exists w, placeholder l = Some (w, m_rest st) /\ l = (w ++ m_rest st)%list
  | None => placeholder l = None
  end.
Proof.
  destruct env_pattern as (d & o & b & n & Hd & Ho & Hb & Hn & ->).
  remember (Star true (Chr n)) as run_n eqn:Hrun.
  destruct l as [|x l]; [done|]. cbn [mt m_rest m_prev m_caps]. rewrite Hd.
  destruct l as [|y l]; [simpl; by destruct (fst x =? 36)|]. cbn [mt m_rest m_prev m_caps placeholder]. 
  destruct (fst x =? 36) eqn:Ex; [|done]. rewrite Ho. destruct (fst y =? 123) eqn:Ey; [|done]. cbn [andb].
  destruct l as [|c l]; [done|]. cbn [mt m_rest m_prev m_caps span]. rewrite Hn.
  destruct (not_brace (fst c)) eqn:Ec; [|done]. rewrite Hrun, (mt_run_then n).
  - rewrite (span_ext n not_brace) by done. pose proof (span_app not_brace l) as Hl.
    pose proof (span_stops not_brace l) as Hs.
    destruct (span not_brace l) as [name tail]. cbn [fst snd mt m_rest m_prev m_caps] in *.
    destruct tail as [|z tail]; [done|]. rewrite Hb.
    specialize (Hs z tail eq_refl). apply negb_false_iff in Hs. rewrite Hs.
    eexists. split; [done|]. cbn [m_rest app]. by rewrite <- Hl, <- !app_assoc.
  - intros prev' c' rest caps Hc'. cbn [m_rest]. rewrite Hn in Hc'. apply negb_true_iff in Hc'. by rewrite Hb, Hc'.
Qed.

(** The bytes of a decoded text: a rune is one byte of ASCII or holds none. *)
Lemma seg_ascii c : seg_ok c -> fst c < 128 -> snd c = String (of_byte (fst c)) "".
Proof.
  intros (Hr & [Hb|[Hb _]] & _) Hl; [|unfold rune_error in Hb; lia]. rewrite Hb. apply utf8_encode_ascii.
  unfold scalar in Hr. lia.
Qed.

Lemma seg_lacks a c : seg_ok c -> byte_of a < 128 -> fst c <> byte_of a -> lacks a (snd c) = true.
Proof.
  intros Hc Ha Hne. destruct (Z.ltb_spec (fst c) 128) as [Hl|Hl].
  - rewrite (seg_ascii c) by done. cbn. rewrite andb_true_r. apply negb_true_iff, Ascii.eqb_neq. intros <-.
    destruct Hc as [Hr _]. unfold scalar in Hr. rewrite byte_of_of in Hne; lia.
  - destruct Hc as (_ & _ & Hh). specialize (Hh Hl). eapply str_forall_impl; [|exact Hh]. intros x Hx%Z.leb_le.
    apply negb_true_iff, Ascii.eqb_neq. intros ->. lia.
Qed.

Lemma seg_cons c : seg_ok c -> exists x b, snd c = String x b.
Proof.
  intros (_ & [Hb|[_ Hb]] & _); [|destruct (snd c); [done|eauto]]. rewrite Hb. unfold utf8_encode. repeat case_match; do 2 eexists; reflexivity.
Qed.

Lemma str_cut_past a b s : lacks a b = true ->
  str_cut (String a "") (b +:+ s) = match str_cut (String a "") s with Some (x, y) => Some (b +:+ x, y) | None => None end.
Proof.
  unfold lacks. induction b as [|x b IH]; cbn [str_forall]; intros H; [simpl; by destruct (str_cut (String a "") s) as [[]|]|].
  apply andb_true_iff in H as [Hx Hb]. cbn [String.append str_cut strip_prefix].
  rewrite Ascii.eqb_sym. apply negb_true_iff in Hx. rewrite Hx, (IH Hb).
  by destruct (str_cut (String a "") s) as [[]|].
Qed.

Lemma segs_app a b : segs_bytes (a ++ b) = segs_bytes a +:+ segs_bytes b.
Proof.
  induction a as [|c a IH]; [done|]. change (snd c +:+ segs_bytes (a ++ b) = (snd c +:+ segs_bytes a) +:+ segs_bytes b).
  by rewrite IH, str_app_assoc.
Qed.

Lemma span_cut l : Forall seg_ok l ->
  str_cut "}" (segs_bytes l) =
  match span not_brace l with (name, _ :: rest) => Some (segs_bytes name, segs_bytes rest) | (_, []) => None end.
Proof.
  induction 1 as [|c l Hc Hl IH]; [done|]. change (segs_bytes (c :: l)) with (snd c +:+ segs_bytes l). cbn [span].
  destruct (not_brace (fst c)) eqn:E.
  - apply negb_true_iff, Z.eqb_neq in E. rewrite str_cut_past by (by apply seg_lacks). rewrite IH.
    by destruct (span not_brace l) as [name [|d rest]].
  - apply negb_false_iff, Z.eqb_eq in E. rewrite (seg_ascii c), E by (done || lia). done.
Qed.

Lemma expanded_past env b : forall m s, lacks "$" b = true -> (String.length b <= m)%nat ->
  expanded env m (b +:+ s) = b +:+ expanded env (m - String.length b) s.
Proof.
  induction b as [|x b IH]; intros m s H Hm; [by rewrite Nat.sub_0_r|]. destruct m as [|m]; [simpl in Hm; lia|].
  unfold lacks in H. cbn [str_forall] in H. apply andb_true_iff in H as [Hx Hb].
  cbn [String.append expanded strip_prefix]. rewrite Ascii.eqb_sym. apply negb_true_iff in Hx. rewrite Hx.
  f_equal. by apply IH; [|simpl in Hm; lia].
Qed.

Lemma expand_var_name env name :
  expand_var env ("${" +:+ name +:+ "}") = match env name with Some v => v | None => "${" +:+ name +:+ "}" end.
Proof.
  unfold expand_var. replace (str_take _ _) with name; [done|]. cbn [String.append String.length str_drop].
  rewrite str_app_length. cbn [String.length]. replace (S (S (String.length name + 1)) - 3)%nat with (String.length name) by lia.
  by rewrite str_take_app.
Qed.

(** The two cells that open a placeholder, in bytes. *)
Lemma opens l : Forall seg_ok l -> forall c l', l = c :: l' -> fst c = 36 ->
  strip_prefix "${" (segs_bytes l) = match l' with o :: rest => if fst o =? 123 then Some (segs_bytes rest) else None | [] => None end.
Proof.
  intros H c l' -> E. apply Forall_cons in H as [Hc H]. change (segs_bytes (c :: l')) with (snd c +:+ segs_bytes l').
  rewrite (seg_ascii c), E by (done || lia). destruct l' as [|o rest]; [done|]. apply Forall_cons in H as [Ho _].
  change (segs_bytes (o :: rest)) with (snd o +:+ segs_bytes rest). destruct (Z.eqb_spec (fst o) 123) as [Eo|Eo].
  - by rewrite (seg_ascii o), Eo by (done || lia).
  - pose proof (seg_lacks "{" o Ho ltac:(done) Eo) as Hl. destruct (seg_cons o Ho) as (x & b & Hb). rewrite Hb in *.
    unfold lacks in Hl. cbn [str_forall] in Hl. apply andb_true_iff in Hl as [Hx _]. apply negb_true_iff in Hx.
    change (of_byte 36) with "$"%char. cbn [String.append strip_prefix]. by rewrite Ascii.eqb_refl, Ascii.eqb_sym, Hx.
Qed.

Lemma scan_expanded env n : forall l m, Forall seg_ok l -> (length l <= n)%nat -> (String.length (segs_bytes l) <= m)%nat ->
  scan placeholder (expand_var env) n l = expanded env m (segs_bytes l).
Proof.
  induction n as [|n IH]; intros [|c l] m Hl Hn Hm; try (by destruct m); [simpl in Hn; lia|].
  assert (Hc : seg_ok c /\ Forall seg_ok l) by (by apply Forall_cons). destruct Hc as [Hc Hl'].
  assert (Hlen : String.length (segs_bytes (c :: l)) = (String.length (snd c) + String.length (segs_bytes l))%nat)
    by apply str_app_length. rewrite Hlen in Hm. simpl in Hn.
  assert (Hrest : forall m, (String.length (segs_bytes l) <= m)%nat -> scan placeholder (expand_var env) n l = expanded env m (segs_bytes l))
    by (intros; apply IH; [done|lia|done]).
  destruct (Z.eqb_spec (fst c) 36) as [E|E].
  - pose proof (opens (c :: l) Hl c l eq_refl E) as Hopen. pose proof (seg_ascii c Hc ltac:(lia)) as Hb. rewrite E in Hb.
    assert (Hs : segs_bytes (c :: l) = String "$" (segs_bytes l)) by (change (snd c +:+ segs_bytes l = String "$" (segs_bytes l)); by rewrite Hb).
    destruct m as [|m]; [rewrite Hb in Hm; simpl in Hm; lia|]. rewrite Hs in *. cbn [expanded scan]. rewrite Hopen.
    assert (Hkeep : snd c +:+ scan placeholder (expand_var env) n l = String "$" (expanded env m (segs_bytes l))).
    { rewrite Hb, (Hrest m) by (rewrite Hb in Hm; simpl in Hm; lia). done. }
    destruct l as [|o l]; [done|].
    change (placeholder (c :: o :: l)) with
      (if (fst c =? 36) && (fst o =? 123) then
         match span not_brace l with
         | (e :: name, close :: rest) => Some ((c :: o :: e :: name ++ [close])%list, rest)
         | _ => None
         end
       else None).
    rewrite E. cbn [Z.eqb Pos.eqb andb].
    destruct (Z.eqb_spec (fst o) 123) as [Eo|Eo]; [|done].
    apply Forall_cons in Hl' as [Ho Hl']. rewrite (span_cut l Hl'). pose proof (span_app not_brace l) as Happ.
    pose proof (span_stops not_brace l) as Hstop. destruct (span not_brace l) as [[|d name] [|close rest]]; try done.
    cbn [fst snd] in *. specialize (Hstop close rest eq_refl). apply negb_false_iff, Z.eqb_eq in Hstop.
    pose proof (f_equal (@length cell) Happ) as Hlen2. rewrite length_app in Hlen2. rewrite <- Happ in Hl', Hm. apply Forall_app in Hl' as [Hname Hl'']. apply Forall_cons in Hl'' as [Hclose Hrest'].
    pose proof (seg_ascii close Hclose ltac:(lia)) as Hcb. pose proof (seg_ascii o Ho ltac:(lia)) as Hob. rewrite Hstop in Hcb. rewrite Eo in Hob.
    destruct (seg_cons d) as (x & b & Hd); [by apply Forall_cons in Hname as [? _]|].
    assert (Hw : segs_bytes (c :: o :: d :: name ++ [close]) = "${" +:+ segs_bytes (d :: name) +:+ "}").
    { change (segs_bytes (c :: o :: d :: name ++ [close])) with (snd c +:+ snd o +:+ snd d +:+ segs_bytes (name ++ [close])).
      rewrite Hb, Hob, segs_app. change (segs_bytes [close]) with (snd close +:+ ""). rewrite Hcb.
      change (segs_bytes (d :: name)) with (snd d +:+ segs_bytes name). rewrite !str_app_assoc. reflexivity. }
    assert (Hnm : segs_bytes (d :: name) = String x (b +:+ segs_bytes name)) by (change (snd d +:+ segs_bytes name = String x (b +:+ segs_bytes name)); by rewrite Hd).
    rewrite Hw, expand_var_name, Hnm. rewrite (IH rest m); [reflexivity|done|simpl in Hn, Hlen2; lia|].
    change (segs_bytes (o :: (d :: name) ++ close :: rest)) with (snd o +:+ segs_bytes ((d :: name) ++ close :: rest)) in Hm.
    rewrite segs_app, !str_app_length, Hb, Hob in Hm.
    change (segs_bytes (close :: rest)) with (snd close +:+ segs_bytes rest) in Hm. rewrite str_app_length, Hcb in Hm. simpl in Hm. lia.
  - change (segs_bytes (c :: l)) with (snd c +:+ segs_bytes l). cbn [scan].
    assert (Hnone : placeholder (c :: l) = None) by (unfold placeholder; destruct l; [done|]; by apply Z.eqb_neq in E as ->).
    rewrite Hnone, expanded_past; [|by apply seg_lacks|lia]. f_equal. apply Hrest. lia.
Qed.
(** C15: resolving a configuration value is the reading of its bytes from left to
    right ([expanded]): at a placeholder [${NAME}] with a name that is not empty the
    value of the variable [NAME] comes in its place when it is set, the placeholder
    itself when it is not, nothing that was put in is read again, and every other
    byte is kept. *)
Theorem resolve_exact env s : resolveString env s = expanded env (String.length s) s.
Proof.
  transitivity (scan placeholder (expand_var env) (length (utf8_segs s)) (utf8_segs s)).
  - apply (ReplaceAllFunc_scan (re_prog envVarPattern)); [done|apply placeholder_head|done].
  - rewrite (scan_expanded env _ _ (String.length s)); rewrite ?utf8_segs_bytes; done || apply utf8_segs_ok.
Qed.

Example resolve_demo :
  let env x := if (x =? "A")%string then Some "${B}" else if (x =? "B")%string then Some "b" else None in
  resolveString env "x${A}-${B}-${C}-${}-$B" = "x${B}-b-${C}-${}-$B".
Proof. vm_compute. reflexivity. Qed.

(** ** What a loaded configuration satisfies *)

Lemma or_int_nonzero z d : d <> 0 -> or_int z d <> 0.
Proof. unfold or_int. by destruct (Z.eqb_spec z 0). Qed.

Lemma find_none_Forall {A} (p : A -> bool) l : List.find p l = None -> Forall (fun x => p x = false) l.
Proof. intros H. apply List.Forall_forall. intros x. by apply (List.find_none _ _ H). Qed.

Lemma Validate_channels env c : Validate env c = None ->
  Forall (fun r => fst (fst r) = true -> snd (fst r) <> "") (channel_requirements (Cfg_Channels c)).
Proof.
  unfold Validate. destruct (_ =? _); [done|]. destruct (List.find _ _) as [[[? ?] ?]|] eqn:E; [done|]. intros _.
  eapply Forall_impl; [by apply find_none_Forall|]. intros [[[] v] t]; [|done]. simpl. by destruct (String.eqb_spec v "").
Qed.

Lemma Validate_rest env c : Validate env c = None ->
  Gateway_Port (Cfg_Gateway c) <> Admin_Port (Gateway_Admin (Cfg_Gateway c)) /\
  exists p, ExpandDatastorePath env c = Ok p.
Proof.
  unfold Validate. destruct (Z.eqb_spec (Gateway_Port (Cfg_Gateway c)) (Admin_Port (Gateway_Admin (Cfg_Gateway c)))) as [|Hp]; [done|].
  destruct (List.find _ _) as [[[? ?] ?]|]; [done|]. unfold ExpandDatastorePath.
  destruct (expandTilde _ _) as [p|]; [|done]. eauto.
Qed.

Lemma finish_Ok env c cfg : finish env c = Ok cfg ->
  cfg = resolveEnvPlaceholders env (set_raw (collectRawSecretFields (applyDefaults c)) (applyDefaults c)) /\
  Validate env cfg = None.
Proof. unfold finish. cbv zeta. destruct (Validate _ _) eqn:E; [done|]. by intros [= <-]. Qed.

Section loaded.
Context (env : string -> option string) (read : string -> option read_error) (exists_file : string -> bool)
        (merge : string -> option string) (unmarshal : string -> bool -> result string Config).

Lemma Load_Ok path cfg : Load env read exists_file merge unmarshal path = Ok cfg ->
  exists c, finish env c = Ok cfg.
Proof.
  unfold Load. destruct (expandTilde _ _) as [ex|]; [|done].
  destruct (read ex) as [[|]|]; try done; cbv zeta; destruct (if exists_file _ then _ else None); try done;
    destruct (unmarshal _ _); try done; eauto.
Qed.

(** C16: a configuration that was loaded is consistent: its two ports differ and
    are not zero, the enabled channels have what they need, the limits are not
    zero, the data store's path expands, and resolving the raw secrets gives the
    secrets in use. *)
Theorem loaded_sound path cfg : Load env read exists_file merge unmarshal path = Ok cfg ->
  let g := Cfg_Gateway cfg in
  let ch := Cfg_Channels cfg in
  let limits := RateLimit_PerUser (Security_RateLimit (Cfg_Security cfg)) in
  Gateway_Port g <> Admin_Port (Gateway_Admin g) /\ Gateway_Port g <> 0 /\ Admin_Port (Gateway_Admin g) <> 0 /\
  (WhatsAppChannel_Enabled (Channels_WhatsApp ch) = true ->
     WhatsApp_WuzapiBaseURL (WhatsAppChannel_Config (Channels_WhatsApp ch)) <> "" /\
     WhatsApp_WuzapiToken (WhatsAppChannel_Config (Channels_WhatsApp ch)) <> "") /\
  (SlackChannel_Enabled (Channels_Slack ch) = true ->
     Slack_BotToken (SlackChannel_Config (Channels_Slack ch)) <> "" /\
     Slack_SigningSecret (SlackChannel_Config (Channels_Slack ch)) <> "") /\
  (MQTTChannel_Enabled (Channels_MQTT ch) = true -> MQTT_Broker (MQTTChannel_Config (Channels_MQTT ch)) <> "") /\
  PerUserRateLimit_MessagesPerMinute limits <> 0 /\ PerUserRateLimit_MessagesPerHour limits <> 0 /\
  (exists p, ExpandDatastorePath env cfg = Ok p) /\
  map (fun kv => (fst kv, resolveString env (snd kv))) (Cfg_RawSecretFields cfg) = collectRawSecretFields cfg.
Proof.
  intros (c & H)%Load_Ok g ch limits. destruct (finish_Ok _ _ _ H) as [Heq HV].
  pose proof (Validate_channels _ _ HV) as Hc. destruct (Validate_rest _ _ HV) as [Hp Hx].
  unfold channel_requirements in Hc. rewrite !Forall_cons in Hc. destruct Hc as (? & ? & ? & ? & ? & _).
  split_and!; try (intros; split); auto.
  - subst g. rewrite Heq. by apply or_int_nonzero.
  - subst g. rewrite Heq. by apply or_int_nonzero.
  - subst limits. rewrite Heq. by apply or_int_nonzero.
  - subst limits. rewrite Heq. by apply or_int_nonzero.
  - by rewrite Heq.
Qed.
End loaded.

(** ** A gateway of two channels *)

Definition demo_env (name : string) : option string :=
  if (name =? "WUZAPI_TOKEN")%string then Some "tok-${HOME}" else if (name =? "HOME")%string then Some "/home/op" else None.

Definition demo_config : Config :=
  let z := zero_Config in
  Build_Config
    (Build_GatewayConfig "" 0 "" 0 0 (Build_AdminConfig true "" 0 (Build_AdminAuthConfig true "${ADMIN_TOKEN}")))
    (Build_ChannelsConfig
       (Build_WhatsAppChannelConfig true (Build_WhatsAppConfig "http://wuzapi" "${WUZAPI_TOKEN}" "" "" "" []
          (WhatsApp_Delivery (WhatsAppChannel_Config (Channels_WhatsApp (Cfg_Channels z))))
          (WhatsApp_S3 (WhatsAppChannel_Config (Channels_WhatsApp (Cfg_Channels z))))))
       (Channels_Slack (Cfg_Channels z)) (Channels_Cron (Cfg_Channels z)) (Channels_MQTT (Cfg_Channels z))
       (Channels_RabbitMQ (Cfg_Channels z)))
    (Cfg_Queue z) (Cfg_Agents z) (Cfg_Security z) (Cfg_Datastore z) (Cfg_Telemetry z) (Cfg_Observability z) [].

Definition demo_loaded : result string Config :=
  Load demo_env (fun _ => Some NotExist) (fun _ => false) (fun _ => None) (fun _ _ => Ok demo_config) "~/nipper.yaml".

Definition loaded_value {A} (f : Config -> A) : option A := match demo_loaded with Ok c => Some (f c) | Err _ => None end.

(** The value of a variable is not resolved again; a variable that is not set
    leaves its placeholder, which then is the admin server's token. *)
Example demo_secrets :
  loaded_value (fun c => (WhatsApp_WuzapiToken (WhatsAppChannel_Config (Channels_WhatsApp (Cfg_Channels c))),
                          AdminAuth_Token (Admin_Auth (Gateway_Admin (Cfg_Gateway c))),
                          ExpandDatastorePath demo_env c))
  = Some ("tok-${HOME}", "${ADMIN_TOKEN}", Ok "/home/op/.open-nipper/nipper.db").
Proof. vm_compute. reflexivity. Qed.

Lemma loaded_sound_witness :
  match demo_loaded with
  | Ok cfg => Gateway_Port (Cfg_Gateway cfg) <> Admin_Port (Gateway_Admin (Cfg_Gateway cfg))
  | Err _ => False
  end.
Proof.
  destruct demo_loaded as [cfg|e] eqn:E; [|vm_compute in E; discriminate].
  exact (proj1 (loaded_sound _ _ _ _ _ _ _ E)).
Defined.
