(* ===== verification/CronAdapter.v ===== *)
(** * The cron channel (channels/cron/adapter.go)

    The adapter around the scheduler of [Scheduler]: what it loads when it starts,
    its health, the messages of jobs that are triggered by hand, and the check of
    its configuration.  [manual_equals_fired] says that a job triggered by hand
    gives the message the scheduler gives when it fires it. *)
From Stdlib Require Import ZArith Lia Bool Ascii String List.
From stdpp Require Import base gmap strings option list.
From S2P Require Import Prelude GoString GoTime GoJson GoJsonParse GoJsonProofs SessionKey Models Repo Sqlite Resolver.
From S2P Require Import Scheduler Config.

Local Open Scope string_scope.
Local Open Scope Z_scope.
Local Open Scope reader_scope.

Record cron_payload := { cp_JobID : string; cp_UserID : string; cp_Prompt : string }.
Definition zero_payload : cron_payload := Build_cron_payload "" "" "".
Definition dec_payload : decoder cron_payload := dec_struct (fun x =>
  let f {B} := @field B ["jobId"; "userId"; "prompt"] in
  Build_cron_payload
    <$$> f "jobId" dec_string (cp_JobID x) <*> f "userId" dec_string (cp_UserID x) <*> f "prompt" dec_string (cp_Prompt x)).

Section adapter.
Context {C : Type} `{CronLib C}.
(** The error of [time.LoadLocation], the uuid, and fmt's [%q]. *)
Context (load_location : string -> option string) (quote : string -> string).

Record Adapter := {
  ad_cfg : CronChannelConfig;
  ad_cron : CronState C;                       (* the scheduler's recurring jobs *)
  ad_at : AtState;                             (* its one-shot jobs *)
  ad_handler : bool;
  ad_cleanup : bool;
  ad_running : bool;
  ad_validator : option (string -> result string bool);
  ad_initialJobs : list job }.

Definition set_cron (c : CronState C) (a : Adapter) : Adapter :=
  Build_Adapter (ad_cfg a) c (ad_at a) (ad_handler a) (ad_cleanup a) (ad_running a) (ad_validator a) (ad_initialJobs a).
Definition set_at (s : AtState) (a : Adapter) : Adapter :=
  Build_Adapter (ad_cfg a) (ad_cron a) s (ad_handler a) (ad_cleanup a) (ad_running a) (ad_validator a) (ad_initialJobs a).
Definition set_running (r : bool) (a : Adapter) : Adapter :=
  Build_Adapter (ad_cfg a) (ad_cron a) (ad_at a) (ad_handler a) (ad_cleanup a) r (ad_validator a) (ad_initialJobs a).

Definition invalid_timezone (tz e : string) : string := "cron: invalid timezone " +:+ quote tz +:+ ": " +:+ e.

Definition bad_timezone (cfg : CronChannelConfig) : option string :=
  if (CronChannel_Timezone cfg =? "")%string then None
  else match load_location (CronChannel_Timezone cfg) with Some e => Some (invalid_timezone (CronChannel_Timezone cfg) e) | None => None end.

Definition NewAdapter (cfg : CronChannelConfig) (validator : option (string -> result string bool)) : result string Adapter :=
  match bad_timezone cfg with
  | Some e => Err e
  | None => Ok (Build_Adapter cfg NewCron NewAt false false false validator [])
  end.

Definition SetHandler (a : Adapter) : Adapter :=
  Build_Adapter (ad_cfg a) (ad_cron a) (ad_at a) true (ad_cleanup a) (ad_running a) (ad_validator a) (ad_initialJobs a).
Definition SetAtCleanup (a : Adapter) : Adapter :=
  Build_Adapter (ad_cfg a) (ad_cron a) (ad_at a) (ad_handler a) true (ad_running a) (ad_validator a) (ad_initialJobs a).
Definition SetInitialJobs (jobs : list job) (a : Adapter) : Adapter :=
  Build_Adapter (ad_cfg a) (ad_cron a) (ad_at a) (ad_handler a) (ad_cleanup a) (ad_running a) (ad_validator a) jobs.

(** The jobs that count: a list that was set, unless it is empty. *)
Definition start_jobs (a : Adapter) : list job :=
  match ad_initialJobs a with [] => CronChannel_Jobs (ad_cfg a) | l => l end.

(** [LoadJobs] returns no error. *)
Definition Start (a : Adapter) : Adapter :=
  set_running true (set_cron (Scheduler.LoadJobs (start_jobs a) (ad_validator a) (ad_cron a)) a).
Definition Stop (a : Adapter) : Adapter := set_running false a.

Definition HealthCheck (a : Adapter) : option string :=
  if (0 <? length (start_jobs a))%nat && (JobCount (ad_cron a) =? 0)%nat then Some "cron: all jobs failed validation" else None.

Definition is_job (userID id : string) (j : job) : bool := (jb_ID j =? id)%string && (jb_UserID j =? userID)%string.

(** The channels of the job; a list without elements is nil. *)
Definition notify_channels (a : Adapter) (p : cron_payload) : list string :=
  match from_option jb_NotifyChannels [] (List.find (is_job (cp_UserID p) (cp_JobID p)) (Jobs (ad_cron a))) with
  | [] => from_option jb_NotifyChannels [] (List.find (fun j => (jb_ID j =? cp_JobID p)%string) (CronChannel_Jobs (ad_cfg a)))
  | l => l
  end.

Definition NormalizeInbound (uuid : string) (now : Z) (raw : string) (a : Adapter) : result string NipperMessage :=
  match unmarshal dec_payload zero_payload raw with
  | (_, Some _) => Err "cron normalise"
  | (p, None) =>
      if (cp_JobID p =? "")%string || (cp_UserID p =? "")%string || (cp_Prompt p =? "")%string
      then Err "cron normalise: jobId, userId, and prompt are required"
      else Ok {|
        nm_MessageID := uuid;
        nm_OriginMessageID := "cron:" +:+ cp_JobID p +:+ ":" +:+ fmt_d (unix_milli now);
        nm_UserID := cp_UserID p;
        nm_SessionKey := "";
        nm_ChannelType := ChannelTypeCron;
        nm_ChannelIdentity := "cron:" +:+ cp_JobID p;
        nm_Content := Build_MessageContent (cp_Prompt p) [];
        nm_DeliveryContext := Build_DeliveryContext ChannelTypeCron (cp_JobID p) "broadcast" "" (notify_channels a p) CronCapabilities;
        nm_Meta := Some (MetaCron (Build_CronMeta (cp_JobID p) (format_rfc3339 now)));
        nm_Timestamp := now;
        nm_DedupeKey := "" |}
  end.

(** Responses and events of the channel go to the broadcast: nothing is sent. *)
Definition DeliverResponse (r : NipperResponse) : option string := None.
Definition DeliverEvent (e : NipperEvent) : option string := None.

Definition AddJob (j : job) (a : Adapter) : result sched_error unit * Adapter :=
  let '(r, c) := Scheduler.AddJob j (ad_cron a) in (r, set_cron c a).
Definition RemoveJob (userID id : string) (a : Adapter) : bool * Adapter :=
  let '(r, c) := Scheduler.RemoveJob userID id (ad_cron a) in (r, set_cron c a).
Definition LoadAtJobs (jobs : list job) (now : Z) (a : Adapter) : Adapter :=
  set_at (Scheduler.LoadAtJobs (ad_cleanup a) jobs (ad_validator a) now (ad_at a)) a.
Definition AddAtJob (j : job) (now : Z) (a : Adapter) : result sched_error unit * Adapter :=
  let '(r, s) := Scheduler.AddAtJob j now (ad_at a) in (r, set_at s a).
Definition RemoveAtJob (userID id : string) (a : Adapter) : bool * Adapter :=
  let '(r, s) := Scheduler.RemoveAtJob userID id (ad_at a) in (r, set_at s a).

(** The jobs of a configuration, in order, with the ids seen so far. *)
Fixpoint validate_jobs (seen : list string) (jobs : list job) : option string :=
  match jobs with
  | [] => None
  | j :: jobs =>
      let named := "cron: job " +:+ quote (jb_ID j) in
      if (jb_ID j =? "")%string then Some "cron: job has empty id"
      else if existsb (String.eqb (jb_ID j)) seen then Some ("cron: duplicate job id " +:+ quote (jb_ID j))
      else if (jb_when j =? "")%string then Some (named +:+ " has empty schedule")
      else if (jb_UserID j =? "")%string then Some (named +:+ " has empty user_id")
      else if (jb_Prompt j =? "")%string then Some (named +:+ " has empty prompt")
      else validate_jobs (jb_ID j :: seen) jobs
  end.

Definition Validate (cfg : CronChannelConfig) : option string :=
  match bad_timezone cfg with Some e => Some e | None => validate_jobs [] (CronChannel_Jobs cfg) end.
End adapter.

(** ** Jobs by hand and jobs by the clock *)

Definition payload_json (j : job) : json :=
  VObj [("jobId", VStr (jb_ID j)); ("userId", VStr (jb_UserID j)); ("prompt", VStr (jb_Prompt j))].

Definition valid_texts (j : job) : Prop :=
  valid_utf8 (jb_ID j) = jb_ID j /\ valid_utf8 (jb_UserID j) = jb_UserID j /\ valid_utf8 (jb_Prompt j) = jb_Prompt j.

Lemma payload_read j : valid_texts j ->
  unmarshal dec_payload zero_payload (encode_json (payload_json j)) = (Build_cron_payload (jb_ID j) (jb_UserID j) (jb_Prompt j), None).
Proof.
  intros (H1 & H2 & H3). unfold unmarshal. rewrite json_parse_encoded by done.
  assert (E : dec_payload (valid_json (payload_json j)) zero_payload
    = (Build_cron_payload (valid_utf8 (jb_ID j)) (valid_utf8 (jb_UserID j)) (valid_utf8 (jb_Prompt j)), false)); [|by rewrite E, H1, H2, H3].
  unfold payload_json. cbn [valid_json map fst snd]. member_names.
  unfold dec_payload, dec_struct. read_struct.
Qed.

Section proofs.
Context {C : Type} `{CronLib C}.
Context (load_location : string -> option string) (quote : string -> string).

Lemma find_job (s : CronState C) j : cron_ok s -> j ∈ Jobs s -> List.find (is_job (jb_UserID j) (jb_ID j)) (Jobs s) = Some j.
Proof.
  intros Hok Hj. assert (Hm : is_job (jb_UserID j) (jb_ID j) j = true) by (unfold is_job; by rewrite !String.eqb_refl).
  destruct (List.find _ _) as [x|] eqn:E.
  - apply find_some in E as [Hx Hx']. f_equal. apply list_elem_of_In in Hx.
    apply (key_of_job j (Jobs s) (co_distinct s Hok) Hj x Hx). unfold is_job in Hx'. apply andb_true_iff in Hx' as [H1 H2].
    apply String.eqb_eq in H1, H2. unfold cronJobKey. by rewrite H1, H2.
  - apply list_elem_of_In in Hj. by rewrite (find_none _ _ E j Hj) in Hm.
Qed.

(** C26: A recurring job that is triggered by hand is the job the clock fires: for a job of
    the scheduler that names channels, the payload with its id, user and prompt gives
    the very message the scheduler hands to the pipeline when the job fires at that
    instant. *)
Theorem manual_equals_fired uuid now (a : Adapter) j :
  cron_ok (ad_cron a) -> j ∈ Jobs (ad_cron a) -> job_complete j = true -> jb_NotifyChannels j <> [] -> valid_texts j ->
  NormalizeInbound uuid now (encode_json (payload_json j)) a = Ok (job_message uuid "cron" j now).
Proof.
  intros Hok Hj Hc Hn Hv. unfold NormalizeInbound. rewrite payload_read by done. cbn [cp_JobID cp_UserID cp_Prompt].
  unfold job_complete, nonempty in Hc. repeat rewrite andb_true_iff in Hc. destruct Hc as [[[H1 _] H2] H3].
  apply negb_true_iff in H1, H2, H3. rewrite H1, H2, H3. cbn [orb].
  assert (E : notify_channels a (Build_cron_payload (jb_ID j) (jb_UserID j) (jb_Prompt j)) = jb_NotifyChannels j).
  { unfold notify_channels. cbn [cp_JobID cp_UserID]. rewrite find_job by done. cbn. by destruct (jb_NotifyChannels j). }
  by rewrite E.
Qed.

(** A configuration that is accepted has complete jobs with different ids, and a new
    adapter. *)
Lemma validate_jobs_sound jobs : forall seen, validate_jobs quote seen jobs = None ->
  Forall (fun j => job_complete j = true) jobs /\ NoDup (map jb_ID jobs) /\ Forall (fun j => ~ In (jb_ID j) seen) jobs.
Proof.
  induction jobs as [|j jobs IH]; intros seen Hv; [by repeat constructor|]. cbn [validate_jobs] in Hv.
  destruct (jb_ID j =? "")%string eqn:E1; [done|]. destruct (existsb _ seen) eqn:E2; [done|].
  destruct (jb_when j =? "")%string eqn:E3; [done|]. destruct (jb_UserID j =? "")%string eqn:E4; [done|].
  destruct (jb_Prompt j =? "")%string eqn:E5; [done|]. destruct (IH _ Hv) as (Hc & Hd & Hs). split_and!.
  - constructor; [|done]. unfold job_complete, nonempty. by rewrite E1, E3, E4, E5.
  - cbn [map]. constructor; [|done]. rewrite list_elem_of_In, in_map_iff. intros (x & Hx & Hin).
    rewrite Forall_forall in Hs. eapply (Hs x); [by apply list_elem_of_In|]. rewrite Hx. by left.
  - constructor.
    + intros Hin. assert (existsb (String.eqb (jb_ID j)) seen = true); [|congruence]. apply existsb_exists. exists (jb_ID j).
      split; [done|apply String.eqb_refl].
    + eapply Forall_impl; [exact Hs|]. cbn. intros x Hx Hin. apply Hx. by right.
Qed.

Lemma validated_adapter cfg validator : Validate load_location quote cfg = None ->
  (exists a : Adapter, NewAdapter load_location quote cfg validator = Ok a)
  /\ Forall (fun j => job_complete j = true) (CronChannel_Jobs cfg) /\ NoDup (map jb_ID (CronChannel_Jobs cfg)).
Proof.
  unfold Validate, NewAdapter. destruct (bad_timezone _ _ _); [done|]. intros Hv. apply validate_jobs_sound in Hv as (H1 & H2 & _). eauto.
Qed.
End proofs.

(** ** Jobs of two users *)

#[local] Existing Instance Scheduler.list_cron.

Definition demo_cfg : CronChannelConfig :=
  Build_CronChannelConfig true "" [Build_job "daily" "u1" "@daily" "say hi" ["slack:SECRET"]].

Definition demo_adapter : Adapter :=
  Start (Build_Adapter demo_cfg NewCron NewAt true false false None []).

(** The id alone finds the channels of a job of the configuration: those of another
    user's job are notified. *)
Example foreign_channels :
  match NormalizeInbound "id" 0 (json_text "{'jobId':'daily','userId':'u2','prompt':'leak'}") demo_adapter with
  | Ok m => nm_UserID m = "u2" /\ dc_NotifyChannels (nm_DeliveryContext m) = ["slack:SECRET"]
  | Err _ => False
  end.
Proof. vm_compute. by split. Qed.

(** A channel whose last job is removed is reported as one whose jobs are invalid. *)
Example health_after_removal :
  HealthCheck demo_adapter = None /\ HealthCheck (snd (RemoveJob "u1" "daily" demo_adapter)) = Some "cron: all jobs failed validation".
Proof. by vm_compute. Qed.

(** Two users may not have a job with one id, which the scheduler allows. *)
Example validate_two_users :
  let jobs := [Build_job "daily" "u1" "@daily" "a" []; Build_job "daily" "u2" "@daily" "b" []] in
  Validate (fun _ => None) json_quote (Build_CronChannelConfig true "" jobs) = Some ("cron: duplicate job id " +:+ json_quote "daily")
  /\ JobCount (LoadJobs jobs None NewCron) = 2%nat.
Proof. by vm_compute. Qed.

Lemma demo_ok : cron_ok (ad_cron demo_adapter).
Proof.
  unfold demo_adapter, Start. cbn [ad_cron set_cron set_running]. apply load_jobs_ok.
  - by constructor; try (intros *; cbn; set_solver); try constructor.
  - by repeat constructor.
  - apply (bool_decide_unpack _). reflexivity.
  - intros j _. apply lookup_empty.
Qed.

Lemma manual_equals_fired_witness :
  let j := Build_job "daily" "u1" "@daily" "say hi" ["slack:SECRET"] in
  NormalizeInbound "id" 7 (encode_json (payload_json j)) demo_adapter = Ok (job_message "id" "cron" j 7).
Proof.
  refine (manual_equals_fired "id" 7 demo_adapter _ demo_ok _ _ _ _).
  - set_solver.
  - reflexivity.
  - discriminate.
  - split_and!; reflexivity.
Defined.
