(* ===== verification/AgentConfig.v ===== *)
(** * The agent's configuration (internal/config/config.go, agent_loader.go)

    The agent's part of the configuration file, its defaults, the resolution of
    environment placeholders, and the choice of the search engine; then what is made
    of it: the agent's own tools (agent/tools/registry.go), which a policy of the
    gateway limits, and the client of the model (agent/llm/factory.go).  The libraries
    that make a tool of a function, and a client, are parameters. *)
From Stdlib Require Import ZArith Lia Bool Ascii String List.
From Stdlib Require Import SpecFloat.
From stdpp Require Import base strings option list.
From S2P Require Import Prelude GoString GoFloat GoRegexp Models AgentRegister Config ConfigLoad.

Local Open Scope string_scope.
Local Open Scope Z_scope.

Record InferenceConfig := {
  Inference_Provider : string;
  Inference_Model : string;
  Inference_BaseURL : string;
  Inference_APIKey : string;
  Inference_Temperature : float64;
  Inference_MaxTokens : Z;
  Inference_FrequencyPenalty : float64;
  Inference_TimeoutSeconds : Z;
  Inference_ContextWindowSize : Z;
  Inference_StreamGenerate : bool;
  Inference_StopTokens : list string;
  Inference_LeanMCPTools : bool }.

Record SandboxConfig := {
  Sandbox_Enabled : bool;
  Sandbox_Image : string;
  Sandbox_WorkDir : string;
  Sandbox_MemoryLimitMB : Z;
  Sandbox_CPULimit : float64;
  Sandbox_TimeoutSeconds : Z;
  Sandbox_NetworkEnabled : bool;
  Sandbox_VolumeMounts : list (string * string);
  Sandbox_Env : list string;
  Sandbox_SkillsPath : string;
  Sandbox_ReadOnly : bool;
  Sandbox_ExtraCapabilities : list string }.

Record PromptConfig := {
  Prompt_SystemPrompt : string;
  Prompt_CompactionLevel : string;
  Prompt_BootstrapFile : string;
  Prompt_AutoCompactionThresholdPercent : Z;
  Prompt_CompactKeepLines : Z }.

Record WebSearchEngineGoogle := {
  WebSearchEngineGoogle_Enabled : bool;
  WebSearchEngineGoogle_GoogleAPIKey : string;
  WebSearchEngineGoogle_GoogleCX : string }.

Record WebSearchEngineDuckDuckGo := {
  WebSearchEngineDuckDuckGo_Enabled : bool }.

Record WebSearchConfig := {
  WebSearch_Google : WebSearchEngineGoogle;
  WebSearch_DuckDuckGo : WebSearchEngineDuckDuckGo }.

Record AgentToolsConfig := {
  AgentTools_WebFetch : bool;
  AgentTools_WebSearch : bool;
  AgentTools_Bash : bool;
  AgentTools_DocFetcher : bool;
  AgentTools_Weather : bool;
  AgentTools_Cron : bool;
  AgentTools_WebSearchConfig : WebSearchConfig }.

Record MCPAuthConfig := {
  MCPAuth_Type : string;
  MCPAuth_Flow : string;
  MCPAuth_ClientID : string;
  MCPAuth_ClientSecret : string;
  MCPAuth_Scopes : list string;
  MCPAuth_IssuerURL : string;
  MCPAuth_AuthorizationURL : string;
  MCPAuth_DeviceAuthURL : string;
  MCPAuth_TokenURL : string;
  MCPAuth_Audience : string }.

Record MCPServerConfig := {
  MCPServer_Name : string;
  MCPServer_Transport : string;
  MCPServer_Command : string;
  MCPServer_Args : list string;
  MCPServer_URL : string;
  MCPServer_Env : list string;
  MCPServer_Headers : list (string * string);
  MCPServer_KeepAliveSeconds : Z;
  MCPServer_Auth : option MCPAuthConfig }.

Record MediaEnricherConfig := {
  MediaEnricher_Enabled : bool;
  MediaEnricher_Endpoint : string;
  MediaEnricher_TimeoutSeconds : Z }.

Record MediaEnrichmentConfig := {
  MediaEnrichment_Speech : MediaEnricherConfig }.

Record SecretsConfig := {
  Secrets_EnvMap : list (string * string) }.

Record SkillsConfig := {
  Skills_Enabled : bool;
  Skills_Path : string }.

Record EmbeddingsConfig := {
  Embeddings_Enabled : bool;
  Embeddings_BaseURL : string;
  Embeddings_Model : string;
  Embeddings_APIKey : string;
  Embeddings_SimilarityThreshold : float64;
  Embeddings_HybridAlpha : float64 }.

Record AgentRuntimeConfig := {
  AgentRuntime_BasePath : string;
  AgentRuntime_Inference : InferenceConfig;
  AgentRuntime_Sandbox : SandboxConfig;
  AgentRuntime_Prompt : PromptConfig;
  AgentRuntime_Tools : AgentToolsConfig;
  AgentRuntime_S3 : S3DefaultConfig;
  AgentRuntime_MCP : list MCPServerConfig;
  AgentRuntime_MediaEnrichment : MediaEnrichmentConfig;
  AgentRuntime_MaxSteps : Z;
  AgentRuntime_Secrets : SecretsConfig;
  AgentRuntime_HeartbeatIntervalSeconds : Z;
  AgentRuntime_Skills : SkillsConfig;
  AgentRuntime_Embeddings : EmbeddingsConfig }.

Record AgentFileConfig := {
  AgentFile_Agent : AgentRuntimeConfig;
  AgentFile_Telemetry : TelemetryConfig }.

Definition zero_InferenceConfig : InferenceConfig :=
  Build_InferenceConfig "" "" "" "" float_zero 0 float_zero 0 0 false [] false.
Definition zero_SandboxConfig : SandboxConfig :=
  Build_SandboxConfig false "" "" 0 float_zero 0 false [] [] "" false [].
Definition zero_PromptConfig : PromptConfig :=
  Build_PromptConfig "" "" "" 0 0.
Definition zero_WebSearchEngineGoogle : WebSearchEngineGoogle :=
  Build_WebSearchEngineGoogle false "" "".
Definition zero_WebSearchEngineDuckDuckGo : WebSearchEngineDuckDuckGo :=
  Build_WebSearchEngineDuckDuckGo false.
Definition zero_WebSearchConfig : WebSearchConfig :=
  Build_WebSearchConfig zero_WebSearchEngineGoogle zero_WebSearchEngineDuckDuckGo.
Definition zero_AgentToolsConfig : AgentToolsConfig :=
  Build_AgentToolsConfig false false false false false false zero_WebSearchConfig.
Definition zero_MCPAuthConfig : MCPAuthConfig :=
  Build_MCPAuthConfig "" "" "" "" [] "" "" "" "" "".
Definition zero_MCPServerConfig : MCPServerConfig :=
  Build_MCPServerConfig "" "" "" [] "" [] [] 0 None.
Definition zero_MediaEnricherConfig : MediaEnricherConfig :=
  Build_MediaEnricherConfig false "" 0.
Definition zero_MediaEnrichmentConfig : MediaEnrichmentConfig :=
  Build_MediaEnrichmentConfig zero_MediaEnricherConfig.
Definition zero_SecretsConfig : SecretsConfig :=
  Build_SecretsConfig [].
Definition zero_SkillsConfig : SkillsConfig :=
  Build_SkillsConfig false "".
Definition zero_EmbeddingsConfig : EmbeddingsConfig :=
  Build_EmbeddingsConfig false "" "" "" float_zero float_zero.
Definition zero_AgentRuntimeConfig : AgentRuntimeConfig :=
  Build_AgentRuntimeConfig "" zero_InferenceConfig zero_SandboxConfig zero_PromptConfig zero_AgentToolsConfig zero_S3DefaultConfig [] zero_MediaEnrichmentConfig 0 zero_SecretsConfig 0 zero_SkillsConfig zero_EmbeddingsConfig.
Definition zero_AgentFileConfig : AgentFileConfig :=
  Build_AgentFileConfig zero_AgentRuntimeConfig zero_TelemetryConfig.

(** ** agent_loader.go: defaults *)

Definition or_positive (z d : Z) : Z := if z <=? 0 then d else z.

Definition default_tools (t : AgentToolsConfig) : AgentToolsConfig :=
  let ws := AgentTools_WebSearchConfig t in
  let g := WebSearchEngineGoogle_Enabled (WebSearch_Google ws) in
  let d := WebSearchEngineDuckDuckGo_Enabled (WebSearch_DuckDuckGo ws) in
  Build_AgentToolsConfig (AgentTools_WebFetch t) (AgentTools_WebSearch t) (AgentTools_Bash t)
    (AgentTools_DocFetcher t) (AgentTools_Weather t) (AgentTools_Cron t)
    (Build_WebSearchConfig (WebSearch_Google ws)
       (Build_WebSearchEngineDuckDuckGo (if AgentTools_WebSearch t && negb g && negb d then true else d))).

Definition default_inference (i : InferenceConfig) : InferenceConfig :=
  Build_InferenceConfig (or_string (Inference_Provider i) "openai") (or_string (Inference_Model i) "gpt-4o")
    (Inference_BaseURL i) (Inference_APIKey i) (Inference_Temperature i)
    (if Inference_MaxTokens i <? 0 then 0 else Inference_MaxTokens i)
    (Inference_FrequencyPenalty i) (Inference_TimeoutSeconds i) (Inference_ContextWindowSize i)
    (Inference_StreamGenerate i) (Inference_StopTokens i) (Inference_LeanMCPTools i).

Definition default_prompt (p : PromptConfig) : PromptConfig :=
  Build_PromptConfig (or_string (Prompt_SystemPrompt p) "You are a helpful assistant.") (Prompt_CompactionLevel p)
    (Prompt_BootstrapFile p) (Prompt_AutoCompactionThresholdPercent p) (Prompt_CompactKeepLines p).

Definition default_sandbox (s : SandboxConfig) : SandboxConfig :=
  Build_SandboxConfig (Sandbox_Enabled s) (or_string (Sandbox_Image s) "ubuntu:noble")
    (or_string (Sandbox_WorkDir s) "/workspace") (or_positive (Sandbox_MemoryLimitMB s) 2048) (Sandbox_CPULimit s)
    (or_positive (Sandbox_TimeoutSeconds s) 120) (Sandbox_NetworkEnabled s) (Sandbox_VolumeMounts s)
    (Sandbox_Env s) (Sandbox_SkillsPath s) (Sandbox_ReadOnly s) (Sandbox_ExtraCapabilities s).

Definition applyAgentDefaults (c : AgentRuntimeConfig) : AgentRuntimeConfig :=
  Build_AgentRuntimeConfig (or_string (AgentRuntime_BasePath c) "${HOME}/.open-nipper")
    (default_inference (AgentRuntime_Inference c)) (default_sandbox (AgentRuntime_Sandbox c))
    (default_prompt (AgentRuntime_Prompt c)) (default_tools (AgentRuntime_Tools c)) (AgentRuntime_S3 c)
    (AgentRuntime_MCP c) (AgentRuntime_MediaEnrichment c) (or_positive (AgentRuntime_MaxSteps c) 25)
    (AgentRuntime_Secrets c)
    (if AgentRuntime_HeartbeatIntervalSeconds c <? 0 then 0 else AgentRuntime_HeartbeatIntervalSeconds c)
    (AgentRuntime_Skills c) (AgentRuntime_Embeddings c).

(** [EffectiveEngine]: one engine, or none. *)
Definition EffectiveEngine (c : WebSearchConfig) : option string :=
  let g := WebSearchEngineGoogle_Enabled (WebSearch_Google c) in
  let d := WebSearchEngineDuckDuckGo_Enabled (WebSearch_DuckDuckGo c) in
  if g && d then None else if g then Some "google" else if d then Some "duckduckgo" else None.

(** ** agent_loader.go: placeholders *)

Section agent.
Context (env : string -> option string).

Abbreviation rs := (resolveString env).

(** A path: its placeholders, then the home directory when there is one. *)
Definition resolve_path (p : string) : string :=
  let p := rs p in
  if has_prefix p "~" then match expandTilde env p with Ok q => q | Err _ => p end else p.

Definition resolve_inference (i : InferenceConfig) : InferenceConfig :=
  Build_InferenceConfig (Inference_Provider i) (Inference_Model i) (rs (Inference_BaseURL i)) (rs (Inference_APIKey i))
    (Inference_Temperature i) (Inference_MaxTokens i) (Inference_FrequencyPenalty i) (Inference_TimeoutSeconds i)
    (Inference_ContextWindowSize i) (Inference_StreamGenerate i) (Inference_StopTokens i) (Inference_LeanMCPTools i).

Definition resolve_tools (t : AgentToolsConfig) : AgentToolsConfig :=
  let g := WebSearch_Google (AgentTools_WebSearchConfig t) in
  Build_AgentToolsConfig (AgentTools_WebFetch t) (AgentTools_WebSearch t) (AgentTools_Bash t)
    (AgentTools_DocFetcher t) (AgentTools_Weather t) (AgentTools_Cron t)
    (Build_WebSearchConfig
       (Build_WebSearchEngineGoogle (WebSearchEngineGoogle_Enabled g) (rs (WebSearchEngineGoogle_GoogleAPIKey g))
          (rs (WebSearchEngineGoogle_GoogleCX g)))
       (WebSearch_DuckDuckGo (AgentTools_WebSearchConfig t))).

Definition resolve_s3 (s : S3DefaultConfig) : S3DefaultConfig :=
  Build_S3DefaultConfig (rs (S3Default_Endpoint s)) (rs (S3Default_Bucket s)) (rs (S3Default_AccessKey s))
    (rs (S3Default_SecretKey s)) (rs (S3Default_Region s)) (S3Default_UseSSL s).

Definition resolve_prompt (p : PromptConfig) : PromptConfig :=
  Build_PromptConfig (rs (Prompt_SystemPrompt p)) (Prompt_CompactionLevel p) (rs (Prompt_BootstrapFile p))
    (Prompt_AutoCompactionThresholdPercent p) (Prompt_CompactKeepLines p).

Definition resolve_skills (basePath : string) (s : SkillsConfig) : SkillsConfig :=
  let p := resolve_path (Skills_Path s) in
  Build_SkillsConfig (Skills_Enabled s)
    (if Skills_Enabled s && (p =? "")%string then basePath +:+ "/skills" else p).

Definition resolveAgentEnvPlaceholders (c : AgentRuntimeConfig) : AgentRuntimeConfig :=
  let basePath := resolve_path (AgentRuntime_BasePath c) in
  Build_AgentRuntimeConfig basePath (resolve_inference (AgentRuntime_Inference c)) (AgentRuntime_Sandbox c)
    (resolve_prompt (AgentRuntime_Prompt c)) (resolve_tools (AgentRuntime_Tools c)) (resolve_s3 (AgentRuntime_S3 c))
    (AgentRuntime_MCP c) (AgentRuntime_MediaEnrichment c) (AgentRuntime_MaxSteps c)
    (Build_SecretsConfig (map (fun kv => (fst kv, rs (snd kv))) (Secrets_EnvMap (AgentRuntime_Secrets c))))
    (AgentRuntime_HeartbeatIntervalSeconds c) (resolve_skills basePath (AgentRuntime_Skills c))
    (AgentRuntime_Embeddings c).

(** Instrumentation without an endpoint is switched off. *)
Definition resolveTelemetryEnvPlaceholders (t : TelemetryConfig) : TelemetryConfig :=
  let c := Telemetry_Tracing t in let m := Telemetry_Metrics t in
  let endpoint := rs (Tracing_Endpoint c) in
  let m_endpoint := rs (Metrics_Endpoint m) in
  Build_TelemetryConfig
    (Build_TracingConfig (Tracing_Enabled c && negb (endpoint =? "")%string) (Tracing_Exporter c)
       (rs (Tracing_Protocol c)) endpoint (Tracing_URLPath c) (rs (Tracing_ServiceName c)) (Tracing_SampleRate c))
    (Build_MetricsConfig
       (Metrics_Enabled m && negb ((Metrics_Exporter m =? "otlp")%string && (m_endpoint =? "")%string))
       (Metrics_Exporter m) (Metrics_PrometheusPort m) m_endpoint).

(** [LoadAgentConfig]: [unmarshal] is viper's decoding over its own defaults,
    with the file when there was one. *)
Definition LoadAgentConfig (read : string -> option read_error) (unmarshal : option string -> result string AgentFileConfig)
    (configPath : string) : result string AgentFileConfig :=
  let decode (file : option string) :=
    match unmarshal file with
    | Err e => Err ("agent config: unmarshal: " +:+ e)
    | Ok c => Ok (Build_AgentFileConfig (resolveAgentEnvPlaceholders (applyAgentDefaults (AgentFile_Agent c)))
                    (resolveTelemetryEnvPlaceholders (AgentFile_Telemetry c)))
    end in
  if (configPath =? "")%string then decode None
  else match expandTilde env configPath with
  | Err e => Err ("agent config: expand path: " +:+ e)
  | Ok expanded =>
      match read expanded with
      | Some (ReadFailed e) => Err ("agent config: read " +:+ expanded +:+ ": " +:+ e)
      | _ => decode (Some expanded)
      end
  end.

(** ** agent/secrets/resolver.go *)

(** [os.Getenv]. *)
Definition Getenv (key : string) : string := match env key with Some v => v | None => "" end.

Definition Resolver_Resolve (cfg : SecretsConfig) : list (string * string) :=
  omap (fun '(name, envKey) => let val := Getenv envKey in if (val =? "")%string then None else Some (name, val))
    (Secrets_EnvMap cfg).

Definition secrets_envVarPattern : Regexp := must_compile "\$\{([^}]+)\}".

Definition ExpandString (s : string) : string :=
  ReplaceAllFunc secrets_envVarPattern (fun m => expand_var env (sm_text m)) s.
End agent.

(** ** What a loaded agent configuration satisfies *)

Section loaded.
Context (env : string -> option string) (read : string -> option read_error)
        (unmarshal : option string -> result string AgentFileConfig).

Lemma or_positive_pos z d : 0 < d -> 0 < or_positive z d.
Proof. unfold or_positive. case_test; lia. Qed.

Lemma or_nonneg z : 0 <= (if z <? 0 then 0 else z).
Proof. case_test; lia. Qed.

Lemma or_string_some s d : d <> "" -> or_string s d <> "".
Proof. unfold or_string. by destruct (String.eqb_spec s ""). Qed.

Lemma skills_path base s : Skills_Enabled (resolve_skills env base s) = true -> Skills_Path (resolve_skills env base s) <> "".
Proof.
  unfold resolve_skills. cbn. intros ->. destruct (String.eqb_spec (resolve_path env (Skills_Path s)) ""); [|done].
  by destruct base.
Qed.

Lemma LoadAgent_Ok path cfg : LoadAgentConfig env read unmarshal path = Ok cfg ->
  exists c, cfg = Build_AgentFileConfig (resolveAgentEnvPlaceholders env (applyAgentDefaults (AgentFile_Agent c)))
                    (resolveTelemetryEnvPlaceholders env (AgentFile_Telemetry c)).
Proof.
  unfold LoadAgentConfig. cbv zeta. destruct (path =? "")%string.
  - destruct (unmarshal None); [|done]. intros [= <-]. eauto.
  - destruct (expandTilde _ _) as [ex|]; [|done]. destruct (read ex) as [[|]|]; try done;
      (destruct (unmarshal _); [|done]); intros [= <-]; eauto.
Qed.

Lemma default_engine t :
  let ws := AgentTools_WebSearchConfig (resolve_tools env (default_tools t)) in
  AgentTools_WebSearch t = true -> EffectiveEngine ws = None ->
  WebSearchEngineGoogle_Enabled (WebSearch_Google ws) = true /\
  WebSearchEngineDuckDuckGo_Enabled (WebSearch_DuckDuckGo ws) = true.
Proof.
  intros ws Hs. subst ws. unfold EffectiveEngine. cbn. rewrite Hs.
  by destruct (WebSearchEngineGoogle_Enabled _), (WebSearchEngineDuckDuckGo_Enabled _).
Qed.

(** a loaded agent configuration has an effective search engine unless both
    were enabled; its step, memory and time limits are positive; the sandbox has
    an image and a directory; enabled skills have a path; and tracing is on only
    with an endpoint. *)
Lemma agent_loaded_sound path cfg : LoadAgentConfig env read unmarshal path = Ok cfg ->
  let a := AgentFile_Agent cfg in
  let ws := AgentTools_WebSearchConfig (AgentRuntime_Tools a) in
  let sb := AgentRuntime_Sandbox a in
  (AgentTools_WebSearch (AgentRuntime_Tools a) = true -> EffectiveEngine ws = None ->
     WebSearchEngineGoogle_Enabled (WebSearch_Google ws) = true /\
     WebSearchEngineDuckDuckGo_Enabled (WebSearch_DuckDuckGo ws) = true) /\
  0 < AgentRuntime_MaxSteps a /\ 0 <= AgentRuntime_HeartbeatIntervalSeconds a /\
  0 <= Inference_MaxTokens (AgentRuntime_Inference a) /\
  0 < Sandbox_MemoryLimitMB sb /\ 0 < Sandbox_TimeoutSeconds sb /\ Sandbox_Image sb <> "" /\ Sandbox_WorkDir sb <> "" /\
  (Skills_Enabled (AgentRuntime_Skills a) = true -> Skills_Path (AgentRuntime_Skills a) <> "") /\
  (Tracing_Enabled (Telemetry_Tracing (AgentFile_Telemetry cfg)) = true ->
     Tracing_Endpoint (Telemetry_Tracing (AgentFile_Telemetry cfg)) <> "").
Proof.
  intros (c & ->)%LoadAgent_Ok a ws sb. subst a ws sb. cbn [AgentFile_Agent AgentFile_Telemetry].
  set (d := applyAgentDefaults (AgentFile_Agent c)). split_and!.
  - apply (default_engine (AgentRuntime_Tools (AgentFile_Agent c))).
  - by apply or_positive_pos.
  - apply (or_nonneg (AgentRuntime_HeartbeatIntervalSeconds (AgentFile_Agent c))).
  - apply (or_nonneg (Inference_MaxTokens (AgentRuntime_Inference (AgentFile_Agent c)))).
  - by apply or_positive_pos.
  - by apply or_positive_pos.
  - by apply or_string_some.
  - by apply or_string_some.
  - apply skills_path.
  - cbn. intros [_ H]%andb_true_iff. intros He. by rewrite He in H.
Qed.
End loaded.

(** ** An agent that searches *)

Definition demo_agent_env (name : string) : option string :=
  if (name =? "HOME")%string then Some "/home/op" else if (name =? "KEY")%string then Some "k1" else None.

Definition demo_agent_file : AgentFileConfig :=
  Build_AgentFileConfig
    (Build_AgentRuntimeConfig "" (Build_InferenceConfig "" "" "" "${KEY}" float_zero (-1) float_zero 0 0 false [] false)
       zero_SandboxConfig zero_PromptConfig (Build_AgentToolsConfig true true false false false false zero_WebSearchConfig)
       zero_S3DefaultConfig [] zero_MediaEnrichmentConfig 0 (Build_SecretsConfig [("gh", "KEY")]) 0
       (Build_SkillsConfig true "") (Build_EmbeddingsConfig true "" "m" "${KEY}" float_zero float_zero))
    (Build_TelemetryConfig (Build_TracingConfig true "otlp" "" "" "" "" float_zero)
       (Telemetry_Metrics zero_TelemetryConfig)).

Definition demo_agent : result string AgentFileConfig :=
  LoadAgentConfig demo_agent_env (fun _ => None) (fun _ => Ok demo_agent_file) "~/agent.yaml".

(** The embeddings' key is kept with its placeholder. *)
Example demo_agent_values :
  match demo_agent with
  | Ok c =>
      let a := AgentFile_Agent c in
      (AgentRuntime_BasePath a, Skills_Path (AgentRuntime_Skills a), Inference_APIKey (AgentRuntime_Inference a),
       Embeddings_APIKey (AgentRuntime_Embeddings a),
       EffectiveEngine (AgentTools_WebSearchConfig (AgentRuntime_Tools a)),
       Tracing_Enabled (Telemetry_Tracing (AgentFile_Telemetry c)),
       Resolver_Resolve demo_agent_env (AgentRuntime_Secrets a))
      = ("/home/op/.open-nipper", "/home/op/.open-nipper/skills", "k1", "${KEY}", Some "duckduckgo", false, [("gh", "k1")])
  | Err _ => False
  end.
Proof. vm_compute. reflexivity. Qed.

Lemma agent_loaded_sound_witness :
  match demo_agent with
  | Ok c => 0 < AgentRuntime_MaxSteps (AgentFile_Agent c)
  | Err _ => False
  end.
Proof.
  destruct demo_agent as [c|e] eqn:E; [|vm_compute in E; discriminate].
  exact (proj1 (proj2 (agent_loaded_sound _ _ _ _ _ E))).
Defined.

(** ** agent/tools/registry.go *)

Definition isAllowed (toolName : string) (policies : option ToolsPolicy) : bool :=
  match policies with
  | None => true
  | Some p =>
      let names (l : list string) := existsb (fun d => (d =? toolName)%string || (d =? "*")%string) l in
      if names (tp_Deny p) then false
      else match tp_Allow p with [] => true | l => names l end
  end.

Section tools.
(** [InferTool] of a function by its name: an error, or the tool. *)
Context (infer : string -> option string).

Definition inferred (name : string) : result string (option string) := match infer name with Some e => Err e | None => Ok (Some name) end.

(** The tool, and how an error names it. *)
Definition buildWebSearchTool (cfg : AgentRuntimeConfig) : result string (option string) :=
  match EffectiveEngine (AgentTools_WebSearchConfig (AgentRuntime_Tools cfg)) with
  | None => Err "web_search_config: exactly one of google.enabled or duck_duck_go.enabled must be true (mutually exclusive)"
  | Some engine => if (engine =? "")%string then Ok None else inferred "web_search"
  end.

(** The tools in turn: whether it is switched on, its name, how an error calls it and
    how it is built.  [skills]: there is a loader with an executor. *)
Definition tool_specs (cfg : AgentRuntimeConfig) (skills : bool) : list (bool * string * string * result string (option string)) :=
  let t := AgentRuntime_Tools cfg in
  let spec (on : bool) (name : string) := (on, name, name, inferred name) in
  ([spec (AgentTools_WebFetch t) "web_fetch"; (AgentTools_WebSearch t, "web_search", "web_search", buildWebSearchTool cfg);
   spec (AgentTools_Bash t) "bash"; spec (AgentTools_DocFetcher t) "doc_fetch"; (AgentTools_Weather t, "get_weather", "weather", inferred "get_weather")]
  ++ map (spec (AgentTools_Cron t)) ["cron_list_jobs"; "cron_add_job"; "cron_remove_job"; "at_list_jobs"; "at_add_job"; "at_remove_job"]
  ++ [spec true "get_datetime"; spec skills "skill_exec"])%list.

Fixpoint build_all (policies : option ToolsPolicy) (specs : list (bool * string * string * result string (option string))) : result string (list string) :=
  match specs with
  | [] => Ok []
  | (on, name, label, built) :: specs =>
      if on && isAllowed name policies then
        match built with
        | Err e => Err ("building " +:+ label +:+ " tool: " +:+ e)
        | Ok t => let* l := build_all policies specs in Ok (match t with Some n => [n] | None => [] end ++ l)%list
        end
      else build_all policies specs
  end.

Definition BuildTools (cfg : AgentRuntimeConfig) (policies : option ToolsPolicy) (skills : bool) : result string (list string) :=
  build_all policies (tool_specs cfg skills).

Lemma build_all_spec policies specs : forall l, build_all policies specs = Ok l ->
  Forall (fun '(_, name, _, built) => forall t, built = Ok t -> t = Some name) specs ->
  l = map (fun '(_, name, _, _) => name) (List.filter (fun '(on, name, _, _) => on && isAllowed name policies) specs).
Proof.
  induction specs as [|[[[on name] label] built] specs IH]; intros l; cbn [build_all List.filter]; [by intros [= <-]|].
  intros H Hb. inversion_clear Hb as [|? ? Hn Hs]. destruct (on && isAllowed name policies); [|by apply IH].
  destruct built as [t|e]; [|done]. rewrite (Hn t eq_refl) in H. destruct (build_all policies specs) as [l'|e]; [|done]. cbn in H.
  injection H as <-. cbn [map]. f_equal. by apply IH.
Qed.

Lemma inferred_ok name t : inferred name = Ok t -> t = Some name.
Proof. unfold inferred. destruct (infer name); [done|]. by intros [= <-]. Qed.

(** The tools are exactly those that are switched on and that the policy allows, each
    once. *)
Lemma tools_built cfg policies skills l : BuildTools cfg policies skills = Ok l ->
  l = map (fun '(_, name, _, _) => name) (List.filter (fun '(on, name, _, _) => on && isAllowed name policies) (tool_specs cfg skills)) /\ NoDup l.
Proof.
  intros H. apply build_all_spec in H as ->.
  - split; [done|]. eapply sublist_NoDup; [apply (bool_decide_unpack (NoDup ["web_fetch"; "web_search"; "bash"; "doc_fetch"; "get_weather";
      "cron_list_jobs"; "cron_add_job"; "cron_remove_job"; "at_list_jobs"; "at_add_job"; "at_remove_job"; "get_datetime"; "skill_exec"])); exact I|].
    change ["web_fetch"; _; _; _; _; _; _; _; _; _; _; _; _] with (map (fun '(_, name, _, _) => name) (tool_specs cfg skills)).
    generalize (tool_specs cfg skills) as specs. induction specs as [|[[[on name] label] built] specs IH]; [constructor|]. cbn [List.filter map].
    destruct (on && isAllowed name policies); by constructor.
  - repeat (constructor; [intros t; try apply inferred_ok|]); [|constructor].
    unfold buildWebSearchTool. destruct (EffectiveEngine _) as [e|] eqn:E; [|done]. destruct (String.eqb_spec e "") as [->|]; [|apply inferred_ok].
    unfold EffectiveEngine in E. repeat case_match; congruence.
Qed.

(** What a policy denies is not built, whatever it allows. *)
Lemma denied_not_built cfg p skills l name : BuildTools cfg (Some p) skills = Ok l ->
  In name (tp_Deny p) \/ In "*" (tp_Deny p) -> ~ In name l.
Proof.
  intros [-> _]%tools_built Hd. rewrite in_map_iff. intros ([[[on n] lb] b] & <- & [_ H]%filter_In).
  apply andb_true_iff in H as [_ H]. unfold isAllowed in H. destruct (existsb _ (tp_Deny p)) eqn:E; [done|].
  destruct Hd as [Hd|Hd]; apply (existsb_false_In _ _ _ E) in Hd; by rewrite String.eqb_refl, ?orb_true_r in Hd.
Qed.
End tools.

(** ** agent/llm/factory.go *)

Definition defaultInferenceTimeoutSeconds : Z := 120.

(** [float32(x)]. *)
Definition to_float32 (x : float64) : spec_float :=
  match x with S754_finite neg m e => binary_round 24 128 neg m e | _ => x end.

Definition nonzero_float (x : float64) : bool := match x with S754_zero _ => false | _ => true end.

Record openai_config := {
  oc_APIKey : string; oc_Model : string; oc_BaseURL : string; oc_Timeout : Z; oc_Temperature : option spec_float;
  oc_FrequencyPenalty : option spec_float; oc_Stop : list string; oc_MaxTokens : option Z; oc_MaxCompletionTokens : option Z }.
Inductive chat_model := OpenAIModel (c : openai_config) | OllamaModel (baseURL modelName : string).

Section factory.
(** The client that a library makes of its configuration, or its error; Unicode's
    lower case; fmt's [%q]. *)
Context (create : chat_model -> option string) (fold : Z -> Z) (quote : string -> string).

Definition isReasoningModel (modelName : string) : bool :=
  let lower := to_lower fold modelName in has_prefix lower "o1" || has_prefix lower "o3" || has_prefix lower "gpt-5".

Definition isLocalCompatEndpoint (baseURL : string) : bool :=
  if (baseURL =? "")%string then false
  else let lower := to_lower fold baseURL in negb (str_contains lower "openai.com") && negb (str_contains lower "azure.com").

Definition newOpenAIModel (cfg : InferenceConfig) : result string chat_model :=
  let local := isLocalCompatEndpoint (Inference_BaseURL cfg) in
  let reasoning := isReasoningModel (Inference_Model cfg) in
  let no_key := (Inference_APIKey cfg =? "")%string in
  if no_key && negb local
  then Err ("inference.api_key is required for provider " +:+ quote (Inference_Provider cfg) +:+ " (set OPENAI_API_KEY)")
  else
    let tokens := if 0 <? Inference_MaxTokens cfg then Some (Inference_MaxTokens cfg) else None in
    let m := OpenAIModel {|
      oc_APIKey := if no_key then "local" else Inference_APIKey cfg;
      oc_Model := Inference_Model cfg;
      oc_BaseURL := Inference_BaseURL cfg;
      oc_Timeout := int64 (or_positive (Inference_TimeoutSeconds cfg) defaultInferenceTimeoutSeconds * time_second);
      oc_Temperature := if negb reasoning && (local || nonzero_float (Inference_Temperature cfg)) then Some (to_float32 (Inference_Temperature cfg)) else None;
      oc_FrequencyPenalty := if nonzero_float (Inference_FrequencyPenalty cfg) then Some (to_float32 (Inference_FrequencyPenalty cfg)) else None;
      oc_Stop := Inference_StopTokens cfg;
      oc_MaxTokens := if local then tokens else None;
      oc_MaxCompletionTokens := if local then None else tokens |} in
    match create m with Some e => Err ("creating openai chat model: " +:+ e) | None => Ok m end.

Definition newLocalModel (cfg : InferenceConfig) : result string chat_model :=
  if (Inference_BaseURL cfg =? "")%string
  then Err ("inference.base_url is required for provider " +:+ quote (Inference_Provider cfg) +:+ " (e.g. http://localhost:1234/v1)")
  else newOpenAIModel (Build_InferenceConfig (Inference_Provider cfg) (Inference_Model cfg) (Inference_BaseURL cfg)
    (or_string (Inference_APIKey cfg) "local") (Inference_Temperature cfg) (Inference_MaxTokens cfg) (Inference_FrequencyPenalty cfg)
    (Inference_TimeoutSeconds cfg) (Inference_ContextWindowSize cfg) (Inference_StreamGenerate cfg) (Inference_StopTokens cfg) (Inference_LeanMCPTools cfg)).

Definition newOllamaModel (cfg : InferenceConfig) : result string chat_model :=
  let m := OllamaModel (or_string (Inference_BaseURL cfg) "http://localhost:11434") (Inference_Model cfg) in
  match create m with Some e => Err ("creating ollama chat model: " +:+ e) | None => Ok m end.

Definition NewChatModel (cfg : InferenceConfig) : result string chat_model :=
  let provider := to_lower fold (trim_space (Inference_Provider cfg)) in
  if (provider =? "ollama")%string then newOllamaModel cfg
  else if existsb (String.eqb provider) ["local"; "lmstudio"; "vllm"; "localai"] then newLocalModel cfg
  else newOpenAIModel cfg.

(** A client of the OpenAI interface always has a key, a time limit unless it wraps
    around, one limit of tokens at most, and no temperature for a model that takes
    none. *)
Lemma openai_model_sound cfg c : NewChatModel cfg = Ok (OpenAIModel c) ->
  oc_APIKey c <> "" /\ (oc_MaxTokens c = None \/ oc_MaxCompletionTokens c = None)
  /\ (isReasoningModel (Inference_Model cfg) = true -> oc_Temperature c = None)
  /\ (forall n, oc_MaxTokens c = Some n \/ oc_MaxCompletionTokens c = Some n -> n = Inference_MaxTokens cfg /\ 0 < n).
Proof.
  assert (Hn : forall cfg', Inference_Model cfg' = Inference_Model cfg -> Inference_MaxTokens cfg' = Inference_MaxTokens cfg ->
    newOpenAIModel cfg' = Ok (OpenAIModel c) -> oc_APIKey c <> "" /\ (oc_MaxTokens c = None \/ oc_MaxCompletionTokens c = None)
    /\ (isReasoningModel (Inference_Model cfg) = true -> oc_Temperature c = None)
    /\ (forall n, oc_MaxTokens c = Some n \/ oc_MaxCompletionTokens c = Some n -> n = Inference_MaxTokens cfg /\ 0 < n)).
  { intros cfg' <- <-. unfold newOpenAIModel. destruct (_ && _); [done|]. destruct (create _); [done|]. intros [= <-]. cbn. split_and!.
    - by destruct (String.eqb_spec (Inference_APIKey cfg') "").
    - destruct (isLocalCompatEndpoint _); auto.
    - by intros ->.
    - intros n. destruct (isLocalCompatEndpoint _), (Z.ltb_spec 0 (Inference_MaxTokens cfg')); intros [[= <-]|[= <-]]; done. }
  unfold NewChatModel. destruct (_ =? "ollama")%string; [unfold newOllamaModel; by destruct (create _)|].
  destruct (existsb _ _); [|by apply Hn]. unfold newLocalModel. destruct (_ =? "")%string; [done|]. by apply Hn.
Qed.
End factory.

Definition demo_inference (modelName url : string) : InferenceConfig :=
  Build_InferenceConfig "openai" modelName url "k" (f_of_int 1) 100 float_zero 0 0 false [] false.

Example reasoning_demo :
  map (fun m => match NewChatModel (fun _ => None) (fun r => r) (fun s => s) (demo_inference m "") with
                | Ok (OpenAIModel c) => (oc_Temperature c, oc_MaxCompletionTokens c)
                | _ => (None, None)
                end) ["o3-mini"; "o4-mini"] = [(None, Some 100); (Some (to_float32 (f_of_int 1)), Some 100)].
Proof. vm_compute. reflexivity. Qed.

(** Without an engine, the search is an error, not left out. *)
Example search_without_engine :
  let cfg t := Build_AgentRuntimeConfig "" zero_InferenceConfig zero_SandboxConfig zero_PromptConfig t zero_S3DefaultConfig [] zero_MediaEnrichmentConfig 0
                 (Build_SecretsConfig []) 0 (Build_SkillsConfig true "") zero_EmbeddingsConfig in
  result_is_ok (BuildTools (fun _ => None) (cfg (Build_AgentToolsConfig false true false false false false zero_WebSearchConfig)) None false) = false
  /\ BuildTools (fun _ => None) (cfg (Build_AgentToolsConfig true false true false false true zero_WebSearchConfig))
       (Some (Build_ToolsPolicy ["bash"; "web_fetch"; "at_add_job"] ["bash"])) true = Ok ["web_fetch"; "at_add_job"].
Proof. vm_compute. done. Qed.
