(* ===== verification/WebTools.v ===== *)
(** * The agent's web tools (agent/tools/webfetch.go, websearch.go, weather.go,
    datetime.go)

    Fetching a page, searching the web, the weather and the time.  The network with its redirects, the
    readability library and net/url are parameters.  [page_body] says what of a page
    the model gets, [stripped_text] that no tag is left of a page that is stripped,
    [search_bounded] how many results there are. *)
From Stdlib Require Import ZArith Lia Bool Ascii String List SpecFloat.
From stdpp Require Import base gmap strings option list.
From S2P Require Import Prelude GoString GoTime GoJsonParse GoJsonProofs GoFloat GoAny GoRegexp Http JobTools AgentConfig Oidc.

Local Open Scope string_scope.
Local Open Scope Z_scope.
Local Open Scope reader_scope.

(** ** webfetch.go *)

Definition webFetchTimeoutSec : Z := 30.
Definition maxBodyBytes : Z := 100 * 1024.
Definition maxRedirects : Z := 5.
Definition webFetchUserAgent : string := "curl/8.14.0".

Record WebFetchParams := { wp_URL : string; wp_Headers : gmap string string }.
Record WebFetchResult := { wf_StatusCode : Z; wf_Body : string; wf_Title : string; wf_URL : string }.

(** [CheckRedirect], given how many requests were made. *)
Definition redirect_error (limit via : Z) (e : string) : option string := if limit <=? via then Some e else None.

(** [utf8.Valid]. *)
Definition utf8_ok (s : string) : bool := (valid_utf8 s =? s)%string.

(** The first [n] bytes, less those that keep them from being UTF-8. *)
Fixpoint trim_valid (n : nat) (s : string) : string :=
  if utf8_ok (str_take n s) then str_take n s else match n with O => "" | S n => trim_valid n s end.

Definition body_limit : nat := Z.to_nat maxBodyBytes.
#[local] Opaque body_limit.

Definition limited_body (page : string) : string :=
  if (body_limit <? String.length page)%nat then trim_valid body_limit page else page.

Definition reScript : Regexp := must_compile "(?is)<script\b[^>]*>.*?</script\s*>".
Definition reStyle : Regexp := must_compile "(?is)<style\b[^>]*>.*?</style\s*>".
Definition reNoscript : Regexp := must_compile "(?is)<noscript\b[^>]*>.*?</noscript\s*>".

(** The runes outside tags; [at_end] is written where a tag ends. *)
Fixpoint strip_runes (at_end : string) (in_tag : bool) (l : list Z) : string :=
  match l with
  | [] => ""
  | r :: l =>
      if r =? 60 then strip_runes at_end true l
      else if r =? 62 then at_end +:+ strip_runes at_end false l
      else if in_tag then strip_runes at_end true l
      else utf8_encode r +:+ strip_runes at_end false l
  end.

Definition collapse (s : string) : string := str_join (strings_Fields s) " ".

Definition stripHTMLTags (s : string) : string :=
  let s := ReplaceAllString reScript " " s in
  let s := ReplaceAllString reStyle " " s in
  let s := ReplaceAllString reNoscript " " s in
  collapse (strip_runes " " false (runes s)).

(** What the request gives: the status, the final URL, the content type and the body. *)
Record page_reply := { pr_Status : Z; pr_URL : string; pr_ContentType : string; pr_Body : result string string }.

Definition not_extracted : string := "[page content could not be extracted " +:+ utf8_encode 8212 +:+ " site may require JavaScript]".

Section fetch.
Context (fold : Z -> Z) (quote : string -> string).
(** [url.ParseRequestURI] and [http.NewRequest], the client with its redirects, and
    readability: the title and the text of a page. *)
Context (bad_uri bad_request : string -> option string) (client : WebFetchParams -> result string page_reply)
        (readability : string -> string -> result string (string * string)).

Definition isHTML (contentType body : string) : bool :=
  str_contains (to_lower fold contentType) "html"
  || (let prefix := to_lower fold (trim_space (str_take 512 body)) in has_prefix prefix "<!doctype" || str_contains prefix "<html").

(** The title and the text of a page. *)
Definition page_text (url contentType page : string) : string * string :=
  if isHTML contentType page then
    let stripped (title : string) :=
      let s := stripHTMLTags page in (title, if negb (trim_space s =? "")%string then s else not_extracted) in
    match readability page url with
    | Ok (title, text) => if negb (trim_space text =? "")%string then (title, text) else stripped title
    | Err _ => stripped ""
    end
  else ("", page).

Definition ExecWebFetch (params : WebFetchParams) : result string WebFetchResult :=
  if (wp_URL params =? "")%string then Err "url is required"
  else
    match bad_uri (wp_URL params), bad_request (wp_URL params) with
    | Some e, _ => Err ("invalid url " +:+ quote (wp_URL params) +:+ ": " +:+ e)
    | None, Some e => Err ("building request: " +:+ e)
    | None, None =>
        match client params with
        | Err e => Err ("fetching " +:+ quote (wp_URL params) +:+ ": " +:+ e)
        | Ok reply =>
            match pr_Body reply with
            | Err e => Err ("reading response body: " +:+ e)
            | Ok body =>
                let '(title, text) := page_text (wp_URL params) (pr_ContentType reply) (limited_body body) in
                Ok (Build_WebFetchResult (pr_Status reply) (str_take body_limit text) title (pr_URL reply))
            end
        end
    end.

(** ** What of a page the model gets *)

Lemma utf8_ok_empty : utf8_ok "" = true.
Proof. done. Qed.

Lemma trim_valid_spec n s : exists k, (k <= n)%nat /\ trim_valid n s = str_take k s /\ utf8_ok (str_take k s) = true
  /\ forall j, (k < j <= n)%nat -> utf8_ok (str_take j s) = false.
Proof.
  induction n as [|n IH]; cbn [trim_valid].
  - exists O. assert (E : str_take 0 s = "") by (by destruct s). rewrite E, utf8_ok_empty. split_and!; [done..|]. intros j Hj. lia.
  - destruct (utf8_ok (str_take (S n) s)) eqn:E.
    + exists (S n). split_and!; [done..|]. intros j Hj. lia.
    + destruct IH as (k & Hk & H1 & H2 & H3). exists k. split_and!; [lia|done..|]. intros j Hj.
      destruct (decide (j = S n)) as [->|]; [done|]. apply H3. lia.
Qed.

Lemma limited_length page : (String.length (limited_body page) <= body_limit)%nat.
Proof.
  unfold limited_body. destruct (Nat.ltb_spec body_limit (String.length page)); [|done].
  destruct (trim_valid_spec body_limit page) as (k & Hk & -> & _). rewrite str_take_length. lia.
Qed.

(** A fetched text is at most the limit.  A page that is no HTML is given as it is when
    it is within the limit, and else cut to the longest beginning within the limit that
    is UTF-8, so that no rune is cut in two. *)
Theorem page_body params r : ExecWebFetch params = Ok r ->
  (String.length (wf_Body r) <= body_limit)%nat
  /\ forall reply page, client params = Ok reply -> pr_Body reply = Ok page -> isHTML (pr_ContentType reply) (limited_body page) = false ->
     if (body_limit <? String.length page)%nat
     then exists k, (k <= body_limit)%nat /\ wf_Body r = str_take k page /\ utf8_ok (wf_Body r) = true
            /\ forall j, (k < j <= body_limit)%nat -> utf8_ok (str_take j page) = false
     else wf_Body r = page.
Proof.
  unfold ExecWebFetch. destruct (_ =? "")%string; [done|]. destruct (bad_uri _); [done|]. destruct (bad_request _); [done|].
  destruct (client params) as [reply|e]; [|done]. destruct (pr_Body reply) as [page|e] eqn:Eb; [|done].
  destruct (page_text _ _ _) as [title text] eqn:Et. intros [= <-]. cbn [wf_Body]. split; [rewrite str_take_length; apply Nat.le_min_l|].
  intros ? ? [= <-] Hp Hh. rewrite Eb in Hp. injection Hp as <-. unfold page_text in Et. rewrite Hh in Et. injection Et as _ <-.
  pose proof (limited_length page) as Hl. rewrite (str_take_all _ _ Hl). unfold limited_body in *.
  destruct (body_limit <? String.length page)%nat; [|done].
  destruct (trim_valid_spec body_limit page) as (k & Hk & -> & H2 & H3). by exists k.
Qed.
End fetch.

(** ** No tag is left *)

Lemma segs_forall p s : str_forall p s = true -> Forall (fun seg => str_forall p (snd seg) = true) (utf8_segs s).
Proof.
  intros H. rewrite <- (utf8_segs_bytes s) in H. induction (utf8_segs s) as [|[r b] l IH]; [constructor|].
  cbn in H. rewrite str_forall_app in H. apply andb_true_iff in H as [Hb Hl]. constructor; [exact Hb|by apply IH].
Qed.

Lemma fields_forall p sep l : forall w, Forall (fun seg : Z * string => str_forall p (snd seg) = true) l -> str_forall p w = true ->
  Forall (fun w => str_forall p w = true) (fields_loop sep l w).
Proof.
  induction l as [|[r b] l IH]; intros w Hl Hw; cbn [fields_loop].
  - case_match; repeat constructor; done.
  - apply Forall_cons in Hl as [Hb Hl]. destruct (sep r).
    + case_match; [by apply IH|]. constructor; [done|by apply IH].
    + apply IH; [done|]. rewrite str_forall_app. apply andb_true_iff. by split.
Qed.

Lemma join_forall p sep l : Forall (fun w => str_forall p w = true) l -> str_forall p sep = true -> str_forall p (str_join l sep) = true.
Proof.
  intros Hl Hs. induction Hl as [|w l Hw Hl IH]; [done|]. destruct l as [|w' l]; [done|].
  change (str_join (w :: w' :: l) sep) with (w +:+ sep +:+ str_join (w' :: l) sep). rewrite !str_forall_app, Hw, Hs. exact IH.
Qed.

Lemma collapse_forall p s : str_forall p s = true -> p " "%char = true -> str_forall p (collapse s) = true.
Proof.
  intros Hs Hp. apply join_forall; [|cbn; by rewrite Hp]. apply fields_forall; [|done]. by apply segs_forall.
Qed.

Definition no_tag_byte (c : ascii) : bool := negb (byte_of c =? 60) && negb (byte_of c =? 62).

Lemma encode_no_tag r : r <> 60 -> r <> 62 -> str_forall no_tag_byte (utf8_encode r) = true.
Proof.
  intros H1 H2. assert (Hb : forall z, 128 <= z < 256 -> no_tag_byte (of_byte z) = true) by (intros z Hz; unfold no_tag_byte; rewrite byte_of_of; lia).
  unfold utf8_encode. destruct ((0 <=? r) && (r <? 128)) eqn:E1.
  { cbn [str_forall]. unfold no_tag_byte. rewrite byte_of_of by lia. lia. }
  destruct ((128 <=? r) && (r <? 2048)) eqn:E2; [|destruct ((r <? 0) || _ || _) eqn:E3; [|destruct (r <? 65536) eqn:E4]]; cbn [str_forall];
    rewrite !Hb; try done; Z.to_euclidean_division_equations; lia.
Qed.

Lemma strip_no_tag at_end : str_forall no_tag_byte at_end = true -> forall l t, str_forall no_tag_byte (strip_runes at_end t l) = true.
Proof.
  intros Ha. induction l as [|r l IH]; intros t; [done|]. cbn [strip_runes].
  destruct (Z.eqb_spec r 60); [apply IH|]. destruct (Z.eqb_spec r 62); [by rewrite str_forall_app, Ha, IH|].
  destruct t; [apply IH|]. by rewrite str_forall_app, encode_no_tag, IH.
Qed.

(** No angle bracket is left of a page that is stripped. *)
Lemma stripped_text page : str_forall no_tag_byte (stripHTMLTags page) = true.
Proof. apply collapse_forall; [|done]. by apply strip_no_tag. Qed.

(** ** websearch.go *)

Definition webSearchTimeoutSec : Z := 15.
Definition webSearchMaxResults : Z := 10.
Definition webSearchDefaultResults : Z := 5.
Definition webSearchMaxQueryLen : Z := 500.
Definition webSearchUserAgent : string := "Open-Nipper-Agent/1.0 (+https://github.com/jescarri/open-nipper)".
Definition ddgHTMLEndpoint : string := "https://html.duckduckgo.com/html/".
Definition googleCSEEndpoint : string := "https://www.googleapis.com/customsearch/v1".
Definition ddgMaxResponseBytes : Z := 512 * 1024.

Record WebSearchParams := { sp_Query : string; sp_Engine : string; sp_MaxResults : Z }.
(** The executor, less its HTTP client. *)
Record WebSearchExecutor := { we_cfg : WebSearchConfig; we_effectiveEngine : string; we_ddgEndpoint : string; we_googleEndpoint : string }.

Definition NewWebSearchExecutor (cfg : WebSearchConfig) (effectiveEngine : string) : WebSearchExecutor :=
  Build_WebSearchExecutor cfg effectiveEngine ddgHTMLEndpoint googleCSEEndpoint.
Definition NewWebSearchExecutorWithEndpoint (cfg : WebSearchConfig) (effectiveEngine ddgURL : string) : WebSearchExecutor :=
  let e := NewWebSearchExecutor cfg effectiveEngine in
  Build_WebSearchExecutor (we_cfg e) (we_effectiveEngine e) (if (ddgURL =? "")%string then we_ddgEndpoint e else ddgURL) (we_googleEndpoint e).
Definition NewWebSearchExecutorWithGoogleEndpoint (cfg : WebSearchConfig) (effectiveEngine ddgURL googleURL : string) : WebSearchExecutor :=
  let e := NewWebSearchExecutor cfg effectiveEngine in
  Build_WebSearchExecutor (we_cfg e) (we_effectiveEngine e) (if (ddgURL =? "")%string then we_ddgEndpoint e else ddgURL)
    (if (googleURL =? "")%string then we_googleEndpoint e else googleURL).

Record SearchResult := { sr_Title : string; sr_URL : string; sr_Snippet : string }.
Record WebSearchResult := { ws_Engine : string; ws_Query : string; ws_Results : list SearchResult }.

(** A text with double quotes, written with single ones. *)
Definition dq (s : string) : string := json_text s.

Definition ExtractCurrentTagContent (s : string) : string :=
  match str_cut ">" s with
  | None => ""
  | Some (_, rest) =>
      match str_cut "</a>" rest with
      | Some (content, _) => content
      | None => match str_cut "</" rest with Some (content, _) => content | None => "" end
      end
  end.

Definition ExtractHref (s : string) : string :=
  match str_cut (dq "href='") s with
  | None => ""
  | Some (_, rest) => match str_cut (dq "'") rest with Some (url, _) => url | None => "" end
  end.

Definition ExtractTagContent (s tag : string) : string :=
  match str_cut ("<" +:+ tag) s with
  | None => ""
  | Some (_, rest) =>
      match str_cut ">" ("<" +:+ tag +:+ rest) with
      | None => ""
      | Some (_, content) => match str_cut ("</" +:+ tag +:+ ">") content with Some (text, _) => text | None => "" end
      end
  end.

(** [strings.ToValidUTF8(s, "")]. *)
Definition drop_invalid (s : string) : string :=
  segs_bytes (List.filter (fun seg => negb ((fst seg =? rune_error) && (String.length (snd seg) =? 1)%nat)) (utf8_segs s)).

Definition decode_entities (s : string) : string :=
  fold_left (fun s e => ReplaceAll s (fst e) (snd e))
    [("&amp;", "&"); ("&lt;", "<"); ("&gt;", ">"); ("&quot;", dq "'"); ("&#39;", "'"); ("&apos;", "'")] s.

Definition CleanHTMLText (s : string) : string :=
  if (s =? "")%string then ""
  else
    let result := decode_entities (collapse (strip_runes "" false (runes s))) in
    if utf8_ok result then result else drop_invalid result.

Record googleSearchItem := { gi_Title : string; gi_Link : string; gi_Snippet : string }.
Definition dec_googleSearchItem : decoder googleSearchItem := dec_struct (fun x =>
  let f {B} := @field B ["title"; "link"; "snippet"] in
  Build_googleSearchItem
    <$$> f "title" dec_string (gi_Title x) <*> f "link" dec_string (gi_Link x) <*> f "snippet" dec_string (gi_Snippet x)).
Definition dec_googleSearchResponse : decoder (list googleSearchItem) := dec_struct (fun x =>
  field ["items"] "items" (dec_slice (Build_googleSearchItem "" "" "") dec_googleSearchItem) x).

Record search_reply := { se_Status : Z; se_Body : result string string }.

Section search.
(** The parameter uddg of a URL (net/url), fmt's [%q], and the client: what building
    and sending a request gives. *)
Context (uddg : string -> option string) (quote : string -> string) (ask : http_call -> result string search_reply).

Definition DecodeRedirectURL (rawURL : string) : string :=
  if str_contains rawURL "uddg=" then
    match uddg rawURL with Some u => if (u =? "")%string then rawURL else u | None => rawURL end
  else rawURL.

Definition result_mark : string := dq "class='result__a'".
Definition snippet_mark : string := dq "class='result__snippet'".

(** The result at the start of a text. *)
Definition first_result (remaining : string) : option SearchResult :=
  let url := ExtractHref remaining in
  let snippet := match str_cut snippet_mark remaining with
                 | Some (_, rest) => ExtractCurrentTagContent (snippet_mark +:+ rest)
                 | None => ""
                 end in
  if (url =? "")%string then None
  else Some (Build_SearchResult (CleanHTMLText (ExtractCurrentTagContent remaining)) (DecodeRedirectURL url) (CleanHTMLText snippet)).

(** [remaining] starts with a mark after the first turn; [n] results are wanted. *)
Fixpoint ddg_loop (fuel : nat) (n : Z) (remaining : string) : list SearchResult :=
  match fuel with
  | O => []
  | S fuel =>
      if n <=? 0 then []
      else
        match str_cut result_mark remaining with
        | None => []
        | Some (_, rest) =>
            let remaining := result_mark +:+ rest in
            let r := first_result remaining in
            let n := match r with Some _ => n - 1 | None => n end in
            (match r with Some x => [x] | None => [] end
             ++ match str_cut result_mark (str_drop 1 remaining) with
                | None => []
                | Some (_, rest) => ddg_loop fuel n (result_mark +:+ rest)
                end)%list
        end
  end.

Definition parseDDGResults (html : string) (maxResults : Z) : list SearchResult := ddg_loop (S (String.length html)) maxResults html.

Definition ddg_request (e : WebSearchExecutor) (query : string) : http_call :=
  Build_http_call "POST" (we_ddgEndpoint e)
    {[ "Content-Type" := ["application/x-www-form-urlencoded"]; "User-Agent" := [webSearchUserAgent]; "Accept" := ["text/html"] ]}
    (Some (form_encode [("q", query); ("b", ""); ("kl", "")])).

Definition searchDuckDuckGo (e : WebSearchExecutor) (query : string) (maxResults : Z) : result string (list SearchResult) :=
  match ask (ddg_request e query) with
  | Err e => Err e
  | Ok reply =>
      if negb (se_Status reply =? StatusOK) then Err ("unexpected status code: " +:+ fmt_d (se_Status reply))
      else match se_Body reply with
           | Err e => Err ("reading response: " +:+ e)
           | Ok body => Ok (parseDDGResults (str_take (Z.to_nat ddgMaxResponseBytes) body) maxResults)
           end
  end.

Definition google_request (e : WebSearchExecutor) (query : string) (maxResults : Z) : http_call :=
  let google := WebSearch_Google (we_cfg e) in
  let params := [("key", WebSearchEngineGoogle_GoogleAPIKey google); ("cx", WebSearchEngineGoogle_GoogleCX google); ("q", query); ("num", fmt_d maxResults)] in
  Build_http_call "GET" (we_googleEndpoint e +:+ "?" +:+ form_encode params)
    {[ "User-Agent" := [webSearchUserAgent]; "Accept" := ["application/json"] ]} None.

Definition searchGoogle (e : WebSearchExecutor) (query : string) (maxResults : Z) : result string (list SearchResult) :=
  match ask (google_request e query maxResults) with
  | Err e => Err e
  | Ok reply =>
      let body := match se_Body reply with Ok b => b | Err _ => "" end in
      if negb (se_Status reply =? StatusOK)
      then Err ("google API returned status " +:+ fmt_d (se_Status reply) +:+ ": " +:+ str_take 2048 body)
      else match se_Body reply with
           | Err _ => Err "decoding response"
           | Ok body =>
               match decode_stream dec_googleSearchResponse [] body with
               | (items, None) => Ok (map (fun i => Build_SearchResult (gi_Title i) (gi_Link i) (gi_Snippet i)) items)
               | (_, Some _) => Err "decoding response"
               end
           end
  end.

Definition wanted_results (n : Z) : Z :=
  let n := if n <=? 0 then webSearchDefaultResults else n in
  if webSearchMaxResults <? n then webSearchMaxResults else n.

Definition ExecWebSearch (ex : WebSearchExecutor) (params : WebSearchParams) : result string WebSearchResult :=
  if (sp_Query params =? "")%string then Err "query is required"
  else if webSearchMaxQueryLen <? Z.of_nat (String.length (sp_Query params)) then Err "query too long (max 500 characters)"
  else
    let maxResults := wanted_results (sp_MaxResults params) in
    let engine := if (we_effectiveEngine ex =? "")%string then "duckduckgo" else we_effectiveEngine ex in
    if (engine =? "duckduckgo")%string || (engine =? "ddg")%string then
      match searchDuckDuckGo ex (sp_Query params) maxResults with
      | Err e => Err ("duckduckgo search: " +:+ e)
      | Ok rs => Ok (Build_WebSearchResult "duckduckgo" (sp_Query params) rs)
      end
    else if (engine =? "google")%string then
      if (WebSearchEngineGoogle_GoogleAPIKey (WebSearch_Google (we_cfg ex)) =? "")%string || (WebSearchEngineGoogle_GoogleCX (WebSearch_Google (we_cfg ex)) =? "")%string
      then Err "google search: google_api_key and google_cx must be set when google engine is enabled"
      else match searchGoogle ex (sp_Query params) maxResults with
           | Err e => Err ("google search: " +:+ e)
           | Ok rs => Ok (Build_WebSearchResult "google" (sp_Query params) rs)
           end
    else Err ("web search engine " +:+ quote engine +:+ " is not configured; use google or duckduckgo").

(** ** How many results there are *)

Lemma cut_length sep s a b : str_cut sep s = Some (a, b) -> String.length s = (String.length a + String.length sep + String.length b)%nat.
Proof.
  revert a b. induction s as [|c s IH]; intros a b; cbn [str_cut].
  - destruct sep; [intros [= <- <-]; done|done].
  - destruct (strip_prefix sep (String c s)) as [r|] eqn:E.
    + intros [= <- <-]. apply strip_prefix_Some in E. rewrite E, str_app_length. done.
    + destruct (str_cut sep s) as [[a' b']|]; [|done]. intros [= <- <-]. cbn. rewrite (IH a' b') by done. done.
Qed.

(** The fuel is enough: more of it changes nothing. *)
Lemma ddg_fuel fuel : forall n remaining k, (String.length remaining < fuel)%nat -> ddg_loop (fuel + k) n remaining = ddg_loop fuel n remaining.
Proof.
  induction fuel as [|fuel IH]; intros n remaining k Hl; [lia|]. cbn [ddg_loop Nat.add]. destruct (n <=? 0); [done|].
  destruct (str_cut result_mark remaining) as [[a rest]|] eqn:E; [|done]. f_equal. apply cut_length in E.
  destruct (str_cut result_mark (str_drop 1 (result_mark +:+ rest))) as [[b rest']|] eqn:E'; [|done]. apply cut_length in E'.
  rewrite str_drop_length, str_app_length in E'. apply IH. rewrite str_app_length. 
  assert (0 < String.length result_mark)%nat by (vm_compute; lia). lia.
Qed.

Lemma ddg_length fuel : forall n remaining, (Z.of_nat (length (ddg_loop fuel n remaining)) <= Z.max 0 n).
Proof.
  induction fuel as [|fuel IH]; intros n remaining; cbn [ddg_loop]; [cbn; lia|]. destruct (Z.leb_spec n 0); [cbn; lia|].
  destruct (str_cut _ _) as [[a rest]|]; [|cbn; lia]. rewrite length_app.
  destruct (first_result _) as [x|]; cbn [length]; destruct (str_cut _ _) as [[b rest']|]; cbn [length]; try lia;
    match goal with |- context [ddg_loop fuel ?m ?r] => pose proof (IH m r) end; lia.
Qed.

Lemma search_bounded html maxResults : Z.of_nat (length (parseDDGResults html maxResults)) <= Z.max 0 maxResults.
Proof. apply ddg_length. Qed.
End search.

(** ** Pages *)

Definition demo_html : string := dq "<a class='result__a' href='http://one'>One &amp; <b>only</b></a> <a class='result__a' href='//duckduckgo.com/l/?uddg=x'>Two</a><a class='result__snippet' href='y'>second</a>".

(** A result without a snippet gets the one of the next result. *)
Example ddg_demo :
  parseDDGResults (fun _ => Some "http://two") demo_html 5 =
  [Build_SearchResult "One & only" "http://one" "second"; Build_SearchResult "Two" "http://two" "second"].
Proof. vm_compute. reflexivity. Qed.

(** Text that was escaped twice is decoded twice. *)
Example entities_demo : CleanHTMLText "Use &amp;lt;b&amp;gt; &#39;x&apos;" = "Use <b> 'x'".
Proof. vm_compute. reflexivity. Qed.

Example strip_demo :
  stripHTMLTags "<html><SCRIPT type=js>var a = 1 < 2;</script ><p>Hello <b>wide</b>  world</p><style>p {}</style></html>" = "Hello wide world".
Proof. vm_compute. reflexivity. Qed.

(** A page that is not UTF-8 is cut before the first byte that is not. *)
Example trim_demo : trim_valid 20 ("caf" +:+ String (of_byte 233) " and all that follows") = "caf".
Proof. vm_compute. reflexivity. Qed.


Definition demo_search_cfg : WebSearchConfig :=
  Build_WebSearchConfig (Build_WebSearchEngineGoogle true "k&y" "cx") (Build_WebSearchEngineDuckDuckGo false).

Example google_demo :
  hc_URL (google_request (NewWebSearchExecutor demo_search_cfg "google") "a b" 3) =
  "https://www.googleapis.com/customsearch/v1?cx=cx&key=k%26y&num=3&q=a+b".
Proof. vm_compute. reflexivity. Qed.

(** A query of 251 runes is refused, the limit is one of bytes. *)
Example query_bytes :
  ExecWebSearch (fun _ => None) (fun s => s) (fun _ => Err "no network") (NewWebSearchExecutor demo_search_cfg "google")
    (Build_WebSearchParams (str_join (repeat (utf8_encode 233) 251) "") "" 0) = Err "query too long (max 500 characters)".
Proof. vm_compute. reflexivity. Qed.

(** ** weather.go *)

Definition ecBaseURL : string := "https://api.weather.gc.ca".
Definition ecCollection : string := "citypageweather-realtime".
Definition weatherTimeout : Z := 15 * time_second.
Definition bboxDelta : spec_float := f_const 15 (-2).
Definition weatherUserAgent : string := "Open-Nipper-Agent/1.0 (+https://github.com/jescarri/open-nipper)".

Record WeatherParams := { wt_Latitude : spec_float; wt_Longitude : spec_float; wt_Language : string }.
Record WeatherResult := {
  wr_City : string; wr_Region : string; wr_CurrentCondition : string; wr_Temperature : string; wr_WindChill : string; wr_Wind : string;
  wr_Humidity : string; wr_Pressure : string; wr_Forecast : string; wr_Warnings : string; wr_ObservedAt : string; wr_StationName : string;
  wr_PageURL : string }.

Record ecLangStr := { ls_En : string; ls_Fr : string }.
Definition zero_ecLangStr : ecLangStr := Build_ecLangStr "" "".
Definition dec_ecLangStr : decoder ecLangStr := dec_struct (fun x =>
  let f {B} := @field B ["en"; "fr"] in
  Build_ecLangStr <$$> f "en" dec_string (ls_En x) <*> f "fr" dec_string (ls_Fr x)).
Definition ls_get (l : ecLangStr) (lang : string) : string :=
  if (lang =? "fr")%string && negb (ls_Fr l =? "")%string then ls_Fr l else ls_En l.

Record ecLangVal := { lv_En : option json; lv_Fr : option json }.
Definition dec_ecLangVal : decoder ecLangVal := dec_struct (fun x =>
  let f {B} := @field B ["en"; "fr"] in
  Build_ecLangVal <$$> f "en" dec_raw (lv_En x) <*> f "fr" dec_raw (lv_Fr x)).
Definition zero_ecLangVal : ecLangVal := Build_ecLangVal None None.

Record ecValueField := { vf_Value : ecLangVal; vf_Units : ecLangStr }.
Definition zero_ecValueField : ecValueField := Build_ecValueField zero_ecLangVal zero_ecLangStr.
Definition dec_ecValueField : decoder ecValueField := dec_struct (fun x =>
  let f {B} := @field B ["value"; "units"] in
  Build_ecValueField <$$> f "value" dec_ecLangVal (vf_Value x) <*> f "units" dec_ecLangStr (vf_Units x)).

Record ecWind := { wd_Speed : ecValueField; wd_Gust : ecValueField; wd_Direction : ecLangStr }.
Definition dec_ecWind : decoder ecWind := dec_struct (fun x =>
  let f {B} := @field B ["speed"; "gust"; "direction"] in
  Build_ecWind <$$> f "speed" dec_ecValueField (wd_Speed x) <*> f "gust" dec_ecValueField (wd_Gust x) <*> f "direction" dec_ecLangStr (wd_Direction x)).

Record ecPressure := { pr_Value : ecLangVal; pr_Units : ecLangStr; pr_Tendency : ecLangStr }.
Definition dec_ecPressure : decoder ecPressure := dec_struct (fun x =>
  let f {B} := @field B ["value"; "units"; "tendency"] in
  Build_ecPressure <$$> f "value" dec_ecLangVal (pr_Value x) <*> f "units" dec_ecLangStr (pr_Units x) <*> f "tendency" dec_ecLangStr (pr_Tendency x)).

(** A station is its value. *)
Definition dec_ecStation : decoder ecLangStr := dec_struct (fun x => field ["value"] "value" dec_ecLangStr x).

Record ecCurrentCond := {
  cc_Temperature : ecValueField; cc_Condition : ecLangStr; cc_Wind : ecWind; cc_WindChill : ecValueField; cc_Humidity : ecValueField;
  cc_Pressure : ecPressure; cc_Timestamp : ecLangStr; cc_Station : ecLangStr }.
Definition zero_ecCurrentCond : ecCurrentCond :=
  Build_ecCurrentCond zero_ecValueField zero_ecLangStr (Build_ecWind zero_ecValueField zero_ecValueField zero_ecLangStr) zero_ecValueField zero_ecValueField
    (Build_ecPressure zero_ecLangVal zero_ecLangStr zero_ecLangStr) zero_ecLangStr zero_ecLangStr.
Definition dec_ecCurrentCond : decoder ecCurrentCond := dec_struct (fun x =>
  let f {B} := @field B ["temperature"; "condition"; "wind"; "windChill"; "relativeHumidity"; "pressure"; "timestamp"; "station"] in
  Build_ecCurrentCond
    <$$> f "temperature" dec_ecValueField (cc_Temperature x) <*> f "condition" dec_ecLangStr (cc_Condition x) <*> f "wind" dec_ecWind (cc_Wind x)
    <*> f "windChill" dec_ecValueField (cc_WindChill x) <*> f "relativeHumidity" dec_ecValueField (cc_Humidity x)
    <*> f "pressure" dec_ecPressure (cc_Pressure x) <*> f "timestamp" dec_ecLangStr (cc_Timestamp x) <*> f "station" dec_ecStation (cc_Station x)).

(** A period and its summary. *)
Record ecForecast := { fc_Period : ecLangStr; fc_TextSummary : ecLangStr }.
Definition dec_ecPeriod : decoder ecLangStr := dec_struct (fun x => field ["textForecastName"] "textForecastName" dec_ecLangStr x).
Definition dec_ecForecast : decoder ecForecast := dec_struct (fun x =>
  let f {B} := @field B ["period"; "textSummary"] in
  Build_ecForecast <$$> f "period" dec_ecPeriod (fc_Period x) <*> f "textSummary" dec_ecLangStr (fc_TextSummary x)).
Definition dec_ecForecastGroup : decoder (list ecForecast) := dec_struct (fun x =>
  field ["forecasts"] "forecasts" (dec_slice (Build_ecForecast zero_ecLangStr zero_ecLangStr) dec_ecForecast) x).

Record ecProperties := {
  ep_Name : ecLangStr; ep_Region : ecLangStr; ep_CurrentConditions : option ecCurrentCond; ep_ForecastGroup : option (list ecForecast);
  ep_Warnings : option json; ep_URL : ecLangStr }.
Definition zero_ecProperties : ecProperties := Build_ecProperties zero_ecLangStr zero_ecLangStr None None None zero_ecLangStr.
Definition dec_ecProperties : decoder ecProperties := dec_struct (fun x =>
  let f {B} := @field B ["name"; "region"; "currentConditions"; "forecastGroup"; "warnings"; "url"] in
  Build_ecProperties
    <$$> f "name" dec_ecLangStr (ep_Name x) <*> f "region" dec_ecLangStr (ep_Region x)
    <*> f "currentConditions" (dec_ptr zero_ecCurrentCond dec_ecCurrentCond) (ep_CurrentConditions x)
    <*> f "forecastGroup" (dec_ptr [] dec_ecForecastGroup) (ep_ForecastGroup x)
    <*> f "warnings" dec_raw (ep_Warnings x) <*> f "url" dec_ecLangStr (ep_URL x)).

Definition dec_ecFeature : decoder ecProperties := dec_struct (fun x => field ["properties"] "properties" dec_ecProperties x).
Definition dec_ecFeatureCollection : decoder (list ecProperties) := dec_struct (fun x =>
  field ["features"] "features" (dec_slice zero_ecProperties dec_ecFeature) x).

(** [int64(f)], when it is [f]. *)
Definition float_int64 (f : spec_float) : option Z :=
  match f with
  | S754_zero _ => Some 0
  | S754_finite neg m e =>
      let v := if 0 <=? e then Zpos m * 2 ^ e else Zpos m / 2 ^ (- e) in
      let v := if neg then - v else v in
      if ((0 <=? e) || (Zpos m mod 2 ^ (- e) =? 0)) && (- 2 ^ 63 <=? v) && (v <? 2 ^ 63) then Some v else None
  | _ => None
  end.

(** The text of a value that is neither string nor number, as it was written. *)
Section weather.
Context (raw_text : json -> string).

Definition lv_get (v : ecLangVal) (lang : string) : string :=
  let raw := match lv_Fr v with Some fr => if (lang =? "fr")%string then Some fr else lv_En v | None => lv_En v end in
  match raw with
  | None | Some VNull => ""
  | Some (VStr s) => s
  | Some (VNum t) =>
      match parse_json_float t with
      | Some f => match float_int64 f with Some i => fmt_d i | None => fmt_fixed 1 f end
      | None => t
      end
  | Some v => raw_text v
  end.

Definition given (s text : string) : string := if (s =? "")%string then "" else text.
Definition degree : string := utf8_encode 176.

Definition wind_text (lang : string) (w : ecWind) : string :=
  let speed := lv_get (vf_Value (wd_Speed w)) lang in
  let unit_ := ls_get (vf_Units (wd_Speed w)) lang in
  let gust := lv_get (vf_Value (wd_Gust w)) lang in
  given speed (ls_get (wd_Direction w) lang +:+ " " +:+ speed +:+ " " +:+ unit_
               +:+ (if negb (gust =? "")%string && negb (gust =? "0")%string then " (gusting " +:+ gust +:+ " " +:+ unit_ +:+ ")" else "")).

Definition pressure_text (lang : string) (p : ecPressure) : string :=
  let val := lv_get (pr_Value p) lang in
  let tendency := ls_get (pr_Tendency p) lang in
  given val (val +:+ " " +:+ ls_get (pr_Units p) lang +:+ given tendency (" (" +:+ tendency +:+ ")")).

Definition forecast_line (lang : string) (f : ecForecast) : option string :=
  let period := ls_get (fc_Period f) lang in
  let summary := ls_get (fc_TextSummary f) lang in
  if (period =? "")%string || (summary =? "")%string then None else Some ("*" +:+ period +:+ "*: " +:+ summary).

(** How many warnings there are, when they are an array. *)
Definition warning_count (w : option json) : nat :=
  match w with Some (VArr l) => if existsb (fun v => snd (to_any v)) l then O else length l | _ => O end.

Definition weather_of (props : ecProperties) (lang : string) : WeatherResult :=
  let page := given (ls_En (ep_URL props)) (ls_get (ep_URL props) lang) in
  let n := warning_count (ep_Warnings props) in
  let on {A} (x : option A) (f : A -> string) := match x with Some a => f a | None => "" end in
  let cc := ep_CurrentConditions props in
  {| wr_City := ls_get (ep_Name props) lang;
     wr_Region := ls_get (ep_Region props) lang;
     wr_CurrentCondition := on cc (fun c => ls_get (cc_Condition c) lang);
     wr_Temperature := on cc (fun c => let v := lv_get (vf_Value (cc_Temperature c)) lang in
                                       given v (v +:+ degree +:+ ls_get (vf_Units (cc_Temperature c)) lang));
     wr_WindChill := on cc (fun c => let v := lv_get (vf_Value (cc_WindChill c)) lang in given v (v +:+ degree +:+ "C"));
     wr_Wind := on cc (fun c => wind_text lang (cc_Wind c));
     wr_Humidity := on cc (fun c => let v := lv_get (vf_Value (cc_Humidity c)) lang in given v (v +:+ ls_get (vf_Units (cc_Humidity c)) lang));
     wr_Pressure := on cc (fun c => pressure_text lang (cc_Pressure c));
     wr_Forecast := on (ep_ForecastGroup props) (fun l => str_join (omap (forecast_line lang) (firstn 14 l)) (String "010" ""));
     wr_Warnings := if (0 <? n)%nat then fmt_d (Z.of_nat n) +:+ " active warning(s) " +:+ utf8_encode 8212 +:+ " check " +:+ page +:+ " for details" else "";
     wr_ObservedAt := on cc (fun c => ls_get (cc_Timestamp c) lang);
     wr_StationName := on cc (fun c => ls_get (cc_Station c) lang);
     wr_PageURL := page |}.

Definition no_weather : string :=
  "no weather data found for the given coordinates " +:+ utf8_encode 8212 +:+ " the location may not be in Canada or near an Environment Canada station".

Definition parseWeatherResponse (data lang : string) : result string WeatherResult :=
  match unmarshal dec_ecFeatureCollection [] data with
  | (_, Some _) => Err "decoding weather response"
  | ([], None) => Err no_weather
  | (props :: _, None) => Ok (weather_of props lang)
  end.

(** What the request gives. *)
Context (ask : http_call -> result string search_reply).

Definition weather_request (params : WeatherParams) : http_call :=
  let side (op : spec_float -> spec_float -> spec_float) (x : spec_float) := fmt_fixed 4 (op x bboxDelta) in
  let bbox := str_join [side f_sub (wt_Longitude params); side f_sub (wt_Latitude params); side f_add (wt_Longitude params); side f_add (wt_Latitude params)] "," in
  Build_http_call "GET" (ecBaseURL +:+ "/collections/" +:+ ecCollection +:+ "/items?f=json&limit=1&bbox=" +:+ bbox)
    {[ "User-Agent" := [weatherUserAgent]; "Accept" := ["application/geo+json"] ]} None.

Definition is_zero_float (x : spec_float) : bool := match x with S754_zero _ => true | _ => false end.

(** The coordinates of the profile stand in for those that are zero. *)
Definition weather_place (profile : option (spec_float * spec_float)) (params : WeatherParams) : option WeatherParams :=
  if is_zero_float (wt_Latitude params) && is_zero_float (wt_Longitude params)
  then (fun c => Build_WeatherParams (fst c) (snd c) (wt_Language params)) <$> profile
  else Some params.

Definition weather_lang (params : WeatherParams) : string := if (wt_Language params =? "fr")%string then "fr" else "en".

Definition ExecWeather (profile : option (spec_float * spec_float)) (params : WeatherParams) : result string WeatherResult :=
  match weather_place profile params with
  | None => Err ("latitude and longitude are required " +:+ utf8_encode 8212 +:+ " ask the user to set their coordinates via /setup coords <lat,lon>")
  | Some params =>
      match ask (weather_request params) with
      | Err e => Err ("fetching weather data: " +:+ e)
      | Ok reply =>
          if negb (se_Status reply =? StatusOK)
          then Err ("weather API returned " +:+ fmt_d (se_Status reply) +:+ ": " +:+ str_take 1024 (match se_Body reply with Ok b => b | Err _ => "" end))
          else match se_Body reply with
               | Err e => Err ("reading weather response: " +:+ e)
               | Ok body => parseWeatherResponse (str_take (Z.to_nat (512 * 1024)) body) (weather_lang params)
               end
      end
  end.
End weather.

(** ** datetime.go *)

Record DateTimeResult := {
  dt_DateTime : string; dt_Date : string; dt_Time : string; dt_Weekday : string; dt_Timezone : string; dt_UTCOffset : string;
  dt_UnixTimestamp : Z; dt_OS : string }.

Definition weekday (t : Z) : string :=
  nth (Z.to_nat ((t / day_ns + 4) mod 7)) ["Sunday"; "Monday"; "Tuesday"; "Wednesday"; "Thursday"; "Friday"; "Saturday"] "".

(** The offset of [time.RFC3339], and the one of the result, in seconds. *)
Definition zone_suffix (offset : Z) : string :=
  if offset =? 0 then "Z"
  else let m := Z.abs (Z.quot offset 60) in (if Z.quot offset 60 <? 0 then "-" else "+") +:+ append_int 2 (m / 60) +:+ ":" +:+ append_int 2 (m mod 60).

Definition utc_offset (offset : Z) : string :=
  let hours := Z.quot offset 3600 in
  let mins := Z.abs (Z.quot (Z.rem offset 3600) 60) in
  (if hours <? 0 then "-" else "+") +:+ append_int 2 (Z.abs hours) +:+ ":" +:+ append_int 2 mins.

(** The zone with a name: its error, or its offset at an instant; the zone of the
    system has a name of its own. *)
Definition ExecDateTime (load : string -> result string (Z -> Z)) (system : string * (Z -> Z)) (os : string) (now : Z) (timezone : string)
    : result string DateTimeResult :=
  match (if (timezone =? "")%string then Ok system else match load timezone with Ok z => Ok (timezone, z) | Err e => Err e end) with
  | Err e => Err e
  | Ok (name, zone) =>
      let offset := zone now in
      let t := now + offset * time_second in
      Ok {| dt_DateTime := fmt_date "-" t +:+ "T" +:+ fmt_clock ":" t +:+ zone_suffix offset;
            dt_Date := fmt_date "-" t; dt_Time := fmt_clock ":" t; dt_Weekday := weekday t; dt_Timezone := name; dt_UTCOffset := utc_offset offset;
            dt_UnixTimestamp := now / time_second; dt_OS := os |}
  end.

(** The offset of the result is the one of the time, but for zones less than an hour
    behind, which are given as ahead. *)
Lemma offset_text offset : offset <> 0 -> (0 < offset \/ offset <= -3600) -> utc_offset offset = zone_suffix offset.
Proof.
  intros Hn Ho. unfold utc_offset, zone_suffix. apply Z.eqb_neq in Hn. rewrite Hn.
  assert (E1 : (Z.quot offset 3600 <? 0) = (Z.quot offset 60 <? 0)) by (Z.to_euclidean_division_equations; lia).
  assert (E2 : Z.abs (Z.quot offset 3600) = Z.abs (Z.quot offset 60) / 60) by (Z.to_euclidean_division_equations; nia).
  assert (E3 : Z.abs (Z.quot (Z.rem offset 3600) 60) = Z.abs (Z.quot offset 60) mod 60) by (Z.to_euclidean_division_equations; nia).
  by rewrite E1, E2, E3.
Qed.

Example behind_half_hour : utc_offset (-1800) = "+00:30" /\ zone_suffix (-1800) = "-00:30".
Proof. vm_compute. done. Qed.

(** ** The weather of a place *)

Definition demo_weather : string := json_text
  "{'features':[{'properties':{'name':{'en':'Ottawa'},'url':{'en':'http://w'},'warnings':[{},{}],'currentConditions':{'temperature':{'value':{'en':-3.25},'units':{'en':'C'}},'windChill':{'value':{'en':'-9'}},'wind':{'speed':{'value':{'en':20},'units':{'en':'km/h'}},'gust':{'value':{'en':0}},'direction':{'en':'NW'}}},'forecastGroup':{'forecasts':[{'period':{'textForecastName':{'en':'Today'}},'textSummary':{'en':'Snow.'}},{}]}}}]}".

Example weather_demo :
  match parseWeatherResponse (fun _ => "") demo_weather "fr" with
  | Ok r => [wr_City r; wr_Temperature r; wr_WindChill r; wr_Wind r; wr_Forecast r; wr_Warnings r]
  | Err e => [e]
  end = ["Ottawa"; "-3.2" +:+ degree +:+ "C"; "-9" +:+ degree +:+ "C"; "NW 20 km/h"; "*Today*: Snow.";
         "2 active warning(s) " +:+ utf8_encode 8212 +:+ " check http://w for details"].
Proof. vm_compute. reflexivity. Qed.

Example weather_request_demo :
  hc_URL (weather_request (Build_WeatherParams (f_const 4542 (-2)) (SFopp (f_const 757 (-1))) "")) =
  "https://api.weather.gc.ca/collections/citypageweather-realtime/items?f=json&limit=1&bbox=-75.8500,45.2700,-75.5500,45.5700".
Proof. vm_compute. reflexivity. Qed.
