(* ===== verification/DocFetch.v ===== *)
(** * Documents (agent/tools/docfetch.go, s3fetch)

    Fetching a document from the web or from an S3 store, and what is made of it.
    net/http, whose loop over redirects is written out, net/url, the S3 client and the
    readers of PDF, HTML and EXIF are parameters.  [requests_checked] says where the
    requests for a document go, [document_bounded] how long its text is. *)
From Stdlib Require Import ZArith Lia Bool Ascii String List.
From Stdlib Require Import SpecFloat.
From stdpp Require Import base gmap strings option list.
From S2P Require Import Prelude GoString GoFloat Http Mqtt Config AgentConfig WebTools.

Local Open Scope string_scope.
Local Open Scope Z_scope.

(** ** s3fetch.go: names of objects *)

(** A URL as net/url parses it, and as it was written. *)
Record url := { u_Scheme : string; u_Hostname : string; u_Path : string; u_String : string }.

Definition defaultMaxBytes : Z := 50 * 1024 * 1024.

Definition NormalizeS3Config (cfg : S3DefaultConfig) : S3DefaultConfig :=
  let ep := trim_space (S3Default_Endpoint cfg) in
  let '(endpoint, ssl) :=
    match strip_prefix "https://" ep, strip_prefix "http://" ep with
    | Some rest, _ => (rest, true)
    | None, Some rest => (rest, false)
    | None, None => (S3Default_Endpoint cfg, S3Default_UseSSL cfg)
    end in
  Build_S3DefaultConfig (trim_slashes endpoint) (S3Default_Bucket cfg) (S3Default_AccessKey cfg) (S3Default_SecretKey cfg) (S3Default_Region cfg) ssl.

(** [net.SplitHostPort], the host of it. *)
Definition split_host (s : string) : option string :=
  match last_index ":" s with
  | None => None
  | Some i =>
      let brackets (s : string) := str_contains s "[" || str_contains s "]" in
      match s with
      | String "["%char rest =>
          match str_cut "]" rest with
          | None => None
          | Some (host, _) =>
              if (S (S (String.length host)) =? i)%nat && negb (str_contains host "[") && negb (brackets (str_drop i s)) then Some host else None
          end
      | _ =>
          let host := str_take i s in
          if str_contains host ":" || brackets s then None else Some host
      end
  end.

Section names.
(** fmt's [%q], [strings.EqualFold] and [url.Parse]. *)
Context (quote : string -> string) (equal_fold : string -> string -> bool) (url_parse : string -> result string url).

Definition hostsMatch (urlHost endpoint : string) : bool := equal_fold urlHost (default endpoint (split_host endpoint)).

Definition ParseS3URI (uri : string) : result string (string * string) :=
  match strip_prefix "s3://" uri with
  | None => Err ("not an S3 URI: " +:+ quote uri)
  | Some "" => Err "empty S3 URI"
  | Some rest => match str_cut "/" rest with Some bk => Ok bk | None => Err ("S3 URI has bucket but no key: " +:+ quote uri) end
  end.

Definition ParseHTTPURL (rawURL : string) : result string (string * string) :=
  match url_parse rawURL with
  | Err e => Err ("invalid url " +:+ quote rawURL +:+ ": " +:+ e)
  | Ok u =>
      let trimmed := default (u_Path u) (strip_prefix "/" (u_Path u)) in
      if (trimmed =? "")%string then Err ("S3 URL has no path: " +:+ quote rawURL)
      else match str_cut "/" trimmed with Some bk => Ok bk | None => Err ("S3 URL has bucket but no key: " +:+ quote rawURL) end
  end.

Definition ValidateS3Path (bucket key : string) : option string :=
  let n := Z.of_nat (String.length bucket) in
  if negb (bucket =? "")%string && ((n <? 3) || (63 <? n)) then Some ("invalid S3 bucket name length: " +:+ fmt_d n +:+ " (must be 3-63)")
  else if str_contains key ".." then Some "path traversal in S3 key is forbidden"
  else if (key =? "")%string then Some "S3 key is empty"
  else None.

(** [cfg] is normalized. *)
Definition IsS3EndpointURL (cfg : S3DefaultConfig) (rawURL : string) : bool :=
  if (S3Default_Endpoint cfg =? "")%string then false
  else match url_parse rawURL with Ok u => hostsMatch (u_Hostname u) (S3Default_Endpoint cfg) | Err _ => false end.

(** The answer of the store: the client, the object, its properties or its content
    may fail. *)
Inductive s3_answer :=
| NoClient (e : string) | NoObject (e : string) | NoStat (e : string) | Object (size : Z) (contentType : string) (content : result string string).

Section fetcher.
Context (cfg : S3DefaultConfig) (maxBytes : Z).
(** The store at an endpoint, and a plain GET: the status and the content. *)
Context (store : string -> string -> s3_answer) (creating : string -> option string) (get : string -> result string (Z * result string string)).

Definition getObject (bucket key : string) : result string string :=
  if (S3Default_Endpoint cfg =? "")%string then Err "S3 endpoint not configured"
  else if (S3Default_AccessKey cfg =? "")%string || (S3Default_SecretKey cfg =? "")%string then Err "S3 credentials not configured"
  else
    match store bucket key with
    | NoClient e => Err ("creating S3 client: " +:+ e)
    | NoObject e => Err ("S3 GetObject(" +:+ bucket +:+ "/" +:+ key +:+ "): " +:+ e)
    | NoStat e => Err ("S3 Stat(" +:+ bucket +:+ "/" +:+ key +:+ "): " +:+ e)
    | Object size _ content =>
        if maxBytes <? size then Err ("S3 object too large: " +:+ fmt_d size +:+ " bytes (max " +:+ fmt_d maxBytes +:+ ")")
        else match content with Err e => Err ("reading S3 object: " +:+ e) | Ok data => Ok (str_take (Z.to_nat (maxBytes + 1)) data) end
    end.

Definition checked_object (r : result string (string * string)) : result string string :=
  match r with
  | Err e => Err e
  | Ok (bucket, key) => match ValidateS3Path bucket key with Some e => Err e | None => getObject bucket key end
  end.

Definition fetchS3URI (s3URI : string) : result string string :=
  checked_object (match ParseS3URI s3URI with
                  | Ok (bucket, key) => Ok (if (bucket =? "")%string then S3Default_Bucket cfg else bucket, key)
                  | Err e => Err e
                  end).

Definition fetchS3ByHTTPURL (rawURL : string) : result string string := checked_object (ParseHTTPURL rawURL).

Definition fetchHTTP_bytes (rawURL : string) : result string string :=
  match creating rawURL with
  | Some e => Err ("creating fetch request: " +:+ e)
  | None =>
      match get rawURL with
      | Err e => Err ("fetching URL: " +:+ e)
      | Ok (status, body) =>
          if negb (status =? StatusOK) then Err ("URL returned " +:+ fmt_d status)
          else match body with Err e => Err ("reading response: " +:+ e) | Ok data => Ok (str_take (Z.to_nat maxBytes) data) end
      end
  end.

Definition Fetch (rawURL : string) : result string string :=
  if has_prefix rawURL "s3://" then fetchS3URI rawURL
  else if IsS3EndpointURL cfg rawURL then fetchS3ByHTTPURL rawURL
  else fetchHTTP_bytes rawURL.
End fetcher.
End names.

(** ** docfetch.go: where a request may go *)

(** An address, of four bytes or of sixteen. *)
Definition To4 (ip : list Z) : list Z :=
  if (length ip =? 16)%nat && forallb (Z.eqb 0) (firstn 10 ip) && forallb (Z.eqb 255) (firstn 2 (skipn 10 ip)) then skipn 12 ip else ip.

(** A network: its number, the length of its prefix and its name. *)
Record network := { nw_number : list Z; nw_ones : Z; nw_name : string }.

Definition mask_byte (ones : Z) : Z := if 8 <=? ones then 255 else if ones <=? 0 then 0 else 256 - 2 ^ (8 - ones).

Fixpoint same_prefix (ones : Z) (a b : list Z) : bool :=
  match a, b with
  | x :: a, y :: b => (Z.land x (mask_byte ones) =? Z.land y (mask_byte ones)) && same_prefix (ones - 8) a b
  | _, _ => true
  end.

(** [net.IPNet.Contains]. *)
Definition Contains (n : network) (ip : list Z) : bool :=
  let ip := To4 ip in (length ip =? length (nw_number n))%nat && same_prefix (nw_ones n) (nw_number n) ip.

Definition privateNetworks : list network := [
  Build_network [10; 0; 0; 0] 8 "RFC1918 Class A";
  Build_network [172; 16; 0; 0] 12 "RFC1918 Class B";
  Build_network [192; 168; 0; 0] 16 "RFC1918 Class C";
  Build_network [127; 0; 0; 0] 8 "loopback";
  Build_network [169; 254; 0; 0] 16 "link-local";
  Build_network (repeat 0 15 ++ [1]) 128 "IPv6 loopback";
  Build_network (252 :: repeat 0 15) 7 "IPv6 ULA";
  Build_network ([254; 128] ++ repeat 0 14) 10 "IPv6 link-local"].

(** The private addresses, byte by byte: of four bytes, alone or behind the prefix
    that maps them into sixteen, 10.x, 172.16.x to 172.31.x, 192.168.x, 127.x and
    169.254.x; of sixteen, ::1, fc and fd, fe80 to febf. *)
Definition is_byte (x : Z) : Prop := 0 <= x < 256.

Definition private_four (a b : Z) : Prop :=
  a = 10 \/ (a = 172 /\ 16 <= b <= 31) \/ (a = 192 /\ b = 168) \/ a = 127 \/ (a = 169 /\ b = 254).

Inductive private_address : list Z -> Prop :=
| private_v4 a b c d : private_four a b -> private_address [a; b; c; d]
| private_mapped a b c d : private_four a b -> private_address [0; 0; 0; 0; 0; 0; 0; 0; 0; 0; 255; 255; a; b; c; d]
| private_loopback : private_address [0; 0; 0; 0; 0; 0; 0; 0; 0; 0; 0; 0; 0; 0; 0; 1]
| private_local a rest : a = 252 \/ a = 253 -> length rest = 15%nat -> private_address (a :: rest)
| private_link b rest : 128 <= b <= 191 -> length rest = 14%nat -> private_address (254 :: b :: rest).

Lemma same_prefix_none ones a b : ones <= 0 -> same_prefix ones a b = true.
Proof.
  revert ones b. induction a as [|x a IH]; intros ones [|y b] H; [done..|]. cbn [same_prefix]. rewrite IH by lia.
  unfold mask_byte. replace (8 <=? ones) with false by lia. replace (ones <=? 0) with true by lia. by rewrite !Z.land_0_r.
Qed.

Lemma same_prefix_step ones x y a b :
  same_prefix ones (x :: a) (y :: b) = (Z.land x (mask_byte ones) =? Z.land y (mask_byte ones)) && same_prefix (ones - 8) a b.
Proof. done. Qed.

(** A fact of every byte, by trying them. *)
Lemma every_byte (p : Z -> bool) : forallb p (map Z.of_nat (seq 0 256)) = true -> forall x, is_byte x -> p x = true.
Proof.
  intros H x [H1 H2]. rewrite forallb_forall in H. apply H, in_map_iff. exists (Z.to_nat x). split; [lia|]. apply in_seq. lia.
Qed.

Lemma class_b b : is_byte b -> 16 <= b <= 31 -> Z.land b 240 = 16.
Proof.
  intros Hb H. pose proof (every_byte (fun b => negb ((16 <=? b) && (b <=? 31)) || (Z.land b 240 =? 16)) eq_refl b Hb) as Hp.
  cbv beta in Hp. assert (E : (16 <=? b) && (b <=? 31) = true) by lia. rewrite E in Hp. by apply Z.eqb_eq.
Qed.
Lemma link_local b : is_byte b -> 128 <= b <= 191 -> Z.land b 192 = 128.
Proof.
  intros Hb H. pose proof (every_byte (fun b => negb ((128 <=? b) && (b <=? 191)) || (Z.land b 192 =? 128)) eq_refl b Hb) as Hp.
  cbv beta in Hp. assert (E : (128 <=? b) && (b <=? 191) = true) by lia. rewrite E in Hp. by apply Z.eqb_eq.
Qed.

Lemma four_in a b c d : is_byte b -> private_four a b ->
  exists n, In n privateNetworks /\ length (nw_number n) = 4%nat /\ same_prefix (nw_ones n) (nw_number n) [a; b; c; d] = true.
Proof.
  intros Hb H.
  destruct H as [->|[[-> H]|[[-> ->]|[->|[-> ->]]]]].
  - exists (Build_network [10; 0; 0; 0] 8 "RFC1918 Class A"). split; [cbn; auto 12|]. split; [done|].
    cbn [nw_ones nw_number]. by rewrite same_prefix_step, same_prefix_none.
  - exists (Build_network [172; 16; 0; 0] 12 "RFC1918 Class B"). split; [cbn; auto 12|]. split; [done|].
    cbn [nw_ones nw_number]. rewrite 2!same_prefix_step, same_prefix_none by lia. change (mask_byte (12 - 8)) with 240. by rewrite (class_b b).
  - exists (Build_network [192; 168; 0; 0] 16 "RFC1918 Class C"). split; [cbn; auto 12|]. split; [done|].
    cbn [nw_ones nw_number]. by rewrite 2!same_prefix_step, same_prefix_none.
  - exists (Build_network [127; 0; 0; 0] 8 "loopback"). split; [cbn; auto 12|]. split; [done|].
    cbn [nw_ones nw_number]. by rewrite same_prefix_step, same_prefix_none.
  - exists (Build_network [169; 254; 0; 0] 16 "link-local"). split; [cbn; auto 12|]. split; [done|].
    cbn [nw_ones nw_number]. by rewrite 2!same_prefix_step, same_prefix_none.
Qed.

Lemma private_in ip : Forall is_byte ip -> private_address ip -> exists n, In n privateNetworks /\ Contains n ip = true.
Proof.
  intros Hb H. unfold Contains.
  destruct H as [a b c d H|a b c d H| |a rest H Hl|b rest H Hl].
  - rewrite !Forall_cons in Hb. destruct (four_in a b c d) as (n & Hn & Hlen & Hp); [tauto|done|].
    exists n. split; [done|]. cbn [To4 length Nat.eqb andb]. by rewrite Hlen.
  - rewrite !Forall_cons in Hb. destruct (four_in a b c d) as (n & Hn & Hlen & Hp); [tauto|done|].
    exists n. split; [done|]. change (To4 _) with [a; b; c; d]. by rewrite Hlen.
  - exists (Build_network (repeat 0 15 ++ [1]) 128 "IPv6 loopback"). split; [cbn; auto 12|reflexivity].
  - exists (Build_network (252 :: repeat 0 15) 7 "IPv6 ULA"). split; [cbn; auto 12|].
    assert (Ht : To4 (a :: rest) = a :: rest) by (unfold To4; cbn [length]; rewrite Hl; by destruct H as [-> | ->]).
    rewrite Ht. cbn [nw_number nw_ones]. rewrite same_prefix_step, same_prefix_none by lia. cbn [length]. rewrite Hl, repeat_length.
    by destruct H as [-> | ->].
  - exists (Build_network ([254; 128] ++ repeat 0 14) 10 "IPv6 link-local"). split; [cbn; auto 12|].
    assert (Ht : To4 (254 :: b :: rest) = 254 :: b :: rest) by (unfold To4; cbn [length]; by rewrite Hl).
    rewrite Ht. cbn [nw_number nw_ones app]. rewrite 2!same_prefix_step, (same_prefix_none (10 - 8 - 8)) by lia.
    cbn [length]. rewrite Hl, repeat_length. rewrite !Forall_cons in Hb. change (mask_byte (10 - 8)) with 192.
    by rewrite (link_local b) by tauto.
Qed.

Section safety.
Context (fold : Z -> Z) (quote : string -> string) (equal_fold : string -> string -> bool) (ParseIP : string -> option (list Z)).

Definition validateURLSafety (u : url) : option string :=
  let scheme := to_lower fold (u_Scheme u) in
  let host := u_Hostname u in
  if negb (scheme =? "http")%string && negb (scheme =? "https")%string
  then Some ("unsupported scheme " +:+ quote (u_Scheme u) +:+ "; only http and https are allowed")
  else if (host =? "")%string then Some "empty hostname"
  else if equal_fold host "localhost" then Some "access to localhost is forbidden"
  else if has_suffix (to_lower fold host) ".internal" || has_suffix (to_lower fold host) ".local"
  then Some "access to internal/local domains is forbidden"
  else
    match ParseIP host with
    | Some ip => (fun n => "access to " +:+ nw_name n +:+ " network (" +:+ host +:+ ") is forbidden") <$> List.find (fun n => Contains n ip) privateNetworks
    | None => None
    end.

(** What a URL that may be asked for is, apart from the code's tables: one of http or
    https with a host that is not this machine by its name and no address of a private
    network. *)
Record public_url (u : url) : Prop := {
  public_scheme : to_lower fold (u_Scheme u) = "http" \/ to_lower fold (u_Scheme u) = "https";
  public_host : u_Hostname u <> "";
  public_name : equal_fold (u_Hostname u) "localhost" = false;
  public_domain : forall name, to_lower fold (u_Hostname u) <> name +:+ ".internal" /\ to_lower fold (u_Hostname u) <> name +:+ ".local";
  public_address : forall ip, ParseIP (u_Hostname u) = Some ip -> Forall is_byte ip -> ~ private_address ip }.

Lemma validate_public u : validateURLSafety u = None -> public_url u.
Proof.
  unfold validateURLSafety. destruct (_ && _) eqn:Es; [done|]. destruct (String.eqb_spec (u_Hostname u) "") as [|Hh]; [done|].
  destruct (equal_fold _ _) eqn:El; [done|]. destruct (_ || _) eqn:Ed; [done|]. intros Hip. split; try done.
  - destruct (String.eqb_spec (to_lower fold (u_Scheme u)) "http"); [by left|]. destruct (String.eqb_spec (to_lower fold (u_Scheme u)) "https"); [by right|done].
  - intros name. apply orb_false_iff in Ed as [E1 E2]. split; intros H; rewrite H, has_suffix_app in *; done.
  - intros ip E Hb Hp. rewrite E in Hip. destruct (private_in ip Hb Hp) as (n & Hn & Hc).
    destruct (List.find _ privateNetworks) eqn:Ef; [done|]. by rewrite (List.find_none _ _ Ef n Hn) in Hc.
Qed.
End safety.

(** ** docfetch.go: what is made of a document *)

Definition docFetchTimeoutSec : Z := 60.
Definition maxDocBytes : Z := 200 * 1024.
Definition maxDownloadBytes : Z := 50 * 1024 * 1024.
Definition docFetchUserAgent : string := "Open-Nipper-Agent/1.0 (+https://github.com/jescarri/open-nipper)".

Record DocFetchResult := { df_Content : string; df_MimeType : string; df_Title : string; df_URL : string; df_BytesRead : Z }.

Definition truncateUTF8 (s : string) (maxLen : nat) : string := if (String.length s <=? maxLen)%nat then s else trim_valid maxLen s.

Definition isPDFContent (mime data : string) : bool := (mime =? "application/pdf")%string || has_prefix data "%PDF-".
Definition isTextContent (mime : string) : bool :=
  has_prefix mime "text/"
  || existsb (String.eqb mime) ["application/json"; "application/xml"; "application/javascript"; "application/x-yaml"; "application/yaml";
                                "application/x-sh"; "application/x-shellscript"].
Definition isImageContent (mime : string) : bool := has_prefix mime "image/".
Definition isAudioVideoContent (mime : string) : bool := has_prefix mime "audio/" || has_prefix mime "video/".

Definition fmt_nat (n : nat) : string := fmt_d (Z.of_nat n).
Definition nl : string := String "010" "".

(** The fields of EXIF that are looked at, with their labels. *)
Definition exif_fields : list (string * string) := [
  ("Camera Make", "Make"); ("Camera Model", "Model"); ("Date/Time Original", "DateTimeOriginal"); ("Date/Time Digitized", "DateTimeDigitized");
  ("Exposure Time", "ExposureTime"); ("F-Number", "FNumber"); ("ISO Speed", "ISOSpeedRatings"); ("Focal Length", "FocalLength");
  ("Focal Length (35mm)", "FocalLengthIn35mmFilm"); ("Lens Make", "LensMake"); ("Lens Model", "LensModel"); ("Flash", "Flash");
  ("Orientation", "Orientation"); ("Image Width", "PixelXDimension"); ("Image Height", "PixelYDimension"); ("Software", "Software");
  ("Copyright", "Copyright"); ("Artist", "Artist")].

Definition is_nan (x : spec_float) : bool := match x with S754_nan => true | _ => false end.
Definition is_negative (x : spec_float) : bool := f_ltb x (S754_zero false).

Section content.
Context (fold : Z -> Z).
(** A PDF: its error, or for each page its text, unless it has none or it is not read;
    readability; EXIF: the fields and the coordinates. *)
Context (pdf : string -> result string (list (option string))) (readability : string -> result string (string * string))
        (exif : string -> option ((string -> option string) * option (spec_float * spec_float))).
(** [http.DetectContentType]. *)
Context (detect : string -> string).

Definition normalizeMIME (ct : string) : string :=
  let ct := to_lower fold ct in trim_space (match str_cut ";" ct with Some (a, _) => a | None => ct end).

Definition isHTMLContent (mime data : string) : bool :=
  str_contains mime "html" || str_contains mime "xhtml"
  || (negb (data =? "")%string
      && (let prefix := to_lower fold (trim_space (str_take 512 data)) in has_prefix prefix "<!doctype" || str_contains prefix "<html")).

Definition doc_limit : nat := Z.to_nat maxDocBytes.

Fixpoint pages_text (acc : string) (pages : list (option string)) : string :=
  match pages with
  | [] => acc
  | None :: pages => pages_text acc pages
  | Some text :: pages =>
      let acc := acc +:+ text +:+ nl in if (doc_limit <? String.length acc)%nat then acc else pages_text acc pages
  end.

Definition extractPDFText (data : string) : result string (string * string) :=
  match pdf data with
  | Err e => Err ("opening PDF: " +:+ e)
  | Ok [] => Err "PDF has no pages"
  | Ok pages => Ok (pages_text "" pages, "")
  end.

Definition exif_line (get : string -> option string) (f : string * string) : option string :=
  match get (snd f) with
  | None => None
  | Some v => let s := trim_bytes (Ascii.eqb "034") v in if (s =? "")%string then None else Some ("  " +:+ fst f +:+ ": " +:+ s)
  end.

Definition gps_lines (coords : option (spec_float * spec_float)) : list string :=
  match coords with
  | Some (lat, lon) =>
      if is_nan lat || is_nan lon then []
      else ["  GPS Latitude: " +:+ fmt_f6 (SFabs lat) +:+ utf8_encode 176 +:+ " " +:+ (if is_negative lat then "S" else "N");
            "  GPS Longitude: " +:+ fmt_f6 (SFabs lon) +:+ utf8_encode 176 +:+ " " +:+ (if is_negative lon then "W" else "E");
            "  Google Maps: https://www.google.com/maps?q=" +:+ fmt_f6 lat +:+ "," +:+ fmt_f6 lon]
  | None => []
  end.

Definition extractEXIF (data : string) : string :=
  match exif data with
  | None => ""
  | Some (get, coords) => str_join (omap (exif_line get) exif_fields ++ gps_lines coords) nl
  end.

Definition detectMIME (data filename : string) : string :=
  let ct := detect data in
  if negb (ct =? "application/octet-stream")%string then ct
  else
    let lower := to_lower fold filename in
    let ends (l : list string) := existsb (has_suffix lower) l in
    if ends [".pdf"] then "application/pdf"
    else if ends [".md"; ".markdown"] then "text/markdown"
    else if ends [".json"] then "application/json"
    else if ends [".yaml"; ".yml"] then "application/x-yaml"
    else if ends [".html"; ".htm"] then "text/html"
    else if ends [".txt"] then "text/plain"
    else if ends [".csv"] then "text/csv"
    else if ends [".xml"] then "application/xml"
    else ct.

Definition image_text (mime size exifData : string) : string :=
  if negb (exifData =? "")%string then
    "Image file (" +:+ mime +:+ ", " +:+ size +:+ " bytes)" +:+ nl +:+ nl +:+ "EXIF Metadata:" +:+ nl +:+ exifData +:+ nl +:+ nl
    +:+ "IMPORTANT: This tool extracted EXIF metadata only. If the image was provided as a multimodal attachment in the conversation, you MUST use your vision capabilities to describe the visual content. Combine EXIF metadata (location, camera, date) with your visual analysis of the image pixels."
  else
    "Image file (" +:+ mime +:+ ", " +:+ size +:+ " bytes). No EXIF metadata found in this file." +:+ nl +:+ nl
    +:+ "IMPORTANT: If the image was provided as a multimodal attachment in the conversation, you MUST still use your vision capabilities to describe the visual content. Ask the user for the location since no GPS data was found.".

(** The title and the content. *)
Definition document_text (mime data : string) : string * string :=
  let size := fmt_nat (String.length data) in
  if isPDFContent mime data then
    match extractPDFText data with
    | Err e => ("", "[PDF parsing failed: " +:+ e +:+ ". File size: " +:+ size +:+ " bytes, MIME: " +:+ mime +:+ "]")
    | Ok (text, title) => (title, truncateUTF8 text doc_limit)
    end
  else if isHTMLContent mime data then
    match readability data with
    | Ok (title, text) => (title, truncateUTF8 text doc_limit)
    | Err _ => ("", truncateUTF8 (stripHTMLTags data) doc_limit)
    end
  else if isTextContent mime then ("", truncateUTF8 data doc_limit)
  else if isImageContent mime then ("", image_text mime size (extractEXIF data))
  else if isAudioVideoContent mime
  then ("", "[Media file. MIME: " +:+ mime +:+ ", Size: " +:+ size +:+ " bytes. Audio/video content cannot be transcribed by this tool.]")
  else ("", "[Unsupported content type: " +:+ mime +:+ ", Size: " +:+ size +:+ " bytes]").

Definition processContent (data contentType sourceURL : string) : DocFetchResult :=
  let mime := normalizeMIME contentType in
  let '(title, content) := document_text mime data in
  Build_DocFetchResult content mime title sourceURL (Z.of_nat (String.length data)).

#[local] Opaque doc_limit.

Lemma truncated_length s n : (String.length (truncateUTF8 s n) <= n)%nat.
Proof.
  unfold truncateUTF8. destruct (Nat.leb_spec (String.length s) n); [done|].
  destruct (trim_valid_spec n s) as (k & Hk & -> & _). rewrite str_take_length. lia.
Qed.

(** A document that is read as text, of whatever format, gives at most the limit. *)
Lemma document_bounded mime data title text : document_text mime data = (title, text) ->
  isPDFContent mime data = true /\ (exists e, extractPDFText data = Err e)
  \/ isPDFContent mime data = false /\ isHTMLContent mime data = false /\ isTextContent mime = false
  \/ (String.length text <= doc_limit)%nat.
Proof.
  unfold document_text. destruct (isPDFContent mime data).
  { destruct (extractPDFText data) as [[t ti]|e]; [|by left; eauto]. intros [= _ <-]. right. right. apply truncated_length. }
  destruct (isHTMLContent mime data).
  { right. right. destruct (readability data) as [[t x]|e]; injection H as _ <-; apply truncated_length. }
  destruct (isTextContent mime); [|tauto]. intros [= _ <-]. right. right. apply truncated_length.
Qed.
End content.

(** ** docfetch.go: the requests *)

(** An answer that is no redirect: the status with its text, the content type and
    the body. *)
Record page := { pg_Status : Z; pg_StatusText : string; pg_ContentType : string; pg_Body : result string string }.
Inductive http_answer := Page (p : page) | RedirectTo (u : url).

Section client.
(** What is answered to a request for a URL, after the requests before it. *)
Context (answer : list url -> url -> result string http_answer) (check : list url -> option string).

(** [http.Client.Do]: [via] are the URLs that were asked for; the last page with its
    URL, and all URLs that were asked for.  [None] when [fuel] is not enough. *)
Fixpoint follow (fuel : nat) (via : list url) (u : url) : option (result string (page * url) * list url) :=
  match fuel with
  | O => None
  | S fuel =>
      let answered := answer via u in
      let via := (via ++ [u])%list in
      match answered with
      | Err e => Some (Err e, via)
      | Ok (Page p) => Some (Ok (p, u), via)
      | Ok (RedirectTo u') => match check via with Some e => Some (Err e, via) | None => follow fuel via u' end
      end
  end.

(** More fuel changes nothing once there was enough. *)
Lemma follow_enough fuel : forall via u, (forall l, (S fuel + length via <= length l)%nat -> check l <> None) ->
  exists r l, follow (S fuel) via u = Some (r, l) /\ (exists l', l = via ++ u :: l' /\ (length l' <= fuel)%nat)%list
    /\ forall pre x post, l = (pre ++ x :: post)%list -> (length via < length pre)%nat -> check pre = None.
Proof.
  induction fuel as [|fuel IH]; intros via u Hc; cbn [follow].
  - assert (Hk : check (via ++ [u])%list <> None) by (apply Hc; rewrite length_app; cbn; lia).
    destruct (answer via u) as [[p|u']|e]; [|destruct (check _) eqn:E; [|done]|]; eexists _, _; (split; [done|]); (split; [by exists []|]);
      intros pre x post El Hl; exfalso; apply (f_equal length) in El; rewrite !length_app in El; cbn in El; lia.
  - assert (Hend : forall pre x post, (via ++ [u] = pre ++ x :: post)%list -> (length via < length pre)%nat -> check pre = None).
    { intros pre x post El Hl. exfalso. apply (f_equal length) in El. rewrite !length_app in El. cbn in El. lia. }
    destruct (answer via u) as [[p|u']|e].
    + eexists _, _. split; [done|]. split; [exists []; cbn; split; [done|lia]|exact Hend].
    + destruct (check (via ++ [u])%list) eqn:Ek.
      { eexists _, _. split; [done|]. split; [exists []; cbn; split; [done|lia]|exact Hend]. }
      destruct (IH (via ++ [u])%list u') as (r & l & E & (l' & -> & Hl) & Hp).
      { intros l Hl. apply Hc. rewrite length_app in Hl. cbn in Hl. lia. }
      exists r, ((via ++ [u]) ++ u' :: l')%list. split; [exact E|]. split.
      { exists (u' :: l'). rewrite <- app_assoc. split; [done|]. cbn. lia. }
      intros pre x post El Hlen. destruct (decide (length pre = S (length via))) as [Hd|Hd].
      * assert (pre = via ++ [u])%list as ->; [|done]. eapply app_inj_1 in El as [E1 _]; [by symmetry|]. rewrite length_app. cbn. lia.
      * eapply Hp; [exact El|]. rewrite length_app. cbn. lia.
    + eexists _, _. split; [done|]. split; [exists []; cbn; split; [done|lia]|exact Hend].
Qed.
End client.

Section executor.
Context (fold : Z -> Z) (quote : string -> string) (equal_fold : string -> string -> bool) (ParseIP : string -> option (list Z)).
Context (url_parse parse_request_uri : string -> result string url) (bad_request : string -> option string).
Context (answer : list url -> url -> result string http_answer) (store : string -> string -> s3_answer).
Context (pdf : string -> result string (list (option string))) (readability : string -> result string (string * string))
        (exif : string -> option ((string -> option string) * option (spec_float * spec_float))) (detect : string -> string).

Record DocFetchExecutor := { dx_s3Cfg : S3DefaultConfig; dx_allowLoopback : bool }.
Definition NewDocFetchExecutor (s3Cfg : S3DefaultConfig) : DocFetchExecutor := Build_DocFetchExecutor (NormalizeS3Config s3Cfg) false.
Definition NewDocFetchExecutorForTest (s3Cfg : S3DefaultConfig) : DocFetchExecutor := Build_DocFetchExecutor (NormalizeS3Config s3Cfg) true.

Definition safe_url (u : url) : option string := validateURLSafety fold quote equal_fold ParseIP u.
Definition process (data contentType sourceURL : string) : DocFetchResult :=
  processContent fold pdf readability exif data contentType sourceURL.

(** [CheckRedirect]: the URLs asked for so far are looked at. *)
Definition check_redirect (allowLoopback : bool) (via : list url) : option string :=
  if maxRedirects <=? Z.of_nat (length via) then Some ("too many redirects (max " +:+ fmt_d maxRedirects +:+ ")")
  else if allowLoopback then None
  else (fun e => "redirect to unsafe URL: " +:+ e) <$> head (omap safe_url via).

(** The requests that fetchHTTP makes, with its result. *)
Definition fetchHTTP (e : DocFetchExecutor) (rawURL : string) : option (result string DocFetchResult * list url) :=
  match parse_request_uri rawURL with
  | Err err => Some (Err ("invalid url " +:+ quote rawURL +:+ ": " +:+ err), [])
  | Ok parsed =>
      match (if dx_allowLoopback e then None else safe_url parsed), bad_request rawURL with
      | Some err, _ => Some (Err err, [])
      | None, Some err => Some (Err ("building request: " +:+ err), [])
      | None, None =>
          match follow answer (check_redirect (dx_allowLoopback e)) (Z.to_nat maxRedirects) [] parsed with
          | None => None
          | Some (Err err, asked) => Some (Err ("fetching " +:+ quote rawURL +:+ ": " +:+ err), asked)
          | Some (Ok (p, final), asked) =>
              Some (if (pg_Status p <? 200) || (300 <=? pg_Status p)
                    then Ok (Build_DocFetchResult ("HTTP error: " +:+ fmt_d (pg_Status p) +:+ " " +:+ pg_StatusText p) (pg_ContentType p) "" (u_String final) 0)
                    else match pg_Body p with
                         | Err err => Err ("reading response body: " +:+ err)
                         | Ok data => Ok (process (str_take (Z.to_nat (maxDownloadBytes + 1)) data) (pg_ContentType p) (u_String final))
                         end, asked)
          end
      end
  end.

Definition getS3Object (bucket key originalURI : string) : result string DocFetchResult :=
  match store bucket key with
  | NoClient err => Err ("creating S3 client: " +:+ err)
  | NoObject err => Err ("S3 GetObject(" +:+ bucket +:+ "/" +:+ key +:+ "): " +:+ err)
  | NoStat err => Err ("S3 Stat(" +:+ bucket +:+ "/" +:+ key +:+ "): " +:+ err)
  | Object size contentType content =>
      if maxDownloadBytes <? size
      then Ok (Build_DocFetchResult ("[File too large: " +:+ fmt_d size +:+ " bytes (max " +:+ fmt_d maxDownloadBytes +:+ "). MIME: " +:+ contentType
                                     +:+ ", Key: " +:+ key +:+ "]") contentType "" originalURI 0)
      else match content with
           | Err err => Err ("reading S3 object: " +:+ err)
           | Ok data =>
               let data := str_take (Z.to_nat (maxDownloadBytes + 1)) data in
               Ok (process data (if (contentType =? "")%string then detectMIME fold detect data key else contentType) originalURI)
           end
  end.

Definition no_credentials (cfg : S3DefaultConfig) : bool := (S3Default_AccessKey cfg =? "")%string || (S3Default_SecretKey cfg =? "")%string.
Definition credentials_error : string := "S3 credentials not configured; set agent.s3.access_key and agent.s3.secret_key".

Definition doc_fetchS3ByHTTPURL (e : DocFetchExecutor) (rawURL : string) : result string DocFetchResult :=
  match ParseHTTPURL quote url_parse rawURL with
  | Err err => Err err
  | Ok (bucket, key) =>
      match ValidateS3Path bucket key with
      | Some err => Err err
      | None => if no_credentials (dx_s3Cfg e) then Err credentials_error else getS3Object bucket key rawURL
      end
  end.

Definition fetchS3 (e : DocFetchExecutor) (s3URI : string) : result string DocFetchResult :=
  match ParseS3URI quote s3URI with
  | Err err => Err err
  | Ok (bucket, key) =>
      match ValidateS3Path bucket key with
      | Some err => Err err
      | None =>
          if (S3Default_Endpoint (dx_s3Cfg e) =? "")%string then Err "S3 endpoint not configured; set agent.s3.endpoint in agent config"
          else if no_credentials (dx_s3Cfg e) then Err credentials_error
          else
            let bucket := if (bucket =? "")%string then S3Default_Bucket (dx_s3Cfg e) else bucket in
            if (bucket =? "")%string then Err "no bucket specified in URL or config" else getS3Object bucket key s3URI
      end
  end.

(** The document, and the URLs that were asked for over HTTP. *)
Definition ExecDocFetch (e : DocFetchExecutor) (rawURL : string) : option (result string DocFetchResult * list url) :=
  if (rawURL =? "")%string then Some (Err "url is required", [])
  else if has_prefix rawURL "s3://" then Some (fetchS3 e rawURL, [])
  else if IsS3EndpointURL equal_fold url_parse (NormalizeS3Config (dx_s3Cfg e)) rawURL then Some (doc_fetchS3ByHTTPURL e rawURL, [])
  else fetchHTTP e rawURL.

Lemma redirects_checked via u : check_redirect false via = None -> In u via -> safe_url u = None.
Proof.
  unfold check_redirect. destruct (_ <=? _); [done|]. intros H Hin. destruct (safe_url u) as [e|] eqn:E; [|done]. exfalso.
  assert (Hm : e ∈ omap safe_url via) by (apply list_elem_of_omap; exists u; by rewrite list_elem_of_In).
  destruct (omap safe_url via); [by apply not_elem_of_nil in Hm|done].
Qed.

(** C31: A fetch always ends, and follows five redirects at most, whatever the servers
    answer and whether or not they answer the same twice.  Its first request over HTTP
    goes to a public URL ([public_url], which names schemes, hosts and addresses
    apart from the code's tables), and no redirect is followed from one that is not.
    (The URL that is asked for last is not looked at: [redirect_unsafe].) *)
Theorem requests_checked s3Cfg rawURL :
  exists r asked, ExecDocFetch (NewDocFetchExecutor s3Cfg) rawURL = Some (r, asked) /\ (length asked <= 1 + 5)%nat
    /\ forall pre u post, asked = (pre ++ u :: post)%list -> pre = [] \/ post <> [] -> public_url fold equal_fold ParseIP u.
Proof.
  unfold ExecDocFetch. assert (Hnone : forall r : result string DocFetchResult, exists r' (asked : list url), Some (r, []) = Some (r', asked)
    /\ (length asked <= 1 + 5)%nat /\ forall pre u post, asked = (pre ++ u :: post)%list -> pre = [] \/ post <> [] -> public_url fold equal_fold ParseIP u).
  { intros r. exists r, []. split_and!; [done|cbn; lia|]. intros [|x pre] u post; done. }
  destruct (_ =? "")%string; [apply Hnone|]. destruct (has_prefix _ _); [apply Hnone|]. destruct (IsS3EndpointURL _ _ _ _); [apply Hnone|].
  unfold fetchHTTP. destruct (parse_request_uri rawURL) as [parsed|]; [|apply Hnone]. cbn [dx_allowLoopback NewDocFetchExecutor].
  destruct (safe_url parsed) as [e|] eqn:Es; [apply Hnone|]. destruct (bad_request rawURL); [apply Hnone|].
  destruct (follow_enough answer (check_redirect false) 4 [] parsed) as (r & l & E & (l' & -> & Hl) & Hp).
  { intros l Hl. unfold check_redirect. rewrite (proj2 (Z.leb_le _ _)); [done|]. unfold maxRedirects. cbn in Hl. lia. }
  change (Z.to_nat maxRedirects) with 5%nat. rewrite E.
  assert (Hsafe : forall pre u post, ([] ++ parsed :: l' = pre ++ u :: post)%list -> pre = [] \/ post <> [] -> safe_url u = None).
  { intros pre u post El Hor. destruct pre as [|p pre]; [by injection El as <- _|]. destruct Hor as [|Hpost]; [done|].
    destruct post as [|x post]; [done|]. cbn [app] in El.
    apply (redirects_checked ((p :: pre) ++ [u])%list u); [|apply in_or_app; right; by left].
    eapply (Hp _ x post); [|cbn; rewrite length_app; cbn; lia]. rewrite <- app_assoc. exact El. }
  assert (Hpub : forall pre u post, ([] ++ parsed :: l' = pre ++ u :: post)%list -> pre = [] \/ post <> [] -> public_url fold equal_fold ParseIP u).
  { intros pre u post El Hor. apply (validate_public fold quote). by apply (Hsafe pre u post). }
  assert (Hlen : (length ([] ++ parsed :: l') <= 1 + 5)%nat) by (cbn [app length]; lia).
  destruct r as [[p final]|err]; eexists _, _; (split; [done|]); split; done.
Qed.
End executor.

(** ** Names and addresses *)

Lemma s3_uri_read quote bucket key : lacks "/" bucket = true -> bucket +:+ "/" +:+ key <> "" ->
  ParseS3URI quote ("s3://" +:+ bucket +:+ "/" +:+ key) = Ok (bucket, key).
Proof.
  intros Hb Hne. unfold ParseS3URI. rewrite strip_prefix_app. destruct (bucket +:+ "/" +:+ key) as [|c r] eqn:E; [done|]. rewrite <- E.
  change ("/" +:+ key) with (String "/" "" +:+ key). by rewrite str_cut_app.
Qed.

Example split_host_demo : map split_host ["minio:9000"; "[::1]:9000"; "minio"; "a:b:c"; "[::1]"] = [Some "minio"; Some "::1"; None; None; None].
Proof. vm_compute. reflexivity. Qed.

Definition demo_s3 (endpoint : string) : S3DefaultConfig := Build_S3DefaultConfig endpoint "docs" "k" "s" "" false.

(** Spaces around an endpoint go only together with its scheme. *)
Example endpoint_spaces :
  map (fun e => S3Default_Endpoint (NormalizeS3Config (demo_s3 e))) [" https://minio:9000/ "; " minio:9000/"] = ["minio:9000"; " minio:9000"].
Proof. vm_compute. reflexivity. Qed.

Definition demo_url (host : string) : url := Build_url "http" host "/" ("http://" +:+ host +:+ "/").
Definition demo_ip (s : string) : option (list Z) :=
  if (s =? "169.254.169.254")%string then Some (repeat 0 10 ++ [255; 255; 169; 254; 169; 254])%list else None.
(** A server that redirects to an address that is not public. *)
Definition demo_answer (_ : list url) (u : url) : result string http_answer :=
  if (u_Hostname u =? "example.com")%string then Ok (RedirectTo (demo_url "169.254.169.254"))
  else if (u_Hostname u =? "loop.com")%string then Ok (RedirectTo (demo_url "loop.com"))
  else Ok (Page (Build_page 200 "200 OK" "text/plain" (Ok "secret"))).
Definition demo_fetch (host : string) : option (result string DocFetchResult * list url) :=
  ExecDocFetch (fun r => r) (fun s => s) String.eqb demo_ip (fun _ => Ok (demo_url host)) (fun _ => Ok (demo_url host)) (fun _ => None) demo_answer
    (fun _ _ => NoClient "none") (fun _ => Err "no PDF") (fun _ => Err "no HTML") (fun _ => None) (fun _ => "text/plain")
    (NewDocFetchExecutor (demo_s3 "")) ("http://" +:+ host +:+ "/").

(** An address that is refused when it is asked for is reached by a redirect. *)
Example redirect_unsafe :
  demo_fetch "169.254.169.254" = Some (Err "access to link-local network (169.254.169.254) is forbidden", [])
  /\ demo_fetch "example.com" = Some (Ok (Build_DocFetchResult "secret" "text/plain" "" "http://169.254.169.254/" 6), [demo_url "example.com"; demo_url "169.254.169.254"]).
Proof. vm_compute. done. Qed.

(** The limit of redirects is one of requests: the fifth redirect is refused. *)
Example fifth_redirect_refused :
  demo_fetch "loop.com" = Some (Err "fetching http://loop.com/: too many redirects (max 5)", repeat (demo_url "loop.com") 5).
Proof. vm_compute. reflexivity. Qed.

Lemma requests_checked_witness : exists r asked, demo_fetch "loop.com" = Some (r, asked) /\ (length asked <= 6)%nat
  /\ public_url (fun r => r) String.eqb demo_ip (demo_url "loop.com").
Proof.
  destruct (requests_checked (fun r => r) (fun s => s) String.eqb demo_ip (fun _ => Ok (demo_url "loop.com")) (fun _ => Ok (demo_url "loop.com"))
    (fun _ => None) demo_answer (fun _ _ => NoClient "none") (fun _ => Err "no PDF") (fun _ => Err "no HTML") (fun _ => None) (fun _ => "text/plain")
    (demo_s3 "") "http://loop.com/") as (r & asked & E & Hl & Hs).
  exists r, asked. split; [exact E|]. split; [exact Hl|].
  pose proof (eq_trans (eq_sym E) (fifth_redirect_refused : _ = Some (_, repeat (demo_url "loop.com") 5))) as H. injection H as _ ->.
  apply (Hs [] _ (repeat (demo_url "loop.com") 4)); [reflexivity|by left].
Defined.

(** Names that a resolver takes for a private host pass: only addresses are looked up
    in the networks. *)
Example names_pass : validateURLSafety (fun r => r) (fun s => s) String.eqb demo_ip (demo_url "localhost.") = None.
Proof. vm_compute. reflexivity. Qed.
