(* ===== verification/Mcp.v ===== *)
(** * Tools of MCP servers (agent/mcp)

    toolwrap.go and einotool.go: the repair of what a model writes as arguments, the
    calls with their second try, and the schemas; loader.go: the connections to the
    servers and the tools they offer.  The MCP library, its sessions and transports,
    is a parameter.  [served_arguments]: a server is asked for what its schema
    allows; [loader_servers]: no session is forgotten, and a remote server can always
    come back; [patterns_anchored] and [normalized_schema] on the schemas. *)
From Stdlib Require Import ZArith Lia Bool Ascii String List.
From stdpp Require Import base gmap strings option list relations.
From S2P Require Import Prelude GoString GoJson GoJsonParse GoJsonProofs GoFloat Models GoAny GoRegexp AgentConfig Oidc.

Local Open Scope string_scope.
Local Open Scope Z_scope.
Local Open Scope state_scope.

(** ** toolwrap.go: the arguments *)

Definition specialTokenRe : Regexp := must_compile "<\|[^|]*\|>".

(** A [map[string]any], which may be nil. *)
Abbreviation args := (option (list (string * jsonv))).

(** [json.Unmarshal] into such a map, when it succeeds. *)
Definition parse_args (s : string) : option args :=
  match json_parse s with
  | Some VNull => Some None
  | _ => match unmarshal dec_any_map [] s with (m, None) => Some (Some m) | _ => None end
  end.

(** The text up to the last byte that is a [p], and what follows. *)
Fixpoint cut_last (p : ascii -> bool) (s : string) : option (string * string) :=
  match s with
  | EmptyString => None
  | String c s =>
      match cut_last p s with
      | Some (a, b) => Some (String c a, b)
      | None => if p c then Some (String c "", s) else None
      end
  end.

Definition is_close (c : ascii) : bool := (c =? "}")%char || (c =? "]")%char.

Definition sanitizeToolCallJSON (raw : string) : string :=
  let s := trim_space raw in
  if (s =? "")%string then s
  else
    let s := match cut_last is_close s with
             | Some (kept, tail) => if negb (tail =? "")%string && MatchString specialTokenRe tail then kept else s
             | None => s
             end in
    match parse_args s with
    | Some _ => s
    | None =>
        let fixed := ReplaceAll s (backslash +:+ dquote) dquote in
        let fixed := ReplaceAll fixed (dquote +:+ dquote) dquote in
        match parse_args fixed with Some _ => fixed | None => s end
    end.

(** What normalizeArgs reads of a schema: the properties with their types, nil where
    the schema has none or where one is. *)
Record params_schema := { sm_Properties : option (list (string * option string)); sm_Required : list string }.

Definition properties (sc : params_schema) : list (string * option string) := default [] (sm_Properties sc).
Definition has_name {A} (l : list (string * A)) (k : string) : bool := existsb (fun kv => (fst kv =? k)%string) l.
Definition get_name {A} (l : list (string * A)) (k : string) : option A := snd <$> List.find (fun kv => (fst kv =? k)%string) l.

(** [strings.EqualFold(s, "array")]. *)
Definition is_array (ty : string) : bool := bool_decide (fold_name ty = fold_name "array").

Definition strip_unknown (sc : params_schema) (m : args) : args * bool :=
  match sm_Properties sc, m with
  | Some props, Some l => (Some (List.filter (fun kv => has_name props (fst kv)) l), existsb (fun kv => negb (has_name props (fst kv))) l)
  | _, _ => (m, false)
  end.

(** A required field that is an array. *)
Definition array_field (sc : params_schema) (f : string) : bool :=
  match get_name (properties sc) f with Some (Some ty) => is_array ty | _ => false end.

(** [None]: assignment to an entry of a nil map, a panic. *)
Fixpoint inject_arrays (sc : params_schema) (required : list string) (m : args) (changed : bool) : option (args * bool) :=
  match required with
  | [] => Some (m, changed)
  | f :: required =>
      if has_name (default [] m) f then inject_arrays sc required m changed
      else if array_field sc f then
        match m with
        | None => None
        | Some l => inject_arrays sc required (Some (l ++ [(f, JArray [])])%list) true
        end
      else inject_arrays sc required m changed
  end.

Section wrap.
(** How encoding/json writes a number, and fmt's [%q]. *)
Context (fmt_num : float64 -> string) (quote : string -> string).

Definition marshal_args (m : args) : string := match m with Some l => marshal_any_map fmt_num l | None => "null" end.

(** [schema]: none when the tool has none or it cannot be had.  [None]: a panic. *)
Definition normalizeArgs (schema : option params_schema) (argsJSON : string) : option string :=
  match schema with
  | None => Some argsJSON
  | Some sc =>
      match parse_args (sanitizeToolCallJSON argsJSON) with
      | None => Some argsJSON
      | Some m =>
          let '(m, changed) := strip_unknown sc m in
          match inject_arrays sc (sm_Required sc) m changed with
          | None => None
          | Some (m, changed) => Some (if changed then marshal_args m else argsJSON)
          end
      end
  end.

(** ** toolwrap.go and einotool.go: the calls *)

(** An error, with whether [io.EOF] or [io.ErrUnexpectedEOF] is in its chain. *)
Record tool_error := { te_eof : bool; te_text : string }.

Definition connection_texts : list string :=
  ["connection reset"; "connection refused"; "connection closed"; "client is closing"; "broken pipe"; "transport has been closed"].
Definition isConnectionError (e : tool_error) : bool := te_eof e || existsb (str_contains (te_text e)) connection_texts.

Definition maxToolResultBytes : nat := Z.to_nat 12000.
Definition truncated_mark : string := String "010" ("...[truncated " +:+ utf8_encode 8212 +:+ " result too large]").
Definition capResult (result : string) : string :=
  if (maxToolResultBytes <? String.length result)%nat then str_take maxToolResultBytes result +:+ truncated_mark else result.

(** A result of a server: [IsError], and its JSON for each value of that. *)
Record call_result := { cr_IsError : bool; cr_json : bool -> result string string }.

(** A tool keeps the session it was listed in. *)
Record mcpTool := { mt_session : nat; mt_name : string; mt_softError : bool; mt_schema : option params_schema }.

Section calls.
Context {S : Type}.
(** [CallTool] of a session, with the name of the tool. *)
Context (call : nat -> string -> args -> State S (result tool_error call_result)).

Definition mcp_run (t : mcpTool) (argumentsInJSON : string) : State S (result tool_error string) :=
  match parse_args argumentsInJSON with
  | None => sret (Err (Build_tool_error false "invalid tool arguments JSON"))
  | Some m =>
      do r <- call (mt_session t) (mt_name t) m;
      sret match r with
           | Err e => Err (Build_tool_error (te_eof e) ("calling MCP tool " +:+ quote (mt_name t) +:+ ": " +:+ te_text e))
           | Ok res =>
               let isError := negb (mt_softError t) && cr_IsError res in
               match cr_json res isError with
               | Err e => Err (Build_tool_error false ("marshaling MCP tool result: " +:+ e))
               | Ok text =>
                   if isError then Err (Build_tool_error false ("MCP tool " +:+ quote (mt_name t) +:+ " returned error: " +:+ text)) else Ok text
               end
           end
  end.

Definition lost_text : string :=
  "{" +:+ dquote +:+ "error" +:+ dquote +:+ ":" +:+ dquote +:+ "MCP connection lost and reconnection failed. Do NOT retry this tool "
  +:+ utf8_encode 8212 +:+ " inform the user the service is temporarily unavailable." +:+ dquote +:+ "}".
Definition soft_text (e : string) : string :=
  "{" +:+ dquote +:+ "error" +:+ dquote +:+ ":" +:+ quote e +:+ "," +:+ dquote +:+ "hint" +:+ dquote +:+ ":" +:+ dquote
  +:+ "Check the required parameters and try again. Use the exact field names from the tool schema." +:+ dquote +:+ "}".

(** The tool as the agent has it, wrapped: always a text, never an error; [None] is a
    panic. *)
Definition InvokableRun (reconnectFn : option (State S unit)) (t : mcpTool) (argumentsInJSON : string) : State S (option string) :=
  match normalizeArgs (mt_schema t) argumentsInJSON with
  | None => sret None
  | Some normalized =>
      do r <- mcp_run t normalized;
      match r with
      | Ok text => sret (Some (capResult text))
      | Err e =>
          match reconnectFn with
          | Some reconnect =>
              if isConnectionError e then
                run reconnect;
                do r <- mcp_run t normalized;
                sret (Some match r with Ok text => capResult text | Err _ => lost_text end)
              else sret (Some (soft_text (te_text e)))
          | None => sret (Some (soft_text (te_text e)))
          end
      end
  end.
End calls.
End wrap.

(** ** What a server is asked *)

(** The names of arguments that a schema allows and asks for. *)
Definition conforms (sc : params_schema) (m : args) : Prop :=
  sm_Properties sc <> None ->
  (forall k, In k (map fst (default [] m)) -> In k (map fst (properties sc)))
  /\ (forall f, In f (sm_Required sc) -> array_field sc f = true -> In f (map fst (default [] m))).

Lemma has_name_In {A} (l : list (string * A)) k : has_name l k = true <-> In k (map fst l).
Proof.
  unfold has_name. rewrite existsb_exists, in_map_iff. split.
  - intros (x & Hx & <-%String.eqb_eq). by exists x.
  - intros (x & <- & Hx). exists x. by rewrite String.eqb_refl.
Qed.

Lemma get_name_In {A} (l : list (string * A)) k x : get_name l k = Some x -> In k (map fst l).
Proof.
  unfold get_name. intros H. apply fmap_Some in H as (kv & H & _). apply List.find_some in H as [Hin Hk].
  apply String.eqb_eq in Hk as <-. by apply in_map.
Qed.

Lemma array_field_known sc f : array_field sc f = true -> In f (map fst (properties sc)).
Proof. unfold array_field. destruct (get_name _ f) eqn:E; [|done]. intros _. by eapply get_name_In. Qed.

(** Only required arrays are put in, at the end, and the flag tells of it. *)
Lemma inject_spec sc required : forall m changed m' changed', inject_arrays sc required m changed = Some (m', changed') ->
  exists new, default [] m' = (default [] m ++ map (fun f => (f, JArray [])) new)%list
    /\ Forall (fun f => array_field sc f = true) new
    /\ (NoDup (map fst (default [] m)) -> NoDup (map fst (default [] m')))
    /\ (forall f, In f required -> array_field sc f = true -> In f (map fst (default [] m')))
    /\ (changed' = false -> changed = false /\ m' = m)
    /\ (m' = None -> m = None /\ changed' = changed).
Proof.
  induction required as [|f required IH]; intros m changed m' changed'; cbn [inject_arrays].
  - intros [= <- <-]. exists []. cbn [map]. rewrite app_nil_r. split_and!; try done.
  - destruct (has_name (default [] m) f) eqn:Eh; [|destruct (array_field sc f) eqn:Ea].
    + intros H. apply IH in H as (new & E & Hn & Hd & Hr & Hc & Hz). exists new. split_and!; try done.
      intros f' [<-|Hf] Ha; [|by apply Hr]. rewrite E, map_app. apply in_or_app. left. by apply has_name_In.
    + destruct m as [l|]; [|done]. cbn [default from_option id] in *. intros H.
      apply IH in H as (new & E & Hn & Hd & Hr & Hc & Hz). exists (f :: new). cbn [default from_option id] in *. split_and!.
      * rewrite E, <- app_assoc. done.
      * by constructor.
      * intros Hl. apply Hd. rewrite map_app. apply NoDup_app. split_and!; [done| |apply NoDup_singleton].
        intros x Hx. cbn. rewrite list_elem_of_singleton. intros ->. apply list_elem_of_In, has_name_In in Hx. congruence.
      * intros f' [<-|Hf] Ha; [|by apply Hr]. rewrite E, !map_app. apply in_or_app. left. apply in_or_app. right. by left.
      * intros H. by destruct (Hc H).
      * intros H. by destruct (Hz H).
    + intros H. apply IH in H as (new & E & Hn & Hd & Hr & Hc & Hz). exists new. split_and!; try done.
      intros f' [<-|Hf] Ha; [congruence|by apply Hr].
Qed.

Lemma strip_spec sc m m' changed : strip_unknown sc m = (m', changed) ->
  (sm_Properties sc <> None -> forall k, In k (map fst (default [] m')) -> In k (map fst (properties sc)))
  /\ incl (default [] m') (default [] m)
  /\ (NoDup (map fst (default [] m)) -> NoDup (map fst (default [] m')))
  /\ (changed = false -> m' = m) /\ (m' = None -> changed = false).
Proof.
  unfold strip_unknown, properties. destruct (sm_Properties sc) as [props|]; [|intros [= <- <-]; split_and!; [by intros []|apply incl_refl|done..]].
  destruct m as [l|]; intros [= <- <-]; cbn [default from_option id]; [|split_and!; try done; apply incl_refl]. split_and!.
  - intros _ k. rewrite in_map_iff. intros (kv & <- & [_ H]%filter_In). by apply has_name_In.
  - intros kv. by intros [? _]%filter_In.
  - apply NoDup_map_filter.
  - intros H. f_equal. induction l as [|x l IH]; [done|]. cbn in *. apply orb_false_iff in H as [Hx Hl]. apply negb_false_iff in Hx.
    by rewrite Hx, IH.
  - done.
Qed.

Lemma parse_args_names a m : parse_args a = Some m -> NoDup (map fst (default [] m)).
Proof.
  unfold parse_args, unmarshal. destruct (json_parse a) as [v|]; [|done].
  destruct v; try (intros [= <-]; constructor); destruct (dec_any_map _ []) as [x e] eqn:E; destruct e; try done; intros [= <-];
    by eapply dec_any_map_names; [exact E|constructor].
Qed.

Lemma parse_marshalled fmt m : map_ok fmt m -> names_differ m ->
  parse_args (marshal_any_map fmt m) = Some (Some (valid_any_map (canon_map m))).
Proof.
  intros Hn Hd. unfold parse_args. rewrite marshal_any_map_read by done. unfold marshal_any_map.
  by rewrite json_parse_encoded by by apply any_map_encodable, map_ok_canon.
Qed.

Section served.
Context (fmt_num : float64 -> string) (quote : string -> string).
(** The properties have names that are UTF-8, and the numbers of the arguments are
    written so that they are read again; the repair leaves what can be read as it
    is. *)
Context (sc : params_schema) (argsJSON : string).
Context (names_valid : Forall (fun kv => valid_utf8 (fst kv) = fst kv) (properties sc))
        (numbers_ok : forall m, parse_args (sanitizeToolCallJSON argsJSON) = Some m -> map_ok fmt_num (default [] m))
        (well_formed : parse_args argsJSON = None \/ parse_args (sanitizeToolCallJSON argsJSON) = parse_args argsJSON).

Lemma known_valid l : (forall k : string, In k l -> In k (map fst (properties sc))) -> map valid_utf8 l = l.
Proof.
  intros H. rewrite <- (map_id l) at 2. apply map_ext_in. intros k Hk. apply H, in_map_iff in Hk as (kv & <- & Hkv).
  rewrite Forall_forall in names_valid. by apply names_valid, list_elem_of_In.
Qed.

Lemma normalized_conforms out m : normalizeArgs fmt_num (Some sc) argsJSON = Some out -> parse_args out = Some m -> conforms sc m.
Proof.
  unfold normalizeArgs. destruct (parse_args (sanitizeToolCallJSON argsJSON)) as [m0|] eqn:Ep.
  2: { intros [= <-] Hp. destruct well_formed; congruence. }
  specialize (numbers_ok m0 eq_refl). pose proof (parse_args_names _ _ Ep) as Hnd.
  destruct (strip_unknown sc m0) as [m1 c1] eqn:Es. apply strip_spec in Es as (S1 & S2 & S3 & S4 & S5).
  destruct (inject_arrays sc (sm_Required sc) m1 c1) as [[m2 c2]|] eqn:Ei; [|done].
  apply inject_spec in Ei as (new & E & Hn & I1 & I2 & I3 & I4). intros [= <-].
  assert (Hc : conforms sc m2).
  { intros Hp. split; [|exact I2]. intros k. rewrite E, map_app, map_map. intros [H|H]%in_app_or; [by apply S1|].
    cbn [fst] in H. rewrite map_id in H. apply array_field_known. rewrite Forall_forall in Hn. by apply Hn, list_elem_of_In. }
  destruct c2 eqn:Ec.
  - destruct m2 as [l|]; [|by destruct (I4 eq_refl) as [-> <-]; specialize (S5 eq_refl)].
    cbn [marshal_args default from_option id] in *. destruct (sm_Properties sc) as [props|] eqn:Eprops.
    2: { intros _. by intros H. }
    assert (Hval : map valid_utf8 (map fst l) = map fst l) by (apply known_valid, Hc; congruence).
    intros Hm. rewrite parse_marshalled in Hm.
    + injection Hm as <-.
      assert (Hk : map fst (valid_any_map (canon_map l)) ≡ₚ map fst l).
      { unfold valid_any_map. rewrite map_map. cbn [fst]. rewrite <- (map_map fst valid_utf8), canon_map_keys, Hval. done. }
      intros Hp. cbn [default from_option id]. destruct (Hc Hp) as [C1 C2]. split; [intros k|intros f Hf Ha];
        rewrite (Permutation_in' eq_refl Hk); cbn; auto.
    + unfold map_ok in *. rewrite E, flat_map_app. apply Forall_app. split.
      * rewrite Forall_forall in *. intros x Hx. apply numbers_ok. apply list_elem_of_In. apply list_elem_of_In in Hx.
        apply in_flat_map in Hx as (kv & Hkv & Hx). apply in_flat_map. exists kv. split; [by apply S2|done].
      * clear. by induction new.
    + unfold names_differ. rewrite <- (map_map fst valid_utf8), Hval. by apply I1, S3.
  - intros Hm. destruct (I3 eq_refl) as [-> ->]. rewrite (S4 eq_refl) in *.
    destruct well_formed as [H|H]; [congruence|]. assert (Some m0 = Some m) as [= <-] by congruence. done.
Qed.
End served.

(** A panic takes arguments that are null. *)
Lemma inject_panics sc required : forall m changed, inject_arrays sc required m changed = None -> m = None.
Proof.
  induction required as [|f required IH]; intros m changed; cbn [inject_arrays]; [done|].
  destruct (has_name _ f); [apply IH|]. destruct (array_field sc f); [|apply IH]. destruct m as [l|]; [|done].
  intros H. by apply IH in H.
Qed.

Lemma normalize_panics fmt sc a : normalizeArgs fmt (Some sc) a = None -> parse_args (sanitizeToolCallJSON a) = Some None.
Proof.
  unfold normalizeArgs. destruct (parse_args _) as [m|]; [|done]. destruct (strip_unknown sc m) as [m1 c1] eqn:Es.
  destruct (inject_arrays _ _ m1 c1) as [[? ?]|] eqn:Ei; [done|]. apply inject_panics in Ei as ->. intros _.
  unfold strip_unknown in Es. destruct (sm_Properties sc), m; congruence.
Qed.

(** A call that a server gets: the session, the tool and the arguments. *)
Definition server_call : Type := nat * string * args.
Definition logged {W} (session : nat -> string -> args -> State W (result tool_error call_result))
    : nat -> string -> args -> State (list server_call * W) (result tool_error call_result) :=
  fun n name m '(l, w) => let '(r, w) := session n name m w in (r, ((l ++ [(n, name, m)])%list, w)).
Definition lifted {W} (m : State W unit) : State (list server_call * W) unit := fun '(l, w) => let '(_, w) := m w in (tt, (l, w)).

Lemma mcp_run_logged {W} quote (session : nat -> string -> args -> State W _) t a l w r l' w' :
  mcp_run quote (logged session) t a (l, w) = (r, (l', w')) ->
  exists calls, l' = (l ++ calls)%list /\ (length calls <= 1)%nat
    /\ Forall (fun '(n, name, m) => n = mt_session t /\ name = mt_name t /\ parse_args a = Some m) calls.
Proof.
  unfold mcp_run. destruct (parse_args a) as [m|].
  - unfold sbind, sret, logged. destruct (session _ _ m w) as [x w1]. intros [= _ <- _].
    exists [(mt_session t, mt_name t, m)]. split_and!; [done|cbn; lia|]. constructor; [done|constructor].
  - intros [= _ <- _]. exists []. rewrite app_nil_r. split_and!; [done|cbn; lia|constructor].
Qed.

(** C29: Whatever a model writes as the arguments of a tool, when the repair leaves what
    can be read already as it is, and whatever the server and the connection do: the server is called twice at most, for that tool, with
    arguments whose names the schema has, the required arrays among them; the agent
    gets a text, never an error, but for a panic when the arguments are null, and then
    nothing was called. *)
Theorem served_arguments {W} fmt_num quote (session : nat -> string -> args -> State W (result tool_error call_result)) reconnect t sc a l w r l' w' :
  mt_schema t = Some sc -> Forall (fun kv => valid_utf8 (fst kv) = fst kv) (properties sc) ->
  (forall m, parse_args (sanitizeToolCallJSON a) = Some m -> map_ok fmt_num (default [] m)) ->
  parse_args a = None \/ parse_args (sanitizeToolCallJSON a) = parse_args a ->
  InvokableRun fmt_num quote (logged session) (lifted <$> reconnect) t a (l, w) = (r, (l', w')) ->
  exists calls, l' = (l ++ calls)%list /\ (length calls <= 2)%nat
    /\ Forall (fun '(n, name, m) => n = mt_session t /\ name = mt_name t /\ conforms sc m) calls
    /\ (r = None -> calls = [] /\ parse_args (sanitizeToolCallJSON a) = Some None).
Proof.
  intros Hsc Hv Hn Hw. unfold InvokableRun. rewrite Hsc. destruct (normalizeArgs fmt_num (Some sc) a) as [out|] eqn:En.
  2: { intros [= <- <- _]. exists []. rewrite app_nil_r. split_and!; [done|cbn; lia|constructor|]. intros _. split; [done|].
       by eapply normalize_panics. }
  assert (Hrun : forall l w x l1 w1, mcp_run quote (logged session) t out (l, w) = (x, (l1, w1)) -> exists calls, l1 = (l ++ calls)%list
    /\ (length calls <= 1)%nat /\ Forall (fun '(n, name, m) => n = mt_session t /\ name = mt_name t /\ conforms sc m) calls).
  { intros l0 w0 x l1 w1 H. apply mcp_run_logged in H as (calls & -> & Hl & Hf). exists calls. split_and!; [done..|].
    eapply Forall_impl; [exact Hf|]. intros [[n name] m] (? & ? & Hm). split_and!; [done..|].
    by eapply (normalized_conforms fmt_num sc a). }
  unfold sbind at 1. destruct (mcp_run quote (logged session) t out (l, w)) as [x [l1 w1]] eqn:E1. apply Hrun in E1 as (c1 & -> & Hl1 & Hf1).
  assert (Hone : forall v, sret v (((l ++ c1)%list, w1) : list server_call * W) = (r, (l', w')) -> r = v /\ l' = (l ++ c1)%list) by (intros v [= <- <-]; done).
  destruct x as [text|e]; [|destruct reconnect as [rec|]; cbn [fmap option_fmap option_map]; [destruct (isConnectionError e)|]].
  2: { unfold sbind at 1, lifted. destruct (rec w1) as [[] w2]. unfold sbind at 1.
       destruct (mcp_run quote (logged session) t out ((l ++ c1)%list, w2)) as [y [l3 w3]] eqn:E2. apply Hrun in E2 as (c2 & -> & Hl2 & Hf2).
       intros [= <- <- _]. exists (c1 ++ c2)%list. rewrite app_assoc, length_app. split_and!; [done|lia|by apply Forall_app|done]. }
  all: intros [-> ->]%Hone; exists c1; split_and!; [done|lia|done|done].
Qed.

(** ** Arguments *)

Definition demo_schema : params_schema :=
  Build_params_schema (Some [("title", Some "string"); ("tags", Some "Array")]) ["title"; "tags"].
Definition demo_fmt (_ : float64) : string := "3".
Definition demo_tool : mcpTool := Build_mcpTool 7 "save_note" true (Some demo_schema).
Definition demo_args : string := json_text "{'title':'x','detail':3}".
Definition demo_result : call_result := Build_call_result false (fun _ => Ok "{}").
Definition demo_session (n : nat) (name : string) (m : args) : State nat (result tool_error call_result) := fun failures =>
  match failures with O => (Ok demo_result, O) | S failures => (Err (Build_tool_error true "EOF"), failures) end.

Example normalize_demo : normalizeArgs demo_fmt (Some demo_schema) demo_args = Some (json_text "{'tags':[],'title':'x'}").
Proof. vm_compute. reflexivity. Qed.

(** A connection that is lost: the tool is called again. *)
Lemma served_arguments_witness :
  exists calls, snd (InvokableRun demo_fmt (fun s => s) (logged demo_session) (lifted <$> Some (sret tt)) demo_tool demo_args ([], 1%nat)) = (calls, 0%nat)
    /\ (length calls <= 2)%nat /\ Forall (fun '(n, name, m) => n = 7%nat /\ name = "save_note" /\ conforms demo_schema m) calls.
Proof.
  destruct (served_arguments demo_fmt (fun s => s) demo_session (Some (sret tt)) demo_tool demo_schema demo_args [] 1%nat (Some "{}")
              [(7%nat, "save_note", Some [("tags", JArray []); ("title", JString "x")]); (7%nat, "save_note", Some [("tags", JArray []); ("title", JString "x")])]
              0%nat) as (calls & E & Hl & Hf & _).
  - reflexivity.
  - repeat constructor.
  - intros m H. vm_compute in H. injection H as <-. constructor; [split; vm_compute; reflexivity|constructor].
  - right. vm_compute. reflexivity.
  - vm_compute. reflexivity.
  - cbn [app] in E. rewrite <- E in Hl, Hf. eexists. split; [vm_compute; reflexivity|]. exact (conj Hl Hf).
Defined.

(** What is repaired is passed on only when an argument has changed as well. *)
Definition leaked_tokens : string := json_text "{'title':'x','tags':[]}<|end|>".
Example repair_dropped :
  sanitizeToolCallJSON leaked_tokens = json_text "{'title':'x','tags':[]}"
  /\ normalizeArgs demo_fmt (Some demo_schema) leaked_tokens = Some leaked_tokens /\ parse_args leaked_tokens = None.
Proof. vm_compute. done. Qed.

Example escaped_quotes :
  sanitizeToolCallJSON (json_text ("{'title" +:+ backslash +:+ "':" +:+ backslash +:+ "'x'}")) = json_text "{'title':'x'}".
Proof. vm_compute. reflexivity. Qed.

(** Arguments that are null, where an array is required. *)
Example null_panics : normalizeArgs demo_fmt (Some demo_schema) "null" = None.
Proof. reflexivity. Qed.

(** The text of an error is quoted as Go does, which JSON does not read. *)
Example soft_text_unread : json_parse (soft_text (go_quote (fun _ => true)) (String "007" "")) = None.
Proof. vm_compute. reflexivity. Qed.

(** ** einotool.go: the schemas *)

Definition true_schema : jsonv := JObject [("type", JString "object")].
Definition false_schema : jsonv := JObject [("type", JString "object"); ("description", JString "unsupported")].

Fixpoint normalizeBooleanSchemasRecurse (v : jsonv) : jsonv :=
  match v with
  | JBool b => if b then true_schema else false_schema
  | JObject m => JObject (map (fun kv => (fst kv, normalizeBooleanSchemasRecurse (snd kv))) m)
  | JArray l => JArray (map normalizeBooleanSchemasRecurse l)
  | _ => v
  end.

Definition normalizeBooleanSchemas (fmt_num : float64 -> string) (raw : string) : result string string :=
  match json_parse raw with
  | None => Err "invalid JSON"
  | Some v => match to_any v with
              | (_, true) => Err "number out of range"
              | (v, false) => Ok (marshal_any fmt_num (normalizeBooleanSchemasRecurse v))
              end
  end.

Fixpoint no_bool (v : jsonv) : bool :=
  match v with
  | JBool _ => false
  | JArray l => forallb no_bool l
  | JObject m => forallb (fun kv => no_bool (snd kv)) m
  | _ => true
  end.

(** No truth value is left anywhere, and what has none stays as it is. *)
Lemma normalized_schema v : no_bool (normalizeBooleanSchemasRecurse v) = true /\ (no_bool v = true -> normalizeBooleanSchemasRecurse v = v).
Proof.
  induction v as [|[]| | |l IH|m IH] using jsonv_deep_ind; try done; cbn [normalizeBooleanSchemasRecurse no_bool].
  - split.
    + apply forallb_forall. intros x (y & <- & Hy)%in_map_iff. rewrite Forall_forall in IH. by apply IH, list_elem_of_In.
    + intros H. f_equal. induction IH as [|v l [_ Hv] Hl IHl]; [done|]. cbn in *. apply andb_true_iff in H as [H1 H2]. by rewrite Hv, IHl.
  - split.
    + apply forallb_forall. intros x (y & <- & Hy)%in_map_iff. cbn. rewrite Forall_forall in IH. by apply IH, list_elem_of_In.
    + intros H. f_equal. induction IH as [|[k v] l [_ Hv] Hl IHl]; [done|]. cbn in *. apply andb_true_iff in H as [H1 H2]. by rewrite Hv, IHl.
Qed.

(** Truth values that are no schemas are replaced too. *)
Example flag_replaced :
  normalizeBooleanSchemas demo_fmt (json_text "{'type':'array','uniqueItems':true,'default':false}") =
  Ok (json_text "{'default':{'description':'unsupported','type':'object'},'type':'array','uniqueItems':{'type':'object'}}").
Proof. vm_compute. reflexivity. Qed.

(** A schema of the library, with the fields that are looked at and the schemas in
    it, each with its place. *)
Inductive slot :=
| InProperties (name : string) | InItems | InAdditionalProperties | InNot | InIf | InThen | InElse | InAllOf | InAnyOf | InOneOf | InPrefixItems
| InPatternProperties (name : string) | InDependentSchemas (name : string) | InDefinitions (name : string).
Inductive Schema := Node (ty description pattern ref : string) (has_enum has_properties : bool) (subs : list (slot * Schema)).

Definition sc_pattern (s : Schema) : string := match s with Node _ _ p _ _ _ _ => p end.
Definition sc_subs (s : Schema) : list (slot * Schema) := match s with Node _ _ _ _ _ _ l => l end.

Definition anchored (p : string) : string :=
  if (p =? "")%string then p
  else let p := if has_prefix p "^" then p else "^" +:+ p in if has_suffix p "$" then p else p +:+ "$".

Fixpoint fixPatterns (s : Schema) : Schema :=
  match s with
  | Node ty d p r e hp subs => Node ty d (anchored p) r e hp (map (fun x => (fst x, fixPatterns (snd x))) subs)
  end.

Section boolean_nodes.
(** [json.Marshal] of a schema. *)
Context (marshal : Schema -> option string).

(** The places that the quick check looks at. *)
Definition checked_slot (x : slot) : bool :=
  match x with InItems | InAdditionalProperties | InAllOf | InAnyOf | InOneOf | InNot | InIf => true | _ => false end.
Definition bare (s : Schema) : bool :=
  match s with
  | Node ty d _ r e hp subs => (ty =? "")%string && negb hp && negb (existsb (fun x => checked_slot (fst x)) subs) && (d =? "")%string && negb e && (r =? "")%string
  end.

Definition object_schema (description : string) : Schema := Node "object" description "" "" false false [].

Fixpoint fixBooleanSchemaNodes (s : Schema) : Schema :=
  match s with
  | Node ty d p r e hp subs =>
      let inside := Node ty d p r e hp (map (fun x => (fst x, fixBooleanSchemaNodes (snd x))) subs) in
      if bare s then
        match marshal s with
        | Some t => if (t =? "true")%string then object_schema "" else if (t =? "false")%string then object_schema "unsupported" else inside
        | None => inside
        end
      else inside
  end.
End boolean_nodes.

(** The schemas in a schema, itself among them. *)
Fixpoint all_schemas (s : Schema) : list Schema := s :: match s with Node _ _ _ _ _ _ subs => flat_map (fun x => all_schemas (snd x)) subs end.

Lemma anchored_anchors p : anchored p <> "" -> has_prefix (anchored p) "^" = true /\ has_suffix (anchored p) "$" = true.
Proof.
  unfold anchored. destruct (String.eqb_spec p "") as [->|]; [done|]. intros _.
  set (q := if has_prefix p "^" then p else "^" +:+ p).
  assert (Hq : has_prefix q "^" = true) by (unfold q; destruct (has_prefix p "^") eqn:E; [done|apply has_prefix_iff; by eexists]).
  destruct (has_suffix q "$") eqn:E; [done|]. split; [|apply has_suffix_app]. apply has_prefix_iff in Hq as [r ->]. apply has_prefix_iff. by exists (r +:+ "$").
Qed.

(** Every pattern in a schema begins and ends as the provider of the model asks. *)
Lemma patterns_anchored : forall s t, In t (all_schemas (fixPatterns s)) -> sc_pattern t <> "" ->
  has_prefix (sc_pattern t) "^" = true /\ has_suffix (sc_pattern t) "$" = true.
Proof.
  fix IH 1. intros [ty d p r e hp subs] t. cbn [fixPatterns all_schemas In]. intros [<-|H] Hp; [by apply anchored_anchors|].
  revert H. induction subs as [|[x s] subs IHs]; [done|]. cbn [map flat_map fst snd]. intros [H|H]%in_app_or; [by apply (IH s t)|by apply IHs].
Qed.

(** A pattern with alternatives is anchored at one of them only. *)
Example alternatives_unanchored : anchored "a|b" = "^a|b$" /\ MatchString (must_compile (anchored "a|b")) "axyz" = true.
Proof. vm_compute. done. Qed.

(** A tool as a server lists it: its name, its description and the JSON of its schema. *)
Record listed_tool := { lt_Name : string; lt_Description : string; lt_InputSchema : result string string }.

Section listing.
Context (fmt_num : float64 -> string) (quote : string -> string) (marshal : Schema -> option string).
(** The reading of a schema, and what of it is seen of a tool. *)
Context (parse_schema : string -> result string Schema) (schema_of : Schema -> option params_schema).

Definition read_schema (t : listed_tool) : result string Schema :=
  match lt_InputSchema t with
  | Err e => Err ("marshaling input schema for tool " +:+ quote (lt_Name t) +:+ ": " +:+ e)
  | Ok raw =>
      match normalizeBooleanSchemas fmt_num raw with
      | Err e => Err ("normalizing input schema for tool " +:+ quote (lt_Name t) +:+ ": " +:+ e)
      | Ok text =>
          match parse_schema text with
          | Err e => Err ("parsing input schema for tool " +:+ quote (lt_Name t) +:+ ": " +:+ e)
          | Ok s => Ok (fixBooleanSchemaNodes marshal (fixPatterns s))
          end
      end
  end.

(** The tools of a session; one schema that is not read takes all of them. *)
Fixpoint read_tools (session : nat) (softError : bool) (l : list listed_tool) : result string (list mcpTool) :=
  match l with
  | [] => Ok []
  | t :: l =>
      match read_schema t with
      | Err e => Err e
      | Ok s =>
          match read_tools session softError l with
          | Err e => Err e
          | Ok ts => Ok (Build_mcpTool session (lt_Name t) softError (schema_of s) :: ts)
          end
      end
  end.

Definition GetToolsFromSession (session : nat) (softError : bool) (listed : result string (list listed_tool)) : result string (list mcpTool) :=
  match listed with
  | Err e => Err ("listing MCP tools: " +:+ e)
  | Ok l => read_tools session softError l
  end.
End listing.

(** ** loader.go: configurations *)

Definition defaultKeepAliveInterval : Z := 30 * time_second.
Definition pingTimeout : Z := 10 * time_second.
Definition reconnectInitialDelay : Z := 1 * time_second.
Definition reconnectMaxDelay : Z := 60 * time_second.
Definition stdioConnectTimeout : Z := 60 * time_second.
Definition sseConnectTimeout : Z := 10 * time_second.

Section config.
Context (env : string -> option string) (fold upper : Z -> Z) (quote : string -> string).

Definition transport_of (cfg : MCPServerConfig) : string := to_lower fold (MCPServer_Transport cfg).
Definition is_remote (cfg : MCPServerConfig) : bool := (transport_of cfg =? "sse")%string || (transport_of cfg =? "streamable")%string.
Definition is_stdio (cfg : MCPServerConfig) : bool := (transport_of cfg =? "stdio")%string.

Definition validateConfig (cfg : MCPServerConfig) : option string :=
  if (MCPServer_Name cfg =? "")%string then Some "name is required"
  else if negb (is_remote cfg || is_stdio cfg)
  then Some ("transport must be " +:+ dquote +:+ "sse" +:+ dquote +:+ ", " +:+ dquote +:+ "streamable" +:+ dquote +:+ ", or " +:+ dquote +:+ "stdio"
             +:+ dquote +:+ ", got " +:+ quote (MCPServer_Transport cfg))
  else if is_remote cfg && (MCPServer_URL cfg =? "")%string then Some (to_upper upper (transport_of cfg) +:+ " transport requires url")
  else if is_stdio cfg && (MCPServer_Command cfg =? "")%string then Some "STDIO transport requires command"
  else None.

Definition expandConfig (cfg : MCPServerConfig) : MCPServerConfig := {|
  MCPServer_Name := MCPServer_Name cfg;
  MCPServer_Transport := MCPServer_Transport cfg;
  MCPServer_Command := ExpandString env (MCPServer_Command cfg);
  MCPServer_Args := map (ExpandString env) (MCPServer_Args cfg);
  MCPServer_URL := ExpandString env (MCPServer_URL cfg);
  MCPServer_Env := map (ExpandString env) (MCPServer_Env cfg);
  MCPServer_Headers := map (fun kv => (fst kv, ExpandString env (snd kv))) (MCPServer_Headers cfg);
  MCPServer_KeepAliveSeconds := MCPServer_KeepAliveSeconds cfg;
  MCPServer_Auth := MCPServer_Auth cfg |}.

Definition expandEnvSlice (envs : list string) : list string :=
  List.filter (fun e => negb (e =? "")%string) (map (ExpandString env) envs).

Definition keepaliveInterval (configs : list MCPServerConfig) : Z :=
  fold_left (fun best cfg =>
    if is_remote cfg && (0 <? MCPServer_KeepAliveSeconds cfg) then
      let d := int64 (MCPServer_KeepAliveSeconds cfg * time_second) in if d <? best then d else best
    else best) configs defaultKeepAliveInterval.

(** The sign-in that [bootstrapOIDC] configures. *)
Definition provider_config (a : MCPAuthConfig) : ProviderConfig := {|
  pc_ClientID := ExpandString env (MCPAuth_ClientID a);
  pc_ClientSecret := ExpandString env (MCPAuth_ClientSecret a);
  pc_Scopes := MCPAuth_Scopes a;
  pc_IssuerURL := ExpandString env (MCPAuth_IssuerURL a);
  pc_AuthorizationURL := ExpandString env (MCPAuth_AuthorizationURL a);
  pc_DeviceAuthURL := ExpandString env (MCPAuth_DeviceAuthURL a);
  pc_TokenURL := ExpandString env (MCPAuth_TokenURL a);
  pc_Audience := MCPAuth_Audience a;
  pc_Flow := MCPAuth_Flow a |}.

(** What a connection is made of: a URL with the headers, or a command with its
    arguments and environment (none: that of the agent). *)
Inductive transport :=
| Remote (streamable : bool) (url : string) (headers : list (string * string))
| Command (name : string) (arguments : list string) (environment : option (list string)).

Definition createTransport (cfg : MCPServerConfig) : result string transport :=
  if (transport_of cfg =? "sse")%string then
    if (MCPServer_URL cfg =? "")%string then Err "SSE transport requires a URL" else Ok (Remote false (MCPServer_URL cfg) (MCPServer_Headers cfg))
  else if (transport_of cfg =? "streamable")%string then
    if (MCPServer_URL cfg =? "")%string then Err "Streamable transport requires a URL" else Ok (Remote true (MCPServer_URL cfg) (MCPServer_Headers cfg))
  else if is_stdio cfg then
    if (MCPServer_Command cfg =? "")%string then Err "STDIO transport requires a command"
    else Ok (Command (MCPServer_Command cfg) (MCPServer_Args cfg)
               (match expandEnvSlice (MCPServer_Env cfg) with [] => None | l => Some l end))
  else Err ("unsupported transport " +:+ quote (MCPServer_Transport cfg) +:+ " (must be " +:+ dquote +:+ "sse" +:+ dquote +:+ ", " +:+ dquote
            +:+ "streamable" +:+ dquote +:+ ", or " +:+ dquote +:+ "stdio" +:+ dquote +:+ ")").

(** A configuration that is valid has a transport, unless its URL or command expands
    to nothing. *)
Lemma valid_transport cfg : validateConfig cfg = None ->
  (exists t, createTransport (expandConfig cfg) = Ok t)
  \/ (is_remote cfg = true /\ ExpandString env (MCPServer_URL cfg) = "")
  \/ (is_stdio cfg = true /\ ExpandString env (MCPServer_Command cfg) = "").
Proof.
  unfold validateConfig, createTransport. change (transport_of (expandConfig cfg)) with (transport_of cfg).
  change (is_stdio (expandConfig cfg)) with (is_stdio cfg). unfold expandConfig, is_remote, is_stdio. cbn [MCPServer_URL MCPServer_Command].
  destruct (_ =? "")%string; [done|]. destruct (transport_of cfg =? "sse")%string; [|destruct (transport_of cfg =? "streamable")%string; [|destruct (transport_of cfg =? "stdio")%string]];
    cbn [orb negb andb]; try done; intros _;
    match goal with |- context [(ExpandString env ?x =? "")%string] => destruct (String.eqb_spec (ExpandString env x) "") as [E|E] end; eauto.
Qed.
End config.

(** ** loader.go: the servers

    The sessions are numbered; the network may lose one at any time. *)

Record Loader := {
  ld_clients : list (option nat);
  ld_tools : list (nat * mcpTool);
  ld_open : gset nat;
  ld_next : nat;
  ld_cancelled : bool }.

Definition set_clients (l : list (option nat)) (s : Loader) : Loader :=
  Build_Loader l (ld_tools s) (ld_open s) (ld_next s) (ld_cancelled s).
Definition set_tools (l : list (nat * mcpTool)) (s : Loader) : Loader :=
  Build_Loader (ld_clients s) l (ld_open s) (ld_next s) (ld_cancelled s).
Definition set_open (o : gset nat) (s : Loader) : Loader :=
  Build_Loader (ld_clients s) (ld_tools s) o (ld_next s) (ld_cancelled s).

(** [createClient], when it succeeds. *)
Definition connected (s : Loader) : Loader :=
  Build_Loader (ld_clients s) (ld_tools s) ({[ld_next s]} ∪ ld_open s) (S (ld_next s)) (ld_cancelled s).

(** What a listing of the sessions of the clients gives: the tools by server, how
    many there are and how many servers failed.  [listing] answers for a session. *)
Definition list_tools (listing : nat -> option (list mcpTool)) (snapshot : list (option nat)) : list (nat * mcpTool) * nat :=
  let answers := omap (fun '(i, c) => match c with Some n => Some (i, listing n) | None => None end) (imap pair snapshot) in
  (flat_map (fun '(i, r) => match r with Some l => map (pair i) l | None => [] end) answers,
   length (List.filter (fun '(_, r) => match r with Some _ => false | None => true end) answers)).

(** The end of [reloadTools], with its error. *)
Definition reload_error (r : list (nat * mcpTool) * nat) : bool := (0 <? snd r)%nat && (length (fst r) =? 0)%nat.
Definition reloaded (r : list (nat * mcpTool) * nat) (s : Loader) : Loader := if reload_error r then s else set_tools (fst r) s.

Definition ToolNames (s : Loader) : list string := map (fun x => mt_name (snd x)) (ld_tools s).
Definition ToolsByNames (names : list string) (s : Loader) : list (nat * mcpTool) :=
  List.filter (fun x => existsb (String.eqb (mt_name (snd x))) names) (ld_tools s).

(** [Close], after the context is cancelled: the sessions of the clients are closed. *)
Definition Close (s : Loader) : Loader :=
  Build_Loader [] [] (ld_open s ∖ list_to_set (omap id (ld_clients s))) (ld_next s) true.

(** *** The goroutines *)

(** What is left to do after a reload: the other servers, or the loop of a
    reconnection, which a call of a tool runs for a bounded time. *)
Inductive after := AfterStdio (todo : list nat) | AfterReconnect (i : nat) (delay : Z) (bounded : bool).

Inductive task :=
| Stdio (todo : list nat) | StdioMade (i n : nat) (todo : list nat)
| Reconnect (i : nat) (delay : Z) (bounded : bool) | ReconnectMade (i n : nat) (delay : Z) (bounded : bool)
| CloseOld (i n : nat) (delay : Z) (bounded : bool)
| Reload (a : after) | Listing (snapshot : list (option nat)) (a : after).

Definition max_delay (bounded : bool) : Z := if bounded then 4 * time_second else reconnectMaxDelay.
Definition retry (i : nat) (delay : Z) (bounded : bool) : task := Reconnect i (Z.min (delay * 2) (max_delay bounded)) bounded.

Definition resume (a : after) (failed : bool) : list task :=
  match a with
  | AfterStdio todo => [Stdio todo]
  | AfterReconnect i delay bounded => if failed then [retry i delay bounded] else []
  end.

(** A step of a goroutine, and what is left of it.  Storing a session at an index
    beyond the clients, which are none after [Close], stores nothing. *)
Inductive task_step : Loader -> task -> Loader -> list task -> Prop :=
| StdioStop s todo : ld_cancelled s = true \/ todo = [] -> task_step s (Stdio todo) s []
| StdioFail s i todo : task_step s (Stdio (i :: todo)) s [Stdio todo]
| StdioConnect s i todo : task_step s (Stdio (i :: todo)) (connected s) [StdioMade i (ld_next s) todo]
| StdioStore s i n todo : task_step s (StdioMade i n todo) (set_clients (<[i := Some n]> (ld_clients s)) s) [Reload (AfterStdio todo)]
| ReconnectStop s i d b : ld_cancelled s = true \/ b = true \/ (length (ld_clients s) <= i)%nat -> task_step s (Reconnect i d b) s []
| ReconnectFail s i d b : task_step s (Reconnect i d b) s [retry i d b]
| ReconnectConnect s i d b : (i < length (ld_clients s))%nat -> task_step s (Reconnect i d b) (connected s) [ReconnectMade i (ld_next s) d b]
| ReconnectSwap s i n d b : task_step s (ReconnectMade i n d b) (set_clients (<[i := Some n]> (ld_clients s)) s)
    match ld_clients s !! i with Some (Some old) => [CloseOld i old d b] | _ => [Reload (AfterReconnect i d b)] end
| ReconnectClose s i n d b : task_step s (CloseOld i n d b) (set_open (ld_open s ∖ {[n]}) s) [Reload (AfterReconnect i d b)]
| ReloadStart s a : task_step s (Reload a) s [Listing (ld_clients s) a]
| ReloadEnd s snapshot a listing :
    task_step s (Listing snapshot a) (reloaded (list_tools listing snapshot) s) (resume a (reload_error (list_tools listing snapshot))).

Section steps.
Context (configs : list MCPServerConfig) (remote : MCPServerConfig -> bool).

Definition remote_at (i : nat) : bool := match configs !! i with Some cfg => remote cfg | None => false end.

(** The steps of all: of the goroutines, of the network, of the keepalive that found
    a session not to answer, of a tool that asks for a reconnection, and of [Close]. *)
Inductive loader_step : Loader * list task -> Loader * list task -> Prop :=
| Step s l1 t l2 s' ts : task_step s t s' ts -> loader_step (s, l1 ++ t :: l2)%list (s', l1 ++ ts ++ l2)%list
| Lose s ts n : n ∈ ld_open s -> loader_step (s, ts) (set_open (ld_open s ∖ {[n]}) s, ts)
| Ping s ts i n : ld_cancelled s = false -> remote_at i = true -> ld_clients s !! i = Some (Some n) ->
    loader_step (s, ts) (s, Reconnect i reconnectInitialDelay false :: ts)%list
| Ask s ts i t : (i, t) ∈ ld_tools s -> (i < length (ld_clients s))%nat -> loader_step (s, ts) (s, Reconnect i reconnectInitialDelay true :: ts)%list
| Cancel s ts : loader_step (s, ts) (Build_Loader (ld_clients s) (ld_tools s) (ld_open s) (ld_next s) true, ts)
| CloseAll s ts : ld_cancelled s = true -> loader_step (s, ts) (Close s, ts).
End steps.

(** *** The start *)

Section start.
Context (env : string -> option string) (fold upper : Z -> Z) (quote : string -> string).
(** The sign-in of a server, and whether the connection to it is made. *)
Context (bootstrap : MCPServerConfig -> option string) (connects : nat -> MCPServerConfig -> bool).

Definition has_oidc (cfg : MCPServerConfig) : bool :=
  match MCPServer_Auth cfg with Some a => (to_lower fold (MCPAuth_Type a) =? "oidc")%string | None => false end.

Definition empty_loader : Loader := Build_Loader [] [] ∅ 0 false.

(** The servers in turn: the expanded configurations, and the indices of the
    commands and of the servers that did not answer.  [Err] comes with the loader
    that was closed. *)
Fixpoint start_servers (i : nat) (l : list MCPServerConfig) (s : Loader) : result (string * Loader) (Loader * list MCPServerConfig * list nat * list nat) :=
  match l with
  | [] => Ok (s, [], [], [])
  | cfg :: l =>
      match validateConfig fold upper quote cfg with
      | Some e => Err ("mcp server config[" +:+ fmt_d (Z.of_nat i) +:+ "] (" +:+ MCPServer_Name cfg +:+ "): " +:+ e, Close s)
      | None =>
          let cfg := expandConfig env cfg in
          match (if has_oidc cfg then bootstrap cfg else None) with
          | Some e => Err ("mcp server " +:+ quote (MCPServer_Name cfg) +:+ ": " +:+ e, Close s)
          | None =>
              let '(s, c, stdio, retry) :=
                if is_stdio fold cfg then (s, None, [i], [])
                else if connects i cfg then (connected s, Some (ld_next s), [], [])
                else (s, None, [], [i]) in
              match start_servers (S i) l (set_clients (ld_clients s ++ [c]) s) with
              | Err e => Err e
              | Ok (s, cfgs, stdios, retries) => Ok (s, cfg :: cfgs, (stdio ++ stdios)%list, (retry ++ retries)%list)
              end
          end
      end
  end.

(** [NewLoader], with the goroutines it starts but for the keepalive. *)
Definition NewLoader (listing : nat -> option (list mcpTool)) (configs : list MCPServerConfig)
    : result (string * Loader) (list MCPServerConfig * (Loader * list task)) :=
  match start_servers 0 configs empty_loader with
  | Err e => Err e
  | Ok (s, cfgs, stdios, retries) =>
      let s := reloaded (list_tools listing (ld_clients s)) s in
      Ok (cfgs, (s, (match stdios with [] => [] | l => [Stdio l] end ++ map (fun i => Reconnect i reconnectInitialDelay false) retries)%list))
  end.
End start.

(** *** No session is forgotten *)

(** The sessions that a goroutine has in hand. *)
Definition in_hand (t : task) : list nat :=
  match t with StdioMade _ n _ | ReconnectMade _ n _ _ | CloseOld _ n _ _ => [n] | _ => [] end.
(** The commands that are still to be started. *)
Definition pending (t : task) : list nat :=
  match t with
  | Stdio l | Reload (AfterStdio l) | Listing _ (AfterStdio l) => l
  | StdioMade i _ l => i :: l
  | _ => []
  end.
(** A goroutine has to do with a server that was connected, or is to be again. *)
Definition busy (t : task) (i : nat) : Prop :=
  match t with
  | Reconnect j _ _ | ReconnectMade j _ _ _ | CloseOld j _ _ _ | Reload (AfterReconnect j _ _) => j = i
  | Listing snapshot a => (exists n, snapshot !! i = Some (Some n)) \/ match a with AfterReconnect j _ _ => j = i | _ => False end
  | _ => False
  end.
(** The servers it is for. *)
Definition indices (t : task) : list nat :=
  match t with
  | Stdio l | Reload (AfterStdio l) | Listing _ (AfterStdio l) => l
  | StdioMade i _ l => i :: l
  | Reconnect i _ _ | ReconnectMade i _ _ _ | CloseOld i _ _ _ | Reload (AfterReconnect i _ _) | Listing _ (AfterReconnect i _ _) => [i]
  end.
(** It tries until it has connected. *)
Definition insists (t : task) (i : nat) : Prop :=
  match t with Reconnect j _ false | ReconnectMade j _ _ false => j = i | _ => False end.

Section invariant.
Context (configs : list MCPServerConfig) (remote : MCPServerConfig -> bool).
Abbreviation remote_at := (remote_at configs remote).
Abbreviation loader_step := (loader_step configs remote).

Record loader_inv (s : Loader) (ts : list task) : Prop := {
  li_closed : ld_clients s = [] -> configs = [] \/ ld_cancelled s = true;
  li_length : ld_clients s <> [] -> length (ld_clients s) = length configs;
  li_indices : forall i, In i (flat_map indices ts) -> (i < length configs)%nat;
  li_fresh : forall n, n ∈ ld_open s -> (n < ld_next s)%nat;
  li_owned : ld_clients s <> [] -> forall n, n ∈ ld_open s -> Some n ∈ ld_clients s \/ In n (flat_map in_hand ts);
  li_pending : NoDup (flat_map pending ts);
  li_untouched : forall i, In i (flat_map pending ts) ->
    remote_at i = false /\ (forall n, ld_clients s !! i <> Some (Some n)) /\ (forall t, (i, t) ∉ ld_tools s) /\ (forall t, In t ts -> ~ busy t i);
  li_insists : ld_cancelled s = false -> forall i, remote_at i = true -> ld_clients s !! i = Some None -> exists t, In t ts /\ insists t i }.

Lemma listed_from listing snapshot i t : (i, t) ∈ fst (list_tools listing snapshot) -> exists n, snapshot !! i = Some (Some n).
Proof.
  unfold list_tools. cbn [fst]. rewrite list_elem_of_In, in_flat_map. intros ([j r] & Hj & Hi).
  apply list_elem_of_In, list_elem_of_omap in Hj as ([k c] & Hk & E). apply list_elem_of_lookup in Hk as [m Hm].
  rewrite list_lookup_imap in Hm. destruct (snapshot !! m) as [c'|] eqn:Es; [|done]. injection Hm as <- <-.
  destruct c' as [n|]; [|done]. injection E as <- <-. destruct (listing n) as [l|]; [|done].
  apply in_map_iff in Hi as (x & [= <- _] & _). by exists n.
Qed.

(** The tools after a reload are those of before, or of servers in the snapshot. *)
Lemma reloaded_tools listing snapshot s i t : (i, t) ∈ ld_tools (reloaded (list_tools listing snapshot) s) ->
  (i, t) ∈ ld_tools s \/ exists n, snapshot !! i = Some (Some n).
Proof. unfold reloaded. destruct (reload_error _); [by left|]. intros H. right. eapply listed_from. exact H. Qed.

Lemma inv_perm s ts ts' : ts ≡ₚ ts' -> loader_inv s ts -> loader_inv s ts'.
Proof.
  intros Hp [H1 Hl Hx H2 H3 H4 H5 H6].
  assert (Ex : flat_map indices ts ≡ₚ flat_map indices ts') by by apply Permutation_flat_map.
  assert (Ep : flat_map pending ts ≡ₚ flat_map pending ts') by by apply Permutation_flat_map.
  assert (Eh : flat_map in_hand ts ≡ₚ flat_map in_hand ts') by by apply Permutation_flat_map.
  split; [done|done| |done| | | |].
  - intros i Hi. apply Hx. by eapply Permutation_in; [symmetry; exact Ex|].
  - intros Hc n Hn. destruct (H3 Hc n Hn) as [H|H]; [by left|right]. by eapply Permutation_in.
  - by rewrite <- Ep.
  - intros i Hi. apply (Permutation_in i (Permutation_sym Ep)) in Hi. destruct (H5 i Hi) as (? & ? & ? & Hb). split_and!; [done..|].
    intros t Ht. apply Hb. by eapply Permutation_in; [symmetry; exact Hp|].
  - intros Hc i Hi Hn. destruct (H6 Hc i Hi Hn) as (t & Ht & Hin). exists t. split; [|done]. by eapply Permutation_in.
Qed.

(** What a step of one goroutine has to keep. *)
Lemma inv_next s t s' ts' rest : loader_inv s (t :: rest) ->
  length (ld_clients s') = length (ld_clients s) -> ld_cancelled s' = ld_cancelled s -> (forall n, n ∈ ld_open s' -> n < ld_next s')%nat ->
  (forall n, n ∈ ld_open s' -> length (ld_clients s) = length configs -> (n ∈ ld_open s -> Some n ∈ ld_clients s \/ In n (in_hand t) \/ In n (flat_map in_hand rest)) ->
     Some n ∈ ld_clients s' \/ In n (flat_map in_hand ts') \/ In n (flat_map in_hand rest)) ->
  incl (flat_map indices ts') (indices t) -> flat_map pending ts' `sublist_of` pending t ->
  (forall i, In i (flat_map pending ts') \/ In i (flat_map pending rest) -> NoDup (pending t ++ flat_map pending rest) ->
     (forall n, ld_clients s !! i <> Some (Some n)) -> (forall t, (i, t) ∉ ld_tools s) -> ~ busy t i -> remote_at i = false ->
     (forall n, ld_clients s' !! i <> Some (Some n)) /\ (forall t, (i, t) ∉ ld_tools s') /\ (forall t', In t' ts' -> ~ busy t' i)) ->
  (forall i, ld_cancelled s = false -> remote_at i = true -> ld_clients s' !! i = Some None ->
     ld_clients s !! i = Some None /\ (insists t i -> exists t', In t' ts' /\ insists t' i)) ->
  loader_inv s' (ts' ++ rest).
Proof.
  intros [H1 Hl Hx H2 H3 H4 H5 H6] Hc Hk Hf Ho Hs Hp Hu Hi. cbn [flat_map] in *.
  assert (Hnil : ld_clients s' = [] <-> ld_clients s = []) by by rewrite <- !length_zero_iff_nil, Hc. split.
  - intros E%Hnil. rewrite Hk. auto.
  - intros Hne. rewrite Hc. apply Hl. by intros E%Hnil.
  - intros i. rewrite flat_map_app, in_app_iff. intros [H|H]; apply Hx, in_app_iff; auto.
  - exact Hf.
  - intros Hne n Hn. assert (Hne' : ld_clients s <> []) by (intros E; by apply Hne, Hnil).
    rewrite flat_map_app, in_app_iff. destruct (Ho n Hn (Hl Hne')) as [?|[?|?]]; [|auto..]. intros Hin. destruct (H3 Hne' n Hin) as [?|H]; [by left|].
    apply in_app_or in H. auto.
  - rewrite flat_map_app. eapply sublist_NoDup; [exact H4|]. by apply sublist_app.
  - intros i Hin. rewrite flat_map_app, in_app_iff in Hin.
    assert (Hin' : In i (pending t ++ flat_map pending rest)).
    { apply in_or_app. destruct Hin as [H|H]; [left|by right]. apply list_elem_of_In. eapply elem_of_sublist; [by apply list_elem_of_In|done]. }
    destruct (H5 i Hin') as (Hr & Hcl & Htl & Hb).
    destruct (Hu i Hin H4 Hcl Htl (Hb t (or_introl eq_refl)) Hr) as (? & ? & Hb'). split_and!; [done..|].
    intros t' [Ht|Ht]%in_app_or; [by apply Hb'|]. apply Hb. by right.
  - rewrite Hk. intros Hk' i Hr Hn. destruct (Hi i Hk' Hr Hn) as [Hn' Ht]. destruct (H6 Hk' i Hr Hn') as (t' & [<-|Hin] & Hins).
    + destruct (Ht Hins) as (t' & Hin & ?). exists t'. rewrite in_app_iff. auto.
    + exists t'. rewrite in_app_iff. auto.
Qed.

Lemma reloaded_rest r s : ld_clients (reloaded r s) = ld_clients s /\ ld_open (reloaded r s) = ld_open s
  /\ ld_next (reloaded r s) = ld_next s /\ ld_cancelled (reloaded r s) = ld_cancelled s.
Proof. unfold reloaded. by destruct (reload_error r). Qed.

Lemma store_other {A} i j (x : A) l : i <> j -> (<[i := x]> l : list A) !! j = l !! j.
Proof. intros H. by apply list_lookup_insert_ne. Qed.

Lemma store_kept {A} i (x y : A) l : (i < length l)%nat -> y ∈ <[i := x]> l <-> y = x \/ exists j, j <> i /\ l !! j = Some y.
Proof.
  intros Hi. rewrite list_elem_of_lookup. split.
  - intros [j Hj]. destruct (decide (j = i)) as [->|Hn]; [left|right].
    + rewrite list_lookup_insert_eq in Hj by done. congruence.
    + exists j. rewrite store_other in Hj by done. done.
  - intros [->|(j & Hn & Hj)]; [exists i; by apply list_lookup_insert_eq|exists j; by rewrite store_other].
Qed.

Lemma task_inv s t s' ts' rest : task_step s t s' ts' -> loader_inv s (t :: rest) -> loader_inv s' (ts' ++ rest).
Proof.
  intros Hstep Hinv. pose proof Hinv as [H1 Hl Hx H2 H3 H4 H5 H6]. apply (inv_next s t s' ts' rest Hinv).
  - destruct Hstep; cbn; try done; [by rewrite length_insert..|]. by rewrite (proj1 (reloaded_rest _ _)).
  - destruct Hstep; cbn; try done. by apply reloaded_rest.
  - destruct Hstep; cbn in *; try done.
    + intros n [->%elem_of_singleton|Hn]%elem_of_union; [lia|]. apply H2 in Hn. lia.
    + intros m [->%elem_of_singleton|Hn]%elem_of_union; [lia|]. apply H2 in Hn. lia.
    + intros m [Hm _]%elem_of_difference. by apply H2.
    + destruct (reloaded_rest (list_tools listing snapshot) s) as (_ & -> & -> & _). done.
  - intros m Hm Hlen Hold. destruct Hstep; cbn in *; try tauto.
    + apply elem_of_union in Hm as [->%elem_of_singleton|Hm]; [auto|]. specialize (Hold Hm). tauto.
    + assert (Hi : (i < length (ld_clients s))%nat) by (rewrite Hlen; apply Hx; auto). rewrite store_kept by done.
      destruct (H5 i (or_introl eq_refl)) as (_ & Hn & _). destruct (Hold Hm) as [H|[[->|[]]|H]]; [left; right|auto..].
      apply list_elem_of_lookup in H as [j Hj]. exists j. split; [|done]. intros ->. by apply (Hn m).
    + apply elem_of_union in Hm as [->%elem_of_singleton|Hm]; [auto|]. specialize (Hold Hm). tauto.
    + assert (Hi : (i < length (ld_clients s))%nat) by (rewrite Hlen; apply Hx; auto). rewrite store_kept by done.
      destruct (Hold Hm) as [H|[[->|[]]|H]]; [|auto..]. apply list_elem_of_lookup in H as [j Hj].
      destruct (decide (j = i)) as [->|Hj']; [|eauto]. rewrite Hj. cbn. auto.
    + apply elem_of_difference in Hm as [Hm Hn]. rewrite elem_of_singleton in Hn. destruct (Hold Hm) as [?|[[?|[]]|?]]; [auto|congruence|auto].
    + destruct (reloaded_rest (list_tools listing snapshot) s) as (-> & E & _ & _). rewrite E in Hm. specialize (Hold Hm). tauto.
  - destruct Hstep; cbn; rewrite ?app_nil_r; try done; try (intros x Hin; cbn in *; tauto).
    + case_match; [case_match|]; cbn; intros x; cbn; tauto.
    + destruct a as [l|i d b]; cbn; rewrite ?app_nil_r; [apply incl_refl|]. destruct (reload_error _); cbn; intros x; cbn; tauto.
  - destruct Hstep; cbn; rewrite ?app_nil_r; try done; try apply sublist_nil_l.
    + by apply sublist_cons.
    + by apply sublist_cons.
    + case_match; [case_match|]; cbn; done.
    + destruct a as [l|i d b]; cbn; rewrite ?app_nil_r; [done|]. by destruct (reload_error _).
  - intros i Hi Hnd Hcl Htl Hb Hr. destruct Hstep; cbn in *; try (split_and!; try done; intros t' [<-|[]]; cbn; tauto).
    + apply NoDup_cons in Hnd as [Hni _]. assert (i0 <> i).
      { intros ->. apply Hni. rewrite list_elem_of_In, in_app_iff. rewrite app_nil_r in Hi. done. }
      rewrite store_other by done. split_and!; [done..|]. by intros t' [<-|[]].
    + rewrite store_other by done. split_and!; [done..|]. intros t'. case_match; [case_match|]; cbn; intros [<-|[]]; done.
    + split_and!; [done..|]. intros t' [<-|[]]. cbn. destruct a; intros [[n Hn]|H]; [by apply (Hcl n)|done|by apply (Hcl n)|done].
    + rewrite (proj1 (reloaded_rest _ _)). split_and!; [done| |].
      * intros t [H|H]%reloaded_tools; [by apply (Htl t)|apply Hb; by left].
      * intros t' Ht. destruct a as [l|j d b]; cbn in Ht; [destruct Ht as [<-|[]]; exact id|]. destruct (reload_error _); [|done].
        destruct Ht as [<-|[]]. cbn. intros ->. apply Hb. by right.
  - intros i Hk Hr Hn. destruct Hstep; cbn in *; try (split; [done|]; intros []; fail).
    + apply list_lookup_insert_Some in Hn as [(_ & ? & _)|[_ Hn]]; [done|]. by split.
    + split; [done|]. destruct b; [done|]. intros ->. destruct H as [H|[H|H]]; [congruence|done|]. apply lookup_lt_Some in Hn. lia.
    + split; [done|]. destruct b; [done|]. intros ->. eexists. by split; [left|].
    + split; [done|]. destruct b; [done|]. intros ->. eexists. by split; [left|].
    + apply list_lookup_insert_Some in Hn as [(_ & ? & _)|[Hne Hn]]; [done|]. split; [done|]. by destruct b.
    + by rewrite (proj1 (reloaded_rest _ _)) in Hn.
Qed.

Lemma loader_step_inv s ts s' ts' : loader_step (s, ts) (s', ts') -> loader_inv s ts -> loader_inv s' ts'.
Proof.
  intros Hstep Hinv. inversion Hstep as [? l1 t l2 ? ts1 Ht E1 E2|? ? n Hn E1 E2|? ? i n Hc Hr Hn E1 E2|? ? i t Ht Hi E1 E2|? ? E1 E2|? ? Hc E1 E2]; subst.
  - eapply inv_perm; [|eapply task_inv; [exact Ht|eapply inv_perm; [|exact Hinv]]].
    + rewrite (Permutation_app_comm ts1 (l1 ++ l2)), <- app_assoc. by rewrite (Permutation_app_comm l2 ts1).
    + by rewrite Permutation_middle.
  - destruct Hinv as [H1 Hl Hx H2 H3 H4 H5 H6]. split; try done.
    + intros m [Hm _]%elem_of_difference. by apply H2.
    + intros Hc m [Hm _]%elem_of_difference. by apply H3.
  - destruct Hinv as [H1 Hl Hx H2 H3 H4 H5 H6]. split; try done.
    + intros j [<-|Hj]; [|by apply Hx]. rewrite <- Hl by (intros E; by rewrite E in Hn). by apply lookup_lt_Some in Hn.
    + intros j Hj. destruct (H5 j Hj) as (? & ? & ? & Hb). split_and!; [done..|]. intros t [<-|Ht]; [|by apply Hb]. cbn. congruence.
    + intros Hk j Hj Hjn. destruct (H6 Hk j Hj Hjn) as (t & Ht & ?). exists t. split; [by right|done].
  - destruct Hinv as [H1 Hl Hx H2 H3 H4 H5 H6]. split; try done.
    + intros j [<-|Hj]; [|by apply Hx]. rewrite <- Hl; [done|]. intros E. rewrite E in Hi. cbn in Hi. lia.
    + intros j Hj. destruct (H5 j Hj) as (? & ? & Htl & Hb). split_and!; [done..|]. intros t' [<-|Ht']; [|by apply Hb]. cbn. intros ->. by apply (Htl t).
    + intros Hk j Hj Hjn. destruct (H6 Hk j Hj Hjn) as (t' & Ht' & ?). exists t'. split; [by right|done].
  - destruct Hinv as [H1 Hl Hx H2 H3 H4 H5 H6]. split; try done. intros _. by right.
  - destruct Hinv as [H1 Hl Hx H2 H3 H4 H5 H6]. split; try done.
    + intros _. by right.
    + intros m [Hm _]%elem_of_difference. by apply H2.
    + intros i Hi. destruct (H5 i Hi) as (? & ? & ? & ?). split_and!; [done|done| |done]. intros t. apply not_elem_of_nil.
Qed.

Lemma loader_steps_inv st st' : rtc loader_step st st' -> loader_inv (fst st) (snd st) -> loader_inv (fst st') (snd st').
Proof. induction 1 as [|[s ts] [s1 ts1] st' Hstep _ IH]; [done|]. intros H. apply IH. by eapply loader_step_inv. Qed.

(** A server without a session that is to be connected again can be. *)
Lemma reconnects s ts t i : loader_inv s ts -> In t ts -> insists t i -> ld_clients s !! i = Some None ->
  exists s' ts' n, rtc loader_step (s, ts) (s', ts') /\ ld_clients s' !! i = Some (Some n).
Proof.
  intros Hinv Hin Hi Hn. apply in_split in Hin as (l1 & l2 & ->).
  assert (Hlt : (i < length (ld_clients s))%nat) by by apply lookup_lt_Some in Hn.
  assert (Hswap : forall s n d l1 l2, (i < length (ld_clients s))%nat ->
    exists s' ts' m, rtc loader_step (s, l1 ++ ReconnectMade i n d false :: l2)%list (s', ts') /\ ld_clients s' !! i = Some (Some m)).
  { intros s0 n d k1 k2 Hk. eexists _, _, n. split; [apply rtc_once, Step, ReconnectSwap|]. cbn. by apply list_lookup_insert_eq. }
  destruct t; cbn in Hi; try done; destruct bounded; try done; subst i0; [|by apply Hswap].
  destruct (Hswap (connected s) (ld_next s) delay l1 l2) as (s' & ts' & m & Hr & Hm); [done|].
  exists s', ts', m. split; [|done]. eapply rtc_l; [|exact Hr]. apply (Step configs remote s l1 (Reconnect i delay false) l2 (connected s) [ReconnectMade i (ld_next s) delay false]).
  by apply ReconnectConnect.
Qed.
End invariant.

Section started.
Context (env : string -> option string) (fold upper : Z -> Z) (quote : string -> string).
Context (bootstrap : MCPServerConfig -> option string) (connects : nat -> MCPServerConfig -> bool).
Abbreviation start_servers := (start_servers env fold upper quote bootstrap connects).

Lemma stdio_not_remote cfg : is_stdio fold cfg = true -> is_remote fold cfg = false.
Proof. unfold is_stdio, is_remote. by intros ->%String.eqb_eq. Qed.

(** The clients that a start makes, and the lists of indices. *)
Lemma start_spec l : forall i s s' cfgs stdios retries, start_servers i l s = Ok (s', cfgs, stdios, retries) ->
  exists cs, ld_clients s' = (ld_clients s ++ cs)%list /\ length cs = length cfgs /\ ld_tools s' = ld_tools s /\ ld_cancelled s' = ld_cancelled s
  /\ ((forall n, n ∈ ld_open s -> n < ld_next s)%nat -> forall n, n ∈ ld_open s' -> n < ld_next s')%nat
  /\ (forall n, n ∈ ld_open s' -> n ∈ ld_open s \/ Some n ∈ cs)
  /\ NoDup stdios
  /\ (forall j, In j stdios -> exists k cfg, j = (i + k)%nat /\ cfgs !! k = Some cfg /\ is_stdio fold cfg = true /\ cs !! k = Some None)
  /\ (forall j, In j retries -> exists k cfg, j = (i + k)%nat /\ cfgs !! k = Some cfg /\ is_stdio fold cfg = false)
  /\ (forall k cfg, cfgs !! k = Some cfg -> is_stdio fold cfg = false -> cs !! k = Some None -> In (i + k)%nat retries).
Proof.
  induction l as [|cfg l IH]; intros i s s' cfgs stdios retries; cbn [start_servers].
  { intros [= <- <- <- <-]. exists []. rewrite app_nil_r. split_and!; try done; [auto|constructor]. }
  destruct (validateConfig fold upper quote cfg); [done|]. set (cfg' := expandConfig env cfg).
  destruct (if has_oidc fold cfg' then bootstrap cfg' else None); [done|].
  assert (Hone : forall s0 c stdio retry,
    (if is_stdio fold cfg' then (s, None, [i], []) else if connects i cfg' then (connected s, Some (ld_next s), [], []) else (s, None, [], [i])) = (s0, c, stdio, retry) ->
    ld_clients s0 = ld_clients s /\ ld_tools s0 = ld_tools s /\ ld_cancelled s0 = ld_cancelled s
    /\ ((forall n, n ∈ ld_open s -> n < ld_next s)%nat -> forall n, n ∈ ld_open s0 -> n < ld_next s0)%nat
    /\ (forall n, n ∈ ld_open s0 -> n ∈ ld_open s \/ c = Some n)
    /\ (stdio = [] \/ stdio = [i] /\ is_stdio fold cfg' = true /\ c = None)
    /\ (retry = [] \/ retry = [i] /\ is_stdio fold cfg' = false)
    /\ (is_stdio fold cfg' = false -> c = None -> retry = [i])).
  { intros s0 c stdio retry. destruct (is_stdio fold cfg'); [|destruct (connects i cfg')]; intros [= <- <- <- <-]; split_and!; try done; auto; cbn.
    - intros Hn n [->%elem_of_singleton|H]%elem_of_union; [lia|]. apply Hn in H. lia.
    - intros n [->%elem_of_singleton|H]%elem_of_union; auto. }
  destruct (if is_stdio fold cfg' then _ else _) as [[[s0 c] stdio] retry]. destruct (Hone _ _ _ _ eq_refl) as (E1 & E2 & E3 & Hf & Ho & Hs & Hr & Hc). clear Hone.
  destruct (start_servers (S i) l _) as [[[[s2 cfgs2] stdios2] retries2]|] eqn:E; [|done]. intros [= <- <- <- <-].
  apply IH in E as (cs & I1 & I2 & I3 & I4 & I5 & I6 & I7 & I8 & I9 & I10). cbn [set_clients ld_clients ld_tools ld_cancelled ld_open ld_next] in *.
  exists (c :: cs). split_and!.
  - by rewrite I1, E1, <- app_assoc.
  - cbn. by rewrite I2.
  - by rewrite I3.
  - by rewrite I4.
  - auto.
  - intros n Hn. destruct (I6 n Hn) as [H|H]; [|right; by right]. destruct (Ho n H) as [?| ->]; [by left|right; by left].
  - destruct Hs as [->|(-> & _)]; [done|]. constructor; [|done]. rewrite list_elem_of_In. intros (k & ? & ? & _)%I8. lia.
  - intros j [H|(k & x & -> & H)%I8]%in_app_or; [|exists (S k), x; split; [lia|done]].
    destruct Hs as [->|(-> & Hs & ->)]; [done|]. destruct H as [<-|[]]. exists O, cfg'. by rewrite Nat.add_0_r.
  - intros j [H|(k & x & -> & H)%I9]%in_app_or; [|exists (S k), x; split; [lia|done]].
    destruct Hr as [->|(-> & Hr)]; [done|]. destruct H as [<-|[]]. exists O, cfg'. by rewrite Nat.add_0_r.
  - intros [|k] x Hx Hn Hk; cbn in *.
    + injection Hx as <-. injection Hk as ->. rewrite Hc by done. left. lia.
    + apply in_or_app. right. replace (i + S k)%nat with (S i + k)%nat by lia. by eapply I10.
Qed.

Lemma start_inv listing configs cfgs s ts :
  NewLoader env fold upper quote bootstrap connects listing configs = Ok (cfgs, (s, ts)) -> loader_inv cfgs (is_remote fold) s ts.
Proof.
  unfold NewLoader. destruct (start_servers 0 configs empty_loader) as [[[[s1 cfgs1] stdios] retries]|] eqn:E; [|done]. intros [= <- <- <-].
  apply start_spec in E as (cs & I1 & I2 & I3 & I4 & I5 & I6 & I7 & I8 & I9 & I10). cbn [empty_loader ld_clients ld_tools ld_cancelled ld_open ld_next app] in *.
  set (r := list_tools listing (ld_clients s1)). destruct (reloaded_rest r s1) as (R1 & R2 & R3 & R4).
  set (ts := (match stdios with [] => [] | l => [Stdio l] end ++ map (fun i => Reconnect i reconnectInitialDelay false) retries)%list).
  assert (Hp : flat_map pending ts = stdios).
  { unfold ts. rewrite flat_map_app. replace (flat_map pending (map _ retries)) with (@nil nat) by by clear; induction retries.
    rewrite app_nil_r. destruct stdios; [done|]. cbn. by rewrite app_nil_r. }
  assert (Hx : flat_map indices ts = (stdios ++ retries)%list).
  { unfold ts. rewrite flat_map_app. f_equal; [destruct stdios; [done|cbn; by rewrite app_nil_r]|]. clear. induction retries; [done|]. cbn. by f_equal. }
  split; rewrite ?R1, ?R2, ?R3, ?R4, ?Hp, ?Hx.
  - rewrite I1. destruct cs; [|done]. intros _. left. by destruct cfgs1.
  - intros _. by rewrite I1.
  - intros i [(k & cfg & -> & H & _)%I8|(k & cfg & -> & H & _)%I9]%in_app_or; by apply lookup_lt_Some in H.
  - apply I5. intros n Hn. by apply not_elem_of_empty in Hn.
  - intros _ n Hn. rewrite I1. left. destruct (I6 n Hn) as [H|H]; [by apply not_elem_of_empty in H|done].
  - done.
  - intros i (k & cfg & -> & Hk & Hs & Hc)%I8. cbn [Nat.add]. split_and!.
    + unfold remote_at. rewrite Hk. by apply stdio_not_remote.
    + intros n Hn. rewrite I1, Hc in Hn. done.
    + intros t [H|[n Hn]]%reloaded_tools; [rewrite I3 in H; by apply not_elem_of_nil in H|]. rewrite I1, Hc in Hn. done.
    + intros t Ht Hb. unfold ts in Ht. apply in_app_or in Ht as [Ht|Ht].
      * destruct stdios as [|? ?]; [done|]. by destruct Ht as [<-|[]].
      * apply in_map_iff in Ht as (j & <- & (k' & cfg' & Hj & Hk' & Hs')%I9). cbn in Hb. subst j. cbn in Hb. subst k'. congruence.
  - intros _ i Hr Hn. rewrite I1 in Hn. unfold remote_at in Hr. destruct (cfgs1 !! i) as [cfg|] eqn:Ec; [|done].
    assert (Hs : is_stdio fold cfg = false). { destruct (is_stdio fold cfg) eqn:Es; [|done]. apply stdio_not_remote in Es. congruence. }
    exists (Reconnect i reconnectInitialDelay false). split; [|done]. unfold ts. apply in_or_app. right.
    apply (in_map (fun i => Reconnect i reconnectInitialDelay false)). by apply (I10 i cfg).
Qed.

(** C30: After a start, until the loader is closed, and in whatever order the goroutines,
    the network, the keepalive and the tools act: every session that is open is that of
    a client, or a goroutine has it in hand; and as long as the loader is not stopped, a
    remote server that has no session has a goroutine by which it can come to one. *)
Theorem loader_servers listing configs cfgs st0 s ts :
  NewLoader env fold upper quote bootstrap connects listing configs = Ok (cfgs, st0) ->
  rtc (loader_step cfgs (is_remote fold)) st0 (s, ts) ->
  (ld_clients s <> [] -> forall n, n ∈ ld_open s -> Some n ∈ ld_clients s \/ In n (flat_map in_hand ts))
  /\ (ld_cancelled s = false -> forall i, remote_at cfgs (is_remote fold) i = true -> ld_clients s !! i = Some None ->
       exists s' ts' n, rtc (loader_step cfgs (is_remote fold)) (s, ts) (s', ts') /\ ld_clients s' !! i = Some (Some n)).
Proof.
  intros Hs Hr. destruct st0 as [s0 ts0]. apply start_inv in Hs. pose proof (loader_steps_inv _ _ _ _ Hr Hs) as Hi. cbn [fst snd] in Hi. split.
  - apply (li_owned _ _ _ _ Hi).
  - intros Hc i Hrem Hn. destruct (li_insists _ _ _ _ Hi Hc i Hrem Hn) as (t & Ht & Hins). by eapply reconnects.
Qed.
End started.

(** ** Two servers: a command, and one that does not answer at first *)

Definition demo_server (name transport url command : string) : MCPServerConfig :=
  Build_MCPServerConfig name transport command [] url [] [] 0 None.
Definition demo_configs : list MCPServerConfig := [demo_server "a" "STDIO" "" "run-a"; demo_server "b" "sse" "http://b" ""].
Definition demo_fold (r : Z) : Z := r.
Definition demo_listing (n : nat) : option (list mcpTool) := Some [Build_mcpTool n (if (n =? 0)%nat then "tool_a" else "tool_b") true None].
Definition demo_start : result (string * Loader) (list MCPServerConfig * (Loader * list task)) :=
  NewLoader (fun _ => None) demo_fold demo_fold (fun s => s) (fun _ => None) (fun _ _ => false) demo_listing demo_configs.
Definition started_loader : Loader := Build_Loader [None; None] [] ∅ 0 false.
Definition started_tasks : list task := [Stdio [0%nat]; Reconnect 1 time_second false].

Example start_demo : demo_start = Ok (demo_configs, (started_loader, started_tasks)).
Proof. vm_compute. reflexivity. Qed.

Example validate_demo :
  map (validateConfig demo_fold demo_fold (fun s => s)) [demo_server "" "sse" "u" ""; demo_server "x" "tcp" "u" ""; demo_server "x" "streamable" "" ""; demo_server "x" "stdio" "" "c"] =
  [Some "name is required"; Some (json_text "transport must be 'sse', 'streamable', or 'stdio', got tcp"); Some "STREAMABLE transport requires url"; None].
Proof. vm_compute. reflexivity. Qed.

Lemma loader_servers_witness :
  exists s' ts' n, rtc (loader_step demo_configs (is_remote demo_fold)) (started_loader, started_tasks) (s', ts') /\ ld_clients s' !! 1%nat = Some (Some n).
Proof.
  destruct (loader_servers (fun _ => None) demo_fold demo_fold (fun s => s) (fun _ => None) (fun _ _ => false) demo_listing demo_configs demo_configs
    (started_loader, started_tasks) started_loader started_tasks) as [_ H].
  - vm_compute. reflexivity.
  - apply rtc_refl.
  - apply (H eq_refl 1%nat); vm_compute; reflexivity.
Defined.

Section runs.
Abbreviation loader_step := (loader_step demo_configs (is_remote demo_fold)).

(** A step of the goroutine that is [length l1] from the left. *)
Lemma run_task l1 t l2 s s' ts st : task_step s t s' ts -> rtc loader_step (s', l1 ++ ts ++ l2)%list st -> rtc loader_step (s, l1 ++ t :: l2)%list st.
Proof. intros H. by apply rtc_l, Step. Qed.

(** A command that connects while the loader is closed: the session is stored nowhere
    and nobody closes it. *)
Lemma close_leaks_session : exists s,
  rtc loader_step (started_loader, started_tasks) (s, []) /\ ld_cancelled s = true /\ ld_clients s = [] /\ ld_open s = {[ 0%nat ]}.
Proof.
  eexists. split.
  - unfold started_tasks. eapply (run_task [] _ [_]); [apply StdioConnect|]. eapply rtc_l; [apply Cancel|]. eapply rtc_l; [by apply CloseAll|].
    eapply (run_task [] _ [_]); [apply StdioStore|]. eapply (run_task [] _ [_]); [apply ReloadStart|].
    eapply (run_task [] _ [_]); [apply (ReloadEnd _ _ _ (fun _ => None))|]. eapply (run_task [] _ [_]); [apply StdioStop; by left|].
    eapply (run_task [] _ []); [apply ReconnectStop; by left|]. apply rtc_refl.
  - vm_compute. by split_and!.
Qed.

(** Two reloads that overlap: the one that began first ends last, and the tools of a
    server that is connected are gone, with no goroutine left to list them. *)
Lemma reload_loses_tools : exists s,
  rtc loader_step (started_loader, started_tasks) (s, []) /\ ld_clients s = [Some 0%nat; Some 1%nat] /\ ld_open s = {[ 0%nat; 1%nat ]} /\ ToolNames s = ["tool_a"].
Proof.
  eexists. split.
  - unfold started_tasks. eapply (run_task [] _ [_]); [apply StdioConnect|]. eapply (run_task [] _ [_]); [apply StdioStore|].
    eapply (run_task [] _ [_]); [apply ReloadStart|].
    eapply (run_task [_] _ []); [apply ReconnectConnect; vm_compute; lia|]. eapply (run_task [_] _ []); [apply ReconnectSwap|].
    eapply (run_task [_] _ []); [apply ReloadStart|]. eapply (run_task [_] _ []); [apply (ReloadEnd _ _ _ demo_listing)|].
    eapply (run_task [] _ []); [apply (ReloadEnd _ _ _ demo_listing)|]. eapply (run_task [] _ []); [apply StdioStop; by right|]. apply rtc_refl.
  - vm_compute. by split_and!.
Qed.
End runs.

(** A call over the sessions of a loader: one that is closed reports the connection
    as closed. *)
Definition demo_call (n : nat) (name : string) (m : args) : State Loader (result tool_error call_result) := fun s =>
  (if bool_decide (n ∈ ld_open s) then Ok demo_result else Err (Build_tool_error false "connection closed"), s).
(** The reconnection of the first server that succeeds at once. *)
Definition demo_reconnect : State Loader unit := fun s =>
  let n := ld_next s in
  let s := set_clients (<[0%nat := Some n]> (ld_clients s)) (connected s) in
  (tt, reloaded (list_tools demo_listing (ld_clients s)) s).
Definition lost_loader : Loader := Build_Loader [Some 0%nat] [(0%nat, Build_mcpTool 0 "tool_a" true None)] ∅ 1 false.

(** The second try of a tool goes to the session that was lost: it fails although the
    server is connected again. *)
Example retry_old_session :
  let '(r, s) := InvokableRun demo_fmt (fun s => s) demo_call (Some demo_reconnect) (Build_mcpTool 0 "tool_a" true None) "{}" lost_loader in
  r = Some lost_text /\ ld_clients s = [Some 1%nat] /\ ld_open s = {[ 1%nat ]} /\ ToolNames s = ["tool_b"].
Proof. vm_compute. by split_and!. Qed.
