(* ===== verification/Admin.v ===== *)
(** * The administration API (internal/admin/*.go)

    The operator's endpoints over the store: users, identities, the allowlist,
    policies, agents and their tokens, the scheduled jobs, and the state of the
    gateway.  [handle] is the handler of every route of [routes], as a step over
    the store, the one-shot scheduler and the accounts removed from the broker;
    [serve] adds the authentication.  File AdminProofs has the theorems. *)
From Stdlib Require Import ZArith Lia Bool Ascii String List SpecFloat.
From stdpp Require Import base gmap strings option list.
From S2P Require Import Prelude GoString GoTime GoJsonParse GoFloat Sha256 Http Models Repo Sqlite HealthMon Scheduler.
From S2P Require Import Register GoAny Config ConfigLoad.

Local Open Scope string_scope.
Local Open Scope Z_scope.
Local Open Scope state_scope.
Local Open Scope reader_scope.

(** ** agents.go: tokens *)

Definition base62Chars : string := "0123456789ABCDEFGHIJKLMNOPQRSTUVWXYZabcdefghijklmnopqrstuvwxyz".
Definition tokenPrefix : string := "npr_".

(** [big.Int.SetBytes]. *)
Definition big_of_bytes (data : string) : Z :=
  fold_left (fun n c => 256 * n + byte_of c) (list_ascii_of_string data) 0.

Definition base62_digit (n : Z) : ascii :=
  match String.get (Z.to_nat n) base62Chars with Some c => c | None => "0"%char end.

(** The loop, whose digits are written backwards: [acc] is what was written. *)
Fixpoint base62_loop (fuel : nat) (n : Z) (acc : string) : string :=
  match fuel with
  | O => acc
  | S fuel => if 0 <? n then base62_loop fuel (n / 62) (String (base62_digit (n mod 62)) acc) else acc
  end.

(** A byte needs at most two digits. *)
Definition encodeBase62 (data : string) : string :=
  base62_loop (2 * String.length data) (big_of_bytes data) "".

Record token := { tk_plaintext : string; tk_hash : string; tk_prefix : string }.

(** [raw] is what [rand.Read] gave. *)
Definition generateToken (raw : result string string) : result string token :=
  match raw with
  | Err e => Err ("generating random bytes: " +:+ e)
  | Ok raw =>
      let plaintext := tokenPrefix +:+ encodeBase62 raw in
      Ok (Build_token plaintext (sha256_hex plaintext)
            (if (8 <=? String.length plaintext)%nat then str_take 8 plaintext else plaintext))
  end.

(** ** system.go: the configuration without its secrets *)

Definition secretFields : list string :=
  ["token"; "password"; "secret"; "api_key"; "wuzapi_token"; "wuzapi_hmac_key"; "app_token"; "bot_token"; "signing_secret"].

Definition is_secret (k : string) : bool := existsb (String.eqb k) secretFields.

Fixpoint redactConfig (v : jsonv) : jsonv :=
  match v with
  | JObject m =>
      JObject (map (fun kv => let '(k, v) := kv in
        (k, if is_secret k then
              match v with
              | JString s => if (s =? "")%string then v else JString "[REDACTED]"
              | _ => v
              end
            else match v with
            | JObject _ => redactConfig v
            | JArray items => JArray (map (fun item => match item with JObject _ => redactConfig item | _ => item end) items)
            | _ => v
            end)) m)
  | _ => v
  end.

(** [json.Marshal] fails on a number that is not finite. *)
Definition float_finite (x : float64) : bool := match x with S754_finite _ _ _ | S754_zero _ => true | _ => false end.

Fixpoint json_encodable (v : jsonv) : bool :=
  match v with
  | JNumber x => float_finite x
  | JArray l => forallb json_encodable l
  | JObject m => forallb (fun kv => json_encodable (snd kv)) m
  | _ => true
  end.

(** ** The bodies *)

Record CreateUserRequest := { cu_Name : string; cu_DefaultModel : string; cu_Preferences : list (string * jsonv) }.

Definition dec_CreateUserRequest : decoder CreateUserRequest := dec_struct (fun x =>
  let f {B} := @field B ["name"; "defaultModel"; "preferences"] in
  Build_CreateUserRequest
    <$$> f "name" dec_string (cu_Name x)
    <*> f "defaultModel" dec_string (cu_DefaultModel x)
    <*> f "preferences" dec_any_map (cu_Preferences x)).

(** No preferences and [null] are both nil; an empty object is not. *)
Definition dec_UpdateUserRequest : decoder UpdateUserRequest := dec_struct (fun x =>
  let f {B} := @field B ["name"; "defaultModel"; "enabled"; "preferences"] in
  Build_UpdateUserRequest
    <$$> f "name" (dec_ptr "" dec_string) (uu_Name x)
    <*> f "defaultModel" (dec_ptr "" dec_string) (uu_DefaultModel x)
    <*> f "enabled" (dec_ptr false dec_bool) (uu_Enabled x)
    <*> f "preferences" (dec_ptr [] dec_any_map) (uu_Preferences x)).

Definition dec_PolicyData : decoder PolicyData := dec_struct (fun x =>
  let f {B} := @field B ["allow"; "deny"; "rateLimit"; "models"; "extra"] in
  Build_PolicyData
    <$$> f "allow" (dec_slice "" dec_string) (pd_Allow x)
    <*> f "deny" (dec_slice "" dec_string) (pd_Deny x)
    <*> f "rateLimit" dec_any_map (pd_RateLimit x)
    <*> f "models" dec_any_map (pd_Models x)
    <*> f "extra" dec_any_map (pd_Extra x)).

Record identity_request := { iq_channel_type : string; iq_channel_identity : string }.
Definition dec_identity_request : decoder identity_request := dec_struct (fun x =>
  let f {B} := @field B ["channel_type"; "channel_identity"] in
  Build_identity_request
    <$$> f "channel_type" dec_string (iq_channel_type x)
    <*> f "channel_identity" dec_string (iq_channel_identity x)).

Record allow_request := { aq_user_id : string; aq_channel_type : string; aq_enabled : option bool }.
Definition dec_allow_request : decoder allow_request := dec_struct (fun x =>
  let f {B} := @field B ["user_id"; "channel_type"; "enabled"] in
  Build_allow_request
    <$$> f "user_id" dec_string (aq_user_id x)
    <*> f "channel_type" dec_string (aq_channel_type x)
    <*> f "enabled" (dec_ptr false dec_bool) (aq_enabled x)).

Definition dec_enabled : decoder bool := dec_struct (fun x => field ["enabled"] "enabled" dec_bool x).

Record provision_request := { pq_user_id : string; pq_label : string }.
Definition dec_provision_request : decoder provision_request := dec_struct (fun x =>
  let f {B} := @field B ["user_id"; "label"] in
  Build_provision_request
    <$$> f "user_id" dec_string (pq_user_id x)
    <*> f "label" dec_string (pq_label x)).

Definition zero_job : job := Build_job "" "" "" "" [].
Definition dec_at_request : decoder job := dec_struct (fun x =>
  let f {B} := @field B ["user_id"; "id"; "run_at"; "prompt"; "notify_channels"] in
  Build_job
    <$$> f "id" dec_string (jb_ID x)
    <*> f "user_id" dec_string (jb_UserID x)
    <*> f "run_at" dec_string (jb_when x)
    <*> f "prompt" dec_string (jb_Prompt x)
    <*> f "notify_channels" (dec_slice "" dec_string) (jb_NotifyChannels x)).

(** ** server.go: responses and the routes *)

Record healthResult := {
  hr_Status : string;
  hr_Components : list (string * string);
  hr_Agents : list AgentHealthInfo;
  hr_Heartbeats : list AgentHeartbeatInfo }.

Inductive admin_result :=
| RUser (u : User) | RUsers (l : list User)
| RIdentities (l : list identity_row) | RAllowed (l : list allowed_row) | RPolicies (l : list UserPolicy)
| RAgent (a : Agent) | RAgents (l : list Agent) | RProvisioned (a : Agent) (authToken note : string)
| RJob (j : job) | RJobs (l : list job) | RAudit (l : list AdminAuditEntry)
| RHealth (h : healthResult) | RMap (m : list (string * jsonv)).

(** [apiResponse]. *)
Inductive apiResponse := AdminOK (result : admin_result) | AdminError (error : string).

Inductive admin_op :=
| CreateUser | ListUsers | GetUser | UpdateUser | DeleteUser
| AddIdentity | ListIdentities | RemoveIdentity
| AddAllowlist | ListAllowlist | ListAllowlistByChannel | UpdateAllowlist | RemoveAllowlist
| ListPolicies | SetPolicy | DeletePolicy
| ProvisionAgent | ListAgents | GetAgent | DeleteAgent | RotateAgentToken | RevokeAgent
| ListCronJobs | ListCronJobsByUser
| ListAtJobs | AddAtJob | RemoveAtJob | ListAtJobsByUser
| Health | QueryAudit | Backup | ViewConfig.

(** [registerRoutes]: the router hands a request to the route of its method and
    path, with the path's variables. *)
Definition routes : list (string * string * admin_op) :=
  [("POST", "/admin/users", CreateUser); ("GET", "/admin/users", ListUsers);
   ("GET", "/admin/users/{userId}", GetUser); ("PUT", "/admin/users/{userId}", UpdateUser);
   ("DELETE", "/admin/users/{userId}", DeleteUser);
   ("POST", "/admin/users/{userId}/identities", AddIdentity); ("GET", "/admin/users/{userId}/identities", ListIdentities);
   ("DELETE", "/admin/users/{userId}/identities/{id}", RemoveIdentity);
   ("POST", "/admin/allowlist", AddAllowlist); ("GET", "/admin/allowlist", ListAllowlist);
   ("GET", "/admin/allowlist/{channelType}", ListAllowlistByChannel);
   ("PUT", "/admin/allowlist/{userId}/{channelType}", UpdateAllowlist);
   ("DELETE", "/admin/allowlist/{userId}/{channelType}", RemoveAllowlist);
   ("GET", "/admin/users/{userId}/policies", ListPolicies); ("PUT", "/admin/users/{userId}/policies/{type}", SetPolicy);
   ("DELETE", "/admin/users/{userId}/policies/{type}", DeletePolicy);
   ("POST", "/admin/agents", ProvisionAgent); ("GET", "/admin/agents", ListAgents);
   ("GET", "/admin/agents/{agentId}", GetAgent); ("DELETE", "/admin/agents/{agentId}", DeleteAgent);
   ("POST", "/admin/agents/{agentId}/rotate", RotateAgentToken); ("POST", "/admin/agents/{agentId}/revoke", RevokeAgent);
   ("GET", "/admin/cron/jobs", ListCronJobs); ("GET", "/admin/users/{userId}/cron/jobs", ListCronJobsByUser);
   ("GET", "/admin/at/jobs", ListAtJobs); ("POST", "/admin/at/jobs", AddAtJob);
   ("DELETE", "/admin/at/jobs/{userId}/{id}", RemoveAtJob); ("GET", "/admin/users/{userId}/at/jobs", ListAtJobsByUser);
   ("GET", "/admin/health", Health); ("GET", "/admin/audit", QueryAudit); ("POST", "/admin/backup", Backup);
   ("GET", "/admin/config", ViewConfig)].

(** [Start]: the listener's host, whatever the configuration says. *)
Definition Start (listen : string -> result string string) (cfg : Config) : option string :=
  let a := Gateway_Admin (Cfg_Gateway cfg) in
  let addr := Admin_Bind a +:+ ":" +:+ fmt_d (Admin_Port a) in
  match listen addr with
  | Err e => Some ("admin server listen " +:+ addr +:+ ": " +:+ e)
  | Ok host =>
      if negb (host =? "127.0.0.1")%string && negb (host =? "::1")%string
      then Some ("admin server must bind to 127.0.0.1, got " +:+ host) else None
  end.

(** The store, the one-shot scheduler, the broker accounts that were deleted and
    the paths a backup was written to. *)
Record AdminState := {
  ad_db : Db;
  ad_at : AtState;
  ad_deleted : list string;
  ad_backups : list string }.

Section admin.

(** [time.Now()], at the places that read it. *)
Context (clk : nat -> Z).
Context (cfg : Config).
(** Whether there is a management client, and whether it lists the queues; the
    errors of its deletions are only logged. *)
Context (mgmt : bool) (lists_queues : bool).
Context (agentHealth : option statuses) (heartbeatStore : option heartbeats).
(** Whether at jobs can be scheduled, and the scheduler's errors as text. *)
Context (atMutator : bool) (sched_text : sched_error -> string).
(** A new user's id, random bytes, the data store's health, the backup's error. *)
Context (newID : string) (random : result string string) (ping : bool) (backup_error : option string).
Context (printable : Z -> bool).

Abbreviation M := (State AdminState).
Abbreviation admin_response := (Response apiResponse).

Definition writeJSON (status : Z) (b : apiResponse) : M admin_response := sret (Build_Response status (Some b)).
Definition writeOK (r : admin_result) : M admin_response := writeJSON 200 (AdminOK r).
Definition writeCreated (r : admin_result) : M admin_response := writeJSON 201 (AdminOK r).
Definition writeError (status : Z) (msg : string) : M admin_response := writeJSON status (AdminError msg).
Definition writeBadRequest : string -> M admin_response := writeError 400.
Definition writeNotFound : string -> M admin_response := writeError 404.
Definition writeInternalError : string -> M admin_response := writeError 500.

Definition set_db (d : Db) (s : AdminState) : AdminState := Build_AdminState d (ad_at s) (ad_deleted s) (ad_backups s).
Definition set_at (a : AtState) (s : AdminState) : AdminState := Build_AdminState (ad_db s) a (ad_deleted s) (ad_backups s).

Definition read {A} (f : Db -> A) : M A := sget (fun s => f (ad_db s)).
Definition on_db {A} (f : Db -> A * Db) : M A := fun s => let '(a, d) := f (ad_db s) in (a, set_db d s).
Definition write (f : Db -> Db) : M unit := smodify (fun s => set_db (f (ad_db s)) s).
Definition on_at {A} (f : AtState -> A * AtState) : M A := fun s => let '(a, t) := f (ad_at s) in (a, set_at t s).

Definition buildAuditEntry (r : Request) (action actor targetUserID details : string) : AdminAuditEntry :=
  let xff := header_get (rq_Header r) "X-Forwarded-For" in
  Build_AdminAuditEntry 0 (clk 8) action actor targetUserID details
    (if (xff =? "")%string then rq_RemoteAddr r else xff).

Definition logAudit (r : Request) (action targetUserID details : string) : M unit :=
  write (sql_LogAdminAction (clk 9) (buildAuditEntry r action "admin" targetUserID details)).

(** [json.NewDecoder(r.Body).Decode(&req)]. *)
Definition with_body {A} (dec : decoder A) (zero : A) (r : Request) (k : A -> M admin_response) : M admin_response :=
  match rq_Body r with
  | None => writeBadRequest "invalid request body"
  | Some b => match decode_stream dec zero b with
              | (_, Some _) => writeBadRequest "invalid request body"
              | (x, None) => k x
              end
  end.

(** The details of an audit entry: a JSON object put together by hand, its
    strings quoted like Go's or not at all. *)
Definition raw_text (value : string) : string := String "034" (value +:+ String "034" "").
Definition object_text (members : string) : string := "{" +:+ members +:+ "}".
Definition member_text (name value : string) : string := raw_text name +:+ ":" +:+ value.
Definition quoted (value : string) : string := go_quote printable value.
Definition bool_text (b : bool) : string := if b then "true" else "false".

Definition user_details (id : string) : string := object_text (member_text "user_id" (raw_text id)).
Definition agent_details (id : string) : string := object_text (member_text "agent_id" (quoted id)).

(** ** users.go *)

Definition handleCreateUser (r : Request) : M admin_response :=
  with_body dec_CreateUserRequest (Build_CreateUserRequest "" "" []) r (fun req =>
    if (cu_Name req =? "")%string then writeBadRequest "name is required"
    else
      do res <- on_db (Sqlite.CreateUser (clk 0) newID (cu_Name req) (cu_DefaultModel req) (cu_Preferences req));
      match res with
      | Err _ => writeInternalError "failed to create user"
      | Ok user =>
          run logAudit r "user.created" (us_ID user) (user_details (us_ID user));
          writeCreated (RUser user)
      end).

Definition handleListUsers (r : Request) : M admin_response :=
  do users <- read sql_ListUsers;
  writeOK (RUsers users).

Definition handleGetUser (r : Request) : M admin_response :=
  do res <- read (Sqlite.GetUser (rq_PathValue r "userId"));
  match res with Err _ => writeNotFound "user not found" | Ok user => writeOK (RUser user) end.

Definition handleUpdateUser (r : Request) : M admin_response :=
  let userID := rq_PathValue r "userId" in
  with_body dec_UpdateUserRequest (Build_UpdateUserRequest None None None None) r (fun req =>
    do res <- on_db (Sqlite.UpdateUser (clk 0) userID req);
    match res with
    | Err _ => writeNotFound "user not found"
    | Ok user =>
        run logAudit r "user.updated" userID (user_details userID);
        writeOK (RUser user)
    end).

Definition delete_account (username : string) : M unit :=
  smodify (fun s => Build_AdminState (ad_db s) (ad_at s) (ad_deleted s ++ [username])%list (ad_backups s)).

Definition handleDeleteUser (r : Request) : M admin_response :=
  let userID := rq_PathValue r "userId" in
  run (if mgmt then
         do agents <- read (sql_ListAgents userID);
         sfor (fun a => if (ag_RMQUsername a =? "")%string then sret tt else delete_account (ag_RMQUsername a)) agents
       else sret tt);
  do res <- on_db (sql_DeleteUser userID);
  match res with
  | Err _ => writeNotFound "user not found"
  | Ok _ =>
      run logAudit r "user.deleted" userID (user_details userID);
      writeOK (RMap [("deleted", JBool true); ("userId", JString userID); ("deletedAt", JString (format_nano (clk 1)))])
  end.

(** ** identities.go *)

Definition handleAddIdentity (r : Request) : M admin_response :=
  let userID := rq_PathValue r "userId" in
  with_body dec_identity_request (Build_identity_request "" "") r (fun req =>
    if (iq_channel_type req =? "")%string || (iq_channel_identity req =? "")%string then
      writeBadRequest "channel_type and channel_identity are required"
    else
      do res <- on_db (sql_AddIdentity (clk 0) userID (iq_channel_type req) (iq_channel_identity req));
      match res with
      | Err _ => writeInternalError "failed to add identity"
      | Ok _ =>
          run logAudit r "identity.added" userID
                (object_text (member_text "channel_type" (quoted (iq_channel_type req)) +:+ ","
                              +:+ member_text "channel_identity" (raw_text "[REDACTED]")));
          writeCreated (RMap [("userId", JString userID); ("channelType", JString (iq_channel_type req))])
      end).

Definition handleListIdentities (r : Request) : M admin_response :=
  do l <- read (Sqlite.ListIdentities (rq_PathValue r "userId"));
  writeOK (RIdentities l).

(** The identity is found by its number alone. *)
Definition handleRemoveIdentity (r : Request) : M admin_response :=
  let userID := rq_PathValue r "userId" in
  match parse_int64 (rq_PathValue r "id") with
  | None => writeBadRequest "invalid identity id"
  | Some id =>
      do res <- on_db (sql_RemoveIdentity id);
      match res with
      | Err _ => writeNotFound "identity not found"
      | Ok _ =>
          run logAudit r "identity.removed" userID (object_text (member_text "identity_id" (fmt_d id)));
          writeOK (RMap [("deleted", JBool true); ("id", json_int id)])
      end
  end.

(** ** allowlist.go *)

Definition allow_details (channelType : string) (enabled : bool) : string :=
  object_text (member_text "channel_type" (quoted channelType) +:+ "," +:+ member_text "enabled" (bool_text enabled)).
Definition allow_result (userID channelType : string) (enabled : bool) : admin_result :=
  RMap [("userId", JString userID); ("channelType", JString channelType); ("enabled", JBool enabled)].

Definition handleAddAllowlist (r : Request) : M admin_response :=
  with_body dec_allow_request (Build_allow_request "" "" None) r (fun req =>
    if (aq_user_id req =? "")%string || (aq_channel_type req =? "")%string then
      writeBadRequest "user_id and channel_type are required"
    else
      let enabled := default true (aq_enabled req) in
      do res <- on_db (sql_SetAllowed (clk 0) (aq_user_id req) (aq_channel_type req) enabled "admin");
      match res with
      | Err _ => writeInternalError "failed to set allowlist entry"
      | Ok _ =>
          run logAudit r "allowlist.added" (aq_user_id req) (allow_details (aq_channel_type req) enabled);
          writeCreated (allow_result (aq_user_id req) (aq_channel_type req) enabled)
      end).

Definition handleListAllowlist (r : Request) : M admin_response :=
  do l <- read (ListAllowed "");
  writeOK (RAllowed l).

Definition handleListAllowlistByChannel (r : Request) : M admin_response :=
  do l <- read (ListAllowed (rq_PathValue r "channelType"));
  writeOK (RAllowed l).

Definition handleUpdateAllowlist (r : Request) : M admin_response :=
  let userID := rq_PathValue r "userId" in
  let channelType := rq_PathValue r "channelType" in
  with_body dec_enabled false r (fun enabled =>
    do res <- on_db (sql_SetAllowed (clk 0) userID channelType enabled "admin");
    match res with
    | Err _ => writeInternalError "failed to update allowlist entry"
    | Ok _ =>
        run logAudit r "allowlist.updated" userID (allow_details channelType enabled);
        writeOK (allow_result userID channelType enabled)
    end).

Definition handleRemoveAllowlist (r : Request) : M admin_response :=
  let userID := rq_PathValue r "userId" in
  let channelType := rq_PathValue r "channelType" in
  do res <- on_db (sql_RemoveAllowed userID channelType);
  match res with
  | Err _ => writeNotFound "allowlist entry not found"
  | Ok _ =>
      run logAudit r "allowlist.removed" userID (object_text (member_text "channel_type" (quoted channelType)));
      writeOK (RMap [("deleted", JBool true); ("userId", JString userID); ("channelType", JString channelType)])
  end.

(** ** policies.go *)

Definition policy_details (policyType : string) : string := object_text (member_text "policy_type" (quoted policyType)).

Definition handleListPolicies (r : Request) : M admin_response :=
  do l <- read (ListUserPolicies (rq_PathValue r "userId"));
  writeOK (RPolicies l).

Definition handleSetPolicy (r : Request) : M admin_response :=
  let userID := rq_PathValue r "userId" in
  let policyType := rq_PathValue r "type" in
  with_body dec_PolicyData (Build_PolicyData [] [] [] [] []) r (fun data =>
    do res <- on_db (SetUserPolicy (clk 0) userID policyType data);
    match res with
    | Err _ => writeInternalError "failed to set policy"
    | Ok _ =>
        run logAudit r "policy.set" userID (policy_details policyType);
        writeOK (RMap [("userId", JString userID); ("policyType", JString policyType)])
    end).

Definition handleDeletePolicy (r : Request) : M admin_response :=
  let userID := rq_PathValue r "userId" in
  let policyType := rq_PathValue r "type" in
  run write (DeleteUserPolicy userID policyType);
  run logAudit r "policy.deleted" userID (policy_details policyType);
  writeOK (RMap [("deleted", JBool true); ("userId", JString userID); ("policyType", JString policyType)]).

(** ** agents.go *)

Definition save_note : string := "Save this token — it will not be shown again.".

Definition handleProvisionAgent (r : Request) : M admin_response :=
  with_body dec_provision_request (Build_provision_request "" "") r (fun req =>
    if (pq_user_id req =? "")%string then writeBadRequest "user_id is required"
    else if (pq_label req =? "")%string then writeBadRequest "label is required"
    else
      do user <- read (Sqlite.GetUser (pq_user_id req));
      match user with
      | Err _ => writeNotFound "user not found"
      | Ok _ =>
          match generateToken random with
          | Err _ => writeInternalError "failed to generate agent token"
          | Ok t =>
              do res <- on_db (Sqlite.ProvisionAgent (clk 0) (pq_user_id req) (pq_label req) (tk_hash t) (tk_prefix t));
              match res with
              | Err _ => writeInternalError "failed to provision agent"
              | Ok agent =>
                  run logAudit r "agent.provisioned" (pq_user_id req)
                        (object_text (member_text "agent_id" (quoted (ag_ID agent)) +:+ ","
                                      +:+ member_text "label" (quoted (ag_Label agent))));
                  writeCreated (RProvisioned agent (tk_plaintext t) save_note)
              end
          end
      end).

Definition handleListAgents (r : Request) : M admin_response :=
  do l <- read (sql_ListAgents (rq_Query r "user_id"));
  writeOK (RAgents l).

Definition with_agent (agentID : string) (k : Agent -> M admin_response) : M admin_response :=
  do res <- read (Sqlite.GetAgent agentID);
  match res with Err _ => writeNotFound "agent not found" | Ok agent => k agent end.

Definition handleGetAgent (r : Request) : M admin_response :=
  with_agent (rq_PathValue r "agentId") (fun agent => writeOK (RAgent agent)).

Definition handleDeleteAgent (r : Request) : M admin_response :=
  let agentID := rq_PathValue r "agentId" in
  with_agent agentID (fun agent =>
    run (if mgmt && negb (ag_RMQUsername agent =? "")%string then delete_account (ag_RMQUsername agent) else sret tt);
    do res <- on_db (Sqlite.DeleteAgent agentID);
    match res with
    | Err _ => writeInternalError "failed to delete agent"
    | Ok _ =>
        run logAudit r "agent.deleted" (ag_UserID agent) (agent_details agentID);
        writeOK (RMap [("deleted", JBool true); ("agentId", JString agentID)])
    end).

Definition handleRotateAgentToken (r : Request) : M admin_response :=
  let agentID := rq_PathValue r "agentId" in
  with_agent agentID (fun agent =>
    match generateToken random with
    | Err _ => writeInternalError "failed to generate new token"
    | Ok t =>
        run write (Sqlite.RotateAgentToken (clk 0) agentID (tk_hash t) (tk_prefix t));
        run logAudit r "agent.token_rotated" (ag_UserID agent) (agent_details agentID);
        writeOK (RMap [("agentId", JString agentID); ("authToken", JString (tk_plaintext t)); ("note", JString save_note)])
    end).

Definition handleRevokeAgent (r : Request) : M admin_response :=
  let agentID := rq_PathValue r "agentId" in
  with_agent agentID (fun agent =>
    run write (Sqlite.RevokeAgent (clk 0) agentID);
    run logAudit r "agent.revoked" (ag_UserID agent) (agent_details agentID);
    writeOK (RMap [("revoked", JBool true); ("agentId", JString agentID)])).

(** ** cron.go and at.go *)

Definition handleListCronJobs (r : Request) : M admin_response :=
  do l <- read Sqlite.ListCronJobs;
  writeOK (RJobs l).

Definition by_user (list : string -> Db -> list job) (r : Request) : M admin_response :=
  let userID := rq_PathValue r "userId" in
  if (userID =? "")%string then writeBadRequest "userId required"
  else
    do l <- read (list userID);
    writeOK (RJobs l).

Definition handleListCronJobsByUser : Request -> M admin_response := by_user Sqlite.ListCronJobsByUser.
Definition handleListAtJobsByUser : Request -> M admin_response := by_user Sqlite.ListAtJobsByUser.

Definition handleListAtJobs (r : Request) : M admin_response :=
  do l <- read Sqlite.ListAtJobs;
  writeOK (RJobs l).

Definition job_details (id : string) : string := object_text (member_text "job_id" (raw_text id)).

(** The scheduler's part of an addition; the stored job is taken back when the
    scheduler refuses it. *)
Definition schedule (r : Request) (j : job) : M admin_response :=
  let created :=
    run logAudit r "at_job.created" (jb_UserID j) (job_details (jb_ID j));
    writeCreated (RJob j) in
  if atMutator then
    do added <- on_at (Scheduler.AddAtJob j (clk 1));
    match added with
    | Ok _ => created
    | Err e =>
        do _ <- on_db (Sqlite.RemoveAtJob (jb_ID j) (jb_UserID j));
        writeInternalError ("failed to schedule at job: " +:+ sched_text e)
    end
  else created.

Definition handleAddAtJob (r : Request) : M admin_response :=
  with_body dec_at_request zero_job r (fun req =>
    if (jb_UserID req =? "")%string || (jb_ID req =? "")%string || (jb_when req =? "")%string || (jb_Prompt req =? "")%string then
      writeBadRequest "user_id, id, run_at, and prompt are required"
    else if (trim_space (jb_Prompt req) =? "")%string then writeBadRequest "prompt must be non-empty"
    else match parse_rfc3339 (jb_when req) with
    | None => writeBadRequest "run_at must be a valid RFC3339 timestamp"
    | Some _ =>
        do res <- on_db (Sqlite.AddAtJob req);
        match res with
        | Err _ => writeInternalError "failed to add at job"
        | Ok _ => schedule r req
        end
    end).

Definition handleRemoveAtJob (r : Request) : M admin_response :=
  let userID := rq_PathValue r "userId" in
  let id := rq_PathValue r "id" in
  if (userID =? "")%string || (id =? "")%string then writeBadRequest "userId and id required"
  else
    do res <- on_db (Sqlite.RemoveAtJob id userID);
    match res with
    | Err _ => writeNotFound "at job not found or not owned by user"
    | Ok _ =>
        run (if atMutator then do _ <- on_at (Scheduler.RemoveAtJob userID id); sret tt else sret tt);
        run logAudit r "at_job.deleted" userID (job_details id);
        writeOK (RMap [("status", JString "deleted")])
    end.

(** ** system.go *)

Definition status_of (enabled : bool) : string := if enabled then "ok" else "disabled".

Definition health : healthResult :=
  let ch := Cfg_Channels cfg in
  {| hr_Status := if ping then "healthy" else "degraded";
     hr_Components :=
       [("datastore", if ping then "ok" else "error");
        ("rabbitmq_management", if mgmt then if lists_queues then "ok" else "degraded" else "disabled");
        ("whatsapp", status_of (WhatsAppChannel_Enabled (Channels_WhatsApp ch)));
        ("slack", status_of (SlackChannel_Enabled (Channels_Slack ch)));
        ("mqtt", status_of (MQTTChannel_Enabled (Channels_MQTT ch)))];
     hr_Agents := match agentHealth with Some m => GetAllStatuses m | None => [] end;
     hr_Heartbeats := match heartbeatStore with Some m => GetAll m | None => [] end |}.

Definition handleHealth (r : Request) : M admin_response := writeOK (RHealth health).

(** A query's instant, if given. *)
Definition query_time (r : Request) (name : string) : result string (option Z) :=
  let s := rq_Query r name in
  if (s =? "")%string then Ok None
  else match parse_rfc3339 s with
       | Some t => Ok (Some t)
       | None => Err ("invalid " +:+ name +:+ ": must be RFC3339")
       end.

Definition handleQueryAudit (r : Request) : M admin_response :=
  match query_time r "since" with
  | Err e => writeBadRequest e
  | Ok since =>
      match query_time r "until" with
      | Err e => writeBadRequest e
      | Ok until =>
          do l <- read (QueryAuditLog (Build_AuditQueryFilters since until (rq_Query r "action") (rq_Query r "user_id") 0));
          writeOK (RAudit l)
      end
  end.

Definition handleBackup (r : Request) : M admin_response :=
  let destPath := Backup_Path (Datastore_Backup (Cfg_Datastore cfg)) in
  if (destPath =? "")%string then writeBadRequest "backup path not configured"
  else match backup_error with
  | Some _ => writeInternalError "backup failed"
  | None =>
      run smodify (fun s => Build_AdminState (ad_db s) (ad_at s) (ad_deleted s) (ad_backups s ++ [destPath])%list);
      run logAudit r "backup.created" "" (object_text (member_text "path" (quoted destPath)));
      writeOK (RMap [("path", JString destPath); ("timestamp", JString (format_nano (clk 1)))])
  end.

Definition handleConfig (r : Request) : M admin_response :=
  let raw := json_Config cfg in
  if json_encodable raw then
    match redactConfig raw with
    | JObject m => writeOK (RMap m)
    | _ => writeInternalError "failed to process config"
    end
  else writeInternalError "failed to serialize config".

(** ** The server *)

Definition handle (op : admin_op) : Request -> M admin_response :=
  match op with
  | CreateUser => handleCreateUser | ListUsers => handleListUsers | GetUser => handleGetUser
  | UpdateUser => handleUpdateUser | DeleteUser => handleDeleteUser
  | AddIdentity => handleAddIdentity | ListIdentities => handleListIdentities | RemoveIdentity => handleRemoveIdentity
  | AddAllowlist => handleAddAllowlist | ListAllowlist => handleListAllowlist
  | ListAllowlistByChannel => handleListAllowlistByChannel
  | UpdateAllowlist => handleUpdateAllowlist | RemoveAllowlist => handleRemoveAllowlist
  | ListPolicies => handleListPolicies | SetPolicy => handleSetPolicy | DeletePolicy => handleDeletePolicy
  | ProvisionAgent => handleProvisionAgent | ListAgents => handleListAgents | GetAgent => handleGetAgent
  | DeleteAgent => handleDeleteAgent | RotateAgentToken => handleRotateAgentToken | RevokeAgent => handleRevokeAgent
  | ListCronJobs => handleListCronJobs | ListCronJobsByUser => handleListCronJobsByUser
  | ListAtJobs => handleListAtJobs | AddAtJob => handleAddAtJob | RemoveAtJob => handleRemoveAtJob
  | ListAtJobsByUser => handleListAtJobsByUser
  | Health => handleHealth | QueryAudit => handleQueryAudit | Backup => handleBackup | ViewConfig => handleConfig
  end.

Definition authMiddleware (next : Request -> M admin_response) (r : Request) : M admin_response :=
  let token := AdminAuth_Token (Admin_Auth (Gateway_Admin (Cfg_Gateway cfg))) in
  let auth := header_get (rq_Header r) "Authorization" in
  match strip_prefix "Bearer " auth with
  | None => writeError 401 "unauthorized"
  | Some given => if (given =? token)%string then next r else writeError 401 "unauthorized"
  end.

Definition serve (op : admin_op) (r : Request) : M admin_response :=
  if AdminAuth_Enabled (Admin_Auth (Gateway_Admin (Cfg_Gateway cfg))) then authMiddleware (handle op) r else handle op r.

End admin.
