(* ===== verification/AdminProofs.v ===== *)
(** * What the administration API guarantees

    Every operation either leaves the data as it was or does its work and adds
    one entry to the audit log; authentication; the configuration view; the
    agents' tokens. *)
From Stdlib Require Import ZArith Lia Bool Ascii String List.
From stdpp Require Import base gmap strings option list.
From S2P Require Import Prelude GoString GoTime GoJsonParse GoFloat Sha256 Http Models Repo Sqlite SqliteProofs HealthMon Scheduler.
From S2P Require Import Register GoAny Config ConfigLoad Admin.

Local Open Scope string_scope.
Local Open Scope Z_scope.
Local Open Scope state_scope.

(** ** Changes of the store

    An operation that fails changes nothing; one that succeeds does not touch the
    audit log. *)
Definition store_op {A} (f : Db -> result repo_error A * Db) : Prop := forall d,
  match f d with
  | (Err _, d') => d' = d
  | (Ok _, d') => t_audit d' = t_audit d
  end.

Ltac store_step := intros d; repeat case_test; try done.

Lemma find_snoc {A} (p : A -> bool) l x : p x = true -> exists y, List.find p (l ++ [x]) = Some y.
Proof. intros H. induction l as [|z l IH]; simpl; [rewrite H; eauto|]. destruct (p z); eauto. Qed.

Lemma create_user_op now id name model prefs : store_op (Sqlite.CreateUser now id name model prefs).
Proof.
  intros d. unfold Sqlite.CreateUser. destruct (name =? "")%string; [done|]. destruct (has_user id d); [done|].
  unfold Sqlite.GetUser. cbn [set_users t_users].
  destruct (find_snoc (fun r => (ur_id r =? id)%string) (t_users d)
    (Build_user_row id name true (if (model =? "")%string then "claude-sonnet-4-20250514" else model) (format_nano now)
       (format_nano now) prefs)) as (y & ->); [apply String.eqb_refl|done].
Qed.

Lemma update_user_op now id u : store_op (Sqlite.UpdateUser now id u).
Proof. intros d. unfold Sqlite.UpdateUser. by destruct (Sqlite.GetUser id d). Qed.

Lemma delete_user_op id : store_op (sql_DeleteUser id).
Proof. intros d. unfold sql_DeleteUser. by destruct (has_user id d). Qed.

Lemma add_identity_op now u c i : store_op (sql_AddIdentity now u c i).
Proof. intros d. unfold sql_AddIdentity. destruct (existsb _ _); [done|]. by destruct (has_user u d). Qed.

Lemma remove_identity_op id : store_op (sql_RemoveIdentity id).
Proof. intros d. unfold sql_RemoveIdentity. by destruct (existsb _ _). Qed.

Lemma set_allowed_op now u c e b : store_op (sql_SetAllowed now u c e b).
Proof. intros d. unfold sql_SetAllowed. destruct (existsb _ _); [done|]. by destruct (has_user u d). Qed.

Lemma remove_allowed_op u c : store_op (sql_RemoveAllowed u c).
Proof. intros d. unfold sql_RemoveAllowed. by destruct (existsb _ _). Qed.

Lemma set_policy_op now u ty data : store_op (SetUserPolicy now u ty data).
Proof. intros d. unfold SetUserPolicy. destruct (has_user u d); [|done]. by destruct (existsb _ _). Qed.

Lemma provision_op now u l h p : store_op (Sqlite.ProvisionAgent now u l h p).
Proof.
  intros d. unfold Sqlite.ProvisionAgent. destruct (existsb _ _); [done|]. destruct (has_user u d); [|done].
  unfold Sqlite.GetAgent. cbn [set_agents t_agents].
  destruct (find_snoc (fun r => (gr_id r =? agent_id u l)%string) (t_agents d)
    (Build_agent_row (agent_id u l) u l h p None AgentStatusProvisioned None None (format_nano now) (format_nano now)))
    as (y & ->); [apply String.eqb_refl|done].
Qed.

Lemma delete_agent_op id : store_op (Sqlite.DeleteAgent id).
Proof. intros d. unfold Sqlite.DeleteAgent. by destruct (existsb _ _). Qed.

Lemma add_at_op j : store_op (Sqlite.AddAtJob j).
Proof. intros d. unfold Sqlite.AddAtJob, store_jobs. by destruct (add_job _ _ _ _). Qed.

Lemma remove_at_op id u : store_op (Sqlite.RemoveAtJob id u).
Proof. intros d. unfold Sqlite.RemoveAtJob, store_jobs. by destruct (remove_job _ _ _ _). Qed.

Create HintDb store discriminated.
#[export] Hint Resolve create_user_op update_user_op delete_user_op add_identity_op remove_identity_op
  set_allowed_op remove_allowed_op set_policy_op provision_op delete_agent_op add_at_op remove_at_op : store.

(** ** One operation *)

(** The action an operation is logged as; an operation without one only reads. *)
Definition action_of (op : admin_op) : option string :=
  match op with
  | CreateUser => Some "user.created" | UpdateUser => Some "user.updated" | DeleteUser => Some "user.deleted"
  | AddIdentity => Some "identity.added" | RemoveIdentity => Some "identity.removed"
  | AddAllowlist => Some "allowlist.added" | UpdateAllowlist => Some "allowlist.updated"
  | RemoveAllowlist => Some "allowlist.removed"
  | SetPolicy => Some "policy.set" | DeletePolicy => Some "policy.deleted"
  | ProvisionAgent => Some "agent.provisioned" | DeleteAgent => Some "agent.deleted"
  | RotateAgentToken => Some "agent.token_rotated" | RevokeAgent => Some "agent.revoked"
  | AddAtJob => Some "at_job.created" | RemoveAtJob => Some "at_job.deleted" | Backup => Some "backup.created"
  | _ => None
  end.

(** The data is as it was; broker accounts may have been deleted. *)
Definition same_data (s s' : AdminState) : Prop :=
  ad_db s' = ad_db s /\ ad_at s' = ad_at s /\ ad_backups s' = ad_backups s.

(** One entry was added to the audit log. *)
Definition logged (action : string) (s s' : AdminState) : Prop :=
  exists row, t_audit (ad_db s') = (t_audit (ad_db s) ++ [row])%list /\ au_action row = action /\ au_actor row = "admin".

(** Refused with an error and without effect, or done and logged. *)
Definition outcome (action : string) (s : AdminState) (out : Response apiResponse * AdminState) : Prop :=
  let '(resp, s') := out in
  400 <= rp_Status resp /\ (exists e, rp_Body resp = Some (AdminError e)) /\ same_data s s' \/
  rp_Status resp < 300 /\ (exists r, rp_Body resp = Some (AdminOK r)) /\ logged action s s'.

(** Only read. *)
Definition readonly (m : State AdminState (Response apiResponse)) : Prop := forall s, snd (m s) = s.

Section acts.
Context (clk : nat -> Z).

Abbreviation M := (State AdminState (Response apiResponse)).

Definition acts (action : string) (m : M) : Prop := forall s, outcome action s (m s).
Definition finishes (action : string) (m : M) : Prop := forall s,
  rp_Status (fst (m s)) < 300 /\ (exists r, rp_Body (fst (m s)) = Some (AdminOK r)) /\ logged action s (snd (m s)).
Definition refuses (m : M) : Prop := forall s,
  400 <= rp_Status (fst (m s)) /\ (exists e, rp_Body (fst (m s)) = Some (AdminError e)) /\ snd (m s) = s.

Lemma outcome_from action s s1 out : same_data s s1 -> outcome action s1 out -> outcome action s out.
Proof.
  intros (Hd & Ha & Hb). destruct out as [resp s']. unfold outcome, same_data, logged. rewrite Hd, Ha, Hb. done.
Qed.

Lemma refuses_error code msg : 400 <= code -> refuses (writeError code msg).
Proof. intros Hc s. split; [done|]. split; [|done]. eexists. done. Qed.

Lemma acts_refuses action m : refuses m -> acts action m.
Proof.
  intros H s. destruct (H s) as (Hc & He & Hs). unfold outcome. destruct (m s) as [resp s']. cbn in *. subst s'.
  left. done.
Qed.

Lemma acts_error action code msg : 400 <= code -> acts action (writeError code msg).
Proof. intros. by apply acts_refuses, refuses_error. Qed.

Lemma acts_finishes action m : finishes action m -> acts action m.
Proof.
  intros H s. destruct (H s) as (Hc & He & Hl). unfold outcome. destruct (m s) as [resp s']. cbn in *.
  right. done.
Qed.

Lemma acts_body {A} action (dec : decoder A) zero r k :
  (forall x, acts action (k x)) -> acts action (with_body dec zero r k).
Proof.
  intros H. unfold with_body. destruct (rq_Body r); [|by apply acts_error].
  destruct (decode_stream _ _ _) as [x [e|]]; [by apply acts_error|apply H].
Qed.

Lemma acts_read {A} action (f : Db -> A) k : (forall x, acts action (k x)) -> acts action (sbind (read f) k).
Proof. intros H s. apply (H (f (ad_db s)) s). Qed.

Lemma acts_accounts action step m :
  (forall s, same_data s (snd (step s))) -> acts action m -> acts action (sbind step (fun _ : unit => m)).
Proof.
  intros Hs Hm s. unfold sbind. specialize (Hs s). destruct (step s) as [[] s1]. by apply (outcome_from _ _ s1).
Qed.

Lemma finishes_log action r target details code res : code < 300 ->
  finishes action (sbind (logAudit clk r action target details) (fun _ => writeJSON code (AdminOK res))).
Proof.
  intros Hc s. cbn. split; [done|]. split; [by eexists|]. eexists. split; [done|]. done.
Qed.

(** What comes after a change that does not touch the audit log. *)
Lemma finishes_from action m s s1 : finishes action m -> t_audit (ad_db s1) = t_audit (ad_db s) -> outcome action s (m s1).
Proof.
  intros H Ht. destruct (H s1) as (Hc & He & Hl). unfold outcome. destruct (m s1) as [resp s']. cbn in *.
  right. unfold logged in *. rewrite Ht in Hl. done.
Qed.

Lemma acts_db {A} action (f : Db -> result repo_error A * Db) k :
  store_op f -> (forall e, refuses (k (Err e))) -> (forall x, finishes action (k (Ok x))) ->
  acts action (sbind (on_db f) k).
Proof.
  intros Hf He Hk s. unfold sbind, on_db. specialize (Hf (ad_db s)).
  destruct (f (ad_db s)) as [[x|e] d].
  - by apply finishes_from.
  - subst d. replace (set_db (ad_db s) s) with s by (by destruct s). by apply acts_refuses.
Qed.

Lemma finishes_then action (step : State AdminState unit) m :
  (forall s, ad_db (snd (step s)) = ad_db s) -> finishes action m -> finishes action (sbind step (fun _ => m)).
Proof.
  intros Hs Hm s. unfold sbind. specialize (Hs s). destruct (step s) as [[] s1]. cbn in Hs.
  destruct (Hm s1) as (Hc & He & Hl). unfold logged in *. rewrite Hs in Hl. done.
Qed.

Lemma acts_write action f m :
  (forall d, t_audit (f d) = t_audit d) -> finishes action m -> acts action (sbind (write f) (fun _ : unit => m)).
Proof. intros Hf Hm s. unfold sbind, write, smodify. apply finishes_from; [done|apply Hf]. Qed.

Lemma sfor_same {A} (f : A -> State AdminState unit) l :
  (forall x s, same_data s (snd (f x s))) -> forall s, same_data s (snd (sfor f l s)).
Proof.
  intros Hf. induction l as [|x l IH]; intros s; [done|]. cbn.
  destruct (Hf x s) as (H1 & H2 & H3), (IH (snd (f x s))) as (G1 & G2 & G3).
  unfold same_data. by rewrite G1, G2, G3, H1, H2, H3.
Qed.
End acts.

(** The steps of a handler that is made of these. *)
Ltac acting :=
  repeat first
    [ apply acts_error; lia
    | apply refuses_error; lia
    | apply finishes_log; lia
    | apply acts_body; intros
    | apply acts_read; intros
    | apply acts_db; [auto with store|intros|intros]
    | apply acts_write; [intros; reflexivity|]
    | progress case_test ].

Section effects.
Context (clk : nat -> Z) (cfg : Config) (mgmt lists_queues : bool).
Context (agentHealth : option statuses) (heartbeatStore : option heartbeats).
Context (atMutator : bool) (sched_text : sched_error -> string).
Context (newID : string) (random : result string string) (ping : bool) (backup_error : option string).
Context (printable : Z -> bool).

Abbreviation handleR := (handle clk cfg mgmt lists_queues agentHealth heartbeatStore atMutator sched_text newID random
  ping backup_error printable).

Lemma delete_account_same u s : same_data s (snd (delete_account u s)).
Proof. done. Qed.

Lemma delete_user_acts r : acts "user.deleted" (handleDeleteUser clk mgmt r).
Proof.
  unfold handleDeleteUser. apply acts_accounts.
  - destruct mgmt; [|done]. intros s. unfold sbind, read, sget. apply sfor_same. intros a s'. by destruct (ag_RMQUsername a =? "")%string.
  - acting.
Qed.

Lemma delete_agent_acts r : acts "agent.deleted" (handleDeleteAgent clk mgmt printable r).
Proof.
  unfold handleDeleteAgent, with_agent. apply acts_read. intros [agent|e]; [|acting].
  apply acts_accounts; [intros s; by destruct (mgmt && _)|]. acting.
Qed.

Lemma backup_acts r : acts "backup.created" (handleBackup clk cfg backup_error printable r).
Proof.
  unfold handleBackup. case_test; [acting|]. destruct backup_error; [acting|]. intros s.
  unfold sbind at 1, smodify. apply finishes_from; [acting|done].
Qed.

(** The scheduler's refusal takes the stored job back. *)
Lemma schedule_acts r j s d :
  Sqlite.AddAtJob j (ad_db s) = (Ok tt, d) -> 
  outcome "at_job.created" s (schedule clk atMutator sched_text r j (set_db d s)).
Proof.
  intros Ha. pose proof (add_at_op j (ad_db s)) as Ht. rewrite Ha in Ht.
  unfold schedule. destruct atMutator; [|apply finishes_from; [acting|done]].
  unfold sbind at 1, on_at. cbn [ad_at set_db].
  destruct (Scheduler.AddAtJob j (clk 1) (ad_at s)) as [[[]|e] t] eqn:Es; [apply finishes_from; [acting|done]|].
  assert (t = ad_at s) as ->.
  { revert Es. unfold Scheduler.AddAtJob. destruct (job_complete j); cbn [negb]; [|by intros [= _ <-]].
    destruct (parse_rfc3339 _) as [runAt|]; [|by intros [= _ <-]]. destruct (time_before runAt _); [by intros [= _ <-]|].
    destruct (_ !! _); [by intros [= _ <-]|done]. }
  unfold Sqlite.AddAtJob, store_jobs in Ha. destruct (add_job _ _ _ _) as [t|] eqn:Ea; [|done]. injection Ha as <-.
  apply (job_rollback _ "at job") in Ea as (-> & _ & Hr).
  unfold sbind, on_db, Sqlite.RemoveAtJob. cbn [ad_db set_db set_at Sqlite.set_at t_at]. rewrite Hr. cbn. left.
  split; [lia|]. split; [by eexists|]. split; [|done]. cbn. by destruct (ad_db s).
Qed.

Lemma add_at_acts r : acts "at_job.created" (handleAddAtJob clk atMutator sched_text r).
Proof.
  unfold handleAddAtJob. apply acts_body. intros j. destruct (_ || _)%bool; [acting|]. destruct (_ =? _)%string; [acting|].
  destruct (parse_rfc3339 _); [|acting]. intros s. unfold sbind, on_db.
  pose proof (add_at_op j (ad_db s)) as Hf. pose proof (schedule_acts r j s) as Hs.
  destruct (Sqlite.AddAtJob j (ad_db s)) as [[[]|e] d].
  - by apply Hs.
  - subst d. replace (set_db (ad_db s) s) with s by (by destruct s). by apply acts_error.
Qed.

Lemma remove_at_acts r : acts "at_job.deleted" (handleRemoveAtJob clk atMutator r).
Proof.
  unfold handleRemoveAtJob. destruct (_ || _)%bool; [acting|]. apply acts_db; [auto with store|intros; acting|]. intros _.
  apply finishes_then; [|acting]. intros s. destruct atMutator; [|done]. unfold sbind, on_at.
  by destruct (Scheduler.RemoveAtJob _ _ _).
Qed.

Lemma mutating_acts op action r : action_of op = Some action -> acts action (handleR op r).
Proof.
  destruct op; intros [= <-]; cbn [handle].
  - unfold handleCreateUser. acting.
  - unfold handleUpdateUser. acting.
  - apply delete_user_acts.
  - unfold handleAddIdentity. apply acts_body. intros x. destruct (_ || _)%bool; acting.
  - unfold handleRemoveIdentity. destruct (parse_int64 _); acting.
  - unfold handleAddAllowlist. apply acts_body. intros x. destruct (_ || _)%bool; acting.
  - unfold handleUpdateAllowlist. acting.
  - unfold handleRemoveAllowlist. acting.
  - unfold handleSetPolicy. acting.
  - unfold handleDeletePolicy. acting.
  - unfold handleProvisionAgent. apply acts_body. intros x. repeat (case_test; [acting|]). apply acts_read.
    intros [u|e]; [|acting]. destruct (generateToken random); acting.
  - apply delete_agent_acts.
  - unfold handleRotateAgentToken, with_agent. apply acts_read. intros [a|e]; [|acting].
    destruct (generateToken random); acting.
  - unfold handleRevokeAgent, with_agent. apply acts_read. intros [a|e]; acting.
  - apply add_at_acts.
  - apply remove_at_acts.
  - apply backup_acts.
Qed.

Lemma reading_same op r s : action_of op = None -> snd (handleR op r s) = s.
Proof.
  destruct op; intros [=]; cbn [handle]; try done.
  - unfold handleGetUser, sbind, read, sget. by destruct (Sqlite.GetUser _ _).
  - unfold handleGetAgent, with_agent, sbind, read, sget. by destruct (Sqlite.GetAgent _ _).
  - unfold handleListCronJobsByUser, by_user. by destruct (_ =? _)%string.
  - unfold handleListAtJobsByUser, by_user. by destruct (_ =? _)%string.
  - unfold handleQueryAudit. destruct (query_time r "since"); [|done]. by destruct (query_time r "until").
  - unfold handleConfig. destruct (json_encodable _); [|done]. by destruct (redactConfig _).
Qed.

(** C7: an operation of the administration API that only reads changes nothing;
    any other either answers with an error and leaves the data, the schedule and
    the backups as they were, or succeeds and adds exactly one entry of its action
    to the audit log. *)
Theorem admin_audited op r s :
  let '(resp, s') := handleR op r s in
  match action_of op with
  | None => s' = s
  | Some action =>
      400 <= rp_Status resp /\ (exists e, rp_Body resp = Some (AdminError e)) /\ same_data s s' \/
      rp_Status resp < 300 /\ (exists r, rp_Body resp = Some (AdminOK r)) /\ logged action s s'
  end.
Proof.
  destruct (action_of op) as [action|] eqn:Ea.
  - pose proof (mutating_acts op action r Ea s) as H. unfold outcome in H. by destruct (handleR op r s).
  - pose proof (reading_same op r s Ea) as H. by destruct (handleR op r s).
Qed.

Abbreviation serveR := (serve clk cfg mgmt lists_queues agentHealth heartbeatStore atMutator sched_text newID random
  ping backup_error printable).

(** with authentication a request does what its handler does when its
    Authorization header is exactly "Bearer " and the configured token; any other
    request gets 401 and changes nothing. *)
Lemma admin_authenticated op r s : AdminAuth_Enabled (Admin_Auth (Gateway_Admin (Cfg_Gateway cfg))) = true ->
  serveR op r s =
  if (header_get (rq_Header r) "Authorization"
      =? "Bearer " +:+ AdminAuth_Token (Admin_Auth (Gateway_Admin (Cfg_Gateway cfg))))%string
  then handleR op r s
  else (Build_Response 401 (Some (AdminError "unauthorized")), s).
Proof.
  intros He. unfold serve, authMiddleware. rewrite He. set (h := header_get _ _). set (t := AdminAuth_Token _).
  destruct (String.eqb_spec h ("Bearer " +:+ t)) as [Hh|Hh].
  - rewrite Hh, strip_prefix_app, String.eqb_refl. done.
  - destruct (strip_prefix "Bearer " h) as [given|] eqn:E; [|done]. apply strip_prefix_Some in E.
    destruct (String.eqb_spec given t) as [->|]; done.
Qed.
End effects.

(** ** The configuration view *)

(** Nothing in a value is replaced. *)
Fixpoint nothing_secret (v : jsonv) : bool :=
  match v with
  | JObject m =>
      forallb (fun kv => if is_secret (fst kv) then match snd kv with JString s => (s =? "")%string | _ => true end
                         else nothing_secret (snd kv)) m
  | JArray l => forallb nothing_secret l
  | _ => true
  end.

#[local] Arguments is_secret : simpl never.

(** What becomes of a member that is not a secret. *)
Definition redact_member (v : jsonv) : jsonv :=
  match v with
  | JObject _ => redactConfig v
  | JArray items => JArray (map (fun item => match item with JObject _ => redactConfig item | _ => item end) items)
  | _ => v
  end.

Lemma redact_nothing v : nothing_secret v = true -> redactConfig v = v /\ redact_member v = v.
Proof.
  induction v as [| | | |l IH|m IH] using jsonv_deep_ind; try done; intros H; cbn in H; rewrite forallb_forall in H;
    rewrite List.Forall_forall in IH.
  - split; [done|]. cbn. f_equal. rewrite <- (map_id l) at 2. apply map_ext_in.
    intros [] Hin; try done. by apply (IH _ Hin), H.
  - assert (Hr : redactConfig (JObject m) = JObject m); [|by split]. cbn. f_equal.
    rewrite <- (map_id m) at 2. apply map_ext_in. intros [k v] Hin. specialize (H _ Hin). specialize (IH _ Hin). cbn in H, IH.
    f_equal. destruct (is_secret k); [destruct v; try done; by rewrite H|]. by apply IH.
Qed.

Lemma map_nothing {A} (f : A -> jsonv) l : (forall x, nothing_secret (f x) = true) -> nothing_secret (json_slice f l) = true.
Proof.
  intros H. unfold json_slice. destruct l as [|x l]; [done|]. cbn. rewrite H. cbn. induction l as [|y l IH]; [done|].
  cbn. by rewrite H.
Qed.

Lemma json_map_nothing {A} (f : A -> jsonv) l :
  (forall kv, In kv l -> (if is_secret (fst kv) then match f (snd kv) with JString s => (s =? "")%string | _ => true end
                          else nothing_secret (f (snd kv))) = true) ->
  nothing_secret (json_map f l) = true.
Proof.
  intros H. unfold json_map. destruct l as [|x l]; [done|]. cbn [nothing_secret]. apply forallb_forall.
  intros kv Hin. apply in_map_iff in Hin as (y & <- & Hy). apply order_by_In in Hy. cbn [fst snd]. by apply H.
Qed.

(** The members with literal names. *)
Ltac known_keys :=
  cbn [nothing_secret forallb fst snd app];
  repeat match goal with |- context [is_secret ?k] =>
    let b := eval vm_compute in (is_secret k) in change (is_secret k) with b end;
  cbn [nothing_secret json_int andb].

(** The secrets of a loaded configuration are members with other names than the
    ones that are looked for: those of the fields of the structs. *)
Lemma config_nothing cfg : Forall (fun kv => is_secret (fst kv) = false) (Cfg_RawSecretFields cfg) ->
  nothing_secret (json_Config cfg) = true.
Proof.
  intros Hraw. 
  assert (H1 : nothing_secret (json_map JString (Cfg_RawSecretFields cfg)) = true).
  { apply json_map_nothing. intros kv Hin. rewrite List.Forall_forall in Hraw. by rewrite (Hraw kv Hin). }
  assert (H4 : forall l, nothing_secret (json_slice JString l) = true) by (intros l; by apply map_nothing).
  assert (H2 : nothing_secret (json_map json_ChannelQueueMode (Queue_PerChannel (Cfg_Queue cfg))) = true).
  { apply json_map_nothing. intros kv _. cbn. by destruct (is_secret _). }
  assert (H3 : nothing_secret (json_slice json_job (CronChannel_Jobs (Channels_Cron (Cfg_Channels cfg)))) = true).
  { apply map_nothing. intros j. unfold json_job. destruct (jb_NotifyChannels j); known_keys; [done|]. by rewrite H4. }
  unfold json_Config, json_ObservabilityConfig, json_SanitizerConfig, json_TelemetryConfig, json_MetricsConfig,
    json_TracingConfig, json_DatastoreConfig, json_BackupConfig, json_SecurityConfig, json_ToolsConfig,
    json_ToolPolicy, json_RateLimitConfig, json_PerUserRateLimit, json_AgentsConfig, json_RMQManagementConfig,
    json_AgentRegistrationConfig, json_QueueConfig, json_QueueRabbitMQConfig, json_ChannelsConfig,
    json_RabbitMQChannelConfig, json_RabbitMQChanConfig, json_MQTTChannelConfig, json_MQTTConfig, json_ReconnectConfig,
    json_CronChannelConfig, json_SlackChannelConfig, json_SlackConfig, json_WhatsAppChannelConfig, json_WhatsAppConfig,
    json_S3DefaultConfig, json_DeliveryOptions, json_GatewayConfig, json_AdminConfig, json_AdminAuthConfig.
  known_keys. rewrite ?H1, ?H2, ?H3, ?H4. done.
Qed.


Section view.
Context (env : string -> option string) (read : string -> option read_error) (exists_file : string -> bool)
        (merge : string -> option string) (unmarshal : string -> bool -> result string Config).

(** the configuration the administration API shows is the gateway's own, with
    every secret of it: the names that are redacted are those of the file's
    members, and the encoded structs' members are named like their fields. *)
Lemma config_not_redacted path cfg r s : Load env read exists_file merge unmarshal path = Ok cfg ->
  json_encodable (json_Config cfg) = true ->
  exists m, handleConfig cfg r s = (Build_Response 200 (Some (AdminOK (RMap m))), s) /\ JObject m = json_Config cfg.
Proof.
  intros (c & Hl)%Load_Ok Henc. apply finish_Ok in Hl as [Hc _]. unfold handleConfig. rewrite Henc.
  rewrite (proj1 (redact_nothing (json_Config cfg) ltac:(apply config_nothing; rewrite Hc; repeat constructor))).
  eexists. by split.
Qed.
End view.

(** A text is somewhere in a value. *)
Fixpoint shows (t : string) (v : jsonv) : bool :=
  match v with
  | JString s => (s =? t)%string
  | JArray l => existsb (shows t) l
  | JObject m => existsb (fun kv => shows t (snd kv)) m
  | _ => false
  end.

(** The channel's token is shown. *)
Example demo_config_view :
  match demo_loaded with
  | Ok cfg => match rp_Body (fst (handleConfig cfg demo_request (Build_AdminState empty_db NewAt [] []))) with
              | Some (AdminOK (RMap m)) => shows "tok-${HOME}" (JObject m)
              | _ => false
              end
  | Err _ => false
  end = true.
Proof. vm_compute. reflexivity. Qed.

Lemma config_not_redacted_witness :
  match demo_loaded with
  | Ok cfg => exists m, handleConfig cfg demo_request (Build_AdminState empty_db NewAt [] [])
                        = (Build_Response 200 (Some (AdminOK (RMap m))), Build_AdminState empty_db NewAt [] [])
  | Err _ => False
  end.
Proof.
  destruct demo_loaded as [cfg|e] eqn:E; [|vm_compute in E; discriminate].
  assert (H : match demo_loaded with Ok c => json_encodable (json_Config c) | Err _ => false end = true)
    by (vm_compute; reflexivity).
  rewrite E in H.
  destruct (config_not_redacted _ _ _ _ _ _ cfg demo_request (Build_AdminState empty_db NewAt [] []) E H) as (m & Hm & _).
  exists m. exact Hm.
Defined.

(** The names in the file's spelling are the ones that are redacted, except in
    lists of lists; a secret member that is not a text is kept whole. *)
Example redact_demo :
  redactConfig (JObject [("bot_token", JString "xoxb"); ("token", JObject [("password", JString "p")]);
                         ("servers", JArray [JObject [("password", JString "p")]; JArray [JObject [("password", JString "p")]]])])
  = JObject [("bot_token", JString "[REDACTED]"); ("token", JObject [("password", JString "p")]);
             ("servers", JArray [JObject [("password", JString "[REDACTED]")]; JArray [JObject [("password", JString "p")]]])].
Proof. vm_compute. reflexivity. Qed.

(** ** Tokens *)

Definition base62_value (c : ascii) : Z :=
  match last_index c base62Chars with Some i => Z.of_nat i | None => 0 end.
Definition decodeBase62 (s : string) : Z := fold_left (fun n c => 62 * n + base62_value c) (list_ascii_of_string s) 0.

Lemma base62_digit_value n : 0 <= n < 62 -> base62_value (base62_digit n) = n.
Proof.
  intros Hn. assert (H : forallb (fun n => base62_value (base62_digit (Z.of_nat n)) =? Z.of_nat n) (seq 0 62) = true)
    by (vm_compute; reflexivity).
  rewrite forallb_forall in H. specialize (H (Z.to_nat n)). rewrite Z2Nat.id in H by lia. apply Z.eqb_eq, H.
  apply in_seq. lia.
Qed.

Lemma length_list_ascii_of_string s : length (list_ascii_of_string s) = String.length s.
Proof. induction s as [|c s IH]; [done|]. simpl. by rewrite IH. Qed.

Lemma byte_range c : 0 <= byte_of c < 256.
Proof.
  unfold byte_of. pose proof (N_ascii_bounded c). lia.
Qed.

Lemma fold_digits b (f : ascii -> Z) l : forall n,
  fold_left (fun n c => b * n + f c) l n = n * b ^ Z.of_nat (length l) + fold_left (fun n c => b * n + f c) l 0.
Proof.
  induction l as [|c l IH]; intros n; [simpl; lia|]. cbn [fold_left length]. rewrite IH, (IH (b * 0 + f c)).
  rewrite Nat2Z.inj_succ, Z.pow_succ_r by lia. ring.
Qed.

Lemma base62_loop_value fuel : forall n acc, 0 <= n < 62 ^ Z.of_nat fuel ->
  decodeBase62 (base62_loop fuel n acc)
  = n * 62 ^ Z.of_nat (String.length acc) + decodeBase62 acc.
Proof.
  induction fuel as [|fuel IH]; intros n acc Hn; [simpl in *; lia|]. cbn [base62_loop].
  destruct (Z.ltb_spec 0 n); [|replace n with 0 by lia; lia].
  pose proof (Z.div_mod n 62 ltac:(lia)) as Hd. pose proof (Z.mod_pos_bound n 62 ltac:(lia)) as Hm.
  rewrite Nat2Z.inj_succ, Z.pow_succ_r in Hn by lia. rewrite IH.
  - cbn [String.length]. rewrite Nat2Z.inj_succ, Z.pow_succ_r by lia. unfold decodeBase62.
    cbn [list_ascii_of_string fold_left]. rewrite (fold_digits _ _ _ (62 * 0 + _)), base62_digit_value by lia.
    rewrite length_list_ascii_of_string. nia.
  - split; [apply Z.div_pos; lia|]. apply Z.div_lt_upper_bound; lia.
Qed.

Lemma big_of_bytes_bound data : 0 <= big_of_bytes data < 256 ^ Z.of_nat (String.length data).
Proof.
  unfold big_of_bytes. induction data as [|c data IH]; [simpl; lia|]. cbn [list_ascii_of_string fold_left String.length].
  rewrite fold_digits, length_list_ascii_of_string, Nat2Z.inj_succ, Z.pow_succ_r by lia.
  pose proof (byte_range c). nia.
Qed.

Lemma byte_of_inj a b : byte_of a = byte_of b -> a = b.
Proof.
  unfold byte_of. intros H. rewrite <- (ascii_N_embedding a), <- (ascii_N_embedding b). f_equal. lia.
Qed.

(** Texts of one length are determined by their numbers. *)
Lemma big_of_bytes_inj a : forall b, String.length a = String.length b -> big_of_bytes a = big_of_bytes b -> a = b.
Proof.
  induction a as [|c a IH]; intros [|d b] Hl H; simpl in Hl; try lia; [done|]. injection Hl as Hl.
  unfold big_of_bytes in H. cbn [list_ascii_of_string fold_left] in H.
  rewrite (fold_digits _ _ _ (256 * 0 + byte_of c)), (fold_digits _ _ _ (256 * 0 + byte_of d)) in H.
  rewrite !length_list_ascii_of_string, Hl in H.
  pose proof (big_of_bytes_bound a) as Ha. pose proof (big_of_bytes_bound b) as Hb. unfold big_of_bytes in Ha, Hb.
  rewrite Hl in Ha. set (p := 256 ^ Z.of_nat (String.length b)) in *.
  set (x := fold_left _ (list_ascii_of_string a) 0) in *. set (y := fold_left _ (list_ascii_of_string b) 0) in *.
  destruct (Z.div_mod_unique p (byte_of c) (byte_of d) x y) as [Hc Hxy]; [by left|by left|lia|].
  f_equal; [by apply byte_of_inj|]. by apply IH.
Qed.

Lemma decode_encode data : decodeBase62 (encodeBase62 data) = big_of_bytes data.
Proof.
  unfold encodeBase62. rewrite base62_loop_value; [cbn; lia|]. pose proof (big_of_bytes_bound data) as [H1 H2].
  split; [done|]. eapply Z.lt_le_trans; [exact H2|]. rewrite Nat2Z.inj_mul, Z.pow_mul_r by lia.
  apply Z.pow_le_mono_l. lia.
Qed.

Lemma base62_loop_chars fuel : forall n acc, 0 <= n ->
  str_forall (fun c => existsb (Ascii.eqb c) (list_ascii_of_string base62Chars)) acc = true ->
  str_forall (fun c => existsb (Ascii.eqb c) (list_ascii_of_string base62Chars)) (base62_loop fuel n acc) = true.
Proof.
  induction fuel as [|fuel IH]; intros n acc Hn H; [done|]. cbn [base62_loop]. destruct (0 <? n); [|done].
  apply IH; [apply Z.div_pos; lia|]. cbn [str_forall]. rewrite H, andb_true_r.
  pose proof (Z.mod_pos_bound n 62 ltac:(lia)) as Hm. revert Hm. generalize (n mod 62). intros m Hm.
  assert (Hc : forallb (fun n => existsb (Ascii.eqb (base62_digit (Z.of_nat n))) (list_ascii_of_string base62Chars)) (seq 0 62) = true)
    by (vm_compute; reflexivity).
  rewrite forallb_forall in Hc. specialize (Hc (Z.to_nat m)). rewrite Z2Nat.id in Hc by lia. apply Hc, in_seq. lia.
Qed.

Lemma prefix_ok p : has_prefix p (if (8 <=? String.length p)%nat then str_take 8 p else p) = true.
Proof.
  apply has_prefix_iff. destruct (8 <=? String.length p)%nat.
  - exists (str_drop 8 p). exact (eq_sym (str_take_drop 8 p)).
  - exists "". by rewrite str_app_nil_r.
Qed.

(** a token is the prefix "npr_" and letters and digits that are the base-62
    numeral of its random bytes, so two tokens made of as many bytes are equal only
    when their bytes are; what is stored is its hash and its first eight bytes. *)
Lemma token_faithful raw t : generateToken (Ok raw) = Ok t ->
  (exists body, tk_plaintext t = "npr_" +:+ body /\ decodeBase62 body = big_of_bytes raw /\
     str_forall (fun c => existsb (Ascii.eqb c) (list_ascii_of_string base62Chars)) body = true) /\
  tk_hash t = hashToken (tk_plaintext t) /\ has_prefix (tk_plaintext t) (tk_prefix t) = true /\
  forall raw' t', generateToken (Ok raw') = Ok t' -> String.length raw' = String.length raw ->
    tk_plaintext t' = tk_plaintext t -> raw' = raw.
Proof.
  intros [= <-]. cbn [tk_plaintext tk_hash tk_prefix]. split_and!.
  - eexists. split; [done|]. split; [apply decode_encode|]. apply base62_loop_chars; [apply big_of_bytes_bound|done].
  - done.
  - exact (prefix_ok (tokenPrefix +:+ encodeBase62 raw)).
  - intros raw' t' [= <-] Hl H. cbn [tk_plaintext] in H. injection H as H.
    apply big_of_bytes_inj; [done|]. by rewrite <- !decode_encode, H.
Qed.

Lemma token_faithful_witness : exists t,
  generateToken (Ok "random bytes") = Ok t /\ tk_hash t = hashToken (tk_plaintext t).
Proof. eexists. split; [reflexivity|]. exact (proj1 (proj2 (token_faithful "random bytes" _ eq_refl))). Defined.

(** ** Rotation *)

Section rotation.
Context (clk : nat -> Z) (printable : Z -> bool) (raw : string).

Lemma rotate_db r s : forall agent t, Sqlite.GetAgent (rq_PathValue r "agentId") (ad_db s) = Ok agent ->
  generateToken (Ok raw) = Ok t ->
  t_agents (ad_db (snd (handleRotateAgentToken clk (Ok raw) printable r s)))
  = t_agents (Sqlite.RotateAgentToken (clk 0%nat) (rq_PathValue r "agentId") (tk_hash t) (tk_prefix t) (ad_db s)).
Proof.
  intros agent t Hg Ht. unfold handleRotateAgentToken, with_agent, sbind, read, sget. rewrite Hg, Ht. done.
Qed.

(** after a token was rotated the new token is the agent's, unless another
    agent has its hash, and none of the agent's old hashes finds the agent. *)
Lemma rotation_switches r s agent t :
  Sqlite.GetAgent (rq_PathValue r "agentId") (ad_db s) = Ok agent -> generateToken (Ok raw) = Ok t ->
  (forall row, In row (t_agents (ad_db s)) -> gr_hash row <> hashToken (tk_plaintext t)) ->
  let d' := ad_db (snd (handleRotateAgentToken clk (Ok raw) printable r s)) in
  (exists agent', GetAgentByTokenHash (hashToken (tk_plaintext t)) d' = Ok agent' /\ ag_ID agent' = ag_ID agent) /\
  forall row agent', In row (t_agents (ad_db s)) -> gr_id row = ag_ID agent ->
    GetAgentByTokenHash (gr_hash row) d' = Ok agent' -> ag_ID agent' <> ag_ID agent.
Proof.
  intros Hg Ht Hfresh d'. pose proof (rotate_db r s agent t Hg Ht) as Hd. fold d' in Hd.
  assert (Hh : tk_hash t = hashToken (tk_plaintext t)) by (by injection Ht as <-). rewrite Hh in Hd.
  unfold Sqlite.GetAgent in Hg. destruct (List.find _ _) as [row0|] eqn:Ef; [|done]. injection Hg as <-.
  apply List.find_some in Ef as [Hin0 Hid0%String.eqb_eq]. cbn [scanAgent ag_ID]. rewrite Hid0.
  set (id := rq_PathValue r "agentId") in *. set (h := hashToken (tk_plaintext t)) in *.
  unfold Sqlite.RotateAgentToken, update_agent in Hd. cbn [set_agents t_agents] in Hd.
  assert (Hnew : forall row', In row' (t_agents d') -> gr_hash row' = h <-> gr_id row' = id).
  { intros row' Hin. rewrite Hd in Hin. apply in_map_iff in Hin as (x & <- & Hx). specialize (Hfresh x Hx).
    destruct (String.eqb_spec (gr_id x) id) as [Hi|Hi]; cbn; naive_solver. }
  split.
  - unfold GetAgentByTokenHash. destruct (List.find _ (t_agents d')) as [row'|] eqn:Ef.
    + apply List.find_some in Ef as [Hin Hh'%String.eqb_eq]. eexists. split; [done|]. by apply Hnew.
    + exfalso. rewrite Hd in Ef. apply List.find_none with (x := Build_agent_row (gr_id row0) (gr_user row0) (gr_label row0) h
        (tk_prefix t) (gr_rmq row0) (gr_status row0) (gr_last_at row0) (gr_last_ip row0) (gr_created row0)
        (format_nano (clk 0%nat))) in Ef; [cbn in Ef; by rewrite String.eqb_refl in Ef|].
      apply in_map_iff. exists row0. split; [|done]. by rewrite Hid0, String.eqb_refl.
  - intros row agent' Hin Hid (row' & Hin' & Hh' & ->)%GetAgentByTokenHash_row. cbn. intros Hid'.
    apply (Hnew row' Hin') in Hid'. apply (Hfresh row Hin). congruence.
Qed.
End rotation.

(** ** An operator's session *)

Definition demo_admin_cfg : Config := match demo_loaded with Ok c => c | Err _ => zero_Config end.

Definition admin_request (vars : list (string * string)) (body auth : string) : Request :=
  Build_Request "POST" {[ "Authorization" := [auth] ]} (Some body) "127.0.0.1:4000"
    (fun n => match List.find (fun kv => (fst kv =? n)%string) vars with Some (_, v) => v | None => "" end) (fun _ => "").

Definition demo_serve (op : admin_op) (r : Request) (s : AdminState) : Response apiResponse * AdminState :=
  serve (fun n => Z.of_nat n) demo_admin_cfg true true None None true (fun _ => "") "u2" (Ok "new random bytes") true None
    (fun _ => true) op r s.

Definition demo_admin_state : AdminState :=
  Build_AdminState (snd (sql_AddIdentity 1 "u1" "slack" "U77" demo_agents)) NewAt [] [].

Lemma admin_authenticated_witness :
  fst (demo_serve RevokeAgent (admin_request [("agentId", "agt-u1-home")] "" "Bearer wrong") demo_admin_state)
  = Build_Response 401 (Some (AdminError "unauthorized")).
Proof.
  unfold demo_serve. rewrite admin_authenticated by (vm_compute; reflexivity). vm_compute. reflexivity.
Defined.

Lemma rotation_switches_witness :
  exists agent, GetAgentByTokenHash (hashToken ("npr_" +:+ encodeBase62 "new random bytes"))
    (ad_db (snd (handleRotateAgentToken (fun n => Z.of_nat n) (Ok "new random bytes") (fun _ => true)
       (admin_request [("agentId", "agt-u1-home")] "" "") demo_admin_state))) = Ok agent.
Proof.
  edestruct (rotation_switches (fun n => Z.of_nat n) (fun _ => true) "new random bytes"
    (admin_request [("agentId", "agt-u1-home")] "" "") demo_admin_state) as [(agent & Ha & _) _].
  - vm_compute. reflexivity.
  - reflexivity.
  - intros row [<-|[]]. vm_compute. discriminate.
  - exists agent. exact Ha.
Defined.

Definition admin_step (s : AdminState) (opr : admin_op * Request) : AdminState := snd (demo_serve (fst opr) (snd opr) s).

(** Another user's identity is removed under the first one's name; a revoked
    agent keeps its account at the broker; the details of a job's entry are not
    escaped. *)
Example demo_admin_session :
  let auth := "Bearer ${ADMIN_TOKEN}" in
  let s := fold_left admin_step
    [(CreateUser, admin_request [] (json_text "{'name':'Bo'}") auth);
     (RemoveIdentity, admin_request [("userId", "u2"); ("id", "1")] "" auth);
     (RevokeAgent, admin_request [("agentId", "agt-u1-home")] "" auth);
     (AddAtJob, admin_request []
        (json_text "{'user_id':'u1','id':'a\',\'b\':\'c','run_at':'2030-01-01T00:00:00Z','prompt':'hi'}") auth)]
    demo_admin_state in
  (map (fun row => (au_action row, au_target row)) (t_audit (ad_db s)), t_identities (ad_db s), ad_deleted s)
  = ([("user.created", "u2"); ("identity.removed", "u2"); ("agent.revoked", "u1"); ("at_job.created", "u1")], [], [])
  /\ map au_details (t_audit (ad_db s))
     = map json_text ["{'user_id':'u2'}"; "{'identity_id':1}"; "{'agent_id':'agt-u1-home'}"; "{'job_id':'a','b':'c'}"].
Proof. vm_compute. done. Qed.
