(* ===== verification/ConfigDump.v ===== *)
(** * The configuration templates (internal/config/dump.go)

    The configurations the command line writes for a new gateway and a new agent,
    and what loading them gives: the gateway's is accepted whatever the
    environment, but not by its own administration server. *)
From Stdlib Require Import ZArith Lia Bool Ascii String List.
From stdpp Require Import base strings option list.
From S2P Require Import Prelude GoString GoFloat Models Config ConfigLoad AgentConfig Admin.

Local Open Scope string_scope.
Local Open Scope Z_scope.

(** [DumpGatewayConfig] before it is encoded; an empty list is nil here. *)
Definition gateway_template : Config := {|
  Cfg_Gateway := {|
    Gateway_Bind := "0.0.0.0"; Gateway_Port := 18789; Gateway_BaseURL := "https://nipper.example.com";
    Gateway_ReadTimeoutSeconds := 30; Gateway_WriteTimeoutSeconds := 30;
    Gateway_Admin := {|
      Admin_Enabled := true; Admin_Bind := "0.0.0.0"; Admin_Port := 18790;
      Admin_Auth := Build_AdminAuthConfig false "${ADMIN_API_TOKEN}" |} |};
  Cfg_Channels := {|
    Channels_WhatsApp := zero_WhatsAppChannelConfig;
    Channels_Slack := zero_SlackChannelConfig;
    Channels_Cron := Build_CronChannelConfig true "" [];
    Channels_MQTT := zero_MQTTChannelConfig;
    Channels_RabbitMQ := zero_RabbitMQChannelConfig |};
  Cfg_Queue := {|
    Queue_Transport := "rabbitmq";
    Queue_RabbitMQ := {|
      QueueRabbitMQ_URL := "amqp://rabbitmq:5672"; QueueRabbitMQ_Username := "${RABBITMQ_USERNAME}";
      QueueRabbitMQ_Password := "${RABBITMQ_PASSWORD}"; QueueRabbitMQ_VHost := "/nipper";
      QueueRabbitMQ_Heartbeat := 60; QueueRabbitMQ_Reconnect := Build_ReconnectConfig true 1000 30000 |};
    Queue_DefaultMode := "steer"; Queue_PerChannel := [] |};
  Cfg_Agents := {|
    Agents_HealthCheckIntervalSeconds := 30; Agents_ConsumerTimeoutSeconds := 60;
    Agents_Registration := Build_AgentRegistrationConfig true 10 true;
    Agents_RabbitMQManagement :=
      Build_RMQManagementConfig "http://rabbitmq:15672" "${RABBITMQ_MGMT_USERNAME}" "${RABBITMQ_MGMT_PASSWORD}" |};
  Cfg_Security := {|
    Security_RateLimit := Build_RateLimitConfig (Build_PerUserRateLimit 20 200);
    Security_Tools := Build_ToolsConfig (Build_ToolPolicy [] []) |};
  Cfg_Datastore := {|
    Datastore_Path := "/data/nipper.db"; Datastore_WALMode := true; Datastore_BusyTimeoutMS := 5000;
    Datastore_Backup := Build_BackupConfig true "0 2 * * *" 30 "/data/backups/" |};
  Cfg_Telemetry := {|
    Telemetry_Tracing := Build_TracingConfig false "otlp" "http" "${OTEL_EXPORTER_OTLP_ENDPOINT}" "" "nipper-gateway" (f_of_int 1);
    Telemetry_Metrics := Build_MetricsConfig true "prometheus" 9090 "" |};
  Cfg_Observability := Build_ObservabilityConfig true (Build_SanitizerConfig true true true);
  Cfg_RawSecretFields := [] |}.

(** [DumpAgentConfig]. *)
Definition agent_template : AgentFileConfig := {|
  AgentFile_Agent := {|
    AgentRuntime_BasePath := "/data";
    AgentRuntime_Inference :=
      Build_InferenceConfig "openai" "gpt-4o" "${INFERENCE_BASE_URL}" "${OPENAI_API_KEY}" (f_const 7 (-1)) 0
        float_zero 120 0 false [] false;
    AgentRuntime_Sandbox :=
      Build_SandboxConfig true "ubuntu:noble" "/workspace" 2048 (f_of_int 2) 120 true []
        ["DEBIAN_FRONTEND=noninteractive"] "" false [];
    AgentRuntime_Prompt := Build_PromptConfig "You are a helpful assistant." "auto" "" 60 20;
    AgentRuntime_Tools :=
      Build_AgentToolsConfig true true true false false true
        (Build_WebSearchConfig (Build_WebSearchEngineGoogle false "" "") (Build_WebSearchEngineDuckDuckGo true));
    AgentRuntime_S3 := zero_S3DefaultConfig;
    AgentRuntime_MCP :=
      [{| MCPServer_Name := "example-sse"; MCPServer_Transport := "sse"; MCPServer_Command := ""; MCPServer_Args := [];
          MCPServer_URL := "https://mcp.example.com/sse"; MCPServer_Env := []; MCPServer_Headers := [];
          MCPServer_KeepAliveSeconds := 30;
          MCPServer_Auth := Some (Build_MCPAuthConfig "oidc" "" "${OAUTH_CLIENT_ID}" "" ["openid"; "email"]
                                    "https://accounts.google.com" "" "" "" "") |}];
    AgentRuntime_MediaEnrichment := zero_MediaEnrichmentConfig;
    AgentRuntime_MaxSteps := 25;
    AgentRuntime_Secrets := Build_SecretsConfig [];
    AgentRuntime_HeartbeatIntervalSeconds := 1;
    AgentRuntime_Skills := Build_SkillsConfig false "";
    AgentRuntime_Embeddings := zero_EmbeddingsConfig |};
  AgentFile_Telemetry := {|
    Telemetry_Tracing := Build_TracingConfig false "otlp" "http" "${OTEL_EXPORTER_OTLP_ENDPOINT}" "" "nipper-agent" (f_of_int 1);
    Telemetry_Metrics := Build_MetricsConfig true "prometheus" 9091 "" |} |}.

(** The gateway's template is accepted in any environment; its administration
    server does not start where listening on every address gives a host other
    than the local one. *)
Lemma template_loads env listen host :
  listen "0.0.0.0:18790" = Ok host -> host <> "127.0.0.1" -> host <> "::1" ->
  exists cfg, finish env gateway_template = Ok cfg /\
    Start listen cfg = Some ("admin server must bind to 127.0.0.1, got " +:+ host).
Proof.
  intros Hl H1 H2. eexists. split; [reflexivity|]. unfold Start. cbn [Cfg_Gateway Gateway_Admin resolveEnvPlaceholders].
  change (Admin_Bind _ +:+ ":" +:+ fmt_d _) with "0.0.0.0:18790". rewrite Hl.
  apply String.eqb_neq in H1, H2. by rewrite H1, H2.
Qed.

(** A quality of service of 0 and a sample rate of 0 cannot be asked for. *)
Example zeros_replaced env :
  match finish env (Build_Config (Cfg_Gateway gateway_template)
    (Build_ChannelsConfig zero_WhatsAppChannelConfig zero_SlackChannelConfig zero_CronChannelConfig
       (Build_MQTTChannelConfig true (Build_MQTTConfig "tcp://b" "" "" "" "" 0 false 0 zero_ReconnectConfig))
       zero_RabbitMQChannelConfig)
    (Cfg_Queue gateway_template) (Cfg_Agents gateway_template) (Cfg_Security gateway_template)
    (Cfg_Datastore gateway_template) zero_TelemetryConfig (Cfg_Observability gateway_template) []) with
  | Ok cfg => (MQTT_QoS (MQTTChannel_Config (Channels_MQTT (Cfg_Channels cfg))),
               Tracing_SampleRate (Telemetry_Tracing (Cfg_Telemetry cfg))) = (1, f_of_int 1)
  | Err _ => False
  end.
Proof. reflexivity. Qed.
