(* ===== verification/Sandbox.v ===== *)
(** * The agent's sandbox (agent/sandbox/manager.go)

    A container that is created, runs commands and is removed, by calls of the
    docker program, whose answers are parameters.  [Create] and [Cleanup] are code
    that holds the manager's mutex ([locked]); a command takes the container's id
    under it and calls docker afterwards.  [alone] runs such code by itself;
    [system_step] interleaves the goroutines that share a manager, and
    [sandbox_protocol] says which calls docker gets.  What confines a container is
    stated apart from the code's own argument list, as [confined]. *)
From Stdlib Require Import ZArith Lia Bool Ascii String List.
From stdpp Require Import base gmap strings option list.
From S2P Require Import Prelude GoString GoTime GoFloat Sqlite Config AgentConfig.

Local Open Scope string_scope.
Local Open Scope Z_scope.
Local Open Scope state_scope.

Definition containerPrefix : string := "nipper-sandbox-".
Definition defaultShell : string := "/bin/bash".
Definition maxOutputBytes : nat := Nat.mul 50 1024.
Definition healthRetries : nat := 30.
Definition skillsMountPoint : string := "/skills".
Definition secretsMountPoint : string := "/tmp/secrets".
Definition defaultPath : string := "PATH=/usr/local/sbin:/usr/local/bin:/usr/sbin:/usr/bin:/sbin:/bin".

Definition newline : string := String "010" "".

Definition truncateOutput (s : string) : string :=
  if (String.length s <=? maxOutputBytes)%nat then s
  else str_take maxOutputBytes s +:+ newline +:+ "... [output truncated at 50KB]".

(** ["K=V"] under its key, when there is one. *)
Definition env_entry (e : string) (m : gmap string string) : gmap string string :=
  let e := trim_space e in
  match str_cut "=" e with
  | Some (k, _) => if (k =? "")%string then m else <[k := e]> m
  | None => m
  end.

Definition env_map (cfg : list string) : gmap string string :=
  fold_left (fun m e => env_entry e m) cfg (env_entry defaultPath ∅).

(** PATH first, then the others by their names. *)
Definition containerEnv (cfg : list string) : list string :=
  let m := env_map cfg in
  (match m !! "PATH" with Some v => [v] | None => [] end
   ++ map snd (order_by fst (map_to_list (delete "PATH" m))))%list.

(** ** The manager *)

(** How a run of docker ended. *)
Inductive run_end :=
| Exited (code : Z) (stdout stderr : string)
| RunFailed (e : string).

(** The container's id and the directory of staged secrets, behind the mutex. *)
Record Manager := { mg_container : string; mg_staging : string }.

Definition NewManager : Manager := Build_Manager "" "".

(** Code that holds the mutex: it is done and gives the mutex back, or it waits
    for a call of docker and goes on with the answer. *)
Inductive locked (A : Type) :=
| Unlock (a : A) (m : Manager)
| Call (args : list string) (k : run_end -> locked A).

Arguments Unlock {A} a m.
Arguments Call {A} args k.

Definition L (A : Type) : Type := Manager -> locked A.

Fixpoint and_then {A B} (p : locked A) (k : A -> L B) : locked B :=
  match p with
  | Unlock a m => k a m
  | Call args f => Call args (fun r => and_then (f r) k)
  end.

Definition lret {A} (a : A) : L A := Unlock a.
Definition lbind {A B} (p : L A) (k : A -> L B) : L B := fun m => and_then (p m) k.
Definition lget {A} (f : Manager -> A) : L A := fun m => Unlock (f m) m.
Definition lmodify (f : Manager -> Manager) : L unit := fun m => Unlock tt (f m).
Definition run_docker (args : list string) : L run_end := fun m => Call args (fun r => Unlock r m).

Declare Scope locked_scope.
Notation "'let!' x '<-' m ';' k" := (lbind m (fun x => k))
  (at level 100, x pattern, m at level 100, k at level 200) : locked_scope.
Notation "'do!' m ';' k" := (lbind m (fun _ => k))
  (at level 100, m at level 100, k at level 200) : locked_scope.
Local Open Scope locked_scope.

Definition set_container (id : string) : L unit := lmodify (fun m => Build_Manager id (mg_staging m)).
Definition set_staging (dir : string) : L unit := lmodify (fun m => Build_Manager (mg_container m) dir).

(** What [Create] gives: slicing the id for the log can panic. *)
Inductive created := Created | CreateFailed (e : string) | CreatePanics.

Section manager.
Context (cfg : SandboxConfig) (name : string).
(** A new temporary directory; how the context ended before the attempt. *)
Context (mkdtemp : result string string) (ctx_err : nat -> option string).

(** The arguments of [docker run] before the secrets' directory. *)
Definition hardening : list string :=
  (["run"; "-d"; "--name"; name; "--hostname"; "sandbox";
    "--memory"; fmt_d (Sandbox_MemoryLimitMB cfg) +:+ "m"; "--cpus"; fmt_fixed 1 (Sandbox_CPULimit cfg); "--pids-limit"; "256"]
   ++ (if Sandbox_ReadOnly cfg then ["--read-only"] else [])
   ++ ["--tmpfs"; "/tmp:rw,noexec,nosuid,size=256m";
       "--tmpfs"; Sandbox_WorkDir cfg +:+ ":rw,exec,nosuid,size=512m";
       "--cap-drop"; "ALL";
       "--cap-add"; "SETUID"; "--cap-add"; "SETGID"; "--cap-add"; "CHOWN"; "--cap-add"; "FOWNER"; "--cap-add"; "DAC_OVERRIDE";
       "--security-opt"; "no-new-privileges"; "--workdir"; Sandbox_WorkDir cfg]
   ++ concat (map (fun cap => ["--cap-add"; cap]) (Sandbox_ExtraCapabilities cfg))
   ++ (if Sandbox_NetworkEnabled cfg then [] else ["--network"; "none"]))%list.

Definition mounts : list string :=
  (concat (map (fun hc => ["-v"; fst hc +:+ ":" +:+ snd hc]) (Sandbox_VolumeMounts cfg))
   ++ (if (Sandbox_SkillsPath cfg =? "")%string then []
       else ["-v"; Sandbox_SkillsPath cfg +:+ ":" +:+ skillsMountPoint +:+ ":ro"]))%list.

Definition run_args (staging : string) : list string :=
  (hardening ++ mounts ++ ["-v"; staging +:+ ":" +:+ secretsMountPoint +:+ ":ro"]
   ++ concat (map (fun e => ["-e"; e]) (containerEnv (Sandbox_Env cfg)))
   ++ [Sandbox_Image cfg; "sleep"; "infinity"])%list.

(** The container's directory of secrets goes with it; only a created container
    is cleaned up.  A removal that fails is logged, and the container forgotten. *)
Definition cleanupLocked : L unit :=
  let! id <- lget mg_container;
  if (id =? "")%string then lret tt
  else
    do! run_docker ["rm"; "-f"; id];
    do! set_container "";
    set_staging "".

Fixpoint waitReady (n : nat) (id : string) : L (option string) :=
  match n with
  | O => lret (Some "container did not become ready within 15s")
  | S n =>
      let again := match ctx_err n with Some e => lret (Some e) | None => waitReady n id end in
      let! out <- run_docker ["inspect"; "-f"; "{{.State.Running}}"; id];
      match out with
      | Exited 0 stdout _ => if (trim_space stdout =? "true")%string then lret None else again
      | _ => again
      end
  end.

(** [cmd.Output]: an exit status other than 0 is an error. *)
Definition output (r : run_end) : result string string :=
  match r with
  | Exited code stdout stderr => if code =? 0 then Ok stdout else Err ("exit status " +:+ fmt_d code +:+ ": " +:+ stderr)
  | RunFailed e => Err (e +:+ ": ")
  end.

Definition Create : L created :=
  match mkdtemp with
  | Err e => lret (CreateFailed ("creating secrets staging dir: " +:+ e))
  | Ok staging =>
      do! set_staging staging;
      let! r <- run_docker (run_args staging);
      match output r with
      | Err e => lret (CreateFailed ("docker run failed: " +:+ e))
      | Ok out =>
          let id := trim_space out in
          do! set_container id;
          if (String.length id <? 12)%nat then lret CreatePanics
          else
            let! bad <- waitReady healthRetries id;
            match bad with
            | None => lret Created
            | Some e =>
                do! cleanupLocked;
                lret (CreateFailed ("sandbox container not ready: " +:+ e))
            end
      end
  end.

(** stdout, stderr and the exit code. *)
Definition exec_result : Type := result string (string * string * Z).

(** The part of [Exec] under the mutex, the call that follows without it, and
    what becomes of its answer. *)
Definition exec_id : L (result string string) :=
  let! id <- lget mg_container;
  lret (if (id =? "")%string then Err "sandbox container not created" else Ok id).

Definition exec_args (env : gmap string string) (command workDir id : string) : list string :=
  (["exec"] ++ concat (map (fun kv => ["-e"; fst kv +:+ "=" +:+ snd kv]) (map_to_list env))
   ++ (if (workDir =? "")%string then [] else ["-w"; workDir])
   ++ [id; defaultShell; "-l"; "-c"; command])%list.

Definition exec_end (r : run_end) : exec_result :=
  match r with
  | Exited code stdout stderr => Ok (truncateOutput stdout, truncateOutput stderr, code)
  | RunFailed e => Err ("docker exec failed: " +:+ e)
  end.

Definition Cleanup : L unit := cleanupLocked.
Definition IsRunning (m : Manager) : bool := negb (mg_container m =? "")%string.
Definition WorkDir : string := Sandbox_WorkDir cfg.
Definition StagingDir : L string := lget mg_staging.
End manager.

(** ** One goroutine alone

    The manager and the calls made so far, with docker's answer to a call after
    the calls before it. *)
Record Sandbox := { sb_manager : Manager; sb_calls : list (list string) }.

Definition sb_staging (s : Sandbox) : string := mg_staging (sb_manager s).

Section alone.
Context (docker : list (list string) -> list string -> run_end).

Fixpoint answered {A} (p : locked A) (calls : list (list string)) : A * Sandbox :=
  match p with
  | Unlock a m => (a, Build_Sandbox m calls)
  | Call args k => answered (k (docker calls args)) (calls ++ [args])%list
  end.

Definition alone {A} (p : L A) : State Sandbox A := fun s => answered (p (sb_manager s)) (sb_calls s).

Definition exec_in (env : gmap string string) (command workDir : string) : State Sandbox exec_result :=
  do r <- alone exec_id;
  match r with
  | Err e => sret (Err e)
  | Ok id => do out <- alone (run_docker (exec_args env command workDir id)); sret (exec_end out)
  end.

Definition Exec (command workDir : string) : State Sandbox exec_result := exec_in ∅ command workDir.
Definition ExecWithEnv (command workDir : string) (env : gmap string string) : State Sandbox exec_result :=
  exec_in env command workDir.
End alone.

(** ** Goroutines that share a manager

    [Create] and [Cleanup] hold the mutex during their calls of docker; a command
    takes the container's id under the mutex and calls docker after it has given
    the mutex back, so what the others do comes in between. *)
Record System := {
  sy_manager : Manager;
  sy_holder : option (locked bool);  (* who has the mutex; the flag: it panics *)
  sy_execs : list (list string);     (* the commands whose call is still to come *)
  sy_calls : list (list string * run_end);
  sy_dead : bool }.

Inductive move :=
| StartCreate (mkdtemp : result string string) (ctx_err : nat -> option string)
| StartCleanup
| StartExec (command workDir : string) (env : gmap string string)
| Answer (r : run_end)             (* to the call of the goroutine with the mutex *)
| AnswerExec (i : nat) (r : run_end)
| Release.

Section system.
Context (cfg : SandboxConfig) (name : string).

Definition panics (r : created) : bool := match r with CreatePanics => true | _ => false end.

Definition holding (p : locked bool) (s : System) : System :=
  Build_System (sy_manager s) (Some p) (sy_execs s) (sy_calls s) (sy_dead s).
Definition waiting (execs : list (list string)) (s : System) : System :=
  Build_System (sy_manager s) (sy_holder s) execs (sy_calls s) (sy_dead s).
Definition calling (c : list string) (r : run_end) (s : System) : System :=
  Build_System (sy_manager s) (sy_holder s) (sy_execs s) (sy_calls s ++ [(c, r)])%list (sy_dead s).

(** One move; a move that is not enabled changes nothing. *)
Definition system_step (s : System) (mv : move) : System :=
  if sy_dead s then s
  else
    match mv, sy_holder s with
    | StartCreate mkdtemp ctx_err, None =>
        holding (lbind (Create cfg name mkdtemp ctx_err) (fun r => lret (panics r)) (sy_manager s)) s
    | StartCleanup, None => holding (lbind Cleanup (fun _ => lret false) (sy_manager s)) s
    | StartExec command workDir env, None =>
        match exec_id (sy_manager s) with
        | Unlock (Ok id) _ => waiting (sy_execs s ++ [exec_args env command workDir id])%list s
        | _ => s
        end
    | Answer r, Some (Call args k) => holding (k r) (calling args r s)
    | AnswerExec i r, _ =>
        match sy_execs s !! i with
        | Some args => waiting (take i (sy_execs s) ++ drop (S i) (sy_execs s))%list (calling args r s)
        | None => s
        end
    | Release, Some (Unlock dead m) => Build_System m None (sy_execs s) (sy_calls s) dead
    | _, _ => s
    end.

Definition system_init : System := Build_System NewManager None [] [] false.
End system.

(** ** What confines a container

    The command line of [docker run], read as options: a flag alone, or a name
    and its value. *)
Inductive option_word := Flag (f : string) | Opt (o v : string).

Definition words (o : option_word) : list string := match o with Flag f => [f] | Opt o v => [o; v] end.

Fixpoint values (name : string) (os : list option_word) : list string :=
  match os with
  | [] => []
  | Opt o v :: os => if (o =? name)%string then v :: values name os else values name os
  | Flag _ :: os => values name os
  end.

Definition flags (os : list option_word) : list string :=
  concat (map (fun o => match o with Flag f => [f] | Opt _ _ => [] end) os).
Definition names (os : list option_word) : list string :=
  concat (map (fun o => match o with Flag _ => [] | Opt o _ => [o] end) os).

(** Every capability is dropped but the five and those of the configuration; no new
    privileges, bounds on processes, memory and processors; no network unless
    the configuration says so; only the configured directories, the skills and
    the secrets are mounted, these two read-only; nothing else is asked for
    ([--privileged], [--device], [--pid], ...). *)
Record confined (cfg : SandboxConfig) (staging : string) (os : list option_word) : Prop := {
  conf_drop : values "--cap-drop" os = ["ALL"];
  conf_add : values "--cap-add" os
    = (["SETUID"; "SETGID"; "CHOWN"; "FOWNER"; "DAC_OVERRIDE"] ++ Sandbox_ExtraCapabilities cfg)%list;
  conf_privileges : values "--security-opt" os = ["no-new-privileges"];
  conf_pids : values "--pids-limit" os = ["256"];
  conf_memory : values "--memory" os = [fmt_d (Sandbox_MemoryLimitMB cfg) +:+ "m"];
  conf_cpus : values "--cpus" os = [fmt_fixed 1 (Sandbox_CPULimit cfg)];
  conf_network : values "--network" os = if Sandbox_NetworkEnabled cfg then [] else ["none"];
  conf_mounts : values "-v" os
    = (map (fun hc => fst hc +:+ ":" +:+ snd hc) (Sandbox_VolumeMounts cfg)
       ++ (if decide (Sandbox_SkillsPath cfg = "") then [] else [Sandbox_SkillsPath cfg +:+ ":/skills:ro"])
       ++ [staging +:+ ":/tmp/secrets:ro"])%list;
  conf_flags : flags os = "-d" :: if Sandbox_ReadOnly cfg then ["--read-only"] else [];
  conf_names : forall o, In o (names os) ->
    In o ["--name"; "--hostname"; "--memory"; "--cpus"; "--pids-limit"; "--tmpfs"; "--cap-drop"; "--cap-add";
          "--security-opt"; "--workdir"; "--network"; "-v"; "-e"] }.

(** The options of [run_args]. *)
Definition run_options (cfg : SandboxConfig) (name staging : string) : list option_word :=
  ([Flag "-d"; Opt "--name" name; Opt "--hostname" "sandbox"; Opt "--memory" (fmt_d (Sandbox_MemoryLimitMB cfg) +:+ "m");
    Opt "--cpus" (fmt_fixed 1 (Sandbox_CPULimit cfg)); Opt "--pids-limit" "256"]
   ++ (if Sandbox_ReadOnly cfg then [Flag "--read-only"] else [])
   ++ [Opt "--tmpfs" "/tmp:rw,noexec,nosuid,size=256m"; Opt "--tmpfs" (Sandbox_WorkDir cfg +:+ ":rw,exec,nosuid,size=512m");
       Opt "--cap-drop" "ALL"; Opt "--cap-add" "SETUID"; Opt "--cap-add" "SETGID"; Opt "--cap-add" "CHOWN";
       Opt "--cap-add" "FOWNER"; Opt "--cap-add" "DAC_OVERRIDE"; Opt "--security-opt" "no-new-privileges";
       Opt "--workdir" (Sandbox_WorkDir cfg)]
   ++ map (Opt "--cap-add") (Sandbox_ExtraCapabilities cfg)
   ++ (if Sandbox_NetworkEnabled cfg then [] else [Opt "--network" "none"])
   ++ map (fun hc => Opt "-v" (fst hc +:+ ":" +:+ snd hc)) (Sandbox_VolumeMounts cfg)
   ++ (if (Sandbox_SkillsPath cfg =? "")%string then [] else [Opt "-v" (Sandbox_SkillsPath cfg +:+ ":/skills:ro")])
   ++ [Opt "-v" (staging +:+ ":/tmp/secrets:ro")]
   ++ map (Opt "-e") (containerEnv (Sandbox_Env cfg)))%list.

Lemma words_app xs ys : concat (map words (xs ++ ys)) = (concat (map words xs) ++ concat (map words ys))%list.
Proof. by rewrite map_app, concat_app. Qed.

Lemma words_map {A} (f : A -> option_word) l : concat (map words (map f l)) = concat (map (fun x => words (f x)) l).
Proof. by rewrite map_map. Qed.

Lemma run_args_words cfg name staging :
  run_args cfg name staging
  = ("run" :: concat (map words (run_options cfg name staging)) ++ [Sandbox_Image cfg; "sleep"; "infinity"])%list.
Proof.
  unfold run_args, run_options, hardening, mounts. rewrite !words_app, !words_map.
  destruct (Sandbox_ReadOnly cfg), (Sandbox_NetworkEnabled cfg), (_ =? "")%string; cbn [map concat words app];
    rewrite <- ?app_assoc; cbn [app]; rewrite <- ?app_assoc; reflexivity.
Qed.

Lemma values_app n xs ys : values n (xs ++ ys) = (values n xs ++ values n ys)%list.
Proof. induction xs as [|[f|o v] xs IH]; simpl; [done|done|]. rewrite IH. by destruct (_ =? _)%string. Qed.

Lemma values_map {A} n o (f : A -> string) l :
  values n (map (fun x => Opt o (f x)) l) = if (o =? n)%string then map f l else [].
Proof. induction l as [|x l IH]; simpl; [by destruct (_ =? _)%string|]. rewrite IH. by destruct (_ =? _)%string. Qed.

Lemma values_opt n o l : values n (map (Opt o) l) = if (o =? n)%string then l else [].
Proof. rewrite (values_map n o id). by rewrite map_id. Qed.

Lemma flags_app xs ys : flags (xs ++ ys) = (flags xs ++ flags ys)%list.
Proof. unfold flags. by rewrite map_app, concat_app. Qed.
Lemma flags_map {A} o (f : A -> string) l : flags (map (fun x => Opt o (f x)) l) = [].
Proof. induction l; [done|]. assumption. Qed.
Lemma names_app xs ys : names (xs ++ ys) = (names xs ++ names ys)%list.
Proof. unfold names. by rewrite map_app, concat_app. Qed.
Lemma names_opt o l : names (map (Opt o) l) = names (map (fun x => Opt o (id x)) l).
Proof. done. Qed.
Lemma names_map {A} (P : string -> Prop) o (f : A -> string) l : P o -> Forall P (names (map (fun x => Opt o (f x)) l)).
Proof. intros H. induction l as [|y l IH]; [constructor|by constructor]. Qed.

Ltac read_options :=
  rewrite !values_app, ?values_opt, ?values_map; cbn [values String.eqb Ascii.eqb Bool.eqb app];
  rewrite ?app_nil_r, <- ?app_assoc; reflexivity.

Lemma run_options_confined cfg name staging : confined cfg staging (run_options cfg name staging).
Proof.
  unfold run_options. split;
    try (destruct (Sandbox_ReadOnly cfg), (Sandbox_NetworkEnabled cfg), (String.eqb_spec (Sandbox_SkillsPath cfg) ""); read_options).
  - destruct (Sandbox_ReadOnly cfg), (Sandbox_NetworkEnabled cfg), (String.eqb_spec (Sandbox_SkillsPath cfg) ""),
      (decide (Sandbox_SkillsPath cfg = "")); try done; read_options.
  - rewrite !flags_app, !(flags_map _ id), flags_map.
    by destruct (Sandbox_ReadOnly cfg), (Sandbox_NetworkEnabled cfg), (_ =? "")%string.
  - apply List.Forall_forall. rewrite !names_app, !Forall_app, !names_opt.
    repeat split; try (apply names_map; simpl; auto 20);
      destruct (Sandbox_ReadOnly cfg), (Sandbox_NetworkEnabled cfg), ((Sandbox_SkillsPath cfg =? "")%string);
      repeat (apply List.Forall_cons; [simpl; auto 20|]); apply List.Forall_nil.
Qed.

(** ** The protocol with docker *)

(** The container that a call of [docker run] gave. *)
Definition gave (c : list string) (r : run_end) : option string :=
  match c, r with
  | "run" :: _, Exited 0 out _ => Some (trim_space out)
  | _, _ => None
  end.

(** The container that the calls leave in the manager's hands: the one that the
    last successful [run] gave, until its removal is asked for. *)
Definition after_call (held : string) (cr : list string * run_end) : string :=
  match gave (fst cr) (snd cr) with
  | Some id => id
  | None => match fst cr with "rm" :: _ => "" | _ => held end
  end.

Definition held (calls : list (list string * run_end)) : string := fold_left after_call calls "".

Section protocol.
Context (cfg : SandboxConfig) (name : string).

(** The calls under the mutex when the manager has the container [h], and all the
    calls that may follow others: a container is started confined, one is
    inspected or removed only while the manager has it, and a command is run only
    in a container that an earlier call started. *)
Inductive locked_call (h : string) : list string -> Prop :=
| call_run staging options : confined cfg staging options ->
    locked_call h ("run" :: concat (map words options) ++ [Sandbox_Image cfg; "sleep"; "infinity"])%list
| call_inspect : h <> "" -> locked_call h ["inspect"; "-f"; "{{.State.Running}}"; h]
| call_rm : h <> "" -> locked_call h ["rm"; "-f"; h].

Inductive call_ok (before : list (list string * run_end)) : list string -> Prop :=
| call_locked c : locked_call (held before) c -> call_ok before c
| call_exec options id command c r : In (c, r) before -> gave c r = Some id -> id <> "" ->
    call_ok before ("exec" :: options ++ [id; "/bin/bash"; "-l"; "-c"; command])%list.

(** What a goroutine with the mutex does from here on, whatever docker answers. *)
Fixpoint wp {A} (p : locked A) (h : string) (Q : A -> Manager -> string -> Prop) : Prop :=
  match p with
  | Unlock a m => Q a m h
  | Call args k => locked_call h args /\ forall r, wp (k r) (after_call h (args, r)) Q
  end.

Lemma wp_mono {A} (p : locked A) h (Q R : A -> Manager -> string -> Prop) :
  wp p h Q -> (forall a m h, Q a m h -> R a m h) -> wp p h R.
Proof.
  intros H HQ. revert h H. induction p as [a m|args k IH]; intros h H; [by apply HQ|].
  destruct H as [Hc H]. split; [done|]. intros r. apply IH, H.
Qed.

Lemma wp_bind {A B} (p : locked A) (k : A -> L B) h Q :
  wp p h (fun a m h => wp (k a m) h Q) -> wp (and_then p k) h Q.
Proof.
  revert h. induction p as [a m|args f IH]; intros h H; [done|].
  destruct H as [Hc H]. split; [done|]. intros r. apply IH, H.
Qed.

(** The manager has the container that the calls left it; after a panic the
    process is gone. *)
Definition has (m : Manager) (h : string) : Prop := mg_container m = h.
Definition sound (dead : bool) (m : Manager) (h : string) : Prop := dead = true \/ has m h.

Lemma cleanup_wp m h : has m h -> wp (Cleanup m) h (fun _ => has).
Proof.
  intros H. unfold Cleanup, cleanupLocked, lbind, lget. cbn. rewrite H.
  destruct (String.eqb_spec h "") as [->|Hne]; [by rewrite <- H|]. cbn. split; [by constructor|]. intros r. by destruct r as [[]|].
Qed.

Lemma wait_wp ctx_err id : id <> "" -> forall n m, has m id ->
  wp (waitReady ctx_err n id m) id (fun _ m h => has m h).
Proof.
  intros Hid. induction n as [|n IH]; intros m Hm; [done|]. cbn [waitReady]. unfold lbind, run_docker. cbn.
  split; [by constructor|]. intros r.
  assert (Hagain : wp (match ctx_err n with Some e => lret (Some e) | None => waitReady ctx_err n id end m) id
                      (fun _ m h => has m h)) by (destruct (ctx_err n); [done|by apply IH]).
  destruct r as [code stdout stderr|e]; [|done]. destruct code; [|done|done]. by destruct (_ =? _)%string.
Qed.

Lemma output_gave cargs r : gave ("run" :: cargs) r = match output r with Ok out => Some (trim_space out) | Err _ => None end.
Proof. destruct r as [[]|]; reflexivity. Qed.

Lemma create_wp mkdtemp ctx_err m h : has m h -> wp (Create cfg name mkdtemp ctx_err m) h (fun r => sound (panics r)).
Proof.
  intros Hm. unfold Create. destruct mkdtemp as [staging|e]; [|by right]. unfold lbind at 1, set_staging, lmodify. cbn [and_then].
  unfold lbind at 1, run_docker. cbn [and_then]. split.
  { rewrite run_args_words. econstructor. apply run_options_confined. }
  intros r. rewrite run_args_words. unfold after_call. cbn [fst snd]. rewrite output_gave.
  destruct (output r) as [out|e]; [|by right]. unfold lbind at 1, set_container, lmodify. cbn [and_then mg_staging].
  set (id := trim_space out). destruct (Nat.ltb_spec (String.length id) 12) as [|Hlen]; [by left|].
  assert (Hid : id <> "") by (intros E; rewrite E in Hlen; simpl in Hlen; lia).
  unfold lbind at 1. apply wp_bind. eapply wp_mono; [by apply wait_wp|]. intros [e|] m' h' H; [|by right].
  unfold lbind. apply wp_bind. eapply wp_mono; [by apply cleanup_wp|]. intros [] m2 h2 H2. by right.
Qed.

(** The invariant of the goroutines together. *)
Record inv (s : System) : Prop := {
  inv_calls : forall before c r after, sy_calls s = (before ++ (c, r) :: after)%list -> call_ok before c;
  inv_execs : forall args, In args (sy_execs s) -> exists options id command c r,
    args = ("exec" :: options ++ [id; "/bin/bash"; "-l"; "-c"; command])%list /\
    In (c, r) (sy_calls s) /\ gave c r = Some id /\ id <> "";
  inv_manager : sy_holder s = None -> sound (sy_dead s) (sy_manager s) (held (sy_calls s));
  inv_holder : forall p, sy_holder s = Some p -> wp p (held (sy_calls s)) sound }.

Lemma held_snoc calls cr : held (calls ++ [cr]) = after_call (held calls) cr.
Proof. unfold held. by rewrite fold_left_app. Qed.

Lemma held_given calls : held calls <> "" -> exists c r, In (c, r) calls /\ gave c r = Some (held calls).
Proof.
  induction calls as [|[c r] calls IH] using rev_ind; [done|]. rewrite held_snoc. unfold after_call. cbn [fst snd].
  destruct (gave c r) as [id|] eqn:E; intros H.
  - exists c, r. split; [|done]. apply in_or_app. right. by left.
  - assert (Hh : held calls <> "" /\ match c with "rm" :: _ => "" | _ => held calls end = held calls).
    { revert H. repeat case_match; done. }
    destruct Hh as [Hh ->]. destruct (IH Hh) as (c' & r' & Hin & Hg). exists c', r'. split; [|done]. apply in_or_app. by left.
Qed.

Lemma protocol_snoc calls c r : (forall before c r after, calls = (before ++ (c, r) :: after)%list -> call_ok before c) ->
  call_ok calls c -> forall before c' r' after, (calls ++ [(c, r)] = before ++ (c', r') :: after)%list -> call_ok before c'.
Proof.
  intros H Hc before c' r' after Heq. destruct after as [|x after _] using rev_ind.
  - apply app_inj_tail in Heq as [-> [= -> ->]]. done.
  - rewrite app_comm_cons, app_assoc in Heq. apply app_inj_tail in Heq as [Heq _]. by apply (H before c' r' after).
Qed.

Lemma exec_given calls execs c r : (forall args, In args execs -> exists options id command c r,
    args = ("exec" :: options ++ [id; "/bin/bash"; "-l"; "-c"; command])%list /\
    In (c, r) calls /\ gave c r = Some id /\ id <> "") ->
  forall args, In args execs -> exists options id command c' r',
    args = ("exec" :: options ++ [id; "/bin/bash"; "-l"; "-c"; command])%list /\
    In (c', r') (calls ++ [(c, r)])%list /\ gave c' r' = Some id /\ id <> "".
Proof.
  intros H args Hin. destruct (H args Hin) as (o & id & cmd & c' & r' & -> & Hin' & Hg).
  exists o, id, cmd, c', r'. split; [done|]. split; [|done]. apply in_or_app. by left.
Qed.

Lemma nth_in {A} (l : list A) i x : l !! i = Some x -> In x l.
Proof. revert i. induction l as [|y l IH]; intros [|i] H; try done; [injection H; by left|]. right. by apply (IH i). Qed.

Lemma system_step_inv s mv : inv s -> inv (system_step cfg name s mv).
Proof.
  intros Hs. unfold system_step. destruct (sy_dead s) eqn:Hdead; [done|]. pose proof Hs as [Hc He Hm Hh].
  assert (Hhas : sy_holder s = None -> has (sy_manager s) (held (sy_calls s)))
    by (intros H; destruct (Hm H) as [Hd|]; [congruence|done]).
  destruct mv as [mkdtemp ctx_err| |command workDir env|r|i r|].
  - destruct (sy_holder s) eqn:E; [done|]. split; try done. intros p [= <-]. unfold lbind. apply wp_bind.
    eapply wp_mono; [by apply create_wp, Hhas|]. done.
  - destruct (sy_holder s) eqn:E; [done|]. split; try done. intros p [= <-]. unfold lbind. apply wp_bind.
    eapply wp_mono; [by apply cleanup_wp, Hhas|]. intros a m h H. by right.
  - destruct (sy_holder s) eqn:E; [done|]. unfold exec_id, lbind, lget. cbn. rewrite (Hhas eq_refl).
    destruct (String.eqb_spec (held (sy_calls s)) "") as [|Hne]; [done|]. split; cbn [sy_execs sy_calls sy_holder sy_dead sy_manager waiting]; rewrite ?E; [done| |done|done].
    intros args [Hin|[<-|[]]]%in_app_or; [by apply He|]. destruct (held_given _ Hne) as (c & r & Hin & Hg).
    unfold exec_args. rewrite (app_assoc (concat _)). exists (concat (map (fun kv => ["-e"; fst kv +:+ "=" +:+ snd kv]) (map_to_list env))
      ++ (if (workDir =? "")%string then [] else ["-w"; workDir]))%list, (held (sy_calls s)), command, c, r.
    split; [by rewrite <- (Hhas eq_refl)|done].
  - destruct (sy_holder s) as [[|args k]|] eqn:E; [done| |done]. destruct (Hh _ eq_refl) as [Hcall Hk].
    split; cbn [sy_calls sy_execs sy_holder holding calling]; [|by apply exec_given|done|].
    + apply protocol_snoc; [done|by constructor].
    + intros p [= <-]. rewrite held_snoc. apply Hk.
  - destruct (sy_execs s !! i) as [args|] eqn:E; [|done].
    destruct (He args) as (o & id & cmd & c & r' & -> & Hin & Hg & Hid); [by apply (nth_in _ i)|].
    split; cbn [sy_calls sy_execs sy_holder sy_dead sy_manager waiting calling]; rewrite ?held_snoc; [| |done..].
    + apply protocol_snoc; [done|]. by apply (call_exec _ o id cmd c r').
    + apply exec_given. intros args' [Ha|Ha]%in_app_or; apply He.
      * rewrite <- (take_drop i (sy_execs s)). apply in_or_app. by left.
      * rewrite <- (take_drop (S i) (sy_execs s)). apply in_or_app. by right.
  - destruct (sy_holder s) as [[dead m|]|] eqn:E; [|done|done]. split; try done. intros _. apply (Hh _ eq_refl).
Qed.

(** What becomes of a command that comes while the mutex is free. *)
Lemma started_exec s command workDir env :
  sy_holder s = None -> sy_dead s = false -> has (sy_manager s) (held (sy_calls s)) ->
  exists options, sy_execs (system_step cfg name s (StartExec command workDir env)) =
    (sy_execs s ++ if decide (held (sy_calls s) = "") then []
                   else ["exec" :: options ++ [held (sy_calls s); "/bin/bash"; "-l"; "-c"; command]])%list.
Proof.
  intros Hf Hd Hh. unfold system_step. rewrite Hf, Hd. unfold exec_id, lbind, lget. cbn. rewrite Hh.
  exists (concat (map (fun kv => ["-e"; fst kv +:+ "=" +:+ snd kv]) (map_to_list env))
          ++ (if (workDir =? "")%string then [] else ["-w"; workDir]))%list.
  destruct (String.eqb_spec (held (sy_calls s)) ""), (decide (held (sy_calls s) = "")); try done; cbn [sy_execs waiting].
  - by rewrite app_nil_r.
  - unfold exec_args. by rewrite <- app_assoc.
Qed.

(** C6: however the goroutines interleave and whatever docker answers, a container
    is started with the options that confine it ([confined], which restates them),
    it is inspected and removed only while the manager has it, and a command goes
    only to a container that was started so.  When the mutex is free the manager
    has exactly the container that its calls left it, and a command that comes then
    is run there, or refused when there is none.  It may reach docker after the
    container's removal, since [Exec] gives the mutex back before. *)
Theorem sandbox_protocol moves :
  let s := fold_left (system_step cfg name) moves system_init in
  (forall before c r after, sy_calls s = (before ++ (c, r) :: after)%list -> call_ok before c) /\
  (sy_holder s = None -> sy_dead s = false ->
     mg_container (sy_manager s) = held (sy_calls s) /\
     forall command workDir env, exists options,
       sy_execs (system_step cfg name s (StartExec command workDir env)) =
       (sy_execs s ++ if decide (held (sy_calls s) = "") then []
                      else ["exec" :: options ++ [held (sy_calls s); "/bin/bash"; "-l"; "-c"; command]])%list).
Proof.
  intros s. enough (H : inv s).
  { destruct H as [Hc _ Hm _]. split; [done|]. intros Hf Hd. destruct (Hm Hf) as [|H]; [congruence|]. split; [done|].
    intros command workDir env. by apply started_exec. }
  subst s. assert (H0 : inv system_init) by (split; [intros [] ? ? ? [=]|done|by right|done]). revert H0. generalize system_init.
  induction moves as [|mv moves IH]; intros s Hs; [done|]. cbn [fold_left]. apply IH. by apply system_step_inv.
Qed.
End protocol.

(** ** A docker that creates one container *)

Definition demo_docker (_ : list (list string)) (args : list string) : run_end :=
  match args with
  | "run" :: _ => Exited 0 "0123456789abcdef" ""
  | "inspect" :: _ => Exited 0 "true" ""
  | "exec" :: _ => Exited 3 "out" "err"
  | _ => Exited 0 "" ""
  end.

Definition no_docker (_ : list (list string)) (_ : list string) : run_end := Exited 125 "" "no such image".

Example sandbox_demo :
  let s1 := snd (alone demo_docker (Create zero_SandboxConfig "nipper-sandbox-1" (Ok "/tmp/s") (fun _ => None))
                   (Build_Sandbox NewManager [])) in
  fst (Exec demo_docker "ls" "/workspace" s1) = Ok ("out", "err", 3)
  /\ fst (Exec demo_docker "ls" "" (snd (alone demo_docker Cleanup s1))) = Err "sandbox container not created".
Proof. vm_compute. done. Qed.

(** The directory of secrets of a container that did not start stays, and an id
    that is too short panics in the log message. *)
Example staging_kept :
  let '(r, s) := alone no_docker (Create zero_SandboxConfig "n" (Ok "/tmp/s") (fun _ => None)) (Build_Sandbox NewManager []) in
  r = CreateFailed "docker run failed: exit status 125: no such image" /\ sb_staging (snd (alone no_docker Cleanup s)) = "/tmp/s"
  /\ fst (alone (fun _ _ => Exited 0 "short" "") (Create zero_SandboxConfig "n" (Ok "/tmp/s") (fun _ => None))
            (Build_Sandbox NewManager [])) = CreatePanics.
Proof. vm_compute. done. Qed.

(** A command that is accepted, and calls docker when the container is removed
    already; the removal itself fails, and the container is forgotten. *)
Definition late_exec : list move :=
  [StartCreate (Ok "/tmp/s") (fun _ => None); Answer (Exited 0 "0123456789abcdef" ""); Answer (Exited 0 "true" ""); Release;
   StartExec "ls" "" ∅; StartCleanup; Answer (Exited 1 "" "busy"); Release; AnswerExec 0 (Exited 0 "" "")].

Lemma sandbox_protocol_witness :
  let s := fold_left (system_step zero_SandboxConfig "box") late_exec system_init in
  map fst (sy_calls s) =
    [["run"; "-d"; "--name"; "box"; "--hostname"; "sandbox"; "--memory"; "0m"; "--cpus"; "0.0"; "--pids-limit"; "256";
      "--tmpfs"; "/tmp:rw,noexec,nosuid,size=256m"; "--tmpfs"; ":rw,exec,nosuid,size=512m"; "--cap-drop"; "ALL";
      "--cap-add"; "SETUID"; "--cap-add"; "SETGID"; "--cap-add"; "CHOWN"; "--cap-add"; "FOWNER"; "--cap-add"; "DAC_OVERRIDE";
      "--security-opt"; "no-new-privileges"; "--workdir"; ""; "--network"; "none"; "-v"; "/tmp/s:/tmp/secrets:ro";
      "-e"; defaultPath; ""; "sleep"; "infinity"];
     ["inspect"; "-f"; "{{.State.Running}}"; "0123456789abcdef"]; ["rm"; "-f"; "0123456789abcdef"];
     ["exec"; "0123456789abcdef"; "/bin/bash"; "-l"; "-c"; "ls"]] /\
  (forall before c r after, sy_calls s = (before ++ (c, r) :: after)%list -> call_ok zero_SandboxConfig before c) /\
  mg_container (sy_manager s) = "".
Proof.
  intros s. split; [vm_compute; reflexivity|]. destruct (sandbox_protocol zero_SandboxConfig "box" late_exec) as [H1 H2].
  split; [exact H1|]. etransitivity; [by apply H2|vm_compute; reflexivity].
Defined.

(** A command line without the drop of the capabilities is not confined. *)
Example unconfined : ~ confined zero_SandboxConfig "/tmp/s" [Flag "-d"; Opt "--network" "none"].
Proof. intros H. apply conf_drop in H. discriminate. Qed.

Example container_env_demo : containerEnv ["B=2"; " A=1 "; "=x"; "novalue"; "PATH=/bin"] = ["PATH=/bin"; "A=1"; "B=2"].
Proof. vm_compute. reflexivity. Qed.
