(* ===== verification/Profile.v ===== *)
(** * User profiles (agent/profile.go)

    What the agent remembers of a user beyond the sessions: a file of ten
    settings, which the [/setup] command changes one at a time. *)
From Stdlib Require Import ZArith Lia Bool Ascii String List.
From stdpp Require Import base gmap strings option list.
From S2P Require Import Prelude GoString GoFloat SessionFs.

Local Open Scope string_scope.
Local Open Scope Z_scope.

Record UserProfile := {
  up_UserName : string;
  up_AgentName : string;
  up_Personality : string;
  up_Location : string;
  up_SkillLevel : string;
  up_Language : string;
  up_Latitude : string;
  up_Longitude : string;
  up_Email : string;
  up_Calendar : string;
  up_ConfiguredAt : Z;
  up_UpdatedAt : Z }.

Definition no_profile : UserProfile := Build_UserProfile "" "" "" "" "" "" "" "" "" "" time_zero time_zero.

(** ** Settings by number *)

(** profileFields: the labels and getters. *)
Definition profileFields : list (string * (UserProfile -> string)) :=
  [("User Name", up_UserName); ("Agent Name", up_AgentName); ("Personality", up_Personality);
   ("Location", up_Location); ("Skill Level", up_SkillLevel); ("Preferred Language", up_Language);
   ("Latitude", up_Latitude); ("Longitude", up_Longitude); ("Email", up_Email); ("Calendar", up_Calendar)].

Definition set_strings (f : list string) (p : UserProfile) : UserProfile :=
  match f with
  | [a; b; c; d; e; f; g; h; i; j] =>
      Build_UserProfile a b c d e f g h i j (up_ConfiguredAt p) (up_UpdatedAt p)
  | _ => p
  end.

Definition strings_of (p : UserProfile) : list string := map (fun f => snd f p) profileFields.

Definition set_value (idx : nat) (v : string) : string :=
  if (idx =? 9)%nat && (v =? "")%string then "primary" else v.

Definition SetField (idx : nat) (value : string) (p : UserProfile) : UserProfile :=
  set_strings (<[idx := set_value idx (trim_space value)]> (strings_of p)) p.

Definition FieldLabel (idx : nat) : string :=
  match profileFields !! idx with Some (label, _) => label | None => "Unknown" end.

Definition profileFieldAliases : list (string * nat) :=
  [("name", 0%nat); ("username", 0%nat); ("user", 0%nat); ("1", 0%nat);
   ("agent", 1%nat); ("agentname", 1%nat); ("bot", 1%nat); ("2", 1%nat);
   ("personality", 2%nat); ("persona", 2%nat); ("3", 2%nat);
   ("location", 3%nat); ("city", 3%nat); ("loc", 3%nat); ("4", 3%nat);
   ("skill", 4%nat); ("skilllevel", 4%nat); ("level", 4%nat); ("5", 4%nat);
   ("language", 5%nat); ("lang", 5%nat); ("6", 5%nat);
   ("latitude", 6%nat); ("lat", 6%nat); ("7", 6%nat);
   ("longitude", 7%nat); ("lon", 7%nat); ("lng", 7%nat); ("8", 7%nat);
   ("email", 8%nat); ("mail", 8%nat); ("9", 8%nat);
   ("calendar", 9%nat); ("cal", 9%nat); ("10", 9%nat)].

Definition ResolveFieldAlias (fold : Z -> Z) (alias : string) : option nat :=
  snd <$> List.find (fun e => (fst e =? to_lower fold (trim_space alias))%string) profileFieldAliases.

Definition IsCoordinatesAlias (fold : Z -> Z) (alias : string) : bool :=
  existsb (String.eqb (to_lower fold (trim_space alias))) ["coordinates"; "coords"; "gps"].

Definition ParseCoordinates (printable : Z -> bool) (raw : string) : result string (string * string) :=
  let raw := trim_space raw in
  let parts := if str_contains raw "," then split_n2 raw "," else strings_Fields raw in
  match parts with
  | [a; b] =>
      let lat := trim_space a in
      let lon := trim_space b in
      if negb (bool_decide (is_Some (ParseFloat lat)))
      then Err ("invalid latitude " +:+ go_quote printable lat +:+ ": must be a number")
      else if negb (bool_decide (is_Some (ParseFloat lon)))
      then Err ("invalid longitude " +:+ go_quote printable lon +:+ ": must be a number")
      else Ok (lat, lon)
  | _ => Err "expected 'latitude,longitude' (e.g., 45.49,-75.66)"
  end.

(** ** The file *)

(** A profile file holds a profile or something that does not decode. *)
Inductive profile_file := Saved (p : UserProfile) | Broken.

Abbreviation profile_fs := (gmap path profile_file).

Definition profilePath (basePath userID : string) : path :=
  Join (Join (Join (Clean basePath) "users") userID) "profile.json".

Definition LoadProfile (basePath userID : string) (fs : profile_fs) : result string UserProfile :=
  match fs !! profilePath basePath userID with
  | None => Ok no_profile
  | Some (Saved p) => Ok p
  | Some Broken => Err "decoding profile"
  end.

(** The step of [SaveProfile] that fails, if one does. *)
Inductive save_fault := FailMkdir | FailWrite | FailRename.

Definition stamp_profile (now : Z) (p : UserProfile) : UserProfile :=
  Build_UserProfile (up_UserName p) (up_AgentName p) (up_Personality p) (up_Location p) (up_SkillLevel p)
    (up_Language p) (up_Latitude p) (up_Longitude p) (up_Email p) (up_Calendar p)
    (if time_is_zero (up_ConfiguredAt p) then now else up_ConfiguredAt p) now.

(** The profile as the caller has it afterwards, and the files: a failed write
    may leave part of the temporary file. *)
Definition SaveProfile (fault : option save_fault) (now : Z) (basePath userID : string) (p : UserProfile)
    (fs : profile_fs) : result string unit * UserProfile * profile_fs :=
  let file := profilePath basePath userID in
  let tmp := path_add file ".tmp" in
  let p' := stamp_profile now p in
  match fault with
  | Some FailMkdir => (Err "creating profile dir", p, fs)
  | Some FailWrite => (Err "writing profile tmp", p', <[tmp := Broken]> fs)
  | Some FailRename => (Err "renaming profile", p', delete tmp fs)
  | None => (Ok tt, p', <[file := Saved p']> (delete tmp fs))
  end.

Definition IsEmpty (p : UserProfile) : bool := forallb (fun s => (s =? "")%string) (strings_of p).

Definition newline : string := String "010" "".

(** ** Texts *)

Fixpoint display_fields (n : Z) (l : list (string * (UserProfile -> string))) (p : UserProfile) : string :=
  match l with
  | [] => ""
  | (label, get) :: l =>
      let val := if (get p =? "")%string then "(not set)" else get p in
      fmt_d n +:+ ". " +:+ label +:+ ": " +:+ val +:+ newline +:+ display_fields (n + 1) l p
  end.

Definition FormatDisplay (p : UserProfile) : string :=
  "*Profile Settings*" +:+ newline +:+ newline
  +:+ display_fields 1 profileFields p
  +:+ newline +:+ "*To change a setting:*" +:+ newline
  +:+ "  /setup name <your name>" +:+ newline
  +:+ "  /setup agent <agent name>" +:+ newline
  +:+ "  /setup personality <type>" +:+ newline
  +:+ "  /setup location <City, Country>" +:+ newline
  +:+ "  /setup skill <beginner|intermediate|advanced|expert>" +:+ newline
  +:+ "  /setup language <preferred language>" +:+ newline
  +:+ "  /setup coords <lat,lon> (e.g., 45.49,-75.66)" +:+ newline
  +:+ "  /setup email <your@email.com>" +:+ newline
  +:+ "  /setup calendar <calendar id> (default: primary)" +:+ newline
  +:+ newline +:+ "You can also use the field number: /setup 1 Jane Doe".

Definition FormatForPrompt (p : UserProfile) : string :=
  let line (v before after : string) := if (v =? "")%string then "" else before +:+ v +:+ after +:+ newline in
  if IsEmpty p then ""
  else
    "## User Profile" +:+ newline +:+ newline
    +:+ line (up_UserName p) "- User Name: " ""
    +:+ line (up_AgentName p) "- Your Name (the assistant): " ""
    +:+ line (up_Personality p) "- Personality: " ""
    +:+ line (up_Location p) "- User Location: " ""
    +:+ line (up_SkillLevel p) "- User Skill Level: " ""
    +:+ line (up_Language p) "- Preferred Language: " " (always respond in this language unless asked otherwise)"
    +:+ (if (up_Latitude p =? "")%string || (up_Longitude p =? "")%string then ""
         else "- Coordinates: " +:+ up_Latitude p +:+ ", " +:+ up_Longitude p
              +:+ " (use these for weather and location-based tools)" +:+ newline)
    +:+ line (up_Email p) "- Email: " " (use this as the user's email for Gmail, calendar, and other integrations)"
    +:+ "- Calendar: " +:+ (if (up_Calendar p =? "")%string then "primary" else up_Calendar p)
    +:+ " (use this as the calendar ID for calendar operations)" +:+ newline.

Definition IsSkillLevelAboveIntermediate (fold : Z -> Z) (level : string) : bool :=
  existsb (String.eqb (to_lower fold (trim_space level))) ["advanced"; "expert"].

(** ** Setting and reading back *)

Lemma strings_of_set l p : length l = 10%nat -> strings_of (set_strings l p) = l.
Proof. intros H. do 10 (destruct l as [|? l]; [done|]). by destruct l. Qed.

Lemma SetField_strings idx v p :
  strings_of (SetField idx v p) = <[idx := set_value idx (trim_space v)]> (strings_of p).
Proof. apply strings_of_set. by rewrite length_insert. Qed.

(** A setting is read back as it was set, trimmed, and no other one changes. *)
Lemma set_get idx idx' v p :
  (idx < 10)%nat ->
  strings_of (SetField idx v p) !! idx'
  = if (idx =? idx')%nat then Some (set_value idx (trim_space v)) else strings_of p !! idx'.
Proof.
  intros Hi. rewrite SetField_strings. case_test; subst; [by apply list_lookup_insert_eq|by apply list_lookup_insert_ne].
Qed.

(** What is saved is loaded, and a failed save leaves the file as it was. *)
Lemma path_add_ne base userID : path_add (profilePath base userID) ".tmp" <> profilePath base userID.
Proof.
  unfold profilePath. intros H. assert (Hj : forall p, Join p "profile.json" = (fst p, "profile.json" :: snd p))
    by (intros [r cs]; reflexivity).
  rewrite Hj in H. simpl in H. by injection H.
Qed.

Lemma save_load fault now base userID p fs :
  let '(r, p', fs') := SaveProfile fault now base userID p fs in
  (r = Ok tt -> LoadProfile base userID fs' = Ok p') /\
  (r <> Ok tt -> LoadProfile base userID fs' = LoadProfile base userID fs).
Proof.
  unfold SaveProfile, LoadProfile. pose proof (path_add_ne base userID) as Hne.
  destruct fault as [[| |]|]; cbn; (split; [try done|try done]); intros _.
  - by rewrite lookup_insert_ne.
  - by rewrite lookup_delete_ne.
  - by rewrite lookup_insert_eq.
Qed.

Example coordinates_ex : ParseCoordinates (fun _ => true) " 45.49, -75.66 " = Ok ("45.49", "-75.66").
Proof. vm_compute. reflexivity. Qed.

(** Any text that reads as a float is accepted. *)
Example coordinates_nan : ParseCoordinates (fun _ => true) "NaN inf" = Ok ("NaN", "inf").
Proof. vm_compute. reflexivity. Qed.
