(* ===== verification/Convert.v ===== *)
(** * Messages for the language model (agent/convert.go, agent/multimodal_user.go)

    How an inbound message and the stored transcript become the messages of a
    request: text, media annotations and one inline picture. *)
From Stdlib Require Import ZArith Lia Bool Ascii String List.
From stdpp Require Import base gmap strings option list.
From S2P Require Import Prelude GoString Models SessionTypes.

Local Open Scope string_scope.
Local Open Scope Z_scope.

(** schema.Message, as far as the agent uses it. *)
Inductive MessageInputPart := PartText (text : string) | PartImage (url : string).

Record Message := {
  em_Role : string;
  em_Content : string;
  em_Multi : list MessageInputPart;
  em_ToolCalls : nat;
  em_ReasoningContent : string }.

Definition RoleUser : string := "user".
Definition RoleAssistant : string := "assistant".
Definition RoleSystem : string := "system".
Definition RoleTool : string := "tool".

Definition text_message (role content : string) : Message := Build_Message role content [] 0 "".

Definition known_role (role : string) : bool :=
  existsb (String.eqb role) [RoleUser; RoleAssistant; RoleSystem; RoleTool].

Definition TranscriptLinesToEinoMessages (lines : list TranscriptLine) : list Message :=
  map (fun l => text_message (tl_Role l) (tl_Content l)) (List.filter (fun l => known_role (tl_Role l)) lines).

Definition EinoMessageToTranscriptLine (now : Z) (msg : Message) (runID : string) : TranscriptLine :=
  {| tl_Role := em_Role msg; tl_Content := em_Content msg; tl_Timestamp := now;
     tl_RunID := runID; tl_TokenCount := 0 |}.

Definition stripControlChars (s : string) : string :=
  drop_runes (fun r => (r <? 32) && negb (r =? 10) && negb (r =? 9)) s.

Definition nl : string := String "010" "".

Section convert.
Context (fold upper : Z -> Z).

Definition isImageMIME (mime : string) : bool := has_prefix (to_lower fold (trim_space mime)) "image/".

(** The part is passed to the model as a link. *)
Definition annotated (p : ContentPart) : bool :=
  negb ((cp_Type p =? "text") || (cp_URL p =? "") || ((cp_Type p =? "audio") && negb (cp_Transcript p =? "")))%string.

Definition annotation (p : ContentPart) : string :=
  let mime := if (cp_MimeType p =? "")%string then "unknown" else cp_MimeType p in
  "⚠️ ATTACHED FILE: " +:+ to_upper upper (cp_Type p) +:+ " (" +:+ mime +:+ ")"
  +:+ (if (cp_Caption p =? "")%string then "" else nl +:+ "Caption: " +:+ cp_Caption p)
  +:+ nl +:+ "URL: " +:+ cp_URL p
  +:+ (if isImageMIME mime || (cp_Type p =? "image")%string
       then nl +:+ "→ You MUST call doc_fetch with this URL to extract EXIF metadata (GPS location, camera model, date/time)."
            +:+ " EXIF is embedded in the raw file and is NOT visible in the image pixels."
            +:+ " Do NOT claim there is no EXIF without calling doc_fetch first."
       else nl +:+ "→ You MUST call doc_fetch with this URL to access the file content. Do NOT guess, describe, or fabricate the content.").

Definition buildMediaAnnotations (parts : list ContentPart) : string :=
  str_join (map annotation (List.filter annotated parts)) (nl +:+ nl).

(** The text of the message itself: its text, or that of its first text part. *)
Definition first_text (parts : list ContentPart) : string :=
  match List.find (fun p => (cp_Type p =? "text")%string && negb (cp_Text p =? "")%string) parts with
  | Some p => cp_Text p
  | None => ""
  end.

Definition message_text (msg : NipperMessage) : string :=
  let text := stripControlChars (mc_Text (nm_Content msg)) in
  if (text =? "")%string then stripControlChars (first_text (mc_Parts (nm_Content msg))) else text.

Definition NipperMessageToEinoMessage (msg : NipperMessage) : Message :=
  let text := message_text msg in
  let media := buildMediaAnnotations (mc_Parts (nm_Content msg)) in
  text_message RoleUser
    (if (media =? "")%string then text
     else if (text =? "")%string then media else text +:+ nl +:+ nl +:+ media).

(** ** Inline pictures (agent/multimodal_user.go) *)

Definition isImageLikePart (p : ContentPart) : bool := isImageMIME (cp_MimeType p) || (cp_Type p =? "image")%string.

Definition downscaleThresholdBytes : Z := 1024 * 1024.
Definition maxVisionDim : Z := 1024.

Definition normalizeMIME (ct : string) : string :=
  let ct := to_lower fold ct in
  trim_space (match str_cut ";" ct with Some (a, _) => a | None => ct end).

Definition httpDetectMIME (data : string) : string :=
  if has_prefix data (string_of_list (map of_byte [255; 216; 255])) then "image/jpeg"
  else if has_prefix data (string_of_list (map of_byte [137; 80; 78; 71; 13; 10; 26; 10])) then "image/png"
  else "application/octet-stream".

(** The size [resizeNearest] gives a picture: sides of at most [maxDim]. *)
Definition resized (w h maxDim : Z) : Z * Z :=
  if (w <=? 0) || (h <=? 0) then (w, h)
  else if (w <=? maxDim) && (h <=? maxDim) then (w, h)
  else
    let '(nw, nh) := if h <=? w then (maxDim, h * maxDim / w) else (w * maxDim / h, maxDim) in
    (Z.max 1 nw, Z.max 1 nh).

(** The source pixel of a pixel of the resized picture, relative to the corner. *)
Definition nearest (w h nw nh x y : Z) : Z * Z := (x * w / nw, y * h / nh).

(** The decoders and the JPEG encoder of package [image], base64 and the S3
    download are arguments. *)
Context (base64 : string -> string) (shrink : string -> result string string)
        (fetch : string -> result string string).

Definition prepareVisionImageBase64 (raw contentType : string) : result string (string * string) :=
  if Z.of_nat (String.length raw) <=? downscaleThresholdBytes then
    let mime := normalizeMIME contentType in
    Ok (base64 raw, if (mime =? "")%string then "image/jpeg" else mime)
  else match shrink raw with
       | Err e => Err e
       | Ok jpeg => Ok (base64 jpeg, "image/jpeg")
       end.

Definition fetchMediaBytesFromS3 (url : string) : result string (string * string) :=
  match fetch url with
  | Err e => Err e
  | Ok data => Ok (data, normalizeMIME (httpDetectMIME data))
  end.

Definition exifReminder (url : string) : string :=
  "MANDATORY NEXT STEPS:" +:+ nl
  +:+ "1. Call doc_fetch on the URL below to extract EXIF metadata (GPS coordinates, camera model, date/time). "
  +:+ "EXIF data is encoded in the raw file bytes and is NOT visible in the image pixels. "
  +:+ "You cannot determine GPS location from pixels alone." +:+ nl
  +:+ "2. AFTER calling doc_fetch, use your vision capabilities to DESCRIBE what you see in the image above. "
  +:+ "You HAVE the image pixels — analyze the visual content (objects, scene, problems, context) "
  +:+ "and combine it with the EXIF metadata in your response." +:+ nl
  +:+ "The URL to fetch is: " +:+ url.

(** The message, whether a picture is inlined, and why not. *)
Definition NipperMessageToEinoMessageWithInlineImages (msg : NipperMessage) : Message * bool * option string :=
  let textOnly := NipperMessageToEinoMessage msg in
  match List.find (fun p => negb (cp_URL p =? "")%string && isImageLikePart p) (mc_Parts (nm_Content msg)) with
  | None => (textOnly, false, None)
  | Some imgPart =>
      match fetchMediaBytesFromS3 (cp_URL imgPart) with
      | Err e => (textOnly, false, Some ("inline image fetch failed: " +:+ e))
      | Ok ("", _) => (textOnly, false, Some "inline image fetch failed: empty image bytes")
      | Ok (rawBytes, mime) =>
          match prepareVisionImageBase64 rawBytes mime with
          | Err e => (textOnly, false, Some ("inline image encode failed: " +:+ e))
          | Ok (b64, outMIME) =>
              if (b64 =? "")%string || (outMIME =? "")%string
              then (textOnly, false, Some "inline image encode failed: empty base64 or mime")
              else
                (Build_Message RoleUser ""
                   [PartText (em_Content textOnly);
                    PartImage ("data:" +:+ outMIME +:+ ";base64," +:+ b64);
                    PartText (exifReminder (cp_URL imgPart))] 0 "", true, None)
          end
      end
  end.
End convert.

(** ** Properties *)

(** A resized picture fits, has at least a pixel, and every one of its pixels is
    taken from inside the original. *)
Lemma resized_fits w h maxDim :
  0 < w -> 0 < h -> 0 < maxDim ->
  let '(nw, nh) := resized w h maxDim in
  1 <= nw <= maxDim /\ 1 <= nh <= maxDim
  /\ forall x y, 0 <= x < nw -> 0 <= y < nh ->
     let '(sx, sy) := nearest w h nw nh x y in 0 <= sx < w /\ 0 <= sy < h.
Proof.
  intros Hw Hh Hm.
  assert (Hn : forall a n d, 0 < d -> 0 < n -> 0 <= a < n -> 0 <= a * d / n < d).
  { intros a n d ? ? ?. split; [apply Z.div_pos; nia|]. apply Z.div_lt_upper_bound; nia. }
  assert (Hs : forall a b, 0 < a -> 0 < b -> a <= b -> 1 <= Z.max 1 (a * maxDim / b) <= maxDim).
  { intros a b ? ? ?. split; [lia|]. apply Z.max_lub; [lia|].
    apply Z.div_le_upper_bound; [lia|]. nia. }
  unfold resized, nearest.
  destruct (Z.leb_spec w 0); [lia|]. destruct (Z.leb_spec h 0); [lia|]. cbn [orb].
  destruct (Z.leb_spec w maxDim), (Z.leb_spec h maxDim); cbn [andb];
    [repeat split; try lia; by apply Hn|..];
    (destruct (Z.leb_spec h w); rewrite (Z.max_r 1 maxDim) by lia;
     [pose proof (Hs h w)|pose proof (Hs w h)]; repeat split; try lia; by apply Hn; try lia).
Qed.

(** The text of a message keeps no control byte but tabs and newlines. *)
Definition plain_byte (c : ascii) : bool := (32 <=? byte_of c) || (byte_of c =? 9) || (byte_of c =? 10).

Lemma high_byte z : 128 <= z < 256 -> plain_byte (of_byte z) = true.
Proof. intros H. unfold plain_byte. rewrite byte_of_of by lia. replace (32 <=? z) with true by lia. done. Qed.

Lemma encode_plain r :
  ((r <? 32) && negb (r =? 10) && negb (r =? 9)) = false -> str_forall plain_byte (utf8_encode r) = true.
Proof.
  intros H. unfold utf8_encode.
  destruct (Z.leb_spec 0 r), (Z.ltb_spec r 128); cbn [andb].
  { cbn [str_forall]. unfold plain_byte. rewrite byte_of_of, andb_true_r by lia.
    destruct (Z.ltb_spec r 32), (Z.eqb_spec r 10), (Z.eqb_spec r 9); try done; lia. }
  all: repeat case_match; cbn [str_forall]; rewrite ?high_byte; try done.
  all: Z.to_euclidean_division_equations; lia.
Qed.

Lemma strip_plain s : str_forall plain_byte (stripControlChars s) = true.
Proof.
  unfold stripControlChars, drop_runes. induction (runes s) as [|r rs IH]; [done|]. simpl.
  destruct (_ && _) eqn:E; [done|]. rewrite str_forall_app, encode_plain by done. done.
Qed.

(** The annotations are not stripped: a control byte of a caption stays. *)
Example caption_keeps_controls :
  let part := Build_ContentPart "image" "" "s3://b/k" "image/png" (String "003" "x") "" float_zero float_zero "" in
  str_forall plain_byte (buildMediaAnnotations (fun r => r) (fun r => r) [part]) = false.
Proof. vm_compute. reflexivity. Qed.
