(* ===== verification/Enrich.v ===== *)
(** * Media enrichment (agent/enrich/pipeline.go, agent/enrich/speech.go)

    Before the model sees a message, its audio parts are transcribed and the
    transcripts become part of the text.  Then the detection of a change of topic
    (agent/topic.go): a fresh session is suggested when a message shares few words
    with the recent ones of the user. *)
From Stdlib Require Import ZArith Lia Bool Ascii String List.
From Corelib Require Import SpecFloat.
From stdpp Require Import base gmap strings option list.
From S2P Require Import Prelude GoString GoFloat Models Convert.

Local Open Scope string_scope.

Record ContentPartView := { pv_Type : string; pv_URL : string; pv_MimeType : string; pv_Caption : string }.
Record EnrichmentResult := { er_Transcript : string }.

(** An [Enricher]: a nil result is [Ok None]. *)
Record Enricher := {
  en_Supports : string -> bool;
  en_Enrich : ContentPartView -> result string (option EnrichmentResult) }.

Definition Pipeline : Type := list Enricher.

Definition set_transcript (t : string) (p : ContentPart) : ContentPart :=
  Build_ContentPart (cp_Type p) (cp_Text p) (cp_URL p) (cp_MimeType p) (cp_Caption p) t
    (cp_Latitude p) (cp_Longitude p) (cp_Address p).

Definition view_of (p : ContentPart) : ContentPartView :=
  Build_ContentPartView (cp_Type p) (cp_URL p) (cp_MimeType p) (cp_Caption p).

(** One part: the part as it is left, and its transcript. *)
Definition enrich_part (p : Pipeline) (part : ContentPart) : result string (ContentPart * option string) :=
  match List.find (fun e => en_Supports e (cp_Type part)) p with
  | None => Ok (part, None)
  | Some e =>
      match en_Enrich e (view_of part) with
      | Err err => Err err
      | Ok (Some r) => if (er_Transcript r =? "")%string then Ok (part, None)
                       else Ok (set_transcript (er_Transcript r) part, Some (er_Transcript r))
      | Ok None => Ok (part, None)
      end
  end.

(** The loop: the parts as they are left, and the transcripts or the error of
    the first part that fails, after which the others are not visited. *)
Fixpoint enrich_parts (p : Pipeline) (i : Z) (parts : list ContentPart)
    : list ContentPart * result string (list string) :=
  match parts with
  | [] => ([], Ok [])
  | part :: rest =>
      match enrich_part p part with
      | Err e => (parts, Err ("enriching " +:+ cp_Type part +:+ " part " +:+ fmt_d i +:+ ": " +:+ e))
      | Ok (part', t) =>
          let '(rest', r) := enrich_parts p (i + 1)%Z rest in
          (part' :: rest', match r with
                           | Ok ts => Ok (match t with Some t => t :: ts | None => ts end)
                           | Err e => Err e
                           end)
      end
  end.

Definition set_content (c : MessageContent) (m : NipperMessage) : NipperMessage :=
  Build_NipperMessage (nm_MessageID m) (nm_OriginMessageID m) (nm_UserID m) (nm_SessionKey m) (nm_ChannelType m)
    (nm_ChannelIdentity m) c (nm_DeliveryContext m) (nm_Meta m) (nm_Timestamp m) (nm_DedupeKey m).

Definition with_transcripts (text : string) (transcripts : list string) : string :=
  match transcripts with
  | [] => text
  | _ =>
      let joined := str_join transcripts nl in
      if (text =? "")%string then joined else text +:+ nl +:+ nl +:+ "[Voice message]: " +:+ joined
  end.

(** The message is changed in place, also when an error is returned. *)
Definition EnrichMessage (p : Pipeline) (msg : NipperMessage) : result string unit * NipperMessage :=
  match p with
  | [] => (Ok tt, msg)
  | _ =>
      let c := nm_Content msg in
      let '(parts, r) := enrich_parts p 0 (mc_Parts c) in
      match r with
      | Err e => (Err e, set_content (Build_MessageContent (mc_Text c) parts) msg)
      | Ok ts => (Ok tt, set_content (Build_MessageContent (with_transcripts (mc_Text c) ts) parts) msg)
      end
  end.

(** ** Speech to text

    The download and the server's answers (status, body; what [json.Unmarshal]
    makes of the body) are arguments. *)
Section speech.
Context (fetch : string -> result string string) (post : string -> result string (Z * string))
        (decode : string -> result string string).

Definition transcribe (audio : string) : result string string :=
  match post audio with
  | Err e => Err ("sending request: " +:+ e)
  | Ok (status, body) =>
      if negb (status =? 200)%Z then Err ("whisper server returned " +:+ fmt_d status +:+ ": " +:+ body)
      else match decode body with
           | Err e => Err ("parsing whisper response: " +:+ e)
           | Ok text => Ok (trim_space text)
           end
  end.

Definition Speech_Enrich (part : ContentPartView) : result string (option EnrichmentResult) :=
  if (pv_URL part =? "")%string then Err "audio part has no URL"
  else match fetch (pv_URL part) with
       | Err e => Err ("fetching audio: " +:+ e)
       | Ok audio => match transcribe audio with
                     | Err e => Err ("transcribing audio: " +:+ e)
                     | Ok t => Ok (Some (Build_EnrichmentResult t))
                     end
       end.

Definition SpeechEnricher : Enricher := Build_Enricher (fun ty => (ty =? "audio")%string) Speech_Enrich.
End speech.

(** ** Properties *)

Definition occurs (t s : string) : Prop := exists a b, s = a +:+ t +:+ b.

Lemma occurs_app_r t a s : occurs t s -> occurs t (a +:+ s).
Proof. intros (x & y & ->). exists (a +:+ x), y. by rewrite str_app_assoc. Qed.

Lemma occurs_join t ts sep : In t ts -> occurs t (str_join ts sep).
Proof.
  unfold str_join. induction ts as [|x ts IH]; [done|]. intros [->|Hin].
  - destruct ts as [|y ts]; cbn [String.concat].
    + exists "", "". by rewrite str_app_nil_r.
    + exists "". eexists. reflexivity.
  - destruct ts as [|y ts]; [done|]. cbn [String.concat]. by apply occurs_app_r, occurs_app_r, IH.
Qed.

Lemma occurs_text t text ts : In t ts -> occurs t (with_transcripts text ts).
Proof.
  intros Hin. destruct ts as [|x ts]; [done|]. unfold with_transcripts. destruct (text =? "")%string.
  - by apply occurs_join.
  - by apply occurs_app_r, occurs_app_r, occurs_app_r, occurs_app_r, occurs_join.
Qed.

Lemma enrich_parts_spec p i parts parts' ts :
  enrich_parts p i parts = (parts', Ok ts) ->
  Forall2 (fun part part' => part' = part \/ exists t, part' = set_transcript t part /\ In t ts) parts parts'.
Proof.
  revert i parts' ts. induction parts as [|part parts IH]; intros i parts' ts; simpl; [intros [= <- <-]; constructor|].
  unfold enrich_part. destruct (List.find _ p) as [e|].
  2:{ destruct (enrich_parts p (i + 1) parts) as [rest r] eqn:E. destruct r as [ts'|]; [|done].
      intros [= <- <-]. constructor; [by left|]. by eapply IH. }
  destruct (en_Enrich e (view_of part)) as [[r|]|]; [| |done].
  2:{ destruct (enrich_parts p (i + 1) parts) as [rest r] eqn:E. destruct r as [ts'|]; [|done].
      intros [= <- <-]. constructor; [by left|]. by eapply IH. }
  destruct (er_Transcript r =? "")%string;
    destruct (enrich_parts p (i + 1) parts) as [rest r'] eqn:E; destruct r' as [ts'|]; try done;
    intros [= <- <-]; (constructor; [|eapply Forall2_impl; [by eapply IH|]; naive_solver]).
  - by left.
  - right. eexists. split; [done|]. by left.
Qed.

(** When the pipeline succeeds, every part is as it was or carries a transcript
    that is in the message's text; the rest of the message is unchanged. *)
Lemma enriched_heard p msg msg' :
  EnrichMessage p msg = (Ok tt, msg') ->
  Forall2 (fun part part' => part' = part
      \/ exists t, part' = set_transcript t part /\ occurs t (mc_Text (nm_Content msg')))
    (mc_Parts (nm_Content msg)) (mc_Parts (nm_Content msg'))
  /\ msg' = set_content (nm_Content msg') msg.
Proof.
  assert (Hid : msg = set_content (nm_Content msg) msg) by (by destruct msg).
  unfold EnrichMessage. destruct p as [|e p]; [intros [= <-]; split; [|done]; clear Hid|].
  { induction (mc_Parts (nm_Content msg)); constructor; auto. }
  destruct (enrich_parts (e :: p) 0 (mc_Parts (nm_Content msg))) as [parts r] eqn:E.
  destruct r as [ts|]; [|done]. intros [= <-]. simpl. split; [|by destruct msg].
  eapply Forall2_impl; [by eapply enrich_parts_spec|]. simpl. intros x y [->|(t & -> & Hin)]; [by left|].
  right. exists t. split; [done|]. by apply occurs_text.
Qed.

Definition demo_voice (url : string) : ContentPart :=
  Build_ContentPart "audio" "" url "audio/ogg" "" "" float_zero float_zero "".

Definition demo_pipeline : Pipeline :=
  [SpeechEnricher (fun url => if (url =? "s3://b/lost")%string then Err "no such key" else Ok url)
     (fun _ => Ok (200%Z, "hello")) (fun body => Ok body)].

Definition demo_voices (urls : list string) : NipperMessage :=
  set_content (Build_MessageContent "" (map demo_voice urls)) zero_msg.

Lemma enriched_heard_witness :
  let msg' := snd (EnrichMessage demo_pipeline (demo_voices ["s3://b/1"])) in
  mc_Text (nm_Content msg') = "hello"
  /\ Forall2 (fun part part' => part' = part
       \/ exists t, part' = set_transcript t part /\ occurs t (mc_Text (nm_Content msg')))
     [demo_voice "s3://b/1"] (mc_Parts (nm_Content msg')).
Proof.
  split; [vm_compute; reflexivity|].
  destruct (enriched_heard demo_pipeline (demo_voices ["s3://b/1"]) _ eq_refl) as [H _]. exact H.
Defined.

(** When a later part fails, the transcripts of the earlier ones are dropped but
    those parts are marked as transcribed: the request to the model has neither
    their words nor their links. *)
Example voice_lost :
  let msg' := snd (EnrichMessage demo_pipeline (demo_voices ["s3://b/1"; "s3://b/lost"])) in
  let content := em_Content (NipperMessageToEinoMessage (fun r => r) (fun r => r) msg') in
  str_contains content "hello" = false /\ str_contains content "s3://b/1" = false
  /\ str_contains content "s3://b/lost" = true.
Proof. vm_compute. done. Qed.

(** ** Changes of topic *)
Local Open Scope Z_scope.

Definition topicChangeThreshold : float64 := f_const 92 (-2).
Definition minHistoryForTopicDetection : nat := 4.
Definition recentWindowForTopicDetection : nat := 6.

Definition stopWords : gset string := list_to_set
  ["the"; "and"; "for"; "are"; "but"; "not"; "you"; "all"; "can"; "had"; "her"; "was"; "one"; "our"; "out";
   "has"; "have"; "been"; "would"; "could"; "that"; "this"; "with"; "from"; "they"; "will"; "what"; "when";
   "make"; "like"; "just"; "know"; "take"; "come"; "than"; "them"; "very"; "some"; "into"; "does"; "also";
   "about"; "which"; "their"; "there"; "other"; "these"; "after"; "should"; "where";
   "que"; "los"; "las"; "del"; "por"; "una"; "con"; "para"; "como"; "pero"; "más"; "este"; "esta"; "esto"; "eso"].

Definition topic_suggestion : string :=
  "It looks like you're switching topics. Consider sending `/new` to start a fresh context for better results.".

Section topic.
(** [unicode.ToLower], [IsLetter] and [IsDigit] outside ASCII. *)
Context (fold : Z -> Z) (letter digit : Z -> bool).

Definition word_rune (r : Z) : bool :=
  if r <? 128 then ((48 <=? r) && (r <=? 57)) || ((65 <=? r) && (r <=? 90)) || ((97 <=? r) && (r <=? 122))
  else letter r || digit r.

Definition extractWords (text : string) : gset string :=
  list_to_set (List.filter (fun raw => negb ((String.length raw <=? 2)%nat || bool_decide (raw ∈ stopWords)))
                 (FieldsFunc (fun r => negb (word_rune r)) (to_lower fold text))).

(** The words of the last messages. *)
Definition history_words (recentHistory : list string) : gset string :=
  let recent := drop (length recentHistory - recentWindowForTopicDetection) recentHistory in
  ⋃ (map extractWords recent).

Definition zsize (X : gset string) : Z := Z.of_nat (size X).

Definition detectTopicChange (recentHistory : list string) (newMessage : string) : bool * string :=
  if (length recentHistory <? minHistoryForTopicDetection)%nat then (false, "")
  else
    let newWords := extractWords newMessage in
    if (size newWords <? 3)%nat then (false, "")
    else
      let historyWords := history_words recentHistory in
      if (size historyWords =? 0)%nat then (false, "")
      else
        let intersection := zsize (newWords ∩ historyWords) in
        let union := zsize historyWords + zsize (newWords ∖ historyWords) in
        let distance := f_sub (f_of_int 1) (f_div (f_of_int intersection) (f_of_int union)) in
        if f_leb topicChangeThreshold distance then (true, topic_suggestion) else (false, "").

(** ** Properties *)

(** The counts are those of the intersection and of the union. *)
Lemma jaccard_union (X Y : gset string) : zsize Y + zsize (X ∖ Y) = zsize (X ∪ Y).
Proof.
  assert (Heq : Y ∪ X = X ∪ Y) by (apply set_eq; intros x; rewrite !elem_of_union; split; intros [?|?]; auto).
  unfold zsize. rewrite <- Heq, (size_union_alt Y X). lia.
Qed.

End topic.

Example topic_demo :
  let detect := detectTopicChange (fun r => r) (fun _ => false) (fun _ => false) in
  let garden := ["water the tomato plants"; "tomato leaves yellow"; "fertilizer schedule tomato"; "garden soil moisture"] in
  detect garden "tomato plants need fertilizer" = (false, "")
  /\ detect garden "quarterly invoice reminders" = (true, topic_suggestion)
  /\ detect (tail garden) "quarterly invoice reminders" = (false, "").
Proof. vm_compute. done. Qed.
