(* ===== verification/Skills.v ===== *)
(** * Skills (agent/skills/types.go, agent/skills/loader.go)

    A skill is a directory with a [SKILL.md] and an optional [config.yaml].
    This file models the scan of the skills directory and what the skills add
    to the system prompt.  The directory's contents and the YAML decoder's
    answers are the scan's input. *)
From Stdlib Require Import ZArith Lia Bool Ascii String List Sorting.Sorted.
From stdpp Require Import base gmap strings option list.
From S2P Require Import Prelude GoString Models SessionFs Convert.

Local Open Scope string_scope.
Local Open Scope Z_scope.

(** ** types.go *)

Record SkillSecretRef := {
  sr_Name : string;
  sr_EnvVar : string;
  sr_Provider : string;
  sr_Ref : string }.

Record SkillConfig := {
  sc_Name : string;
  sc_Version : string;
  sc_Description : string;
  sc_PromptHint : string;
  sc_MCPTools : list string;
  sc_Keywords : list string;
  sc_Type : string;
  sc_Runtime : string;
  sc_Entrypoint : string;
  sc_Timeout : Z;
  sc_Secrets : list SkillSecretRef;
  sc_Network : bool;
  sc_Confirm : bool;
  sc_Channels : list string;
  sc_Deps : list string }.

Record Skill := {
  sk_Name : string;
  sk_Path : path;
  sk_Description : string;
  sk_Config : option SkillConfig }.

Definition SkillTypeScript : string := "script".
Definition SkillTypeMCP : string := "mcp".

Definition promptDesc (s : Skill) : string :=
  match sk_Config s with
  | Some c => if (sc_PromptHint c =? "")%string then sk_Description s else sc_PromptHint c
  | None => sk_Description s
  end.

Definition ActivationKeywords (s : Skill) : list string :=
  match sk_Config s with Some c => sc_Keywords c | None => [] end.

Definition MCPToolNames (s : Skill) : list string :=
  match sk_Config s with Some c => sc_MCPTools c | None => [] end.

Definition IsMCPOnly (s : Skill) : bool :=
  match sk_Config s with Some c => (sc_Type c =? SkillTypeMCP)%string | None => false end.

Definition RequiresSandbox (s : Skill) : bool := negb (IsMCPOnly s).

(** The first line of the description that is not blank nor a heading. *)
Definition oneLineDesc (s : Skill) : string :=
  let configured := match sk_Config s with Some c => sc_Description c | None => "" end in
  if negb (configured =? "")%string then configured
  else match List.find (fun line => negb ((line =? "")%string || has_prefix line "#"))
               (map trim_space (split_on "010" (sk_Description s))) with
       | Some line => if (120 <? String.length line)%nat then str_take 117 line +:+ "..." else line
       | None => sk_Name s
       end.

(** ** The scan *)

Inductive md_stat := MdThere | MdMissing | MdStatFails.

(** An entry of the skills directory: the answers of [Stat] and [ReadFile] on
    its [SKILL.md], and what its [config.yaml] decodes to: [None] when it cannot
    be read, [Some None] when it is malformed. *)
Record dir_entry := {
  de_Name : string;
  de_IsDir : bool;
  de_stat : md_stat;
  de_markdown : option string;
  de_config : option (option SkillConfig) }.

Inductive dir_state :=
| DirMissing
| DirStatFails (e : string)
| DirNotDir
| DirUnreadable (e : string)
| DirEntries (l : list dir_entry).

Record Loader := { ld_skills : list Skill; ld_sandboxAvailable : bool }.

(** [filepath.Base]. *)
Definition filepath_Base (s : string) : string :=
  if (s =? "")%string then "."
  else
    let s' := string_of_list (drop_while_end (Ascii.eqb "/") (list_ascii_of_string s)) in
    if (s' =? "")%string then "/"
    else match last_index "/" s' with Some i => str_drop (S i) s' | None => s' end.

Definition skills_dir (basePath : string) : option path :=
  if (basePath =? "")%string then None
  else if (filepath_Base basePath =? "skills")%string then Some (Clean basePath)
  else Some (Join (Clean basePath) "skills").

Definition load_skill (abs : path -> option path) (dir : path) (e : dir_entry) : option Skill :=
  if negb (de_IsDir e) then None
  else if has_prefix (de_Name e) "." then None
  else match de_stat e with
       | MdMissing | MdStatFails => None
       | MdThere =>
           match de_markdown e with
           | None => None
           | Some desc =>
               let skillPath := Join dir (de_Name e) in
               Some {| sk_Name := de_Name e; sk_Path := default skillPath (abs skillPath);
                       sk_Description := desc;
                       sk_Config := match de_config e with Some c => c | None => None end |}
           end
       end.

Fixpoint insert_skill (s : Skill) (l : list Skill) : list Skill :=
  match l with
  | [] => [s]
  | x :: l' => match String.compare (sk_Name s) (sk_Name x) with
               | Gt => x :: insert_skill s l'
               | _ => s :: l
               end
  end.

(** [sort.Slice] by name; directory entries have distinct names. *)
Definition sort_skills (l : list Skill) : list Skill := fold_right insert_skill [] l.

Definition NewLoader (abs : path -> option path) (read : path -> dir_state) (basePath : string)
    : result string Loader :=
  match skills_dir basePath with
  | None => Ok (Build_Loader [] true)
  | Some dir =>
      match read dir with
      | DirMissing | DirNotDir => Ok (Build_Loader [] true)
      | DirStatFails e | DirUnreadable e => Err e
      | DirEntries l => Ok (Build_Loader (sort_skills (omap (load_skill abs dir) l)) true)
      end
  end.

Definition SetSandboxAvailable (available : bool) (l : Loader) : Loader := Build_Loader (ld_skills l) available.

Definition availableSkills (l : Loader) : list Skill :=
  if ld_sandboxAvailable l then ld_skills l else List.filter (fun s => negb (RequiresSandbox s)) (ld_skills l).
Definition AvailableSkills : Loader -> list Skill := availableSkills.
Definition Skills (l : Loader) : list Skill := ld_skills l.
Definition skillNames (l : Loader) : list string := map sk_Name (ld_skills l).

Definition SkillByName (name : string) (l : Loader) : option Skill :=
  List.find (fun s => (sk_Name s =? name)%string) (ld_skills l).

(** ** Prompt sections *)

Definition mcp_tag (s : Skill) : string := if IsMCPOnly s then " [MCP-only]" else "".

Definition slim_line (s : Skill) : string :=
  "- " +:+ sk_Name s +:+ mcp_tag s +:+ ": " +:+ oneLineDesc s +:+ nl.

Definition full_entry (s : Skill) : string :=
  let q := String "034" "" in
  let desc := promptDesc s +:+ (if IsMCPOnly s then nl +:+ nl +:+ "(MCP-only: use MCP tools directly, not skill_exec.)" else "") in
  "<skill name=" +:+ q +:+ sk_Name s +:+ q +:+ ">" +:+ nl +:+ desc +:+ nl +:+ "</skill>" +:+ nl +:+ nl.

Definition BuildSlimPromptSection (l : Loader) : string :=
  match availableSkills l with
  | [] => ""
  | available =>
      fold_left (fun b s => b +:+ slim_line s) available
        (nl +:+ nl +:+ "Available skills (use skill_exec tool with skill name as 'name' param; MCP-only skills use MCP tools directly):" +:+ nl)
  end.

Definition skills_header : string :=
  nl +:+ nl +:+ "## Available Skills" +:+ nl +:+ nl
  +:+ "Skills are NOT tools. Use skill_exec with the skill name as 'name' param. "
  +:+ "MCP-only skills: use MCP tools directly (not skill_exec)." +:+ nl +:+ nl.

(** The loop over the skills: the full entries and the one-line ones so far. *)
Definition section_step (active : Skill -> bool) (acc : string * string) (s : Skill) : string * string :=
  let '(full, slim) := acc in
  if active s then (full +:+ full_entry s, slim) else (full, slim +:+ slim_line s).

(** [None]: no matching was attempted, every skill is described in full. *)
Definition BuildPromptSectionForSkills (activeSkills : option (list string)) (l : Loader) : string :=
  match availableSkills l with
  | [] => ""
  | available =>
      let active s := match activeSkills with
                      | None => true
                      | Some names => existsb (String.eqb (sk_Name s)) names
                      end in
      let '(fullSkills, slimSkills) := fold_left (section_step active) available ("", "") in
      skills_header +:+ fullSkills
      +:+ (if (slimSkills =? "")%string then ""
           else "Other skills (send a message mentioning the skill to activate):" +:+ nl +:+ slimSkills)
  end.

Definition BuildPromptSection : Loader -> string := BuildPromptSectionForSkills None.

(** ** Activation by keywords (agent/runtime.go) *)

(** What a message is searched in: its text and the links and texts of its parts. *)
Definition activation_text (fold : Z -> Z) (msg : NipperMessage) : string :=
  fold_left (fun text p =>
      text +:+ (if (cp_URL p =? "")%string then "" else " " +:+ to_lower fold (cp_URL p))
           +:+ (if (cp_Text p =? "")%string then "" else " " +:+ to_lower fold (cp_Text p)))
    (mc_Parts (nm_Content msg)) (to_lower fold (mc_Text (nm_Content msg))).

Definition activated (fold : Z -> Z) (text : string) (s : Skill) : bool :=
  existsb (fun kw => str_contains text (to_lower fold kw)) (ActivationKeywords s).

Definition matchSkillsByMessage (fold : Z -> Z) (allSkills : list Skill) (msg : NipperMessage) : list string :=
  let text := activation_text fold msg in
  if (text =? "")%string then [] else map sk_Name (List.filter (activated fold text) allSkills).

(** ** Properties *)

Lemma section_loop active l full slim :
  fold_left (section_step active) l (full, slim)
  = (full +:+ String.concat "" (map full_entry (List.filter active l)),
     slim +:+ String.concat "" (map slim_line (List.filter (fun s => negb (active s)) l))).
Proof.
  assert (Hc : forall x xs, String.concat "" (x :: xs) = x +:+ String.concat "" xs).
  { intros x [|y ys]; [cbn; by rewrite str_app_nil_r|done]. }
  revert full slim. induction l as [|s l IH]; intros full slim; cbn [fold_left section_step].
  { cbn. by rewrite !str_app_nil_r. }
  destruct (active s) eqn:E; rewrite IH; simpl; rewrite E; cbn [negb map]; by rewrite Hc, str_app_assoc.
Qed.

(** Every available skill is in the section once: in full when it is active,
    as one line when it is not. *)
Lemma section_spec names l : availableSkills l <> [] ->
  let active s := existsb (String.eqb (sk_Name s)) names in
  let slim := String.concat "" (map slim_line (List.filter (fun s => negb (active s)) (availableSkills l))) in
  BuildPromptSectionForSkills (Some names) l
  = skills_header +:+ String.concat "" (map full_entry (List.filter active (availableSkills l)))
    +:+ (if (slim =? "")%string then ""
         else "Other skills (send a message mentioning the skill to activate):" +:+ nl +:+ slim).
Proof.
  intros Hne active slim. unfold BuildPromptSectionForSkills. fold active.
  destruct (availableSkills l) as [|s ss] eqn:E; [done|].
  rewrite section_loop. done.
Qed.

(** The loaded skills are in the order of their names. *)
Definition name_le (a b : Skill) : Prop := String.compare (sk_Name a) (sk_Name b) <> Gt.

Lemma insert_skill_sorted s l : Sorted name_le l -> Sorted name_le (insert_skill s l).
Proof.
  induction l as [|x l IH]; intros H; cbn [insert_skill]; [by repeat constructor|].
  destruct (String.compare (sk_Name s) (sk_Name x)) eqn:E.
  1,2: constructor; [done|]; constructor; unfold name_le; congruence.
  inversion H as [|? ? Hl Hx]; subst. constructor; [by apply IH|].
  assert (Hxs : name_le x s). { unfold name_le. rewrite String.compare_antisym, E. done. }
  destruct l as [|y l]; cbn [insert_skill]; [by constructor|].
  inversion Hx; subst. destruct (String.compare (sk_Name s) (sk_Name y)); by constructor.
Qed.

Lemma loaded_sorted abs read basePath l :
  NewLoader abs read basePath = Ok l -> Sorted name_le (ld_skills l) /\ ld_sandboxAvailable l = true.
Proof.
  unfold NewLoader. destruct (skills_dir basePath) as [dir|]; [destruct (read dir)|]; intros [= <-]; simpl;
    (split; [|done]); try constructor.
  unfold sort_skills. induction (omap _ l0) as [|s ss IH]; simpl; [constructor|]. by apply insert_skill_sorted.
Qed.

(** Cutting a long line by bytes can cut a character. *)
Definition cut_skill : Skill :=
  Build_Skill "s" (true, []) (string_of_list (repeat "a"%char 116) +:+ "é" +:+ string_of_list (repeat "a"%char 10)) None.

Example long_line_cut :
  oneLineDesc cut_skill = string_of_list (repeat "a"%char 116) +:+ String "195" "..."
  /\ existsb (Z.eqb rune_error) (runes (oneLineDesc cut_skill)) = true.
Proof. vm_compute. done. Qed.
