(* ===== verification/ToolMatch.v ===== *)
(** * Finding tools for an intent (agent/tools/matcher.go, embedding_matcher.go, search_tools.go)

    In lean mode the agent binds only the MCP tools that match the user's
    message.  Three matchers rank the catalog: by words, by the similarity of
    embeddings, and by a blend of both.  The embeddings come from a service over
    HTTP ([EmbedStrings]), whose answers are a parameter. *)
From Stdlib Require Import ZArith Lia Bool Ascii String List Sorting.Sorted Permutation.
From Corelib Require Import SpecFloat.
From stdpp Require Import base gmap strings option list sorting.
From S2P Require Import Prelude GoString GoJson GoJsonParse GoJsonProofs GoFloat Http Models JobTools.

Local Open Scope string_scope.
Local Open Scope Z_scope.

Record ToolCatalogEntry := {
  tc_Name : string;
  tc_Description : string;
  tc_ServerName : string;
  tc_Tags : list string }.

(** A ranked result list: the matcher's answer or its error. *)
Definition matcher : Type := string -> list ToolCatalogEntry -> Z -> result string (list string).

(** The first [maxResults] of a list, all of them when it is not positive. *)
Definition cap {A} (maxResults : Z) (l : list A) : list A :=
  if (0 <? maxResults) && (maxResults <? Z.of_nat (length l)) then take (Z.to_nat maxResults) l else l.

(** ** By words *)

Definition splitToolName (name : string) : list string :=
  FieldsFunc (fun r => (r =? 95) || (r =? 45) || (r =? 46)) name.

Definition is_punct (c : ascii) : bool :=
  existsb (Ascii.eqb c) (list_ascii_of_string ".,;:()[]'" ++ ["034"%char]).

Section matchers.
Context (fold : Z -> Z).

Definition score_entry (lower : string) (entry : ToolCatalogEntry) : Z :=
  let hits (ok : string -> bool) (l : list string) := Z.of_nat (count_if (fun w => ok w && str_contains lower w) l) in
  3 * hits (fun part => 3 <=? Z.of_nat (String.length part)) (splitToolName (to_lower fold (tc_Name entry)))
  + hits (fun word => 4 <=? Z.of_nat (String.length word))
      (map (trim_bytes is_punct) (strings_Fields (to_lower fold (tc_Description entry))))
  + 2 * hits (fun _ => true) (map (to_lower fold) (tc_Tags entry)).

(** scored: (name, score) *)
Abbreviation scored := (string * Z)%type.

(** The inner loop of the insertion sort: the new element, at the end of a
    reversed prefix, moves before the elements of smaller score. *)
Fixpoint sift (x : scored) (before : list scored) : list scored :=
  match before with
  | y :: before' => if snd y <? snd x then y :: sift x before' else x :: before
  | [] => [x]
  end.

(** The matches sorted so far, the last one first. *)
Definition insertion_sort (matches : list scored) : list scored :=
  rev (fold_left (fun before x => sift x before) matches []).

Definition Keyword_Match (intent : string) (catalog : list ToolCatalogEntry) (maxResults : Z)
    : result string (list string) :=
  if (intent =? "")%string then Ok []
  else
    let lower := to_lower fold intent in
    let matches := List.filter (fun m => 0 <? snd m) (map (fun e => (tc_Name e, score_entry lower e)) catalog) in
    Ok (map fst (cap maxResults (insertion_sort matches))).

(** ** By embeddings *)

(** The vectors of the indexed tools and the fingerprint they were made for. *)
Record EmbeddingToolMatcher := {
  em_cachedVecs : gmap string (list float64);
  em_cachedFP : Z }.

Definition NewEmbeddingToolMatcher : EmbeddingToolMatcher := Build_EmbeddingToolMatcher ∅ 0.

(** FNV-1a, 64 bits. *)
Definition fnv64a (s : string) (h : Z) : Z :=
  fold_left (fun h c => Z.lxor h (byte_of c) * 1099511628211 mod 2 ^ 64) (list_ascii_of_string s) h.

Fixpoint insert_string (x : string) (l : list string) : list string :=
  match l with
  | [] => [x]
  | y :: l' => match String.compare x y with Gt => y :: insert_string x l' | _ => x :: l end
  end.
Definition sort_strings (l : list string) : list string := fold_right insert_string [] l.

Definition catalogFingerprint (catalog : list ToolCatalogEntry) : Z :=
  fold_left (fun h n => fnv64a n h) (sort_strings (map tc_Name catalog)) 14695981039346656037.

Definition f_zero (x : float64) : bool := match x with S754_zero _ => true | _ => false end.
Definition f_sqrt : float64 -> float64 := SFsqrt float_prec float_emax.

Definition cosineSimilarity (a b : list float64) : float64 :=
  if negb (length a =? length b)%nat || (length a =? 0)%nat then float_zero
  else
    let sum f := fold_left (fun s p => f_add s (f p)) (zip a b) float_zero in
    let dot := sum (fun p => f_mul (fst p) (snd p)) in
    let normA := sum (fun p => f_mul (fst p) (fst p)) in
    let normB := sum (fun p => f_mul (snd p) (snd p)) in
    if f_zero normA || f_zero normB then float_zero
    else f_div dot (f_mul (f_sqrt normA) (f_sqrt normB)).

Definition index_text (e : ToolCatalogEntry) : string :=
  fold_left (fun t tag => t +:+ " " +:+ tag) (tc_Tags e) (tc_Name e +:+ ": " +:+ tc_Description e).

(** The embedding service, the order in which a map is iterated and
    [sort.Slice] by decreasing score are arguments. *)
Context (embed : list string -> result string (list (list float64)))
        (order : forall V, gmap string V -> list (string * V))
        (sort_desc : list (string * float64) -> list (string * float64)).

Definition indexCatalog (catalog : list ToolCatalogEntry) (fp : Z) (m : EmbeddingToolMatcher)
    : result string EmbeddingToolMatcher :=
  match embed (map index_text catalog) with
  | Err e => Err e
  | Ok vecs =>
      Ok (Build_EmbeddingToolMatcher
            (fold_left (fun c p => <[tc_Name (fst p) := snd p]> c) (zip catalog vecs) ∅) fp)
  end.

Definition Embedding_Match (threshold : float64) (intent : string) (catalog : list ToolCatalogEntry)
    (maxResults : Z) (m : EmbeddingToolMatcher) : result string (list string) * EmbeddingToolMatcher :=
  if (intent =? "")%string || (length catalog =? 0)%nat then (Ok [], m)
  else
    let fp := catalogFingerprint catalog in
    match (if em_cachedFP m =? fp then Ok m else indexCatalog catalog fp m) with
    | Err e => (Err ("embedding index: " +:+ e), m)
    | Ok m =>
        match embed [intent] with
        | Err e => (Err ("embed intent: " +:+ e), m)
        | Ok vecs =>
            match vecs with
            | [] | [] :: _ => (Ok [], m)
            | intentVec :: _ =>
                let matches := List.filter (fun p => f_leb threshold (snd p))
                                 (map (fun p => (fst p, cosineSimilarity intentVec (snd p))) (order _ (em_cachedVecs m))) in
                (Ok (map fst (cap maxResults (sort_desc matches))), m)
            end
        end
    end.

(** ** Both *)

(** One list's contribution to the scores: a share of one over the rank. *)
Fixpoint add_ranks (weight : float64) (i : Z) (l : list string) (scores : gmap string float64) : gmap string float64 :=
  match l with
  | [] => scores
  | name :: l' =>
      add_ranks weight (i + 1) l'
        (<[name := f_add (default float_zero (scores !! name)) (f_mul weight (f_div (f_of_int 1) (f_of_int (i + 1))))]> scores)
  end.

(** The primary matcher and the fallback, and the states they leave. *)
Definition Hybrid_Match {St} (primary : string -> list ToolCatalogEntry -> Z -> St -> result string (list string) * St)
    (fallback : matcher) (alpha : float64) (intent : string) (catalog : list ToolCatalogEntry) (maxResults : Z) (m : St)
    : result string (list string) * St :=
  let '(p, m) := primary intent catalog 0 m in
  let f := fallback intent catalog 0 in
  match p, f with
  | Err pe, Err fe => (Err ("both matchers failed: primary: " +:+ pe +:+ ", fallback: " +:+ fe), m)
  | Err _, Ok names => (Ok (cap maxResults names), m)
  | Ok names, _ =>
      let scores := add_ranks alpha 0 names ∅ in
      let scores := match f with
                    | Ok names' => add_ranks (f_sub (f_of_int 1) alpha) 0 names' scores
                    | Err _ => scores
                    end in
      (Ok (map fst (cap maxResults (sort_desc (order _ scores)))), m)
  end.

(** ** search_tools *)

Definition json_field (name value : string) : string := json_quote name +:+ ":" +:+ value.

Definition search_result (entries : list (string * string)) : string :=
  let item e := "{" +:+ json_field "name" (json_quote (fst e)) +:+ ","
                +:+ json_field "description" (json_quote (snd e)) +:+ "}" in
  "{" +:+ json_field "tools" ("[" +:+ str_join (map item entries) "," +:+ "]") +:+ ","
  +:+ json_field "count" (fmt_d (Z.of_nat (length entries))) +:+ "}".

Definition ExecSearchTools {St} (mt : string -> list ToolCatalogEntry -> Z -> St -> result string (list string) * St)
    (catalog : list ToolCatalogEntry) (intent : option string) (m : St) : result string string * St :=
  match intent with
  | None | Some "" => (Ok (search_result []), m)
  | Some i =>
      match mt i catalog 10 m with
      | (Err e, m) => (Err ("matching tools: " +:+ e), m)
      | (Ok matched, m) =>
          let descMap := fold_left (fun d e => <[tc_Name e := tc_Description e]> d) catalog (∅ : gmap string string) in
          (Ok (search_result (map (fun n => (n, default "" (descMap !! n))) matched)), m)
      end
  end.
End matchers.

(** ** The ranking by words *)

Definition by_score (k : Z) (m : string * Z) : bool := snd m =? k.

Lemma sift_by_score k x before :
  List.filter (by_score k) (sift x before)
  = if by_score k x then x :: List.filter (by_score k) before else List.filter (by_score k) before.
Proof.
  induction before as [|y l IH]; simpl; [by destruct (by_score k x)|].
  destruct (Z.ltb_spec (snd y) (snd x)) as [Hlt|Hge]; simpl; [rewrite IH|by destruct (by_score k x)].
  unfold by_score in *. destruct (Z.eqb_spec (snd y) k), (Z.eqb_spec (snd x) k); try done. lia.
Qed.

Definition rising (a b : string * Z) : Prop := snd a <= snd b.
Definition falling (a b : string * Z) : Prop := snd b <= snd a.

Lemma sift_rising x before : StronglySorted rising before -> StronglySorted rising (sift x before).
Proof.
  induction 1 as [|y l Hl IH Hy]; simpl; [by repeat constructor|].
  destruct (Z.ltb_spec (snd y) (snd x)) as [Hlt|Hge].
  - constructor; [done|]. clear IH Hl. induction l as [|z l IHl]; simpl.
    + constructor; [unfold rising; lia|constructor].
    + inversion Hy; subst. destruct (snd z <? snd x); repeat (constructor; auto). unfold rising; lia.
  - constructor; [by constructor|]. constructor; [done|].
    eapply Forall_impl; [exact Hy|]. unfold rising. simpl. lia.
Qed.

Lemma rising_rev l : StronglySorted rising l -> StronglySorted falling (rev l).
Proof.
  induction 1 as [|y l Hl IH Hy]; simpl; [constructor|].
  assert (Hr : Forall (fun a => falling a y) (rev l)).
  { apply Forall_rev in Hy. eapply Forall_impl; [exact Hy|]. done. }
  revert Hr IH. generalize (rev l) as r. induction r as [|z r IHr]; simpl; intros Hz Hs; [by repeat constructor|].
  inversion Hz; inversion Hs; subst. constructor; [auto|]. apply Forall_app. split; [done|by repeat constructor].
Qed.

Lemma sort_acc l before :
  StronglySorted rising before ->
  StronglySorted rising (fold_left (fun b x => sift x b) l before)
  /\ forall k, List.filter (by_score k) (fold_left (fun b x => sift x b) l before)
     = (rev (List.filter (by_score k) l) ++ List.filter (by_score k) before)%list.
Proof.
  revert before. induction l as [|x l IH]; intros before H; [done|].
  destruct (IH (sift x before) (sift_rising x before H)) as [H1 H2]. split; [done|].
  intros k. cbn [fold_left]. rewrite H2, sift_by_score. simpl. destruct (by_score k x); [|done].
  simpl. by rewrite <- app_assoc.
Qed.

Lemma insertion_sort_spec l :
  StronglySorted falling (insertion_sort l)
  /\ forall k, List.filter (by_score k) (insertion_sort l) = List.filter (by_score k) l.
Proof.
  destruct (sort_acc l [] ltac:(constructor)) as [H1 H2]. split; [by apply rising_rev|].
  intros k. unfold insertion_sort.
  assert (Hr : forall l' : list (string * Z), List.filter (by_score k) (rev l') = rev (List.filter (by_score k) l')).
  { induction l' as [|x l' IH]; [done|]. simpl. rewrite List.filter_app, IH. simpl.
    by destruct (by_score k x); rewrite ?app_nil_r. }
  rewrite Hr, H2. simpl. by rewrite app_nil_r, rev_involutive.
Qed.

(** The tools the keyword matcher names are those of the catalog with a positive
    score, by decreasing score and in the order of the catalog where scores are
    equal, cut to the wanted number. *)
Lemma keyword_ranked fold intent catalog maxResults :
  intent <> "" ->
  exists ranked,
    Keyword_Match fold intent catalog maxResults = Ok (map fst (cap maxResults ranked))
    /\ StronglySorted falling ranked
    /\ forall k, List.filter (by_score k) ranked
       = List.filter (fun m => (0 <? snd m) && by_score k m)
           (map (fun e => (tc_Name e, score_entry fold (to_lower fold intent) e)) catalog).
Proof.
  intros Hi. unfold Keyword_Match. apply String.eqb_neq in Hi. rewrite Hi.
  eexists. split; [reflexivity|]. destruct (insertion_sort_spec
    (List.filter (fun m => 0 <? snd m) (map (fun e => (tc_Name e, score_entry fold (to_lower fold intent) e)) catalog)))
    as [H1 H2]. split; [done|]. intros k. rewrite H2. clear H1 H2.
  induction (map _ catalog) as [|m l IH]; [done|]. simpl.
  destruct (0 <? snd m); simpl; [|exact IH]. by rewrite IH.
Qed.

Definition demo_catalog : list ToolCatalogEntry :=
  [Build_ToolCatalogEntry "list_lights" "List the lights of a room" "home" [];
   Build_ToolCatalogEntry "manage_event" "Create or change a calendar event" "google" ["calendar"];
   Build_ToolCatalogEntry "turn_on" "Turn on lights, switches" "home" []].

Lemma keyword_ranked_witness :
  Keyword_Match (fun r => r) "Turn on the lights" demo_catalog 10 = Ok ["turn_on"; "list_lights"]
  /\ exists ranked, Keyword_Match (fun r => r) "Turn on the lights" demo_catalog 10 = Ok (map fst (cap 10 ranked))
     /\ StronglySorted falling ranked.
Proof.
  split; [vm_compute; reflexivity|].
  destruct (keyword_ranked (fun r => r) "Turn on the lights" demo_catalog 10 ltac:(discriminate)) as (l & H1 & H2 & _).
  exists l. split; [exact H1|exact H2].
Defined.

(** The fingerprint of a catalog is that of the concatenated names: another
    catalog can have the same, and is then searched with the old vectors. *)
Example stale_index :
  let entry n := Build_ToolCatalogEntry n "" "" [] in
  let embed texts := Ok (map (fun _ => [f_of_int 1]) texts) : result string (list (list float64)) in
  let search := Embedding_Match embed (fun _ m => map_to_list m) (fun l => l) float_zero "x" in
  fst (search [entry "ab"; entry "c"] 0 (snd (search [entry "a"; entry "bc"] 0 NewEmbeddingToolMatcher)))
  = Ok ["a"; "bc"].
Proof. vm_compute. reflexivity. Qed.

(** ** The embedding service *)

Record OpenAIEmbedder := { oe_baseURL : string; oe_model : string; oe_apiKey : string }.
Definition NewOpenAIEmbedder (baseURL model apiKey : string) : OpenAIEmbedder :=
  Build_OpenAIEmbedder (if (baseURL =? "")%string then "https://api.openai.com/v1" else baseURL) model apiKey.

Record embedding_item := { ei_Embedding : list float64; ei_Index : Z }.
Record openAIEmbeddingResponse := { er_Data : list embedding_item; er_Error : option string }.

Local Open Scope reader_scope.
Definition dec_embedding_item : decoder embedding_item := dec_struct (fun x =>
  let f {B} := @field B ["embedding"; "index"] in
  Build_embedding_item <$$> f "embedding" (dec_slice float_zero dec_float64) (ei_Embedding x) <*> f "index" dec_int64 (ei_Index x)).
Definition dec_embedding_error : decoder string := dec_struct (fun x => field ["message"] "message" dec_string x).
Definition dec_openAIEmbeddingResponse : decoder openAIEmbeddingResponse := dec_struct (fun x =>
  let f {B} := @field B ["data"; "error"] in
  Build_openAIEmbeddingResponse
    <$$> f "data" (dec_slice (Build_embedding_item [] 0) dec_embedding_item) (er_Data x)
    <*> f "error" (dec_ptr "" dec_embedding_error) (er_Error x)).
Local Close Scope reader_scope.

Definition embedding_request (e : OpenAIEmbedder) (texts : list string) : http_call :=
  Build_http_call "POST" (oe_baseURL e +:+ "/embeddings")
    ((if (oe_apiKey e =? "")%string then id else <["Authorization" := ["Bearer " +:+ oe_apiKey e]]>) {[ "Content-Type" := ["application/json"] ]})
    (Some (encode_json (VObj [("input", VArr (map VStr texts)); ("model", VStr (oe_model e))]))).

(** [sort.Slice] by the index; items of one index keep their order. *)
Definition by_index (a b : embedding_item) : Prop := ei_Index a <= ei_Index b.
#[export] Instance by_index_dec : RelDecision by_index := fun a b => decide (ei_Index a <= ei_Index b).
#[export] Instance by_index_total : Total by_index.
Proof. intros a b. unfold by_index. lia. Qed.
#[export] Instance by_index_trans : Transitive by_index.
Proof. intros a b c. unfold by_index. lia. Qed.

Definition EmbedStrings (ask : http_call -> result string http_reply) (e : OpenAIEmbedder) (texts : list string) : result string (list (list float64)) :=
  match ask (embedding_request e texts) with
  | Err err => Err ("embedding HTTP call: " +:+ err)
  | Ok reply =>
      match hr_Body reply with
      | Err _ => Err "decode embedding response"
      | Ok body =>
          match decode_stream dec_openAIEmbeddingResponse (Build_openAIEmbeddingResponse [] None) body with
          | (_, Some _) => Err "decode embedding response"
          | (r, None) =>
              if negb (hr_Status reply =? StatusOK)
              then Err ("embedding API error: status " +:+ fmt_d (hr_Status reply) +:+ match er_Error r with Some m => ": " +:+ m | None => "" end)
              else Ok (map ei_Embedding (merge_sort by_index (er_Data r)))
          end
      end
  end.

Definition Ping (ask : http_call -> result string http_reply) (e : OpenAIEmbedder) : option string :=
  match EmbedStrings ask e ["ping"] with Ok _ => None | Err err => Some err end.

Lemma seqZ_sorted n : forall m, StronglySorted Z.le (seqZ m (Z.of_nat n)).
Proof.
  induction n as [|n IH]; intros m; [constructor|]. rewrite seqZ_cons by lia. constructor.
  - replace (Z.pred (Z.of_nat (S n))) with (Z.of_nat n) by lia. apply IH.
  - apply Forall_seqZ. lia.
Qed.

(** An answer that has every index once gives the vectors in the order of the texts,
    in whatever order it has them. *)
Lemma embedded_in_order (items : list embedding_item) x :
  map ei_Index items ≡ₚ seqZ 0 (Z.of_nat (length items)) -> In x items ->
  map ei_Embedding (merge_sort by_index items) !! Z.to_nat (ei_Index x) = Some (ei_Embedding x).
Proof.
  intros Hp Hx. set (l := merge_sort by_index items). assert (Hl : l ≡ₚ items) by apply merge_sort_Permutation.
  assert (E : map ei_Index l = seqZ 0 (Z.of_nat (length items))).
  { apply (StronglySorted_unique Z.le); [|apply seqZ_sorted|by rewrite Hl].
    - pose proof (StronglySorted_merge_sort by_index items) as Hs. fold l in Hs. clear -Hs.
      induction Hs as [|y l Hs IH Hy]; [constructor|]. cbn. constructor; [done|]. apply Forall_map. by eapply Forall_impl; [exact Hy|]. }
  apply (Permutation_in _ (Permutation_sym Hl)) in Hx. clearbody l. apply list_elem_of_In, list_elem_of_lookup in Hx as [i Hi].
  assert (Hi' : map ei_Index l !! i = Some (ei_Index x)) by by rewrite list_lookup_fmap, Hi.
  rewrite E in Hi'. apply lookup_seqZ in Hi' as [-> _]. replace (Z.to_nat (0 + Z.of_nat i)) with i by lia. by rewrite list_lookup_fmap, Hi.
Qed.

(** An answer with fewer vectors than texts is taken as it is. *)
Example embedded_demo :
  let reply := Ok (Build_http_reply 200 (Ok (json_text "{'data':[{'index':1,'embedding':[2]},{'index':0,'embedding':[1]}]}"))) in
  EmbedStrings (fun _ => reply) (NewOpenAIEmbedder "" "m" "k") ["a"; "b"; "c"] = Ok [[f_of_int 1]; [f_of_int 2]]
  /\ EmbedStrings (fun _ => Ok (Build_http_reply 429 (Ok (json_text "{'error':{'message':'slow down'}}")))) (NewOpenAIEmbedder "" "m" "") [] =
     Err "embedding API error: status 429: slow down".
Proof. vm_compute. done. Qed.
