(* ===== verification/SkillExec.v ===== *)
(** * Running skills (agent/skills/executor.go, agent/skills/secrets.go,
      agent/tools/skill_exec.go)

    A skill's script runs in the sandbox with the skill's secrets in its
    environment; large secrets are staged as files for the time of the run.
    Metrics and observers are left out. *)
From Stdlib Require Import ZArith Lia Bool Ascii String List.
From stdpp Require Import base gmap strings option list.
From S2P Require Import Prelude Enrich GoString GoTime GoJsonParse Models GoAny Sqlite SessionFs ConfigLoad AgentConfig.
From S2P Require Import Sandbox Skills ToolMatch.

Local Open Scope string_scope.
Local Open Scope Z_scope.
Local Open Scope state_scope.

(** ** secrets.go *)

Definition env_map_of (l : list (string * string)) (m : gmap string string) : gmap string string :=
  fold_left (fun m kv => <[fst kv := snd kv]> m) l m.

(** A provider answers a list of references. *)
Abbreviation SecretProvider := (list SkillSecretRef -> result string (gmap string string)).

Section secrets.
Context (env : string -> option string).

Definition EnvVarProvider_Resolve : SecretProvider := fun refs =>
  Ok (fold_left (fun m ref =>
    if negb (sr_Provider ref =? "")%string && negb (sr_Provider ref =? "env")%string then m
    else
      let val := Getenv env (sr_Ref ref) in
      if (val =? "")%string then m else <[sr_EnvVar ref := val]> m) refs ∅).
End secrets.

Abbreviation ProviderRegistry := (gmap string SecretProvider).

Definition ref_provider (ref : SkillSecretRef) : string := if (sr_Provider ref =? "")%string then "env" else sr_Provider ref.

(** Unknown providers and failures are passed over; later values stay. *)
Definition Registry_Resolve (r : ProviderRegistry) (refs : list SkillSecretRef) : gmap string string :=
  fold_left (fun merged ref =>
    match r !! ref_provider ref with
    | None => merged
    | Some p => match p [ref] with Err _ => merged | Ok one => one ∪ merged end
    end) refs ∅.

(** ** executor.go *)

Definition largeSecretThreshold : nat := 4096.
Definition executorDefaultTimeout : Z := 120.

Definition isLargeSecret (v : string) : bool :=
  (largeSecretThreshold <? String.length v)%nat || str_contains v newline.

(** Quotes are escaped, nothing else is. *)
Fixpoint escape_quotes (s : string) : string :=
  match s with
  | EmptyString => ""
  | String c s => if Ascii.eqb c "034" then String "092" (String "034" (escape_quotes s)) else String c (escape_quotes s)
  end.
Definition shellQuote (s : string) : string := String "034" (escape_quotes s +:+ String "034" "").

(** The answer of a run: stdout, stderr, the exit code and the error. *)
Record exec_out := { eo_stdout : string; eo_stderr : string; eo_code : Z; eo_err : option string }.

Record ExecState := { es_sandbox : Sandbox; es_files : gmap path string }.

(** [Executor]; [xc_sandbox] tells whether it has a sandbox manager. *)
Record Executor := {
  xc_sandbox : bool; xc_providers : ProviderRegistry;
  xc_UserID : string; xc_SessionID : string; xc_Workspace : string }.

Section executor.
(** Unicode: upper case, letters and digits outside ASCII; [fmt]'s %g. *)
Context (upper : Z -> Z) (letter digit : Z -> bool) (fmt_g : float64 -> string) (printable : Z -> bool).

Definition toEnvKey (name : string) : string :=
  fold_right (fun r acc =>
    if (r =? 45) || (r =? 32) then "_" +:+ acc
    else if word_rune letter digit r || (r =? 95) then utf8_encode (upper_rune upper r) +:+ acc else acc) "" (runes name).

Definition arg_text (v : jsonv) : option string :=
  match v with
  | JString s => Some s
  | JNumber x => Some (fmt_g x)
  | JBool b => Some (if b then "true" else "false")
  | _ => None
  end.

(** The members of a JSON object as variables and as positional arguments, in the
    order of their names. *)
Definition parseSkillArgs (args : string) : list (string * string) * string :=
  let args := trim_space args in
  if (args =? "")%string || negb (has_prefix args "{") then ([], "")
  else match unmarshal dec_any_map [] args with
  | (_, Some _) => ([], "")
  | (m, None) =>
      let given := omap (fun kv => option_map (fun s => (fst kv, s)) (arg_text (snd kv))) (order_by fst m) in
      (map (fun kv => (toEnvKey (fst kv), snd kv)) given, str_join (map (fun kv => shellQuote (snd kv)) given) " ")
  end.

Context (cfg : SandboxConfig) (docker : list (list string) -> list string -> run_end).
(** Whether a file of the staging directory can be written. *)
Context (writable : path -> bool).

Abbreviation M := (State ExecState).

Definition in_sandbox {A} (m : State Sandbox A) : M A := fun s =>
  let '(a, sb) := m (es_sandbox s) in (a, Build_ExecState sb (es_files s)).
Definition write_file (p : path) (v : string) : M unit :=
  smodify (fun s => Build_ExecState (es_sandbox s) (<[p := v]> (es_files s))).
Definition remove_file (p : path) : M unit :=
  smodify (fun s => Build_ExecState (es_sandbox s) (delete p (es_files s))).

(** ["/" -> "_"]. *)
Fixpoint safe_name (k : string) : string :=
  match k with
  | EmptyString => ""
  | String c k => String (if Ascii.eqb c "/" then "_"%char else c) (safe_name k)
  end.

(** One secret: the environment and the files that were staged. *)
Definition stage_secret (stagingDir : string) (env : gmap string string) (staged : list path) (k v : string)
    : M (gmap string string * list path) :=
  if isLargeSecret v && negb (stagingDir =? "")%string then
    let fpath := Join (Clean stagingDir) (safe_name k) in
    if writable fpath then
      run write_file fpath v;
      sret (<[k +:+ "_FILE" := path_text (Join (Clean secretsMountPoint) (safe_name k))]> env, staged ++ [fpath])%list
    else sret (<[k := v]> env, staged)
  else sret (<[k := v]> env, staged).

Fixpoint stage_secrets (stagingDir : string) (l : list (string * string)) (env : gmap string string) (staged : list path)
    : M (gmap string string * list path) :=
  match l with
  | [] => sret (env, staged)
  | (k, v) :: l =>
      do r <- stage_secret stagingDir env staged k v;
      stage_secrets stagingDir l (fst r) (snd r)
  end.

Definition standard_env (x : Executor) (skill : Skill) : gmap string string :=
  env_map_of
    ([("NIPPER_PLUGIN_NAME", sk_Name skill);
      ("NIPPER_PLUGIN_DIR", path_text (Join (Clean skillsMountPoint) (sk_Name skill)))]
     ++ (if (xc_UserID x =? "")%string then [] else [("NIPPER_USER_ID", xc_UserID x)])
     ++ (if (xc_SessionID x =? "")%string then [] else [("NIPPER_SESSION_ID", xc_SessionID x)])
     ++ (if (xc_Workspace x =? "")%string then [] else [("NIPPER_WORKSPACE", xc_Workspace x)]))%list ∅.

(** Nanoseconds; a longer time declared by the skill is used. *)
Definition skill_timeout (skill : Skill) (timeout : Z) : Z :=
  let timeout := if timeout <=? 0 then executorDefaultTimeout * time_second else timeout in
  match sk_Config skill with
  | Some c =>
      let t := int64 (sc_Timeout c * time_second) in
      if (0 <? sc_Timeout c) && (timeout <? t) then t else timeout
  | None => timeout
  end.

Definition skill_command (skill : Skill) (args : string) : string :=
  let entrypoint := match sk_Config skill with
                    | Some c => if (sc_Entrypoint c =? "")%string then "scripts/run.sh" else sc_Entrypoint c
                    | None => "scripts/run.sh"
                    end in
  trim_space (path_text (Join (Join (Clean skillsMountPoint) (sk_Name skill)) entrypoint) +:+ " " +:+ args).

Definition workflow_text (name : string) : string :=
  "Skill " +:+ go_quote printable name +:+ " is workflow-only (no script). Do not call skill_exec again. Follow the steps for this skill in the "
  +:+ go_quote printable "Available Skills"
  +:+ " section using your available tools (e.g. web_fetch, create_note, list_folders, list_tags).".

Fixpoint remove_files (l : list path) : M unit :=
  match l with [] => sret tt | p :: l => run remove_file p; remove_files l end.

Definition Execute (x : Executor) (skill : Skill) (args : string) : M exec_out :=
  if IsMCPOnly skill then sret (Build_exec_out (workflow_text (sk_Name skill)) "" 0 None)
  else if negb (xc_sandbox x) then
    sret (Build_exec_out "" "" (-1) (Some ("skill " +:+ go_quote printable (sk_Name skill)
      +:+ " requires a sandbox to execute but sandbox is not available; enable sandbox in config or use MCP-only skills")))
  else
    let workDir := if (xc_Workspace x =? "")%string then WorkDir cfg else xc_Workspace x in
    let refs := match sk_Config skill with Some c => sc_Secrets c | None => [] end in
    let resolved := Registry_Resolve (xc_providers x) refs in
    do stagingDir <- sget (fun s => sb_staging (es_sandbox s));
    do staged <- stage_secrets stagingDir (map_to_list resolved) (standard_env x skill) [];
    let '(argsEnv, positional) := parseSkillArgs args in
    let env := env_map_of argsEnv (fst staged) in
    let args := if (positional =? "")%string then args else positional in
    do out <- in_sandbox (ExecWithEnv docker (skill_command skill args) workDir env);
    run remove_files (snd staged);
    sret match out with
         | Ok (stdout, stderr, code) => Build_exec_out stdout stderr code None
         | Err e => Build_exec_out "" "" (-1) (Some e)
         end.

(** ** skill_exec.go *)

Definition skillExecMaxStdoutForLLM : nat := 8192.

Definition last_bytes (n : nat) (s : string) : string := str_drop (String.length s - n) s.

Definition ExecSkillExec (x : Executor) (loader : Loader) (name args : string) : M exec_out :=
  if (name =? "")%string then sret (Build_exec_out "" "" (-1) (Some "skill name is required"))
  else match SkillByName name loader with
  | None => sret (Build_exec_out "" "" (-1) (Some ("skill " +:+ go_quote printable name +:+ " not found")))
  | Some skill =>
      if RequiresSandbox skill && negb (xc_sandbox x) then
        sret (Build_exec_out "" "" (-1) (Some ("skill " +:+ go_quote printable name
          +:+ " requires a sandbox (Docker) to execute, but sandbox is not enabled for this agent; only MCP-only skills (type: mcp) can run without a sandbox")))
      else
        do o <- Execute x skill args;
        sret match eo_err o with
             | Some e => Build_exec_out (eo_stdout o) (eo_stderr o) (eo_code o) (Some ("skill execution: " +:+ e))
             | None =>
                 if (eo_code o =? 0) && (skillExecMaxStdoutForLLM <? String.length (eo_stdout o))%nat
                 then Build_exec_out (last_bytes skillExecMaxStdoutForLLM (eo_stdout o)) (eo_stderr o) (eo_code o) None
                 else o
             end
  end.
End executor.

(** ** The shell reads the arguments back

    Between double quotes a backslash escapes the dollar sign, the backquote, the
    quote, the backslash and the newline; a dollar sign or a backquote starts an
    expansion, which is no plain word ([None]). *)
Fixpoint read_quoted (s : string) : option (string * string) :=
  match s with
  | EmptyString => None
  | String c s' =>
      if Ascii.eqb c "034" then Some ("", s')
      else if Ascii.eqb c "$" || Ascii.eqb c "`" then None
      else if Ascii.eqb c "\" then
        match s' with
        | EmptyString => None
        | String d s'' =>
            match read_quoted s'' with
            | None => None
            | Some (w, rest) =>
                Some (if existsb (Ascii.eqb d) ["$"; "`"; "034"; "\"; "010"]%char then String d w else String c (String d w), rest)
            end
        end
      else match read_quoted s' with Some (w, rest) => Some (String c w, rest) | None => None end
  end.

Fixpoint shell_words (fuel : nat) (s : string) : option (list string) :=
  match fuel, s with
  | S fuel, String q s =>
      if negb (Ascii.eqb q "034") then None
      else match read_quoted s with
      | Some (w, EmptyString) => Some [w]
      | Some (w, String sp rest) =>
          if Ascii.eqb sp " " then option_map (cons w) (shell_words fuel rest) else None
      | None => None
      end
  | _, _ => None
  end.

(** No character that is special between quotes, but quotes. *)
Definition plain_arg (s : string) : bool :=
  str_forall (fun c => negb (Ascii.eqb c "$" || Ascii.eqb c "`" || Ascii.eqb c "\")) s.

Lemma read_escaped s rest : plain_arg s = true ->
  read_quoted (escape_quotes s +:+ String "034" rest) = Some (s, rest).
Proof.
  unfold plain_arg. induction s as [|c s IH]; [done|]. cbn [str_forall escape_quotes]. intros [Hc Hs]%andb_true_iff.
  apply negb_true_iff in Hc. apply orb_false_iff in Hc as [Hc1 Hc2].
  destruct (Ascii.eqb c "034") eqn:E.
  - apply Ascii.eqb_eq in E as ->. change (String "092" (String "034" ?x) +:+ ?y) with (String "092" (String "034" (x +:+ y))).
    cbn [read_quoted]. cbn. by rewrite IH.
  - change (String c ?x +:+ ?y) with (String c (x +:+ y)). cbn [read_quoted]. rewrite E, Hc1, Hc2, IH; done.
Qed.

Lemma words_read_back l : l <> [] -> Forall (fun s => plain_arg s = true) l ->
  shell_words (length l) (str_join (map shellQuote l) " ") = Some l.
Proof.
  induction l as [|s l IH]; [done|]. intros _ Hl. apply Forall_cons in Hl as [Hs Hl].
  destruct l as [|t l].
  - cbn [map length str_join String.concat shell_words]. unfold shellQuote. cbn. by rewrite read_escaped.
  - specialize (IH ltac:(done) Hl). set (rest := t :: l) in *.
    change (length (s :: rest)) with (S (length rest)). change (map shellQuote (s :: rest)) with (shellQuote s :: map shellQuote rest).
    assert (Hj : str_join (shellQuote s :: map shellQuote rest) " "
      = shellQuote s +:+ " " +:+ str_join (map shellQuote rest) " ") by done.
    rewrite Hj. clear Hj. clearbody rest. unfold shellQuote at 1. change (String "034" ?x +:+ ?y) with (String "034" (x +:+ y)).
    cbn [shell_words]. rewrite str_app_assoc. change (String "034" "" +:+ ?y) with (String "034" y).
    change (Ascii.eqb "034" "034") with true. cbn [negb]. rewrite read_escaped by done.
    change (" " +:+ ?x) with (String " " x). cbn match. change (Ascii.eqb " " " ") with true. cbn match. by rewrite IH.
Qed.

Section arguments.
Context (upper : Z -> Z) (letter digit : Z -> bool) (fmt_g : float64 -> string).

(** The values that are given to the script, in the order of their names. *)
Definition given_values (m : list (string * jsonv)) : list string :=
  omap (fun kv => arg_text fmt_g (snd kv)) (order_by fst m).

Lemma positional_values args m :
  has_prefix (trim_space args) "{" = true -> unmarshal dec_any_map [] (trim_space args) = (m, None) ->
  snd (parseSkillArgs upper letter digit fmt_g args) = str_join (map shellQuote (given_values m)) " ".
Proof.
  intros Hp Hm. unfold parseSkillArgs. rewrite Hp, Hm. destruct (String.eqb_spec (trim_space args) "") as [E|_].
  { by rewrite E in Hp. }
  cbn [orb negb snd]. f_equal. unfold given_values. induction (order_by fst m) as [|kv l IH]; [done|].
  cbn. destruct (arg_text fmt_g (snd kv)); [|exact IH]. cbn. f_equal. exact IH.
Qed.

(** C19: when the arguments of a skill are a JSON object whose values have no
    dollar sign, backquote or backslash, the shell reads the words that are put
    behind the script as exactly these values, in the order of their names. *)
Theorem arguments_read_back args m :
  has_prefix (trim_space args) "{" = true -> unmarshal dec_any_map [] (trim_space args) = (m, None) ->
  given_values m <> [] -> Forall (fun s => plain_arg s = true) (given_values m) ->
  shell_words (length (given_values m)) (snd (parseSkillArgs upper letter digit fmt_g args)) = Some (given_values m).
Proof. intros Hp Hm Hne Hpl. rewrite (positional_values args m Hp Hm). by apply words_read_back. Qed.
End arguments.

(** ** Staged secrets *)

Section staging.
Context (upper : Z -> Z) (letter digit : Z -> bool) (fmt_g : float64 -> string) (printable : Z -> bool).
Context (cfg : SandboxConfig) (docker : list (list string) -> list string -> run_end) (writable : path -> bool).

(** The files are those of before, but for the staged ones. *)
Definition files_but (staged : list path) (s s' : ExecState) : Prop :=
  forall p, p ∉ staged -> es_files s' !! p = es_files s !! p.

Lemma stage_secrets_files dir l : forall env staged s,
  let '(r, s') := stage_secrets writable dir l env staged s in
  (forall p, p ∈ staged -> p ∈ snd r) /\ files_but (snd r) s s'.
Proof.
  induction l as [|[k v] l IH]; intros env staged s; [done|]. cbn [stage_secrets]. unfold sbind, stage_secret.
  destruct (isLargeSecret v && _); [destruct (writable _)|]; cbn [sret fst snd].
  - cbn. match goal with |- context [stage_secrets writable dir l ?e ?st ?s0] =>
      specialize (IH e st s0); destruct (stage_secrets writable dir l e st s0) as [r s'] end.
    destruct IH as [H1 H2]. split.
    + intros p Hp. apply H1. set_solver.
    + intros p Hp. rewrite H2 by done. cbn. apply lookup_insert_ne. intros <-. apply Hp, H1. set_solver.
  - apply IH.
  - apply IH.
Qed.

Lemma remove_files_spec l : forall s p, es_files (snd (remove_files l s)) !! p = if bool_decide (p ∈ l) then None else es_files s !! p.
Proof.
  induction l as [|q l IH]; intros s p; [done|]. cbn [remove_files]. unfold sbind, remove_file, smodify. rewrite IH. cbn [es_files].
  destruct (bool_decide_reflect (p ∈ l)).
  - by rewrite bool_decide_true by set_solver.
  - destruct (decide (p = q)) as [->|Hne].
    + rewrite bool_decide_true by set_solver. apply lookup_delete_eq.
    + rewrite bool_decide_false by set_solver. by apply lookup_delete_ne.
Qed.

(** a run of a skill leaves no secret behind: every file there is afterwards
    was there before, with the same contents, whatever docker answered. *)
Lemma secrets_removed x skill args s p v :
  let s' := snd (Execute upper letter digit fmt_g printable cfg docker writable x skill args s) in
  es_files s' !! p = Some v -> es_files s !! p = Some v.
Proof.
  intros s'. subst s'. unfold Execute. destruct (IsMCPOnly skill); [done|]. destruct (negb _); [done|].
  unfold sbind at 1, sget. unfold sbind at 1.
  set (l := map_to_list _). pose proof (stage_secrets_files (sb_staging (es_sandbox s)) l (standard_env x skill) [] s) as H.
  destruct (stage_secrets _ _ l _ _ s) as [[env staged] s1]. destruct H as [_ H]. cbn [fst snd] in *.
  destruct (parseSkillArgs _ _ _ _ _) as [argsEnv positional]. unfold sbind at 1, in_sandbox.
  destruct (ExecWithEnv _ _ _ _ _) as [out sb]. unfold sbind.
  pose proof (remove_files_spec staged (Build_ExecState sb (es_files s1)) p) as Hr.
  destruct (remove_files staged _) as [[] s2]. cbn [snd sret] in *. rewrite Hr. cbn [es_files].
  case_bool_decide; [done|]. by rewrite H.
Qed.
End staging.

(** ** A deployment skill *)

Definition ascii_upper (r : Z) : Z := r.
Definition no_letter (r : Z) : bool := false.

Lemma arguments_read_back_witness :
  shell_words 2 (snd (parseSkillArgs ascii_upper no_letter no_letter (fun _ => "")
                        (json_text "{'to': 'a b; c', 'flag': true}")))
  = Some ["true"; "a b; c"].
Proof.
  apply (arguments_read_back ascii_upper no_letter no_letter (fun _ => "")
    (json_text "{'to': 'a b; c', 'flag': true}") [("to", JString "a b; c"); ("flag", JBool true)]).
  - vm_compute. reflexivity.
  - vm_compute. reflexivity.
  - vm_compute. discriminate.
  - repeat constructor.
Defined.

(** A command substitution is passed on, a backslash at the end escapes the
    closing quote, and an argument can replace a variable of the run. *)
Example substitution_passed :
  snd (parseSkillArgs ascii_upper no_letter no_letter (fun _ => "") (json_text "{'url': '$(id)'}")) = json_text "'$(id)'".
Proof. vm_compute. reflexivity. Qed.
Example backslash_breaks_out :
  shell_words 2 (snd (parseSkillArgs ascii_upper no_letter no_letter (fun _ => "") (json_text "{'a': 'x\\', 'b': '; rm -r .'}")))
  = None.
Proof. vm_compute. reflexivity. Qed.

Definition deploy : Skill :=
  Build_Skill "deploy" (true, []) "" (Some (Build_SkillConfig "deploy" "" "" "" [] [] "script" "" "" 0
    [Build_SkillSecretRef "key" "DEPLOY_KEY" "" "HOST_KEY"] false false [] [])).

Definition deploy_env (n : string) : option string := if (n =? "HOST_KEY")%string then Some "k3y" else None.

Definition deploy_executor : Executor :=
  Build_Executor true {[ "env" := EnvVarProvider_Resolve deploy_env ]} "u1" "" "".

Example argument_replaces_secret :
  let call (args : string) :=
    last (sb_calls (es_sandbox (snd (Execute ascii_upper no_letter no_letter (fun _ => "") (fun _ => true) zero_SandboxConfig
      demo_docker (fun _ => true) deploy_executor deploy args
      (Build_ExecState (Build_Sandbox (Build_Manager "0123456789abcdef" "/tmp/s") []) ∅))))) in
  option_map (fun c => forallb (fun e => existsb (String.eqb e) c) ["DEPLOY_KEY=k3y"; "NIPPER_USER_ID=u1"; "/skills/deploy/scripts/run.sh --now"])
    (call "--now") = Some true /\
  option_map (fun c => forallb (fun e => existsb (String.eqb e) c) ["DEPLOY_KEY=x"; "NIPPER_USER_ID=root"])
    (call (json_text "{'deploy key': 'x', 'nipper-user-id': 'root'}")) = Some true.
Proof. vm_compute. done. Qed.

Lemma secrets_removed_witness :
  let s := Build_ExecState (Build_Sandbox (Build_Manager "0123456789abcdef" "/tmp/s") []) (<[(true, ["keep"]) := "x"]> ∅) in
  let s' := snd (Execute ascii_upper no_letter no_letter (fun _ => "") (fun _ => true) zero_SandboxConfig
                   demo_docker (fun _ => true) deploy_executor deploy "--now" s) in
  es_files s' !! (true, ["keep"]) = Some "x" /\ es_files s !! (true, ["keep"]) = Some "x".
Proof.
  intros s s'. assert (H : es_files s' !! (true, ["keep"]) = Some "x") by (vm_compute; reflexivity). split; [exact H|].
  apply (secrets_removed ascii_upper no_letter no_letter (fun _ => "") (fun _ => true) zero_SandboxConfig
           demo_docker (fun _ => true) deploy_executor deploy "--now" s (true, ["keep"]) "x" H).
Defined.
