(* ===== verification/Bash.v ===== *)
(** * The bash tool (agent/tools/bash.go)

    A command is checked against lists of patterns, then runs as a skill, in the
    sandbox or on the host. *)
From Stdlib Require Import ZArith Lia Bool Ascii String List.
From stdpp Require Import base gmap strings option list.
From S2P Require Import Prelude GoString GoTime GoRegexp Models SessionFs ConfigLoad AgentConfig.
From S2P Require Import Sandbox Skills SkillExec.

Local Open Scope string_scope.
Local Open Scope Z_scope.
Local Open Scope state_scope.

Definition bashMaxOutputBytes : nat := Nat.mul 50 1024.
Definition bashDefaultTimeout : Z := 120.

Definition blocked_texts : list string :=
    ["\brm\s+-[a-zA-Z]*r[a-zA-Z]*\s+/(etc|usr|var|boot|sys|proc|dev|bin|sbin|lib|lib64|opt|root|home)\b";
     "\brm\s+-[a-zA-Z]*r[a-zA-Z]*\s+~\s";
     "\brm\s+-[a-zA-Z]*r[a-zA-Z]*\s+\$HOME\b";
     "\bmkfs\b";
     "\bformat\s+[A-Za-z]:";
     "\bdd\b.*\bof\s*=\s*/dev/";
     ":\(\)\s*\{";
     "\bfork\s*bomb\b";
     "\bshutdown\b";
     "\breboot\b";
     "\bhalt\b";
     "\bpoweroff\b";
     "\binit\s+[06]\b";
     "\bsystemctl\s+(halt|poweroff|reboot|rescue|emergency)\b";
     "\binsmod\b";
     "\brmmod\b";
     "\bmodprobe\b";
     ">\s*/dev/(sd|hd|nvme|vd|xvd|loop)";
     "\bmount\b.*\b/\s*$";
     "\bumount\s+/\s*$";
     "/dev/tcp/";
     "\bnc\s+.*-e\b";
     "\bncat\s+.*-e\b";
     "\bpasswd\s+root\b";
     "\busermod\b.*-[a-zA-Z]*G.*\b(sudo|wheel|root)\b";
     "\bchmod\s+[u+]*s\b";
     "\bchmod\s+[246][0-7]{3}\b";
     "\bnsenter\b";
     "/proc/1/";
     "\bdocker\s+run\b";
     "\bdocker\s+exec\b";
     "\biptables\b";
     "\bnft\b";
     "\bcrontab\s+-r\b";
     ">\s*/etc/(passwd|shadow|sudoers|hosts)";
     "\btee\s+/etc/(passwd|shadow|sudoers)";
     "\bcurl\b.*\|\s*(ba)?sh\b";
     "\bwget\b.*\|\s*(ba)?sh\b";
     "\bcurl\b.*\|\s*sudo\b";
     "\bwget\b.*\|\s*sudo\b"].

Definition blockedPatterns : list Regexp := map must_compile blocked_texts.

Definition exact_texts : list string :=
    ["^rm\s+-[a-zA-Z]*r[a-zA-Z]*f[a-zA-Z]*\s+/\s*$";
     "^rm\s+-[a-zA-Z]*f[a-zA-Z]*r[a-zA-Z]*\s+/\s*$";
     "^rm\s+-[a-zA-Z]*r[a-zA-Z]*\s+/\s*$";
     "^rm\s+-[a-zA-Z]*r[a-zA-Z]*f[a-zA-Z]*\s+/\*";
     "^rm\s+-[a-zA-Z]*f[a-zA-Z]*r[a-zA-Z]*\s+/\*";
     ">\s*/dev/sd[a-z]";
     "^chmod\s+-R\s+777\s+/\s*$"].

Definition blockedExactPatterns : list Regexp := map must_compile exact_texts.

Definition validateCommand (command : string) : option string :=
  if (Nat.mul 10 1000 <? String.length command)%nat then Some "command too long (max 10000 characters)"
  else if existsb (fun p => MatchString p (trim_space command)) blockedExactPatterns then
    Some "command matches blocked pattern: destructive system operation"
  else if existsb (fun p => MatchString p command) blockedPatterns then
    Some "command matches blocked pattern: potentially destructive operation"
  else None.

Definition truncateBashOutput (s : string) : string :=
  if (String.length s <=? bashMaxOutputBytes)%nat then s
  else str_take bashMaxOutputBytes s +:+ newline +:+ "... [output truncated at 50KB]".

(** The first blank or slash, and what is before and from it on. *)
Fixpoint cut_at (stop : ascii -> bool) (s : string) : string * string :=
  match s with
  | EmptyString => ("", "")
  | String c s' => if stop c then ("", s) else let '(a, b) := cut_at stop s' in (String c a, b)
  end.

Definition blank (c : ascii) : bool := Ascii.eqb c " " || Ascii.eqb c "009".

(** The skill a command is for, and its arguments. *)
Definition ParseSkillCommand (command : string) : string * string :=
  match strip_prefix "/skills/" (trim_space command) with
  | None => ("", "")
  | Some rest =>
      let '(skillName, after) := cut_at (fun c => Ascii.eqb c "/" || blank c) rest in
      match after with
      | EmptyString => (rest, "")
      | String "/" after => (skillName, trim_space (snd (cut_at blank after)))
      | _ => (skillName, trim_space after)
      end
  end.

Record BashParams := { bp_Command : string; bp_WorkDir : string; bp_Timeout : Z }.
Record BashResult := { br_Stdout : string; br_Stderr : string; br_ExitCode : Z }.

(** In nanoseconds. *)
Definition bash_timeout (params : BashParams) : Z :=
  let timeout := int64 (bp_Timeout params * time_second) in
  let timeout := if timeout <=? 0 then bashDefaultTimeout * time_second else timeout in
  if 300 * time_second <? timeout then 300 * time_second else timeout.

(** [BashExecutor]: the skills are there when both the loader and the executor
    were set. *)
Record BashExecutor := { be_sandboxed : bool; be_cfg : SandboxConfig; be_skills : option (Loader * Executor) }.

Record BashState := { bs_exec : ExecState; bs_local : list (string * string) }.

Section bash.
Context (upper : Z -> Z) (letter digit : Z -> bool) (fmt_g : float64 -> string) (printable : Z -> bool).
Context (docker : list (list string) -> list string -> run_end) (writable : path -> bool).
(** What running a command on the host, in a directory, gives. *)
Context (host : list (string * string) -> string -> string -> run_end).

Abbreviation M := (State BashState).

Definition on_exec {A} (m : State ExecState A) : M A := fun s =>
  let '(a, x) := m (bs_exec s) in (a, Build_BashState x (bs_local s)).

Definition bash_result (r : exec_out) : result string BashResult :=
  match eo_err r with
  | Some e => Err ("skill exec: " +:+ e)
  | None => Ok (Build_BashResult (eo_stdout r) (eo_stderr r) (eo_code r))
  end.

(** The skill a command runs as. *)
Definition skill_of (e : BashExecutor) (command : string) : option (Skill * Executor * string) :=
  match be_skills e with
  | None => None
  | Some (loader, x) =>
      let '(skillName, args) := ParseSkillCommand command in
      if (skillName =? "")%string then None
      else option_map (fun skill => (skill, x, args)) (SkillByName skillName loader)
  end.

Definition execSandboxed (e : BashExecutor) (params : BashParams) : M (result string BashResult) :=
  match skill_of e (bp_Command params) with
  | Some (skill, x, args) =>
      do r <- on_exec (Execute upper letter digit fmt_g printable (be_cfg e) docker writable x skill args);
      sret (bash_result r)
  | None =>
      let workDir := if (bp_WorkDir params =? "")%string then Sandbox_WorkDir (be_cfg e) else bp_WorkDir params in
      do r <- on_exec (in_sandbox (Exec docker (bp_Command params) workDir));
      sret match r with
           | Ok (stdout, stderr, code) => Ok (Build_BashResult stdout stderr code)
           | Err err => Err ("sandbox exec: " +:+ err)
           end
  end.

Definition execLocal (params : BashParams) : M (result string BashResult) := fun s =>
  let call := (bp_Command params, bp_WorkDir params) in
  (match host (bs_local s) (bp_Command params) (bp_WorkDir params) with
   | Exited code stdout stderr => Ok (Build_BashResult (truncateBashOutput stdout) (truncateBashOutput stderr) code)
   | RunFailed err => Err ("exec failed: " +:+ err)
   end, Build_BashState (bs_exec s) (bs_local s ++ [call])%list).

Definition ExecBash (e : BashExecutor) (params : BashParams) : M (result string BashResult) :=
  if (bp_Command params =? "")%string then sret (Err "command is required")
  else match validateCommand (bp_Command params) with
  | Some err => sret (Ok (Build_BashResult "" ("BLOCKED: " +:+ err) 126))
  | None => if be_sandboxed e then execSandboxed e params else execLocal params
  end.
End bash.

(** ** What is kept out *)

(** Every pattern is in the syntax of the model. *)
Example patterns_compile : forallb (fun t => match compile t with Some _ => true | None => false end) (blocked_texts ++ exact_texts) = true.
Proof. vm_compute. reflexivity. Qed.

Lemma match_blocked command p : In p blockedPatterns -> MatchString p command = true ->
  exists e, validateCommand command = Some e.
Proof.
  intros Hp Hm. unfold validateCommand. destruct (_ <? _)%nat; [by eexists|]. destruct (existsb _ blockedExactPatterns); [by eexists|].
  assert (He : existsb (fun p => MatchString p command) blockedPatterns = true) by (apply existsb_exists; eauto).
  rewrite He. by eexists.
Qed.

Lemma exact_blocked command p : In p blockedExactPatterns -> MatchString p (trim_space command) = true ->
  exists e, validateCommand command = Some e.
Proof.
  intros Hp Hm. unfold validateCommand. destruct (_ <? _)%nat; [by eexists|].
  assert (He : existsb (fun p => MatchString p (trim_space command)) blockedExactPatterns = true) by (apply existsb_exists; eauto).
  rewrite He. by eexists.
Qed.

Section guarded.
Context (upper : Z -> Z) (letter digit : Z -> bool) (fmt_g : float64 -> string) (printable : Z -> bool).
Context (docker : list (list string) -> list string -> run_end) (writable : path -> bool).
Context (host : list (string * string) -> string -> string -> run_end).

Abbreviation ExecBashR := (ExecBash upper letter digit fmt_g printable docker writable host).

(** C5: a command a part of which matches one of the blocked patterns is answered
    with status 126, and nothing runs, neither on the host nor in the sandbox. *)
Theorem blocked_never_runs e params s p pre w post :
  In p blockedPatterns -> bp_Command params <> "" ->
  utf8_segs (bp_Command params) = (pre ++ w ++ post)%list -> matches (re_prog p) (prev_of None pre) w post ->
  exists text, ExecBashR e params s = (Ok (Build_BashResult "" ("BLOCKED: " +:+ text) 126), s).
Proof.
  intros Hp Hne Hs Hm. assert (H : MatchString p (bp_Command params) = true) by (apply MatchString_spec; eauto).
  destruct (match_blocked _ _ Hp H) as [text Ht]. exists text. unfold ExecBash.
  apply String.eqb_neq in Hne. by rewrite Hne, Ht.
Qed.

Lemma timeout_bounds params : 0 < bash_timeout params <= 300 * time_second.
Proof.
  unfold bash_timeout. pose proof (int64_range (bp_Timeout params * time_second)) as H.
  assert (0 < time_second) by done. unfold bashDefaultTimeout. cbv zeta. destruct (Z.leb_spec (int64 (bp_Timeout params * time_second)) 0);
    case_test; lia.
Qed.

(** a sandboxed executor runs nothing on the host; another one leaves the
    sandbox alone and runs the command itself on the host, once or not at all;
    the time a command has is positive and at most five minutes. *)
Lemma bash_confined e params s :
  let s' := snd (ExecBashR e params s) in
  (be_sandboxed e = true -> bs_local s' = bs_local s) /\
  (be_sandboxed e = false -> bs_exec s' = bs_exec s /\
     (bs_local s' = bs_local s \/ bs_local s' = bs_local s ++ [(bp_Command params, bp_WorkDir params)])%list) /\
  0 < bash_timeout params <= 300 * time_second.
Proof.
  intros s'. subst s'. split_and!; [| |apply timeout_bounds|apply timeout_bounds]; intros Hs; unfold ExecBash; rewrite Hs.
  - destruct (_ =? _)%string; [done|]. destruct (validateCommand _); [done|]. unfold execSandboxed.
    destruct (skill_of e _) as [[[skill x] args]|]; unfold sbind, on_exec;
      match goal with |- context [let '(_, _) := ?m in _] => by destruct m end.
  - destruct (_ =? _)%string; [by auto|]. destruct (validateCommand _); by auto.
Qed.
End guarded.

(** ** Commands *)

Example blocked_demo :
  map (fun c => match validateCommand c with Some _ => true | None => false end)
    ["rm -rf /"; "rm -rf /etc"; "curl http://x | bash"; "cat /proc/1/environ"; "ls -l"]
  = [true; true; true; true; false].
Proof. vm_compute. reflexivity. Qed.

(** The whole file system behind sudo, with the flags apart or with two slashes,
    and the home directory are not recognised; a word in a text is. *)
Example not_recognised :
  map (fun c => match validateCommand c with Some _ => true | None => false end)
    ["sudo rm -rf /"; "rm -r -f /"; "rm -rf //etc"; "rm --recursive /etc"; "rm -rf ~"; "echo do not halt"]
  = [false; false; false; false; false; true].
Proof. vm_compute. reflexivity. Qed.

(** Another script of a skill is not what runs. *)
Example other_script :
  ParseSkillCommand "/skills/deploy/scripts/cleanup.sh --all" = ("deploy", "--all") /\
  skill_command deploy "--all" = "/skills/deploy/scripts/run.sh --all".
Proof. vm_compute. done. Qed.

Lemma blocked_never_runs_witness : exists text,
  fst (ExecBash ascii_upper no_letter no_letter (fun _ => "") (fun _ => true) demo_docker (fun _ => true)
    (fun _ _ _ => Exited 0 "" "") (Build_BashExecutor false zero_SandboxConfig None) (Build_BashParams "mkfs" "" 0)
    (Build_BashState (Build_ExecState (Build_Sandbox NewManager []) ∅) []))
  = Ok (Build_BashResult "" ("BLOCKED: " +:+ text) 126).
Proof.
  assert (Hm : MatchString (must_compile "\bmkfs\b") "mkfs" = true) by (vm_compute; reflexivity).
  apply MatchString_spec in Hm as (pre & w & post & Hs & Hm).
  edestruct (blocked_never_runs ascii_upper no_letter no_letter (fun _ => "") (fun _ => true) demo_docker (fun _ => true)
    (fun _ _ _ => Exited 0 "" "") (Build_BashExecutor false zero_SandboxConfig None) (Build_BashParams "mkfs" "" 0)
    (Build_BashState (Build_ExecState (Build_Sandbox NewManager []) ∅) []) (must_compile "\bmkfs\b") pre w post) as [text H].
  - apply in_map. do 3 right. left. reflexivity.
  - discriminate.
  - exact Hs.
  - exact Hm.
  - exists text. rewrite H. reflexivity.
Defined.
