(* ===== verification/SecurityAudit.v ===== *)
(** * Security checks (internal/security/audit.go, runtime.go)

    The audit of the configuration and of the files at the gateway's start, and
    the monitor that goes on checking.  [literal_secret_reported] says which literal
    secrets the audit is sure to find, [monitor_bounded] what the monitor keeps. *)
From Stdlib Require Import ZArith Lia Bool Ascii String List.
From stdpp Require Import base gmap strings option list.
From S2P Require Import Prelude GoString GoTime GoRegexp SessionFs Config ConfigLoad.

Local Open Scope string_scope.
Local Open Scope Z_scope.

Inductive Severity := SeverityCritical | SeverityWarn | SeverityInfo.
#[export] Instance Severity_eq_dec : EqDecision Severity.
Proof. solve_decision. Defined.

Record AuditFinding := {
  fd_CheckID : string; fd_Severity : Severity; fd_Description : string; fd_Remediation : string }.

Definition quote_class : string := "[" +:+ String "034" "\']?".

Definition secret_texts : list string :=
  ["(?i)(password|passwd|secret|token|api_key|apikey)\s*[:=]\s*" +:+ quote_class +:+ "[A-Za-z0-9+/=_\-]{8,}";
   "-----BEGIN\s+(RSA |EC |DSA )?PRIVATE KEY-----";
   "(?i)Bearer\s+[A-Za-z0-9\-._~+/]+=*";
   "AKIA[0-9A-Z]{16}";
   "(?i)sk[-_][a-zA-Z0-9]{20,}";
   "ghp_[A-Za-z0-9]{36}";
   "gho_[A-Za-z0-9]{36}";
   "xox[bpas]-[A-Za-z0-9\-]+";
   "npr_[A-Za-z0-9]{20,}"].

Definition secretPatterns : list Regexp := map must_compile secret_texts.

(** What [os.Stat] and [os.Lstat] give of a file: its permission bits and
    whether it is a link. *)
Record file_info := { fi_perm : Z; fi_symlink : bool }.
Inductive stat_error := StatNotExist | StatError (e : string).

Section audit.
Context (printable : Z -> bool).
(** The environment, and the file system: a status, the names in a directory, and
    the errors of making a directory and of writing a file. *)
Context (env : string -> option string).
Context (stat : string -> result stat_error file_info) (lstat : string -> option file_info).
Context (read_dir : string -> option (list string)).
Context (mkdir_all write_file : string -> option string).

Abbreviation quoted := (go_quote printable).

Definition local_bind (b : string) : bool := (b =? "127.0.0.1")%string || (b =? "localhost")%string.

Definition checkGatewayBind (cfg : Config) : list AuditFinding :=
  let b := Gateway_Bind (Cfg_Gateway cfg) in
  if local_bind b then []
  else [Build_AuditFinding "gateway-bind" SeverityWarn
          ("gateway.bind is " +:+ quoted b +:+ " — binding to all interfaces exposes the gateway to the network; use a reverse proxy and firewall for production")
          "Consider 127.0.0.1 if behind a reverse proxy, or ensure proper firewall rules"].

Definition checkAdminBind (cfg : Config) : list AuditFinding :=
  let a := Gateway_Admin (Cfg_Gateway cfg) in
  if negb (Admin_Enabled a) then []
  else if local_bind (Admin_Bind a) then []
  else [Build_AuditFinding "admin-bind" SeverityWarn
          ("gateway.admin.bind is " +:+ quoted (Admin_Bind a) +:+ " — admin API exposed to network; ensure auth is enabled and access is restricted")
          "Set gateway.admin.bind to 127.0.0.1 for local-only access, or enable gateway.admin.auth.token"].

(** [filepath.Join] of texts, where an empty first element vanishes. *)
Definition join_text (dir elem : string) : string :=
  if (dir =? "")%string then path_text (Clean elem) else path_text (Join (Clean dir) elem).

Definition nipperHomeDir : string :=
  match UserHomeDir env with Err _ => "" | Ok home => join_text home ".open-nipper" end.

(** %04o of the permission bits. *)
Definition octal4 (m : Z) : string :=
  fmt_d (m / 512 mod 8) +:+ fmt_d (m / 64 mod 8) +:+ fmt_d (m / 8 mod 8) +:+ fmt_d (m mod 8).

Definition checkFilesystemPermissions : list AuditFinding :=
  let homeDir := nipperHomeDir in
  if (homeDir =? "")%string then []
  else match stat homeDir with
  | Err StatNotExist => []
  | Err (StatError e) => [Build_AuditFinding "filesystem-permissions" SeverityWarn ("cannot stat " +:+ homeDir +:+ ": " +:+ e) ""]
  | Ok info =>
      if Z.land (fi_perm info) 63 =? 0 then []
      else [Build_AuditFinding "filesystem-permissions" SeverityWarn
              (homeDir +:+ " has mode " +:+ octal4 (fi_perm info) +:+ " — should be 0700 (group/other have access)")
              ("Run: chmod 700 " +:+ homeDir)]
  end.

(** ["${...}"]. *)
Definition is_placeholder (value : string) : bool := has_prefix value "${" && str_contains value "}".

Definition looks_secret (value : string) : bool :=
  existsb (fun pat => MatchString pat ("token: " +:+ value) || MatchString pat value) secretPatterns.

Definition secret_finding (field value : string) : list AuditFinding :=
  if (value =? "")%string || is_placeholder value then []
  else if looks_secret value then
    [Build_AuditFinding "no-secrets-in-config" SeverityCritical
       ("config field " +:+ quoted field +:+ " appears to contain a literal secret/token")
       "Use ${ENV_VAR} placeholder instead of literal values for secrets"]
  else [].

(** The resolved values, when the raw ones were not recorded. *)
Definition fallbackSecretCandidates (cfg : Config) : list (string * string) := collectRawSecretFields cfg.

Definition checkNoSecretsInConfig (cfg : Config) : list AuditFinding :=
  let values := match Cfg_RawSecretFields cfg with [] => fallbackSecretCandidates cfg | l => l end in
  concat (map (fun fv => secret_finding (fst fv) (snd fv)) values).

Definition users_dir : string := join_text nipperHomeDir "users".

Definition is_symlink (p : string) : bool := match lstat p with Some i => fi_symlink i | None => false end.

(** The links among the users' directories. *)
Definition user_links : list string :=
  match read_dir users_dir with
  | None => []
  | Some names => List.filter is_symlink (map (join_text users_dir) names)
  end.

Definition checkUserDirectoryIsolation : list AuditFinding :=
  map (fun p => Build_AuditFinding "user-directory-isolation" SeverityCritical
                  ("symlink found in user directory: " +:+ p)
                  "Remove symlinks from ~/.open-nipper/users/ — they can escape directory isolation") user_links.

Definition checkRabbitMQTLS (cfg : Config) : list AuditFinding :=
  let url := QueueRabbitMQ_URL (Queue_RabbitMQ (Cfg_Queue cfg)) in
  if (url =? "")%string then []
  else if negb (str_contains url "localhost" || str_contains url "127.0.0.1") && negb (has_prefix url "amqps://") then
    [Build_AuditFinding "rabbitmq-tls" SeverityWarn "RabbitMQ URL is non-localhost but does not use amqps:// (TLS)"
       "Use amqps:// for remote RabbitMQ connections"]
  else [].

Definition checkAuditLogWritable : list AuditFinding :=
  let logDir := join_text nipperHomeDir "logs" in
  match mkdir_all logDir with
  | Some e => [Build_AuditFinding "audit-log-writable" SeverityWarn
                 ("audit log directory " +:+ logDir +:+ " is not writable: " +:+ e) "Ensure the logs directory exists and is writable"]
  | None =>
      match write_file (join_text logDir ".audit-check") with
      | Some e => [Build_AuditFinding "audit-log-writable" SeverityWarn
                     ("cannot write to audit log directory " +:+ logDir +:+ ": " +:+ e)
                     "Ensure the logs directory is writable by the gateway process"]
      | None => []
      end
  end.

Definition RunStartupAudit (cfg : Config) : list AuditFinding :=
  (checkGatewayBind cfg ++ checkAdminBind cfg ++ checkFilesystemPermissions ++ checkNoSecretsInConfig cfg
   ++ checkUserDirectoryIsolation ++ checkRabbitMQTLS cfg ++ checkAuditLogWritable)%list.

Definition countBySeverity (findings : list AuditFinding) (sev : Severity) : nat :=
  length (List.filter (fun f => bool_decide (fd_Severity f = sev)) findings).
End audit.

(** ** runtime.go *)

(** [rm_links] are the links in the users' directories; [rm_last] is the count of
    failed registrations of the last window. *)
Record RuntimeMonitor := {
  rm_failed : Z; rm_last : Z; rm_findings : list AuditFinding; rm_datastoreOK : bool; rm_queueOK : bool;
  rm_links : list string }.

Definition NewRuntimeMonitor (links : list string) : RuntimeMonitor := Build_RuntimeMonitor 0 0 [] true true links.

(** The last hundred. *)
Definition addFinding (f : AuditFinding) (m : RuntimeMonitor) : RuntimeMonitor :=
  let l := (rm_findings m ++ [f])%list in
  Build_RuntimeMonitor (rm_failed m) (rm_last m) (skipn (length l - 100) l) (rm_datastoreOK m) (rm_queueOK m) (rm_links m).

Definition RecordFailedRegistration (m : RuntimeMonitor) : RuntimeMonitor :=
  Build_RuntimeMonitor (int64 (rm_failed m + 1)) (rm_last m) (rm_findings m) (rm_datastoreOK m) (rm_queueOK m) (rm_links m).

(** A tick of [registrationFailureLoop]. *)
Definition registration_tick (m : RuntimeMonitor) : RuntimeMonitor :=
  let current := rm_failed m in
  let delta := int64 (current - rm_last m) in
  let m := Build_RuntimeMonitor current current (rm_findings m) (rm_datastoreOK m) (rm_queueOK m) (rm_links m) in
  if 10 <? delta then
    addFinding (Build_AuditFinding "failed-registrations" SeverityWarn
      (fmt_d delta +:+ " failed registration attempts in the last 5 minutes") "") m
  else m.

(** [removable] tells whether a link can be removed; it is reported as removed
    either way. *)
Definition check_link (removable : string -> bool) (m : RuntimeMonitor) (p : string) : RuntimeMonitor :=
  addFinding (Build_AuditFinding "runtime-symlink-detected" SeverityCritical ("symlink detected and removed: " +:+ p) "")
    (Build_RuntimeMonitor (rm_failed m) (rm_last m) (rm_findings m) (rm_datastoreOK m) (rm_queueOK m)
       (if removable p then List.filter (fun q => negb (q =? p)%string) (rm_links m) else rm_links m)).

Definition checkSymlinks (removable : string -> bool) (m : RuntimeMonitor) : RuntimeMonitor :=
  fold_left (check_link removable) (rm_links m) m.

(** [None]: no such subsystem to ask. *)
Definition checkConnectivity (datastore queue : option bool) (m : RuntimeMonitor) : RuntimeMonitor :=
  Build_RuntimeMonitor (rm_failed m) (rm_last m) (rm_findings m) (default (rm_datastoreOK m) datastore)
    (default (rm_queueOK m) queue) (rm_links m).

Inductive monitor_op :=
| OpFailed | OpRegistrationTick | OpSymlinks (removable : string -> bool) | OpConnectivity (datastore queue : option bool)
| OpLink (p : string).

(** [OpLink]: somebody makes a link. *)
Definition monitor_step (m : RuntimeMonitor) (o : monitor_op) : RuntimeMonitor :=
  match o with
  | OpFailed => RecordFailedRegistration m
  | OpRegistrationTick => registration_tick m
  | OpSymlinks removable => checkSymlinks removable m
  | OpConnectivity d q => checkConnectivity d q m
  | OpLink p => Build_RuntimeMonitor (rm_failed m) (rm_last m) (rm_findings m) (rm_datastoreOK m) (rm_queueOK m)
                  (rm_links m ++ [p])%list
  end.

(** ** What the audit is sure to find

    The first of the patterns, taken apart: a keyword and a sign, then eight
    characters of a class or more. *)
Definition first_part (r : re) : re := match r with Cat a _ => a | _ => Eps end.
Definition repeated_class (r : re) : Z -> bool := match r with Cat _ (Cat _ (Star _ (Chr p))) => p | _ => fun _ => false end.
Definition secret_re : re := re_prog (must_compile (hd "" secret_texts)).
Lemma secret_re_shape :
  secret_re = Cat (first_part secret_re) (Cat (times 8 (Chr (repeated_class secret_re))) (Star true (Chr (repeated_class secret_re)))).
Proof. vm_compute. reflexivity. Qed.

Lemma matches_split n a b prev w post :
  matches a prev (firstn n w) (skipn n w ++ post) -> matches b (prev_of prev (firstn n w)) (skipn n w) post ->
  matches (Cat a b) prev w post.
Proof. intros Ha Hb. rewrite <- (firstn_skipn n w). by apply MCat. Qed.


Definition keyword : list cell := utf8_segs "token: ".

(** A closed text against a closed expression, reading the last rune or none with the last factor. *)
Ltac read_closed :=
  first [ apply MEps | apply MChr; reflexivity | apply MStarNil | apply MGroup; read_closed
        | apply MAltR; read_closed | apply MAltL; read_closed
        | match goal with
          | |- matches (Star _ _) _ [_] _ => apply (MStarMore _ _ _ [_] []); [discriminate|read_closed|apply MStarNil]
          | |- matches (Cat _ _) _ ?w _ =>
              let n := eval vm_compute in (length w) in
              first [ apply (matches_split (Nat.pred n)); cbn [firstn skipn Nat.pred app]; [read_closed..]
                    | apply (matches_split n); cbn [firstn skipn app]; [read_closed..] ]
          end ].

Lemma keyword_matches post : matches (first_part secret_re) None keyword post.
Proof.
  let r := eval vm_compute in (first_part secret_re) in change (first_part secret_re) with r.
  let w := eval vm_compute in keyword in change keyword with w.
  (apply (matches_split 7); cbn [firstn skipn app]; [|read_closed];
  apply (matches_split 6); cbn [firstn skipn app]; [|read_closed];
  apply (matches_split 5); cbn [firstn skipn app]; [|read_closed];
  apply (matches_split 5); cbn [firstn skipn app]; [|read_closed];
  apply (matches_split 0); cbn [firstn skipn app]; [read_closed|]).
  apply MGroup, MAltR, MAltR, MAltR, MAltL.
  apply (matches_split 4); cbn [firstn skipn app]; read_closed.
Qed.

Definition secret_char (r : Z) : bool := re_digit r || re_word r || existsb (Z.eqb r) [43; 47; 61; 95; 45].

Lemma secret_char_class r : secret_char r = true -> repeated_class secret_re r = true.
Proof.
  intros H. assert (Hb : 0 <= r < 128).
  { unfold secret_char, re_word, re_digit in H. cbn [existsb] in H. bool_hyps; lia. }
  assert (Hall : forallb (fun n => implb (secret_char (Z.of_nat n)) (repeated_class secret_re (Z.of_nat n))) (seq 0 128) = true).
  { vm_compute. reflexivity. }
  rewrite forallb_forall in Hall. specialize (Hall (Z.to_nat r)). rewrite in_seq, Z2Nat.id in Hall by lia.
  rewrite H in Hall. apply Hall. lia.
Qed.

Lemma matches_times p prev l post : Forall (fun c => p (fst c) = true) l -> matches (times (length l) (Chr p)) prev l post.
Proof.
  intros H. revert prev. induction H as [|c l Hc _ IH]; intros prev; [apply MEps|].
  apply (MCat _ _ _ [c] l); [by apply MChr|apply IH].
Qed.

(** A value that starts with eight characters of a secret. *)
Definition starts_secret (v : string) : bool :=
  (8 <=? length (runes v))%nat && forallb secret_char (firstn 8 (runes v)).

Lemma starts_secret_looks v : starts_secret v = true -> looks_secret v = true.
Proof.
  unfold starts_secret, runes. rewrite length_map, firstn_map. intros [Hl Hs]%andb_true_iff.
  apply Nat.leb_le in Hl. rewrite forallb_forall in Hs.
  unfold looks_secret. apply existsb_exists. exists (must_compile (hd "" secret_texts)).
  split; [by left|]. apply orb_true_iff. left. apply MatchString_spec.
  exists [], (keyword ++ firstn 8 (utf8_segs v))%list, (skipn 8 (utf8_segs v)). split.
  - change ("token: " +:+ v) with (String "t" (String "o" (String "k" (String "e" (String "n" (String ":" (String " " v))))))).
    change (utf8_segs ?x) with (keyword ++ utf8_segs v)%list at 1.
    cbn [app]. by rewrite <- app_assoc, firstn_skipn.
  - change (re_prog _) with secret_re. rewrite secret_re_shape. apply MCat; [apply keyword_matches|].
    rewrite <- (app_nil_r (firstn 8 _)). apply MCat; [|apply MStarNil].
    assert (E : length (firstn 8 (utf8_segs v)) = 8%nat) by (rewrite length_firstn; lia).
    rewrite <- E at 1. apply matches_times. apply List.Forall_forall. intros c Hc.
    apply secret_char_class, Hs, in_map_iff. by exists c.
Qed.

Lemma placeholder_not_secret v : is_placeholder v = true -> starts_secret v = false.
Proof.
  unfold is_placeholder. intros [H _]%andb_true_iff. apply has_prefix_iff in H as [r ->].
  unfold starts_secret. apply andb_false_r.
Qed.

Lemma secret_finding_spec printable field v f :
  In f (secret_finding printable field v) <->
  v <> "" /\ is_placeholder v = false /\ looks_secret v = true /\
  f = Build_AuditFinding "no-secrets-in-config" SeverityCritical
        ("config field " +:+ go_quote printable field +:+ " appears to contain a literal secret/token")
        "Use ${ENV_VAR} placeholder instead of literal values for secrets".
Proof.
  unfold secret_finding. destruct (v =? "")%string eqn:E1; cbn [orb].
  { apply String.eqb_eq in E1. split; [done|by intros (? & _)]. }
  destruct (is_placeholder v); cbn [orb]; [split; [done|by intros (_ & ? & _)]|].
  destruct (looks_secret v); [|split; [done|by intros (_ & _ & ? & _)]].
  apply String.eqb_neq in E1. split; [intros [<-|[]]; done|]. intros (_ & _ & _ & ->). by left.
Qed.

(** C9: A secret written out in the configuration file is reported, whatever else the
    audit finds: when the raw text of a field that may hold a secret starts with eight
    letters, digits or signs of a token, the audit has a critical finding that names the
    field.  And such a finding always names a recorded field whose raw text is neither
    empty nor a placeholder. *)
Theorem literal_secret_reported printable env stat lstat read_dir mkdir_all write_file cfg :
  Cfg_RawSecretFields cfg <> [] ->
  let reported field := exists f, In f (RunStartupAudit printable env stat lstat read_dir mkdir_all write_file cfg)
    /\ fd_CheckID f = "no-secrets-in-config" /\ fd_Severity f = SeverityCritical
    /\ fd_Description f = "config field " +:+ go_quote printable field +:+ " appears to contain a literal secret/token" in
  (forall field v, In (field, v) (Cfg_RawSecretFields cfg) -> starts_secret v = true -> reported field)
  /\ (forall f, In f (RunStartupAudit printable env stat lstat read_dir mkdir_all write_file cfg) ->
      fd_CheckID f = "no-secrets-in-config" ->
      exists field v, In (field, v) (Cfg_RawSecretFields cfg) /\ v <> "" /\ is_placeholder v = false
        /\ fd_Description f = "config field " +:+ go_quote printable field +:+ " appears to contain a literal secret/token").
Proof.
  intros Hraw reported.
  assert (Hf : forall f, In f (checkNoSecretsInConfig printable cfg) <->
                 exists field v, In (field, v) (Cfg_RawSecretFields cfg) /\ In f (secret_finding printable field v)).
  { intros f. unfold checkNoSecretsInConfig. destruct (Cfg_RawSecretFields cfg) as [|x l] eqn:E; [done|]. rewrite <- E.
    rewrite in_concat. split.
    - intros (y & Hy & Hin). apply in_map_iff in Hy as ([field v] & <- & Hx). by exists field, v.
    - intros (field & v & Hx & Hin). eexists. split; [|exact Hin]. apply (in_map (fun fv => secret_finding printable (fst fv) (snd fv)) _ (field, v) Hx). }
  split.
  - intros field v Hin Hv. eexists. split.
    + unfold RunStartupAudit. rewrite !in_app_iff. do 3 right. left. apply Hf. exists field, v. split; [done|].
      apply secret_finding_spec. split_and!; [by intros ->| |by apply starts_secret_looks|done].
      destruct (is_placeholder v) eqn:Ep; [|done]. apply placeholder_not_secret in Ep. congruence.
    + done.
  - intros f Hin Hid. unfold RunStartupAudit in Hin. rewrite !in_app_iff, Hf in Hin.
    destruct Hin as [Hin|[Hin|[Hin|[(field & v & Hin & Hs)|[Hin|[Hin|Hin]]]]]].
    4: { apply secret_finding_spec in Hs as (Hv & Hp & _ & ->). by exists field, v. }
    all: exfalso; revert Hid.
    + unfold checkGatewayBind in Hin. case_match; [destruct Hin|]. by destruct Hin as [<-|[]].
    + unfold checkAdminBind in Hin. repeat case_match; try (by destruct Hin); by destruct Hin as [<-|[]].
    + unfold checkFilesystemPermissions in Hin. repeat case_match; try (by destruct Hin); by destruct Hin as [<-|[]].
    + unfold checkUserDirectoryIsolation in Hin. by apply in_map_iff in Hin as (p & <- & _).
    + unfold checkRabbitMQTLS in Hin. repeat case_match; try (by destruct Hin); by destruct Hin as [<-|[]].
    + unfold checkAuditLogWritable in Hin. repeat case_match; try (by destruct Hin); by destruct Hin as [<-|[]].
Qed.

Lemma literal_secret_reported_witness :
  let cfg := Build_Config (Cfg_Gateway zero_Config) (Cfg_Channels zero_Config) (Cfg_Queue zero_Config) (Cfg_Agents zero_Config)
    (Cfg_Security zero_Config) (Cfg_Datastore zero_Config) (Cfg_Telemetry zero_Config) (Cfg_Observability zero_Config)
    [("channels.slack.bot_token", "${SLACK}"); ("gateway.admin.auth.token", "hunter2-forever")] in
  exists f, In f (RunStartupAudit (fun _ => true) (fun _ => None) (fun _ => Err StatNotExist) (fun _ => None) (fun _ => None)
                    (fun _ => None) (fun _ => None) cfg) /\ fd_Severity f = SeverityCritical.
Proof.
  intros cfg. assert (Hraw : Cfg_RawSecretFields cfg <> []) by discriminate.
  destruct (proj1 (literal_secret_reported (fun _ => true) (fun _ => None) (fun _ => Err StatNotExist) (fun _ => None)
    (fun _ => None) (fun _ => None) (fun _ => None) cfg Hraw) "gateway.admin.auth.token" "hunter2-forever")
    as (f & Hf & _ & Hs & _); [right; left; reflexivity|vm_compute; reflexivity|].
  exists f. split; [exact Hf|exact Hs].
Defined.

(** A text that only starts with a placeholder is taken for one, whatever follows;
    a short or an unusual secret passes. *)
Example secrets_not_seen :
  map (fun v => length (secret_finding (fun _ => true) "f" v)) ["hunter2-forever"; "${A}hunter2-forever"; "hunter2"; "p@ssw0rd!very!long"]
  = [1; 0; 0; 0]%nat.
Proof. vm_compute. reflexivity. Qed.

(** ** The monitor *)

Lemma addFinding_spec f m :
  (length (rm_findings (addFinding f m)) <= 100)%nat /\ In f (rm_findings (addFinding f m))
  /\ rm_links (addFinding f m) = rm_links m.
Proof.
  unfold addFinding. cbn [rm_findings rm_links]. rewrite length_skipn, length_app. cbn [length].
  split_and!; [lia| |done].
  assert (Hk : (length (rm_findings m) + 1 - 100 <= length (rm_findings m))%nat) by lia.
  rewrite skipn_app, (proj2 (Nat.sub_0_le _ _) Hk). apply in_app_iff. right. by left.
Qed.

Lemma fold_check_link removable ps : forall m,
  (length (rm_findings m) <= 100)%nat -> (length (rm_findings (fold_left (check_link removable) ps m)) <= 100)%nat.
Proof. induction ps as [|p ps IH]; intros m Hm; [done|]. apply IH, addFinding_spec. Qed.

Lemma fold_check_link_links removable ps : forall m q,
  In q (rm_links (fold_left (check_link removable) ps m)) <->
  In q (rm_links m) /\ ~ (In q ps /\ removable q = true).
Proof.
  induction ps as [|p ps IH]; intros m q; [cbn; tauto|]. cbn [fold_left]. rewrite IH.
  unfold check_link at 1. rewrite (proj2 (proj2 (addFinding_spec _ _))). cbn [rm_links].
  destruct (removable p) eqn:Ep; [rewrite filter_In, negb_true_iff, String.eqb_neq|].
  - split; [intros [[H Hn] Hp]|intros [H Hp]]; first [split; [split|]|split]; try done; cbn [In] in *;
      [intros [[->|H'] Hr]|intros ->; apply Hp|intros [H' Hr]; apply Hp]; auto.
  - split; intros [H Hp]; (split; [done|]); cbn [In] in *; [intros [[->|H'] Hr]|intros [H' Hr]]; [congruence|auto|auto].
Qed.

(** The monitor keeps at most a hundred findings, whatever happens and in whatever
    order, and a check of the users' directories leaves exactly the links it could not
    remove: the others that were there are gone. *)
Lemma monitor_bounded links ops :
  let m := fold_left monitor_step ops (NewRuntimeMonitor links) in
  (length (rm_findings m) <= 100)%nat
  /\ forall removable q, In q (rm_links (checkSymlinks removable m)) <-> In q (rm_links m) /\ removable q = false.
Proof.
  intros m. split.
  - subst m. rewrite <- fold_left_rev_right. induction (rev ops) as [|o l IH]; [cbn; lia|].
    cbn [fold_right]. destruct o; cbn [monitor_step rm_findings RecordFailedRegistration checkConnectivity]; try exact IH.
    + unfold registration_tick. case_match; [apply addFinding_spec|exact IH].
    + by apply fold_check_link.
  - intros removable q. unfold checkSymlinks. rewrite fold_check_link_links.
    destruct (removable q); intuition congruence.
Qed.
