(* ===== verification/Lifecycle.v ===== *)
(** * Ordered shutdown (internal/lifecycle/lifecycle.go)

    The components of the gateway in their phases.  The components of a phase are
    stopped by goroutines of their own: a run of a shutdown is a sequence of moves,
    one for each thing a goroutine or a clock may do next, in any order.
    [shutdown_ordered] is about every run that ends, [shutdown_ends] says that runs
    do. *)
From Stdlib Require Import ZArith Lia Bool String List Sorting.Sorted.
From stdpp Require Import base strings option list sorting.
From S2P Require Import Prelude GoString.

Local Open Scope string_scope.
Local Open Scope Z_scope.

Definition PhaseHTTP : Z := 10.
Definition PhaseAdapters : Z := 20.
Definition PhaseDrain : Z := 30.
Definition PhaseConsumers : Z := 40.
Definition PhasePublishers : Z := 50.
Definition PhaseBrokers : Z := 60.
Definition PhaseDatastore : Z := 70.
Definition PhaseTelemetry : Z := 80.
Definition PhaseLogger : Z := 90.

(** [co_StopFn] tells whether there is a function to stop the component; what it
    returns is part of a move.  No code calls [StartFn]. *)
Record Component := { co_Name : string; co_Phase : Z; co_StopFn : bool }.

#[export] Instance Component_eq_dec : EqDecision Component.
Proof. solve_decision. Defined.

Record Manager := { components : list Component; timeout : Z }.

Definition NewManager (t : Z) : Manager := Build_Manager [] (if t <=? 0 then 30000000000 else t).
Definition Register (c : Component) (m : Manager) : Manager := Build_Manager (components m ++ [c]) (timeout m).
Definition RegisterStop (name : string) (phase : Z) (stop : bool) (m : Manager) : Manager :=
  Register (Build_Component name phase stop) m.
Definition ComponentCount (m : Manager) : Z := Z.of_nat (length (components m)).

(** [sort.SliceStable] by the phase. *)
Fixpoint insert_component (c : Component) (l : list Component) : list Component :=
  match l with
  | [] => [c]
  | d :: l' => if co_Phase c <=? co_Phase d then c :: l else d :: insert_component c l'
  end.
Definition sort_components (l : list Component) : list Component := fold_right insert_component [] l.

Record phaseGroup := { pg_phase : Z; pg_components : list Component }.

Fixpoint group_loop (groups : list phaseGroup) (current : phaseGroup) (comps : list Component) : list phaseGroup :=
  match comps with
  | [] => (groups ++ [current])%list
  | c :: comps =>
      let '(groups, current) :=
        if co_Phase c =? pg_phase current then (groups, current)
        else ((groups ++ [current])%list, Build_phaseGroup (co_Phase c) []) in
      group_loop groups (Build_phaseGroup (pg_phase current) (pg_components current ++ [c])) comps
  end.

Definition groupByPhase (comps : list Component) : list phaseGroup :=
  match comps with [] => [] | c :: _ => group_loop [] (Build_phaseGroup (co_Phase c) []) comps end.

(** ** Runs of a shutdown

    [Stopping]: a phase is being stopped.  Of its components [waiting] have a
    goroutine that has not begun and [running] have a stop function that has not
    returned; [expired] tells that the phase's time is over and that this has been
    noticed. *)
Inductive shutdown :=
| Stopping (phase : Z) (waiting running : list Component) (expired : bool) (errs allErrs : list string) (todo : list phaseGroup)
| Stopped (allErrs : list string).

Inductive move :=
| Begin (n : nat)
| Return (n : nat) (err : option string)
| Expire (err : string)
| NextPhase.

Inductive event :=
| Called (c : Component)
| Returned (c : Component) (err : option string).

Definition enter (allErrs : list string) (todo : list phaseGroup) : shutdown :=
  match todo with
  | [] => Stopped allErrs
  | g :: todo => Stopping (pg_phase g) (pg_components g) [] false [] allErrs todo
  end.

Definition remove_nth {A} (n : nat) (l : list A) : list A := firstn n l ++ skipn (S n) l.

Definition stop_error (c : Component) (err : option string) : list string :=
  match err with Some e => [co_Name c +:+ ": " +:+ e] | None => [] end.
Definition phase_error (phase : Z) (e : string) : string := "phase " +:+ fmt_d phase +:+ ": " +:+ e.

Definition shutdown_step (s : shutdown) (m : move) : option (shutdown * list event) :=
  match s with
  | Stopped _ => None
  | Stopping phase waiting running expired errs allErrs todo =>
      match m with
      | Begin n =>
          match waiting !! n with
          | None => None
          | Some c =>
              if co_StopFn c then
                Some (Stopping phase (remove_nth n waiting) (running ++ [c]) expired errs allErrs todo, [Called c])
              else Some (Stopping phase (remove_nth n waiting) running expired errs allErrs todo, [])
          end
      | Return n err =>
          match running !! n with
          | None => None
          | Some c =>
              Some (Stopping phase waiting (remove_nth n running) expired (errs ++ stop_error c err) allErrs todo, [Returned c err])
          end
      | Expire e =>
          if expired then None
          else Some (Stopping phase waiting running true (errs ++ [phase_error phase e]) allErrs todo, [])
      | NextPhase =>
          match waiting, running with
          | [], [] => Some (enter (allErrs ++ errs) todo, [])
          | _, _ => None
          end
      end
  end.

Fixpoint shutdown_run (s : shutdown) (moves : list move) : option (shutdown * list event) :=
  match moves with
  | [] => Some (s, [])
  | m :: moves =>
      match shutdown_step s m with
      | None => None
      | Some (s', evs) =>
          match shutdown_run s' moves with
          | None => None
          | Some (s'', evs') => Some (s'', (evs ++ evs')%list)
          end
      end
  end.

Definition Shutdown (m : Manager) : shutdown := enter [] (groupByPhase (sort_components (components m))).

(** What [Shutdown] returns. *)
Definition shutdown_error (allErrs : list string) : option string :=
  match allErrs with
  | [] => None
  | e :: l => Some ("shutdown errors: [" +:+ e +:+ fold_right (fun x acc => " " +:+ x +:+ acc) "" l +:+ "]")
  end.

(** ** What is called and what returns *)

Definition called (evs : list event) : list Component :=
  concat (map (fun e => match e with Called c => [c] | _ => [] end) evs).
Definition returned (evs : list event) : list Component :=
  concat (map (fun e => match e with Returned c _ => [c] | _ => [] end) evs).
Definition failures (evs : list event) : list string :=
  concat (map (fun e => match e with Returned c err => stop_error c err | _ => [] end) evs).
Definition expiries (moves : list move) : nat :=
  length (List.filter (fun m => match m with Expire _ => true | _ => false end) moves).

Definition stops (l : list Component) : list Component := List.filter co_StopFn l.
Definition before (p : Z) (l : list Component) : list Component := List.filter (fun c => co_Phase c <? p) l.
Definition all_components (todo : list phaseGroup) : list Component := concat (map pg_components todo).

(** ** Lists of components *)

#[export] Instance filterb_Permutation {A} (p : A -> bool) : Proper ((≡ₚ) ==> (≡ₚ)) (List.filter p).
Proof.
  intros l1 l2 H. induction H; cbn; repeat case_match; eauto using Permutation.
Qed.

#[export] Instance before_Permutation p : Proper ((≡ₚ) ==> (≡ₚ)) (before p).
Proof. apply filterb_Permutation. Qed.
#[export] Instance stops_Permutation : Proper ((≡ₚ) ==> (≡ₚ)) stops.
Proof. apply filterb_Permutation. Qed.

Lemma before_app p l1 l2 : before p (l1 ++ l2) = (before p l1 ++ before p l2)%list.
Proof. apply List.filter_app. Qed.
Lemma stops_app l1 l2 : stops (l1 ++ l2) = (stops l1 ++ stops l2)%list.
Proof. apply List.filter_app. Qed.

Lemma before_none p l : Forall (fun c => p <= co_Phase c) l -> before p l = [].
Proof. induction 1 as [|c l Hc _ IH]; [done|]. cbn. case_test; [lia|exact IH]. Qed.

Lemma stops_Forall (P : Component -> Prop) l : Forall P l -> Forall P (stops l).
Proof. induction 1; cbn; [done|]. case_match; [by constructor|done]. Qed.

Lemma called_app e1 e2 : called (e1 ++ e2) = (called e1 ++ called e2)%list.
Proof. unfold called. by rewrite map_app, concat_app. Qed.
Lemma returned_app e1 e2 : returned (e1 ++ e2) = (returned e1 ++ returned e2)%list.
Proof. unfold returned. by rewrite map_app, concat_app. Qed.
Lemma failures_app e1 e2 : failures (e1 ++ e2) = (failures e1 ++ failures e2)%list.
Proof. unfold failures. by rewrite map_app, concat_app. Qed.

Lemma remove_nth_perm {A} (l : list A) n x : l !! n = Some x -> l ≡ₚ x :: remove_nth n l.
Proof. intros H. rewrite <- (take_drop_middle l n x H) at 1. unfold remove_nth. symmetry. apply Permutation_middle. Qed.

(** ** Sorting and grouping *)

Definition phase_le (c d : Component) : Prop := co_Phase c <= co_Phase d.
Definition group_lt (g h : phaseGroup) : Prop := pg_phase g < pg_phase h.
Definition grouped (gs : list phaseGroup) : Prop :=
  StronglySorted group_lt gs /\ Forall (fun g => Forall (fun c => co_Phase c = pg_phase g) (pg_components g)) gs.

Lemma insert_component_perm c l : insert_component c l ≡ₚ c :: l.
Proof.
  induction l as [|d l IH]; [done|]. cbn. case_match; [done|]. rewrite IH. apply perm_swap.
Qed.

Lemma sort_components_perm l : sort_components l ≡ₚ l.
Proof. induction l as [|c l IH]; [done|]. cbn. by rewrite insert_component_perm, IH. Qed.

Lemma insert_component_sorted c l : StronglySorted phase_le l -> StronglySorted phase_le (insert_component c l).
Proof.
  induction 1 as [|d l Hl IH Hd]; cbn; [by repeat constructor|]. case_test.
  - constructor; [by constructor|]. constructor; [done|]. eapply Forall_impl; [exact Hd|]. unfold phase_le. lia.
  - constructor; [exact IH|]. rewrite insert_component_perm. constructor; [unfold phase_le; lia|done].
Qed.

Lemma sort_components_sorted l : StronglySorted phase_le (sort_components l).
Proof. induction l; cbn; [constructor|]. by apply insert_component_sorted. Qed.

Lemma grouped_snoc gs g h :
  grouped (gs ++ [g]) -> group_lt g h -> Forall (fun c => co_Phase c = pg_phase h) (pg_components h) ->
  grouped ((gs ++ [g]) ++ [h]).
Proof.
  intros [Hs Hf] Hlt Hh. split; [|apply Forall_app; auto]. apply StronglySorted_app_2; [|done|by repeat constructor].
  intros x y Hx Hy%list_elem_of_singleton. subst y. apply elem_of_app in Hx as [Hx|Hx%list_elem_of_singleton]; [|by subst].
  assert (group_lt x g); [|unfold group_lt in *; lia].
  eapply StronglySorted_app_1_elem_of; [exact Hs|exact Hx|by apply list_elem_of_singleton].
Qed.

Lemma group_loop_spec comps : forall groups p cs,
  StronglySorted phase_le comps -> Forall (fun c => p <= co_Phase c) comps ->
  grouped (groups ++ [Build_phaseGroup p cs]) ->
  grouped (group_loop groups (Build_phaseGroup p cs) comps)
  /\ all_components (group_loop groups (Build_phaseGroup p cs) comps) = (all_components groups ++ cs ++ comps)%list.
Proof.
  unfold all_components. induction comps as [|c comps IH]; intros groups p cs Hs Hp Hg; cbn [group_loop].
  { by rewrite map_app, concat_app. }
  inversion Hs as [|? ? Hs' Hc]; subst. inversion Hp as [|? ? Hpc Hp']; subst. cbn [pg_phase].
  case_test; cbn [pg_phase pg_components app].
  - destruct (IH groups p (cs ++ [c])%list) as [H1 H2]; [done..| |].
    + destruct Hg as [Hg1 Hg2]. split.
      * apply StronglySorted_app in Hg1 as (H1 & H2 & _). apply StronglySorted_app_2; [|done|by repeat constructor].
        intros x y Hx ->%list_elem_of_singleton. apply (H1 x (Build_phaseGroup p cs) Hx). by apply list_elem_of_singleton.
      * apply Forall_app in Hg2 as [Hg2 Hcs]. apply Forall_app. split; [done|]. constructor; [|done].
        inversion Hcs as [|? ? Hcs' _]; subst. cbn in *. apply Forall_app. auto.
    + by rewrite H2, <- !app_assoc.
  - destruct (IH (groups ++ [Build_phaseGroup p cs])%list (co_Phase c) [c]) as [H1 H2]; [done|done| |].
    + apply grouped_snoc; [done|unfold group_lt; cbn; lia|by constructor].
    + split; [done|]. rewrite H2, map_app, concat_app. cbn. by rewrite app_nil_r, <- !app_assoc.
Qed.

Lemma groupByPhase_spec l : StronglySorted phase_le l ->
  grouped (groupByPhase l) /\ all_components (groupByPhase l) = l.
Proof.
  destruct l as [|c l]; intros Hs; [by repeat constructor|]. unfold groupByPhase.
  destruct (group_loop_spec (c :: l) [] (co_Phase c) []) as [H1 H2]; [done| |by repeat constructor|done].
  inversion Hs; subst. constructor; [lia|done].
Qed.

(** ** Runs *)

Definition follows (p : Z) (todo : list phaseGroup) : Prop := grouped (Build_phaseGroup p [] :: todo).

Lemma follows_all p todo : follows p todo -> Forall (fun c => p < co_Phase c) (all_components todo).
Proof.
  intros [Hs Hf]. inversion Hs as [|? ? _ Hp]; subst. inversion Hf as [|? ? _ Hc]; subst. clear Hs Hf.
  induction todo as [|g todo IH]; [constructor|]. inversion Hp; inversion Hc; subst. unfold all_components. cbn.
  apply Forall_app. split; [|by apply IH]. eapply Forall_impl; [eassumption|]. unfold group_lt in *. cbn in *. lia.
Qed.

Section shutdown.
Context (comps : list Component).

(** Every call comes when all of the phases before have returned. *)
Definition log_ordered (evs : list event) : Prop :=
  forall pre c post, evs = (pre ++ Called c :: post)%list -> before (co_Phase c) (returned pre) ≡ₚ before (co_Phase c) (stops comps).

Definition books (errs : list string) (evs : list event) (n : nat) : Prop :=
  exists l, errs ≡ₚ failures evs ++ l /\ length l = n.

Definition run_inv (s : shutdown) (evs : list event) (n : nat) : Prop :=
  log_ordered evs /\
  match s with
  | Stopping p w r _ errs all todo =>
      called evs ≡ₚ returned evs ++ r
      /\ called evs ++ stops w ++ stops (all_components todo) ≡ₚ stops comps
      /\ Forall (fun c => co_Phase c = p) w /\ Forall (fun c => co_Phase c = p) r /\ follows p todo
      /\ books (all ++ errs) evs n
  | Stopped all => called evs ≡ₚ returned evs /\ called evs ≡ₚ stops comps /\ books all evs n
  end.

Lemma enter_inv all todo evs n :
  log_ordered evs -> called evs ≡ₚ returned evs -> called evs ++ stops (all_components todo) ≡ₚ stops comps ->
  grouped todo -> books all evs n -> run_inv (enter all todo) evs n.
Proof.
  intros Ho Hr Hc [Hs Hf] Hb. split; [done|]. destruct todo as [|g todo]; cbn in *.
  - rewrite app_nil_r in Hc. auto.
  - unfold all_components in Hc. cbn in Hc. rewrite stops_app in Hc. inversion Hf; subst. rewrite !app_nil_r. split_and!; auto.
    inversion Hs; subst. inversion Hf; subst. split; constructor; auto.
Qed.

Lemma log_ordered_quiet evs e : called [e] = [] -> log_ordered evs -> log_ordered (evs ++ [e]).
Proof.
  intros He Ho pre c post H. destruct post as [|e' post _] using rev_ind.
  - apply app_inj_tail in H as [_ ->]. discriminate He.
  - rewrite app_comm_cons, app_assoc in H. apply app_inj_tail in H as [H _]. by apply (Ho _ _ post).
Qed.

Lemma log_ordered_called evs c :
  before (co_Phase c) (returned evs) ≡ₚ before (co_Phase c) (stops comps) -> log_ordered evs -> log_ordered (evs ++ [Called c]).
Proof.
  intros He Ho pre d post H. destruct post as [|e' post _] using rev_ind.
  - apply app_inj_tail in H as [<- [= <-]]. exact He.
  - rewrite app_comm_cons, app_assoc in H. apply app_inj_tail in H as [H _]. by apply (Ho _ _ post).
Qed.

Lemma books_quiet errs evs e n : failures [e] = [] -> books errs evs n -> books errs (evs ++ [e]) n.
Proof. intros He (l & Hl & Hn). exists l. by rewrite failures_app, He, app_nil_r. Qed.

Lemma stops_perm_nth w n c : w !! n = Some c -> stops w ≡ₚ (if co_StopFn c then [c] else []) ++ stops (remove_nth n w).
Proof.
  intros H. etrans; [apply filterb_Permutation, (remove_nth_perm _ _ _ H)|]. cbn. by case_match.
Qed.

Lemma step_inv s m s' evs new n : run_inv s evs n -> shutdown_step s m = Some (s', new) ->
  run_inv s' (evs ++ new) (n + expiries [m]).
Proof.
  destruct s as [p w r expired errs all todo|]; [|done]. intros (Ho & Hr & Hc & Hw & Hp & Hf & Hb).
  destruct m as [k|k err|e|]; cbn [shutdown_step expiries List.filter length]; rewrite ?Nat.add_0_r.
  - destruct (w !! k) as [c|] eqn:Ek; [|done].
    pose proof (remove_nth_perm _ _ _ Ek) as Hpw. rewrite Hpw in Hw. inversion Hw as [|? ? Hpc Hw']; subst.
    rewrite (stops_perm_nth _ _ _ Ek) in Hc. destruct (co_StopFn c); intros [= <- <-].
    + split; [|rewrite called_app, returned_app; cbn [called returned map concat app]; split_and!].
      * apply log_ordered_called; [|done]. rewrite <- Hc, Hr, !before_app.
        rewrite (before_none _ r), (before_none _ [c]), (before_none _ (stops (remove_nth k w))), (before_none _ (stops (all_components todo))), !app_nil_r; [done|..].
        -- apply stops_Forall. eapply Forall_impl; [by apply follows_all|]. cbn. lia.
        -- apply stops_Forall. eapply Forall_impl; [exact Hw'|]. cbn. lia.
        -- by constructor.
        -- eapply Forall_impl; [exact Hp|]. cbn. lia.
      * by rewrite Hr, !app_nil_r, app_assoc.
      * rewrite <- Hc, <- !app_assoc. done.
      * done.
      * apply Forall_app. auto.
      * done.
      * by apply books_quiet.
    + rewrite app_nil_r. by split_and!.
  - destruct (r !! k) as [c|] eqn:Ek; [|done]. intros [= <- <-].
    pose proof (remove_nth_perm _ _ _ Ek) as Hpr. rewrite Hpr in Hp. inversion Hp as [|? ? Hpc Hp']; subst.
    split; [by apply log_ordered_quiet|]. rewrite called_app, returned_app. cbn [called returned map concat app]. rewrite app_nil_r.
    split_and!; auto.
    + rewrite Hr, <- app_assoc. apply Permutation_app_head, Hpr.
    + destruct Hb as (l & Hl & Hn). exists l. split; [|done]. rewrite failures_app. cbn [failures map concat]. rewrite app_nil_r, app_assoc, Hl.
      rewrite <- !app_assoc. apply Permutation_app_head, Permutation_app_comm.
  - destruct expired; [done|]. intros [= <- <-]. rewrite app_nil_r. split; [done|]. split_and!; auto.
    destruct Hb as (l & Hl & Hn). exists (l ++ [phase_error p e])%list. split; [by rewrite app_assoc, Hl, <- app_assoc|].
    rewrite length_app. cbn. lia.
  - destruct w, r; try done. intros [= <- <-]. rewrite app_nil_r in *. cbn [stops List.filter app] in Hc. apply enter_inv; auto.
    destruct Hf as [Hs Hg]. inversion Hs; inversion Hg; subst. by split.
Qed.

Lemma run_run_inv moves : forall s evs n s' new, run_inv s evs n -> shutdown_run s moves = Some (s', new) ->
  run_inv s' (evs ++ new) (n + expiries moves).
Proof.
  induction moves as [|m moves IH]; intros s evs n s' new Hi H; cbn [shutdown_run] in H.
  { injection H as <- <-. by rewrite app_nil_r, Nat.add_0_r. }
  destruct (shutdown_step s m) as [[s1 e1]|] eqn:E1; [|done].
  destruct (shutdown_run s1 moves) as [[s2 e2]|] eqn:E2; [|done]. injection H as <- <-.
  replace (n + expiries (m :: moves))%nat with ((n + expiries [m]) + expiries moves)%nat.
  - rewrite app_assoc. eapply IH; [|exact E2]. by eapply step_inv.
  - unfold expiries. cbn. destruct m; cbn; lia.
Qed.
End shutdown.

(** ** Theorems *)

Lemma Shutdown_groups m :
  grouped (groupByPhase (sort_components (components m)))
  /\ all_components (groupByPhase (sort_components (components m))) ≡ₚ components m.
Proof.
  destruct (groupByPhase_spec _ (sort_components_sorted (components m))) as [H1 H2].
  split; [done|]. rewrite H2. apply sort_components_perm.
Qed.

Lemma Shutdown_inv m moves s evs : shutdown_run (Shutdown m) moves = Some (s, evs) ->
  run_inv (components m) s evs (expiries moves).
Proof.
  destruct (Shutdown_groups m) as [Hg Ha]. apply (run_run_inv _ moves _ [] 0). apply enter_inv; auto.
  - by intros [|? ?] c post.
  - apply filterb_Permutation, Ha.
  - by exists [].
Qed.

(** C2: When a shutdown comes to its end, whatever the order in which the goroutines of
    a phase began and returned and whenever phases ran out of time, every component with
    a stop function was stopped exactly once and returned; no stop function was called
    before each of those of the earlier phases had returned; and the errors are those
    the functions returned with one for each phase that ran out of time, so that the
    shutdown succeeds exactly when there was neither. *)
Theorem shutdown_ordered m moves errs evs :
  shutdown_run (Shutdown m) moves = Some (Stopped errs, evs) ->
  called evs ≡ₚ stops (components m) /\ returned evs ≡ₚ stops (components m)
  /\ (forall pre c post, evs = (pre ++ Called c :: post)%list ->
        before (co_Phase c) (returned pre) ≡ₚ before (co_Phase c) (stops (components m)))
  /\ (exists expired, errs ≡ₚ failures evs ++ expired /\ length expired = expiries moves)
  /\ (shutdown_error errs = None <-> failures evs = [] /\ expiries moves = 0%nat).
Proof.
  intros H. apply Shutdown_inv in H as (Ho & Hr & Hc & Hb). split_and!; [done|by rewrite <- Hr|exact Ho|exact Hb|].
  destruct Hb as (l & Hl & <-). split.
  - destruct errs; [|done]. intros _. apply Permutation_nil in Hl. by apply app_nil in Hl as [-> ->].
  - intros [Hf Hn]. rewrite Hf in Hl. destruct l; [|done]. apply Permutation_sym, Permutation_nil in Hl. by subst.
Qed.

Definition group_work (g : phaseGroup) : nat := 2 * length (pg_components g) + 2.
Definition work (s : shutdown) : nat :=
  match s with
  | Stopping _ w r expired _ _ todo =>
      2 * length w + length r + (if expired then 0 else 1) + 1 + list_sum (map group_work todo)
  | Stopped _ => 0
  end.

Lemma work_enter all todo : work (enter all todo) = list_sum (map group_work todo).
Proof. destruct todo as [|g todo]; [done|]. cbn [enter work map list_sum fold_right length]. unfold group_work at 2, list_sum. lia. Qed.

Lemma length_remove_nth {A} n (l : list A) x : l !! n = Some x -> S (length (remove_nth n l)) = length l.
Proof. intros H. by rewrite (Permutation_length (remove_nth_perm _ _ _ H)). Qed.

Lemma step_work s m s' evs : shutdown_step s m = Some (s', evs) -> (work s' < work s)%nat.
Proof.
  destruct s as [p w r expired errs all todo|]; [|done]. destruct m as [k|k err|e|]; cbn [shutdown_step].
  - destruct (w !! k) as [c|] eqn:Ek; [|done]. apply length_remove_nth in Ek.
    destruct (co_StopFn c); intros [= <- <-]; cbn [work]; rewrite ?length_app; cbn [length]; lia.
  - destruct (r !! k) as [c|] eqn:Ek; [|done]. apply length_remove_nth in Ek. intros [= <- <-]. cbn [work]. lia.
  - destruct expired; [done|]. intros [= <- <-]. cbn [work]. lia.
  - destruct w, r; try done. intros [= <- <-]. rewrite work_enter. cbn [work]. lia.
Qed.

Lemma run_work moves : forall s s' evs, shutdown_run s moves = Some (s', evs) -> (length moves + work s' <= work s)%nat.
Proof.
  induction moves as [|m moves IH]; intros s s' evs H; cbn [shutdown_run] in H; [by injection H as <- <-|].
  destruct (shutdown_step s m) as [[s1 e1]|] eqn:E1; [|done].
  destruct (shutdown_run s1 moves) as [[s2 e2]|] eqn:E2; [|done]. injection H as <- <-.
  apply step_work in E1. apply IH in E2. cbn [length]. lia.
Qed.

(** A shutdown ends: no run of it is longer than its components and phases allow,
    and as long as it is not over there is a next move other than the clock's, which is
    to begin the next goroutine, the return of a stop function that was called, or to go
    on to the next phase.  It never ends while a function that was called has not
    returned, even when the phase has run out of time. *)
Lemma shutdown_ends m moves s evs :
  shutdown_run (Shutdown m) moves = Some (s, evs) ->
  (length moves <= 2 * length (components m) + 2 * length (groupByPhase (sort_components (components m))))%nat
  /\ ((exists errs, s = Stopped errs) \/
      exists next, (forall e, next <> Expire e) /\ shutdown_step s next <> None)
  /\ (forall errs c, s = Stopped errs -> In c (called evs) -> In c (returned evs)).
Proof.
  intros H. split_and!.
  - apply run_work in H. unfold Shutdown in H. rewrite work_enter in H.
    assert (Hw : forall gs, (list_sum (map group_work gs) = 2 * length (all_components gs) + 2 * length gs)%nat).
    { intros gs. unfold all_components, group_work, list_sum. induction gs as [|g gs IH]; [done|].
      cbn [map fold_right concat length] in *. rewrite length_app, IH. lia. }
    rewrite Hw, (Permutation_length (proj2 (Shutdown_groups m))) in H. lia.
  - destruct s as [p w r expired errs all todo|errs]; [right|left; by exists errs].
    destruct w as [|c w]; [destruct r as [|c r]|].
    + exists NextPhase. done.
    + by exists (Return 0 None).
    + exists (Begin 0). split; [done|]. cbn. by destruct (co_StopFn c).
  - intros errs c -> Hc. apply Shutdown_inv in H as (_ & Hr & _). by rewrite <- Hr.
Qed.

Definition demo_manager : Manager :=
  RegisterStop "logger" PhaseLogger true (RegisterStop "http" PhaseHTTP true
    (RegisterStop "datastore" PhaseDatastore true (RegisterStop "admin" PhaseHTTP true (NewManager 0)))).

Definition demo_moves : list move :=
  [Begin 1; Begin 0; Expire "context deadline exceeded"; Return 1 (Some "busy"); Return 0 None; NextPhase;
   Begin 0; Return 0 None; NextPhase; Begin 0; Return 0 None; NextPhase].

Example demo_shutdown :
  match shutdown_run (Shutdown demo_manager) demo_moves with
  | Some (Stopped errs, evs) => (shutdown_error errs, map co_Name (called evs))
  | _ => (None, [])
  end = (Some "shutdown errors: [phase 10: context deadline exceeded admin: busy]", ["http"; "admin"; "datastore"; "logger"]).
Proof. vm_compute. reflexivity. Qed.

(** The time of a phase is over and a component hangs: there is no move but its
    return. *)
Example hangs_after_timeout :
  let s := Stopping 10 [] [Build_Component "http" 10 true] true ["phase 10: context deadline exceeded"] [] [] in
  (shutdown_step s NextPhase, shutdown_step s (Expire "again"), shutdown_step s (Begin 0)) = (None, None, None).
Proof. reflexivity. Qed.

Lemma shutdown_ordered_witness : exists errs evs,
  shutdown_run (Shutdown demo_manager) demo_moves = Some (Stopped errs, evs) /\ called evs ≡ₚ stops (components demo_manager).
Proof.
  eexists _, _. assert (H : shutdown_run (Shutdown demo_manager) demo_moves = Some (Stopped _, _)) by (vm_compute; reflexivity).
  split; [exact H|]. exact (proj1 (shutdown_ordered _ _ _ _ H)).
Defined.

Lemma shutdown_ends_witness : exists s evs,
  shutdown_run (Shutdown demo_manager) demo_moves = Some (s, evs) /\ (length demo_moves <= 14)%nat.
Proof.
  eexists _, _. assert (H : shutdown_run (Shutdown demo_manager) demo_moves = Some _) by (vm_compute; reflexivity).
  split; [exact H|]. exact (proj1 (shutdown_ends _ _ _ _ H)).
Defined.
