(* ===== verification/EventPublisher.v ===== *)
(** * Publishing the agent's events (agent/publisher.go)

    The agent publishes what it does to the exchange its registration names,
    under a routing key made from the registration's template. *)
From Stdlib Require Import ZArith Lia Bool Ascii String List.
From Corelib Require Import SpecFloat.
From stdpp Require Import base gmap strings option list.
From S2P Require Import Prelude GoString Models Sqlite Queue Register.

Local Open Scope string_scope.
Local Open Scope Z_scope.
Local Open Scope state_scope.

Record agent_publishing := {
  ap_exchange : string;
  ap_key : string;
  ap_event : NipperEvent }.

Record EventPublisher := {
  ep_ch : bool;                       (* [p.ch != nil] *)
  ep_calls : nat;
  ep_sent : list agent_publishing }.

Definition NewEventPublisher : EventPublisher := Build_EventPublisher true 0 [].

(** JSON has no text for infinities and NaN. *)
Definition event_marshals (ev : NipperEvent) : bool :=
  match ev_ContextUsage ev with
  | Some cu => match cu_UsagePercent cu with S754_infinity _ | S754_nan => false | _ => true end
  | None => true
  end.

(** The fields [PublishEvent] fills in. *)
Definition stamp_event (eventID : string) (now : Z) (userID : string) (ev : NipperEvent) : NipperEvent := {|
  ev_EventID := if (ev_EventID ev =? "")%string then eventID else ev_EventID ev;
  ev_Type := ev_Type ev; ev_SessionKey := ev_SessionKey ev; ev_ResponseID := ev_ResponseID ev;
  ev_Timestamp := if time_is_zero (ev_Timestamp ev) then now else ev_Timestamp ev;
  ev_Delta := ev_Delta ev; ev_ToolInfo := ev_ToolInfo ev; ev_SkillInfo := ev_SkillInfo ev;
  ev_Thinking := ev_Thinking ev; ev_Error := ev_Error ev; ev_ContextUsage := ev_ContextUsage ev;
  ev_UserID := if (ev_UserID ev =? "")%string then userID else ev_UserID ev |}.

(** An event with its type, session and response, and nothing else. *)
Definition bare_event (ty sessionKey responseID : string) : NipperEvent :=
  Build_NipperEvent "" ty sessionKey responseID time_zero None None None None None None "".

Definition done_event (sessionKey responseID text : string) (contextUsage : option ContextUsage) : NipperEvent :=
  Build_NipperEvent "" EventTypeDone sessionKey responseID time_zero (Some (Build_EventDelta text))
    None None None None contextUsage "".

Definition error_event (sessionKey code message : string) (recoverable : bool) : NipperEvent :=
  Build_NipperEvent "" EventTypeError sessionKey "" time_zero None None None None
    (Some (Build_EventError code message recoverable)) None "".

Definition routingKey (reg : result_blob) (sessionKey : string) : string :=
  ReplaceAll (rb_EventsPublish (bl_RabbitMQ reg)) "{sessionId}" sessionKey.

Definition events_exchange (reg : result_blob) : string :=
  let '(_, events, _, _) := rb_Exchanges (bl_RabbitMQ reg) in events.

Section publisher.
Context (reg : result_blob).
(** What the broker answers, by the number of the call. *)
Context (is_closed : nat -> bool) (open_channel : nat -> option string) (publish_outcome : nat -> option string).

Abbreviation P A := (State EventPublisher A).

Definition next_call : P nat := fun p => (ep_calls p, Build_EventPublisher (ep_ch p) (S (ep_calls p)) (ep_sent p)).
Definition set_ch (c : bool) : P unit := smodify (fun p => Build_EventPublisher c (ep_calls p) (ep_sent p)).

Definition openChannel : P (option string) :=
  do n <- next_call;
  match open_channel n with
  | Some e => sret (Some e)
  | None => run set_ch true; sret None
  end.

Definition ensureChannel : P (option string) :=
  do n <- next_call;
  do ch <- sget ep_ch;
  if ch && negb (is_closed n) then sret None else openChannel.

(** The error, if any. [eventID] and [now]: the UUID and the time at the call. *)
Definition PublishEvent (eventID : string) (now : Z) (event : NipperEvent) : P (option string) :=
  let event := stamp_event eventID now (bl_UserID reg) event in
  if negb (event_marshals event) then sret (Some "marshalling event: json: unsupported value")
  else
    do e <- ensureChannel;
    match e with
    | Some e => sret (Some ("ensuring channel: " +:+ e))
    | None =>
        do n <- next_call;
        match publish_outcome n with
        | Some e => run set_ch false; sret (Some ("publishing event " +:+ ev_Type event +:+ ": " +:+ e))
        | None =>
            run smodify (fun p => Build_EventPublisher (ep_ch p) (ep_calls p)
              (ep_sent p ++ [Build_agent_publishing (events_exchange reg) (routingKey reg (ev_SessionKey event)) event]));
            sret None
        end
    end.

(** ** Properties *)

(** A publication sends the stamped event, once, or returns an error and sends
    nothing. *)
Lemma publish_sends eventID now ev p :
  let '(r, p') := PublishEvent eventID now ev p in
  match r with
  | None => ep_sent p' = (ep_sent p ++ [Build_agent_publishing (events_exchange reg)
              (routingKey reg (ev_SessionKey ev)) (stamp_event eventID now (bl_UserID reg) ev)])%list
  | Some _ => ep_sent p' = ep_sent p
  end.
Proof.
  unfold PublishEvent, ensureChannel, openChannel, next_call, set_ch, sbind, sret, sget, smodify. cbn.
  destruct (event_marshals _); cbn; [|done].
  destruct (ep_ch p && _); cbn; [|destruct (open_channel _); cbn; [done|]];
    destruct (publish_outcome _); done.
Qed.
End publisher.

(** ** Where the events go *)

Lemma replace_before fuel c old new s a :
  lacks c a = true ->
  replace_turns (S fuel) (a +:+ s) (String c old) new = a +:+ replace_turns (S fuel) s (String c old) new.
Proof.
  intros Ha. cbn [replace_turns].
  assert (Hc : str_cut (String c old) (a +:+ s)
               = match str_cut (String c old) s with Some (x, y) => Some (a +:+ x, y) | None => None end).
  { induction a as [|d a IH]; [simpl; by destruct (str_cut _ s) as [[]|]|].
    cbn in Ha. apply andb_true_iff in Ha as [Hd Ha]. apply negb_true_iff in Hd.
    cbn [String.append str_cut strip_prefix]. rewrite Ascii.eqb_sym, Hd, (IH Ha).
    by destruct (str_cut _ s) as [[]|]. }
  rewrite Hc. destruct (str_cut (String c old) s) as [[x y]|]; [|done]. by rewrite str_app_assoc.
Qed.

Lemma routing_prefix reg key rest :
  rb_EventsPublish (bl_RabbitMQ reg) = "nipper.events." +:+ rest ->
  exists rest', routingKey reg key = "nipper.events." +:+ rest'.
Proof.
  intros H. unfold routingKey, ReplaceAll. rewrite H, replace_before by done. by eexists.
Qed.

(** C33: With the registration the gateway hands out and the bindings it declares,
    every event of an agent reaches the gateway's event queue and no other. *)
Theorem events_reach_gateway matches call_error us b cfg agent user pw d key :
  topic_spec matches -> startup call_error us empty_broker = (Ok [], b) ->
  let reg := blob cfg agent user pw d in
  routes matches b (events_exchange reg) (routingKey reg key) = [QueueEventsGateway].
Proof.
  intros Hm Hs reg. destruct (routing_prefix reg key (ag_UserID agent +:+ ".{sessionId}") eq_refl) as [rest Hr].
  unfold routes. rewrite (startup_ok _ _ _ Hs), Hr.
  change (events_exchange reg) with ExchangeEvents. cbn [flat_map route_one].
  change (ExchangeEvents =? ExchangeEvents)%string with true.
  change (ExchangeSessionsDLX =? ExchangeEvents)%string with false. cbn [andb].
  rewrite (proj2 (Hm _ _)).
  - cbn [app]. f_equal. clear Hs. induction us as [|u us IH]; [done|].
    change (flat_map user_bindings (u :: us)) with (user_bindings u ++ flat_map user_bindings us)%list.
    rewrite flat_map_app, IH, app_nil_r. done.
  - change ("nipper.events." +:+ rest) with ("nipper" +:+ "." +:+ ("events" +:+ "." +:+ rest)).
    change "nipper.events.#" with ("nipper" +:+ "." +:+ ("events" +:+ "." +:+ "#")).
    rewrite !dot_words_app by done. apply TWord; [done|done|]. apply TWord; [done|done|]. apply topic_hash.
Qed.

Definition demo_agent : Agent := Build_Agent "agt-1" "u1" "home" "" "" "" AgentStatusRegistered None "" 0 0.
Definition demo_user : User := Build_User "u1" "Al" true "gpt" 0 0 [].
Definition demo_reg : result_blob := blob None demo_agent demo_user "pw" empty_db.

Lemma events_reach_gateway_witness :
  routingKey demo_reg "user:u1:channel:slack:session:a" = "nipper.events.u1.user:u1:channel:slack:session:a"
  /\ routes demo_matches (demo_broker ["u1"]) (events_exchange demo_reg)
       (routingKey demo_reg "user:u1:channel:slack:session:a") = [QueueEventsGateway].
Proof.
  split; [vm_compute; reflexivity|].
  apply (events_reach_gateway demo_matches (fun _ _ => None) ["u1"]); [exact demo_topic_spec|].
  vm_compute. reflexivity.
Defined.
