(* ===== verification/Commands.v ===== *)
(** * Slash commands (agent/commands.go)

    Messages that start with a slash are answered by the agent itself.  The
    commands work on what the agent keeps: the session store, the profiles, the
    usage counters and the personas. *)
From Stdlib Require Import ZArith Lia Bool Ascii String List.
From stdpp Require Import base gmap strings option list.
From S2P Require Import Prelude GoString GoTime GoFloat SessionKey Models SessionTypes SessionFs SessionLock.
From S2P Require Import SessionStore Compaction Usage Profile Convert Prompt Register.

Local Open Scope string_scope.
Local Open Scope Z_scope.
Local Open Scope state_scope.

Inductive CommandAction := ActionNone | ActionNewSession | ActionCompact.

Record CommandResult := {
  cm_Handled : bool;
  cm_Response : string;
  cm_Action : CommandAction }.

Definition reply (text : string) : CommandResult := Build_CommandResult true text ActionNone.

(** What the agent keeps between messages. *)
Record AgentStore := {
  st_world : World;
  st_profiles : profile_fs;
  st_usage : option UsageTracker;
  st_personas : gmap string string }.

Definition set_world (w : World) (s : AgentStore) : AgentStore :=
  Build_AgentStore w (st_profiles s) (st_usage s) (st_personas s).
Definition set_profiles (p : profile_fs) (s : AgentStore) : AgentStore :=
  Build_AgentStore (st_world s) p (st_usage s) (st_personas s).
Definition set_usage (u : option UsageTracker) (s : AgentStore) : AgentStore :=
  Build_AgentStore (st_world s) (st_profiles s) u (st_personas s).
Definition set_personas (p : gmap string string) (s : AgentStore) : AgentStore :=
  Build_AgentStore (st_world s) (st_profiles s) (st_usage s) p.

Definition status_text (s : SessionStatus) : string :=
  match s with StatusActive => "active" | StatusArchived => "archived" | StatusExpired => "expired" end.

Definition help_text : string :=
  "*Available Commands*

- /help — Show this help message
- /new — Start a new session (clears conversation history)
- /reset — Alias for /new
- /setup — View or update your profile (name, language, etc.)
- /usage — Show context window usage and estimated LLM costs
- /compact — Force transcript compaction to free context space
- /status — Show current session information
- /persona <description> — Set the agent persona for this session

All commands are processed locally and do not consume LLM tokens.".

Definition cmdHelp : CommandResult := reply help_text.

Section commands.
Context `{StoreConfig} (env : Env) (fold : Z -> Z) (printable : Z -> bool).
Context (cfg : AgentRuntimeConfig) (reg : result_blob) (contextWindowMax : Z).
(** The text of an error of the store, and the step at which saving a profile
    at an instant fails. *)
Context (show : error -> string) (save_fails : Z -> option save_fault) (ctx : context).

Abbreviation C A := (State AgentStore A).

(** A program over the session store. *)
Definition store {A} (m : prog A) : C A := fun s =>
  let '(a, w) := exec env m (st_world s) in (a, set_world w s).

Definition model_name : string := if_Model (ac_Inference cfg).
Definition session_model : string :=
  if (us_DefaultModel (bl_User reg) =? "")%string then model_name else us_DefaultModel (bl_User reg).

(** The session a key names; a key that is not one is a session id itself. *)
Definition create_request (msg : NipperMessage) : CreateSessionRequest :=
  match ParseSessionKey (nm_SessionKey msg) with
  | Ok kp => Build_CreateSessionRequest (kp_user kp) (kp_session kp) (kp_channel kp) session_model JNull
  | Err _ => Build_CreateSessionRequest (nm_UserID msg) (nm_SessionKey msg) (nm_ChannelType msg) session_model JNull
  end.

Definition reset_usage (sessionKey : string) (u : option UsageTracker) : option UsageTracker := Reset sessionKey <$> u.

Definition cmdNewSession (msg : NipperMessage) : C CommandResult :=
  let sessionKey := nm_SessionKey msg in
  do _ <- store (ArchiveSession ctx sessionKey);
  do r <- store (CreateSession (create_request msg));
  match r with
  | Err _ => sret (reply "Failed to create new session. Please try again.")
  | Ok sess =>
      run smodify (fun s => set_usage (reset_usage sessionKey (st_usage s)) s);
      run smodify (fun s => if (se_Key sess =? sessionKey)%string then s
                            else set_usage (reset_usage (se_Key sess) (st_usage s)) s);
      sret (Build_CommandResult true
              "Session cleared. Starting fresh. Your conversation history has been archived." ActionNewSession)
  end.

Definition cmdUsage (sessionKey : string) : C CommandResult :=
  do u <- sget st_usage;
  sret (reply (match u with
               | None => "Usage tracking is not available."
               | Some t => FormatUsage model_name sessionKey t
               end)).

Definition compact_reply (r : result error CompactionResult) : CommandResult :=
  match r with
  | Err e => reply ("Compaction failed: " +:+ show e)
  | Ok res =>
      if cp_Compacted res then
        Build_CommandResult true
          ("Compaction complete." +:+ nl +:+ "- Archived: " +:+ fmt_d (cp_ArchivedLineCount res) +:+ " messages"
           +:+ nl +:+ "- Remaining: " +:+ fmt_d (cp_RemainingLineCount res) +:+ " messages"
           +:+ nl +:+ "- Compaction #" +:+ fmt_d (cp_CompactionCount res)) ActionCompact
      else
        Build_CommandResult true
          ("No compaction needed. Transcript has " +:+ fmt_d (cp_OriginalLineCount res)
           +:+ " messages (threshold: 20).") ActionCompact
  end.

Definition cmdCompact (sessionKey : string) : C CommandResult :=
  do r <- store (Compact ctx sessionKey 20);
  sret (compact_reply r).

Definition status_reply (sessionKey : string) (sess : Session) (u : option UsageTracker) : string :=
  "*Session Status*" +:+ nl +:+ nl
  +:+ "- Session key: " +:+ sessionKey +:+ nl
  +:+ "- Status: " +:+ status_text (se_Status sess) +:+ nl
  +:+ "- Model: " +:+ sm_Model (se_Metadata sess) +:+ nl
  +:+ "- Provider: " +:+ if_Provider (ac_Inference cfg) +:+ nl
  +:+ "- Messages: " +:+ fmt_d (sm_MessageCount (se_Metadata sess)) +:+ nl
  +:+ "- Compactions: " +:+ fmt_d (sm_CompactionCount (se_Metadata sess)) +:+ nl
  +:+ "- Created: " +:+ format_rfc3339 (se_CreatedAt sess) +:+ nl
  +:+ "- Last activity: " +:+ format_rfc3339 (sm_LastActivityAt (se_Metadata sess)) +:+ nl
  +:+ match u ≫= Get sessionKey with
      | Some usage =>
          if 0 <? su_ContextWindowSize usage then
            "- Context window: " +:+ fmt_d (su_ContextWindowSize usage) +:+ " tokens" +:+ nl
            +:+ "- Last context usage: " +:+ fmt_fixed 1 (su_LastUsagePercent usage) +:+ "%" +:+ nl
          else ""
      | None => ""
      end.

Definition cmdStatus (sessionKey : string) : C CommandResult :=
  do r <- store (GetSession sessionKey);
  match r with
  | Err e => sret (reply ("Could not load session: " +:+ show e))
  | Ok sess => do u <- sget st_usage; sret (reply (status_reply sessionKey sess u))
  end.

Definition cmdPersona (sessionKey persona : string) : C CommandResult :=
  if (trim_space persona =? "")%string then
    sret (reply ("Usage: /persona <description>" +:+ nl +:+ nl
                 +:+ "Example: /persona You are a senior DevOps engineer who speaks concisely."))
  else
    run smodify (fun s => set_personas (<[sessionKey := persona]> (st_personas s)) s);
    sret (reply ("Persona updated for this session:" +:+ nl +:+ nl +:+ "_" +:+ persona +:+ "_")).

(** [SaveProfile] at the present instant. *)
Definition save_profile (userID : string) (p : UserProfile) : C (result string unit * UserProfile) :=
  do now <- store (Step Now Ret);
  fun s =>
    let '(r, p', fs) := SaveProfile (save_fails now) now (ac_BasePath cfg) userID p (st_profiles s) in
    ((r, p'), set_profiles fs s).

Definition load_profile (userID : string) : C (result string UserProfile) :=
  sget (fun s => LoadProfile (ac_BasePath cfg) userID (st_profiles s)).

Definition setup_coords (userID fieldValue : string) (profile : UserProfile) : C CommandResult :=
  if (fieldValue =? "")%string then
    sret (reply ("Please provide coordinates." +:+ nl +:+ nl
                 +:+ "Usage: /setup coords <lat,lon>" +:+ nl +:+ "Example: /setup coords 45.49,-75.66"))
  else
    match ParseCoordinates printable fieldValue with
    | Err e => sret (reply ("Invalid coordinates: " +:+ e +:+ nl +:+ nl +:+ "Example: /setup coords 45.49,-75.66"))
    | Ok (lat, lon) =>
        let p := set_strings (<[7%nat := lon]> (<[6%nat := lat]> (strings_of profile))) profile in
        do r <- save_profile userID p;
        match r with
        | (Err e, _) => sret (reply ("Failed to save profile: " +:+ e))
        | (Ok _, p) =>
            sret (reply ("Updated *Coordinates* to: " +:+ lat +:+ ", " +:+ lon +:+ nl +:+ nl +:+ FormatDisplay p))
        end
    end.

Definition setup_field (userID fieldKey fieldValue : string) (profile : UserProfile) : C CommandResult :=
  match ResolveFieldAlias fold fieldKey with
  | None =>
      sret (reply ("Unknown field: *" +:+ fieldKey +:+ "*" +:+ nl +:+ nl
        +:+ "Valid fields: name, agent, personality, location, skill, language, lat, lon, coords, email, calendar (or 1-10)."))
  | Some idx =>
      if (fieldValue =? "")%string then
        sret (reply ("Please provide a value." +:+ nl +:+ nl +:+ "Usage: /setup " +:+ fieldKey +:+ " <value>"))
      else
        do r <- save_profile userID (SetField idx fieldValue profile);
        match r with
        | (Err e, _) => sret (reply ("Failed to save profile: " +:+ e))
        | (Ok _, p) =>
            sret (reply ("Updated *" +:+ FieldLabel idx +:+ "* to: " +:+ fieldValue +:+ nl +:+ nl +:+ FormatDisplay p))
        end
  end.

Definition cmdSetup (userID args : string) : C CommandResult :=
  do profile <- load_profile userID;
  match profile with
  | Err e => sret (reply ("Failed to load profile: " +:+ e))
  | Ok profile =>
      let args := trim_space args in
      if (args =? "")%string then sret (reply (FormatDisplay profile))
      else
        let parts := split_n2 args " " in
        let fieldKey := trim_space (hd "" parts) in
        let fieldValue := match parts with [_; v] => trim_space v | _ => "" end in
        if IsCoordinatesAlias fold fieldKey then setup_coords userID fieldValue profile
        else setup_field userID fieldKey fieldValue profile
  end.

(** The command's name and arguments, if the message is one. *)
Definition command_text (msg : NipperMessage) : string :=
  let text := trim_space (mc_Text (nm_Content msg)) in
  if (text =? "")%string then trim_space (first_text (mc_Parts (nm_Content msg))) else text.

Definition handleCommand (msg : NipperMessage) : C (option CommandResult) :=
  let text := command_text msg in
  if negb (has_prefix text "/") then sret None
  else
    let parts := split_n2 text " " in
    let command := to_lower fold (hd "" parts) in
    let args := match parts with [_; a] => trim_space a | _ => "" end in
    let some (m : C CommandResult) : C (option CommandResult) := do r <- m; sret (Some r) in
    if (command =? "/help")%string then sret (Some cmdHelp)
    else if (command =? "/new")%string || (command =? "/reset")%string then some (cmdNewSession msg)
    else if (command =? "/usage")%string then some (cmdUsage (nm_SessionKey msg))
    else if (command =? "/compact")%string then some (cmdCompact (nm_SessionKey msg))
    else if (command =? "/status")%string then some (cmdStatus (nm_SessionKey msg))
    else if (command =? "/persona")%string then some (cmdPersona (nm_SessionKey msg) args)
    else if (command =? "/setup")%string then some (cmdSetup (nm_UserID msg) args)
    else sret None.

(** ** What a command may change *)

(** From [st] to [st'], of the personas only the session's changed, of the
    profiles only the user's, and usage counters were at most forgotten. *)
Record modest (msg : NipperMessage) (st st' : AgentStore) : Prop := {
  mo_personas : forall key, key <> nm_SessionKey msg -> st_personas st' !! key = st_personas st !! key;
  mo_profiles : forall user,
    profilePath (ac_BasePath cfg) user <> profilePath (ac_BasePath cfg) (nm_UserID msg) ->
    LoadProfile (ac_BasePath cfg) user (st_profiles st') = LoadProfile (ac_BasePath cfg) user (st_profiles st);
  mo_usage : forall key u, st_usage st' ≫= Get key = Some u -> st_usage st ≫= Get key = Some u }.

Definition modest_op {A} (msg : NipperMessage) (m : C A) : Prop := forall st, modest msg st (snd (m st)).

Lemma modest_refl msg st : modest msg st st.
Proof. by split. Qed.

Lemma modest_bind {A B} msg (m : C A) (f : A -> C B) :
  modest_op msg m -> (forall a, modest_op msg (f a)) -> modest_op msg (sbind m f).
Proof.
  intros Hm Hf st. unfold sbind. specialize (Hm st). destruct (m st) as [a st1]. specialize (Hf a st1).
  destruct Hm as [H1 H2 H3], Hf as [H4 H5 H6]. cbn [snd] in *. split; [|intros ? ?|].
  - intros key Hk. by rewrite H4, H1.
  - by rewrite H5, H2.
  - eauto.
Qed.

Lemma modest_ret {A} msg (a : A) : modest_op msg (sret a).
Proof. intros st. apply modest_refl. Qed.
Lemma modest_get {A} msg (f : AgentStore -> A) : modest_op msg (sget f).
Proof. intros st. apply modest_refl. Qed.
Lemma modest_store {A} msg (m : prog A) : modest_op msg (store m).
Proof. intros st. unfold store. destruct (exec env m (st_world st)). by split. Qed.

Lemma modest_reset msg (p : AgentStore -> bool) (key : AgentStore -> string) :
  modest_op msg (smodify (fun s => if p s then s else set_usage (reset_usage (key s) (st_usage s)) s)).
Proof.
  intros st. unfold smodify. cbn [snd]. destruct (p st); [apply modest_refl|]. split; [done..|].
  intros k u. cbn. unfold reset_usage, Get, Reset. destruct (st_usage st) as [t|]; [|done]. cbn.
  by intros [_ ?]%lookup_delete_Some.
Qed.

Lemma tmp_not_profile base u v : path_add (profilePath base u) ".tmp" <> profilePath base v.
Proof.
  unfold profilePath. assert (Hj : forall p, Join p "profile.json" = (fst p, "profile.json" :: snd p))
    by (intros [r cs]; reflexivity).
  rewrite !Hj. intros He. simpl in He. by injection He.
Qed.

Lemma modest_save msg p : modest_op msg (save_profile (nm_UserID msg) p).
Proof.
  apply modest_bind; [apply modest_store|]. intros t st. unfold SaveProfile.
  pose proof (tmp_not_profile (ac_BasePath cfg) (nm_UserID msg)) as Ht.
  destruct (save_fails t) as [[| |]|]; split; try (by intros; reflexivity); try (by intros ? ?);
    intros user Hu; unfold LoadProfile; cbn [fst snd set_profiles st_profiles];
    rewrite ?lookup_insert_ne, ?lookup_delete_ne by (first [apply Ht | congruence]); done.
Qed.

Lemma modest_persona msg p : modest_op msg (cmdPersona (nm_SessionKey msg) p).
Proof.
  unfold cmdPersona. destruct (_ =? _)%string; [apply modest_ret|]. apply modest_bind; [|intros; apply modest_ret].
  intros st. split; try done. intros key Hk. by apply lookup_insert_ne.
Qed.

Lemma modest_new msg : modest_op msg (cmdNewSession msg).
Proof.
  unfold cmdNewSession. apply modest_bind; [apply modest_store|]. intros _.
  apply modest_bind; [apply modest_store|]. intros [sess|e]; [|apply modest_ret].
  apply modest_bind; [apply (modest_reset msg (fun _ => false) (fun _ => nm_SessionKey msg))|]. intros _.
  apply modest_bind; [apply (modest_reset msg (fun _ => (se_Key sess =? nm_SessionKey msg)%string) (fun _ => se_Key sess))|].
  intros _. apply modest_ret.
Qed.

Ltac modesty :=
  repeat first
    [ apply modest_ret | apply modest_get | apply modest_store | apply modest_save | apply modest_persona | apply modest_new
    | apply modest_bind; [|intros ?] | case_match ].

(** Every command's result is marked as handled. *)
Definition handled (m : C CommandResult) : Prop := forall st, cm_Handled (fst (m st)) = true.

Lemma handled_ret r : cm_Handled r = true -> handled (sret r).
Proof. intros Hr st. exact Hr. Qed.
Lemma handled_bind {A} (m : C A) f : (forall a, handled (f a)) -> handled (sbind m f).
Proof. intros Hf st. unfold sbind. destruct (m st) as [a st1]. apply Hf. Qed.

Ltac handling := repeat first [ apply handled_ret; reflexivity | apply handled_bind; intros ? | case_match ].

Lemma handled_compact key : handled (cmdCompact key).
Proof. apply handled_bind. intros [r|e]; apply handled_ret; [|done]. cbn. by destruct (cp_Compacted r). Qed.

Lemma command_handled msg st : let r := fst (handleCommand msg st) in
  (r = None -> snd (handleCommand msg st) = st) /\ (forall c, r = Some c -> cm_Handled c = true).
Proof.
  assert (Hs : forall m : C CommandResult, handled m ->
    let x := sbind m (fun r => sret (Some r)) st in
    (fst x = None -> snd x = st) /\ (forall c, fst x = Some c -> cm_Handled c = true)).
  { intros m Hm. unfold sbind, sret. specialize (Hm st). destruct (m st) as [r st1]. cbn in *.
    split; [done|]. by intros c [= <-]. }
  unfold handleCommand. destruct (negb _); [by split|].
  set (c := to_lower fold _). destruct (c =? "/help")%string; [split; [done|by intros ? [= <-]]|].
  destruct (_ || _); [apply Hs; unfold cmdNewSession; handling|].
  destruct (c =? "/usage")%string; [apply Hs; unfold cmdUsage; handling|].
  destruct (c =? "/compact")%string; [apply Hs, handled_compact|].
  destruct (c =? "/status")%string; [apply Hs; unfold cmdStatus; handling|].
  destruct (c =? "/persona")%string; [apply Hs; unfold cmdPersona; handling|].
  destruct (c =? "/setup")%string; [apply Hs; unfold cmdSetup, setup_coords, setup_field; handling|by split].
Qed.

(** A command works on its own session and user: the personas of other sessions
    and the profiles of other users stay, and usage counters are reset or stay;
    a message that is no command changes nothing. *)
Lemma command_scope msg st :
  let '(r, st') := handleCommand msg st in modest msg st st' /\ (r = None -> st' = st).
Proof.
  assert (Hm : modest_op msg (handleCommand msg)).
  { unfold handleCommand, cmdUsage, cmdCompact, cmdStatus, cmdSetup, load_profile, setup_coords, setup_field.
    modesty. }
  pose proof (proj1 (command_handled msg st)) as Hn. specialize (Hm st).
  destruct (handleCommand msg st) as [r st']. by split.
Qed.
End commands.
