(* ===== verification/Agent.v ===== *)
(** * The agent's runtime (agent/runtime.go)

    The agent takes one message at a time from its queue: it answers commands
    itself, and for every other message loads the session, asks the language
    model, which may call tools, cleans the answer, saves the turn and publishes
    the answer.  The model with the library that drives it (Eino) is an
    argument: it answers a request with a message or an error, after reporting
    the calls of tools and of the model it made on the way. *)
From Stdlib Require Import ZArith Lia Bool Ascii String List.
From Corelib Require Import SpecFloat.
From stdpp Require Import base gmap strings option list.
From S2P Require Import Prelude GoString GoTime GoFloat SessionKey Models Queue SessionTypes SessionFs SessionLock.
From S2P Require Import SessionStore Compaction AgentText ToolDedup Usage Profile Convert Enrich Skills.
From S2P Require Import ToolMatch Prompt Register EventPublisher Commands.

Local Open Scope string_scope.
Local Open Scope Z_scope.
Local Open Scope state_scope.

(** ** Requests to the model *)

Section requests.
Context (St : Type).

(** The tools an agent is built with: guarded against repetition and described,
    or as they are. *)
Inductive bound_tools :=
| Guarded (ts : list (tool (toolCallTracker * St)))
| Bare (ts : list (tool St)).

(** react.AgentConfig: the tools and the system prompt. *)
Record AgentConfig := { ac_Tools : bound_tools; ac_Modifier : string }.

(** A call of [Generate], with what the tools find in the context. *)
Record gen_request := {
  gr_agent : AgentConfig;
  gr_input : list Message;
  gr_coords : option (float64 * float64);
  gr_user : string }.
End requests.
Arguments Guarded {St}. Arguments Bare {St}.
Arguments ac_Tools {St}. Arguments ac_Modifier {St}. Arguments Build_AgentConfig {St}.
Arguments gr_agent {St}. Arguments gr_input {St}. Arguments gr_coords {St}. Arguments gr_user {St}.
Arguments Build_gen_request {St}.

(** model.CallbackOutput: the message's reasoning and token usage, the usage
    beside it, further fields, and the times the streaming model measured. *)
Record CallbackOutput := {
  co_Message : option (string * option (Z * Z));
  co_TokenUsage : option (Z * Z);
  co_Extra : list (string * jsonv);
  co_timing : option (Z * Z) }.

(** What the library reports while it works on a request. Calls of tools may
    overlap: [slot] identifies a call between its start and its end. *)
Inductive callback :=
| CbToolStart (slot : nat) (name arguments : string)
| CbToolEnd (slot : nat) (name response : string)
| CbToolError (slot : nat) (err : string)
| CbModelEnd (out : CallbackOutput)
| CbSecretResolved (skillName secretName provider : string).

Record gen_answer := {
  ga_callbacks : list callback;
  ga_elapsed : Z;
  ga_result : result string Message }.

(** ** State *)

(** What the context of a tool call carries: its id, and for [skill_exec] the
    start time and the skill's name. *)
Record tool_ctx := { tx_id : string; tx_name : string; tx_exec : option (Z * string) }.

(** The runtime: what it keeps, its publisher, the requests made, and the token
    counter and open tool calls of the message being handled. *)
Record Runtime (St : Type) := {
  rt_store : AgentStore;
  rt_visionUnsupported : bool;
  rt_pub : EventPublisher;
  rt_requests : list (gen_request St);
  rt_tokens : requestTokenAccumulator;
  rt_calls : gmap nat tool_ctx }.
Arguments rt_store {St}. Arguments rt_visionUnsupported {St}. Arguments rt_pub {St}.
Arguments rt_requests {St}. Arguments rt_tokens {St}. Arguments rt_calls {St}.
Arguments Build_Runtime {St}.

(** *** Arguments of skill_exec, as the callbacks read them *)

Definition str_member (k : string) (kv : list (string * jsonv)) : string :=
  match List.find (fun p => (fst p =? k)%string) kv with Some (_, JString s) => s | _ => "" end.

Definition parseSkillExecInput (input : jsonv) : string * string :=
  match input with
  | JObject m => (str_member "name" m, str_member "args" m)
  | _ => ("", "")
  end.

(** [int(c)]: rounded towards zero. *)
Definition float_to_int (x : float64) : Z :=
  match x with
  | S754_finite s m e =>
      let n := if 0 <=? e then Zpos m * 2 ^ e else Zpos m / 2 ^ (- e) in if s then - n else n
  | _ => 0
  end.

Definition parseSkillExecOutput (output : jsonv) : Z :=
  match output with
  | JObject m => match List.find (fun p => (fst p =? "exit_code")%string) m with
                 | Some (_, JNumber c) => float_to_int c
                 | _ => -1
                 end
  | _ => -1
  end.

Definition extractLocationFromMessage (msg : NipperMessage) : option (float64 * float64) :=
  match List.find (fun p => (cp_Type p =? "location")%string && negb (f_zero (cp_Latitude p) && f_zero (cp_Longitude p)))
          (mc_Parts (nm_Content msg)) with
  | Some p => Some (cp_Latitude p, cp_Longitude p)
  | None => None
  end.

Inductive gen_outcome := GenOk (m : Message) | GenFailed (err : string) | GenCancelled.

Definition maxLLMAttempts : nat := 3.

Section agent.
Context `{StoreConfig} {St : Type} (env : Env).
(** The Unicode tables. *)
Context (fold upper : Z -> Z) (letter digit printable : Z -> bool).
Context (cfg : AgentRuntimeConfig) (reg : result_blob) (contextWindowMax : Z).
(** The texts of the store's errors, the failures of saving a profile, the
    instant the context is done. *)
Context (show : error -> string) (save_fails : Z -> option save_fault) (ctx : context).
(** The broker, by the number of the call. *)
Context (is_closed : nat -> bool) (open_channel : nat -> option string) (publish_outcome : nat -> option string).
(** Tools: the native ones, those the MCP loader holds at an instant, the
    skills, the matcher of the lean mode and the media pipeline. *)
Context (native : list (tool St)) (mcp : option (Z -> list (tool St))) (skills : option Loader)
        (mt : matcher) (pipeline : option Pipeline).
(** Pictures: see file Convert. *)
Context (base64 : string -> string) (shrink fetch : string -> result string string).
(** The WhatsApp formatter, and the iteration of the price table. *)
Context (whatsapp_format : string -> string) (order : list (string * (float64 * float64))).
(** Eino: [react.NewAgent] and [Generate], by the number of requests made before. *)
Context (new_agent : nat -> AgentConfig St -> option string) (generate : nat -> gen_request St -> gen_answer).

Abbreviation A X := (State (Runtime St) X).

(** *** Parts of the state *)

Definition kept {X} (m : State AgentStore X) : A X := fun s =>
  let '(x, st) := m (rt_store s) in
  (x, Build_Runtime st (rt_visionUnsupported s) (rt_pub s) (rt_requests s) (rt_tokens s) (rt_calls s)).
Definition sessions {X} (m : prog X) : A X := kept (store env m).
Definition now : A Z := sessions (Step Now Ret).
Definition new_uuid : A string := sessions (Step NewUUID Ret).

Definition on_pub {X} (m : State EventPublisher X) : A X := fun s =>
  let '(x, p) := m (rt_pub s) in
  (x, Build_Runtime (rt_store s) (rt_visionUnsupported s) p (rt_requests s) (rt_tokens s) (rt_calls s)).
Definition no_vision : A unit := smodify (fun s =>
  Build_Runtime (rt_store s) true (rt_pub s) (rt_requests s) (rt_tokens s) (rt_calls s)).
Definition add_request (r : gen_request St) : A unit := smodify (fun s =>
  Build_Runtime (rt_store s) (rt_visionUnsupported s) (rt_pub s) (rt_requests s ++ [r]) (rt_tokens s) (rt_calls s)).
Definition set_tokens (f : requestTokenAccumulator -> requestTokenAccumulator) : A unit := smodify (fun s =>
  Build_Runtime (rt_store s) (rt_visionUnsupported s) (rt_pub s) (rt_requests s) (f (rt_tokens s)) (rt_calls s)).
Definition set_calls (f : gmap nat tool_ctx -> gmap nat tool_ctx) : A unit := smodify (fun s =>
  Build_Runtime (rt_store s) (rt_visionUnsupported s) (rt_pub s) (rt_requests s) (rt_tokens s) (f (rt_calls s))).

Definition publish (ev : NipperEvent) : A (option string) :=
  do id <- new_uuid;
  do t <- now;
  on_pub (PublishEvent reg is_closed open_channel publish_outcome id t ev).

(** The loader as it is now. *)
Definition loader : A (option (list (tool St))) :=
  sget (fun s => (fun tools => tools (w_now (st_world (rt_store s)))) <$> mcp).

(** A wait of [d], cut short when the context is done: whether it was. *)
Definition wait (d : Z) : prog bool :=
  call! t <- Now;
  match ctx with
  | Some deadline => if deadline <=? t + d then call_! Sleep (deadline - t); Ret true else call_! Sleep d; Ret false
  | None => call_! Sleep d; Ret false
  end.

(** *** Callbacks (buildToolCallback, buildModelCallback, runtimeSkillObserver) *)

Definition tool_event (ty sessionKey responseID name callID : string) (input output : jsonv) : NipperEvent :=
  Build_NipperEvent "" ty sessionKey responseID time_zero None (Some (Build_EventToolInfo name callID input output 0))
    None None None None "".

Definition skill_event (ty sessionKey responseID : string) (info : EventSkillInfo) : NipperEvent :=
  Build_NipperEvent "" ty sessionKey responseID time_zero None None (Some info) None None None "".

Definition tool_start (sessionKey responseID : string) (slot : nat) (name arguments : string) : A unit :=
  do callID <- new_uuid;
  do _ <- publish (tool_event EventTypeToolStart sessionKey responseID name callID (JString arguments) JNull);
  if (name =? "skill_exec")%string then
    let '(skillName, args) := parseSkillExecInput (JString arguments) in
    do _ <- publish (skill_event EventTypeSkillExecutionStart sessionKey responseID
                       (Build_EventSkillInfo skillName false false (sanitizeSkillArgs args) 0 0 "" ""));
    do start <- now;
    set_calls (<[slot := Build_tool_ctx callID name (Some (start, skillName))]>)
  else set_calls (<[slot := Build_tool_ctx callID name None]>).

Definition tool_end (sessionKey responseID : string) (slot : nat) (name response : string) : A unit :=
  do c <- sget (fun s => rt_calls s !! slot);
  let callID := match c with Some x => if (tx_name x =? name)%string then tx_id x else "" | None => "" end in
  do _ <- publish (tool_event EventTypeToolEnd sessionKey responseID name callID JNull (JString response));
  if (name =? "skill_exec")%string then
    match c ≫= tx_exec with
    | Some (start, skillName) =>
        do t <- now;
        do _ <- publish (skill_event EventTypeSkillExecutionEnd sessionKey responseID
                           (Build_EventSkillInfo skillName false false "" (parseSkillExecOutput (JString response))
                              (Z.quot (t - start) time_millisecond) "" ""));
        sret tt
    | None => sret tt
    end
  else sret tt.

(** The reasoning text of an answer, from the message or the further fields. *)
Definition reasoning_of (out : CallbackOutput) : string :=
  match co_Message out with
  | None => ""
  | Some (r, _) =>
      if negb (r =? "")%string then r
      else
        let found := map (fun k => str_member k (co_Extra out)) ["reasoning"; "thinking"; "reasoning_content"] in
        default "" (List.find (fun r => negb (r =? "")%string) found)
  end.

Definition logReasoning (sessionKey : string) (out : CallbackOutput) : A unit :=
  let reasoning := reasoning_of out in
  if (reasoning =? "")%string then sret tt
  else
    do _ <- publish (Build_NipperEvent "" EventTypeThinking sessionKey "" time_zero None None None
                       (Some (Build_EventThinking reasoning)) None None "");
    sret tt.

Definition usage_of (out : CallbackOutput) : option (Z * Z) :=
  match co_TokenUsage out with
  | Some u => Some u
  | None => co_Message out ≫= snd
  end.

Definition model_end (sessionKey : string) (out : CallbackOutput) : A unit :=
  let '(ttft, genDuration) := default (0, 0) (co_timing out) in
  run (if (0 <? ttft) || (0 <? genDuration) then set_tokens (AddTiming ttft genDuration) else sret tt);
  run (match usage_of out with
       | Some (prompt, completion) => set_tokens (Add prompt completion)
       | None => sret tt
       end);
  logReasoning sessionKey out.

Definition run_callback (sessionKey responseID : string) (c : callback) : A unit :=
  match c with
  | CbToolStart slot name arguments => tool_start sessionKey responseID slot name arguments
  | CbToolEnd slot name response => tool_end sessionKey responseID slot name response
  | CbToolError _ err => do _ <- publish (error_event sessionKey "tool_error" err true); sret tt
  | CbModelEnd out => model_end sessionKey out
  | CbSecretResolved skillName secretName provider =>
      do _ <- publish (skill_event EventTypeSkillSecretResolved sessionKey responseID
                         (Build_EventSkillInfo skillName false false "" 0 0 secretName provider));
      sret tt
  end.

(** One call of [Generate]. *)
Definition Generate (sessionKey responseID : string) (r : gen_request St) : A (result string Message) :=
  do n <- sget (fun s => length (rt_requests s));
  run add_request r;
  let a := generate n r in
  run sfor (run_callback sessionKey responseID) (ga_callbacks a);
  do _ <- sessions (Step (Sleep (ga_elapsed a)) Ret);
  sret (ga_result a).

Definition NewAgent (c : AgentConfig St) : A (option string) :=
  do n <- sget (fun s => length (rt_requests s));
  sret (new_agent n c).
(** ** The generation loop *)

(** The agent in use, the tools of the configuration, the input and whether it
    has an inline picture. *)
Record gen_state := {
  gs_agent : AgentConfig St;
  gs_tools : bound_tools St;
  gs_input : list Message;
  gs_inlined : bool }.

Section generation.
(** What is fixed for the message: its session and user, the coordinates for
    the tools, the history, the message as text, and the prompt. *)
Context (sessionKey responseID userID : string) (coords : option (float64 * float64))
        (history : list Message) (userMsgText : Message) (systemPrompt : string).

Definition request (g : gen_state) : gen_request St := Build_gen_request (gs_agent g) (gs_input g) coords userID.

Definition set_agent (a : AgentConfig St) (g : gen_state) : gen_state :=
  Build_gen_state a (gs_tools g) (gs_input g) (gs_inlined g).
Definition set_tools (ts : bound_tools St) (g : gen_state) : gen_state :=
  Build_gen_state (gs_agent g) ts (gs_input g) (gs_inlined g).

(** One attempt: a second call without the picture when it is refused. *)
Definition attempt_once (g : gen_state) : A (result string Message * gen_state) :=
  do r <- Generate sessionKey responseID (request g);
  match r with
  | Ok m => sret (Ok m, g)
  | Err e =>
      if gs_inlined g && isImagesNotSupportedErr fold e then
        run no_vision;
        let g := Build_gen_state (gs_agent g) (gs_tools g) (history ++ [userMsgText]) false in
        do r <- Generate sessionKey responseID (request g);
        sret (r, g)
      else sret (Err e, g)
  end.

Definition tool_hint (toolName : string) : string :=
  nl +:+ nl +:+ "[RECOVERY: You called a tool named " +:+ go_quote printable toolName
  +:+ "; that tool does not exist. For URL summarization use web_fetch(url), then list_folders, then create_note. Do not call "
  +:+ go_quote printable toolName +:+ " as a tool.]".

Definition token_hint : string :=
  nl +:+ nl
  +:+ "[CRITICAL: Your previous response contained raw chat-template tokens (<|channel|>, <|message|>, etc.) instead of valid tool calls. You MUST use the standard JSON tool_call format. Do NOT output <|...|> tokens. To call a tool, produce a proper function_call with name and arguments as JSON.]".

(** The agent rebuilt with a hint, when it can be. *)
Definition with_hint (hint : string) (g : gen_state) : A (option gen_state) :=
  let c := Build_AgentConfig (gs_tools g) (systemPrompt +:+ hint) in
  do e <- NewAgent c;
  sret (match e with None => Some (set_agent c g) | Some _ => None end).

(** The tool the model called is a skill without a tool of its own. *)
Definition mcp_only_skill (toolName : string) : bool :=
  negb (toolName =? "")%string
  && match skills with
     | None => false
     | Some l => match SkillByName toolName l with Some s => IsMCPOnly s | None => false end
     end.

(** After an MCP reconnection: the tools as they are now, if a new agent can be
    built with them. *)
Definition reconnected (g : gen_state) : A gen_state :=
  do l <- loader;
  let g := set_tools (Bare (currentTools native l)) g in
  let c := Build_AgentConfig (gs_tools g) systemPrompt in
  do e <- NewAgent c;
  sret (match e with None => set_agent c g | Some _ => g end).

(** What follows a failed attempt that was not the last: the state of the next
    one, or [None] when the context is done. *)
Definition backoff_for (attempt : Z) (err : string) : Z :=
  if isRateLimitError fold err then 60 * time_second else attempt * 2 * time_second.

Definition back_off (attempt : Z) (err : string) (g : gen_state) : A (option gen_state) :=
  do cancelled <- sessions (wait (backoff_for attempt err));
  sret (if cancelled then None else Some g).

Definition token_retry (attempt : Z) (err : string) (g : gen_state) : A (option gen_state) :=
  if isSpecialTokenLeakage err then
    do r <- with_hint token_hint g;
    match r with Some g => sret (Some g) | None => back_off attempt err g end
  else back_off attempt err g.

Definition tool_retry (attempt : Z) (err : string) (g : gen_state) : A (option gen_state) :=
  let toolName := toolNameFromNotFoundError err in
  if mcp_only_skill toolName then
    do r <- with_hint (tool_hint toolName) g;
    match r with Some g => sret (Some g) | None => token_retry attempt err g end
  else token_retry attempt err g.

Definition recover (attempt : Z) (err : string) (g : gen_state) : A (option gen_state) :=
  if isMCPTransportError err && match mcp with Some _ => true | None => false end then
    do cancelled <- sessions (wait (10 * time_second));
    if cancelled then tool_retry attempt err g
    else do g <- reconnected g; sret (Some g)
  else tool_retry attempt err g.

(** The attempts that are left after this one. *)
Fixpoint gen_loop (left : nat) (g : gen_state) : A gen_outcome :=
  do r <- attempt_once g;
  match r with
  | (Ok m, _) => sret (GenOk m)
  | (Err e, g) =>
      match left with
      | O => sret (GenFailed e)
      | S left' =>
          do next <- recover (Z.of_nat (maxLLMAttempts - left)) e g;
          match next with
          | None => sret GenCancelled
          | Some g => gen_loop left' g
          end
      end
  end.
End generation.

(** ** Handling a message *)

Definition load_profile (userID : string) : A (result string UserProfile) :=
  kept (Commands.load_profile cfg userID).

(** The session and its transcript; a new one has none. *)
Definition loadOrCreateSession (msg : NipperMessage) : A (result string (Session * list TranscriptLine)) :=
  do r <- sessions (GetSession (nm_SessionKey msg));
  match r with
  | Ok sess =>
      do t <- sessions (LoadTranscript (nm_SessionKey msg));
      sret (Ok (sess, match t with Ok lines => lines | Err _ => [] end))
  | Err ESessionNotFound =>
      do r <- sessions (CreateSession (create_request cfg reg msg));
      sret (match r with
            | Ok sess => Ok (sess, [])
            | Err e => Err ("create session: " +:+ show e)
            end)
  | Err e => sret (Err ("get session: " +:+ show e))
  end.

Definition location_instruction : string :=
  "The user just shared their location and it was not previously saved. You have saved these coordinates to their profile. Ask them if they would like the weather for this location.".

(** Step 1b: a location is saved when the profile has none. *)
Definition save_location (msg : NipperMessage) : A string :=
  match extractLocationFromMessage msg with
  | None => sret ""
  | Some (lat, lon) =>
      do r <- load_profile (nm_UserID msg);
      match r with
      | Ok p =>
          if (up_Latitude p =? "")%string || (up_Longitude p =? "")%string then
            let p := set_strings (<[7%nat := FormatFloat lon]> (<[6%nat := FormatFloat lat]> (strings_of p))) p in
            do r <- kept (save_profile env cfg save_fails (nm_UserID msg) p);
            sret (match r with (Ok _, _) => location_instruction | (Err _, _) => "" end)
          else sret ""
      | Err _ => sret ""
      end
  end.

(** Step 1c: the coordinates for the weather tool. *)
Definition profile_coords (msg : NipperMessage) : A (option (float64 * float64)) :=
  if at_Weather (Prompt.ac_Tools cfg) then
    do r <- load_profile (nm_UserID msg);
    sret (match r with
          | Ok p =>
              if (up_Latitude p =? "")%string || (up_Longitude p =? "")%string then None
              else match ParseFloat (up_Latitude p), ParseFloat (up_Longitude p) with
                   | Some lat, Some lon => Some (lat, lon)
                   | _, _ => None
                   end
          | Err _ => None
          end)
  else sret None.

(** Step 1.5: the message as the pipeline leaves it, whether or not it fails. *)
Definition enriched (msg : NipperMessage) : NipperMessage :=
  match pipeline with Some p => snd (EnrichMessage p msg) | None => msg end.

Definition keepLines : Z :=
  if pc_CompactKeepLines (ac_Prompt cfg) <=? 0 then 20 else pc_CompactKeepLines (ac_Prompt cfg).
Definition thresholdPct : Z :=
  if pc_AutoCompactionThresholdPercent (ac_Prompt cfg) <=? 0 then 60
  else pc_AutoCompactionThresholdPercent (ac_Prompt cfg).

(** Step 2.5: the notice for the user and, when the history was compacted, the
    transcript; [None] in it when it cannot be read again. *)
Definition auto_compact (msg : NipperMessage) : A (string * option (option (list TranscriptLine))) :=
  do u <- sget (fun s => st_usage (rt_store s));
  let lastContextFill := match u ≫= Get (nm_SessionKey msg) with Some x => su_LastPromptTokens x | None => 0 end in
  if (contextWindowMax =? 0) || (lastContextFill <=? Z.quot (int64 (contextWindowMax * thresholdPct)) 100)
  then sret ("", None)
  else
    do r <- sessions (Compact ctx (nm_SessionKey msg) keepLines);
    match r with
    | Err _ => sret ("", None)
    | Ok res =>
        if cp_Compacted res then
          do t <- sessions (LoadTranscript (nm_SessionKey msg));
          sret ("Context compacted. Archived " +:+ fmt_d (cp_ArchivedLineCount res) +:+ " messages to free space."
                +:+ nl +:+ nl,
                Some (match t with Ok lines => Some lines | Err _ => None end))
        else
          let fillPct := percent lastContextFill contextWindowMax in
          sret (if f_ltb (f_of_int 80) fillPct
                then "Context usage is " +:+ fmt_fixed 0 fillPct +:+ "% but only " +:+ fmt_d (cp_OriginalLineCount res)
                     +:+ " messages in history (need >" +:+ fmt_d keepLines
                     +:+ " to compact). Consider sending /new to start fresh." +:+ nl +:+ nl
                else "", None)
    end.

(** Step 3.5a. *)
Definition topic_notice (msg : NipperMessage) (transcript : list TranscriptLine) : string :=
  if (length transcript <? minHistoryForTopicDetection)%nat then ""
  else
    let recent := map tl_Content (List.filter (fun l => (tl_Role l =? "user")%string) transcript) in
    let '(changed, suggestion) := detectTopicChange fold letter digit recent (mc_Text (nm_Content msg)) in
    if changed then suggestion +:+ nl +:+ nl else "".

Definition formatForChannel (msg : NipperMessage) (text : string) : string :=
  if (text =? "")%string then text
  else if (dc_ChannelType (nm_DeliveryContext msg) =? ChannelTypeWhatsApp)%string then whatsapp_format text
  else text.

(** Step 6: the footer for users of some skill. *)
Definition footer (startTime : Z) : A string :=
  do profile <- load_profile (bl_UserID reg);
  match profile with
  | Ok p =>
      if IsSkillLevelAboveIntermediate fold (up_SkillLevel p) then
        do tk <- sget rt_tokens;
        do t <- now;
        let timing := if (0 <? ta_lastTTFTNs tk) || (0 <? ta_lastGenDurNs tk)
                      then Some (Build_FooterTiming (ta_lastTTFTNs tk) (ta_lastGenDurNs tk)) else None in
        sret (FormatResponseFooter fold order (model_name cfg) (ta_promptTokens tk) (ta_completionTokens tk)
                (ta_steps tk) (ta_lastPromptTokens tk) contextWindowMax thresholdPct (t - startTime) timing)
      else sret ""
  | Err _ => sret ""
  end.

Definition record_tokens (sessionKey : string) : A unit :=
  do tk <- sget rt_tokens;
  if 0 <? int64 (ta_promptTokens tk + ta_completionTokens tk) then
    do t <- now;
    kept (smodify (fun s =>
      set_usage (Record_ fold (model_name cfg) contextWindowMax order t sessionKey (ta_promptTokens tk)
                   (ta_completionTokens tk) (ta_lastPromptTokens tk) <$> st_usage s) s))
  else sret tt.

(** Step 7 and 8: the turn is appended to the transcript and counted; failures
    are logged. *)
Definition turn_line (role content runID : string) (t : Z) : TranscriptLine := {|
  tl_Role := role; tl_Content := content; tl_Timestamp := t; tl_RunID := runID; tl_TokenCount := 0 |}.

Definition counted_meta (meta : SessionMetadata) (t : Z) : SessionMetadata := {|
  sm_Model := sm_Model meta; sm_CompactionLevel := sm_CompactionLevel meta;
  sm_CompactionCount := sm_CompactionCount meta; sm_MessageCount := int64 (sm_MessageCount meta + 2);
  sm_ContextUsage := sm_ContextUsage meta; sm_LastActivityAt := t; sm_ChannelMeta := sm_ChannelMeta meta |}.

Definition save_turn (sess : Session) (userText replyRole replyText runID : string) : prog unit :=
  call! t <- Now;
  sub! _ <- AppendTranscript (se_Key sess) (turn_line RoleUser userText runID t);
  call! t <- Now;
  sub! _ <- AppendTranscript (se_Key sess) (turn_line replyRole replyText runID t);
  call! t <- Now;
  sub! _ <- UpdateMeta (se_Key sess) (counted_meta (se_Metadata sess) t);
  Ret tt.

(** Step 9: the usage reported with the answer. *)
Definition reported_usage (sessionKey : string) (u : option UsageTracker) : option Models.ContextUsage :=
  match u ≫= Get sessionKey with
  | Some x => Some (Models.Build_ContextUsage (su_TotalInputTokens x) (su_TotalOutputTokens x) 0
                      (su_ContextWindowSize x) (su_LastUsagePercent x))
  | None => None
  end.

(** Steps 5b to 9, from the model's answer on. *)
Definition finish (msg : NipperMessage) (startTime : Z) (sess : Session) (userText responseID notices : string)
    (answer : Message) : A (option string) :=
  run record_tokens (nm_SessionKey msg);
  let content := clean_reply fold (em_Content answer) (em_ToolCalls answer) in
  do foot <- footer startTime;
  let formatted := notices +:+ formatForChannel msg (content +:+ foot) in
  do _ <- sessions (save_turn sess userText (em_Role answer) content responseID);
  do u <- sget (fun s => st_usage (rt_store s));
  do e <- publish (done_event (nm_SessionKey msg) responseID formatted (reported_usage (nm_SessionKey msg) u));
  sret (match e with Some e => Some ("publishing done event: " +:+ e) | None => None end).

(** Steps 4 and 5: the agent is built and asked. *)
Definition ask (msg : NipperMessage) (responseID : string) (coords : option (float64 * float64))
    (history : list Message) (userMsgText userMsg : Message) (inlined : bool) (ts : bound_tools St)
    (systemPrompt : string) : A gen_outcome :=
  let agent := Build_AgentConfig ts systemPrompt in
  gen_loop (nm_SessionKey msg) responseID (nm_UserID msg) coords history userMsgText systemPrompt
    (maxLLMAttempts - 1) (Build_gen_state agent ts (history ++ [userMsg]) inlined).

Definition failed (msg : NipperMessage) (code err wrapped : string) : A (option string) :=
  do _ <- publish (error_event (nm_SessionKey msg) code err true);
  sret (Some (wrapped +:+ err)).

(** A message that is not a command; the error, if any. *)
Definition converse (startTime : Z) (msg : NipperMessage) : A (option string) :=
  do loaded <- loadOrCreateSession msg;
  match loaded with
  | Err e => sret (Some ("loading session: " +:+ e))
  | Ok (sess, transcript) =>
      do extra <- save_location msg;
      do coords <- profile_coords msg;
      let msg := enriched msg in
      let userMsgText := NipperMessageToEinoMessage fold upper msg in
      do noVision <- sget rt_visionUnsupported;
      let '(userMsg, inlined, _) :=
        if noVision then (userMsgText, false, None)
        else NipperMessageToEinoMessageWithInlineImages fold upper base64 shrink fetch msg in
      do persona <- sget (fun s => st_personas (rt_store s) !! nm_SessionKey msg);
      do profile <- load_profile (bl_UserID reg);
      do l <- loader;
      let systemPrompt := fst (buildSystemPrompt fold cfg skills persona profile l msg extra) in
      do compacted <- auto_compact msg;
      let '(compactionNotice, reloaded) := compacted in
      let transcript' := match reloaded with Some t => default [] t | None => transcript end in
      let history := TranscriptLinesToEinoMessages
                       (match reloaded with Some (Some t) => t | _ => transcript end) in
      let notices := compactionNotice +:+ topic_notice msg transcript' in
      do l <- loader;
      let ts := Guarded (wrapToolsWithDedup printable
                  (sanitizeToolDescriptions (assemble_tools fold mt skills cfg native l msg))) in
      do e <- NewAgent (Build_AgentConfig ts systemPrompt);
      match e with
      | Some err => failed msg "agent_init_error" err "creating react agent: "
      | None =>
          do responseID <- new_uuid;
          do outcome <- ask msg responseID coords history userMsgText userMsg inlined ts systemPrompt;
          match outcome with
          | GenCancelled => sret (Some "context done")
          | GenFailed err => failed msg "agent_run_error" err "agent generate after 3 attempts: "
          | GenOk answer => finish msg startTime sess (em_Content userMsgText) responseID notices answer
          end
      end
  end.

(** The counter and the open calls belong to one message. *)
Definition fresh_run : A unit := run set_tokens (fun _ => no_tokens); set_calls (fun _ => ∅).

Definition handleMessage (msg : NipperMessage) : A (option string) :=
  run fresh_run;
  do startTime <- now;
  do c <- kept (handleCommand env fold printable cfg reg show save_fails ctx msg);
  match c with
  | Some r =>
      if cm_Handled r then
        do id <- new_uuid;
        do e <- publish (done_event (nm_SessionKey msg) id (formatForChannel msg (cm_Response r)) None);
        sret (match e with Some e => Some ("publishing command response: " +:+ e) | None => None end)
      else converse startTime msg
  | None => converse startTime msg
  end.

(** ** The queue (handleDelivery, consume)

    [decode]: what [json.Unmarshal] makes of a body, the item's message if it
    has one. *)
Context (decode : string -> result string (option NipperMessage)).

Definition handleDelivery (body : string) : A (option string) :=
  match decode body with
  | Err _ | Ok None => sret None
  | Ok (Some msg) => handleMessage msg
  end.

Definition consume_one (body : string) : A settlement :=
  do e <- handleDelivery body;
  sret (match e with Some _ => Nack false | None => Ack end).

Fixpoint consume (bodies : list string) : A (list settlement) :=
  match bodies with
  | [] => sret []
  | b :: bodies => do s <- consume_one b; do ss <- consume bodies; sret (s :: ss)
  end.
End agent.
