(* ===== verification/AgentProofs.v ===== *)
(** * The agent's runtime: what a message leads to

    For every message, whatever the model, the broker and the disk do: which
    events are published and how often the model is asked. *)
From Stdlib Require Import ZArith Lia Bool Ascii String List.
From Corelib Require Import SpecFloat.
From stdpp Require Import base gmap strings option list.
From S2P Require Import Prelude GoString GoTime GoFloat SessionKey Models Queue SessionTypes SessionFs SessionLock.
From S2P Require Import SessionStore Compaction AgentText ToolDedup Usage Profile Convert.
From S2P Require Import Enrich Skills ToolMatch Prompt Register EventPublisher Commands Agent.

Local Open Scope string_scope.
Local Open Scope Z_scope.
Local Open Scope state_scope.

Section effects.
Context {St : Type}.
Abbreviation A X := (State (Runtime St) X).

(** [emits m P]: [m] publishes some events and makes some number of requests,
    and its result with them is in [P]. *)
Definition emits {X} (m : A X) (P : X -> list agent_publishing -> nat -> Prop) : Prop :=
  forall s, exists evs rs,
    ep_sent (rt_pub (snd (m s))) = (ep_sent (rt_pub s) ++ evs)%list
    /\ rt_requests (snd (m s)) = (rt_requests s ++ rs)%list
    /\ P (fst (m s)) evs (length rs).

Lemma emits_bind {X Y} (m : A X) (f : X -> A Y) P Q :
  emits m P -> (forall x evs n, P x evs n -> emits (f x) (fun y evs' n' => Q y (evs ++ evs')%list (n + n')%nat)) ->
  emits (sbind m f) Q.
Proof.
  intros Hm Hf s. destruct (Hm s) as (evs & rs & H1 & H2 & H3). unfold sbind.
  destruct (m s) as [x s1]. cbn [fst snd] in *.
  destruct (Hf x evs (length rs) H3 s1) as (evs' & rs' & H1' & H2' & H3').
  exists (evs ++ evs')%list, (rs ++ rs')%list. rewrite H1', H2', H1, H2, length_app, !app_assoc. done.
Qed.

Lemma emits_ret {X} (x : X) (P : X -> list agent_publishing -> nat -> Prop) : P x [] O -> emits (sret x) P.
Proof. intros H s. exists [], []. by rewrite !app_nil_r. Qed.

Lemma emits_weaken {X} (m : A X) (P Q : X -> list agent_publishing -> nat -> Prop) :
  emits m P -> (forall x evs n, P x evs n -> Q x evs n) -> emits m Q.
Proof. intros Hm H s. destruct (Hm s) as (evs & rs & ? & ? & ?). exists evs, rs. auto. Qed.

(** Computations that neither publish nor ask. *)
Definition silent {X} (m : A X) : Prop := emits m (fun _ evs n => evs = [] /\ n = O).

Lemma silent_state {X} (m : A X) :
  (forall s, rt_pub (snd (m s)) = rt_pub s /\ rt_requests (snd (m s)) = rt_requests s) -> silent m.
Proof. intros H s. exists [], []. destruct (H s) as [-> ->]. by rewrite !app_nil_r. Qed.

Lemma silent_get {X} (f : Runtime St -> X) : silent (sget f).
Proof. by apply silent_state. Qed.
Lemma silent_kept {X} (m : State AgentStore X) : silent (kept m).
Proof. apply silent_state. intros s. unfold kept. by destruct (m (rt_store s)). Qed.
Lemma emits_kept {X} (m : State AgentStore X) (P : X -> Prop) :
  (forall st, P (fst (m st))) -> emits (kept m) (fun x evs n => (evs = [] /\ n = O) /\ P x).
Proof.
  intros H s. destruct (silent_kept m s) as (evs & rs & H1 & H2 & H3). exists evs, rs. split; [done|]. split; [done|]. split; [done|].
  unfold kept. specialize (H (rt_store s)). by destruct (m (rt_store s)).
Qed.
Lemma silent_tokens f : silent (set_tokens f : A unit).
Proof. by apply silent_state. Qed.
Lemma silent_calls f : silent (set_calls f : A unit).
Proof. by apply silent_state. Qed.
Lemma silent_vision : silent (no_vision : A unit).
Proof. by apply silent_state. Qed.
Lemma silent_ret {X} (x : X) : silent (sret x : A X).
Proof. by apply silent_state. Qed.

Lemma emits_after {X Y} (m : A X) (f : X -> A Y) Q :
  silent m -> (forall x, emits (f x) Q) -> emits (sbind m f) Q.
Proof.
  intros Hm Hf. eapply emits_bind; [exact Hm|]. intros x evs n [-> ->].
  eapply emits_weaken; [apply Hf|]. done.
Qed.

Lemma silent_bind {X Y} (m : A X) (f : X -> A Y) : silent m -> (forall x, silent (f x)) -> silent (sbind m f).
Proof. intros Hm Hf. apply emits_after; [done|exact Hf]. Qed.

Lemma emits_then {X Y} (m : A X) (f : X -> A Y) P :
  emits m P -> (forall x, silent (f x)) ->
  emits (sbind m f) (fun _ evs n => exists x, P x evs n).
Proof.
  intros Hm Hf. eapply emits_bind; [exact Hm|]. intros x evs n Hx.
  eapply emits_weaken; [apply Hf|]. intros y evs' n' [-> ->].
  exists x. by rewrite app_nil_r, Nat.add_0_r.
Qed.

(** Events of a session that are not its answer. *)
Definition about (key : string) (p : agent_publishing) : Prop := ev_SessionKey (ap_event p) = key.
Definition is_done (p : agent_publishing) : bool := (ev_Type (ap_event p) =? EventTypeDone)%string.
Definition progress (key : string) (p : agent_publishing) : Prop := about key p /\ is_done p = false.

(** Computations that publish events on the progress only, and ask at most [n]
    times. *)
Definition working {X} (key : string) (n : nat) (m : A X) : Prop :=
  emits m (fun _ evs k => Forall (progress key) evs /\ (k <= n)%nat).

Lemma working_silent {X} key n (m : A X) : silent m -> working key n m.
Proof. intros H. eapply emits_weaken; [exact H|]. intros x evs k [-> ->]. split; [constructor|lia]. Qed.

Lemma working_bind {X Y} key n n' (m : A X) (f : X -> A Y) :
  working key n m -> (forall x, working key n' (f x)) -> working key (n + n') (sbind m f).
Proof.
  intros Hm Hf. eapply emits_bind; [exact Hm|]. intros x evs k [H1 H2].
  eapply emits_weaken; [apply Hf|]. intros y evs' k' [H1' H2']. split; [by apply Forall_app|lia].
Qed.

Lemma working_after {X Y} key n (m : A X) (f : X -> A Y) :
  silent m -> (forall x, working key n (f x)) -> working key n (sbind m f).
Proof. intros. by apply emits_after. Qed.

Lemma working_for {X} key (f : X -> A unit) l :
  (forall x, working key 0 (f x)) -> working key 0 (sfor f l).
Proof.
  intros Hf. induction l as [|x l IH]; [by apply working_silent, silent_ret|].
  intros s. destruct (working_bind key 0 0 (f x) (fun _ => sfor f l) (Hf x) (fun _ => IH) s) as (evs & rs & H1 & H2 & H3).
  exists evs, rs. cbn [sfor]. unfold sbind in *. destruct (f x s) as [u s1]. done.
Qed.
End effects.

Section agent.
Context `{StoreConfig} {St : Type} (env : Env).
Context (fold upper : Z -> Z) (letter digit printable : Z -> bool).
Context (cfg : AgentRuntimeConfig) (reg : result_blob) (contextWindowMax : Z).
Context (show : error -> string) (save_fails : Z -> option save_fault) (ctx : context).
Context (is_closed : nat -> bool) (open_channel : nat -> option string) (publish_outcome : nat -> option string).
Context (native : list (tool St)) (mcp : option (Z -> list (tool St))) (skills : option Loader)
        (mt : matcher) (pipeline : option Pipeline).
Context (base64 : string -> string) (shrink fetch : string -> result string string).
Context (whatsapp_format : string -> string) (order : list (string * (float64 * float64))).
Context (new_agent : nat -> AgentConfig St -> option string) (generate : nat -> gen_request St -> gen_answer).

Abbreviation A X := (State (Runtime St) X).
#[local] Notation Publish := (publish env reg is_closed open_channel publish_outcome).

(** ** What is published on the way *)

Lemma silent_sessions {X} (m : prog X) : silent (sessions env m : A X).
Proof. apply silent_kept. Qed.

(** A publication: the event, unless there is an error. *)
Lemma publish_emits (ev : NipperEvent) :
  emits (Publish ev : A (option string)) (fun r evs n => n = O /\
    match r with
    | None => exists p, evs = [p] /\ ev_SessionKey (ap_event p) = ev_SessionKey ev /\ ev_Type (ap_event p) = ev_Type ev
    | Some _ => evs = []
    end).
Proof.
  apply emits_after; [apply silent_sessions|]. intros id. apply emits_after; [apply silent_sessions|]. intros t s.
  unfold on_pub. pose proof (publish_sends reg is_closed open_channel publish_outcome id t ev (rt_pub s)) as H0.
  destruct (PublishEvent _ _ _ _ id t ev (rt_pub s)) as [[e|] p]; cbn.
  - exists [], []. rewrite !app_nil_r. done.
  - eexists [_], []. rewrite app_nil_r. split_and!; [exact H0|done..|]. eexists. split; [done|]. done.
Qed.

Lemma publish_working ev key :
  ev_SessionKey ev = key -> (ev_Type ev =? EventTypeDone)%string = false ->
  working key 0 (Publish ev : A (option string)).
Proof.
  intros Hk Ht. eapply emits_weaken; [apply publish_emits|]. intros [e|] evs n [-> H0]; [subst; by split|].
  destruct H0 as (p & -> & H1 & H2). split; [|done]. repeat constructor; unfold about, is_done; congruence.
Qed.

Lemma callback_working key rid c :
  working key 0 (run_callback env reg is_closed open_channel publish_outcome key rid c : A unit).
Proof.
  assert (Hb : forall X Y (m : A X) (f : X -> A Y), working key 0 m -> (forall x, working key 0 (f x)) -> working key 0 (sbind m f))
    by (intros; by apply (working_bind key 0 0)).
  destruct c as [slot name args|slot name resp|slot err|out|sn secret prov]; cbn [run_callback].
  - unfold tool_start. apply Hb; [apply working_silent, silent_sessions|]. intros id.
    apply Hb; [by apply publish_working|]. intros _. destruct (name =? "skill_exec")%string; [|apply working_silent, silent_calls].
    cbn. apply Hb; [by apply publish_working|]. intros _.
    apply Hb; [apply working_silent, silent_sessions|]. intros start. apply working_silent, silent_calls.
  - unfold tool_end. apply Hb; [apply working_silent, silent_get|]. intros c.
    apply Hb; [by apply publish_working|]. intros _. destruct (name =? "skill_exec")%string; [|apply working_silent, silent_ret].
    destruct (c ≫= tx_exec) as [[start sk]|]; [|apply working_silent, silent_ret].
    apply Hb; [apply working_silent, silent_sessions|]. intros t.
    apply Hb; [by apply publish_working|]. intros _. apply working_silent, silent_ret.
  - apply Hb; [by apply publish_working|]. intros _. apply working_silent, silent_ret.
  - unfold model_end. destruct (default (0, 0) (co_timing out)) as [ttft gen].
    apply Hb; [apply working_silent; destruct (_ || _); [apply silent_tokens|apply silent_ret]|]. intros _.
    apply Hb; [apply working_silent; destruct (usage_of out) as [[]|]; [apply silent_tokens|apply silent_ret]|]. intros _.
    unfold logReasoning. destruct (_ =? _)%string; [apply working_silent, silent_ret|].
    apply Hb; [by apply publish_working|]. intros _. apply working_silent, silent_ret.
  - apply Hb; [by apply publish_working|]. intros _. apply working_silent, silent_ret.
Qed.

#[local] Notation Gen := (Generate env reg is_closed open_channel publish_outcome generate).

Lemma generate_working key rid r : working key 1 (Gen key rid r : A (result string Message)).
Proof.
  unfold Generate. apply working_after; [apply silent_get|]. intros n.
  change 1%nat with (1 + 0)%nat. apply working_bind.
  { intros s. exists [], [r]. rewrite app_nil_r. split_and!; done. }
  intros _. change 0%nat with (0 + 0)%nat. apply working_bind; [apply working_for, callback_working|].
  intros _. apply working_silent, silent_bind; [apply silent_sessions|]. intros _. apply silent_ret.
Qed.

(** ** How often the model is asked *)

Definition pictures (g : @gen_state St) : nat := if gs_inlined g then 1 else 0.

Section loop.
Context (key rid user : string) (coords : option (float64 * float64)) (history : list Message)
        (userMsgText : Message) (systemPrompt : string).
#[local] Notation Attempt := (attempt_once env fold reg is_closed open_channel publish_outcome generate key rid user coords history userMsgText).
#[local] Notation Recover := (recover env fold printable ctx native mcp skills new_agent systemPrompt).
#[local] Notation Loop := (gen_loop env fold printable reg ctx is_closed open_channel publish_outcome native mcp skills new_agent generate key rid user coords history userMsgText systemPrompt).

Lemma attempt_emits (g : @gen_state St) :
  emits (Attempt g) (fun x evs k => Forall (progress key) evs /\ (k + pictures (snd x) <= 1 + pictures g)%nat).
Proof.
  unfold attempt_once. eapply emits_bind; [apply generate_working|]. intros [m|e] evs n [H1 H2].
  { apply emits_ret. rewrite app_nil_r. split; [done|]. cbn. lia. }
  destruct (gs_inlined g && _) eqn:Ei.
  2:{ apply emits_ret. rewrite app_nil_r. split; [done|]. cbn. lia. }
  apply andb_true_iff in Ei as [Ei _]. apply emits_after; [apply silent_vision|]. intros _.
  eapply emits_bind; [apply generate_working|]. intros r evs' n' [H1' H2']. apply emits_ret.
  rewrite app_nil_r. split; [by apply Forall_app|]. unfold pictures. rewrite Ei. cbn. lia.
Qed.

(** The state of the next attempt has the pictures of this one. *)
Definition same_pictures (g : @gen_state St) (x : option (@gen_state St)) : Prop :=
  match x with Some g' => gs_inlined g' = gs_inlined g | None => True end.
Abbreviation settles g m := (emits m (fun x evs n => (evs = [] /\ n = O) /\ same_pictures g x)).

Lemma settles_after {X} g (m : A X) f : silent m -> (forall x, settles g (f x)) -> settles g (sbind m f).
Proof. intros. by apply emits_after. Qed.

Lemma settles_ret g x : same_pictures g x -> settles g (sret x : A _).
Proof. intros. by apply emits_ret. Qed.

Lemma back_off_settles attempt err g : settles g (back_off env fold ctx attempt err g).
Proof. apply settles_after; [apply silent_sessions|]. intros c. apply settles_ret. by destruct c. Qed.

Lemma hint_then g hint (rest : A (option (@gen_state St))) :
  settles g rest ->
  settles g (do r <- with_hint new_agent systemPrompt hint g; match r with Some g => sret (Some g) | None => rest end).
Proof.
  intros Hr. eapply (emits_bind _ _ (fun x evs n => (evs = [] /\ n = O) /\ same_pictures g x)).
  - unfold with_hint. apply settles_after; [apply silent_bind; [apply silent_get|intros; apply silent_ret]|].
    intros [e|]; by apply settles_ret.
  - intros [g'|] evs n [[-> ->] H1]; [by apply settles_ret|exact Hr].
Qed.

Lemma recover_settles attempt err g : settles g (Recover attempt err g).
Proof.
  assert (Hk : settles g (token_retry env fold ctx new_agent systemPrompt attempt err g)).
  { unfold token_retry. destruct (isSpecialTokenLeakage err); [|apply back_off_settles].
    apply hint_then, back_off_settles. }
  assert (Ht : settles g (tool_retry env fold printable ctx skills new_agent systemPrompt attempt err g)).
  { unfold tool_retry. destruct (mcp_only_skill _ _); [|exact Hk]. by apply hint_then. }
  unfold recover. destruct (_ && _); [|exact Ht].
  apply settles_after; [apply silent_sessions|]. intros [|]; [exact Ht|].
  unfold reconnected. eapply (emits_bind _ _ (fun g' evs n => (evs = [] /\ n = O) /\ gs_inlined g' = gs_inlined g)).
  - apply emits_after; [apply silent_get|]. intros l. apply emits_after;
      [apply silent_bind; [apply silent_get|intros; apply silent_ret]|].
    intros [e|]; by apply emits_ret.
  - intros g' evs n [[-> ->] Hg]. by apply settles_ret.
Qed.

Lemma loop_working left g : working key (left + 1 + pictures g) (Loop left g).
Proof.
  revert g. induction left as [|left IH]; intros g; cbn [gen_loop];
    (eapply emits_bind; [apply attempt_emits|]); intros [[m|e] g'] evs n [H1 H2]; cbn [fst snd] in *;
    try (apply emits_ret; rewrite app_nil_r; split; [done|lia]).
  eapply emits_bind; [apply recover_settles|]. intros [g''|] evs' n' [[-> ->] Hg].
  - eapply emits_weaken; [apply IH|]. intros x evs' n' [H1' H2']. split; [by apply Forall_app|].
    unfold pictures in *. cbn in Hg. rewrite Hg in H2'. cbn [app length]. lia.
  - apply emits_ret. rewrite !app_nil_r. split; [done|]. lia.
Qed.
End loop.

(** ** One message *)

Ltac silence :=
  repeat first
    [ apply silent_ret | apply silent_get | apply silent_sessions | apply silent_kept
    | apply silent_tokens | apply silent_calls
    | apply silent_bind; [|intros ?] | case_match ].

#[local] Notation Converse := (converse env fold upper letter digit printable cfg reg contextWindowMax show save_fails ctx
  is_closed open_channel publish_outcome native mcp skills mt pipeline base64 shrink fetch whatsapp_format order new_agent generate).
#[local] Notation Handle := (handleMessage env fold upper letter digit printable cfg reg contextWindowMax show save_fails ctx
  is_closed open_channel publish_outcome native mcp skills mt pipeline base64 shrink fetch whatsapp_format order new_agent generate).

Lemma load_silent msg : silent (loadOrCreateSession env cfg reg show msg : A _).
Proof. unfold loadOrCreateSession. silence. Qed.
Lemma location_silent msg : silent (save_location env cfg save_fails msg : A _).
Proof. unfold save_location, Agent.load_profile. silence. Qed.
Lemma coords_silent msg : silent (profile_coords cfg msg : A _).
Proof. unfold profile_coords, Agent.load_profile. silence. Qed.
Lemma compact_silent msg : silent (auto_compact env cfg contextWindowMax ctx msg : A _).
Proof. unfold auto_compact. silence. Qed.
Lemma tokens_silent key : silent (record_tokens env fold cfg contextWindowMax order key : A _).
Proof. unfold record_tokens, now. silence. Qed.
Lemma footer_silent t : silent (footer env fold cfg reg contextWindowMax order t : A _).
Proof. unfold footer, Agent.load_profile, now. silence. Qed.
Lemma new_agent_silent c : silent (NewAgent new_agent c : A _).
Proof. unfold NewAgent. silence. Qed.

Lemma enriched_key msg : nm_SessionKey (enriched pipeline msg) = nm_SessionKey msg.
Proof.
  unfold enriched. destruct pipeline as [p|]; [|done]. unfold EnrichMessage. destruct p as [|e p]; [done|].
  destruct (enrich_parts _ 0 _) as [parts [ts|e']]; done.
Qed.

(** The events of a message: progress, and at the end the answer if no error is
    returned. *)
Definition answered (key : string) (e : option string) (evs : list agent_publishing) : Prop :=
  match e with
  | None => exists pre p, evs = (pre ++ [p])%list /\ Forall (progress key) pre /\ about key p /\ is_done p = true
  | Some _ => Forall (progress key) evs
  end.

(** A last publication of an answer. *)
Lemma answer_emits ev key (wrap : string -> string) :
  ev_SessionKey ev = key -> ev_Type ev = EventTypeDone ->
  emits (do e <- Publish ev; sret (match e with Some e => Some (wrap e) | None => None end) : A (option string))
    (fun e evs n => answered key e evs /\ n = O).
Proof.
  intros Hk Ht. eapply emits_bind; [apply publish_emits|]. intros [e|] evs n [-> H0]; apply emits_ret; rewrite app_nil_r.
  - subst evs. split; [constructor|done].
  - destruct H0 as (p & -> & H1 & H2). split; [|done]. exists [], p. split_and!; [done|constructor|..].
    + unfold about. congruence.
    + unfold is_done. by rewrite H2, Ht.
Qed.

Lemma failed_emits key msg code err wrapped :
  nm_SessionKey msg = key ->
  emits (failed env reg is_closed open_channel publish_outcome msg code err wrapped : A (option string))
    (fun e evs n => answered key e evs /\ n = O).
Proof.
  intros Hk. unfold failed.
  assert (Hw : working key 0 (Publish (error_event (nm_SessionKey msg) code err true) : A _))
    by (apply publish_working; done).
  eapply emits_bind; [exact Hw|]. intros e evs n [H1 H2]. apply emits_ret. rewrite app_nil_r. cbn. split; [done|lia].
Qed.

Lemma finish_emits key msg t sess userText rid notices answer :
  nm_SessionKey msg = key ->
  emits (finish env fold cfg reg contextWindowMax is_closed open_channel publish_outcome whatsapp_format order
           msg t sess userText rid notices answer : A (option string))
    (fun e evs n => answered key e evs /\ n = O).
Proof.
  intros Hk. unfold finish. apply emits_after; [apply tokens_silent|]. intros _.
  apply emits_after; [apply footer_silent|]. intros foot.
  apply emits_after; [apply silent_sessions|]. intros _. apply emits_after; [apply silent_get|]. intros u.
  by apply answer_emits.
Qed.

Lemma converse_emits t msg :
  emits (Converse t msg : A (option string)) (fun e evs n => answered (nm_SessionKey msg) e evs /\ (n <= 4)%nat).
Proof.
  assert (Hret : forall e, emits (sret (Some e) : A (option string))
                   (fun e evs n => answered (nm_SessionKey msg) e evs /\ (n <= 4)%nat)).
  { intros e. apply emits_ret. split; [constructor|lia]. }
  unfold converse. apply emits_after; [apply load_silent|]. intros [[sess transcript]|e]; [|apply Hret].
  apply emits_after; [apply location_silent|]. intros extra.
  apply emits_after; [apply coords_silent|]. intros coords.
  set (msg' := enriched pipeline msg). assert (Hkey : nm_SessionKey msg' = nm_SessionKey msg) by apply enriched_key.
  apply emits_after; [apply silent_get|]. intros noVision.
  destruct (if noVision then _ else _) as [[userMsg inlined] why].
  apply emits_after; [apply silent_get|]. intros persona.
  apply emits_after; [apply silent_kept|]. intros profile.
  apply emits_after; [apply silent_get|]. intros l.
  apply emits_after; [apply compact_silent|]. intros [notice reloaded].
  apply emits_after; [apply silent_get|]. intros l'.
  apply emits_after; [apply new_agent_silent|]. intros [err|].
  { eapply emits_weaken; [by apply failed_emits|]. intros e evs n [H1 ->]. split; [done|lia]. }
  apply emits_after; [apply silent_sessions|]. intros rid.
  eapply emits_bind; [unfold ask; apply loop_working|]. intros outcome evs n [H1 H2]. rewrite Hkey in H1.
  assert (Hn : (n <= 4)%nat) by (unfold pictures, maxLLMAttempts in H2; cbn in H2; destruct inlined; lia). clear H2.
  assert (Hall : forall e evs', answered (nm_SessionKey msg) e evs' -> answered (nm_SessionKey msg) e (evs ++ evs')%list).
  { intros [e|] evs'; cbn; [intros; by apply Forall_app|]. intros (pre & p & -> & H3 & H4 & H5).
    exists (evs ++ pre)%list, p. rewrite app_assoc. split_and!; try done. by apply Forall_app. }
  destruct outcome as [answer|err|].
  - eapply emits_weaken; [by apply finish_emits|]. intros e evs' n' [H3 ->]. split; [by apply Hall|lia].
  - eapply emits_weaken; [by apply failed_emits|]. intros e evs' n' [H3 ->]. split; [by apply Hall|lia].
  - apply emits_ret. split; [by rewrite app_nil_r|lia].
Qed.

Lemma handle_emits msg :
  emits (Handle msg : A (option string)) (fun e evs n => answered (nm_SessionKey msg) e evs /\ (n <= 4)%nat).
Proof.
  unfold handleMessage. apply emits_after; [unfold fresh_run; silence|]. intros _.
  apply emits_after; [apply silent_sessions|]. intros t. apply emits_after; [apply silent_kept|]. intros [r|].
  - destruct (cm_Handled r); [|apply converse_emits]. apply emits_after; [apply silent_sessions|]. intros id.
    eapply emits_weaken; [by apply answer_emits|]. intros e evs n [H1 ->]. split; [done|lia].
  - apply converse_emits.
Qed.

(** ** Theorems *)

Context (decode : string -> result string (option NipperMessage)).
#[local] Notation Consume := (consume_one env fold upper letter digit printable cfg reg contextWindowMax show save_fails ctx
  is_closed open_channel publish_outcome native mcp skills mt pipeline base64 shrink fetch whatsapp_format order new_agent generate decode).

(** C18: A delivery of a queue item is acknowledged exactly when its message got its
    answer, one [done] event of its session published after everything else about
    it, or when the item carries no message; a delivery that is rejected got no
    answer, and is never put back.  For a body that is no queue item nothing is
    published (how it is settled: [malformed_acked]). *)
Theorem acked_answered body s :
  let '(st, s') := Consume body s in
  exists evs, ep_sent (rt_pub s') = (ep_sent (rt_pub s) ++ evs)%list
  /\ match decode body with
     | Ok (Some msg) =>
         match st with
         | Ack => exists pre p, evs = (pre ++ [p])%list /\ Forall (progress (nm_SessionKey msg)) pre
                  /\ about (nm_SessionKey msg) p /\ is_done p = true
         | Nack requeue => requeue = false /\ Forall (progress (nm_SessionKey msg)) evs
         end
     | Ok None => st = Ack /\ evs = []
     | Err _ => evs = []
     end.
Proof.
  unfold consume_one, handleDelivery, sbind, sret. destruct (decode body) as [[msg|]|e].
  - destruct (handle_emits msg s) as (evs & rs & H1 & _ & H3 & _). destruct (Handle msg s) as [[e|] s']; cbn in *;
      exists evs; by split.
  - exists []. by rewrite app_nil_r.
  - exists []. by rewrite app_nil_r.
Qed.

(** A body that does not decode is logged and acknowledged, although the comment of
    [handleDelivery] has it rejected. *)
Lemma malformed_acked body e s : decode body = Err e -> Consume body s = (Ack, s).
Proof. intros Hd. unfold consume_one, handleDelivery, sbind, sret. by rewrite Hd. Qed.

(** The messages [handleCommand] answers. *)
Definition is_command (msg : NipperMessage) : bool :=
  has_prefix (command_text msg) "/"
  && existsb (String.eqb (to_lower fold (hd "" (split_n2 (command_text msg) " "))))
       ["/help"; "/new"; "/reset"; "/usage"; "/compact"; "/status"; "/persona"; "/setup"].

Lemma command_some msg st :
  fst (handleCommand env fold printable cfg reg show save_fails ctx msg st) = None <-> is_command msg = false.
Proof.
  unfold handleCommand, is_command. destruct (has_prefix _ "/"); [|by simpl].
  set (c := to_lower fold _). cbn [negb andb existsb].
  destruct (c =? "/help")%string; [done|]. destruct (c =? "/new")%string, (c =? "/reset")%string; try
    (cbn [orb]; unfold sbind; by destruct (cmdNewSession _ _ _ _ _ st)). cbn [orb].
  destruct (c =? "/usage")%string; [unfold sbind; by destruct (cmdUsage _ _ st)|].
  destruct (c =? "/compact")%string; [unfold sbind; by destruct (cmdCompact _ _ _ _ st)|].
  destruct (c =? "/status")%string; [unfold sbind; by destruct (cmdStatus _ _ _ _ st)|].
  destruct (c =? "/persona")%string; [unfold sbind; by destruct (cmdPersona _ _ st)|].
  destruct (c =? "/setup")%string; [unfold sbind; by destruct (cmdSetup _ _ _ _ _ _ _ st)|]. done.
Qed.

(** A message makes the agent ask the model at most four times: three attempts,
    and once more when a picture is refused; a command never does. *)
Lemma model_bounded msg s :
  let s' := snd (Handle msg s) in
  exists rs, rt_requests s' = (rt_requests s ++ rs)%list
  /\ (length rs <= if is_command msg then 0 else 4)%nat.
Proof.
  cbn zeta. destruct (is_command msg) eqn:Ec.
  2:{ destruct (handle_emits msg s) as (evs & rs & _ & H2 & _ & H4). by exists rs. }
  assert (Hc : forall st, match fst (handleCommand env fold printable cfg reg show save_fails ctx msg st) with
                          | Some r => cm_Handled r = true | None => False end).
  { intros st. destruct (command_handled env fold printable cfg reg show save_fails ctx msg st) as [_ Hh].
    destruct (fst (handleCommand _ _ _ _ _ _ _ _ msg st)) as [r|] eqn:E; [by apply Hh|].
    apply command_some in E. congruence. }
  cut (emits (Handle msg : A (option string)) (fun _ _ n => n = O)).
  { intros H0. destruct (H0 s) as (evs & rs & _ & H2 & H3). exists rs. by rewrite H3. }
  unfold handleMessage. apply emits_after; [unfold fresh_run; silence|]. intros _.
  apply emits_after; [apply silent_sessions|]. intros t. eapply emits_bind; [exact (emits_kept _ (fun x => match x with Some r => cm_Handled r = true | None => False end) Hc)|].
  intros [r|] evs n [[-> ->] Hr]; [rewrite Hr|done]. apply emits_after; [apply silent_sessions|]. intros id.
  eapply emits_weaken; [by apply (answer_emits _ (nm_SessionKey msg))|]. by intros e evs n [_ ?].
Qed.

(** A message whose session key is not one gets no answer and no error event,
    though the code means to take such a key for a session id. *)
Lemma bare_key_unanswered msg s e :
  is_command msg = false -> ParseSessionKey (nm_SessionKey msg) = Err e ->
  let '(r, s') := Handle msg s in
  r = Some ("loading session: get session: " +:+ show (EWrap "GetSession" (EKey e)))
  /\ ep_sent (rt_pub s') = ep_sent (rt_pub s).
Proof.
  intros Hc He. unfold handleMessage, now, sessions, kept, store, fresh_run, set_tokens, set_calls, smodify, sbind.
  cbn [exec rt_store]. destruct (do_call env Now _) as [t w]. cbn [rt_store].
  match goal with |- context [handleCommand _ _ _ _ _ _ _ _ msg ?st] =>
    pose proof (proj2 (command_some msg st) Hc) as Hn; destruct (handleCommand _ _ _ _ _ _ _ _ msg st) as [c st']
  end.
  cbn [fst] in Hn. subst c. unfold converse, loadOrCreateSession, sessions, kept, store, GetSession, sbind.
  rewrite He. cbn. done.
Qed.
End agent.
