(* ===== verification/AgentTurn.v ===== *)
(** * Saving a turn of the conversation

    What the agent appends to the transcript after an answer is what the model
    is shown as history with the next message.  The second part has concrete runs of
    the agent, without MCP tools, skills and pictures, over an empty disk or a session
    with some history, and what the gateway makes of its events. *)
From Stdlib Require Import ZArith Lia Bool Ascii String List.
From Corelib Require Import SpecFloat.
From stdpp Require Import base gmap strings option list.
From S2P Require Import Prelude GoString GoTime GoFloat SessionKey Models Registry Dispatcher Queue Register AgentText.
From S2P Require Import ToolDedup Usage SessionTypes SessionFs SessionLock SessionStore Compaction Profile Convert.
From S2P Require Import Enrich Skills ToolMatch Prompt EventPublisher Commands Agent AgentProofs.

Local Open Scope string_scope.
Local Open Scope Z_scope.

Section turn.
Context `{StoreConfig}.
Variable env : Env.
Hypothesis lag_pos : forall n, 0 <= env_lag env n.
Hypothesis fuel_enough : (103 <= lock_fuel)%nat.

(** A session nobody else works on: its directory exists, the lock is free, and
    no temporary file of the lock is left. *)
Record free_session (w : World) (u s : string) : Prop := {
  fr_dir : sessionsDir u ∈ fs_dirs (w_fs w);
  fr_lock : lockPath u s ∉ fs_dirs (w_fs w);
  fr_transcript : transcriptPath u s ∉ fs_dirs (w_fs w);
  fr_free : file_at w (lockPath u s) = None;
  fr_tmp : forall n, file_at w (tmp_path (lockPath u s) (env_hex env n)) = None
             /\ tmp_path (lockPath u s) (env_hex env n) ∉ fs_dirs (w_fs w) }.

Lemma free_session_dir w u s : free_session w u s -> session_dir env w u s.
Proof. intros [H1 H2 H3 _ H5]. split; [done..|]. apply H5. Qed.

(** An append to a free session succeeds and leaves it free. *)
Lemma append_free key kp l w :
  ParseSessionKey key = Ok kp -> lacks "/" (kp_session kp) = true ->
  free_session w (kp_user kp) (kp_session kp) ->
  let T := transcriptPath (kp_user kp) (kp_session kp) in
  let w' := snd (exec env (AppendTranscript key l) w) in
  free_session w' (kp_user kp) (kp_session kp)
  /\ lines_at w' T = (lines_at w T ++ [encode_line l])%list /\ file_at w' T <> None.
Proof.
  intros Hk Hs Hf T w'. pose proof (append_spec env lag_pos fuel_enough key kp l w Hk Hs (free_session_dir _ _ _ Hf)) as Ho.
  fold w' in Ho. destruct Ho as [Hd Ho]. destruct (fst (exec env (AppendTranscript key l) w)) as [[]|e].
  2:{ destruct Ho as [_ []]. apply Hf. }
  destruct Ho as (Hl & Hx & Hfree & Hfr). destruct kp as [u c s]. cbn [kp_user kp_session] in *. fold T in Hl, Hx, Hfr.
  split; [|by split]. destruct Hf as [H1 H2 H3 H4 H5]. split; rewrite ?Hd; try done.
  intros n. destruct (H5 n) as [H6 H7]. split; [|done]. rewrite Hfr; [done|..].
  - intros He. apply (T_not_lock u s Hs). fold T. rewrite <- He. right. by eexists.
  - apply tmp_path_neq. by rewrite lock_eq.
Qed.

Lemma free_later w u s c : reads_only c = true ->
  free_session w u s -> free_session (snd (do_call (X := Z) env c w)) u s.
Proof.
  intros Hc [H1 H2 H3 H4 H5]. destruct (do_call_reads env lag_pos c w Hc) as [Hfs _].
  unfold file_at in *. split; unfold file_at; rewrite ?Hfs; done.
Qed.

Lemma lines_same w w' p : file_at w' p = file_at w p -> lines_at w' p = lines_at w p.
Proof. unfold lines_at. by intros ->. Qed.

(** The clock only moves time. *)
Lemma now_same w : let w' := snd (do_call env Now w) in
  (forall q, file_at w' q = file_at w q) /\ forall u s, free_session w u s -> free_session w' u s.
Proof.
  split; [|intros u s; by apply free_later]. intros q.
  destruct (do_call_reads env lag_pos Now w eq_refl) as [Hfs _]. unfold file_at. by rewrite Hfs.
Qed.

Definition too_long : error := EText "LoadTranscript: scan: token too long".

Lemma load_appended key kp w w' ls l1 l2 :
  ParseSessionKey key = Ok kp ->
  let T := transcriptPath (kp_user kp) (kp_session kp) in
  scan_lines (lines_at w T) = Some ls ->
  lines_at w' T = (lines_at w T ++ [encode_line l1; encode_line l2])%list -> file_at w' T <> None ->
  fst (exec env (LoadTranscript key) w')
  = if (line_size l1 <? max_line) && (line_size l2 <? max_line) then Ok (ls ++ [l1; l2])%list else Err too_long.
Proof.
  intros Hk T Hs Hl Hx. rewrite (exec_load env key kp) by done. fold T. unfold lines_at in Hl at 1. unfold file_at in Hl at 1, Hx.
  unfold fs_read. destruct (fs_files (w_fs w') !! T) as [f|]; [|done]. rewrite Hl.
  change [encode_line l1; encode_line l2] with ([encode_line l1] ++ [encode_line l2])%list.
  rewrite app_assoc. pose proof (scan_lines_app fuel_enough _ l1 _ Hs) as H1.
  destruct (line_size l1 <? max_line) eqn:E1; cbn [andb].
  - rewrite (scan_lines_app fuel_enough _ l2 _ H1). destruct (line_size l2 <? max_line); [|done]. by rewrite <- app_assoc.
  - assert (Hn : forall a b, scan_lines a = None -> scan_lines (a ++ b) = None).
    { induction a as [|x a IH]; intros b; [done|]. cbn [scan_lines app]. destruct (max_line <=? rl_size x); [done|].
      destruct (scan_lines a); [done|]. intros _. by rewrite IH. }
    by rewrite Hn.
Qed.

(** C20: Saving a turn in a session nobody else works on appends the user's line and
    then the model's, with the same run, and the next message's history is the
    one before followed by the turn; a line of 10 MiB or more makes the
    transcript unreadable. *)
Theorem turn_saved sess kp userText role text runID w ls :
  ParseSessionKey (se_Key sess) = Ok kp -> lacks "/" (kp_session kp) = true ->
  free_session w (kp_user kp) (kp_session kp) ->
  fst (exec env (LoadTranscript (se_Key sess)) w) = Ok ls
    \/ fst (exec env (LoadTranscript (se_Key sess)) w) = Err ESessionNotFound /\ ls = [] ->
  let w' := snd (exec env (save_turn sess userText role text runID) w) in
  exists t1 t2,
    let asked := turn_line RoleUser userText runID t1 in
    let said := turn_line role text runID t2 in
    fst (exec env (LoadTranscript (se_Key sess)) w')
    = (if (line_size asked <? max_line) && (line_size said <? max_line) then Ok (ls ++ [asked; said])%list
       else Err too_long)
    /\ TranscriptLinesToEinoMessages (ls ++ [asked; said])
       = (TranscriptLinesToEinoMessages ls ++ text_message RoleUser userText
            :: (if known_role role then [text_message role text] else []))%list.
Proof.
  intros Hk Hs Hf Hls w'. apply (load_lines env _ kp) in Hls; [|done|apply Hf].
  set (T := transcriptPath (kp_user kp) (kp_session kp)) in *.
  subst w'. unfold save_turn. cbn [exec].
  pose proof (now_same w) as [Hn Hfn]. destruct (do_call env Now w) as [t1 w1]. cbn [snd] in *. apply Hfn in Hf.
  set (l1 := turn_line RoleUser userText runID t1). rewrite exec_bind.
  destruct (append_free _ _ l1 w1 Hk Hs Hf) as (Hf2 & Hl2 & Hx2). fold T in Hl2, Hx2.
  destruct (exec env (AppendTranscript _ l1) w1) as [r1 w2]. cbn [fst snd exec] in *.
  pose proof (now_same w2) as [Hn3 Hfn3]. destruct (do_call env Now w2) as [t2 w3]. cbn [snd] in *. apply Hfn3 in Hf2.
  set (l2 := turn_line role text runID t2). rewrite exec_bind.
  destruct (append_free _ _ l2 w3 Hk Hs Hf2) as (Hf4 & Hl4 & Hx4). fold T in Hl4, Hx4.
  destruct (exec env (AppendTranscript _ l2) w3) as [r2 w4]. cbn [fst snd exec] in *.
  pose proof (now_same w4) as [Hn5 _]. destruct (do_call env Now w4) as [t3 w5]. cbn [snd] in *.
  rewrite exec_bind. set (meta := counted_meta _ _).
  pose proof (exec_frame env (meta_files (kp_user kp) (kp_session kp)) _ w5 T
    (writes_update_meta _ kp meta Hk) (T_not_meta _ _ Hs)) as Hm.
  destruct (exec env (UpdateMeta _ meta) w5) as [r3 w6]. cbn [fst snd exec] in *.
  exists t1, t2. split.
  - apply (load_appended _ kp w); [done|done| |fold T; congruence]. fold T.
    rewrite (lines_same _ _ _ Hm), (lines_same _ _ _ (Hn5 T)), Hl4, (lines_same _ _ _ (Hn3 T)), Hl2,
      (lines_same _ _ _ (Hn T)), <- app_assoc. done.
  - unfold TranscriptLinesToEinoMessages. rewrite List.filter_app, map_app. f_equal.
    cbn [List.filter l1 l2 turn_line tl_Role]. change (known_role RoleUser) with true. cbn iota.
    by destruct (known_role role).
Qed.
End turn.

(** ** Concrete runs of the agent *)
#[local] Existing Instance demo_store.

Definition demo_config : AgentRuntimeConfig := {|
  ac_BasePath := "/data";
  ac_Inference := Build_InferenceConfig "openai" "gpt" false;
  ac_Prompt := Build_PromptConfig "" 0 0;
  Prompt.ac_Tools := Build_AgentToolsConfig false false false false false false |}.

Definition demo_message (key text : string) : NipperMessage :=
  Build_NipperMessage "m1" "" "u" key "slack" "" (Build_MessageContent text []) wa_dc None demo_noon "".

(** A runtime over a disk, whose broker works. *)
Definition demo_runtime (w : World) (usage : UsageTracker) : Runtime unit :=
  Build_Runtime (Build_AgentStore w ∅ (Some usage) ∅) false NewEventPublisher [] no_tokens ∅.

Definition demo_handle (window : Z) (generate : nat -> gen_request unit -> gen_answer)
    (msg : NipperMessage) (s : Runtime unit) : option string * Runtime unit :=
  handleMessage demo_env (fun r => r) (fun r => r) (fun _ => false) (fun _ => false) (fun _ => true)
    demo_config demo_reg window (fun _ => "error") (fun _ => None) None
    (fun _ => false) (fun _ => None) (fun _ => None) [] None None (fun _ _ _ => Ok []) None
    (fun s => s) (fun s => Ok s) (fun s => Ok s) (fun s => s) [] (fun _ _ => None) generate msg s.

Definition says (text : string) : gen_answer :=
  Build_gen_answer [] 0 (Ok (text_message RoleAssistant text)).

Definition events_of (r : option string * Runtime unit) : list NipperEvent := map ap_event (ep_sent (rt_pub (snd r))).
Definition types_of (r : option string * Runtime unit) : list string := map ev_Type (events_of r).

(** *** A turn *)

(** No name on the disk ends in [.tmp]. *)
Definition no_tmp (w : World) : bool :=
  forallb (fun p => negb (has_suffix (base_name p) ".tmp"))
    (map fst (map_to_list (fs_files (w_fs w))) ++ elements (fs_dirs (w_fs w))).

Lemma no_tmp_free w u s n : no_tmp w = true -> lacks "/" s = true ->
  let q := tmp_path (lockPath u s) (env_hex demo_env n) in
  file_at w q = None /\ q ∉ fs_dirs (w_fs w).
Proof.
  intros Hn Hs q. unfold no_tmp in Hn. rewrite forallb_forall in Hn.
  assert (Hq : has_suffix (base_name q) ".tmp" = true).
  { unfold q, tmp_path. rewrite lock_eq, path_add_in_dir by done. unfold base_name, in_dir. cbn [snd hd].
    rewrite <- !str_app_assoc. apply has_suffix_app. }
  assert (Hx : forall p, In p (map fst (map_to_list (fs_files (w_fs w))) ++ elements (fs_dirs (w_fs w))) -> p <> q).
  { intros p Hin ->. specialize (Hn _ Hin). by rewrite Hq in Hn. }
  split.
  - unfold file_at. destruct (fs_files (w_fs w) !! q) as [f|] eqn:E; [|done]. exfalso. apply (Hx q); [|done].
    apply in_app_iff. left. apply in_map_iff. exists (q, f). split; [done|]. by apply list_elem_of_In, elem_of_map_to_list.
  - intros Hin. apply (Hx q); [|done]. apply in_app_iff. right. by apply list_elem_of_In, elem_of_elements.
Qed.

Definition demo_sess : Session := {|
  se_Key := demo_key; se_ID := "s"; se_UserID := "u"; se_ChannelType := "slack"; se_Status := StatusActive;
  se_Metadata := {| sm_Model := "m"; sm_CompactionLevel := ""; sm_CompactionCount := 0; sm_MessageCount := 2;
    sm_ContextUsage := no_usage; sm_LastActivityAt := demo_noon; sm_ChannelMeta := JNull |};
  se_CreatedAt := demo_noon; se_UpdatedAt := demo_noon |}.

Definition demo_turn : World :=
  snd (exec demo_env (save_turn demo_sess "c" "assistant" "d" "r1") (demo_session ["a"; "b"])).

Lemma turn_saved_witness :
  result_map (map tl_Content) (fst (exec demo_env (LoadTranscript demo_key) demo_turn)) = Ok ["a"; "b"; "c"; "d"]
  /\ exists t1 t2,
    let asked := turn_line "user" "c" "r1" t1 in
    let said := turn_line "assistant" "d" "r1" t2 in
    fst (exec demo_env (LoadTranscript demo_key) demo_turn)
    = if (line_size asked <? max_line) && (line_size said <? max_line)
      then Ok [demo_line "a"; demo_line "b"; asked; said] else Err too_long.
Proof.
  split; [vm_compute; reflexivity|].
  destruct (turn_saved (H := demo_store) demo_env demo_lag (le_n 103) demo_sess (KeyParts "u" "slack" "s")
    "c" "assistant" "d" "r1" (demo_session ["a"; "b"]) [demo_line "a"; demo_line "b"]) as (t1 & t2 & H1 & _).
  - reflexivity.
  - reflexivity.
  - split; try (apply (bool_decide_unpack _); vm_compute; exact I).
    intros n. apply no_tmp_free; vm_compute; reflexivity.
  - left. vm_compute. reflexivity.
  - exists t1, t2. exact H1.
Defined.

(** What the gateway delivers for the events of a message from WhatsApp. *)
Definition gateway_answers (key : string) (evs : list NipperEvent) : list answer :=
  delivered key (d_log (demo_run (DRegister key wa_dc None [] 0 :: map DEvent evs))).

Example plain_answer :
  let r := demo_handle 0 (fun _ _ => says "Hi there") (demo_message demo_key "hello") (demo_runtime demo_empty ∅) in
  fst r = None /\ types_of r = ["done"]
  /\ gateway_answers demo_key (events_of r) = [(wa_dc, None, "Hi there")].
Proof. vm_compute. done. Qed.

(** A tool that fails is reported as an [error] event, on which the gateway
    answers the user and forgets the delivery; the model's answer, which comes
    after it, is not delivered. *)
Example tool_error_answers :
  let generate _ _ := Build_gen_answer [CbToolStart 0 "web_fetch" "{}"; CbToolError 0 "timeout"] 0
                        (Ok (text_message RoleAssistant "Here is what I found")) in
  let r := demo_handle 0 generate (demo_message demo_key "look it up") (demo_runtime demo_empty ∅) in
  fst r = None /\ types_of r = ["tool_start"; "error"; "done"]
  /\ gateway_answers demo_key (events_of r) = [(wa_dc, None, "timeout")].
Proof. vm_compute. done. Qed.

(** Three failures: the user is told; no answer is saved. *)
Example three_failures :
  let generate _ _ := Build_gen_answer [] 0 (Err "connection refused") in
  let r := demo_handle 0 generate (demo_message demo_key "hello") (demo_runtime demo_empty ∅) in
  fst r = Some "agent generate after 3 attempts: connection refused" /\ types_of r = ["error"]
  /\ length (rt_requests (snd r)) = 3%nat
  /\ fst (exec demo_env (LoadTranscript demo_key) (st_world (rt_store (snd r)))) = Ok [].
Proof. vm_compute. done. Qed.

(** The metadata of a session: how often it was compacted, and its messages. *)
Definition counts (w : World) : option (Z * Z) :=
  match fst (exec demo_env (GetSession demo_key) w) with
  | Ok s => Some (sm_CompactionCount (se_Metadata s), sm_MessageCount (se_Metadata s))
  | Err _ => None
  end.

Definition demo_numbers (n : nat) : list string := map (fun i => fmt_d (Z.of_nat i)) (seq 0 n).

(** A full context: the last request had 900 of 1000 tokens. *)
Definition demo_full : UsageTracker :=
  Record_ (fun r => r) "gpt" 1000 [] demo_noon demo_key 900 50 900 NewUsageTracker.

(** The automatic compaction archives the transcript, and the metadata loaded
    before it then overwrites the counts it wrote: the compaction is not
    counted, and the message count is not that of the transcript. *)
Example compaction_uncounted :
  let w := demo_session (demo_numbers 24) in
  let r := demo_handle 1000 (fun _ _ => says "Fine") (demo_message demo_key "hello") (demo_runtime w demo_full) in
  let w' := st_world (rt_store (snd r)) in
  fst r = None
  /\ result_map (fun l => length l) (fst (exec demo_env (LoadTranscript demo_key) w')) = Ok 22%nat
  /\ counts w = Some (0, 0) /\ counts w' = Some (0, 2)
  /\ map (fun e => match ev_Delta e with Some d => str_contains (ed_Text d) "Archived 4 messages" | None => false end)
       (events_of r) = [true].
Proof. vm_compute. done. Qed.

(** [/new] while another process holds the session's lock: the archive fails, and
    the reply says that the history was archived all the same. *)
Example new_keeps_history :
  let w := demo_session ["a"; "b"] in
  let held := with_fs w (set_file (lockPath "u" "s")
    (File (FLock (Build_lockContent 9 (format_nano (w_now w)) "u")) (w_now w)) (w_fs w)) in
  let r := demo_handle 0 (fun _ _ => says "") (demo_message demo_key "/new") (demo_runtime held ∅) in
  fst r = None
  /\ map (fun e => match ev_Delta e with Some d => ed_Text d | None => "" end) (events_of r)
     = ["Session cleared. Starting fresh. Your conversation history has been archived."]
  /\ result_map (map tl_Content) (fst (exec demo_env (LoadTranscript demo_key) (st_world (rt_store (snd r)))))
     = Ok ["a"; "b"].
Proof. vm_compute. done. Qed.
